(* ===== verification/_CoqProject ===== *)
-Q . S2P
Prelude.v
GoStrings.v
Encodings.v
Errors.v
Repository.v
Digest.v
GoNumbers.v
Manifest.v
Scope.v
Auth.v
Access.v
AuthStore.v
PgStore.v
AuthService.v
AuthSteps.v
PgExample.v
AuthSafety.v
RegPorts.v
RegWorld.v
Registry.v
FsBlob.v
MetaStore.v
RegView.v
FsLaws.v
RegService.v
Signing.v
Gate.v
Gc.v
MetaLaws.v
MetaManifests.v
RegLaws.v
RegSteps.v
RegUploads.v
RegManifests.v
RegRequests.v
RegExample.v
RegSafety.v
RegRoundTrips.v
RegCollect.v
PolicyPorts.v
PolicyStore.v
PolicyLaws.v
FullLaws.v
PullGate.v
Overrides.v
Scans.v
GateLaws.v
PullExample.v
PullSafety.v
OverrideSafety.v
ScanSafety.v
Scheduler.v
Console.v
ConsoleQueries.v
Features.v
ConsoleSafety.v
FeatureSafety.v
Release.v
Http.v
Admin.v
HttpLaws.v
HttpSafety.v
Host.v
Runtimes.v
Scanners.v
ScannerLaws.v
ScannerSafety.v
RuntimeSafety.v
RuntimeScans.v
InstallPlan.v
Install.v
InstallLaws.v
UpgradeLaws.v
UpgradeRun.v
UninstallLaws.v
InstallRoundTrip.v
InstallSafety.v
