(* ===== verification/Prelude.v ===== *)
(** regixtry: a private OCI registry with its own users, garbage collection,
    vulnerability scans and signature policies.

    * The program and this development

    The program is an HTTP server (internal/protocol/http) over two services. The
    registry service (internal/app/regixtry) keeps manifests, tags and reports in
    a SQLite database and blobs in a directory tree; the auth service
    (internal/app/auth) keeps users, grants and tokens in PostgreSQL. Everything
    is modelled from the bottom up: domain types, store ports as type classes, the
    stores as implementations of those classes on tables and directory trees, the
    services over the classes, the HTTP handlers over the services. Beside the
    server stand the scanners it installs and runs, and the installer that sets it
    up; both work on a host of files, links and processes. A Go method is the
    definition of the same name; one that reads or writes its receiver's world is a
    function of the monad [M W] below, which returns the state after a failing call
    too.

    - Domain. [Errors], [Digest], [Repository], [Manifest]:
      internal/domain/regixtry. [Scope], [Auth], [Access]: internal/domain/auth and
      the access controllers of internal/ports/defaults.go. [Signing]:
      internal/domain/signing, with what makes its encodings unambiguous.
      [GoStrings], [GoNumbers] (instants and durations too), [Encodings] (base64,
      PEM, SHA-256) and the first half of [Repository] (regular expressions) hold
      what the code uses of Go's standard library.
    - Auth. [AuthStore] is the port with its laws, [PgStore] the PostgreSQL store
      and its proof that it keeps them, [AuthService] the service, [AuthSteps] the
      abstract machine of its tables, [AuthSafety] the theorems.
    - Registry. [RegPorts] has the two ports, [Registry] their abstract
      specification. [RegWorld] is the state of a process, its file system
      included; [FsBlob] and [MetaStore] are the stores
      (internal/infra/storage/fsblob, internal/infra/metadata/sqlite); [RegView],
      [FsLaws], [MetaLaws], [MetaManifests], [RegLaws] prove that they implement
      the specification. [RegService] and [Gc] are the service (service.go,
      queries.go, service_gc.go), [Gate] the gate that bounds concurrent runs.
      [RegSteps] has the abstract machine and the proof rules, [RegUploads],
      [RegManifests] and [RegRequests] what each request does, [RegSafety],
      [RegRoundTrips] and [RegCollect] the theorems.
    - Policies, signatures, scans. [PolicyPorts] has the port, [PolicyStore] its
      tables and statements, [PolicyLaws] and [FullLaws] its contract and the
      proof of it. [PullGate] is the pull with its two gates and the reports
      (service_signing.go, service_scanning.go, queries.go), [Overrides] the
      repository overrides, [Scans] the queueing and running of scans and the
      secret scan that runs beside each, [Scheduler] the periodic scans of several
      processes under one lease. [GateLaws] reads the gates as functions of the
      state; [PolicyLaws] also has the rules for handlers that write.
      [PullSafety], [OverrideSafety], [ScanSafety] and [Scheduler] have the
      theorems.
    - Console and features. The second halves of [PolicyPorts], [PolicyStore] and
      [FullLaws] are the part of the port behind the console's listings, its
      statements and its contract. [Console] has the listings, the details, the
      secret-scan report, the update channel and the use of a signing key
      (queries.go, service_scanning.go, service_update_channel.go,
      service_signing_key_usage.go), [Features] the feature registry and the
      runtimes of features (feature_registry.go, feature_runtime.go).
      [ConsoleQueries] reads them as functions of the state; [ConsoleSafety] and
      [FeatureSafety] have the theorems.
    - Releases. [Release] is the update client (internal/infra/release,
      internal/infra/install/releases/github.go): versions, channels, checksums,
      the verified download, and its theorems.
    - Scanners. [Host] is a machine: files, symbolic links, the programs that were
      run, the calls of the operating system and what they do. [Runtimes] installs,
      upgrades, switches and rolls back the scanners (runtime_manager.go and
      releases.go of internal/infra/scanning/trivy and gitleaks) and says what that
      does to files and links; [Scanners] runs them and reads what they print
      (runner.go, stage.go, report.go). [ScannerLaws] has the lemmas,
      [ScannerSafety] and [RuntimeSafety] the theorems; [RuntimeScans] joins the
      managers, the queueing of scans ([Scans]) and the runs in one transition
      system and has the theorem on what is run.
    - Installation. [InstallPlan] has the configuration, the plan, the documents
      written from a plan and the plan read back from them, [Install] the
      operations: setup, its rollback, removal, upgrade
      (internal/infra/install/linux). An upgrade runs over the host and the tables of
      the database it opens; what a call of the driver does to the files of the
      database is a parameter, confined to these files. [InstallLaws] has the judgement that a step
      loses nothing, [UpgradeLaws] and [UpgradeRun] the swap, the restoration and
      the whole upgrade, [UninstallLaws] what is removed, [InstallRoundTrip] the
      documents; [InstallSafety] has the theorems.
    - HTTP. [Http] has requests, responses, paths, the multiplexer and the mapping
      of errors, then the registry's routes and the token endpoint (router.go),
      [Admin] the administration and [ServeHTTP] (admin_handlers.go). A handler
      runs over the pair of the registry's world and the accounts' world.
      [HttpLaws] and [HttpSafety] have the lemmas and the theorems.
    - Concrete worlds for the witnesses: [PgExample], [RegExample], [PullExample],
      and the first parts of [ScannerSafety] and [InstallSafety].

    * What the theorems show

    - Refinement. Whatever driver, file system or runtime calls fail, an HTTP
      request changes the user, grant and token tables only by guarded transitions
      made as the principal of its live session, and a request to the registry's
      routes changes the abstract registry only by transitions that principal may
      make; the stores do to the abstract registry what their specification says.
    - Invariants of every sequence of requests: manifests are complete and keyed
      by their digest, blobs hash to their name, an active administrator remains,
      tokens stay short-lived, stored overrides stay usable, a digest has at most
      one active scan run.
    - Authority. Who may do nothing changes nothing; delegates do not escalate; the
      administration serves administrators; a disabled user or a revoked token is
      worth nothing; a pull that succeeds passed both gates, and the reports agree
      with the gates; a secret scan never changes what can be pulled.
    - The protocol. A response has the status 401 exactly when it carries a
      challenge; the locations handed out lead back; the token of a login opens
      the registry until the instant it was announced to expire, and not after.
    - Scanners. Only binaries below the registry's own storage root are run, although
      the guard before each run looks at less; what becomes active passed its
      checksum, the bytes and the sum being those the server sent for the release,
      and its health check; a failed activation leaves the old one active where no
      call of the host or the store fails; a secret scan removes the copies it made,
      and for an image with one configuration it copies what the registry stores and
      names the blob a finding is in; the counts of a scan are those of its list.
    - Installation. An upgrade that fails loses no file; it starts the service
      again, or says that a restoration failed, or that the service could not be
      stopped, which it does not undo. Its import of legacy settings comes first and
      stays. One that succeeds has installed a verified
      binary of the release it resolved, and keeps the configuration. A setup whose
      service does not start is taken back; an uninstall removes what was recorded,
      nothing else, and reports what is so. Waiting for the service ends.
    - Updates. Versions are totally ordered, a channel offers the newest release it
      considers, and a download is what the release's checksum file says it is.
    - Round trips and exact results, in a world where nothing fails: uploads,
      publish and resolve, deletion, listings, garbage reports and deletions,
      logins, overrides, the first scan of a digest.

    Theorems about what cannot happen are proved with every external call free to
    fail; a failing call leaves what its specification's slack allows. Theorems
    that name a result assume a calm world ([reg_calm]).

    * The judgements

    A handler is run against the stores' contract, never against their code.
    [RegSteps] has one rule per kind of store call for the registry's handlers. A
    handler that only looks [observes] a function of the state ([PolicyLaws]); a
    handler that writes the policy tables is described by [runs] ([PolicyLaws]).
    On a host, [keeps] says that a step leaves a part of it alone and [confined]
    that it changes nothing outside a directory ([Host]); [safe] says that no
    file is lost but those that are named ([InstallLaws]).

    * What is a parameter

    Code that is not in the repository is a class or a section variable:
    [UnicodeTables] (the case tables of non-ASCII letters), [ManifestCodec],
    [SigningCodec] and [OverrideCodec] (encoding/json on the documents the code
    reads), [KeyCrypto] (crypto/x509, crypto/ecdsa), [Sigstore] (sigstore-go),
    [Regexps] (regexp.Compile of an administrator's pattern), [NetAddresses]
    (net and net/url), [ScanRunner] and [SecretScanRunner] (the scanner
    processes), [AdminJSON] (encoding/json on the administration's payloads),
    [WebClient] and [Archives] (HTTP answers, JSON and tar archives of the update
    client), [ScannerOutput] and [ReceiptText] (encoding/json on what scanners
    print and on receipts), [InstallText] (net/url, the JSON of the installer's
    documents, strconv.Unquote of text that is not ASCII), and the managers of
    feature runtimes, a record of operations. [HostEnv] and [InstallEnv] are what a
    machine answers: faults, what a removal that fails has removed, the clock, the
    web, a scanner, systemctl, the service, the database driver.
    [RegEnv], [FullEnv] and [AuthEnv] are what a process draws from outside: the
    clock, identifiers, randomness, bcrypt, and which external call fails and how,
    indexed by the number of calls made so far. Their laws ([RegEnvLaws],
    [FullEnvLaws], [AuthEnvLaws], [OverrideCodecLaws], [ScanRunnerLaws]) say what
    the code relies on: fresh identifiers, an encoding that decodes to what was
    encoded.

    * Bounds and fuel

    No definition runs on fuel that a run can exhaust, with two exceptions that the
    program has too: a path is followed through at most 40 links, as Linux does
    ([max_links]), and the service is looked at for five seconds, five times a
    second, so that 26 further looks are enough ([max_polls]; [waiting_ends] proves
    it). Otherwise recursion is on the list
    processed, on the string read (its length is the measure where a step drops
    more than one byte), or on the number of attempts the code itself bounds.
    SHA-256 works on 32-bit words as [Z] with the wrap-around written out; sizes
    and counts are [Z], since a Go [int64] byte count never reaches its bound.
    Instants and durations are nanoseconds in [Z].

    * Order and interleaving

    Requests follow one another; a handler is atomic. Where the program relies on
    interleaving it is modelled: the workers at the run gate ([Gate]), the two
    steps of a scan worker between other handlers ([scan_history] in
    [ScanSafety]), and the turns of the schedulers' processes ([Scheduler], where
    the two halves of an acquisition are also run apart). A goroutine that a
    handler starts is part of its result.

    * Not modelled

    - The terminal console (internal/tui): its state is what is drawn, its rules are
      those of the services it calls, and it depends on the text of a terminal
      library for nearly every step. Its client of the administration
      (admin_client.go) does nothing but encode requests and decode answers, on
      values that are parameters here.
    - The command line (cmd/regixtry): flags, prompts and the wiring of the parts;
      only the end of setup, which joins installation and record, is modelled.
    - The installer for docker compose (internal/infra/install/compose): it renders
      one file from a template and runs docker.
    - Of hosts: permissions and owners of files, progress reports, and the names
      systemctl gives its failures.
    - Of the HTTP layer: the request log, the JSON text of a response (its value is
      kept) and what net/http does below a handler.
    - Of the registry service: the health check. Of the metadata store: opening the
      database and migrating its schema, which bring an older database to the tables
      of [MetaDB]; for an upgrade they are a change of the database's files.
    - While the service of an installation runs it may write its own files; a host
      changes only by the calls of the operation that runs.
    - Error texts of third-party code, which are opaque strings. *)
From Stdlib Require Export ZArith Lia Ascii String.
From stdpp Require Export base tactics option list strings gmap fin_maps fin_sets sorting.

#[global] Open Scope string_scope.
#[global] Open Scope list_scope.
#[global] Open Scope Z_scope.
#[global] Arguments String.append : simpl nomatch.

(** * Results and the state-and-error monad

    A Go function returning [(T, error)] is a [result]; a Go method that also
    reads or writes the world behind its receiver is an [ST]: the state after the
    call is returned on the error path too, because a failing Go call keeps the
    writes it already made. *)

Inductive result (E A : Type) : Type :=
  | Ok (a : A)
  | Err (e : E).
Arguments Ok {E A} a.
Arguments Err {E A} e.

Definition ST (E S A : Type) : Type := S → result E A * S.

Section Monad.
Context {E S : Type}.

Definition rbind {A B} (m : result E A) (k : A → result E B) : result E B :=
  match m with Ok a => k a | Err e => Err e end.

Definition sret {A} (a : A) : ST E S A := λ s, (Ok a, s).
Definition sthrow {A} (e : E) : ST E S A := λ s, (Err e, s).
Definition slift {A} (r : result E A) : ST E S A := λ s, (r, s).
Definition sbind {A B} (m : ST E S A) (k : A → ST E S B) : ST E S B :=
  λ s, match m s with
       | (Ok a, s') => k a s'
       | (Err e, s') => (Err e, s')
       end.
(** [x, err := m()] with [err] inspected by the caller. *)
Definition sattempt {A} (m : ST E S A) : ST E S (result E A) :=
  λ s, let '(r, s') := m s in (Ok r, s').
Definition sget : ST E S S := λ s, (Ok s, s).
Definition sgets {A} (f : S → A) : ST E S A := λ s, (Ok (f s), s).
Definition sput (s' : S) : ST E S unit := λ _, (Ok tt, s').
Definition smodify (f : S → S) : ST E S unit := λ s, (Ok tt, f s).

(** [for _, x := range l { y, err := f(x); if err != nil { return err } }] *)
Fixpoint smap {A B} (f : A → ST E S B) (l : list A) : ST E S (list B) :=
  match l with
  | [] => sret []
  | x :: l' => sbind (f x) (λ y, sbind (smap f l') (λ ys, sret (y :: ys)))
  end.

(** The same loop over a pure fallible body. *)
Fixpoint rmap {A B} (f : A → result E B) (l : list A) : result E (list B) :=
  match l with
  | [] => Ok []
  | x :: l' => rbind (f x) (λ y, rbind (rmap f l') (λ ys, Ok (y :: ys)))
  end.

(** The partial-correctness triple of an [ST] computation: the postcondition
    sees the outcome, [Ok] or [Err], and the state left behind. *)
Definition triple {A} (P : S → Prop) (m : ST E S A)
    (Q : result E A → S → Prop) : Prop :=
  ∀ s, P s → Q (m s).1 (m s).2.
End Monad.

(** The weakest precondition of a run from one state; the proofs about handlers
    execute them symbolically with it. *)
Definition wp {E S A} (m : ST E S A) (Q : result E A → S → Prop) (s : S) : Prop :=
  Q (m s).1 (m s).2.

Declare Scope go_scope.
Delimit Scope go_scope with go.
Notation "'let!' x ':=' m 'in' k" := (sbind m (λ x, k))
  (at level 10, x binder, m at level 100, k at level 200) : go_scope.
Notation "'do!' m 'in' k" := (sbind m (λ _, k))
  (at level 10, m at level 100, k at level 200) : go_scope.
Notation "'let?' x ':=' m 'in' k" := (rbind m (λ x, k))
  (at level 10, x binder, m at level 100, k at level 200) : go_scope.
Notation "'do?' m 'in' k" := (rbind m (λ _, k))
  (at level 10, m at level 100, k at level 200) : go_scope.
#[global] Open Scope go_scope.

Definition is_ok {E A} (r : result E A) : bool :=
  match r with Ok _ => true | Err _ => false end.

(** Go's [if cond { return err }]. *)
Definition rguard {E} (b : bool) (e : E) : result E unit := if b then Ok tt else Err e.

(** ** Sorted output of an ORDER BY or a sort.Slice over string keys *)

Definition str_leb (s t : string) : bool := String.leb s t.
Definition str_le (s t : string) : Prop := str_leb s t = true.
#[global] Instance str_le_dec s t : Decision (str_le s t).
Proof. unfold str_le; apply _. Defined.

Definition key_le {A} (key : A → string) (x y : A) : Prop := str_le (key x) (key y).
#[global] Instance key_le_dec {A} (key : A → string) x y : Decision (key_le key x y).
Proof. unfold key_le; apply _. Defined.

Definition sort_by {A} (key : A → string) (l : list A) : list A :=
  merge_sort (key_le key) l.

(** * Tactics *)

(** Case analysis on the scrutinee of a [match] or the condition of an [if]. *)
Ltac case_match_step :=
  match goal with
  | |- context [match ?x with _ => _ end] => destruct x eqn:?
  | H : context [match ?x with _ => _ end] |- _ => destruct x eqn:?
  end.

Ltac bool_prop :=
  repeat match goal with
  | H : _ && _ = true |- _ => apply andb_true_iff in H as [? ?]
  | H : _ || _ = false |- _ => apply orb_false_iff in H as [? ?]
  | H : negb _ = true |- _ => apply negb_true_iff in H
  | H : negb _ = false |- _ => apply negb_false_iff in H
  | H : bool_decide _ = true |- _ => apply bool_decide_eq_true in H
  | H : bool_decide _ = false |- _ => apply bool_decide_eq_false in H
  | H : String.eqb _ _ = true |- _ => apply String.eqb_eq in H
  | H : String.eqb _ _ = false |- _ => apply String.eqb_neq in H
  end.

(** Turn an equation between results into an equation between their contents. *)
Ltac inv_result :=
  repeat match goal with
  | H : Ok _ = Ok _ |- _ => injection H as H; try subst
  | H : Err _ = Err _ |- _ => injection H as H; try subst
  | H : Ok _ = Err _ |- _ => discriminate H
  | H : Err _ = Ok _ |- _ => discriminate H
  | H : (_, _) = (_, _) |- _ => injection H as H; try subst
  end.

(** * Lemmas of the monad *)

Create HintDb go discriminated.

Section MonadLemmas.
Context {E S : Type}.
Implicit Types s : S.

Lemma rbind_ok {A B} (m : result E A) (k : A → result E B) b :
  rbind m k = Ok b ↔ ∃ a, m = Ok a ∧ k a = Ok b.
Proof. destruct m; simpl; naive_solver. Qed.

Lemma rbind_err {A B} (m : result E A) (k : A → result E B) e :
  rbind m k = Err e ↔ m = Err e ∨ ∃ a, m = Ok a ∧ k a = Err e.
Proof. destruct m; simpl; naive_solver. Qed.

Lemma rguard_ok b (e : E) u : rguard b e = Ok u ↔ b = true.
Proof. destruct b, u; simpl; naive_solver. Qed.

Lemma sbind_run {A B} (m : ST E S A) (k : A → ST E S B) s r s' :
  m s = (r, s') →
  sbind m k s = match r with Ok a => k a s' | Err e => (Err e, s') end.
Proof. intros H; unfold sbind; rewrite H; by destruct r. Qed.

Lemma rmap_ok {A B} (f : A → result E B) l l' :
  rmap f l = Ok l' ↔ Forall2 (λ x y, f x = Ok y) l l'.
Proof.
  revert l'; induction l as [|x l IH]; intros l'; simpl.
  - split; [intros [= <-]; constructor | by inversion 1].
  - rewrite rbind_ok; setoid_rewrite rbind_ok; split.
    + intros (y & Hy & ys & Hys & [= <-]); constructor; [done|by apply IH].
    + inversion 1; subst; eexists; split; [done|]; eexists; split; [by apply IH|done].
Qed.

Lemma wp_sret {A} (a : A) (Q : result E A → S → Prop) s : Q (Ok a) s → wp (sret a) Q s.
Proof. done. Qed.

Lemma wp_sthrow {A} e (Q : result E A → S → Prop) s : Q (Err e) s → wp (sthrow e) Q s.
Proof. done. Qed.

Lemma wp_slift {A} r (Q : result E A → S → Prop) s : Q r s → wp (slift r) Q s.
Proof. done. Qed.

Lemma wp_sbind {A B} (m : ST E S A) (k : A → ST E S B) Q s :
  wp m (λ r s', match r with Ok a => wp (k a) Q s' | Err e => Q (Err e) s' end) s →
  wp (sbind m k) Q s.
Proof. unfold wp, sbind; by destruct (m s) as [[a|e] s']. Qed.

Lemma wp_sattempt {A} (m : ST E S A) Q s :
  wp m (λ r s', Q (Ok r) s') s → wp (sattempt m) Q s.
Proof. unfold wp, sattempt; by destruct (m s). Qed.

Lemma wp_conseq {A} (m : ST E S A) (Q Q' : result E A → S → Prop) s :
  wp m Q s → (∀ r s', Q r s' → Q' r s') → wp m Q' s.
Proof. unfold wp; auto. Qed.

(** A loop keeps an invariant that its body keeps. *)
Lemma wp_smap {A B} (f : A → ST E S B) (I : S → Prop) l (Q : result E (list B) → S → Prop) s :
  I s →
  (∀ x s', x ∈ l → I s' → wp (f x) (λ _ s'', I s'') s') →
  (∀ r s', I s' → Q r s') →
  wp (smap f l) Q s.
Proof.
  revert Q s; induction l as [|x l IH]; intros Q s Hs Hf HQ; simpl; [by apply HQ|].
  apply wp_sbind; eapply wp_conseq; [apply (Hf x s); [left|done]|].
  intros [y|e] s' Hs'; [|by apply HQ].
  apply wp_sbind, IH; [done|intros; apply Hf; [by right|done]|].
  intros [ys|e] s'' Hs''; by apply HQ.
Qed.

Lemma triple_conseq {A} (P P' : S → Prop) (m : ST E S A) (Q Q' : result E A → S → Prop) :
  triple P' m Q' → (∀ s, P s → P' s) → (∀ r s, Q' r s → Q r s) → triple P m Q.
Proof. unfold triple; naive_solver. Qed.

Lemma triple_ret {A} (a : A) (Q : result E A → S → Prop) :
  triple (Q (Ok a)) (sret a) Q.
Proof. by intros s Hs. Qed.

Lemma triple_bind {A B} (P : S → Prop) (m : ST E S A) (k : A → ST E S B) R Q :
  triple P m R →
  (∀ a, triple (R (Ok a)) (k a) Q) →
  (∀ e s, R (Err e) s → Q (Err e) s) →
  triple P (sbind m k) Q.
Proof.
  intros Hm Hk He s Hs; specialize (Hm s Hs); unfold sbind.
  destruct (m s) as [[a|e] s']; simpl in *; [by apply Hk|by apply He].
Qed.
End MonadLemmas.

#[export] Hint Resolve triple_ret : go.

(** ** Order lemmas *)

Lemma str_leb_refl s : str_leb s s = true.
Proof.
  unfold str_leb, String.leb.
  destruct (String.compare s s) eqn:Hc; try done.
  pose proof (String.compare_antisym s s) as Ha; rewrite Hc in Ha; done.
Qed.

Lemma str_le_total s t : str_le s t ∨ str_le t s.
Proof.
  unfold str_le, str_leb.
  destruct (String.leb_total s t); auto.
Qed.

Lemma str_le_antisym s t : str_le s t → str_le t s → s = t.
Proof. unfold str_le, str_leb; apply String.leb_antisym. Qed.

Lemma ascii_compare_trans a b c r :
  Ascii.compare a b = r → Ascii.compare b c = r → Ascii.compare a c = r.
Proof.
  unfold Ascii.compare; destruct r;
    rewrite ?N.compare_eq_iff, ?N.compare_lt_iff, ?N.compare_gt_iff; lia || congruence.
Qed.

Lemma ascii_compare_eq a b : Ascii.compare a b = Eq → a = b.
Proof.
  unfold Ascii.compare; rewrite N.compare_eq_iff; intros H.
  by rewrite <- (ascii_N_embedding a), <- (ascii_N_embedding b), H.
Qed.

Lemma ascii_compare_refl a : Ascii.compare a a = Eq.
Proof. unfold Ascii.compare; apply N.compare_refl. Qed.

Lemma str_compare_lt_trans s t u :
  String.compare s t = Lt → String.compare t u = Lt → String.compare s u = Lt.
Proof.
  revert t u; induction s as [|a s IH]; intros [|b t] [|c u]; simpl; try done.
  destruct (Ascii.compare a b) eqn:Hab, (Ascii.compare b c) eqn:Hbc; try done; intros H1 H2.
  - apply ascii_compare_eq in Hab as ->; apply ascii_compare_eq in Hbc as ->.
    rewrite ascii_compare_refl; by eapply IH.
  - apply ascii_compare_eq in Hab as ->; by rewrite Hbc.
  - apply ascii_compare_eq in Hbc as <-; by rewrite Hab.
  - by rewrite (ascii_compare_trans a b c Lt).
Qed.

Lemma str_le_spec s t : str_le s t ↔ s = t ∨ String.compare s t = Lt.
Proof.
  unfold str_le, str_leb, String.leb.
  destruct (String.compare s t) eqn:Hc; split; try naive_solver.
  - apply String.compare_eq_iff in Hc; auto.
  - intros [->|]; [|done].
    pose proof (String.compare_antisym t t) as Ha; rewrite Hc in Ha; done.
Qed.

Lemma str_le_trans s t u : str_le s t → str_le t u → str_le s u.
Proof.
  rewrite !str_le_spec; intros [->|H1] [->|H2]; eauto using str_compare_lt_trans.
Qed.

#[global] Instance key_le_trans {A} (key : A → string) : Transitive (key_le key).
Proof. intros x y z; apply str_le_trans. Qed.
#[global] Instance key_le_total {A} (key : A → string) : Total (key_le key).
Proof. intros x y; apply str_le_total. Qed.

Lemma sort_by_perm {A} (key : A → string) l : sort_by key l ≡ₚ l.
Proof. apply merge_sort_Permutation. Qed.

Lemma sort_by_sorted {A} (key : A → string) l : StronglySorted (key_le key) (sort_by key l).
Proof. apply StronglySorted_merge_sort; apply _. Qed.

Lemma elem_of_sort_by {A} (key : A → string) l x : x ∈ sort_by key l ↔ x ∈ l.
Proof. by rewrite sort_by_perm. Qed.

(** ** Sorting by an integer key: rows selected with ORDER BY position *)

Definition pos_le {A} (x y : Z * A) : Prop := x.1 ≤ y.1.
#[global] Instance pos_le_dec {A} (x y : Z * A) : Decision (pos_le x y).
Proof. unfold pos_le; apply _. Defined.
#[global] Instance pos_le_trans {A} : Transitive (@pos_le A).
Proof. intros x y z; unfold pos_le; lia. Qed.
#[global] Instance pos_le_total {A} : Total (@pos_le A).
Proof. intros x y; unfold pos_le; lia. Qed.

Definition by_position {A} (l : list (Z * A)) : list A := (merge_sort pos_le l).*2.

(** Rows with distinct positions have one order. *)
Lemma sorted_positions_unique {A} (l l' : list (Z * A)) :
  l ≡ₚ l' → StronglySorted pos_le l → StronglySorted pos_le l' → NoDup l.*1 → l = l'.
Proof.
  revert l'; induction l as [|[i a] l IH]; intros l' Hp Hs Hs' Hnd.
  { by apply Permutation_nil in Hp as ->. }
  destruct l' as [|[j b] l']; [by apply Permutation_sym, Permutation_nil in Hp|].
  apply StronglySorted_inv in Hs as [Hs Hall]; apply StronglySorted_inv in Hs' as [Hs' Hall'].
  rewrite Forall_forall in Hall, Hall'; apply NoDup_cons in Hnd as [Hni Hnd].
  assert ((j, b) ∈ (i, a) :: l) as Hjb by (rewrite Hp; by left).
  assert ((i, a) ∈ (j, b) :: l') as Hia by (rewrite <- Hp; by left).
  assert ((i, a) = (j, b)) as Heq.
  { apply elem_of_cons in Hjb as [|Hjb]; [done|]; apply elem_of_cons in Hia as [|Hia]; [done|].
    specialize (Hall _ Hjb); specialize (Hall' _ Hia); unfold pos_le in Hall, Hall'; simpl in *.
    assert (i = j) by lia; subst; exfalso; apply Hni.
    apply list_elem_of_fmap; by exists (j, b). }
  injection Heq as -> ->; f_equal; apply IH; try done; by apply Permutation_cons_inv in Hp.
Qed.

Lemma by_position_sorted {A} (l l' : list (Z * A)) :
  l ≡ₚ l' → StronglySorted pos_le l' → NoDup l'.*1 → by_position l = l'.*2.
Proof.
  intros Hp Hs Hnd; unfold by_position; f_equal; symmetry; apply sorted_positions_unique; try done.
  - rewrite <- Hp; symmetry; apply merge_sort_Permutation.
  - apply StronglySorted_merge_sort; apply _.
Qed.

(** A list numbered from [i] on is in the order of its positions. *)
Lemma numbered_sorted {A} (l : list A) i :
  let r := imap (λ n x, (Z.of_nat (i + n), x)) l in StronglySorted pos_le r ∧ NoDup r.*1.
Proof.
  simpl; revert i; induction l as [|x l IH]; intros i; simpl; [by split; constructor|].
  assert (imap (λ n y, (Z.of_nat (i + S n), y)) l = imap (λ n y, (Z.of_nat (S i + n), y)) l) as Heq
    by (apply imap_ext; intros; do 2 f_equal; lia).
  unfold compose; simpl; rewrite Heq; destruct (IH (S i)) as [Hs Hnd].
  assert (∀ p, p ∈ imap (λ n y, (Z.of_nat (S i + n), y)) l → Z.of_nat i < p.1) as Hlt.
  { intros p (k & y & -> & _)%elem_of_lookup_imap_1; simpl; lia. }
  split; [constructor; [done|]|constructor; [|done]].
  - apply Forall_forall; intros p Hp%Hlt; unfold pos_le; simpl; lia.
  - intros (p & Hp1 & Hp%Hlt)%list_elem_of_fmap; lia.
Qed.

(** ** A finite map from a lookup function and a bound on its domain *)

Definition tabulate {K V} `{Countable K} (keys : list K) (f : K → option V) : gmap K V :=
  omap id (set_to_map (λ k, (k, f k)) (list_to_set keys : gset K)).

Lemma lookup_tabulate {K V} `{Countable K} (keys : list K) (f : K → option V) k :
  (is_Some (f k) → k ∈ keys) → tabulate keys f !! k = f k.
Proof.
  intros Hk; unfold tabulate; rewrite lookup_omap.
  destruct (set_to_map (λ k, (k, f k)) (list_to_set keys : gset K) !! k) as [o|] eqn:Ho; simpl.
  - apply lookup_set_to_map in Ho as (k' & _ & [= <- <-]); done.
  - destruct (f k) as [v|] eqn:Hf; [|done].
    assert ((set_to_map (λ k, (k, f k)) (list_to_set keys : gset K) : gmap K (option V)) !! k = Some (Some v))
      as Hs; [|congruence].
    apply lookup_set_to_map; [done|]; exists k; rewrite Hf; split; [|done].
    apply elem_of_list_to_set, Hk; eauto.
Qed.

(** ** Child rows: a table keyed by (parent, position), read in position order *)

Definition positioned {K V} `{Countable K} (k : K) (m : gmap (K * Z) V) : list V :=
  by_position (map (λ kv, (kv.1.2, kv.2)) (filter (λ kv, kv.1.1 = k) (map_to_list m))).

(** The second components of the keys under one first component are distinct. *)
Lemma NoDup_child_keys {A B V} `{Countable A, Countable B} (a : A) (m : gmap (A * B) V) :
  NoDup (map (λ kv, (kv.1.2, kv.2)) (filter (λ kv, kv.1.1 = a) (map_to_list m))).*1.
Proof.
  assert (NoDup (map_to_list m).*1) as Hnd by apply NoDup_fst_map_to_list.
  induction (map_to_list m) as [|[[k p] v] l IH]; simpl in *; [constructor|].
  apply NoDup_cons in Hnd as [Hni Hnd]; rewrite filter_cons; simpl; destruct (decide (k = a)) as [->|]; [|by apply IH].
  simpl; constructor; [|by apply IH].
  intros ([p' v'] & Hp' & Hin)%list_elem_of_fmap; simpl in *; subst.
  apply list_elem_of_In, in_map_iff in Hin as ([[k1 p1] v1] & [= -> ->] & [Hk Hin]%list_elem_of_In%list_elem_of_filter).
  simpl in *; subst; apply Hni, list_elem_of_fmap; by exists ((a, p'), v').
Qed.

Section Positioned.
Context {K V : Type} `{Countable K}.
Implicit Types m : gmap (K * Z) V.

Definition rows_at (k : K) m : list (Z * V) :=
  map (λ kv, (kv.1.2, kv.2)) (filter (λ kv, kv.1.1 = k) (map_to_list m)).

Lemma elem_of_rows_at k m p v : (p, v) ∈ rows_at k m ↔ m !! (k, p) = Some v.
Proof.
  unfold rows_at; rewrite list_elem_of_In, in_map_iff; split.
  - intros ([[k' p'] v'] & [= -> ->] & [Hk Hin]%list_elem_of_In%list_elem_of_filter); simpl in *; subst.
    by apply elem_of_map_to_list.
  - intros Hm; exists ((k, p), v); split; [done|].
    by apply list_elem_of_In, list_elem_of_filter; split; [|apply elem_of_map_to_list].
Qed.

Lemma rows_at_NoDup k m : NoDup (rows_at k m).*1.
Proof. apply NoDup_child_keys. Qed.

Lemma positioned_ext k m m' : (∀ p, m' !! (k, p) = m !! (k, p)) → positioned k m' = positioned k m.
Proof.
  intros Hm; unfold positioned, by_position; f_equal; apply sorted_positions_unique.
  - rewrite !merge_sort_Permutation; apply NoDup_Permutation;
      [eapply NoDup_fmap_1, rows_at_NoDup|eapply NoDup_fmap_1, rows_at_NoDup|].
    intros [p v]; fold (rows_at k m) (rows_at k m'); by rewrite !elem_of_rows_at, Hm.
  - apply StronglySorted_merge_sort; apply _.
  - apply StronglySorted_merge_sort; apply _.
  - rewrite merge_sort_Permutation; apply rows_at_NoDup.
Qed.

(** Rows numbered from 0 are read back as the list they number. *)
Lemma positioned_list k m (l : list V) :
  (∀ p v, m !! (k, p) = Some v ↔ ∃ i, p = Z.of_nat i ∧ l !! i = Some v) → positioned k m = l.
Proof.
  intros Hm; destruct (numbered_sorted l 0) as [Hs Hnd].
  assert ((imap (λ n x, (Z.of_nat (0 + n), x)) l).*2 = l) as Hl.
  { clear; generalize 0%nat; induction l as [|x l IH]; intros i; simpl; [done|]; f_equal.
    rewrite <- (IH (S i)) at 2; apply (f_equal (fmap snd)), imap_ext; intros; simpl; do 2 f_equal; lia. }
  rewrite <- Hl; apply by_position_sorted; [|done..].
  apply NoDup_Permutation; [eapply NoDup_fmap_1, rows_at_NoDup|by eapply NoDup_fmap_1|].
  intros [p v]; fold (rows_at k m); rewrite elem_of_rows_at, Hm, elem_of_lookup_imap; simpl; naive_solver.
Qed.

Lemma elem_of_positioned k m v : v ∈ positioned k m ↔ ∃ p, m !! (k, p) = Some v.
Proof.
  unfold positioned, by_position; fold (rows_at k m); rewrite list_elem_of_fmap; split.
  - intros ([p v'] & -> & Hin); exists p; apply elem_of_rows_at; by rewrite merge_sort_Permutation in Hin.
  - intros [p Hp%elem_of_rows_at]; exists (p, v); split; [done|by rewrite merge_sort_Permutation].
Qed.

Lemma positioned_nil k m : (∀ p, m !! (k, p) = None) → positioned k m = [].
Proof. intros Hm; apply positioned_list; intros p v; rewrite Hm; split; [done|by intros (i & _ & ?)]. Qed.

(** Changing the rows of a parent in place. *)
Lemma positioned_map k m m' (f : V → V) :
  (∀ p, m' !! (k, p) = f <$> m !! (k, p)) → positioned k m' = map f (positioned k m).
Proof.
  intros Hm; set (g := λ pv : Z * V, (pv.1, f pv.2)).
  assert (∀ l : list (Z * V), map f l.*2 = (map g l).*2) as Hsnd
    by (induction l as [|[p v] l IH]; csimpl; congruence).
  assert (∀ l : list (Z * V), (map g l).*1 = l.*1) as Hfst by (induction l as [|[p v] l IH]; csimpl; congruence).
  unfold positioned, by_position; rewrite Hsnd; f_equal; apply sorted_positions_unique.
  - rewrite !merge_sort_Permutation; apply NoDup_Permutation.
    + eapply NoDup_fmap_1, rows_at_NoDup.
    + eapply NoDup_fmap_1; rewrite Hfst; apply rows_at_NoDup.
    + intros [p v]; fold (rows_at k m) (rows_at k m'); rewrite elem_of_rows_at, Hm, fmap_Some, list_elem_of_In, in_map_iff.
      split.
      * intros (u & Hu & ->); exists (p, u); split; [done|]; by apply list_elem_of_In, elem_of_rows_at.
      * intros ([q u] & [= -> <-] & Hu%list_elem_of_In%elem_of_rows_at); eauto.
  - apply StronglySorted_merge_sort; apply _.
  - assert (StronglySorted pos_le (merge_sort pos_le (rows_at k m))) as Hs
      by (apply StronglySorted_merge_sort; apply _).
    fold (rows_at k m); clear -Hs; induction Hs as [|[p v] l Hs IH Hall]; simpl; constructor; [done|].
    clear -Hall; induction Hall as [|[q u] l Hq Hall IH]; simpl; constructor; done.
  - rewrite merge_sort_Permutation; apply rows_at_NoDup.
Qed.

(** Inserting a list of rows one position after another. *)
Fixpoint insert_from (k : K) (i : nat) (l : list V) (m : gmap (K * Z) V) : gmap (K * Z) V :=
  match l with
  | [] => m
  | x :: l' => insert_from k (S i) l' (<[(k, Z.of_nat i) := x]> m)
  end.

Lemma lookup_insert_from k i l m k' p :
  insert_from k i l m !! (k', p) =
  match (if decide (k' = k ∧ Z.of_nat i ≤ p) then l !! Z.to_nat (p - Z.of_nat i) else None) with
  | Some x => Some x
  | None => m !! (k', p)
  end.
Proof.
  revert i m; induction l as [|x l IH]; intros i m; simpl; [by case_decide|].
  rewrite IH; destruct (decide (k' = k)) as [->|Hk].
  2: { rewrite !decide_False by tauto; by rewrite lookup_insert_ne by congruence. }
  destruct (decide (p = Z.of_nat i)) as [->|Hp].
  - rewrite decide_False by (intros [_ ?]; lia); rewrite lookup_insert_eq, decide_True by (split; [done|lia]).
    by replace (Z.to_nat (Z.of_nat i - Z.of_nat i)) with 0%nat by lia.
  - rewrite lookup_insert_ne by congruence; destruct (decide (k = k ∧ Z.of_nat (S i) ≤ p)) as [[_ Hle]|Hle].
    + rewrite decide_True by (split; [done|lia]).
      by replace (Z.to_nat (p - Z.of_nat i)) with (S (Z.to_nat (p - Z.of_nat (S i)))) by lia.
    + rewrite decide_False; [done|]; intros [_ ?]; apply Hle; split; [done|lia].
Qed.

Lemma positioned_insert_from k l m : (∀ p, m !! (k, p) = None) → positioned k (insert_from k 0 l m) = l.
Proof.
  intros Hm; apply positioned_list; intros p v; rewrite lookup_insert_from, Hm; simpl; split.
  - case_decide as Hp; [|done]; destruct (l !! _) as [x|] eqn:Hx; [|done]; intros [= ->].
    eexists; split; [|exact Hx]; lia.
  - intros (i & -> & Hi); rewrite decide_True by (split; [done|lia]).
    replace (Z.to_nat (Z.of_nat i - Z.of_nat 0)) with i by lia; by rewrite Hi.
Qed.

Lemma positioned_insert_other k k' i l m : k' ≠ k → positioned k' (insert_from k i l m) = positioned k' m.
Proof. intros Hk; apply positioned_ext; intros p; rewrite lookup_insert_from, decide_False; [done|tauto]. Qed.
End Positioned.

(** A sorted list is determined by its elements. *)
Lemma sorted_unique {A} (key : A → string) l l' :
  StronglySorted (key_le key) l → NoDup l → StronglySorted (key_le key) l' → NoDup l' →
  (∀ x, x ∈ l ↔ x ∈ l') → (∀ x y, x ∈ l → y ∈ l → key x = key y → x = y) → l = l'.
Proof.
  intros Hs Hnd Hs' Hnd' Hin Hkey; assert (l ≡ₚ l') as Hp by by apply NoDup_Permutation.
  clear Hin Hnd Hnd'; revert l' Hp Hs' Hkey; induction Hs as [|x l Hs IH Hx]; intros l' Hp Hs' Hkey.
  { by apply Permutation_nil in Hp as ->. }
  destruct l' as [|y l']; [by apply Permutation_sym, Permutation_nil in Hp|].
  apply StronglySorted_inv in Hs' as [Hs' Hy]; rewrite Forall_forall in Hx, Hy.
  assert (x = y) as <-.
  { assert (y ∈ x :: l) as Hyl by (rewrite Hp; by left); assert (x ∈ y :: l') as Hxl by (rewrite <- Hp; by left).
    apply elem_of_cons in Hyl as [->|Hyl]; [done|]; apply elem_of_cons in Hxl as [->|Hxl]; [done|].
    apply Hkey; [by left|by right|]; apply str_le_antisym; [by apply Hx|by apply Hy]. }
  f_equal; apply IH; [by apply Permutation_cons_inv in Hp|done|].
  intros u v Hu Hv; apply Hkey; by right.
Qed.

Lemma sorted_map {A} (key : A → string) l :
  StronglySorted (key_le key) l ↔ StronglySorted str_le (map key l).
Proof.
  induction l as [|x l IH]; simpl; [split; intros _; apply SSorted_nil|].
  split; intros [Hs Hx]%StronglySorted_inv; (apply SSorted_cons; [by apply IH|]);
    rewrite Forall_forall in Hx; apply Forall_forall; intros y Hy.
  - apply list_elem_of_In, in_map_iff in Hy as (z & <- & Hz%list_elem_of_In); by apply Hx.
  - apply Hx, list_elem_of_In, in_map_iff; exists y; split; [done|by apply list_elem_of_In].
Qed.

Lemma NoDup_map_filter {A B} (f : A → B) (P : A → Prop) `{∀ x, Decision (P x)} l :
  NoDup (map f l) → NoDup (map f (filter P l)).
Proof.
  induction l as [|x l IH]; [done|]; simpl; intros [Hx Hl]%NoDup_cons; rewrite filter_cons; case_decide; [|by apply IH].
  simpl; apply NoDup_cons; split; [|by apply IH]; intros (y & Hy & [_ Hin]%list_elem_of_filter)%list_elem_of_fmap.
  apply Hx, list_elem_of_fmap; by exists y.
Qed.

(** What every step keeps, every run keeps. *)
Lemma rtc_invariant {A} (R : relation A) (I : A → Prop) x y :
  (∀ a b, R a b → I a → I b) → rtc R x y → I x → I y.
Proof. intros Hs; induction 1; eauto. Qed.
