(* ===== verification/GoStrings.v ===== *)
(** The functions of Go's [strings], [unicode/utf8] and [encoding/hex] packages
    the registry uses, on Go strings as byte strings (Stdlib's [string], one
    [ascii] per byte).  White space is Unicode white space in UTF-8, as
    [strings.TrimSpace] and [strings.Fields] have it; the case tables of
    non-ASCII letters are a parameter ([UnicodeTables]). *)
From S2P Require Import Prelude.

(** * Definitions *)

(** [strings.HasPrefix]. *)
Fixpoint has_prefix (p s : string) : bool :=
  match p, s with
  | EmptyString, _ => true
  | String a p', String b s' => Ascii.eqb a b && has_prefix p' s'
  | _, EmptyString => false
  end.

Fixpoint drop_str (n : nat) (s : string) : string :=
  match n, s with
  | S n', String _ s' => drop_str n' s'
  | _, _ => s
  end.

Definition srev (s : string) : string := string_of_list_ascii (rev (list_ascii_of_string s)).

(** [strings.HasSuffix]. *)
Definition has_suffix (p s : string) : bool := has_prefix (srev p) (srev s).

#[global] Arguments has_suffix : simpl never.

(** [strings.TrimPrefix] and [strings.TrimSuffix]: at most one occurrence. *)
Definition trim_prefix (p s : string) : string :=
  if has_prefix p s then drop_str (String.length p) s else s.
Definition trim_suffix (p s : string) : string :=
  if has_suffix p s then srev (drop_str (String.length p) (srev s)) else s.

(** [strings.Cut] with a one-byte separator. *)
Fixpoint cut (c : ascii) (s : string) : string * string * bool :=
  match s with
  | EmptyString => ("", "", false)
  | String a s' =>
      if Ascii.eqb a c then ("", s', true)
      else let '(b, t, ok) := cut c s' in (String a b, t, ok)
  end.

(** [strings.Split] with a one-byte separator: always at least one part. *)
Fixpoint split (c : ascii) (s : string) : list string :=
  match s with
  | EmptyString => [""]
  | String a s' =>
      if Ascii.eqb a c then "" :: split c s'
      else match split c s' with
           | p :: ps => String a p :: ps
           | [] => [String a ""]
           end
  end.

(** [strings.Join]. *)
Fixpoint join (sep : string) (l : list string) : string :=
  match l with
  | [] => ""
  | [x] => x
  | x :: l' => String.append x (String.append sep (join sep l'))
  end.

Fixpoint str_forallb (p : ascii → bool) (s : string) : bool :=
  match s with EmptyString => true | String a s' => p a && str_forallb p s' end.

Fixpoint str_map (f : ascii → ascii) (s : string) : string :=
  match s with EmptyString => "" | String a s' => String (f a) (str_map f s') end.

Definition byte_str (l : list nat) : string := string_of_list_ascii (map ascii_of_nat l).

(** The UTF-8 encodings of the runes for which [unicode.IsSpace] holds:
    the ASCII ones, U+0085, U+00A0, U+1680, U+2000-U+200A, U+2028, U+2029,
    U+202F, U+205F and U+3000.  None is a prefix of another and each starts
    with a lead byte, so an occurrence is always a whole decoded rune. *)
Definition space_runes : list string := map byte_str
  ([[9]; [10]; [11]; [12]; [13]; [32]; [194; 133]; [194; 160]; [225; 154; 128];
    [226; 128; 168]; [226; 128; 169]; [226; 128; 175]; [226; 129; 159]; [227; 128; 128]]
   ++ map (λ i, [226; 128; i]) (seq 128 11))%nat.

(** The string after its leading rune, when that rune is one of [runes]. *)
Fixpoint strip_rune (runes : list string) (s : string) : option string :=
  match runes with
  | [] => None
  | r :: rs => if has_prefix r s then Some (drop_str (String.length r) s) else strip_rune rs s
  end.

Fixpoint trim_left_fuel (fuel : nat) (runes : list string) (s : string) : string :=
  match fuel with
  | O => s
  | S fuel' => match strip_rune runes s with
               | Some s' => trim_left_fuel fuel' runes s'
               | None => s
               end
  end.

(** Every step drops at least one byte: the length is enough fuel
    ([trim_left_stops]). *)
Definition trim_left (runes : list string) (s : string) : string :=
  trim_left_fuel (String.length s) runes s.

Definition space_runes_rev : list string := map srev space_runes.

Definition trim_right_space (s : string) : string := srev (trim_left space_runes_rev (srev s)).

(** [strings.TrimSpace]. *)
Definition trim_space (s : string) : string := trim_right_space (trim_left space_runes s).

Definition flush_field (cur : string) (rest : list string) : list string :=
  if String.eqb cur "" then rest else srev cur :: rest.

(** [strings.Fields]; [cur] is the field being read, reversed. *)
Fixpoint fields_fuel (fuel : nat) (cur s : string) : list string :=
  match fuel with
  | O => flush_field cur []
  | S fuel' =>
      match s with
      | EmptyString => flush_field cur []
      | String a s' =>
          match strip_rune space_runes s with
          | Some rest => flush_field cur (fields_fuel fuel' "" rest)
          | None => fields_fuel fuel' (String a cur) s'
          end
      end
  end.
Definition fields (s : string) : list string := fields_fuel (S (String.length s)) "" s.

Definition code (a : ascii) : nat := nat_of_ascii a.
Definition in_range (lo hi : nat) (a : ascii) : bool := (lo <=? code a)%nat && (code a <=? hi)%nat.
Definition is_upper (a : ascii) : bool := in_range 65 90 a.
Definition is_lower (a : ascii) : bool := in_range 97 122 a.
Definition is_digit (a : ascii) : bool := in_range 48 57 a.
Definition is_ascii (s : string) : bool := str_forallb (in_range 0 127) s.
Definition lower_byte (a : ascii) : ascii := if is_upper a then ascii_of_nat (code a + 32) else a.

(** What the registry uses of Go's Unicode tables: the lower-case mapping and the
    [%q] quoting of strings that are not pure ASCII. *)
Class UnicodeTables := {
  unicode_lower : string → string;
  unicode_quote : string → string;
}.

(** [strings.ToLower]: the byte-wise fast path on pure ASCII strings. *)
Definition to_lower `{UnicodeTables} (s : string) : string :=
  if is_ascii s then str_map lower_byte s else unicode_lower s.

(** ** strconv.Quote *)

Definition dquote : ascii := ascii_of_nat 34.
Definition backslash : ascii := ascii_of_nat 92.

Definition hex_digit (n : Z) : ascii :=
  ascii_of_nat (if n <? 10 then Z.to_nat (48 + n) else Z.to_nat (87 + n)).

(** One ASCII byte between the quotes: printable bytes stand for themselves. *)
Definition quote_byte (a : ascii) : string :=
  let esc (c : ascii) := String backslash (String c "") in
  if Ascii.eqb a dquote || Ascii.eqb a backslash then esc a
  else if in_range 32 126 a then String a ""
  else match code a with
       | 7 => esc "a"%char | 8 => esc "b"%char | 9 => esc "t"%char | 10 => esc "n"%char
       | 11 => esc "v"%char | 12 => esc "f"%char | 13 => esc "r"%char
       | n => String backslash (String "x"%char (String (hex_digit (Z.of_nat n / 16))
                (String (hex_digit (Z.of_nat n mod 16)) "")))
       end%nat.

Fixpoint quote_bytes (s : string) : string :=
  match s with EmptyString => "" | String a s' => String.append (quote_byte a) (quote_bytes s') end.

Definition go_quote `{UnicodeTables} (s : string) : string :=
  if is_ascii s then String dquote (String.append (quote_bytes s) (String dquote "")) else unicode_quote s.

(** ** encoding/hex *)

Definition is_hex (a : ascii) : bool :=
  is_digit a || in_range 97 102 a || in_range 65 70 a.
Definition is_lower_hex (a : ascii) : bool := is_digit a || in_range 97 102 a.

(** [hex.DecodeString] succeeds: an even number of hex digits of either case. *)
Definition hex_decodes (s : string) : bool :=
  Nat.even (String.length s) && str_forallb is_hex s.

(** [hex.EncodeToString]: two lower-case digits per byte. *)
Fixpoint hex_encode (l : list Z) : string :=
  match l with
  | [] => ""
  | b :: l' => String (hex_digit (b / 16)) (String (hex_digit (b mod 16)) (hex_encode l'))
  end.

Definition bytes_of (s : string) : list Z :=
  map (λ a, Z.of_nat (nat_of_ascii a)) (list_ascii_of_string s).

Definition is_byte (b : Z) : Prop := 0 ≤ b < 256.

(** * Lemmas *)

Lemma append_assoc s t u : String.append (String.append s t) u = String.append s (String.append t u).
Proof. induction s; simpl; congruence. Qed.

Lemma append_nil_r s : String.append s "" = s.
Proof. induction s; simpl; congruence. Qed.

Lemma length_append s t : String.length (String.append s t) = (String.length s + String.length t)%nat.
Proof. induction s; simpl; congruence. Qed.

Lemma append_inj_l s t u : String.append s t = String.append s u → t = u.
Proof. induction s; simpl; [done|]; intros [= H]; auto. Qed.

Lemma append_inj_r s t u v :
  String.length s = String.length t → String.append s u = String.append t v → s = t ∧ u = v.
Proof.
  revert t; induction s as [|a s IH]; intros [|b t] Hl H; simpl in *; try done.
  injection Hl as Hl; injection H as -> H; destruct (IH t Hl H); by subst.
Qed.

Lemma has_prefix_spec p s : has_prefix p s = true ↔ ∃ t, s = String.append p t.
Proof.
  revert s; induction p as [|a p IH]; intros s; simpl.
  - split; [by exists s|by destruct s].
  - destruct s as [|b s]; [split; [done|by intros [t Ht]]|].
    rewrite andb_true_iff, Ascii.eqb_eq, IH; split.
    + by intros [-> [t ->]]; exists t.
    + intros [t Ht]; injection Ht as -> ->; eauto.
Qed.

#[global] Arguments has_prefix : simpl never.

Lemma drop_str_append p t : drop_str (String.length p) (String.append p t) = t.
Proof. induction p; simpl; [by destruct t|done]. Qed.

Lemma trim_prefix_append p t : trim_prefix p (String.append p t) = t.
Proof.
  unfold trim_prefix.
  replace (has_prefix p (String.append p t)) with true
    by (symmetry; apply has_prefix_spec; by exists t).
  apply drop_str_append.
Qed.

Lemma list_ascii_append s t :
  list_ascii_of_string (String.append s t) = list_ascii_of_string s ++ list_ascii_of_string t.
Proof. induction s; simpl; congruence. Qed.

Lemma string_of_list_app l k :
  string_of_list_ascii (l ++ k) = String.append (string_of_list_ascii l) (string_of_list_ascii k).
Proof. induction l; simpl; congruence. Qed.

Lemma srev_involutive s : srev (srev s) = s.
Proof.
  unfold srev; by rewrite list_ascii_of_string_of_list_ascii, rev_involutive,
    string_of_list_ascii_of_string.
Qed.

Lemma srev_append s t : srev (String.append s t) = String.append (srev t) (srev s).
Proof. unfold srev; by rewrite list_ascii_append, rev_app_distr, string_of_list_app. Qed.

Lemma length_srev s : String.length (srev s) = String.length s.
Proof.
  unfold srev; rewrite <- (string_of_list_ascii_of_string s) at 2.
  induction (list_ascii_of_string s) as [|a l IH]; simpl; [done|].
  rewrite string_of_list_app, length_append, IH; simpl; lia.
Qed.

Lemma length_drop_str n s : String.length (drop_str n s) = (String.length s - n)%nat.
Proof. revert s; induction n; intros [|a s]; simpl; try lia; apply IHn. Qed.

(** ** Splitting and cutting *)

Lemma cut_found c s b t : cut c s = (b, t, true) → s = String.append b (String c t).
Proof.
  revert b t; induction s as [|a s IH]; intros b t; simpl; [done|].
  destruct (Ascii.eqb_spec a c) as [->|Hne].
  - by intros [= <- <-].
  - destruct (cut c s) as [[b' t'] ok]; intros [= <- <- ->]; simpl; by rewrite (IH b' t').
Qed.

Definition no_char (c : ascii) (s : string) : bool := str_forallb (λ a, negb (Ascii.eqb a c)) s.

Lemma cut_append c s t : no_char c s = true → cut c (String.append s (String c t)) = (s, t, true).
Proof.
  unfold no_char; induction s as [|a s IH]; simpl; intros H.
  - by rewrite Ascii.eqb_refl.
  - apply andb_true_iff in H as [Ha Hs]; apply negb_true_iff in Ha; rewrite Ha.
    by rewrite (IH Hs).
Qed.

Lemma split_no_char c s : no_char c s = true → split c s = [s].
Proof.
  unfold no_char; induction s as [|a s IH]; simpl; intros H; [done|].
  apply andb_true_iff in H as [Ha Hs]; apply negb_true_iff in Ha.
  by rewrite Ha, (IH Hs).
Qed.

Lemma split_append c s t :
  no_char c s = true → split c (String.append s (String c t)) = s :: split c t.
Proof.
  unfold no_char; induction s as [|a s IH]; simpl; intros H.
  - by rewrite Ascii.eqb_refl.
  - apply andb_true_iff in H as [Ha Hs]; apply negb_true_iff in Ha.
    by rewrite Ha, (IH Hs).
Qed.

Lemma split_not_nil c s : split c s ≠ [].
Proof. destruct s as [|a s]; simpl; [done|]; repeat case_match; done. Qed.

Lemma split_parts c s : Forall (λ p, no_char c p = true) (split c s).
Proof.
  unfold no_char; induction s as [|a s IH]; simpl; [by repeat constructor|].
  destruct (Ascii.eqb a c) eqn:Ha; [by constructor|].
  destruct (split c s) as [|p ps]; inversion IH; subst; constructor; simpl; rewrite ?Ha; auto.
Qed.

Lemma join_split c s : join (String c "") (split c s) = s.
Proof.
  induction s as [|a s IH]; simpl; [done|].
  destruct (Ascii.eqb_spec a c) as [->|Hne].
  - pose proof (split_not_nil c s); destruct (split c s) as [|p ps] eqn:Hs; [done|].
    simpl in *; by rewrite IH.
  - pose proof (split_not_nil c s); destruct (split c s) as [|p [|q ps]] eqn:Hs; [done|..];
      simpl in *; by rewrite IH.
Qed.

Lemma split_join c l :
  l ≠ [] → Forall (λ p, no_char c p = true) l → split c (join (String c "") l) = l.
Proof.
  induction l as [|p [|q l] IH]; [done|..]; intros _ Hall; inversion Hall as [|? ? Hp Hl]; subst.
  - by apply split_no_char.
  - change (join _ (p :: q :: l)) with (String.append p (String c (join (String c "") (q :: l)))).
    rewrite split_append by done; f_equal; by apply IH.
Qed.

(** ** Trimming *)

Lemma strip_rune_shorter runes s s' :
  Forall (λ r, r ≠ "") runes → strip_rune runes s = Some s' →
  (String.length s' < String.length s)%nat.
Proof.
  induction 1 as [|r rs Hr _ IH]; simpl; [done|].
  destruct (has_prefix r s) eqn:Hp; [|done]; intros [= <-].
  apply has_prefix_spec in Hp as [t ->]; rewrite drop_str_append, length_append.
  destruct r; [done|simpl; lia].
Qed.

Lemma trim_left_fuel_stops runes fuel s :
  Forall (λ r, r ≠ "") runes → (String.length s ≤ fuel)%nat →
  strip_rune runes (trim_left_fuel fuel runes s) = None.
Proof.
  intros Hr; revert s; induction fuel as [|fuel IH]; intros s Hs; simpl.
  - destruct (strip_rune runes s) eqn:H; [|done].
    apply strip_rune_shorter in H; [lia|done].
  - destruct (strip_rune runes s) eqn:H; [|done]; apply IH.
    apply strip_rune_shorter in H; [lia|done].
Qed.

Lemma trim_left_stops runes s :
  Forall (λ r, r ≠ "") runes → strip_rune runes (trim_left runes s) = None.
Proof. intros H; by apply trim_left_fuel_stops. Qed.

Lemma trim_left_none runes s : strip_rune runes s = None → trim_left runes s = s.
Proof. unfold trim_left; destruct (String.length s); simpl; [done|]; by intros ->. Qed.

Lemma space_runes_ne : Forall (λ r, r ≠ "") space_runes.
Proof. unfold space_runes; repeat (constructor; [done|]); constructor. Qed.
Lemma space_runes_rev_ne : Forall (λ r, r ≠ "") space_runes_rev.
Proof. unfold space_runes_rev, space_runes; repeat (constructor; [done|]); constructor. Qed.

(** A string neither end of which is white space: what [trim_space] leaves alone. *)
Definition trimmed (s : string) : bool :=
  match strip_rune space_runes s, strip_rune space_runes_rev (srev s) with
  | None, None => true
  | _, _ => false
  end.

Lemma trim_space_trimmed s : trimmed s = true → trim_space s = s.
Proof.
  unfold trimmed, trim_space, trim_right_space.
  destruct (strip_rune space_runes s) eqn:H1; [done|].
  destruct (strip_rune space_runes_rev (srev s)) eqn:H2; [done|]; intros _.
  rewrite (trim_left_none _ _ H1), (trim_left_none _ _ H2); apply srev_involutive.
Qed.

(** Printable ASCII bytes other than the space are not part of any space rune. *)
Definition graphic (a : ascii) : bool := in_range 33 126 a.

Lemma strip_rune_graphic runes a s :
  Forall (λ r, match r with String b _ => graphic b = false | "" => False end) runes →
  graphic a = true → strip_rune runes (String a s) = None.
Proof.
  intros Hr Ha; induction Hr as [|r rs Hr _ IH]; simpl; [done|].
  destruct r as [|b r]; [done|].
  destruct (has_prefix (String b r) (String a s)) eqn:Hp; [|done].
  apply has_prefix_spec in Hp as [t [= -> _]]; congruence.
Qed.

Lemma space_runes_not_graphic :
  Forall (λ r, match r with String b _ => graphic b = false | "" => False end) space_runes.
Proof. unfold space_runes; repeat (constructor; [done|]); constructor. Qed.
Lemma space_runes_rev_not_graphic :
  Forall (λ r, match r with String b _ => graphic b = false | "" => False end) space_runes_rev.
Proof. unfold space_runes_rev, space_runes; repeat (constructor; [done|]); constructor. Qed.

Lemma str_forallb_list p s : str_forallb p s = forallb p (list_ascii_of_string s).
Proof. induction s; simpl; congruence. Qed.

Lemma str_forallb_srev p s : str_forallb p (srev s) = str_forallb p s.
Proof.
  unfold srev; rewrite !str_forallb_list, list_ascii_of_string_of_list_ascii.
  apply eq_true_iff_eq; rewrite !forallb_forall; setoid_rewrite <- in_rev; done.
Qed.

Lemma str_forallb_append p s t : str_forallb p (String.append s t) = str_forallb p s && str_forallb p t.
Proof. rewrite !str_forallb_list, list_ascii_append; apply forallb_app. Qed.

Lemma str_forallb_impl (p q : ascii → bool) s :
  (∀ a, p a = true → q a = true) → str_forallb p s = true → str_forallb q s = true.
Proof.
  intros H; induction s; simpl; [done|]; rewrite !andb_true_iff; naive_solver.
Qed.

Lemma trimmed_graphic s : str_forallb graphic s = true → trimmed s = true.
Proof.
  intros Hs; unfold trimmed.
  assert (∀ r t, Forall (λ r, match r with String b _ => graphic b = false | "" => False end) r →
    str_forallb graphic t = true → strip_rune r t = None) as Hgen.
  { intros r [|a t] Hr Ht; [|simpl in Ht; apply andb_true_iff in Ht as [Ha _];
      by apply strip_rune_graphic].
    induction Hr as [|[|b r'] rs Hr _ IH]; simpl; [done|done|]; auto. }
  rewrite (Hgen _ _ space_runes_not_graphic Hs).
  rewrite (Hgen _ _ space_runes_rev_not_graphic); [done|by rewrite str_forallb_srev].
Qed.

Lemma trim_space_graphic s : str_forallb graphic s = true → trim_space s = s.
Proof. intros; by apply trim_space_trimmed, trimmed_graphic. Qed.

(** ** Fields of a string whose words are graphic *)

Lemma strip_space_graphic a s : graphic a = true → strip_rune space_runes (String a s) = None.
Proof. apply strip_rune_graphic, space_runes_not_graphic. Qed.

Lemma fields_fuel_word fuel w cur s :
  str_forallb graphic w = true → (String.length w ≤ fuel)%nat →
  fields_fuel fuel cur (String.append w s)
  = fields_fuel (fuel - String.length w) (String.append (srev w) cur) s.
Proof.
  revert fuel cur; induction w as [|a w IH]; intros fuel cur Hw Hf.
  - simpl; by rewrite Nat.sub_0_r.
  - destruct fuel as [|fuel]; [simpl in Hf; lia|].
    change (String.append (String a w) s) with (String a (String.append w s)).
    simpl in Hw, Hf; apply andb_true_iff in Hw as [Ha Hw].
    cbn [fields_fuel]; rewrite strip_space_graphic by done.
    rewrite IH by (done || lia); simpl; f_equal.
    replace (String a w) with (String.append (String a "") w) by done.
    rewrite srev_append; by rewrite append_assoc.
Qed.

Lemma flush_field_srev w rest : w ≠ "" → flush_field (srev w) rest = w :: rest.
Proof.
  intros Hw; unfold flush_field.
  destruct (String.eqb_spec (srev w) "") as [H|H]; [|by rewrite srev_involutive].
  destruct Hw; rewrite <- (srev_involutive w), H; done.
Qed.

Lemma fields_fuel_join fuel ws :
  Forall (λ w, w ≠ "" ∧ str_forallb graphic w = true) ws →
  (String.length (join " " ws) < fuel)%nat → fields_fuel fuel "" (join " " ws) = ws.
Proof.
  revert fuel; induction ws as [|w [|w' ws] IH]; intros fuel Hall Hf;
    [by destruct fuel|..]; inversion Hall as [|? ? [Hne Hw] Hws]; subst.
  - cbn [join] in *. rewrite <- (append_nil_r w) at 1.
    rewrite fields_fuel_word by (done || lia); rewrite append_nil_r.
    destruct (fuel - String.length w)%nat eqn:E; simpl; by apply flush_field_srev.
  - change (join " " (w :: w' :: ws)) with (String.append w (String " " (join " " (w' :: ws)))) in *.
    rewrite length_append in Hf; cbn [String.length] in Hf.
    rewrite fields_fuel_word by (done || lia); rewrite append_nil_r.
    destruct (fuel - String.length w)%nat as [|f] eqn:E; [lia|].
    cbn [fields_fuel].
    replace (strip_rune space_runes (String " " (join " " (w' :: ws))))
      with (Some (join " " (w' :: ws))) by (by destruct (join " " (w' :: ws))).
    rewrite IH by (done || lia); by apply flush_field_srev.
Qed.

(** [strings.Fields] undoes joining words with single spaces. *)
Lemma fields_join ws :
  Forall (λ w, w ≠ "" ∧ str_forallb graphic w = true) ws → fields (join " " ws) = ws.
Proof. intros H; apply fields_fuel_join; [done|lia]. Qed.

(** ** Trimming a line of graphic words *)

Lemma graphic_head s : s ≠ "" → str_forallb graphic s = true → ∃ a t, s = String a t ∧ graphic a = true.
Proof. destruct s as [|a t]; [done|]; simpl; intros _ [Ha _]%andb_true_iff; by exists a, t. Qed.

Lemma trimmed_ends s a t b u :
  s = String a t → graphic a = true → srev s = String b u → graphic b = true → trimmed s = true.
Proof.
  intros Hs Ha Hr Hb; unfold trimmed; rewrite Hr, Hs.
  rewrite (strip_rune_graphic _ _ _ space_runes_not_graphic Ha).
  by rewrite (strip_rune_graphic _ _ _ space_runes_rev_not_graphic Hb).
Qed.

Lemma join_head ws :
  ws ≠ [] → Forall (λ w, w ≠ "" ∧ str_forallb graphic w = true) ws →
  (∃ a t, join " " ws = String a t ∧ graphic a = true)
  ∧ (∃ b u, srev (join " " ws) = String b u ∧ graphic b = true).
Proof.
  induction ws as [|w ws IH]; [done|]; intros _ Hall; inversion Hall as [|? ? [Hne Hw] Hws]; subst.
  destruct (graphic_head w Hne Hw) as (a & t & -> & Ha).
  destruct ws as [|w' ws].
  - split; [by exists a, t|]; apply graphic_head; [|by rewrite str_forallb_srev].
    intros Hs; apply (f_equal String.length) in Hs; rewrite length_srev in Hs; done.
  - destruct IH as [_ (b & u & Hb & Hgb)]; [done|done|].
    change (join " " (String a t :: w' :: ws))
      with (String.append (String a t) (String.append " " (join " " (w' :: ws)))).
    split; [eexists a, _; by split|].
    rewrite !srev_append, Hb; eexists b, _; by split.
Qed.

Lemma trim_space_join ws :
  Forall (λ w, w ≠ "" ∧ str_forallb graphic w = true) ws →
  trim_space (join " " ws) = join " " ws.
Proof.
  intros Hall; destruct (decide (ws = [])) as [->|Hne]; [done|].
  destruct (join_head ws Hne Hall) as [(a & t & Ha & Hga) (b & u & Hb & Hgb)].
  by eapply trim_space_trimmed, trimmed_ends.
Qed.

(** ** Hexadecimal *)

Lemma hex_digit_lower n : 0 ≤ n < 16 → is_lower_hex (hex_digit n) = true.
Proof.
  intros H; assert (n ∈ seqZ 0 16) as Hin by (apply elem_of_seqZ; lia); clear H.
  revert n Hin; apply Forall_forall; repeat (constructor; [done|]); constructor.
Qed.

Lemma hex_encode_lower l : Forall is_byte l → str_forallb is_lower_hex (hex_encode l) = true.
Proof.
  induction 1 as [|b l Hb _ IH]; simpl; [done|]; unfold is_byte in Hb.
  rewrite !hex_digit_lower, IH; [done|..]; [apply Z.mod_pos_bound; lia|].
  split; [apply Z.div_pos; lia|apply Z.div_lt_upper_bound; lia].
Qed.

Lemma length_hex_encode l : String.length (hex_encode l) = (2 * length l)%nat.
Proof. induction l; simpl; lia. Qed.

Lemma lower_hex_is_hex a : is_lower_hex a = true → is_hex a = true.
Proof. unfold is_lower_hex, is_hex; intros H; by rewrite H. Qed.

Lemma in_range_weaken lo hi lo' hi' a :
  (lo' ≤ lo)%nat → (hi ≤ hi')%nat → in_range lo hi a = true → in_range lo' hi' a = true.
Proof. unfold in_range; rewrite !andb_true_iff, !Nat.leb_le; lia. Qed.

Lemma is_hex_graphic a : is_hex a = true → graphic a = true.
Proof.
  unfold is_hex, is_digit, graphic; rewrite !orb_true_iff.
  intros [[H|H]|H]; eapply in_range_weaken; try apply H; lia.
Qed.

Lemma bytes_of_is_byte s : Forall is_byte (bytes_of s).
Proof.
  unfold bytes_of; apply Forall_map, Forall_forall; intros a _; unfold is_byte.
  pose proof (nat_ascii_bounded a); lia.
Qed.

Lemma bytes_of_inj s t : bytes_of s = bytes_of t → s = t.
Proof.
  unfold bytes_of; intros H.
  rewrite <- (string_of_list_ascii_of_string s), <- (string_of_list_ascii_of_string t); f_equal.
  revert H; generalize (list_ascii_of_string s), (list_ascii_of_string t).
  induction l as [|a l IH]; intros [|b k]; simpl; try done; intros [= H1 H2].
  rewrite (IH _ H2); f_equal.
  apply Nat2Z.inj in H1; by rewrite <- (ascii_nat_embedding a), <- (ascii_nat_embedding b), H1.
Qed.
