(* ===== verification/Encodings.v ===== *)
(** Go's [encoding/base64] ([StdEncoding]) on byte strings, and what
    [encoding/pem] makes of a block that has been laid out in lines of 64
    characters.

    SHA-256 as FIPS 180-4 defines it, over bytes as [Z] in [0, 256): what Go's
    [crypto/sha256] computes.  Words are [Z] in [0, 2^32) with the wrap-around
    written out.  The standard's test vectors are checked by evaluation. *)
From S2P Require Import Prelude GoStrings.

(** * Base64 and PEM *)

(** The byte string of a list of bytes, inverse of [bytes_of]. *)
Definition str_of_bytes (l : list Z) : string :=
  string_of_list_ascii (map (λ b, ascii_of_nat (Z.to_nat b)) l).

(** ** StdEncoding *)

Definition b64_char (v : Z) : ascii :=
  ascii_of_nat (Z.to_nat (if v <? 26 then 65 + v else if v <? 52 then 71 + v
                          else if v <? 62 then v - 4 else if v =? 62 then 43 else 47)).
Definition b64_val (a : ascii) : option Z :=
  let c := Z.of_nat (code a) in
  if (65 <=? c) && (c <=? 90) then Some (c - 65)
  else if (97 <=? c) && (c <=? 122) then Some (c - 71)
  else if (48 <=? c) && (c <=? 57) then Some (c + 4)
  else if c =? 43 then Some 62 else if c =? 47 then Some 63 else None.
Definition b64_pad : ascii := "="%char.

(** Three bytes are four characters; a last group of one or two bytes is padded. *)
Fixpoint b64_encode (l : list Z) : list ascii :=
  match l with
  | [] => []
  | [a] => [b64_char (a / 4); b64_char (a mod 4 * 16); b64_pad; b64_pad]
  | [a; b] => [b64_char (a / 4); b64_char (a mod 4 * 16 + b / 16); b64_char (b mod 16 * 4); b64_pad]
  | a :: b :: c :: l' =>
      b64_char (a / 4) :: b64_char (a mod 4 * 16 + b / 16) :: b64_char (b mod 16 * 4 + c / 64)
        :: b64_char (c mod 64) :: b64_encode l'
  end.

(** Padding ends the input; the unused low bits of a padded group are not looked
    at, and a group cut short is an error. *)
Fixpoint b64_decode (l : list ascii) : option (list Z) :=
  match l with
  | [] => Some []
  | a :: b :: c :: d :: l' =>
      x ← b64_val a; y ← b64_val b;
      if Ascii.eqb c b64_pad then
        if Ascii.eqb d b64_pad && (length l' =? 0)%nat then Some [x * 4 + y / 16] else None
      else
        z ← b64_val c;
        if Ascii.eqb d b64_pad then
          if (length l' =? 0)%nat then Some [x * 4 + y / 16; y mod 16 * 16 + z / 4] else None
        else
          u ← b64_val d; r ← b64_decode l';
          Some (x * 4 + y / 16 :: y mod 16 * 16 + z / 4 :: z mod 4 * 64 + u :: r)
  | _ => None
  end.

Definition is_newline (a : ascii) : bool := (code a =? 10)%nat || (code a =? 13)%nat.

Definition base64_EncodeToString (s : string) : string :=
  string_of_list_ascii (b64_encode (bytes_of s)).
(** Line breaks may be anywhere. *)
Definition base64_DecodeString (s : string) : option string :=
  str_of_bytes <$> b64_decode (filter (λ a, is_newline a = false) (list_ascii_of_string s)).

(** ** Lines and PEM blocks *)

Fixpoint chunks (fuel n : nat) (l : list ascii) : list (list ascii) :=
  match fuel, l with
  | S fuel', _ :: _ => take n l :: chunks fuel' n (drop n l)
  | _, _ => []
  end.
(** [s] in lines of at most 64 bytes. *)
Definition lines64 (s : string) : list string :=
  let l := list_ascii_of_string s in map string_of_list_ascii (chunks (length l) 64 l).

Definition newline : ascii := ascii_of_nat 10.
Definition lines_text (ls : list string) : string :=
  foldr (λ l s, String.append l (String newline s)) "" ls.

Definition pem_begin (type : string) : string := String.append "-----BEGIN " (String.append type "-----").
Definition pem_end (type : string) : string := String.append "-----END " (String.append type "-----").

(** The text of a block: its BEGIN line, its body lines and its END line. *)
Definition pem_text (type : string) (ls : list string) : string :=
  lines_text (pem_begin type :: ls ++ [pem_end type]).

(** [pem.EncodeToMemory] of a block without headers. *)
Definition pem_EncodeToMemory (type bytes : string) : string :=
  pem_text type (lines64 (base64_EncodeToString bytes)).

Definition has_char (c : ascii) (s : string) : bool := negb (no_char c s).

(** What [pem.Decode] finds in such a text, when no body line holds white space:
    the leading lines with a colon are headers, the others the base64 data, of
    which there is some line if there are headers; nothing follows the block. *)
Fixpoint pem_data (ls : list string) : list string :=
  match ls with
  | l :: ls' => if has_char ":" l then pem_data ls' else ls
  | [] => []
  end.
Definition pem_Decode (ls : list string) : option string :=
  match pem_data ls with
  | [] => if (length ls =? 0)%nat then Some "" else None
  | data => base64_DecodeString (foldr String.append "" data)
  end.

(** * Decoding undoes encoding *)

Lemma b64_val_char v : 0 ≤ v < 64 → b64_val (b64_char v) = Some v ∧ b64_char v ≠ b64_pad
  ∧ is_newline (b64_char v) = false ∧ graphic (b64_char v) = true ∧ b64_char v ≠ "-"%char ∧ b64_char v ≠ ":"%char.
Proof.
  intros Hv.
  assert (Forall (λ n, let v := Z.of_nat n in b64_val (b64_char v) = Some v ∧ b64_char v ≠ b64_pad
    ∧ is_newline (b64_char v) = false ∧ graphic (b64_char v) = true ∧ b64_char v ≠ "-"%char ∧ b64_char v ≠ ":"%char)
    (seq 0 64)) as Hall by (simpl; repeat (constructor; [by repeat split|]); constructor).
  rewrite Forall_forall in Hall; specialize (Hall (Z.to_nat v)); rewrite Z2Nat.id in Hall by lia.
  apply Hall, list_elem_of_In, in_seq; lia.
Qed.

Lemma b64_val_eq v : 0 ≤ v < 64 → b64_val (b64_char v) = Some v.
Proof. intros Hv; by apply b64_val_char. Qed.

Lemma b64_eqb_pad v : 0 ≤ v < 64 → Ascii.eqb (b64_char v) b64_pad = false.
Proof. intros Hv; apply Ascii.eqb_neq; by apply b64_val_char. Qed.

(** The characters of an encoding: none is white space, a dash or a colon. *)
Definition b64_safe (a : ascii) : Prop :=
  is_newline a = false ∧ graphic a = true ∧ a ≠ "-"%char ∧ a ≠ ":"%char.

Lemma b64_char_safe v : 0 ≤ v < 64 → b64_safe (b64_char v).
Proof. intros Hv; destruct (b64_val_char v Hv) as (_ & _ & ? & ? & ? & ?); by repeat split. Qed.
Lemma b64_pad_safe : b64_safe b64_pad.
Proof. by repeat split. Qed.

(** Induction three bytes at a time. *)
Lemma triples_ind (P : list Z → Prop) :
  P [] → (∀ a, P [a]) → (∀ a b, P [a; b]) → (∀ a b c l, P l → P (a :: b :: c :: l)) → ∀ l, P l.
Proof.
  intros H0 H1 H2 H3; fix IH 1; intros [|a [|b [|c l]]]; [done|apply H1|apply H2|apply H3, IH].
Qed.

#[local] Ltac byte_bounds :=
  unfold is_byte in *; Z.div_mod_to_equations; lia.
#[local] Ltac foralls :=
  repeat match goal with H : Forall _ (_ :: _) |- _ => apply Forall_cons in H as [? H] end.

Lemma b64_encode_safe l : Forall is_byte l → Forall b64_safe (b64_encode l).
Proof.
  induction l as [|a|a b|a b c l IH] using triples_ind; intros Hl; cbn [b64_encode]; foralls; [constructor|..];
    repeat (apply Forall_cons; split; [apply b64_pad_safe || (apply b64_char_safe; byte_bounds)|]); auto.
Qed.

Lemma b64_decode_encode l : Forall is_byte l → b64_decode (b64_encode l) = Some l.
Proof.
  induction l as [|a|a b|a b c l IH] using triples_ind; intros Hl; cbn [b64_encode b64_decode]; foralls; [done|..].
  - rewrite !b64_val_eq by byte_bounds; simpl; do 2 f_equal; byte_bounds.
  - rewrite !b64_val_eq by byte_bounds; simpl; rewrite b64_eqb_pad by byte_bounds.
    simpl; do 2 f_equal; [|f_equal]; byte_bounds.
  - rewrite !b64_val_eq by byte_bounds; simpl; rewrite !b64_eqb_pad by byte_bounds.
    simpl; rewrite IH by done; simpl.
    f_equal; f_equal; [|f_equal; [|f_equal]]; byte_bounds.
Qed.

Lemma str_of_bytes_of s : str_of_bytes (bytes_of s) = s.
Proof.
  unfold str_of_bytes, bytes_of; rewrite map_map.
  rewrite <- (string_of_list_ascii_of_string s) at 2; f_equal; rewrite <- (map_id (list_ascii_of_string s)) at 2.
  apply map_ext; intros a; unfold code; by rewrite Nat2Z.id, ascii_nat_embedding.
Qed.

Lemma filter_safe l : Forall b64_safe l → filter (λ a, is_newline a = false) l = l.
Proof. intros Hl; induction Hl as [|a l (Ha & _) _ IH]; [done|]; rewrite filter_cons_True by done; by rewrite IH. Qed.

Lemma base64_round_trip s : base64_DecodeString (base64_EncodeToString s) = Some s.
Proof.
  unfold base64_DecodeString, base64_EncodeToString; rewrite list_ascii_of_string_of_list_ascii.
  rewrite filter_safe by (apply b64_encode_safe, bytes_of_is_byte).
  rewrite b64_decode_encode by apply bytes_of_is_byte; simpl; by rewrite str_of_bytes_of.
Qed.

(** ** Lines *)

Lemma foldr_append_list l :
  foldr String.append "" (map string_of_list_ascii l) = string_of_list_ascii (concat l).
Proof. induction l as [|x l IH]; simpl; [done|]; by rewrite IH, string_of_list_app. Qed.

Lemma concat_chunks fuel n l : (0 < n)%nat → (length l ≤ fuel)%nat → concat (chunks fuel n l) = l.
Proof.
  intros Hn; revert l; induction fuel as [|fuel IH]; intros [|a l] Hl; simpl in *; try done; [lia|].
  rewrite IH; [apply take_drop|]; rewrite length_drop; simpl; lia.
Qed.

Lemma join_lines64 s : foldr String.append "" (lines64 s) = s.
Proof.
  unfold lines64; rewrite foldr_append_list, concat_chunks by lia; apply string_of_list_ascii_of_string.
Qed.

Lemma elem_of_chunks fuel n l x : (0 < n)%nat → x ∈ chunks fuel n l → x ≠ [] ∧ ∀ a, a ∈ x → a ∈ l.
Proof.
  intros Hn; revert l; induction fuel as [|fuel IH]; intros [|a l] Hx; simpl in Hx; try by apply elem_of_nil in Hx.
  apply elem_of_cons in Hx as [->|Hx].
  - split; [destruct n; [lia|done]|]; intros b Hb; rewrite <- (take_drop n (a :: l)), elem_of_app; by left.
  - destruct (IH _ Hx) as [Hne Hin]; split; [done|]; intros b Hb%Hin.
    rewrite <- (take_drop n (a :: l)), elem_of_app; by right.
Qed.

(** The lines of an encoding are non-empty words without dashes and colons. *)
Definition b64_word (w : string) : Prop := w ≠ "" ∧ Forall b64_safe (list_ascii_of_string w).

Lemma lines64_words s : Forall b64_safe (list_ascii_of_string s) → Forall b64_word (lines64 s).
Proof.
  intros Hs; unfold lines64; apply Forall_map, Forall_forall; intros x Hx.
  apply elem_of_chunks in Hx as [Hne Hin]; [|lia].
  split; [by destruct x|]; rewrite list_ascii_of_string_of_list_ascii; apply Forall_forall.
  rewrite Forall_forall in Hs; intros a Ha; by apply Hs, Hin.
Qed.

Lemma encoded_words s : Forall b64_word (lines64 (base64_EncodeToString s)).
Proof.
  apply lines64_words; unfold base64_EncodeToString; rewrite list_ascii_of_string_of_list_ascii.
  apply b64_encode_safe, bytes_of_is_byte.
Qed.

Lemma word_no_char c w : (∀ a, b64_safe a → a ≠ c) → b64_word w → no_char c w = true.
Proof.
  intros Hc [_ Hw]; unfold no_char; rewrite str_forallb_list; apply forallb_forall; intros a Ha.
  rewrite Forall_forall in Hw; apply negb_true_iff, Ascii.eqb_neq, Hc, Hw; by apply list_elem_of_In.
Qed.

Lemma word_graphic w : b64_word w → w ≠ "" ∧ str_forallb graphic w = true.
Proof.
  intros [Hne Hw]; split; [done|]; rewrite str_forallb_list; apply forallb_forall; intros a Ha.
  rewrite Forall_forall in Hw; apply Hw; by apply list_elem_of_In.
Qed.

Lemma pem_data_words ls : Forall b64_word ls → pem_data ls = ls.
Proof.
  intros Hls; destruct Hls as [|l ls Hl]; [done|]; simpl; unfold has_char.
  rewrite word_no_char by (done || by intros a (_ & _ & _ & ?)); done.
Qed.

(** Decoding the body of an encoded block gives its bytes. *)
Lemma pem_round_trip s : pem_Decode (lines64 (base64_EncodeToString s)) = Some s.
Proof.
  unfold pem_Decode; rewrite pem_data_words by apply encoded_words.
  pose proof (join_lines64 (base64_EncodeToString s)) as Hj.
  destruct (lines64 (base64_EncodeToString s)) as [|l ls].
  - simpl in *; pose proof (base64_round_trip s) as Hs; rewrite <- Hj in Hs; by injection Hs as <-.
  - rewrite Hj; apply base64_round_trip.
Qed.

(** ** Fields of a text of lines *)

Lemma strip_newline s : strip_rune space_runes (String newline s) = Some s.
Proof. by destruct s. Qed.

Lemma fields_fuel_lines fuel ws :
  Forall b64_word ws → (String.length (lines_text ws) < fuel)%nat → fields_fuel fuel "" (lines_text ws) = ws.
Proof.
  revert fuel; induction ws as [|w ws IH]; intros fuel Hws Hf; [by destruct fuel|].
  apply Forall_cons in Hws as [Hw Hws]; destruct (word_graphic w Hw) as [Hne Hg].
  change (lines_text (w :: ws)) with (String.append w (String newline (lines_text ws))) in *.
  rewrite length_append in Hf; cbn [String.length] in Hf.
  rewrite fields_fuel_word by (done || lia); rewrite append_nil_r.
  destruct (fuel - String.length w)%nat as [|f] eqn:E; [lia|].
  cbn [fields_fuel]; rewrite strip_newline, IH by (done || lia); by apply flush_field_srev.
Qed.

Lemma fields_lines ws : Forall b64_word ws → fields (String newline (lines_text ws)) = ws.
Proof.
  intros Hws; unfold fields; cbn [String.length fields_fuel]; rewrite strip_newline; simpl.
  change (fields_fuel (S (String.length (lines_text ws))) "" (lines_text ws) = ws); apply fields_fuel_lines; [done|lia].
Qed.

(** * SHA-256 *)

Definition w32 (x : Z) : Z := Z.land x 4294967295.
Definition rotr (n x : Z) : Z := Z.lor (Z.shiftr x n) (w32 (Z.shiftl x (32 - n))).
Definition shr (n x : Z) : Z := Z.shiftr x n.
Definition Ch (x y z : Z) : Z := Z.lxor (Z.land x y) (Z.land (Z.lxor x 4294967295) z).
Definition Maj (x y z : Z) : Z := Z.lxor (Z.land x y) (Z.lxor (Z.land x z) (Z.land y z)).
Definition Sigma0 (x : Z) : Z := Z.lxor (rotr 2 x) (Z.lxor (rotr 13 x) (rotr 22 x)).
Definition Sigma1 (x : Z) : Z := Z.lxor (rotr 6 x) (Z.lxor (rotr 11 x) (rotr 25 x)).
Definition sigma0 (x : Z) : Z := Z.lxor (rotr 7 x) (Z.lxor (rotr 18 x) (shr 3 x)).
Definition sigma1 (x : Z) : Z := Z.lxor (rotr 17 x) (Z.lxor (rotr 19 x) (shr 10 x)).

(** The standard's constants: the first 32 bits of the fractional parts of the
    cube roots (square roots for the initial state) of the first primes. *)
Definition is_prime (n : Z) : bool :=
  (2 <=? n) && forallb (λ d, negb (n mod Z.of_nat d =? 0)) (seq 2 (Z.to_nat n - 2)).
Definition primes : list Z := Eval vm_compute in List.filter is_prime (map Z.of_nat (seq 2 310)).

(** The largest [r] below [2^n] with [r^3 <= x], bit by bit. *)
Fixpoint cbrt_bits (n : nat) (r x : Z) : Z :=
  match n with
  | O => r
  | S n' => let r' := r + 2 ^ Z.of_nat n' in cbrt_bits n' (if r' ^ 3 <=? x then r' else r) x
  end.
Definition round_constants : list Z :=
  Eval vm_compute in map (λ p, w32 (cbrt_bits 36 0 (p * 2 ^ 96))) primes.

Record hstate := HState { hA : Z; hB : Z; hC : Z; hD : Z; hE : Z; hF : Z; hG : Z; hH : Z }.

Definition initial_state : hstate :=
  Eval vm_compute in
  let h i := w32 (Z.sqrt (nth i primes 0 * 2 ^ 64)) in
  HState (h 0%nat) (h 1%nat) (h 2%nat) (h 3%nat) (h 4%nat) (h 5%nat) (h 6%nat) (h 7%nat).

Definition be_word (b0 b1 b2 b3 : Z) : Z :=
  Z.lor (Z.shiftl b0 24) (Z.lor (Z.shiftl b1 16) (Z.lor (Z.shiftl b2 8) b3)).

Fixpoint words (l : list Z) : list Z :=
  match l with
  | b0 :: b1 :: b2 :: b3 :: l' => be_word b0 b1 b2 b3 :: words l'
  | _ => []
  end.

(** The message schedule; [window] holds the last sixteen words. *)
Fixpoint schedule (n : nat) (window : list Z) : list Z :=
  match n with
  | O => []
  | S n' =>
      match window with
      | w0 :: rest =>
          let w1 := nth 0 rest 0 in let w9 := nth 8 rest 0 in let w14 := nth 13 rest 0 in
          w0 :: schedule n' (rest ++ [w32 (sigma1 w14 + w9 + sigma0 w1 + w0)])
      | [] => []
      end
  end.

Definition round (st : hstate) (kw : Z * Z) : hstate :=
  let t1 := w32 (hH st + Sigma1 (hE st) + Ch (hE st) (hF st) (hG st) + kw.1 + kw.2) in
  let t2 := w32 (Sigma0 (hA st) + Maj (hA st) (hB st) (hC st)) in
  HState (w32 (t1 + t2)) (hA st) (hB st) (hC st) (w32 (hD st + t1)) (hE st) (hF st) (hG st).

Definition compress (st : hstate) (block : list Z) : hstate :=
  let r := foldl round st (zip round_constants (schedule 64 (words block))) in
  HState (w32 (hA st + hA r)) (w32 (hB st + hB r)) (w32 (hC st + hC r)) (w32 (hD st + hD r))
         (w32 (hE st + hE r)) (w32 (hF st + hF r)) (w32 (hG st + hG r)) (w32 (hH st + hH r)).

Definition be_bytes (n : nat) (x : Z) : list Z :=
  map (λ i, Z.land (Z.shiftr x (8 * Z.of_nat (n - 1 - i))) 255) (seq 0 n).

(** The bit length wraps at 2^64, as the implementation's uint64 counter does. *)
Definition pad (msg : list Z) : list Z :=
  let len := Z.of_nat (length msg) in
  msg ++ [128] ++ repeat 0 (Z.to_nat ((55 - len) mod 64)) ++ be_bytes 8 ((8 * len) mod 2 ^ 64).

Fixpoint blocks (fuel : nat) (st : hstate) (l : list Z) : hstate :=
  match fuel with
  | O => st
  | S fuel' =>
      match l with
      | [] => st
      | _ => blocks fuel' (compress st (take 64 l)) (drop 64 l)
      end
  end.

Definition sha256 (msg : list Z) : list Z :=
  let p := pad msg in
  let st := blocks (length p) initial_state p in
  flat_map (be_bytes 4) [hA st; hB st; hC st; hD st; hE st; hF st; hG st; hH st].

(** * Test vectors and shape of the output *)

Example sha256_empty :
  hex_encode (sha256 []) = "e3b0c44298fc1c149afbf4c8996fb92427ae41e4649b934ca495991b7852b855".
Proof. vm_compute; reflexivity. Qed.

Example sha256_abc :
  hex_encode (sha256 (bytes_of "abc"))
  = "ba7816bf8f01cfea414140de5dae2223b00361a396177a9cb410ff61f20015ad".
Proof. vm_compute; reflexivity. Qed.

Example sha256_two_blocks :
  hex_encode (sha256 (bytes_of "abcdbcdecdefdefgefghfghighijhijkijkljklmklmnlmnomnopnopq"))
  = "248d6a61d20638b8e5c026930c3e6039a33ce45964ff2167f6ecedd419db06c1".
Proof. vm_compute; reflexivity. Qed.

Lemma be_bytes_is_byte n x : Forall is_byte (be_bytes n x).
Proof.
  unfold be_bytes; apply Forall_map, Forall_forall; intros i _; unfold is_byte; simpl.
  change 255 with (Z.ones 8); rewrite Z.land_ones by lia; apply Z.mod_pos_bound; lia.
Qed.

Lemma length_sha256 msg : length (sha256 msg) = 32%nat.
Proof. done. Qed.

Lemma sha256_is_byte msg : Forall is_byte (sha256 msg).
Proof.
  unfold sha256; generalize (blocks (length (pad msg)) initial_state (pad msg)); intros st.
  generalize [hA st; hB st; hC st; hD st; hE st; hF st; hG st; hH st].
  intros l; induction l as [|x l IH]; cbn [flat_map]; [by apply Forall_nil|].
  apply Forall_app; split; [apply be_bytes_is_byte|exact IH].
Qed.

#[global] Arguments sha256 : simpl never.
#[global] Opaque sha256.
