(* ===== verification/Errors.v ===== *)
(** The typed errors of the two domain packages
    (internal/domain/regixtry/errors.go and internal/domain/auth/errors.go), and
    everything else a call may return: a driver, filesystem or library error. *)
From S2P Require Import Prelude GoStrings.

(** * Definitions *)

Inductive RegCode :=
  | CodeInvalidDigest | CodeDigestMismatch | CodeInvalidRepository | CodeInvalidManifest
  | CodeValidation | CodeNotFound | CodeConflict | CodeUnauthorized | CodePolicyViolation
  | CodeUnsupported.

Inductive AuthCode :=
  | AuthValidation | AuthNotFound | AuthInvalidCredentials | AuthForbidden | AuthExpiredToken
  | AuthRevokedToken | AuthDisabledUser | AuthBootstrapRequired | AuthConflict.

#[global] Instance RegCode_eq_dec : EqDecision RegCode.
Proof. solve_decision. Defined.
#[global] Instance AuthCode_eq_dec : EqDecision AuthCode.
Proof. solve_decision. Defined.

(** A [fmt.Sprintf] message: literal text and [%q] arguments. *)
Inductive msg_part := Lit (s : string) | Quoted (s : string).
Definition message := list msg_part.

(** No constructor of either package sets the wrapped [Err] field, so a domain
    error is its code and its message; [OtherError] is any other Go error. *)
Inductive error :=
  | RegError (code : RegCode) (msg : message)
  | AuthError (code : AuthCode) (msg : message)
  | OtherError (msg : string).

Abbreviation res := (result error).
Abbreviation M := (ST error).

Definition reg_code_string (c : RegCode) : string :=
  match c with
  | CodeInvalidDigest => "INVALID_DIGEST"
  | CodeDigestMismatch => "DIGEST_MISMATCH"
  | CodeInvalidRepository => "INVALID_REPOSITORY"
  | CodeInvalidManifest => "INVALID_MANIFEST"
  | CodeValidation => "VALIDATION_FAILED"
  | CodeNotFound => "NOT_FOUND"
  | CodeConflict => "CONFLICT"
  | CodeUnauthorized => "UNAUTHORIZED"
  | CodePolicyViolation => "POLICY_VIOLATION"
  | CodeUnsupported => "UNSUPPORTED"
  end.

Definition auth_code_string (c : AuthCode) : string :=
  match c with
  | AuthValidation => "VALIDATION_FAILED"
  | AuthNotFound => "NOT_FOUND"
  | AuthInvalidCredentials => "INVALID_CREDENTIALS"
  | AuthForbidden => "FORBIDDEN"
  | AuthExpiredToken => "EXPIRED_TOKEN"
  | AuthRevokedToken => "REVOKED_TOKEN"
  | AuthDisabledUser => "DISABLED_USER"
  | AuthBootstrapRequired => "BOOTSTRAP_REQUIRED"
  | AuthConflict => "CONFLICT"
  end.

(** The [Error] method of either package's error type. *)
Definition render `{UnicodeTables} (m : message) : string :=
  foldr (λ p acc, String.append (match p with Lit s => s | Quoted s => go_quote s end) acc) "" m.
Definition error_string `{UnicodeTables} (e : error) : string :=
  match e with
  | RegError c m => String.append (reg_code_string c) (String.append ": " (render m))
  | AuthError c m => String.append (auth_code_string c) (String.append ": " (render m))
  | OtherError m => m
  end.

(** [regixtry.IsCode] and [auth.IsCode]: each only sees its own package's type. *)
Definition reg_is_code (e : error) (c : RegCode) : bool :=
  match e with RegError c' _ => bool_decide (c' = c) | _ => false end.
Definition auth_is_code (e : error) (c : AuthCode) : bool :=
  match e with AuthError c' _ => bool_decide (c' = c) | _ => false end.

(** ** Constructors of package regixtry *)
Definition NewInvalidDigestError (value : string) : error :=
  RegError CodeInvalidDigest [Lit "invalid digest "; Quoted value].
Definition NewDigestMismatchError (expected actual : string) : error :=
  RegError CodeDigestMismatch [Lit "digest mismatch: expected "; Lit expected; Lit ", got "; Lit actual].
Definition NewInvalidRepositoryError (value : string) : error :=
  RegError CodeInvalidRepository [Lit "invalid repository "; Quoted value].
Definition NewInvalidManifestError (m : string) : error := RegError CodeInvalidManifest [Lit m].
Definition NewValidationError (m : string) : error := RegError CodeValidation [Lit m].
Definition NewNotFoundError (kind value : string) : error :=
  RegError CodeNotFound [Lit kind; Lit " "; Quoted value; Lit " was not found"].
Definition NewConflictError (m : message) : error := RegError CodeConflict m.
Definition NewUnauthorizedError (m : string) : error := RegError CodeUnauthorized [Lit m].
Definition NewPolicyViolationError (m : message) : error := RegError CodePolicyViolation m.
Definition NewUnsupportedError (m : string) : error := RegError CodeUnsupported [Lit m].

(** ** Constructors of package auth *)
Definition AuthValidationError (m : string) : error := AuthError AuthValidation [Lit m].
Definition AuthNotFoundError (kind value : string) : error :=
  AuthError AuthNotFound [Lit kind; Lit " "; Quoted value; Lit " was not found"].
Definition NewInvalidCredentialsError : error :=
  AuthError AuthInvalidCredentials [Lit "invalid credentials"].
Definition NewForbiddenError (m : string) : error := AuthError AuthForbidden [Lit m].
Definition NewExpiredTokenError (accessor : string) : error :=
  AuthError AuthExpiredToken [Lit "token "; Quoted accessor; Lit " has expired"].
Definition NewRevokedTokenError (accessor : string) : error :=
  AuthError AuthRevokedToken [Lit "token "; Quoted accessor; Lit " has been revoked"].
Definition NewDisabledUserError (username : string) : error :=
  AuthError AuthDisabledUser [Lit "user "; Quoted username; Lit " is disabled"].
Definition NewBootstrapRequiredError : error :=
  AuthError AuthBootstrapRequired
    [Lit "auth enabled requires an active global admin; run `registry bootstrap-admin`"].
Definition AuthConflictError (m : string) : error := AuthError AuthConflict [Lit m].

(** An infrastructure error: neither domain package produced it. *)
Definition is_infra (e : error) : bool :=
  match e with OtherError _ => true | _ => false end.

(** * Lemmas *)

Lemma infra_not_reg_code e c : is_infra e = true → reg_is_code e c = false.
Proof. by destruct e. Qed.

Lemma infra_not_auth_code e c : is_infra e = true → auth_is_code e c = false.
Proof. by destruct e. Qed.
#[export] Hint Resolve infra_not_reg_code infra_not_auth_code : go.
