(* ===== verification/Repository.v ===== *)
(** Regular expressions as the registry's [regexp.MustCompile] patterns use them:
    byte classes, concatenation, alternation and repetition, anchored at both ends.
    [re_match] is executable (derivatives); [re_lang] is the language an RE2
    pattern denotes; [re_match_correct] says they agree.

    Repository names: internal/domain/regixtry/repository.go. *)
From S2P Require Import Prelude GoStrings Errors.

(** * Regular expressions *)

Inductive re : Type :=
  | RNone
  | REps
  | RClass (p : ascii → bool)
  | RCat (r1 r2 : re)
  | RAlt (r1 r2 : re)
  | RStar (r : re).

Definition RPlus (r : re) : re := RCat r (RStar r).
Definition ROpt (r : re) : re := RAlt REps r.

(** The set of strings an anchored pattern [^r$] matches. *)
Inductive re_lang : re → string → Prop :=
  | lang_eps : re_lang REps ""
  | lang_class p a : p a = true → re_lang (RClass p) (String a "")
  | lang_cat r1 r2 s t : re_lang r1 s → re_lang r2 t → re_lang (RCat r1 r2) (String.append s t)
  | lang_alt_l r1 r2 s : re_lang r1 s → re_lang (RAlt r1 r2) s
  | lang_alt_r r1 r2 s : re_lang r2 s → re_lang (RAlt r1 r2) s
  | lang_star_nil r : re_lang (RStar r) ""
  | lang_star_cons r s t :
      re_lang r s → re_lang (RStar r) t → re_lang (RStar r) (String.append s t).

Fixpoint nullable (r : re) : bool :=
  match r with
  | RNone => false
  | REps => true
  | RClass _ => false
  | RCat r1 r2 => nullable r1 && nullable r2
  | RAlt r1 r2 => nullable r1 || nullable r2
  | RStar _ => true
  end.

Fixpoint deriv (a : ascii) (r : re) : re :=
  match r with
  | RNone => RNone
  | REps => RNone
  | RClass p => if p a then REps else RNone
  | RCat r1 r2 =>
      if nullable r1 then RAlt (RCat (deriv a r1) r2) (deriv a r2)
      else RCat (deriv a r1) r2
  | RAlt r1 r2 => RAlt (deriv a r1) (deriv a r2)
  | RStar r' => RCat (deriv a r') (RStar r')
  end.

Fixpoint re_match (r : re) (s : string) : bool :=
  match s with
  | EmptyString => nullable r
  | String a s' => re_match (deriv a r) s'
  end.

(** * Correctness of the matcher *)

#[local] Hint Constructors re_lang : go.

Lemma nullable_correct r : nullable r = true ↔ re_lang r "".
Proof.
  assert (∀ s, re_lang r s → s = "" → nullable r = true) as Hback.
  { induction 1 as [|p a Hp|r1 r2 s t _ IH1 _ IH2|r1 r2 s _ IH|r1 r2 s _ IH| |];
      simpl; intros Hs; try done.
    - destruct s, t; try done; by rewrite IH1, IH2.
    - by rewrite IH.
    - rewrite IH by done; apply orb_true_r. }
  split; [|eauto].
  clear Hback; induction r; simpl; rewrite ?andb_true_iff, ?orb_true_iff; try done; auto with go.
  - intros [H1 H2]; apply (lang_cat _ _ "" ""); auto.
  - intros [H|H]; auto with go.
Qed.

Lemma star_cons_inv r a s :
  re_lang (RStar r) (String a s) →
  ∃ t u, s = String.append t u ∧ re_lang r (String a t) ∧ re_lang (RStar r) u.
Proof.
  assert (∀ q w, re_lang q w → q = RStar r → w = String a s →
    ∃ t u, s = String.append t u ∧ re_lang r (String a t) ∧ re_lang (RStar r) u) as H; [|eauto].
  induction 1 as [| | | | | |r' t u Ht _ Hu IH]; try done.
  intros [= ->] Hw; destruct t as [|b t]; simpl in Hw; [auto|].
  injection Hw as -> <-; by exists t, u.
Qed.

Lemma cat_inv r1 r2 s :
  re_lang (RCat r1 r2) s → ∃ t u, s = String.append t u ∧ re_lang r1 t ∧ re_lang r2 u.
Proof. inversion 1; eauto. Qed.

Lemma deriv_correct a r s : re_lang (deriv a r) s ↔ re_lang r (String a s).
Proof.
  revert s; induction r as [| |p|r1 IH1 r2 IH2|r1 IH1 r2 IH2|r IH]; intros s; simpl.
  - split; inversion 1.
  - split; inversion 1.
  - destruct (p a) eqn:Hp; split; inversion 1; subst; auto with go; congruence.
  - assert (re_lang (RCat (deriv a r1) r2) s ↔
      ∃ t u, s = String.append t u ∧ re_lang r1 (String a t) ∧ re_lang r2 u) as Hcat.
    { split; [inversion 1; subst; eexists _, _; repeat split; [by apply IH1|done]|].
      intros (t & u & -> & H1 & H2); constructor; [by apply IH1|done]. }
    split.
    + intros H; destruct (nullable r1) eqn:Hn;
        [inversion H; subst; [|apply (lang_cat _ _ ""); [by apply nullable_correct|by apply IH2]]|];
        match goal with H : re_lang (RCat _ _) _ |- _ => apply Hcat in H as (t & u & -> & ? & ?) end;
        by apply (lang_cat _ _ (String a t)).
    + intros H; apply cat_inv in H as (t & u & Heq & H1 & H2).
      destruct t as [|b t]; simpl in Heq; [subst u|injection Heq as <- ->].
      * rewrite (proj2 (nullable_correct r1)) by done; apply lang_alt_r; by apply IH2.
      * assert (re_lang (RCat (deriv a r1) r2) (String.append t u)) as Hc by (apply Hcat; eauto).
        destruct (nullable r1); auto with go.
  - split; inversion 1; subst; rewrite ?IH1, ?IH2 in *; auto with go.
    + by apply lang_alt_l, IH1.
    + by apply lang_alt_r, IH2.
  - split.
    + inversion 1; subst; apply (lang_star_cons _ (String a _)); [by apply IH|done].
    + intros (t & u & -> & H1 & H2)%star_cons_inv; constructor; [by apply IH|done].
Qed.

(** The executable matcher decides the language of the pattern. *)
Lemma re_match_correct r s : re_match r s = true ↔ re_lang r s.
Proof.
  revert r; induction s as [|a s IH]; intros r; simpl; [apply nullable_correct|].
  rewrite IH; apply deriv_correct.
Qed.

(** Every byte of a matched string is in one of the pattern's classes. *)
Fixpoint re_bytes (p : ascii → bool) (r : re) : Prop :=
  match r with
  | RNone | REps => True
  | RClass q => ∀ a, q a = true → p a = true
  | RCat r1 r2 | RAlt r1 r2 => re_bytes p r1 ∧ re_bytes p r2
  | RStar r' => re_bytes p r'
  end.

Lemma re_lang_bytes p r s : re_bytes p r → re_lang r s → str_forallb p s = true.
Proof.
  intros Hp H; revert Hp; induction H; simpl; intros Hb;
    rewrite ?str_forallb_append, ?andb_true_iff; try done; simpl in *.
  - by rewrite Hb.
  - destruct Hb; split; auto.
  - destruct Hb; auto.
  - destruct Hb; auto.
  - auto.
Qed.

(** * Repository names *)

Definition lower_alnum (a : ascii) : bool := is_lower a || is_digit a.
Definition name_separator (a : ascii) : bool :=
  Ascii.eqb a "." || Ascii.eqb a "_" || Ascii.eqb a "-".

(** [^[a-z0-9]+(?:[._-][a-z0-9]+)*$] *)
Definition repositorySegmentPattern : re :=
  RCat (RPlus (RClass lower_alnum))
       (RStar (RCat (RClass name_separator) (RPlus (RClass lower_alnum)))).

Record RepositoryRef := mkRef { ref_Name : string }.
#[global] Instance RepositoryRef_eq_dec : EqDecision RepositoryRef.
Proof. solve_decision. Defined.

Definition ParseRepositoryRef (value : string) : res RepositoryRef :=
  if String.eqb value "" || has_prefix "/" value || has_suffix "/" value
  then Err (NewInvalidRepositoryError value)
  else if forallb (re_match repositorySegmentPattern) (split "/" value)
  then Ok (mkRef value)
  else Err (NewInvalidRepositoryError value).

Definition MustParseRepositoryRef (value : string) : option RepositoryRef :=
  match ParseRepositoryRef value with Ok r => Some r | Err _ => None end.

Definition RepositoryRef_Validate (r : RepositoryRef) : res unit :=
  do? ParseRepositoryRef (ref_Name r) in Ok tt.

(** [(RepositoryRef).String]. *)
Definition ref_String (r : RepositoryRef) : string := ref_Name r.

Definition valid_repository (s : string) : bool := is_ok (ParseRepositoryRef s).

(** The bytes a repository name is made of. *)
Definition name_byte (a : ascii) : bool := lower_alnum a || name_separator a || Ascii.eqb a "/".

(** * Properties *)

Lemma ParseRepositoryRef_ok v r :
  ParseRepositoryRef v = Ok r ↔
  r = mkRef v ∧ v ≠ "" ∧ Forall (re_lang repositorySegmentPattern) (split "/" v)
  ∧ has_prefix "/" v = false ∧ has_suffix "/" v = false.
Proof.
  unfold ParseRepositoryRef.
  destruct (String.eqb_spec v "") as [->|Hne]; simpl; [naive_solver|].
  destruct (has_prefix "/" v); simpl; [naive_solver|].
  destruct (has_suffix "/" v); simpl; [naive_solver|].
  destruct (forallb _ _) eqn:Hf; split.
  - intros [= <-]; repeat split; try done.
    apply Forall_forall; intros s Hs; apply re_match_correct.
    rewrite forallb_forall in Hf; apply Hf; by apply list_elem_of_In.
  - by intros (-> & _).
  - done.
  - intros (_ & _ & Hall & _); exfalso; apply not_true_iff_false in Hf; apply Hf.
    apply forallb_forall; intros s Hs; apply re_match_correct.
    rewrite Forall_forall in Hall; apply Hall; by apply list_elem_of_In.
Qed.

Lemma valid_repository_spec v : valid_repository v = true ↔ ParseRepositoryRef v = Ok (mkRef v).
Proof.
  unfold valid_repository; destruct (ParseRepositoryRef v) eqn:H; simpl; [|by split].
  apply ParseRepositoryRef_ok in H as [-> _]; done.
Qed.

Lemma RepositoryRef_Validate_ok r u :
  RepositoryRef_Validate r = Ok u ↔ valid_repository (ref_Name r) = true.
Proof.
  unfold RepositoryRef_Validate, valid_repository.
  destruct (ParseRepositoryRef _), u; simpl; naive_solver.
Qed.

Lemma parsed_ref_valid v r : ParseRepositoryRef v = Ok r → r = mkRef v ∧ valid_repository v = true.
Proof. intros H; pose proof H as [-> _]%ParseRepositoryRef_ok; by rewrite valid_repository_spec. Qed.

Lemma segment_bytes s : re_lang repositorySegmentPattern s →
  str_forallb (λ a, lower_alnum a || name_separator a) s = true.
Proof.
  apply re_lang_bytes; simpl; repeat split; intros a ->; simpl; auto using orb_true_r.
Qed.

Lemma str_forallb_join p sep l :
  str_forallb p sep = true → Forall (λ s, str_forallb p s = true) l → str_forallb p (join sep l) = true.
Proof.
  intros Hsep; induction 1 as [|x l Hx Hl IH]; [done|].
  destruct l as [|y l]; [done|].
  change (join sep (x :: y :: l)) with (String.append x (String.append sep (join sep (y :: l)))).
  by rewrite !str_forallb_append, Hx, Hsep, IH.
Qed.

(** A parsed repository name holds only lower-case letters, digits, [._-] and [/]:
    in particular no space, colon, comma, backslash or upper-case letter. *)
Lemma valid_repository_bytes v : valid_repository v = true → str_forallb name_byte v = true.
Proof.
  intros (_ & _ & Hall & _)%valid_repository_spec%ParseRepositoryRef_ok.
  rewrite <- (join_split "/" v); apply str_forallb_join; [done|].
  eapply Forall_impl; [exact Hall|]; intros s Hs%segment_bytes.
  eapply str_forallb_impl; [|exact Hs]; intros a Ha; unfold name_byte; by rewrite Ha.
Qed.

Lemma name_byte_graphic a : name_byte a = true → graphic a = true.
Proof.
  unfold name_byte, lower_alnum, name_separator, is_lower, is_digit, graphic.
  rewrite !orb_true_iff, !Ascii.eqb_eq; intros [[[H|H]|[[->| ->]| ->]]| ->]; try done;
    eapply in_range_weaken; try apply H; lia.
Qed.

Lemma valid_repository_graphic v : valid_repository v = true → str_forallb graphic v = true.
Proof.
  intros H%valid_repository_bytes; eapply str_forallb_impl; [apply name_byte_graphic|done].
Qed.

(** No path traversal: no segment of a repository name is empty, [.] or [..]. *)
Lemma valid_repository_segments v s :
  valid_repository v = true → s ∈ split "/" v → s ≠ "" ∧ s ≠ "." ∧ s ≠ "..".
Proof.
  intros (_ & _ & Hall & _)%valid_repository_spec%ParseRepositoryRef_ok Hs.
  rewrite Forall_forall in Hall; specialize (Hall s Hs); apply re_match_correct in Hall.
  repeat split; intros ->; vm_compute in Hall; done.
Qed.
