(* ===== verification/Digest.v ===== *)
(** Content digests: internal/domain/regixtry/digest.go and descriptor.go. *)
From S2P Require Import Prelude GoStrings Encodings Errors.

(** * Definitions *)

Definition digestAlgorithmSHA256 : string := "sha256".

(** The Go type [Digest string]. *)
Notation Digest := string (only parsing).

Definition ParseDigest (value : string) : res Digest :=
  let '(algorithm, encoded, ok) := cut ":" value in
  if negb ok || negb (String.eqb algorithm digestAlgorithmSHA256)
     || negb (String.length encoded =? 32 * 2)%nat
  then Err (NewInvalidDigestError value)
  else if hex_decodes encoded then Ok value else Err (NewInvalidDigestError value).

(** [None] is the panic. *)
Definition MustParseDigest (value : string) : option Digest :=
  match ParseDigest value with Ok d => Some d | Err _ => None end.

Definition DigestFromBytes (payload : string) : Digest :=
  String.append digestAlgorithmSHA256 (String.append ":" (hex_encode (sha256 (bytes_of payload)))).

#[global] Arguments DigestFromBytes : simpl never.

(** [io.Copy] either fails with the reader's error or delivers every byte. *)
Definition DigestFromReader (reader : res string) : res (Digest * Z) :=
  let? payload := reader in
  Ok (DigestFromBytes payload, Z.of_nat (String.length payload)).

Definition Digest_Validate (d : Digest) : res unit := do? ParseDigest d in Ok tt.

Definition Algorithm (d : Digest) : string := let '(algorithm, _, _) := cut ":" d in algorithm.
Definition Encoded (d : Digest) : string := let '(_, encoded, _) := cut ":" d in encoded.

Record Descriptor := mkDescriptor {
  desc_MediaType : string;
  desc_Digest : Digest;
  desc_Size : Z;
}.
#[global] Instance Descriptor_eq_dec : EqDecision Descriptor.
Proof. solve_decision. Defined.

Definition Descriptor_Validate (d : Descriptor) : res unit :=
  do? Digest_Validate (desc_Digest d) in
  if desc_Size d <? 0 then Err (NewValidationError "descriptor size must be zero or positive")
  else Ok tt.

Definition valid_digest (d : string) : bool := is_ok (ParseDigest d).
Definition valid_descriptor (d : Descriptor) : bool := is_ok (Descriptor_Validate d).

(** * Properties *)

Lemma cut_sha256 h : cut ":" (String.append "sha256:" h) = ("sha256", h, true).
Proof. done. Qed.

Lemma ParseDigest_ok v d :
  ParseDigest v = Ok d ↔
  d = v ∧ ∃ h, v = String.append "sha256:" h ∧ String.length h = 64%nat ∧ str_forallb is_hex h = true.
Proof.
  unfold ParseDigest; destruct (cut ":" v) as [[a h] ok] eqn:Hc; simpl; split.
  - destruct ok; simpl; [|done].
    destruct (String.eqb_spec a digestAlgorithmSHA256) as [->|]; simpl; [|done].
    destruct (Nat.eqb_spec (String.length h) 64) as [Hl|]; simpl; [|done].
    destruct (hex_decodes h) eqn:Hh; [|done]; intros [= <-]; split; [done|].
    apply cut_found in Hc; exists h; repeat split; [done..|].
    by apply andb_true_iff in Hh as [_ ?].
  - intros (-> & h' & -> & Hl & Hh).
    injection (eq_trans (eq_sym Hc) (cut_sha256 h')) as -> -> ->; simpl.
    rewrite Hl; simpl; unfold hex_decodes; by rewrite Hl, Hh.
Qed.

Lemma ParseDigest_err v e : ParseDigest v = Err e → e = NewInvalidDigestError v.
Proof.
  unfold ParseDigest; destruct (cut ":" v) as [[a h] ok]; repeat case_match; naive_solver.
Qed.

Lemma valid_digest_spec v : valid_digest v = true ↔ ParseDigest v = Ok v.
Proof.
  unfold valid_digest; destruct (ParseDigest v) eqn:H; simpl; [|by split].
  apply ParseDigest_ok in H as [-> _]; done.
Qed.

Lemma Digest_Validate_ok v u : Digest_Validate v = Ok u ↔ valid_digest v = true.
Proof.
  unfold Digest_Validate, valid_digest; destruct (ParseDigest v), u; simpl; naive_solver.
Qed.

Lemma DigestFromBytes_ParseDigest payload :
  ParseDigest (DigestFromBytes payload) = Ok (DigestFromBytes payload).
Proof.
  apply ParseDigest_ok; split; [done|]; eexists; split; [reflexivity|].
  rewrite length_hex_encode, length_sha256; split; [done|].
  eapply str_forallb_impl; [apply lower_hex_is_hex|apply hex_encode_lower, sha256_is_byte].
Qed.

Lemma DigestFromBytes_valid payload : valid_digest (DigestFromBytes payload) = true.
Proof. apply valid_digest_spec, DigestFromBytes_ParseDigest. Qed.
#[export] Hint Resolve DigestFromBytes_valid : go.

(** A digest the registry computed has only lower-case hex digits. *)
Lemma DigestFromBytes_lower payload :
  str_forallb is_lower_hex (Encoded (DigestFromBytes payload)) = true.
Proof.
  unfold Encoded; change (DigestFromBytes payload)
    with (String.append "sha256:" (hex_encode (sha256 (bytes_of payload)))).
  rewrite cut_sha256.
  apply hex_encode_lower, sha256_is_byte.
Qed.

(** The algorithm and the encoding of a parsed digest rebuild it. *)
Lemma Algorithm_Encoded v :
  valid_digest v = true →
  Algorithm v = digestAlgorithmSHA256
  ∧ v = String.append (Algorithm v) (String.append ":" (Encoded v))
  ∧ String.length (Encoded v) = 64%nat ∧ str_forallb is_hex (Encoded v) = true.
Proof.
  intros (_ & h & -> & Hl & Hh)%valid_digest_spec%ParseDigest_ok.
  unfold Algorithm, Encoded; by rewrite cut_sha256.
Qed.

Lemma Descriptor_Validate_ok d u :
  Descriptor_Validate d = Ok u ↔ valid_digest (desc_Digest d) = true ∧ 0 ≤ desc_Size d.
Proof.
  unfold Descriptor_Validate; rewrite rbind_ok; split.
  - intros ([] & Hd%Digest_Validate_ok & H); split; [done|].
    destruct (Z.ltb_spec (desc_Size d) 0); [done|lia].
  - intros [Hd Hs]; exists tt; split; [by apply Digest_Validate_ok|].
    destruct (Z.ltb_spec (desc_Size d) 0); [lia|by destruct u].
Qed.
