(* ===== verification/GoNumbers.v ===== *)
(** Instants and durations: Go's [time.Time] in UTC as nanoseconds since the Unix
    epoch, [time.Duration] as nanoseconds, and the RFC 3339 text the stores write
    into their TEXT columns ([time.RFC3339Nano], which drops trailing zeros of the
    fraction).  A column that holds a formatted instant is modelled by the
    instant; where SQL compares or orders such columns the comparison is the one
    of the texts ([time_text_le]).

    Numbers and durations as text: Go's [strconv.Itoa] and [strconv.Atoi] on
    64-bit integers, [time.Duration.String] and [time.ParseDuration]. *)
From Stdlib Require Import SpecFloat.
From S2P Require Import Prelude GoStrings.

(** * Instants and durations *)

Notation Time := Z (only parsing).
Notation Duration := Z (only parsing).

Definition nanosecond : Duration := 1.
Definition second : Duration := 1000000000.
Definition minute : Duration := 60 * second.
Definition hour : Duration := 60 * minute.

(** The zero [time.Time]: 0001-01-01T00:00:00Z. *)
Definition zero_time : Time := -62135596800 * second.
Definition IsZero (t : Time) : bool := t =? zero_time.

Definition Before (t u : Time) : bool := t <? u.
Definition After (t u : Time) : bool := u <? t.

(** The proleptic Gregorian date of a day number counted from 1970-01-01. *)
Definition civil_from_days (days : Z) : Z * Z * Z :=
  let z := days + 719468 in
  let era := z / 146097 in
  let doe := z mod 146097 in
  let yoe := (doe - doe / 1460 + doe / 36524 - doe / 146096) / 365 in
  let doy := doe - (365 * yoe + yoe / 4 - yoe / 100) in
  let mp := (5 * doy + 2) / 153 in
  let d := doy - (153 * mp + 2) / 5 + 1 in
  let m := if mp <? 10 then mp + 3 else mp - 9 in
  (yoe + era * 400 + (if m <=? 2 then 1 else 0), m, d).

(** The low [n] decimal digits of [x]. *)
Fixpoint digits (n : nat) (x : Z) : string :=
  match n with
  | O => ""
  | S n' => String.append (digits n' (x / 10)) (String (hex_digit (x mod 10)) "")
  end.

Fixpoint trim_zeros (n : nat) (s : string) : string :=
  match n with
  | O => s
  | S n' => if has_suffix "0" s then trim_zeros n' (trim_suffix "0" s) else s
  end.

Definition fraction (ns : Z) : string :=
  if ns =? 0 then "" else String "." (trim_zeros 9 (digits 9 ns)).

(** [t.UTC().Format(time.RFC3339Nano)], for the years 0 to 9999. *)
Definition formatTime (t : Time) : string :=
  let secs := t / second in
  let '(y, m, d) := civil_from_days (secs / 86400) in
  let s := secs mod 86400 in
  foldr String.append "" [digits 4 y; "-"; digits 2 m; "-"; digits 2 d; "T";
    digits 2 (s / 3600); ":"; digits 2 ((s / 60) mod 60); ":"; digits 2 (s mod 60);
    fraction (t mod second); "Z"].

(** How SQL orders two timestamp columns: byte-wise on their texts. *)
Definition time_text_le (t u : Time) : bool := str_leb (formatTime t) (formatTime u).

(** * Checks *)

Example formatTime_epoch : formatTime 0 = "1970-01-01T00:00:00Z".
Proof. vm_compute; reflexivity. Qed.
Example formatTime_zero : formatTime zero_time = "0001-01-01T00:00:00Z".
Proof. vm_compute; reflexivity. Qed.
Example formatTime_leap :
  formatTime (1709210096 * second + 120300000) = "2024-02-29T12:34:56.1203Z".
Proof. vm_compute; reflexivity. Qed.

(** The texts of two instants within one second need not be ordered as the
    instants are: the fraction's dot sorts before the final [Z]. *)
Example text_order_is_not_time_order :
  let t := 1709210096 * second in
  Before t (t + 500000000) = true ∧ time_text_le (t + 500000000) t = true
  ∧ time_text_le t (t + 500000000) = false.
Proof. vm_compute; repeat split; reflexivity. Qed.

(** * Numbers and durations as text *)

Definition max_int64 : Z := 9223372036854775807.
Definition min_int64 : Z := -9223372036854775808.

(** ** Decimal *)

Fixpoint decimal_fuel (fuel : nat) (n : Z) : string :=
  match fuel with
  | O => ""
  | S f => if n <? 10 then String (hex_digit n) "" else
           String.append (decimal_fuel f (n / 10)) (String (hex_digit (n mod 10)) "")
  end.
(** A number that is not negative; it has fewer decimal digits than bits. *)
Definition decimal (n : Z) : string := decimal_fuel (S (Z.to_nat (Z.log2 n))) n.
(** [strconv.Itoa], and [%d]. *)
Definition Itoa (n : Z) : string := if n <? 0 then String "-" (decimal (- n)) else decimal n.

Definition digit_val (a : ascii) : Z := Z.of_nat (code a) - 48.
Fixpoint digits_val (acc : Z) (s : string) : option Z :=
  match s with
  | "" => Some acc
  | String a s' => if is_digit a then digits_val (10 * acc + digit_val a) s' else None
  end.
(** [strconv.Atoi]: [None] where it returns an error. *)
Definition Atoi (s : string) : option Z :=
  let '(neg, ds) := match s with
                    | String "-" ds => (true, ds)
                    | String "+" ds => (false, ds)
                    | _ => (false, s)
                    end in
  if String.eqb ds "" then None else
  n ← digits_val 0 ds;
  let v := if neg then - n else n in
  if (min_int64 <=? v) && (v <=? max_int64) then Some v else None.

(** ** Durations as text *)

Definition microsecond : Duration := 1000.
Definition millisecond : Duration := 1000000.

(** [fmtFrac]: the last [prec] digits of [v] as a fraction, without trailing
    zeros, and the rest of [v]. *)
Definition fmt_frac (v : Z) (prec : nat) : string * Z :=
  let f := v mod 10 ^ Z.of_nat prec in
  ((if f =? 0 then "" else String "." (trim_zeros prec (digits prec f))), v / 10 ^ Z.of_nat prec).
Definition in_unit (u : Z) (prec : nat) (unit : string) : string :=
  let '(frac, v) := fmt_frac u prec in String.append (decimal v) (String.append frac unit).
Definition micro_sign : string := byte_str [194; 181]%nat.

Definition duration_text (u : Z) : string :=
  if u <? second then
    if u =? 0 then "0s"
    else if u <? microsecond then in_unit u 0 "ns"
    else if u <? millisecond then in_unit u 3 (String.append micro_sign "s")
    else in_unit u 6 "ms"
  else
    let '(frac, secs) := fmt_frac u 9 in
    let s := String.append (decimal (secs mod 60)) (String.append frac "s") in
    let mins := secs / 60 in
    if mins =? 0 then s else
    let ms := String.append (decimal (mins mod 60)) (String "m" s) in
    let hours := mins / 60 in
    if hours =? 0 then ms else String.append (decimal hours) (String "h" ms).
(** [time.Duration.String] *)
Definition duration_String (d : Duration) : string :=
  if d <? 0 then String "-" (duration_text (- d)) else duration_text d.

(** ** Text to durations *)

Definition two63 : Z := 9223372036854775808.

(** [leadingInt]: a number below 2^63, or an overflow. *)
Fixpoint leading_int (acc : Z) (s : string) : option (Z * string) :=
  match s with
  | String a s' =>
      if negb (is_digit a) then Some (acc, s) else
      if two63 / 10 <? acc then None else
      let acc' := acc * 10 + digit_val a in
      if two63 <? acc' then None else leading_int acc' s'
  | "" => Some (acc, s)
  end.
(** [leadingFraction]: digits beyond what fits are dropped; the value, the power
    of ten it is over, and the rest. *)
Fixpoint leading_fraction (acc : Z) (scale : nat) (overflow : bool) (s : string) : Z * nat * string :=
  match s with
  | String a s' =>
      if negb (is_digit a) then (acc, scale, s) else
      if overflow then leading_fraction acc scale true s' else
      if (two63 - 1) / 10 <? acc then leading_fraction acc scale true s' else
      let acc' := acc * 10 + digit_val a in
      if two63 <? acc' then leading_fraction acc scale true s' else leading_fraction acc' (S scale) false s'
  | "" => (acc, scale, s)
  end.

(** IEEE double precision. *)
Definition float64 (n : Z) : spec_float := binary_normalize 53 1024 n 0 false.
Definition fmul : spec_float → spec_float → spec_float := SFmul 53 1024.
Definition fdiv : spec_float → spec_float → spec_float := SFdiv 53 1024.
Fixpoint float_scale (n : nat) : spec_float :=
  match n with O => float64 1 | S n' => fmul (float_scale n') (float64 10) end.
(** The conversion of a positive float to an integer drops its fraction. *)
Definition float_trunc (f : spec_float) : Z :=
  match f with
  | S754_finite false m e => if 0 <=? e then Z.pos m * 2 ^ e else Z.pos m / 2 ^ (- e)
  | _ => 0
  end.

Definition unit_of (s : string) : option Duration :=
  if String.eqb s "ns" then Some nanosecond
  else if String.eqb s "us" || String.eqb s (String.append micro_sign "s")
          || String.eqb s (String.append (byte_str [206; 188]%nat) "s") then Some microsecond
  else if String.eqb s "ms" then Some millisecond
  else if String.eqb s "s" then Some second
  else if String.eqb s "m" then Some minute
  else if String.eqb s "h" then Some hour
  else None.
(** A unit reaches up to the next digit or point. *)
Fixpoint span_unit (s : string) : string * string :=
  match s with
  | String a s' => if is_digit a || Ascii.eqb a "." then ("", s) else let '(u, r) := span_unit s' in (String a u, r)
  | "" => ("", "")
  end.

(** One number with its unit. *)
Definition parse_term (s : string) : option (Z * string) :=
  match s with
  | String a _ =>
      if negb (is_digit a || Ascii.eqb a ".") then None else
      '(v, s1) ← leading_int 0 s;
      let pre := negb (String.length s1 =? String.length s)%nat in
      let '(f, scale, s2, post) := match s1 with
                                   | String "." s' => let '(f, scale, r) := leading_fraction 0 0 false s' in
                                                      (f, scale, r, negb (String.length r =? String.length s')%nat)
                                   | _ => (0, O, s1, false)
                                   end in
      if negb pre && negb post then None else
      let '(u, rest) := span_unit s2 in
      if String.eqb u "" then None else
      unit ← unit_of u;
      if two63 / unit <? v then None else
      let v := v * unit in
      let v := if 0 <? f then v + float_trunc (fmul (float64 f) (fdiv (float64 unit) (float_scale scale))) else v in
      if (0 <? f) && (two63 <? v) then None else Some (v, rest)
  | "" => None
  end.
Fixpoint parse_terms (fuel : nat) (d : Z) (s : string) : option Z :=
  match fuel, s with
  | _, "" => Some d
  | O, _ => None
  | S fuel', _ =>
      '(v, rest) ← parse_term s;
      if two63 <? d + v then None else parse_terms fuel' (d + v) rest
  end.
(** [time.ParseDuration]: every term takes at least two bytes. *)
Definition ParseDuration (s : string) : option Duration :=
  let '(neg, s) := match s with
                   | String "-" s' => (true, s')
                   | String "+" s' => (false, s')
                   | _ => (false, s)
                   end in
  if String.eqb s "0" then Some 0 else
  if String.eqb s "" then None else
  d ← parse_terms (String.length s) 0 s;
  if neg then Some (- d) else if max_int64 <? d then None else Some d.

(** What may follow a term, and the texts of whole seconds. *)
Definition at_term (s : string) : Prop := s = "" ∨ ∃ a t, s = String a t ∧ is_digit a = true.
Definition seconds_text (s : Z) : string := String.append (decimal s) "s".
Definition minutes_text (m s : Z) : string := String.append (decimal m) (String "m" (seconds_text s)).
Definition hours_text (h m s : Z) : string := String.append (decimal h) (String "h" (minutes_text m s)).

(** * Checks *)

Example durations : map duration_String [0; 1; 1500; 2500000; 90 * second; 86400 * second; 1001 * millisecond; -15 * minute]
  = ["0s"; "1ns"; "1.5" +:+ micro_sign +:+ "s"; "2.5ms"; "1m30s"; "24h0m0s"; "1.001s"; "-15m0s"].
Proof. vm_compute; reflexivity. Qed.
Example parsed : map ParseDuration ["0"; "1.5h"; "24h0m0s"; "-1m"; ".5s"; "1"; "h"; ""; "3000000h"; "1.1.s"; "1s2"]
  = [Some 0; Some (90 * minute); Some (24 * hour); Some (- minute); Some (500 * millisecond); None; None; None; None;
     None; None].
Proof. vm_compute; reflexivity. Qed.
Example numbers : map Atoi ["12"; "-3"; "+4"; ""; "-"; "1x"; "9223372036854775808"; "-9223372036854775808"]
  = [Some 12; Some (-3); Some 4; None; None; None; None; Some min_int64].
Proof. vm_compute; reflexivity. Qed.

(** * Lemmas *)

Lemma digit_val_hex n : 0 ≤ n < 10 → is_digit (hex_digit n) = true ∧ digit_val (hex_digit n) = n.
Proof.
  intros Hn; assert (n ∈ seqZ 0 10) as Hin by (apply elem_of_seqZ; lia).
  apply (proj1 (Forall_forall (λ n, is_digit (hex_digit n) = true ∧ digit_val (hex_digit n) = n) (seqZ 0 10))); [|done].
  by repeat constructor.
Qed.

Lemma digit_val_bound a : is_digit a = true → 0 ≤ digit_val a < 10.
Proof. intros [H1%Nat.leb_le H2%Nat.leb_le]%andb_true_iff; unfold digit_val; lia. Qed.

Lemma decimal_bound n : 0 ≤ n → n < 10 ^ Z.of_nat (S (Z.to_nat (Z.log2 n))).
Proof.
  intros Hn; rewrite Nat2Z.inj_succ, Z2Nat.id by apply Z.log2_nonneg.
  destruct (decide (n = 0)) as [->|Hz]; [done|].
  pose proof (Z.log2_spec n ltac:(lia)) as [_ Hl].
  eapply Z.lt_le_trans; [exact Hl|]; apply Z.pow_le_mono_l; lia.
Qed.

Lemma decimal_fuel_step f n : 0 ≤ n → n < 10 ^ Z.of_nat (S f) →
  (n < 10 ∧ decimal_fuel (S f) n = String (hex_digit n) "")
  ∨ 0 ≤ n / 10 < 10 ^ Z.of_nat f ∧ decimal_fuel (S f) n = String.append (decimal_fuel f (n / 10)) (String (hex_digit (n mod 10)) "").
Proof.
  intros H0 Hn; rewrite Nat2Z.inj_succ, Z.pow_succ_r in Hn by lia; cbn [decimal_fuel].
  destruct (n <? 10) eqn:Hlt; [left; split; [lia|done]|right; split; [|done]].
  split; [apply Z.div_pos; lia|apply Z.div_lt_upper_bound; lia].
Qed.

(** A reader of decimal digits reads a number's text as that number. *)
Lemma read_decimal {B} (F : Z → string → B) (P : Z → Prop) :
  (∀ acc a t, is_digit a = true → 0 ≤ acc → P (10 * acc + digit_val a) → F acc (String a t) = F (10 * acc + digit_val a) t) →
  (∀ n, 0 ≤ n → P n → P (n / 10)) →
  ∀ n t, 0 ≤ n → P n → F 0 (String.append (decimal n) t) = F n t.
Proof.
  intros HF HP n t H0; unfold decimal; generalize (decimal_bound n H0); generalize (S (Z.to_nat (Z.log2 n))) as f; intros f.
  revert n t H0; induction f as [|f IH]; intros n t H0 Hn Hp.
  - simpl in Hn; by assert (n = 0) as -> by lia.
  - destruct (decimal_fuel_step f n H0 Hn) as [[Hlt ->]|[Hq ->]].
    + destruct (digit_val_hex n) as [Hd Hv]; [lia|]; cbn [String.append]; rewrite HF; rewrite ?Hv; rewrite ?Z.mul_0_r; done || lia.
    + rewrite append_assoc, IH; [|lia|lia|by apply HP]; cbn [String.append].
      destruct (digit_val_hex (n mod 10)) as [Hd Hv]; [apply Z.mod_pos_bound; lia|].
      assert (10 * (n / 10) + n mod 10 = n) as Hdm by (symmetry; apply Z.div_mod; lia).
      rewrite HF; rewrite ?Hv, ?Hdm; done || lia.
Qed.

Lemma leading_decimal n t : 0 ≤ n ≤ two63 → leading_int 0 (String.append (decimal n) t) = leading_int n t.
Proof.
  intros [H0 H1]; apply (read_decimal leading_int (λ n, n ≤ two63)); [|intros m Hm Hle|done|done].
  - intros acc a t' Ha Hacc Hle; simpl; rewrite Ha; simpl.
    pose proof (digit_val_bound a Ha).
    replace (two63 / 10 <? acc) with false by (symmetry; apply Z.ltb_ge, Z.div_le_lower_bound; lia).
    replace (acc * 10) with (10 * acc) by lia.
    by replace (two63 <? 10 * acc + digit_val a) with false by (symmetry; apply Z.ltb_ge; lia).
  - etransitivity; [|exact Hle]; apply Z.div_le_upper_bound; lia.
Qed.
Lemma digits_decimal n t : 0 ≤ n → digits_val 0 (String.append (decimal n) t) = digits_val n t.
Proof.
  intros H0; apply (read_decimal digits_val (λ _, True)); [|done..]; intros acc a t' Ha _ _; simpl; by rewrite Ha.
Qed.

(** The text of a number starts with a digit. *)
Lemma decimal_head n : 0 ≤ n → ∃ a s, decimal n = String a s ∧ is_digit a = true.
Proof.
  intros H0; unfold decimal; generalize (decimal_bound n H0); generalize (Z.to_nat (Z.log2 n)) as f; intros f.
  revert n H0; induction f as [|f IH]; intros n H0 Hn; destruct (decimal_fuel_step _ n H0 Hn) as [[Hlt ->]|[Hq ->]].
  - destruct (digit_val_hex n) as [Hd _]; [lia|]; by eexists _, _.
  - change (10 ^ Z.of_nat 0) with 1 in Hq; replace (n / 10) with 0 by lia; simpl.
    destruct (digit_val_hex (n mod 10)) as [Hd _]; [apply Z.mod_pos_bound; lia|]; by eexists _, _.
  - destruct (digit_val_hex n) as [Hd _]; [lia|]; by eexists _, _.
  - destruct (IH (n / 10)) as (a & s & -> & Ha); [lia|lia|]; by eexists a, _.
Qed.

Lemma decimal_digits n : 0 ≤ n → str_forallb is_digit (decimal n) = true.
Proof.
  intros H0; unfold decimal; generalize (decimal_bound n H0); generalize (S (Z.to_nat (Z.log2 n))) as f; intros f.
  revert n H0; induction f as [|f IH]; intros n H0 Hn; [done|]; destruct (decimal_fuel_step f n H0 Hn) as [[Hlt ->]|[Hq ->]].
  - destruct (digit_val_hex n) as [Hd _]; [lia|]; simpl; by rewrite Hd.
  - rewrite str_forallb_append, IH by lia; simpl.
    by destruct (digit_val_hex (n mod 10)) as [-> _]; [apply Z.mod_pos_bound; lia|].
Qed.

Lemma digit_sign a : is_digit a = true → a ≠ "-"%char ∧ a ≠ "+"%char ∧ a ≠ "."%char.
Proof. intros Ha; split_and!; intros ->; done. Qed.

Lemma Atoi_Itoa n : min_int64 ≤ n ≤ max_int64 → Atoi (Itoa n) = Some n.
Proof.
  intros Hn; assert (∀ m, 0 ≤ m → digits_val 0 (decimal m) = Some m) as Hd.
  { intros m Hm; by rewrite <- (append_nil_r (decimal m)), digits_decimal. }
  assert (∀ m, 0 ≤ m → String.eqb (decimal m) "" = false) as He.
  { intros m Hm; by destruct (decimal_head m Hm) as (a & s & -> & _). }
  unfold Itoa; destruct (n <? 0) eqn:Hneg.
  - unfold Atoi; rewrite He, Hd by lia; simpl; rewrite Z.opp_involutive.
    by replace ((min_int64 <=? n) && (n <=? max_int64)) with true by (symmetry; apply andb_true_iff; split; apply Z.leb_le; lia).
  - pose proof (Hd n ltac:(lia)) as Hd'; pose proof (He n ltac:(lia)) as He'.
    destruct (decimal_head n) as (a & s & Ha & Hda); [lia|]; rewrite Ha in *; apply digit_sign in Hda as (H1 & H2 & _).
    assert (Atoi (String a s) = (n ← digits_val 0 (String a s); if (min_int64 <=? n) && (n <=? max_int64) then Some n else None)) as ->.
    { unfold Atoi; destruct a as [[] [] [] [] [] [] [] []]; done. }
    rewrite Hd'; simpl.
    by replace ((min_int64 <=? n) && (n <=? max_int64)) with true by (symmetry; apply andb_true_iff; split; apply Z.leb_le; lia).
Qed.


Lemma span_unit_letter u rest : is_digit u || Ascii.eqb u "." = false → at_term rest →
  span_unit (String u rest) = (String u "", rest).
Proof.
  intros Hu Hr; cbn [span_unit]; rewrite Hu.
  destruct Hr as [->|(a & t & -> & Ha)]; [done|]; cbn [span_unit]; by rewrite Ha.
Qed.

Lemma parse_term_number n u unit rest :
  0 ≤ n → unit_of (String u "") = Some unit → 0 < unit → n ≤ two63 / unit → is_digit u || Ascii.eqb u "." = false →
  at_term rest → parse_term (String.append (decimal n) (String u rest)) = Some (n * unit, rest).
Proof.
  intros Hn Hunit Hpos Hle Hu Hr; destruct (decimal_head n Hn) as (a & s & Hd & Ha).
  assert (n ≤ two63) as Hn63.
  { etransitivity; [exact Hle|]; apply Z.div_le_upper_bound; [lia|]; unfold two63; lia. }
  unfold parse_term; rewrite Hd; cbn [String.append]; rewrite Ha; cbn [orb negb].
  change (String a (String.append s (String u rest))) with (String.append (String a s) (String u rest)); rewrite <- Hd.
  rewrite leading_decimal by done; cbn [leading_int].
  pose proof Hu as [Hu1 Hu2]%orb_false_iff; rewrite Hu1; cbn [negb mbind option_bind].
  assert ((String.length (String u rest) =? String.length (String.append (decimal n) (String u rest)))%nat = false) as ->.
  { rewrite length_append, Hd; apply Nat.eqb_neq; cbn [String.length]; lia. }
  assert (match String u rest with
          | String "." s' => let '(f, scale, r) := leading_fraction 0 0 false s' in
                             (f, scale, r, negb (String.length r =? String.length s')%nat)
          | _ => (0, O, String u rest, false)
          end = (0, O, String u rest, false)) as ->.
  { clear - Hu2; destruct u as [[] [] [] [] [] [] [] []]; done. }
  cbn beta iota; cbn [negb andb]; rewrite span_unit_letter by done; cbn [String.eqb].
  rewrite Hunit; cbn [mbind option_bind].
  by replace (two63 / unit <? n) with false by (symmetry; apply Z.ltb_ge; lia).
Qed.

Lemma at_term_decimal n t : 0 ≤ n → at_term (String.append (decimal n) t).
Proof. intros Hn; right; destruct (decimal_head n Hn) as (a & s & -> & Ha); by eexists a, _. Qed.

(** The terms of a text, one after the other. *)
Lemma parse_terms_step fuel d s v rest :
  parse_term s = Some (v, rest) → s ≠ "" → d + v ≤ two63 →
  parse_terms (S fuel) d s = parse_terms fuel (d + v) rest.
Proof.
  intros Hp Hs Hle; cbn [parse_terms]; destruct s; [done|]; rewrite Hp; cbn [mbind option_bind].
  by replace (two63 <? d + v) with false by (symmetry; apply Z.ltb_ge; lia).
Qed.
Lemma decimal_text_ne n t : 0 ≤ n → String.append (decimal n) t ≠ "".
Proof. intros Hn; by destruct (decimal_head n Hn) as (a & s & -> & _). Qed.

Lemma whole_seconds u : 0 < u → u mod second = 0 →
  ∃ h m s, 0 ≤ h ∧ 0 ≤ m ∧ 0 ≤ s ∧ u = h * hour + m * minute + s * second
    ∧ duration_text u = (if (h =? 0) && (m =? 0) then String.append (decimal s) "s"
                         else if h =? 0 then String.append (decimal m) (String "m" (String.append (decimal s) "s"))
                         else String.append (decimal h) (String "h" (String.append (decimal m) (String "m"
                                (String.append (decimal s) "s"))))).
Proof.
  intros Hu Hm; apply Z_div_exact_full_2 in Hm; [|done]; set (t := u / second) in *.
  assert (0 < t) by (unfold second in *; lia).
  exists (t / 60 / 60), (t / 60 mod 60), (t mod 60).
  assert (t = 60 * (t / 60) + t mod 60) as E1 by (apply Z.div_mod; lia).
  assert (t / 60 = 60 * (t / 60 / 60) + t / 60 mod 60) as E2 by (apply Z.div_mod; lia).
  pose proof (Z.mod_pos_bound t 60 ltac:(lia)); pose proof (Z.mod_pos_bound (t / 60) 60 ltac:(lia)).
  assert (0 ≤ t / 60) by (apply Z.div_pos; lia); assert (0 ≤ t / 60 / 60) by (apply Z.div_pos; lia).
  split_and!; [lia..| |].
  - unfold hour, minute in *; unfold second in *; lia.
  - unfold duration_text; replace (u <? second) with false by (symmetry; apply Z.ltb_ge; unfold second in *; lia).
    unfold fmt_frac; change (10 ^ Z.of_nat 9) with second.
    replace (u mod second) with 0 by (rewrite Hm, Z.mul_comm; symmetry; apply Z.mod_mul; unfold second; lia).
    cbn [Z.eqb String.append]; fold t.
    destruct (t / 60 / 60 =? 0) eqn:Hh; simpl.
    + destruct (t / 60 =? 0) eqn:Hz.
      * by replace (t / 60 mod 60 =? 0) with true by (symmetry; apply Z.eqb_eq; apply Z.eqb_eq in Hz; by rewrite Hz).
      * apply Z.eqb_eq in Hh; apply Z.eqb_neq in Hz.
        by replace (t / 60 mod 60 =? 0) with false by (symmetry; apply Z.eqb_neq; lia).
    + apply Z.eqb_neq in Hh; by replace (t / 60 =? 0) with false by (symmetry; apply Z.eqb_neq; lia).
Qed.


Lemma parse_seconds fuel v s : (1 ≤ fuel)%nat → 0 ≤ v → 0 ≤ s → v + s * second ≤ two63 →
  parse_terms fuel v (seconds_text s) = Some (v + s * second).
Proof.
  intros Hf Hv Hs Hb; destruct fuel as [|fuel]; [lia|].
  rewrite (parse_terms_step _ _ _ (s * second) ""); [by destruct fuel| |by apply decimal_text_ne|exact Hb].
  apply parse_term_number; [done..| |done|by left].
  apply Z.div_le_lower_bound; unfold second in *; lia.
Qed.
Lemma parse_minutes fuel v m s : (2 ≤ fuel)%nat → 0 ≤ v → 0 ≤ m → 0 ≤ s → v + m * minute + s * second ≤ two63 →
  parse_terms fuel v (minutes_text m s) = Some (v + m * minute + s * second).
Proof.
  intros Hf Hv Hm Hs Hb; destruct fuel as [|fuel]; [lia|].
  rewrite (parse_terms_step _ _ _ (m * minute) (seconds_text s)); [apply parse_seconds; unfold minute, second in *; lia| |by apply decimal_text_ne|].
  - apply parse_term_number; [done..| |done|by apply at_term_decimal].
    apply Z.div_le_lower_bound; unfold minute, second in *; lia.
  - unfold second in *; lia.
Qed.
Lemma parse_hours fuel v h m s : (3 ≤ fuel)%nat → 0 ≤ v → 0 ≤ h → 0 ≤ m → 0 ≤ s →
  v + h * hour + m * minute + s * second ≤ two63 →
  parse_terms fuel v (hours_text h m s) = Some (v + h * hour + m * minute + s * second).
Proof.
  intros Hf Hv Hh Hm Hs Hb; destruct fuel as [|fuel]; [lia|].
  rewrite (parse_terms_step _ _ _ (h * hour) (minutes_text m s)); [apply parse_minutes; unfold hour, minute, second in *; lia| |by apply decimal_text_ne|].
  - apply parse_term_number; [done..| |done|by apply at_term_decimal].
    apply Z.div_le_lower_bound; unfold hour, minute, second in *; lia.
  - unfold minute, second in *; lia.
Qed.

(** The text of a positive number of whole seconds: it starts with a digit and
    reads back. *)
Lemma parse_text u : 0 < u ≤ two63 → u mod second = 0 →
  (∃ a b t, duration_text u = String a (String b t) ∧ is_digit a = true)
  ∧ parse_terms (String.length (duration_text u)) 0 (duration_text u) = Some u.
Proof.
  intros [Hu Hle] Hs; destruct (whole_seconds u Hu Hs) as (h & m & s & Hh & Hm & Hsec & Heq & ->).
  change (String.append (decimal s) "s") with (seconds_text s).
  change (String.append (decimal m) (String "m" (seconds_text s))) with (minutes_text m s).
  change (String.append (decimal h) (String "h" (minutes_text m s))) with (hours_text h m s).
  assert (∀ n c t, 0 ≤ n → ∃ a b s, String.append (decimal n) (String c t) = String a (String b s) ∧ is_digit a = true) as Hhead.
  { intros n c t Hn; destruct (decimal_head n Hn) as (a & [|b s'] & -> & Ha); by eexists a, _, _. }
  assert (∀ n t, 0 ≤ n → (1 + String.length t ≤ String.length (String.append (decimal n) t))%nat) as Hlen.
  { intros n t Hn; rewrite length_append; destruct (decimal_head n Hn) as (a & s' & -> & _); simpl; lia. }
  pose proof (Hlen s "s" Hsec) as L1; fold (seconds_text s) in L1.
  pose proof (Hlen m (String "m" (seconds_text s)) Hm) as L2; fold (minutes_text m s) in L2.
  pose proof (Hlen h (String "h" (minutes_text m s)) Hh) as L3; fold (hours_text h m s) in L3.
  cbn [String.length] in *.
  destruct ((h =? 0) && (m =? 0)) eqn:Hz; [|destruct (h =? 0) eqn:Hh0].
  - split; [by apply Hhead|]; apply andb_true_iff in Hz as [->%Z.eqb_eq ->%Z.eqb_eq]; rewrite parse_seconds; [f_equal|..]; lia.
  - split; [by apply Hhead|]; apply Z.eqb_eq in Hh0 as ->; rewrite parse_minutes; [f_equal|..]; lia.
  - split; [by apply Hhead|]; rewrite parse_hours; [f_equal|..]; lia.
Qed.

(** A number of whole seconds survives being written and read back. *)
Lemma ParseDuration_String d : d mod second = 0 → min_int64 ≤ d ≤ max_int64 → ParseDuration (duration_String d) = Some d.
Proof.
  intros Hs [Hlo Hhi]; destruct (decide (d = 0)) as [->|Hd]; [done|].
  assert (0 < Z.abs d ≤ two63) as Habs by (unfold two63, min_int64, max_int64 in *; lia).
  assert (Z.abs d mod second = 0) as Hsa by (apply Z.mod_divide; [done|]; apply Z.divide_abs_r, Z.mod_divide; done).
  destruct (parse_text _ Habs Hsa) as [(a & b & t & Ht & Ha) Hp]; rewrite Ht in Hp.
  pose proof (digit_sign a Ha) as (H1 & H2 & _); unfold duration_String.
  destruct (d <? 0) eqn:Hneg.
  - replace (- d) with (Z.abs d) by lia; rewrite Ht; unfold ParseDuration.
    replace (String.eqb (String a (String b t)) "0") with false by (symmetry; by apply String.eqb_neq).
    cbn [String.eqb]; rewrite Hp; cbn [mbind option_bind]; f_equal; lia.
  - replace d with (Z.abs d) at 1 by lia; rewrite Ht.
    assert (ParseDuration (String a (String b t))
            = (d ← parse_terms (String.length (String a (String b t))) 0 (String a (String b t));
               if max_int64 <? d then None else Some d)) as ->.
    { unfold ParseDuration; clear - H1 H2; destruct a as [[] [] [] [] [] [] [] []]; done. }
    rewrite Hp; cbn [mbind option_bind]; replace (Z.abs d) with d by lia.
    by replace (max_int64 <? d) with false by (symmetry; apply Z.ltb_ge; lia).
Qed.
