(* ===== verification/Manifest.v ===== *)
(** Manifests, upload states and image indexes: internal/domain/regixtry/manifest.go,
    upload.go and image_index.go. *)
From S2P Require Import Prelude GoStrings Encodings Errors Repository Digest GoNumbers.

(** * Definitions *)

Abbreviation Annotations := (option (gmap string string)).

Record Manifest := mkManifest {
  mf_MediaType : string;
  mf_Digest : Digest;
  mf_Size : Z;
  mf_Payload : string;
  mf_Subject : option Descriptor;
  mf_Config : option Descriptor;
  mf_Layers : list Descriptor;
  mf_Annotations : Annotations;
  mf_ArtifactType : string;
  mf_PushedBy : string;
}.

Definition validate_optional (d : option Descriptor) : res unit :=
  match d with Some d => Descriptor_Validate d | None => Ok tt end.

(** The loop over the layers stops at the first invalid one. *)
Fixpoint validate_layers (l : list Descriptor) : res unit :=
  match l with
  | [] => Ok tt
  | d :: l' => do? Descriptor_Validate d in validate_layers l'
  end.

(** The payload, the layers, the annotations and the two optional descriptors are
    copied ([append], [maps.Clone], [cloneDescriptor]), so the manifest shares no
    storage with the caller. *)
Definition NewManifest (mediaType artifactType payload : string) (config : option Descriptor)
    (layers : list Descriptor) (subject : option Descriptor) (annotations : Annotations)
    : res Manifest :=
  if String.eqb mediaType "" then Err (NewInvalidManifestError "media type is required") else
  do? validate_optional config in
  do? validate_optional subject in
  do? validate_layers layers in
  Ok {| mf_MediaType := mediaType;
        mf_Digest := DigestFromBytes payload;
        mf_Size := Z.of_nat (String.length payload);
        mf_Payload := payload;
        mf_Subject := subject;
        mf_Config := config;
        mf_Layers := layers;
        mf_Annotations := annotations;
        mf_ArtifactType := artifactType;
        mf_PushedBy := "" |}.

Definition Manifest_Validate (m : Manifest) : res unit :=
  if String.eqb (mf_MediaType m) "" then Err (NewInvalidManifestError "media type is required") else
  do? Digest_Validate (mf_Digest m) in
  if negb (mf_Size m =? Z.of_nat (String.length (mf_Payload m)))
  then Err (NewInvalidManifestError "manifest size does not match payload length") else
  if negb (String.eqb (mf_Digest m) (DigestFromBytes (mf_Payload m)))
  then Err (NewDigestMismatchError (mf_Digest m) (DigestFromBytes (mf_Payload m))) else
  do? validate_optional (mf_Config m) in
  do? validate_optional (mf_Subject m) in
  validate_layers (mf_Layers m).

Definition BlobReferences (m : Manifest) : list Descriptor :=
  match mf_Config m with Some c => [c] | None => [] end ++ mf_Layers m.

Definition with_pushed_by (m : Manifest) (user : string) : Manifest :=
  mkManifest (mf_MediaType m) (mf_Digest m) (mf_Size m) (mf_Payload m) (mf_Subject m) (mf_Config m)
    (mf_Layers m) (mf_Annotations m) (mf_ArtifactType m) user.

(** ** Upload states *)

Definition UploadStatusActive : string := "active".
Definition UploadStatusCommitted : string := "committed".
Definition UploadStatusCanceled : string := "canceled".

Record UploadState := mkUpload {
  up_ID : string;
  up_Repository : RepositoryRef;
  up_Status : string;
  up_Size : Z;
  up_StartedAt : Time;
  up_UpdatedAt : Time;
  up_Location : string;
}.
#[global] Instance UploadState_eq_dec : EqDecision UploadState.
Proof. solve_decision. Defined.

Definition UploadState_Validate (u : UploadState) : res unit :=
  if String.eqb (up_ID u) "" then Err (NewValidationError "upload ID is required") else
  do? RepositoryRef_Validate (up_Repository u) in
  if String.eqb (up_Status u) "" then Err (NewValidationError "upload status is required") else
  if up_Size u <? 0 then Err (NewValidationError "upload size must be zero or positive") else
  if IsZero (up_StartedAt u) || IsZero (up_UpdatedAt u)
  then Err (NewValidationError "upload timestamps are required")
  else Ok tt.

(** ** Image indexes *)

Definition OCIImageIndexMediaType : string := "application/vnd.oci.image.index.v1+json".
Definition DockerManifestListMediaType : string :=
  "application/vnd.docker.distribution.manifest.list.v2+json".
Definition MaxImageIndexBytes : Z := Z.shiftl 256 10.
Definition MaxImageIndexEntries : Z := 256.

Record Platform := mkPlatform { pl_Architecture : string; pl_OS : string; pl_Variant : string }.

(** [imageIndexManifestEntry] and [ImageIndexEntry] have the same fields. *)
Record ImageIndexEntry := mkIndexEntry {
  ix_Digest : string;
  ix_MediaType : string;
  ix_Size : Z;
  ix_Platform : option Platform;
}.

Definition IsImageIndexMediaType (mediaType : string) : bool :=
  String.eqb mediaType OCIImageIndexMediaType || String.eqb mediaType DockerManifestListMediaType.

(** [unmarshal] is [json.Unmarshal] into the envelope, [None] on malformed JSON;
    only the [manifests] array is read. *)
Definition ParseImageIndexEntries (unmarshal : string → option (list ImageIndexEntry))
    (payload : string) : res (list ImageIndexEntry) :=
  if MaxImageIndexBytes <? Z.of_nat (String.length payload)
  then Err (NewInvalidManifestError "image index exceeds 262144 bytes") else
  match unmarshal payload with
  | None => Err (NewInvalidManifestError "image index is not valid JSON")
  | Some manifests =>
      if MaxImageIndexEntries <? Z.of_nat (length manifests)
      then Err (NewInvalidManifestError "image index declares more than 256 manifests")
      else Ok (map (λ e, mkIndexEntry (ix_Digest e) (ix_MediaType e) (ix_Size e)
                 ((λ p, mkPlatform (pl_Architecture p) (pl_OS p) (pl_Variant p)) <$> ix_Platform e))
               manifests)
  end.

(** * Lemmas *)

Lemma validate_layers_ok l u : validate_layers l = Ok u ↔ Forall (λ d, Descriptor_Validate d = Ok tt) l.
Proof.
  induction l as [|d l IH]; simpl.
  - by split; [constructor|destruct u].
  - rewrite rbind_ok, Forall_cons; split.
    + intros ([] & Hd & Hl); split; [done|by apply IH].
    + intros [Hd Hl]; exists tt; split; [done|by apply IH].
Qed.

Lemma NewManifest_ok mt at_ p c ls s an m :
  NewManifest mt at_ p c ls s an = Ok m →
  mt ≠ "" ∧ validate_optional c = Ok tt ∧ validate_optional s = Ok tt ∧ validate_layers ls = Ok tt
  ∧ m = mkManifest mt (DigestFromBytes p) (Z.of_nat (String.length p)) p s c ls an at_ "".
Proof.
  unfold NewManifest; destruct (String.eqb_spec mt ""); [done|].
  destruct (validate_optional c) as [[]|]; simpl; [|done].
  destruct (validate_optional s) as [[]|]; simpl; [|done].
  destruct (validate_layers ls) as [[]|]; simpl; [|done].
  by intros [= <-].
Qed.

Lemma with_pushed_by_Validate m u : Manifest_Validate (with_pushed_by m u) = Manifest_Validate m.
Proof. done. Qed.

Lemma with_pushed_by_BlobReferences m u : BlobReferences (with_pushed_by m u) = BlobReferences m.
Proof. done. Qed.

(** Whatever [NewManifest] accepts passes the store's own validation. *)
Lemma NewManifest_Validate mt at_ p c ls s an m :
  NewManifest mt at_ p c ls s an = Ok m → Manifest_Validate m = Ok tt.
Proof.
  intros (Hm & Hc & Hs & Hl & ->)%NewManifest_ok; unfold Manifest_Validate; simpl.
  destruct (String.eqb_spec mt ""); [done|].
  rewrite (proj2 (Digest_Validate_ok (DigestFromBytes p) tt)) by auto with go; simpl.
  rewrite Z.eqb_refl, String.eqb_refl; simpl; by rewrite Hc, Hs, Hl.
Qed.

Lemma Manifest_Validate_ok m u :
  Manifest_Validate m = Ok u →
  mf_MediaType m ≠ "" ∧ mf_Digest m = DigestFromBytes (mf_Payload m)
  ∧ mf_Size m = Z.of_nat (String.length (mf_Payload m))
  ∧ validate_optional (mf_Subject m) = Ok tt
  ∧ Forall (λ d, Descriptor_Validate d = Ok tt) (BlobReferences m).
Proof.
  unfold Manifest_Validate, BlobReferences.
  destruct (String.eqb_spec (mf_MediaType m) ""); [done|].
  destruct (Digest_Validate (mf_Digest m)); simpl; [|done].
  destruct (Z.eqb_spec (mf_Size m) (Z.of_nat (String.length (mf_Payload m)))); simpl; [|done].
  destruct (String.eqb_spec (mf_Digest m) (DigestFromBytes (mf_Payload m))); simpl; [|done].
  destruct (validate_optional (mf_Config m)) as [[]|] eqn:Hc; simpl; [|done].
  destruct (validate_optional (mf_Subject m)) as [[]|] eqn:Hs; simpl; [|done].
  intros Hl%validate_layers_ok; repeat split; try done.
  apply Forall_app; split; [|done].
  destruct (mf_Config m); by repeat constructor.
Qed.

Lemma UploadState_Validate_ok u t :
  UploadState_Validate u = Ok t ↔
  up_ID u ≠ "" ∧ valid_repository (ref_Name (up_Repository u)) = true ∧ up_Status u ≠ ""
  ∧ 0 ≤ up_Size u ∧ IsZero (up_StartedAt u) = false ∧ IsZero (up_UpdatedAt u) = false.
Proof.
  unfold UploadState_Validate; destruct (String.eqb_spec (up_ID u) ""); [by split; [|intros []]|].
  rewrite rbind_ok; setoid_rewrite RepositoryRef_Validate_ok.
  destruct (String.eqb_spec (up_Status u) ""), (Z.ltb_spec (up_Size u) 0),
    (IsZero (up_StartedAt u)), (IsZero (up_UpdatedAt u)); simpl; destruct t;
    (split; [by intros ([] & ? & ?)|intros (?&?&?&?&?&?); (by exists tt) || (done || lia)]).
Qed.

(** Where [NewManifest] stops. *)
Definition bad_descriptor (d : Descriptor) : Prop := valid_digest (desc_Digest d) = false ∨ desc_Size d < 0.
Definition present (d : option Descriptor) : list Descriptor := match d with Some x => [x] | None => [] end.

Lemma Descriptor_Validate_Err d e : Descriptor_Validate d = Err e → bad_descriptor d.
Proof.
  intros He; unfold bad_descriptor; destruct (valid_digest (desc_Digest d)) eqn:Hv; [right|by left].
  apply Z.nle_gt; intros Hs.
  assert (Descriptor_Validate d = Ok tt) as Hok by (apply Descriptor_Validate_ok; by split; [|lia]).
  congruence.
Qed.

Lemma validate_optional_Err d e : validate_optional d = Err e → ∃ x, x ∈ present d ∧ bad_descriptor x.
Proof. destruct d as [d|]; simpl; [|done]; intros He%Descriptor_Validate_Err; exists d; split; [by left|done]. Qed.

Lemma validate_layers_Err l e : validate_layers l = Err e → ∃ x, x ∈ l ∧ bad_descriptor x.
Proof.
  induction l as [|d l IH]; simpl; [done|]; destruct (Descriptor_Validate d) as [[]|x] eqn:Hd; simpl.
  - intros (x & Hx & Hb)%IH; exists x; split; [by right|done].
  - intros _; exists d; split; [by left|by eapply Descriptor_Validate_Err].
Qed.

(** * Properties *)

(** C40: What [NewManifest] builds from a payload passes the validation the stores
    rely on, is stored under the SHA-256 digest of the payload with its true length
    and references exactly the given config and layers; it refuses only an empty
    media type or a descriptor with a malformed digest or a negative size. *)
Theorem new_manifest_is_valid mediaType artifactType payload config layers subject annotations :
  match NewManifest mediaType artifactType payload config layers subject annotations with
  | Ok m => Manifest_Validate m = Ok tt ∧ mf_Digest m = DigestFromBytes payload
      ∧ mf_Size m = Z.of_nat (String.length payload) ∧ BlobReferences m = present config ++ layers
  | Err _ => mediaType = "" ∨ ∃ d, d ∈ present config ++ present subject ++ layers ∧ bad_descriptor d
  end.
Proof.
  destruct (NewManifest _ _ _ _ _ _ _) as [m|e] eqn:Hm.
  - pose proof (NewManifest_Validate _ _ _ _ _ _ _ _ Hm) as Hv; apply NewManifest_ok in Hm as (_ & _ & _ & _ & ->).
    split; [exact Hv|]; by destruct config.
  - unfold NewManifest in Hm; destruct (String.eqb_spec mediaType ""); [by left|right].
    setoid_rewrite elem_of_app; setoid_rewrite elem_of_app.
    destruct (validate_optional config) as [[]|] eqn:Hc; simpl in Hm;
      [|apply validate_optional_Err in Hc as (x & ? & ?); exists x; auto].
    destruct (validate_optional subject) as [[]|] eqn:Hs; simpl in Hm;
      [|apply validate_optional_Err in Hs as (x & ? & ?); exists x; auto].
    destruct (validate_layers layers) as [[]|] eqn:Hl; [done|].
    apply validate_layers_Err in Hl as (x & ? & ?); exists x; auto.
Qed.

(** An image index is accepted only up to 256 KiB of JSON and 256 entries,
    and then gives every entry as it was read; it is refused only when it is larger,
    is not JSON, or has more entries. *)
Theorem parsed_index_is_bounded unmarshal payload :
  match ParseImageIndexEntries unmarshal payload with
  | Ok entries => Z.of_nat (String.length payload) ≤ 262144 ∧ (length entries ≤ 256)%nat ∧ unmarshal payload = Some entries
  | Err _ => 262144 < Z.of_nat (String.length payload) ∨ unmarshal payload = None
      ∨ ∃ l, unmarshal payload = Some l ∧ (256 < length l)%nat
  end.
Proof.
  unfold ParseImageIndexEntries; change MaxImageIndexBytes with 262144; change MaxImageIndexEntries with 256.
  destruct (Z.ltb_spec 262144 (Z.of_nat (String.length payload))); [by left|].
  destruct (unmarshal payload) as [l|]; [|by right; left].
  destruct (Z.ltb_spec 256 (Z.of_nat (length l))); [right; right; exists l; split; [done|lia]|].
  split; [done|split; [rewrite length_map; lia|]]; f_equal.
  induction l as [|[d mt n [[]|]] l IH]; simpl in *; [done|f_equal; apply IH; lia..].
Qed.
