(* ===== verification/Scope.v ===== *)
(** Token scopes: internal/domain/auth/scope.go. *)
From S2P Require Import Prelude GoStrings Errors Repository.

(** * Definitions *)

Definition scopeTypeRepository : string := "repository".
Definition scopeTypeRegixtry : string := "regixtry".
Definition actionPull : string := "pull".
Definition actionPush : string := "push".
Definition actionDelete : string := "delete".
Definition actionCatalog : string := "catalog".
Definition actionWildcard : string := "*".

(** [sc_repository] is the unexported field: the zero [RepositoryRef] unless
    [ParseScope] filled it in. *)
Record Scope := mkScope {
  sc_Type : string;
  sc_Name : string;
  sc_Actions : list string;
  sc_Canonical : string;
  sc_repository : RepositoryRef;
}.
#[global] Instance Scope_eq_dec : EqDecision Scope.
Proof. solve_decision. Defined.

Definition zero_ref : RepositoryRef := mkRef "".

Definition weight (action : string) : nat :=
  if String.eqb action actionPull then 0
  else if String.eqb action actionPush then 1
  else if String.eqb action actionDelete then 2
  else 3.
Definition weight_le (a b : string) : Prop := (weight a ≤ weight b)%nat.
#[global] Instance weight_le_dec a b : Decision (weight_le a b).
Proof. unfold weight_le; apply _. Defined.

Definition allowed_action (repository : bool) (action : string) : bool :=
  if repository
  then String.eqb action actionPull || String.eqb action actionPush || String.eqb action actionDelete
  else String.eqb action actionWildcard.

(** The loop over the comma-separated parts; [actions] lists what was kept, in
    order, and doubles as the [seen] set. *)
Fixpoint collect_actions (repository : bool) (parts actions : list string) : res (list string) :=
  match parts with
  | [] => Ok actions
  | part :: parts' =>
      let action := trim_space part in
      if String.eqb action "" then Err (AuthValidationError "scope actions are required") else
      if negb (allowed_action repository action)
      then Err (AuthValidationError
             (if repository then "repository scope actions must be pull, push, and/or delete"
              else "registry catalog scopes must use *"))
      else if bool_decide (action ∈ actions) then collect_actions repository parts' actions
      else collect_actions repository parts' (actions ++ [action])
  end.

Definition normalizeScopeActions (raw : string) (repository : bool) : res (list string) :=
  let? actions := collect_actions repository (split "," (trim_space raw)) [] in
  let sorted := if repository then merge_sort weight_le actions else sort_by id actions in
  if bool_decide (sorted = []) then Err (AuthValidationError "scope actions are required")
  else Ok sorted.

Definition canonical_scope (ty name : string) (actions : list string) : string :=
  String.append ty (String.append ":" (String.append name (String.append ":" (join "," actions)))).

Definition ParseScope (raw : string) : res Scope :=
  match split ":" (trim_space raw) with
  | [part0; part1; part2] =>
      let resourceType := trim_space part0 in
      let resourceName := trim_space part1 in
      if String.eqb resourceName "" then Err (AuthValidationError "scope resource name is required") else
      if String.eqb resourceType scopeTypeRepository then
        let? repository := ParseRepositoryRef resourceName in
        let? actions := normalizeScopeActions part2 true in
        Ok {| sc_Type := scopeTypeRepository; sc_Name := ref_String repository; sc_Actions := actions;
              sc_Canonical := canonical_scope scopeTypeRepository (ref_String repository) actions;
              sc_repository := repository |}
      else if String.eqb resourceType scopeTypeRegixtry then
        if negb (String.eqb resourceName actionCatalog)
        then Err (AuthValidationError "registry scope name is invalid") else
        let? actions := normalizeScopeActions part2 false in
        Ok {| sc_Type := scopeTypeRegixtry; sc_Name := resourceName; sc_Actions := actions;
              sc_Canonical := canonical_scope scopeTypeRegixtry resourceName actions;
              sc_repository := zero_ref |}
      else Err (AuthValidationError "scope resource type is invalid")
  | _ => Err (AuthValidationError "scope must use the format <type>:<name>:<actions>")
  end.

Definition ParseScopes (values : list string) : res (list Scope) :=
  rmap ParseScope (flat_map (λ v, fields (trim_space v)) values).

(** Keeps the first occurrence of each non-empty canonical form. *)
Fixpoint collect_canonical (scopes : list Scope) (seen : list string) : list string :=
  match scopes with
  | [] => []
  | s :: scopes' =>
      if String.eqb (sc_Canonical s) "" || bool_decide (sc_Canonical s ∈ seen)
      then collect_canonical scopes' seen
      else sc_Canonical s :: collect_canonical scopes' (sc_Canonical s :: seen)
  end.

Definition NormalizeScopes (scopes : list Scope) : string :=
  join " " (sort_by id (collect_canonical scopes [])).

Definition IsRepository (s : Scope) : bool := String.eqb (sc_Type s) scopeTypeRepository.
Definition IsRegixtryCatalog (s : Scope) : bool :=
  String.eqb (sc_Type s) scopeTypeRegixtry && String.eqb (sc_Name s) actionCatalog
  && match sc_Actions s with [a] => String.eqb a actionWildcard | _ => false end.
Definition hasAction (s : Scope) (action : string) : bool :=
  existsb (λ candidate, String.eqb candidate action) (sc_Actions s).
Definition AllowsPull (s : Scope) : bool := hasAction s actionPull.
Definition AllowsPush (s : Scope) : bool := hasAction s actionPush.
Definition AllowsDelete (s : Scope) : bool := hasAction s actionDelete.

(** The action lists a repository scope can carry. *)
Definition action_lists : list (list string) :=
  [[actionPull]; [actionPush]; [actionDelete]; [actionPull; actionPush]; [actionPull; actionDelete];
   [actionPush; actionDelete]; [actionPull; actionPush; actionDelete]].

(** Two scopes of a token. *)
Definition two_scopes : list Scope :=
  match ParseScopes ["repository:team/app:push,pull repository:base:pull"] with Ok l => l | Err _ => [] end.

(** * Normalised actions *)

Lemma allowed_repo_action a :
  allowed_action true a = true ↔ a ∈ [actionPull; actionPush; actionDelete].
Proof.
  unfold allowed_action; rewrite !orb_true_iff, !String.eqb_eq, !elem_of_cons, elem_of_nil; naive_solver.
Qed.

Lemma collect_actions_ok repository parts acc acts :
  collect_actions repository parts acc = Ok acts →
  NoDup acc → Forall (λ a, allowed_action repository a = true) acc →
  NoDup acts ∧ Forall (λ a, allowed_action repository a = true) acts.
Proof.
  revert acc; induction parts as [|part parts IH]; intros acc; simpl; [by intros [= <-]|].
  destruct (String.eqb _ ""); [done|].
  destruct (allowed_action repository (trim_space part)) eqn:Ha; simpl; [|done].
  case_bool_decide as Hin; intros Hc Hnd Hall; apply (IH _ Hc); try done.
  - apply NoDup_app; repeat split; [done| |apply NoDup_singleton].
    intros x Hx ->%list_elem_of_singleton; done.
  - apply Forall_app; split; [done|by repeat constructor].
Qed.

Lemma normalize_repo_actions raw acts :
  normalizeScopeActions raw true = Ok acts → acts ∈ action_lists.
Proof.
  unfold normalizeScopeActions.
  destruct (collect_actions true (split "," (trim_space raw)) []) as [l|] eqn:Hc; simpl; [|done].
  apply collect_actions_ok in Hc as [Hnd Hall]; [|constructor|constructor].
  case_bool_decide as Hs; [done|]; intros [= <-].
  rewrite Forall_forall in Hall; setoid_rewrite allowed_repo_action in Hall.
  assert (length l ≤ 3)%nat as Hlen.
  { apply (submseteq_length l [actionPull; actionPush; actionDelete]).
    by apply NoDup_submseteq. }
  destruct l as [|a [|b [|c [|]]]]; simpl in Hlen; [done|..|lia];
    repeat match goal with
    | H : ∀ x, x ∈ ?x0 :: ?k → _ |- _ =>
        pose proof (H x0 (list_elem_of_here _ _));
        pose proof (λ x Hx, H x (list_elem_of_further x x0 k Hx)); clear H
    end;
    repeat match goal with
    | H : _ ∈ [actionPull; _; _] |- _ => apply elem_of_cons in H as [->|H]
    | H : _ ∈ [_; _] |- _ => apply elem_of_cons in H as [->|H]
    | H : _ ∈ [_] |- _ => apply list_elem_of_singleton in H as ->
    end;
    try (exfalso; revert Hnd; apply (bool_decide_eq_false (NoDup _)); vm_compute; reflexivity);
    apply (bool_decide_unpack _); vm_compute; exact I.
Qed.

Lemma normalize_repo_join acts :
  acts ∈ action_lists → normalizeScopeActions (join "," acts) true = Ok acts.
Proof.
  revert acts; apply Forall_forall; unfold action_lists.
  repeat (constructor; [vm_compute; reflexivity|]); constructor.
Qed.

Lemma normalize_catalog_actions raw acts :
  normalizeScopeActions raw false = Ok acts → acts = [actionWildcard].
Proof.
  unfold normalizeScopeActions.
  destruct (collect_actions false (split "," (trim_space raw)) []) as [l|] eqn:Hc; simpl; [|done].
  apply collect_actions_ok in Hc as [Hnd Hall]; [|constructor|constructor].
  case_bool_decide as Hs; [done|]; intros [= <-].
  destruct l as [|a [|b l]]; [done|..].
  - inversion Hall as [|? ? Ha%String.eqb_eq]; by subst.
  - inversion Hall as [|? ? Ha%String.eqb_eq Hall2]; inversion Hall2 as [|? ? Hb%String.eqb_eq]; subst.
    apply NoDup_cons in Hnd as [Hn _]; destruct Hn; by left.
Qed.

(** * Parsing the canonical form *)

Lemma name_byte_not_colon v : valid_repository v = true → no_char ":" v = true.
Proof.
  intros H%valid_repository_bytes; eapply str_forallb_impl; [|exact H].
  intros a Ha; destruct (Ascii.eqb_spec a ":") as [->|]; [by vm_compute in Ha|done].
Qed.

Lemma actions_shape acts :
  acts ∈ action_lists →
  no_char ":" (join "," acts) = true ∧ str_forallb graphic (join "," acts) = true.
Proof.
  revert acts; apply Forall_forall; unfold action_lists.
  repeat (constructor; [vm_compute; split; reflexivity|]); constructor.
Qed.

Lemma canonical_graphic ty name acts :
  str_forallb graphic ty = true → str_forallb graphic name = true →
  str_forallb graphic (join "," acts) = true → str_forallb graphic (canonical_scope ty name acts) = true.
Proof. unfold canonical_scope; intros; rewrite !str_forallb_append, !andb_true_iff; done. Qed.

Lemma split_canonical ty name acts :
  no_char ":" ty = true → no_char ":" name = true → no_char ":" (join "," acts) = true →
  split ":" (canonical_scope ty name acts) = [ty; name; join "," acts].
Proof.
  intros Ht Hn Ha; unfold canonical_scope.
  change (String.append ":" ?x) with (String ":" x).
  rewrite (split_append ":" ty) by done.
  change (String.append name _) with (String.append name (String ":" (join "," acts))).
  by rewrite (split_append ":" name), split_no_char.
Qed.

(** The canonical scope of a valid repository name and one of the action lists
    parses to exactly that name and those actions. *)
Lemma ParseScope_repository name acts :
  valid_repository name = true → acts ∈ action_lists →
  ParseScope (canonical_scope scopeTypeRepository name acts)
  = Ok (mkScope scopeTypeRepository name acts
          (canonical_scope scopeTypeRepository name acts) (mkRef name)).
Proof.
  intros Hv Ha; pose proof (actions_shape _ Ha) as [Hc Hg].
  pose proof (valid_repository_graphic _ Hv) as Hvg.
  unfold ParseScope; rewrite trim_space_graphic by (by apply canonical_graphic).
  rewrite split_canonical by (done || by apply name_byte_not_colon).
  rewrite !trim_space_graphic by done.
  destruct (String.eqb_spec name "") as [->|_]; [done|].
  rewrite String.eqb_refl, (proj1 (valid_repository_spec name) Hv); simpl.
  by rewrite normalize_repo_join.
Qed.

Definition catalog_scope : Scope :=
  mkScope scopeTypeRegixtry actionCatalog [actionWildcard] "regixtry:catalog:*" zero_ref.

Lemma ParseScope_catalog : ParseScope "regixtry:catalog:*" = Ok catalog_scope.
Proof. vm_compute; reflexivity. Qed.

(** The shape of every scope [ParseScope] returns. *)
Lemma ParseScope_ok raw s :
  ParseScope raw = Ok s →
  (∃ name acts, valid_repository name = true ∧ acts ∈ action_lists
     ∧ s = mkScope scopeTypeRepository name acts
             (canonical_scope scopeTypeRepository name acts) (mkRef name))
  ∨ s = catalog_scope.
Proof.
  unfold ParseScope; destruct (split _ _) as [|p0 [|p1 [|p2 [|]]]]; try done; simpl.
  destruct (String.eqb (trim_space p1) ""); [done|].
  destruct (String.eqb (trim_space p0) scopeTypeRepository).
  - destruct (ParseRepositoryRef _) as [r|] eqn:Hr; simpl; [|done].
    destruct (normalizeScopeActions p2 true) as [acts|] eqn:Ha; simpl; [|done].
    intros [= <-]; left; exists (trim_space p1), acts.
    apply parsed_ref_valid in Hr as [-> Hv]; repeat split; [done|].
    by apply normalize_repo_actions in Ha.
  - destruct (String.eqb (trim_space p0) scopeTypeRegixtry); [|done].
    destruct (String.eqb_spec (trim_space p1) actionCatalog) as [->|]; simpl; [|done].
    destruct (normalizeScopeActions p2 false) as [acts|] eqn:Ha; simpl; [|done].
    apply normalize_catalog_actions in Ha as ->; intros [= <-]; by right.
Qed.

Lemma canonical_word s :
  (∃ raw, ParseScope raw = Ok s) → sc_Canonical s ≠ "" ∧ str_forallb graphic (sc_Canonical s) = true.
Proof.
  intros [raw [(name & acts & Hv & Ha & ->)| ->]%ParseScope_ok]; cbn [sc_Canonical]; [split; [done|]|done].
  apply canonical_graphic; [done|by apply valid_repository_graphic|by apply actions_shape].
Qed.

(** ** Round trips *)

Lemma collect_canonical_spec scopes seen c :
  c ∈ collect_canonical scopes seen ↔
  c ≠ "" ∧ c ∉ seen ∧ ∃ s, s ∈ scopes ∧ sc_Canonical s = c.
Proof.
  revert seen; induction scopes as [|s scopes IH]; intros seen; simpl.
  { rewrite elem_of_nil; split; [done|]; by intros (_ & _ & ? & ?%elem_of_nil & _). }
  destruct (String.eqb_spec (sc_Canonical s) "") as [He|He]; simpl.
  { rewrite IH; setoid_rewrite elem_of_cons; naive_solver. }
  case_bool_decide as Hin.
  - rewrite IH; setoid_rewrite elem_of_cons; naive_solver.
  - rewrite elem_of_cons, IH; setoid_rewrite elem_of_cons; split; [naive_solver|].
    intros (? & ? & s' & [->|Hs'] & <-); [by left|].
    destruct (decide (sc_Canonical s' = sc_Canonical s)) as [|]; [by left|right]; naive_solver.
Qed.

Lemma collect_canonical_NoDup scopes seen : NoDup (collect_canonical scopes seen).
Proof.
  revert seen; induction scopes as [|s scopes IH]; intros seen; simpl; [constructor|].
  destruct (_ || _); [done|]; constructor; [|done].
  rewrite collect_canonical_spec; intros (_ & Hn & _); apply Hn; by left.
Qed.

(** A scope whose canonical form parses to a scope with that canonical form. *)
Definition canonical (s : Scope) : Prop :=
  ∃ s', ParseScope (sc_Canonical s) = Ok s' ∧ sc_Canonical s' = sc_Canonical s.

Lemma parsed_scope_reparses raw s : ParseScope raw = Ok s → ParseScope (sc_Canonical s) = Ok s.
Proof.
  intros [(name & acts & Hv & Ha & ->)| ->]%ParseScope_ok; cbn [sc_Canonical].
  - by apply ParseScope_repository.
  - apply ParseScope_catalog.
Qed.

Lemma parsed_canonical raw s : ParseScope raw = Ok s → canonical s.
Proof. intros H; exists s; split; [by eapply parsed_scope_reparses|done]. Qed.
#[export] Hint Resolve parsed_canonical : go.

Lemma canonical_is_word s :
  canonical s → sc_Canonical s ≠ "" ∧ str_forallb graphic (sc_Canonical s) = true.
Proof. intros (s' & Hp & <-); apply canonical_word; eauto. Qed.

(** [ParseScopes] of a space-separated list of canonical scopes. *)
Lemma ParseScopes_join ws :
  Forall (λ w, w ≠ "" ∧ str_forallb graphic w = true) ws →
  ParseScopes [join " " ws] = rmap ParseScope ws.
Proof.
  intros H; unfold ParseScopes; cbn [flat_map]; rewrite app_nil_r.
  by rewrite trim_space_join, fields_join.
Qed.

(** The normal form of a scope list parses back to its canonical scopes, sorted,
    without duplicates. *)
Lemma NormalizeScopes_ParseScopes scopes :
  Forall (λ s, sc_Canonical s = "" ∨ canonical s) scopes →
  ∃ l, ParseScopes [NormalizeScopes scopes] = Ok l
       ∧ map sc_Canonical l = sort_by id (collect_canonical scopes [])
       ∧ Forall (λ s', ∃ s, s ∈ scopes ∧ ParseScope (sc_Canonical s) = Ok s') l.
Proof.
  intros Hall; unfold NormalizeScopes.
  set (ws := sort_by id (collect_canonical scopes [])).
  assert (∀ w, w ∈ ws → ∃ s, s ∈ scopes ∧ sc_Canonical s = w ∧ canonical s) as Hws.
  { intros w [Hne [_ (s & Hs & <-)]]%elem_of_sort_by%collect_canonical_spec; exists s.
    rewrite Forall_forall in Hall; destruct (Hall s Hs); naive_solver. }
  rewrite ParseScopes_join; last first.
  { apply Forall_forall; intros w (s & _ & <- & Hc)%Hws; by apply canonical_is_word. }
  clearbody ws; induction ws as [|w ws IH]; simpl; [by exists []|].
  destruct IH as (l & -> & Hl & Hf); [intros; apply Hws; by right|].
  destruct (Hws w) as (s & Hs & <- & s' & Hp & Hc); [by left|].
  rewrite Hp; simpl; exists (s' :: l); repeat split; [by simpl; rewrite Hl, Hc|].
  constructor; eauto.
Qed.

(** * Properties *)

(** A scope list survives being written into a token: the canonical text of a
    parsed scope parses back to that very scope, and the normal form of any list of
    parsed scopes parses back to the same set of scopes, each once and in order. *)
Theorem scopes_round_trip scopes :
  Forall (λ s, ∃ raw, ParseScope raw = Ok s) scopes →
  Forall (λ s, ParseScope (sc_Canonical s) = Ok s) scopes
  ∧ ∃ l, ParseScopes [NormalizeScopes scopes] = Ok l ∧ (∀ s, s ∈ l ↔ s ∈ scopes)
      ∧ StronglySorted str_le (map sc_Canonical l) ∧ NoDup (map sc_Canonical l).
Proof.
  intros Hall; rewrite Forall_forall in Hall.
  assert (∀ s, s ∈ scopes → ParseScope (sc_Canonical s) = Ok s) as Hre by (intros s [raw Hs]%Hall; by eapply parsed_scope_reparses).
  split; [by apply Forall_forall|].
  destruct (NormalizeScopes_ParseScopes scopes) as (l & Hl & Hm & Hf).
  { apply Forall_forall; intros s Hs; right; exists s; split; [by apply Hre|done]. }
  rewrite Forall_forall in Hf; exists l; split; [exact Hl|]; rewrite Hm; split_and!.
  - intros s; split.
    + intros (s' & Hs' & Hp)%Hf; rewrite (Hre s' Hs') in Hp; by injection Hp as <-.
    + intros Hs; assert (sc_Canonical s ∈ map sc_Canonical l) as Hc.
      { rewrite Hm; apply elem_of_sort_by, collect_canonical_spec; destruct (canonical_is_word s) as [Hne _];
          [exists s; split; [by apply Hre|done]|]; split_and!; [done|apply not_elem_of_nil|by exists s]. }
      apply list_elem_of_In, in_map_iff in Hc as (s2 & Heq & Hs2%list_elem_of_In).
      destruct (Hf s2 Hs2) as (s3 & Hs3 & Hp); rewrite (Hre s3 Hs3) in Hp; injection Hp as ->.
      pose proof (Hre s2 Hs3) as Hp2; rewrite Heq, (Hre s Hs) in Hp2; by injection Hp2 as ->.
  - apply (sort_by_sorted id).
  - rewrite sort_by_perm; apply collect_canonical_NoDup.
Qed.

(** * Witnesses *)

Lemma scopes_round_trip_witness :
  length two_scopes = 2%nat ∧ ∃ l, ParseScopes [NormalizeScopes two_scopes] = Ok l ∧ ∀ s, s ∈ l ↔ s ∈ two_scopes.
Proof.
  split; [reflexivity|]; destruct (scopes_round_trip two_scopes) as (_ & l & Hl & Hin & _).
  - repeat constructor.
    + exists "repository:team/app:push,pull"; vm_compute; reflexivity.
    + exists "repository:base:pull"; vm_compute; reflexivity.
  - exists l; split; [exact Hl|exact Hin].
Defined.
