(* ===== verification/Auth.v ===== *)
(** Roles, grants, users and tokens: internal/domain/auth/grant.go, user.go and
    token.go. *)
From S2P Require Import Prelude GoStrings Errors Repository GoNumbers Scope.

(** * Definitions *)

(** The Go string type [RepoRole]: any string may arrive from a request. *)
Notation RepoRole := string (only parsing).
Definition RepoRoleReader : RepoRole := "repo-reader".
Definition RepoRoleWriter : RepoRole := "repo-writer".
Definition RepoRoleAdmin : RepoRole := "repo-admin".

Definition RepoRole_Validate (r : RepoRole) : res unit :=
  if String.eqb r RepoRoleReader || String.eqb r RepoRoleWriter || String.eqb r RepoRoleAdmin
  then Ok tt else Err (AuthValidationError "repository role is invalid").

Definition AllowsRead (r : RepoRole) : bool :=
  String.eqb r RepoRoleReader || String.eqb r RepoRoleWriter || String.eqb r RepoRoleAdmin.
Definition AllowsWrite (r : RepoRole) : bool := String.eqb r RepoRoleWriter || String.eqb r RepoRoleAdmin.
Definition AllowsAdmin (r : RepoRole) : bool := String.eqb r RepoRoleAdmin.

Record RepoGrant := mkGrant {
  g_UserID : string;
  g_Repository : RepositoryRef;
  g_Role : RepoRole;
  g_CreatedAt : Time;
  g_UpdatedAt : Time;
}.
#[global] Instance RepoGrant_eq_dec : EqDecision RepoGrant.
Proof. solve_decision. Defined.

Definition RepoGrant_Validate (g : RepoGrant) : res unit :=
  if String.eqb (g_UserID g) "" then Err (AuthValidationError "grant user id is required") else
  do? RepositoryRef_Validate (g_Repository g) in
  do? RepoRole_Validate (g_Role g) in
  if IsZero (g_CreatedAt g) then Err (AuthValidationError "grant created at is required") else
  if IsZero (g_UpdatedAt g) then Err (AuthValidationError "grant updated at is required") else
  Ok tt.

(** ** Users *)

Definition user_edge (a : ascii) : bool := is_upper a || is_lower a || is_digit a.
Definition user_inner (a : ascii) : bool :=
  user_edge a || Ascii.eqb a "." || Ascii.eqb a "_" || Ascii.eqb a "-".

(** [^[A-Za-z0-9](?:[A-Za-z0-9._-]*[A-Za-z0-9])?$] *)
Definition usernamePattern : re :=
  RCat (RClass user_edge) (ROpt (RCat (RStar (RClass user_inner)) (RClass user_edge))).

Definition RobotPasswordHash : string := "robot:no-password".

Record User := mkUser {
  u_ID : string;
  u_Username : string;
  u_PasswordHash : string;
  u_IsAdmin : bool;
  u_IsReadOnly : bool;
  u_IsRobot : bool;
  u_Enabled : bool;
  u_CreatedAt : Time;
  u_UpdatedAt : Time;
}.
#[global] Instance User_eq_dec : EqDecision User.
Proof. solve_decision. Defined.

Definition User_Validate (u : User) : res unit :=
  let username := trim_space (u_Username u) in
  if String.eqb username "" then Err (AuthValidationError "username is required") else
  if negb (re_match usernamePattern username)
  then Err (AuthValidationError "username must contain only letters, numbers, dot, dash, or underscore") else
  if String.eqb (trim_space (u_ID u)) "" then Err (AuthValidationError "user id is required") else
  if String.eqb (trim_space (u_PasswordHash u)) ""
  then Err (AuthValidationError "password hash is required") else
  if IsZero (u_CreatedAt u) then Err (AuthValidationError "created at is required") else
  if IsZero (u_UpdatedAt u) then Err (AuthValidationError "updated at is required") else
  if u_IsRobot u && (u_IsAdmin u || u_IsReadOnly u)
  then Err (AuthValidationError "robot accounts cannot be admin or read-only") else
  Ok tt.

Definition User_Active (u : User) : bool := u_Enabled u.

(** ** Tokens *)

Notation TokenKind := string (only parsing).
Definition TokenKindAccess : TokenKind := "access".
Definition TokenKindAdminCredential : TokenKind := "admin-credential".
Definition AccessTokenTTL : Duration := 15 * minute.
Definition DefaultAdminTokenTTL : Duration := 30 * 24 * hour.

Record Token := mkToken {
  t_ID : string;
  t_UserID : string;
  t_Kind : TokenKind;
  t_Name : string;
  t_Scope : string;
  t_Accessor : string;
  t_SecretHash : string;
  t_ExpiresAt : Time;
  t_CreatedAt : Time;
  t_RevokedAt : option Time;
}.
#[global] Instance Token_eq_dec : EqDecision Token.
Proof. solve_decision. Defined.

Definition Token_Scopes (t : Token) : res (list Scope) :=
  let trimmed := trim_space (t_Scope t) in
  if String.eqb trimmed "" then Ok [] else ParseScopes [trimmed].

Definition Token_Validate (t : Token) : res unit :=
  if String.eqb (trim_space (t_ID t)) "" then Err (AuthValidationError "token id is required") else
  if String.eqb (trim_space (t_UserID t)) "" then Err (AuthValidationError "token user id is required") else
  if negb (String.eqb (t_Kind t) TokenKindAccess) && negb (String.eqb (t_Kind t) TokenKindAdminCredential)
  then Err (AuthValidationError "token kind is invalid") else
  if String.eqb (trim_space (t_Accessor t)) "" then Err (AuthValidationError "token accessor is required") else
  if String.eqb (trim_space (t_SecretHash t)) ""
  then Err (AuthValidationError "token secret hash is required") else
  if IsZero (t_CreatedAt t) then Err (AuthValidationError "token created at is required") else
  if IsZero (t_ExpiresAt t) then Err (AuthValidationError "token expires at is required") else
  if negb (After (t_ExpiresAt t) (t_CreatedAt t))
  then Err (AuthValidationError "token expiry must be after creation") else
  if String.eqb (t_Kind t) TokenKindAccess && negb (String.eqb (t_Name t) "")
  then Err (AuthValidationError "access tokens must not have a display name") else
  if String.eqb (t_Kind t) TokenKindAdminCredential && negb (String.eqb (trim_space (t_Scope t)) "")
  then Err (AuthValidationError "admin credential tokens must not store access scope") else
  do? Token_Scopes t in Ok tt.

Definition IsExpired (t : Token) (now : Time) : bool := negb (Before now (t_ExpiresAt t)).
Definition IsRevoked (t : Token) : bool := match t_RevokedAt t with Some _ => true | None => false end.
Definition IsActive (t : Token) (now : Time) : res unit :=
  if IsRevoked t then Err (NewRevokedTokenError (t_Accessor t)) else
  if IsExpired t now then Err (NewExpiredTokenError (t_Accessor t)) else Ok tt.

(** * Lemmas *)

Lemma RepoRole_Validate_ok r u : RepoRole_Validate r = Ok u ↔ AllowsRead r = true.
Proof. unfold RepoRole_Validate, AllowsRead; destruct u; by destruct (_ || _ || _). Qed.

Lemma role_chain r : (AllowsAdmin r = true → AllowsWrite r = true) ∧ (AllowsWrite r = true → AllowsRead r = true).
Proof. unfold AllowsAdmin, AllowsWrite, AllowsRead; rewrite !orb_true_iff; naive_solver. Qed.

Lemma reader_only_reads :
  AllowsRead RepoRoleReader = true ∧ AllowsWrite RepoRoleReader = false ∧ AllowsAdmin RepoRoleReader = false.
Proof. done. Qed.

Lemma User_Validate_robot u t :
  User_Validate u = Ok t → u_IsRobot u = true → u_IsAdmin u = false ∧ u_IsReadOnly u = false.
Proof.
  unfold User_Validate; repeat (case_match; [done|]); simpl; intros _ Hr.
  rewrite Hr in *; simpl in *; destruct (u_IsAdmin u), (u_IsReadOnly u); naive_solver.
Qed.

Lemma User_Validate_id u t : User_Validate u = Ok t → u_ID u ≠ "".
Proof.
  unfold User_Validate; repeat (case_match; [done|]); intros _ He.
  rewrite He in *; done.
Qed.

(** [User_Validate] does not look at [Enabled]. *)
Lemma User_Validate_ext u u' :
  u_ID u = u_ID u' → u_Username u = u_Username u' → u_PasswordHash u = u_PasswordHash u' →
  u_IsAdmin u = u_IsAdmin u' → u_IsReadOnly u = u_IsReadOnly u' → u_IsRobot u = u_IsRobot u' →
  u_CreatedAt u = u_CreatedAt u' → u_UpdatedAt u = u_UpdatedAt u' →
  User_Validate u = User_Validate u'.
Proof. unfold User_Validate; by intros -> -> -> -> -> -> -> ->. Qed.

Lemma IsActive_ok t now u :
  IsActive t now = Ok u ↔ t_RevokedAt t = None ∧ now < t_ExpiresAt t.
Proof.
  unfold IsActive, IsRevoked, IsExpired, Before; destruct u.
  destruct (t_RevokedAt t); [naive_solver|].
  destruct (Z.ltb_spec now (t_ExpiresAt t)); simpl; naive_solver lia.
Qed.

Lemma Token_Validate_scopes t u : Token_Validate t = Ok u → ∃ l, Token_Scopes t = Ok l.
Proof. unfold Token_Validate; repeat (case_match; [done|]); rewrite rbind_ok; naive_solver. Qed.

Lemma Token_Validate_expiry t u : Token_Validate t = Ok u → t_CreatedAt t < t_ExpiresAt t.
Proof.
  unfold Token_Validate; repeat (case_match; [done|]); intros _.
  match goal with H : negb (After _ _) = false |- _ =>
    apply negb_false_iff in H; unfold After in H; by apply Z.ltb_lt end.
Qed.

(** Revoking a token does not change whether it validates. *)
Lemma Token_Validate_revoked t r :
  Token_Validate (mkToken (t_ID t) (t_UserID t) (t_Kind t) (t_Name t) (t_Scope t) (t_Accessor t)
    (t_SecretHash t) (t_ExpiresAt t) (t_CreatedAt t) r) = Token_Validate t.
Proof. done. Qed.
