(* ===== verification/Access.v ===== *)
(** What a principal may do: internal/domain/auth/principal.go, and the access
    controllers and actions of internal/ports (defaults.go, regixtry.go). *)
From S2P Require Import Prelude GoStrings Errors Repository GoNumbers Scope Auth.

(** * Definitions *)

Record Principal := mkPrincipal {
  p_Subject : string;
  p_UserID : string;
  p_Username : string;
  p_IsAdmin : bool;
  p_IsReadOnly : bool;
  p_Grants : list RepoGrant;
  p_Scopes : list Scope;
  p_ExpiresAt : Time;
}.
#[global] Instance Principal_eq_dec : EqDecision Principal.
Proof. solve_decision. Defined.

Section PrincipalMethods.
Variable p : Principal.

Definition hasGrantedRepositoryAccess (repository : string) (allows : RepoRole → bool) : bool :=
  if p_IsAdmin p then true else
  if p_IsReadOnly p && allows RepoRoleReader then true else
  existsb (λ grant, String.eqb (ref_String (g_Repository grant)) repository && allows (g_Role grant))
    (p_Grants p).

Definition scopeAllowsRepository (repository : string) (allows : Scope → bool) : bool :=
  existsb (λ scope, IsRepository scope && String.eqb (sc_Name scope) repository && allows scope)
    (p_Scopes p).

Definition scopeAllowsCatalog : bool := existsb IsRegixtryCatalog (p_Scopes p).

Definition HasReadAccess (repository : string) : bool :=
  hasGrantedRepositoryAccess repository AllowsRead && scopeAllowsRepository repository AllowsPull.
Definition HasWriteAccess (repository : string) : bool :=
  hasGrantedRepositoryAccess repository AllowsWrite && scopeAllowsRepository repository AllowsPush.
Definition HasGrantedWriteAccess (repository : string) : bool :=
  hasGrantedRepositoryAccess repository AllowsWrite.
Definition HasDeleteAccess (repository : string) : bool :=
  hasGrantedRepositoryAccess repository AllowsWrite && scopeAllowsRepository repository AllowsDelete.
Definition HasRepoAdminAccess (repository : string) : bool :=
  if negb (hasGrantedRepositoryAccess repository AllowsAdmin) then false
  else scopeAllowsRepository repository AllowsPush.
Definition HasCatalogAccess (repository : string) : bool :=
  if negb (hasGrantedRepositoryAccess repository AllowsRead) then false
  else scopeAllowsCatalog || scopeAllowsRepository repository AllowsPull.
Definition CanAccessCatalog : bool :=
  if scopeAllowsCatalog then true
  else existsb (λ scope, IsRepository scope && AllowsPull scope) (p_Scopes p).
End PrincipalMethods.

(** ** Actions and challenges *)

Inductive ActionVerb := ActionPull | ActionPush | ActionDelete | ActionCatalog | ActionInspect.

Record Action := mkAction {
  a_Verb : ActionVerb;
  a_Repository : string;
  a_Principal : option Principal;
}.

Definition WithPrincipal (a : Action) (p : option Principal) : Action :=
  mkAction (a_Verb a) (a_Repository a) p.

Definition Action_Scope (a : Action) : string :=
  match a_Verb a with
  | ActionCatalog => "regixtry:catalog:*"
  | ActionPull | ActionInspect =>
      if String.eqb (a_Repository a) "" then ""
      else String.append "repository:" (String.append (a_Repository a) ":pull")
  | ActionPush =>
      if String.eqb (a_Repository a) "" then ""
      else String.append "repository:" (String.append (a_Repository a) ":pull,push")
  | ActionDelete =>
      if String.eqb (a_Repository a) "" then ""
      else String.append "repository:" (String.append (a_Repository a) ":delete")
  end.

Record Challenge := mkChallenge {
  ch_Scheme : string;
  ch_Realm : string;
  ch_Service : string;
  ch_Scope : string;
  ch_Error : string;
}.

Definition default_to (d s : string) : string := if String.eqb s "" then d else s.

(** The interface [ports.AccessController]. *)
Class AccessController := {
  Authorize : Action → res unit;
  ac_Challenge : Action → Challenge;
}.

Definition scoped_challenge (c : Challenge) (a : Action) : Challenge :=
  mkChallenge (ch_Scheme c) (ch_Realm c) (ch_Service c) (Action_Scope a) (ch_Error c).

Record AccessConfig := mkAccessConfig {
  AllowAnonymousPull : bool;
  AllowAnonymousPush : bool;
  cfg_Realm : string;
  cfg_Service : string;
}.

Definition configurable_Authorize (allowPull allowPush : bool) (a : Action) : res unit :=
  match a_Principal a with
  | Some _ => Ok tt
  | None =>
      if (match a_Verb a with ActionPull | ActionInspect | ActionCatalog => true | _ => false end)
         && allowPull then Ok tt else
      if (match a_Verb a with ActionPush => true | _ => false end) && allowPush then Ok tt else
      Err (NewUnauthorizedError "authentication required")
  end.

Definition NewConfigurableAccessController (config : AccessConfig) : AccessController := {|
  Authorize := configurable_Authorize (AllowAnonymousPull config) (AllowAnonymousPush config);
  ac_Challenge := scoped_challenge
    (mkChallenge "Bearer" (default_to "regixtry" (cfg_Realm config))
       (default_to "regixtry" (cfg_Service config)) "" "");
|}.

Definition principal_Authorize (a : Action) : res unit :=
  match a_Principal a with
  | None => Err (NewUnauthorizedError "authentication required")
  | Some p =>
      let allowed :=
        match a_Verb a with
        | ActionCatalog => CanAccessCatalog p
        | ActionPull | ActionInspect =>
            String.eqb (a_Repository a) "" || HasReadAccess p (a_Repository a)
        | ActionPush => negb (String.eqb (a_Repository a) "") && HasWriteAccess p (a_Repository a)
        | ActionDelete => negb (String.eqb (a_Repository a) "") && HasDeleteAccess p (a_Repository a)
        end in
      if allowed then Ok tt else Err (NewUnauthorizedError "authorization required")
  end.

Definition NewPrincipalAccessController (c : Challenge) : AccessController := {|
  Authorize := principal_Authorize;
  ac_Challenge := scoped_challenge
    (mkChallenge (default_to "Bearer" (ch_Scheme c)) (default_to "regixtry" (ch_Realm c))
       (default_to "regixtry" (ch_Service c)) (ch_Scope c) (ch_Error c));
|}.

(** A reader with a pull token. *)
Definition reader_of_team : Principal :=
  mkPrincipal "acc" "u1" "alice" false false [mkGrant "u1" (mkRef "team/app") RepoRoleReader 1 1]
    (match ParseScope "repository:team/app:pull" with Ok s => [s] | Err _ => [] end) 10.
(** * Lemmas *)

Lemma existsb_elem {A} (f : A → bool) l : existsb f l = true ↔ ∃ x, x ∈ l ∧ f x = true.
Proof. rewrite existsb_exists; by setoid_rewrite list_elem_of_In. Qed.

Lemma granted_spec p repo allows :
  hasGrantedRepositoryAccess p repo allows = true ↔
  p_IsAdmin p = true
  ∨ (p_IsReadOnly p = true ∧ allows RepoRoleReader = true)
  ∨ ∃ g, g ∈ p_Grants p ∧ ref_Name (g_Repository g) = repo ∧ allows (g_Role g) = true.
Proof.
  unfold hasGrantedRepositoryAccess, ref_String.
  destruct (p_IsAdmin p); [by split; [left|]|].
  rewrite <- (andb_true_iff (p_IsReadOnly p)).
  destruct (p_IsReadOnly p && allows RepoRoleReader); [by split; [right; left|]|].
  rewrite existsb_elem; setoid_rewrite andb_true_iff; setoid_rewrite String.eqb_eq.
  split; [by right; right|by intros [|[|]]].
Qed.

Lemma scope_allows_spec p repo allows :
  scopeAllowsRepository p repo allows = true ↔
  ∃ s, s ∈ p_Scopes p ∧ IsRepository s = true ∧ sc_Name s = repo ∧ allows s = true.
Proof.
  unfold scopeAllowsRepository; rewrite existsb_elem.
  setoid_rewrite andb_true_iff; setoid_rewrite andb_true_iff; setoid_rewrite String.eqb_eq.
  by split; intros (s & ?); exists s; tauto.
Qed.

Lemma writer_spec p repo :
  hasGrantedRepositoryAccess p repo AllowsWrite = true ↔
  p_IsAdmin p = true ∨ ∃ g, g ∈ p_Grants p ∧ ref_Name (g_Repository g) = repo ∧ g_Role g ∈ [RepoRoleWriter; RepoRoleAdmin].
Proof.
  rewrite granted_spec; unfold AllowsWrite; setoid_rewrite orb_true_iff; setoid_rewrite String.eqb_eq.
  setoid_rewrite elem_of_cons; setoid_rewrite list_elem_of_singleton; naive_solver.
Qed.

Lemma reader_spec p repo :
  hasGrantedRepositoryAccess p repo AllowsRead = true ↔
  p_IsAdmin p = true ∨ p_IsReadOnly p = true
  ∨ ∃ g, g ∈ p_Grants p ∧ ref_Name (g_Repository g) = repo ∧ g_Role g ∈ [RepoRoleReader; RepoRoleWriter; RepoRoleAdmin].
Proof.
  rewrite granted_spec; unfold AllowsRead; setoid_rewrite orb_true_iff; setoid_rewrite orb_true_iff; setoid_rewrite String.eqb_eq.
  setoid_rewrite elem_of_cons; setoid_rewrite elem_of_cons; setoid_rewrite list_elem_of_singleton; naive_solver.
Qed.

(** What the scope of a challenge parses to. *)
Lemma challenge_scope_parses a :
  valid_repository (a_Repository a) = true → a_Verb a ≠ ActionCatalog →
  ∃ s, ParseScope (Action_Scope a) = Ok s ∧ IsRepository s = true ∧ sc_Name s = a_Repository a
       ∧ match a_Verb a with
         | ActionPull | ActionInspect => AllowsPull s = true
         | ActionPush => AllowsPull s = true ∧ AllowsPush s = true ∧ AllowsDelete s = false
         | ActionDelete => AllowsDelete s = true ∧ AllowsPush s = false
         | ActionCatalog => True
         end.
Proof.
  intros Hv Hc; destruct a as [verb repo pr]; simpl in *.
  assert (String.eqb repo "" = false) as Hne by (destruct (String.eqb_spec repo ""); [by subst|done]).
  unfold Action_Scope; simpl; rewrite Hne.
  pose proof (λ acts Ha, ParseScope_repository repo acts Hv Ha) as Hparse.
  destruct verb; try done; eexists.
  - split; [apply (Hparse [actionPull]); set_solver|]; by vm_compute.
  - split; [apply (Hparse [actionPull; actionPush]); set_solver|]; by vm_compute.
  - split; [apply (Hparse [actionDelete]); set_solver|]; by vm_compute.
  - split; [apply (Hparse [actionPull]); set_solver|]; by vm_compute.
Qed.

(** * Properties *)

(** The scope named in a challenge is enough: a principal whose grants allow an
    action and whose token carries the scope parsed from the challenge for it is
    authorised. *)
Theorem challenge_scope_sufficient a p :
  valid_repository (a_Repository a) = true → a_Verb a ≠ ActionCatalog →
  (∀ s, ParseScope (Action_Scope a) = Ok s → s ∈ p_Scopes p) →
  hasGrantedRepositoryAccess p (a_Repository a)
    (match a_Verb a with ActionPush | ActionDelete => AllowsWrite | _ => AllowsRead end) = true →
  principal_Authorize (WithPrincipal a (Some p)) = Ok tt.
Proof.
  intros Hv Hc Hs Hg; destruct (challenge_scope_parses a Hv Hc) as (s & Hp & Hr & Hn & Ha).
  specialize (Hs s Hp); unfold principal_Authorize; simpl.
  assert (String.eqb (a_Repository a) "" = false) as -> by
    (destruct (String.eqb_spec (a_Repository a) "") as [He|]; [by rewrite He in Hv|done]).
  assert (∀ allows, allows s = true → scopeAllowsRepository p (a_Repository a) allows = true) as Hsc
    by (intros; apply scope_allows_spec; eauto).
  unfold HasReadAccess, HasWriteAccess, HasDeleteAccess.
  destruct (a_Verb a); try done; rewrite Hg, Hsc by tauto; done.
Qed.

(** C34: The access controller decides exactly this: an actor with a token may push
    to or delete from a repository iff the token carries a scope of that repository
    with the action and the actor is an administrator or holds a writer or admin
    grant on it, so a read-only account without such a grant never writes; reading
    needs a pull scope and any grant, read-only or administrator rights; without a
    token nothing is allowed. *)
Theorem authorize_exact a :
  principal_Authorize a = Ok tt ↔
  ∃ p, a_Principal a = Some p ∧
    let repo := a_Repository a in
    let scoped (action : Scope → bool) := ∃ s, s ∈ p_Scopes p ∧ IsRepository s = true ∧ sc_Name s = repo ∧ action s = true in
    let writer := p_IsAdmin p = true ∨ ∃ g, g ∈ p_Grants p ∧ ref_Name (g_Repository g) = repo ∧ g_Role g ∈ [RepoRoleWriter; RepoRoleAdmin] in
    let reader := p_IsAdmin p = true ∨ p_IsReadOnly p = true ∨ ∃ g, g ∈ p_Grants p ∧ ref_Name (g_Repository g) = repo
      ∧ g_Role g ∈ [RepoRoleReader; RepoRoleWriter; RepoRoleAdmin] in
    match a_Verb a with
    | ActionPush => repo ≠ "" ∧ writer ∧ scoped AllowsPush
    | ActionDelete => repo ≠ "" ∧ writer ∧ scoped AllowsDelete
    | ActionPull | ActionInspect => repo = "" ∨ reader ∧ scoped AllowsPull
    | ActionCatalog => CanAccessCatalog p = true
    end.
Proof.
  unfold principal_Authorize; destruct (a_Principal a) as [p|]; [|by split; [|intros (p & ? & _)]].
  transitivity (match a_Verb a with
    | ActionCatalog => CanAccessCatalog p
    | ActionPull | ActionInspect => String.eqb (a_Repository a) "" || HasReadAccess p (a_Repository a)
    | ActionPush => negb (String.eqb (a_Repository a) "") && HasWriteAccess p (a_Repository a)
    | ActionDelete => negb (String.eqb (a_Repository a) "") && HasDeleteAccess p (a_Repository a)
    end = true); [by destruct (match a_Verb a with ActionPull => _ | _ => _ end)|].
  transitivity (match a_Verb a with
    | ActionCatalog => CanAccessCatalog p = true
    | ActionPull | ActionInspect => a_Repository a = "" ∨ HasReadAccess p (a_Repository a) = true
    | ActionPush => a_Repository a ≠ "" ∧ HasWriteAccess p (a_Repository a) = true
    | ActionDelete => a_Repository a ≠ "" ∧ HasDeleteAccess p (a_Repository a) = true
    end).
  { destruct (a_Verb a); by rewrite ?orb_true_iff, ?andb_true_iff, ?negb_true_iff, ?String.eqb_neq, ?String.eqb_eq. }
  unfold HasReadAccess, HasWriteAccess, HasDeleteAccess.
  assert (∀ P : Principal → Prop, (∃ p0, Some p = Some p0 ∧ P p0) ↔ P p) as Hsome
    by (intros P; split; [by intros (p0 & [= <-] & HP)|by exists p]).
  rewrite Hsome; cbn zeta.
  by destruct (a_Verb a); rewrite ?andb_true_iff, ?writer_spec, ?reader_spec, ?scope_allows_spec.
Qed.

(** * Witnesses *)

Lemma challenge_scope_sufficient_witness :
  principal_Authorize (WithPrincipal (mkAction ActionPull "team/app" None) (Some reader_of_team)) = Ok tt.
Proof.
  apply (challenge_scope_sufficient (mkAction ActionPull "team/app" None) reader_of_team); [reflexivity|discriminate| |reflexivity].
  intros s Hs; change (ParseScope "repository:team/app:pull" = Ok s) in Hs.
  assert (p_Scopes reader_of_team = match ParseScope "repository:team/app:pull" with Ok s => [s] | Err _ => [] end) as ->
    by reflexivity; rewrite Hs; by left.
Defined.
