(* ===== verification/AuthStore.v ===== *)
(** The interface [ports.AuthStore] (internal/ports/auth.go) as a type class, the
    runtime the auth service draws from (clock, UUIDs, randomness, bcrypt), and
    what each operation promises: the laws are stated on an abstract database, a
    finite map per table, and every operation may fail with an infrastructure
    error that leaves the database as it was. *)
From S2P Require Import Prelude GoStrings Errors Repository GoNumbers Scope Auth.

(** * Definitions *)

(** ** The interface *)

Class AuthStore (W : Type) := {
  HasActiveGlobalAdmin : M W bool;
  ListUsers : M W (list User);
  GetUserByUsername : string → M W User;
  GetUserByID : string → M W User;
  UpsertUser : User → M W unit;
  store_DeleteUser : string → M W unit;
  ListRobots : M W (list User);
  ListRepoGrants : string → M W (list RepoGrant);
  ListRepoGrantsByRepository : RepositoryRef → M W (list RepoGrant);
  store_PutRepoGrant : RepoGrant → M W unit;
  store_DeleteRepoGrant : string → RepositoryRef → M W unit;
  CreateToken : Token → M W unit;
  GetTokenBySecretHash : TokenKind → string → M W Token;
  GetTokenByAccessor : TokenKind → string → M W Token;
  ListTokensByUser : string → TokenKind → M W (list Token);
  RevokeTokenByAccessor : string → Time → M W unit;
}.

(** The Go runtime and the two third-party packages the service calls
    ([google/uuid] and [x/crypto/bcrypt]). *)
Class Runtime (W : Type) := {
  rt_now : M W Time;
  rt_uuid : M W string;
  rt_rand : nat → M W (list Z);
  rt_bcrypt_generate : string → M W string;
  rt_bcrypt_compare : string → string → bool;
}.

(** ** The abstract database *)

Record GrantRow := mkGrantRow { gr_Role : RepoRole; gr_CreatedAt : Time; gr_UpdatedAt : Time }.

Record AuthDB := mkAuthDB {
  db_users : gmap string User;
  db_grants : gmap (string * string) GrantRow;
  db_tokens : gmap string Token;
}.

Definition row_grant (user : string) (repo : string) (row : GrantRow) : RepoGrant :=
  mkGrant user (mkRef repo) (gr_Role row) (gr_CreatedAt row) (gr_UpdatedAt row).

Definition is_active_admin (u : User) : bool := u_IsAdmin u && u_Enabled u.

Definition active_admin (db : AuthDB) : Prop :=
  ∃ id u, db_users db !! id = Some u ∧ is_active_admin u = true.

Definition has_username (db : AuthDB) (name : string) (u : User) : Prop :=
  db_users db !! u_ID u = Some u ∧ u_Username u = name.

(** [INSERT ... ON CONFLICT(id) DO UPDATE] keeps the creation time of the row. *)
Definition merge_user (old : option User) (u : User) : User :=
  match old with
  | None => u
  | Some o => mkUser (u_ID u) (u_Username u) (u_PasswordHash u) (u_IsAdmin u) (u_IsReadOnly u)
                (u_IsRobot u) (u_Enabled u) (u_CreatedAt o) (u_UpdatedAt u)
  end.

Definition merge_grant (old : option GrantRow) (g : GrantRow) : GrantRow :=
  match old with
  | None => g
  | Some o => mkGrantRow (gr_Role g) (gr_CreatedAt o) (gr_UpdatedAt g)
  end.

Definition set_username (u : User) (name : string) : User :=
  mkUser (u_ID u) name (u_PasswordHash u) (u_IsAdmin u) (u_IsReadOnly u) (u_IsRobot u) (u_Enabled u)
    (u_CreatedAt u) (u_UpdatedAt u).

Definition set_revoked (t : Token) (at_ : Time) : Token :=
  mkToken (t_ID t) (t_UserID t) (t_Kind t) (t_Name t) (t_Scope t) (t_Accessor t) (t_SecretHash t)
    (t_ExpiresAt t) (t_CreatedAt t) (Some at_).

Definition insert_user (u : User) (db : AuthDB) : AuthDB :=
  mkAuthDB (<[u_ID u := merge_user (db_users db !! u_ID u) u]> (db_users db)) (db_grants db) (db_tokens db).

Definition remove_user (id : string) (db : AuthDB) : AuthDB :=
  mkAuthDB (delete id (db_users db))
    (filter (λ kv, kv.1.1 ≠ id) (db_grants db))
    (filter (λ kv, t_UserID kv.2 ≠ id) (db_tokens db)).

Definition insert_grant (g : RepoGrant) (db : AuthDB) : AuthDB :=
  let key := (g_UserID g, ref_Name (g_Repository g)) in
  mkAuthDB (db_users db)
    (<[key := merge_grant (db_grants db !! key) (mkGrantRow (g_Role g) (g_CreatedAt g) (g_UpdatedAt g))]>
      (db_grants db)) (db_tokens db).

Definition remove_grant (user repo : string) (db : AuthDB) : AuthDB :=
  mkAuthDB (db_users db) (delete (user, repo) (db_grants db)) (db_tokens db).

Definition insert_token (t : Token) (db : AuthDB) : AuthDB :=
  mkAuthDB (db_users db) (db_grants db) (<[t_ID t := t]> (db_tokens db)).

Definition revoke_accessor (accessor : string) (at_ : Time) (db : AuthDB) : AuthDB :=
  mkAuthDB (db_users db) (db_grants db)
    ((λ t, if String.eqb (t_Accessor t) accessor && negb (IsRevoked t) then set_revoked t at_ else t)
       <$> db_tokens db).

(** Well-formedness: what the validation before every write, the UNIQUE and the
    FOREIGN KEY constraints keep true of the tables. *)
Record db_wf (db : AuthDB) : Prop := {
  wf_user_id : ∀ id u, db_users db !! id = Some u → u_ID u = id;
  wf_user_valid : ∀ id u, db_users db !! id = Some u → User_Validate u = Ok tt;
  wf_username : ∀ i j u v, db_users db !! i = Some u → db_users db !! j = Some v →
    u_Username u = u_Username v → i = j;
  wf_grant_user : ∀ k g, db_grants db !! k = Some g → is_Some (db_users db !! k.1);
  wf_grant_valid : ∀ k g, db_grants db !! k = Some g → RepoGrant_Validate (row_grant k.1 k.2 g) = Ok tt;
  wf_token_id : ∀ id t, db_tokens db !! id = Some t → t_ID t = id;
  wf_token_valid : ∀ id t, db_tokens db !! id = Some t → Token_Validate t = Ok tt;
  wf_token_user : ∀ id t, db_tokens db !! id = Some t → is_Some (db_users db !! t_UserID t);
  wf_token_accessor : ∀ i j t s, db_tokens db !! i = Some t → db_tokens db !! j = Some s →
    t_Accessor t = t_Accessor s → i = j;
  wf_token_hash : ∀ i j t s, db_tokens db !! i = Some t → db_tokens db !! j = Some s →
    t_SecretHash t = t_SecretHash s → i = j;
}.

(** ** What the operations promise *)

Section Contract.
Context {W : Type} (view : W → AuthDB) (wf : W → Prop) (later : W → W → Prop) (calm : W → Prop).

(** [m] keeps [wf]; it either meets [spec] on the abstract database or fails
    with an infrastructure error and no effect, which in a [calm] world (no
    fault from now on) only a constraint violation [clash] explains. *)
Definition meets {A} (m : M W A) (spec : AuthDB → res A → AuthDB → Prop) (clash : AuthDB → Prop) : Prop :=
  ∀ w, wf w → wf (m w).2 ∧ later w (m w).2 ∧
    (spec (view w) (m w).1 (view (m w).2)
     ∨ view (m w).2 = view w ∧ (∃ e, (m w).1 = Err e ∧ is_infra e = true) ∧ (calm w → clash (view w))).
End Contract.

Definition no_clash (db : AuthDB) : Prop := False.

(** The UNIQUE and FOREIGN KEY constraints a write may run into. *)
Definition username_taken (u : User) (db : AuthDB) : Prop :=
  ∃ id v, db_users db !! id = Some v ∧ u_Username v = u_Username u ∧ id ≠ u_ID u.
Definition user_missing (id : string) (db : AuthDB) : Prop := db_users db !! id = None.
Definition token_taken (t : Token) (db : AuthDB) : Prop :=
  ∃ s, db_tokens db !! t_ID s = Some s
       ∧ (t_ID s = t_ID t ∨ t_Accessor s = t_Accessor t ∨ t_SecretHash s = t_SecretHash t).
Definition token_clash (t : Token) (db : AuthDB) : Prop := user_missing (t_UserID t) db ∨ token_taken t db.

Section Specs.
Context `{UnicodeTables}.

Definition normal_username (s : string) : string := to_lower (trim_space s).

Definition spec_has_admin (db : AuthDB) (r : res bool) (db' : AuthDB) : Prop :=
  db' = db ∧ ∃ b, r = Ok b ∧ (b = true ↔ active_admin db).

Definition spec_list_users (robots : bool) (db : AuthDB) (r : res (list User)) (db' : AuthDB) : Prop :=
  db' = db ∧ ∃ l, r = Ok l ∧ StronglySorted (key_le u_Username) l
    ∧ ∀ u, u ∈ l ↔ db_users db !! u_ID u = Some u ∧ u_IsRobot u = robots.

Definition spec_user_by_name (name : string) (db : AuthDB) (r : res User) (db' : AuthDB) : Prop :=
  db' = db ∧ ((∃ u, r = Ok u ∧ has_username db (normal_username name) u)
              ∨ (r = Err (AuthNotFoundError "user" "") ∧ ∀ u, ¬ has_username db (normal_username name) u)).

Definition spec_user_by_id (id : string) (db : AuthDB) (r : res User) (db' : AuthDB) : Prop :=
  db' = db ∧ r = match db_users db !! trim_space id with
                 | Some u => Ok u
                 | None => Err (AuthNotFoundError "user" "")
                 end.

Definition spec_upsert_user (u : User) (db : AuthDB) (r : res unit) (db' : AuthDB) : Prop :=
  let u' := set_username u (normal_username (u_Username u)) in
  (∃ e, User_Validate u' = Err e ∧ r = Err e ∧ db' = db)
  ∨ (User_Validate u' = Ok tt ∧ r = Ok tt ∧ db' = insert_user u' db
     ∧ ∀ id v, db_users db !! id = Some v → u_Username v = u_Username u' → id = u_ID u').

Definition spec_delete_user (id : string) (db : AuthDB) (r : res unit) (db' : AuthDB) : Prop :=
  let id' := trim_space id in
  (is_Some (db_users db !! id') ∧ r = Ok tt ∧ db' = remove_user id' db)
  ∨ (db_users db !! id' = None ∧ r = Err (AuthNotFoundError "user" id') ∧ db' = db).

Definition spec_list_grants (user : string) (db : AuthDB) (r : res (list RepoGrant)) (db' : AuthDB) : Prop :=
  db' = db ∧
  ((∃ e, r = Err e ∧ user = "")
   ∨ ∃ l, r = Ok l ∧ ∀ g, g ∈ l ↔ ∃ repo row, db_grants db !! (trim_space user, repo) = Some row
       ∧ g = row_grant user repo row).

Definition spec_list_repo_grants (repo : RepositoryRef) (db : AuthDB) (r : res (list RepoGrant))
    (db' : AuthDB) : Prop :=
  db' = db ∧ ∃ l, r = Ok l ∧ ∀ g, g ∈ l ↔ ∃ user row, db_grants db !! (user, ref_Name repo) = Some row
       ∧ g = row_grant user (ref_Name repo) row.

Definition spec_put_grant (g : RepoGrant) (db : AuthDB) (r : res unit) (db' : AuthDB) : Prop :=
  (∃ e, RepoGrant_Validate g = Err e ∧ r = Err e ∧ db' = db)
  ∨ (RepoGrant_Validate g = Ok tt ∧ is_Some (db_users db !! g_UserID g)
     ∧ r = Ok tt ∧ db' = insert_grant g db).

Definition spec_delete_grant (user : string) (repo : RepositoryRef) (db : AuthDB) (r : res unit)
    (db' : AuthDB) : Prop :=
  let key := (trim_space user, ref_Name repo) in
  (is_Some (db_grants db !! key) ∧ r = Ok tt ∧ db' = remove_grant key.1 key.2 db)
  ∨ (db_grants db !! key = None ∧ r = Err (AuthNotFoundError "grant" (ref_Name repo)) ∧ db' = db).

Definition spec_create_token (t : Token) (db : AuthDB) (r : res unit) (db' : AuthDB) : Prop :=
  (∃ e, Token_Validate t = Err e ∧ r = Err e ∧ db' = db)
  ∨ (Token_Validate t = Ok tt ∧ is_Some (db_users db !! t_UserID t) ∧ db_tokens db !! t_ID t = None
     ∧ (∀ id s, db_tokens db !! id = Some s →
          t_Accessor s ≠ t_Accessor t ∧ t_SecretHash s ≠ t_SecretHash t)
     ∧ r = Ok tt ∧ db' = insert_token t db).

Definition spec_token_by (key : Token → string) (kind value : string) (db : AuthDB) (r : res Token)
    (db' : AuthDB) : Prop :=
  db' = db ∧ ((∃ t, r = Ok t ∧ db_tokens db !! t_ID t = Some t ∧ t_Kind t = kind
                    ∧ key t = trim_space value)
              ∨ (r = Err (AuthNotFoundError "token" "")
                 ∧ ∀ id t, db_tokens db !! id = Some t → ¬ (t_Kind t = kind ∧ key t = trim_space value))).

Definition spec_list_tokens (user kind : string) (db : AuthDB) (r : res (list Token)) (db' : AuthDB) : Prop :=
  db' = db ∧ ∃ l, r = Ok l ∧ ∀ t, t ∈ l ↔ db_tokens db !! t_ID t = Some t
    ∧ t_UserID t = trim_space user ∧ t_Kind t = kind.

Definition spec_revoke (accessor : string) (at_ : Time) (db : AuthDB) (r : res unit) (db' : AuthDB) : Prop :=
  let live id t := db_tokens db !! id = Some t ∧ t_Accessor t = trim_space accessor ∧ t_RevokedAt t = None in
  ((∃ id t, live id t) ∧ r = Ok tt ∧ db' = revoke_accessor (trim_space accessor) at_ db)
  ∨ ((∀ id t, ¬ live id t) ∧ r = Err (AuthNotFoundError "token" accessor) ∧ db' = db).
End Specs.

(** The contract of an implementation of [AuthStore]: [auth_later w w'] says that
    [w'] is a later moment than [w], [auth_calm w] that no call fails for an
    infrastructure reason from [w] on. *)
Class AuthStoreLaws (W : Type) `{UnicodeTables, AuthStore W} := {
  auth_view : W → AuthDB;
  auth_wf : W → Prop;
  auth_later : relation W;
  auth_calm : W → Prop;
  auth_later_preorder :: PreOrder auth_later;
  auth_calm_later w w' : auth_later w w' → auth_calm w → auth_calm w';
  auth_wf_db : ∀ w, auth_wf w → db_wf (auth_view w);
  auth_meets {A} (m : M W A) spec clash := meets auth_view auth_wf auth_later auth_calm m spec clash;
  HasActiveGlobalAdmin_meets : auth_meets HasActiveGlobalAdmin spec_has_admin no_clash;
  ListUsers_meets : auth_meets ListUsers (spec_list_users false) no_clash;
  ListRobots_meets : auth_meets ListRobots (spec_list_users true) no_clash;
  GetUserByUsername_meets n : auth_meets (GetUserByUsername n) (spec_user_by_name n) no_clash;
  GetUserByID_meets id : auth_meets (GetUserByID id) (spec_user_by_id id) no_clash;
  UpsertUser_meets u : auth_meets (UpsertUser u) (spec_upsert_user u)
    (username_taken (set_username u (normal_username (u_Username u))));
  DeleteUser_meets id : auth_meets (store_DeleteUser id) (spec_delete_user id) no_clash;
  ListRepoGrants_meets id : auth_meets (ListRepoGrants id) (spec_list_grants id) no_clash;
  ListRepoGrantsByRepository_meets r :
    auth_meets (ListRepoGrantsByRepository r) (spec_list_repo_grants r) no_clash;
  PutRepoGrant_meets g : auth_meets (store_PutRepoGrant g) (spec_put_grant g) (user_missing (g_UserID g));
  DeleteRepoGrant_meets u r : auth_meets (store_DeleteRepoGrant u r) (spec_delete_grant u r) no_clash;
  CreateToken_meets t : auth_meets (CreateToken t) (spec_create_token t) (token_clash t);
  GetTokenBySecretHash_meets k h :
    auth_meets (GetTokenBySecretHash k h) (spec_token_by t_SecretHash k h) no_clash;
  GetTokenByAccessor_meets k a :
    auth_meets (GetTokenByAccessor k a) (spec_token_by t_Accessor k a) no_clash;
  ListTokensByUser_meets u k : auth_meets (ListTokensByUser u k) (spec_list_tokens u k) no_clash;
  RevokeTokenByAccessor_meets a t : auth_meets (RevokeTokenByAccessor a t) (spec_revoke a t) no_clash;
}.

(** What the service relies on of its runtime: none of it touches the database,
    the clock is past the zero time, a UUID is not blank, has no surrounding
    white space and is not the id of a stored row, and bcrypt accepts the
    password a hash was generated from. *)
Definition good_uuid (u : string) : Prop := u ≠ "" ∧ trimmed u = true.

Section RuntimeContract.
Context {W : Type} `{AuthStoreLaws W}.

Definition quiet {A} (m : M W A) (spec : AuthDB → res A → Prop) : Prop :=
  ∀ w, auth_wf w → auth_wf (m w).2 ∧ auth_later w (m w).2 ∧ auth_view (m w).2 = auth_view w
    ∧ spec (auth_view w) (m w).1.

Definition spec_now (db : AuthDB) (r : res Time) : Prop := ∃ t, r = Ok t ∧ zero_time < t.
Definition spec_uuid (db : AuthDB) (r : res string) : Prop :=
  ∃ u, r = Ok u ∧ good_uuid u ∧ db_users db !! u = None ∧ db_tokens db !! u = None.
Definition spec_rand (n : nat) (db : AuthDB) (r : res (list Z)) : Prop :=
  (∃ e, r = Err e ∧ is_infra e = true) ∨ ∃ l, r = Ok l ∧ length l = n ∧ Forall is_byte l.
End RuntimeContract.

Definition spec_generate (compare : string → string → bool) (p : string) (db : AuthDB) (r : res string) : Prop :=
  (∃ e, r = Err e ∧ is_infra e = true) ∨ ∃ h, r = Ok h ∧ trim_space h ≠ "" ∧ compare h p = true.

Class RuntimeLaws (W : Type) `{AuthStoreLaws W, Runtime W} := {
  rt_now_quiet : quiet rt_now spec_now;
  rt_uuid_quiet : quiet rt_uuid spec_uuid;
  rt_rand_quiet n : quiet (rt_rand n) (spec_rand n);
  rt_bcrypt_quiet p : quiet (rt_bcrypt_generate p) (spec_generate rt_bcrypt_compare p);
}.

(** * Symbolic execution of a client of the store *)

Section Rules.
Context {W : Type} `{UnicodeTables, !AuthStore W, !AuthStoreLaws W}.

(** What holds after a call that meets [spec]. *)
Definition after {A} (spec : AuthDB → res A → AuthDB → Prop) (clash : AuthDB → Prop)
    (w : W) (r : res A) (w' : W) : Prop :=
  spec (auth_view w) r (auth_view w')
  ∨ auth_view w' = auth_view w ∧ (∃ e, r = Err e ∧ is_infra e = true) ∧ (auth_calm w → clash (auth_view w)).

Class Contract {A} (m : M W A) (R : W → res A → W → Prop) : Prop :=
  contract w : auth_wf w → wp m (λ r w', auth_wf w' ∧ auth_later w w' ∧ R w r w') w.

Lemma wp_contract {A} (m : M W A) R `{!Contract m R} w (Q : res A → W → Prop) :
  auth_wf w → (∀ r w', auth_wf w' → auth_later w w' → R w r w' → Q r w') → wp m Q w.
Proof. intros Hw HQ; eapply wp_conseq; [by apply (contract w)|naive_solver]. Qed.

Lemma meets_contract {A} (m : M W A) spec clash :
  auth_meets m spec clash → Contract m (after spec clash).
Proof. intros Hm w Hw; apply (Hm w Hw). Qed.

Lemma quiet_contract {A} (m : M W A) spec :
  quiet m spec → Contract m (λ w r w', auth_view w' = auth_view w ∧ spec (auth_view w) r).
Proof. intros Hm w Hw; apply (Hm w Hw). Qed.
End Rules.


Section Instances.
Context {W : Type} `{UnicodeTables, !AuthStore W, !AuthStoreLaws W}.

#[export] Instance HasActiveGlobalAdmin_contract : Contract HasActiveGlobalAdmin
  (after spec_has_admin no_clash).
Proof. apply meets_contract, HasActiveGlobalAdmin_meets. Qed.
#[export] Instance ListUsers_contract : Contract ListUsers
  (after (spec_list_users false) no_clash).
Proof. apply meets_contract, ListUsers_meets. Qed.
#[export] Instance ListRobots_contract : Contract ListRobots
  (after (spec_list_users true) no_clash).
Proof. apply meets_contract, ListRobots_meets. Qed.
#[export] Instance GetUserByUsername_contract n : Contract (GetUserByUsername n)
  (after (spec_user_by_name n) no_clash).
Proof. apply meets_contract, GetUserByUsername_meets. Qed.
#[export] Instance GetUserByID_contract id : Contract (GetUserByID id)
  (after (spec_user_by_id id) no_clash).
Proof. apply meets_contract, GetUserByID_meets. Qed.
#[export] Instance UpsertUser_contract u : Contract (UpsertUser u)
  (after (spec_upsert_user u) (username_taken (set_username u (normal_username (u_Username u))))).
Proof. apply meets_contract, UpsertUser_meets. Qed.
#[export] Instance DeleteUser_contract id : Contract (store_DeleteUser id)
  (after (spec_delete_user id) no_clash).
Proof. apply meets_contract, DeleteUser_meets. Qed.
#[export] Instance ListRepoGrants_contract id : Contract (ListRepoGrants id)
  (after (spec_list_grants id) no_clash).
Proof. apply meets_contract, ListRepoGrants_meets. Qed.
#[export] Instance ListRepoGrantsByRepository_contract r : Contract (ListRepoGrantsByRepository r)
  (after (spec_list_repo_grants r) no_clash).
Proof. apply meets_contract, ListRepoGrantsByRepository_meets. Qed.
#[export] Instance PutRepoGrant_contract g : Contract (store_PutRepoGrant g)
  (after (spec_put_grant g) (user_missing (g_UserID g))).
Proof. apply meets_contract, PutRepoGrant_meets. Qed.
#[export] Instance DeleteRepoGrant_contract u r : Contract (store_DeleteRepoGrant u r)
  (after (spec_delete_grant u r) no_clash).
Proof. apply meets_contract, DeleteRepoGrant_meets. Qed.
#[export] Instance CreateToken_contract t : Contract (CreateToken t)
  (after (spec_create_token t) (token_clash t)).
Proof. apply meets_contract, CreateToken_meets. Qed.
#[export] Instance GetTokenBySecretHash_contract k h : Contract (GetTokenBySecretHash k h)
  (after (spec_token_by t_SecretHash k h) no_clash).
Proof. apply meets_contract, GetTokenBySecretHash_meets. Qed.
#[export] Instance GetTokenByAccessor_contract k a : Contract (GetTokenByAccessor k a)
  (after (spec_token_by t_Accessor k a) no_clash).
Proof. apply meets_contract, GetTokenByAccessor_meets. Qed.
#[export] Instance ListTokensByUser_contract u k : Contract (ListTokensByUser u k)
  (after (spec_list_tokens u k) no_clash).
Proof. apply meets_contract, ListTokensByUser_meets. Qed.
#[export] Instance RevokeTokenByAccessor_contract a t : Contract (RevokeTokenByAccessor a t)
  (after (spec_revoke a t) no_clash).
Proof. apply meets_contract, RevokeTokenByAccessor_meets. Qed.

Context `{!Runtime W, !RuntimeLaws W}.

#[export] Instance rt_now_contract : Contract rt_now
  (λ w r w', auth_view w' = auth_view w ∧ spec_now (auth_view w) r ∧ rt_now w = (r, w')).
Proof.
  intros w Hw; destruct (rt_now_quiet w Hw) as (? & ? & ? & ?); unfold wp.
  repeat split; try done; by destruct (rt_now w).
Qed.
#[export] Instance rt_uuid_contract : Contract rt_uuid
  (λ w r w', auth_view w' = auth_view w ∧ spec_uuid (auth_view w) r).
Proof. apply quiet_contract, rt_uuid_quiet. Qed.
#[export] Instance rt_rand_contract n : Contract (rt_rand n)
  (λ w r w', auth_view w' = auth_view w ∧ (spec_rand n) (auth_view w) r).
Proof. apply quiet_contract, rt_rand_quiet. Qed.
#[export] Instance rt_bcrypt_contract p : Contract (rt_bcrypt_generate p)
  (λ w r w', auth_view w' = auth_view w ∧ (spec_generate rt_bcrypt_compare p) (auth_view w) r).
Proof. apply quiet_contract, rt_bcrypt_quiet. Qed.
End Instances.
