(* ===== verification/PgStore.v ===== *)
(** The PostgreSQL store of users, grants and tokens
    (internal/infra/auth/postgres/store.go, migrations.go), as an implementation
    of [AuthStore]. The three tables are finite maps from the primary key to the
    row; a time column holds the time its [formatTime] text parses back to. Every
    statement is one call to the driver, which may fail ([env_fault]) and then has
    no effect. *)
From S2P Require Import Prelude GoStrings Errors Repository GoNumbers Scope Auth AuthStore.

(** * Definitions *)

(** ** The world *)

(** What is outside the program: driver faults, the clock, the UUIDs and random
    bytes of the run, and the bcrypt package. A call is identified by its number. *)
Class AuthEnv := {
  env_fault : nat → option string;
  env_now : nat → Time;
  env_uuid : nat → AuthDB → string;
  env_rand : nat → nat → list Z;
  env_generate : nat → string → res string;
  env_compare : string → string → bool;
}.

Class AuthEnvLaws `{UnicodeTables, AuthEnv} := {
  env_now_law n : zero_time < env_now n;
  env_uuid_law n db : good_uuid (env_uuid n db)
    ∧ db_users db !! env_uuid n db = None ∧ db_tokens db !! env_uuid n db = None;
  env_rand_law n k : length (env_rand n k) = k ∧ Forall is_byte (env_rand n k);
  env_generate_law n p : spec_generate env_compare p (mkAuthDB ∅ ∅ ∅) (env_generate n p);
}.

Record AuthWorld := mkAuthWorld { aw_db : AuthDB; aw_calls : nat }.

Section Store.
Context `{UnicodeTables, AuthEnv}.

(** One call of the driver: it fails, or runs the statement on the tables. *)
Definition db_call {A} (f : AuthDB → res A * AuthDB) : M AuthWorld A := λ w,
  match env_fault (aw_calls w) with
  | Some e => (Err (OtherError e), mkAuthWorld (aw_db w) (S (aw_calls w)))
  | None => let '(r, db) := f (aw_db w) in (r, mkAuthWorld db (S (aw_calls w)))
  end.

(** A SELECT reads, an EXEC on success replaces the tables. *)
Definition db_query {A} (f : AuthDB → res A) : M AuthWorld A := db_call (λ db, (f db, db)).
Definition db_exec (f : AuthDB → res AuthDB) : M AuthWorld unit :=
  db_call (λ db, match f db with Ok db' => (Ok tt, db') | Err e => (Err e, db) end).

Definition users_where (p : User → bool) (db : AuthDB) : list User :=
  filter (λ u, p u = true) (map_to_list (db_users db)).*2.
Definition tokens_where (p : Token → bool) (db : AuthDB) : list Token :=
  filter (λ t, p t = true) (map_to_list (db_tokens db)).*2.
Definition grants_where (p : string * string → bool) (db : AuthDB) : list ((string * string) * GrantRow) :=
  filter (λ kv, p kv.1 = true) (map_to_list (db_grants db)).

(** ** Reading rows back *)

Definition scanUserRow (row : User) : res User := do? User_Validate row in Ok row.
Definition scanTokenRow (row : Token) : res Token := do? Token_Validate row in Ok row.

Definition scanUser (rows : list User) : res User :=
  match rows with
  | [] => Err (AuthNotFoundError "user" "")
  | row :: _ => scanUserRow row
  end.
Definition scanToken (rows : list Token) : res Token :=
  match rows with
  | [] => Err (AuthNotFoundError "token" "")
  | row :: _ => scanTokenRow row
  end.

(** ** Users *)

Definition pg_HasActiveGlobalAdmin : M AuthWorld bool :=
  db_query (λ db, Ok (0 <? Z.of_nat (length (users_where (λ u, u_IsAdmin u && u_Enabled u) db)))).

Definition pg_ListUsers : M AuthWorld (list User) :=
  db_query (λ db, rmap scanUserRow (sort_by u_Username (users_where (λ u, negb (u_IsRobot u)) db))).
Definition pg_ListRobots : M AuthWorld (list User) :=
  db_query (λ db, rmap scanUserRow (sort_by u_Username (users_where u_IsRobot db))).

Definition pg_GetUserByUsername (username : string) : M AuthWorld User :=
  db_query (λ db, scanUser
    (users_where (λ u, String.eqb (u_Username u) (to_lower (trim_space username))) db)).
Definition pg_GetUserByID (userID : string) : M AuthWorld User :=
  db_query (λ db, scanUser (users_where (λ u, String.eqb (u_ID u) (trim_space userID)) db)).

(** INSERT ... ON CONFLICT(id) DO UPDATE: the username must not be another row's. *)
Definition upsert_user_sql (u : User) (db : AuthDB) : res AuthDB :=
  match users_where (λ v, String.eqb (u_Username v) (u_Username u) && negb (String.eqb (u_ID v) (u_ID u))) db with
  | [] => Ok (insert_user u db)
  | _ => Err (OtherError "UNIQUE constraint failed: auth_users.username")
  end.

Definition pg_UpsertUser (user : User) : M AuthWorld unit :=
  let user := set_username user (to_lower (trim_space (u_Username user))) in
  do! slift (User_Validate user) in
  db_exec (upsert_user_sql user).

(** The transaction works on its own copy of the tables until the commit; a
    statement that fails rolls it back. *)
Definition tx_statement {A} (f : AuthDB → A) (tx : AuthDB) : M AuthWorld A :=
  db_call (λ db, (Ok (f tx), db)).
Definition delete_grants_sql (id : string) (db : AuthDB) : AuthDB :=
  mkAuthDB (db_users db) (filter (λ kv, kv.1.1 ≠ id) (db_grants db)) (db_tokens db).
Definition delete_tokens_sql (id : string) (db : AuthDB) : AuthDB :=
  mkAuthDB (db_users db) (db_grants db) (filter (λ kv, t_UserID kv.2 ≠ id) (db_tokens db)).
Definition delete_user_sql (id : string) (db : AuthDB) : nat * AuthDB :=
  match db_users db !! id with
  | Some _ => (1%nat, mkAuthDB (delete id (db_users db)) (db_grants db) (db_tokens db))
  | None => (0%nat, db)
  end.

Definition pg_DeleteUser (userID : string) : M AuthWorld unit :=
  let id := trim_space userID in
  let! tx := db_query Ok in
  let! tx := tx_statement (delete_grants_sql id) tx in
  let! tx := tx_statement (delete_tokens_sql id) tx in
  let! deleted := tx_statement (delete_user_sql id) tx in
  if Nat.eqb deleted.1 0 then sthrow (AuthNotFoundError "user" id) else
  db_exec (λ _, Ok deleted.2).

(** ** Grants *)

Definition scanGrantRow (user : string) (kv : (string * string) * GrantRow) : res RepoGrant :=
  let? repository := ParseRepositoryRef kv.1.2 in
  let grant := mkGrant user repository (gr_Role kv.2) (gr_CreatedAt kv.2) (gr_UpdatedAt kv.2) in
  do? RepoGrant_Validate grant in Ok grant.

Definition pg_ListRepoGrants (userID : string) : M AuthWorld (list RepoGrant) :=
  db_query (λ db, rmap (scanGrantRow userID)
    (sort_by (λ kv, kv.1.2) (grants_where (λ k, String.eqb k.1 (trim_space userID)) db))).

Definition scanRepositoryGrantRow (repo : RepositoryRef) (kv : (string * string) * GrantRow) : res RepoGrant :=
  let grant := mkGrant kv.1.1 repo (gr_Role kv.2) (gr_CreatedAt kv.2) (gr_UpdatedAt kv.2) in
  do? RepoGrant_Validate grant in Ok grant.

Definition pg_ListRepoGrantsByRepository (repo : RepositoryRef) : M AuthWorld (list RepoGrant) :=
  db_query (λ db, rmap (scanRepositoryGrantRow repo)
    (sort_by (λ kv, kv.1.1) (grants_where (λ k, String.eqb k.2 (ref_String repo)) db))).

Definition put_grant_sql (g : RepoGrant) (db : AuthDB) : res AuthDB :=
  match db_users db !! g_UserID g with
  | None => Err (OtherError "FOREIGN KEY constraint failed")
  | Some _ => Ok (insert_grant g db)
  end.

Definition pg_PutRepoGrant (grant : RepoGrant) : M AuthWorld unit :=
  do! slift (RepoGrant_Validate grant) in
  db_exec (put_grant_sql grant).

Definition pg_DeleteRepoGrant (userID : string) (repo : RepositoryRef) : M AuthWorld unit :=
  let key := (trim_space userID, ref_String repo) in
  db_exec (λ db, match db_grants db !! key with
                 | None => Err (AuthNotFoundError "grant" (ref_String repo))
                 | Some _ => Ok (remove_grant key.1 key.2 db)
                 end).

(** ** Tokens *)

Definition insert_token_sql (t : Token) (db : AuthDB) : res AuthDB :=
  match db_users db !! t_UserID t with
  | None => Err (OtherError "FOREIGN KEY constraint failed")
  | Some _ =>
      match tokens_where (λ s, String.eqb (t_ID s) (t_ID t) || String.eqb (t_Accessor s) (t_Accessor t)
                               || String.eqb (t_SecretHash s) (t_SecretHash t)) db with
      | [] => Ok (insert_token t db)
      | _ => Err (OtherError "UNIQUE constraint failed: auth_tokens")
      end
  end.

Definition pg_CreateToken (token : Token) : M AuthWorld unit :=
  do! slift (Token_Validate token) in
  db_exec (insert_token_sql token).

Definition pg_GetTokenBySecretHash (kind : TokenKind) (secretHash : string) : M AuthWorld Token :=
  db_query (λ db, scanToken
    (tokens_where (λ t, String.eqb (t_Kind t) kind && String.eqb (t_SecretHash t) (trim_space secretHash)) db)).
Definition pg_GetTokenByAccessor (kind : TokenKind) (accessor : string) : M AuthWorld Token :=
  db_query (λ db, scanToken
    (tokens_where (λ t, String.eqb (t_Kind t) kind && String.eqb (t_Accessor t) (trim_space accessor)) db)).

(** ORDER BY created_at DESC orders the stored text. *)
Definition pg_ListTokensByUser (userID : string) (kind : TokenKind) : M AuthWorld (list Token) :=
  db_query (λ db, rmap scanTokenRow (reverse (sort_by (λ t, formatTime (t_CreatedAt t))
    (tokens_where (λ t, String.eqb (t_UserID t) (trim_space userID) && String.eqb (t_Kind t) kind) db)))).

Definition pg_RevokeTokenByAccessor (accessor : string) (revokedAt : Time) : M AuthWorld unit :=
  db_exec (λ db,
    match tokens_where (λ t, String.eqb (t_Accessor t) (trim_space accessor) && negb (IsRevoked t)) db with
    | [] => Err (AuthNotFoundError "token" accessor)
    | _ => Ok (revoke_accessor (trim_space accessor) revokedAt db)
    end).

(** ** The runtime *)

Definition env_call {A} (f : nat → AuthDB → res A) : M AuthWorld A := λ w,
  (f (aw_calls w) (aw_db w), mkAuthWorld (aw_db w) (S (aw_calls w))).

Definition aw_wf (w : AuthWorld) : Prop := db_wf (aw_db w).
Definition aw_later (w w' : AuthWorld) : Prop := (aw_calls w ≤ aw_calls w')%nat.
Definition aw_calm (w : AuthWorld) : Prop := ∀ n, (aw_calls w ≤ n)%nat → env_fault n = None.
End Store.

#[global] Instance pg_store `{UnicodeTables, AuthEnv} : AuthStore AuthWorld := {|
  HasActiveGlobalAdmin := pg_HasActiveGlobalAdmin;
  ListUsers := pg_ListUsers;
  GetUserByUsername := pg_GetUserByUsername;
  GetUserByID := pg_GetUserByID;
  UpsertUser := pg_UpsertUser;
  store_DeleteUser := pg_DeleteUser;
  ListRobots := pg_ListRobots;
  ListRepoGrants := pg_ListRepoGrants;
  ListRepoGrantsByRepository := pg_ListRepoGrantsByRepository;
  store_PutRepoGrant := pg_PutRepoGrant;
  store_DeleteRepoGrant := pg_DeleteRepoGrant;
  CreateToken := pg_CreateToken;
  GetTokenBySecretHash := pg_GetTokenBySecretHash;
  GetTokenByAccessor := pg_GetTokenByAccessor;
  ListTokensByUser := pg_ListTokensByUser;
  RevokeTokenByAccessor := pg_RevokeTokenByAccessor;
|}.

#[global] Instance pg_runtime `{AuthEnv} : Runtime AuthWorld := {|
  rt_now := env_call (λ n _, Ok (env_now n));
  rt_uuid := env_call (λ n db, Ok (env_uuid n db));
  rt_rand k := env_call (λ n _, match env_fault n with
                                | Some e => Err (OtherError e)
                                | None => Ok (env_rand n k)
                                end);
  rt_bcrypt_generate p := env_call (λ n _, env_generate n p);
  rt_bcrypt_compare := env_compare;
|}.

(** * Lemmas *)

Section Laws.
Context `{UnicodeTables, AuthEnv}.

Notation pg_meets := (meets aw_db aw_wf aw_later aw_calm).

#[export] Instance aw_later_preorder : PreOrder aw_later.
Proof. split; [by intros w; unfold aw_later|intros a b c; unfold aw_later; lia]. Qed.

Lemma aw_calm_later w w' : aw_later w w' → aw_calm w → aw_calm w'.
Proof. unfold aw_later, aw_calm; intros Hle Hc n Hn; apply Hc; lia. Qed.

(** ** The shape of a call *)

Lemma query_meets {A} (f : AuthDB → res A) (spec : AuthDB → res A → AuthDB → Prop) :
  (∀ db, db_wf db → spec db (f db) db) → pg_meets (db_query f) spec no_clash.
Proof.
  intros Hf w Hw; unfold db_query, db_call, aw_wf, aw_later, aw_calm in *.
  destruct (env_fault (aw_calls w)) eqn:Hfault; simpl; (split; [done|split; [lia|]]); [right|left; auto].
  split; [done|split; [by eexists|]]; intros Hc; specialize (Hc (aw_calls w)); rewrite Hfault in Hc.
  by discriminate Hc.
Qed.

Lemma exec_meets (f : AuthDB → res AuthDB) (spec : AuthDB → res unit → AuthDB → Prop) clash :
  (∀ db, db_wf db → match f db with
                    | Ok db' => db_wf db' ∧ spec db (Ok tt) db'
                    | Err e => spec db (Err e) db ∨ is_infra e = true ∧ clash db
                    end) →
  pg_meets (db_exec f) spec clash.
Proof.
  intros Hf w Hw; unfold db_exec, db_call, aw_wf, aw_later, aw_calm in *.
  destruct (env_fault (aw_calls w)) eqn:Hfault; simpl.
  - split; [done|split; [lia|right]]; split; [done|split; [by eexists|]].
    intros Hc; specialize (Hc (aw_calls w)); rewrite Hfault in Hc; by discriminate Hc.
  - specialize (Hf _ Hw); destruct (f (aw_db w)) as [db'|e]; simpl.
    + destruct Hf; auto.
    + split; [done|split; [lia|]]; destruct Hf as [|[He ?]]; [by left|right]; eauto.
Qed.

(** A validation before the statement. *)
Lemma guarded_meets (v : res unit) (m : M AuthWorld unit) (spec : AuthDB → res unit → AuthDB → Prop) clash :
  (∀ e db, v = Err e → spec db (Err e) db) →
  (v = Ok tt → pg_meets m spec clash) →
  pg_meets (do! slift v in m) spec clash.
Proof.
  intros He Hm w Hw; unfold sbind, slift; destruct v as [[]|e]; [by apply Hm|].
  split; [done|split; [reflexivity|left; by apply He]].
Qed.

(** ** Selections *)

Lemma elem_of_users_where p db u :
  u ∈ users_where p db ↔ p u = true ∧ ∃ id, db_users db !! id = Some u.
Proof.
  unfold users_where; rewrite list_elem_of_filter, list_elem_of_fmap; split.
  - intros [Hp ([id v] & -> & Hin)]; split; [done|]; exists id; by apply elem_of_map_to_list in Hin.
  - intros [Hp [id Hid]]; split; [done|]; exists (id, u); split; [done|]; by apply elem_of_map_to_list.
Qed.

Lemma elem_of_tokens_where p db t :
  t ∈ tokens_where p db ↔ p t = true ∧ ∃ id, db_tokens db !! id = Some t.
Proof.
  unfold tokens_where; rewrite list_elem_of_filter, list_elem_of_fmap; split.
  - intros [Hp ([id v] & -> & Hin)]; split; [done|]; exists id; by apply elem_of_map_to_list in Hin.
  - intros [Hp [id Hid]]; split; [done|]; exists (id, t); split; [done|]; by apply elem_of_map_to_list.
Qed.

Lemma elem_of_grants_where p db kv :
  kv ∈ grants_where p db ↔ p kv.1 = true ∧ db_grants db !! kv.1 = Some kv.2.
Proof.
  unfold grants_where; rewrite list_elem_of_filter; destruct kv as [k v]; simpl.
  by rewrite elem_of_map_to_list.
Qed.

Lemma wf_user_at db id u : db_wf db → db_users db !! id = Some u → db_users db !! u_ID u = Some u.
Proof. intros Hwf Hu; by rewrite (wf_user_id _ Hwf _ _ Hu). Qed.
Lemma wf_token_at db id t : db_wf db → db_tokens db !! id = Some t → db_tokens db !! t_ID t = Some t.
Proof. intros Hwf Ht; by rewrite (wf_token_id _ Hwf _ _ Ht). Qed.

(** Every row of a well-formed table is read back as it was stored. *)
Lemma scanUserRow_wf db id u : db_wf db → db_users db !! id = Some u → scanUserRow u = Ok u.
Proof. intros Hwf Hu; unfold scanUserRow; by rewrite (wf_user_valid _ Hwf _ _ Hu). Qed.
Lemma scanTokenRow_wf db id t : db_wf db → db_tokens db !! id = Some t → scanTokenRow t = Ok t.
Proof. intros Hwf Ht; unfold scanTokenRow; by rewrite (wf_token_valid _ Hwf _ _ Ht). Qed.

Lemma rmap_same {A} (f : A → res A) l : (∀ x, x ∈ l → f x = Ok x) → rmap f l = Ok l.
Proof.
  intros Hf; apply rmap_ok, Forall_Forall2_diag, Forall_forall.
  intros x Hx; by apply Hf.
Qed.
Lemma rmap_fmap {A B} (f : A → res B) (g : A → B) l : (∀ x, x ∈ l → f x = Ok (g x)) → rmap f l = Ok (g <$> l).
Proof.
  induction l as [|x l IH]; intros Hf; simpl; [done|].
  rewrite Hf by left; simpl; rewrite IH; [done|]; intros; apply Hf; by right.
Qed.

Lemma head_where {A} (p : A → Prop) (l : list A) :
  (l = [] ∧ ∀ x, x ∈ l → False) ∨ ∃ x l', l = x :: l' ∧ x ∈ l.
Proof. destruct l as [|x l]; [left|right]; [set_solver|]. exists x, l; split; [done|left]. Qed.

(** ** Users *)

Lemma pg_HasActiveGlobalAdmin_meets : pg_meets pg_HasActiveGlobalAdmin spec_has_admin no_clash.
Proof.
  apply query_meets; intros db Hwf; split; [done|]; eexists; split; [done|].
  rewrite Z.ltb_lt; unfold active_admin, is_active_admin.
  destruct (users_where _ db) as [|u l] eqn:Hl; simpl; split; try lia.
  - intros (id & u & Hu & Ha); exfalso; apply (not_elem_of_nil u); rewrite <- Hl.
    apply elem_of_users_where; eauto.
  - intros _; assert (u ∈ users_where (λ u, u_IsAdmin u && u_Enabled u) db) as Hu by (rewrite Hl; left).
    apply elem_of_users_where in Hu as [? [id ?]]; eauto.
Qed.

Lemma pg_ListUsers_meets_aux (b : bool) (p : User → bool) :
  (∀ u, p u = true ↔ u_IsRobot u = b) →
  pg_meets (db_query (λ db, rmap scanUserRow (sort_by u_Username (users_where p db))))
    (spec_list_users b) no_clash.
Proof.
  intros Hp; apply query_meets; intros db Hwf; split; [done|].
  rewrite rmap_same.
  - eexists; split; [done|]; split; [apply sort_by_sorted|].
    intros u; rewrite elem_of_sort_by, elem_of_users_where, Hp; split.
    + intros [? [id Hid]]; split; [by eapply wf_user_at|done].
    + intros []; eauto.
  - intros u Hu; rewrite elem_of_sort_by, elem_of_users_where in Hu.
    destruct Hu as [_ [id Hid]]; by eapply scanUserRow_wf.
Qed.

Lemma pg_GetUserByUsername_meets n : pg_meets (pg_GetUserByUsername n) (spec_user_by_name n) no_clash.
Proof.
  apply query_meets; intros db Hwf; split; [done|]; fold (normal_username n).
  destruct (users_where _ db) as [|u l] eqn:Hl; simpl.
  - right; split; [done|]; intros u [Hu Hn]; apply (not_elem_of_nil u); rewrite <- Hl.
    apply elem_of_users_where; split; [by apply String.eqb_eq|eauto].
  - left; assert (u ∈ users_where (λ u, String.eqb (u_Username u) (normal_username n)) db) as Hu
      by (rewrite Hl; left).
    apply elem_of_users_where in Hu as [Hn%String.eqb_eq [id Hid]].
    exists u; split; [by eapply scanUserRow_wf|split; [by eapply wf_user_at|done]].
Qed.

Lemma pg_GetUserByID_meets id : pg_meets (pg_GetUserByID id) (spec_user_by_id id) no_clash.
Proof.
  apply query_meets; intros db Hwf; split; [done|].
  destruct (users_where _ db) as [|u l] eqn:Hl; simpl.
  - destruct (db_users db !! trim_space id) as [u|] eqn:Hu; [|done].
    exfalso; apply (not_elem_of_nil u); rewrite <- Hl; apply elem_of_users_where.
    split; [apply String.eqb_eq, (wf_user_id _ Hwf _ _ Hu)|eauto].
  - assert (u ∈ users_where (λ u, String.eqb (u_ID u) (trim_space id)) db) as Hu by (rewrite Hl; left).
    apply elem_of_users_where in Hu as [Hn%String.eqb_eq [i Hi]].
    rewrite (scanUserRow_wf db i u), <- Hn by done; by rewrite (wf_user_at db i u).
Qed.

(** ** The constraints of the tables under each write *)

Ltac use_wf Hwf :=
  first [ by eapply (wf_user_id _ Hwf) | by eapply (wf_user_valid _ Hwf)
        | by eapply (wf_grant_user _ Hwf) | by apply (wf_grant_valid _ Hwf)
        | by eapply (wf_token_id _ Hwf) | by eapply (wf_token_valid _ Hwf)
        | by eapply (wf_token_user _ Hwf) ].

Lemma merge_user_fields o u :
  u_ID (merge_user o u) = u_ID u ∧ u_Username (merge_user o u) = u_Username u.
Proof. by destruct o. Qed.

Lemma merge_user_valid o u :
  User_Validate u = Ok tt → (∀ v, o = Some v → User_Validate v = Ok tt) →
  User_Validate (merge_user o u) = Ok tt.
Proof.
  destruct o as [v|]; simpl; [|done]; intros Hu Hv; specialize (Hv v eq_refl).
  unfold User_Validate in *; simpl in *; repeat (case_match; try done).
Qed.

Lemma insert_user_wf db u :
  db_wf db → User_Validate u = Ok tt →
  (∀ id v, db_users db !! id = Some v → u_Username v = u_Username u → id = u_ID u) →
  db_wf (insert_user u db).
Proof.
  intros Hwf Hu Huniq; destruct (merge_user_fields (db_users db !! u_ID u) u) as [Hid Hname].
  split; simpl; try solve [apply Hwf].
  - intros id v [[<- <-]|[Hne Hv]]%lookup_insert_Some; [done|use_wf Hwf].
  - intros id v [[<- <-]|[Hne Hv]]%lookup_insert_Some; [|use_wf Hwf].
    apply merge_user_valid; [done|]; intros v; apply (wf_user_valid _ Hwf).
  - intros i j v v' [[<- <-]|[Hi Hv]]%lookup_insert_Some [[<- <-]|[Hj Hv']]%lookup_insert_Some;
      rewrite ?Hname; intros Heq; try done.
    + by symmetry; eapply Huniq.
    + by eapply Huniq.
    + by eapply (wf_username _ Hwf).
  - intros k g Hg; destruct (wf_grant_user _ Hwf _ _ Hg) as [v Hv].
    destruct (decide (k.1 = u_ID u)) as [->|]; [rewrite lookup_insert_eq|rewrite lookup_insert_ne by done];
      eauto.
  - intros id t Ht; destruct (wf_token_user _ Hwf _ _ Ht) as [v Hv].
    destruct (decide (t_UserID t = u_ID u)) as [->|];
      [rewrite lookup_insert_eq|rewrite lookup_insert_ne by done]; eauto.
Qed.

Lemma remove_user_wf db id : db_wf db → db_wf (remove_user id db).
Proof.
  intros Hwf; split; simpl.
  - intros i u [_ Hu]%lookup_delete_Some; use_wf Hwf.
  - intros i u [_ Hu]%lookup_delete_Some; use_wf Hwf.
  - intros i j u v [_ Hu]%lookup_delete_Some [_ Hv]%lookup_delete_Some; by eapply (wf_username _ Hwf).
  - intros k g [Hg Hk]%map_lookup_filter_Some; simpl in Hk.
    rewrite lookup_delete_ne by done; use_wf Hwf.
  - intros k g [Hg Hk]%map_lookup_filter_Some; use_wf Hwf.
  - intros i t [Ht _]%map_lookup_filter_Some; use_wf Hwf.
  - intros i t [Ht _]%map_lookup_filter_Some; use_wf Hwf.
  - intros i t [Ht Hk]%map_lookup_filter_Some; simpl in Hk.
    rewrite lookup_delete_ne by done; use_wf Hwf.
  - intros i j t t' [Ht _]%map_lookup_filter_Some [Ht' _]%map_lookup_filter_Some; by eapply (wf_token_accessor _ Hwf).
  - intros i j t t' [Ht _]%map_lookup_filter_Some [Ht' _]%map_lookup_filter_Some; by eapply (wf_token_hash _ Hwf).
Qed.

Lemma insert_grant_wf db g :
  db_wf db → RepoGrant_Validate g = Ok tt → is_Some (db_users db !! g_UserID g) →
  db_wf (insert_grant g db).
Proof.
  intros Hwf Hg Hu; split; simpl; try solve [apply Hwf].
  - intros k r [[<- <-]|[Hne Hr]]%lookup_insert_Some; [done|use_wf Hwf].
  - intros k r [[<- <-]|[Hne Hr]]%lookup_insert_Some; [|use_wf Hwf].
    destruct g as [user [repo] role c u]; simpl in *.
    destruct (db_grants db !! (user, repo)) as [o|] eqn:Ho; simpl; [|done].
    pose proof (wf_grant_valid _ Hwf _ _ Ho) as Hv; simpl in Hv.
    unfold RepoGrant_Validate, row_grant, rbind in *; simpl in *; repeat (case_match; try done).
Qed.

Lemma remove_grant_wf db user repo : db_wf db → db_wf (remove_grant user repo db).
Proof.
  intros Hwf; split; simpl; try solve [apply Hwf].
  - intros k r [_ Hr]%lookup_delete_Some; use_wf Hwf.
  - intros k r [_ Hr]%lookup_delete_Some; use_wf Hwf.
Qed.

Lemma insert_token_wf db t :
  db_wf db → Token_Validate t = Ok tt → is_Some (db_users db !! t_UserID t) →
  (∀ id s, db_tokens db !! id = Some s → t_Accessor s ≠ t_Accessor t ∧ t_SecretHash s ≠ t_SecretHash t) →
  db_wf (insert_token t db).
Proof.
  intros Hwf Ht Hu Hfresh; split; simpl; try solve [apply Hwf].
  - intros id s [[<- <-]|[Hne Hs]]%lookup_insert_Some; [done|use_wf Hwf].
  - intros id s [[<- <-]|[Hne Hs]]%lookup_insert_Some; [done|use_wf Hwf].
  - intros id s [[<- <-]|[Hne Hs]]%lookup_insert_Some; [done|use_wf Hwf].
  - intros i j s s' [[<- <-]|[Hi Hs]]%lookup_insert_Some [[<- <-]|[Hj Hs']]%lookup_insert_Some Heq; try done.
    + by destruct (Hfresh _ _ Hs') as [[] _].
    + by destruct (Hfresh _ _ Hs) as [[] _].
    + by eapply (wf_token_accessor _ Hwf).
  - intros i j s s' [[<- <-]|[Hi Hs]]%lookup_insert_Some [[<- <-]|[Hj Hs']]%lookup_insert_Some Heq; try done.
    + by destruct (Hfresh _ _ Hs') as [_ []].
    + by destruct (Hfresh _ _ Hs) as [_ []].
    + by eapply (wf_token_hash _ Hwf).
Qed.

Lemma lookup_revoked db acc at_ id t' :
  db_tokens (revoke_accessor acc at_ db) !! id = Some t' →
  ∃ t, db_tokens db !! id = Some t ∧ (t' = t ∨ t' = set_revoked t at_).
Proof.
  simpl; rewrite lookup_fmap, fmap_Some; intros (t & Ht & ->); exists t; split; [done|].
  destruct (_ && _); auto.
Qed.

Lemma revoke_accessor_wf db acc at_ : db_wf db → db_wf (revoke_accessor acc at_ db).
Proof.
  intros Hwf; split; try solve [apply Hwf].
  - intros id t' (t & Ht & [->| ->])%lookup_revoked; simpl; use_wf Hwf.
  - intros id t' (t & Ht & [->| ->])%lookup_revoked; [|unfold set_revoked; rewrite Token_Validate_revoked];
      use_wf Hwf.
  - intros id t' (t & Ht & [->| ->])%lookup_revoked; simpl; use_wf Hwf.
  - intros i j t' s' (t & Ht & Heq)%lookup_revoked (s & Hs & Heq')%lookup_revoked Hacc.
    apply (wf_token_accessor _ Hwf _ _ _ _ Ht Hs); by destruct Heq as [->| ->], Heq' as [->| ->].
  - intros i j t' s' (t & Ht & Heq)%lookup_revoked (s & Hs & Heq')%lookup_revoked Hacc.
    apply (wf_token_hash _ Hwf _ _ _ _ Ht Hs); by destruct Heq as [->| ->], Heq' as [->| ->].
Qed.

(** ** Every operation keeps its promise *)

Lemma pg_UpsertUser_meets u : pg_meets (pg_UpsertUser u) (spec_upsert_user u)
  (username_taken (set_username u (normal_username (u_Username u)))).
Proof.
  unfold pg_UpsertUser; fold (normal_username (u_Username u)).
  set (u' := set_username u _); apply guarded_meets; [left; eauto|].
  intros Hv; apply exec_meets; intros db Hwf; unfold upsert_user_sql.
  destruct (users_where _ db) as [|v l] eqn:Hl; simpl.
  - assert (∀ id v, db_users db !! id = Some v → u_Username v = u_Username u' → id = u_ID u') as Huniq.
    { intros id v Hid Hn; destruct (decide (id = u_ID u')) as [|Hne]; [done|]; exfalso.
      apply (not_elem_of_nil v); rewrite <- Hl; apply elem_of_users_where; split; [|eauto].
      rewrite (wf_user_id _ Hwf _ _ Hid), andb_true_iff, negb_true_iff, String.eqb_eq, String.eqb_neq.
      done. }
    split; [by apply insert_user_wf|]; right; auto.
  - right; split; [done|]; pose proof (list_elem_of_here v l) as Hin; rewrite <- Hl in Hin.
    apply elem_of_users_where in Hin as [Hp [id Hid]]; bool_prop.
    exists id, v; split; [done|split; [done|]]; by rewrite <- (wf_user_id _ Hwf _ _ Hid).
Qed.

(** The transaction's statements together delete the user, its grants and its
    tokens; one failing leaves the tables as they were. *)
Lemma delete_user_sql_spec id db :
  delete_user_sql id (delete_tokens_sql id (delete_grants_sql id db)) =
  match db_users db !! id with
  | Some _ => (1%nat, remove_user id db)
  | None => (0%nat, delete_tokens_sql id (delete_grants_sql id db))
  end.
Proof. unfold delete_user_sql; simpl; by destruct (db_users db !! id). Qed.

Lemma pg_DeleteUser_meets id : pg_meets (pg_DeleteUser id) (spec_delete_user id) no_clash.
Proof.
  intros w Hw; unfold pg_DeleteUser, sbind, db_query, tx_statement, db_exec, db_call, aw_later, aw_wf in *.
  assert (∀ k e, (aw_calls w ≤ k)%nat → env_fault k = Some e → aw_calm w → no_clash (aw_db w)) as Hf
    by (intros k e Hk He Hc; specialize (Hc k Hk); by rewrite He in Hc).
  repeat (simpl; match goal with |- context [env_fault ?k] => destruct (env_fault k) eqn:? end;
    [solve [simpl; (split; [done|split; [lia|right]]); split; [done|split; [by eexists|]];
            match goal with Hk : env_fault _ = Some _ |- _ => refine (Hf _ _ _ Hk); lia end]|]).
  simpl; rewrite delete_user_sql_spec.
  destruct (db_users (aw_db w) !! trim_space id) as [u|] eqn:Hu; simpl.
  - match goal with |- context [env_fault ?k] => destruct (env_fault k) eqn:? end;
      simpl; (split; [by try apply remove_user_wf|split; [lia|]]).
    + right; split; [done|split; [by eexists|]].
      match goal with Hk : env_fault _ = Some _ |- _ => refine (Hf _ _ _ Hk); lia end.
    + left; left; eauto.
  - split; [done|split; [lia|]]; left; right; eauto.
Qed.

Lemma pg_ListRepoGrants_meets id : pg_meets (pg_ListRepoGrants id) (spec_list_grants id) no_clash.
Proof.
  apply query_meets; intros db Hwf; split; [done|].
  set (rows := sort_by _ _).
  assert (∀ kv, kv ∈ rows ↔ kv.1.1 = trim_space id ∧ db_grants db !! kv.1 = Some kv.2) as Hrows
    by (intros kv; unfold rows; by rewrite elem_of_sort_by, elem_of_grants_where, String.eqb_eq).
  destruct (String.eqb_spec id "") as [->|Hne].
  { destruct (rmap (scanGrantRow "") rows) eqn:Hr; [right|left; eauto].
    destruct rows as [|kv rows']; [|exfalso].
    - injection Hr as <-; eexists; split; [done|]; intros g; split; [set_solver|].
      intros (repo & row & Hg & _); exfalso; apply (not_elem_of_nil ((trim_space "", repo), row)).
      by apply Hrows.
    - destruct (Hrows kv) as [[Hk Hg] _]; [left|].
      destruct (wf_grant_user _ Hwf _ _ Hg) as [u Hu]; rewrite Hk in Hu.
      by apply (User_Validate_id _ _ (wf_user_valid _ Hwf _ _ Hu)), (wf_user_id _ Hwf _ _ Hu). }
  right; rewrite (rmap_fmap _ (λ kv, row_grant id kv.1.2 kv.2)).
  - eexists; split; [done|]; intros g; rewrite list_elem_of_fmap; split.
    + intros ([[u r] row] & -> & [Hk Hg]%Hrows); simpl in *; subst u; eauto.
    + intros (repo & row & Hg & ->); exists ((trim_space id, repo), row); split; [done|]; by apply Hrows.
  - intros [[u r] row] [Hk Hg]%Hrows; simpl in *; unfold scanGrantRow, row_grant; simpl.
    pose proof (wf_grant_valid _ Hwf _ _ Hg) as Hv; unfold RepoGrant_Validate, row_grant in Hv; simpl in Hv.
    destruct (String.eqb u ""); [done|].
    destruct (RepositoryRef_Validate (mkRef r)) as [[]|] eqn:Hr; [|done].
    pose proof Hr as Hr'; apply RepositoryRef_Validate_ok, valid_repository_spec in Hr'; simpl in Hr'.
    rewrite Hr'; simpl; unfold RepoGrant_Validate; simpl; rewrite Hr.
    apply String.eqb_neq in Hne; rewrite Hne; simpl in Hv; simpl.
    destruct (RepoRole_Validate _); [|done]; simpl in Hv; simpl; by repeat (case_match; try done).
Qed.

Lemma pg_ListRepoGrantsByRepository_meets r :
  pg_meets (pg_ListRepoGrantsByRepository r) (spec_list_repo_grants r) no_clash.
Proof.
  apply query_meets; intros db Hwf; split; [done|].
  set (rows := sort_by _ _).
  assert (∀ kv, kv ∈ rows ↔ kv.1.2 = ref_Name r ∧ db_grants db !! kv.1 = Some kv.2) as Hrows
    by (intros kv; unfold rows; by rewrite elem_of_sort_by, elem_of_grants_where, String.eqb_eq).
  rewrite (rmap_fmap _ (λ kv, row_grant kv.1.1 (ref_Name r) kv.2)).
  - eexists; split; [done|]; intros g; rewrite list_elem_of_fmap; split.
    + intros ([[u n] row] & -> & [Hk Hg]%Hrows); simpl in *; subst n; eauto.
    + intros (user & row & Hg & ->); exists ((user, ref_Name r), row); split; [done|]; by apply Hrows.
  - intros [[u n] row] [Hk Hg]%Hrows; simpl in *; subst n.
    unfold scanRepositoryGrantRow; simpl; pose proof (wf_grant_valid _ Hwf _ _ Hg) as Hv.
    destruct r as [n]; unfold row_grant in *; simpl in *; by rewrite Hv.
Qed.

Lemma pg_PutRepoGrant_meets g :
  pg_meets (pg_PutRepoGrant g) (spec_put_grant g) (user_missing (g_UserID g)).
Proof.
  apply guarded_meets; [left; eauto|]; intros Hv; apply exec_meets; intros db Hwf; unfold put_grant_sql.
  destruct (db_users db !! g_UserID g) eqn:Hu; [|right; split; [done|exact Hu]].
  split; [apply insert_grant_wf; eauto|right; eauto].
Qed.

Lemma pg_DeleteRepoGrant_meets u r : pg_meets (pg_DeleteRepoGrant u r) (spec_delete_grant u r) no_clash.
Proof.
  apply exec_meets; intros db Hwf; unfold ref_String, spec_delete_grant; simpl.
  destruct (db_grants db !! (trim_space u, ref_Name r)) eqn:Hg.
  - split; [by apply remove_grant_wf|left; eauto].
  - left; right; eauto.
Qed.

Lemma pg_CreateToken_meets t : pg_meets (pg_CreateToken t) (spec_create_token t) (token_clash t).
Proof.
  apply guarded_meets; [left; eauto|]; intros Hv; apply exec_meets; intros db Hwf; unfold insert_token_sql.
  destruct (db_users db !! t_UserID t) eqn:Hu; [|right; split; [done|left; exact Hu]].
  destruct (tokens_where _ db) as [|s l] eqn:Hl.
  - assert (∀ id s, db_tokens db !! id = Some s →
      t_ID s ≠ t_ID t ∧ t_Accessor s ≠ t_Accessor t ∧ t_SecretHash s ≠ t_SecretHash t) as Hfresh.
    { intros id s Hs; repeat split; intros Heq; apply (not_elem_of_nil s); rewrite <- Hl; apply elem_of_tokens_where;
        (split; [|eauto]); rewrite Heq, String.eqb_refl, ?orb_true_r; done. }
    assert (∀ id s, db_tokens db !! id = Some s →
      t_Accessor s ≠ t_Accessor t ∧ t_SecretHash s ≠ t_SecretHash t) as Hfresh' by (intros; by eapply Hfresh).
    split; [apply insert_token_wf; eauto|right]; repeat split; eauto; try by eapply Hfresh.
    destruct (db_tokens db !! t_ID t) as [s|] eqn:Hs; [|done].
    destruct (Hfresh _ _ Hs) as [[] _]; by apply Hwf.
  - right; split; [done|right]; pose proof (list_elem_of_here s l) as Hin; rewrite <- Hl in Hin.
    apply elem_of_tokens_where in Hin as [Hp [id Hid]]; exists s; split; [by eapply wf_token_at|].
    rewrite !orb_true_iff, !String.eqb_eq in Hp; tauto.
Qed.

Lemma token_by_meets (key : Token → string) kind value :
  pg_meets (db_query (λ db, scanToken
      (tokens_where (λ t, String.eqb (t_Kind t) kind && String.eqb (key t) (trim_space value)) db)))
    (spec_token_by key kind value) no_clash.
Proof.
  apply query_meets; intros db Hwf; split; [done|].
  destruct (tokens_where _ db) as [|t l] eqn:Hl; simpl.
  - right; split; [done|]; intros id t Ht [Hk Hv]; apply (not_elem_of_nil t); rewrite <- Hl.
    apply elem_of_tokens_where; rewrite Hk, Hv, !String.eqb_refl; eauto.
  - left; pose proof (list_elem_of_here t l) as Hin; rewrite <- Hl in Hin.
    apply elem_of_tokens_where in Hin as [Hp [id Hid]]; bool_prop.
    exists t; split; [by eapply scanTokenRow_wf|split; [by eapply wf_token_at|done]].
Qed.

Lemma pg_ListTokensByUser_meets u k : pg_meets (pg_ListTokensByUser u k) (spec_list_tokens u k) no_clash.
Proof.
  apply query_meets; intros db Hwf; split; [done|].
  rewrite rmap_same.
  - eexists; split; [done|]; intros t.
    rewrite elem_of_reverse, elem_of_sort_by, elem_of_tokens_where, andb_true_iff, !String.eqb_eq.
    split; [|naive_solver]; intros [Hp [id Hid]]; split; [by eapply wf_token_at|done].
  - intros t Ht; rewrite elem_of_reverse, elem_of_sort_by, elem_of_tokens_where in Ht.
    destruct Ht as [_ [id Hid]]; by eapply scanTokenRow_wf.
Qed.

Lemma pg_RevokeTokenByAccessor_meets a t :
  pg_meets (pg_RevokeTokenByAccessor a t) (spec_revoke a t) no_clash.
Proof.
  apply exec_meets; intros db Hwf.
  assert (∀ s, (String.eqb (t_Accessor s) (trim_space a) && negb (IsRevoked s)) = true ↔
               t_Accessor s = trim_space a ∧ t_RevokedAt s = None) as Hlive.
  { intros s; rewrite andb_true_iff, negb_true_iff, String.eqb_eq; unfold IsRevoked.
    destruct (t_RevokedAt s); naive_solver. }
  destruct (tokens_where _ db) as [|s l] eqn:Hl.
  - left; right; split; [|done]; intros id s [Hs Hr]; apply (not_elem_of_nil s); rewrite <- Hl.
    apply elem_of_tokens_where; rewrite Hlive; eauto.
  - split; [by apply revoke_accessor_wf|left]; split; [|done].
    pose proof (list_elem_of_here s l) as Hin; rewrite <- Hl in Hin.
    apply elem_of_tokens_where in Hin as [Hp [id Hid]]; exists id, s; by rewrite <- Hlive.
Qed.
End Laws.

#[global] Instance pg_store_laws `{UnicodeTables, AuthEnv} : AuthStoreLaws AuthWorld.
Proof.
  refine {| auth_view := aw_db; auth_wf := aw_wf; auth_later := aw_later; auth_calm := aw_calm |}.
  - exact aw_calm_later.
  - done.
  - exact pg_HasActiveGlobalAdmin_meets.
  - apply (pg_ListUsers_meets_aux false); intros u; by rewrite negb_true_iff.
  - by apply (pg_ListUsers_meets_aux true).
  - exact pg_GetUserByUsername_meets.
  - exact pg_GetUserByID_meets.
  - exact pg_UpsertUser_meets.
  - exact pg_DeleteUser_meets.
  - exact pg_ListRepoGrants_meets.
  - exact pg_ListRepoGrantsByRepository_meets.
  - exact pg_PutRepoGrant_meets.
  - exact pg_DeleteRepoGrant_meets.
  - exact pg_CreateToken_meets.
  - intros k h; apply (token_by_meets t_SecretHash).
  - intros k h; apply (token_by_meets t_Accessor).
  - exact pg_ListTokensByUser_meets.
  - exact pg_RevokeTokenByAccessor_meets.
Defined.

#[global] Instance pg_runtime_laws `{AuthEnvLaws} : RuntimeLaws AuthWorld.
Proof.
  assert (∀ w, aw_later w (mkAuthWorld (aw_db w) (S (aw_calls w)))) as Hl
    by (intros w; unfold aw_later; simpl; lia).
  split; intros; intros w Hw; (split; [exact Hw|split; [apply Hl|split; [done|]]]); simpl.
  - eexists; split; [done|]; apply env_now_law.
  - eexists; split; [done|]; apply env_uuid_law.
  - unfold spec_rand; destruct (env_fault _); [left; by eexists|right; eexists; split; [done|]].
    apply env_rand_law.
  - apply (env_generate_law (aw_calls w) p).
Qed.
