(* ===== verification/AuthService.v ===== *)
(** The authentication and administration service (internal/app/auth/service.go)
    over the [AuthStore] interface and the runtime: one definition per method,
    with the method's name; the port types it returns (internal/ports/auth.go). *)
From S2P Require Import Prelude GoStrings Encodings Errors Repository GoNumbers Scope Auth Access AuthStore.

(** * Definitions *)

(** ** Results and projections (ports/auth.go) *)

Record LoginResult := mkLoginResult {
  lr_Principal : Principal;
  lr_BearerToken : string;
  lr_ExpiresAt : Time;
  lr_Accessor : string;
  lr_Scope : string;
}.

Record BootstrapAdminInput := mkBootstrapAdminInput {
  bi_Username : string; bi_Password : string; bi_RotatePassword : bool }.
Record BootstrapAdminResult := mkBootstrapAdminResult {
  br_User : User; br_Created : bool; br_PasswordRotated : bool }.
Record CreateAdminTokenInput := mkCreateAdminTokenInput {
  ct_UserID : string; ct_Name : string; ct_TTL : Duration }.
Record CreateUserInput := mkCreateUserInput {
  cu_Username : string; cu_Password : string; cu_IsAdmin : bool; cu_IsReadOnly : bool; cu_Enabled : bool }.
Record UpdateUserInput := mkUpdateUserInput {
  uu_UserID : string; uu_Username : string; uu_IsAdmin : bool; uu_IsReadOnly : bool; uu_PreserveAdmin : bool }.
Record CreateRobotInput := mkCreateRobotInput {
  ri_Name : string; ri_Repository : string; ri_Role : RepoRole; ri_TTL : Duration }.

Record CreatedRobot := mkCreatedRobot {
  cr_User : User; cr_Grant : RepoGrant; cr_Secret : string; cr_Accessor : string; cr_ExpiresAt : Time }.
Record CreatedAdminToken := mkCreatedAdminToken {
  ca_Token : Token; ca_Secret : string; ca_Plaintext : string; ca_Accessor : string;
  ca_ExpiresAt : Time; ca_TargetUser : User }.

Record AdminUser := mkAdminUser {
  au_ID : string; au_Username : string; au_IsAdmin : bool; au_IsReadOnly : bool; au_Enabled : bool;
  au_CreatedAt : Time; au_UpdatedAt : Time }.
Record AdminRepoGrant := mkAdminRepoGrant {
  ag_UserID : string; ag_Repository : RepositoryRef; ag_Role : RepoRole;
  ag_CreatedAt : Time; ag_UpdatedAt : Time }.
Record AdminRepositoryGrant := mkAdminRepositoryGrant {
  arg_Username : string; arg_Role : RepoRole; arg_CreatedAt : Time; arg_UpdatedAt : Time }.
Record AdminRobot := mkAdminRobot {
  ar_ID : string; ar_Username : string; ar_Repository : string; ar_Role : RepoRole;
  ar_Enabled : bool; ar_CreatedAt : Time }.
Record AdminCreatedRobot := mkAdminCreatedRobot {
  acr_Robot : AdminRobot; acr_Secret : string; acr_Accessor : string; acr_ExpiresAt : Time }.
Record AdminToken := mkAdminToken {
  at_ID : string; at_UserID : string; at_Kind : TokenKind; at_Name : string; at_Accessor : string;
  at_ExpiresAt : Time; at_CreatedAt : Time; at_RevokedAt : option Time }.
Record AdminCreatedToken := mkAdminCreatedToken {
  act_Token : AdminToken; act_Secret : string; act_Accessor : string; act_ExpiresAt : Time;
  act_TargetUser : AdminUser }.

Definition toAdminRobot (user : User) (grant : RepoGrant) : AdminRobot :=
  mkAdminRobot (u_ID user) (u_Username user) (ref_String (g_Repository grant)) (g_Role grant)
    (u_Enabled user) (u_CreatedAt user).
Definition toAdminUser (user : User) : AdminUser :=
  mkAdminUser (u_ID user) (u_Username user) (u_IsAdmin user) (u_IsReadOnly user) (u_Enabled user)
    (u_CreatedAt user) (u_UpdatedAt user).
Definition toAdminRepoGrant (grant : RepoGrant) : AdminRepoGrant :=
  mkAdminRepoGrant (g_UserID grant) (g_Repository grant) (g_Role grant) (g_CreatedAt grant) (g_UpdatedAt grant).
Definition toAdminToken (token : Token) : AdminToken :=
  mkAdminToken (t_ID token) (t_UserID token) (t_Kind token) (t_Name token) (t_Accessor token)
    (t_ExpiresAt token) (t_CreatedAt token) (t_RevokedAt token).

Definition zero_grant : RepoGrant := mkGrant "" zero_ref "" zero_time zero_time.

(** ** Pure helpers *)

Definition requireAdmin (actor : Principal) : res unit :=
  if negb (p_IsAdmin actor) then Err (NewForbiddenError "administrator privileges are required") else Ok tt.

Definition requireAdminOrRepoAdmin (actor : Principal) (repository : string) : res unit :=
  if p_IsAdmin actor then Ok tt
  else if existsb (λ grant, String.eqb (ref_String (g_Repository grant)) repository
                            && AllowsAdmin (g_Role grant)) (p_Grants actor)
  then Ok tt
  else Err (NewForbiddenError "repository administrator privileges are required").

Definition validatePassword (password : string) : res unit :=
  if (String.length (trim_space password) <? 8)%nat
  then Err (AuthValidationError "password must be at least 8 characters") else Ok tt.

Definition hashSecret (secret : string) : string := hex_encode (sha256 (bytes_of secret)).

(** [strings.ReplaceAll(s, "-", "")] *)
Definition remove_dashes (s : string) : string :=
  string_of_list_ascii (List.filter (λ a, negb (Ascii.eqb a "-")) (list_ascii_of_string s)).

(** The loop of [intersectRequestedActions] over the grants: the first grant on the
    repository decides. *)
Definition grant_flags (grants : list RepoGrant) (requested : Scope) : bool * bool * bool :=
  match List.find (λ g, String.eqb (ref_String (g_Repository g)) (ref_String (sc_repository requested))) grants with
  | None => (false, false, false)
  | Some g => (AllowsRead (g_Role g) && AllowsPull requested,
               AllowsWrite (g_Role g) && AllowsPush requested,
               AllowsWrite (g_Role g) && AllowsDelete requested)
  end.

Definition intersectRequestedActions (isAdmin isReadOnly : bool) (grants : list RepoGrant)
    (requested : Scope) : list string :=
  let '(allowPull, allowPush, allowDelete) :=
    if isAdmin then (AllowsPull requested, AllowsPush requested, AllowsDelete requested)
    else if isReadOnly then (AllowsPull requested, false, false)
    else grant_flags grants requested in
  (if allowPull then ["pull"] else []) ++ (if allowPush then ["push"] else [])
    ++ (if allowDelete then ["delete"] else []).

Definition granted_scope (user : User) (grants : list RepoGrant) (requested : Scope) : list Scope :=
  if IsRegixtryCatalog requested then [requested] else
  if negb (IsRepository requested) then [] else
  match intersectRequestedActions (u_IsAdmin user) (u_IsReadOnly user) grants requested with
  | [] => []
  | actions =>
      let name := ref_String (sc_repository requested) in
      [mkScope "repository" name actions (canonical_scope "repository" name actions) zero_ref]
  end.

Section Service.
Context {W : Type} `{UnicodeTables, AuthStore W, Runtime W}.

Definition normalizeUsername (username : string) : string := to_lower (trim_space username).

Definition hashPassword (password : string) : M W string := rt_bcrypt_generate password.

Definition randomSecret (bytesLen : nat) : M W string :=
  let! buf := rt_rand bytesLen in sret (hex_encode buf).

Definition shortAccessor (prefix : string) : M W string :=
  let! u := rt_uuid in sret (String.append prefix (String.append "_" (remove_dashes u))).

(** ** Admin gates *)

Definition EnsureBootstrapAdmin : M W unit :=
  let! hasAdmin := HasActiveGlobalAdmin in
  if negb hasAdmin then sthrow NewBootstrapRequiredError else sret tt.

Definition ensureAnotherActiveAdmin (exceptUserID : string) (includeTarget : bool) : M W unit :=
  let! users := ListUsers in
  if existsb (λ user, negb (String.eqb (u_ID user) exceptUserID) && (u_IsAdmin user && u_Enabled user)) users
  then sret tt
  else if includeTarget
  then sthrow (AuthConflictError "at least one active global admin must remain configured")
  else sret tt.

(** ** Users *)

Definition svc_ListUsers (actor : Principal) : M W (list User) :=
  do! slift (requireAdmin actor) in ListUsers.
Definition ListAdminUsers (actor : Principal) : M W (list AdminUser) :=
  let! users := svc_ListUsers actor in sret (map toAdminUser users).

Definition BootstrapAdmin (input : BootstrapAdminInput) : M W BootstrapAdminResult :=
  let username := normalizeUsername (bi_Username input) in
  if String.eqb username "" then sthrow (AuthValidationError "username is required") else
  do! slift (validatePassword (bi_Password input)) in
  let! now := rt_now in
  let! found := sattempt (GetUserByUsername username) in
  match found with
  | Ok user =>
      let! _ :=
        if negb (u_IsAdmin user) then
          let! hasOtherAdmin := HasActiveGlobalAdmin in
          if hasOtherAdmin then sthrow (AuthConflictError "a global admin already exists") else sret tt
        else sret tt in
      let! rotated :=
        if bi_RotatePassword input then
          let! hash := hashPassword (bi_Password input) in sret (hash, true)
        else sret (u_PasswordHash user, false) in
      let updated := mkUser (u_ID user) username rotated.1 true (u_IsReadOnly user) (u_IsRobot user) true
                       (u_CreatedAt user) now in
      do! UpsertUser updated in
      sret (mkBootstrapAdminResult updated false rotated.2)
  | Err err =>
      if negb (auth_is_code err AuthNotFound) then sthrow err else
      let! hasAdmin := HasActiveGlobalAdmin in
      if hasAdmin then sthrow (AuthConflictError "a global admin already exists") else
      let! hash := hashPassword (bi_Password input) in
      let! uid := rt_uuid in
      let user := mkUser uid username hash true false false true now now in
      do! UpsertUser user in
      sret (mkBootstrapAdminResult user true false)
  end.

(** The lookup that [CreateUser] and [CreateRobot] start with. *)
Definition username_free (username : string) : M W unit :=
  let! found := sattempt (GetUserByUsername username) in
  match found with
  | Ok _ => sthrow (AuthConflictError "username already exists")
  | Err err => if negb (auth_is_code err AuthNotFound) then sthrow err else sret tt
  end.

Definition CreateUser (actor : Principal) (input : CreateUserInput) : M W User :=
  do! slift (requireAdmin actor) in
  let username := normalizeUsername (cu_Username input) in
  if String.eqb username "" then sthrow (AuthValidationError "username is required") else
  do! slift (validatePassword (cu_Password input)) in
  do! username_free username in
  let! hash := hashPassword (cu_Password input) in
  let! now := rt_now in
  let! uid := rt_uuid in
  let user := mkUser uid username hash (cu_IsAdmin input) (cu_IsReadOnly input) false (cu_Enabled input)
                now now in
  do! UpsertUser user in
  sret user.
Definition CreateAdminUser (actor : Principal) (input : CreateUserInput) : M W AdminUser :=
  let! user := CreateUser actor input in sret (toAdminUser user).

Definition UpdateUser (actor : Principal) (input : UpdateUserInput) : M W User :=
  do! slift (requireAdmin actor) in
  let! user := GetUserByID (uu_UserID input) in
  let normalized := normalizeUsername (uu_Username input) in
  let nextUsername := if String.eqb normalized "" then u_Username user else normalized in
  let! _ :=
    if negb (String.eqb nextUsername (u_Username user)) then
      let! lookup := sattempt (GetUserByUsername nextUsername) in
      match lookup with
      | Ok other =>
          if negb (String.eqb (u_ID other) (u_ID user))
          then sthrow (AuthConflictError "username already exists") else sret tt
      | Err lookupErr => if negb (auth_is_code lookupErr AuthNotFound) then sthrow lookupErr else sret tt
      end
    else sret tt in
  let! _ :=
    if u_IsAdmin user && negb (uu_IsAdmin input)
    then ensureAnotherActiveAdmin (u_ID user) (u_Enabled user) else sret tt in
  let! now := rt_now in
  let user := mkUser (u_ID user) nextUsername (u_PasswordHash user) (uu_IsAdmin input) (uu_IsReadOnly input)
                (u_IsRobot user) (u_Enabled user) (u_CreatedAt user) now in
  do! UpsertUser user in
  sret user.

Definition SetUserEnabled (actor : Principal) (userID : string) (enabled : bool) : M W User :=
  do! slift (requireAdmin actor) in
  let! user := GetUserByID userID in
  let! _ :=
    if u_IsAdmin user && u_Enabled user && negb enabled
    then ensureAnotherActiveAdmin (u_ID user) true else sret tt in
  let! now := rt_now in
  let user := mkUser (u_ID user) (u_Username user) (u_PasswordHash user) (u_IsAdmin user) (u_IsReadOnly user)
                (u_IsRobot user) enabled (u_CreatedAt user) now in
  do! UpsertUser user in
  sret user.
Definition EnableAdminUser (actor : Principal) (userID : string) : M W AdminUser :=
  let! user := SetUserEnabled actor userID true in sret (toAdminUser user).
Definition DisableAdminUser (actor : Principal) (userID : string) : M W AdminUser :=
  let! user := SetUserEnabled actor userID false in sret (toAdminUser user).

Definition DeleteUser (actor : Principal) (userID : string) : M W unit :=
  do! slift (requireAdmin actor) in
  let! user := GetUserByID userID in
  let! _ :=
    if u_IsAdmin user && u_Enabled user
    then ensureAnotherActiveAdmin (u_ID user) true else sret tt in
  store_DeleteUser userID.

Definition ResetPassword (actor : Principal) (userID newPassword : string) : M W unit :=
  do! slift (requireAdmin actor) in
  do! slift (validatePassword newPassword) in
  let! user := GetUserByID userID in
  let! hash := hashPassword newPassword in
  let! now := rt_now in
  UpsertUser (mkUser (u_ID user) (u_Username user) hash (u_IsAdmin user) (u_IsReadOnly user) (u_IsRobot user)
                (u_Enabled user) (u_CreatedAt user) now).

(** ** Sessions *)

Definition getActiveUserByUsername (username : string) : M W User :=
  let! found := sattempt (GetUserByUsername (normalizeUsername username)) in
  match found with
  | Err err =>
      if auth_is_code err AuthNotFound then sthrow NewInvalidCredentialsError else sthrow err
  | Ok user =>
      if negb (u_Enabled user) then sthrow (NewDisabledUserError (u_Username user)) else sret user
  end.

Definition buildPrincipal (user : User) (token : Token) : M W Principal :=
  let! listed := sattempt (ListRepoGrants (u_ID user)) in
  let grants := match listed with Ok l => l | Err _ => [] end in
  let! scopes := slift (Token_Scopes token) in
  sret (mkPrincipal (t_Accessor token) (u_ID user) (u_Username user) (u_IsAdmin user) (u_IsReadOnly user)
          grants scopes (t_ExpiresAt token)).

Definition grantedScopes (user : User) (requestedScopes : list Scope) : M W (list Scope) :=
  match requestedScopes with
  | [] => sret []
  | _ =>
      let! grants := ListRepoGrants (u_ID user) in
      sret (flat_map (granted_scope user grants) requestedScopes)
  end.

Definition issueAccessToken (user : User) (requestedScopes : list Scope) : M W LoginResult :=
  let! secret := randomSecret 32 in
  let! granted := grantedScopes user requestedScopes in
  let grantedScope := NormalizeScopes granted in
  let! now := rt_now in
  let! tid := rt_uuid in
  let! accessor := shortAccessor "atk" in
  let token := mkToken tid (u_ID user) TokenKindAccess "" grantedScope accessor (hashSecret secret)
                 (now + AccessTokenTTL) now None in
  do! CreateToken token in
  let! principal := buildPrincipal user token in
  sret (mkLoginResult principal secret (t_ExpiresAt token) (t_Accessor token) grantedScope).

Definition LoginWithPassword (username password : string) (requestedScopes : list Scope) : M W LoginResult :=
  let! user := getActiveUserByUsername username in
  if u_IsRobot user then sthrow NewInvalidCredentialsError else
  if negb (rt_bcrypt_compare (u_PasswordHash user) password) then sthrow NewInvalidCredentialsError else
  issueAccessToken user requestedScopes.

Definition LoginWithPreissuedToken (username token : string) (requestedScopes : list Scope) : M W LoginResult :=
  let! user := getActiveUserByUsername username in
  let! found := sattempt (GetTokenBySecretHash TokenKindAdminCredential (hashSecret token)) in
  match found with
  | Err err =>
      if auth_is_code err AuthNotFound then sthrow NewInvalidCredentialsError else sthrow err
  | Ok storedToken =>
      if negb (String.eqb (t_UserID storedToken) (u_ID user)) then sthrow NewInvalidCredentialsError else
      let! now := rt_now in
      do! slift (IsActive storedToken now) in
      issueAccessToken user requestedScopes
  end.

Definition VerifyAccessToken (bearerToken : string) : M W Principal :=
  let! found := sattempt (GetTokenBySecretHash TokenKindAccess (hashSecret bearerToken)) in
  match found with
  | Err err =>
      if auth_is_code err AuthNotFound then sthrow NewInvalidCredentialsError else sthrow err
  | Ok storedToken =>
      let! now := rt_now in
      do! slift (IsActive storedToken now) in
      let! user := GetUserByID (t_UserID storedToken) in
      if negb (u_Enabled user) then sthrow (NewDisabledUserError (u_Username user)) else
      let! built := sattempt (buildPrincipal user storedToken) in
      match built with
      | Ok principal => sret principal
      | Err _ => sthrow NewInvalidCredentialsError
      end
  end.

(** ** Admin tokens *)

Definition CreateAdminToken (actor : Principal) (input : CreateAdminTokenInput) : M W CreatedAdminToken :=
  do! slift (requireAdmin actor) in
  let! user := GetUserByID (ct_UserID input) in
  if negb (u_Enabled user) then sthrow (NewDisabledUserError (u_Username user)) else
  let ttl := if ct_TTL input <=? 0 then DefaultAdminTokenTTL else ct_TTL input in
  if DefaultAdminTokenTTL <? ttl
  then sthrow (AuthValidationError "admin token ttl must be 30 days or shorter") else
  let! secret := randomSecret 32 in
  let! now := rt_now in
  let! tid := rt_uuid in
  let! accessor := shortAccessor "act" in
  let token := mkToken tid (u_ID user) TokenKindAdminCredential (trim_space (ct_Name input)) "" accessor
                 (hashSecret secret) (now + ttl) now None in
  do! CreateToken token in
  sret (mkCreatedAdminToken token secret secret (t_Accessor token) (t_ExpiresAt token) user).
Definition CreateAdminUserToken (actor : Principal) (input : CreateAdminTokenInput) : M W AdminCreatedToken :=
  let! created := CreateAdminToken actor input in
  sret (mkAdminCreatedToken (toAdminToken (ca_Token created)) (ca_Secret created) (ca_Accessor created)
          (ca_ExpiresAt created) (toAdminUser (ca_TargetUser created))).

Definition ListAdminTokens (actor : Principal) (userID : string) : M W (list Token) :=
  do! slift (requireAdmin actor) in
  do! GetUserByID userID in
  ListTokensByUser userID TokenKindAdminCredential.
Definition ListAdminUserTokens (actor : Principal) (userID : string) : M W (list AdminToken) :=
  let! tokens := ListAdminTokens actor userID in sret (map toAdminToken tokens).

Definition RevokeAdminToken (actor : Principal) (accessor : string) : M W unit :=
  do! slift (requireAdmin actor) in
  let! now := rt_now in
  RevokeTokenByAccessor (trim_space accessor) now.

Definition RevokeAdminUserToken (actor : Principal) (userID accessor : string) : M W unit :=
  do! slift (requireAdmin actor) in
  let! user := GetUserByID userID in
  let! token := GetTokenByAccessor TokenKindAdminCredential accessor in
  if negb (String.eqb (t_UserID token) (u_ID user))
  then sthrow (AuthNotFoundError "token" (trim_space accessor)) else
  let! now := rt_now in
  RevokeTokenByAccessor (t_Accessor token) now.

(** ** Grants *)

Definition svc_ListRepoGrants (actor : Principal) (userID : string) : M W (list RepoGrant) :=
  do! slift (requireAdmin actor) in
  do! GetUserByID userID in
  ListRepoGrants userID.
Definition ListAdminUserRepoGrants (actor : Principal) (userID : string) : M W (list AdminRepoGrant) :=
  let! grants := svc_ListRepoGrants actor userID in sret (map toAdminRepoGrant grants).

Definition PutRepoGrant (actor : Principal) (userID repository : string) (role : RepoRole) : M W RepoGrant :=
  do! slift (requireAdmin actor) in
  do! GetUserByID userID in
  let! repo := slift (ParseRepositoryRef (trim_space repository)) in
  do! slift (RepoRole_Validate role) in
  let! now := rt_now in
  let grant := mkGrant userID repo role now now in
  do! store_PutRepoGrant grant in
  sret grant.
Definition PutAdminUserRepoGrant (actor : Principal) (userID repository : string) (role : RepoRole)
    : M W AdminRepoGrant :=
  let! grant := PutRepoGrant actor userID repository role in sret (toAdminRepoGrant grant).

Definition DeleteRepoGrant (actor : Principal) (userID repository : string) : M W unit :=
  do! slift (requireAdmin actor) in
  do! GetUserByID userID in
  let! repo := slift (ParseRepositoryRef (trim_space repository)) in
  store_DeleteRepoGrant userID repo.

(** ** Delegated grants *)

Definition ListRepositoryGrants (actor : Principal) (repository : string) : M W (list RepoGrant) :=
  let! repo := slift (ParseRepositoryRef (trim_space repository)) in
  do! slift (requireAdminOrRepoAdmin actor (ref_String repo)) in
  ListRepoGrantsByRepository repo.

Definition ListAdminRepositoryGrants (actor : Principal) (repository : string) : M W (list AdminRepositoryGrant) :=
  let! grants := ListRepositoryGrants actor repository in
  smap (λ grant,
    let! user := GetUserByID (g_UserID grant) in
    sret (mkAdminRepositoryGrant (u_Username user) (g_Role grant) (g_CreatedAt grant) (g_UpdatedAt grant))) grants.

(** The bound on a delegate: another repository administrator's grant is out of reach. *)
Definition delegate_bound (actor : Principal) (target : User) (repo : RepositoryRef) : M W unit :=
  if p_IsAdmin actor then sret tt else
  let! existing := ListRepoGrants (u_ID target) in
  if existsb (λ grant, String.eqb (ref_String (g_Repository grant)) (ref_String repo)
                       && String.eqb (g_Role grant) RepoRoleAdmin) existing
  then sthrow (NewForbiddenError "repository administrators cannot modify another repository administrator's grant")
  else sret tt.

Definition PutRepositoryGrant (actor : Principal) (repository username : string) (role : RepoRole)
    : M W RepoGrant :=
  let! repo := slift (ParseRepositoryRef (trim_space repository)) in
  do! slift (requireAdminOrRepoAdmin actor (ref_String repo)) in
  do! slift (RepoRole_Validate role) in
  if negb (p_IsAdmin actor) && String.eqb role RepoRoleAdmin
  then sthrow (NewForbiddenError "repository administrators cannot grant repo-admin") else
  let! target := GetUserByUsername (normalizeUsername username) in
  do! delegate_bound actor target repo in
  let! now := rt_now in
  let grant := mkGrant (u_ID target) repo role now now in
  do! store_PutRepoGrant grant in
  sret grant.
Definition PutAdminRepositoryGrant (actor : Principal) (repository username : string) (role : RepoRole)
    : M W AdminRepositoryGrant :=
  let! grant := PutRepositoryGrant actor repository username role in
  sret (mkAdminRepositoryGrant (normalizeUsername username) (g_Role grant) (g_CreatedAt grant)
          (g_UpdatedAt grant)).

Definition DeleteRepositoryGrant (actor : Principal) (repository username : string) : M W unit :=
  let! repo := slift (ParseRepositoryRef (trim_space repository)) in
  do! slift (requireAdminOrRepoAdmin actor (ref_String repo)) in
  let! target := GetUserByUsername (normalizeUsername username) in
  do! delegate_bound actor target repo in
  store_DeleteRepoGrant (u_ID target) repo.

(** ** Robots *)

Definition CreateRobot (actor : Principal) (input : CreateRobotInput) : M W CreatedRobot :=
  do! slift (requireAdmin actor) in
  let username := normalizeUsername (ri_Name input) in
  if String.eqb username "" then sthrow (AuthValidationError "robot name is required") else
  do! username_free username in
  let! repo := slift (ParseRepositoryRef (trim_space (ri_Repository input))) in
  do! slift (RepoRole_Validate (ri_Role input)) in
  let! now := rt_now in
  let! uid := rt_uuid in
  let user := mkUser uid username RobotPasswordHash false false true true now now in
  do! UpsertUser user in
  let grant := mkGrant (u_ID user) repo (ri_Role input) now now in
  do! store_PutRepoGrant grant in
  let! created := CreateAdminToken actor
    (mkCreateAdminTokenInput (u_ID user) (trim_space (ri_Name input)) (ri_TTL input)) in
  sret (mkCreatedRobot user grant (ca_Secret created) (ca_Accessor created) (ca_ExpiresAt created)).
Definition CreateAdminRobot (actor : Principal) (input : CreateRobotInput) : M W AdminCreatedRobot :=
  let! created := CreateRobot actor input in
  sret (mkAdminCreatedRobot (toAdminRobot (cr_User created) (cr_Grant created)) (cr_Secret created)
          (cr_Accessor created) (cr_ExpiresAt created)).

Definition svc_ListRobots (actor : Principal) : M W (list User) :=
  do! slift (requireAdmin actor) in ListRobots.
Definition ListAdminRobots (actor : Principal) : M W (list AdminRobot) :=
  let! robots := svc_ListRobots actor in
  smap (λ robot,
    let! grants := ListRepoGrants (u_ID robot) in
    sret (toAdminRobot robot (match grants with g :: _ => g | [] => zero_grant end))) robots.

Definition DeleteRobot (actor : Principal) (userID : string) : M W unit :=
  do! slift (requireAdmin actor) in
  let! user := GetUserByID userID in
  if negb (u_IsRobot user) then sthrow (AuthValidationError "target user is not a robot account") else
  store_DeleteUser userID.
End Service.

(** ** Requests *)

(** Every call a client of the service can make, and its effect on the world. *)
Inductive AuthRequest :=
  | RqBootstrap (input : BootstrapAdminInput)
  | RqListUsers
  | RqCreateUser (input : CreateUserInput)
  | RqUpdateUser (input : UpdateUserInput)
  | RqSetUserEnabled (userID : string) (enabled : bool)
  | RqDeleteUser (userID : string)
  | RqResetPassword (userID password : string)
  | RqLoginPassword (username password : string) (scopes : list Scope)
  | RqLoginToken (username token : string) (scopes : list Scope)
  | RqVerify (bearer : string)
  | RqCreateToken (input : CreateAdminTokenInput)
  | RqListTokens (userID : string)
  | RqRevokeToken (accessor : string)
  | RqRevokeUserToken (userID accessor : string)
  | RqListGrants (userID : string)
  | RqPutGrant (userID repository : string) (role : RepoRole)
  | RqDeleteGrant (userID repository : string)
  | RqListRepositoryGrants (repository : string)
  | RqPutRepositoryGrant (repository username : string) (role : RepoRole)
  | RqDeleteRepositoryGrant (repository username : string)
  | RqCreateRobot (input : CreateRobotInput)
  | RqListRobots
  | RqDeleteRobot (userID : string).

Section Requests.
Context {W : Type} `{UnicodeTables, AuthStore W, Runtime W}.

Definition discard {A} (m : M W A) : M W unit := let! _ := m in sret tt.

Definition serve (actor : Principal) (rq : AuthRequest) : M W unit :=
  match rq with
  | RqBootstrap input => discard (BootstrapAdmin input)
  | RqListUsers => discard (ListAdminUsers actor)
  | RqCreateUser input => discard (CreateAdminUser actor input)
  | RqUpdateUser input => discard (UpdateUser actor input)
  | RqSetUserEnabled id enabled => discard (SetUserEnabled actor id enabled)
  | RqDeleteUser id => DeleteUser actor id
  | RqResetPassword id password => ResetPassword actor id password
  | RqLoginPassword u p s => discard (LoginWithPassword u p s)
  | RqLoginToken u t s => discard (LoginWithPreissuedToken u t s)
  | RqVerify b => discard (VerifyAccessToken b)
  | RqCreateToken input => discard (CreateAdminUserToken actor input)
  | RqListTokens id => discard (ListAdminUserTokens actor id)
  | RqRevokeToken a => RevokeAdminToken actor a
  | RqRevokeUserToken id a => RevokeAdminUserToken actor id a
  | RqListGrants id => discard (ListAdminUserRepoGrants actor id)
  | RqPutGrant id r role => discard (PutAdminUserRepoGrant actor id r role)
  | RqDeleteGrant id r => DeleteRepoGrant actor id r
  | RqListRepositoryGrants r => discard (ListAdminRepositoryGrants actor r)
  | RqPutRepositoryGrant r u role => discard (PutAdminRepositoryGrant actor r u role)
  | RqDeleteRepositoryGrant r u => DeleteRepositoryGrant actor r u
  | RqCreateRobot input => discard (CreateAdminRobot actor input)
  | RqListRobots => discard (ListAdminRobots actor)
  | RqDeleteRobot id => DeleteRobot actor id
  end.

(** Requests served one after the other, whether or not each succeeds. *)
Fixpoint serve_all (rqs : list (Principal * AuthRequest)) (w : W) : W :=
  match rqs with
  | [] => w
  | (actor, rq) :: rqs' => serve_all rqs' (serve actor rq w).2
  end.

(** Requests that only a global administrator may make. *)
Definition admin_only (rq : AuthRequest) : bool :=
  match rq with
  | RqBootstrap _ | RqLoginPassword _ _ _ | RqLoginToken _ _ _ | RqVerify _
  | RqListRepositoryGrants _ | RqPutRepositoryGrant _ _ _ | RqDeleteRepositoryGrant _ _ => false
  | _ => true
  end.
End Requests.
