(* ===== verification/AuthSteps.v ===== *)
(** The abstract state machine of the user, grant and token tables, and the
    refinement of the service into it: whatever a request does to the tables is a
    sequence of the transitions below, each with the guard that makes it safe. *)
From S2P Require Import Prelude GoStrings Errors Repository GoNumbers Scope Auth Access AuthStore AuthService.

(** * The machine *)

Definition other_active_admin (db : AuthDB) (id : string) : Prop :=
  ∃ i v, db_users db !! i = Some v ∧ i ≠ id ∧ is_active_admin v = true.

(** A user may change hands or go only while another active administrator stays. *)
Definition admin_guard (db : AuthDB) (old : User) (id : string) : Prop :=
  is_active_admin old = true → other_active_admin db id.

Definition delegate_of (actor : Principal) (repo : string) : Prop :=
  ∃ g, g ∈ p_Grants actor ∧ ref_Name (g_Repository g) = repo ∧ AllowsAdmin (g_Role g) = true.

Definition row_role (db : AuthDB) (key : string * string) (role : RepoRole) : Prop :=
  ∃ row, db_grants db !! key = Some row ∧ gr_Role row = role.

(** Who may touch the grant of a user on a repository: a global administrator, or
    the repository's delegate while the user is not itself its administrator. *)
Definition grant_guard (actor : Principal) (db : AuthDB) (user repo : string) : Prop :=
  p_IsAdmin actor = true
  ∨ delegate_of actor repo ∧ ¬ row_role db (user, repo) RepoRoleAdmin.

(** Ids are UUIDs: no surrounding white space, so the store's trimming of an id
    argument finds the row the id names. *)
Definition ids_trimmed (db : AuthDB) : Prop :=
  ∀ id u, db_users db !! id = Some u → trim_space id = id.

Inductive auth_step (actor : Principal) (db : AuthDB) : AuthDB → Prop :=
  | step_bootstrap_create u :
      db_users db !! u_ID u = None → trim_space (u_ID u) = u_ID u →
      ¬ active_admin db → is_active_admin u = true →
      auth_step actor db (insert_user u db)
  | step_bootstrap_promote u old :
      db_users db !! u_ID u = Some old → (u_IsAdmin old = true ∨ ¬ active_admin db) →
      u_IsRobot u = u_IsRobot old → is_active_admin u = true →
      auth_step actor db (insert_user u db)
  | step_create_user u :
      p_IsAdmin actor = true → db_users db !! u_ID u = None → trim_space (u_ID u) = u_ID u →
      auth_step actor db (insert_user u db)
  | step_update_user u old :
      p_IsAdmin actor = true → db_users db !! u_ID u = Some old → u_IsRobot u = u_IsRobot old →
      (is_active_admin u = true ∨ admin_guard db old (u_ID u)) →
      auth_step actor db (insert_user u db)
  | step_delete_user id old :
      p_IsAdmin actor = true → db_users db !! id = Some old → admin_guard db old id →
      auth_step actor db (remove_user id db)
  | step_put_grant g :
      is_Some (db_users db !! g_UserID g) →
      grant_guard actor db (g_UserID g) (ref_Name (g_Repository g)) →
      (g_Role g = RepoRoleAdmin → p_IsAdmin actor = true) →
      auth_step actor db (insert_grant g db)
  | step_delete_grant user repo :
      is_Some (db_grants db !! (user, repo)) → grant_guard actor db user repo →
      auth_step actor db (remove_grant user repo db)
  | step_issue_access t u :
      db_users db !! t_UserID t = Some u → u_Enabled u = true → db_tokens db !! t_ID t = None →
      t_Kind t = TokenKindAccess → t_ExpiresAt t = t_CreatedAt t + AccessTokenTTL →
      auth_step actor db (insert_token t db)
  | step_issue_admin t u :
      p_IsAdmin actor = true → db_users db !! t_UserID t = Some u → u_Enabled u = true →
      db_tokens db !! t_ID t = None →
      t_Kind t = TokenKindAdminCredential →
      t_CreatedAt t < t_ExpiresAt t ≤ t_CreatedAt t + DefaultAdminTokenTTL →
      auth_step actor db (insert_token t db)
  | step_revoke accessor at_ :
      p_IsAdmin actor = true → auth_step actor db (revoke_accessor accessor at_ db).

(** A token never outlives the ceiling of its kind. *)
Definition token_short_lived (t : Token) : Prop :=
  t_CreatedAt t < t_ExpiresAt t
  ∧ t_ExpiresAt t ≤ t_CreatedAt t
      + (if String.eqb (t_Kind t) TokenKindAccess then AccessTokenTTL else DefaultAdminTokenTTL).
Definition tokens_short_lived (db : AuthDB) : Prop :=
  ∀ id t, db_tokens db !! id = Some t → token_short_lived t.

(** * Invariants of the machine *)

Lemma is_active_admin_merge o u : is_active_admin (merge_user o u) = is_active_admin u.
Proof. by destruct o. Qed.

Lemma active_admin_insert db u :
  is_active_admin u = true → active_admin (insert_user u db).
Proof.
  intros Hu; exists (u_ID u), (merge_user (db_users db !! u_ID u) u); simpl.
  by rewrite lookup_insert_eq, is_active_admin_merge.
Qed.

Lemma other_active_admin_insert db u :
  other_active_admin db (u_ID u) → active_admin (insert_user u db).
Proof. intros (i & v & Hv & Hne & Ha); exists i, v; simpl; by rewrite lookup_insert_ne by congruence. Qed.

(** Replacing a user's row keeps an active administrator under the guard. *)
Lemma active_admin_update db u :
  active_admin db →
  (is_active_admin u = true ∨ ∀ old, db_users db !! u_ID u = Some old → admin_guard db old (u_ID u)) →
  active_admin (insert_user u db).
Proof.
  intros (i & v & Hv & Ha) [Hu|Hold]; [by apply active_admin_insert|].
  destruct (decide (i = u_ID u)) as [->|Hne].
  - apply other_active_admin_insert, (Hold v Hv Ha).
  - exists i, v; simpl; by rewrite lookup_insert_ne.
Qed.

Lemma step_active_admin actor db db' : auth_step actor db db' → active_admin db → active_admin db'.
Proof.
  destruct 1; intros Ha; try solve [destruct Ha as (i & v & ? & ?); by exists i, v].
  - by apply active_admin_insert.
  - by apply active_admin_insert.
  - apply active_admin_update; [done|right]; intros old; congruence.
  - apply active_admin_update; [done|]. destruct H2; [by left|right]; intros ? ?; by simplify_eq.
  - destruct Ha as (i & v & Hv & Hav); destruct (decide (i = id)) as [->|Hne].
    + simplify_eq; destruct (H1 Hav) as (j & x & Hx & Hne & Hax).
      exists j, x; simpl; by rewrite lookup_delete_ne by congruence.
    + exists i, v; simpl; by rewrite lookup_delete_ne by congruence.
Qed.

Lemma step_tokens_short_lived actor db db' :
  auth_step actor db db' → tokens_short_lived db → tokens_short_lived db'.
Proof.
  destruct 1; intros Ht i tk; simpl; try solve [apply Ht].
  - intros [Hi _]%map_lookup_filter_Some; by eapply Ht.
  - intros [[<- <-]|[_ Hi]]%lookup_insert_Some; [|by eapply Ht].
    unfold token_short_lived; rewrite H2, H3, String.eqb_refl; unfold AccessTokenTTL, minute, second; lia.
  - intros [[<- <-]|[_ Hi]]%lookup_insert_Some; [|by eapply Ht].
    unfold token_short_lived; rewrite H3; simpl; lia.
  - rewrite lookup_fmap, fmap_Some; intros (s & Hs & ->); specialize (Ht _ _ Hs).
    by destruct (_ && _).
Qed.

(** * The service refines the machine *)

(** Split a read's promise into its outcomes and carry the unchanged view along. *)
Ltac promise :=
  repeat match goal with
  | H : after _ _ _ _ _ |- _ => destruct H as [H|(? & (? & ? & ?) & ?)]
  | H : spec_has_admin _ _ _ |- _ => destruct H as (? & ? & ? & ?)
  | H : spec_list_users _ _ _ _ |- _ => destruct H as (? & ? & ? & ? & ?)
  | H : spec_user_by_name _ _ _ _ |- _ => destruct H as (? & [(? & ? & ? & ?)|[? ?]])
  | H : spec_user_by_id _ ?db _ _ |- _ =>
      unfold spec_user_by_id in H; destruct (db_users db !! _) eqn:?; destruct H as (? & ?)
  | H : spec_upsert_user _ _ _ _ |- _ => destruct H as [(? & ? & ? & ?)|(? & ? & ? & ?)]
  | H : spec_delete_user _ _ _ _ |- _ => destruct H as [(? & ? & ?)|(? & ? & ?)]
  | H : spec_list_grants _ _ _ _ |- _ => destruct H as (? & [(? & ? & ?)|(? & ? & ?)])
  | H : spec_list_repo_grants _ _ _ _ |- _ => destruct H as (? & ? & ? & ?)
  | H : spec_put_grant _ _ _ _ |- _ => destruct H as [(? & ? & ? & ?)|(? & ? & ? & ?)]
  | H : spec_delete_grant _ _ _ _ _ |- _ => destruct H as [(? & ? & ?)|(? & ? & ?)]
  | H : spec_create_token _ _ _ _ |- _ => destruct H as [(? & ? & ? & ?)|(? & ? & ? & ? & ? & ?)]
  | H : spec_token_by _ _ _ _ _ _ |- _ => destruct H as (? & [(? & ? & ? & ? & ?)|[? ?]])
  | H : spec_list_tokens _ _ _ _ _ |- _ => destruct H as (? & ? & ? & ?)
  | H : spec_revoke _ _ _ _ _ |- _ => destruct H as [(? & ? & ?)|(? & ? & ?)]
  | H : spec_now _ _ |- _ => destruct H as (? & ? & ?)
  | H : spec_uuid _ _ |- _ => destruct H as (? & ? & ? & ? & ?)
  | H : spec_rand _ _ _ |- _ => destruct H as [(? & ? & ?)|(? & ? & ? & ?)]
  | H : spec_generate _ _ _ _ |- _ => destruct H as [(? & ? & ?)|(? & ? & ? & ?)]
  | H : _ ∧ _ |- _ => destruct H
  end;
  repeat match goal with H : ?r = _ |- _ => is_var r; subst r end;
  repeat match goal with
  | H : is_infra ?e = true |- _ => is_var e; destruct e; try discriminate H; clear H
  end;
  simpl in *.

(** One step of symbolic execution. *)
Ltac wp_step :=
  cbv beta;
  lazymatch goal with
  | |- wp (sbind _ _) _ _ => apply wp_sbind
  | |- wp (sret _) _ _ => apply wp_sret
  | |- wp (sthrow _) _ _ => apply wp_sthrow
  | |- wp (slift ?r) _ _ => apply wp_slift; destruct r eqn:?
  | |- wp (sattempt _) _ _ => apply wp_sattempt
  | |- wp (if ?b then _ else _) _ _ => destruct b eqn:?; try discriminate
  | |- wp (match ?x with _ => _ end) _ _ => destruct x eqn:?
  | |- wp ?m _ _ => eapply (wp_contract m); [typeclasses eauto|eassumption|]; let HR := fresh in intros ? ? ? ? HR; cbv beta in HR; promise
  | |- context [match ?r with Ok _ => _ | Err _ => _ end] => destruct r eqn:?
  end.
Ltac wp_run := repeat wp_step; cbv beta.

(** Rewrite every view with the earlier one it equals. *)
Ltac same_view :=
  repeat match goal with
  | H : auth_view ?a = auth_view ?b |- _ => rewrite H in *; clear H
  end.

(** Time only moves forward along a run. *)
Ltac later :=
  repeat match goal with
  | |- auth_later ?a ?a => reflexivity
  | H : auth_later ?a ?b |- auth_later ?a ?b => exact H
  | H : auth_later ?a _ |- auth_later ?a _ => etransitivity; [exact H|]; clear H
  end.

Lemma requireAdmin_ok actor u : requireAdmin actor = Ok u → p_IsAdmin actor = true.
Proof. unfold requireAdmin; by destruct (p_IsAdmin actor). Qed.

Lemma requireAdminOrRepoAdmin_ok actor repo u :
  requireAdminOrRepoAdmin actor repo = Ok u → p_IsAdmin actor = true ∨ delegate_of actor repo.
Proof.
  unfold requireAdminOrRepoAdmin; destruct (p_IsAdmin actor); [by left|].
  destruct (existsb _ _) eqn:Hx; [|done]; intros _; right.
  apply existsb_elem in Hx as (g & Hg & Hp); bool_prop; by exists g.
Qed.

Lemma good_uuid_trimmed u : good_uuid u → trim_space u = u.
Proof. intros [_ Ht]; by apply trim_space_trimmed. Qed.

#[export] Hint Resolve requireAdmin_ok good_uuid_trimmed : go.

Section Refinement.
Context {W : Type} `{UnicodeTables, !AuthStore W, !AuthStoreLaws W, !Runtime W, !RuntimeLaws W}.
Variable actor : Principal.

Definition stepped {A} (w : W) (r : res A) (w' : W) : Prop :=
  ids_trimmed (auth_view w) → rtc (auth_step actor) (auth_view w) (auth_view w').

#[export] Instance short_accessor_contract p :
  Contract (shortAccessor p) (λ w _ w', auth_view w' = auth_view w).
Proof.
  intros w Hw; unfold shortAccessor; wp_run; (split; [done|split; [done|congruence]]).
Qed.

#[export] Instance random_secret_contract n :
  Contract (randomSecret n) (λ w r w', auth_view w' = auth_view w
    ∧ ∀ s, r = Ok s → ∃ bytes, length bytes = n ∧ Forall is_byte bytes ∧ s = hex_encode bytes).
Proof.
  intros w Hw; unfold randomSecret; wp_run; (split; [done|split; [done|split; [congruence|]]]); intros s [= <-].
  eauto.
Qed.

(** The check every demotion, deactivation and deletion of an administrator runs. *)
#[export] Instance ensure_another_contract id include :
  Contract (ensureAnotherActiveAdmin id include)
    (λ w r w', auth_view w' = auth_view w
       ∧ (r = Ok tt → include = true → other_active_admin (auth_view w) id)).
Proof.
  intros w Hw; unfold ensureAnotherActiveAdmin; wp_run.
  all: (split; [done|split; [done|split; [done|]]]); try done.
  - intros _ _; match goal with H : existsb _ _ = true |- _ => apply existsb_elem in H as (u & Hu & Hp) end.
    bool_prop.
    match goal with H : ∀ u, u ∈ _ ↔ _ |- _ => apply H in Hu as [Hu _] end.
    exists (u_ID u), u; unfold is_active_admin; repeat split; try done.
    by apply andb_true_iff.
Qed.

Ltac no_step := unfold stepped; intros ?; same_view; solve [reflexivity].
Ltac finish := wp_run; (split; [assumption|split; [solve [later]|]]); try no_step.

#[export] Instance username_free_contract name :
  Contract (username_free name)
    (λ w r w', auth_view w' = auth_view w
       ∧ (r = Ok tt → ∀ u, ¬ has_username (auth_view w) (normal_username name) u)).
Proof.
  intros w Hw; unfold username_free; wp_run; (split; [assumption|split; [solve [later]|]]);
    (split; [by same_view|]); try done.
Qed.

(** An [UpsertUser] that fails leaves the tables alone; the step it makes when it
    succeeds is the caller's to justify. *)
Ltac one_step :=
  unfold stepped; intros ?; same_view;
  match goal with H : auth_view _ = _ |- _ => rewrite H; clear H end;
  apply rtc_once.

#[export] Instance delegate_bound_contract target repo :
  Contract (delegate_bound actor target repo)
    (λ w r w', auth_view w' = auth_view w
       ∧ (r = Ok tt → trim_space (u_ID target) = u_ID target →
          p_IsAdmin actor = true ∨ ¬ row_role (auth_view w) (u_ID target, ref_Name repo) RepoRoleAdmin)).
Proof.
  intros w Hw; unfold delegate_bound; wp_run; (split; [assumption|split; [solve [later]|]]);
    (split; [by same_view|]); try done; intros _ Ht; [by left|right].
  intros (row & Hrow & Hrole); match goal with H : existsb _ _ = false |- _ => rename H into Hx end.
  apply not_true_iff_false in Hx; apply Hx, existsb_elem.
  exists (row_grant (u_ID target) (ref_Name repo) row); split.
  - match goal with H : ∀ g, g ∈ _ ↔ _ |- _ => apply H end; rewrite Ht; eauto.
  - simpl; unfold ref_String; simpl; by rewrite Hrole, !String.eqb_refl.
Qed.

#[export] Instance BootstrapAdmin_steps input : Contract (BootstrapAdmin input) stepped.
Proof.
  intros w Hw; unfold BootstrapAdmin, hashPassword; finish; one_step; simplify_eq.
  all: match goal with
       | H : negb (u_IsAdmin ?u) = _ |- _ =>
           apply (step_bootstrap_promote _ _ _ u); try done; bool_prop; try tauto
       | _ => apply step_bootstrap_create; try done
       end.
  - right; intros Ha; tauto || naive_solver.
  - right; naive_solver.
  - by apply good_uuid_trimmed.
  - naive_solver.
Qed.

#[export] Instance CreateUser_steps input : Contract (CreateUser actor input) stepped.
Proof.
  intros w Hw; unfold CreateUser, hashPassword; finish; one_step.
  apply step_create_user; simpl; eauto with go.
Qed.

Lemma user_at w id u : auth_wf w → db_users (auth_view w) !! id = Some u → u_ID u = id.
Proof. intros Hw; apply (wf_user_id _ (auth_wf_db w Hw)). Qed.

Lemma edit_step w id u u' :
  auth_wf w → db_users (auth_view w) !! id = Some u → p_IsAdmin actor = true →
  u_ID u' = u_ID u → u_IsRobot u' = u_IsRobot u →
  (is_active_admin u' = false → is_active_admin u = true → other_active_admin (auth_view w) (u_ID u)) →
  auth_step actor (auth_view w) (insert_user u' (auth_view w)).
Proof.
  intros Hw Hu Ha Hid Hr Hg; apply (step_update_user _ _ _ u); try done.
  - by rewrite Hid, (user_at w id u).
  - destruct (is_active_admin u') eqn:?; [by left|right]; unfold admin_guard; rewrite Hid; auto.
Qed.

Ltac edit :=
  match goal with H : db_users _ !! trim_space _ = Some ?u |- _ => eapply (edit_step _ _ u _) end;
  [eassumption|eassumption|eauto with go|done|done|];
  unfold is_active_admin; simpl; intros; bool_prop.

#[export] Instance UpdateUser_steps input : Contract (UpdateUser actor input) stepped.
Proof.
  intros w Hw; unfold UpdateUser; finish; one_step; edit;
    destruct (u_IsAdmin u), (u_Enabled u), (uu_IsAdmin input); try done; destruct a0; auto.
Qed.

#[export] Instance SetUserEnabled_steps id enabled : Contract (SetUserEnabled actor id enabled) stepped.
Proof.
  intros w Hw; unfold SetUserEnabled; finish; one_step; edit;
    destruct (u_IsAdmin u), (u_Enabled u), enabled; try done; destruct a0; auto.
Qed.

#[export] Instance ResetPassword_steps id password : Contract (ResetPassword actor id password) stepped.
Proof.
  intros w Hw; unfold ResetPassword, hashPassword; finish; one_step; edit.
  destruct (u_IsAdmin u), (u_Enabled u); done.
Qed.

#[export] Instance DeleteUser_steps id : Contract (DeleteUser actor id) stepped.
Proof.
  intros w Hw; unfold DeleteUser; finish; one_step.
  all: pose proof (user_at w _ _ Hw Heqo) as Hid; eapply step_delete_user; eauto with go.
  all: intros Ha; unfold is_active_admin in Ha; try congruence; rewrite <- Hid; destruct a0; auto.
Qed.

#[export] Instance DeleteRobot_steps id : Contract (DeleteRobot actor id) stepped.
Proof.
  intros w Hw; unfold DeleteRobot; finish; one_step; bool_prop.
  eapply step_delete_user; eauto with go; intros Ha; exfalso.
  pose proof (wf_user_valid _ (auth_wf_db w Hw) _ _ Heqo) as Hv.
  apply User_Validate_robot in Hv as [Hv _]; [|done]; unfold is_active_admin in Ha; by rewrite Hv in Ha.
Qed.

(** ** Tokens *)

#[export] Instance buildPrincipal_contract user token :
  Contract (buildPrincipal user token) (λ w _ w', auth_view w' = auth_view w).
Proof.
  intros w Hw; unfold buildPrincipal; wp_run; (split; [assumption|split; [solve [later]|]]); by same_view.
Qed.

#[export] Instance grantedScopes_contract user scopes :
  Contract (grantedScopes user scopes) (λ w _ w', auth_view w' = auth_view w).
Proof.
  intros w Hw; unfold grantedScopes; wp_run; (split; [assumption|split; [solve [later]|]]); by same_view.
Qed.

#[export] Instance getActiveUser_contract name :
  Contract (getActiveUserByUsername name)
    (λ w r w', auth_view w' = auth_view w
       ∧ ∀ u, r = Ok u → db_users (auth_view w) !! u_ID u = Some u ∧ u_Enabled u = true).
Proof.
  intros w Hw; unfold getActiveUserByUsername; wp_run; (split; [assumption|split; [solve [later]|]]);
    (split; [by same_view|]); intros u [=]; subst; bool_prop; done.
Qed.

#[export] Instance issueAccessToken_contract user scopes :
  Contract (issueAccessToken user scopes)
    (λ w r w', db_users (auth_view w) !! u_ID user = Some user → u_Enabled user = true → stepped w r w').
Proof.
  intros w Hw; unfold issueAccessToken; finish; intros ? ?; try no_step; one_step.
  all: eapply step_issue_access; done.
Qed.

#[export] Instance LoginWithPassword_steps name password scopes :
  Contract (LoginWithPassword name password scopes) stepped.
Proof.
  intros w Hw; unfold LoginWithPassword; finish; unfold stepped in *; same_view;
    match goal with H : ∀ u, _ = Ok u → _ |- _ => destruct (H _ eq_refl) end; auto.
Qed.

#[export] Instance LoginWithPreissuedToken_steps name token scopes :
  Contract (LoginWithPreissuedToken name token scopes) stepped.
Proof.
  intros w Hw; unfold LoginWithPreissuedToken; finish; unfold stepped in *; same_view;
    match goal with H : ∀ u, _ = Ok u → _ |- _ => destruct (H _ eq_refl) end; auto.
Qed.

#[export] Instance VerifyAccessToken_steps bearer : Contract (VerifyAccessToken bearer) stepped.
Proof. intros w Hw; unfold VerifyAccessToken; finish. Qed.

#[export] Instance CreateAdminToken_contract input : Contract (CreateAdminToken actor input) stepped.
Proof.
  intros w Hw; unfold CreateAdminToken; finish; one_step; bool_prop.
  all: match goal with H : db_users _ !! _ = Some ?u |- _ => pose proof (user_at w _ _ Hw H) as Hid end.
  all: eapply step_issue_admin; simpl; eauto with go; rewrite ?Hid; eauto.
  all: match goal with H : (DefaultAdminTokenTTL <? ?x) = false |- _ => apply Z.ltb_ge in H end.
  all: destruct (ct_TTL input <=? 0) eqn:Httl; [unfold DefaultAdminTokenTTL, hour, minute, second; lia|].
  all: apply Z.leb_gt in Httl; lia.
Qed.

#[export] Instance RevokeAdminToken_steps accessor : Contract (RevokeAdminToken actor accessor) stepped.
Proof.
  intros w Hw; unfold RevokeAdminToken; finish; one_step; apply step_revoke; eauto with go.
Qed.

#[export] Instance RevokeAdminUserToken_steps id accessor :
  Contract (RevokeAdminUserToken actor id accessor) stepped.
Proof.
  intros w Hw; unfold RevokeAdminUserToken; finish; one_step; apply step_revoke; eauto with go.
Qed.

(** ** Grants *)

#[export] Instance PutRepoGrant_steps id repo role : Contract (PutRepoGrant actor id repo role) stepped.
Proof.
  intros w Hw; unfold PutRepoGrant; finish; one_step.
  apply step_put_grant; simpl; [done|left|intros _]; eauto with go.
Qed.

#[export] Instance DeleteRepoGrant_steps id repo : Contract (DeleteRepoGrant actor id repo) stepped.
Proof.
  intros w Hw; unfold DeleteRepoGrant; finish; one_step.
  apply step_delete_grant; [done|left]; eauto with go.
Qed.

Lemma delegate_guard db user repo a :
  requireAdminOrRepoAdmin actor repo = Ok a →
  (p_IsAdmin actor = true ∨ ¬ row_role db (user, repo) RepoRoleAdmin) →
  grant_guard actor db user repo.
Proof. intros [?|?]%requireAdminOrRepoAdmin_ok [?|?]; unfold grant_guard; auto. Qed.

#[export] Instance PutRepositoryGrant_steps repo name role :
  Contract (PutRepositoryGrant actor repo name role) stepped.
Proof.
  intros w Hw; unfold PutRepositoryGrant; finish; one_step.
  match goal with H : ids_trimmed _ |- _ => rename H into Ht end.
  destruct a2; apply step_put_grant; simpl; [done|eapply delegate_guard; eauto|].
  intros ->; match goal with H : negb _ && _ = false |- _ => rewrite andb_true_r in H end; by bool_prop.
Qed.

#[export] Instance DeleteRepositoryGrant_steps repo name :
  Contract (DeleteRepositoryGrant actor repo name) stepped.
Proof.
  intros w Hw; unfold DeleteRepositoryGrant; finish; one_step.
  match goal with H : ids_trimmed _ |- _ => rename H into Ht end.
  destruct a1; apply step_delete_grant; [done|]; eapply delegate_guard; [eassumption|].
  match goal with H : Ok tt = Ok tt → _ |- _ => rename H into Hb end.
  erewrite Ht by eassumption; apply (Hb eq_refl); eapply Ht; eassumption.
Qed.

(** ** Robots and projections *)

Lemma step_ids_trimmed db db' : auth_step actor db db' → ids_trimmed db → ids_trimmed db'.
Proof.
  assert (∀ db u, trim_space (u_ID u) = u_ID u → ids_trimmed db → ids_trimmed (insert_user u db)) as Hins.
  { intros d u Hu Ht id v; simpl; intros [[<- <-]|[_ Hv]]%lookup_insert_Some; [done|by eapply Ht]. }
  destruct 1; intros Ht; try done; try (apply Hins; [|done]; eauto).
  intros i v; simpl; intros [_ Hv]%lookup_delete_Some; by eapply Ht.
Qed.

Lemma steps_ids_trimmed db db' : rtc (auth_step actor) db db' → ids_trimmed db → ids_trimmed db'.
Proof. induction 1; eauto using step_ids_trimmed. Qed.

#[export] Instance CreateRobot_steps input : Contract (CreateRobot actor input) stepped.
Proof.
  intros w Hw; unfold CreateRobot; finish; unfold stepped in *; intros Ht; same_view.
  all: match goal with Hu : auth_view ?v = insert_user _ _ |- _ =>
         assert (auth_step actor (auth_view w) (auth_view v)) as Hs
           by (rewrite Hu; apply step_create_user; simpl; eauto with go)
       end.
  all: pose proof (step_ids_trimmed _ _ Hs Ht); eapply rtc_l; [exact Hs|]; try reflexivity.
  all: match goal with Hg : auth_view ?v = insert_grant _ ?d |- _ =>
         assert (auth_step actor d (auth_view v)) as Hs2
           by (rewrite Hg; apply step_put_grant; [done|left; eauto with go|eauto with go])
       end.
  all: eapply rtc_l; [exact Hs2|]; eauto using step_ids_trimmed.
Qed.

#[export] Instance discard_contract {A} (m : M W A) :
  Contract m stepped → Contract (discard m) stepped.
Proof. intros Hm w Hw; unfold discard; finish; unfold stepped in *; auto. Qed.

#[export] Instance fmap_contract {A B} (m : M W A) (f : A → B) :
  Contract m stepped → Contract (let! x := m in sret (f x)) stepped.
Proof. intros Hm w Hw; finish; unfold stepped in *; auto. Qed.

#[export] Instance svc_ListUsers_steps : Contract (svc_ListUsers actor) stepped.
Proof. intros w Hw; unfold svc_ListUsers; finish. Qed.
#[export] Instance ListAdminTokens_steps id : Contract (ListAdminTokens actor id) stepped.
Proof. intros w Hw; unfold ListAdminTokens; finish. Qed.
#[export] Instance svc_ListRepoGrants_steps id : Contract (svc_ListRepoGrants actor id) stepped.
Proof. intros w Hw; unfold svc_ListRepoGrants; finish. Qed.

(** A loop of reads changes nothing. *)
Lemma smap_reads {A B} (f : A → M W B) l w :
  auth_wf w → (∀ x, Contract (f x) (λ w _ w', auth_view w' = auth_view w)) →
  wp (smap f l) (λ r w', auth_wf w' ∧ auth_later w w' ∧ auth_view w' = auth_view w) w.
Proof.
  intros Hw Hf; apply (wp_smap _ (λ w', auth_wf w' ∧ auth_later w w' ∧ auth_view w' = auth_view w)).
  - repeat split; [done|reflexivity].
  - intros x w1 _ (Hw1 & Hl1 & Hv1); eapply wp_contract; [apply Hf|done|].
    intros r w2 Hw2 Hl2 Hv2; repeat split; [done|by etrans|congruence].
  - done.
Qed.

#[export] Instance ListAdminRepositoryGrants_steps repo :
  Contract (ListAdminRepositoryGrants actor repo) stepped.
Proof.
  intros w Hw; unfold ListAdminRepositoryGrants, ListRepositoryGrants; repeat wp_step; cbv beta;
    try (split; [assumption|split; [solve [later]|no_step]]).
  eapply wp_conseq; [apply smap_reads; [done|]|].
  - intros g w1 Hw1; wp_run; (split; [assumption|split; [solve [later]|by same_view]]).
  - intros r w2 (Hw2 & Hl2 & Hv2); split; [done|split; [solve [later]|no_step]].
Qed.

#[export] Instance ListAdminRobots_steps : Contract (ListAdminRobots actor) stepped.
Proof.
  intros w Hw; unfold ListAdminRobots, svc_ListRobots; repeat wp_step; cbv beta;
    try (split; [assumption|split; [solve [later]|no_step]]).
  eapply wp_conseq; [apply smap_reads; [done|]|].
  - intros g w1 Hw1; wp_run; (split; [assumption|split; [solve [later]|by same_view]]).
  - intros r w2 (Hw2 & Hl2 & Hv2); split; [done|split; [solve [later]|no_step]].
Qed.

Lemma serve_steps rq : Contract (serve actor rq) stepped.
Proof.
  destruct rq; unfold serve; apply discard_contract || idtac;
    unfold ListAdminUsers, CreateAdminUser, CreateAdminUserToken, ListAdminUserTokens,
      ListAdminUserRepoGrants, PutAdminUserRepoGrant, PutAdminRepositoryGrant, CreateAdminRobot; apply _.
Qed.
End Refinement.
