(* ===== verification/PgExample.v ===== *)
(** A concrete environment for the store: no driver fault, a clock that
    advances one second per call for ten minutes, UUIDs longer than every stored id, a transparent password
    hash. The witnesses of the theorems about the auth service run in it. *)
From S2P Require Import Prelude GoStrings Errors Repository GoNumbers Scope Auth Access AuthStore PgStore.
From S2P Require Import AuthService.

(** * Definitions *)

#[global] Instance example_tables : UnicodeTables := {| unicode_lower := λ s, s; unicode_quote := λ s, s |}.

Definition longest (ids : list string) : nat := foldr (λ s n, Nat.max (String.length s) n) 0%nat ids.
Fixpoint letters (n : nat) : string := match n with O => "" | S n' => String "u" (letters n') end.

Definition example_uuid (db : AuthDB) : string :=
  letters (S (longest (map fst (map_to_list (db_users db)) ++ map fst (map_to_list (db_tokens db))))).

Definition example_hash (p : string) : string := String "h" (hex_encode (bytes_of p)).

#[global] Instance example_env : AuthEnv := {|
  env_fault _ := None;
  env_now n := Z.of_nat (Nat.min n 600) * second;
  env_uuid _ := example_uuid;
  env_rand n k := repeat (Z.of_nat n mod 256) k;
  env_generate _ p := Ok (example_hash p);
  env_compare h p := String.eqb h (example_hash p);
|}.

Definition empty_world : AuthWorld := mkAuthWorld (mkAuthDB ∅ ∅ ∅) 0.

(** A fresh installation with its first administrator. *)
Definition root_input : BootstrapAdminInput := mkBootstrapAdminInput " Root" "correct horse" false.
Definition root_world : AuthWorld := (BootstrapAdmin root_input empty_world).2.
Definition root_principal : Principal := mkPrincipal "acc" "u" "root" true false [] [] 1000.

(** A team: alice may write to team/app, and root has issued her an admin
    credential. *)
Definition team_requests : list (Principal * AuthRequest) :=
  [(root_principal, RqCreateUser (mkCreateUserInput "Alice" "battery staple" false false true));
   (root_principal, RqPutGrant "uu" "team/app" RepoRoleWriter);
   (root_principal, RqCreateToken (mkCreateAdminTokenInput "uu" "ci" 0))].
Definition team_world : AuthWorld := serve_all team_requests root_world.

Definition alice_credential : string :=
  match (CreateAdminToken root_principal (mkCreateAdminTokenInput "uu" "ci" 0)
           (serve_all (take 2 team_requests) root_world)).1 with
  | Ok created => ca_Secret created
  | Err _ => ""
  end.
Definition alice_token : Token :=
  match (GetTokenBySecretHash TokenKindAdminCredential (hashSecret alice_credential) team_world).1 with
  | Ok t => t
  | Err _ => mkToken "" "" "" "" "" "" "" 0 0 None
  end.

Definition push_scope : Scope :=
  match ParseScope "repository:team/app:pull,push" with Ok s => s | Err _ => catalog_scope end.
Definition other_scope : Scope :=
  match ParseScope "repository:other/app:pull,push" with Ok s => s | Err _ => catalog_scope end.

Definition no_session : LoginResult :=
  mkLoginResult root_principal "" 0 "" "".
Definition alice_login : M AuthWorld LoginResult :=
  LoginWithPassword "ALICE" "battery staple" [push_scope; other_scope].
Definition alice_session : LoginResult :=
  match (alice_login team_world).1 with Ok lr => lr | Err _ => no_session end.
Definition alice_preissued : M AuthWorld LoginResult :=
  LoginWithPreissuedToken "alice" alice_credential [push_scope].
Definition alice_second_session : LoginResult :=
  match (alice_preissued team_world).1 with Ok lr => lr | Err _ => no_session end.
Definition session_world : AuthWorld := (alice_login team_world).2.
Definition disabled_alice : User :=
  match (SetUserEnabled root_principal "uu" false session_world).1 with
  | Ok u => u
  | Err _ => mkUser "" "" "" false false false false 0 0
  end.

(** * Lemmas *)

Lemma longest_le ids s : s ∈ ids → (String.length s ≤ longest ids)%nat.
Proof.
  induction ids as [|t ids IH]; simpl; [by intros ?%elem_of_nil|].
  intros [->|Hs]%elem_of_cons; [lia|]; specialize (IH Hs); lia.
Qed.

Lemma length_letters n : String.length (letters n) = n.
Proof. induction n; simpl; congruence. Qed.

Lemma letters_graphic n : str_forallb graphic (letters n) = true.
Proof. induction n; simpl; [done|by rewrite IHn]. Qed.

Lemma example_uuid_fresh {A} (m : gmap string A) ids :
  (∀ id x, m !! id = Some x → id ∈ ids) → m !! letters (S (longest ids)) = None.
Proof.
  intros Hm; destruct (m !! letters (S (longest ids))) as [x|] eqn:Hx; [|done].
  apply Hm, longest_le in Hx; rewrite length_letters in Hx; lia.
Qed.

Lemma in_ids {A} (m : gmap string A) id x : m !! id = Some x → id ∈ map fst (map_to_list m).
Proof.
  intros Hm; apply list_elem_of_In, in_map_iff; exists (id, x); split; [done|].
  by apply list_elem_of_In, elem_of_map_to_list.
Qed.

Lemma example_hash_visible p : trim_space (example_hash p) ≠ "".
Proof.
  assert (str_forallb graphic (example_hash p) = true) as Hg.
  { simpl; apply (str_forallb_impl is_lower_hex); [intros a Ha; by apply is_hex_graphic, lower_hex_is_hex|].
    apply hex_encode_lower, bytes_of_is_byte. }
  by rewrite trim_space_graphic.
Qed.

#[global] Instance example_env_laws : AuthEnvLaws.
Proof.
  split.
  - intros n; simpl; unfold zero_time, second; lia.
  - intros n db; simpl; unfold example_uuid; split; [split; [done|by apply trimmed_graphic, letters_graphic]|].
    split; apply example_uuid_fresh; intros id x Hx; apply elem_of_app;
      [left|right]; by eapply in_ids.
  - intros n k; simpl; rewrite repeat_length; split; [done|]; apply Forall_forall.
    intros x ->%list_elem_of_In%repeat_spec; apply Z.mod_pos_bound; lia.
  - intros n p; right; exists (example_hash p); repeat split; [apply example_hash_visible|].
    apply String.eqb_refl.
Qed.

Lemma empty_world_wf : auth_wf empty_world.
Proof. split; simpl; intros; by rewrite lookup_empty in *. Qed.

Lemma root_world_ok :
  match (BootstrapAdmin root_input empty_world).1 with
  | Ok r => u_Username (br_User r) = "root" ∧ br_Created r = true
  | Err _ => False
  end.
Proof. by vm_compute. Qed.
