(* ===== verification/AuthSafety.v ===== *)
(** What no sequence of requests to the auth service can do: the safety theorems
    that follow from the refinement of the service into the machine of [AuthSteps],
    for any implementation of the store that keeps its contract and whatever
    infrastructure errors it meets.

    Sessions: what a login issues and what a bearer token is worth. Soundness of
    the two logins and of token verification, the login/verify round trip, and
    the effect of revoking a token or disabling a user. *)
From S2P Require Import Prelude GoStrings Encodings Errors Repository GoNumbers Scope Auth Access AuthStore.
From S2P Require Import PgStore AuthService AuthSteps PgExample.

(** * Safety of every sequence of requests *)

(** The root administrator of the example tries to lock itself out, and a delegate
    tries to touch the grants of another repository. *)
Definition lockout : list (Principal * AuthRequest) :=
  [(root_principal, RqSetUserEnabled "u" false); (root_principal, RqDeleteUser "u");
   (root_principal, RqUpdateUser (mkUpdateUserInput "u" "" false true false));
   (root_principal, RqCreateUser (mkCreateUserInput "bob" "correct horse" true false true));
   (root_principal, RqDeleteUser "u")].
Definition delegate_principal : Principal :=
  mkPrincipal "acc" "uu" "dora" false false
    [mkGrant "uu" (mkRef "team/app") RepoRoleAdmin 1 1] [] 1000.

(** * Lemmas *)

Section Traces.
Context {W : Type} `{UnicodeTables, !AuthStore W, !AuthStoreLaws W, !Runtime W, !RuntimeLaws W}.

Lemma serve_rtc actor rq w :
  auth_wf w → ids_trimmed (auth_view w) →
  auth_wf (serve actor rq w).2
  ∧ rtc (auth_step actor) (auth_view w) (auth_view (serve actor rq w).2).
Proof. intros Hw Ht; destruct (serve_steps actor rq w Hw) as (? & ? & Hs); auto. Qed.

(** An invariant of the machine is an invariant of the service. *)
Lemma serve_all_invariant (I : AuthDB → Prop) :
  (∀ actor db db', auth_step actor db db' → I db → I db') →
  ∀ rqs w, auth_wf w → ids_trimmed (auth_view w) → I (auth_view w) →
    auth_wf (serve_all rqs w) ∧ ids_trimmed (auth_view (serve_all rqs w)) ∧ I (auth_view (serve_all rqs w)).
Proof.
  intros HI rqs; induction rqs as [|[actor rq] rqs IH]; intros w Hw Ht Hi; simpl; [done|].
  destruct (serve_rtc actor rq w Hw Ht) as [Hw' Hs]; apply IH; [done| |].
  - by eapply steps_ids_trimmed.
  - clear -Hs Hi HI; induction Hs; eauto.
Qed.

(** A request only an administrator may make stops at the gate. *)
Lemma gate_closed {A} actor (k : M W A) w :
  p_IsAdmin actor = false →
  (do! slift (requireAdmin actor) in k) w
  = (Err (NewForbiddenError "administrator privileges are required"), w).
Proof. intros Ha; unfold sbind, slift, requireAdmin; by rewrite Ha. Qed.
End Traces.

Lemma grant_step_keeps_admins actor db db' key row :
  p_IsAdmin actor = false → auth_step actor db db' →
  gr_Role row = RepoRoleAdmin →
  (db_grants db !! key = Some row ↔ db_grants db' !! key = Some row).
Proof.
  intros Hna Hs Hr; destruct Hs; try congruence; simpl; try done.
  - assert (gr_Role (merge_grant (db_grants db !! (g_UserID g, ref_Name (g_Repository g)))
        (mkGrantRow (g_Role g) (g_CreatedAt g) (g_UpdatedAt g))) = g_Role g) as Hrole
      by (unfold merge_grant; by case_match).
    destruct (decide (key = (g_UserID g, ref_Name (g_Repository g)))) as [->|Hne];
      [|by rewrite lookup_insert_ne].
    rewrite lookup_insert_eq; split; intros Heq.
    + destruct H0 as [|[_ Hn]]; [congruence|]; exfalso; apply Hn; by eexists.
    + injection Heq as <-; rewrite Hrole in Hr; apply H1 in Hr; congruence.
  - destruct (decide (key = (user, repo))) as [->|Hne]; [|by rewrite lookup_delete_ne].
    rewrite lookup_delete_eq; split; [|done]; intros Heq.
    destruct H0 as [|[_ Hn]]; [congruence|]; exfalso; apply Hn; by eexists.
Qed.

Lemma grant_step_other_repository actor db db' key :
  p_IsAdmin actor = false → auth_step actor db db' → ¬ delegate_of actor key.2 →
  db_grants db' !! key = db_grants db !! key.
Proof.
  intros Hna Hs Hd; destruct Hs; try congruence; simpl; try done.
  - apply lookup_insert_ne; intros <-; destruct H0 as [|[? _]]; [congruence|done].
  - apply lookup_delete_ne; intros <-; destruct H0 as [|[? _]]; [congruence|done].
Qed.

Lemma grant_steps_keep_admins actor db db' key row :
  p_IsAdmin actor = false → rtc (auth_step actor) db db' → gr_Role row = RepoRoleAdmin →
  (db_grants db !! key = Some row ↔ db_grants db' !! key = Some row).
Proof.
  intros Hna Hs Hr; induction Hs as [|db db1 db2 H1 H2 IH]; [done|].
  by rewrite (grant_step_keeps_admins actor db db1 key row).
Qed.

Lemma grant_steps_other_repository actor db db' key :
  p_IsAdmin actor = false → rtc (auth_step actor) db db' → ¬ delegate_of actor key.2 →
  db_grants db' !! key = db_grants db !! key.
Proof.
  intros Hna Hs Hd; induction Hs as [|db db1 db2 H1 H2 IH]; [done|].
  by rewrite IH, (grant_step_other_repository actor db db1).
Qed.

Lemma root_world_auth : auth_wf root_world ∧ ids_trimmed (auth_view root_world)
  ∧ active_admin (auth_view root_world) ∧ tokens_short_lived (auth_view root_world).
Proof.
    assert (ids_trimmed (auth_view empty_world)) as Ht by (intros id u; simpl; by rewrite lookup_empty).
    destruct (serve_rtc root_principal (RqBootstrap root_input) empty_world empty_world_wf Ht) as [Hw Hs].
    split; [exact Hw|split; [exact (steps_ids_trimmed _ _ _ Hs Ht)|split]].
    - exists "u"; eexists; split; [by vm_compute|done].
    - intros id t; assert (db_tokens (auth_view root_world) = ∅) as -> by (by vm_compute).
      by rewrite lookup_empty.
Qed.

(** * Properties *)

Section Properties.
Context {W : Type} `{UnicodeTables, !AuthStore W, !AuthStoreLaws W, !Runtime W, !RuntimeLaws W}.

(** Whatever a request does to the tables, under any infrastructure fault, is
    a sequence of the guarded transitions of the machine, and leaves the tables
    well formed: the service refines the machine. *)
Theorem service_refines_machine (actor : Principal) (rq : AuthRequest) (w : W) :
  auth_wf w → ids_trimmed (auth_view w) →
  auth_wf (serve actor rq w).2
  ∧ rtc (auth_step actor) (auth_view w) (auth_view (serve actor rq w).2).
Proof. apply serve_rtc. Qed.

(** No sequence of requests, made by whichever principals and whether or not
    each succeeds, leaves an installation without an active global administrator. *)
Theorem an_active_admin_remains (rqs : list (Principal * AuthRequest)) (w : W) :
  auth_wf w → ids_trimmed (auth_view w) → active_admin (auth_view w) →
  active_admin (auth_view (serve_all rqs w)).
Proof. intros Hw Ht Ha; apply (serve_all_invariant active_admin); eauto using step_active_admin. Qed.

(** No sequence of requests leaves a token in the store that expires at or
    before its creation, or later than 15 minutes (access tokens) or 30 days
    (admin credentials) after it. *)
Theorem tokens_stay_short_lived (rqs : list (Principal * AuthRequest)) (w : W) :
  auth_wf w → ids_trimmed (auth_view w) → tokens_short_lived (auth_view w) →
  tokens_short_lived (auth_view (serve_all rqs w)).
Proof. intros Hw Ht Ha; apply (serve_all_invariant tokens_short_lived); eauto using step_tokens_short_lived. Qed.

(** C32: a principal that is not a global administrator gets a forbidden error from
    every administrative request, and the world, the clock and the randomness
    included, is untouched. *)
Theorem non_admin_is_rejected (actor : Principal) (rq : AuthRequest) (w : W) :
  admin_only rq = true → p_IsAdmin actor = false →
  serve actor rq w = (Err (NewForbiddenError "administrator privileges are required"), w).
Proof.
  destruct rq; intros Ho Ha; try discriminate Ho; cbn [serve];
    unfold discard, ListAdminUsers, svc_ListUsers, CreateAdminUser, CreateUser, UpdateUser, SetUserEnabled,
      DeleteUser, ResetPassword, CreateAdminUserToken, CreateAdminToken, ListAdminUserTokens, ListAdminTokens,
      RevokeAdminToken, RevokeAdminUserToken, ListAdminUserRepoGrants, svc_ListRepoGrants,
      PutAdminUserRepoGrant, PutRepoGrant, DeleteRepoGrant, CreateAdminRobot, CreateRobot, ListAdminRobots,
      svc_ListRobots, DeleteRobot, sbind, slift, requireAdmin; by rewrite Ha.
Qed.

(** C33: no request of a principal that is not a global administrator creates,
    changes or removes a repo-admin grant, nor touches any grant on a repository
    the principal does not administer. *)
Theorem delegate_cannot_escalate (actor : Principal) (rq : AuthRequest) (w : W)
    (key : string * string) (row : GrantRow) :
  auth_wf w → ids_trimmed (auth_view w) → p_IsAdmin actor = false →
  let before := db_grants (auth_view w) in
  let after := db_grants (auth_view (serve actor rq w).2) in
  (gr_Role row = RepoRoleAdmin → (before !! key = Some row ↔ after !! key = Some row))
  ∧ (¬ delegate_of actor key.2 → after !! key = before !! key).
Proof.
  intros Hw Ht Hna; simpl; destruct (serve_rtc actor rq w Hw Ht) as [_ Hs].
  eauto using grant_steps_keep_admins, grant_steps_other_repository.
Qed.
End Properties.

(** * Witnesses *)

Lemma service_refines_machine_witness :
  rtc (auth_step root_principal) (auth_view root_world)
    (auth_view (serve root_principal (RqDeleteUser "u") root_world).2).
Proof.
  destruct root_world_auth as (Hw & Ht & _).
  exact (proj2 (service_refines_machine root_principal (RqDeleteUser "u") root_world Hw Ht)).
Defined.

Lemma an_active_admin_remains_witness : active_admin (auth_view (serve_all lockout root_world)).
Proof.
  destruct root_world_auth as (Hw & Ht & Ha & _).
  exact (an_active_admin_remains lockout root_world Hw Ht Ha).
Defined.

Lemma tokens_stay_short_lived_witness : tokens_short_lived (auth_view (serve_all lockout root_world)).
Proof.
  destruct root_world_auth as (Hw & Ht & _ & Hs).
  exact (tokens_stay_short_lived lockout root_world Hw Ht Hs).
Defined.

Lemma non_admin_is_rejected_witness :
  serve delegate_principal (RqDeleteUser "u") root_world
  = (Err (NewForbiddenError "administrator privileges are required"), root_world).
Proof. apply non_admin_is_rejected; reflexivity. Defined.

Lemma delegate_cannot_escalate_witness :
  db_grants (auth_view (serve delegate_principal (RqPutRepositoryGrant "other" "root" "repo-reader") root_world).2)
    !! ("u", "other") = db_grants (auth_view root_world) !! ("u", "other").
Proof.
  destruct root_world_auth as (Hw & Ht & _).
  refine (proj2 (delegate_cannot_escalate delegate_principal
    (RqPutRepositoryGrant "other" "root" "repo-reader") root_world ("u", "other")
    (mkGrantRow RepoRoleReader 1 1) Hw Ht eq_refl) _).
  intros (g & Hg & Hn & _); apply list_elem_of_singleton in Hg as ->; discriminate Hn.
Defined.

(** * Sessions *)

(** The grants of a user as [ListRepoGrants] returns them. *)
Definition user_grant (db : AuthDB) (id : string) (g : RepoGrant) : Prop :=
  ∃ repo row, db_grants db !! (trim_space id, repo) = Some row ∧ g = row_grant id repo row.

Definition principal_for (user : User) (token : Token) (grants : list RepoGrant) (scopes : list Scope) : Principal :=
  mkPrincipal (t_Accessor token) (u_ID user) (u_Username user) (u_IsAdmin user) (u_IsReadOnly user)
    grants scopes (t_ExpiresAt token).

(** Equal but for the order of the grants. *)
Definition same_principal (p q : Principal) : Prop :=
  p_Subject p = p_Subject q ∧ p_UserID p = p_UserID q ∧ p_Username p = p_Username q
  ∧ p_IsAdmin p = p_IsAdmin q ∧ p_IsReadOnly p = p_IsReadOnly q ∧ p_Scopes p = p_Scopes q
  ∧ p_ExpiresAt p = p_ExpiresAt q ∧ ∀ g, g ∈ p_Grants p ↔ g ∈ p_Grants q.

(** The user a login name finds. *)
Definition login_user `{UnicodeTables} (db : AuthDB) (name : string) (u : User) : Prop :=
  has_username db (normal_username (normalizeUsername name)) u ∧ u_Enabled u = true.

(** A stored token whose secret is [secret]. *)
Definition secret_of (db : AuthDB) (kind : TokenKind) (secret : string) (t : Token) : Prop :=
  db_tokens db !! t_ID t = Some t ∧ t_Kind t = kind ∧ t_SecretHash t = hashSecret secret.

(** What [issueAccessToken] has done when it returns [lr]. *)
Record issued (db db' : AuthDB) (user : User) (requested : list Scope) (lr : LoginResult) (t : Token)
    (grants : list RepoGrant) : Prop := {
  iss_fresh : db_tokens db !! t_ID t = None;
  iss_db : db' = insert_token t db;
  iss_user : t_UserID t = u_ID user;
  iss_kind : t_Kind t = TokenKindAccess;
  iss_hash : t_SecretHash t = hashSecret (lr_BearerToken lr);
  iss_secret : ∃ bytes, length bytes = 32%nat ∧ Forall is_byte bytes ∧ lr_BearerToken lr = hex_encode bytes;
  iss_live : t_RevokedAt t = None;
  iss_expiry : t_ExpiresAt t = t_CreatedAt t + AccessTokenTTL;
  iss_scope : t_Scope t = NormalizeScopes (flat_map (granted_scope user grants) requested);
  iss_grants : ∀ g, g ∈ grants → user_grant db (u_ID user) g;
  iss_result : ∃ pgrants scopes, Token_Scopes t = Ok scopes
    ∧ lr = mkLoginResult (principal_for user t pgrants scopes) (lr_BearerToken lr) (t_ExpiresAt t)
             (t_Accessor t) (t_Scope t)
    ∧ ∀ g, g ∈ pgrants → user_grant db (u_ID user) g;
}.

(** * Lemmas *)

Lemma hashSecret_trim s : trim_space (hashSecret s) = hashSecret s.
Proof.
  apply trim_space_graphic, (str_forallb_impl is_lower_hex).
  - intros a Ha; by apply is_hex_graphic, lower_hex_is_hex.
  - apply hex_encode_lower, sha256_is_byte.
Qed.

Section Contracts.
Context {W : Type} `{UnicodeTables, !AuthStore W, !AuthStoreLaws W, !Runtime W, !RuntimeLaws W}.

Ltac calm_absurd :=
  match goal with
  | H : auth_calm ?a → no_clash _, Hc : auth_calm ?w |- _ =>
      exfalso; apply H; apply (auth_calm_later w a); [later|exact Hc]
  end.
Ltac wrap := (split; [assumption|split; [solve [later]|]]).

(** Two stored tokens with one secret are one token. *)
Lemma secret_unique w kind kind' s t t' :
  auth_wf w → secret_of (auth_view w) kind s t → secret_of (auth_view w) kind' s t' → t = t'.
Proof.
  intros Hw (H1 & _ & Hh) (H2 & _ & Hh'); assert (t_ID t = t_ID t') as Heq.
  { apply (wf_token_hash _ (auth_wf_db w Hw) _ _ _ _ H1 H2); congruence. }
  rewrite Heq in H1; congruence.
Qed.

#[export] Instance get_active_user_contract name :
  Contract (getActiveUserByUsername name)
    (λ w r w', auth_view w' = auth_view w
       ∧ ∀ u, r = Ok u → login_user (auth_view w) name u).
Proof.
  intros w Hw; unfold getActiveUserByUsername; wp_run; wrap; (split; [by same_view|]);
    intros u [=]; subst; bool_prop; done.
Qed.

(** [buildPrincipal] swallows a failure to list the grants: it fails only on the
    token's scopes. *)
#[export] Instance build_principal_contract user token :
  Contract (buildPrincipal user token)
    (λ w r w', auth_view w' = auth_view w ∧ ∃ grants,
       r = (let? scopes := Token_Scopes token in Ok (principal_for user token grants scopes))
       ∧ (∀ g, g ∈ grants → user_grant (auth_view w) (u_ID user) g)
       ∧ (auth_calm w → u_ID user ≠ "" → ∀ g, user_grant (auth_view w) (u_ID user) g → g ∈ grants)).
Proof.
  intros w Hw; unfold buildPrincipal; wp_run; wrap; (split; [by same_view|]).
  all: try match goal with H : Token_Scopes _ = _ |- _ => rewrite H; simpl end.
  all: match goal with
       | H : ∀ g, g ∈ ?l ↔ _ |- _ => exists l; (split; [done|]); split; intros; apply H; by auto
       | _ => exists []; (split; [done|]); split; [by intros ? ?%elem_of_nil|]
       end.
  all: intros Hc; try congruence; match goal with H : auth_calm _ → no_clash _ |- _ => destruct (H Hc) end.
Qed.

#[export] Instance granted_scopes_contract user requested :
  Contract (grantedScopes user requested)
    (λ w r w', auth_view w' = auth_view w ∧ ∀ l, r = Ok l → ∃ grants,
       l = flat_map (granted_scope user grants) requested
       ∧ ∀ g, g ∈ grants → user_grant (auth_view w) (u_ID user) g).
Proof.
  intros w Hw; unfold grantedScopes; wp_run; wrap; (split; [by same_view|]); intros ? [=]; subst.
  - exists []; split; [done|]; by intros ? ?%elem_of_nil.
  - eexists; split; [done|]; intros g Hg; match goal with H : ∀ g, _ |- _ => by apply H end.
Qed.

(** Grants do not change when a token is stored. *)
Lemma user_grant_insert_token db t id g : user_grant (insert_token t db) id g ↔ user_grant db id g.
Proof. done. Qed.

#[export] Instance issue_contract user requested :
  Contract (issueAccessToken user requested)
    (λ w r w', ∀ lr, r = Ok lr → ∃ t grants, issued (auth_view w) (auth_view w') user requested lr t grants
       ∧ is_Some (db_users (auth_view w) !! u_ID user)
       ∧ (auth_calm w → u_ID user ≠ "" → ∀ g, user_grant (auth_view w) (u_ID user) g →
            g ∈ p_Grants (lr_Principal lr))).
Proof.
  intros w Hw; unfold issueAccessToken; wp_run; wrap; try done; intros lr [= <-].
  match goal with H : ∃ grants, _ |- _ => destruct H as (pgrants & Hp & Hsub & Hall) end.
  match goal with H : ∀ l, Ok _ = Ok l → _ |- _ => destruct (H _ eq_refl) as (grants & -> & Hg) end.
  destruct (Token_Scopes _) as [scopes|] eqn:Hs; simpl in Hp; [|done]; injection Hp as ->.
  match goal with H : auth_calm ?a → _, Hi : auth_view ?a = insert_token _ _ |- _ =>
    rewrite Hi in *; assert (auth_calm w → auth_calm a) as Hcalm
      by (intros Hc; apply (auth_calm_later w a); [later|exact Hc])
  end.
  same_view; eexists _, grants; split; [|split; [done|]].
  - split; simpl; try done; [assumption| |by exists pgrants, scopes].
    match goal with H : ∀ s : string, Ok _ = Ok s → ∃ bytes, _ |- _ => exact (H _ eq_refl) end.
  - simpl; intros Hc Hne g Hug; apply Hall; auto.
Qed.

(** ** The three entry points *)

Lemma login_password_contract name password requested w :
  auth_wf w →
  wp (LoginWithPassword name password requested)
    (λ r w', auth_wf w' ∧ auth_later w w' ∧ ∀ lr, r = Ok lr →
       ∃ user t grants, login_user (auth_view w) name user ∧ u_IsRobot user = false
         ∧ rt_bcrypt_compare (u_PasswordHash user) password = true
         ∧ issued (auth_view w) (auth_view w') user requested lr t grants
         ∧ (auth_calm w → ∀ g, user_grant (auth_view w) (u_ID user) g → g ∈ p_Grants (lr_Principal lr))) w.
Proof.
  intros Hw; unfold LoginWithPassword; wp_run; wrap; try done; intros lr ->; bool_prop.
  match goal with H : ∀ u : User, Ok _ = Ok u → _ |- _ => pose proof (H _ eq_refl) as Hu end.
  match goal with H : ∀ lr : LoginResult, Ok _ = Ok lr → _ |- _ => destruct (H _ eq_refl) as (t & grants & Hi & _ & Hc) end.
  assert (auth_calm w → auth_calm w') as Hcalm by (intros Hcw; apply (auth_calm_later w w'); [later|exact Hcw]).
  same_view; exists a, t, grants; do 4 (split; [done|]).
  intros Hcw; apply Hc; [by apply Hcalm|].
  destruct Hu as [[Hu _] _]; by apply (User_Validate_id _ _ (wf_user_valid _ (auth_wf_db w Hw) _ _ Hu)).
Qed.

Lemma login_token_contract name token requested w :
  auth_wf w →
  wp (LoginWithPreissuedToken name token requested)
    (λ r w', auth_wf w' ∧ auth_later w w' ∧ ∀ lr, r = Ok lr →
       ∃ user stored now t grants, login_user (auth_view w) name user
         ∧ secret_of (auth_view w) TokenKindAdminCredential token stored
         ∧ t_UserID stored = u_ID user ∧ t_RevokedAt stored = None ∧ now < t_ExpiresAt stored
         ∧ issued (auth_view w) (auth_view w') user requested lr t grants) w.
Proof.
  intros Hw; unfold LoginWithPreissuedToken; wp_run; wrap; try done; intros lr ->; bool_prop.
  match goal with H : ∀ u : User, Ok _ = Ok u → _ |- _ => pose proof (H _ eq_refl) as Hu end.
  match goal with H : ∀ lr : LoginResult, Ok _ = Ok lr → _ |- _ => destruct (H _ eq_refl) as (t & grants & Hi & _) end.
  match goal with H : IsActive _ _ = Ok _ |- _ => apply IsActive_ok in H as [Hrev Hexp] end.
  rewrite hashSecret_trim in *; same_view.
  eexists a, x, _, t, grants; split; [done|split; [done|]]; eauto.
Qed.

Lemma verify_contract bearer w :
  auth_wf w →
  wp (VerifyAccessToken bearer)
    (λ r w', auth_wf w' ∧ auth_later w w' ∧ auth_view w' = auth_view w ∧ ∀ p, r = Ok p →
       ∃ t u now grants scopes, secret_of (auth_view w) TokenKindAccess bearer t
         ∧ t_RevokedAt t = None ∧ now < t_ExpiresAt t
         ∧ db_users (auth_view w) !! trim_space (t_UserID t) = Some u ∧ u_Enabled u = true
         ∧ Token_Scopes t = Ok scopes ∧ p = principal_for u t grants scopes
         ∧ ∀ g, g ∈ grants → user_grant (auth_view w) (u_ID u) g) w.
Proof.
  intros Hw; unfold VerifyAccessToken; wp_run; wrap; (split; [by same_view|]); try done; intros p [= <-].
  match goal with H : ∃ grants, _ |- _ => destruct H as (grants & Hp & Hsub & _) end.
  match goal with H : IsActive _ _ = Ok _ |- _ => apply IsActive_ok in H as [Hrev Hexp] end.
  destruct (Token_Scopes x) as [scopes|] eqn:Hs; simpl in Hp; [|done]; injection Hp as ->; bool_prop.
  rewrite hashSecret_trim in *; same_view.
  eexists x, _, _, grants, scopes; repeat split; eauto.
Qed.

(** Without infrastructure faults and before the expiry the verification of a live
    token of an enabled user cannot fail. *)
Lemma verify_complete bearer t u w :
  auth_wf w → auth_calm w → secret_of (auth_view w) TokenKindAccess bearer t → t_RevokedAt t = None →
  db_users (auth_view w) !! trim_space (t_UserID t) = Some u → u_Enabled u = true →
  (∀ w1 now w2, auth_later w w1 → rt_now w1 = (Ok now, w2) → now < t_ExpiresAt t) →
  wp (VerifyAccessToken bearer)
    (λ r _, ∃ grants scopes, Token_Scopes t = Ok scopes ∧ r = Ok (principal_for u t grants scopes)
       ∧ ∀ g, g ∈ grants ↔ user_grant (auth_view w) (u_ID u) g) w.
Proof.
  intros Hw Hc Ht Hrev Hu Hen Hclock; unfold VerifyAccessToken; wp_run; try calm_absurd.
  all: rewrite ?hashSecret_trim in *.
  all: try match goal with H : context [¬ (t_Kind _ = _ ∧ _)] |- _ =>
         exfalso; destruct Ht as (Hs & Hk & Hh); by apply (H _ _ Hs) end.
  all: match goal with H : db_tokens _ !! t_ID ?y = Some ?y |- _ =>
         assert (y = t) by (by apply (secret_unique w TokenKindAccess TokenKindAccess bearer)); subst y end.
  all: match goal with Hr : rt_now ?a = (Ok ?n, _) |- _ =>
         assert (n < t_ExpiresAt t) as Hexp by (eapply (Hclock a n); [later|exact Hr]) end.
  all: assert (∃ scopes, Token_Scopes t = Ok scopes) as [scopes Hs]
         by (eapply Token_Validate_scopes, (wf_token_valid _ (auth_wf_db w Hw)), Ht).
  all: try match goal with H : IsActive ?y ?n = Err _ |- _ =>
         exfalso; assert (IsActive y n = Ok tt) by (by apply IsActive_ok); congruence end.
  all: same_view; try congruence; simplify_eq; bool_prop; try congruence.
  all: match goal with H : ∃ grants, _ |- _ => destruct H as (grants & Hp & Hsub & Hall) end.
  all: rewrite Hs in Hp; simpl in Hp; try discriminate Hp; injection Hp as ->.
  exists grants, scopes; split; [done|split; [done|]]; intros g; split; [apply Hsub|apply Hall].
  - match goal with |- auth_calm ?a => apply (auth_calm_later w a); [later|exact Hc] end.
  - pose proof (wf_user_valid _ (auth_wf_db w Hw) _ _ Hu) as Hv; by eapply User_Validate_id.
Qed.

(** A token that was just issued verifies to the principal of its login, up to the
    order of the grants. *)
(** The clock as [VerifyAccessToken] reads it, once, after it has found the token. *)
Definition verification_time (bearer : string) (w : W) : res Time :=
  (rt_now (GetTokenBySecretHash TokenKindAccess (hashSecret bearer) w).2).1.

(** What decides about a live token is that reading, and nothing else. *)
Lemma verify_at bearer t u w :
  auth_wf w → auth_calm w → secret_of (auth_view w) TokenKindAccess bearer t → t_RevokedAt t = None →
  db_users (auth_view w) !! trim_space (t_UserID t) = Some u → u_Enabled u = true →
  ∃ now, verification_time bearer w = Ok now
    ∧ if now <? t_ExpiresAt t then ∃ p, (VerifyAccessToken bearer w).1 = Ok p
      else (VerifyAccessToken bearer w).1 = Err (NewExpiredTokenError (t_Accessor t)).
Proof.
  intros Hw Hc Ht Hrev Hu Hen; remember (VerifyAccessToken bearer w).1 as out eqn:Hout.
  unfold VerifyAccessToken, sbind at 1, sattempt at 1 in Hout; unfold verification_time.
  destruct (contract (m := GetTokenBySecretHash TokenKindAccess (hashSecret bearer)) w Hw) as (Hw1 & Hl1 & Hg).
  destruct (GetTokenBySecretHash TokenKindAccess (hashSecret bearer) w) as [r w1]; cbn [fst snd] in *.
  assert (auth_view w1 = auth_view w ∧ r = Ok t) as [Hv1 ->].
  { destruct Hg as [(Hv & [(y & -> & Hy)|(-> & Hno)])|(_ & _ & Hx)]; [| |by destruct (Hx Hc)]; (split; [done|]).
    - f_equal; destruct Hy as (Hy & Hk & Hh); rewrite hashSecret_trim in Hh; by apply (secret_unique w TokenKindAccess TokenKindAccess bearer).
    - exfalso; destruct Ht as (Hs & Hk & Hh); apply (Hno _ _ Hs); by rewrite hashSecret_trim. }
  unfold sbind at 1 in Hout; destruct (contract (m := rt_now) w1 Hw1) as (Hw2 & Hl2 & Hv2 & (now & Hnow & _) & _).
  destruct (rt_now w1) as [r2 w2]; cbn [fst snd] in *; subst r2; exists now; split; [done|].
  unfold sbind at 1, slift in Hout; destruct (Z.ltb_spec now (t_ExpiresAt t)) as [Hlt|Hge].
  - assert (IsActive t now = Ok tt) as Hact by (by apply IsActive_ok); rewrite Hact in Hout; clear Hact.
    assert (∃ scopes, Token_Scopes t = Ok scopes) as [scopes Hs]
      by (eapply Token_Validate_scopes, (wf_token_valid _ (auth_wf_db w Hw)), Ht).
    enough (wp (let! user := GetUserByID (t_UserID t) in
                if negb (u_Enabled user) then sthrow (NewDisabledUserError (u_Username user)) else
                let! built := sattempt (buildPrincipal user t) in
                match built with Ok principal => sret principal | Err _ => sthrow NewInvalidCredentialsError end)
              (λ r _, ∃ p, r = Ok p) w2) as Hx by (rewrite Hout; exact Hx).
    assert (auth_calm w2) as Hc2 by (apply (auth_calm_later w); [by etrans|done]).
    rewrite <- Hv1, <- Hv2 in Hu; clear Hc Hout; wp_run; try calm_absurd; try congruence; simplify_eq; bool_prop; try congruence; eauto.
    all: match goal with H : ∃ grants, _ |- _ => destruct H as (grants & Hp & _) end; by rewrite Hs in Hp.
  - rewrite Hout; assert (IsActive t now = Err (NewExpiredTokenError (t_Accessor t))) as ->; [|done].
    unfold IsActive, IsRevoked, IsExpired, Before; by rewrite Hrev, (proj2 (Z.ltb_ge _ _) Hge).
Qed.

Lemma issued_verifies w w' user requested lr t grants :
  auth_wf w' → auth_calm w' → ids_trimmed (auth_view w) → issued (auth_view w) (auth_view w') user requested lr t grants →
  db_users (auth_view w) !! u_ID user = Some user → u_Enabled user = true →
  (∀ g, user_grant (auth_view w) (u_ID user) g → g ∈ p_Grants (lr_Principal lr)) →
  (∀ w1 now w2, auth_later w' w1 → rt_now w1 = (Ok now, w2) → now < lr_ExpiresAt lr) →
  ∃ p, (VerifyAccessToken (lr_BearerToken lr) w').1 = Ok p ∧ same_principal p (lr_Principal lr).
Proof.
  intros Hw' Hc Ht Hi Hu Hen Hall Hclock.
  destruct Hi as [Hfr Hdb Htu Hk Hh _ Hlive Hexp Hsc _ (pg & scopes & Hts & Hlr & Hsub)].
  assert (t_ExpiresAt t = lr_ExpiresAt lr) as Hel by (by rewrite Hlr).
  destruct (verify_complete (lr_BearerToken lr) t user w') as (g' & s' & Hs' & Hv & Hg'); try done.
  - repeat split; try done; rewrite Hdb; simpl; by rewrite lookup_insert_eq.
  - rewrite Hdb, Htu; simpl; by rewrite (Ht _ _ Hu).
  - intros; rewrite Hel; eauto.
  - eexists; split; [exact Hv|]; assert (s' = scopes) as -> by congruence.
    rewrite Hlr; repeat split; simpl; try done; rewrite Hg', Hdb, user_grant_insert_token.
    + intros Hug; specialize (Hall _ Hug); by rewrite Hlr in Hall.
    + apply Hsub.
Qed.

(** ** The world after a revocation or a deactivation *)

Lemma revoke_outcome actor accessor w r :
  auth_wf w → (RevokeAdminToken actor accessor w).1 = Ok r →
  let w' := (RevokeAdminToken actor accessor w).2 in
  auth_wf w' ∧ ∃ now, auth_view w' = revoke_accessor (trim_space (trim_space accessor)) now (auth_view w).
Proof.
  intros Hw Hr; revert Hr.
  change (wp (RevokeAdminToken actor accessor) (λ r' w', r' = Ok r → auth_wf w' ∧
    ∃ now, auth_view w' = revoke_accessor (trim_space (trim_space accessor)) now (auth_view w)) w).
  unfold RevokeAdminToken; wp_run; try done; intros _; (split; [assumption|]); same_view; eauto.
Qed.

Lemma set_enabled_outcome actor id enabled w u :
  auth_wf w → (SetUserEnabled actor id enabled w).1 = Ok u →
  let w' := (SetUserEnabled actor id enabled w).2 in
  auth_wf w' ∧ ∃ v, db_users (auth_view w') !! trim_space id = Some v ∧ u_Enabled v = enabled.
Proof.
  intros Hw Hr; revert Hr.
  change (wp (SetUserEnabled actor id enabled) (λ r' w', r' = Ok u → auth_wf w' ∧
    ∃ v, db_users (auth_view w') !! trim_space id = Some v ∧ u_Enabled v = enabled) w).
  unfold SetUserEnabled; wp_run; try done; intros _; (split; [assumption|]).
  all: match goal with H : db_users _ !! trim_space _ = Some ?x |- _ =>
         pose proof (user_at w _ _ Hw H) as Hid end.
  all: match goal with H : auth_view _ = insert_user _ _ |- _ => rewrite H end; simpl.
  all: rewrite <- Hid, lookup_insert_eq; eexists; split; [done|]; unfold merge_user; by case_match.
Qed.

Lemma revoked_has_no_secret db accessor now kind secret t :
  (∀ i j a b, db_tokens db !! i = Some a → db_tokens db !! j = Some b → t_SecretHash a = t_SecretHash b → i = j) →
  (∀ i a, db_tokens db !! i = Some a → t_ID a = i) →
  secret_of db kind secret t → t_Accessor t = accessor →
  ∀ kind' t', secret_of (revoke_accessor accessor now db) kind' secret t' → t_RevokedAt t' ≠ None.
Proof.
  intros Huniq Hid (Ht & _ & Hh) Hacc kind' t' (Ht' & _ & Hh').
  simpl in Ht'; rewrite lookup_fmap, fmap_Some in Ht'; destruct Ht' as (t0 & Ht0 & Heq).
  assert (t_SecretHash t0 = hashSecret secret ∧ t_Accessor t0 = t_Accessor t') as [Hh0 Ha0].
  { rewrite Heq in Hh' |- *; by destruct (_ && _). }
  assert (t_ID t = t_ID t') as Hii by (apply (Huniq _ _ _ _ Ht Ht0); congruence).
  rewrite Hii in Ht; assert (t0 = t) as -> by congruence.
  rewrite Heq, Hacc, String.eqb_refl; simpl; unfold IsRevoked; by destruct (t_RevokedAt t) eqn:Hr; simpl; rewrite ?Hr.
Qed.

(** ** Scopes *)

(** The rights a user has on a repository by its flags and grants. *)
Definition entitled (user : User) (grants : list RepoGrant) (name : string) (allows : RepoRole → bool) : bool :=
  hasGrantedRepositoryAccess (mkPrincipal "" "" "" (u_IsAdmin user) (u_IsReadOnly user) grants [] 0) name allows.

Lemma grant_flags_spec grants requested pull push delete :
  grant_flags grants requested = (pull, push, delete) →
  let held allows := ∃ g, g ∈ grants ∧ ref_Name (g_Repository g) = ref_Name (sc_repository requested)
    ∧ allows (g_Role g) = true in
  (pull = true → AllowsPull requested = true ∧ held AllowsRead)
  ∧ (push = true → AllowsPush requested = true ∧ held AllowsWrite)
  ∧ (delete = true → AllowsDelete requested = true ∧ held AllowsWrite).
Proof.
  unfold grant_flags; destruct (List.find _ grants) as [g|] eqn:Hf; intros [= <- <- <-]; [|done].
  apply find_some in Hf as [Hg Hn]; apply list_elem_of_In in Hg; bool_prop; unfold ref_String in Hn.
  simpl; repeat split; intros; bool_prop; try done; eauto.
Qed.

Lemma flag_actions (pull push delete : bool) (A B C : Prop) :
  (pull = true → A) → (push = true → B) → (delete = true → C) →
  let acts := (if pull then ["pull"] else []) ++ (if push then ["push"] else [])
                ++ (if delete then ["delete"] else []) in
  (acts = [] ∨ acts ∈ action_lists)
  ∧ ∀ a, a ∈ acts → a = actionPull ∧ A ∨ a = actionPush ∧ B ∨ a = actionDelete ∧ C.
Proof.
  intros HA HB HC; destruct pull, push, delete; simpl;
    (split; [first [by left|right; unfold action_lists; set_solver]|]); intros a Ha;
    rewrite ?elem_of_cons, ?elem_of_nil in Ha; destruct_or?; subst; tauto.
Qed.

Lemma intersect_spec user grants req :
  let acts := intersectRequestedActions (u_IsAdmin user) (u_IsReadOnly user) grants req in
  let name := ref_Name (sc_repository req) in
  (acts = [] ∨ acts ∈ action_lists)
  ∧ ∀ a, a ∈ acts →
      a = actionPull ∧ (AllowsPull req = true ∧ entitled user grants name AllowsRead = true)
      ∨ a = actionPush ∧ (AllowsPush req = true ∧ entitled user grants name AllowsWrite = true)
      ∨ a = actionDelete ∧ (AllowsDelete req = true ∧ entitled user grants name AllowsWrite = true).
Proof.
  unfold intersectRequestedActions; cbv zeta.
  assert (∀ allows, u_IsAdmin user = true
            ∨ (u_IsReadOnly user = true ∧ allows RepoRoleReader = true)
            ∨ (∃ g, g ∈ grants ∧ ref_Name (g_Repository g) = ref_Name (sc_repository req)
                    ∧ allows (g_Role g) = true) →
            entitled user grants (ref_Name (sc_repository req)) allows = true) as Hent
    by (intros allows Hor; unfold entitled; by rewrite granted_spec).
  destruct (u_IsAdmin user); [|destruct (u_IsReadOnly user)].
  - apply flag_actions; auto.
  - apply (flag_actions (AllowsPull req) false false); [intros ?; split; [done|apply Hent; by auto]|done|done].
  - destruct (grant_flags grants req) as [[pull push] delete] eqn:Hf.
    apply grant_flags_spec in Hf as (Hpl & Hps & Hdl).
    apply flag_actions; intros Hflag;
      [destruct (Hpl Hflag)|destruct (Hps Hflag)|destruct (Hdl Hflag)]; split; auto.
Qed.

(** What [granted_scope] lets through. *)
Lemma granted_scope_bound user grants requested s :
  (∃ raw, ParseScope raw = Ok requested) → s ∈ granted_scope user grants requested →
  ∃ s', ParseScope (sc_Canonical s) = Ok s' ∧ sc_Canonical s' = sc_Canonical s ∧
  (IsRepository s' = true →
     IsRepository requested = true ∧ sc_Name s' = sc_Name requested
     ∧ (∀ a, hasAction s' a = true → hasAction requested a = true)
     ∧ (AllowsPull s' = true → entitled user grants (sc_Name s') AllowsRead = true)
     ∧ (AllowsPush s' = true → entitled user grants (sc_Name s') AllowsWrite = true)
     ∧ (AllowsDelete s' = true → entitled user grants (sc_Name s') AllowsWrite = true)).
Proof.
  intros [raw Hraw] Hs; unfold granted_scope in Hs.
  pose proof (parsed_scope_reparses _ _ Hraw) as Hre; apply ParseScope_ok in Hraw.
  destruct Hraw as [(name & acts & Hv & Ha & ->)| ->]; last first.
  { apply list_elem_of_singleton in Hs as ->; exists catalog_scope; split; [apply ParseScope_catalog|].
    split; [done|]; by intros. }
  set (req := mkScope _ _ _ _ _) in *; change (IsRegixtryCatalog req) with false in Hs.
  change (negb (IsRepository req)) with false in Hs; simpl in Hs.
  destruct (intersect_spec user grants req) as [Hacts Hin]; simpl in Hacts, Hin.
  destruct (intersectRequestedActions _ _ _ _) as [|a l]; [by apply elem_of_nil in Hs|].
  apply list_elem_of_singleton in Hs as ->; destruct Hacts as [|Hacts]; [done|].
  eexists; split; [by apply ParseScope_repository|]; split; [done|]; intros _; split; [done|]; split; [done|].
  unfold AllowsPull, AllowsPush, AllowsDelete, hasAction in *; simpl sc_Actions in *; simpl sc_Name in *.
  assert (∀ x, existsb (λ c, String.eqb c x) (a :: l) = true → x ∈ a :: l) as Hel
    by (intros x (y & Hy & ->%String.eqb_eq)%existsb_elem; done).
  split; [intros x Hx%Hel%Hin; naive_solver|].
  repeat split; intros Hx%Hel%Hin; naive_solver.
Qed.

Lemma issued_scopes_bound db db' user requested lr t grants s :
  issued db db' user requested lr t grants → Forall (λ r, ∃ raw, ParseScope raw = Ok r) requested →
  s ∈ p_Scopes (lr_Principal lr) → IsRepository s = true →
  ∃ r, r ∈ requested ∧ IsRepository r = true ∧ sc_Name s = sc_Name r
    ∧ (∀ a, hasAction s a = true → hasAction r a = true)
    ∧ (AllowsPull s = true → entitled user grants (sc_Name s) AllowsRead = true)
    ∧ (AllowsPush s = true → entitled user grants (sc_Name s) AllowsWrite = true)
    ∧ (AllowsDelete s = true → entitled user grants (sc_Name s) AllowsWrite = true).
Proof.
  intros Hi Hreq Hs Hrep; destruct (iss_result _ _ _ _ _ _ _ Hi) as (pg & scopes & Hts & Hlr & _); rewrite Hlr in Hs.
  simpl in Hs; unfold Token_Scopes in Hts; rewrite (iss_scope _ _ _ _ _ _ _ Hi) in Hts.
  set (gs := flat_map (granted_scope user grants) requested) in *.
  assert (∀ g, g ∈ gs → ∃ r, r ∈ requested ∧ (∃ raw, ParseScope raw = Ok r) ∧ g ∈ granted_scope user grants r) as Hgs.
  { intros g Hg%list_elem_of_In%in_flat_map; destruct Hg as (r & Hr & Hg).
    apply list_elem_of_In in Hr, Hg; rewrite Forall_forall in Hreq; eauto. }
  destruct (NormalizeScopes_ParseScopes gs) as (l & Hl & _ & Hfrom).
  { apply Forall_forall; intros g (r & _ & Hr & Hg)%Hgs; right.
    destruct (granted_scope_bound user grants r g Hr Hg) as (s' & Hp & Hc & _); by exists s'. }
  assert (trim_space (NormalizeScopes gs) = NormalizeScopes gs) as Htrim.
  { unfold NormalizeScopes; apply trim_space_join, Forall_forall; intros c Hc.
    apply elem_of_sort_by, collect_canonical_spec in Hc as (Hne & _ & g & (r & _ & Hr & Hg)%Hgs & <-).
    destruct (granted_scope_bound user grants r g Hr Hg) as (s' & Hp & Hcc & _).
    apply canonical_is_word; by exists s'. }
  rewrite Htrim in Hts; destruct (String.eqb _ ""); [by injection Hts as <-; apply elem_of_nil in Hs|].
  assert (l = scopes) as -> by congruence.
  rewrite Forall_forall in Hfrom; destruct (Hfrom s Hs) as (g & (r & Hr & Hraw & Hg)%Hgs & Hps).
  destruct (granted_scope_bound user grants r g Hraw Hg) as (s' & Hp & _ & Hb).
  assert (s' = s) as -> by congruence; exists r; naive_solver.
Qed.
End Contracts.

(** A run gives a handler's outcome: the tactic's postcondition, read off. *)
Lemma wp_outcome {E S A} (m : ST E S A) Q s r : wp m Q s → (m s).1 = r → Q r (m s).2.
Proof. by intros HQ <-. Qed.

Lemma team_world_wf : auth_wf team_world ∧ ids_trimmed (auth_view team_world).
Proof.
  destruct root_world_auth as (Hw & Ht & _).
  destruct (serve_all_invariant (λ _, True) ltac:(done) team_requests root_world Hw Ht I) as (? & ? & _); done.
Qed.

Lemma session_world_wf : auth_wf session_world.
Proof. destruct team_world_wf as [Hw _]; apply (LoginWithPassword_steps root_principal _ _ _ team_world Hw). Qed.

Lemma alice_session_ok : (alice_login team_world).1 = Ok alice_session.
Proof. by vm_compute. Qed.

Lemma example_calm w : aw_calm w.
Proof. by intros n _. Qed.

(** * Properties *)

Section Properties.
Context {W : Type} `{UnicodeTables, !AuthStore W, !AuthStoreLaws W, !Runtime W, !RuntimeLaws W}.

(** A password login that succeeds was made by an enabled user that is not a
    robot and whose stored hash accepts the password, and all it does to the tables
    is to store one fresh, unrevoked access token of that user, expiring 15 minutes
    after its creation, under the hash of the bearer secret it returns. *)
Theorem password_login_sound (name password : string) (requested : list Scope) (w : W) (lr : LoginResult) :
  auth_wf w → (LoginWithPassword name password requested w).1 = Ok lr →
  ∃ user t grants, login_user (auth_view w) name user ∧ u_IsRobot user = false
    ∧ rt_bcrypt_compare (u_PasswordHash user) password = true
    ∧ issued (auth_view w) (auth_view (LoginWithPassword name password requested w).2) user requested lr t grants.
Proof.
  intros Hw Hr; destruct (wp_outcome _ _ _ _ (login_password_contract name password requested w Hw) Hr)
    as (_ & _ & Hlr); destruct (Hlr lr eq_refl) as (u & t & g & ? & ? & ? & ? & _); eauto 8.
Qed.

(** a login with an admin credential succeeds only for an enabled user, with
    the secret of an unrevoked, unexpired admin credential of that very user. *)
Theorem credential_login_sound (name token : string) (requested : list Scope) (w : W) (lr : LoginResult) :
  auth_wf w → (LoginWithPreissuedToken name token requested w).1 = Ok lr →
  ∃ user stored now t grants, login_user (auth_view w) name user
    ∧ secret_of (auth_view w) TokenKindAdminCredential token stored
    ∧ t_UserID stored = u_ID user ∧ t_RevokedAt stored = None ∧ now < t_ExpiresAt stored
    ∧ issued (auth_view w) (auth_view (LoginWithPreissuedToken name token requested w).2) user requested lr t grants.
Proof.
  intros Hw Hr; destruct (wp_outcome _ _ _ _ (login_token_contract name token requested w Hw) Hr)
    as (_ & _ & Hlr); exact (Hlr lr eq_refl).
Qed.


(** The bearer token of a successful password login verifies, as long as no
    infrastructure fault strikes and the clock has not reached its expiry, to the
    principal the login returned (up to the order of the grants). *)
Theorem login_then_verify (name password : string) (requested : list Scope) (w : W) (lr : LoginResult) :
  auth_wf w → ids_trimmed (auth_view w) → auth_calm w →
  (LoginWithPassword name password requested w).1 = Ok lr →
  let w' := (LoginWithPassword name password requested w).2 in
  (∀ w1 now w2, auth_later w' w1 → rt_now w1 = (Ok now, w2) → now < lr_ExpiresAt lr) →
  ∃ p, (VerifyAccessToken (lr_BearerToken lr) w').1 = Ok p ∧ same_principal p (lr_Principal lr).
Proof.
  intros Hw Ht Hc Hr w' Hclock.
  destruct (wp_outcome _ _ _ _ (login_password_contract name password requested w Hw) Hr) as (Hw' & Hl & Hlr).
  destruct (Hlr lr eq_refl) as (u & t & grants & [[Hu _] Hen] & _ & _ & Hi & Hall).
  eapply (issued_verifies w); eauto using auth_calm_later.
Qed.

(** a token carries no repository scope beyond the request and the user's
    rights: every repository scope of the principal a login returns narrows a
    requested scope on the same repository, and the user's flags and grants entitle
    it to read for pull and to write for push and for delete. *)
Theorem issued_scopes_within_rights (name secret : string) (by_password : bool) (requested : list Scope)
    (w : W) (lr : LoginResult) (s : Scope) :
  auth_wf w → Forall (λ r, ∃ raw, ParseScope raw = Ok r) requested →
  ((if by_password then LoginWithPassword name secret requested
    else LoginWithPreissuedToken name secret requested) w).1 = Ok lr →
  s ∈ p_Scopes (lr_Principal lr) → IsRepository s = true →
  ∃ user grants r, login_user (auth_view w) name user
    ∧ (∀ g, g ∈ grants → user_grant (auth_view w) (u_ID user) g)
    ∧ r ∈ requested ∧ IsRepository r = true ∧ sc_Name s = sc_Name r
    ∧ (∀ a, hasAction s a = true → hasAction r a = true)
    ∧ (AllowsPull s = true → entitled user grants (sc_Name s) AllowsRead = true)
    ∧ (AllowsPush s = true → entitled user grants (sc_Name s) AllowsWrite = true)
    ∧ (AllowsDelete s = true → entitled user grants (sc_Name s) AllowsWrite = true).
Proof.
  intros Hw Hreq Hr Hs Hrep.
  assert (∃ user t grants db', login_user (auth_view w) name user
            ∧ issued (auth_view w) db' user requested lr t grants) as (user & t & grants & db' & Hu & Hi).
  { destruct by_password.
    - destruct (wp_outcome _ _ _ _ (login_password_contract name secret requested w Hw) Hr) as (_ & _ & Hlr).
      destruct (Hlr lr eq_refl) as (u & t & g & ? & ? & ? & ? & _); exists u, t, g; eauto.
    - destruct (wp_outcome _ _ _ _ (login_token_contract name secret requested w Hw) Hr) as (_ & _ & Hlr).
      destruct (Hlr lr eq_refl) as (u & st & n & t & g & ? & ? & ? & ? & ? & ?); exists u, t, g; eauto. }
  destruct (issued_scopes_bound _ _ _ _ _ _ _ s Hi Hreq Hs Hrep) as (r & ?); exists user, grants, r.
  pose proof (iss_grants _ _ _ _ _ _ _ Hi); tauto.
Qed.

(** Once an administrator has revoked a token, neither its bearer secret nor its
    credential secret opens anything. *)
Theorem revoked_token_is_dead (actor : Principal) (accessor secret name : string) (kind : TokenKind)
    (requested : list Scope) (w : W) (t : Token) (r : unit) :
  auth_wf w → secret_of (auth_view w) kind secret t → t_Accessor t = trim_space (trim_space accessor) →
  (RevokeAdminToken actor accessor w).1 = Ok r →
  let w' := (RevokeAdminToken actor accessor w).2 in
  (∀ p, (VerifyAccessToken secret w').1 ≠ Ok p)
  ∧ ∀ lr, (LoginWithPreissuedToken name secret requested w').1 ≠ Ok lr.
Proof.
  intros Hw Ht Hacc Hr w'; destruct (revoke_outcome actor accessor w r Hw Hr) as (Hw' & now & Hv).
  fold w' in Hw', Hv; pose proof (auth_wf_db w Hw) as Hwf.
  assert (∀ kind' t', secret_of (auth_view w') kind' secret t' → t_RevokedAt t' ≠ None) as Hdead.
  { rewrite Hv; eapply revoked_has_no_secret; eauto using wf_token_hash, wf_token_id. }
  split; intros x Hx.
  - destruct (wp_outcome _ _ _ _ (verify_contract secret w' Hw') Hx) as (_ & _ & _ & Hp).
    destruct (Hp x eq_refl) as (t' & u & n & g & sc & Ht' & Hrev & _); by apply (Hdead _ _ Ht').
  - destruct (wp_outcome _ _ _ _ (login_token_contract name secret requested w' Hw') Hx) as (_ & _ & Hp).
    destruct (Hp x eq_refl) as (u & t' & n & t2 & g & _ & Ht' & _ & Hrev & _); by apply (Hdead _ _ Ht').
Qed.

(** C38: disabling a user locks it out at once: no bearer token, password or
    credential yields a principal of that user any more. *)
Theorem disabled_user_is_locked_out (actor : Principal) (id name secret : string) (requested : list Scope)
    (w : W) (u : User) :
  auth_wf w → (SetUserEnabled actor id false w).1 = Ok u →
  let w' := (SetUserEnabled actor id false w).2 in
  (∀ p, (VerifyAccessToken secret w').1 = Ok p → p_UserID p ≠ trim_space id)
  ∧ (∀ lr, (LoginWithPassword name secret requested w').1 = Ok lr → p_UserID (lr_Principal lr) ≠ trim_space id)
  ∧ ∀ lr, (LoginWithPreissuedToken name secret requested w').1 = Ok lr → p_UserID (lr_Principal lr) ≠ trim_space id.
Proof.
  intros Hw Hr w'; destruct (set_enabled_outcome actor id false w u Hw Hr) as (Hw' & v & Hv & Hoff).
  fold w' in Hw', Hv.
  assert (∀ x, login_user (auth_view w') name x → u_ID x ≠ trim_space id) as Hlogin.
  { intros x [[Hx _] Hen] Heq; rewrite Heq in Hx; congruence. }
  assert (∀ user req lr t g db', issued (auth_view w') db' user req lr t g → p_UserID (lr_Principal lr) = u_ID user)
    as Huid by (intros user req lr t g db' Hi; destruct (iss_result _ _ _ _ _ _ _ Hi) as (? & ? & _ & -> & _); done).
  repeat split; intros x Hx.
  - destruct (wp_outcome _ _ _ _ (verify_contract secret w' Hw') Hx) as (_ & _ & _ & Hp).
    destruct (Hp x eq_refl) as (t & y & n & g & sc & _ & _ & _ & Hy & Hen & _ & -> & _); simpl.
    rewrite (user_at w' _ _ Hw' Hy); intros Heq; rewrite Heq in Hy; congruence.
  - destruct (wp_outcome _ _ _ _ (login_password_contract name secret requested w' Hw') Hx) as (_ & _ & Hp).
    destruct (Hp x eq_refl) as (y & t & g & Hy & _ & _ & Hi & _); rewrite (Huid _ _ _ _ _ _ Hi); auto.
  - destruct (wp_outcome _ _ _ _ (login_token_contract name secret requested w' Hw') Hx) as (_ & _ & Hp).
    destruct (Hp x eq_refl) as (y & st & n & t & g & Hy & _ & _ & _ & _ & Hi); rewrite (Huid _ _ _ _ _ _ Hi); auto.
Qed.
End Properties.

(** * Witnesses *)

Lemma scopes_parsed : Forall (λ r, ∃ raw, ParseScope raw = Ok r) [push_scope; other_scope].
Proof.
  repeat constructor; [exists "repository:team/app:pull,push"|exists "repository:other/app:pull,push"];
    by vm_compute.
Qed.

Lemma password_login_sound_witness :
  ∃ user t grants, login_user (auth_view team_world) "ALICE" user ∧ u_IsRobot user = false
    ∧ rt_bcrypt_compare (u_PasswordHash user) "battery staple" = true
    ∧ issued (auth_view team_world) (auth_view session_world) user [push_scope; other_scope] alice_session t grants.
Proof.
  apply (password_login_sound "ALICE" "battery staple" [push_scope; other_scope] team_world alice_session).
  - apply team_world_wf.
  - vm_compute; reflexivity.
Defined.

Lemma credential_login_sound_witness :
  ∃ user stored now t grants, login_user (auth_view team_world) "alice" user
    ∧ secret_of (auth_view team_world) TokenKindAdminCredential alice_credential stored
    ∧ t_UserID stored = u_ID user ∧ t_RevokedAt stored = None ∧ now < t_ExpiresAt stored
    ∧ issued (auth_view team_world) (auth_view (alice_preissued team_world).2) user [push_scope]
        alice_second_session t grants.
Proof.
  apply (credential_login_sound "alice" alice_credential [push_scope] team_world alice_second_session).
  - apply team_world_wf.
  - vm_compute; reflexivity.
Defined.


Lemma login_then_verify_witness :
  ∃ p, (VerifyAccessToken (lr_BearerToken alice_session) session_world).1 = Ok p
       ∧ same_principal p (lr_Principal alice_session).
Proof.
  destruct team_world_wf as [Hw Ht].
  apply (login_then_verify "ALICE" "battery staple" [push_scope; other_scope] team_world alice_session Hw Ht
    (example_calm _)).
  - vm_compute; reflexivity.
  - intros w1 now w2 _ Hn; injection Hn as <- _.
    assert (lr_ExpiresAt alice_session = 923000000000) as -> by (vm_compute; reflexivity).
    unfold second; lia.
Defined.

Lemma issued_scopes_within_rights_witness :
  ∃ user grants r, login_user (auth_view team_world) "ALICE" user
    ∧ (∀ g, g ∈ grants → user_grant (auth_view team_world) (u_ID user) g)
    ∧ r ∈ [push_scope; other_scope] ∧ IsRepository r = true ∧ sc_Name push_scope = sc_Name r
    ∧ (∀ a, hasAction push_scope a = true → hasAction r a = true)
    ∧ (AllowsPull push_scope = true → entitled user grants (sc_Name push_scope) AllowsRead = true)
    ∧ (AllowsPush push_scope = true → entitled user grants (sc_Name push_scope) AllowsWrite = true)
    ∧ (AllowsDelete push_scope = true → entitled user grants (sc_Name push_scope) AllowsWrite = true).
Proof.
  apply (issued_scopes_within_rights "ALICE" "battery staple" true [push_scope; other_scope] team_world
    alice_session push_scope).
  - apply team_world_wf.
  - apply scopes_parsed.
  - vm_compute; reflexivity.
  - assert (p_Scopes (lr_Principal alice_session) = [push_scope]) as -> by (vm_compute; reflexivity); left.
  - vm_compute; reflexivity.
Defined.

Lemma revoked_token_is_dead_witness :
  let w' := (RevokeAdminToken root_principal (t_Accessor alice_token) team_world).2 in
  (∀ p, (VerifyAccessToken alice_credential w').1 ≠ Ok p)
  ∧ ∀ lr, (LoginWithPreissuedToken "alice" alice_credential [push_scope] w').1 ≠ Ok lr.
Proof.
  apply (revoked_token_is_dead root_principal (t_Accessor alice_token) alice_credential "alice"
    TokenKindAdminCredential [push_scope] team_world alice_token tt).
  - apply team_world_wf.
  - split; [|split]; vm_compute; reflexivity.
  - vm_compute; reflexivity.
  - vm_compute; reflexivity.
Defined.

Lemma disabled_user_is_locked_out_witness :
  (∀ p, (VerifyAccessToken (lr_BearerToken alice_session)
           (SetUserEnabled root_principal "uu" false session_world).2).1 = Ok p → p_UserID p ≠ "uu")
  ∧ (SetUserEnabled root_principal "uu" false session_world).1 = Ok disabled_alice.
Proof.
  assert ((SetUserEnabled root_principal "uu" false session_world).1 = Ok disabled_alice) as Hr
    by (vm_compute; reflexivity).
  split; [|exact Hr].
  exact (proj1 (disabled_user_is_locked_out root_principal "uu" "alice" (lr_BearerToken alice_session) []
    session_world disabled_alice session_world_wf Hr)).
Defined.
