(* ===== verification/RegPorts.v ===== *)
(** The ports of the registry service (internal/ports/regixtry.go): the data that
    crosses them and the two interfaces, [BlobStore] over committed blobs and
    upload sessions, [MetadataStore] over uploads, manifests, tags and
    garbage-collection reports. *)
From S2P Require Import Prelude GoStrings Errors Repository Digest GoNumbers Manifest.

(** * Definitions *)

(** An [io.Reader]: the bytes it delivers, and the error it then fails with, if
    it does not end with EOF. *)
Record Reader := mkReader { rd_Data : string; rd_Err : option string }.

Record BlobFileInfo := mkBlobFileInfo {
  bfi_Digest : Digest;
  bfi_Size : Z;
  bfi_ModTime : Time;
}.

(** ** Garbage-collection reports *)

Definition GCReportStatusReported : string := "reported".
Definition GCReportStatusDeleted : string := "deleted".

Record GCReport := mkGCReport {
  gc_ID : string;
  gc_Status : string;
  gc_ComputedAt : Time;
  gc_ExpiresAt : Time;
  gc_GraceCutoff : Time;
  gc_CandidateCount : Z;
  gc_CandidateBytes : Z;
  gc_DurationMillis : Z;
  gc_RequestedBy : string;
  gc_TriggeredInTenant : string;
  gc_DeletedAt : option Time;
  gc_DeletedBy : string;
  gc_DeletedCount : Z;
  gc_BytesReclaimed : Z;
  gc_Error : string;
}.
#[global] Instance GCReport_eq_dec : EqDecision GCReport.
Proof. solve_decision. Defined.

Record GCReportCandidate := mkGCCandidate {
  cand_Digest : string;
  cand_Size : Z;
  cand_ModTime : Time;
  cand_Outcome : string;
  cand_Error : string;
}.
#[global] Instance GCReportCandidate_eq_dec : EqDecision GCReportCandidate.
Proof. solve_decision. Defined.

Record GCReportDetail := mkGCReportDetail {
  gcd_Report : GCReport;
  gcd_Candidates : list GCReportCandidate;
}.
#[global] Instance GCReportDetail_eq_dec : EqDecision GCReportDetail.
Proof. solve_decision. Defined.

Definition GCCandidateOutcomePending : string := "".
Definition GCCandidateOutcomeDeleted : string := "deleted".
Definition GCCandidateOutcomeRetained : string := "retained".
Definition GCCandidateOutcomeMissing : string := "missing".
Definition GCCandidateOutcomeFailed : string := "failed".

Record GCCandidateOutcome := mkGCOutcome {
  out_Digest : string;
  out_Outcome : string;
  out_Error : string;
}.

Record GCDeleteOutcome := mkGCDeleteOutcome {
  del_DeletedAt : Time;
  del_DeletedBy : string;
  del_DeletedCount : Z;
  del_BytesReclaimed : Z;
  del_Error : string;
  del_Candidates : list GCCandidateOutcome;
}.

Definition not_reported (reportID : string) : error :=
  NewConflictError [Lit "gc report "; Quoted reportID; Lit " is not in reported state"].

(** ** Summaries *)

Record TagSummary := mkTagSummary {
  ts_Name : string;
  ts_CreatedAt : Time;
  ts_PushedBy : string;
}.

Record RepositorySummary := mkRepositorySummary {
  rs_Name : string;
  rs_TagCount : Z;
  rs_LastPushed : Time;
}.

Record ReferrerRow := mkReferrerRow {
  rf_Digest : Digest;
  rf_MediaType : string;
  rf_Size : Z;
  rf_Payload : string;
}.

(** ** The interfaces *)

(** An opened blob is the bytes its reader delivers: a committed blob file is
    replaced or unlinked, never written in place. *)
Class BlobStore (W : Type) := {
  blob_BeginUpload : RepositoryRef → M W UploadState;
  blob_GetUpload : string → M W UploadState;
  PutUploadChunk : string → Reader → M W UploadState;
  CommitUpload : string → Digest → M W Descriptor;
  CancelUpload : string → M W unit;
  BlobExists : Digest → M W bool;
  blob_OpenBlob : Digest → M W (string * Descriptor);
  ListBlobs : M W (list BlobFileInfo);
  DeleteBlob : Digest → M W bool;
}.

Class MetadataStore (W : Type) := {
  SaveUpload : string → UploadState → M W unit;
  meta_GetUpload : string → string → M W UploadState;
  ListUploads : string → option RepositoryRef → M W (list UploadState);
  DeleteUpload : string → string → M W unit;
  meta_PublishManifest : string → RepositoryRef → string → Manifest → list Descriptor → M W unit;
  meta_ResolveManifest : string → RepositoryRef → string → M W Manifest;
  meta_Catalog : string → Z → string → M W (list RepositoryRef);
  ListTags : string → RepositoryRef → Z → string → M W (list string);
  ListTagsWithCreatedAt : string → RepositoryRef → Z → string → M W (list TagSummary);
  ListRepositoriesWithSummary : string → Z → string → M W (list RepositorySummary);
  ListManifestBlobs : string → RepositoryRef → Digest → M W (list Descriptor);
  ListReferrers : string → RepositoryRef → Digest → M W (list ReferrerRow);
  DeleteManifestByDigest : string → RepositoryRef → Digest → M W (list string);
  DeleteTag : string → RepositoryRef → string → M W unit;
  meta_DeleteRepository : string → RepositoryRef → M W (list string * Z);
  ListReferencedBlobDigests : M W (list string);
  IsBlobDigestReferenced : string → M W bool;
  CreateGCReport : GCReport → list GCReportCandidate → M W unit;
  meta_GetGCReport : string → M W GCReportDetail;
  PruneExpiredGCReports : Time → M W Z;
  MarkGCReportDeleted : string → GCDeleteOutcome → M W unit;
}.

(** The scan a push starts in the background. *)
Record PushScan := mkPushScan {
  ps_Tenant : string;
  ps_Repository : string;
  ps_Reference : string;
  ps_Digest : Digest;
}.

(** The clock and the UUIDs of the service, and the [go] statement that starts
    a background scan. *)
Class RegRuntime (W : Type) := {
  reg_now : M W Time;
  reg_uuid : M W string;
  reg_spawn_scan : PushScan → M W unit;
}.

(** ** Tenants (internal/ports/defaults.go) *)

Definition DefaultTenant : string := "default".

(** The single-tenant resolver is its tenant. *)
Definition NewSingleTenantResolver (tenant : string) : string :=
  if String.eqb tenant "" then DefaultTenant else tenant.
