(* ===== verification/RegWorld.v ===== *)
(** The calls of Go's [os], [io] and [path/filepath] packages the blob store
    makes, over a tree of directories and files: a path is the list of its
    segments below [/], cleaned lexically as [filepath.Join] does.

    The state of a registry process: the SQLite tables of the metadata store
    ([MetaDB], the schema of internal/infra/metadata/sqlite/store.go), the storage
    directory ([FileSystem]), the background scans started and the number of
    external calls made so far, with the primitives through which the stores reach
    them. Every call of the driver or of the operating system may fail. *)
From S2P Require Import Prelude GoStrings Errors Repository Digest GoNumbers Manifest RegPorts.

(** * The file system *)

Notation path := (list string) (only parsing).

Inductive node := Dir | File (content : string) (mtime : Time).
#[global] Instance node_eq_dec : EqDecision node.
Proof. solve_decision. Defined.

Notation FileSystem := (gmap (list string) node) (only parsing).

(** The classes of error the code tells apart with [os.IsNotExist] and
    [os.IsExist]. *)
Inductive os_error := ErrNotExist | ErrExist | ErrOther (msg : string).

Definition IsNotExist (e : os_error) : bool := match e with ErrNotExist => true | _ => false end.
Definition IsExist (e : os_error) : bool := match e with ErrExist => true | _ => false end.
Definition os_message (e : os_error) : string :=
  match e with
  | ErrNotExist => "no such file or directory"
  | ErrExist => "file exists"
  | ErrOther m => m
  end.

Abbreviation os_result := (result os_error).

(** ** Paths *)

Definition clean_step (p : path) (segment : string) : path :=
  if String.eqb segment "" || String.eqb segment "." then p
  else if String.eqb segment ".." then removelast p
  else p ++ [segment].

(** [filepath.Join(p, elem)] for a rooted, already clean [p]. *)
Definition join_path (p : path) (elem : string) : path := foldl clean_step p (split "/" elem).

(** [filepath.Dir]. *)
Definition parent (p : path) : path := removelast p.

(** The path and its ancestors, the root excluded. *)
Definition prefixes (p : path) : list path := map (λ n, take n p) (seq 1 (length p)).

(** A failed removal of [p] has removed some of the [entries] below it, a directory
    only after all in it: whether [q] is still there. *)
Definition remains (gone : path → bool) (p : path) (entries : list path) (q : path) : bool :=
  negb (bool_decide (p `prefix_of` q)) || bool_decide (q = p)
  || existsb (λ e, bool_decide (q `prefix_of` e) && negb (gone e)) entries.

Section Calls.
Variable fs : FileSystem.

Definition is_dir (p : path) : bool :=
  match p with [] => true | _ => bool_decide (fs !! p = Some Dir) end.
Definition is_file (p : path) : bool :=
  match fs !! p with Some (File _ _) => true | _ => false end.

(** Why a path resolves to nothing. *)
Definition missing (p : path) : os_error :=
  if existsb is_file (prefixes (parent p)) then ErrOther "not a directory" else ErrNotExist.

Definition fs_stat (p : path) : os_result node :=
  match fs !! p with Some n => Ok n | None => Err (missing p) end.

Definition fs_mkdir_all (p : path) : os_result FileSystem :=
  if existsb is_file (prefixes p) then Err (ErrOther "not a directory")
  else Ok (foldr (λ q fs, <[q := Dir]> fs) fs (prefixes p)).

(** O_CREATE|O_EXCL. *)
Definition fs_create_excl (p : path) (now : Time) : os_result FileSystem :=
  match fs !! p with
  | Some _ => Err ErrExist
  | None => if is_dir (parent p) then Ok (<[p := File "" now]> fs) else Err (missing p)
  end.

(** [os.Open] and reading to the end, and [os.ReadFile]. *)
Definition fs_read (p : path) : os_result string :=
  match fs !! p with
  | Some (File c _) => Ok c
  | Some Dir => Err (ErrOther "is a directory")
  | None => Err (missing p)
  end.

(** Writing to a descriptor opened with O_APPEND; writing nothing is no write. *)
Definition fs_append (p : path) (data : string) (now : Time) : os_result FileSystem :=
  match fs !! p with
  | Some (File c t) =>
      Ok (if String.eqb data "" then fs else <[p := File (String.append c data) now]> fs)
  | Some Dir => Err (ErrOther "is a directory")
  | None => Err (missing p)
  end.

(** [os.WriteFile]: create or truncate. *)
Definition fs_write (p : path) (data : string) (now : Time) : os_result FileSystem :=
  match fs !! p with
  | Some Dir => Err (ErrOther "is a directory")
  | Some (File _ _) => Ok (<[p := File data now]> fs)
  | None => if is_dir (parent p) then Ok (<[p := File data now]> fs) else Err (missing p)
  end.

(** [os.Rename] of a file: an existing file is replaced, a directory is not. *)
Definition fs_rename (old new : path) : os_result FileSystem :=
  match fs !! old with
  | None => Err (missing old)
  | Some Dir => Err (ErrOther "not a file")
  | Some n =>
      match fs !! new with
      | Some Dir => Err ErrExist
      | _ => if is_dir (parent new) then Ok (<[new := n]> (delete old fs)) else Err (missing new)
      end
  end.

Definition fs_remove_all (p : path) : FileSystem :=
  filter (λ kv, bool_decide (p `prefix_of` kv.1) = false) fs.
(** What a removal that failed on its way has left: [p] is still there. *)
Definition fs_remove_some (gone : path → bool) (p : path) : FileSystem :=
  filter (λ kv, remains gone p (map fst (map_to_list fs)) kv.1 = true) fs.

Definition children (p : path) : list (string * node) :=
  omap (λ kv, match last kv.1 with
              | Some name => if bool_decide (parent kv.1 = p) then Some (name, kv.2) else None
              | None => None
              end) (map_to_list fs).

Definition fs_remove (p : path) : os_result FileSystem :=
  match fs !! p with
  | None => Err (missing p)
  | Some (File _ _) => Ok (delete p fs)
  | Some Dir =>
      match children p with [] => Ok (delete p fs) | _ => Err (ErrOther "directory not empty") end
  end.

(** [os.ReadDir]: the entries in the order of their names. *)
Definition fs_read_dir (p : path) : os_result (list (string * node)) :=
  match fs !! p with
  | Some Dir => Ok (sort_by fst (children p))
  | Some (File _ _) => Err (ErrOther "not a directory")
  | None => Err (missing p)
  end.
End Calls.

(** * Lemmas *)

Lemma remains_or gone (p : path) l q : remains gone p l q = true ∨ p `prefix_of` q ∧ q ≠ p.
Proof. unfold remains; destruct (bool_decide_reflect (p `prefix_of` q)), (bool_decide_reflect (q = p)); auto. Qed.
Lemma remains_up gone (p : path) l (q r : path) : remains gone p l (q ++ r) = true → remains gone p l q = true.
Proof.
  unfold remains; rewrite !orb_true_iff, !negb_true_iff; intros [[Hp|Hp]|He].
  - apply bool_decide_eq_false in Hp; left; left; apply bool_decide_eq_false; intros Hq; apply Hp; etrans; [exact Hq|by eexists].
  - apply bool_decide_eq_true in Hp; left; destruct (decide (q = p)) as [->|Hn]; [right; by apply bool_decide_eq_true|left].
    apply bool_decide_eq_false; intros Hq; apply Hn; rewrite <- Hp in Hq; apply prefix_length in Hq as Hlen; rewrite length_app in Hlen.
    assert (r = []) as -> by (destruct r; [done|simpl in Hlen; lia]); by rewrite app_nil_r in Hp.
  - right; apply existsb_exists in He as (e & Hin & [Hq Hg]%andb_true_iff); apply existsb_exists; exists e; split; [done|].
    apply bool_decide_eq_true in Hq; rewrite Hg, bool_decide_eq_true_2; [done|]; etrans; [by eexists|exact Hq].
Qed.
Lemma join_path_segment p s :
  no_char "/" s = true → s ≠ "" → s ≠ "." → s ≠ ".." → join_path p s = p ++ [s].
Proof.
  intros Hs H1 H2 H3; unfold join_path; rewrite (split_no_char "/" s Hs); simpl; unfold clean_step.
  by destruct (String.eqb_spec s ""), (String.eqb_spec s "."), (String.eqb_spec s "..").
Qed.

(** * The state of a process *)

(** ** The tables

    A table is a finite map from the columns of its UNIQUE or PRIMARY KEY
    constraint to the rest of the row; the AUTOINCREMENT ids other tables refer to
    are columns of the row. A TEXT column written with [RFC3339Nano] holds the
    time its text parses back to. *)

Record RepositoryRow := mkRepositoryRow { rr_ID : Z; rr_CreatedAt : Time }.

Record ManifestRow := mkManifestRow {
  mr_ID : Z;
  mr_MediaType : string;
  mr_Size : Z;
  mr_Payload : string;
  mr_CreatedAt : Time;
  mr_PushedBy : string;
  mr_SubjectDigest : string;
}.

Record TagRow := mkTagRow { tg_ManifestID : Z; tg_CreatedAt : Time; tg_UpdatedAt : Time }.

Record UploadRow := mkUploadRow {
  ul_Tenant : string;
  ul_Repository : string;
  ul_Status : string;
  ul_Size : Z;
  ul_StartedAt : Time;
  ul_UpdatedAt : Time;
  ul_Location : string;
}.

(** [md_repositories] is keyed by (tenant, name), [md_manifests] by (tenant,
    repository_id, digest), [md_tags] by (tenant, repository_id, name),
    [md_manifest_blobs] by (manifest_id, position), [md_gc_candidates] by
    (report_id, position). [md_sequence] is above every AUTOINCREMENT id. *)
Record MetaDB := mkMetaDB {
  md_repositories : gmap (string * string) RepositoryRow;
  md_manifests : gmap (string * Z * string) ManifestRow;
  md_tags : gmap (string * Z * string) TagRow;
  md_manifest_blobs : gmap (Z * Z) Descriptor;
  md_uploads : gmap string UploadRow;
  md_gc_reports : gmap string GCReport;
  md_gc_candidates : gmap (string * Z) GCReportCandidate;
  md_sequence : Z;
}.

Definition empty_db : MetaDB := mkMetaDB ∅ ∅ ∅ ∅ ∅ ∅ ∅ 1.

Definition set_repositories (x : gmap (string * string) RepositoryRow) (db : MetaDB) : MetaDB :=
  mkMetaDB x (md_manifests db) (md_tags db) (md_manifest_blobs db) (md_uploads db) (md_gc_reports db)
    (md_gc_candidates db) (md_sequence db).
Definition set_manifests (x : gmap (string * Z * string) ManifestRow) (db : MetaDB) : MetaDB :=
  mkMetaDB (md_repositories db) x (md_tags db) (md_manifest_blobs db) (md_uploads db) (md_gc_reports db)
    (md_gc_candidates db) (md_sequence db).
Definition set_tags (x : gmap (string * Z * string) TagRow) (db : MetaDB) : MetaDB :=
  mkMetaDB (md_repositories db) (md_manifests db) x (md_manifest_blobs db) (md_uploads db)
    (md_gc_reports db) (md_gc_candidates db) (md_sequence db).
Definition set_manifest_blobs (x : gmap (Z * Z) Descriptor) (db : MetaDB) : MetaDB :=
  mkMetaDB (md_repositories db) (md_manifests db) (md_tags db) x (md_uploads db) (md_gc_reports db)
    (md_gc_candidates db) (md_sequence db).
Definition set_uploads (x : gmap string UploadRow) (db : MetaDB) : MetaDB :=
  mkMetaDB (md_repositories db) (md_manifests db) (md_tags db) (md_manifest_blobs db) x
    (md_gc_reports db) (md_gc_candidates db) (md_sequence db).
Definition set_gc_reports (x : gmap string GCReport) (db : MetaDB) : MetaDB :=
  mkMetaDB (md_repositories db) (md_manifests db) (md_tags db) (md_manifest_blobs db) (md_uploads db) x
    (md_gc_candidates db) (md_sequence db).
Definition set_gc_candidates (x : gmap (string * Z) GCReportCandidate) (db : MetaDB) : MetaDB :=
  mkMetaDB (md_repositories db) (md_manifests db) (md_tags db) (md_manifest_blobs db) (md_uploads db)
    (md_gc_reports db) x (md_sequence db).
Definition bump_sequence (db : MetaDB) : MetaDB :=
  mkMetaDB (md_repositories db) (md_manifests db) (md_tags db) (md_manifest_blobs db) (md_uploads db)
    (md_gc_reports db) (md_gc_candidates db) (md_sequence db + 1).

(** ** The environment *)

(** What is outside the program: the storage root, driver and OS faults, how much
    a failing write has written, the clock, UUIDs and random bytes of the run, and
    the JSON encoding of an upload state. A call is identified by its number. *)
Class RegEnv := {
  renv_root : path;
  renv_fault : nat → option string;
  renv_partial : nat → nat;
  renv_removed : nat → path → bool;
  renv_now : nat → Time;
  renv_uuid : nat → MetaDB → string;
  renv_rand : nat → MetaDB → FileSystem → nat → list Z;
  marshal_upload : UploadState → res string;
  unmarshal_upload : string → res UploadState;
}.

Record RegWorld := mkRegWorld {
  rw_db : MetaDB;
  rw_fs : FileSystem;
  rw_scans : list PushScan;
  rw_calls : nat;
}.

Section Calls.
Context `{RegEnv}.

Definition with_db (db : MetaDB) (w : RegWorld) : RegWorld := mkRegWorld db (rw_fs w) (rw_scans w) (rw_calls w).
Definition with_fs (fs : FileSystem) (w : RegWorld) : RegWorld := mkRegWorld (rw_db w) fs (rw_scans w) (rw_calls w).
Definition tick (w : RegWorld) : RegWorld := mkRegWorld (rw_db w) (rw_fs w) (rw_scans w) (S (rw_calls w)).

(** One call of the SQL driver: it fails, or runs the statement on the tables. *)
Definition sql_call {A} (f : MetaDB → res A * MetaDB) : M RegWorld A := λ w,
  match renv_fault (rw_calls w) with
  | Some e => (Err (OtherError e), tick w)
  | None => let '(r, db) := f (rw_db w) in (r, with_db db (tick w))
  end.
Definition sql_query {A} (f : MetaDB → res A) : M RegWorld A := sql_call (λ db, (f db, db)).
Definition sql_exec (f : MetaDB → res MetaDB) : M RegWorld unit :=
  sql_call (λ db, match f db with Ok db' => (Ok tt, db') | Err e => (Err e, db) end).
(** An EXEC whose [RowsAffected] the code looks at. *)
Definition sql_exec_rows (f : MetaDB → Z * MetaDB) : M RegWorld Z :=
  sql_call (λ db, let '(n, db') := f db in (Ok n, db')).

(** [BeginTx], the body, [Commit], and the deferred [Rollback] when any of them
    fails: the statements see the transaction's own writes, and the tables keep
    them only if the commit succeeds. *)
Definition in_transaction {A} (body : M RegWorld A) : M RegWorld A := λ w,
  match (let! _ := sql_query (λ _, Ok tt) in
         let! a := body in
         let! _ := sql_query (λ _, Ok tt) in
         sret a) w with
  | (Ok a, w') => (Ok a, w')
  | (Err e, w') => (Err e, with_db (rw_db w) w')
  end.

(** One call of the operating system; the code inspects the error it returns, so
    the outcome is a value. A failing call has no effect. *)
Definition os_call {A} (f : nat → FileSystem → os_result (A * FileSystem)) : M RegWorld (os_result A) := λ w,
  match renv_fault (rw_calls w) with
  | Some e => (Ok (Err (ErrOther e)), tick w)
  | None =>
      match f (rw_calls w) (rw_fs w) with
      | Ok (a, fs) => (Ok (Ok a), with_fs fs (tick w))
      | Err e => (Ok (Err e), tick w)
      end
  end.
Definition os_read_call {A} (f : FileSystem → os_result A) : M RegWorld (os_result A) :=
  os_call (λ _ fs, match f fs with Ok a => Ok (a, fs) | Err e => Err e end).
Definition os_write_call (f : Time → FileSystem → os_result FileSystem) : M RegWorld (os_result unit) :=
  os_call (λ n fs, match f (renv_now n) fs with Ok fs' => Ok (tt, fs') | Err e => Err e end).

(** A failing append may have written part of the data. *)
Definition os_append (p : path) (data : string) : M RegWorld (os_result unit) := λ w,
  match renv_fault (rw_calls w) with
  | Some e =>
      let fs := match fs_append (rw_fs w) p (substring 0 (renv_partial (rw_calls w)) data)
                        (renv_now (rw_calls w)) with
                | Ok fs => fs
                | Err _ => rw_fs w
                end in
      (Ok (Err (ErrOther e)), with_fs fs (tick w))
  | None => os_write_call (λ now fs, fs_append fs p data now) w
  end.

(** [if err != nil { return err }] *)
Definition os_err (e : os_error) : error := OtherError (os_message e).
Definition os_must {A} (r : os_result A) : M RegWorld A :=
  slift (match r with Ok a => Ok a | Err e => Err (os_err e) end).

(** [os.WriteFile] creates or truncates the file first: a failing one may have
    left part of the data. *)
Definition os_write_file (p : path) (data : string) : M RegWorld (os_result unit) := λ w,
  match renv_fault (rw_calls w) with
  | Some e =>
      let n := renv_partial (rw_calls w) in
      let fs := match n with
                | O => rw_fs w
                | S n' => match fs_write (rw_fs w) p (substring 0 n' data) (renv_now (rw_calls w)) with
                          | Ok fs => fs
                          | Err _ => rw_fs w
                          end
                end in
      (Ok (Err (ErrOther e)), with_fs fs (tick w))
  | None => os_write_call (λ now fs, fs_write fs p data now) w
  end.

(** [os.RemoveAll]: a failing one may have removed some of the entries. *)
Definition os_remove_all (p : path) : M RegWorld (os_result unit) := λ w,
  match renv_fault (rw_calls w) with
  | Some e => (Ok (Err (ErrOther e)), with_fs (fs_remove_some (rw_fs w) (renv_removed (rw_calls w)) p) (tick w))
  | None => os_write_call (λ _ fs, Ok (fs_remove_all fs p)) w
  end.

Definition clock : M RegWorld Time := λ w, (Ok (renv_now (rw_calls w)), tick w).
End Calls.

#[global] Instance reg_runtime `{RegEnv} : RegRuntime RegWorld := {|
  reg_now := clock;
  reg_uuid := λ w, (Ok (renv_uuid (rw_calls w) (rw_db w)), tick w);
  reg_spawn_scan scan := λ w, (Ok tt, mkRegWorld (rw_db w) (rw_fs w) (rw_scans w ++ [scan]) (rw_calls w));
|}.
