(* ===== verification/Registry.v ===== *)
(** What the two stores of the registry promise, over an abstract registry:
    repositories, manifests, tags, uploads and reports under their natural keys,
    committed blobs under their digest and upload sessions under their id. Each
    operation has a relation between the registry before, its result and the
    registry after; the service is proved against them. *)
From S2P Require Import Prelude GoStrings Errors Repository Digest GoNumbers Manifest RegPorts.

(** * The abstract registry *)

(** A published manifest: what the manifests row and its manifest_blobs hold. *)
Record Entry := mkEntry {
  en_MediaType : string;
  en_Payload : string;
  en_CreatedAt : Time;
  en_PushedBy : string;
  en_Subject : string;
  en_Blobs : list Descriptor;
}.

Record BlobFile := mkBlobFile { bf_Content : string; bf_ModTime : Time }.

(** An upload session: the bytes received, and its recorded state if readable. *)
Record Session := mkSession { ss_Data : string; ss_State : option UploadState }.

(** Manifests are keyed by (tenant, repository, digest), tags by (tenant,
    repository, name) and map to the digest of their manifest. *)
Record Registry := mkRegistry {
  rg_repos : gset (string * string);
  rg_manifests : gmap (string * string * string) Entry;
  rg_tags : gmap (string * string * string) string;
  rg_uploads : gmap string (string * UploadState);
  rg_reports : gmap string GCReportDetail;
  rg_blobs : gmap string BlobFile;
  rg_incoming : gmap string Session;
  rg_scans : list PushScan;
}.

Definition put_repos (x : gset (string * string)) (R : Registry) : Registry :=
  mkRegistry x (rg_manifests R) (rg_tags R) (rg_uploads R) (rg_reports R) (rg_blobs R) (rg_incoming R) (rg_scans R).
Definition put_manifests (x : gmap (string * string * string) Entry) (R : Registry) : Registry :=
  mkRegistry (rg_repos R) x (rg_tags R) (rg_uploads R) (rg_reports R) (rg_blobs R) (rg_incoming R) (rg_scans R).
Definition put_tags (x : gmap (string * string * string) string) (R : Registry) : Registry :=
  mkRegistry (rg_repos R) (rg_manifests R) x (rg_uploads R) (rg_reports R) (rg_blobs R) (rg_incoming R) (rg_scans R).
Definition put_uploads (x : gmap string (string * UploadState)) (R : Registry) : Registry :=
  mkRegistry (rg_repos R) (rg_manifests R) (rg_tags R) x (rg_reports R) (rg_blobs R) (rg_incoming R) (rg_scans R).
Definition put_reports (x : gmap string GCReportDetail) (R : Registry) : Registry :=
  mkRegistry (rg_repos R) (rg_manifests R) (rg_tags R) (rg_uploads R) x (rg_blobs R) (rg_incoming R) (rg_scans R).
Definition put_blobs (x : gmap string BlobFile) (R : Registry) : Registry :=
  mkRegistry (rg_repos R) (rg_manifests R) (rg_tags R) (rg_uploads R) (rg_reports R) x (rg_incoming R) (rg_scans R).
Definition put_incoming (x : gmap string Session) (R : Registry) : Registry :=
  mkRegistry (rg_repos R) (rg_manifests R) (rg_tags R) (rg_uploads R) (rg_reports R) (rg_blobs R) x (rg_scans R).
Definition put_scans (x : list PushScan) (R : Registry) : Registry :=
  mkRegistry (rg_repos R) (rg_manifests R) (rg_tags R) (rg_uploads R) (rg_reports R) (rg_blobs R) (rg_incoming R) x.

(** ** What the operations do to it *)

Definition referenced (R : Registry) (d : Digest) : Prop :=
  ∃ k e b, rg_manifests R !! k = Some e ∧ b ∈ en_Blobs e ∧ desc_Digest b = d.

(** A repush keeps who pushed the digest first, and when. *)
Definition publish_entry (old : option Entry) (m : Manifest) (blobs : list Descriptor) (now : Time) : Entry :=
  mkEntry (mf_MediaType m) (mf_Payload m)
    (match old with Some o => en_CreatedAt o | None => now end)
    (match old with Some o => en_PushedBy o | None => mf_PushedBy m end)
    (match mf_Subject m with Some s => desc_Digest s | None => "" end) blobs.

Definition publish (t : string) (r : RepositoryRef) (tag : string) (m : Manifest) (blobs : list Descriptor)
    (now : Time) (R : Registry) : Registry :=
  let key := (t, ref_Name r, mf_Digest m) in
  put_repos ({[ (t, ref_Name r) ]} ∪ rg_repos R)
    (put_manifests (<[key := publish_entry (rg_manifests R !! key) m blobs now]> (rg_manifests R))
      (put_tags (if String.eqb tag "" then rg_tags R
                 else <[(t, ref_Name r, tag) := mf_Digest m]> (rg_tags R)) R)).

(** A digest names a manifest, anything else a tag. *)
Definition resolve (R : Registry) (t name reference : string) : option Entry :=
  if valid_digest reference then rg_manifests R !! (t, name, reference)
  else rg_tags R !! (t, name, reference) ≫= λ d, rg_manifests R !! (t, name, d).

(** What the store gives back of a manifest: its payload is not parsed again. *)
Definition entry_manifest (e : Entry) : Manifest :=
  mkManifest (en_MediaType e) (DigestFromBytes (en_Payload e)) (Z.of_nat (String.length (en_Payload e)))
    (en_Payload e) None None (en_Blobs e) None "" (en_PushedBy e).

Definition remove_manifest (t name d : string) (R : Registry) : Registry :=
  put_manifests (delete (t, name, d) (rg_manifests R))
    (put_tags (filter (λ kv, ¬ (kv.1.1 = (t, name) ∧ kv.2 = d)) (rg_tags R)) R).

Definition remove_repository (t name : string) (R : Registry) : Registry :=
  put_repos (rg_repos R ∖ {[ (t, name) ]})
    (put_manifests (filter (λ kv, kv.1.1 ≠ (t, name)) (rg_manifests R))
      (put_tags (filter (λ kv, kv.1.1 ≠ (t, name)) (rg_tags R)) R)).

Definition remove_tag (t name tag : string) (R : Registry) : Registry :=
  put_tags (delete (t, name, tag) (rg_tags R)) R.

Definition save_upload (t : string) (st : UploadState) (R : Registry) : Registry :=
  put_uploads (<[up_ID st := (match rg_uploads R !! up_ID st with Some (t', _) => t' | None => t end, st)]>
    (rg_uploads R)) R.

Definition remove_blob (d : Digest) (R : Registry) : Registry := put_blobs (delete d (rg_blobs R)) R.
Definition add_blob (d : Digest) (f : BlobFile) (R : Registry) : Registry := put_blobs (<[d := f]> (rg_blobs R)) R.
Definition set_session (id : string) (s : option Session) (R : Registry) : Registry :=
  put_incoming (partial_alter (λ _, s) id (rg_incoming R)) R.

(** [expires_at <= now] compares texts. *)
Definition report_prunable (now : Time) (d : GCReportDetail) : bool :=
  String.eqb (gc_Status (gcd_Report d)) GCReportStatusReported && time_text_le (gc_ExpiresAt (gcd_Report d)) now.

Definition set_outcome (o : GCCandidateOutcome) (c : GCReportCandidate) : GCReportCandidate :=
  if String.eqb (cand_Digest c) (out_Digest o)
  then mkGCCandidate (cand_Digest c) (cand_Size c) (cand_ModTime c) (out_Outcome o) (out_Error o)
  else c.
Definition freeze_report (o : GCDeleteOutcome) (r : GCReport) : GCReport :=
  mkGCReport (gc_ID r) GCReportStatusDeleted (gc_ComputedAt r) (gc_ExpiresAt r) (gc_GraceCutoff r)
    (gc_CandidateCount r) (gc_CandidateBytes r) (gc_DurationMillis r) (gc_RequestedBy r)
    (gc_TriggeredInTenant r) (Some (del_DeletedAt o)) (del_DeletedBy o) (del_DeletedCount o)
    (del_BytesReclaimed o) (del_Error o).
Definition freeze_detail (o : GCDeleteOutcome) (d : GCReportDetail) : GCReportDetail :=
  mkGCReportDetail (freeze_report o (gcd_Report d))
    (map (λ c, foldl (λ c o, set_outcome o c) c (del_Candidates o)) (gcd_Candidates d)).

(** * Specifications *)

(** The id of an upload session: sixteen random bytes in hexadecimal. *)
Class GoodID (id : string) : Prop :=
  good_id : String.length id = 32%nat ∧ str_forallb is_lower_hex id = true.

Section Specs.

Definition unchanged {A} (R : Registry) (r : res A) (R' : Registry) : Prop :=
  R' = R ∧ ∃ e, r = Err (OtherError e).

(** The validation that precedes every statement on a repository. *)
Definition guarded {A} (v : res unit) (spec : Registry → res A → Registry → Prop)
    (R : Registry) (r : res A) (R' : Registry) : Prop :=
  match v with Err e => r = Err e ∧ R' = R | Ok _ => spec R r R' end.

Definition reads {A} (f : Registry → res A → Prop) (R : Registry) (r : res A) (R' : Registry) : Prop :=
  R' = R ∧ f R r.

(** ** Metadata store *)

Definition spec_save_upload (t : string) (st : UploadState) :=
  guarded (UploadState_Validate st) (λ R r R', r = Ok tt ∧ R' = save_upload t st R).

Definition spec_get_upload (t id : string) := reads (λ R (r : res UploadState),
  r = match rg_uploads R !! id with
      | Some (t', st) => if String.eqb t' t then Ok st else Err (NewNotFoundError "upload" id)
      | None => Err (NewNotFoundError "upload" id)
      end).

Definition spec_delete_upload (t id : string) (R : Registry) (r : res unit) (R' : Registry) : Prop :=
  (∃ st, rg_uploads R !! id = Some (t, st) ∧ r = Ok tt ∧ R' = put_uploads (delete id (rg_uploads R)) R)
  ∨ ((∀ st, rg_uploads R !! id ≠ Some (t, st)) ∧ r = Err (NewNotFoundError "upload" id) ∧ R' = R).

Definition spec_list_uploads (t : string) (repo : option RepositoryRef) := reads (λ R (r : res (list UploadState)),
  ∃ l, r = Ok l ∧ ∀ st, st ∈ l ↔ rg_uploads R !! up_ID st = Some (t, st)
    ∧ match repo with Some x => up_Repository st = x | None => True end).

Definition spec_publish (t : string) (repo : RepositoryRef) (tag : string) (m : Manifest) (blobs : list Descriptor) :=
  guarded (do? RepositoryRef_Validate repo in do? Manifest_Validate m in validate_layers blobs)
    (λ R r R', r = Ok tt ∧ ∃ now, R' = publish t repo tag m blobs now R).

Definition spec_resolve (t : string) (repo : RepositoryRef) (reference : string) :=
  guarded (RepositoryRef_Validate repo) (reads (λ R r,
    r = match resolve R t (ref_Name repo) reference with
        | Some e => Ok (entry_manifest e)
        | None => Err (NewNotFoundError "manifest" reference)
        end)).

Definition spec_list_blobs (t : string) (repo : RepositoryRef) (d : Digest) :=
  guarded (do? RepositoryRef_Validate repo in Digest_Validate d) (reads (λ R r,
    r = Ok (match rg_manifests R !! (t, ref_Name repo, d) with Some e => en_Blobs e | None => [] end))).

Definition spec_delete_manifest (t : string) (repo : RepositoryRef) (d : Digest) :=
  guarded (do? RepositoryRef_Validate repo in Digest_Validate d) (λ R r R',
    (is_Some (rg_manifests R !! (t, ref_Name repo, d)) ∧ R' = remove_manifest t (ref_Name repo) d R
     ∧ ∃ tags, r = Ok tags ∧ StronglySorted str_le tags ∧ NoDup tags
         ∧ ∀ g, g ∈ tags ↔ rg_tags R !! (t, ref_Name repo, g) = Some d)
    ∨ (rg_manifests R !! (t, ref_Name repo, d) = None ∧ r = Err (NewNotFoundError "manifest" d) ∧ R' = R)).

Definition spec_delete_repository (t : string) (repo : RepositoryRef) :=
  guarded (RepositoryRef_Validate repo) (λ R (r : res (list string * Z)) R',
    ((t, ref_Name repo) ∈ rg_repos R ∧ R' = remove_repository t (ref_Name repo) R
     ∧ ∃ tags, r = Ok (tags, Z.of_nat (size (filter (λ kv, kv.1.1 = (t, ref_Name repo)) (rg_manifests R))))
         ∧ StronglySorted str_le tags ∧ NoDup tags ∧ ∀ g, g ∈ tags ↔ is_Some (rg_tags R !! (t, ref_Name repo, g)))
    ∨ ((t, ref_Name repo) ∉ rg_repos R ∧ r = Err (NewNotFoundError "repository" (ref_Name repo)) ∧ R' = R)).

Definition spec_delete_tag (t : string) (repo : RepositoryRef) (tag : string) :=
  guarded (RepositoryRef_Validate repo) (λ R (r : res unit) R',
    (is_Some (rg_tags R !! (t, ref_Name repo, tag)) ∧ r = Ok tt ∧ R' = remove_tag t (ref_Name repo) tag R)
    ∨ (rg_tags R !! (t, ref_Name repo, tag) = None ∧ r = Err (NewNotFoundError "tag" tag) ∧ R' = R)).

Definition spec_referenced_digests := reads (λ R (r : res (list string)),
  ∃ l, r = Ok l ∧ ∀ d, d ∈ l ↔ referenced R d).
Definition spec_is_referenced (d : string) := reads (λ R (r : res bool),
  ∃ b, r = Ok b ∧ (b = true ↔ referenced R d)).

(** One page of a listing: the names of [l] after [after] in order, at most
    [limit] of them if it is positive. *)
Definition paged {A} (key : A → string) (limit : Z) (after : string) (member : A → Prop) (l : list A) : Prop :=
  ∃ full, StronglySorted (key_le key) full ∧ NoDup full
    ∧ (∀ x, x ∈ full ↔ member x ∧ (after = "" ∨ ¬ str_le (key x) after))
    ∧ l = if 0 <? limit then take (Z.to_nat limit) full else full.

Definition spec_catalog (t : string) (limit : Z) (after : string) := reads (λ R (r : res (list RepositoryRef)),
  ∃ l, r = Ok l ∧ paged ref_Name limit after (λ x, (t, ref_Name x) ∈ rg_repos R) l).
Definition spec_tags (t : string) (repo : RepositoryRef) (limit : Z) (after : string) :=
  guarded (RepositoryRef_Validate repo) (reads (λ R (r : res (list string)),
    ∃ l, r = Ok l ∧ paged id limit after (λ g, is_Some (rg_tags R !! (t, ref_Name repo, g))) l)).

(** What a tag's row shows: when its manifest was first pushed, and by whom. *)
Definition tag_summary (R : Registry) (t n : string) (s : TagSummary) : Prop :=
  ∃ d e, rg_tags R !! (t, n, ts_Name s) = Some d ∧ rg_manifests R !! (t, n, d) = Some e
    ∧ s = mkTagSummary (ts_Name s) (en_CreatedAt e) (en_PushedBy e).
Definition spec_tag_summaries (t : string) (repo : RepositoryRef) (limit : Z) (after : string) :=
  guarded (RepositoryRef_Validate repo) (reads (λ R (r : res (list TagSummary)),
    ∃ l, r = Ok l ∧ paged ts_Name limit after (tag_summary R t (ref_Name repo)) l)).

(** The last of some instants in the order of their texts, or the zero time. *)
Definition text_latest (member : Time → Prop) (x : Time) : Prop :=
  (member x ∧ ∀ y, member y → time_text_le y x = true) ∨ (x = zero_time ∧ ∀ y, ¬ member y).
Definition repository_summary (R : Registry) (t : string) (s : RepositorySummary) : Prop :=
  (t, rs_Name s) ∈ rg_repos R
  ∧ rs_TagCount s = Z.of_nat (size (filter (λ kv, kv.1.1 = (t, rs_Name s)) (rg_tags R)))
  ∧ text_latest (λ x, ∃ g d e, rg_tags R !! (t, rs_Name s, g) = Some d
      ∧ rg_manifests R !! (t, rs_Name s, d) = Some e ∧ en_CreatedAt e = x) (rs_LastPushed s).
Definition spec_repository_summaries (t : string) (limit : Z) (after : string) :=
  reads (λ R (r : res (list RepositorySummary)),
    ∃ l, r = Ok l ∧ NoDup (map rs_Name l) ∧ Forall (repository_summary R t) l
      ∧ paged id limit after (λ n, (t, n) ∈ rg_repos R) (map rs_Name l)).

Definition spec_referrers (t : string) (repo : RepositoryRef) (subject : Digest) :=
  guarded (do? RepositoryRef_Validate repo in Digest_Validate subject) (reads (λ R (r : res (list ReferrerRow)),
    ∃ l, r = Ok l ∧ StronglySorted (key_le rf_Digest) l ∧ NoDup l
      ∧ ∀ x, x ∈ l ↔ ∃ e, rg_manifests R !! (t, ref_Name repo, rf_Digest x) = Some e
          ∧ en_Subject e = subject
          ∧ x = mkReferrerRow (rf_Digest x) (en_MediaType e) (Z.of_nat (String.length (en_Payload e)))
                  (en_Payload e))).

Definition spec_create_report (rep : GCReport) (cs : list GCReportCandidate) (R : Registry) (r : res unit)
    (R' : Registry) : Prop :=
  (rg_reports R !! gc_ID rep = None ∧ r = Ok tt
   ∧ R' = put_reports (<[gc_ID rep := mkGCReportDetail rep cs]> (rg_reports R)) R)
  ∨ (is_Some (rg_reports R !! gc_ID rep) ∧ unchanged R r R').
Definition spec_get_report (id : string) := reads (λ R (r : res GCReportDetail),
  r = match rg_reports R !! id with Some d => Ok d | None => Err (NewNotFoundError "gc_report" id) end).
Definition spec_prune (now : Time) (R : Registry) (r : res Z) (R' : Registry) : Prop :=
  R' = put_reports (filter (λ kv, report_prunable now kv.2 = false) (rg_reports R)) R ∧ ∃ n, r = Ok n.
Definition spec_mark (id : string) (o : GCDeleteOutcome) (R : Registry) (r : res unit) (R' : Registry) : Prop :=
  (∃ d, rg_reports R !! id = Some d ∧ gc_Status (gcd_Report d) = GCReportStatusReported ∧ r = Ok tt
        ∧ R' = put_reports (<[id := freeze_detail o d]> (rg_reports R)) R)
  ∨ ((∀ d, rg_reports R !! id = Some d → gc_Status (gcd_Report d) ≠ GCReportStatusReported)
     ∧ r = Err (not_reported id) ∧ R' = R).

(** ** Blob store *)

Definition begun (id : string) (repo : RepositoryRef) (now : Time) (st : UploadState) : Prop :=
  up_ID st = id ∧ up_Repository st = repo ∧ up_Status st = UploadStatusActive ∧ up_Size st = 0
  ∧ up_StartedAt st = now ∧ up_UpdatedAt st = now ∧ UploadState_Validate st = Ok tt.

(** The random id of a new session may be the id of an old one. *)
Definition session_begun (repo : RepositoryRef) (R : Registry) (r : res UploadState) (R' : Registry) : Prop :=
    (∃ id now st, GoodID id ∧ rg_incoming R !! id = None ∧ begun id repo now st
      ∧ r = Ok st ∧ R' = set_session id (Some (mkSession "" (Some st))) R)
    ∨ (∃ id, GoodID id ∧ is_Some (rg_incoming R !! id)) ∧ unchanged R r R'.
Definition spec_begin (repo : RepositoryRef) :=
  guarded (RepositoryRef_Validate repo) (session_begun repo).
Definition slack_begin (R : Registry) (r : res UploadState) (R' : Registry) : Prop :=
  (∃ e, r = Err (OtherError e))
  ∧ (R' = R ∨ ∃ id s, GoodID id ∧ rg_incoming R !! id = None ∧ ss_Data s = ""
       ∧ (∀ st, ss_State s = Some st → up_ID st = id) ∧ R' = set_session id (Some s) R).

(** The state a session has after more data: only its size and time change. *)
Definition continued (st st' : UploadState) (data : string) : Prop :=
  up_ID st' = up_ID st ∧ up_Repository st' = up_Repository st ∧ up_Status st' = up_Status st
  ∧ up_StartedAt st' = up_StartedAt st ∧ up_Size st' = Z.of_nat (String.length data)
  ∧ UploadState_Validate st' = Ok tt.

Definition session_state (R : Registry) (id : string) : option (string * UploadState) :=
  rg_incoming R !! id ≫= λ s, ss_State s ≫= λ st, Some (ss_Data s, st).

Definition spec_get (id : string) := reads (λ R (r : res UploadState),
  match session_state R id with
  | Some (data, st) => ∃ st', r = Ok st' ∧ continued st st' data
  | None => ∃ e, r = Err e
  end).

(** The reader's own failure comes after the bytes it delivered. *)
Definition spec_put (id : string) (chunk : Reader) (R : Registry) (r : res UploadState) (R' : Registry) : Prop :=
  match rg_incoming R !! id with
  | None => r = Err (NewNotFoundError "upload" id) ∧ R' = R
  | Some s =>
      let data := String.append (ss_Data s) (rd_Data chunk) in
      match rd_Err chunk, ss_State s with
      | None, Some st => ∃ st', r = Ok st' ∧ continued st st' data
                               ∧ R' = set_session id (Some (mkSession data (Some st'))) R
      | _, o => (∃ e, r = Err e) ∧ R' = set_session id (Some (mkSession data o)) R
      end
  end.
(** A failing write may leave some of the data, and an unreadable state. *)
Definition slack_put (id : string) (R : Registry) (r : res UploadState) (R' : Registry) : Prop :=
  (∃ e, r = Err e)
  ∧ (R' = R ∨ ∃ s s', rg_incoming R !! id = Some s ∧ R' = set_session id (Some s') R
       ∧ ∀ st', ss_State s' = Some st' → ∃ st, ss_State s = Some st ∧ up_Repository st' = up_Repository st
             ∧ up_ID st' = up_ID st).

Definition spec_commit (id : string) (d : Digest) :=
  guarded (Digest_Validate d) (λ R (r : res Descriptor) R',
    match rg_incoming R !! id with
    | None => r = Err (NewNotFoundError "upload" id) ∧ R' = R
    | Some s =>
        let actual := DigestFromBytes (ss_Data s) in
        if String.eqb actual d
        then r = Ok (mkDescriptor "" d (Z.of_nat (String.length (ss_Data s))))
             ∧ ∃ mtime, R' = add_blob d (mkBlobFile (ss_Data s) mtime) (set_session id None R)
        else r = Err (NewDigestMismatchError d actual) ∧ R' = R
    end).
(** What a removal of a session that failed may leave: without its data it is none. *)
Definition left_over (id : string) (R R' : Registry) : Prop :=
  R' = R ∨ R' = set_session id None R
  ∨ ∃ s, rg_incoming R !! id = Some s ∧ R' = set_session id (Some (mkSession (ss_Data s) None)) R.
(** A failed rename is ignored when the blob is already there. *)
Definition slack_commit (id : string) (d : Digest) (R : Registry) (r : res Descriptor) (R' : Registry) : Prop :=
  unchanged R r R'
  ∨ ∃ s, rg_incoming R !! id = Some s ∧ DigestFromBytes (ss_Data s) = d
     ∧ ((∃ e mtime, r = Err (OtherError e) ∧ R' = add_blob d (mkBlobFile (ss_Data s) mtime) (set_session id None R))
        ∨ is_Some (rg_blobs R !! d)
          ∧ (r = Ok (mkDescriptor "" d (Z.of_nat (String.length (ss_Data s)))) ∧ R' = set_session id None R
             ∨ (∃ e, r = Err (OtherError e)) ∧ left_over id R R')).

Definition spec_cancel (id : string) (R : Registry) (r : res unit) (R' : Registry) : Prop :=
  r = Ok tt ∧ R' = set_session id None R.
Definition slack_cancel (id : string) (R : Registry) (r : res unit) (R' : Registry) : Prop :=
  (∃ e, r = Err (OtherError e)) ∧ left_over id R R'.

Definition spec_blob_exists (d : Digest) :=
  guarded (Digest_Validate d) (reads (λ R r, r = Ok (bool_decide (is_Some (rg_blobs R !! d))))).
Definition spec_open (d : Digest) :=
  guarded (Digest_Validate d) (reads (λ R (r : res (string * Descriptor)),
    r = match rg_blobs R !! d with
        | Some f => Ok (bf_Content f, mkDescriptor "" d (Z.of_nat (String.length (bf_Content f))))
        | None => Err (NewNotFoundError "blob" d)
        end)).

Definition blob_info (d : Digest) (f : BlobFile) : BlobFileInfo :=
  mkBlobFileInfo d (Z.of_nat (String.length (bf_Content f))) (bf_ModTime f).
Definition spec_list_blob_files := reads (λ R (r : res (list BlobFileInfo)),
  ∃ l, r = Ok l ∧ NoDup l ∧ ∀ i, i ∈ l ↔ ∃ f, rg_blobs R !! bfi_Digest i = Some f ∧ i = blob_info (bfi_Digest i) f).
Definition spec_delete_blob (d : Digest) :=
  guarded (Digest_Validate d) (λ R (r : res bool) R',
    (is_Some (rg_blobs R !! d) ∧ r = Ok true ∧ R' = remove_blob d R)
    ∨ (rg_blobs R !! d = None ∧ r = Ok false ∧ R' = R)).
End Specs.

(** * The contract *)

Section Meets.
Context {W : Type} (view : W → Registry) (wf : W → Prop) (later : relation W) (calm : W → Prop).

(** [m] keeps [wf] and either meets [spec], or meets [slack], which some failing
    external call explains. *)
Definition reg_meets {A} (m : M W A) (spec slack : Registry → res A → Registry → Prop) : Prop :=
  ∀ w, wf w → wf (m w).2 ∧ later w (m w).2
    ∧ (spec (view w) (m w).1 (view (m w).2) ∨ slack (view w) (m w).1 (view (m w).2) ∧ ¬ calm w).
End Meets.

Class RegistryLaws (W : Type) `{BlobStore W, MetadataStore W, RegRuntime W} := {
  reg_view : W → Registry;
  reg_wf : W → Prop;
  reg_later : relation W;
  reg_calm : W → Prop;
  reg_later_preorder :: PreOrder reg_later;
  reg_calm_later w w' : reg_later w w' → reg_calm w → reg_calm w';
  reg_ok {A} (m : M W A) spec slack := reg_meets reg_view reg_wf reg_later reg_calm m spec slack;
  SaveUpload_ok t st : reg_ok (SaveUpload t st) (spec_save_upload t st) unchanged;
  GetUpload_ok t id : reg_ok (meta_GetUpload t id) (spec_get_upload t id) unchanged;
  DeleteUpload_ok t id : reg_ok (DeleteUpload t id) (spec_delete_upload t id) unchanged;
  ListUploads_ok t r : reg_ok (ListUploads t r) (spec_list_uploads t r) unchanged;
  PublishManifest_ok t r g m bs : reg_ok (meta_PublishManifest t r g m bs) (spec_publish t r g m bs) unchanged;
  ResolveManifest_ok t r x : reg_ok (meta_ResolveManifest t r x) (spec_resolve t r x) unchanged;
  ListManifestBlobs_ok t r d : reg_ok (ListManifestBlobs t r d) (spec_list_blobs t r d) unchanged;
  DeleteManifestByDigest_ok t r d : reg_ok (DeleteManifestByDigest t r d) (spec_delete_manifest t r d) unchanged;
  DeleteRepository_ok t r : reg_ok (meta_DeleteRepository t r) (spec_delete_repository t r) unchanged;
  DeleteTag_ok t r g : reg_ok (DeleteTag t r g) (spec_delete_tag t r g) unchanged;
  ListReferencedBlobDigests_ok : reg_ok ListReferencedBlobDigests spec_referenced_digests unchanged;
  IsBlobDigestReferenced_ok d : reg_ok (IsBlobDigestReferenced d) (spec_is_referenced d) unchanged;
  Catalog_ok t l a : reg_ok (meta_Catalog t l a) (spec_catalog t l a) unchanged;
  ListTags_ok t r l a : reg_ok (ListTags t r l a) (spec_tags t r l a) unchanged;
  ListTagsWithCreatedAt_ok t r l a : reg_ok (ListTagsWithCreatedAt t r l a) (spec_tag_summaries t r l a) unchanged;
  ListRepositoriesWithSummary_ok t l a : reg_ok (ListRepositoriesWithSummary t l a) (spec_repository_summaries t l a) unchanged;
  ListReferrers_ok t r d : reg_ok (ListReferrers t r d) (spec_referrers t r d) unchanged;
  CreateGCReport_ok r cs : reg_ok (CreateGCReport r cs) (spec_create_report r cs) unchanged;
  GetGCReport_ok id : reg_ok (meta_GetGCReport id) (spec_get_report id) unchanged;
  PruneExpiredGCReports_ok n : reg_ok (PruneExpiredGCReports n) (spec_prune n) unchanged;
  MarkGCReportDeleted_ok id o : reg_ok (MarkGCReportDeleted id o) (spec_mark id o) unchanged;
  BeginUpload_ok r : reg_ok (blob_BeginUpload r) (spec_begin r) slack_begin;
  blob_GetUpload_ok id : GoodID id → reg_ok (blob_GetUpload id) (spec_get id) unchanged;
  PutUploadChunk_ok id c : GoodID id → reg_ok (PutUploadChunk id c) (spec_put id c) (slack_put id);
  CommitUpload_ok id d : GoodID id → reg_ok (CommitUpload id d) (spec_commit id d) (slack_commit id d);
  CancelUpload_ok id : GoodID id → reg_ok (CancelUpload id) (spec_cancel id) (slack_cancel id);
  BlobExists_ok d : reg_ok (BlobExists d) (spec_blob_exists d) unchanged;
  OpenBlob_ok d : reg_ok (blob_OpenBlob d) (spec_open d) unchanged;
  ListBlobs_ok : reg_ok ListBlobs spec_list_blob_files unchanged;
  DeleteBlob_ok d : reg_ok (DeleteBlob d) (spec_delete_blob d) unchanged;
  reg_now_ok : reg_ok reg_now (reads (λ R r, ∃ t, r = Ok t)) unchanged;
  reg_now_runs w : ∃ t, (reg_now w).1 = Ok t;
  reg_uuid_ok : reg_ok reg_uuid (reads (λ R r, ∃ id, r = Ok id ∧ rg_reports R !! id = None)) unchanged;
  reg_spawn_scan_ok s : reg_ok (reg_spawn_scan s)
    (λ R r R', r = Ok tt ∧ R' = put_scans (rg_scans R ++ [s]) R) unchanged;
}.
