(* ===== verification/FsBlob.v ===== *)
(** The blob store (internal/infra/storage/fsblob/store.go): committed blobs under
    [blobs/<algorithm>/<hex>], one directory per upload session under
    [uploads/<id>] with the bytes received so far and the session's state. *)
From S2P Require Import Prelude GoStrings Errors Repository Digest GoNumbers Manifest RegPorts RegWorld.

(** * Definitions *)

Section Store.
Context `{RegEnv}.

Definition blobsRoot : path := join_path renv_root "blobs".
Definition uploadsRoot : path := join_path renv_root "uploads".
Definition uploadDir (uploadID : string) : path := join_path uploadsRoot uploadID.
Definition uploadFile (uploadID : string) : path := join_path (uploadDir uploadID) "data".
Definition uploadStateFile (uploadID : string) : path := join_path (uploadDir uploadID) "state.json".
Definition blobPath (digest : Digest) : path :=
  join_path (join_path blobsRoot (Algorithm digest)) (Encoded digest).

(** The text of a path, as it is stored in [Location]. *)
Definition path_string (p : path) : string := String "/" (join "/" p).

Definition fs_New : M RegWorld unit :=
  do! smap (λ p, let! r := os_write_call (λ _ fs, fs_mkdir_all fs p) in os_must r)
        [blobsRoot; uploadsRoot] in
  sret tt.

Definition newUploadID : M RegWorld string := λ w,
  match renv_fault (rw_calls w) with
  | Some e => (Err (OtherError e), tick w)
  | None => (Ok (hex_encode (renv_rand (rw_calls w) (rw_db w) (rw_fs w) 16)), tick w)
  end.

Definition writeUploadState (state : UploadState) : M RegWorld unit :=
  let! payload := slift (marshal_upload state) in
  let! r := os_write_file (uploadStateFile (up_ID state)) payload in
  os_must r.

Definition readUploadState (uploadID : string) : M RegWorld UploadState :=
  let! r := os_read_call (λ fs, fs_read fs (uploadStateFile uploadID)) in
  match r with
  | Err e => if IsNotExist e then sthrow (NewNotFoundError "upload" uploadID) else sthrow (os_err e)
  | Ok payload => slift (unmarshal_upload payload)
  end.

Definition fs_BeginUpload (repository : RepositoryRef) : M RegWorld UploadState :=
  do! slift (RepositoryRef_Validate repository) in
  let! uploadID := newUploadID in
  let! r := os_write_call (λ _ fs, fs_mkdir_all fs (uploadDir uploadID)) in
  do! os_must r in
  let! r := os_write_call (λ now fs, fs_create_excl fs (uploadFile uploadID) now) in
  do! os_must r in
  let! now := clock in
  let state := mkUpload uploadID repository UploadStatusActive 0 now now
                 (path_string (uploadFile uploadID)) in
  do! writeUploadState state in
  sret state.

Definition fs_GetUpload (uploadID : string) : M RegWorld UploadState :=
  let! state := readUploadState uploadID in
  let! info := os_read_call (λ fs, fs_stat fs (uploadFile uploadID)) in
  match info with
  | Err e => if IsNotExist e then sthrow (NewNotFoundError "upload" uploadID) else sthrow (os_err e)
  | Ok n =>
      (* the size and time of a directory are the file system's own; a session's
         data is never one *)
      let '(size, modTime) := match n with
                              | File c t => (Z.of_nat (String.length c), t)
                              | Dir => (0, 0)
                              end in
      sret (mkUpload (up_ID state) (up_Repository state) (up_Status state) size (up_StartedAt state)
              modTime (path_string (uploadFile uploadID)))
  end.

(** Opening the file for appending: it must exist and be a file. *)
Definition os_open (p : path) : M RegWorld (os_result unit) :=
  os_read_call (λ fs, match fs_read fs p with Ok _ => Ok tt | Err e => Err e end).

Definition fs_PutUploadChunk (uploadID : string) (content : Reader) : M RegWorld UploadState :=
  let! file := os_open (uploadFile uploadID) in
  match file with
  | Err e => if IsNotExist e then sthrow (NewNotFoundError "upload" uploadID) else sthrow (os_err e)
  | Ok _ =>
      let! copied := os_append (uploadFile uploadID) (rd_Data content) in
      do! os_must copied in
      do! slift (match rd_Err content with Some e => Err (OtherError e) | None => Ok tt end) in
      let! state := fs_GetUpload uploadID in
      do! writeUploadState state in
      sret state
  end.

Definition fs_CommitUpload (uploadID : string) (expected : Digest) : M RegWorld Descriptor :=
  do! slift (Digest_Validate expected) in
  let uploadPath := uploadFile uploadID in
  let! file := os_read_call (λ fs, fs_read fs uploadPath) in
  match file with
  | Err e => if IsNotExist e then sthrow (NewNotFoundError "upload" uploadID) else sthrow (os_err e)
  | Ok content =>
      let! hashed := slift (DigestFromReader (Ok content)) in
      let '(actual, size) := hashed in
      if negb (String.eqb actual expected) then sthrow (NewDigestMismatchError expected actual) else
      let finalPath := blobPath actual in
      let! made := os_write_call (λ _ fs, fs_mkdir_all fs (parent finalPath)) in
      do! os_must made in
      let! renamed := os_write_call (λ _ fs, fs_rename fs uploadPath finalPath) in
      do! match renamed with
          | Ok _ => sret tt
          | Err e =>
              if IsExist e then sret tt else
              let! stat := os_read_call (λ fs, fs_stat fs finalPath) in
              match stat with Ok _ => sret tt | Err _ => sthrow (os_err e) end
          end in
      let! removed := os_remove_all (uploadDir uploadID) in
      do! os_must removed in
      sret (mkDescriptor "" actual size)
  end.

Definition fs_CancelUpload (uploadID : string) : M RegWorld unit :=
  let! removed := os_remove_all (uploadDir uploadID) in
  os_must removed.

Definition fs_BlobExists (digest : Digest) : M RegWorld bool :=
  do! slift (Digest_Validate digest) in
  let! stat := os_read_call (λ fs, fs_stat fs (blobPath digest)) in
  match stat with
  | Ok _ => sret true
  | Err e => if IsNotExist e then sret false else sthrow (os_err e)
  end.

Definition fs_OpenBlob (digest : Digest) : M RegWorld (string * Descriptor) :=
  do! slift (Digest_Validate digest) in
  let! file := os_read_call (λ fs, fs_read fs (blobPath digest)) in
  match file with
  | Err e => if IsNotExist e then sthrow (NewNotFoundError "blob" digest) else sthrow (os_err e)
  | Ok content => sret (content, mkDescriptor "" digest (Z.of_nat (String.length content)))
  end.

(** The files of one algorithm directory whose names make a digest. *)
Definition list_blob_entries (algorithm : string) (entries : list (string * node)) : list BlobFileInfo :=
  omap (λ e : string * node,
    match e.2 with
    | Dir => None
    | File c t =>
        match ParseDigest (String.append algorithm (String.append ":" e.1)) with
        | Ok digest => Some (mkBlobFileInfo digest (Z.of_nat (String.length c)) t)
        | Err _ => None
        end
    end) entries.

(** One entry of the blobs root; the name of an entry is one segment, which Join
    only appends. *)
Definition list_entry (e : string * node) : M RegWorld (list BlobFileInfo) :=
  match e.2 with
  | File _ _ => sret []
  | Dir =>
      let! digestEntries := os_read_call (λ fs, fs_read_dir fs (blobsRoot ++ [e.1])) in
      let! digestEntries := os_must digestEntries in
      sret (list_blob_entries e.1 digestEntries)
  end.

Definition fs_ListBlobs : M RegWorld (list BlobFileInfo) :=
  let! entries := os_read_call (λ fs, fs_read_dir fs blobsRoot) in
  match entries with
  | Err e => if IsNotExist e then sret [] else sthrow (os_err e)
  | Ok entries =>
      let! blobs := smap list_entry entries in
      sret (concat blobs)
  end.

Definition fs_DeleteBlob (digest : Digest) : M RegWorld bool :=
  do! slift (Digest_Validate digest) in
  let! removed := os_write_call (λ _ fs, fs_remove fs (blobPath digest)) in
  match removed with
  | Ok _ => sret true
  | Err e => if IsNotExist e then sret false else sthrow (os_err e)
  end.
End Store.

#[global] Instance fs_blob_store `{RegEnv} : BlobStore RegWorld := {|
  blob_BeginUpload := fs_BeginUpload;
  blob_GetUpload := fs_GetUpload;
  PutUploadChunk := fs_PutUploadChunk;
  CommitUpload := fs_CommitUpload;
  CancelUpload := fs_CancelUpload;
  BlobExists := fs_BlobExists;
  blob_OpenBlob := fs_OpenBlob;
  ListBlobs := fs_ListBlobs;
  DeleteBlob := fs_DeleteBlob;
|}.
