(* ===== verification/MetaStore.v ===== *)
(** The registry half of the metadata store
    (internal/infra/metadata/sqlite/store.go): uploads, repositories, manifests,
    tags and garbage-collection reports, one function per SQL statement and one
    operation per method. *)
From S2P Require Import Prelude GoStrings Errors Repository Digest GoNumbers Manifest RegPorts RegWorld.
From S2P Require Import Registry.

(** * Definitions *)

(** ** Rows and joins *)

Definition fk_failed : error := OtherError "FOREIGN KEY constraint failed".
Definition unique_failed : error := OtherError "UNIQUE constraint failed".
Definition no_rows : error := OtherError "sql: no rows in result set".

(** [a > b] under the BINARY collation. *)
Definition str_gtb (a b : string) : bool := negb (str_leb a b).

(** [AND name > after] when [after] is given, and [LIMIT] when it is positive. *)
Definition page {A} (key : A → string) (limit : Z) (after : string) (l : list A) : list A :=
  let l := sort_by key (filter (λ x, (String.eqb after "" || str_gtb (key x) after) = true) l) in
  if 0 <? limit then take (Z.to_nat limit) l else l.

Section Rows.
Variable db : MetaDB.

Definition repository_id (tenant name : string) : option Z :=
  rr_ID <$> md_repositories db !! (tenant, name).

Definition repository_exists (id : Z) : bool :=
  existsb (λ kv, rr_ID kv.2 =? id) (map_to_list (md_repositories db)).
Definition manifest_exists (id : Z) : bool :=
  existsb (λ kv, mr_ID kv.2 =? id) (map_to_list (md_manifests db)).

(** [manifests m JOIN repositories r] on tenant, repository name and digest. *)
Definition manifest_row (tenant name digest : string) : option ManifestRow :=
  repository_id tenant name ≫= λ rid, md_manifests db !! (tenant, rid, digest).

(** The manifests of one repository, as (digest, row). *)
Definition repository_manifests (tenant : string) (rid : Z) : list (string * ManifestRow) :=
  map (λ kv, (kv.1.2, kv.2))
    (filter (λ kv, kv.1.1 = (tenant, rid)) (map_to_list (md_manifests db))).

(** The manifest a tag points at: the one whose id the tag's row holds. *)
Definition tagged_manifest (tenant name tag : string) : option (string * ManifestRow) :=
  repository_id tenant name ≫= λ rid,
  md_tags db !! (tenant, rid, tag) ≫= λ t,
  head (filter (λ dm, mr_ID dm.2 = tg_ManifestID t) (repository_manifests tenant rid)).

(** The tags of one repository, as (name, row). *)
Definition repository_tags (tenant : string) (rid : Z) : list (string * TagRow) :=
  map (λ kv, (kv.1.2, kv.2)) (filter (λ kv, kv.1.1 = (tenant, rid)) (map_to_list (md_tags db))).

(** [SELECT ... FROM manifest_blobs WHERE manifest_id = ? ORDER BY position]. *)
Definition manifest_blob_rows (mid : Z) : list Descriptor :=
  positioned mid (md_manifest_blobs db).

Definition candidate_rows (report : string) : list GCReportCandidate :=
  positioned report (md_gc_candidates db).
End Rows.

(** ** Statements *)

Definition save_upload_sql (tenant : string) (st : UploadState) (db : MetaDB) : MetaDB :=
  let row t := mkUploadRow t (ref_String (up_Repository st)) (up_Status st) (up_Size st)
                 (up_StartedAt st) (up_UpdatedAt st) (up_Location st) in
  set_uploads (<[up_ID st := match md_uploads db !! up_ID st with
                             | Some old => row (ul_Tenant old)
                             | None => row tenant
                             end]> (md_uploads db)) db.

Definition scan_upload (uploadID : string) (r : UploadRow) : res UploadState :=
  let? repository := ParseRepositoryRef (ul_Repository r) in
  Ok (mkUpload uploadID repository (ul_Status r) (ul_Size r) (ul_StartedAt r) (ul_UpdatedAt r)
        (ul_Location r)).

Definition delete_upload_sql (tenant uploadID : string) (db : MetaDB) : Z * MetaDB :=
  match md_uploads db !! uploadID with
  | Some r => if String.eqb (ul_Tenant r) tenant
              then (1, set_uploads (delete uploadID (md_uploads db)) db) else (0, db)
  | None => (0, db)
  end.

Definition insert_repository_sql (tenant name : string) (now : Time) (db : MetaDB) : MetaDB :=
  match md_repositories db !! (tenant, name) with
  | Some _ => db
  | None => bump_sequence (set_repositories
              (<[(tenant, name) := mkRepositoryRow (md_sequence db) now]> (md_repositories db)) db)
  end.

(** [pushed_by] and [created_at] are not in the DO UPDATE. *)
Definition upsert_manifest_sql (tenant : string) (rid : Z) (m : Manifest) (subject : string) (now : Time)
    (db : MetaDB) : res MetaDB :=
  if negb (repository_exists db rid) then Err fk_failed else
  let key := (tenant, rid, mf_Digest m) in
  match md_manifests db !! key with
  | Some old =>
      Ok (set_manifests (<[key := mkManifestRow (mr_ID old) (mf_MediaType m) (mf_Size m) (mf_Payload m)
                                    (mr_CreatedAt old) (mr_PushedBy old) subject]> (md_manifests db)) db)
  | None =>
      Ok (bump_sequence (set_manifests
            (<[key := mkManifestRow (md_sequence db) (mf_MediaType m) (mf_Size m) (mf_Payload m) now
                        (mf_PushedBy m) subject]> (md_manifests db)) db))
  end.

Definition delete_manifest_blobs_sql (mid : Z) (db : MetaDB) : MetaDB :=
  set_manifest_blobs (filter (λ kv, kv.1.1 ≠ mid) (md_manifest_blobs db)) db.

Definition insert_manifest_blob_sql (mid : Z) (position : nat) (blob : Descriptor) (db : MetaDB) : res MetaDB :=
  let key := (mid, Z.of_nat position) in
  if negb (manifest_exists db mid) then Err fk_failed else
  match md_manifest_blobs db !! key with
  | Some _ => Err unique_failed
  | None => Ok (set_manifest_blobs (<[key := blob]> (md_manifest_blobs db)) db)
  end.

Definition upsert_tag_sql (tenant : string) (rid : Z) (tag : string) (mid : Z) (created updated : Time)
    (db : MetaDB) : res MetaDB :=
  if negb (repository_exists db rid && manifest_exists db mid) then Err fk_failed else
  let key := (tenant, rid, tag) in
  let row := match md_tags db !! key with
             | Some old => mkTagRow mid (tg_CreatedAt old) updated
             | None => mkTagRow mid created updated
             end in
  Ok (set_tags (<[key := row]> (md_tags db)) db).

(** [DELETE FROM manifests] with the ON DELETE CASCADE of tags and manifest_blobs. *)
Definition delete_manifest_sql (tenant name digest : string) (db : MetaDB) : Z * MetaDB :=
  match repository_id db tenant name with
  | None => (0, db)
  | Some rid =>
      match md_manifests db !! (tenant, rid, digest) with
      | None => (0, db)
      | Some m =>
          (1, delete_manifest_blobs_sql (mr_ID m)
                (set_tags (filter (λ kv, tg_ManifestID kv.2 ≠ mr_ID m) (md_tags db))
                   (set_manifests (delete (tenant, rid, digest) (md_manifests db)) db)))
      end
  end.

(** [DELETE FROM repositories] with its cascades. *)
Definition delete_repository_sql (tenant name : string) (db : MetaDB) : Z * MetaDB :=
  match repository_id db tenant name with
  | None => (0, db)
  | Some rid =>
      let gone (mid : Z) := existsb (λ kv, (kv.1.1.2 =? rid) && (mr_ID kv.2 =? mid))
                              (map_to_list (md_manifests db)) in
      (1, set_manifest_blobs (filter (λ kv, gone kv.1.1 = false) (md_manifest_blobs db))
            (set_tags (filter (λ kv, kv.1.1.2 ≠ rid ∧ gone (tg_ManifestID kv.2) = false) (md_tags db))
               (set_manifests (filter (λ kv, kv.1.1.2 ≠ rid) (md_manifests db))
                  (set_repositories (delete (tenant, name) (md_repositories db)) db))))
  end.

Definition delete_tag_sql (tenant name tag : string) (db : MetaDB) : Z * MetaDB :=
  match repository_id db tenant name with
  | None => (0, db)
  | Some rid =>
      match md_tags db !! (tenant, rid, tag) with
      | None => (0, db)
      | Some _ => (1, set_tags (delete (tenant, rid, tag) (md_tags db)) db)
      end
  end.

Definition insert_report_sql (r : GCReport) (db : MetaDB) : res MetaDB :=
  match md_gc_reports db !! gc_ID r with
  | Some _ => Err unique_failed
  | None => Ok (set_gc_reports (<[gc_ID r := r]> (md_gc_reports db)) db)
  end.

Definition insert_candidate_sql (report : string) (position : nat) (c : GCReportCandidate)
    (db : MetaDB) : res MetaDB :=
  let key := (report, Z.of_nat position) in
  match md_gc_reports db !! report, md_gc_candidates db !! key with
  | None, _ => Err fk_failed
  | _, Some _ => Err unique_failed
  | Some _, None => Ok (set_gc_candidates (<[key := c]> (md_gc_candidates db)) db)
  end.

(** [status = 'reported' AND expires_at <= now], a comparison of texts. *)
Definition prunable (now : Time) (r : GCReport) : bool :=
  String.eqb (gc_Status r) GCReportStatusReported && time_text_le (gc_ExpiresAt r) now.

Definition prune_reports_sql (now : Time) (db : MetaDB) : Z * MetaDB :=
  let pruned id := match md_gc_reports db !! id with Some r => prunable now r | None => false end in
  (Z.of_nat (length (filter (λ kv, prunable now kv.2 = true) (map_to_list (md_gc_reports db)))),
   set_gc_candidates (filter (λ kv, pruned kv.1.1 = false) (md_gc_candidates db))
     (set_gc_reports (filter (λ kv, prunable now kv.2 = false) (md_gc_reports db)) db)).

Definition mark_report_sql (reportID : string) (o : GCDeleteOutcome) (db : MetaDB) : Z * MetaDB :=
  match md_gc_reports db !! reportID with
  | Some r =>
      if String.eqb (gc_Status r) GCReportStatusReported
      then (1, set_gc_reports (<[reportID := freeze_report o r]> (md_gc_reports db)) db)
      else (0, db)
  | None => (0, db)
  end.

Definition mark_candidate_sql (reportID : string) (o : GCCandidateOutcome) (db : MetaDB) : MetaDB :=
  set_gc_candidates (map_imap (λ k c, Some (if String.eqb k.1 reportID then set_outcome o c else c))
                       (md_gc_candidates db)) db.

(** ** Uploads *)

Section Store.
Context `{RegEnv}.

Definition sql_SaveUpload (tenant : string) (state : UploadState) : M RegWorld unit :=
  do! slift (UploadState_Validate state) in
  sql_exec (λ db, Ok (save_upload_sql tenant state db)).

Definition sql_GetUpload (tenant uploadID : string) : M RegWorld UploadState :=
  sql_query (λ db,
    match md_uploads db !! uploadID with
    | Some r => if String.eqb (ul_Tenant r) tenant then scan_upload uploadID r
                else Err (NewNotFoundError "upload" uploadID)
    | None => Err (NewNotFoundError "upload" uploadID)
    end).

(** ORDER BY started_at orders the stored texts. *)
Definition sql_ListUploads (tenant : string) (repository : option RepositoryRef) : M RegWorld (list UploadState) :=
  sql_query (λ db, rmap (λ kv, scan_upload kv.1 kv.2)
    (sort_by (λ kv, formatTime (ul_StartedAt kv.2))
      (filter (λ kv, (String.eqb (ul_Tenant kv.2) tenant
                      && match repository with
                         | Some r => String.eqb (ul_Repository kv.2) (ref_String r)
                         | None => true
                         end) = true)
        (map_to_list (md_uploads db))))).

Definition sql_DeleteUpload (tenant uploadID : string) : M RegWorld unit :=
  let! rowsAffected := sql_exec_rows (delete_upload_sql tenant uploadID) in
  if rowsAffected =? 0 then sthrow (NewNotFoundError "upload" uploadID) else sret tt.

(** ** Manifests *)

Definition ensureRepository (tenant : string) (repository : RepositoryRef) : M RegWorld Z :=
  let! now := clock in
  do! sql_exec (λ db, Ok (insert_repository_sql tenant (ref_String repository) now db)) in
  sql_query (λ db, match repository_id db tenant (ref_String repository) with
                   | Some id => Ok id
                   | None => Err no_rows
                   end).

Definition publish_tx (tenant : string) (repository : RepositoryRef) (tag : string) (manifest : Manifest)
    (blobs : list Descriptor) : M RegWorld unit :=
  let! repositoryID := ensureRepository tenant repository in
  let subjectDigest := match mf_Subject manifest with Some s => desc_Digest s | None => "" end in
  let! now := clock in
  do! sql_exec (upsert_manifest_sql tenant repositoryID manifest subjectDigest now) in
  let! manifestID := sql_query (λ db,
    match md_manifests db !! (tenant, repositoryID, mf_Digest manifest) with
    | Some m => Ok (mr_ID m)
    | None => Err no_rows
    end) in
  do! sql_exec (λ db, Ok (delete_manifest_blobs_sql manifestID db)) in
  do! smap (λ ib : nat * Descriptor, sql_exec (insert_manifest_blob_sql manifestID ib.1 ib.2))
        (imap pair blobs) in
  if String.eqb tag "" then sret tt else
  let! created := clock in
  let! updated := clock in
  sql_exec (upsert_tag_sql tenant repositoryID tag manifestID created updated).

Definition sql_PublishManifest (tenant : string) (repository : RepositoryRef) (tag : string)
    (manifest : Manifest) (blobs : list Descriptor) : M RegWorld unit :=
  do! slift (RepositoryRef_Validate repository) in
  do! slift (Manifest_Validate manifest) in
  do! slift (validate_layers blobs) in
  in_transaction (publish_tx tenant repository tag manifest blobs).

Definition sql_ListManifestBlobs (tenant : string) (repository : RepositoryRef) (manifestDigest : Digest)
    : M RegWorld (list Descriptor) :=
  do! slift (RepositoryRef_Validate repository) in
  do! slift (Digest_Validate manifestDigest) in
  sql_query (λ db,
    rmap (λ b, let? digest := ParseDigest (desc_Digest b) in
               Ok (mkDescriptor (desc_MediaType b) digest (desc_Size b)))
      (match manifest_row db tenant (ref_String repository) manifestDigest with
       | Some m => manifest_blob_rows db (mr_ID m)
       | None => []
       end)).

Definition resolve_row (db : MetaDB) (tenant name reference : string) : option ManifestRow :=
  if valid_digest reference then manifest_row db tenant name reference
  else snd <$> tagged_manifest db tenant name reference.

(** The row and its blobs are read by two statements. *)
Definition sql_ResolveManifest (tenant : string) (repository : RepositoryRef) (reference : string)
    : M RegWorld Manifest :=
  do! slift (RepositoryRef_Validate repository) in
  let! row := sql_query (λ db,
    match resolve_row db tenant (ref_String repository) reference with
    | Some m => Ok m
    | None => Err (NewNotFoundError "manifest" reference)
    end) in
  let! references := sql_ListManifestBlobs tenant repository (DigestFromBytes (mr_Payload row)) in
  let! manifest := slift (NewManifest (mr_MediaType row) "" (mr_Payload row) None references None None) in
  sret (with_pushed_by manifest (mr_PushedBy row)).

Definition sql_DeleteManifestByDigest (tenant : string) (repository : RepositoryRef) (digest : Digest)
    : M RegWorld (list string) :=
  do! slift (RepositoryRef_Validate repository) in
  do! slift (Digest_Validate digest) in
  in_transaction (
    let! tagNames := sql_query (λ db, Ok (sort_by id
      (match manifest_row db tenant (ref_String repository) digest with
       | Some m => map (λ kv, kv.1.2)
                     (filter (λ kv, tg_ManifestID kv.2 = mr_ID m) (map_to_list (md_tags db)))
       | None => []
       end))) in
    let! rowsAffected := sql_exec_rows (delete_manifest_sql tenant (ref_String repository) digest) in
    if rowsAffected =? 0 then sthrow (NewNotFoundError "manifest" digest) else sret tagNames).

Definition sql_DeleteRepository (tenant : string) (repository : RepositoryRef)
    : M RegWorld (list string * Z) :=
  do! slift (RepositoryRef_Validate repository) in
  in_transaction (
    let! tagNames := sql_query (λ db, Ok (sort_by id
      (match repository_id db tenant (ref_String repository) with
       | Some rid => map fst (repository_tags db tenant rid)
       | None => []
       end))) in
    let! manifestCount := sql_query (λ db, Ok
      (match repository_id db tenant (ref_String repository) with
       | Some rid => Z.of_nat (length (repository_manifests db tenant rid))
       | None => 0
       end)) in
    let! rowsAffected := sql_exec_rows (delete_repository_sql tenant (ref_String repository)) in
    if rowsAffected =? 0 then sthrow (NewNotFoundError "repository" (ref_String repository))
    else sret (tagNames, manifestCount)).

Definition sql_DeleteTag (tenant : string) (repository : RepositoryRef) (tag : string) : M RegWorld unit :=
  do! slift (RepositoryRef_Validate repository) in
  let! rowsAffected := sql_exec_rows (delete_tag_sql tenant (ref_String repository) tag) in
  if rowsAffected =? 0 then sthrow (NewNotFoundError "tag" tag) else sret tt.

Definition referenced_digests (db : MetaDB) : list string :=
  remove_dups (map (λ kv, desc_Digest kv.2) (map_to_list (md_manifest_blobs db))).

Definition sql_ListReferencedBlobDigests : M RegWorld (list string) :=
  sql_query (λ db, Ok (referenced_digests db)).
Definition sql_IsBlobDigestReferenced (digest : string) : M RegWorld bool :=
  sql_query (λ db, Ok (existsb (λ kv, String.eqb (desc_Digest kv.2) digest)
                         (map_to_list (md_manifest_blobs db)))).

(** ** Listings *)

Definition sql_Catalog (tenant : string) (limit : Z) (after : string) : M RegWorld (list RepositoryRef) :=
  sql_query (λ db, rmap ParseRepositoryRef (page id limit after
    (map (λ kv, kv.1.2) (filter (λ kv, kv.1.1 = tenant) (map_to_list (md_repositories db)))))).

Definition tags_of (db : MetaDB) (tenant name : string) : list (string * TagRow) :=
  match repository_id db tenant name with Some rid => repository_tags db tenant rid | None => [] end.

Definition sql_ListTags (tenant : string) (repository : RepositoryRef) (limit : Z) (after : string)
    : M RegWorld (list string) :=
  do! slift (RepositoryRef_Validate repository) in
  sql_query (λ db, Ok (page id limit after (map fst (tags_of db tenant (ref_String repository))))).

Definition sql_ListReferrers (tenant : string) (repository : RepositoryRef) (subjectDigest : Digest)
    : M RegWorld (list ReferrerRow) :=
  do! slift (RepositoryRef_Validate repository) in
  do! slift (Digest_Validate subjectDigest) in
  sql_query (λ db,
    rmap (λ dm : string * ManifestRow,
            let? digest := ParseDigest dm.1 in
            Ok (mkReferrerRow digest (mr_MediaType dm.2) (mr_Size dm.2) (mr_Payload dm.2)))
      (sort_by fst
        (filter (λ dm, mr_SubjectDigest dm.2 = subjectDigest ∧ mr_SubjectDigest dm.2 ≠ "")
          (match repository_id db tenant (ref_String repository) with
           | Some rid => repository_manifests db tenant rid
           | None => []
           end)))).

(** The manifest a tag row of any repository points at. *)
Definition manifest_of_tag (db : MetaDB) (t : TagRow) : option ManifestRow :=
  head (filter (λ m, mr_ID m = tg_ManifestID t) (map snd (map_to_list (md_manifests db)))).

Definition sql_ListTagsWithCreatedAt (tenant : string) (repository : RepositoryRef) (limit : Z)
    (after : string) : M RegWorld (list TagSummary) :=
  do! slift (RepositoryRef_Validate repository) in
  sql_query (λ db, Ok (page ts_Name limit after
    (omap (λ nt : string * TagRow,
             (λ m, mkTagSummary nt.1 (mr_CreatedAt m) (mr_PushedBy m)) <$> manifest_of_tag db nt.2)
       (tags_of db tenant (ref_String repository))))).

(** MAX over a text column; no row gives NULL, which scans to the zero time. *)
Fixpoint text_max (l : list Time) : Time :=
  match l with
  | [] => zero_time
  | [t] => t
  | t :: l' => let u := text_max l' in if time_text_le t u then u else t
  end.

Definition sql_ListRepositoriesWithSummary (tenant : string) (limit : Z) (after : string)
    : M RegWorld (list RepositorySummary) :=
  sql_query (λ db, Ok (page rs_Name limit after
    (map (λ kv : (string * string) * RepositoryRow,
            let tags := repository_tags db tenant (rr_ID kv.2) in
            mkRepositorySummary kv.1.2 (Z.of_nat (length tags))
              (text_max (omap (λ nt : string * TagRow, mr_CreatedAt <$> manifest_of_tag db nt.2) tags)))
       (filter (λ kv, kv.1.1 = tenant) (map_to_list (md_repositories db)))))).

(** ** Garbage-collection reports *)

Definition sql_CreateGCReport (report : GCReport) (candidates : list GCReportCandidate) : M RegWorld unit :=
  in_transaction (
    do! sql_exec (insert_report_sql report) in
    do! smap (λ ic : nat * GCReportCandidate, sql_exec (insert_candidate_sql (gc_ID report) ic.1 ic.2))
          (imap pair candidates) in
    sret tt).

(** The report's row and its candidates are read by two statements. *)
Definition sql_GetGCReport (reportID : string) : M RegWorld GCReportDetail :=
  let! report := sql_query (λ db,
    match md_gc_reports db !! reportID with
    | Some r => Ok r
    | None => Err (NewNotFoundError "gc_report" reportID)
    end) in
  let! candidates := sql_query (λ db, Ok (candidate_rows db reportID)) in
  sret (mkGCReportDetail report candidates).

Definition sql_PruneExpiredGCReports (now : Time) : M RegWorld Z := sql_exec_rows (prune_reports_sql now).


Definition sql_MarkGCReportDeleted (reportID : string) (outcome : GCDeleteOutcome) : M RegWorld unit :=
  in_transaction (
    let! rowsAffected := sql_exec_rows (mark_report_sql reportID outcome) in
    if rowsAffected =? 0 then sthrow (not_reported reportID) else
    do! smap (λ o, sql_exec (λ db, Ok (mark_candidate_sql reportID o db))) (del_Candidates outcome) in
    sret tt).
End Store.

#[global] Instance sqlite_store `{RegEnv} : MetadataStore RegWorld := {|
  SaveUpload := sql_SaveUpload;
  meta_GetUpload := sql_GetUpload;
  ListUploads := sql_ListUploads;
  DeleteUpload := sql_DeleteUpload;
  meta_PublishManifest := sql_PublishManifest;
  meta_ResolveManifest := sql_ResolveManifest;
  meta_Catalog := sql_Catalog;
  ListTags := sql_ListTags;
  ListTagsWithCreatedAt := sql_ListTagsWithCreatedAt;
  ListRepositoriesWithSummary := sql_ListRepositoriesWithSummary;
  ListManifestBlobs := sql_ListManifestBlobs;
  ListReferrers := sql_ListReferrers;
  DeleteManifestByDigest := sql_DeleteManifestByDigest;
  DeleteTag := sql_DeleteTag;
  meta_DeleteRepository := sql_DeleteRepository;
  ListReferencedBlobDigests := sql_ListReferencedBlobDigests;
  IsBlobDigestReferenced := sql_IsBlobDigestReferenced;
  CreateGCReport := sql_CreateGCReport;
  meta_GetGCReport := sql_GetGCReport;
  PruneExpiredGCReports := sql_PruneExpiredGCReports;
  MarkGCReportDeleted := sql_MarkGCReportDeleted;
|}.
