(* ===== verification/RegView.v ===== *)
(** The abstract registry of a concrete state: what its tables and its storage
    directory hold, under natural keys. *)
From S2P Require Import Prelude GoStrings Errors Repository Digest GoNumbers Manifest RegPorts RegWorld.
From S2P Require Import Registry FsBlob MetaStore.

(** * Definitions *)

(** ** The tables *)

Section Tables.
Variable db : MetaDB.

Definition row_entry (m : ManifestRow) : Entry :=
  mkEntry (mr_MediaType m) (mr_Payload m) (mr_CreatedAt m) (mr_PushedBy m) (mr_SubjectDigest m)
    (manifest_blob_rows db (mr_ID m)).

Definition manifest_at (k : string * string * string) : option Entry :=
  row_entry <$> manifest_row db k.1.1 k.1.2 k.2.

Definition tag_at (k : string * string * string) : option string :=
  fst <$> tagged_manifest db k.1.1 k.1.2 k.2.

(** Every (tenant, repository, last column) that a row of a table keyed by
    (tenant, repository_id, last column) may be seen under. *)
Definition named_keys {V} (rows : gmap (string * Z * string) V) : list (string * string * string) :=
  tr ← (map_to_list (md_repositories db)).*1; kv ← (map_to_list rows).*1; [(tr, kv.2)].

Definition view_repos : gset (string * string) := dom (md_repositories db).
Definition view_manifests : gmap (string * string * string) Entry :=
  tabulate (named_keys (md_manifests db)) manifest_at.
Definition view_tags : gmap (string * string * string) string :=
  tabulate (named_keys (md_tags db)) tag_at.

Definition row_upload (id : string) (r : UploadRow) : string * UploadState :=
  (ul_Tenant r, mkUpload id (mkRef (ul_Repository r)) (ul_Status r) (ul_Size r) (ul_StartedAt r)
                  (ul_UpdatedAt r) (ul_Location r)).
Definition view_uploads : gmap string (string * UploadState) :=
  map_imap (λ id r, Some (row_upload id r)) (md_uploads db).

Definition view_reports : gmap string GCReportDetail :=
  map_imap (λ id r, Some (mkGCReportDetail r (candidate_rows db id))) (md_gc_reports db).
End Tables.

(** ** The storage directory *)

Definition good_id_b (id : string) : bool :=
  (String.length id =? 32)%nat && str_forallb is_lower_hex id.

Section Files.
Context `{RegEnv}.
Variable fs : FileSystem.

Definition blob_at (d : Digest) : option BlobFile :=
  if valid_digest d
  then match fs !! blobPath d with Some (File c t) => Some (mkBlobFile c t) | _ => None end
  else None.

Definition state_at (id : string) : option UploadState :=
  match fs !! uploadStateFile id with
  | Some (File c _) => match unmarshal_upload c with Ok st => Some st | Err _ => None end
  | _ => None
  end.

Definition session_at (id : string) : option Session :=
  if good_id_b id
  then match fs !! uploadFile id with
       | Some (File c _) => Some (mkSession c (state_at id))
       | _ => None
       end
  else None.

Definition file_paths : list path := (map_to_list fs).*1.
Definition view_blobs : gmap string BlobFile :=
  tabulate (map (λ p, String.append "sha256:" (List.last p "")) file_paths) blob_at.
Definition view_incoming : gmap string Session :=
  tabulate (map (λ p, List.last (parent p) "") file_paths) session_at.
End Files.

Definition view_of `{RegEnv} (w : RegWorld) : Registry :=
  mkRegistry (view_repos (rw_db w)) (view_manifests (rw_db w)) (view_tags (rw_db w))
    (view_uploads (rw_db w)) (view_reports (rw_db w)) (view_blobs (rw_fs w)) (view_incoming (rw_fs w))
    (rw_scans w).

(** * Lemmas *)

Section TableLookup.
Variable db : MetaDB.

Lemma elem_of_named_keys {V} (rows : gmap (string * Z * string) V) t n x r t' rid v :
  md_repositories db !! (t, n) = Some r → rows !! (t', rid, x) = Some v →
  (t, n, x) ∈ named_keys db rows.
Proof.
  intros Hr Hv; unfold named_keys; apply list_elem_of_bind; exists (t, n); split.
  - apply list_elem_of_bind; exists (t', rid, x); split; [by left|].
    apply list_elem_of_fmap; exists ((t', rid, x), v); split; [done|by apply elem_of_map_to_list].
  - apply list_elem_of_fmap; exists ((t, n), r); split; [done|by apply elem_of_map_to_list].
Qed.

Lemma repository_id_Some t n rid :
  repository_id db t n = Some rid ↔ ∃ r, md_repositories db !! (t, n) = Some r ∧ rr_ID r = rid.
Proof. unfold repository_id; rewrite fmap_Some; naive_solver. Qed.

Lemma lookup_view_manifests k : view_manifests db !! k = manifest_at db k.
Proof.
  destruct k as [[t n] d]; apply lookup_tabulate; intros [e He]; unfold manifest_at, manifest_row in He; simpl in He.
  apply fmap_Some in He as (m & (rid & (r & Hr & _)%repository_id_Some & Hm)%bind_Some & _).
  by eapply elem_of_named_keys.
Qed.

Lemma lookup_view_tags k : view_tags db !! k = tag_at db k.
Proof.
  destruct k as [[t n] g]; apply lookup_tabulate; intros [e He]; unfold tag_at, tagged_manifest in He; simpl in He.
  apply fmap_Some in He as (m & (rid & (r & Hr & _)%repository_id_Some & (tg & Htg & _)%bind_Some)%bind_Some & _).
  by eapply elem_of_named_keys.
Qed.

Lemma lookup_view_uploads id : view_uploads db !! id = row_upload id <$> md_uploads db !! id.
Proof. unfold view_uploads; rewrite map_lookup_imap; by destruct (md_uploads db !! id). Qed.

Lemma lookup_view_reports id :
  view_reports db !! id = (λ r, mkGCReportDetail r (candidate_rows db id)) <$> md_gc_reports db !! id.
Proof. unfold view_reports; rewrite map_lookup_imap; by destruct (md_gc_reports db !! id). Qed.
End TableLookup.

Lemma good_id_spec id : good_id_b id = true ↔ GoodID id.
Proof. unfold good_id_b, GoodID; by rewrite andb_true_iff, Nat.eqb_eq. Qed.

(** ** Paths *)

(** Distinct paths below one directory. *)
Ltac path_neq :=
  let Hp := fresh in intros Hp;
  repeat (apply app_inj_tail in Hp as [Hp ?]; subst);
  solve [congruence | apply (f_equal length) in Hp; rewrite ?length_app in Hp; simpl in Hp; lia].

Section FileLookup.
Context `{RegEnv}.

Lemma blobsRoot_eq : blobsRoot = renv_root ++ ["blobs"].
Proof. by apply join_path_segment. Qed.
Lemma uploadsRoot_eq : uploadsRoot = renv_root ++ ["uploads"].
Proof. by apply join_path_segment. Qed.

Lemma lower_hex_no_slash s : str_forallb is_lower_hex s = true → no_char "/" s = true.
Proof.
  apply str_forallb_impl; intros a Ha; destruct (Ascii.eqb_spec a "/"%char) as [->|]; [by vm_compute in Ha|done].
Qed.

Lemma hex_no_slash s : str_forallb is_hex s = true → no_char "/" s = true.
Proof.
  apply str_forallb_impl; intros a Ha; destruct (Ascii.eqb_spec a "/"%char) as [->|]; [by vm_compute in Ha|done].
Qed.

Lemma join_path_hex p s :
  (2 < String.length s)%nat → str_forallb is_hex s = true → join_path p s = p ++ [s].
Proof.
  intros Hl Hs; apply join_path_segment; [by apply hex_no_slash|..]; intros ->; simpl in Hl; lia.
Qed.

Lemma blobPath_eq d : valid_digest d = true → blobPath d = (blobsRoot ++ ["sha256"]) ++ [Encoded d].
Proof.
  intros Hd; destruct (Algorithm_Encoded d Hd) as (Ha & _ & Hl & Hh); unfold blobPath; rewrite Ha.
  rewrite (join_path_segment blobsRoot) by done; apply join_path_hex; [lia|done].
Qed.

Lemma uploadDir_eq id : GoodID id → uploadDir id = uploadsRoot ++ [id].
Proof.
  intros [Hl Hh]; apply join_path_hex; [lia|]; eapply str_forallb_impl; [|exact Hh].
  apply lower_hex_is_hex.
Qed.
Lemma uploadFile_eq id : uploadFile id = uploadDir id ++ ["data"].
Proof. by apply join_path_segment. Qed.
Lemma uploadStateFile_eq id : uploadStateFile id = uploadDir id ++ ["state.json"].
Proof. by apply join_path_segment. Qed.

Lemma digest_of_Encoded d : valid_digest d = true → d = String.append "sha256:" (Encoded d).
Proof. intros Hd; destruct (Algorithm_Encoded d Hd) as (Ha & Heq & _); by rewrite Ha in Heq. Qed.

Lemma elem_of_file_paths (fs : FileSystem) p n : fs !! p = Some n → p ∈ file_paths fs.
Proof. intros Hp; apply list_elem_of_fmap; exists (p, n); split; [done|by apply elem_of_map_to_list]. Qed.

Lemma lookup_view_blobs fs d : view_blobs fs !! d = blob_at fs d.
Proof.
  apply lookup_tabulate; intros [f Hf]; unfold blob_at in Hf.
  destruct (valid_digest d) eqn:Hd; [|done].
  destruct (fs !! blobPath d) as [n|] eqn:Hp; [|done].
  rewrite (digest_of_Encoded d Hd); apply list_elem_of_In, in_map_iff; exists (blobPath d); split.
  - rewrite blobPath_eq by done; by rewrite List.last_last.
  - by apply list_elem_of_In; eapply elem_of_file_paths.
Qed.

Lemma lookup_view_incoming fs id : view_incoming fs !! id = session_at fs id.
Proof.
  apply lookup_tabulate; intros [s Hs]; unfold session_at in Hs.
  destruct (good_id_b id) eqn:Hd; [|done]; apply good_id_spec in Hd.
  destruct (fs !! uploadFile id) as [n|] eqn:Hp; [|done].
  apply list_elem_of_In, in_map_iff; exists (uploadFile id); split.
  - rewrite uploadFile_eq; unfold parent; rewrite removelast_last, uploadDir_eq by done.
    by rewrite List.last_last.
  - by apply list_elem_of_In; eapply elem_of_file_paths.
Qed.
End FileLookup.
