(* ===== verification/FsLaws.v ===== *)
(** The blob store keeps its contract: every operation of FsBlob.v meets its
    specification in Registry.v on a well-formed storage directory. *)
From S2P Require Import Prelude GoStrings Errors Repository Digest GoNumbers Manifest RegPorts RegWorld.
From S2P Require Import Registry FsBlob MetaStore RegView.

(** * Assumptions on the environment *)

(** The instants a registry sees: after the zero time and before the year 10000. *)
Definition time_ok (t : Time) : Prop := zero_time < t ∧ t < 253402300800 * second.

(** The upload states the store writes. *)
Definition state_ok (id location : string) (st : UploadState) : Prop :=
  up_ID st = id ∧ valid_repository (ref_Name (up_Repository st)) = true ∧ up_Status st = UploadStatusActive
  ∧ 0 ≤ up_Size st ∧ time_ok (up_StartedAt st) ∧ time_ok (up_UpdatedAt st) ∧ up_Location st = location.

(** [encoding/json] reads back an upload state whose strings are ASCII and whose
    times have a four-digit year, and refuses a truncated object; the clock shows
    years up to 9999; the storage root has an ASCII name; [rand.Read] fills its
    buffer; a fresh UUID names no report. *)
Class RegEnvLaws `{RegEnv} := {
  codec_law id location st :
    is_ascii id = true → is_ascii location = true → state_ok id location st →
    ∃ p, marshal_upload st = Ok p ∧ unmarshal_upload p = Ok st
      ∧ ∀ n, (n < String.length p)%nat → is_ok (unmarshal_upload (substring 0 n p)) = false;
  renv_root_law : Forall (λ s, is_ascii s = true) renv_root;
  renv_now_law n : time_ok (renv_now n);
  renv_rand_law n db fs : length (renv_rand n db fs 16) = 16%nat ∧ Forall is_byte (renv_rand n db fs 16);
  renv_uuid_law n db : md_gc_reports db !! renv_uuid n db = None;
}.

(** * Well-formed storage *)

Section Wf.
Context `{RegEnv}.

Definition dirs (fs : FileSystem) (p : path) : Prop := ∀ q, q ∈ prefixes p → fs !! q = Some Dir.
Definition algorithmDir : path := blobsRoot ++ ["sha256"].
Definition session_path (id : string) : string := path_string (uploadFile id).

Record session_wf (fs : FileSystem) (id : string) : Prop := {
  sw_dir : is_file fs (uploadDir id) = false;
  sw_data n : fs !! uploadFile id = Some n →
    fs !! uploadDir id = Some Dir ∧ ∃ c t, n = File c t ∧ time_ok t;
  sw_state n : fs !! uploadStateFile id = Some n →
    fs !! uploadDir id = Some Dir
    ∧ ∃ c t, n = File c t ∧ ∀ st, unmarshal_upload c = Ok st → state_ok id (session_path id) st;
}.

Record fs_wf (fs : FileSystem) : Prop := {
  fw_blobs : dirs fs blobsRoot;
  fw_uploads : dirs fs uploadsRoot;
  fw_algorithm : is_file fs algorithmDir = false;
  fw_blob d n : valid_digest d = true → fs !! blobPath d = Some n →
    fs !! algorithmDir = Some Dir ∧ ∃ c t, n = File c t;
  fw_session id : GoodID id → session_wf fs id;
}.

Definition world_later (w w' : RegWorld) : Prop := (rw_calls w ≤ rw_calls w')%nat.
Definition world_calm (w : RegWorld) : Prop := ∀ n, (rw_calls w ≤ n)%nat → renv_fault n = None.
End Wf.

(** * Lemmas *)

Lemma length_snoc {A} (p : list A) s : length (p ++ [s]) = S (length p).
Proof. rewrite length_app; simpl; lia. Qed.

Lemma prefixes_snoc p s : prefixes (p ++ [s]) = prefixes p ++ [p ++ [s]].
Proof.
  unfold prefixes; rewrite length_snoc, seq_S, map_app; simpl; f_equal.
  - apply map_ext_in; intros n Hn%in_seq; rewrite take_app_le; [done|lia].
  - by rewrite take_ge by (rewrite length_snoc; lia).
Qed.

Lemma is_dir_lookup fs p : fs !! p = Some Dir → is_dir fs p = true.
Proof. destruct p; [done|]; intros; by apply bool_decide_eq_true. Qed.

Lemma is_dir_dirs fs p : dirs fs p → is_dir fs p = true.
Proof.
  destruct p as [|s p]; [done|]; intros Hd; apply is_dir_lookup, Hd.
  destruct (exists_last (l:=s :: p)) as (q & x & ->); [done|].
  rewrite prefixes_snoc; apply elem_of_app; right; by left.
Qed.

Lemma dirs_snoc fs p s : dirs fs p → fs !! (p ++ [s]) = Some Dir → dirs fs (p ++ [s]).
Proof. intros Hd Hs q; rewrite prefixes_snoc, elem_of_app, list_elem_of_singleton; intros [?| ->]; auto. Qed.

Lemma dirs_no_file fs p : dirs fs p → existsb (is_file fs) (prefixes p) = false.
Proof.
  intros Hd; apply not_true_iff_false; rewrite existsb_exists; intros (q & Hq%list_elem_of_In & Hf).
  unfold is_file in Hf; by rewrite (Hd q Hq) in Hf.
Qed.

(** A missing entry of an existing directory. *)
Lemma missing_snoc fs p s : dirs fs p → missing fs (p ++ [s]) = ErrNotExist.
Proof. intros Hd; unfold missing, parent; by rewrite removelast_last, dirs_no_file. Qed.

Lemma missing_snoc2 fs p s x :
  dirs fs p → is_file fs (p ++ [s]) = false → missing fs ((p ++ [s]) ++ [x]) = ErrNotExist.
Proof.
  intros Hd Hs; unfold missing, parent; rewrite removelast_last, prefixes_snoc, existsb_app.
  rewrite dirs_no_file by done; simpl; by rewrite Hs.
Qed.

(** Making one more directory below existing ones. *)
Lemma mkdir_all_snoc fs p s :
  dirs fs p → is_file fs (p ++ [s]) = false → fs_mkdir_all fs (p ++ [s]) = Ok (<[p ++ [s] := Dir]> fs).
Proof.
  intros Hd Hs; unfold fs_mkdir_all; rewrite prefixes_snoc, existsb_app, dirs_no_file by done; simpl.
  rewrite Hs; simpl; f_equal; rewrite foldr_app; simpl.
  assert (∀ l, (∀ q, q ∈ l → fs !! q = Some Dir) →
    foldr (λ q fs, <[q := Dir]> fs) (<[p ++ [s] := Dir]> fs) l = <[p ++ [s] := Dir]> fs) as Hf; [|by apply Hf].
  induction l as [|q l IH]; intros Hl; simpl; [done|].
  rewrite IH by (intros; apply Hl; by right); apply insert_id.
  destruct (decide (q = p ++ [s])) as [->|Hne]; [by rewrite lookup_insert_eq|].
  rewrite lookup_insert_ne by done; apply Hl; by left.
Qed.

Section Storage.
Context `{RegEnv}.
Implicit Types fs : FileSystem.

Lemma uploads_missing fs id : fs_wf fs → GoodID id →
  fs !! uploadFile id = None → missing fs (uploadFile id) = ErrNotExist.
Proof.
  intros Hfs Hid _; rewrite uploadFile_eq, uploadDir_eq by done; apply missing_snoc2; [by apply fw_uploads|].
  rewrite <- uploadDir_eq by done; by apply sw_dir, fw_session.
Qed.

Lemma state_missing fs id : fs_wf fs → GoodID id →
  fs !! uploadStateFile id = None → missing fs (uploadStateFile id) = ErrNotExist.
Proof.
  intros Hfs Hid _; rewrite uploadStateFile_eq, uploadDir_eq by done; apply missing_snoc2; [by apply fw_uploads|].
  rewrite <- uploadDir_eq by done; by apply sw_dir, fw_session.
Qed.

Lemma blob_missing fs d : fs_wf fs → valid_digest d = true → missing fs (blobPath d) = ErrNotExist.
Proof.
  intros Hfs Hd; rewrite blobPath_eq by done; apply missing_snoc2; [by apply fw_blobs|by apply fw_algorithm].
Qed.

(** ** Changes confined to one session *)

Definition same_outside (id : string) (fs fs' : FileSystem) : Prop :=
  ∀ p, ¬ (uploadDir id `prefix_of` p) → fs' !! p = fs !! p.

Lemma same_outside_refl id fs : same_outside id fs fs.
Proof. done. Qed.
Lemma same_outside_trans id fs1 fs2 fs3 :
  same_outside id fs1 fs2 → same_outside id fs2 fs3 → same_outside id fs1 fs3.
Proof. intros H1 H2 p Hp; by rewrite H2, H1. Qed.

Lemma same_outside_insert id fs p n : uploadDir id `prefix_of` p → same_outside id fs (<[p := n]> fs).
Proof. intros Hp q Hq; rewrite lookup_insert_ne; [done|by intros ->]. Qed.

Lemma not_prefix_length {A} (p q : list A) : (length q < length p)%nat → ¬ p `prefix_of` q.
Proof. intros Hl [k ->]; rewrite length_app in Hl; lia. Qed.

Lemma prefix_snoc_inv {A} (p q : list A) s :
  p `prefix_of` q ++ [s] → p = q ++ [s] ∨ p `prefix_of` q.
Proof.
  intros [k Hk]; destruct k as [|x k _] using rev_ind.
  - left; by rewrite app_nil_r in Hk.
  - right; rewrite app_assoc in Hk; apply app_inj_tail in Hk as [-> _]; by exists k.
Qed.

Lemma dirs_same fs fs' p : dirs fs p → (∀ q, q `prefix_of` p → fs' !! q = fs !! q) → dirs fs' p.
Proof.
  intros Hd Hs q Hq; rewrite Hs; [by apply Hd|].
  apply list_elem_of_In, in_map_iff in Hq as (n & <- & _); apply prefix_take.
Qed.

(** What lies outside the directory of session [id]. *)
Lemma outside_shallow id q : GoodID id → (length q ≤ S (length renv_root))%nat → ¬ uploadDir id `prefix_of` q.
Proof.
  intros Hid Hq; apply not_prefix_length; rewrite uploadDir_eq, uploadsRoot_eq, !length_snoc by done; lia.
Qed.

Lemma outside_blobs id p : GoodID id → blobsRoot `prefix_of` p → ¬ uploadDir id `prefix_of` p.
Proof.
  rewrite blobsRoot_eq; intros Hid [k ->] [k' Hk]; rewrite uploadDir_eq, uploadsRoot_eq, <- !app_assoc in Hk by done.
  by apply app_inv_head in Hk.
Qed.

Lemma outside_session id id' p : GoodID id → GoodID id' → id ≠ id' → uploadDir id' `prefix_of` p →
  ¬ uploadDir id `prefix_of` p.
Proof.
  intros Hid Hid' Hne [k ->] [k' Hk]; rewrite !uploadDir_eq, <- !app_assoc in Hk by done.
  apply app_inv_head in Hk; simpl in Hk; congruence.
Qed.

Lemma blob_prefix d : valid_digest d = true → blobsRoot `prefix_of` blobPath d.
Proof. intros Hd; rewrite blobPath_eq, <- app_assoc by done; by eexists. Qed.
Lemma algorithm_prefix : blobsRoot `prefix_of` algorithmDir.
Proof. by eexists. Qed.
Lemma file_prefix id : uploadDir id `prefix_of` uploadFile id.
Proof. rewrite uploadFile_eq; by eexists. Qed.
Lemma state_prefix id : uploadDir id `prefix_of` uploadStateFile id.
Proof. rewrite uploadStateFile_eq; by eexists. Qed.

Lemma is_file_same fs fs' p : fs' !! p = fs !! p → is_file fs' p = is_file fs p.
Proof. unfold is_file; by intros ->. Qed.

Lemma dirs_same_outside id fs fs' p : GoodID id → same_outside id fs fs' →
  (length p ≤ S (length renv_root))%nat → dirs fs p → dirs fs' p.
Proof.
  intros Hid Hs Hl Hd; eapply dirs_same; [done|]; intros q Hq; apply Hs, outside_shallow; [done|].
  apply prefix_length in Hq; lia.
Qed.

Lemma root_lengths : length blobsRoot = S (length renv_root) ∧ length uploadsRoot = S (length renv_root).
Proof. by rewrite blobsRoot_eq, uploadsRoot_eq, !length_snoc. Qed.

Lemma session_wf_same fs fs' id :
  (∀ p, uploadDir id `prefix_of` p → fs' !! p = fs !! p) → session_wf fs id → session_wf fs' id.
Proof.
  intros Hs [Hdir Hdata Hstate].
  pose proof (Hs (uploadDir id) (reflexivity _)) as Hd.
  split.
  - by rewrite (is_file_same fs fs').
  - intros n; rewrite Hs, Hd by apply file_prefix; apply Hdata.
  - intros n; rewrite Hs, Hd by apply state_prefix; apply Hstate.
Qed.

(** A change inside the directory of [id] keeps the storage well formed if it
    keeps the session so. *)
Lemma wf_same_outside fs fs' id :
  GoodID id → fs_wf fs → same_outside id fs fs' → session_wf fs' id → fs_wf fs'.
Proof.
  intros Hid Hfs Hs Hsw; destruct root_lengths as [Hlb Hlu]; split.
  - eapply dirs_same_outside; [done..| |by apply fw_blobs]; lia.
  - eapply dirs_same_outside; [done..| |by apply fw_uploads]; lia.
  - rewrite (is_file_same fs fs') by (apply Hs, outside_blobs, algorithm_prefix; done); by apply fw_algorithm.
  - intros d n Hd; rewrite !Hs by (apply outside_blobs; auto using blob_prefix, algorithm_prefix).
    by apply fw_blob.
  - intros id' Hid'; destruct (decide (id = id')) as [<-|Hne]; [done|].
    eapply session_wf_same; [|by apply fw_session].
    intros p Hp; apply Hs; by eapply outside_session.
Qed.

Lemma view_blobs_same fs fs' :
  (∀ d, valid_digest d = true → fs' !! blobPath d = fs !! blobPath d) → view_blobs fs' = view_blobs fs.
Proof.
  intros Hs; apply map_eq; intros d; rewrite !lookup_view_blobs; unfold blob_at.
  destruct (valid_digest d) eqn:Hd; [by rewrite Hs|done].
Qed.

Lemma state_at_same fs fs' id :
  fs' !! uploadStateFile id = fs !! uploadStateFile id → state_at fs' id = state_at fs id.
Proof. unfold state_at; by intros ->. Qed.

Lemma session_at_same fs fs' id :
  (∀ p, uploadDir id `prefix_of` p → fs' !! p = fs !! p) → session_at fs' id = session_at fs id.
Proof.
  intros Hs; unfold session_at; rewrite Hs by apply file_prefix.
  by rewrite (state_at_same fs fs') by (apply Hs, state_prefix).
Qed.

Lemma view_incoming_local fs fs' id : GoodID id → same_outside id fs fs' →
  view_incoming fs' = partial_alter (λ _, session_at fs' id) id (view_incoming fs).
Proof.
  intros Hid Hs; apply map_eq; intros id'; rewrite lookup_view_incoming.
  destruct (decide (id = id')) as [<-|Hne]; [by rewrite lookup_partial_alter_eq|].
  rewrite lookup_partial_alter_ne, lookup_view_incoming by done.
  destruct (good_id_b id') eqn:Hid'; [|unfold session_at; by rewrite Hid'].
  apply good_id_spec in Hid'; apply session_at_same; intros p Hp; apply Hs; by eapply outside_session.
Qed.

Lemma view_blobs_outside fs fs' id : GoodID id → same_outside id fs fs' → view_blobs fs' = view_blobs fs.
Proof. intros Hid Hs; apply view_blobs_same; intros; apply Hs, outside_blobs; auto using blob_prefix. Qed.

Lemma session_at_data fs id c t :
  GoodID id → fs !! uploadFile id = Some (File c t) → session_at fs id = Some (mkSession c (state_at fs id)).
Proof. intros Hid Hd; unfold session_at; by rewrite (proj2 (good_id_spec id)), Hd. Qed.

Lemma view_after_session w fs' n id :
  GoodID id → same_outside id (rw_fs w) fs' →
  view_of (mkRegWorld (rw_db w) fs' (rw_scans w) n) = set_session id (session_at fs' id) (view_of w).
Proof.
  intros Hid Hs; unfold view_of, set_session, put_incoming; simpl.
  by rewrite (view_blobs_outside _ _ _ Hid Hs), (view_incoming_local _ _ _ Hid Hs).
Qed.

Lemma set_session_same fs w id :
  rw_fs w = fs → set_session id (session_at fs id) (view_of w) = view_of w.
Proof.
  intros <-; unfold set_session, put_incoming, view_of; simpl; f_equal.
  rewrite <- lookup_view_incoming; apply partial_alter_self.
Qed.
End Storage.

(** * Running the operations *)

Section Calls.
Context `{RegEnv}.

(** What an operation of the blob store leaves behind. *)
Definition fs_outcome {A} (spec slack : Registry → res A → Registry → Prop) (w : RegWorld)
    (r : res A) (w' : RegWorld) : Prop :=
  fs_wf (rw_fs w') ∧ rw_db w' = rw_db w ∧ world_later w w'
  ∧ (spec (view_of w) r (view_of w') ∨ slack (view_of w) r (view_of w') ∧ ¬ world_calm w).

Lemma wp_os_read {A} (f : FileSystem → os_result A) (Q : res (os_result A) → RegWorld → Prop) w :
  (∀ e, renv_fault (rw_calls w) = Some e → Q (Ok (Err (ErrOther e))) (tick w)) →
  (renv_fault (rw_calls w) = None → Q (Ok (f (rw_fs w))) (tick w)) →
  wp (os_read_call f) Q w.
Proof.
  intros Hf Hn; unfold wp, os_read_call, os_call; destruct (renv_fault (rw_calls w)); [by apply Hf|].
  specialize (Hn eq_refl); by destruct w, (f _).
Qed.

Lemma wp_os_write f (Q : res (os_result unit) → RegWorld → Prop) w :
  (∀ e, renv_fault (rw_calls w) = Some e → Q (Ok (Err (ErrOther e))) (tick w)) →
  (renv_fault (rw_calls w) = None →
   match f (renv_now (rw_calls w)) (rw_fs w) with
   | Ok fs => Q (Ok (Ok tt)) (with_fs fs (tick w))
   | Err e => Q (Ok (Err e)) (tick w)
   end) →
  wp (os_write_call f) Q w.
Proof.
  intros Hf Hn; unfold wp, os_write_call, os_call; destruct (renv_fault (rw_calls w)); [by apply Hf|].
  specialize (Hn eq_refl); by destruct (f _ _).
Qed.

Lemma wp_os_remove_all p (Q : res (os_result unit) → RegWorld → Prop) w :
  (∀ e, renv_fault (rw_calls w) = Some e →
     Q (Ok (Err (ErrOther e))) (with_fs (fs_remove_some (rw_fs w) (renv_removed (rw_calls w)) p) (tick w))) →
  (renv_fault (rw_calls w) = None → Q (Ok (Ok tt)) (with_fs (fs_remove_all (rw_fs w) p) (tick w))) →
  wp (os_remove_all p) Q w.
Proof.
  intros Hf Hn; unfold wp, os_remove_all, os_write_call, os_call; destruct (renv_fault (rw_calls w)); [by apply Hf|by apply Hn].
Qed.

Lemma wp_os_must {A} (r : os_result A) (Q : res A → RegWorld → Prop) w :
  Q (match r with Ok a => Ok a | Err e => Err (os_err e) end) w → wp (os_must r) Q w.
Proof. done. Qed.

Lemma wp_clock (Q : res Time → RegWorld → Prop) w : Q (Ok (renv_now (rw_calls w))) (tick w) → wp clock Q w.
Proof. done. Qed.
End Calls.

(** A failing call is one the environment chose. *)
Ltac not_calm :=
  let Hc := fresh in
  intros Hc;
  match goal with
  | Hf : renv_fault ?k = Some _ |- _ => rewrite (Hc k) in Hf; [discriminate Hf|simpl in *; lia]
  end.

Ltac open_world := unfold tick, with_fs, with_db; simpl.

Ltac fs_step :=
  cbv beta zeta;
  lazymatch goal with
  | |- wp (sbind _ _) _ _ => apply wp_sbind
  | |- wp (sret _) _ _ => apply wp_sret
  | |- wp (sthrow _) _ _ => apply wp_sthrow
  | |- wp (slift _) _ _ => apply wp_slift
  | |- wp (os_read_call _) _ _ => apply wp_os_read; [intros ?e ?Hfault|intros ?Hok]; open_world
  | |- wp (os_write_call _) _ _ => apply wp_os_write; [intros ?e ?Hfault|intros ?Hok]; open_world
  | |- wp (os_remove_all _) _ _ => apply wp_os_remove_all; [intros ?e ?Hfault|intros ?Hok]; open_world
  | |- wp (os_must _) _ _ => apply wp_os_must; open_world
  | |- wp clock _ _ => apply wp_clock; open_world
  end.

(** An outcome without effect on the files. *)
Ltac same_files :=
  unfold fs_outcome; simpl;
  split; [done|split; [done|split; [unfold world_later; simpl; lia|]]].
Ltac faulted := right; split; [split; [done|by eexists]|not_calm].

Section Operations.
Context `{RegEnvLaws}.

Lemma lookup_blob db fs sc n d : valid_digest d = true → fs_wf fs →
  match fs !! blobPath d with
  | Some nd => ∃ c t, nd = File c t ∧ rg_blobs (view_of (mkRegWorld db fs sc n)) !! d = Some (mkBlobFile c t)
  | None => missing fs (blobPath d) = ErrNotExist ∧ rg_blobs (view_of (mkRegWorld db fs sc n)) !! d = None
  end.
Proof.
  intros Hv Hfs; simpl; rewrite lookup_view_blobs; unfold blob_at; rewrite Hv.
  destruct (fs !! blobPath d) as [nd|] eqn:Hd; [|split; [by apply blob_missing|done]].
  destruct (fw_blob _ Hfs d nd Hv Hd) as (_ & c & t & ->); eauto.
Qed.

Lemma fs_BlobExists_outcome d w :
  fs_wf (rw_fs w) → wp (fs_BlobExists d) (fs_outcome (spec_blob_exists d) unchanged w) w.
Proof.
  destruct w as [db fs sc n]; intros Hfs; simpl in Hfs; unfold fs_BlobExists, spec_blob_exists, guarded.
  repeat fs_step; destruct (Digest_Validate d) as [u|e] eqn:Hv; [|same_files; by left].
  apply Digest_Validate_ok in Hv; repeat fs_step; [same_files; faulted|].
  unfold fs_stat; pose proof (lookup_blob db fs sc n d Hv Hfs) as Hd.
  destruct (fs !! blobPath d); [destruct Hd as (c & t & -> & Hd)|destruct Hd as [-> Hd]];
    same_files; left; (split; [done|]); simpl in *; by rewrite Hd.
Qed.

Lemma fs_OpenBlob_outcome d w :
  fs_wf (rw_fs w) → wp (fs_OpenBlob d) (fs_outcome (spec_open d) unchanged w) w.
Proof.
  destruct w as [db fs sc n]; intros Hfs; simpl in Hfs; unfold fs_OpenBlob, spec_open, guarded.
  repeat fs_step; destruct (Digest_Validate d) as [u|e] eqn:Hv; [|same_files; by left].
  apply Digest_Validate_ok in Hv; repeat fs_step; [same_files; faulted|].
  unfold fs_read; pose proof (lookup_blob db fs sc n d Hv Hfs) as Hd.
  destruct (fs !! blobPath d); [destruct Hd as (c & t & -> & Hd)|destruct Hd as [-> Hd]];
    same_files; left; (split; [done|]); simpl in *; by rewrite Hd.
Qed.

(** Unlinking a blob touches nothing else. *)
Lemma delete_blob_wf fs d : valid_digest d = true → fs_wf fs → fs_wf (delete (blobPath d) fs).
Proof.
  intros Hv Hfs; destruct root_lengths as [Hlb Hlu].
  assert (∀ p, length p ≠ length (blobPath d) ∨ ¬ blobsRoot `prefix_of` p →
    delete (blobPath d) fs !! p = fs !! p) as Hs.
  { intros p Hp; apply lookup_delete_ne; intros <-; destruct Hp as [?|Hp]; [done|]; by apply Hp, blob_prefix. }
  assert (length (blobPath d) = S (S (S (length renv_root)))) as Hlp
    by (rewrite blobPath_eq, !length_snoc by done; lia).
  split.
  - eapply dirs_same; [by apply fw_blobs|]; intros q Hq%prefix_length; apply Hs; left; lia.
  - eapply dirs_same; [by apply fw_uploads|]; intros q Hq%prefix_length; apply Hs; left; lia.
  - rewrite (is_file_same fs); [by apply fw_algorithm|]; apply Hs; left; unfold algorithmDir; rewrite length_snoc; lia.
  - intros d' n Hv' (_ & Hd')%lookup_delete_Some; rewrite Hs; [by eapply fw_blob|].
    left; unfold algorithmDir; rewrite length_snoc; lia.
  - intros id Hid; eapply session_wf_same; [|by apply fw_session]; intros p Hp; apply Hs; right; intros Hb.
    by eapply outside_blobs.
Qed.

Lemma delete_blob_view fs d : valid_digest d = true →
  view_blobs (delete (blobPath d) fs) = delete d (view_blobs fs)
  ∧ view_incoming (delete (blobPath d) fs) = view_incoming fs.
Proof.
  intros Hv; split; apply map_eq.
  - intros d'; rewrite lookup_view_blobs; unfold blob_at; destruct (decide (d = d')) as [<-|Hne].
    + by rewrite lookup_delete_eq, Hv, lookup_delete_eq.
    + rewrite (lookup_delete_ne (view_blobs fs)), lookup_view_blobs by done; unfold blob_at; destruct (valid_digest d') eqn:Hv'; [|done].
      rewrite lookup_delete_ne; [done|]; rewrite !blobPath_eq by done; intros [_ He]%app_inj_tail.
      apply Hne; rewrite (digest_of_Encoded d), (digest_of_Encoded d'), He by done; done.
  - intros id; rewrite !lookup_view_incoming; destruct (good_id_b id) eqn:Hid;
      [|unfold session_at; by rewrite Hid].
    apply good_id_spec in Hid; apply session_at_same; intros p Hp; apply lookup_delete_ne; intros <-.
    by eapply outside_blobs; [|by apply blob_prefix|].
Qed.

Lemma fs_DeleteBlob_outcome d w :
  fs_wf (rw_fs w) → wp (fs_DeleteBlob d) (fs_outcome (spec_delete_blob d) unchanged w) w.
Proof.
  destruct w as [db fs sc n]; intros Hfs; simpl in Hfs; unfold fs_DeleteBlob, spec_delete_blob, guarded.
  repeat fs_step; destruct (Digest_Validate d) as [u|e] eqn:Hv; [|same_files; by left].
  apply Digest_Validate_ok in Hv; repeat fs_step; [same_files; faulted|].
  unfold fs_remove; pose proof (lookup_blob db fs sc n d Hv Hfs) as Hd.
  destruct (fs !! blobPath d); [destruct Hd as (c & t & -> & Hd)|destruct Hd as [-> Hd]].
  - destruct (delete_blob_view fs d Hv) as [Hb Hi].
    split; [by apply delete_blob_wf|split; [done|split; [unfold world_later; simpl; lia|]]].
    left; left; repeat split; [by rewrite Hd|]; unfold view_of, remove_blob, put_blobs; simpl; by rewrite Hb, Hi.
  - same_files; left; right; done.
Qed.
End Operations.

(** ** Upload sessions *)

Section Sessions.
Context `{RegEnvLaws}.

(** The state [GetUpload] reports: the recorded one with the file's size and time. *)
Definition refresh (id : string) (st : UploadState) (c : string) (t : Time) : UploadState :=
  mkUpload (up_ID st) (up_Repository st) (up_Status st) (Z.of_nat (String.length c)) (up_StartedAt st) t
    (session_path id).
Definition upload_at (fs : FileSystem) (id : string) : option UploadState :=
  match fs !! uploadFile id, state_at fs id with
  | Some (File c t), Some st => Some (refresh id st c t)
  | _, _ => None
  end.

Lemma good_id_ascii id : GoodID id → is_ascii id = true.
Proof.
  intros [_ Hh]; eapply str_forallb_impl; [|exact Hh].
  intros a; unfold is_lower_hex, is_digit; rewrite orb_true_iff; intros [Ha|Ha]; eapply in_range_weaken; try apply Ha; lia.
Qed.

Lemma session_path_ascii id : GoodID id → is_ascii (session_path id) = true.
Proof.
  intros Hid; unfold session_path, path_string, is_ascii; simpl; apply str_forallb_join; [done|].
  rewrite uploadFile_eq, uploadDir_eq, uploadsRoot_eq by done.
  rewrite !Forall_app; repeat split; [apply renv_root_law|by repeat constructor|..|by repeat constructor].
  constructor; [by apply good_id_ascii|done].
Qed.

Lemma time_ok_nonzero t : time_ok t → IsZero t = false.
Proof. unfold time_ok, IsZero; intros [? _]; apply Z.eqb_neq; lia. Qed.

Lemma state_ok_valid id loc st : GoodID id → state_ok id loc st → UploadState_Validate st = Ok tt.
Proof.
  intros [Hl _] (<- & Hr & Hs & Hz & Ht & Hu & _); apply UploadState_Validate_ok; rewrite Hs.
  repeat split; try done; [intros He; by rewrite He in Hl|by apply time_ok_nonzero..].
Qed.

Lemma refresh_ok id st c t :
  state_ok id (session_path id) st → time_ok t → state_ok id (session_path id) (refresh id st c t).
Proof. intros (? & ? & ? & ? & ? & ? & ?) Ht; unfold state_ok; simpl; split_and!; try done; lia. Qed.

Lemma state_at_ok fs id st : fs_wf fs → GoodID id → state_at fs id = Some st →
  state_ok id (session_path id) st.
Proof.
  intros Hfs Hid; unfold state_at; destruct (fs !! uploadStateFile id) as [nd|] eqn:Hs; [|done].
  destruct (sw_state _ _ (fw_session _ Hfs id Hid) nd Hs) as (_ & c & t & -> & Hst).
  destruct (unmarshal_upload c) eqn:Hu; [|done]; intros [= <-]; by apply Hst.
Qed.

Lemma data_file fs id nd : fs_wf fs → GoodID id → fs !! uploadFile id = Some nd →
  ∃ c t, nd = File c t ∧ time_ok t ∧ fs !! uploadDir id = Some Dir.
Proof.
  intros Hfs Hid Hd; destruct (sw_data _ _ (fw_session _ Hfs id Hid) nd Hd) as (? & c & t & -> & ?); eauto 6.
Qed.

Lemma upload_at_ok fs id st : fs_wf fs → GoodID id → upload_at fs id = Some st →
  state_ok id (session_path id) st.
Proof.
  unfold upload_at; intros Hfs Hid; destruct (fs !! uploadFile id) as [nd|] eqn:Hd; [|done].
  destruct (data_file _ _ _ Hfs Hid Hd) as (c & t & -> & Ht & _).
  destruct (state_at fs id) as [s0|] eqn:Hs; [|done]; intros [= <-].
  by apply refresh_ok; [eapply state_at_ok|].
Qed.

Lemma upload_at_continued fs id st0 c t :
  fs_wf fs → GoodID id → fs !! uploadFile id = Some (File c t) → state_at fs id = Some st0 →
  upload_at fs id = Some (refresh id st0 c t) ∧ continued st0 (refresh id st0 c t) c.
Proof.
  intros Hfs Hid Hd Hs; unfold upload_at; rewrite Hd, Hs; split; [done|].
  repeat split; eapply state_ok_valid, upload_at_ok; [done..|]; unfold upload_at; by rewrite Hd, Hs.
Qed.

Lemma wp_GetUpload id db fs sc n (Q : res UploadState → RegWorld → Prop) :
  fs_wf fs → GoodID id →
  (∀ e m, (n ≤ m)%nat → ¬ world_calm (mkRegWorld db fs sc n) → Q (Err (OtherError e)) (mkRegWorld db fs sc m)) →
  (∀ m, (n ≤ m)%nat → match upload_at fs id with
                      | Some st => Q (Ok st) (mkRegWorld db fs sc m)
                      | None => ∀ e, Q (Err e) (mkRegWorld db fs sc m)
                      end) →
  wp (fs_GetUpload id) Q (mkRegWorld db fs sc n).
Proof.
  intros Hfs Hid Hfault HQ; unfold fs_GetUpload, readUploadState; repeat fs_step.
  - apply Hfault; [lia|not_calm].
  - pose proof (HQ (S n)) as HQ1; pose proof (HQ (S (S n))) as HQ2; unfold upload_at in HQ1, HQ2.
    unfold fs_read; destruct (fs !! uploadStateFile id) as [nd|] eqn:Hs.
    2: { rewrite state_missing by done; simpl; fs_step.
         replace (state_at fs id) with (@None UploadState) in HQ1 by (unfold state_at; by rewrite Hs).
         destruct (fs !! uploadFile id) as [[]|]; apply HQ1; lia. }
    destruct (sw_state _ _ (fw_session _ Hfs id Hid) nd Hs) as (_ & c & t & -> & Hst).
    destruct (unmarshal_upload c) as [st|e] eqn:Hu; unfold state_at in HQ1, HQ2; rewrite Hs, Hu in HQ1, HQ2;
      repeat fs_step; rewrite ?Hu; repeat fs_step.
    + apply Hfault; [lia|not_calm].
    + unfold fs_stat; destruct (fs !! uploadFile id) as [nd|] eqn:Hd; [|].
      * destruct (data_file _ _ _ Hfs Hid Hd) as (c' & t' & -> & _); repeat fs_step; apply HQ2; lia.
      * rewrite uploads_missing by done; simpl; repeat fs_step; apply HQ2; lia.
    + destruct (fs !! uploadFile id) as [[]|]; apply HQ1; lia.
Qed.

Lemma substring_all n p : (String.length p ≤ n)%nat → substring 0 n p = p.
Proof.
  revert n; induction p as [|a p IH]; intros [|n] Hn; simpl in *; try done; try lia.
  f_equal; apply IH; lia.
Qed.

Lemma data_not_state id : uploadFile id ≠ uploadStateFile id.
Proof. rewrite uploadFile_eq, uploadStateFile_eq; path_neq. Qed.
Lemma dir_not_data id : uploadDir id ≠ uploadFile id.
Proof. rewrite uploadFile_eq; intros Hp; apply (f_equal length) in Hp; rewrite length_snoc in Hp; lia. Qed.
Lemma dir_not_state id : uploadDir id ≠ uploadStateFile id.
Proof. rewrite uploadStateFile_eq; intros Hp; apply (f_equal length) in Hp; rewrite length_snoc in Hp; lia. Qed.

Lemma write_state fs id data now :
  fs_wf fs → GoodID id → fs !! uploadDir id = Some Dir →
  fs_write fs (uploadStateFile id) data now = Ok (<[uploadStateFile id := File data now]> fs).
Proof.
  intros Hfs Hid Hd; unfold fs_write; destruct (fs !! uploadStateFile id) as [nd|] eqn:Hs.
  - by destruct (sw_state _ _ (fw_session _ Hfs id Hid) nd Hs) as (_ & c & t & -> & _).
  - rewrite uploadStateFile_eq; unfold parent; rewrite removelast_last; by rewrite is_dir_lookup.
Qed.

Lemma session_wf_state fs id data now :
  session_wf fs id → fs !! uploadDir id = Some Dir →
  (∀ st, unmarshal_upload data = Ok st → state_ok id (session_path id) st) →
  session_wf (<[uploadStateFile id := File data now]> fs) id.
Proof.
  intros [H1 H2 H3] Hd Hst; pose proof (data_not_state id); pose proof (dir_not_state id).
  assert (<[uploadStateFile id:=File data now]> fs !! uploadDir id = Some Dir) as Hd'
    by (rewrite lookup_insert_ne by congruence; done).
  split.
  - unfold is_file; by rewrite Hd'.
  - intros n; rewrite Hd', lookup_insert_ne by congruence; intros Hn; split; [done|by apply H2].
  - intros n; rewrite lookup_insert_eq; intros [= <-]; split; [done|]; by eexists _, _.
Qed.

(** What a write of the session's state may leave of it. *)
Definition state_written (fs fs' : FileSystem) (id : string) (st : UploadState) (r : res unit) (calm : Prop) : Prop :=
  r = Ok tt ∧ state_at fs' id = Some st
  ∨ (∃ e, r = Err (OtherError e))
    ∧ (state_at fs' id = state_at fs id ∨ state_at fs' id = None ∨ state_at fs' id = Some st) ∧ ¬ calm.

Lemma wp_writeUploadState id st db fs sc n (Q : res unit → RegWorld → Prop) :
  fs_wf fs → GoodID id → state_ok id (session_path id) st → fs !! uploadDir id = Some Dir →
  (∀ fs' r, same_outside id fs fs' → session_wf fs' id → fs' !! uploadFile id = fs !! uploadFile id →
     fs' !! uploadDir id = Some Dir →
     state_written fs fs' id st r (world_calm (mkRegWorld db fs sc n)) → Q r (mkRegWorld db fs' sc (S n))) →
  wp (writeUploadState st) Q (mkRegWorld db fs sc n).
Proof.
  intros Hfs Hid Hok Hd HQ; unfold writeUploadState; repeat fs_step.
  destruct (codec_law id (session_path id) st (good_id_ascii id Hid) (session_path_ascii id Hid) Hok)
    as (p & -> & Hu & Hpre).
  replace (up_ID st) with id by (symmetry; apply Hok).
  assert (∀ data now, let fs' := <[uploadStateFile id := File data now]> fs in
    state_at fs' id = (match unmarshal_upload data with Ok s => Some s | Err _ => None end)) as Hsa
    by (intros data now; unfold state_at; simpl; by rewrite lookup_insert_eq).
  assert (∀ data now r, (∀ s, unmarshal_upload data = Ok s → s = st) →
    state_written fs (<[uploadStateFile id := File data now]> fs) id st r (world_calm (mkRegWorld db fs sc n)) →
    Q r (mkRegWorld db (<[uploadStateFile id := File data now]> fs) sc (S n))) as HQ'.
  { intros data now r Hs Hw; apply HQ; try done.
    - apply same_outside_insert, state_prefix.
    - apply session_wf_state; [by apply fw_session|done|intros s Hx%Hs; by subst].
    - apply lookup_insert_ne, not_eq_sym, data_not_state.
    - rewrite lookup_insert_ne; [done|apply not_eq_sym, dir_not_state]. }
  repeat fs_step; unfold wp, os_write_file, os_write_call, os_call; simpl.
  destruct (renv_fault n) as [e|] eqn:Hfault; simpl; rewrite ?write_state by done; simpl.
  2: { apply (HQ' p _ (Ok tt)); [intros s; rewrite Hu; by intros [= <-]|]; left; split; [done|]; by rewrite Hsa, Hu. }
  destruct (renv_partial n) as [|k]; simpl; rewrite ?write_state by done; simpl.
  - apply HQ; try done; [by apply fw_session|]; right; repeat split; [by eexists|by left|not_calm].
  - destruct (le_lt_dec (String.length p) k) as [Hk|Hk].
    + rewrite (substring_all k p) by done; apply HQ'; [intros s; rewrite Hu; by intros [= <-]|].
      right; repeat split; [by eexists|right; right; by rewrite Hsa, Hu|not_calm].
    + specialize (Hpre k Hk); destruct (unmarshal_upload (substring 0 k p)) eqn:Hsub; [done|].
      apply HQ'; [intros s; by rewrite Hsub|]; right; repeat split; [by eexists|right; left; by rewrite Hsa, Hsub|not_calm].
Qed.

(** An outcome confined to one session. *)
Lemma session_outcome {A} id db fs sc n fs' m (spec slack : Registry → res A → Registry → Prop) r :
  GoodID id → fs_wf fs → same_outside id fs fs' → session_wf fs' id → (n ≤ m)%nat →
  (let V := view_of (mkRegWorld db fs sc n) in
   spec V r (set_session id (session_at fs' id) V)
   ∨ slack V r (set_session id (session_at fs' id) V) ∧ ¬ world_calm (mkRegWorld db fs sc n)) →
  fs_outcome spec slack (mkRegWorld db fs sc n) r (mkRegWorld db fs' sc m).
Proof.
  intros Hid Hfs Hs Hsw Hm HV; split; [by eapply wf_same_outside|split; [done|split; [exact Hm|]]].
  pose proof (view_after_session (mkRegWorld db fs sc n) fs' m id Hid Hs) as Hv; simpl in Hv; by rewrite Hv.
Qed.

Lemma lookup_session db fs sc n id : fs_wf fs → GoodID id →
  match fs !! uploadFile id with
  | Some nd => ∃ c t, nd = File c t ∧ time_ok t ∧ fs !! uploadDir id = Some Dir
      ∧ rg_incoming (view_of (mkRegWorld db fs sc n)) !! id = Some (mkSession c (state_at fs id))
  | None => missing fs (uploadFile id) = ErrNotExist
      ∧ rg_incoming (view_of (mkRegWorld db fs sc n)) !! id = None
  end.
Proof.
  intros Hfs Hid; simpl; rewrite lookup_view_incoming; destruct (fs !! uploadFile id) as [nd|] eqn:Hd.
  - destruct (data_file _ _ _ Hfs Hid Hd) as (c & t & -> & Ht & Hdir); exists c, t; repeat split; try done; try apply Ht.
    by eapply session_at_data.
  - split; [by apply uploads_missing|]; unfold session_at; rewrite Hd; by destruct (good_id_b id).
Qed.

Lemma append_data fs id c t x now :
  GoodID id → fs_wf fs → fs !! uploadFile id = Some (File c t) → time_ok now →
  ∃ fs' t', fs_append fs (uploadFile id) x now = Ok fs' ∧ same_outside id fs fs' ∧ session_wf fs' id
    ∧ state_at fs' id = state_at fs id ∧ fs' !! uploadDir id = Some Dir
    ∧ fs' !! uploadFile id = Some (File (String.append c x) t') ∧ time_ok t'.
Proof.
  intros Hid Hfs Hd Hnow; unfold fs_append; rewrite Hd.
  destruct (data_file _ _ _ Hfs Hid Hd) as (c' & t0 & [= <- <-] & Ht & Hdir).
  destruct (String.eqb_spec x "") as [->|Hx].
  - rewrite append_nil_r; exists fs, t; split_and!; try done; try (by apply fw_session); apply Ht.
  - pose proof (data_not_state id) as Hds; pose proof (dir_not_data id) as Hdd.
    eexists _, now; split; [reflexivity|]; split; [by apply same_outside_insert, file_prefix|].
    assert (<[uploadFile id:=File (c +:+ x) now]> fs !! uploadDir id = Some Dir) as Hdir'
      by (rewrite lookup_insert_ne by congruence; done).
    split_and!; try apply Hnow; [|unfold state_at; by rewrite lookup_insert_ne|done|by rewrite lookup_insert_eq].
    destruct (fw_session _ Hfs id Hid) as [H1 H2 H3]; split.
    + unfold is_file; by rewrite Hdir'.
    + intros n; rewrite lookup_insert_eq; intros [= <-]; split; [done|]; by eexists _, _.
    + intros n; rewrite lookup_insert_ne by done; intros Hn; split; [done|by apply (H3 n)].
Qed.
End Sessions.

Section SessionOperations.
Context `{RegEnvLaws}.

Lemma fs_GetUpload_outcome id w :
  GoodID id → fs_wf (rw_fs w) → wp (fs_GetUpload id) (fs_outcome (spec_get id) unchanged w) w.
Proof.
  destruct w as [db fs sc n]; intros Hid Hfs; simpl in Hfs; apply wp_GetUpload; [done..| |].
  - intros e m Hm Hc; same_files; right; split; [split; [done|by eexists]|done].
  - intros m Hm; pose proof (lookup_session db fs sc n id Hfs Hid) as Hl.
    assert (∀ r, (match session_state (view_of (mkRegWorld db fs sc n)) id with
      | Some (data, st) => ∃ st', r = Ok st' ∧ continued st st' data | None => ∃ e, r = Err e end) →
      fs_outcome (spec_get id) unchanged (mkRegWorld db fs sc n) r (mkRegWorld db fs sc m)) as Ho.
    { intros r Hr; same_files; left; split; [done|exact Hr]. }
    destruct (fs !! uploadFile id) as [nd|] eqn:Hd.
    + destruct Hl as (c & t & -> & Ht & _ & Hl); destruct (state_at fs id) as [st|] eqn:Hst.
      * destruct (upload_at_continued fs id st c t Hfs Hid Hd Hst) as [-> Hcont]; apply Ho.
        unfold session_state; rewrite Hl; simpl; eauto.
      * unfold upload_at; rewrite Hd, Hst; intros e; apply Ho; unfold session_state; rewrite Hl; simpl; eauto.
    + unfold upload_at; rewrite Hd; intros e; apply Ho; unfold session_state; destruct Hl as [_ ->]; simpl; eauto.
Qed.

(** The end of a chunk: the state is read, refreshed and written back. *)
Lemma wp_refresh id db fs sc n (Q : res UploadState → RegWorld → Prop) c t :
  fs_wf fs → GoodID id → fs !! uploadFile id = Some (File c t) →
  (∀ e m, (n ≤ m)%nat → ¬ world_calm (mkRegWorld db fs sc n) → Q (Err (OtherError e)) (mkRegWorld db fs sc m)) →
  (state_at fs id = None → ∀ e m, (n ≤ m)%nat → Q (Err e) (mkRegWorld db fs sc m)) →
  (∀ st fs' m r, state_at fs id = Some st → (n ≤ m)%nat →
     same_outside id fs fs' → session_wf fs' id → fs' !! uploadFile id = fs !! uploadFile id →
     state_written fs fs' id (refresh id st c t) r (world_calm (mkRegWorld db fs sc n)) →
     Q (match r with Ok _ => Ok (refresh id st c t) | Err e => Err e end) (mkRegWorld db fs' sc m)) →
  wp (let! state := fs_GetUpload id in do! writeUploadState state in sret state) Q (mkRegWorld db fs sc n).
Proof.
  intros Hfs Hid Hd Hfault Hnone HQ; fs_step; apply wp_GetUpload; [done..| |].
  - intros; by apply Hfault.
  - intros m Hm; unfold upload_at; rewrite Hd; destruct (state_at fs id) as [st|] eqn:Hst; [|by intros; apply Hnone].
    destruct (data_file _ _ _ Hfs Hid Hd) as (? & ? & [= <- <-] & Ht & Hdir).
    fs_step; apply wp_writeUploadState with (id:=id); try done.
    { apply refresh_ok; [by eapply state_at_ok|done]. }
    intros fs' r Hs Hsw Hdata _ Hwr.
    assert (state_written fs fs' id (refresh id st c t) r (world_calm (mkRegWorld db fs sc n))) as Hwr'.
    { destruct Hwr as [Hwr|(He & Hs' & Hc)]; [by left|right; repeat split; try done].
      intros Hcalm; apply Hc; intros k Hk; apply Hcalm; simpl in *; lia. }
    specialize (HQ st fs' (S m) r eq_refl ltac:(lia) Hs Hsw Hdata Hwr'); by destruct r as [[]|].
Qed.

Lemma fs_PutUploadChunk_outcome id chunk w :
  GoodID id → fs_wf (rw_fs w) →
  wp (fs_PutUploadChunk id chunk) (fs_outcome (spec_put id chunk) (slack_put id) w) w.
Proof.
  destruct w as [db fs sc n]; intros Hid Hfs; simpl in Hfs; unfold fs_PutUploadChunk, os_open.
  pose proof (lookup_session db fs sc n id Hfs Hid) as Hl.
  repeat fs_step; [same_files; right; split; [split; [by eexists|by left]|not_calm]|].
  unfold fs_read at 1; destruct (fs !! uploadFile id) as [nd|] eqn:Hd.
  2: { destruct Hl as [-> Hl]; simpl; fs_step; same_files; left; unfold spec_put; simpl in Hl; simpl; by rewrite Hl. }
  destruct Hl as (c & t & -> & Ht & Hdir & Hl); repeat fs_step.
  unfold wp at 1, os_append, os_write_call, os_call; simpl.
  destruct (renv_fault (S n)) as [e|] eqn:Hfault; simpl.
  - destruct (append_data fs id c t (substring 0 (renv_partial (S n)) (rd_Data chunk)) (renv_now (S n)) Hid Hfs Hd
      (renv_now_law _)) as (fs1 & t1 & -> & Hs & Hsw & Hst & _ & Hd1 & _); repeat fs_step.
    eapply (session_outcome id); try done; [lia|]; right; split; [|not_calm].
    split; [by eexists|right]; eexists _, _; split; [exact Hl|split].
    { by rewrite (session_at_data fs1 id _ t1 Hid Hd1). }
    simpl; rewrite Hst; eauto.
  - destruct (append_data fs id c t (rd_Data chunk) (renv_now (S n)) Hid Hfs Hd
      (renv_now_law _)) as (fs1 & t1 & -> & Hs & Hsw & Hst & Hdir1 & Hd1 & _); simpl; repeat fs_step.
    assert (fs_wf fs1) as Hfs1 by (by eapply wf_same_outside).
    assert (∀ fs2 m r, session_wf fs2 id → same_outside id fs1 fs2 → (n ≤ m)%nat →
      fs2 !! uploadFile id = fs1 !! uploadFile id →
      (let V := view_of (mkRegWorld db fs sc n) in
       let V' := set_session id (Some (mkSession (String.append c (rd_Data chunk)) (state_at fs2 id))) V in
       spec_put id chunk V r V' ∨ slack_put id V r V' ∧ ¬ world_calm (mkRegWorld db fs sc n)) →
      fs_outcome (spec_put id chunk) (slack_put id) (mkRegWorld db fs sc n) r (mkRegWorld db fs2 sc m)) as Ho.
    { intros fs2 m r Hsw2 Hs2 Hm Hd2 HV; eapply (session_outcome id); try done.
      - by eapply same_outside_trans.
      - rewrite (session_at_data fs2 id _ t1 Hid (eq_trans Hd2 Hd1)); exact HV. }
    destruct (rd_Err chunk) as [e|] eqn:Hrd; cbv beta iota.
    { apply Ho; try done; [lia|]; left; unfold spec_put; rewrite Hl, Hrd; simpl; rewrite Hst; by split; [eexists|]. }
    apply (wp_refresh id _ _ _ _ _ (String.append c (rd_Data chunk)) t1); try done.
    + intros e m Hm Hc; apply Ho; try done; [lia|]; right; split.
      * split; [by eexists|right]; eexists _, _; split; [exact Hl|split; [done|]]; simpl; rewrite Hst; eauto.
      * intros Hcalm; apply Hc; intros k Hk; apply Hcalm; simpl in *; lia.
    + intros Hnone e m Hm; apply Ho; try done; [lia|]; left; unfold spec_put; rewrite Hl, Hrd; simpl.
      rewrite <- Hst, Hnone; by split; [eexists|].
    + intros st fs2 m r Hst1 Hm Hs2 Hsw2 Hd2 Hwr; apply Ho; try done; [lia|].
      destruct (upload_at_continued fs1 id st _ t1 Hfs1 Hid Hd1 Hst1) as [_ Hcont].
      destruct Hwr as [[-> Hst2]|((e & ->) & Hst2 & Hc)].
      * left; unfold spec_put; rewrite Hl, Hrd; simpl; rewrite <- Hst, Hst1; eexists; split_and!; [done|exact Hcont|].
        by rewrite Hst2.
      * right; split.
        -- split; [by eexists|right]; eexists _, _; split; [exact Hl|split; [done|]]; simpl.
           intros st' Hst'; exists st; rewrite <- Hst, Hst1; split; [done|].
           destruct Hst2 as [Hx|[Hx|Hx]]; rewrite Hx in Hst'; [|done|by injection Hst' as <-].
           rewrite Hst1 in Hst'; by injection Hst' as <-.
        -- intros Hcalm; apply Hc; intros k Hk; apply Hcalm; simpl in *; lia.
Qed.

Lemma new_id_good n db fs : GoodID (hex_encode (renv_rand n db fs 16)).
Proof.
  destruct (renv_rand_law n db fs) as [Hl Hb]; split; [by rewrite length_hex_encode, Hl|by apply hex_encode_lower].
Qed.

(** Making the directory of a session changes nothing one can see. *)
Lemma mkdir_session fs id : fs_wf fs → GoodID id →
  let fs' := <[uploadDir id := Dir]> fs in
  fs_mkdir_all fs (uploadDir id) = Ok fs' ∧ same_outside id fs fs' ∧ session_wf fs' id
  ∧ fs' !! uploadDir id = Some Dir ∧ fs' !! uploadFile id = fs !! uploadFile id
  ∧ session_at fs' id = session_at fs id.
Proof.
  intros Hfs Hid; simpl; pose proof (fw_session _ Hfs id Hid) as [H1 H2 H3].
  pose proof (dir_not_data id); pose proof (dir_not_state id); split_and!.
  - rewrite uploadDir_eq in * by done; apply mkdir_all_snoc; [by apply fw_uploads|done].
  - by apply same_outside_insert.
  - split; [unfold is_file; by rewrite lookup_insert_eq|..]; intros n; rewrite lookup_insert_eq, lookup_insert_ne by done;
      intros Hn; split; [done|by apply (H2 n)|done|by apply (H3 n)].
  - by rewrite lookup_insert_eq.
  - by rewrite lookup_insert_ne.
  - unfold session_at, state_at; by rewrite !lookup_insert_ne.
Qed.

(** Creating the data file of a session. *)
Lemma create_data fs id now : session_wf fs id → fs !! uploadDir id = Some Dir →
  fs !! uploadFile id = None → time_ok now →
  let fs' := <[uploadFile id := File "" now]> fs in
  fs_create_excl fs (uploadFile id) now = Ok fs' ∧ same_outside id fs fs' ∧ session_wf fs' id
  ∧ fs' !! uploadDir id = Some Dir.
Proof.
  intros [H1 H2 H3] Hdir Hd Hnow; simpl; pose proof (dir_not_data id); pose proof (data_not_state id).
  assert (<[uploadFile id := File "" now]> fs !! uploadDir id = Some Dir) as Hdir'
    by (rewrite lookup_insert_ne by congruence; done).
  split_and!; [|by apply same_outside_insert, file_prefix| |done].
  - unfold fs_create_excl; rewrite Hd; rewrite uploadFile_eq at 1; unfold parent; rewrite removelast_last.
    by rewrite is_dir_lookup.
  - split; [unfold is_file; by rewrite Hdir'|..]; intros n; rewrite Hdir'.
    + rewrite lookup_insert_eq; intros [= <-]; split; [done|]; by eexists _, _.
    + rewrite lookup_insert_ne by done; intros Hn; split; [done|by apply (H3 n)].
Qed.

Lemma new_state_ok id repo now : RepositoryRef_Validate repo = Ok tt → time_ok now →
  state_ok id (session_path id) (mkUpload id repo UploadStatusActive 0 now now (path_string (uploadFile id))).
Proof.
  intros Hr%RepositoryRef_Validate_ok Hn; unfold state_ok; simpl; split_and!; try done; try apply Hn; lia.
Qed.

Lemma state_at_id fs id st : session_wf fs id → state_at fs id = Some st → up_ID st = id.
Proof.
  intros Hsw; unfold state_at; destruct (fs !! uploadStateFile id) as [n|] eqn:Hn; [|done].
  destruct (sw_state fs id Hsw n Hn) as (_ & c & t & -> & Hst).
  destruct (unmarshal_upload c) as [s|] eqn:Hu; [|done]; intros [= <-]; by destruct (Hst s eq_refl).
Qed.

Lemma fs_BeginUpload_outcome repo w :
  fs_wf (rw_fs w) → wp (fs_BeginUpload repo) (fs_outcome (spec_begin repo) slack_begin w) w.
Proof.
  destruct w as [db fs sc n]; intros Hfs; simpl in Hfs; unfold fs_BeginUpload, spec_begin, guarded.
  fs_step; fs_step; destruct (RepositoryRef_Validate repo) as [[]|e] eqn:Hv; [|same_files; by left].
  fs_step; unfold wp at 1, newUploadID; simpl; destruct (renv_fault n) as [e|] eqn:Hf0; open_world.
  { same_files; right; split; [split; [by eexists|by left]|not_calm]. }
  set (id := hex_encode (renv_rand n db fs 16)); pose proof (new_id_good n db fs : GoodID id) as Hid.
  destruct (mkdir_session fs id Hfs Hid) as (Hmk & Hs1 & Hsw1 & Hdir1 & Hd1 & Hses1).
  set (fs1 := <[uploadDir id := Dir]> fs) in *.
  assert (set_session id (session_at fs id) (view_of (mkRegWorld db fs sc n)) = view_of (mkRegWorld db fs sc n)) as Hself
    by (by apply set_session_same).
  pose proof (lookup_session db fs sc n id Hfs Hid) as Hl.
  repeat fs_step; [same_files; right; split; [split; [by eexists|by left]|not_calm]|].
  rewrite Hmk; repeat fs_step.
  { eapply (session_outcome id); try done; [lia|]; simpl; rewrite Hses1, Hself; right.
    split; [split; [by eexists|by left]|not_calm]. }
  destruct (fs !! uploadFile id) as [nd|] eqn:Hd.
  { unfold fs_create_excl; rewrite Hd1; repeat fs_step.
    eapply (session_outcome id); try done; [lia|]; simpl; rewrite Hses1, Hself; left; right.
    destruct Hl as (c & t & _ & _ & _ & Hl); split; [|split; [done|by eexists]]; exists id; split; [done|].
    eexists; exact Hl. }
  destruct (create_data fs1 id (renv_now (S (S n))) Hsw1 Hdir1 Hd1 (renv_now_law _)) as (Hcr & Hs2 & Hsw2 & Hdir2).
  rewrite Hcr; set (fs2 := <[uploadFile id := File "" _]> fs1) in *; repeat fs_step.
  assert (same_outside id fs fs2) as Hs02 by (by eapply same_outside_trans).
  assert (fs_wf fs2) as Hfs2 by (by eapply wf_same_outside).
  apply wp_writeUploadState with (id:=id); [done..|by apply new_state_ok, renv_now_law|done|].
  intros fs3 r Hs3 Hsw3 Hd3 _ Hwr; set (st := mkUpload id repo _ _ _ _ _) in *.
  assert (∃ t, fs3 !! uploadFile id = Some (File "" t)) as [t Ht]
    by (rewrite Hd3; unfold fs2; rewrite lookup_insert_eq; by eexists).
  assert (∀ r', (r' = Ok st ∧ state_at fs3 id = Some st
    ∨ (∃ e, r' = Err (OtherError e)) ∧ ¬ world_calm (mkRegWorld db fs sc n)) →
    fs_outcome (session_begun repo) slack_begin (mkRegWorld db fs sc n) r'
      (mkRegWorld db fs3 sc (S (S (S (S (S n))))))) as Ho.
  { intros r' Hr'; eapply (session_outcome id); try done; [by eapply same_outside_trans|lia|].
    rewrite (session_at_data fs3 id "" t Hid Ht).
    destruct Hl as [_ Hl], Hr' as [[-> ->]|[(e & ->) Hc]].
    - left; left; exists id, (up_StartedAt st), st; split_and!; try done.
      unfold begun; split_and!; try done; eapply state_ok_valid; [done|]; by apply new_state_ok, renv_now_law.
    - right; split; [split; [by eexists|right]|done]; exists id, (mkSession "" (state_at fs3 id)); split_and!; try done.
      intros st'; by apply state_at_id. }
  destruct Hwr as [[-> Hst]|((e & ->) & _ & Hc)]; repeat fs_step; apply Ho; [by left|right; split; [by eexists|]].
  intros Hcalm; apply Hc; intros k Hk; apply Hcalm; simpl in *; lia.
Qed.

(** Removing the directory of a session. *)
Lemma remove_session fs id : GoodID id →
  let fs' := fs_remove_all fs (uploadDir id) in
  same_outside id fs fs' ∧ session_wf fs' id ∧ session_at fs' id = None.
Proof.
  intros Hid fs'.
  assert (∀ p, uploadDir id `prefix_of` p → fs' !! p = None) as Hn.
  { intros p Hp; apply map_lookup_filter_None; right; intros nd _; simpl; by rewrite bool_decide_eq_true_2. }
  split_and!.
  - intros p Hp; unfold fs', fs_remove_all; destruct (fs !! p) as [nd|] eqn:Hq.
    + apply map_lookup_filter_Some; split; [done|]; simpl; by rewrite bool_decide_eq_false_2.
    + apply map_lookup_filter_None; by left.
  - split; [unfold is_file; by rewrite Hn|..]; intros nd; rewrite Hn; auto using file_prefix, state_prefix; done.
  - unfold session_at; rewrite Hn by apply file_prefix; by destruct (good_id_b id).
Qed.

(** A removal that failed leaves the session, or a part of it, or nothing. *)
Lemma remove_some_session gone fs id : GoodID id → session_wf fs id →
  let fs' := fs_remove_some fs gone (uploadDir id) in
  same_outside id fs fs' ∧ session_wf fs' id
  ∧ (session_at fs' id = session_at fs id ∨ session_at fs' id = None
     ∨ ∃ s, session_at fs id = Some s ∧ session_at fs' id = Some (mkSession (ss_Data s) None)).
Proof.
  intros Hid [Wd Wf Ws] fs'.
  assert (∀ q, fs' !! q = fs !! q ∨ uploadDir id `prefix_of` q ∧ q ≠ uploadDir id ∧ fs' !! q = None) as Hq.
  { intros q; unfold fs', fs_remove_some; rewrite map_lookup_filter; destruct (fs !! q); [|by left]; simpl.
    destruct (remains_or gone (uploadDir id) (map fst (map_to_list fs)) q) as [->|[Hp Hn]]; [by left|].
    case_guard; [by left|by right]. }
  assert (fs' !! uploadDir id = fs !! uploadDir id) as Hd by (destruct (Hq (uploadDir id)) as [?|(_ & ? & _)]; done).
  assert (∀ q n, fs' !! q = Some n → fs !! q = Some n) as Hsub by (intros q n; destruct (Hq q) as [->|(_ & _ & ->)]; done).
  split; [|split].
  - intros q Hn; by destruct (Hq q) as [?|[? _]].
  - split; [by rewrite (is_file_same fs fs')|..]; rewrite Hd; intros n Hn%Hsub; auto.
  - unfold session_at, state_at; destruct (good_id_b id); [|by left]; destruct (Hq (uploadFile id)) as [->|(_ & _ & ->)]; [|right; by left].
    destruct (fs !! uploadFile id) as [[|c t]|]; [by left| |by left].
    destruct (Hq (uploadStateFile id)) as [->|(_ & _ & ->)]; [by left|right; right; by eexists].
Qed.
Lemma left_session gone db fs sc n m id : fs_wf fs → GoodID id →
  let fs' := fs_remove_some fs gone (uploadDir id) in
  fs_wf fs' ∧ left_over id (view_of (mkRegWorld db fs sc n)) (view_of (mkRegWorld db fs' sc m)).
Proof.
  intros Hfs Hid fs'; destruct (remove_some_session gone fs id Hid (fw_session _ Hfs id Hid)) as (Hs & Hsw & Hl).
  fold fs' in Hs, Hsw, Hl; split; [by eapply wf_same_outside|]; pose proof (view_after_session (mkRegWorld db fs sc n) fs' m id Hid Hs) as Hv.
  simpl in Hv; rewrite Hv; destruct Hl as [->|[->|(s & Hin & ->)]].
  - left; by apply set_session_same.
  - right; by left.
  - right; right; exists s; split; [|done]; simpl; by rewrite lookup_view_incoming.
Qed.

Lemma fs_CancelUpload_outcome id w :
  GoodID id → fs_wf (rw_fs w) → wp (fs_CancelUpload id) (fs_outcome (spec_cancel id) (slack_cancel id) w) w.
Proof.
  destruct w as [db fs sc n]; intros Hid Hfs; simpl in Hfs; unfold fs_CancelUpload.
  repeat fs_step.
  { destruct (left_session (renv_removed n) db fs sc n (S n) id Hfs Hid) as [Hfs' Hl].
    split; [done|split; [done|split; [unfold world_later; simpl; lia|]]]; right; split; [split; [by eexists|exact Hl]|not_calm]. }
  destruct (remove_session fs id Hid) as (Hs & Hsw & Hn).
  eapply (session_outcome id); try done; [lia|]; rewrite Hn; by left.
Qed.
End SessionOperations.

(** ** Committing *)

Section Commit.
Context `{RegEnvLaws}.
#[local] Opaque DigestFromBytes.

Lemma algorithm_not_blob d : valid_digest d = true → algorithmDir ≠ blobPath d.
Proof. intros Hd; rewrite blobPath_eq by done; intros Hp%(f_equal length); rewrite length_snoc in Hp; fold algorithmDir in Hp; lia. Qed.

(** A change of the blob tree leaves the sessions alone. *)
Lemma blobs_only fs fs' :
  (∀ p, ¬ blobsRoot `prefix_of` p → fs' !! p = fs !! p) →
  (∀ id, GoodID id → session_wf fs id → session_wf fs' id) ∧ view_incoming fs' = view_incoming fs.
Proof.
  intros Hs.
  assert (∀ id p, GoodID id → uploadDir id `prefix_of` p → fs' !! p = fs !! p) as Hs'
    by (intros id p Hid Hp; apply Hs; intros Hb; by eapply outside_blobs).
  split; [intros id Hid; apply session_wf_same; eauto|].
  apply map_eq; intros id; rewrite !lookup_view_incoming.
  destruct (good_id_b id) eqn:Hid; [|unfold session_at; by rewrite Hid].
  apply good_id_spec in Hid; apply session_at_same; eauto.
Qed.

Lemma uploads_not_blob q : q `prefix_of` uploadsRoot → ¬ blobsRoot `prefix_of` q.
Proof.
  intros Hq Hb; assert (blobsRoot `prefix_of` uploadsRoot) as [k Hk] by (by etransitivity).
  rewrite blobsRoot_eq, uploadsRoot_eq, <- app_assoc in Hk; by apply app_inv_head in Hk.
Qed.

Lemma shallow_blob q : q `prefix_of` blobsRoot → ¬ algorithmDir `prefix_of` q.
Proof.
  intros Hq%prefix_length; apply not_prefix_length; unfold algorithmDir; rewrite length_snoc; lia.
Qed.

Lemma mkdir_algorithm fs : fs_wf fs →
  let fs' := <[algorithmDir := Dir]> fs in
  fs_mkdir_all fs algorithmDir = Ok fs' ∧ fs_wf fs' ∧ view_blobs fs' = view_blobs fs
  ∧ view_incoming fs' = view_incoming fs.
Proof.
  intros Hfs fs'.
  assert (∀ p, p ≠ algorithmDir → fs' !! p = fs !! p) as Hne by (intros p Hp; by apply lookup_insert_ne).
  destruct (blobs_only fs fs') as [Hses Hinc]; [intros p Hp; apply Hne; intros ->; by apply Hp, algorithm_prefix|].
  split_and!; [by apply mkdir_all_snoc; [apply fw_blobs|apply fw_algorithm]| | |done].
  - split.
    + eapply dirs_same; [by apply fw_blobs|]; intros q Hq; apply Hne; intros ->; by apply (shallow_blob algorithmDir).
    + eapply dirs_same; [by apply fw_uploads|]; intros q Hq; apply Hne; intros ->.
      by apply (uploads_not_blob algorithmDir), algorithm_prefix.
    + unfold is_file, fs'; by rewrite lookup_insert_eq.
    + intros d n Hv; rewrite Hne by (by apply not_eq_sym, algorithm_not_blob).
      unfold fs'; rewrite lookup_insert_eq; intros Hn; split; [done|]; by eapply fw_blob.
    + intros id Hid; apply Hses; [done|by apply fw_session].
  - apply view_blobs_same; intros d Hd; by apply Hne, not_eq_sym, algorithm_not_blob.
Qed.

(** Putting a file at the path of a blob. *)
Lemma insert_blob fs d c t : fs_wf fs → valid_digest d = true → fs !! algorithmDir = Some Dir →
  let fs' := <[blobPath d := File c t]> fs in
  fs_wf fs' ∧ view_blobs fs' = <[d := mkBlobFile c t]> (view_blobs fs)
  ∧ view_incoming fs' = view_incoming fs.
Proof.
  intros Hfs Hd Hdir fs'.
  assert (∀ p, p ≠ blobPath d → fs' !! p = fs !! p) as Hne by (intros p Hp; by apply lookup_insert_ne).
  assert (fs' !! algorithmDir = Some Dir) as Hdir' by (rewrite Hne; [done|by apply algorithm_not_blob]).
  assert (algorithmDir `prefix_of` blobPath d) as Hap by (rewrite blobPath_eq by done; by eexists).
  destruct (blobs_only fs fs') as [Hses Hinc]; [intros p Hp; apply Hne; intros ->; by apply Hp, blob_prefix|].
  split_and!; [|apply map_eq; intros d'; rewrite lookup_view_blobs; unfold blob_at|done].
  - split.
    + eapply dirs_same; [by apply fw_blobs|]; intros q Hq; apply Hne; intros ->; by apply (shallow_blob (blobPath d)).
    + eapply dirs_same; [by apply fw_uploads|]; intros q Hq; apply Hne; intros ->.
      by apply (uploads_not_blob (blobPath d)), blob_prefix.
    + unfold is_file; by rewrite Hdir'.
    + intros d' n Hv'; rewrite Hdir'; intros Hn; split; [done|].
      destruct (decide (blobPath d' = blobPath d)) as [Heq|Hx].
      * rewrite Heq in Hn; unfold fs' in Hn; rewrite lookup_insert_eq in Hn; injection Hn as <-; by eexists _, _.
      * rewrite Hne in Hn by done; by eapply fw_blob.
    + intros id Hid; apply Hses; [done|by apply fw_session].
  - destruct (decide (d = d')) as [<-|Hx].
    + by rewrite Hd, lookup_insert_eq; unfold fs'; rewrite lookup_insert_eq.
    + rewrite (lookup_insert_ne (view_blobs fs)), lookup_view_blobs by done; unfold blob_at.
      destruct (valid_digest d') eqn:Hd'; [|done]; rewrite Hne; [done|].
      rewrite !blobPath_eq by done; intros [_ He]%app_inj_tail.
      apply Hx; rewrite (digest_of_Encoded d), (digest_of_Encoded d'), He by done; done.
Qed.

(** Taking the data file of a session away. *)
Lemma take_data fs id : fs_wf fs → GoodID id →
  let fs' := delete (uploadFile id) fs in
  same_outside id fs fs' ∧ session_wf fs' id ∧ session_at fs' id = None.
Proof.
  intros Hfs Hid fs'; pose proof (dir_not_data id); pose proof (data_not_state id).
  destruct (fw_session _ Hfs id Hid) as [H1' H2' H3'].
  assert (fs' !! uploadDir id = fs !! uploadDir id) as Hdir by (apply lookup_delete_ne; congruence).
  split_and!.
  - intros p Hp; apply lookup_delete_ne; intros <-; by apply Hp, file_prefix.
  - split; [by rewrite (is_file_same fs)|..]; intros nd; rewrite Hdir; unfold fs'.
    + by rewrite lookup_delete_eq.
    + rewrite lookup_delete_ne by done; apply H3'.
  - unfold session_at, fs'; rewrite lookup_delete_eq; by destruct (good_id_b id).
Qed.

(** The rename of a session's data to the blob it hashes to. *)
Lemma rename_data db fs sc n m id d c t : fs_wf fs → GoodID id → valid_digest d = true →
  fs !! algorithmDir = Some Dir → fs !! uploadFile id = Some (File c t) →
  ∃ fs', fs_rename fs (uploadFile id) (blobPath d) = Ok fs' ∧ fs_wf fs'
    ∧ view_of (mkRegWorld db fs' sc m)
      = add_blob d (mkBlobFile c t) (set_session id None (view_of (mkRegWorld db fs sc n))).
Proof.
  intros Hfs Hid Hv Hdir Hd; destruct (take_data fs id Hfs Hid) as (Hs & Hsw & Hnone).
  set (fs1 := delete (uploadFile id) fs) in *.
  assert (fs_wf fs1) as Hfs1 by (by eapply wf_same_outside).
  assert (fs1 !! algorithmDir = Some Dir) as Hdir1
    by (rewrite Hs; [done|apply outside_blobs, algorithm_prefix; done]).
  destruct (insert_blob fs1 d c t Hfs1 Hv Hdir1) as (Hfs2 & Hb & Hi).
  exists (<[blobPath d := File c t]> fs1); split_and!; [|done|].
  - unfold fs_rename; rewrite Hd; assert (is_dir fs (parent (blobPath d)) = true) as Hp
      by (rewrite blobPath_eq by done; unfold parent; rewrite removelast_last; by apply is_dir_lookup).
    destruct (fs !! blobPath d) as [nd|] eqn:Hbd; [|by rewrite Hp].
    destruct (fw_blob _ Hfs d nd Hv Hbd) as (_ & ? & ? & ->); by rewrite Hp.
  - pose proof (view_after_session (mkRegWorld db fs sc n) fs1 m id Hid Hs) as Hview; simpl in Hview.
    rewrite Hnone in Hview; rewrite <- Hview; unfold view_of, add_blob, put_blobs; simpl; by rewrite Hb, Hi.
Qed.

Lemma set_session_twice id V d f :
  set_session id None (add_blob d f (set_session id None V)) = add_blob d f (set_session id None V).
Proof.
  unfold set_session, add_blob, put_blobs, put_incoming; simpl; f_equal.
  rewrite partial_alter_partial_alter_eq; by apply partial_alter_ext.
Qed.

Lemma view_calls db fs sc n m : view_of (mkRegWorld db fs sc n) = view_of (mkRegWorld db fs sc m).
Proof. done. Qed.

Lemma fs_CommitUpload_outcome id d w :
  GoodID id → fs_wf (rw_fs w) →
  wp (fs_CommitUpload id d) (fs_outcome (spec_commit id d) (slack_commit id d) w) w.
Proof.
  destruct w as [db fs sc n]; intros Hid Hfs; simpl in Hfs; unfold fs_CommitUpload, spec_commit, guarded.
  fs_step; fs_step; destruct (Digest_Validate d) as [u|e] eqn:Hv; [|same_files; by left].
  apply Digest_Validate_ok in Hv; pose proof (lookup_session db fs sc n id Hfs Hid) as Hl.
  repeat fs_step; [same_files; right; split; [left; by split; [|eexists]|not_calm]|].
  unfold fs_read; destruct (fs !! uploadFile id) as [nd|] eqn:Hd.
  2: { destruct Hl as [-> Hl]; simpl; fs_step; same_files; left; simpl in Hl; by rewrite Hl. }
  destruct Hl as (c & t & -> & Ht & _ & Hl); repeat fs_step; unfold DigestFromReader; simpl.
  destruct (String.eqb_spec (DigestFromBytes c) d) as [Hcd|Hcd]; simpl.
  2: { fs_step; same_files; left; simpl in Hl; rewrite Hl; simpl.
       by destruct (String.eqb_spec (DigestFromBytes c) d). }
  rewrite Hcd; destruct (mkdir_algorithm fs Hfs) as (Hmk & Hfs1 & Hb1 & Hi1).
  assert (parent (blobPath d) = algorithmDir) as -> by (rewrite blobPath_eq by done; apply removelast_last).
  set (fs1 := <[algorithmDir := Dir]> fs) in *.
  assert (∀ m, view_of (mkRegWorld db fs1 sc m) = view_of (mkRegWorld db fs sc n)) as Hv1
    by (intros m; unfold view_of; simpl; by rewrite Hb1, Hi1).
  assert (fs1 !! uploadFile id = Some (File c t)) as Hd1.
  { unfold fs1; rewrite lookup_insert_ne; [done|]; intros Hp; pose proof (outside_blobs id algorithmDir Hid algorithm_prefix) as Ho.
    apply Ho; rewrite Hp; apply file_prefix. }
  repeat fs_step; [same_files; right; split; [left; by split; [|eexists]|not_calm]|].
  rewrite Hmk; repeat fs_step.
  - split; [done|split; [done|split; [unfold world_later; simpl; lia|]]]; rewrite Hv1.
    right; split; [left; by split; [|eexists]|not_calm].
  - unfold fs_stat; pose proof (lookup_blob db fs1 sc n d Hv Hfs1) as Hbl.
    destruct (fs1 !! blobPath d) as [nd|] eqn:Hbd; repeat fs_step.
    + destruct (left_session (renv_removed (S (S (S (S n))))) db fs1 sc n (S (S (S (S (S n))))) id Hfs1 Hid) as [Hfs' Hleft].
      split; [done|split; [done|split; [unfold world_later; simpl; lia|]]]; rewrite Hv1 in Hleft.
      right; split; [|not_calm]; right; eexists; split; [exact Hl|split; [done|right]].
      destruct Hbl as (c' & t' & _ & Hbl); rewrite Hv1 in Hbl; split; [by eexists|right; split; [by eexists|exact Hleft]].
    + destruct (remove_session fs1 id Hid) as (Hs & Hsw & Hn).
      split; [by eapply wf_same_outside|split; [done|split; [unfold world_later; simpl; lia|]]].
      pose proof (view_after_session (mkRegWorld db fs1 sc n) (fs_remove_all fs1 (uploadDir id))
        (S (S (S (S (S n))))) id Hid Hs) as Hview; simpl in Hview; rewrite Hview, Hn, Hv1.
      right; split; [|not_calm]; right; eexists; split; [exact Hl|split; [done|right]].
      destruct Hbl as (c' & t' & _ & Hbl); rewrite Hv1 in Hbl; split; [by eexists|by left].
    + split; [done|split; [done|split; [unfold world_later; simpl; lia|]]]; rewrite Hv1.
      right; split; [left; by split; [|eexists]|not_calm].
  - destruct (rename_data db fs1 sc n (S (S (S n))) id d c t Hfs1 Hid Hv) as (fs2 & Hren & Hfs2 & Hview);
      [by unfold fs1; rewrite lookup_insert_eq|done|]; rewrite Hv1 in Hview.
    rewrite Hren; repeat fs_step.
    + destruct (remove_some_session (renv_removed (S (S (S n)))) fs2 id Hid (fw_session _ Hfs2 id Hid)) as (Hs & Hsw & Hn).
      split; [by eapply wf_same_outside|split; [done|split; [unfold world_later; simpl; lia|]]].
      pose proof (view_after_session (mkRegWorld db fs2 sc (S (S (S n)))) (fs_remove_some fs2 (renv_removed (S (S (S n)))) (uploadDir id))
        (S (S (S (S n)))) id Hid Hs) as Hview'; simpl in Hview'; rewrite Hview', Hview.
      assert (session_at fs2 id = None) as Hnone.
      { rewrite <- lookup_view_incoming; pose proof (f_equal (λ V, rg_incoming V !! id) Hview) as Hx; simpl in Hx; rewrite Hx.
        by rewrite lookup_partial_alter_eq. }
      assert (session_at (fs_remove_some fs2 (renv_removed (S (S (S n)))) (uploadDir id)) id = None) as ->
        by (rewrite Hnone in Hn; by destruct Hn as [?|[?|(? & [=] & _)]]).
      rewrite set_session_twice; right; split; [|not_calm]; right; eexists; split; [exact Hl|split; [done|left]]; by eexists _, _.
    + destruct (remove_session fs2 id Hid) as (Hs & Hsw & Hn).
      split; [by eapply wf_same_outside|split; [done|split; [unfold world_later; simpl; lia|]]].
      pose proof (view_after_session (mkRegWorld db fs2 sc (S (S (S n)))) (fs_remove_all fs2 (uploadDir id))
        (S (S (S (S n)))) id Hid Hs) as Hview'; simpl in Hview'; rewrite Hview', Hn, Hview, set_session_twice.
      left; rewrite Hl; simpl; rewrite Hcd, String.eqb_refl; split; [done|by eexists].
Qed.
End Commit.

(** ** Listing *)

Section Listing.
Context `{RegEnvLaws}.
#[local] Opaque DigestFromBytes.

Lemma elem_of_children fs p name nd : (name, nd) ∈ children fs p ↔ fs !! (p ++ [name]) = Some nd.
Proof.
  unfold children; rewrite list_elem_of_omap; split.
  - intros ([q nd'] & Hq%elem_of_map_to_list & He); simpl in *.
    destruct (last q) as [x|] eqn:Hl; [|done]; case_bool_decide as Hp; [|done]; injection He as -> ->.
    apply last_Some in Hl as [q' ->]; unfold parent in Hp; rewrite removelast_last in Hp; by subst.
  - intros Hq; exists (p ++ [name], nd); split; [by apply elem_of_map_to_list|]; simpl.
    rewrite last_snoc; unfold parent; rewrite removelast_last; by rewrite bool_decide_eq_true_2.
Qed.

(** The entries of one directory below [blobs]. *)
Definition entry_blobs (fs : FileSystem) (e : string * node) : list BlobFileInfo :=
  match e.2 with
  | File _ _ => []
  | Dir => list_blob_entries e.1 (sort_by fst (children fs (blobsRoot ++ [e.1])))
  end.

Lemma wp_list_entries db fs sc n l (Q : res (list (list BlobFileInfo)) → RegWorld → Prop) :
  (∀ e, e ∈ l → fs !! (blobsRoot ++ [e.1]) = Some e.2) →
  (∀ e m, (n ≤ m)%nat → ¬ world_calm (mkRegWorld db fs sc n) → Q (Err (OtherError e)) (mkRegWorld db fs sc m)) →
  (∀ m, (n ≤ m)%nat → Q (Ok (map (entry_blobs fs) l)) (mkRegWorld db fs sc m)) →
  wp (smap list_entry l) Q (mkRegWorld db fs sc n).
Proof.
  revert n Q; induction l as [|[name nd] l IH]; intros n Q Hl Hf HQ; simpl; [by apply HQ|].
  assert (∀ k, (n ≤ k)%nat → ¬ world_calm (mkRegWorld db fs sc k) → ¬ world_calm (mkRegWorld db fs sc n)) as Hcalm
    by (intros k Hk Hc Hx; apply Hc; intros j Hj; apply Hx; simpl in *; lia).
  pose proof (Hl (name, nd) ltac:(by left)) as Hn; simpl in Hn.
  assert (∀ k, (n ≤ k)%nat → wp (smap list_entry l) (λ r s', match r with
     | Ok ys => Q (Ok (entry_blobs fs (name, nd) :: ys)) s' | Err e => Q (Err e) s' end) (mkRegWorld db fs sc k)) as Hrest.
  { intros k Hk; apply IH; [intros; apply Hl; by right| |].
    - intros e m Hm Hc; apply Hf; [lia|by apply (Hcalm k)].
    - intros m Hm; apply HQ; lia. }
  fs_step; unfold list_entry at 1; destruct nd; simpl; repeat fs_step.
  - apply Hf; [lia|not_calm].
  - unfold fs_read_dir; rewrite Hn; repeat fs_step; eapply wp_conseq; [apply Hrest; lia|].
    intros [ys|e] w' Hw; repeat fs_step; exact Hw.
  - eapply wp_conseq; [apply Hrest; lia|]; intros [ys|e] w' Hw; repeat fs_step; exact Hw.
Qed.

Lemma one_separator c a b x y :
  no_char c x = true → no_char c y = true →
  String.append a (String c b) = String.append x (String c y) → a = x ∧ b = y.
Proof.
  unfold no_char; revert x; induction a as [|k a IH]; intros [|j x]; simpl; intros Hx Hy Heq.
  - by injection Heq as ->.
  - injection Heq as -> _; apply andb_true_iff in Hx as [Hc _]; by rewrite Ascii.eqb_refl in Hc.
  - injection Heq as -> <-; rewrite str_forallb_append in Hy; simpl in Hy.
    rewrite Ascii.eqb_refl, andb_false_r in Hy; done.
  - apply andb_true_iff in Hx as [_ Hx]; injection Heq as -> Heq; by destruct (IH x Hx Hy Heq) as [-> ->].
Qed.

Lemma digest_entry alg name d :
  ParseDigest (String.append alg (String.append ":" name)) = Ok d →
  valid_digest d = true ∧ alg = "sha256" ∧ name = Encoded d.
Proof.
  intros Hp; pose proof Hp as (-> & h & Heq & Hl & Hh)%ParseDigest_ok.
  assert (valid_digest (String.append alg (String.append ":" name)) = true) as Hv
    by (unfold valid_digest; by rewrite Hp).
  apply (one_separator ":" alg name "sha256" h) in Heq as [-> ->]; [by split_and!|done|].
  apply (str_forallb_impl is_hex); [|done]; intros a Ha; by destruct (Ascii.eqb_spec a ":"%char) as [->|].
Qed.

Lemma listed_blobs fs i :
  fs_wf fs →
  i ∈ concat (map (entry_blobs fs) (sort_by fst (children fs blobsRoot))) ↔
  ∃ f, view_blobs fs !! bfi_Digest i = Some f ∧ i = blob_info (bfi_Digest i) f.
Proof.
  intros Hfs; rewrite list_elem_of_In, in_concat; split.
  - intros (bs & (e & <- & He)%in_map_iff & Hi); apply list_elem_of_In, elem_of_sort_by in He.
    destruct e as [alg []]; apply elem_of_children in He; [|done]; unfold entry_blobs in Hi; simpl in Hi.
    unfold list_blob_entries in Hi; apply list_elem_of_In, list_elem_of_omap in Hi as ([name nd] & Hn & Hi).
    apply elem_of_sort_by, elem_of_children in Hn; simpl in Hi; destruct nd as [|c t]; [done|].
    destruct (ParseDigest _) as [d|] eqn:Hp; [|done]; injection Hi as <-.
    destruct (digest_entry _ _ _ Hp) as (Hv & -> & ->); exists (mkBlobFile c t); simpl; split; [|done].
    rewrite lookup_view_blobs; unfold blob_at; by rewrite Hv, blobPath_eq, Hn.
  - intros (f & Hf & Hi); rewrite lookup_view_blobs in Hf; unfold blob_at in Hf.
    set (d := bfi_Digest i) in *; destruct (valid_digest d) eqn:Hv; [|done].
    destruct (fs !! blobPath d) as [[|c t]|] eqn:Hb; [done| |done]; injection Hf as <-.
    destruct (fw_blob _ Hfs d _ Hv Hb) as [Hdir _]; rewrite blobPath_eq in Hb by done.
    exists (entry_blobs fs ("sha256", Dir)); split.
    + apply in_map, list_elem_of_In, elem_of_sort_by, elem_of_children, Hdir.
    + apply list_elem_of_In; unfold entry_blobs, list_blob_entries; simpl; apply list_elem_of_omap.
      exists (Encoded d, File c t); split; [by apply elem_of_sort_by, elem_of_children|]; simpl.
      assert (ParseDigest (String.append "sha256:" (Encoded d)) = Ok d) as Hp
        by (rewrite <- digest_of_Encoded by done; by apply valid_digest_spec).
      simpl in Hp; rewrite Hp; by rewrite Hi.
Qed.

Lemma children_NoDup fs p : NoDup (map fst (children fs p)).
Proof.
  unfold children; assert (NoDup (map_to_list fs).*1) as Hnd by apply NoDup_fst_map_to_list.
  induction (map_to_list fs) as [|[q nd] l IH]; simpl; [constructor|].
  apply NoDup_cons in Hnd as [Hni Hnd]; destruct (last q) as [name|] eqn:Hl; [|by apply IH].
  case_bool_decide as Hp; [|by apply IH]; simpl; constructor; [|by apply IH].
  intros ([name' nd'] & Heq & Hin%list_elem_of_In)%list_elem_of_In%in_map_iff; simpl in Heq; subst name'.
  apply list_elem_of_omap in Hin as ([q' nd2] & Hin & Hf); simpl in Hf.
  destruct (last q') as [name2|] eqn:Hl'; [|done]; case_bool_decide as Hp'; [|done]; injection Hf as -> ->.
  apply Hni, list_elem_of_fmap; exists (q', nd'); split; [|done]; simpl.
  apply last_Some in Hl as [q1 ->], Hl' as [q2 ->]; unfold parent in Hp, Hp'; rewrite removelast_last in Hp, Hp'.
  congruence.
Qed.

Lemma NoDup_sort_keys {A} (key : A → string) l : NoDup (map key l) → NoDup (map key (sort_by key l)).
Proof. intros Hnd; eapply NoDup_Permutation_proper; [apply Permutation_map, sort_by_perm|done]. Qed.

Lemma entry_blobs_NoDup fs e : NoDup (entry_blobs fs e).
Proof.
  unfold entry_blobs; destruct e.2; [|constructor]; pose proof (children_NoDup fs (blobsRoot ++ [e.1])) as Hnd.
  apply (NoDup_sort_keys fst) in Hnd; unfold list_blob_entries.
  induction (sort_by fst (children fs (blobsRoot ++ [e.1]))) as [|[name nd] l IH]; simpl in *; [constructor|].
  apply NoDup_cons in Hnd as [Hni Hnd]; destruct nd as [|c t]; [by apply IH|].
  destruct (ParseDigest _) as [d|] eqn:Hd; [|by apply IH]; simpl; constructor; [|by apply IH].
  intros ([name' nd'] & Hin & Hf)%list_elem_of_omap; simpl in Hf; destruct nd' as [|c' t']; [done|].
  match type of Hf with context [ParseDigest ?x] => destruct (ParseDigest x) as [d'|] eqn:Hd' end; [|done].
  injection Hf as -> _ _; destruct (digest_entry _ _ _ Hd) as (_ & _ & ->), (digest_entry _ _ _ Hd') as (_ & _ & ->).
  apply Hni, list_elem_of_In, in_map_iff; exists (Encoded d, File c' t'); split; [done|by apply list_elem_of_In].
Qed.

Lemma entry_blobs_other fs e : e.1 ≠ "sha256" → entry_blobs fs e = [].
Proof.
  intros Hne; unfold entry_blobs; destruct e.2; [|done]; unfold list_blob_entries.
  induction (sort_by fst (children fs (blobsRoot ++ [e.1]))) as [|[name nd] l IH]; simpl; [done|].
  destruct nd as [|c t]; [done|]; destruct (ParseDigest _) as [d|] eqn:Hd; [|done].
  by destruct (digest_entry _ _ _ Hd) as (_ & ? & _).
Qed.

Lemma listed_blobs_NoDup fs : NoDup (concat (map (entry_blobs fs) (sort_by fst (children fs blobsRoot)))).
Proof.
  pose proof (NoDup_sort_keys fst _ (children_NoDup fs blobsRoot)) as Hnd.
  induction (sort_by fst (children fs blobsRoot)) as [|e l IH]; simpl in *; [constructor|].
  apply NoDup_cons in Hnd as [Hni Hnd]; destruct (decide (e.1 = "sha256")) as [He|He];
    [|by rewrite entry_blobs_other by done; apply IH].
  replace (concat (map (entry_blobs fs) l)) with (@nil BlobFileInfo); [rewrite app_nil_r; apply entry_blobs_NoDup|].
  clear IH Hnd; induction l as [|x l IH]; simpl in *; [done|].
  rewrite entry_blobs_other; [apply IH; intros Hx; apply Hni; by right|].
  intros Hx; apply Hni; rewrite He, Hx; by left.
Qed.

Lemma fs_ListBlobs_outcome w :
  fs_wf (rw_fs w) → wp fs_ListBlobs (fs_outcome spec_list_blob_files unchanged w) w.
Proof.
  destruct w as [db fs sc n]; intros Hfs; simpl in Hfs; unfold fs_ListBlobs.
  repeat fs_step; [same_files; faulted|].
  assert (fs !! blobsRoot = Some Dir) as Hroot.
  { apply (fw_blobs _ Hfs); rewrite blobsRoot_eq, prefixes_snoc; apply elem_of_app; right; by left. }
  unfold fs_read_dir at 1; rewrite Hroot; repeat fs_step; apply wp_list_entries.
  - intros [name nd] He%elem_of_sort_by; by apply elem_of_children.
  - intros e m Hm Hc; repeat fs_step; same_files; right; split; [split; [done|by eexists]|].
    intros Hx; apply Hc; intros k Hk; apply Hx; simpl in *; lia.
  - intros m Hm; repeat fs_step; same_files; left; split; [done|]; eexists; split; [done|].
    split; [apply listed_blobs_NoDup|]; intros i; by apply listed_blobs.
Qed.
End Listing.
