(* ===== verification/RegService.v ===== *)
(** The registry service (internal/app/regixtry/service.go, queries.go): uploads,
    manifests, tags, blobs and their listings, against the two store ports. *)
From S2P Require Import Prelude GoStrings Errors Repository Digest GoNumbers Manifest Scope Auth Access.
From S2P Require Import RegPorts.

(** * Definitions *)

(** ** Cosign's tags (internal/domain/signing/cosign.go, bundle.go) *)

Definition sha256HexLength : nat := 64.

Definition validatedDigestHex (digest : string) : res string :=
  if negb (has_prefix "sha256:" digest) then Err (OtherError "signing: digest must have the sha256: prefix") else
  let encoded := trim_prefix "sha256:" digest in
  if negb (String.length encoded =? sha256HexLength)%nat
  then Err (OtherError "signing: digest does not have a 64-character sha256 hex value") else
  if negb (hex_decodes encoded) then Err (OtherError "signing: digest is not valid hex") else
  Ok encoded.

Definition SignatureTag (digest : string) : res string :=
  let? encoded := validatedDigestHex digest in
  Ok (String.append "sha256-" (String.append encoded ".sig")).
Definition BundleIndexTag (digest : string) : res string :=
  let? encoded := validatedDigestHex digest in
  Ok (String.append "sha256-" encoded).

Definition produces (r : res string) (tag : string) : bool :=
  match r with Ok t => String.eqb t tag | Err _ => false end.

Definition isReferrerArtifactPush (manifest : Manifest) (tag : string) : bool :=
  match mf_Subject manifest with
  | Some _ => true
  | None =>
      if negb (has_prefix "sha256-" tag) then false else
      let digest := String.append "sha256:" (trim_suffix ".sig" (trim_prefix "sha256-" tag)) in
      produces (SignatureTag digest) tag || produces (BundleIndexTag digest) tag
  end.

Definition isCosignSignatureArtifactTag (name : string) : bool :=
  if negb (has_prefix "sha256-" name) then false else
  if has_suffix ".sig" name
  then produces (SignatureTag (String.append "sha256:" (trim_suffix ".sig" (trim_prefix "sha256-" name)))) name
  else produces (BundleIndexTag (String.append "sha256:" (trim_prefix "sha256-" name))) name.

(** ** Manifest payloads *)

Record manifestResource := mkResource {
  res_MediaType : string;
  res_Digest : string;
  res_Size : Z;
}.

Record manifestEnvelope := mkEnvelope {
  env_MediaType : string;
  env_ArtifactType : string;
  env_Config : option manifestResource;
  env_Layers : list manifestResource;
  env_Subject : option manifestResource;
  env_Annotations : Annotations;
}.

(** [json.Unmarshal] of a payload into the envelope, and into the [manifests]
    array of an image index; [None] is an error. *)
Class ManifestCodec := {
  unmarshal_envelope : string → option manifestEnvelope;
  unmarshal_index : string → option (list ImageIndexEntry);
}.

(** [toDescriptor] of a resource that is present. *)
Definition toDescriptor (r : manifestResource) : res Descriptor :=
  let? digest := ParseDigest (res_Digest r) in
  let descriptor := mkDescriptor (res_MediaType r) digest (res_Size r) in
  do? Descriptor_Validate descriptor in
  Ok descriptor.
Definition toDescriptor_opt (r : option manifestResource) : res (option Descriptor) :=
  match r with
  | None => Ok None
  | Some r => let? d := toDescriptor r in Ok (Some d)
  end.

Section Payloads.
Context `{ManifestCodec}.

Definition parseManifestPayload (reference mediaType payload : string) : res (Manifest * string) :=
  let reference := trim_space reference in
  if String.eqb reference "" then Err (NewValidationError "manifest reference is required") else
  match unmarshal_envelope payload with
  | None => Err (NewInvalidManifestError "manifest payload must be valid JSON")
  | Some envelope =>
      let mediaType := if String.eqb mediaType "" then trim_space (env_MediaType envelope) else mediaType in
      let? config := toDescriptor_opt (env_Config envelope) in
      let? layers := rmap toDescriptor (env_Layers envelope) in
      let? subject := toDescriptor_opt (env_Subject envelope) in
      let? manifest := NewManifest mediaType (trim_space (env_ArtifactType envelope)) payload config layers
                         subject (env_Annotations envelope) in
      match ParseDigest reference with
      | Ok digest =>
          if negb (String.eqb digest (mf_Digest manifest))
          then Err (NewDigestMismatchError digest (mf_Digest manifest))
          else Ok (manifest, "")
      | Err _ => Ok (manifest, reference)
      end
  end.

Definition resolveArtifactType (m : Manifest) : string :=
  if negb (String.eqb (mf_ArtifactType m) "") then mf_ArtifactType m else
  match mf_Config m with Some c => desc_MediaType c | None => "" end.

(** ** What the operations return *)

Record BlobDetails := mkBlobDetails {
  bd_Repository : string;
  bd_MediaType : string;
  bd_Digest : string;
  bd_Size : Z;
}.

Record PlatformDetails := mkPlatformDetails {
  pd_Digest : string;
  pd_MediaType : string;
  pd_Size : Z;
  pd_Architecture : string;
  pd_OS : string;
  pd_Variant : string;
}.

Record ManifestDetails := mkManifestDetails {
  md_Repository : string;
  md_Reference : string;
  md_MediaType : string;
  md_Digest : string;
  md_Size : Z;
  md_Annotations : Annotations;
  md_Blobs : list BlobDetails;
  md_Platforms : list PlatformDetails;
}.

Record DeletionDetails := mkDeletionDetails {
  dd_Repository : string;
  dd_Reference : string;
  dd_Digest : string;
  dd_ManifestRemoved : bool;
  dd_TagsRemoved : list string;
}.

Record RepositoryDeletionDetails := mkRepositoryDeletionDetails {
  rdd_Repository : string;
  rdd_ManifestsRemoved : Z;
  rdd_TagsRemoved : list string;
}.

Record UploadDetails := mkUploadDetails {
  ud_Repository : string;
  ud_ID : string;
  ud_Status : string;
  ud_Size : Z;
  ud_StartedAt : Time;
  ud_UpdatedAt : Time;
  ud_Location : string;
}.

Record ReferrerDescriptor := mkReferrerDescriptor {
  rd_MediaType : string;
  rd_Digest : string;
  rd_Size : Z;
  rd_ArtifactType : string;
  rd_Annotations : Annotations;
}.

Definition newBlobDetails (repository : string) (d : Descriptor) : BlobDetails :=
  mkBlobDetails repository (desc_MediaType d) (desc_Digest d) (desc_Size d).

Definition newUploadDetails (s : UploadState) : UploadDetails :=
  mkUploadDetails (ref_String (up_Repository s)) (up_ID s) (up_Status s) (up_Size s) (up_StartedAt s)
    (up_UpdatedAt s) (up_Location s).

(** A malformed index gives no platforms. *)
Definition newPlatformDetailsList (m : Manifest) : list PlatformDetails :=
  if negb (IsImageIndexMediaType (mf_MediaType m)) then [] else
  match ParseImageIndexEntries unmarshal_index (mf_Payload m) with
  | Err _ => []
  | Ok entries =>
      map (λ e, let p := default (mkPlatform "" "" "") (ix_Platform e) in
                mkPlatformDetails (ix_Digest e) (ix_MediaType e) (ix_Size e) (pl_Architecture p) (pl_OS p)
                  (pl_Variant p)) entries
  end.

Definition newManifestDetails (repository reference : string) (m : Manifest) (blobs : list Descriptor)
    : ManifestDetails :=
  mkManifestDetails repository reference (mf_MediaType m) (mf_Digest m) (mf_Size m) (mf_Annotations m)
    (map (newBlobDetails repository) blobs) (newPlatformDetailsList m).

Definition TotalBlobSize (m : ManifestDetails) : Z := foldr (λ b n, bd_Size b + n) 0 (md_Blobs m).

Definition newDeletionDetailsForDigest (repository reference digest : string) (tags : list string)
    : DeletionDetails := mkDeletionDetails repository reference digest true tags.
Definition newDeletionDetailsForTag (repository reference : string) : DeletionDetails :=
  mkDeletionDetails repository reference "" false [reference].

Definition parseRepository (repositoryName : string) : res RepositoryRef :=
  ParseRepositoryRef (trim_space repositoryName).

Definition hasRepoAdminGrant (principal : Principal) (repository : string) : bool :=
  existsb (λ g, String.eqb (ref_String (g_Repository g)) repository && AllowsAdmin (g_Role g))
    (p_Grants principal).
End Payloads.

(** ** The service *)

(** The fields of [Service] that are set once: the access controller, the
    tenant the resolver gives, and the two opt-in deletion flags. *)
Record RegConfig := mkRegConfig {
  rc_access : AccessController;
  rc_tenant : string;
  deleteEnabled : bool;
  gcDeleteEnabled : bool;
}.

Section Service.
Context {W : Type} `{ManifestCodec, !BlobStore W, !MetadataStore W, !RegRuntime W}.
(** The service and the principal the request's context carries. *)
Variables (svc : RegConfig) (ctx : option Principal).

Definition authorize (a : Action) : res unit :=
  @Authorize (rc_access svc) (WithPrincipal a ctx).
Definition tenant : string := rc_tenant svc.

Definition authorizeDeleteRepository (repository : string) : res unit :=
  let authorizeErr := authorize (mkAction ActionDelete repository None) in
  match ctx with
  | None => authorizeErr
  | Some principal =>
      if p_IsAdmin principal || hasRepoAdminGrant principal repository then Ok tt else
      do? authorizeErr in
      Err (NewForbiddenError "repository administrator privileges are required")
  end.

Definition ensureUpload (repositoryName uploadID : string) : M W UploadState :=
  let! repository := slift (parseRepository repositoryName) in
  let! state := meta_GetUpload tenant uploadID in
  if negb (String.eqb (ref_String (up_Repository state)) (ref_String repository))
  then sthrow (NewNotFoundError "upload" uploadID)
  else sret state.

(** *** Uploads *)

Definition BeginUpload (repositoryName : string) : M W UploadDetails :=
  let! repository := slift (parseRepository repositoryName) in
  do! slift (authorize (mkAction ActionPush (ref_String repository) None)) in
  let! state := blob_BeginUpload repository in
  do! SaveUpload tenant state in
  sret (newUploadDetails state).

Definition AppendUpload (repositoryName uploadID : string) (content : Reader) : M W UploadDetails :=
  let! state := ensureUpload repositoryName uploadID in
  do! slift (authorize (mkAction ActionPush (ref_String (up_Repository state)) None)) in
  let! updated := PutUploadChunk uploadID content in
  do! SaveUpload tenant updated in
  sret (newUploadDetails updated).

Definition CompleteUpload (repositoryName uploadID expectedDigest : string) (finalChunk : option Reader)
    : M W BlobDetails :=
  let! state := ensureUpload repositoryName uploadID in
  do! slift (authorize (mkAction ActionPush (ref_String (up_Repository state)) None)) in
  do! match finalChunk with
      | None => sret tt
      | Some chunk =>
          let! updated := PutUploadChunk uploadID chunk in
          SaveUpload tenant updated
      end in
  let! digest := slift (ParseDigest expectedDigest) in
  let! descriptor := CommitUpload uploadID digest in
  do! DeleteUpload tenant uploadID in
  sret (newBlobDetails (ref_String (up_Repository state)) descriptor).

Definition UploadStatus (repositoryName uploadID : string) : M W UploadDetails :=
  let! state := ensureUpload repositoryName uploadID in
  do! slift (authorize (mkAction ActionPush (ref_String (up_Repository state)) None)) in
  let! state := blob_GetUpload uploadID in
  do! SaveUpload tenant state in
  sret (newUploadDetails state).

Definition Uploads (repositoryName : string) : M W (list UploadDetails) :=
  let! repository :=
    if negb (String.eqb repositoryName "") then
      let! parsed := slift (parseRepository repositoryName) in
      do! slift (authorize (mkAction ActionInspect (ref_String parsed) None)) in
      sret (Some parsed)
    else
      do! slift (authorize (mkAction ActionInspect "" None)) in
      sret None in
  let! uploads := ListUploads tenant repository in
  sret (map newUploadDetails uploads).

(** *** Manifests *)

(** The blobs a manifest references must be there. *)
Definition requireBlobs (blobs : list Descriptor) : M W unit :=
  do! smap (λ d, let! exists_ := BlobExists (desc_Digest d) in
                 if exists_ then sret tt else
                 sthrow (NewConflictError [Lit "manifest references missing blob "; Lit (desc_Digest d)]))
        blobs in
  sret tt.

(** A subject is another manifest of the repository. *)
Definition requireSubject (repository : RepositoryRef) (subject : option Descriptor) : M W unit :=
  match subject with
  | None => sret tt
  | Some s =>
      let! found := sattempt (meta_ResolveManifest tenant repository (desc_Digest s)) in
      match found with
      | Ok _ => sret tt
      | Err e =>
          if reg_is_code e CodeNotFound
          then sthrow (NewConflictError [Lit "manifest subject "; Lit (desc_Digest s);
                 Lit " was not found in "; Lit (ref_String repository)])
          else sthrow e
      end
  end.

Definition PublishManifest (repositoryName reference mediaType payload : string) : M W ManifestDetails :=
  let! repository := slift (parseRepository repositoryName) in
  do! slift (authorize (mkAction ActionPush (ref_String repository) None)) in
  let! parsed := slift (parseManifestPayload reference mediaType payload) in
  let '(manifest, tag) := parsed in
  let manifest := match ctx with
                  | Some principal => with_pushed_by manifest (p_UserID principal)
                  | None => manifest
                  end in
  do! requireBlobs (BlobReferences manifest) in
  do! requireSubject repository (mf_Subject manifest) in
  do! meta_PublishManifest tenant repository tag manifest (BlobReferences manifest) in
  do! (if isReferrerArtifactPush manifest tag then sret tt
       else reg_spawn_scan (mkPushScan tenant (ref_String repository) reference (mf_Digest manifest))) in
  sret (newManifestDetails (ref_String repository) reference manifest (BlobReferences manifest)).

Definition ResolveManifest (repositoryName reference : string) : M W ManifestDetails :=
  let! repository := slift (parseRepository repositoryName) in
  do! slift (authorize (mkAction ActionPull (ref_String repository) None)) in
  let! manifest := meta_ResolveManifest tenant repository reference in
  let! blobs := ListManifestBlobs tenant repository (mf_Digest manifest) in
  sret (newManifestDetails (ref_String repository) reference manifest blobs).

Definition DeleteManifest (repositoryName reference : string) : M W DeletionDetails :=
  let! repository := slift (parseRepository repositoryName) in
  do! slift (authorize (mkAction ActionDelete (ref_String repository) None)) in
  if negb (deleteEnabled svc) then sthrow (NewValidationError "manifest deletion is not enabled") else
  match ParseDigest reference with
  | Ok digest =>
      let! tagsRemoved := DeleteManifestByDigest tenant repository digest in
      sret (newDeletionDetailsForDigest (ref_String repository) reference digest tagsRemoved)
  | Err _ =>
      do! DeleteTag tenant repository reference in
      sret (newDeletionDetailsForTag (ref_String repository) reference)
  end.

Definition DeleteRepository (repositoryName : string) : M W RepositoryDeletionDetails :=
  let! repository := slift (parseRepository repositoryName) in
  do! slift (authorizeDeleteRepository (ref_String repository)) in
  if negb (deleteEnabled svc) then sthrow (NewValidationError "repository deletion is not enabled") else
  let! removed := meta_DeleteRepository tenant repository in
  sret (mkRepositoryDeletionDetails (ref_String repository) removed.2 removed.1).

(** *** Listings *)

Definition Catalog (limit : Z) (after : string) : M W (list string) :=
  do! slift (authorize (mkAction ActionCatalog "" None)) in
  let! repositories := meta_Catalog tenant limit after in
  sret (filter (λ r, match ctx with Some p => HasCatalogAccess p r | None => true end = true)
          (map ref_String repositories)).

Definition Tags (repositoryName : string) (limit : Z) (after : string) : M W (string * list string) :=
  let! repository := slift (parseRepository repositoryName) in
  do! slift (authorize (mkAction ActionInspect (ref_String repository) None)) in
  let! tags := ListTags tenant repository limit after in
  sret (ref_String repository, tags).

Definition RepositorySummaries (limit : Z) (after : string) : M W (list RepositorySummary) :=
  do! slift (authorize (mkAction ActionCatalog "" None)) in
  let! summaries := ListRepositoriesWithSummary tenant limit after in
  sret (filter (λ s, match ctx with Some p => HasCatalogAccess p (rs_Name s) | None => true end = true)
          summaries).

(** A row whose payload no longer parses, or no longer has the row's digest, is an
    error of the whole listing. *)
Definition referrer_descriptors (artifactType : string) (rows : list ReferrerRow)
    : res (list ReferrerDescriptor) :=
  let? described := rmap (λ row,
    let? parsed := parseManifestPayload (rf_Digest row) (rf_MediaType row) (rf_Payload row) in
    Ok (mkReferrerDescriptor (rf_MediaType row) (rf_Digest row) (rf_Size row)
          (resolveArtifactType parsed.1) (mf_Annotations parsed.1))) rows in
  Ok (filter (λ d, (String.eqb artifactType "" || String.eqb (rd_ArtifactType d) artifactType) = true)
        described).

Definition Referrers (repositoryName subjectDigest artifactType : string) : M W (list ReferrerDescriptor) :=
  let! repository := slift (parseRepository repositoryName) in
  do! slift (authorize (mkAction ActionInspect (ref_String repository) None)) in
  let! digest := slift (ParseDigest subjectDigest) in
  let! rows := ListReferrers tenant repository digest in
  slift (referrer_descriptors (trim_space artifactType) rows).

(** *** Blobs: the repository name is only authorised, not parsed *)

Definition InspectBlob (repositoryName digestValue : string) : M W BlobDetails :=
  let! digest := slift (ParseDigest digestValue) in
  do! slift (authorize (mkAction ActionPull repositoryName None)) in
  let! opened := blob_OpenBlob digest in
  sret (newBlobDetails repositoryName opened.2).

Definition OpenBlob (repositoryName digestValue : string) : M W (string * BlobDetails) :=
  let! digest := slift (ParseDigest digestValue) in
  do! slift (authorize (mkAction ActionPull repositoryName None)) in
  let! opened := blob_OpenBlob digest in
  sret (opened.1, newBlobDetails repositoryName opened.2).
End Service.
