(* ===== verification/Signing.v ===== *)
(** Cosign signatures (internal/domain/signing): trusted keys (keys.go), the two
    signature formats and their claims (cosign.go, bundle.go) and keyless
    verification (keyless.go). JSON decoding, X.509, ECDSA and sigstore-go are
    parameters.

    Cosign's encodings are unambiguous: a pre-authentication encoding determines
    its type and payload, and the canonical PEM of a trusted key is stable. *)
From stdpp Require Import pretty.
From S2P Require Import Prelude GoStrings Encodings Errors Digest RegPorts RegService.

(** * Keys, formats and verification *)

(** ** What is outside *)

(** [x509.ParsePKIXPublicKey] gives an ECDSA key, on the curve P-256 or not, or a
    key of another kind; [ecdsa.VerifyASN1]
    takes the key, the hash and the DER signature. *)
Class KeyCrypto := {
  PublicKey : Type;
  ParsePKIXPublicKey : string → option (option (bool * PublicKey));
  VerifyASN1 : PublicKey → list Z → string → bool;
}.

(** The fields the code reads of each JSON document; [None] is a decoding error.
    Of a signature manifest: the layers' media type, digest and signature
    annotation. Of a SimpleSigning payload: the type and the image digest. Of an
    index: the entries. Of a referrer manifest: the subject's digest and the
    layers' media types and digests. Of a bundle: the media type, the DSSE
    envelope, the certificates. Of an in-toto statement: the subjects' digests. *)
Record signatureManifestLayer := mkSigLayer {
  sl_MediaType : string;
  sl_Digest : string;
  sl_Signature : option string;
}.
Record bundleIndexEntry := mkIndexEntry { bi_MediaType : string; bi_Digest : string; bi_Size : Z; bi_ArtifactType : string }.
Record bundleReferrer := mkReferrer { br_Subject : option string; br_Layers : list (string * string) }.
Record bundleDocument := mkBundleDoc {
  bdoc_MediaType : string;
  bdoc_Payload : string;
  bdoc_PayloadType : string;
  bdoc_Signatures : list string;
}.
Record verificationMaterial := mkMaterial {
  vm_Certificate : option string;
  vm_Chain : option (list string);
  vm_TlogEntries : nat;
}.
Class SigningCodec := {
  unmarshal_signature_manifest : string → option (list signatureManifestLayer);
  unmarshal_simple_signing : string → option (string * string);
  unmarshal_bundle_index : string → option (list bundleIndexEntry);
  unmarshal_bundle_referrer : string → option bundleReferrer;
  unmarshal_bundle_document : string → option bundleDocument;
  unmarshal_bundle_material : string → option verificationMaterial;
  unmarshal_statement : string → option (list string);
}.

Record TrustedIdentity := mkIdentity {
  ti_Regexp : string;
  ti_Issuer : string;
}.
#[global] Instance TrustedIdentity_eq_dec : EqDecision TrustedIdentity.
Proof. solve_decision. Defined.

(** sigstore-go with the embedded trusted root ([None] if it does not parse): a
    bundle, its transparency log entries, and the verification of a bundle
    against a digest and certificate identities, which gives the subject
    alternative name of the certificate if there is one. A failed verification
    says whether the identity was the reason, and has a message. *)
Class Sigstore := {
  SignedEntity : Type;
  sigstore_verifier : option string;
  bundle_UnmarshalJSON : string → SignedEntity + string;
  TlogEntries : SignedEntity → nat + string;
  ShortCertificateIdentity_ok : TrustedIdentity → bool;
  sigstore_Verify : SignedEntity → string → list TrustedIdentity → option string + bool * string;
}.

(** [regexp.Compile] of a pattern and [MatchString], and the message when the
    pattern does not compile. *)
Class Regexps := { regexp_Compile : string → option (string → bool); regexp_message : string → string }.

(** ** Trusted keys (keys.go) *)

Definition pemBlockType : string := "PUBLIC KEY".

Fixpoint str_index (p s : string) : option nat :=
  if has_prefix p s then Some 0%nat else
  match s with "" => None | String _ s' => S <$> str_index p s' end.

(** Slicing a string with the bounds the wrong way round panics: the request dies. *)
Definition slice_panic : error := OtherError "runtime error: slice bounds out of range".

Definition decodePEMBlock (raw : string) : res string :=
  let trimmed := trim_space raw in
  if String.eqb trimmed "" then Err (OtherError "signing: public key PEM is required") else
  let beginMarker := pem_begin pemBlockType in
  match str_index beginMarker trimmed, str_index (pem_end pemBlockType) trimmed with
  | Some b, Some e =>
      if (e <? b)%nat then Err (OtherError "signing: public key PEM must have markers") else
      let start := (b + String.length beginMarker)%nat in
      if (e <? start)%nat then Err slice_panic else
      let body := join "" (fields (substring start (e - start) trimmed)) in
      if String.eqb body "" then Err (OtherError "signing: public key PEM body is empty") else
      match pem_Decode (lines64 body) with
      | Some der => Ok der
      | None => Err (OtherError "signing: public key is not valid PEM")
      end
  | _, _ => Err (OtherError "signing: public key PEM must have markers")
  end.

Section Keys.
Context `{KeyCrypto}.

Definition parseECDSAP256PublicKey (der : string) : res PublicKey :=
  match ParsePKIXPublicKey der with
  | None => Err (OtherError "signing: public key is not a valid PKIX/SPKI key")
  | Some None => Err (OtherError "signing: public key must be ECDSA (Ed25519 and RSA are not supported in this slice)")
  | Some (Some (p256, key)) =>
      if p256 then Ok key else Err (OtherError "signing: public key must use curve P-256")
  end.

Definition NormalizePublicKeyPEM (raw : string) : res string :=
  let? bytes := decodePEMBlock raw in
  do? parseECDSAP256PublicKey bytes in
  Ok (pem_EncodeToMemory pemBlockType bytes).

Definition ParseTrustedKey (pemText : string) : res PublicKey :=
  let? bytes := decodePEMBlock pemText in
  parseECDSAP256PublicKey bytes.

Definition Fingerprint (pemText : string) : string :=
  substring 0 12 (hex_encode (sha256 (bytes_of (trim_space pemText)))).

Definition Verify (key : PublicKey) (payload signatureBase64 : string) : res unit :=
  match base64_DecodeString signatureBase64 with
  | None => Err (OtherError "signing: signature is not valid base64")
  | Some signature =>
      if VerifyASN1 key (sha256 (bytes_of payload)) signature then Ok tt
      else Err (OtherError "signing: signature verification failed")
  end.
End Keys.

(** ** SimpleSigning (cosign.go) *)

Definition SimpleSigningMediaType : string := "application/vnd.dev.cosign.simplesigning.v1+json".
Definition SimpleSigningType : string := "cosign container image signature".
Definition MaxSignatureManifestBytes : Z := 256 * 1024.
Definition MaxPayloadBytes : Z := 1048576.
Definition MaxSignatureEntries : nat := 64.

Record SignatureEntry := mkSignatureEntry { se_PayloadDigest : string; se_Signature : string }.

Definition longer (s : string) (n : Z) : bool := n <? Z.of_nat (String.length s).

Section Documents.
Context `{SigningCodec}.

Definition ParseSignatureManifest (raw : string) : res (list SignatureEntry) :=
  if longer raw MaxSignatureManifestBytes then Err (OtherError "signing: signature manifest exceeds 262144 bytes") else
  match unmarshal_signature_manifest raw with
  | None => Err (OtherError "signing: signature manifest is not valid JSON")
  | Some layers =>
      if (MaxSignatureEntries <? length layers)%nat
      then Err (OtherError "signing: signature manifest declares more than 64 layers") else
      Ok (omap (λ l,
            if negb (String.eqb (sl_MediaType l) SimpleSigningMediaType) then None else
            signature ← sl_Signature l;
            if String.eqb signature "" then None
            else Some (mkSignatureEntry (sl_Digest l) signature)) layers)
  end.

Definition CheckClaims (payload digest : string) : res unit :=
  match unmarshal_simple_signing payload with
  | None => Err (OtherError "signing: payload is not valid JSON")
  | Some (type, image) =>
      if negb (String.eqb type SimpleSigningType)
      then Err (OtherError "signing: payload critical.type is not the cosign type")
      else if negb (String.eqb image digest) then Err (OtherError "signing: payload does not bind the digest")
      else Ok tt
  end.

(** ** Sigstore bundles (bundle.go) *)

Definition SigstoreBundleMediaType : string := "application/vnd.dev.sigstore.bundle.v0.3+json".
Definition MaxBundleManifestBytes : Z := 256 * 1024.
Definition MaxBundleIndexEntries : nat := 64.
Definition MaxBundleDocumentBytes : Z := MaxPayloadBytes.

Definition ParseBundleIndex (raw : string) : res (list bundleIndexEntry) :=
  if longer raw MaxBundleManifestBytes then Err (OtherError "signing: bundle index exceeds 262144 bytes") else
  match unmarshal_bundle_index raw with
  | None => Err (OtherError "signing: bundle index is not valid JSON")
  | Some manifests =>
      if (MaxBundleIndexEntries <? length manifests)%nat
      then Err (OtherError "signing: bundle index declares more than 64 manifests") else
      Ok (filter (λ m, bi_ArtifactType m = SigstoreBundleMediaType) manifests)
  end.

(** The subject's and the bundle layer's digest, both empty if either is missing. *)
Definition ParseBundleReferrerManifest (raw : string) : res (string * string) :=
  if longer raw MaxBundleManifestBytes
  then Err (OtherError "signing: bundle referrer manifest exceeds 262144 bytes") else
  match unmarshal_bundle_referrer raw with
  | None => Err (OtherError "signing: bundle referrer manifest is not valid JSON")
  | Some r =>
      match br_Subject r with
      | None => Ok ("", "")
      | Some subject =>
          if String.eqb subject "" then Ok ("", "") else
          match List.find (λ l, String.eqb l.1 SigstoreBundleMediaType && negb (String.eqb l.2 "")) (br_Layers r) with
          | Some layer => Ok (subject, layer.2)
          | None => Ok ("", "")
          end
      end
  end.

Record BundleDSSE := mkDSSE { ds_PayloadType : string; ds_Payload : string; ds_Signatures : list string }.

Definition ParseBundleDocument (raw : string) : res BundleDSSE :=
  if longer raw MaxBundleDocumentBytes then Err (OtherError "signing: bundle document exceeds 1048576 bytes") else
  match unmarshal_bundle_document raw with
  | None => Err (OtherError "signing: bundle document is not valid JSON")
  | Some d =>
      if negb (String.eqb (bdoc_MediaType d) "") && negb (String.eqb (bdoc_MediaType d) SigstoreBundleMediaType)
      then Err (OtherError "signing: bundle document mediaType is not the sigstore bundle type") else
      if String.eqb (bdoc_Payload d) "" || String.eqb (bdoc_PayloadType d) ""
      then Err (OtherError "signing: bundle document has no usable dsseEnvelope payload") else
      Ok (mkDSSE (bdoc_PayloadType d) (bdoc_Payload d) (filter (λ s, s ≠ "") (bdoc_Signatures d)))
  end.

Record BundleVerificationMaterial := mkVerificationMaterial { HasCertificate : bool; HasTlogEntry : bool }.

Definition ParseBundleVerificationMaterial (raw : string) : res BundleVerificationMaterial :=
  if longer raw MaxBundleDocumentBytes then Err (OtherError "signing: bundle document exceeds 1048576 bytes") else
  match unmarshal_bundle_material raw with
  | None => Err (OtherError "signing: bundle document is not valid JSON")
  | Some m =>
      let single := match vm_Certificate m with Some c => negb (String.eqb c "") | None => false end in
      let chained := match vm_Chain m with Some cs => existsb (λ c, negb (String.eqb c "")) cs | None => false end in
      Ok (mkVerificationMaterial (single || chained) (0 <? vm_TlogEntries m)%nat)
  end.

(** [strconv.Itoa] of a length. *)
Definition itoa (n : nat) : string := pretty (N.of_nat n).
Definition dsseVersion : string := "DSSEv1".

Definition PAE (payloadType payload : string) : string :=
  foldr String.append ""
    [dsseVersion; " "; itoa (String.length payloadType); " "; payloadType; " ";
     itoa (String.length payload); " "; payload].

Definition CheckBundleClaims (payload digest : string) : res unit :=
  match unmarshal_statement payload with
  | None => Err (OtherError "signing: bundle payload is not valid JSON")
  | Some subjects =>
      match subjects with
      | [] => Err (OtherError "signing: bundle payload has no subject digest")
      | subject :: _ =>
          if String.eqb subject "" then Err (OtherError "signing: bundle payload has no subject digest")
          else if negb (String.eqb subject (trim_prefix "sha256:" digest))
          then Err (OtherError "signing: bundle payload does not bind the digest") else Ok tt
      end
  end.
End Documents.

(** ** Keyless verification (keyless.go) *)

Section Keyless.
Context `{Sigstore}.

Definition ErrNotKeylessShaped : string := "signing: bundle carries no keyless (Fulcio certificate) verification material".
Definition ErrTransparencyLogMissing : string := "signing: keyless bundle carries no transparency log entry".
Definition ErrTransparencyLogInvalid : string := "signing: keyless bundle's Signed Entry Timestamp failed verification".
Definition ErrCertificateChainInvalid : string := "signing: keyless certificate does not chain to the trusted root".
Definition ErrCertificateExpired : string := "signing: keyless certificate is expired relative to the Signed Entry Timestamp".
Definition ErrIdentityNotMatched : string := "signing: keyless certificate matches no trusted identity".

Definition contains (s p : string) : bool := match str_index p s with Some _ => true | None => false end.

Definition wrapped (sentinel msg : string) : error :=
  OtherError (String.append sentinel (String.append ": " msg)).
Definition classifyVerifyError (noMatch : bool) (msg : string) : error :=
  if noMatch then wrapped ErrIdentityNotMatched msg
  else if contains msg "entity was not signed with a certificate" then wrapped ErrNotKeylessShaped msg
  else if contains msg "integrated time outside certificate validity" then wrapped ErrCertificateExpired msg
  else if contains msg "failed to verify log inclusion" then wrapped ErrTransparencyLogInvalid msg
  else if contains msg "failed to verify leaf certificate" then wrapped ErrCertificateChainInvalid msg
  else wrapped "signing: keyless verification failed" msg.

(** The digest as the verifier takes it: its hexadecimal text stands for the bytes. *)
Definition decodeSHA256Digest (digest : string) : res string := validatedDigestHex digest.

Definition verifyKeylessEntity (entity : SignedEntity) (identities : list TrustedIdentity) (digest : string)
    : res string :=
  match identities with
  | [] => Err (OtherError ErrIdentityNotMatched)
  | _ =>
      match TlogEntries entity with
      | inr e => Err (wrapped "signing: reading keyless bundle transparency log entries" e)
      | inl 0%nat => Err (OtherError ErrTransparencyLogMissing)
      | inl _ =>
          let? hex := decodeSHA256Digest digest in
          if negb (forallb ShortCertificateIdentity_ok identities)
          then Err (OtherError "signing: invalid trusted identity") else
          match sigstore_Verify entity hex identities with
          | inr (noMatch, msg) => Err (classifyVerifyError noMatch msg)
          | inl None => Err (OtherError ErrIdentityNotMatched)
          | inl (Some san) => Ok san
          end
      end
  end.

Definition VerifyKeyless (bundleRaw : string) (identities : list TrustedIdentity) (digest : string) : res string :=
  match sigstore_verifier with
  | Some e => Err (OtherError e)
  | None =>
      match bundle_UnmarshalJSON bundleRaw with
      | inr e => Err (wrapped "signing: keyless bundle is not valid" e)
      | inl entity => verifyKeylessEntity entity identities digest
      end
  end.
End Keyless.

(** * The encodings are unambiguous *)

(** Keys whose DER bytes are the key itself; a signature is the key and the hash. *)
#[global] Instance example_crypto : KeyCrypto := {|
  PublicKey := string;
  ParsePKIXPublicKey der := if String.eqb der "" then None else Some (Some (true, der));
  VerifyASN1 key hash signature := String.eqb signature (String.append key (hex_encode hash));
|}.
Definition example_key_line : string :=
  "-----BEGIN PUBLIC KEY----- Y2kt a2V5 -----END PUBLIC KEY-----".
Definition example_key_pem : string := Eval vm_compute in pem_EncodeToMemory pemBlockType "ci-key".

(** * Pre-authentication encoding *)

Lemma pretty_N_char_digit n : (n < 10)%N → pretty_N_char n ≠ " "%char.
Proof.
  intros Hn; assert (Forall (λ k, pretty_N_char (N.of_nat k) ≠ " "%char) (seq 0 10)) as Hall
    by (simpl; repeat (constructor; [done|]); constructor).
  rewrite Forall_forall in Hall; specialize (Hall (N.to_nat n)); rewrite N2Nat.id in Hall.
  apply Hall, list_elem_of_In, in_seq; lia.
Qed.

Lemma pretty_go_no_space n s : no_char " " s = true → no_char " " (pretty_N_go n s) = true.
Proof.
  revert s; induction (N.lt_wf_0 n) as [n _ IH]; intros s Hs; destruct (decide (n = 0)%N) as [->|Hn].
  { by rewrite pretty_N_go_0. }
  rewrite pretty_N_go_step by lia; apply IH; [apply N.div_lt; lia|].
  unfold no_char in *; simpl; rewrite Hs, andb_true_r; apply negb_true_iff, Ascii.eqb_neq, pretty_N_char_digit.
  by apply N.mod_lt.
Qed.

Lemma itoa_no_space n : no_char " " (itoa n) = true.
Proof.
  unfold itoa, pretty, pretty_N; case_decide; [done|]; by apply pretty_go_no_space.
Qed.

Lemma itoa_inj n m : itoa n = itoa m → n = m.
Proof. unfold itoa; intros H; apply Nat2N.inj; by apply (inj pretty). Qed.

(** The text of a length and what follows it can be read back. *)
Lemma itoa_field n m s t :
  String.append (itoa n) (String " " s) = String.append (itoa m) (String " " t) → n = m ∧ s = t.
Proof.
  intros He; assert (cut " " (String.append (itoa n) (String " " s)) = cut " " (String.append (itoa m) (String " " t)))
    as Hc by by rewrite He.
  rewrite !cut_append in Hc by apply itoa_no_space; injection Hc as Hnm ->; split; [by apply itoa_inj|done].
Qed.

(** A signature over a pre-authentication encoding signs one payload of one
    type: two (type, payload) pairs have the same encoding only if they are equal. *)
Theorem PAE_injective type payload type' payload' :
  PAE type payload = PAE type' payload' ↔ type = type' ∧ payload = payload'.
Proof.
  split; [|by intros [-> ->]].
  unfold PAE; cbn [foldr]; rewrite !append_nil_r; intros H.
  apply append_inj_l, append_inj_l, itoa_field in H as [Hl H].
  apply append_inj_r in H as [-> H]; [|done].
  split; [done|]; change (String.append " " ?s) with (String " " s) in H; injection H as H.
  by apply itoa_field in H as [_ H].
Qed.

(** * Canonical PEM *)

Lemma trim_space_line a s b u : graphic a = true → srev (String a s) = String b u → graphic b = true →
  trim_space (String.append (String a s) (String newline "")) = String a s.
Proof.
  intros Ha Hr Hb; unfold trim_space.
  rewrite trim_left_none by (by apply strip_space_graphic).
  unfold trim_right_space; rewrite srev_append.
  change (srev (String newline "")) with (String newline ""); change (String.append (String newline "") ?t) with (String newline t).
  assert (∀ t, trim_left space_runes_rev (String newline t) = trim_left space_runes_rev t) as Hdrop by (by intros [|]).
  rewrite Hdrop, trim_left_none; [apply srev_involutive|]; rewrite Hr.
  apply strip_rune_graphic; [apply space_runes_rev_not_graphic|done].
Qed.

Lemma str_index_step p a s : has_prefix p (String a s) = false → str_index p (String a s) = S <$> str_index p s.
Proof. intros Hp; cbn [str_index]; by rewrite Hp. Qed.

Lemma str_index_skip p w s : no_char "-" w = true →
  str_index (String "-" p) (String.append w s) = Nat.add (String.length w) <$> str_index (String "-" p) s.
Proof.
  induction w as [|a w IH]; intros Hw.
  { change (String.append "" s) with s; by destruct (str_index (String "-" p) s). }
  simpl in Hw; apply andb_true_iff in Hw as [Ha%negb_true_iff Hw]; rewrite Ascii.eqb_neq in Ha.
  change (String.append (String a w) s) with (String a (String.append w s)); cbn [str_index].
  assert (has_prefix (String "-" p) (String a (String.append w s)) = false) as ->.
  { destruct (has_prefix _ _) eqn:Hp; [|done]; apply has_prefix_spec in Hp as [t [= Heq _]]; congruence. }
  rewrite IH by done; by destruct (str_index (String "-" p) s).
Qed.

Lemma str_index_here p s : str_index p (String.append p s) = Some 0%nat.
Proof.
  assert (has_prefix p (String.append p s) = true) as Hp by (apply has_prefix_spec; by exists s).
  destruct (String.append p s); simpl; by rewrite Hp.
Qed.

Lemma substring_take n s t : n = String.length s → substring 0 n (String.append s t) = s.
Proof. intros ->; induction s as [|a s IH]; simpl; [by destruct t|by rewrite IH]. Qed.
Lemma substring_skip m n s t : m = String.length s → substring m n (String.append s t) = substring 0 n t.
Proof. intros ->; by induction s. Qed.

Lemma join_nothing l : join "" l = foldr String.append "" l.
Proof. induction l as [|x [|y l] IH]; simpl in *; [done|by rewrite append_nil_r|by rewrite IH]. Qed.

(** The end marker is not found inside the begin line. *)
Lemma pem_end_after_begin s :
  str_index (pem_end pemBlockType) (String.append (pem_begin pemBlockType) (String newline s))
  = Nat.add 27 <$> str_index (pem_end pemBlockType) s.
Proof.
  change (String.append (pem_begin pemBlockType) (String newline s))
    with (String.append "-----BEGIN PUBLIC KEY-----" (String newline s)); cbn [String.append].
  do 27 (rewrite str_index_step by reflexivity); by destruct (str_index (pem_end pemBlockType) s).
Qed.

Lemma words_no_dash ls : Forall b64_word ls → no_char "-" (lines_text ls) = true.
Proof.
  intros Hls; induction Hls as [|l ls Hl Hls IH]; [done|].
  change (lines_text (l :: ls)) with (String.append l (String newline (lines_text ls))).
  unfold no_char in *; rewrite str_forallb_append; fold (no_char "-" l).
  rewrite word_no_char by (done || by intros a (_ & _ & ? & _)); simpl; exact IH.
Qed.

Lemma lines_text_app ls ls' : lines_text (ls ++ ls') = String.append (lines_text ls) (lines_text ls').
Proof. induction ls as [|l ls IH]; simpl; [done|]; by rewrite IH, append_assoc. Qed.

Lemma pem_end_index ls : Forall b64_word ls →
  str_index (pem_end pemBlockType)
    (String.append (pem_begin pemBlockType) (String newline (String.append (lines_text ls) (pem_end pemBlockType))))
  = Some (27 + String.length (lines_text ls))%nat.
Proof.
  intros Hls; rewrite pem_end_after_begin.
  change (pem_end pemBlockType) with (String "-" "----END PUBLIC KEY-----") at 1.
  rewrite str_index_skip by by apply words_no_dash.
  change (String "-" "----END PUBLIC KEY-----") with (pem_end pemBlockType).
  rewrite <- (append_nil_r (pem_end pemBlockType)) at 2; rewrite str_index_here; simpl; by rewrite Nat.add_0_r.
Qed.

Lemma trim_block b s : b = pem_begin pemBlockType →
  (∃ t, srev s = String "-" t) →
  trim_space (String.append (String.append b s) (String newline "")) = String.append b s.
Proof.
  intros -> [t Hs]; destruct (String.append (pem_begin pemBlockType) s) as [|a r] eqn:Hb; [done|].
  assert (a = "-"%char) as -> by by injection Hb.
  apply (trim_space_line _ _ "-"%char (String.append t (srev (pem_begin pemBlockType)))); [done| |done].
  rewrite <- Hb, srev_append, Hs; done.
Qed.

(** The words of a block, laid out in lines, come back in one piece. *)
Lemma decodePEMBlock_text ls : Forall b64_word ls → ls ≠ [] →
  decodePEMBlock (pem_text pemBlockType ls)
  = match pem_Decode (lines64 (foldr String.append "" ls)) with
    | Some der => Ok der
    | None => Err (OtherError "signing: public key is not valid PEM")
    end.
Proof.
  intros Hls Hne; unfold pem_text.
  set (B := pem_begin pemBlockType); set (E := pem_end pemBlockType).
  assert (lines_text (B :: ls ++ [E])
    = String.append (String.append B (String.append (String newline (lines_text ls)) E)) (String newline "")) as ->.
  { change (lines_text (B :: ls ++ [E])) with (String.append B (String newline (lines_text (ls ++ [E])))).
    rewrite lines_text_app; simpl (lines_text [E]); rewrite append_assoc; f_equal; simpl; by rewrite append_assoc. }
  unfold decodePEMBlock; rewrite trim_block; [|done|].
  2: { rewrite srev_append; by eexists. }
  replace (String.eqb (String.append B (String.append (String newline (lines_text ls)) E)) "") with false by done.
  fold B E; rewrite str_index_here.
  change (String.append (String newline (lines_text ls)) E) with (String newline (String.append (lines_text ls) E)).
  unfold B, E; rewrite pem_end_index by done; fold B E; cbv iota beta.
  replace (27 + String.length (lines_text ls) <? 0)%nat with false by done.
  change (0 + String.length B)%nat with 26%nat.
  replace (27 + String.length (lines_text ls) <? 26)%nat with false by (symmetry; apply Nat.ltb_ge; lia).
  replace (27 + String.length (lines_text ls) - 26)%nat with (String.length (String newline (lines_text ls))) by (simpl; lia).
  rewrite substring_skip by done.
  change (String newline (String.append (lines_text ls) E)) with (String.append (String newline (lines_text ls)) E).
  rewrite substring_take by done; rewrite fields_lines by done; rewrite join_nothing.
  destruct Hls as [|l ls [Hl _] Hls]; [done|]; simpl; by destruct l.
Qed.

Section Canonical.
Context `{KeyCrypto}.

Lemma canonical_block (Hempty : ParsePKIXPublicKey "" = None) raw pem : NormalizePublicKeyPEM raw = Ok pem →
  ∃ der key, decodePEMBlock raw = Ok der ∧ decodePEMBlock pem = Ok der ∧ parseECDSAP256PublicKey der = Ok key
    ∧ pem = pem_EncodeToMemory pemBlockType der.
Proof.
  unfold NormalizePublicKeyPEM; intros Hok.
  apply rbind_ok in Hok as (der & Hraw & Hok); apply rbind_ok in Hok as (key & Hkey & [= <-]).
  exists der, key; split_and!; [done| |done..].
  unfold pem_EncodeToMemory; rewrite decodePEMBlock_text; [|apply encoded_words|].
  - by rewrite join_lines64, pem_round_trip.
  - intros Hnil; pose proof (pem_round_trip der) as Hd; rewrite Hnil in Hd; injection Hd as <-.
    unfold parseECDSAP256PublicKey in Hkey; by rewrite Hempty in Hkey.
Qed.

(** Normalising a key's PEM is a projection: the canonical text is its own
    canonical text and holds the same key, so a stored key that was accepted
    once is usable at every pull. *)
Theorem canonical_key_is_stable (Hempty : ParsePKIXPublicKey "" = None) raw pem
    (Hok : NormalizePublicKeyPEM raw = Ok pem) :
  NormalizePublicKeyPEM pem = Ok pem ∧ ∃ key, ParseTrustedKey pem = Ok key ∧ ParseTrustedKey raw = Ok key.
Proof.
  destruct (canonical_block Hempty raw pem Hok) as (der & key & Hraw & Hpem & Hkey & ->).
  unfold NormalizePublicKeyPEM, ParseTrustedKey; rewrite Hpem, Hraw; simpl; rewrite Hkey; split; [done|by exists key].
Qed.
End Canonical.

Lemma canonical_key_is_stable_witness :
  NormalizePublicKeyPEM example_key_line = Ok example_key_pem ∧ NormalizePublicKeyPEM example_key_pem = Ok example_key_pem.
Proof.
  split; [vm_compute; reflexivity|].
  apply (@canonical_key_is_stable example_crypto eq_refl example_key_line example_key_pem); vm_compute; reflexivity.
Defined.

(** * Checks *)

(** Markers that share their dashes: the slice between them has its bounds the
    wrong way round, and the request dies instead of being refused. *)
Lemma adjacent_markers_panic :
  NormalizePublicKeyPEM (H := example_crypto) "-----BEGIN PUBLIC KEY-----END PUBLIC KEY-----" = Err slice_panic.
Proof. vm_compute; reflexivity. Qed.
