(* ===== verification/Gate.v ===== *)
(** The gate that bounds concurrent runs ([scanGate], internal/app/regixtry/service.go):
    a counter under a mutex, polled until a slot is free. One poll and one release
    are the atomic steps; workers interleave freely between them. *)
From S2P Require Import Prelude.

(** * Definitions *)

Definition gate_limit (max : Z) : Z := if max <=? 0 then 1 else max.

(** One pass of the loop of [acquire], under the mutex. *)
Definition gate_poll (max inFlight : Z) : option Z :=
  if inFlight <? gate_limit max then Some (inFlight + 1) else None.
Definition gate_release (inFlight : Z) : Z := if 0 <? inFlight then inFlight - 1 else inFlight.

(** ** Workers around a gate *)

(** The counter, the workers polling and the workers between [acquire] and the
    deferred [release]. *)
Record GateState := mkGate { gt_inFlight : Z; gt_waiting : gset nat; gt_running : gset nat }.
Definition newScanGate : GateState := mkGate 0 ∅ ∅.

(** The limit is the caller's: each poll may bring another. *)
Inductive gate_step (g : GateState) : GateState → Prop :=
  | gs_arrive i : i ∉ gt_waiting g → i ∉ gt_running g →
      gate_step g (mkGate (gt_inFlight g) ({[i]} ∪ gt_waiting g) (gt_running g))
  | gs_enter i max n : i ∈ gt_waiting g → gate_poll max (gt_inFlight g) = Some n →
      gate_step g (mkGate n (gt_waiting g ∖ {[i]}) ({[i]} ∪ gt_running g))
  | gs_cancelled i : i ∈ gt_waiting g →
      gate_step g (mkGate (gt_inFlight g) (gt_waiting g ∖ {[i]}) (gt_running g))
  | gs_leave i : i ∈ gt_running g →
      gate_step g (mkGate (gate_release (gt_inFlight g)) (gt_waiting g) (gt_running g ∖ {[i]})).

(** Steps whose polls all bring a limit of at most [limit]. *)
Inductive limited_step (limit : Z) (g : GateState) : GateState → Prop :=
  | ls_other g' : gate_step g g' → gt_inFlight g' ≤ gt_inFlight g → limited_step limit g g'
  | ls_enter i max n : i ∈ gt_waiting g → gate_limit max ≤ limit → gate_poll max (gt_inFlight g) = Some n →
      limited_step limit g (mkGate n (gt_waiting g ∖ {[i]}) ({[i]} ∪ gt_running g)).

(** One worker runs, another waits. *)
Definition one_running : GateState := mkGate 1 {[2%nat]} {[1%nat]}.

(** * Lemmas *)

(** The counter counts the running workers. *)
Definition counted (g : GateState) : Prop :=
  gt_inFlight g = Z.of_nat (size (gt_running g)) ∧ gt_waiting g ## gt_running g.

Lemma gate_poll_Some max n n' : gate_poll max n = Some n' → n < gate_limit max ∧ n' = n + 1.
Proof. unfold gate_poll; destruct (Z.ltb_spec n (gate_limit max)); [by intros [= <-]|done]. Qed.

Lemma gate_step_counted g g' : gate_step g g' → counted g → counted g'.
Proof.
  intros Hs [Hc Hd]; destruct Hs as [i|i max n Hi Hp|i|i Hi]; unfold counted; simpl.
  - split; [done|set_solver].
  - apply gate_poll_Some in Hp as [_ ->]; rewrite size_union, size_singleton by set_solver; split; [lia|set_solver].
  - split; [done|set_solver].
  - rewrite size_difference, size_singleton by set_solver; split; [|set_solver].
    assert (size (gt_running g) ≠ 0%nat) by (intros Hz%size_empty_inv; set_solver).
    unfold gate_release; destruct (Z.ltb_spec 0 (gt_inFlight g)); lia.
Qed.

Lemma limited_is_step limit g g' : limited_step limit g g' → gate_step g g'.
Proof. destruct 1; [done|by eapply gs_enter]. Qed.

(** * Properties *)

(** C36: In every interleaving of workers the gate counts exactly the workers that
    run, never goes negative, and never lets more run than the largest limit any of
    them brought; with limit 1 two never run together. *)
Theorem gate_never_over_limit limit g :
  rtc (limited_step limit) newScanGate g →
  gt_inFlight g = Z.of_nat (size (gt_running g)) ∧ 0 ≤ gt_inFlight g ≤ Z.max limit 0
  ∧ (limit = 1 → ∀ i j, i ∈ gt_running g → j ∈ gt_running g → i = j).
Proof.
  intros Hs; assert (counted g ∧ gt_inFlight g ≤ Z.max limit 0) as [[Hc _] Hle].
  { eapply (rtc_invariant _ (λ g, counted g ∧ gt_inFlight g ≤ Z.max limit 0)); [|exact Hs|by split; [|simpl; lia]].
    intros y z Hyz [Hy Hle]; split; [by eapply gate_step_counted, Hy; eapply limited_is_step|].
    destruct Hyz as [z _ Hz|i max n _ Hm Hp]; [lia|]; apply gate_poll_Some in Hp as [? ->]; simpl; lia. }
  split_and!; [done|lia|lia|]; intros -> i j Hi Hj.
  apply (size_singleton_inv (gt_running g)); [|done..].
  assert (size (gt_running g) ≠ 0%nat) by (intros Hz%size_empty_inv; set_solver); lia.
Qed.

(** C37: No slot is ever lost: whenever a worker waits at a gate in any reachable
    state, either its next poll succeeds, or as many runs as have to end are under
    way, and once they have left its next poll succeeds. *)
Theorem waiting_worker_can_enter g i max :
  rtc gate_step newScanGate g → i ∈ gt_waiting g →
  ∃ g' n, rtc gate_step g g' ∧ i ∈ gt_waiting g' ∧ gt_running g' ⊆ gt_running g ∧ gate_poll max (gt_inFlight g') = Some n.
Proof.
  intros Hr Hi; assert (counted g) as Hc.
  { by eapply (rtc_invariant _ counted); [apply gate_step_counted|exact Hr|]. }
  clear Hr; remember (size (gt_running g)) as k eqn:Hk; revert g Hk Hi Hc.
  induction k as [|k IH]; intros g Hk Hi Hc; pose proof Hc as [Hn _].
  - exists g, (gt_inFlight g + 1); split_and!; [apply rtc_refl|done..|].
    assert (gt_inFlight g < gate_limit max) as Hlt by (unfold gate_limit; destruct (Z.leb_spec max 0); lia).
    unfold gate_poll; by rewrite (proj2 (Z.ltb_lt _ _) Hlt).
  - destruct (set_choose_or_empty (gt_running g)) as [[j Hj]|He]; [|rewrite He, size_empty in Hk; done].
    set (g1 := mkGate (gate_release (gt_inFlight g)) (gt_waiting g) (gt_running g ∖ {[j]})).
    assert (gate_step g g1) as Hs by by apply gs_leave.
    assert (k = size (gt_running g1)) as Hk1 by (simpl; rewrite size_difference, size_singleton by set_solver; lia).
    destruct (IH g1 Hk1 Hi (gate_step_counted _ _ Hs Hc)) as (g' & n & Hs' & Hi' & Hsub & Hp); simpl in Hsub.
    exists g', n; split_and!; [by eapply rtc_l|done|set_solver|done].
Qed.

(** * Witnesses *)

Lemma one_running_reached : rtc (limited_step 1) newScanGate one_running.
Proof.
  eapply rtc_l; [apply ls_other; [apply (gs_arrive newScanGate 1); set_solver|simpl; lia]|].
  eapply rtc_l; [apply (ls_enter 1 _ 1 1 1); [set_solver|vm_compute; discriminate|reflexivity]|].
  eapply rtc_l; [apply ls_other; [apply (gs_arrive _ 2); set_solver|simpl; lia]|].
  replace (mkGate _ _ _) with one_running; [apply rtc_refl|].
  unfold one_running; simpl; f_equal; set_solver.
Qed.

Lemma gate_never_over_limit_witness : 0 ≤ gt_inFlight one_running ≤ 1 ∧ gt_running one_running = {[1%nat]}.
Proof.
  destruct (gate_never_over_limit 1 one_running one_running_reached) as (_ & Hb & _).
  split; [exact Hb|reflexivity].
Defined.

(** The waiting worker enters after the running one has left. *)
Lemma waiting_worker_can_enter_witness :
  ∃ g' n, rtc gate_step one_running g' ∧ 2%nat ∈ gt_waiting g' ∧ gate_poll 1 (gt_inFlight g') = Some n.
Proof.
  destruct (waiting_worker_can_enter one_running 2 1) as (g' & n & Hs & Hi & _ & Hp).
  - eapply rtc_subrel; [|exact one_running_reached]; intros x y Hxy; by eapply limited_is_step.
  - simpl; set_solver.
  - exists g', n; split; [exact Hs|split; [exact Hi|exact Hp]].
Defined.
