(* ===== verification/Gc.v ===== *)
(** Blob garbage collection (internal/app/regixtry/service_gc.go): the report and
    the deletion by report. The gate that bounds both to one run at a time is
    modelled on its own (file [Gate], service.go): one request never waits for it. *)
From S2P Require Import Prelude GoStrings Errors Repository Digest GoNumbers Manifest Scope Auth Access.
From S2P Require Import RegPorts RegService.

(** * Definitions *)

Definition gcGraceWindow : Duration := 24 * hour.
Definition gcReportTTL : Duration := 24 * hour.
Definition gcDeleteDisabledMessage : string :=
  "blob garbage collection delete is disabled (REGISTRY_GC_DELETE_ENABLED)".

Definition report_expired (reportID : string) : error :=
  RegError CodeValidation [Lit "gc report "; Quoted reportID; Lit " has expired"].

(** An unmarked blob older than the cutoff is a candidate. *)
Definition is_candidate (cutoff : Time) (marked : list string) (b : BlobFileInfo) : bool :=
  negb (existsb (String.eqb (bfi_Digest b)) marked) && Before (bfi_ModTime b) cutoff.

Definition sweep (cutoff : Time) (marked : list string) (blobs : list BlobFileInfo)
    : list GCReportCandidate :=
  sort_by cand_Digest
    (map (λ b, mkGCCandidate (bfi_Digest b) (bfi_Size b) (bfi_ModTime b) "" "")
       (filter (λ b, is_candidate cutoff marked b = true) blobs)).

Definition sum_sizes (l : list GCReportCandidate) : Z := foldr (λ c n, cand_Size c + n) 0 l.

(** The running totals of the deletion loop. *)
Record GcTally := mkGcTally {
  tl_Outcomes : list GCCandidateOutcome;
  tl_Deleted : Z;
  tl_Bytes : Z;
  tl_Failures : Z;
}.
Definition tally0 : GcTally := mkGcTally [] 0 0 0.

Definition record_outcome (t : GcTally) (digest outcome err : string) : GcTally :=
  mkGcTally (tl_Outcomes t ++ [mkGCOutcome digest outcome err]) (tl_Deleted t) (tl_Bytes t) (tl_Failures t).
Definition record_failure `{UnicodeTables} (t : GcTally) (digest : string) (e : error) : GcTally :=
  mkGcTally (tl_Outcomes t ++ [mkGCOutcome digest GCCandidateOutcomeFailed (error_string e)])
    (tl_Deleted t) (tl_Bytes t) (tl_Failures t + 1).
Definition record_deleted (t : GcTally) (c : GCReportCandidate) : GcTally :=
  mkGcTally (tl_Outcomes t ++ [mkGCOutcome (cand_Digest c) GCCandidateOutcomeDeleted ""])
    (tl_Deleted t + 1) (tl_Bytes t + cand_Size c) (tl_Failures t).

Section Service.
Context {W : Type} `{UnicodeTables, !BlobStore W, !MetadataStore W, !RegRuntime W}.
Variables (svc : RegConfig) (ctx : option Principal).

Definition gcCandidates (now : Time) : M W (list GCReportCandidate * Time) :=
  let cutoff := now - gcGraceWindow in
  let! blobs := ListBlobs in
  let! marked := ListReferencedBlobDigests in
  sret (sweep cutoff marked blobs, cutoff).

Definition actor_id : string := match ctx with Some p => p_UserID p | None => "" end.

Definition ComputeGCReport : M W GCReportDetail :=
  let! now := reg_now in
  let! started := reg_now in
  do! PruneExpiredGCReports now in
  let! computed := gcCandidates now in
  let '(candidates, cutoff) := computed in
  let! id := reg_uuid in
  let! finished := reg_now in
  let report := {|
    gc_ID := id;
    gc_Status := GCReportStatusReported;
    gc_ComputedAt := now;
    gc_ExpiresAt := now + gcReportTTL;
    gc_GraceCutoff := cutoff;
    gc_CandidateCount := Z.of_nat (length candidates);
    gc_CandidateBytes := sum_sizes candidates;
    gc_DurationMillis := (finished - started) / 1000000;
    gc_RequestedBy := actor_id;
    gc_TriggeredInTenant := rc_tenant svc;
    gc_DeletedAt := None;
    gc_DeletedBy := "";
    gc_DeletedCount := 0;
    gc_BytesReclaimed := 0;
    gc_Error := "" |} in
  do! CreateGCReport report candidates in
  sret (mkGCReportDetail report candidates).

Definition GetGCReport (reportID : string) : M W GCReportDetail := meta_GetGCReport reportID.

(** One candidate of the report: retained unless it is still a candidate and
    still unreferenced, and then unlinked. *)
Definition delete_candidate (fresh : list GCReportCandidate) (t : GcTally) (c : GCReportCandidate) : M W GcTally :=
  let d := cand_Digest c in
  if negb (existsb (λ f, String.eqb (cand_Digest f) d) fresh)
  then sret (record_outcome t d GCCandidateOutcomeRetained "") else
  match ParseDigest d with
  | Err e => sret (record_failure t d e)
  | Ok digest =>
      let! referenced := sattempt (IsBlobDigestReferenced d) in
      match referenced with
      | Err e => sret (record_failure t d e)
      | Ok true => sret (record_outcome t d GCCandidateOutcomeRetained "")
      | Ok false =>
          let! removed := sattempt (DeleteBlob digest) in
          match removed with
          | Err e => sret (record_failure t d e)
          | Ok false => sret (record_outcome t d GCCandidateOutcomeMissing "")
          | Ok true => sret (record_deleted t c)
          end
      end
  end.

Fixpoint delete_candidates (fresh : list GCReportCandidate) (t : GcTally) (l : list GCReportCandidate) : M W GcTally :=
  match l with
  | [] => sret t
  | c :: l' => let! t' := delete_candidate fresh t c in delete_candidates fresh t' l'
  end.

Definition DeleteByGCReport (reportID : string) : M W GCReportDetail :=
  if negb (gcDeleteEnabled svc) then sthrow (NewUnsupportedError gcDeleteDisabledMessage) else
  let! detail := meta_GetGCReport reportID in
  if negb (String.eqb (gc_Status (gcd_Report detail)) GCReportStatusReported)
  then sthrow (not_reported reportID) else
  let! now := reg_now in
  if negb (Before now (gc_ExpiresAt (gcd_Report detail))) then sthrow (report_expired reportID) else
  let! computed := gcCandidates now in
  let fresh := computed.1 in
  let! t := delete_candidates fresh tally0 (gcd_Candidates detail) in
  let outcomeError :=
    if 0 <? tl_Failures t
    then String.append (decimal (tl_Failures t)) (String.append " of "
           (String.append (decimal (Z.of_nat (length (gcd_Candidates detail)))) " unlinks failed"))
    else "" in
  let outcome := mkGCDeleteOutcome now actor_id (tl_Deleted t) (tl_Bytes t) outcomeError (tl_Outcomes t) in
  do! MarkGCReportDeleted reportID outcome in
  meta_GetGCReport reportID.
End Service.
