(* ===== verification/MetaLaws.v ===== *)
(** The metadata store keeps its contract: every operation of MetaStore.v meets
    its specification in Registry.v on well-formed tables, one transaction at a
    time. *)
From S2P Require Import Prelude GoStrings Errors Repository Digest GoNumbers Manifest RegPorts RegWorld.
From S2P Require Import Registry FsBlob MetaStore RegView FsLaws.

(** * Well-formed tables *)

(** What the validation before every write, the UNIQUE constraints and the
    foreign keys with their cascades keep true. *)
Record db_ok (db : MetaDB) : Prop := {
  ok_repo_name t n r : md_repositories db !! (t, n) = Some r → valid_repository n = true;
  ok_repo_id k k' r r' : md_repositories db !! k = Some r → md_repositories db !! k' = Some r' →
    rr_ID r = rr_ID r' → k = k';
  ok_repo_sequence k r : md_repositories db !! k = Some r → rr_ID r < md_sequence db;
  ok_manifest_repo t rid d m : md_manifests db !! (t, rid, d) = Some m →
    ∃ n r, md_repositories db !! (t, n) = Some r ∧ rr_ID r = rid;
  ok_manifest_id k k' m m' : md_manifests db !! k = Some m → md_manifests db !! k' = Some m' →
    mr_ID m = mr_ID m' → k = k';
  ok_manifest_sequence k m : md_manifests db !! k = Some m → mr_ID m < md_sequence db;
  ok_manifest t rid d m : md_manifests db !! (t, rid, d) = Some m →
    mr_MediaType m ≠ "" ∧ d = DigestFromBytes (mr_Payload m)
    ∧ mr_Size m = Z.of_nat (String.length (mr_Payload m));
  ok_tag t rid g tg : md_tags db !! (t, rid, g) = Some tg →
    ∃ d m, md_manifests db !! (t, rid, d) = Some m ∧ mr_ID m = tg_ManifestID tg;
  ok_blob mid p b : md_manifest_blobs db !! (mid, p) = Some b →
    Descriptor_Validate b = Ok tt ∧ ∃ k m, md_manifests db !! k = Some m ∧ mr_ID m = mid;
  ok_upload id r : md_uploads db !! id = Some r → UploadState_Validate (row_upload id r).2 = Ok tt;
  ok_report id r : md_gc_reports db !! id = Some r → gc_ID r = id;
  ok_candidate id p c : md_gc_candidates db !! (id, p) = Some c → is_Some (md_gc_reports db !! id);
}.

Lemma empty_db_ok : db_ok empty_db.
Proof. split; simpl; intros *; by rewrite ?lookup_empty. Qed.

(** * Running statements *)

Section Runs.
Context `{RegEnvLaws}.

Definition sql_outcome {A} (spec : Registry → res A → Registry → Prop) (w : RegWorld) (r : res A)
    (w' : RegWorld) : Prop :=
  db_ok (rw_db w') ∧ rw_fs w' = rw_fs w ∧ rw_scans w' = rw_scans w ∧ world_later w w'
  ∧ (spec (view_of w) r (view_of w') ∨ unchanged (view_of w) r (view_of w') ∧ ¬ world_calm w).

Lemma wp_sql_call {A} (f : MetaDB → res A * MetaDB) (Q : res A → RegWorld → Prop) db fs sc n :
  (∀ e, ¬ world_calm (mkRegWorld db fs sc n) → Q (Err (OtherError e)) (mkRegWorld db fs sc (S n))) →
  Q (f db).1 (mkRegWorld (f db).2 fs sc (S n)) →
  wp (sql_call f) Q (mkRegWorld db fs sc n).
Proof.
  intros Hf HQ; unfold wp, sql_call; simpl; destruct (renv_fault n) as [e|] eqn:Hfault; simpl.
  - apply Hf; intros Hc; specialize (Hc n (le_n n)); congruence.
  - by destruct (f db).
Qed.

Lemma wp_sql_query {A} (f : MetaDB → res A) (Q : res A → RegWorld → Prop) db fs sc n :
  (∀ e, ¬ world_calm (mkRegWorld db fs sc n) → Q (Err (OtherError e)) (mkRegWorld db fs sc (S n))) →
  Q (f db) (mkRegWorld db fs sc (S n)) →
  wp (sql_query f) Q (mkRegWorld db fs sc n).
Proof. intros Hf HQ; by apply wp_sql_call. Qed.

Lemma wp_sql_exec f (Q : res unit → RegWorld → Prop) db fs sc n :
  (∀ e, ¬ world_calm (mkRegWorld db fs sc n) → Q (Err (OtherError e)) (mkRegWorld db fs sc (S n))) →
  match f db with
  | Ok db' => Q (Ok tt) (mkRegWorld db' fs sc (S n))
  | Err e => Q (Err e) (mkRegWorld db fs sc (S n))
  end →
  wp (sql_exec f) Q (mkRegWorld db fs sc n).
Proof. intros Hf HQ; apply wp_sql_call; [done|]; by destruct (f db). Qed.

Lemma wp_sql_exec_rows f (Q : res Z → RegWorld → Prop) db fs sc n :
  (∀ e, ¬ world_calm (mkRegWorld db fs sc n) → Q (Err (OtherError e)) (mkRegWorld db fs sc (S n))) →
  Q (Ok (f db).1) (mkRegWorld (f db).2 fs sc (S n)) →
  wp (sql_exec_rows f) Q (mkRegWorld db fs sc n).
Proof. intros Hf HQ; apply wp_sql_call; [done|]; by destruct (f db). Qed.

Lemma calm_later db fs sc n m db' : (n ≤ m)%nat →
  ¬ world_calm (mkRegWorld db' fs sc m) → ¬ world_calm (mkRegWorld db fs sc n).
Proof. intros Hm Hc Hx; apply Hc; intros k Hk; apply Hx; simpl in *; lia. Qed.

(** The transaction commits the body's tables or leaves the old ones. *)
Lemma wp_in_transaction {A} (body : M RegWorld A) (Q : res A → RegWorld → Prop) db fs sc n :
  (∀ e m, (n ≤ m)%nat → ¬ world_calm (mkRegWorld db fs sc n) → Q (Err (OtherError e)) (mkRegWorld db fs sc m)) →
  wp body (λ r w', (n ≤ rw_calls w')%nat ∧ rw_fs w' = fs ∧ rw_scans w' = sc
    ∧ match r with
      | Ok a => ∀ m, (n ≤ m)%nat → Q (Ok a) (mkRegWorld (rw_db w') fs sc m)
      | Err e => Q (Err e) (mkRegWorld db fs sc (rw_calls w'))
      end) (mkRegWorld db fs sc (S n)) →
  wp (in_transaction body) Q (mkRegWorld db fs sc n).
Proof.
  intros Hf Hb.
  assert (wp (let! _ := sql_query (λ _, Ok tt) in let! a := body in let! _ := sql_query (λ _, Ok tt) in sret a)
    (λ r w', match r with Ok a => Q (Ok a) w' | Err e => Q (Err e) (with_db db w') end)
    (mkRegWorld db fs sc n)) as Hi.
  - apply wp_sbind, wp_sql_query; [intros e Hc; apply Hf; [simpl; lia|done]|].
    apply wp_sbind; eapply wp_conseq; [exact Hb|].
    intros [a|e] [db1 fs1 sc1 n1]; simpl; intros (Hn & -> & -> & HQ); [|exact HQ].
    apply wp_sbind, wp_sql_query; [|apply wp_sret, HQ; lia].
    intros e Hc; apply Hf; [simpl; lia|]; eapply calm_later; [|exact Hc]; lia.
  - unfold wp in *; unfold in_transaction; by destruct (sbind _ _ _) as [[a|e] w'].
Qed.

Lemma guard_outcome {A} (v : res unit) (m : M RegWorld A) spec w :
  db_ok (rw_db w) → (v = Ok tt → wp m (sql_outcome spec w) w) →
  wp (do! slift v in m) (sql_outcome (guarded v spec) w) w.
Proof.
  intros Hdb Hm; apply wp_sbind, wp_slift; destruct v as [[]|e]; [by apply Hm|].
  split; [done|split; [done|split; [done|split; [unfold world_later; lia|by left]]]].
Qed.

Lemma guard_outcome2 {A} (v v' : res unit) (m : M RegWorld A) spec w :
  db_ok (rw_db w) → (v = Ok tt → v' = Ok tt → wp m (sql_outcome spec w) w) →
  wp (do! slift v in do! slift v' in m) (sql_outcome (guarded (do? v in v') spec) w) w.
Proof.
  intros Hdb Hm; eapply wp_conseq; [apply guard_outcome; [done|]|].
  - intros Hv; apply guard_outcome; [done|]; intros Hv'; by apply Hm.
  - intros r w' (? & ? & ? & ? & [Hs|Hs]); (split; [done|split; [done|split; [done|split; [done|]]]]); [left|by right].
    by destruct v as [[]|].
Qed.

Lemma query_outcome {A} (f : MetaDB → res A) (g : Registry → res A → Prop) w :
  db_ok (rw_db w) → (∀ fs sc, g (view_of (mkRegWorld (rw_db w) fs sc 0)) (f (rw_db w))) →
  wp (sql_query f) (sql_outcome (reads g) w) w.
Proof.
  destruct w as [db fs sc n]; simpl; intros Hdb Hg; apply wp_sql_query.
  - intros e Hc; split; [done|split; [done|split; [done|split; [unfold world_later; simpl; lia|]]]].
    right; split; [split; [done|by eexists]|done].
  - split; [done|split; [done|split; [done|split; [unfold world_later; simpl; lia|]]]]; left; split; [done|apply Hg].
Qed.

(** A single writing statement. *)
Lemma exec_outcome f (spec : Registry → res unit → Registry → Prop) w :
  db_ok (rw_db w) →
  (∀ fs sc n, match f (rw_db w) with
        | Ok db' => db_ok db' ∧ spec (view_of (mkRegWorld (rw_db w) fs sc n)) (Ok tt) (view_of (mkRegWorld db' fs sc n))
        | Err e => spec (view_of (mkRegWorld (rw_db w) fs sc n)) (Err e) (view_of (mkRegWorld (rw_db w) fs sc n))
        end) →
  wp (sql_exec f) (sql_outcome spec w) w.
Proof.
  destruct w as [db fs sc n]; simpl; intros Hdb Hf; apply wp_sql_exec.
  - intros e Hc; split; [done|split; [done|split; [done|split; [unfold world_later; simpl; lia|]]]].
    right; split; [split; [done|by eexists]|done].
  - specialize (Hf fs sc (S n)); destruct (f db); [destruct Hf|];
      (split; [done|split; [done|split; [done|split; [unfold world_later; simpl; lia|by left]]]]).
Qed.

(** A single statement whose row count decides between success and an error. *)
Lemma rows_outcome f (err : error) (spec : Registry → res unit → Registry → Prop) w :
  db_ok (rw_db w) →
  (∀ fs sc n, let '(k, db') := f (rw_db w) in
     db_ok db' ∧ spec (view_of (mkRegWorld (rw_db w) fs sc n)) (if k =? 0 then Err err else Ok tt)
                   (view_of (mkRegWorld db' fs sc n))) →
  wp (let! k := sql_exec_rows f in if k =? 0 then sthrow err else sret tt) (sql_outcome spec w) w.
Proof.
  destruct w as [db fs sc n]; simpl; intros Hdb Hf; apply wp_sbind, wp_sql_exec_rows.
  - intros e Hc; split; [done|split; [done|split; [done|split; [unfold world_later; simpl; lia|]]]].
    right; split; [split; [done|by eexists]|done].
  - specialize (Hf fs sc (S n)); destruct (f db) as [k db']; simpl in *; destruct Hf as [Hok Hspec].
    destruct (k =? 0); [apply wp_sthrow|apply wp_sret];
      (split; [done|split; [done|split; [done|split; [unfold world_later; simpl; lia|by left]]]]).
Qed.
End Runs.

(** * Uploads *)

Lemma row_upload_valid db id r : db_ok db → md_uploads db !! id = Some r →
  scan_upload id r = Ok (row_upload id r).2.
Proof.
  intros Hdb Hr; pose proof (ok_upload db Hdb id r Hr) as Hv; apply UploadState_Validate_ok in Hv as (_ & Hn & _).
  unfold scan_upload; simpl in *; apply valid_repository_spec in Hn; by rewrite Hn.
Qed.

Section Uploads.
Context `{RegEnvLaws}.

Lemma sql_SaveUpload_outcome t st w :
  db_ok (rw_db w) → wp (sql_SaveUpload t st) (sql_outcome (spec_save_upload t st) w) w.
Proof.
  intros Hdb; apply guard_outcome; [done|]; intros Hv; apply exec_outcome; [done|]; intros fs sc n.
  set (db := rw_db w) in *; split.
  - split; try (intros; by eapply Hdb); simpl.
    intros id r [[<- <-]|[_ Hr]]%lookup_insert_Some; [|by eapply ok_upload].
    destruct (md_uploads db !! up_ID st), st as [? [] ? ? ? ? ?]; exact Hv.
  - split; [done|]; unfold save_upload, put_uploads, view_of; simpl; f_equal; apply map_eq; intros id.
    rewrite lookup_view_uploads; simpl; destruct (decide (up_ID st = id)) as [<-|Hne].
    + rewrite !lookup_insert_eq, lookup_view_uploads; simpl; unfold row_upload.
      destruct (md_uploads db !! up_ID st), st as [? [] ? ? ? ? ?]; done.
    + by rewrite !lookup_insert_ne, lookup_view_uploads.
Qed.

Lemma sql_GetUpload_outcome t id w :
  db_ok (rw_db w) → wp (sql_GetUpload t id) (sql_outcome (spec_get_upload t id) w) w.
Proof.
  intros Hdb; apply query_outcome; [done|]; intros fs sc; simpl; rewrite lookup_view_uploads.
  destruct (md_uploads (rw_db w) !! id) as [r|] eqn:Hr; simpl; [|done].
  destruct (String.eqb (ul_Tenant r) t); [|done]; by rewrite (row_upload_valid (rw_db w)).
Qed.

Lemma sql_DeleteUpload_outcome t id w :
  db_ok (rw_db w) → wp (sql_DeleteUpload t id) (sql_outcome (spec_delete_upload t id) w) w.
Proof.
  intros Hdb; apply rows_outcome; [done|]; intros fs sc n; unfold delete_upload_sql; set (db := rw_db w) in *.
  destruct (md_uploads db !! id) as [r|] eqn:Hr.
  - destruct (String.eqb_spec (ul_Tenant r) t) as [<-|Hne].
    + split.
      * split; try (intros; by eapply Hdb); simpl; intros id' r' [_ Hr']%lookup_delete_Some; by eapply ok_upload.
      * left; exists (row_upload id r).2; simpl; rewrite lookup_view_uploads, Hr; split; [done|split; [done|]].
        unfold put_uploads, view_of; simpl; f_equal; apply map_eq; intros id'; rewrite lookup_view_uploads; simpl.
        destruct (decide (id = id')) as [<-|Hx]; [by rewrite !lookup_delete_eq|].
        by rewrite !lookup_delete_ne, lookup_view_uploads.
    + split; [done|]; right; split; [|done]; intros st; simpl; rewrite lookup_view_uploads, Hr; simpl; intros [= ? _]; done.
  - split; [done|]; right; split; [|done]; intros st; simpl; by rewrite lookup_view_uploads, Hr.
Qed.

Lemma sql_ListUploads_outcome t repo w :
  db_ok (rw_db w) → wp (sql_ListUploads t repo) (sql_outcome (spec_list_uploads t repo) w) w.
Proof.
  intros Hdb; apply query_outcome; [done|]; intros fs sc; set (db := rw_db w) in *.
  match goal with |- context [rmap ?f ?l] => set (rows := l); set (scan := f) end.
  assert (∀ kv, kv ∈ rows ↔ md_uploads db !! kv.1 = Some kv.2 ∧ ul_Tenant kv.2 = t
    ∧ match repo with Some r => ul_Repository kv.2 = ref_String r | None => True end) as Hrows.
  { intros [id r]; unfold rows; rewrite elem_of_sort_by, list_elem_of_filter, elem_of_map_to_list; simpl.
    rewrite andb_true_iff, String.eqb_eq; destruct repo; rewrite ?String.eqb_eq; tauto. }
  assert (rmap scan rows = Ok (map (λ kv, (row_upload kv.1 kv.2).2) rows)) as ->.
  { apply rmap_ok, Forall2_fmap_r, Forall_Forall2_diag, Forall_forall; intros [id r] (Hr & _)%Hrows.
    by apply (row_upload_valid db). }
  eexists; split; [done|]; intros st; rewrite list_elem_of_In, in_map_iff; simpl; rewrite lookup_view_uploads; split.
  - intros ([id r] & <- & (Hr & <- & Hm)%list_elem_of_In%Hrows); simpl in *; rewrite Hr; split; [done|].
    destruct repo as [[n]|]; [|done]; simpl in *; by rewrite Hm.
  - intros [Hst Hm]; destruct (md_uploads db !! up_ID st) as [r|] eqn:Hr; simpl in Hst; [|done].
    injection Hst as Ht Hst; exists (up_ID st, r); simpl; split; [exact Hst|].
    apply list_elem_of_In, Hrows; simpl; split_and!; [done..|].
    destruct repo; [|done]; rewrite <- Hm, <- Hst; done.
Qed.
End Uploads.

(** * Loops of statements in a transaction *)

Fixpoint exec_all {X} (stmt : X → MetaDB → res MetaDB) (l : list X) (db : MetaDB) : res MetaDB :=
  match l with
  | [] => Ok db
  | x :: l' => let? db' := stmt x db in exec_all stmt l' db'
  end.

Section Loops.
Context `{RegEnvLaws}.

Lemma wp_exec_loop {X} (stmt : X → MetaDB → res MetaDB) l db dbf fs sc n
    (Q : res (list unit) → RegWorld → Prop) :
  exec_all stmt l db = Ok dbf →
  (∀ e m db', (n ≤ m)%nat → ¬ world_calm (mkRegWorld db fs sc n) → Q (Err (OtherError e)) (mkRegWorld db' fs sc m)) →
  (∀ us m, (n ≤ m)%nat → Q (Ok us) (mkRegWorld dbf fs sc m)) →
  wp (smap (λ x, sql_exec (stmt x)) l) Q (mkRegWorld db fs sc n).
Proof.
  revert db n Q; induction l as [|x l IH]; intros db n Q; simpl.
  - intros [= ->] _ HQ; by apply HQ.
  - destruct (stmt x db) as [db1|] eqn:Hx; simpl; [|done]; intros Hl Hf HQ.
    apply wp_sbind, wp_sql_exec; [intros e Hc; apply Hf; [lia|done]|]; rewrite Hx.
    apply wp_sbind, (IH db1); [done| |].
    + intros e m db' Hm Hc; apply Hf; [lia|]; eapply calm_later; [|exact Hc]; lia.
    + intros us m Hm; apply wp_sret, HQ; lia.
Qed.
End Loops.

(** Statements that insert numbered rows. *)
Lemma exec_insert_blobs mid db i l :
  manifest_exists db mid = true → (∀ p, Z.of_nat i ≤ p → md_manifest_blobs db !! (mid, p) = None) →
  exec_all (λ ib : nat * Descriptor, insert_manifest_blob_sql mid ib.1 ib.2) (imap (λ j b, (i + j, b)%nat) l) db
  = Ok (set_manifest_blobs (insert_from mid i l (md_manifest_blobs db)) db).
Proof.
  revert db i; induction l as [|b l IH]; intros db i Hex Hp; [by destruct db|].
  simpl; unfold insert_manifest_blob_sql at 1; rewrite Nat.add_0_r, Hex, Hp by lia; simpl.
  replace (imap _ l) with (imap (λ j b, (S i + j, b)%nat) l) by (apply imap_ext; intros; simpl; f_equal; lia).
  etransitivity; [apply (IH _ (S i)); [done|]|reflexivity].
  intros p Hle; simpl; rewrite lookup_insert_ne by (intros [=]; lia); apply Hp; lia.
Qed.

Lemma exec_insert_candidates id db i l :
  is_Some (md_gc_reports db !! id) → (∀ p, Z.of_nat i ≤ p → md_gc_candidates db !! (id, p) = None) →
  exec_all (λ ic : nat * GCReportCandidate, insert_candidate_sql id ic.1 ic.2) (imap (λ j c, (i + j, c)%nat) l) db
  = Ok (set_gc_candidates (insert_from id i l (md_gc_candidates db)) db).
Proof.
  revert db i; induction l as [|c l IH]; intros db i [r Hr] Hp; [by destruct db|].
  simpl; unfold insert_candidate_sql at 1; rewrite Nat.add_0_r, Hr, Hp by lia; simpl.
  replace (imap _ l) with (imap (λ j c, (S i + j, c)%nat) l) by (apply imap_ext; intros; simpl; f_equal; lia).
  etransitivity; [apply (IH _ (S i)); [by eexists|]|reflexivity].
  intros p Hle; simpl; rewrite lookup_insert_ne by (intros [=]; lia); apply Hp; lia.
Qed.

Definition mark_all (id : string) (os : list GCCandidateOutcome) (m : gmap (string * Z) GCReportCandidate) :=
  map_imap (λ k c, Some (if String.eqb k.1 id then foldl (λ c o, set_outcome o c) c os else c)) m.

Lemma exec_mark id os db :
  exec_all (λ o db, Ok (mark_candidate_sql id o db)) os db
  = Ok (set_gc_candidates (mark_all id os (md_gc_candidates db)) db).
Proof.
  revert db; induction os as [|o os IH]; intros db; simpl.
  - destruct db as [? ? ? ? ? ? c ?]; unfold set_gc_candidates, mark_all; simpl; do 2 f_equal.
    apply map_eq; intros k; rewrite map_lookup_imap; destruct (c !! k); simpl; [|done]; by destruct (String.eqb _ _).
  - rewrite IH; unfold mark_candidate_sql, set_gc_candidates, mark_all; simpl; do 2 f_equal.
    apply map_eq; intros k; rewrite !map_lookup_imap; destruct (md_gc_candidates db !! k); simpl; [|done].
    by destruct (String.eqb _ _).
Qed.

(** * Garbage-collection reports and references *)

(** A store call that leaves the tables as they are. *)
Ltac outcome := split; [done|split; [done|split; [done|split; [unfold world_later; simpl; lia|]]]].

Section Reports.
Context `{RegEnvLaws}.

Lemma no_candidates db id p : db_ok db → md_gc_reports db !! id = None → md_gc_candidates db !! (id, p) = None.
Proof.
  intros Hdb Hid; destruct (md_gc_candidates db !! (id, p)) as [c|] eqn:Hc; [|done].
  by destruct (ok_candidate db Hdb id p c Hc) as [r Hr]; rewrite Hid in Hr.
Qed.

Lemma sql_CreateGCReport_outcome r cs w :
  db_ok (rw_db w) → wp (sql_CreateGCReport r cs) (sql_outcome (spec_create_report r cs) w) w.
Proof.
  destruct w as [db fs sc n]; simpl; intros Hdb; apply wp_in_transaction.
  { intros e m Hm Hc; outcome; right; split; [split; [done|by eexists]|done]. }
  apply wp_sbind, wp_sql_exec.
  { intros e Hc; simpl; split; [lia|split; [done|split; [done|]]]; outcome; right; split; [split; [done|by eexists]|].
    eapply calm_later; [|exact Hc]; lia. }
  unfold insert_report_sql; destruct (md_gc_reports db !! gc_ID r) as [old|] eqn:Hid.
  { simpl; split; [lia|split; [done|split; [done|]]]; outcome; left; right; split; [|split; [done|by eexists]].
    simpl; rewrite lookup_view_reports, Hid; by eexists. }
  set (db1 := set_gc_reports (<[gc_ID r := r]> (md_gc_reports db)) db).
  assert (exec_all (λ ic : nat * GCReportCandidate, insert_candidate_sql (gc_ID r) ic.1 ic.2) (imap pair cs) db1
    = Ok (set_gc_candidates (insert_from (gc_ID r) 0 cs (md_gc_candidates db1)) db1)) as Hall.
  { apply (exec_insert_candidates (gc_ID r) db1 0); [simpl; rewrite lookup_insert_eq; by eexists|].
    intros p _; simpl; by apply no_candidates. }
  apply wp_sbind; eapply wp_exec_loop; [exact Hall|..].
  { intros e m db' Hm Hc; simpl; split; [lia|split; [done|split; [done|]]]; outcome; right.
    split; [split; [done|by eexists]|]; eapply calm_later; [|exact Hc]; lia. }
  intros us m Hm; apply wp_sret; simpl; split; [lia|split; [done|split; [done|]]]; intros m' Hm'.
  split; [|split; [done|split; [done|split; [unfold world_later; simpl; lia|]]]].
  - split; try (intros; by eapply Hdb); simpl.
    + intros id r' [[<- <-]|[_ Hr']]%lookup_insert_Some; [done|by eapply ok_report].
    + intros id p c; rewrite lookup_insert_from, lookup_insert_is_Some; destruct (decide (gc_ID r = id)) as [<-|Hne].
      * by left.
      * rewrite decide_False by naive_solver; intros Hc; right; split; [done|]; by eapply ok_candidate.
  - left; left; simpl; rewrite lookup_view_reports, Hid; split; [done|split; [done|]].
    unfold put_reports, view_of; simpl; f_equal; apply map_eq; intros id; rewrite lookup_view_reports; simpl.
    unfold candidate_rows; simpl; destruct (decide (gc_ID r = id)) as [<-|Hne].
    + rewrite !lookup_insert_eq; simpl; rewrite positioned_insert_from; [done|]; intros p; by apply no_candidates.
    + rewrite !lookup_insert_ne, lookup_view_reports by done; destruct (md_gc_reports db !! id); [simpl|done].
      by rewrite positioned_insert_other.
Qed.

Lemma sql_GetGCReport_outcome id w :
  db_ok (rw_db w) → wp (sql_GetGCReport id) (sql_outcome (spec_get_report id) w) w.
Proof.
  destruct w as [db fs sc n]; simpl; intros Hdb; apply wp_sbind, wp_sql_query.
  { intros e Hc; outcome; right; split; [split; [done|by eexists]|done]. }
  destruct (md_gc_reports db !! id) as [r|] eqn:Hr.
  2: { outcome; left; split; [done|]; simpl; by rewrite lookup_view_reports, Hr. }
  apply wp_sbind, wp_sql_query.
  - intros e Hc; outcome; right; split; [split; [done|by eexists]|]; eapply calm_later; [|exact Hc]; lia.
  - apply wp_sret; outcome; left; split; [done|]; simpl; by rewrite lookup_view_reports, Hr.
Qed.

Lemma sql_PruneExpiredGCReports_outcome now w :
  db_ok (rw_db w) → wp (sql_PruneExpiredGCReports now) (sql_outcome (spec_prune now) w) w.
Proof.
  destruct w as [db fs sc n]; simpl; intros Hdb; apply wp_sql_exec_rows.
  { intros e Hc; outcome; right; split; [split; [done|by eexists]|done]. }
  set (db' := (prune_reports_sql now db).2).
  assert (∀ id, md_gc_reports db' !! id = match md_gc_reports db !! id with
    | Some r => if prunable now r then None else Some r | None => None end) as Hrep.
  { intros id; simpl; rewrite map_lookup_filter; destruct (md_gc_reports db !! id) as [r|]; simpl; [|done].
    by destruct (prunable now r). }
  assert (∀ id p, is_Some (md_gc_reports db' !! id) →
    md_gc_candidates db' !! (id, p) = md_gc_candidates db !! (id, p)) as Hcand.
  { intros id p; rewrite Hrep; simpl; intros [r Hr]; rewrite map_lookup_filter.
    destruct (md_gc_reports db !! id) as [r'|] eqn:Hid; [|done]; destruct (prunable now r') eqn:Hp; [done|].
    destruct (md_gc_candidates db !! (id, p)) as [c|]; simpl; [|done].
    case_guard as Hg; [done|]; simpl in Hg; by rewrite Hid, Hp in Hg. }
  split; [|split; [done|split; [done|split; [unfold world_later; simpl; lia|]]]].
  - split; try (intros; by eapply Hdb); fold db'.
    + intros id r; rewrite Hrep; destruct (md_gc_reports db !! id) as [r'|] eqn:Hid; [|done].
      destruct (prunable now r'); [done|]; intros [= <-]; by eapply ok_report.
    + intros id p c [Hc Hg]%map_lookup_filter_Some; rewrite Hrep; simpl in Hg.
      destruct (ok_candidate db Hdb id p c Hc) as [r Hr]; rewrite Hr in Hg |- *; rewrite Hg; by eexists.
  - left; split; [|by eexists]; unfold put_reports, view_of; simpl; f_equal; apply map_eq; intros id.
    rewrite map_lookup_filter, !lookup_view_reports; fold db'.
    change (filter _ (md_gc_reports db)) with (md_gc_reports db').
    rewrite Hrep; destruct (md_gc_reports db !! id) as [r|] eqn:Hid; [|done].
    assert (candidate_rows db' id = if prunable now r then candidate_rows db' id else candidate_rows db id) as Hc.
    { destruct (prunable now r) eqn:Hp; [done|]; apply positioned_ext; intros p; apply Hcand.
      rewrite Hrep, Hid, Hp; by eexists. }
    rewrite Hc; simpl; unfold report_prunable; simpl; fold (prunable now r).
    by destruct (prunable now r).
Qed.

Lemma sql_MarkGCReportDeleted_outcome id o w :
  db_ok (rw_db w) → wp (sql_MarkGCReportDeleted id o) (sql_outcome (spec_mark id o) w) w.
Proof.
  destruct w as [db fs sc n]; simpl; intros Hdb; apply wp_in_transaction.
  { intros e m Hm Hc; outcome; right; split; [split; [done|by eexists]|done]. }
  apply wp_sbind, wp_sql_exec_rows.
  { intros e Hc; simpl; split; [lia|split; [done|split; [done|]]]; outcome; right; split; [split; [done|by eexists]|].
    eapply (calm_later _ _ _ n); [|exact Hc]; lia. }
  unfold mark_report_sql; destruct (md_gc_reports db !! id) as [r|] eqn:Hid.
  2: { apply wp_sthrow; simpl; split; [lia|split; [done|split; [done|]]]; outcome; left; right; split; [|done].
       simpl; intros d; by rewrite lookup_view_reports, Hid. }
  destruct (String.eqb_spec (gc_Status r) GCReportStatusReported) as [Hst|Hst].
  2: { apply wp_sthrow; simpl; split; [lia|split; [done|split; [done|]]]; outcome; left; right; split; [|done].
       simpl; intros d; rewrite lookup_view_reports, Hid; by intros [= <-]. }
  simpl; apply wp_sbind; set (db1 := set_gc_reports _ db).
  eapply (wp_exec_loop (λ o db, Ok (mark_candidate_sql id o db))); [apply exec_mark|..].
  { intros e m db' Hm Hc; simpl; split; [lia|split; [done|split; [done|]]]; outcome; right.
    split; [split; [done|by eexists]|]; eapply calm_later; [|exact Hc]; lia. }
  intros us m Hm; apply wp_sret; simpl; split; [lia|split; [done|split; [done|]]]; intros m' Hm'.
  split; [|split; [done|split; [done|split; [unfold world_later; simpl; lia|]]]].
  - split; try (intros; by eapply Hdb); simpl.
    + intros id' r' [[<- <-]|[_ Hr']]%lookup_insert_Some; [exact (ok_report db Hdb id r Hid)|by eapply ok_report].
    + intros id' p c; unfold mark_all; rewrite map_lookup_imap, lookup_insert_is_Some.
      destruct (md_gc_candidates db !! (id', p)) as [c'|] eqn:Hc; simpl; [|done]; intros _.
      destruct (decide (id = id')) as [<-|]; [by left|right; split; [done|]]; by eapply ok_candidate.
  - left; left; exists (mkGCReportDetail r (candidate_rows db id)); simpl; rewrite lookup_view_reports, Hid.
    split; [done|split; [done|split; [done|]]].
    unfold put_reports, view_of; simpl; f_equal; apply map_eq; intros id'; rewrite lookup_view_reports; simpl.
    unfold candidate_rows; simpl; destruct (decide (id = id')) as [<-|Hne].
    + rewrite !lookup_insert_eq; simpl; unfold freeze_detail; simpl; do 2 f_equal.
      apply positioned_map; intros p; unfold mark_all; rewrite map_lookup_imap; simpl; rewrite String.eqb_refl.
      by destruct (md_gc_candidates db !! (id, p)).
    + rewrite !lookup_insert_ne, lookup_view_reports by done; simpl.
      destruct (md_gc_reports db !! id'); simpl; [|done]; do 2 f_equal; apply positioned_ext; intros p.
      unfold mark_all; rewrite map_lookup_imap; destruct (md_gc_candidates db !! (id', p)); simpl; [|done].
      by destruct (String.eqb_spec id' id).
Qed.
End Reports.
