(* ===== verification/MetaManifests.v ===== *)
(** Publishing, resolving and deleting in the metadata store: each statement's
    effect on the repositories, manifests and tags the tables describe, and the
    operations of MetaStore.v built from them against their specifications in
    Registry.v.

    Deletions and listings in the metadata store: what the ON DELETE CASCADE
    clauses remove, and the operations of MetaStore.v that delete or list against
    their specifications in Registry.v. *)
From S2P Require Import Prelude GoStrings Errors Repository Digest GoNumbers Manifest RegPorts RegWorld.
From S2P Require Import Registry FsBlob MetaStore RegView FsLaws MetaLaws.

(** * Publishing and resolving *)

#[local] Opaque DigestFromBytes.

(** * Reading well-formed tables *)

Section Lookups.
Variable db : MetaDB.
Hypothesis Hdb : db_ok db.

Lemma repository_id_unique k k' rid :
  repository_id db k.1 k.2 = Some rid → repository_id db k'.1 k'.2 = Some rid → k = k'.
Proof.
  destruct k, k'; intros (r & Hr & <-)%repository_id_Some (r' & Hr' & Hid)%repository_id_Some.
  by eapply ok_repo_id.
Qed.

Lemma repository_id_sequence t n rid : repository_id db t n = Some rid → rid < md_sequence db.
Proof. intros (r & Hr & <-)%repository_id_Some; by eapply ok_repo_sequence. Qed.

Lemma repository_exists_id t n rid : repository_id db t n = Some rid → repository_exists db rid = true.
Proof.
  intros (r & Hr & <-)%repository_id_Some; apply existsb_exists; exists ((t, n), r).
  split; [by apply list_elem_of_In, elem_of_map_to_list|apply Z.eqb_refl].
Qed.

Lemma manifest_exists_id k m : md_manifests db !! k = Some m → manifest_exists db (mr_ID m) = true.
Proof.
  intros Hm; apply existsb_exists; exists (k, m).
  split; [by apply list_elem_of_In, elem_of_map_to_list|apply Z.eqb_refl].
Qed.

Lemma manifest_row_Some t n d m :
  manifest_row db t n d = Some m ↔
  ∃ rid, repository_id db t n = Some rid ∧ md_manifests db !! (t, rid, d) = Some m.
Proof. apply bind_Some. Qed.

Lemma elem_of_repository_manifests t rid d m :
  (d, m) ∈ repository_manifests db t rid ↔ md_manifests db !! (t, rid, d) = Some m.
Proof.
  unfold repository_manifests; rewrite list_elem_of_In, in_map_iff; split.
  - intros ([[[t' rid'] d'] m'] & [= -> ->] & [Hk Hin]%list_elem_of_In%list_elem_of_filter); simpl in Hk.
    injection Hk as -> ->; by apply elem_of_map_to_list.
  - intros Hm; exists ((t, rid, d), m); split; [done|].
    by apply list_elem_of_In, list_elem_of_filter; split; [|apply elem_of_map_to_list].
Qed.

Lemma elem_of_repository_tags t rid g tg :
  (g, tg) ∈ repository_tags db t rid ↔ md_tags db !! (t, rid, g) = Some tg.
Proof.
  unfold repository_tags; rewrite list_elem_of_In, in_map_iff; split.
  - intros ([[[t' rid'] d'] m'] & [= -> ->] & [Hk Hin]%list_elem_of_In%list_elem_of_filter); simpl in Hk.
    injection Hk as -> ->; by apply elem_of_map_to_list.
  - intros Hm; exists ((t, rid, g), tg); split; [done|].
    by apply list_elem_of_In, list_elem_of_filter; split; [|apply elem_of_map_to_list].
Qed.

(** At most one manifest has a given id, so a tag points at one. *)
Lemma tagged_manifest_Some t n g d m :
  tagged_manifest db t n g = Some (d, m) ↔
  ∃ rid tg, repository_id db t n = Some rid ∧ md_tags db !! (t, rid, g) = Some tg
    ∧ md_manifests db !! (t, rid, d) = Some m ∧ mr_ID m = tg_ManifestID tg.
Proof.
  unfold tagged_manifest; rewrite bind_Some; setoid_rewrite bind_Some; split.
  - intros (rid & Hrid & tg & Htg & Hh); exists rid, tg.
    assert ((d, m) ∈ filter (λ dm, mr_ID dm.2 = tg_ManifestID tg) (repository_manifests db t rid)) as Hin.
    { destruct (filter _ _) as [|x l]; [done|]; injection Hh as ->; by left. }
    apply list_elem_of_filter in Hin as [Hid Hin%elem_of_repository_manifests]; done.
  - intros (rid & tg & Hrid & Htg & Hm & Hid); exists rid; split; [done|]; exists tg; split; [done|].
    assert ((d, m) ∈ filter (λ dm, mr_ID dm.2 = tg_ManifestID tg) (repository_manifests db t rid)) as Hin
      by (by apply list_elem_of_filter; split; [|apply elem_of_repository_manifests]).
    destruct (filter _ _) as [|[d' m'] l] eqn:Hf; [by apply not_elem_of_nil in Hin|]; simpl; f_equal.
    assert ((d', m') ∈ filter (λ dm, mr_ID dm.2 = tg_ManifestID tg) (repository_manifests db t rid)) as Hin'
      by (rewrite Hf; by left).
    apply list_elem_of_filter in Hin' as [Hid' Hm'%elem_of_repository_manifests]; simpl in Hid'.
    assert ((t, rid, d') = (t, rid, d)) as [= ->]
      by (eapply (ok_manifest_id db Hdb); [exact Hm'|exact Hm|congruence]).
    congruence.
Qed.

Lemma manifest_at_Some t n d e :
  manifest_at db (t, n, d) = Some e ↔
  ∃ rid m, repository_id db t n = Some rid ∧ md_manifests db !! (t, rid, d) = Some m ∧ row_entry db m = e.
Proof. unfold manifest_at; rewrite fmap_Some; setoid_rewrite manifest_row_Some; naive_solver. Qed.

Lemma tag_at_Some t n g d :
  tag_at db (t, n, g) = Some d ↔
  ∃ rid tg m, repository_id db t n = Some rid ∧ md_tags db !! (t, rid, g) = Some tg
    ∧ md_manifests db !! (t, rid, d) = Some m ∧ mr_ID m = tg_ManifestID tg.
Proof.
  unfold tag_at; rewrite fmap_Some; split.
  - intros ([d' m] & (rid & tg & ?)%tagged_manifest_Some & ->); eauto.
  - intros (rid & tg & m & ?); exists (d, m); split; [|done]; apply tagged_manifest_Some; eauto.
Qed.

Lemma tag_at_is_Some t n g :
  is_Some (tag_at db (t, n, g)) ↔
  ∃ rid tg, repository_id db t n = Some rid ∧ md_tags db !! (t, rid, g) = Some tg.
Proof.
  split.
  - intros [d (rid & tg & m & ? & ? & _)%tag_at_Some]; eauto.
  - intros (rid & tg & Hrid & Htg); destruct (ok_tag db Hdb t rid g tg Htg) as (d & m & Hm & Hid).
    exists d; apply tag_at_Some; eauto 10.
Qed.
End Lookups.

(** Two sets of tables that look the same through the joins. *)
Lemma view_manifests_ext db db' :
  (∀ k e, manifest_at db' k = Some e ↔ manifest_at db k = Some e) → view_manifests db' = view_manifests db.
Proof.
  intros Hk; apply map_eq; intros k; rewrite !lookup_view_manifests; apply option_eq; intros e; apply Hk.
Qed.
Lemma view_tags_ext db db' :
  (∀ k d, tag_at db' k = Some d ↔ tag_at db k = Some d) → view_tags db' = view_tags db.
Proof.
  intros Hk; apply map_eq; intros k; rewrite !lookup_view_tags; apply option_eq; intros e; apply Hk.
Qed.

(** * The statements of a publish *)

Section InsertRepository.
Variables (db : MetaDB) (t n : string) (now : Time).
Hypotheses (Hdb : db_ok db) (Hn : valid_repository n = true).
Notation db1 := (insert_repository_sql t n now db).

Lemma insert_repository_id t' n' :
  repository_id db1 t' n' =
  match repository_id db t' n' with
  | Some rid => Some rid
  | None => if decide ((t', n') = (t, n)) then Some (md_sequence db) else None
  end.
Proof.
  unfold insert_repository_sql, repository_id; destruct (md_repositories db !! (t, n)) as [r|] eqn:Hr; simpl.
  - destruct (md_repositories db !! (t', n')) eqn:Hr'; simpl; [done|].
    rewrite decide_False; [done|]; intros [= -> ->]; congruence.
  - destruct (decide ((t', n') = (t, n))) as [[= -> ->]|Hne].
    + by rewrite lookup_insert_eq, Hr.
    + rewrite lookup_insert_ne by congruence; by destruct (md_repositories db !! (t', n')).
Qed.

Lemma insert_repository_same :
  md_manifests db1 = md_manifests db ∧ md_tags db1 = md_tags db ∧ md_manifest_blobs db1 = md_manifest_blobs db
  ∧ md_uploads db1 = md_uploads db ∧ md_gc_reports db1 = md_gc_reports db
  ∧ md_gc_candidates db1 = md_gc_candidates db ∧ md_sequence db ≤ md_sequence db1.
Proof.
  unfold insert_repository_sql; destruct (md_repositories db !! (t, n)); simpl; split_and!; done || lia.
Qed.

Lemma insert_repository_ok : db_ok db1.
Proof.
  destruct insert_repository_same as (Hm & Ht & Hb & Hu & Hr & Hc & Hs).
  unfold insert_repository_sql in *; destruct (md_repositories db !! (t, n)) as [r0|] eqn:Hr0; [done|].
  split; simpl in *; try (intros; by eapply Hdb).
  - intros t' n' r [[[= -> ->] _]|[_ Hr']]%lookup_insert_Some; [done|by eapply ok_repo_name].
  - intros k k' r r' [[<- <-]|[Hk Hr1]]%lookup_insert_Some [[<- <-]|[Hk' Hr2]]%lookup_insert_Some Hid; simpl in *.
    + done.
    + apply (ok_repo_sequence db Hdb) in Hr2; lia.
    + apply (ok_repo_sequence db Hdb) in Hr1; lia.
    + by eapply ok_repo_id.
  - intros k r [[<- <-]|[_ Hr1]]%lookup_insert_Some; simpl; [lia|].
    apply (ok_repo_sequence db Hdb) in Hr1; lia.
  - intros t' rid d m (n' & r & Hr' & Hid)%(ok_manifest_repo db Hdb); exists n', r; split; [|done].
    rewrite lookup_insert_ne; [done|]; intros [= <- <-]; congruence.
  - intros k m Hm'%(ok_manifest_sequence db Hdb); lia.
Qed.

(** No manifest is under the id of a new repository. *)
Lemma fresh_repository_empty t' d : md_manifests db !! (t', md_sequence db, d) = None.
Proof.
  destruct (md_manifests db !! _) as [m|] eqn:Hm; [|done].
  apply (ok_manifest_repo db Hdb) in Hm as (n' & r & Hr & Hid); apply (ok_repo_sequence db Hdb) in Hr; lia.
Qed.

Lemma insert_repository_views :
  view_repos db1 = {[ (t, n) ]} ∪ view_repos db ∧ view_manifests db1 = view_manifests db
  ∧ view_tags db1 = view_tags db.
Proof.
  destruct insert_repository_same as (Hm & Ht & Hb & _); split_and!.
  - unfold view_repos, insert_repository_sql; destruct (md_repositories db !! (t, n)) eqn:Hr; simpl; [|by rewrite dom_insert_L].
    apply elem_of_dom_2 in Hr; set_solver.
  - apply view_manifests_ext; intros [[t' n'] d] e; rewrite !manifest_at_Some.
    unfold row_entry, manifest_blob_rows; rewrite Hm, Hb; setoid_rewrite insert_repository_id.
    destruct (repository_id db t' n') as [rid|]; [done|]; split; [|naive_solver].
    intros (rid & m & Hid & Hm' & _); case_decide; [|done]; injection Hid as <-.
    by rewrite fresh_repository_empty in Hm'.
  - apply view_tags_ext; intros [[t' n'] g] d; rewrite !tag_at_Some by auto using insert_repository_ok.
    rewrite Hm, Ht; setoid_rewrite insert_repository_id.
    destruct (repository_id db t' n') as [rid|]; [done|]; split; [|naive_solver].
    intros (rid & tg & m & Hid & _ & Hm' & _); case_decide; [|done]; injection Hid as <-.
    by rewrite fresh_repository_empty in Hm'.
Qed.
End InsertRepository.

Section UpsertManifest.
Variables (db : MetaDB) (t n : string) (rid : Z) (m : Manifest) (now : Time).
Hypotheses (Hdb : db_ok db) (Hrid : repository_id db t n = Some rid) (Hm : Manifest_Validate m = Ok tt).
Notation subject := (match mf_Subject m with Some s => desc_Digest s | None => "" end).
Notation key := (t, rid, mf_Digest m).

Definition published_row : ManifestRow :=
  match md_manifests db !! key with
  | Some old => mkManifestRow (mr_ID old) (mf_MediaType m) (mf_Size m) (mf_Payload m) (mr_CreatedAt old)
                  (mr_PushedBy old) subject
  | None => mkManifestRow (md_sequence db) (mf_MediaType m) (mf_Size m) (mf_Payload m) now (mf_PushedBy m) subject
  end.

Definition published : MetaDB :=
  let db2 := set_manifests (<[key := published_row]> (md_manifests db)) db in
  match md_manifests db !! key with Some _ => db2 | None => bump_sequence db2 end.

Lemma upsert_manifest_eq : upsert_manifest_sql t rid m subject now db = Ok published.
Proof.
  unfold upsert_manifest_sql, published, published_row; rewrite (repository_exists_id db t n) by done; simpl.
  by destruct (md_manifests db !! key).
Qed.

Lemma published_manifests : md_manifests published = <[key := published_row]> (md_manifests db).
Proof. unfold published; by destruct (md_manifests db !! key). Qed.
Lemma published_repository_id t' n' : repository_id published t' n' = repository_id db t' n'.
Proof. unfold published; by destruct (md_manifests db !! key). Qed.
Lemma published_same :
  md_repositories published = md_repositories db ∧ md_tags published = md_tags db
  ∧ md_manifest_blobs published = md_manifest_blobs db
  ∧ md_uploads published = md_uploads db ∧ md_gc_reports published = md_gc_reports db
  ∧ md_gc_candidates published = md_gc_candidates db ∧ md_sequence db ≤ md_sequence published.
Proof. unfold published; destruct (md_manifests db !! key); simpl; split_and!; done || lia. Qed.

(** The row's id is an old one of the same key, or above every id. *)
Lemma published_row_id k old : md_manifests db !! k = Some old → mr_ID old = mr_ID published_row → k = key.
Proof.
  unfold published_row; destruct (md_manifests db !! key) as [o|] eqn:Ho; simpl; intros Hk Hid.
  - by eapply ok_manifest_id.
  - apply (ok_manifest_sequence db Hdb) in Hk; lia.
Qed.

Lemma published_row_old k old :
  md_manifests db !! k = Some old → ∃ new, md_manifests published !! k = Some new ∧ mr_ID new = mr_ID old.
Proof.
  intros Hk; rewrite published_manifests; destruct (decide (k = key)) as [->|Hne].
  - rewrite lookup_insert_eq; eexists; split; [done|]; unfold published_row; by rewrite Hk.
  - rewrite lookup_insert_ne by done; eauto.
Qed.

Lemma published_ok : db_ok published.
Proof.
  destruct published_same as (Hr & Ht & Hb & Hu & Hg & Hc & Hs).
  pose proof (Manifest_Validate_ok m tt Hm) as (Hmt & Hd & Hsize & _).
  split; rewrite ?Hr, ?Ht, ?Hb, ?Hu, ?Hg, ?Hc; try (intros; by eapply Hdb).
  - intros k r Hk%(ok_repo_sequence db Hdb); lia.
  - intros t' rid' d m'; rewrite published_manifests.
    intros [[[= <- <- <-] _]|[_ Hm']]%lookup_insert_Some; [|by eapply ok_manifest_repo].
    apply repository_id_Some in Hrid as (r & ? & ?); eauto.
  - intros k k' m1 m2; rewrite published_manifests.
    intros [[<- <-]|[_ Hk]]%lookup_insert_Some [[<- <-]|[_ Hk']]%lookup_insert_Some Hid; try done.
    + symmetry in Hid |- *; by eapply published_row_id.
    + by eapply published_row_id.
    + by eapply ok_manifest_id.
  - intros k m1; rewrite published_manifests; intros [[<- <-]|[_ Hk]]%lookup_insert_Some.
    + unfold published, published_row; destruct (md_manifests db !! key) as [o|] eqn:Ho; simpl; [|lia].
      by apply (ok_manifest_sequence db Hdb) in Ho.
    + apply (ok_manifest_sequence db Hdb) in Hk; lia.
  - intros t' rid' d m1; rewrite published_manifests; intros [[[= <- <- <-] <-]|[_ Hk]]%lookup_insert_Some.
    + unfold published_row; destruct (md_manifests db !! key); simpl; by split_and!.
    + by eapply ok_manifest.
  - intros t' rid' g tg (d & m1 & Hk & Hid)%(ok_tag db Hdb); destruct (published_row_old _ _ Hk) as (m2 & ? & ?).
    exists d, m2; split; [done|congruence].
  - intros mid p b Hbl; destruct (ok_blob db Hdb mid p b Hbl) as (? & k & m1 & Hk & Hid); split; [done|].
    destruct (published_row_old _ _ Hk) as (m2 & ? & ?); exists k, m2; split; [done|congruence].
Qed.

Lemma published_manifest_exists : manifest_exists published (mr_ID published_row) = true.
Proof. eapply (manifest_exists_id published key); rewrite published_manifests; apply lookup_insert_eq. Qed.

(** The tags still point at the manifests they pointed at. *)
Lemma published_view_tags : view_tags published = view_tags db.
Proof.
  destruct published_same as (_ & Ht & _); apply view_tags_ext; intros [[t' n'] g] d.
  rewrite !tag_at_Some by auto using published_ok; rewrite Ht; setoid_rewrite published_repository_id; split.
  - intros (rid' & tg & m' & Hid & Htg & Hm' & Heq); exists rid', tg.
    rewrite published_manifests in Hm'; apply lookup_insert_Some in Hm' as [[Hk <-]|[_ Hm']]; [|eauto].
    destruct (ok_tag db Hdb t' rid' g tg Htg) as (d0 & m0 & Hm0 & Hid0).
    assert ((t', rid', d0) = key) as Hk0 by (eapply published_row_id; [done|congruence]).
    exists m0; split_and!; try done; congruence.
  - intros (rid' & tg & m' & Hid & Htg & Hm' & Heq); destruct (published_row_old _ _ Hm') as (m2 & ? & ?).
    exists rid', tg, m2; split_and!; try done; congruence.
Qed.
End UpsertManifest.

Section RewriteBlobs.
Variables (db : MetaDB) (mid : Z) (blobs : list Descriptor).
Hypotheses (Hdb : db_ok db) (Hblobs : Forall (λ d, Descriptor_Validate d = Ok tt) blobs).

(** The rows of [mid] replaced by [blobs]. *)
Definition rewritten : MetaDB :=
  set_manifest_blobs (insert_from mid 0 blobs (md_manifest_blobs (delete_manifest_blobs_sql mid db))) db.

Lemma cleared_rows mid' p :
  md_manifest_blobs (delete_manifest_blobs_sql mid db) !! (mid', p) =
  if decide (mid' = mid) then None else md_manifest_blobs db !! (mid', p).
Proof.
  simpl; rewrite map_lookup_filter; destruct (md_manifest_blobs db !! (mid', p)) as [b|]; simpl; [|by case_decide].
  case_guard as Hg; simpl in *; case_decide; done.
Qed.

Lemma rewritten_rows mid' :
  manifest_blob_rows rewritten mid' = if decide (mid' = mid) then blobs else manifest_blob_rows db mid'.
Proof.
  unfold manifest_blob_rows; simpl; case_decide as Hm.
  - subst; apply positioned_insert_from; intros p; rewrite cleared_rows; by rewrite decide_True.
  - rewrite positioned_insert_other by done; apply positioned_ext; intros p; rewrite cleared_rows.
    by rewrite decide_False.
Qed.

Lemma rewritten_ok : manifest_exists db mid = true → db_ok rewritten.
Proof.
  intros (([[t rid] d] & m) & Hin & Hid)%existsb_exists; apply list_elem_of_In, elem_of_map_to_list in Hin.
  apply Z.eqb_eq in Hid; simpl in Hid; split; try (intros; by eapply Hdb); cbn [rewritten md_manifest_blobs set_manifest_blobs].
  intros mid' p b; rewrite lookup_insert_from, cleared_rows; intros Hb.
  destruct (decide (mid' = mid ∧ Z.of_nat 0 ≤ p)) as [[-> _]|Hn].
  - destruct (blobs !! _) as [b'|] eqn:Hl.
    + injection Hb as ->; split; [|by eauto].
      rewrite Forall_forall in Hblobs; apply Hblobs; by eapply list_elem_of_lookup_2.
    + by rewrite decide_True in Hb.
  - simpl in Hb; case_decide; [done|]; exact (ok_blob db Hdb mid' p b Hb).
Qed.

Lemma rewritten_exec : manifest_exists db mid = true →
  exec_all (λ ib : nat * Descriptor, insert_manifest_blob_sql mid ib.1 ib.2) (imap pair blobs)
    (delete_manifest_blobs_sql mid db) = Ok rewritten.
Proof.
  intros Hex; apply (exec_insert_blobs mid (delete_manifest_blobs_sql mid db) 0); [done|].
  intros p _; rewrite cleared_rows; by rewrite decide_True.
Qed.
End RewriteBlobs.

(** The blob rows of an id no manifest has. *)
Lemma no_blob_rows db mid : db_ok db → (∀ k m, md_manifests db !! k = Some m → mr_ID m ≠ mid) →
  manifest_blob_rows db mid = [].
Proof.
  intros Hdb Hm; apply positioned_nil; intros p; destruct (md_manifest_blobs db !! (mid, p)) as [b|] eqn:Hb; [|done].
  by destruct (ok_blob db Hdb mid p b Hb) as (_ & k & m & Hk%Hm & Hid).
Qed.

Section PublishedViews.
Variables (db : MetaDB) (t n : string) (rid : Z) (m : Manifest) (now : Time) (blobs : list Descriptor).
Hypotheses (Hdb : db_ok db) (Hrid : repository_id db t n = Some rid) (Hm : Manifest_Validate m = Ok tt).
Hypothesis Hblobs : Forall (λ d, Descriptor_Validate d = Ok tt) blobs.
Notation row := (published_row db t rid m now).
Notation db3 := (rewritten (published db t rid m now) (mr_ID row) blobs).

Lemma published_blobs_ok : db_ok db3.
Proof. apply rewritten_ok; eauto using published_ok, published_manifest_exists. Qed.

Lemma published_blobs_entry k old : md_manifests db !! k = Some old → k ≠ (t, rid, mf_Digest m) →
  row_entry db3 old = row_entry db old.
Proof.
  intros Hk Hne; unfold row_entry; rewrite rewritten_rows, decide_False.
  - destruct (published_same db t rid m now) as (_ & _ & Hb & _); unfold manifest_blob_rows; by rewrite Hb.
  - intros Hid; apply Hne; by eapply published_row_id.
Qed.

Lemma published_row_entry :
  row_entry db3 row = publish_entry (manifest_at db (t, n, mf_Digest m)) m blobs now.
Proof.
  unfold row_entry, publish_entry; rewrite rewritten_rows, decide_True by done.
  unfold manifest_at, manifest_row; simpl; rewrite Hrid; simpl; unfold published_row.
  by destruct (md_manifests db !! (t, rid, mf_Digest m)).
Qed.

Lemma published_view_manifests :
  view_manifests db3
  = <[(t, n, mf_Digest m) := publish_entry (view_manifests db !! (t, n, mf_Digest m)) m blobs now]> (view_manifests db).
Proof.
  apply map_eq; intros [[t' n'] d]; apply option_eq; intros e; rewrite lookup_view_manifests, manifest_at_Some.
  rewrite lookup_view_manifests, lookup_insert_Some, lookup_view_manifests, manifest_at_Some.
  setoid_rewrite (published_repository_id db t rid m now : ∀ t' n', repository_id db3 t' n' = repository_id db t' n').
  change (md_manifests db3) with (md_manifests (published db t rid m now)); rewrite published_manifests.
  rewrite <- published_row_entry; split.
  - intros (rid' & m' & Hid & [[[= <- <- <-] <-]|[Hne Hm']]%lookup_insert_Some & He).
    + left; split; [|done]; by pose proof (repository_id_unique db Hdb (t, n) (t, n') rid Hrid Hid) as [= <-].
    + right; split.
      * intros [= <- <- <-]; apply Hne; by simplify_eq.
      * exists rid', m'; split_and!; try done; by rewrite <- (published_blobs_entry _ _ Hm').
  - intros [[[= <- <- <-] <-]|[Hne (rid' & m' & Hid & Hm' & <-)]].
    + exists rid, row; by rewrite lookup_insert_eq.
    + assert ((t', rid', d) ≠ (t, rid, mf_Digest m)) as Hk.
      { intros [= -> -> ->]; apply Hne.
        by pose proof (repository_id_unique db Hdb (t, n) (t, n') rid Hrid Hid) as [= <-]. }
      exists rid', m'; rewrite lookup_insert_ne by congruence; split_and!; [done..|].
      by eapply published_blobs_entry.
Qed.

Lemma published_blobs_view_tags : view_tags db3 = view_tags db.
Proof. by apply (published_view_tags db t n rid m now). Qed.
End PublishedViews.

Section UpsertTag.
Variables (db : MetaDB) (t n g d : string) (rid : Z) (m : ManifestRow) (created updated : Time).
Hypotheses (Hdb : db_ok db) (Hrid : repository_id db t n = Some rid).
Hypothesis Hm : md_manifests db !! (t, rid, d) = Some m.

Lemma upsert_tag_spec : ∃ db', upsert_tag_sql t rid g (mr_ID m) created updated db = Ok db'
  ∧ db_ok db' ∧ view_repos db' = view_repos db ∧ view_manifests db' = view_manifests db
  ∧ view_tags db' = <[(t, n, g) := d]> (view_tags db)
  ∧ view_uploads db' = view_uploads db ∧ view_reports db' = view_reports db.
Proof.
  unfold upsert_tag_sql; rewrite (repository_exists_id db t n), (manifest_exists_id db (t, rid, d)) by done; simpl.
  set (row := match md_tags db !! (t, rid, g) with Some _ => _ | None => _ end).
  assert (tg_ManifestID row = mr_ID m) as Hrow by (unfold row; by destruct (md_tags db !! _)).
  set (db' := set_tags _ db); exists db'; assert (db_ok db') as Hok.
  { split; try (intros; by eapply Hdb); unfold db'; simpl.
    intros t' rid' g' tg [[[= <- <- <-] <-]|[_ Htg]]%lookup_insert_Some; [|by eapply ok_tag].
    exists d, m; by rewrite Hrow. }
  split_and!; try done.
  apply map_eq; intros [[t' n'] g']; rewrite lookup_view_tags; apply option_eq; intros d'.
  rewrite tag_at_Some, lookup_insert_Some, lookup_view_tags, tag_at_Some by done.
  change (md_manifests db') with (md_manifests db); unfold db' at 2; simpl.
  change (repository_id db' t' n') with (repository_id db t' n'); split.
  - intros (rid' & tg & m' & Hid & [[[= <- <- <-] <-]|[Hne Htg]]%lookup_insert_Some & Hm' & Heq).
    + left; pose proof (repository_id_unique db Hdb (t, n) (t, n') rid Hrid Hid) as [= <-]; split; [done|].
      by assert ((t, rid, d) = (t, rid, d')) as [= ->] by (eapply (ok_manifest_id db Hdb); [done..|congruence]).
    + right; split; [|by eauto 10]; intros [= <- <- <-]; apply Hne; by simplify_eq.
  - intros [[[= <- <- <-] <-]|[Hne (rid' & tg & m' & Hid & Htg & Hm' & Heq)]].
    + exists rid, row, m; by rewrite lookup_insert_eq.
    + exists rid', tg, m'; rewrite lookup_insert_ne; [done|]; intros [= <- <- <-]; apply Hne.
      by pose proof (repository_id_unique db Hdb (t, n) (t, n') rid Hrid Hid) as [= <-].
Qed.
End UpsertTag.

(** * Operations *)

(** A statement of a transaction fails: the old tables stay. *)
Ltac tx_fault := intros; split; [simpl; lia|split; [done|split; [done|]]]; outcome;
  right; split; [split; [done|by eexists]|]; eapply calm_later; [|eassumption]; lia.

Section Operations.
Context `{RegEnvLaws}.

Lemma wp_sql_clock (Q : res Time → RegWorld → Prop) db fs sc n :
  Q (Ok (renv_now n)) (mkRegWorld db fs sc (S n)) → wp clock Q (mkRegWorld db fs sc n).
Proof. done. Qed.

(** ** Publish *)

Definition publish_post (t : string) (r : RepositoryRef) (tag : string) (m : Manifest) (bs : list Descriptor)
    (db : MetaDB) (fs : FileSystem) (sc : list PushScan) (n : nat) (x : res unit) (w' : RegWorld) : Prop :=
  (n ≤ rw_calls w')%nat ∧ rw_fs w' = fs ∧ rw_scans w' = sc
  ∧ match x with
    | Ok a => ∀ k, (n ≤ k)%nat → sql_outcome (λ R x R', x = Ok tt ∧ ∃ now, R' = publish t r tag m bs now R)
                (mkRegWorld db fs sc n) (Ok a) (mkRegWorld (rw_db w') fs sc k)
    | Err e => sql_outcome (λ R x R', x = Ok tt ∧ ∃ now, R' = publish t r tag m bs now R)
                (mkRegWorld db fs sc n) (Err e) (mkRegWorld db fs sc (rw_calls w'))
    end.

(** The transaction's last statement, and the abstract state it leaves. *)
Lemma publish_tagged t r tag m bs db rid now dbm fs sc n k :
  db_ok db → valid_repository (ref_Name r) = true → Manifest_Validate m = Ok tt →
  Forall (λ d, Descriptor_Validate d = Ok tt) bs → (n ≤ k)%nat → ∀ now0,
  let db1 := insert_repository_sql t (ref_Name r) now0 db in
  repository_id db1 t (ref_Name r) = Some rid →
  dbm = rewritten (published db1 t rid m now) (mr_ID (published_row db1 t rid m now)) bs →
  wp (if String.eqb tag "" then sret tt else
      let! created := clock in
      let! updated := clock in
      sql_exec (upsert_tag_sql t rid tag (mr_ID (published_row db1 t rid m now)) created updated))
    (publish_post t r tag m bs db fs sc n) (mkRegWorld dbm fs sc k).
Proof.
  intros Hdb Hr Hm Hbs Hk now0 db1 Hrid ->.
  assert (db_ok db1) as Hdb1 by by apply insert_repository_ok.
  destruct (insert_repository_views db t (ref_Name r) now0 Hdb Hr) as (Hv1 & Hv2 & Hv3).
  destruct (insert_repository_same db t (ref_Name r) now0) as (_ & _ & _ & Hsu & Hsr & Hsc & _).
  destruct (published_same db1 t rid m now) as (Hpr & _ & _ & Hpu & Hpg & Hpc & _).
  set (db3 := rewritten _ _ bs).
  assert (db_ok db3) as Hdb3 by by eapply published_blobs_ok.
  pose proof (published_view_manifests db1 t (ref_Name r) rid m now bs Hdb1 Hrid) as Hvm.
  pose proof (published_blobs_view_tags db1 t (ref_Name r) rid m now bs Hdb1 Hrid Hm) as Hvt.
  fold db3 in Hvm, Hvt; fold db1 in Hv1, Hv2, Hv3; rewrite Hv2 in Hvm; rewrite Hv3 in Hvt.
  assert (view_repos db3 = {[(t, ref_Name r)]} ∪ view_repos db) as Hvr.
  { rewrite <- Hv1; unfold view_repos, db3; simpl; by rewrite Hpr. }
  assert (view_uploads db3 = view_uploads db) as Hvu.
  { unfold view_uploads, db3; simpl; rewrite Hpu; unfold db1; by rewrite Hsu. }
  assert (view_reports db3 = view_reports db) as Hvp.
  { unfold view_reports, candidate_rows, db3; simpl; rewrite Hpg, Hpc; unfold db1; by rewrite Hsr, Hsc. }
  destruct (String.eqb tag "") eqn:Htag.
  { apply wp_sret; split; [done|split; [done|split; [done|]]]; intros k' Hk'; outcome; left; split; [done|].
    exists now; unfold publish; rewrite Htag; unfold view_of, put_repos, put_manifests, put_tags; simpl.
    by rewrite Hvm, Hvt, Hvr, Hvu, Hvp. }
  apply wp_sbind, wp_sql_clock, wp_sbind, wp_sql_clock.
  apply wp_sql_exec; [tx_fault|].
  destruct (upsert_tag_spec db3 t (ref_Name r) tag (mf_Digest m) rid (published_row db1 t rid m now)
    (renv_now k) (renv_now (S k)) Hdb3) as (db4 & -> & Hok & H1 & H2 & H3 & H4 & H5).
  { exact (eq_trans (published_repository_id db1 t rid m now t (ref_Name r)) Hrid). }
  { change (md_manifests db3) with (md_manifests (published db1 t rid m now)).
    rewrite published_manifests; apply lookup_insert_eq. }
  split; [simpl; lia|split; [done|split; [done|]]]; intros k' Hk'; outcome; left; split; [done|].
  exists now; unfold publish; rewrite Htag; unfold view_of, put_repos, put_manifests, put_tags; simpl.
  by rewrite H1, H2, H3, H4, H5, Hvm, Hvt, Hvr, Hvu, Hvp.
Qed.

Lemma publish_tx_post t r tag m bs db fs sc n :
  db_ok db → valid_repository (ref_Name r) = true → Manifest_Validate m = Ok tt →
  Forall (λ d, Descriptor_Validate d = Ok tt) bs →
  wp (publish_tx t r tag m bs) (publish_post t r tag m bs db fs sc n) (mkRegWorld db fs sc (S n)).
Proof.
  intros Hdb Hr Hm Hbs; unfold publish_tx, ensureRepository, ref_String.
  apply wp_sbind, wp_sbind, wp_sql_clock.
  apply wp_sbind, wp_sql_exec; [tx_fault|].
  set (db1 := insert_repository_sql t (ref_Name r) _ db).
  assert (db_ok db1) as Hdb1 by by apply insert_repository_ok.
  assert (∃ rid, repository_id db1 t (ref_Name r) = Some rid) as [rid Hrid].
  { unfold db1; rewrite insert_repository_id, decide_True by done; destruct (repository_id db _ _); eauto. }
  apply wp_sql_query; [tx_fault|]; rewrite Hrid.
  apply wp_sbind, wp_sql_clock.
  apply wp_sbind, wp_sql_exec; [tx_fault|]; erewrite upsert_manifest_eq by done.
  apply wp_sbind, wp_sql_query; [tx_fault|]; rewrite published_manifests, lookup_insert_eq.
  apply wp_sbind, wp_sql_exec; [tx_fault|].
  apply wp_sbind; eapply wp_exec_loop; [by eapply rewritten_exec, published_manifest_exists|tx_fault|].
  intros us k Hk; eapply publish_tagged; try done; lia.
Qed.

Lemma sql_PublishManifest_outcome t r tag m bs w :
  db_ok (rw_db w) →
  wp (sql_PublishManifest t r tag m bs) (sql_outcome (spec_publish t r tag m bs) w) w.
Proof.
  destruct w as [db fs sc n]; simpl; intros Hdb; unfold sql_PublishManifest, spec_publish.
  eapply wp_conseq; [apply guard_outcome; [done|]; intros Hr; apply guard_outcome2; [done|]|].
  - intros Hm Hl; apply wp_in_transaction.
    { intros e k Hk Hc; outcome; right; split; [split; [done|by eexists]|done]. }
    apply RepositoryRef_Validate_ok in Hr; apply validate_layers_ok in Hl.
    apply publish_tx_post; done.
  - intros x w' (? & ? & ? & ? & [Hs|Hs]); (split; [done|split; [done|split; [done|split; [done|]]]]); [left|by right].
    by destruct (RepositoryRef_Validate r) as [[]|].
Qed.

(** ** Blob references *)

Lemma elem_of_manifest_blob_rows db mid b :
  b ∈ manifest_blob_rows db mid ↔ ∃ p, md_manifest_blobs db !! (mid, p) = Some b.
Proof. apply elem_of_positioned. Qed.

(** A blob row's manifest is seen through the join. *)
Lemma referenced_view w d : db_ok (rw_db w) →
  referenced (view_of w) d ↔ ∃ k b, md_manifest_blobs (rw_db w) !! k = Some b ∧ desc_Digest b = d.
Proof.
  set (db := rw_db w); intros Hdb; unfold referenced; split.
  - intros ([[t n] g] & e & b & He & Hb & Hd); simpl in He; rewrite lookup_view_manifests, manifest_at_Some in He.
    destruct He as (rid & m & _ & _ & <-); apply elem_of_manifest_blob_rows in Hb as [p Hb]; eauto.
  - intros ([mid p] & b & Hb & Hd); destruct (ok_blob db Hdb mid p b Hb) as (_ & [[t rid] g] & m & Hm & Hid).
    destruct (ok_manifest_repo db Hdb t rid g m Hm) as (n & r & Hr & Hrid).
    exists (t, n, g), (row_entry db m), b; split_and!; [|by apply elem_of_manifest_blob_rows; rewrite Hid; eauto|done].
    simpl; rewrite lookup_view_manifests, manifest_at_Some; exists rid, m; split_and!; try done.
    apply repository_id_Some; eauto.
Qed.

Lemma sql_ListReferencedBlobDigests_outcome w :
  db_ok (rw_db w) → wp sql_ListReferencedBlobDigests (sql_outcome spec_referenced_digests w) w.
Proof.
  intros Hdb; apply query_outcome; [done|]; intros fs sc; eexists; split; [done|]; intros d.
  rewrite referenced_view by done; unfold referenced_digests; rewrite elem_of_remove_dups, list_elem_of_In, in_map_iff.
  split.
  - intros ([k b] & <- & Hin%list_elem_of_In%elem_of_map_to_list); eauto.
  - intros (k & b & Hb & Hd); exists (k, b); split; [done|]; by apply list_elem_of_In, elem_of_map_to_list.
Qed.

Lemma sql_IsBlobDigestReferenced_outcome d w :
  db_ok (rw_db w) → wp (sql_IsBlobDigestReferenced d) (sql_outcome (spec_is_referenced d) w) w.
Proof.
  intros Hdb; apply query_outcome; [done|]; intros fs sc; eexists; split; [done|].
  rewrite referenced_view, existsb_exists by done; split.
  - intros ([k b] & Hin%list_elem_of_In%elem_of_map_to_list & Heq%String.eqb_eq); eauto.
  - intros (k & b & Hb & Hd); exists (k, b); split; [by apply list_elem_of_In, elem_of_map_to_list|].
    by apply String.eqb_eq.
Qed.

(** ** Resolve *)

(** The stored blob rows parse and validate. *)
Lemma stored_blobs_valid db mid : db_ok db →
  Forall (λ b, Descriptor_Validate b = Ok tt) (manifest_blob_rows db mid).
Proof.
  intros Hdb; apply Forall_forall; intros b [p Hb]%elem_of_manifest_blob_rows.
  by destruct (ok_blob db Hdb mid p b Hb).
Qed.

Lemma stored_blobs_parse l : Forall (λ b, Descriptor_Validate b = Ok tt) l →
  rmap (λ b, let? digest := ParseDigest (desc_Digest b) in
             Ok (mkDescriptor (desc_MediaType b) digest (desc_Size b))) l = Ok l.
Proof.
  intros Hl; apply rmap_ok, Forall_Forall2_diag; eapply Forall_impl; [exact Hl|].
  intros [mt d s] [Hd%valid_digest_spec _]%Descriptor_Validate_ok; simpl in *; by rewrite Hd.
Qed.

Lemma sql_ListManifestBlobs_outcome t r d w :
  db_ok (rw_db w) → wp (sql_ListManifestBlobs t r d) (sql_outcome (spec_list_blobs t r d) w) w.
Proof.
  intros Hdb; apply guard_outcome2; [done|]; intros _ _; apply query_outcome; [done|]; intros fs sc.
  simpl; rewrite lookup_view_manifests; unfold manifest_at, ref_String; simpl.
  destruct (manifest_row (rw_db w) t (ref_Name r) d) as [m|]; simpl; [|done].
  by apply stored_blobs_parse, stored_blobs_valid.
Qed.

(** The row a reference selects is a manifest of the tenant's repository, under
    the digest of its payload. *)
Lemma resolve_row_view db t n reference : db_ok db →
  row_entry db <$> resolve_row db t n reference
  = (if valid_digest reference then view_manifests db !! (t, n, reference)
     else view_tags db !! (t, n, reference) ≫= λ d, view_manifests db !! (t, n, d)).
Proof.
  intros Hdb; unfold resolve_row; destruct (valid_digest reference); [by rewrite lookup_view_manifests|].
  rewrite lookup_view_tags; unfold tag_at; simpl.
  destruct (tagged_manifest db t n reference) as [[d m]|] eqn:Htm; simpl; [|done].
  apply tagged_manifest_Some in Htm as (rid & tg & Hrid & Htg & Hm & _); [|done]; symmetry.
  rewrite lookup_view_manifests; apply manifest_at_Some; eauto.
Qed.

Lemma resolve_row_Some db t n reference m : db_ok db → resolve_row db t n reference = Some m →
  ∃ rid, repository_id db t n = Some rid
    ∧ md_manifests db !! (t, rid, DigestFromBytes (mr_Payload m)) = Some m ∧ mr_MediaType m ≠ "".
Proof.
  intros Hdb Hrow.
  assert (∃ rid d, repository_id db t n = Some rid ∧ md_manifests db !! (t, rid, d) = Some m)
    as (rid & d & Hrid & Hm).
  { unfold resolve_row in Hrow; destruct (valid_digest reference); [by apply manifest_row_Some in Hrow as (rid & ?); eauto|].
    apply fmap_Some in Hrow as ([d m'] & (rid & tg & ? & ? & ? & _)%tagged_manifest_Some & ->); eauto. }
  destruct (ok_manifest db Hdb t rid d m Hm) as (Hmt & -> & _); eauto.
Qed.

Lemma sql_ResolveManifest_outcome t r reference w :
  db_ok (rw_db w) → wp (sql_ResolveManifest t r reference) (sql_outcome (spec_resolve t r reference) w) w.
Proof.
  intros Hdb; apply guard_outcome; [done|]; intros Hr; destruct w as [db fs sc n]; simpl in *.
  assert (row_entry db <$> resolve_row db t (ref_Name r) reference
    = resolve (view_of (mkRegWorld db fs sc n)) t (ref_Name r) reference) as Hrow by by apply resolve_row_view.
  apply wp_sbind, wp_sql_query; [intros; outcome; right; split; [split; [done|by eexists]|done]|].
  unfold ref_String; destruct (resolve_row db t (ref_Name r) reference) as [m|] eqn:Hm; simpl in Hrow.
  2: { outcome; left; split; [done|]; by rewrite <- Hrow. }
  destruct (resolve_row_Some db t (ref_Name r) reference m Hdb Hm) as (rid & Hrid & Hmd & Hmt).
  assert (manifest_row db t (ref_Name r) (DigestFromBytes (mr_Payload m)) = Some m) as Hmr
    by (apply manifest_row_Some; eauto).
  apply wp_sbind; unfold sql_ListManifestBlobs; rewrite Hr; apply wp_sbind, wp_slift.
  rewrite (proj2 (Digest_Validate_ok _ tt) (DigestFromBytes_valid _)); apply wp_sbind, wp_slift, wp_sql_query.
  { intros; outcome; right; split; [split; [done|by eexists]|]; eapply (calm_later _ _ _ n); [|eassumption]; lia. }
  unfold ref_String; rewrite Hmr, stored_blobs_parse by by apply stored_blobs_valid.
  apply wp_sbind, wp_slift; unfold NewManifest; destruct (String.eqb_spec (mr_MediaType m) ""); [done|]; simpl.
  rewrite (proj2 (validate_layers_ok _ tt)) by by apply stored_blobs_valid.
  simpl; apply wp_sret; outcome; left; split; [done|]; by rewrite <- Hrow.
Qed.
End Operations.

(** * The deleting statements *)

Lemma repository_id_ext db db' : md_repositories db' = md_repositories db →
  ∀ t n, repository_id db' t n = repository_id db t n.
Proof. intros Heq t n; unfold repository_id; by rewrite Heq. Qed.

(** A row of the tables that keeps its blobs keeps its entry. *)
Lemma row_entry_ext db db' m :
  (∀ p, md_manifest_blobs db' !! (mr_ID m, p) = md_manifest_blobs db !! (mr_ID m, p)) →
  row_entry db' m = row_entry db m.
Proof. intros Hb; unfold row_entry, manifest_blob_rows; f_equal; by apply positioned_ext. Qed.

Section DeleteManifest.
Variables (db : MetaDB) (t n d : string) (rid : Z) (m : ManifestRow).
Hypotheses (Hdb : db_ok db) (Hrid : repository_id db t n = Some rid).
Hypothesis Hm : md_manifests db !! (t, rid, d) = Some m.
Notation db' := (delete_manifest_sql t n d db).2.

Lemma delete_manifest_eq : delete_manifest_sql t n d db =
  (1, delete_manifest_blobs_sql (mr_ID m)
        (set_tags (filter (λ kv, tg_ManifestID kv.2 ≠ mr_ID m) (md_tags db))
           (set_manifests (delete (t, rid, d) (md_manifests db)) db))).
Proof. unfold delete_manifest_sql; by rewrite Hrid, Hm. Qed.

Lemma deleted_manifest_other k m' : md_manifests db !! k = Some m' →
  k ≠ (t, rid, d) ↔ mr_ID m' ≠ mr_ID m.
Proof.
  intros Hk; split; [intros Hne Hid; apply Hne; by eapply ok_manifest_id|intros Hid ->; congruence].
Qed.

Lemma delete_manifest_ok : db_ok db'.
Proof.
  rewrite delete_manifest_eq; split; simpl; try (intros; by eapply Hdb).
  - intros t' rid' d' m' [_ Hm']%lookup_delete_Some; by eapply ok_manifest_repo.
  - intros k k' m1 m2 [_ H1]%lookup_delete_Some [_ H2]%lookup_delete_Some; by eapply ok_manifest_id.
  - intros k m' [_ Hm']%lookup_delete_Some; by eapply ok_manifest_sequence.
  - intros t' rid' d' m' [_ Hm']%lookup_delete_Some; by eapply ok_manifest.
  - intros t' rid' g tg [Htg Hne]%map_lookup_filter_Some; simpl in Hne.
    destruct (ok_tag db Hdb t' rid' g tg Htg) as (d' & m' & Hm' & Hid); exists d', m'; split; [|done].
    rewrite lookup_delete_ne; [done|]; apply not_eq_sym, (deleted_manifest_other _ m'); [done|congruence].
  - intros mid p b [Hb Hne]%map_lookup_filter_Some; simpl in Hne.
    destruct (ok_blob db Hdb mid p b Hb) as (Hv & k & m' & Hk & Hid); split; [done|]; exists k, m'; split; [|done].
    rewrite lookup_delete_ne; [done|]; apply not_eq_sym, (deleted_manifest_other k m'); [done|congruence].
Qed.

Lemma delete_manifest_views :
  view_manifests db' = delete (t, n, d) (view_manifests db)
  ∧ view_tags db' = filter (λ kv, ¬ (kv.1.1 = (t, n) ∧ kv.2 = d)) (view_tags db).
Proof.
  pose proof delete_manifest_ok as Hok; rewrite delete_manifest_eq in Hok |- *; simpl in *.
  set (db1 := delete_manifest_blobs_sql _ _) in *.
  assert (∀ t' n', repository_id db1 t' n' = repository_id db t' n') as Hids by done.
  assert (md_manifests db1 = delete (t, rid, d) (md_manifests db)) as Hman by done.
  assert (md_tags db1 = filter (λ kv, tg_ManifestID kv.2 ≠ mr_ID m) (md_tags db)) as Htags by done.
  assert (∀ t' n' d' rid' m', repository_id db t' n' = Some rid' → md_manifests db !! (t', rid', d') = Some m' →
    (t', rid', d') ≠ (t, rid, d) ↔ (t', n', d') ≠ (t, n, d)) as Hkey.
  { intros t' n' d' rid' m' Hid Hm'; split; intros Hne [= -> -> ->]; apply Hne; [congruence|].
    by pose proof (repository_id_unique db Hdb (t, n) (t, n') rid Hrid Hid) as [= <-]. }
  split; apply map_eq; intros [[t' n'] x]; apply option_eq; intros v.
  - rewrite lookup_view_manifests, lookup_delete_Some, lookup_view_manifests, !manifest_at_Some.
    setoid_rewrite Hids; rewrite Hman; split.
    + intros (rid' & m' & Hid & [Hne Hm']%lookup_delete_Some & <-).
      pose proof (proj1 (deleted_manifest_other _ m' Hm') (not_eq_sym Hne)) as Hmid.
      split; [apply not_eq_sym; by eapply Hkey; [..|apply not_eq_sym]|].
      exists rid', m'; split_and!; [done..|]; symmetry; apply row_entry_ext; intros p; simpl.
      rewrite map_lookup_filter; destruct (md_manifest_blobs db !! _); simpl; [|done]; by rewrite option_guard_True.
    + intros (Hne & rid' & m' & Hid & Hm' & <-).
      assert ((t', rid', x) ≠ (t, rid, d)) as Hne' by (eapply Hkey; [done..|by apply not_eq_sym]).
      exists rid', m'; rewrite (lookup_delete_ne (md_manifests db) _ _ (not_eq_sym Hne')); split_and!; [done..|].
      pose proof (proj1 (deleted_manifest_other _ m' Hm') Hne') as Hmid.
      apply row_entry_ext; intros p; simpl.
      rewrite map_lookup_filter; destruct (md_manifest_blobs db !! _); simpl; [|done]; by rewrite option_guard_True.
  - rewrite lookup_view_tags, map_lookup_filter_Some, lookup_view_tags, !tag_at_Some by done.
    setoid_rewrite Hids; rewrite Hman, Htags; simpl; split.
    + intros (rid' & tg & m' & Hid & [Htg Hne]%map_lookup_filter_Some & [Hk Hm']%lookup_delete_Some & Heq).
      split; [by eauto 10|]; intros [[= -> ->] ->]; apply Hk; congruence.
    + intros ((rid' & tg & m' & Hid & Htg & Hm' & Heq) & Hne).
      assert ((t', rid', v) ≠ (t, rid, d)) as Hk.
      { eapply Hkey; [done..|]; intros [= -> -> ->]; by apply Hne. }
      exists rid', tg, m'; split_and!; try done.
      * apply map_lookup_filter_Some; split; [done|]; simpl; rewrite <- Heq; by apply (deleted_manifest_other _ m' Hm').
      * rewrite lookup_delete_ne; [done|by apply not_eq_sym].
Qed.

(** The tags a manifest's row has are those of its repository that name it. *)
Lemma tags_of_manifest g :
  g ∈ map (λ kv, kv.1.2) (filter (λ kv, tg_ManifestID kv.2 = mr_ID m) (map_to_list (md_tags db)))
  ↔ view_tags db !! (t, n, g) = Some d.
Proof.
  rewrite lookup_view_tags, tag_at_Some, list_elem_of_In, in_map_iff by done; split.
  - intros ([[[t' rid'] g'] tg] & <- & [Hid Hin%elem_of_map_to_list]%list_elem_of_In%list_elem_of_filter); simpl in *.
    destruct (ok_tag db Hdb t' rid' g' tg Hin) as (d' & m' & Hm' & Hid').
    assert ((t', rid', d') = (t, rid, d)) as [= -> -> ->] by (eapply (ok_manifest_id db Hdb); [done..|congruence]).
    eauto 10.
  - intros (rid' & tg & m' & Hid & Htg & Hm' & Heq); exists ((t, rid', g), tg); split; [done|].
    apply list_elem_of_In, list_elem_of_filter; split; [|by apply elem_of_map_to_list]; simpl; congruence.
Qed.
End DeleteManifest.

Section DeleteRepository.
Variables (db : MetaDB) (t n : string) (rid : Z).
Hypotheses (Hdb : db_ok db) (Hrid : repository_id db t n = Some rid).
Notation db' := (delete_repository_sql t n db).2.

Definition gone (mid : Z) : bool :=
  existsb (λ kv, (kv.1.1.2 =? rid) && (mr_ID kv.2 =? mid)) (map_to_list (md_manifests db)).

Lemma delete_repository_eq : delete_repository_sql t n db =
  (1, set_manifest_blobs (filter (λ kv, gone kv.1.1 = false) (md_manifest_blobs db))
        (set_tags (filter (λ kv, kv.1.1.2 ≠ rid ∧ gone (tg_ManifestID kv.2) = false) (md_tags db))
           (set_manifests (filter (λ kv, kv.1.1.2 ≠ rid) (md_manifests db))
              (set_repositories (delete (t, n) (md_repositories db)) db)))).
Proof. unfold delete_repository_sql; by rewrite Hrid. Qed.

Lemma gone_manifest t' rid' d m : md_manifests db !! (t', rid', d) = Some m → gone (mr_ID m) = (rid' =? rid).
Proof.
  intros Hm; apply eq_bool_prop_intro; unfold gone; rewrite !Is_true_true, existsb_exists; split.
  - intros ([[[t1 rid1] d1] m1] & Hin%list_elem_of_In%elem_of_map_to_list & Hb); simpl in Hb; bool_prop.
    apply Z.eqb_eq in H, H0; subst.
    by assert ((t1, rid, d1) = (t', rid', d)) as [= -> -> ->]
      by (eapply (ok_manifest_id db Hdb); done); rewrite Z.eqb_refl.
  - intros ->%Z.eqb_eq; exists ((t', rid, d), m); split; [by apply list_elem_of_In, elem_of_map_to_list|].
    simpl; by rewrite !Z.eqb_refl.
Qed.

(** A row under the repository's id is under its tenant. *)
Lemma deleted_repository_key k : repository_id db k.1 k.2 = Some rid → k = (t, n).
Proof. intros Hk; symmetry; by apply (repository_id_unique db Hdb (t, n) k rid). Qed.

Lemma delete_repository_ok : db_ok db'.
Proof.
  rewrite delete_repository_eq; split; simpl; try (intros; by eapply Hdb).
  - intros t' n' r [_ Hr]%lookup_delete_Some; by eapply ok_repo_name.
  - intros k k' r r' [_ H1]%lookup_delete_Some [_ H2]%lookup_delete_Some; by eapply ok_repo_id.
  - intros k r [_ Hr]%lookup_delete_Some; by eapply ok_repo_sequence.
  - intros t' rid' d m [Hm Hne]%map_lookup_filter_Some; simpl in Hne.
    destruct (ok_manifest_repo db Hdb t' rid' d m Hm) as (n' & r & Hr & Hid); exists n', r; split; [|done].
    rewrite lookup_delete_ne; [done|]; intros [= <- <-]; apply Hne.
    apply repository_id_Some in Hrid as (r' & Hr' & <-); congruence.
  - intros k k' m1 m2 [H1 _]%map_lookup_filter_Some [H2 _]%map_lookup_filter_Some; by eapply ok_manifest_id.
  - intros k m [Hm _]%map_lookup_filter_Some; by eapply ok_manifest_sequence.
  - intros t' rid' d m [Hm _]%map_lookup_filter_Some; by eapply ok_manifest.
  - intros t' rid' g tg [Htg [Hne Hg]]%map_lookup_filter_Some; simpl in *.
    destruct (ok_tag db Hdb t' rid' g tg Htg) as (d & m & Hm & Hid); exists d, m; split; [|done].
    by apply map_lookup_filter_Some.
  - intros mid p b [Hb Hg]%map_lookup_filter_Some; simpl in Hg.
    destruct (ok_blob db Hdb mid p b Hb) as (Hv & [[t' rid'] d] & m & Hm & <-); split; [done|].
    exists (t', rid', d), m; split; [|done]; apply map_lookup_filter_Some; split; [done|]; simpl.
    rewrite (gone_manifest t' rid' d m Hm) in Hg; by apply Z.eqb_neq.
Qed.

Lemma delete_repository_views :
  view_repos db' = view_repos db ∖ {[ (t, n) ]}
  ∧ view_manifests db' = filter (λ kv, kv.1.1 ≠ (t, n)) (view_manifests db)
  ∧ view_tags db' = filter (λ kv, kv.1.1 ≠ (t, n)) (view_tags db).
Proof.
  pose proof delete_repository_ok as Hok; rewrite delete_repository_eq in Hok |- *; simpl in *.
  set (db1 := set_manifest_blobs _ _) in *.
  assert (∀ t' n' rid', repository_id db1 t' n' = Some rid' ↔ (t', n') ≠ (t, n) ∧ repository_id db t' n' = Some rid')
    as Hids.
  { intros t' n' rid'; unfold repository_id, db1; simpl; destruct (decide ((t', n') = (t, n))) as [[= -> ->]|Hne].
    - rewrite lookup_delete_eq; split; [done|by intros []].
    - rewrite lookup_delete_ne by congruence; tauto. }
  assert (md_manifests db1 = filter (λ kv, kv.1.1.2 ≠ rid) (md_manifests db)) as Hman by done.
  assert (md_tags db1 = filter (λ kv, kv.1.1.2 ≠ rid ∧ gone (tg_ManifestID kv.2) = false) (md_tags db))
    as Htags by done.
  assert (∀ t' n' rid', (t', n') ≠ (t, n) → repository_id db t' n' = Some rid' → rid' ≠ rid) as Hother.
  { intros t' n' rid' Hne Hid ->; by apply Hne, (deleted_repository_key (t', n')). }
  split_and!.
  - unfold view_repos, db1; simpl; by rewrite dom_delete_L.
  - apply map_eq; intros [[t' n'] d]; apply option_eq; intros e.
    rewrite lookup_view_manifests, map_lookup_filter_Some, lookup_view_manifests, !manifest_at_Some.
    setoid_rewrite Hids; rewrite Hman; simpl.
    assert (∀ rid' m, md_manifests db !! (t', rid', d) = Some m → rid' ≠ rid → row_entry db1 m = row_entry db m) as He.
    { intros rid' m Hm Hne; apply row_entry_ext; intros p; simpl; rewrite map_lookup_filter.
      destruct (md_manifest_blobs db !! _); simpl; [|done]; rewrite option_guard_True; [done|].
      rewrite (gone_manifest t' rid' d m Hm); by apply Z.eqb_neq. }
    split.
    + intros (rid' & m & [Hne Hid] & [Hm Hr]%map_lookup_filter_Some & <-); split; [|done].
      exists rid', m; split_and!; try done; symmetry; by eapply He.
    + intros ((rid' & m & Hid & Hm & <-) & Hne); exists rid', m; split_and!; try done.
      * apply map_lookup_filter_Some; split; [done|]; simpl; by eapply Hother.
      * eapply He; [done|by eapply Hother].
  - apply map_eq; intros [[t' n'] g]; apply option_eq; intros d.
    rewrite lookup_view_tags, map_lookup_filter_Some, lookup_view_tags, !tag_at_Some by done.
    setoid_rewrite Hids; rewrite Hman, Htags; simpl; split.
    + intros (rid' & tg & m & [Hne Hid] & [Htg _]%map_lookup_filter_Some & [Hm _]%map_lookup_filter_Some & Heq).
      split; [|done]; eauto 10.
    + intros ((rid' & tg & m & Hid & Htg & Hm & Heq) & Hne); pose proof (Hother _ _ _ Hne Hid) as Hr.
      exists rid', tg, m; split_and!; try done; apply map_lookup_filter_Some; split; try done; simpl.
      split; [done|]; rewrite <- Heq, (gone_manifest t' rid' d m Hm); by apply Z.eqb_neq.
Qed.
End DeleteRepository.

(** * Counting and naming the rows of a repository *)

Section RepositoryRows.
Variables (db : MetaDB) (t n : string) (rid : Z).
Hypotheses (Hdb : db_ok db) (Hrid : repository_id db t n = Some rid).

Lemma repository_manifests_count :
  length (repository_manifests db t rid) = size (filter (λ kv, kv.1.1 = (t, n)) (view_manifests db)).
Proof.
  set (f := λ dm : string * ManifestRow, ((t, n, dm.1), row_entry db dm.2)).
  rewrite <- length_map_to_list, <- (length_map f); apply Permutation_length, NoDup_Permutation.
  - apply (NoDup_fmap_1 fst); change (map f (repository_manifests db t rid)).*1
      with (fst <$> (f <$> repository_manifests db t rid)); rewrite <- list_fmap_compose.
    change (fst ∘ f) with ((λ d : string, (t, n, d)) ∘ (fst : string * ManifestRow → string)); rewrite list_fmap_compose.
    apply NoDup_fmap_2; [by intros ?? [=]|]; exact (NoDup_child_keys (t, rid) (md_manifests db)).
  - apply NoDup_map_to_list.
  - intros [[[t' n'] d] e]; rewrite elem_of_map_to_list, map_lookup_filter_Some; simpl.
    rewrite lookup_view_manifests, manifest_at_Some, list_elem_of_In, in_map_iff; split.
    + intros ([d' m] & [= <- <- <- <-] & Hm%list_elem_of_In%elem_of_repository_manifests); eauto 10.
    + intros ((rid' & m & Hid & Hm & <-) & [= -> ->]); exists (d, m); split; [done|].
      apply list_elem_of_In, elem_of_repository_manifests; congruence.
Qed.

Lemma repository_tags_names g : g ∈ map fst (repository_tags db t rid) ↔ is_Some (view_tags db !! (t, n, g)).
Proof.
  rewrite lookup_view_tags, tag_at_is_Some, list_elem_of_In, in_map_iff by done; split.
  - intros ([g' tg] & <- & Hin%list_elem_of_In%elem_of_repository_tags); eauto.
  - intros (rid' & tg & Hid & Htg); exists (g, tg); split; [done|].
    apply list_elem_of_In, elem_of_repository_tags; congruence.
Qed.

Lemma repository_tags_NoDup : NoDup (map fst (repository_tags db t rid)).
Proof. exact (NoDup_child_keys (t, rid) (md_tags db)). Qed.
End RepositoryRows.

Lemma tags_of_nil db t n g : repository_id db t n = None → view_tags db !! (t, n, g) = None.
Proof.
  intros Hid; rewrite lookup_view_tags; unfold tag_at, tagged_manifest; simpl; by rewrite Hid.
Qed.

(** [page] is one page of its list. *)
Lemma page_paged {A} (key : A → string) limit after (member : A → Prop) l :
  (∀ x, x ∈ l ↔ member x) → NoDup l → paged key limit after member (page key limit after l).
Proof.
  intros Hl Hnd; eexists; split; [apply sort_by_sorted|]; split; [|split; [|done]].
  - rewrite sort_by_perm; by apply NoDup_filter.
  - intros x; rewrite elem_of_sort_by, list_elem_of_filter, Hl, orb_true_iff, String.eqb_eq.
    unfold str_gtb, str_le; rewrite negb_true_iff, not_true_iff_false; tauto.
Qed.

(** * Operations *)

Section Operations.
Context `{RegEnvLaws}.


Lemma sql_DeleteManifestByDigest_outcome t r d w :
  db_ok (rw_db w) →
  wp (sql_DeleteManifestByDigest t r d) (sql_outcome (spec_delete_manifest t r d) w) w.
Proof.
  intros Hdb; apply guard_outcome2; [done|]; intros _ _; destruct w as [db fs sc n]; simpl in Hdb.
  unfold ref_String; apply wp_in_transaction; [intros; outcome; right; split; [split; [done|by eexists]|done]|].
  apply wp_sbind, wp_sql_query; [tx_fault|]; apply wp_sbind, wp_sql_exec_rows; [tx_fault|].
  unfold manifest_row; destruct (repository_id db t (ref_Name r)) as [rid|] eqn:Hrid; simpl.
  2: { unfold delete_manifest_sql; rewrite Hrid; apply wp_sthrow; split; [simpl; lia|split; [done|split; [done|]]].
       outcome; left; right; split; [|done]; simpl; rewrite lookup_view_manifests.
       unfold manifest_at, manifest_row; simpl; by rewrite Hrid. }
  destruct (md_manifests db !! (t, rid, d)) as [m|] eqn:Hm; simpl.
  2: { unfold delete_manifest_sql; rewrite Hrid, Hm; apply wp_sthrow; split; [simpl; lia|split; [done|split; [done|]]].
       outcome; left; right; split; [|done]; simpl; rewrite lookup_view_manifests.
       unfold manifest_at, manifest_row; simpl; by rewrite Hrid; simpl; rewrite Hm. }
  pose proof (delete_manifest_ok db t (ref_Name r) d rid m Hdb Hrid Hm) as Hok.
  destruct (delete_manifest_views db t (ref_Name r) d rid m Hdb Hrid Hm) as (Hvm & Hvt).
  pose proof (tags_of_manifest db t (ref_Name r) d rid m Hdb Hrid Hm) as Htags.
  rewrite (delete_manifest_eq db t (ref_Name r) d rid m Hrid Hm) in *; simpl in Hok, Hvm, Hvt |- *.
  apply wp_sret; split; [simpl; lia|split; [done|split; [done|]]]; intros k Hk; outcome; left; left.
  split; [|split].
  - simpl; rewrite lookup_view_manifests; exists (row_entry db m); apply manifest_at_Some; eauto.
  - unfold remove_manifest, put_manifests, put_tags, view_of; simpl; rewrite Hvm, Hvt; done.
  - eexists; split; [done|]; split; [apply sort_by_sorted|]; split.
    + rewrite sort_by_perm; apply NoDup_fmap_2_strong; [|by apply NoDup_filter, NoDup_map_to_list].
      intros [[[t1 r1] g1] v1] [[[t2 r2] g2] v2] [H1 Hin1%elem_of_map_to_list]%list_elem_of_filter
        [H2 Hin2%elem_of_map_to_list]%list_elem_of_filter; simpl in *; intros <-.
      destruct (ok_tag db Hdb _ _ _ _ Hin1) as (d1 & m1 & Hm1 & Hid1).
      destruct (ok_tag db Hdb _ _ _ _ Hin2) as (d2 & m2 & Hm2 & Hid2).
      assert ((t1, r1, d1) = (t, rid, d)) as [= -> -> ->] by (eapply (ok_manifest_id db Hdb); [done..|congruence]).
      assert ((t2, r2, d2) = (t, rid, d)) as [= -> -> ->] by (eapply (ok_manifest_id db Hdb); [done..|congruence]).
      congruence.
    + intros g; rewrite elem_of_sort_by; apply Htags.
Qed.

Lemma sql_DeleteRepository_outcome t r w :
  db_ok (rw_db w) → wp (sql_DeleteRepository t r) (sql_outcome (spec_delete_repository t r) w) w.
Proof.
  intros Hdb; apply guard_outcome; [done|]; intros _; destruct w as [db fs sc n]; simpl in Hdb.
  unfold ref_String; apply wp_in_transaction; [intros; outcome; right; split; [split; [done|by eexists]|done]|].
  apply wp_sbind, wp_sql_query; [tx_fault|]; apply wp_sbind, wp_sql_query; [tx_fault|].
  apply wp_sbind, wp_sql_exec_rows; [tx_fault|].
  destruct (repository_id db t (ref_Name r)) as [rid|] eqn:Hrid.
  2: { unfold delete_repository_sql; rewrite Hrid; apply wp_sthrow; split; [simpl; lia|split; [done|split; [done|]]].
       outcome; left; right; split; [|done]; simpl; unfold view_repos; rewrite not_elem_of_dom.
       unfold repository_id in Hrid; by destruct (md_repositories db !! _). }
  pose proof (delete_repository_ok db t (ref_Name r) rid Hdb Hrid) as Hok.
  destruct (delete_repository_views db t (ref_Name r) rid Hdb Hrid) as (Hvr & Hvm & Hvt).
  rewrite (delete_repository_eq db t (ref_Name r) rid Hrid) in *; simpl in Hok, Hvr, Hvm, Hvt |- *.
  apply wp_sret; split; [simpl; lia|split; [done|split; [done|]]]; intros k Hk; outcome; left; left.
  split; [|split].
  - simpl; unfold view_repos; apply elem_of_dom; apply repository_id_Some in Hrid as (x & ? & _); eauto.
  - unfold remove_repository, put_repos, put_manifests, put_tags, view_of; simpl; by rewrite Hvr, Hvm, Hvt.
  - eexists; split; [by rewrite (repository_manifests_count db t (ref_Name r))|].
    split; [apply sort_by_sorted|]; split; [rewrite sort_by_perm; apply repository_tags_NoDup|].
    intros g; rewrite elem_of_sort_by; by apply repository_tags_names.
Qed.

Lemma sql_DeleteTag_outcome t r g w :
  db_ok (rw_db w) → wp (sql_DeleteTag t r g) (sql_outcome (spec_delete_tag t r g) w) w.
Proof.
  intros Hdb; apply guard_outcome; [done|]; intros _; apply rows_outcome; [done|]; intros fs sc n.
  unfold delete_tag_sql, ref_String; set (db := rw_db w) in *.
  destruct (repository_id db t (ref_Name r)) as [rid|] eqn:Hrid.
  2: { split; [done|]; right; split; [|done]; by apply tags_of_nil. }
  destruct (md_tags db !! (t, rid, g)) as [tg|] eqn:Htg.
  2: { split; [done|]; right; split; [|done]; simpl; rewrite lookup_view_tags; unfold tag_at, tagged_manifest; simpl.
       by rewrite Hrid; simpl; rewrite Htg. }
  assert (db_ok (set_tags (delete (t, rid, g) (md_tags db)) db)) as Hok.
  { split; try (intros; by eapply Hdb); simpl; intros t' rid' g' tg' [_ Htg']%lookup_delete_Some; by eapply ok_tag. }
  split; [done|]; left; split; [|split; [done|]].
  - simpl; rewrite lookup_view_tags; apply tag_at_is_Some; eauto.
  - unfold remove_tag, put_tags, view_of; simpl; f_equal.
    apply map_eq; intros [[t' n'] g']; apply option_eq; intros d.
    rewrite lookup_view_tags, lookup_delete_Some, lookup_view_tags, !tag_at_Some by done; simpl; split.
    + intros (rid' & tg' & m & Hid & [Hne Htg']%lookup_delete_Some & Hm & Heq); split; [|by eauto 10].
      intros [= <- <- <-]; pose proof (eq_trans (eq_sym Hrid) Hid) as [= <-]; by apply Hne.
    + intros (Hne & rid' & tg' & m & Hid & Htg' & Hm & Heq); exists rid', tg', m; split_and!; try done.
      apply lookup_delete_Some; split; [|done]; intros [= <- <- <-]; apply Hne.
      by pose proof (repository_id_unique db Hdb (t, ref_Name r) (t, n') rid Hrid Hid) as [= <-].
Qed.

(** ** Listings *)

Lemma catalog_names db t n : 
  n ∈ map (λ kv : (string * string) * RepositoryRow, kv.1.2)
        (filter (λ kv, kv.1.1 = t) (map_to_list (md_repositories db))) ↔ (t, n) ∈ view_repos db.
Proof.
  unfold view_repos; rewrite elem_of_dom, list_elem_of_In, in_map_iff; split.
  - intros ([[t' n'] r] & <- & [Hk Hin%elem_of_map_to_list]%list_elem_of_In%list_elem_of_filter); simpl in *; subst; eauto.
  - intros [r Hr]; exists ((t, n), r); split; [done|].
    by apply list_elem_of_In, list_elem_of_filter; split; [|apply elem_of_map_to_list].
Qed.

Lemma catalog_NoDup db t :
  NoDup (map (λ kv : (string * string) * RepositoryRow, kv.1.2)
           (filter (λ kv, kv.1.1 = t) (map_to_list (md_repositories db)))).
Proof.
  pose proof (NoDup_child_keys t (md_repositories db)) as Hnd.
  change (_.*1) with (map fst (map (λ kv : (string * string) * RepositoryRow, (kv.1.2, kv.2))
    (filter (λ kv, kv.1.1 = t) (map_to_list (md_repositories db))))) in Hnd; by rewrite map_map in Hnd.
Qed.

Lemma sql_Catalog_outcome t limit after w :
  db_ok (rw_db w) → wp (sql_Catalog t limit after) (sql_outcome (spec_catalog t limit after) w) w.
Proof.
  intros Hdb; apply query_outcome; [done|]; intros fs sc; simpl; set (db := rw_db w) in *.
  destruct (page_paged id limit after (λ n, (t, n) ∈ view_repos db) _ (catalog_names db t) (catalog_NoDup db t))
    as (full & Hs & Hnd & Hfull & Hpage).
  match goal with |- context [page id limit after ?x] => set (l := page id limit after x) in * end.
  assert (∀ n, n ∈ l → valid_repository n = true) as Hvalid.
  { intros n Hn; assert (n ∈ full) as [Hr _]%Hfull.
    { rewrite Hpage in Hn; destruct (0 <? limit); [|done]; by eapply subseteq_take. }
    unfold view_repos in Hr; apply elem_of_dom in Hr as [r Hr]; by eapply (ok_repo_name db Hdb). }
  exists (map mkRef l); split.
  - apply rmap_ok, Forall2_fmap_r, Forall_Forall2_diag, Forall_forall; intros n Hn.
    by apply valid_repository_spec, Hvalid.
  - exists (map mkRef full); split_and!.
    + clear -Hs; induction Hs as [|x l Hs IH Hx]; simpl; constructor; [done|]; by apply Forall_fmap.
    + by apply NoDup_fmap_2; [intros ?? [=]|].
    + intros [n]; rewrite list_elem_of_In, in_map_iff; simpl; split.
      * intros (n' & [= ->] & Hn%list_elem_of_In%Hfull); done.
      * intros Hn; exists n; split; [done|]; by apply list_elem_of_In, Hfull.
    + rewrite Hpage; destruct (0 <? limit); [|done]; by rewrite firstn_map.
Qed.

Lemma tags_of_names db t n g : db_ok db →
  g ∈ map fst (tags_of db t n) ↔ is_Some (view_tags db !! (t, n, g)).
Proof.
  intros Hdb; unfold tags_of; destruct (repository_id db t n) as [rid|] eqn:Hrid.
  - by apply repository_tags_names.
  - rewrite tags_of_nil by done; simpl; split; [by intros ?%not_elem_of_nil|by intros []].
Qed.

Lemma tags_of_NoDup db t n : NoDup (map fst (tags_of db t n)).
Proof. unfold tags_of; destruct (repository_id db t n); [apply repository_tags_NoDup|constructor]. Qed.

Lemma sql_ListTags_outcome t r limit after w :
  db_ok (rw_db w) → wp (sql_ListTags t r limit after) (sql_outcome (spec_tags t r limit after) w) w.
Proof.
  intros Hdb; apply guard_outcome; [done|]; intros _; apply query_outcome; [done|]; intros fs sc.
  eexists; split; [done|]; apply page_paged; [|apply tags_of_NoDup]; intros g; by apply tags_of_names.
Qed.

(** ** Listings that join tags with their manifests *)

Lemma manifest_of_tag_Some db tg m : db_ok db →
  manifest_of_tag db tg = Some m ↔ ∃ k, md_manifests db !! k = Some m ∧ mr_ID m = tg_ManifestID tg.
Proof.
  intros Hdb; unfold manifest_of_tag.
  assert (∀ m', m' ∈ filter (λ m, mr_ID m = tg_ManifestID tg) (map snd (map_to_list (md_manifests db)))
    ↔ ∃ k, md_manifests db !! k = Some m' ∧ mr_ID m' = tg_ManifestID tg) as Hin.
  { intros m'; rewrite list_elem_of_filter, list_elem_of_In, in_map_iff; split.
    - intros (Hid & [k m1] & <- & Hk%list_elem_of_In%elem_of_map_to_list); eauto.
    - intros (k & Hk & Hid); split; [done|]; exists (k, m'); split; [done|]; by apply list_elem_of_In, elem_of_map_to_list. }
  destruct (filter _ _) as [|m1 l]; simpl; split.
  - done.
  - by intros Hm%Hin%not_elem_of_nil.
  - intros [= <-]; apply Hin; by left.
  - intros (k & Hk & Hid); destruct (proj1 (Hin m1)) as (k1 & Hk1 & Hid1); [by left|].
    assert (k1 = k) as -> by (eapply (ok_manifest_id db Hdb); [done..|congruence]); congruence.
Qed.

(** A tag's row joins with the manifest the abstract tag resolves to. *)
Lemma joined_tag db t n g tg m : db_ok db →
  (g, tg) ∈ tags_of db t n → manifest_of_tag db tg = Some m ↔
  ∃ d, view_tags db !! (t, n, g) = Some d ∧ manifest_row db t n d = Some m.
Proof.
  intros Hdb; unfold tags_of; destruct (repository_id db t n) as [rid|] eqn:Hrid; [|by intros ?%not_elem_of_nil].
  intros Htg%elem_of_repository_tags; rewrite manifest_of_tag_Some by done; split.
  - intros ([[t' rid'] d] & Hm & Hid); destruct (ok_tag db Hdb t rid g tg Htg) as (d' & m' & Hm' & Hid').
    assert ((t', rid', d) = (t, rid, d')) as [= -> -> ->] by (eapply (ok_manifest_id db Hdb); [done..|congruence]).
    exists d'; split; [rewrite lookup_view_tags; apply tag_at_Some; eauto 10|].
    apply manifest_row_Some; eauto.
  - intros (d & Hd & (rid' & Hid' & Hm)%manifest_row_Some).
    rewrite lookup_view_tags, tag_at_Some in Hd by done; destruct Hd as (rid2 & tg2 & m2 & H1 & H2 & H3 & H4).
    exists (t, rid, d); assert (rid' = rid) as -> by congruence; assert (rid2 = rid) as -> by congruence.
    split; congruence.
Qed.

Lemma tag_has_manifest db t n g tg : db_ok db → (g, tg) ∈ tags_of db t n → is_Some (manifest_of_tag db tg).
Proof.
  intros Hdb; unfold tags_of; destruct (repository_id db t n) as [rid|]; [|by intros ?%not_elem_of_nil].
  intros Htg%elem_of_repository_tags; destruct (ok_tag db Hdb t rid g tg Htg) as (d & m & Hm & Hid).
  exists m; apply manifest_of_tag_Some; eauto.
Qed.

Lemma NoDup_omap_keys {A B} (f : A → option B) (ka : A → string) (kb : B → string) l :
  (∀ x y, f x = Some y → kb y = ka x) → NoDup (map ka l) → NoDup (map kb (omap f l)).
Proof.
  intros Hk; induction l as [|x l IH]; simpl; [done|]; intros [Hni Hnd]%NoDup_cons.
  destruct (f x) as [y|] eqn:Hx; simpl; [|by apply IH]; apply NoDup_cons; split; [|by apply IH].
  rewrite list_elem_of_In, in_map_iff; intros (y' & Hy & Hin%list_elem_of_In%list_elem_of_omap).
  destruct Hin as (x' & Hx' & Hf); apply Hni; apply list_elem_of_In, in_map_iff; exists x'.
  split; [|by apply list_elem_of_In]; by rewrite <- (Hk x' y' Hf), Hy, (Hk x y Hx).
Qed.

Lemma sql_ListTagsWithCreatedAt_outcome t r limit after w :
  db_ok (rw_db w) →
  wp (sql_ListTagsWithCreatedAt t r limit after) (sql_outcome (spec_tag_summaries t r limit after) w) w.
Proof.
  intros Hdb; apply guard_outcome; [done|]; intros _; apply query_outcome; [done|]; intros fs sc.
  unfold ref_String; set (db := rw_db w) in *; set (n := ref_Name r); eexists; split; [done|]; apply page_paged.
  - intros [g c p]; rewrite list_elem_of_omap; unfold tag_summary; simpl.
    setoid_rewrite lookup_view_manifests; unfold manifest_at; simpl; split.
    + intros ([g' tg] & Hin & (m & Hm & [= -> -> ->])%fmap_Some); simpl in *.
      apply (joined_tag db t n g' tg m Hdb Hin) in Hm as (d & Hd & Hm).
      exists d, (row_entry db m); by rewrite Hm.
    + intros (d & e & Hd & He & [= -> ->]); apply fmap_Some in He as (m & Hm & ->); simpl.
      assert (g ∈ map fst (tags_of db t n)) as Hg by (apply tags_of_names; eauto).
      apply list_elem_of_In, in_map_iff in Hg as ([g' tg] & Hg & Hin%list_elem_of_In); simpl in Hg; subst g'.
      exists (g, tg); split; [done|]; simpl; by rewrite (proj2 (joined_tag db t n g tg m Hdb Hin)) by eauto.
  - apply (NoDup_fmap_1 ts_Name); apply (NoDup_omap_keys _ fst); [|apply tags_of_NoDup].
    by intros [g tg] s (m & _ & ->)%fmap_Some.
Qed.

Lemma sql_ListReferrers_outcome t r d w :
  db_ok (rw_db w) → wp (sql_ListReferrers t r d) (sql_outcome (spec_referrers t r d) w) w.
Proof.
  intros Hdb; apply guard_outcome2; [done|]; intros _ Hd; apply query_outcome; [done|]; intros fs sc.
  unfold ref_String; set (db := rw_db w) in *; set (n := ref_Name r).
  apply Digest_Validate_ok in Hd.
  match goal with |- context [rmap ?f (sort_by fst ?x)] => set (scan := f); set (rows := x) end.
  assert (∀ x, x ∈ rows ↔ manifest_row db t n x.1 = Some x.2 ∧ mr_SubjectDigest x.2 = d) as Hrows.
  { intros [g m]; unfold rows; rewrite list_elem_of_filter, manifest_row_Some; simpl.
    destruct (repository_id db t n) as [rid|]; simpl.
    - rewrite elem_of_repository_manifests; split; [intros [[? ?] ?]; eauto|].
      intros [(? & [= <-] & Hm) Hs]; split_and!; try done; intros Hx; rewrite <- Hs, Hx in Hd; by vm_compute in Hd.
    - split; [intros [_ ?%not_elem_of_nil]; done|intros [(? & ? & _) _]; done]. }
  set (f := λ dm : string * ManifestRow, mkReferrerRow dm.1 (mr_MediaType dm.2) (mr_Size dm.2) (mr_Payload dm.2)).
  assert (∀ x, x ∈ rows → valid_digest x.1 = true
    ∧ f x = mkReferrerRow x.1 (mr_MediaType x.2) (Z.of_nat (String.length (mr_Payload x.2))) (mr_Payload x.2)) as Hrow.
  { intros [g m] [(rid & _ & Hm)%manifest_row_Some _]%Hrows; simpl in *.
    destruct (ok_manifest db Hdb t rid g m Hm) as (_ & -> & Hsz); split; [auto with go|].
    unfold f; simpl; by rewrite Hsz. }
  assert (NoDup rows) as Hnd.
  { apply NoDup_filter; destruct (repository_id db t n) as [rid|]; [|constructor].
    apply (NoDup_fmap_1 fst); exact (NoDup_child_keys (t, rid) (md_manifests db)). }
  exists (map f (sort_by fst rows)); split; [|split; [|split]].
  - apply rmap_ok, Forall2_fmap_r, Forall_Forall2_diag, Forall_forall; intros x Hx; rewrite elem_of_sort_by in Hx.
    destruct (Hrow x Hx) as [Hv%valid_digest_spec _]; unfold scan; by rewrite Hv.
  - pose proof (sort_by_sorted fst rows) as Hs; clear -Hs.
    induction Hs as [|x l Hs IH Hx]; simpl; constructor; [done|]; by apply Forall_fmap.
  - apply NoDup_fmap_2_strong; [|by rewrite sort_by_perm].
    intros x y Hx Hy Hxy; rewrite elem_of_sort_by in Hx, Hy.
    apply Hrows in Hx as [Hx _], Hy as [Hy _]; destruct x as [g m], y as [g' m']; simpl in *.
    injection Hxy as -> _ _ _; congruence.
  - intros x; rewrite list_elem_of_In, in_map_iff; simpl; rewrite lookup_view_manifests; unfold manifest_at; simpl; split.
    + intros (y & <- & Hy%list_elem_of_In); rewrite elem_of_sort_by in Hy.
      destruct (Hrow y Hy) as [_ ->]; apply Hrows in Hy as [Hm Hs]; simpl; rewrite Hm; simpl; eauto.
    + intros (e & He & Hs & ->); apply fmap_Some in He as (m & Hm & ->); simpl in *.
      assert ((rf_Digest x, m) ∈ rows) as Hin by by apply Hrows.
      destruct (Hrow _ Hin) as [_ Hf]; exists (rf_Digest x, m); split; [done|].
      apply list_elem_of_In; by rewrite elem_of_sort_by.
Qed.

(** ** Repository summaries *)

Lemma time_text_le_trans x y z : time_text_le x y = true → time_text_le y z = true → time_text_le x z = true.
Proof. apply str_le_trans. Qed.
Lemma time_text_le_total x y : time_text_le x y = false → time_text_le y x = true.
Proof.
  intros Hxy; destruct (str_le_total (formatTime x) (formatTime y)) as [H1|H1]; [|done].
  unfold time_text_le in Hxy; congruence.
Qed.

Lemma text_max_latest l : text_latest (λ x, x ∈ l) (text_max l).
Proof.
  induction l as [|x l IH]; [right; split; [done|by intros y ?%not_elem_of_nil]|]; left.
  destruct l as [|y l]; [split; [by left|]; intros z ->%list_elem_of_singleton; apply str_leb_refl|].
  destruct IH as [[Hin Hmax]|[_ Hn]]; [|exfalso; apply (Hn y); by left].
  change (text_max (x :: y :: l))
    with (if time_text_le x (text_max (y :: l)) then text_max (y :: l) else x).
  destruct (time_text_le x (text_max (y :: l))) eqn:Hx.
  - split; [by right|]; intros z [->|Hz]%elem_of_cons; [done|by apply Hmax].
  - split; [by left|]; intros z [->|Hz]%elem_of_cons; [apply str_leb_refl|].
    eapply time_text_le_trans; [by apply Hmax|by apply time_text_le_total].
Qed.

Lemma text_latest_ext (P Q : Time → Prop) x : (∀ y, P y ↔ Q y) → text_latest P x → text_latest Q x.
Proof. intros HPQ [[? ?]|[? ?]]; [left|right]; split; naive_solver. Qed.

Lemma repository_tags_count db t n rid : db_ok db → repository_id db t n = Some rid →
  length (repository_tags db t rid) = size (filter (λ kv, kv.1.1 = (t, n)) (view_tags db)).
Proof.
  intros Hdb Hrid.
  rewrite <- (length_map fst), <- (length_map_to_list (filter _ _)), <- (length_map (λ kv, kv.1.2)).
  apply Permutation_length, NoDup_Permutation; [apply repository_tags_NoDup| |].
  - apply NoDup_fmap_2_strong; [|apply NoDup_map_to_list].
    intros [[k1 g1] d1] [[k2 g2] d2] [H1 Hk1]%elem_of_map_to_list%map_lookup_filter_Some
      [H2 Hk2]%elem_of_map_to_list%map_lookup_filter_Some; simpl in *; intros ->; congruence.
  - intros g; rewrite (repository_tags_names db t n), list_elem_of_In, in_map_iff by done; split.
    + intros [d Hd]; exists ((t, n, g), d); split; [done|].
      by apply list_elem_of_In, elem_of_map_to_list, map_lookup_filter_Some.
    + intros ([[k g'] d] & <- & [Hd Hk]%list_elem_of_In%elem_of_map_to_list%map_lookup_filter_Some); simpl in *.
      subst; eauto.
Qed.

Lemma summary_row db t n row : db_ok db → md_repositories db !! (t, n) = Some row → ∀ fs sc k,
  let tags := repository_tags db t (rr_ID row) in
  repository_summary (view_of (mkRegWorld db fs sc k)) t
    (mkRepositorySummary n (Z.of_nat (length tags))
       (text_max (omap (λ nt : string * TagRow, mr_CreatedAt <$> manifest_of_tag db nt.2) tags))).
Proof.
  intros Hdb Hrow fs sc k tags; unfold repository_summary; simpl.
  assert (repository_id db t n = Some (rr_ID row)) as Hrid by (apply repository_id_Some; eauto).
  assert (tags = tags_of db t n) as Htags by (unfold tags_of; by rewrite Hrid).
  split_and!; [by apply elem_of_dom_2 in Hrow|unfold tags; by rewrite (repository_tags_count db t n)|].
  eapply text_latest_ext; [|apply text_max_latest]; intros x; rewrite list_elem_of_omap, Htags; split.
  - intros ([g tg] & Hin & (m & Hm & ->)%fmap_Some); simpl in *.
    apply (joined_tag db t n g tg m Hdb Hin) in Hm as (d & Hd & Hm).
    exists g, d, (row_entry db m); rewrite lookup_view_manifests; unfold manifest_at; simpl; by rewrite Hm.
  - intros (g & d & e & Hd & He & <-); rewrite lookup_view_manifests in He; unfold manifest_at in He; simpl in He.
    apply fmap_Some in He as (m & Hm & ->); simpl.
    assert (g ∈ map fst (tags_of db t n)) as Hg by (apply tags_of_names; eauto).
    apply list_elem_of_In, in_map_iff in Hg as ([g' tg] & Hg & Hin%list_elem_of_In); simpl in Hg; subst g'.
    exists (g, tg); split; [done|]; simpl; by rewrite (proj2 (joined_tag db t n g tg m Hdb Hin)) by eauto.
Qed.

Lemma sql_ListRepositoriesWithSummary_outcome t limit after w :
  db_ok (rw_db w) →
  wp (sql_ListRepositoriesWithSummary t limit after) (sql_outcome (spec_repository_summaries t limit after) w) w.
Proof.
  intros Hdb; apply query_outcome; [done|]; intros fs sc; simpl; set (db := rw_db w) in *.
  set (rows := filter (λ kv : (string * string) * RepositoryRow, kv.1.1 = t) (map_to_list (md_repositories db))).
  match goal with |- context [page rs_Name limit after (map ?g _)] => set (f := g) end.
  assert (map rs_Name (map f rows) = map (λ kv, kv.1.2) rows) as Hnames by (rewrite map_map; by apply map_ext).
  assert (∀ n, n ∈ map rs_Name (map f rows) ↔ (t, n) ∈ view_repos db) as Hmem
    by (intros n; rewrite Hnames; apply catalog_names).
  assert (NoDup (map rs_Name (map f rows))) as Hnd by (rewrite Hnames; apply catalog_NoDup).
  assert (NoDup (map f rows)) as Hnd' by by apply (NoDup_fmap_1 rs_Name).
  destruct (page_paged rs_Name limit after (λ s, s ∈ map f rows) (map f rows) (λ x, iff_refl _) Hnd')
    as (full & Hs & Hndf & Hfull & Hpage); exists (page rs_Name limit after (map f rows)).
  assert (NoDup (map rs_Name full)) as Hndn.
  { apply NoDup_fmap_2_strong; [|done]; intros x y [Hx _]%Hfull [Hy _]%Hfull Hxy.
    apply list_elem_of_In, in_map_iff in Hx as ([[t1 n1] r1] & <- & Hx%list_elem_of_In).
    apply list_elem_of_In, in_map_iff in Hy as ([[t2 n2] r2] & <- & Hy%list_elem_of_In).
    simpl in Hxy; subst n2; apply list_elem_of_filter in Hx as [Hx1 Hx%elem_of_map_to_list].
    apply list_elem_of_filter in Hy as [Hy1 Hy%elem_of_map_to_list]; simpl in *; congruence. }
  assert (map rs_Name (page rs_Name limit after (map f rows))
    = if 0 <? limit then take (Z.to_nat limit) (map rs_Name full) else map rs_Name full) as Hpn.
  { rewrite Hpage; destruct (0 <? limit); [by rewrite firstn_map|done]. }
  split_and!; [done| | |].
  - rewrite Hpn; destruct (0 <? limit); [|done]; eapply sublist_NoDup; [done|apply sublist_take].
  - apply Forall_forall; intros x Hx; assert (x ∈ full) as [Hin _]%Hfull.
    { rewrite Hpage in Hx; destruct (0 <? limit); [|done]; by eapply subseteq_take. }
    apply list_elem_of_In, in_map_iff in Hin as ([[t1 n1] r1] & <- & Hin%list_elem_of_In).
    apply list_elem_of_filter in Hin as [Ht Hin%elem_of_map_to_list]; simpl in Ht; subst t1.
    by apply summary_row.
  - exists (map rs_Name full); split_and!; [|done| |done].
    + clear -Hs; induction Hs as [|x l Hs IH Hx]; simpl; constructor; [done|]; by apply Forall_fmap.
    + intros n; rewrite list_elem_of_In, in_map_iff; simpl; split.
      * intros (x & <- & [Hx Ha]%list_elem_of_In%Hfull); split; [|done]; apply Hmem.
        apply list_elem_of_In, in_map_iff; exists x; split; [done|by apply list_elem_of_In].
      * intros [Hn Ha]; apply Hmem, list_elem_of_In, in_map_iff in Hn as (x & <- & Hx%list_elem_of_In).
        exists x; split; [done|]; by apply list_elem_of_In, Hfull.
Qed.
End Operations.
