(* ===== verification/RegLaws.v ===== *)
(** The two stores, over one process state, keep the contract the service is
    proved against: the instance of [RegistryLaws] for the SQLite tables and the
    storage directory. *)
From S2P Require Import Prelude GoStrings Errors Repository Digest GoNumbers Manifest RegPorts RegWorld.
From S2P Require Import Registry FsBlob MetaStore RegView FsLaws MetaLaws MetaManifests.

(** Well-formed tables and a well-formed storage directory. *)
Definition world_wf `{RegEnv} (w : RegWorld) : Prop := db_ok (rw_db w) ∧ fs_wf (rw_fs w).

Section Laws.
Context `{RegEnvLaws}.

#[local] Notation meets m spec slack := (reg_meets view_of world_wf world_later world_calm m spec slack).

#[export] Instance world_later_preorder : PreOrder world_later.
Proof. split; [intros w|intros w1 w2 w3]; unfold world_later; lia. Qed.

Lemma world_calm_later w w' : world_later w w' → world_calm w → world_calm w'.
Proof. intros Hl Hc n Hn; apply Hc; unfold world_later in Hl; lia. Qed.

(** A metadata operation keeps the files, a blob operation the tables. *)
Lemma sql_meets {A} (m : M RegWorld A) spec :
  (∀ w, db_ok (rw_db w) → wp m (sql_outcome spec w) w) → meets m spec unchanged.
Proof.
  intros Hm w [Hdb Hfs]; destruct (Hm w Hdb) as (Hok & Hf & _ & Hl & Hs).
  split; [split; [done|by rewrite Hf]|]; by split.
Qed.

Lemma fs_meets {A} (m : M RegWorld A) spec slack :
  (∀ w, fs_wf (rw_fs w) → wp m (fs_outcome spec slack w) w) → meets m spec slack.
Proof.
  intros Hm w [Hdb Hfs]; destruct (Hm w Hfs) as (Hok & Hd & Hl & Hs).
  split; [split; [by rewrite Hd|done]|]; by split.
Qed.

Lemma clock_meets : meets clock (reads (λ R r, ∃ t, r = Ok t)) unchanged.
Proof.
  intros [db fs sc n] Hwf; split; [done|split; [unfold world_later, clock, tick; simpl; lia|]].
  left; split; [done|by eexists].
Qed.

Lemma uuid_meets : meets reg_uuid (reads (λ R r, ∃ id, r = Ok id ∧ rg_reports R !! id = None)) unchanged.
Proof.
  intros [db fs sc n] Hwf; split; [done|split; [unfold world_later, tick; simpl; lia|]].
  left; split; [done|]; eexists; split; [done|]; simpl; rewrite lookup_view_reports; by rewrite renv_uuid_law.
Qed.

Lemma spawn_meets s :
  meets (reg_spawn_scan s) (λ R r R', r = Ok tt ∧ R' = put_scans (rg_scans R ++ [s]) R) unchanged.
Proof.
  intros [db fs sc n] Hwf; split; [done|split; [unfold world_later; simpl; lia|]]; by left.
Qed.

#[export] Instance reg_laws : RegistryLaws RegWorld := {|
  reg_view := view_of;
  reg_wf := world_wf;
  reg_later := world_later;
  reg_calm := world_calm;
  reg_calm_later := world_calm_later;
  SaveUpload_ok t st := sql_meets _ _ (sql_SaveUpload_outcome t st);
  GetUpload_ok t id := sql_meets _ _ (sql_GetUpload_outcome t id);
  DeleteUpload_ok t id := sql_meets _ _ (sql_DeleteUpload_outcome t id);
  ListUploads_ok t r := sql_meets _ _ (sql_ListUploads_outcome t r);
  PublishManifest_ok t r g m bs := sql_meets _ _ (sql_PublishManifest_outcome t r g m bs);
  ResolveManifest_ok t r x := sql_meets _ _ (sql_ResolveManifest_outcome t r x);
  ListManifestBlobs_ok t r d := sql_meets _ _ (sql_ListManifestBlobs_outcome t r d);
  DeleteManifestByDigest_ok t r d := sql_meets _ _ (sql_DeleteManifestByDigest_outcome t r d);
  DeleteRepository_ok t r := sql_meets _ _ (sql_DeleteRepository_outcome t r);
  DeleteTag_ok t r g := sql_meets _ _ (sql_DeleteTag_outcome t r g);
  ListReferencedBlobDigests_ok := sql_meets _ _ sql_ListReferencedBlobDigests_outcome;
  IsBlobDigestReferenced_ok d := sql_meets _ _ (sql_IsBlobDigestReferenced_outcome d);
  Catalog_ok t l a := sql_meets _ _ (sql_Catalog_outcome t l a);
  ListTags_ok t r l a := sql_meets _ _ (sql_ListTags_outcome t r l a);
  ListTagsWithCreatedAt_ok t r l a := sql_meets _ _ (sql_ListTagsWithCreatedAt_outcome t r l a);
  ListRepositoriesWithSummary_ok t l a := sql_meets _ _ (sql_ListRepositoriesWithSummary_outcome t l a);
  ListReferrers_ok t r d := sql_meets _ _ (sql_ListReferrers_outcome t r d);
  CreateGCReport_ok r cs := sql_meets _ _ (sql_CreateGCReport_outcome r cs);
  GetGCReport_ok id := sql_meets _ _ (sql_GetGCReport_outcome id);
  PruneExpiredGCReports_ok n := sql_meets _ _ (sql_PruneExpiredGCReports_outcome n);
  MarkGCReportDeleted_ok id o := sql_meets _ _ (sql_MarkGCReportDeleted_outcome id o);
  BeginUpload_ok r := fs_meets _ _ _ (fs_BeginUpload_outcome r);
  blob_GetUpload_ok id Hid := fs_meets _ _ _ (λ w, fs_GetUpload_outcome id w Hid);
  PutUploadChunk_ok id c Hid := fs_meets _ _ _ (λ w, fs_PutUploadChunk_outcome id c w Hid);
  CommitUpload_ok id d Hid := fs_meets _ _ _ (λ w, fs_CommitUpload_outcome id d w Hid);
  CancelUpload_ok id Hid := fs_meets _ _ _ (λ w, fs_CancelUpload_outcome id w Hid);
  BlobExists_ok d := fs_meets _ _ _ (fs_BlobExists_outcome d);
  OpenBlob_ok d := fs_meets _ _ _ (fs_OpenBlob_outcome d);
  ListBlobs_ok := fs_meets _ _ _ fs_ListBlobs_outcome;
  DeleteBlob_ok d := fs_meets _ _ _ (fs_DeleteBlob_outcome d);
  reg_now_ok := clock_meets;
  reg_now_runs w := ex_intro _ (renv_now (rw_calls w)) eq_refl;
  reg_uuid_ok := uuid_meets;
  reg_spawn_scan_ok := spawn_meets;
|}.
End Laws.
