(* ===== verification/RegSteps.v ===== *)
(** The abstract state machine of the registry: whatever a request to the service
    does to the repositories, manifests, tags, blobs, uploads and reports is a
    sequence of the transitions below, each under the guard that makes it safe.
    The guards keep the registry's invariant [reg_inv].

    Running the registry service against the stores' contract: the rules by which
    the proofs execute a handler, one rule per kind of store call. A handler keeps
    the registry well formed, changes it by transitions of the machine whatever
    fails below it, and in a calm world does what its specification says. *)
From S2P Require Import Prelude GoStrings Errors Repository Digest GoNumbers Manifest Scope Auth Access.
From S2P Require Import RegPorts Registry RegService Gc.

(** * The machine *)

Section Machine.
Variables (svc : RegConfig) (ctx : option Principal).

Definition allowed (verb : ActionVerb) (repository : string) : Prop :=
  authorize svc ctx (mkAction verb repository None) = Ok tt.

(** The upload [id] is one of the tenant's, and the actor may push to some
    repository: the one the upload's row named when the request arrived. *)
Definition may_upload (R : Registry) (id : string) : Prop :=
  (∃ u, rg_uploads R !! id = Some (tenant svc, u)) ∧ ∃ n, allowed ActionPush n.

Definition states_named (id : string) (s : Session) : Prop := ∀ st, ss_State s = Some st → up_ID st = id.

Inductive reg_step (R : Registry) : Registry → Prop :=
  | st_begin r id s :
      valid_repository (ref_Name r) = true → allowed ActionPush (ref_Name r) →
      GoodID id → rg_incoming R !! id = None → ss_Data s = "" → states_named id s →
      reg_step R (set_session id (Some s) R)
  | st_receive id s s' :
      may_upload R id → rg_incoming R !! id = Some s → states_named id s' →
      reg_step R (set_session id (Some s') R)
  | st_commit id s mtime :
      may_upload R id → rg_incoming R !! id = Some s →
      reg_step R (add_blob (DigestFromBytes (ss_Data s)) (mkBlobFile (ss_Data s) mtime) (set_session id None R))
  | st_commit_known id s :
      may_upload R id → rg_incoming R !! id = Some s →
      is_Some (rg_blobs R !! DigestFromBytes (ss_Data s)) →
      reg_step R (set_session id None R)
  | st_track st :
      GoodID (up_ID st) → UploadState_Validate st = Ok tt →
      reg_step R (save_upload (tenant svc) st R)
  | st_untrack id :
      may_upload R id →
      reg_step R (put_uploads (delete id (rg_uploads R)) R)
  | st_publish r tag m now :
      valid_repository (ref_Name r) = true → allowed ActionPush (ref_Name r) →
      Manifest_Validate m = Ok tt → (∀ p, ctx = Some p → mf_PushedBy m = p_UserID p) →
      (∀ b, b ∈ BlobReferences m → is_Some (rg_blobs R !! desc_Digest b)) →
      (∀ s, mf_Subject m = Some s → is_Some (rg_manifests R !! (tenant svc, ref_Name r, desc_Digest s))) →
      reg_step R (publish (tenant svc) r tag m (BlobReferences m) now R)
  | st_scan s : reg_step R (put_scans (rg_scans R ++ [s]) R)
  | st_delete_manifest n d :
      allowed ActionDelete n → deleteEnabled svc = true →
      is_Some (rg_manifests R !! (tenant svc, n, d)) →
      reg_step R (remove_manifest (tenant svc) n d R)
  | st_delete_tag n g :
      allowed ActionDelete n → deleteEnabled svc = true →
      is_Some (rg_tags R !! (tenant svc, n, g)) →
      reg_step R (remove_tag (tenant svc) n g R)
  | st_delete_repository n :
      authorizeDeleteRepository svc ctx n = Ok tt → deleteEnabled svc = true →
      (tenant svc, n) ∈ rg_repos R →
      reg_step R (remove_repository (tenant svc) n R)
  | st_prune now : reg_step R (put_reports (filter (λ kv, report_prunable now kv.2 = false) (rg_reports R)) R)
  | st_report rep cs :
      rg_reports R !! gc_ID rep = None → gc_Status rep = GCReportStatusReported →
      reg_step R (put_reports (<[gc_ID rep := mkGCReportDetail rep cs]> (rg_reports R)) R)
  | st_collect d f now :
      gcDeleteEnabled svc = true → rg_blobs R !! d = Some f → ¬ referenced R d →
      Before (bf_ModTime f) (now - gcGraceWindow) = true →
      reg_step R (remove_blob d R)
  | st_freeze id o d :
      gcDeleteEnabled svc = true → rg_reports R !! id = Some d →
      gc_Status (gcd_Report d) = GCReportStatusReported →
      reg_step R (put_reports (<[id := freeze_detail o d]> (rg_reports R)) R).
End Machine.

(** * The invariant *)

(** Every blob a manifest is built from is there; blobs and manifests are stored
    under the digest of their bytes; tags have a name and point at manifests; upload ids are the
    ones the service made. *)
Record reg_inv (R : Registry) : Prop := {
  inv_blobs k e b : rg_manifests R !! k = Some e → b ∈ en_Blobs e → is_Some (rg_blobs R !! desc_Digest b);
  inv_content d f : rg_blobs R !! d = Some f → DigestFromBytes (bf_Content f) = d;
  inv_manifest t n d e : rg_manifests R !! (t, n, d) = Some e →
    d = DigestFromBytes (en_Payload e) ∧ (t, n) ∈ rg_repos R;
  inv_tag t n g d : rg_tags R !! (t, n, g) = Some d → is_Some (rg_manifests R !! (t, n, d));
  inv_tag_name t n g d : rg_tags R !! (t, n, g) = Some d → g ≠ "";
  inv_upload id t u : rg_uploads R !! id = Some (t, u) → GoodID id ∧ up_ID u = id;
  inv_session id s : rg_incoming R !! id = Some s → GoodID id ∧ states_named id s;
}.

Definition empty_registry : Registry := mkRegistry ∅ ∅ ∅ ∅ ∅ ∅ ∅ [].

Lemma empty_registry_inv : reg_inv empty_registry.
Proof. split; simpl; intros *; by rewrite lookup_empty. Qed.

#[local] Opaque DigestFromBytes.

Lemma lookup_set_session id s R id' :
  rg_incoming (set_session id s R) !! id' = if decide (id = id') then s else rg_incoming R !! id'.
Proof. simpl; case_decide as Hid; [by subst; rewrite lookup_partial_alter_eq|by rewrite lookup_partial_alter_ne]. Qed.

(** The part of the invariant that concerns one table alone. *)
Lemma set_session_inv id s R :
  reg_inv R → (∀ x, s = Some x → GoodID id ∧ states_named id x) → reg_inv (set_session id s R).
Proof.
  intros HR Hs; split; try (intros; by eapply HR); intros id' x; rewrite lookup_set_session.
  case_decide as Hid; [subst; apply Hs|by apply HR].
Qed.

Lemma add_blob_inv c mtime R : reg_inv R → reg_inv (add_blob (DigestFromBytes c) (mkBlobFile c mtime) R).
Proof.
  intros HR; split; try (intros; by eapply HR); simpl.
  - intros k e b He Hb; destruct (inv_blobs R HR k e b He Hb) as [f Hf]; rewrite lookup_insert_is_Some.
    destruct (decide (DigestFromBytes c = desc_Digest b)); [by left|right; split; [done|by eexists]].
  - intros d f [[<- <-]|[_ Hf]]%lookup_insert_Some; [done|by apply HR].
Qed.

Lemma publish_inv t r tag m now R :
  reg_inv R → Manifest_Validate m = Ok tt →
  (∀ b, b ∈ BlobReferences m → is_Some (rg_blobs R !! desc_Digest b)) →
  reg_inv (publish t r tag m (BlobReferences m) now R).
Proof.
  intros HR Hm Hb; destruct (Manifest_Validate_ok m tt Hm) as (_ & Hd & _).
  split; try (intros; by eapply HR); simpl.
  - intros k e b [[_ <-]|[_ He]]%lookup_insert_Some; [apply Hb|by eapply HR].
  - intros t' n' d e [[[= <- <- <-] <-]|[_ He]]%lookup_insert_Some; simpl; [split; [done|set_solver]|].
    destruct (inv_manifest R HR t' n' d e He) as [? ?]; split; [done|set_solver].
  - intros t' n' g d Hg.
    assert (d = mf_Digest m ∧ t' = t ∧ n' = ref_Name r ∨ rg_tags R !! (t', n', g) = Some d) as [(-> & -> & ->)|Hg'].
    { destruct (String.eqb tag ""); [by right|]; apply lookup_insert_Some in Hg as [[[= <- <- <-] <-]|[_ ?]]; auto. }
    + rewrite lookup_insert_eq; eauto.
    + destruct (inv_tag R HR t' n' g d Hg') as [e He]; rewrite lookup_insert_is_Some.
      destruct (decide ((t, ref_Name r, mf_Digest m) = (t', n', d))); [by left|right; split; [done|by eexists]].
  - intros t' n' g d; destruct (String.eqb_spec tag ""); [by apply HR|].
    intros [[[= <- <- <-] _]|[_ Hg]]%lookup_insert_Some; [done|by eapply HR].
Qed.

Lemma remove_manifest_inv t n d R : reg_inv R → reg_inv (remove_manifest t n d R).
Proof.
  intros HR; split; try (intros; by eapply HR); simpl.
  - intros k e b [_ He]%lookup_delete_Some; by eapply HR.
  - intros t' n' d' e [_ He]%lookup_delete_Some; by eapply HR.
  - intros t' n' g d' [Hg Hn]%map_lookup_filter_Some; simpl in Hn.
    rewrite lookup_delete_ne; [by eapply HR|]; intros [= <- <- <-]; by apply Hn.
  - intros t' n' g d' [Hg _]%map_lookup_filter_Some; by eapply HR.
Qed.

Lemma remove_repository_inv t n R : reg_inv R → reg_inv (remove_repository t n R).
Proof.
  intros HR; split; try (intros; by eapply HR); simpl.
  - intros k e b [He _]%map_lookup_filter_Some; by eapply HR.
  - intros t' n' d e [He Hn]%map_lookup_filter_Some; simpl in Hn.
    destruct (inv_manifest R HR t' n' d e He); split; [done|set_solver].
  - intros t' n' g d [Hg Hn]%map_lookup_filter_Some; simpl in Hn.
    destruct (inv_tag R HR t' n' g d Hg) as [e He]; exists e; by apply map_lookup_filter_Some.
  - intros t' n' g d [Hg _]%map_lookup_filter_Some; by eapply HR.
Qed.

Lemma remove_blob_inv d R : reg_inv R → ¬ referenced R d → reg_inv (remove_blob d R).
Proof.
  intros HR Hd; split; try (intros; by eapply HR); simpl.
  - intros k e b He Hb; rewrite lookup_delete_ne; [by eapply HR|].
    intros ->; apply Hd; by exists k, e, b.
  - intros d' f [_ Hf]%lookup_delete_Some; by apply HR.
Qed.

Lemma save_upload_inv t st R : reg_inv R → GoodID (up_ID st) → reg_inv (save_upload t st R).
Proof.
  intros HR Hid; split; try (intros; by eapply HR); simpl.
  intros id t' u [[<- [= _ <-]]|[_ Hu]]%lookup_insert_Some; [done|by eapply HR].
Qed.

(** Every transition keeps the invariant. *)
Lemma reg_step_inv svc ctx R R' : reg_step svc ctx R R' → reg_inv R → reg_inv R'.
Proof.
  destruct 1; intros HR.
  - apply set_session_inv; [done|]; by intros x [= <-].
  - apply set_session_inv; [done|]; intros x [= <-]; split; [|done]; by destruct (inv_session R HR _ _ H0).
  - by apply add_blob_inv, set_session_inv.
  - by apply set_session_inv.
  - by apply save_upload_inv.
  - split; try (intros; by eapply HR); simpl; intros id' t u [_ Hu]%lookup_delete_Some; by eapply HR.
  - by apply publish_inv.
  - split; intros; by eapply HR.
  - by apply remove_manifest_inv.
  - split; try (intros; by eapply HR); simpl; intros t n' g' d [_ Hd]%lookup_delete_Some; by eapply HR.
  - by apply remove_repository_inv.
  - split; intros; by eapply HR.
  - split; intros; by eapply HR.
  - by eapply remove_blob_inv.
  - split; intros; by eapply HR.
Qed.

(** * The proof rules *)

#[local] Opaque DigestFromBytes.

(** * Definitions *)

(** A specification that starts with a pure check. *)
Definition given {A B} (v : res A) (k : A → Registry → res B → Registry → Prop)
    (R : Registry) (r : res B) (R' : Registry) : Prop :=
  match v with Ok a => k a R r R' | Err e => r = Err e ∧ R' = R end.

Definition fails {A} (e : error) (R : Registry) (r : res A) (R' : Registry) : Prop := r = Err e ∧ R' = R.

Section Run.
Context {W : Type} `{RegistryLaws W}.
Variables (svc : RegConfig) (ctx : option Principal).

Definition good (w : W) : Prop := reg_wf w ∧ reg_inv (reg_view w).

Definition after (w0 w : W) : Prop :=
  good w ∧ reg_later w0 w ∧ rtc (reg_step svc ctx) (reg_view w0) (reg_view w).

Definition served {A} (w0 : W) (spec : Registry → res A → Registry → Prop) (r : res A) (w : W) : Prop :=
  after w0 w ∧ (reg_calm w0 → spec (reg_view w0) r (reg_view w)).

(** [m] serves a request as [spec] says. *)
Definition serves {A} (m : M W A) (spec : Registry → res A → Registry → Prop) : Prop :=
  ∀ w, good w → wp m (served w spec) w.
End Run.

(** * Rules *)

Lemma wp_assoc {E S A B C} (m : ST E S A) (f : A → ST E S B) (g : B → ST E S C) Q s :
  wp (let! x := m in let! y := f x in g y) Q s → wp (let! y := (let! x := m in f x) in g y) Q s.
Proof. unfold wp, sbind; by destruct (m s) as [[]]. Qed.

Section Rules.
Context {W : Type} `{RegistryLaws W}.
Variables (svc : RegConfig) (ctx : option Principal).
Notation after := (after svc ctx).
Notation served := (served svc ctx).

Lemma after_refl w : good w → after w w.
Proof. intros Hg; split; [done|split; [reflexivity|apply rtc_refl]]. Qed.

Lemma rtc_good R R' : rtc (reg_step svc ctx) R R' → reg_inv R → reg_inv R'.
Proof. induction 1; eauto using reg_step_inv. Qed.

(** A store call that makes at most one transition. *)
Lemma wp_op {A} (m : M W A) spec slack (Q : res A → W → Prop) w0 w :
  reg_ok m spec slack → after w0 w →
  (∀ r R', spec (reg_view w) r R' ∨ slack (reg_view w) r R' →
     R' = reg_view w ∨ reg_step svc ctx (reg_view w) R') →
  (∀ r w', after w0 w' →
     (spec (reg_view w) r (reg_view w') ∨ slack (reg_view w) r (reg_view w') ∧ ¬ reg_calm w0) → Q r w') →
  wp m Q w.
Proof.
  intros Hok ([Hwf Hinv] & Hl & Hs) Hstep HQ; destruct (Hok w Hwf) as (Hwf' & Hl' & Ho).
  assert (spec (reg_view w) (m w).1 (reg_view (m w).2) ∨ slack (reg_view w) (m w).1 (reg_view (m w).2)) as Hss
    by (destruct Ho as [?|[? _]]; auto).
  assert (rtc (reg_step svc ctx) (reg_view w0) (reg_view (m w).2)) as Hs'.
  { destruct (Hstep _ _ Hss) as [->|Hx]; [done|]; by eapply rtc_r. }
  apply HQ.
  - split; [split; [done|]|split; [by etransitivity|done]].
    destruct (Hstep _ _ Hss) as [->|Hx]; [done|]; by eapply reg_step_inv.
  - destruct Ho as [?|[? Hc]]; [by left|right; split; [done|]].
    intros Hcalm; apply Hc; by eapply reg_calm_later.
Qed.

(** A call that only reads. *)
Lemma wp_read {A} (m : M W A) f (Q : res A → W → Prop) w0 w :
  reg_ok m (reads f) unchanged → after w0 w →
  (∀ r w', after w0 w' → reg_view w' = reg_view w →
     (f (reg_view w) r ∨ (∃ e, r = Err (OtherError e)) ∧ ¬ reg_calm w0) → Q r w') →
  wp m Q w.
Proof.
  intros Hok Ha HQ; eapply wp_op; [done..| |].
  - intros r R' [[-> _]|[-> _]]; by left.
  - intros r w' Ha' [[Hv Hf]|[[Hv He] Hc]]; apply HQ; auto.
Qed.

Lemma reg_ok_guard {A} (m : M W A) v u spec slack :
  reg_ok m (guarded v spec) slack → v = Ok u → reg_ok m spec slack.
Proof. intros Hok ->; exact Hok. Qed.

(** ** Rules that build up a specification *)

Lemma served_err {A} w0 w (spec : Registry → res A → Registry → Prop) e :
  after w0 w → (reg_calm w0 → spec (reg_view w0) (Err e) (reg_view w)) → served w0 spec (Err e) w.
Proof. by split. Qed.

Lemma wp_given {A B} (v : res A) (k : A → M W B) spec w0 w :
  after w0 w → reg_view w = reg_view w0 →
  (∀ a, v = Ok a → wp (k a) (served w0 (spec a)) w) →
  wp (sbind (slift v) k) (served w0 (given v spec)) w.
Proof.
  intros Ha Hv Hk; apply wp_sbind, wp_slift; unfold given; destruct v as [a|e]; [by apply Hk|].
  apply served_err; [done|]; by rewrite Hv.
Qed.

(** A read whose result the handler needs. *)
Lemma wp_reads {A B} (m : M W A) f (k : A → M W B) spec w0 w :
  reg_ok m (reads f) unchanged → after w0 w → reg_view w = reg_view w0 →
  (∀ a w', after w0 w' → reg_view w' = reg_view w0 → f (reg_view w0) (Ok a) → wp (k a) (served w0 spec) w') →
  (∀ e, f (reg_view w0) (Err e) → spec (reg_view w0) (Err e) (reg_view w0)) →
  wp (sbind m k) (served w0 spec) w.
Proof.
  intros Hok Ha Hv Hk He; apply wp_sbind; eapply wp_read; [done..|].
  intros [a|e] w' Ha' Hv' Hr; rewrite Hv in *.
  - apply Hk; [done..|]; by destruct Hr as [|[[? ?] _]].
  - apply served_err; [done|]; intros Hc; rewrite Hv'; destruct Hr as [Hf|[_ Hn]]; [by apply He|done].
Qed.

(** The same read as the handler's last call. *)
Lemma wp_reads_ret {A B} (m : M W A) f (g : A → B) (spec : Registry → res B → Registry → Prop) w0 w :
  reg_ok m (reads f) unchanged → after w0 w → reg_view w = reg_view w0 →
  (∀ a, f (reg_view w0) (Ok a) → spec (reg_view w0) (Ok (g a)) (reg_view w0)) →
  (∀ e, f (reg_view w0) (Err e) → spec (reg_view w0) (Err e) (reg_view w0)) →
  wp (let! a := m in sret (g a)) (served w0 spec) w.
Proof.
  intros Hok Ha Hv Ho He; eapply wp_reads; [done..| |done].
  intros a w' Ha' Hv' Hf; apply wp_sret; split; [done|]; intros _; rewrite Hv'; by apply Ho.
Qed.

Lemma served_weaken {A} w0 (spec spec' : Registry → res A → Registry → Prop) r w :
  (∀ R r R', spec R r R' → spec' R r R') → served w0 spec r w → served w0 spec' r w.
Proof. intros Hs [Ha Hc]; split; [done|]; intros Hx; by apply Hs, Hc. Qed.

(** The rest of a handler, specified from the state it starts in. *)
Lemma wp_chain {A} (m : M W A) (spec spec' : Registry → res A → Registry → Prop) w0 w :
  after w0 w → (∀ r R', spec' (reg_view w) r R' → spec (reg_view w0) r R') →
  wp m (served w spec') w → wp m (served w0 spec) w.
Proof.
  intros (Hg & Hl & Hs) Hss Hm; eapply wp_conseq; [exact Hm|]; intros r w' [(Hg' & Hl' & Hs') Hc].
  split; [split; [done|split; [by etransitivity|by etransitivity]]|].
  intros Hcalm; apply Hss, Hc; by eapply reg_calm_later.
Qed.
End Rules.
