(* ===== verification/RegUploads.v ===== *)
(** What the upload requests do to the registry: the specification of each and the
    proof that the handler meets it. *)
From S2P Require Import Prelude GoStrings Errors Repository Digest GoNumbers Manifest Scope Auth Access.
From S2P Require Import RegPorts Registry RegService Gc RegSteps.

#[local] Opaque DigestFromBytes.

(** * Specifications *)

Section Specs.
Variables (svc : RegConfig) (ctx : option Principal).

(** A request on an existing upload of a repository the actor may push to. *)
Definition at_upload {A} (name id : string) (k : UploadState → Registry → res A → Registry → Prop) :=
  given (parseRepository name) (λ repo R (r : res A) R',
    match rg_uploads R !! id with
    | Some (t, u) =>
        if String.eqb t (tenant svc) && String.eqb (ref_String (up_Repository u)) (ref_String repo)
        then given (authorize svc ctx (mkAction ActionPush (ref_String (up_Repository u)) None)) (λ _, k u) R r R'
        else fails (NewNotFoundError "upload" id) R r R'
    | None => fails (NewNotFoundError "upload" id) R r R'
    end).

(** A chunk is appended to the session, whose new state is recorded. *)
Definition received {A} (id : string) (chunk : Reader) (k : UploadState → Registry → res A → Registry → Prop)
    (R : Registry) (r : res A) (R' : Registry) : Prop :=
  match rg_incoming R !! id with
  | None => fails (NewNotFoundError "upload" id) R r R'
  | Some s =>
      let data := String.append (ss_Data s) (rd_Data chunk) in
      match rd_Err chunk, ss_State s with
      | None, Some st =>
          ∃ st', continued st st' data
            ∧ k st' (save_upload (tenant svc) st' (set_session id (Some (mkSession data (Some st'))) R)) r R'
      | _, o => (∃ e, r = Err e) ∧ R' = set_session id (Some (mkSession data o)) R
      end
  end.

Definition returns {A} (a : A) (R : Registry) (r : res A) (R' : Registry) : Prop := r = Ok a ∧ R' = R.

Definition spec_BeginUpload (name : string) :=
  given (parseRepository name) (λ repo,
  given (authorize svc ctx (mkAction ActionPush (ref_String repo) None)) (λ _ R (r : res UploadDetails) R',
    (∃ id now st, GoodID id ∧ rg_incoming R !! id = None ∧ begun id repo now st ∧ r = Ok (newUploadDetails st)
       ∧ R' = save_upload (tenant svc) st (set_session id (Some (mkSession "" (Some st))) R))
    ∨ (∃ id, GoodID id ∧ is_Some (rg_incoming R !! id)) ∧ unchanged R r R')).

Definition spec_AppendUpload (name id : string) (content : Reader) :=
  at_upload name id (λ _, received id content (λ st, returns (newUploadDetails st))).

(** The session becomes the blob its bytes hash to, if that is the expected one. *)
Definition commit_session (id : string) (repo : RepositoryRef) (d : Digest)
    (R : Registry) (r : res BlobDetails) (R' : Registry) : Prop :=
  match rg_incoming R !! id with
  | None => fails (NewNotFoundError "upload" id) R r R'
  | Some s =>
      let actual := DigestFromBytes (ss_Data s) in
      if String.eqb actual d
      then r = Ok (newBlobDetails (ref_String repo) (mkDescriptor "" d (Z.of_nat (String.length (ss_Data s)))))
           ∧ ∃ mtime, R' = let R1 := add_blob d (mkBlobFile (ss_Data s) mtime) (set_session id None R) in
                           put_uploads (delete id (rg_uploads R1)) R1
      else fails (NewDigestMismatchError d actual) R r R'
  end.
Definition committed (id : string) (repo : RepositoryRef) (expected : string) :=
  given (ParseDigest expected) (commit_session id repo).

Definition spec_CompleteUpload (name id expected : string) (finalChunk : option Reader) :=
  at_upload name id (λ u,
    match finalChunk with
    | None => committed id (up_Repository u) expected
    | Some chunk => received id chunk (λ _, committed id (up_Repository u) expected)
    end).

Definition spec_UploadStatus (name id : string) :=
  at_upload name id (λ _ R (r : res UploadDetails) R',
    match session_state R id with
    | Some (data, st) => ∃ st', continued st st' data ∧ r = Ok (newUploadDetails st')
        ∧ R' = save_upload (tenant svc) st' R
    | None => (∃ e, r = Err e) ∧ R' = R
    end).

Definition spec_Uploads (name : string) (R : Registry) (r : res (list UploadDetails)) (R' : Registry) : Prop :=
  let listed (repo : option RepositoryRef) R (r : res (list UploadDetails)) R' :=
    R' = R ∧ ∃ l, r = Ok (map newUploadDetails l)
      ∧ ∀ st, st ∈ l ↔ rg_uploads R !! up_ID st = Some (tenant svc, st)
          ∧ match repo with Some x => up_Repository st = x | None => True end in
  if String.eqb name "" then given (authorize svc ctx (mkAction ActionInspect "" None)) (λ _, listed None) R r R'
  else given (parseRepository name) (λ repo,
         given (authorize svc ctx (mkAction ActionInspect (ref_String repo) None)) (λ _, listed (Some repo))) R r R'.
End Specs.

(** * The handlers meet them *)

Section Uploads.
Context {W : Type} `{RegistryLaws W}.
Variables (svc : RegConfig) (ctx : option Principal).
Notation after := (after svc ctx).
Notation served := (served svc ctx).

Lemma parseRepository_valid name repo : parseRepository name = Ok repo →
  RepositoryRef_Validate repo = Ok tt ∧ valid_repository (ref_Name repo) = true.
Proof.
  intros Hp; assert (valid_repository (ref_Name repo) = true) as Hv
    by (by apply parsed_ref_valid in Hp as [-> Hv]).
  split; [by apply RepositoryRef_Validate_ok|done].
Qed.

(** [SaveUpload] of a state the handler holds. *)
Lemma wp_SaveUpload {A} st (k : unit → M W A) (Q : res A → W → Prop) w0 w :
  after w0 w → GoodID (up_ID st) → UploadState_Validate st = Ok tt →
  (∀ w', after w0 w' → reg_view w' = save_upload (tenant svc) st (reg_view w) → wp (k tt) Q w') →
  (∀ e w', after w0 w' → ¬ reg_calm w0 → Q (Err e) w') →
  wp (sbind (SaveUpload (tenant svc) st) k) Q w.
Proof.
  intros Ha Hid Hv Hk He; apply wp_sbind; eapply wp_op; [apply SaveUpload_ok|done| |].
  - unfold spec_save_upload; rewrite Hv; intros r R' [[_ ->]|[-> _]]; [right|by left]; by apply st_track.
  - unfold spec_save_upload; rewrite Hv; intros r w' Ha' [[-> Hw]|[[Hw [e ->]] Hc]]; [by apply Hk|by apply He].
Qed.

Lemma BeginUpload_serves name :
  serves svc ctx (BeginUpload svc ctx name) (spec_BeginUpload svc ctx name).
Proof.
  intros w0 Hg; apply wp_given; [by apply after_refl|done|]; intros repo Hp.
  destruct (parseRepository_valid name repo Hp) as [Hv Hn].
  apply wp_given; [by apply after_refl|done|]; intros [] Hauth.
  apply wp_sbind; eapply wp_op; [eapply reg_ok_guard; [apply BeginUpload_ok|done]|by apply after_refl| |].
  - intros r R' [[(id & now & st & Hid & Hfr & Hb & _ & ->)|[_ [-> _]]]|[_ [->|(id & s & Hid & Hfr & Hd & Hs & ->)]]];
      try (by left); right; apply (st_begin svc ctx _ repo id); try done.
    intros st' [= <-]; apply Hb.
  - intros r w' Ha [[(id & now & st & Hid & Hfr & Hb & -> & Hw)|[Hcol Hu]]|[Hsl Hc]].
    + pose proof Hb as (<- & _ & _ & _ & _ & _ & Hval).
      eapply wp_SaveUpload; [done..| |]; [|by intros e w1 Ha1 Hc1].
      intros w1 Ha1 Hw1; apply wp_sret; split; [done|]; intros _; left; rewrite Hw1, Hw; by eexists _, now, st.
    + destruct Hu as [Hw [e ->]]; split; [done|]; intros _; right; split; [done|]; split; [done|by eexists].
    + destruct Hsl as [[e ->] _]; by split.
Qed.

(** [ensureUpload] and the authorisation that follows it. *)
Lemma wp_at_upload {A} name id (k : UploadState → M W A) spec w0 :
  good w0 →
  (∀ u w, after w0 w → reg_view w = reg_view w0 → GoodID id → rg_uploads (reg_view w0) !! id = Some (tenant svc, u) →
     may_upload svc ctx (reg_view w0) id → wp (k u) (served w0 (spec u)) w) →
  wp (let! state := ensureUpload svc name id in
      do! slift (authorize svc ctx (mkAction ActionPush (ref_String (up_Repository state)) None)) in k state)
    (served w0 (at_upload svc ctx name id spec)) w0.
Proof.
  intros Hg Hk; unfold at_upload.
  apply wp_assoc; apply wp_given; [by apply after_refl|done|]; intros repo Hp; apply wp_assoc.
  eapply wp_reads; [apply GetUpload_ok|by apply after_refl|done| |].
  - cbn beta; intros u w Ha Hv Hu; destruct (rg_uploads (reg_view w0) !! id) as [[t st]|] eqn:Hrow; [|done].
    destruct (String.eqb_spec t (tenant svc)) as [->|]; [|done]; injection Hu as ->; simpl.
    destruct (String.eqb_spec (ref_String (up_Repository st)) (ref_String repo)); simpl.
    2: { apply wp_sbind, wp_sthrow; split; [done|]; rewrite Hv, Hrow, String.eqb_refl; simpl.
         by rewrite (proj2 (String.eqb_neq _ _)). }
    destruct (inv_upload _ (proj2 Hg) _ _ _ Hrow) as [Hid _].
    apply wp_sbind, wp_sret, wp_sbind, wp_slift.
    destruct (authorize svc ctx _) as [[]|err] eqn:Hauth.
    + eapply wp_conseq; [apply Hk; try done; split; [by exists st|by eexists]|]; intros r w' [Ha' Hs]; split; [done|]; intros Hc.
      rewrite Hrow, !String.eqb_refl, (proj2 (String.eqb_eq _ _)) by done; simpl; rewrite Hauth; by apply Hs.
    + split; [done|]; intros Hc.
      rewrite Hrow, !String.eqb_refl, (proj2 (String.eqb_eq _ _)) by done; simpl; by rewrite Hauth, Hv.
  - cbn beta; intros e He; destruct (rg_uploads (reg_view w0) !! id) as [[t st]|]; [|by injection He as ->].
    destruct (String.eqb t (tenant svc)); [done|simpl; by injection He as ->].
Qed.

(** Receiving a chunk makes at most one transition. *)
Lemma put_step id chunk w0 w r R' : after w0 w → may_upload svc ctx (reg_view w) id →
  spec_put id chunk (reg_view w) r R' ∨ slack_put id (reg_view w) r R' →
  R' = reg_view w ∨ reg_step svc ctx (reg_view w) R'.
Proof.
  intros [[_ Hinv] _] Hmay [Hs|[_ [->|(s & s' & Hs & -> & Hst)]]]; [|by left|].
  - unfold spec_put in Hs; destruct (rg_incoming (reg_view w) !! id) as [s|] eqn:Hin; [|left; by destruct Hs].
    right; destruct (inv_session _ Hinv _ _ Hin) as [_ Hn].
    destruct (rd_Err chunk), (ss_State s) as [st|] eqn:Hst;
      [destruct Hs as [_ ->]|destruct Hs as [_ ->]|destruct Hs as (st' & _ & (Hid & _) & ->)|destruct Hs as [_ ->]];
      (eapply st_receive; [done..|]); intros st0 [= <-]; [by apply Hn|rewrite Hid; by apply Hn].
  - right; destruct (inv_session _ Hinv _ _ Hs) as [_ Hn]; eapply st_receive; [done..|].
    intros st' Hst'; destruct (Hst st' Hst') as (st & Hst1 & _ & ->); by apply Hn.
Qed.

Lemma received_fails {A} id chunk (k : UploadState → Registry → res A → Registry → Prop) s R r R' :
  rg_incoming R !! id = Some s → (is_Some (rd_Err chunk) ∨ ss_State s = None) → (∃ e, r = Err e) →
  R' = set_session id (Some (mkSession (String.append (ss_Data s) (rd_Data chunk)) (ss_State s))) R →
  received svc id chunk k R r R'.
Proof.
  intros Hin Hbad He ->; unfold received; rewrite Hin.
  destruct (rd_Err chunk) as [x|]; [done|]; destruct (ss_State s) as [st|]; [|done].
  by destruct Hbad as [[]|].
Qed.

Lemma wp_receive {A} id chunk (k : UploadState → M W A) spec w0 w :
  after w0 w → reg_view w = reg_view w0 → GoodID id → may_upload svc ctx (reg_view w0) id →
  (∀ st w', after w0 w' → may_upload svc ctx (reg_view w') id → wp (k st) (served w' (spec st)) w') →
  wp (let! updated := PutUploadChunk id chunk in do! SaveUpload (tenant svc) updated in k updated)
    (served w0 (received svc id chunk spec)) w.
Proof.
  intros Ha Hv Hid Hmay Hk; apply wp_sbind; eapply wp_op; [by apply PutUploadChunk_ok|done| |].
  { intros r R'; eapply put_step; [done|by rewrite Hv]. }
  intros r w' Ha' Hr; unfold spec_put in Hr; destruct Ha as [[_ Hinv] _].
  destruct (rg_incoming (reg_view w) !! id) as [s|] eqn:Hin.
  2: { destruct Hr as [[-> Hw]|[[[e ->] _] Hc]]; [|by split].
       split; [done|]; intros _; unfold received; rewrite <- Hv, Hin; split; [done|by rewrite Hw]. }
  destruct (inv_session _ Hinv _ _ Hin) as [_ Hn]; destruct Hr as [Hr|[[[e ->] _] Hc]]; [|by split].
  destruct (rd_Err chunk) eqn:Hrd, (ss_State s) as [st|] eqn:Hst;
    try solve [destruct Hr as [[e ->] Hw]; split; [done|]; intros _; apply (received_fails id chunk spec s);
      [by rewrite <- Hv|rewrite Hrd, Hst; auto|by eexists|by rewrite <- Hv, Hst]].
  destruct Hr as (st' & -> & Hcont & Hw); pose proof Hcont as (Hid' & _ & _ & _ & _ & Hval).
  rewrite (Hn st Hst) in Hid'.
  eapply wp_SaveUpload; [done|by rewrite Hid'|done| |]; [|by intros e w1 Ha1 Hc1; split].
  intros w1 Ha1 Hw1; eapply wp_chain; [done| |apply Hk; [done|]].
  2: { destruct Hmay as [[u Hu] Hn']; split; [|done]; exists st'; rewrite Hw1, Hw; simpl; rewrite Hid', lookup_insert_eq.
       by rewrite Hv, Hu. }
  intros r R' Hs; unfold received; rewrite <- Hv, Hin, Hrd, Hst; exists st'; split; [done|].
  by rewrite <- Hw, <- Hw1.
Qed.

Lemma AppendUpload_serves name id content :
  serves svc ctx (AppendUpload svc ctx name id content) (spec_AppendUpload svc ctx name id content).
Proof.
  intros w0 Hg; apply wp_at_upload; [done|]; intros u w Ha Hv Hid Hrow Hmay.
  apply wp_receive; [done..|]; intros st w' Ha' _; apply wp_sret; split; [|by intros _].
  by apply after_refl, Ha'.
Qed.

(** Committing makes at most one transition. *)
Lemma commit_step id d w0 w r R' : after w0 w → may_upload svc ctx (reg_view w) id →
  valid_digest d = true →
  spec_commit id d (reg_view w) r R' ∨ slack_commit id d (reg_view w) r R' →
  R' = reg_view w ∨ reg_step svc ctx (reg_view w) R'.
Proof.
  intros _ Hmay Hd [Hs|[[-> _]|(s & Hin & Hsd & Hs)]]; [|by left|].
  - unfold spec_commit in Hs; rewrite (proj2 (Digest_Validate_ok d tt) Hd) in Hs; simpl in Hs.
    destruct (rg_incoming (reg_view w) !! id) as [s|] eqn:Hin; [|left; by destruct Hs].
    destruct (String.eqb_spec (DigestFromBytes (ss_Data s)) d) as [<-|]; [|left; by destruct Hs].
    destruct Hs as (_ & mtime & ->); right; by apply st_commit.
  - subst d; destruct Hs as [(e & mtime & _ & ->)|(Hb & [[_ ->]|[_ Hl]])]; [right; by apply st_commit|right; by eapply st_commit_known|].
    destruct Hl as [->|[->|(s' & Hs' & ->)]]; [by left|right; by eapply st_commit_known|right; by eapply st_receive].
Qed.

(** The row of a committed upload is dropped. *)
Lemma wp_untrack id repo d s r' w0 w :
  after w0 w → may_upload svc ctx (reg_view w0) id → rg_uploads (reg_view w) = rg_uploads (reg_view w0) →
  (reg_calm w0 → rg_incoming (reg_view w0) !! id = Some s ∧ DigestFromBytes (ss_Data s) = d
     ∧ r' = mkDescriptor "" d (Z.of_nat (String.length (ss_Data s)))
     ∧ ∃ mtime, reg_view w = add_blob d (mkBlobFile (ss_Data s) mtime) (set_session id None (reg_view w0))) →
  wp (do! DeleteUpload (tenant svc) id in sret (newBlobDetails (ref_String repo) r'))
    (served w0 (commit_session id repo d)) w.
Proof.
  intros Ha Hmay Hrows Hcalm; assert (may_upload svc ctx (reg_view w) id) as Hmay'
    by (unfold may_upload; by rewrite Hrows).
  apply wp_sbind; eapply wp_op; [apply DeleteUpload_ok|done| |].
  - intros x R' [[(st & _ & _ & ->)|(_ & _ & ->)]|[-> _]]; [|by left..]; right; by apply st_untrack.
  - intros x w' Ha' [[(st & _ & -> & Hw)|(Hno & _)]|[[_ [e ->]] Hc]]; [|by destruct Hmay' as [[u Hu] _], (Hno u)|by split].
    apply wp_sret; split; [done|]; intros Hc; destruct (Hcalm Hc) as (Hin & Heq & -> & mtime & Hw1).
    unfold commit_session; rewrite Hin; simpl; rewrite (proj2 (String.eqb_eq _ _) Heq); split; [done|].
    exists mtime; by rewrite Hw, Hw1.
Qed.

Lemma wp_commit id repo expected w0 :
  good w0 → GoodID id → may_upload svc ctx (reg_view w0) id →
  wp (let! digest := slift (ParseDigest expected) in
      let! descriptor := CommitUpload id digest in
      do! DeleteUpload (tenant svc) id in
      sret (newBlobDetails (ref_String repo) descriptor))
    (served w0 (committed id repo expected)) w0.
Proof.
  intros Hg Hid Hmay; apply wp_given; [by apply after_refl|done|]; intros d Hd.
  assert (valid_digest d = true) as Hv by (pose proof Hd as [-> _]%ParseDigest_ok; by apply valid_digest_spec).
  apply wp_sbind; eapply wp_op; [by apply CommitUpload_ok|by apply after_refl| |].
  { intros r R'; eapply commit_step; [by apply after_refl|done..]. }
  intros r w Ha Hr; unfold spec_commit in Hr; rewrite (proj2 (Digest_Validate_ok d tt) Hv) in Hr; simpl in Hr.
  destruct Hr as [Hr|[[[Hw [e ->]]|(s & Hin & Heq & [(e & mtime & -> & _)|(_ & [[-> Hw]|[[e ->] _]])])] Hc]];
    [|by split|by split|by eapply (wp_untrack id repo d s); [..|rewrite Hw|]|by split].
  destruct (rg_incoming (reg_view w0) !! id) as [s|] eqn:Hin.
  2: { destruct Hr as [-> Hw]; split; [done|]; intros _; unfold commit_session; by rewrite Hin. }
  destruct (String.eqb_spec (DigestFromBytes (ss_Data s)) d) as [Heq|Hne].
  - destruct Hr as (-> & mtime & Hw); apply (wp_untrack id repo d s); [done..|by rewrite Hw|].
    intros _; split_and!; try done; by exists mtime.
  - destruct Hr as [-> Hw]; split; [done|]; intros _; unfold commit_session; rewrite Hin; simpl.
    by rewrite (proj2 (String.eqb_neq _ _) Hne).
Qed.

Lemma CompleteUpload_serves name id expected finalChunk :
  serves svc ctx (CompleteUpload svc ctx name id expected finalChunk)
    (spec_CompleteUpload svc ctx name id expected finalChunk).
Proof.
  intros w0 Hg; apply wp_at_upload; [done|]; intros u w Ha Hv Hid Hrow Hmay.
  destruct finalChunk as [chunk|].
  - apply wp_assoc; apply wp_receive; [done..|]; intros st w' Ha' Hmay'; apply wp_commit; [apply Ha'|done..].
  - apply wp_sbind, wp_sret; eapply wp_chain; [done| |apply wp_commit; [apply Ha|done|by rewrite Hv]].
    intros r R'; by rewrite Hv.
Qed.

Lemma UploadStatus_serves name id :
  serves svc ctx (UploadStatus svc ctx name id) (spec_UploadStatus svc ctx name id).
Proof.
  intros w0 Hg; apply wp_at_upload; [done|]; intros u w Ha Hv Hid Hrow Hmay.
  apply wp_sbind; eapply wp_read; [by apply blob_GetUpload_ok|done|]; intros r w' Ha' Hv' Hr; rewrite Hv in *.
  destruct (session_state (reg_view w0) id) as [[data st]|] eqn:Hss.
  - destruct Hr as [(st' & -> & Hcont)|[[e ->] Hc]]; [|by split].
    pose proof Hcont as (Hid' & _ & _ & _ & _ & Hval).
    assert (up_ID st = id) as Hst.
    { unfold session_state in Hss; apply bind_Some in Hss as (s & Hin & (x & Hx & [= _ ->])%bind_Some).
      by destruct (inv_session _ (proj2 Hg) _ _ Hin) as [_ Hn]; apply Hn. }
    eapply wp_SaveUpload; [done|by rewrite Hid', Hst|done| |]; [|by intros e w1 Ha1 Hc1; split].
    intros w1 Ha1 Hw1; apply wp_sret; split; [done|]; intros _; rewrite Hss; exists st'; split_and!; try done.
    by rewrite Hw1, Hv'.
  - assert (∃ e, r = Err e) as [e ->] by (destruct Hr as [[e ->]|[[e ->] _]]; by eexists).
    split; [done|]; intros _; rewrite Hss, Hv'; split; [by eexists|done].
Qed.

Lemma Uploads_serves name : serves svc ctx (Uploads svc ctx name) (spec_Uploads svc ctx name).
Proof.
  intros w0 Hg; unfold Uploads, spec_Uploads.
  assert (∀ repo w, after w0 w → reg_view w = reg_view w0 →
    wp (let! uploads := ListUploads (tenant svc) repo in sret (map newUploadDetails uploads))
      (served w0 (λ R (r : res (list UploadDetails)) R', R' = R ∧ ∃ l, r = Ok (map newUploadDetails l)
        ∧ ∀ st, st ∈ l ↔ rg_uploads R !! up_ID st = Some (tenant svc, st)
            ∧ match repo with Some x => up_Repository st = x | None => True end)) w) as Hlist.
  { intros repo w Ha Hv; eapply wp_reads_ret; [apply ListUploads_ok|done..| |by intros e (l & ? & _)].
    intros l (l' & [= ->] & Hl); split; [done|]; by exists l'. }
  destruct (String.eqb_spec name "") as [->|Hne]; simpl.
  - apply wp_assoc, wp_given; [by apply after_refl|done|]; intros [] _.
    apply wp_sbind, wp_sret, Hlist; [by apply after_refl|done].
  - apply wp_assoc, wp_given; [by apply after_refl|done|]; intros repo Hp.
    apply wp_assoc, wp_given; [by apply after_refl|done|]; intros [] _.
    apply wp_sbind, wp_sret, Hlist; [by apply after_refl|done].
Qed.
End Uploads.
