(* ===== verification/RegManifests.v ===== *)
(** What the manifest, tag, blob and listing requests do to the registry: the
    specification of each and the proof that the handler meets it. *)
From S2P Require Import Prelude GoStrings Errors Repository Digest GoNumbers Manifest Scope Auth Access.
From S2P Require Import RegPorts Registry RegService Gc RegSteps RegUploads.

#[local] Opaque DigestFromBytes.

(** * Specifications *)

Section Specs.
Context `{ManifestCodec}.
Variables (svc : RegConfig) (ctx : option Principal).

(** The manifest as it is stored: the pusher is the principal of the request. *)
Definition pushed (m : Manifest) : Manifest :=
  match ctx with Some p => with_pushed_by m (p_UserID p) | None => m end.

Definition blob_missing (R : Registry) (b : Descriptor) : bool := negb (bool_decide (is_Some (rg_blobs R !! desc_Digest b))).
Definition subject_missing (R : Registry) (repo : RepositoryRef) (m : Manifest) : option Descriptor :=
  mf_Subject m ≫= λ s,
  match rg_manifests R !! (tenant svc, ref_Name repo, desc_Digest s) with Some _ => None | None => Some s end.

Definition missing_blob_error (b : Descriptor) : error :=
  NewConflictError [Lit "manifest references missing blob "; Lit (desc_Digest b)].
Definition missing_subject_error (repo : RepositoryRef) (s : Descriptor) : error :=
  NewConflictError [Lit "manifest subject "; Lit (desc_Digest s); Lit " was not found in "; Lit (ref_String repo)].

(** A push of a plain image starts a scan. *)
Definition with_scan (repo : RepositoryRef) (reference tag : string) (m : Manifest) (R : Registry) : Registry :=
  if isReferrerArtifactPush m tag then R
  else put_scans (rg_scans R ++ [mkPushScan (tenant svc) (ref_String repo) reference (mf_Digest m)]) R.

Definition publishes (repo : RepositoryRef) (reference : string) (m : Manifest) (tag : string)
    (R : Registry) (r : res ManifestDetails) (R' : Registry) : Prop :=
  match List.find (blob_missing R) (BlobReferences m), subject_missing R repo m with
  | Some b, _ => fails (missing_blob_error b) R r R'
  | None, Some s => fails (missing_subject_error repo s) R r R'
  | None, None =>
      r = Ok (newManifestDetails (ref_String repo) reference m (BlobReferences m))
      ∧ ∃ now, R' = with_scan repo reference tag m (publish (tenant svc) repo tag m (BlobReferences m) now R)
  end.

Definition spec_PublishManifest (name reference mediaType payload : string) :=
  given (parseRepository name) (λ repo,
  given (authorize svc ctx (mkAction ActionPush (ref_String repo) None)) (λ _,
  given (parseManifestPayload reference mediaType payload) (λ parsed,
    publishes repo reference (pushed parsed.1) parsed.2))).

Definition spec_ResolveManifest (name reference : string) :=
  given (parseRepository name) (λ repo,
  given (authorize svc ctx (mkAction ActionPull (ref_String repo) None)) (λ _,
    reads (λ R r, r = match resolve R (tenant svc) (ref_Name repo) reference with
      | Some e => Ok (newManifestDetails (ref_String repo) reference (entry_manifest e) (en_Blobs e))
      | None => Err (NewNotFoundError "manifest" reference)
      end))).
End Specs.

Section Specs.
Variables (svc : RegConfig) (ctx : option Principal).

Definition spec_DeleteManifest (name reference : string) :=
  given (parseRepository name) (λ repo,
  given (authorize svc ctx (mkAction ActionDelete (ref_String repo) None)) (λ _,
  given (rguard (deleteEnabled svc) (NewValidationError "manifest deletion is not enabled")) (λ _ R (r : res DeletionDetails) R',
    let t := tenant svc in let n := ref_Name repo in
    if valid_digest reference
    then match rg_manifests R !! (t, n, reference) with
         | Some _ => R' = remove_manifest t n reference R ∧ ∃ tags,
             r = Ok (newDeletionDetailsForDigest n reference reference tags)
             ∧ StronglySorted str_le tags ∧ NoDup tags ∧ ∀ g, g ∈ tags ↔ rg_tags R !! (t, n, g) = Some reference
         | None => fails (NewNotFoundError "manifest" reference) R r R'
         end
    else match rg_tags R !! (t, n, reference) with
         | Some _ => r = Ok (newDeletionDetailsForTag n reference) ∧ R' = remove_tag t n reference R
         | None => fails (NewNotFoundError "tag" reference) R r R'
         end))).

Definition spec_DeleteRepository (name : string) :=
  given (parseRepository name) (λ repo,
  given (authorizeDeleteRepository svc ctx (ref_String repo)) (λ _,
  given (rguard (deleteEnabled svc) (NewValidationError "repository deletion is not enabled")) (λ _ R (r : res RepositoryDeletionDetails) R',
    let t := tenant svc in let n := ref_Name repo in
    if decide ((t, n) ∈ rg_repos R)
    then R' = remove_repository t n R ∧ ∃ tags,
           r = Ok (mkRepositoryDeletionDetails n (Z.of_nat (size (filter (λ kv, kv.1.1 = (t, n)) (rg_manifests R)))) tags)
           ∧ StronglySorted str_le tags ∧ NoDup tags ∧ ∀ g, g ∈ tags ↔ is_Some (rg_tags R !! (t, n, g))
    else fails (NewNotFoundError "repository" n) R r R'))).

Definition visible (n : string) : bool := match ctx with Some p => HasCatalogAccess p n | None => true end.

Definition spec_Catalog (limit : Z) (after : string) :=
  given (authorize svc ctx (mkAction ActionCatalog "" None)) (λ _, reads (λ R (r : res (list string)),
    ∃ l, r = Ok (filter (λ n, visible n = true) l) ∧ paged id limit after (λ n, (tenant svc, n) ∈ rg_repos R) l)).

Definition spec_RepositorySummaries (limit : Z) (after : string) :=
  given (authorize svc ctx (mkAction ActionCatalog "" None)) (λ _, reads (λ R (r : res (list RepositorySummary)),
    ∃ l, r = Ok (filter (λ s, visible (rs_Name s) = true) l) ∧ Forall (repository_summary R (tenant svc)) l
      ∧ paged id limit after (λ n, (tenant svc, n) ∈ rg_repos R) (map rs_Name l))).

Definition spec_Tags (name : string) (limit : Z) (after : string) :=
  given (parseRepository name) (λ repo,
  given (authorize svc ctx (mkAction ActionInspect (ref_String repo) None)) (λ _,
    reads (λ R (r : res (string * list string)), ∃ l, r = Ok (ref_String repo, l)
      ∧ paged id limit after (λ g, is_Some (rg_tags R !! (tenant svc, ref_Name repo, g))) l))).

Definition referrer_of (R : Registry) (repo : RepositoryRef) (subject : Digest) (x : ReferrerRow) : Prop :=
  ∃ e, rg_manifests R !! (tenant svc, ref_Name repo, rf_Digest x) = Some e ∧ en_Subject e = subject
    ∧ x = mkReferrerRow (rf_Digest x) (en_MediaType e) (Z.of_nat (String.length (en_Payload e))) (en_Payload e).

Definition spec_Referrers `{ManifestCodec} (name subject artifactType : string) :=
  given (parseRepository name) (λ repo,
  given (authorize svc ctx (mkAction ActionInspect (ref_String repo) None)) (λ _,
  given (ParseDigest subject) (λ d, reads (λ R r,
    ∃ rows, StronglySorted (key_le rf_Digest) rows ∧ NoDup rows ∧ (∀ x, x ∈ rows ↔ referrer_of R repo d x)
      ∧ r = referrer_descriptors (trim_space artifactType) rows)))).

(** The bytes and the details of a blob. *)
Definition spec_OpenBlob (name digest : string) :=
  given (ParseDigest digest) (λ d,
  given (authorize svc ctx (mkAction ActionPull name None)) (λ _, reads (λ R (r : res (string * BlobDetails)),
    r = match rg_blobs R !! d with
        | Some f => Ok (bf_Content f,
            newBlobDetails name (mkDescriptor "" d (Z.of_nat (String.length (bf_Content f)))))
        | None => Err (NewNotFoundError "blob" d)
        end))).
Definition spec_InspectBlob (name digest : string) :=
  given (ParseDigest digest) (λ d,
  given (authorize svc ctx (mkAction ActionPull name None)) (λ _, reads (λ R (r : res BlobDetails),
    r = match rg_blobs R !! d with
        | Some f => Ok (newBlobDetails name (mkDescriptor "" d (Z.of_nat (String.length (bf_Content f)))))
        | None => Err (NewNotFoundError "blob" d)
        end))).
End Specs.

(** * Parsed manifests *)

Lemma toDescriptor_valid r d : toDescriptor r = Ok d → Descriptor_Validate d = Ok tt.
Proof.
  unfold toDescriptor; rewrite rbind_ok; intros (x & _ & Hd); apply rbind_ok in Hd as ([] & Hv & [= <-]); done.
Qed.

Lemma parseManifestPayload_ok `{ManifestCodec} reference mediaType payload m tag :
  parseManifestPayload reference mediaType payload = Ok (m, tag) →
  Manifest_Validate m = Ok tt ∧ mf_Payload m = payload
  ∧ (tag = "" ∧ trim_space reference = mf_Digest m
     ∨ tag = trim_space reference ∧ tag ≠ "" ∧ valid_digest tag = false).
Proof.
  unfold parseManifestPayload; destruct (String.eqb_spec (trim_space reference) ""); [done|].
  destruct (unmarshal_envelope payload) as [env|]; [|done]; rewrite rbind_ok; intros (c & _ & Hp).
  apply rbind_ok in Hp as (ls & _ & Hp); apply rbind_ok in Hp as (s & _ & Hp); apply rbind_ok in Hp as (m0 & Hm & Hp).
  pose proof (NewManifest_Validate _ _ _ _ _ _ _ _ Hm) as Hv; apply NewManifest_ok in Hm as (_ & _ & _ & _ & Hm0).
  destruct (ParseDigest (trim_space reference)) as [d|e] eqn:Hd.
  - pose proof Hd as [-> _]%ParseDigest_ok.
    destruct (String.eqb_spec (trim_space reference) (mf_Digest m0)) as [Heq|]; simpl in Hp; [|done].
    injection Hp as <- <-; rewrite Hm0; simpl; split_and!; [by rewrite <- Hm0|done|left; split; [done|]].
    by rewrite Heq, Hm0.
  - injection Hp as <- <-; split_and!; [done|by rewrite Hm0|right]; split_and!; try done.
    unfold valid_digest; by rewrite Hd.
Qed.

Lemma pushed_Validate ctx m : Manifest_Validate (pushed ctx m) = Manifest_Validate m.
Proof. unfold pushed; by destruct ctx. Qed.
Lemma pushed_by ctx m p : ctx = Some p → mf_PushedBy (pushed ctx m) = p_UserID p.
Proof. by intros ->. Qed.

(** * The handlers meet them *)

Section Manifests.
Context {W : Type} `{ManifestCodec, RegistryLaws W}.
Variables (svc : RegConfig) (ctx : option Principal).
Notation after := (after svc ctx).
Notation served := (served svc ctx).

(** ** Publish *)

Lemma wp_blobs_exist bs (Q : res (list unit) → W → Prop) w0 w :
  after w0 w → reg_view w = reg_view w0 → Forall (λ b, Descriptor_Validate b = Ok tt) bs →
  (∀ us w', after w0 w' → reg_view w' = reg_view w0 →
     List.find (blob_missing (reg_view w0)) bs = None → Q (Ok us) w') →
  (∀ e w', after w0 w' → reg_view w' = reg_view w0 →
     ((∃ b, List.find (blob_missing (reg_view w0)) bs = Some b ∧ e = missing_blob_error b) ∨ ¬ reg_calm w0) →
     Q (Err e) w') →
  wp (smap (λ d, let! exists_ := BlobExists (desc_Digest d) in
                 if exists_ then sret tt else
                 sthrow (NewConflictError [Lit "manifest references missing blob "; Lit (desc_Digest d)])) bs) Q w.
Proof.
  revert w Q; induction bs as [|b bs IH]; intros w Q Ha Hv Hbs HQ He; simpl; [by apply HQ|].
  apply Forall_cons in Hbs as [Hb Hbs]; apply wp_sbind, wp_sbind.
  apply Descriptor_Validate_ok in Hb as [Hd _].
  eapply wp_read; [eapply reg_ok_guard; [apply BlobExists_ok|by apply (Digest_Validate_ok _ tt)]|done|].
  intros r w1 Ha1 Hv1 Hr; rewrite Hv in *; simpl in HQ, He.
  destruct Hr as [->|[[e ->] Hc]]; [|by apply He; [..|right]].
  unfold blob_missing in HQ at 1; unfold blob_missing in He at 1.
  destruct (bool_decide (is_Some (rg_blobs (reg_view w0) !! desc_Digest b))); simpl in *.
  - apply wp_sret, wp_sbind, IH; [done..| |].
    + intros us w2 Ha2 Hv2 Hf; by apply wp_sret, HQ.
    + intros e w2 Ha2 Hv2 Hf; by apply He.
  - apply wp_sthrow, He; [done..|left]; by exists b.
Qed.

(** Every referenced blob is there. *)
Lemma wp_requireBlobs {A} bs (k : unit → M W A) spec w0 w :
  after w0 w → reg_view w = reg_view w0 → Forall (λ b, Descriptor_Validate b = Ok tt) bs →
  (∀ w', after w0 w' → reg_view w' = reg_view w0 → List.find (blob_missing (reg_view w0)) bs = None →
     wp (k tt) (served w0 spec) w') →
  (∀ b, List.find (blob_missing (reg_view w0)) bs = Some b →
     spec (reg_view w0) (Err (missing_blob_error b)) (reg_view w0)) →
  wp (sbind (requireBlobs bs) k) (served w0 spec) w.
Proof.
  intros Ha Hv Hbs Hk He; apply wp_sbind; unfold requireBlobs; apply wp_sbind; eapply wp_blobs_exist; [done..| |].
  - intros us w' Ha' Hv' Hf; by apply wp_sret, Hk.
  - intros e w' Ha' Hv' [(b & Hf & ->)|Hc]; split; try done; intros _; rewrite Hv'; by apply He.
Qed.

(** The subject is there. *)
Lemma wp_requireSubject {A} repo m (k : unit → M W A) spec w0 w :
  after w0 w → reg_view w = reg_view w0 → RepositoryRef_Validate repo = Ok tt → validate_optional (mf_Subject m) = Ok tt →
  (∀ w', after w0 w' → reg_view w' = reg_view w0 → subject_missing svc (reg_view w0) repo m = None →
     wp (k tt) (served w0 spec) w') →
  (∀ s, subject_missing svc (reg_view w0) repo m = Some s →
     spec (reg_view w0) (Err (missing_subject_error repo s)) (reg_view w0)) →
  wp (sbind (requireSubject svc repo (mf_Subject m)) k) (served w0 spec) w.
Proof.
  intros Ha Hv Hrepo Hs Hk He; apply wp_sbind; unfold requireSubject, subject_missing in *.
  destruct (mf_Subject m) as [s|]; simpl in *; [|by apply wp_sret, Hk].
  apply Descriptor_Validate_ok in Hs as [Hd _].
  apply wp_sbind, wp_sattempt; eapply wp_read; [eapply reg_ok_guard; [apply ResolveManifest_ok|done]|done|].
  intros r w1 Ha1 Hv1 Hr; rewrite Hv in *; unfold resolve in Hr; rewrite Hd in Hr.
  destruct (rg_manifests (reg_view w0) !! (tenant svc, ref_Name repo, desc_Digest s)) as [e|].
  - destruct Hr as [->|[[x ->] Hc]]; [by apply wp_sret, Hk|]; by split.
  - destruct Hr as [->|[[x ->] Hc]]; simpl.
    + apply wp_sthrow; split; [done|]; intros _; rewrite Hv1; by apply He.
    + by split.
Qed.

Lemma find_missing_None R bs b : List.find (blob_missing R) bs = None → b ∈ bs → is_Some (rg_blobs R !! desc_Digest b).
Proof.
  intros Hf Hb%list_elem_of_In; pose proof (find_none _ _ Hf b Hb) as Hm; unfold blob_missing in Hm.
  by apply negb_false_iff, bool_decide_eq_true in Hm.
Qed.

(** The manifest is stored, and its scan started. *)
Lemma wp_publish repo reference tag m w0 w :
  after w0 w → reg_view w = reg_view w0 → valid_repository (ref_Name repo) = true →
  RepositoryRef_Validate repo = Ok tt → allowed svc ctx ActionPush (ref_Name repo) →
  Manifest_Validate m = Ok tt → (∀ p, ctx = Some p → mf_PushedBy m = p_UserID p) →
  List.find (blob_missing (reg_view w0)) (BlobReferences m) = None → subject_missing svc (reg_view w0) repo m = None →
  wp (do! meta_PublishManifest (tenant svc) repo tag m (BlobReferences m) in
      do! (if isReferrerArtifactPush m tag then sret tt
           else reg_spawn_scan (mkPushScan (tenant svc) (ref_String repo) reference (mf_Digest m))) in
      sret (newManifestDetails (ref_String repo) reference m (BlobReferences m)))
    (served w0 (publishes svc repo reference m tag)) w.
Proof.
  intros Ha Hv Hn Hr Hauth Hm Hby Hblobs Hsub.
  destruct (Manifest_Validate_ok m tt Hm) as (_ & _ & _ & _ & Hrefs).
  assert (∀ (r : res unit) R', r = Ok tt ∧ (∃ now, R' = publish (tenant svc) repo tag m (BlobReferences m) now (reg_view w)) →
    reg_step svc ctx (reg_view w) R') as Hstep.
  { intros r R' [_ [now ->]]; apply st_publish; try done; rewrite Hv.
    - intros b; by apply find_missing_None.
    - intros s Hs; unfold subject_missing in Hsub; rewrite Hs in Hsub; simpl in Hsub.
      destruct (rg_manifests _ !! _); [by eexists|done]. }
  assert ((do? RepositoryRef_Validate repo in do? Manifest_Validate m in validate_layers (BlobReferences m)) = Ok tt)
    as Hguard by (rewrite Hr, Hm; simpl; by apply validate_layers_ok).
  apply wp_sbind; eapply wp_op; [eapply reg_ok_guard; [apply PublishManifest_ok|exact Hguard]|done| |].
  { intros r R' [Hp|[-> _]]; [right; by eapply Hstep|by left]. }
  intros r w1 Ha1 [[-> [now Hw1]]|[[_ [e ->]] Hc]]; [|by split].
  assert (∀ w2, after w0 w2 → (reg_calm w0 → reg_view w2 = with_scan svc repo reference tag m (reg_view w1)) →
    served w0 (publishes svc repo reference m tag) (Ok (newManifestDetails (ref_String repo) reference m (BlobReferences m))) w2)
    as Hdone.
  { intros w2 Ha2 Hw2; split; [done|]; intros Hc; unfold publishes; rewrite Hblobs, Hsub; split; [done|].
    exists now; by rewrite (Hw2 Hc), Hw1, Hv. }
  apply wp_sbind; unfold with_scan in Hdone; destruct (isReferrerArtifactPush m tag).
  - by apply wp_sret, wp_sret, Hdone.
  - eapply wp_op; [apply reg_spawn_scan_ok|done| |].
    + intros r R' [[_ ->]|[-> _]]; [right; apply st_scan|by left].
    + intros r w2 Ha2 [[-> Hw2]|[[_ [e ->]] Hc]]; [|by split]; by apply wp_sret, Hdone.
Qed.

Lemma PublishManifest_serves name reference mediaType payload :
  serves svc ctx (PublishManifest svc ctx name reference mediaType payload)
    (spec_PublishManifest svc ctx name reference mediaType payload).
Proof.
  intros w0 Hg; apply wp_given; [by apply after_refl|done|]; intros repo Hp.
  destruct (parseRepository_valid name repo Hp) as [Hr Hn].
  apply wp_given; [by apply after_refl|done|]; intros [] Hauth.
  apply wp_given; [by apply after_refl|done|]; intros [m0 tag] Hparse.
  destruct (parseManifestPayload_ok _ _ _ _ _ Hparse) as (Hm0 & _ & _).
  fold (pushed ctx m0); simpl; set (m := pushed ctx m0).
  assert (Manifest_Validate m = Ok tt) as Hm by (unfold m; by rewrite pushed_Validate).
  destruct (Manifest_Validate_ok m tt Hm) as (_ & _ & _ & Hsub & Hrefs).
  apply wp_requireBlobs; [by apply after_refl|done..| |].
  2: { intros b Hb; unfold publishes; rewrite Hb; by split. }
  intros w1 Ha1 Hv1 Hblobs; apply wp_requireSubject; [done..| |].
  2: { intros s Hs; unfold publishes; rewrite Hblobs, Hs; by split. }
  intros w2 Ha2 Hv2 Hs; apply wp_publish; try done; intros p Hctx; by apply pushed_by.
Qed.

(** ** Resolve *)

Lemma resolve_key R t n reference e : reg_inv R → resolve R t n reference = Some e →
  rg_manifests R !! (t, n, DigestFromBytes (en_Payload e)) = Some e.
Proof.
  intros HR; unfold resolve; destruct (valid_digest reference).
  - intros He; by destruct (inv_manifest R HR _ _ _ _ He) as [<- _].
  - intros (d & _ & He)%bind_Some; by destruct (inv_manifest R HR _ _ _ _ He) as [<- _].
Qed.

Lemma ResolveManifest_serves name reference :
  serves svc ctx (ResolveManifest svc ctx name reference) (spec_ResolveManifest svc ctx name reference).
Proof.
  intros w0 Hg; apply wp_given; [by apply after_refl|done|]; intros repo Hp.
  destruct (parseRepository_valid name repo Hp) as [Hr Hn].
  apply wp_given; [by apply after_refl|done|]; intros [] Hauth.
  eapply wp_reads; [eapply reg_ok_guard; [apply ResolveManifest_ok|done]|by apply after_refl|done| |]; cbn beta.
  - intros m w Ha Hv Hm; destruct (resolve (reg_view w0) _ _ reference) as [e|] eqn:He; [|done]; injection Hm as ->.
    pose proof (resolve_key _ _ _ _ _ (proj2 Hg) He) as Hkey.
    eapply wp_reads_ret; [eapply reg_ok_guard; [apply ListManifestBlobs_ok|]|done..| |].
    + rewrite Hr; simpl; by apply (Digest_Validate_ok _ tt), DigestFromBytes_valid.
    + intros bs Hbs; split; [done|]; rewrite He; simpl in Hbs; rewrite Hkey in Hbs; by injection Hbs as ->.
    + intros x Hx; simpl in Hx; by rewrite Hkey in Hx.
  - intros x Hx; split; [done|]; destruct (resolve (reg_view w0) _ _ reference); [done|]; by injection Hx as ->.
Qed.

(** ** Deletion *)

Lemma wp_rguard {A} (b : bool) (e : error) (m : M W A) spec w0 w :
  after w0 w → reg_view w = reg_view w0 → (b = true → wp m (served w0 (spec tt)) w) →
  wp (if negb b then sthrow e else m) (served w0 (given (rguard b e) spec)) w.
Proof.
  intros Ha Hv Hm; destruct b; simpl; [by apply Hm|]; apply wp_sthrow; split; [done|]; intros _; by rewrite Hv.
Qed.

Lemma DeleteManifest_serves name reference :
  serves svc ctx (DeleteManifest svc ctx name reference) (spec_DeleteManifest svc ctx name reference).
Proof.
  intros w0 Hg; apply wp_given; [by apply after_refl|done|]; intros repo Hp.
  destruct (parseRepository_valid name repo Hp) as [Hr Hn].
  apply wp_given; [by apply after_refl|done|]; intros [] Hauth.
  apply wp_rguard; [by apply after_refl|done|]; intros Hen; cbn zeta.
  destruct (ParseDigest reference) as [d|e] eqn:Hd.
  - pose proof Hd as [-> _]%ParseDigest_ok; assert (valid_digest reference = true) as Hv by by apply valid_digest_spec.
    rewrite Hv; apply wp_sbind; eapply wp_op; [eapply reg_ok_guard; [apply DeleteManifestByDigest_ok|]|by apply after_refl| |].
    + rewrite Hr; simpl; by apply (Digest_Validate_ok _ tt).
    + intros r R' [[(Hm & -> & _)|(_ & _ & ->)]|[-> _]]; [right; by apply st_delete_manifest|by left..].
    + intros r w Ha [[(Hm & Hw & tags & -> & Htags)|(Hm & -> & Hw)]|[[_ [x ->]] Hc]]; [| |by split].
      * apply wp_sret; split; [done|]; intros _; destruct Hm as [m Hm]; rewrite Hm; split; [done|]; by exists tags.
      * split; [done|]; intros _; by rewrite Hm.
  - assert (valid_digest reference = false) as Hv by (unfold valid_digest; by rewrite Hd).
    rewrite Hv; apply wp_sbind; eapply wp_op; [eapply reg_ok_guard; [apply DeleteTag_ok|done]|by apply after_refl| |].
    + intros r R' [[(Hm & _ & ->)|(_ & _ & ->)]|[-> _]]; [right; by apply st_delete_tag|by left..].
    + intros r w Ha [[(Hm & -> & Hw)|(Hm & -> & Hw)]|[[_ [x ->]] Hc]]; [| |by split].
      * apply wp_sret; split; [done|]; intros _; destruct Hm as [m Hm]; by rewrite Hm.
      * split; [done|]; intros _; by rewrite Hm.
Qed.

Lemma DeleteRepository_serves name :
  serves svc ctx (DeleteRepository svc ctx name) (spec_DeleteRepository svc ctx name).
Proof.
  intros w0 Hg; apply wp_given; [by apply after_refl|done|]; intros repo Hp.
  destruct (parseRepository_valid name repo Hp) as [Hr Hn].
  apply wp_given; [by apply after_refl|done|]; intros [] Hauth.
  apply wp_rguard; [by apply after_refl|done|]; intros Hen; cbn zeta.
  apply wp_sbind; eapply wp_op; [eapply reg_ok_guard; [apply DeleteRepository_ok|done]|by apply after_refl| |].
  - intros r R' [[(Hm & -> & _)|(_ & _ & ->)]|[-> _]]; [right; by apply st_delete_repository|by left..].
  - intros r w Ha [[(Hm & Hw & tags & -> & Htags)|(Hm & -> & Hw)]|[[_ [x ->]] Hc]]; [| |by split].
    + apply wp_sret; split; [done|]; intros _; rewrite decide_True by done; split; [done|]; by exists tags.
    + split; [done|]; intros _; by rewrite decide_False.
Qed.

(** ** Listings *)

Lemma Catalog_serves limit start : serves svc ctx (Catalog svc ctx limit start) (spec_Catalog svc ctx limit start).
Proof.
  intros w0 Hg; apply wp_given; [by apply after_refl|done|]; intros [] Hauth.
  eapply wp_reads_ret; [apply Catalog_ok|by apply after_refl|done| |by intros e (l & ? & _)].
  intros l (l' & [= <-] & full & Hs & Hnd & Hfull & Hl); split; [done|]; exists (map ref_String l); split; [done|].
  exists (map ref_String full); split_and!.
  - clear -Hs; induction Hs as [|x l Hs IH Hx]; simpl; constructor; [done|]; by apply Forall_fmap.
  - apply NoDup_fmap_2; [|done]; by intros [x] [y] [= ->].
  - intros n; rewrite list_elem_of_In, in_map_iff; split.
    + intros ([n'] & <- & Hn%list_elem_of_In%Hfull); done.
    + intros Hn; exists (mkRef n); split; [done|]; by apply list_elem_of_In, Hfull.
  - rewrite Hl; destruct (0 <? limit); [by rewrite firstn_map|done].
Qed.

Lemma RepositorySummaries_serves limit start :
  serves svc ctx (RepositorySummaries svc ctx limit start) (spec_RepositorySummaries svc ctx limit start).
Proof.
  intros w0 Hg; apply wp_given; [by apply after_refl|done|]; intros [] Hauth.
  eapply wp_reads_ret; [apply ListRepositoriesWithSummary_ok|by apply after_refl|done| |by intros e (l & ? & _)].
  intros l (l' & [= <-] & _ & Hl & Hpage); split; [done|]; by exists l.
Qed.

Lemma Tags_serves name limit start :
  serves svc ctx (Tags svc ctx name limit start) (spec_Tags svc ctx name limit start).
Proof.
  intros w0 Hg; apply wp_given; [by apply after_refl|done|]; intros repo Hp.
  destruct (parseRepository_valid name repo Hp) as [Hr Hn].
  apply wp_given; [by apply after_refl|done|]; intros [] Hauth.
  eapply wp_reads_ret; [eapply reg_ok_guard; [apply ListTags_ok|done]|by apply after_refl|done| |by intros e (l & ? & _)].
  intros l (l' & [= <-] & Hpage); split; [done|]; by exists l.
Qed.

Lemma Referrers_serves name subject artifactType :
  serves svc ctx (Referrers svc ctx name subject artifactType) (spec_Referrers svc ctx name subject artifactType).
Proof.
  intros w0 Hg; apply wp_given; [by apply after_refl|done|]; intros repo Hp.
  destruct (parseRepository_valid name repo Hp) as [Hr Hn].
  apply wp_given; [by apply after_refl|done|]; intros [] Hauth.
  apply wp_given; [by apply after_refl|done|]; intros d Hd.
  assert (valid_digest d = true) as Hv by (pose proof Hd as [-> _]%ParseDigest_ok; by apply valid_digest_spec).
  eapply wp_reads; [eapply reg_ok_guard; [apply ListReferrers_ok|]|by apply after_refl|done| |by intros e (l & ? & _)].
  - rewrite Hr; simpl; by apply (Digest_Validate_ok _ tt).
  - intros rows w Ha Hvw (l & [= <-] & Hs & Hnd & Hin); apply wp_slift; split; [done|]; intros _; split; [by rewrite Hvw|].
    by exists rows.
Qed.

(** ** Blobs *)

Lemma wp_open digest w0 {A} (g : string * Descriptor → A) spec :
  good w0 → valid_digest digest = true →
  (∀ f, rg_blobs (reg_view w0) !! digest = Some f →
     spec (reg_view w0) (Ok (g (bf_Content f, mkDescriptor "" digest (Z.of_nat (String.length (bf_Content f)))))) (reg_view w0)) →
  (rg_blobs (reg_view w0) !! digest = None → spec (reg_view w0) (Err (NewNotFoundError "blob" digest)) (reg_view w0)) →
  wp (let! opened := blob_OpenBlob digest in sret (g opened)) (served w0 spec) w0.
Proof.
  intros Hg Hd Hs Hn; eapply wp_reads_ret;
    [eapply reg_ok_guard; [apply OpenBlob_ok|by apply (Digest_Validate_ok _ tt)]|by apply after_refl|done| |]; cbn beta.
  - intros o Ho; destruct (rg_blobs (reg_view w0) !! digest); [|done]; injection Ho as ->; by apply Hs.
  - intros e He; destruct (rg_blobs (reg_view w0) !! digest); [done|]; injection He as ->; by apply Hn.
Qed.

Lemma OpenBlob_serves name digest : serves svc ctx (OpenBlob svc ctx name digest) (spec_OpenBlob svc ctx name digest).
Proof.
  intros w0 Hg; apply wp_given; [by apply after_refl|done|]; intros d Hd.
  assert (valid_digest d = true) as Hv by (pose proof Hd as [-> _]%ParseDigest_ok; by apply valid_digest_spec).
  apply wp_given; [by apply after_refl|done|]; intros [] Hauth.
  apply (wp_open d w0 (λ o, (o.1, newBlobDetails name o.2))); [done..| |].
  - intros f Hf; split; [done|]; by rewrite Hf.
  - intros Hf; split; [done|]; by rewrite Hf.
Qed.

Lemma InspectBlob_serves name digest :
  serves svc ctx (InspectBlob svc ctx name digest) (spec_InspectBlob svc ctx name digest).
Proof.
  intros w0 Hg; apply wp_given; [by apply after_refl|done|]; intros d Hd.
  assert (valid_digest d = true) as Hv by (pose proof Hd as [-> _]%ParseDigest_ok; by apply valid_digest_spec).
  apply wp_given; [by apply after_refl|done|]; intros [] Hauth.
  apply (wp_open d w0 (λ o, newBlobDetails name o.2)); [done..| |].
  - intros f Hf; split; [done|]; by rewrite Hf.
  - intros Hf; split; [done|]; by rewrite Hf.
Qed.
End Manifests.
