(* ===== verification/RegRequests.v ===== *)
(** What the garbage-collection requests do to the registry: a report lists exactly
    the blobs no manifest references that are older than the grace window, and a
    deletion by report unlinks those of its candidates that still are.

    The registry's front door: one request of an actor, sequences of requests,
    and what every one of them does to the registry, whatever fails below it. *)
From S2P Require Import Prelude GoStrings Errors Repository Digest GoNumbers Manifest Scope Auth Access.
From S2P Require Import RegPorts Registry RegService Gc RegSteps RegUploads RegManifests.

(** * The garbage-collection requests *)

#[local] Opaque DigestFromBytes.

(** * Specifications *)

(** A blob that may go: unreferenced, and older than the cutoff. *)
Definition collectable (R : Registry) (cutoff : Time) (c : GCReportCandidate) : Prop :=
  ∃ f, rg_blobs R !! cand_Digest c = Some f ∧ ¬ referenced R (cand_Digest c)
    ∧ Before (bf_ModTime f) cutoff = true
    ∧ c = mkGCCandidate (cand_Digest c) (Z.of_nat (String.length (bf_Content f))) (bf_ModTime f) "" "".

(** The candidates of a registry, in the order of their digests. *)
Definition is_candidates (R : Registry) (cutoff : Time) (l : list GCReportCandidate) : Prop :=
  StronglySorted (key_le cand_Digest) l ∧ NoDup l ∧ ∀ c, c ∈ l ↔ collectable R cutoff c.

Section Specs.
Variables (svc : RegConfig) (ctx : option Principal).

Definition computed_report (id : string) (now : Time) (millis : Z) (l : list GCReportCandidate) : GCReport := {|
  gc_ID := id;
  gc_Status := GCReportStatusReported;
  gc_ComputedAt := now;
  gc_ExpiresAt := now + gcReportTTL;
  gc_GraceCutoff := now - gcGraceWindow;
  gc_CandidateCount := Z.of_nat (length l);
  gc_CandidateBytes := sum_sizes l;
  gc_DurationMillis := millis;
  gc_RequestedBy := actor_id ctx;
  gc_TriggeredInTenant := rc_tenant svc;
  gc_DeletedAt := None;
  gc_DeletedBy := "";
  gc_DeletedCount := 0;
  gc_BytesReclaimed := 0;
  gc_Error := "" |}.

(** Old reports go first; the new one is stored under a fresh id. *)
Definition spec_ComputeGCReport (R : Registry) (r : res GCReportDetail) (R' : Registry) : Prop :=
  ∃ now millis id l, is_candidates R (now - gcGraceWindow) l
    ∧ let kept := filter (λ kv, report_prunable now kv.2 = false) (rg_reports R) in
      let detail := mkGCReportDetail (computed_report id now millis l) l in
      kept !! id = None ∧ r = Ok detail ∧ R' = put_reports (<[id := detail]> kept) R.

Definition spec_GetGCReport (id : string) := reads (λ R (r : res GCReportDetail),
  r = match rg_reports R !! id with Some d => Ok d | None => Err (NewNotFoundError "gc_report" id) end).

(** One candidate of the report. *)
Definition collect_one (fresh : list GCReportCandidate) (tR : GcTally * Registry) (c : GCReportCandidate) : GcTally * Registry :=
  let d := cand_Digest c in
  if existsb (λ f, String.eqb (cand_Digest f) d) fresh
  then match rg_blobs tR.2 !! d with
       | Some _ => (record_deleted tR.1 c, remove_blob d tR.2)
       | None => (record_outcome tR.1 d GCCandidateOutcomeMissing "", tR.2)
       end
  else (record_outcome tR.1 d GCCandidateOutcomeRetained "", tR.2).

Definition collect_all (fresh l : list GCReportCandidate) (R : Registry) : GcTally * Registry :=
  foldl (collect_one fresh) (tally0, R) l.

Definition collected (now : Time) (t : GcTally) : GCDeleteOutcome :=
  mkGCDeleteOutcome now (actor_id ctx) (tl_Deleted t) (tl_Bytes t) "" (tl_Outcomes t).

Definition spec_DeleteByGCReport (id : string) :=
  given (rguard (gcDeleteEnabled svc) (NewUnsupportedError gcDeleteDisabledMessage)) (λ _ R (r : res GCReportDetail) R',
    match rg_reports R !! id with
    | None => fails (NewNotFoundError "gc_report" id) R r R'
    | Some d =>
        if String.eqb (gc_Status (gcd_Report d)) GCReportStatusReported
        then ∃ now,
          if Before now (gc_ExpiresAt (gcd_Report d))
          then ∃ fresh, is_candidates R (now - gcGraceWindow) fresh
                 ∧ let '(t, R1) := collect_all fresh (gcd_Candidates d) R in
                   let d' := freeze_detail (collected now t) d in
                   r = Ok d' ∧ R' = put_reports (<[id := d']> (rg_reports R1)) R1
          else fails (report_expired id) R r R'
        else fails (not_reported id) R r R'
    end).
End Specs.

(** * The candidates *)

Lemma sweep_candidates R cutoff marked blobs :
  NoDup blobs → (∀ i, i ∈ blobs ↔ ∃ f, rg_blobs R !! bfi_Digest i = Some f ∧ i = blob_info (bfi_Digest i) f) →
  (∀ d, d ∈ marked ↔ referenced R d) → is_candidates R cutoff (sweep cutoff marked blobs).
Proof.
  intros Hnd Hb Hm; split; [apply sort_by_sorted|]; unfold sweep.
  set (mk := λ b, mkGCCandidate (bfi_Digest b) (bfi_Size b) (bfi_ModTime b) "" "").
  assert (∀ d, existsb (String.eqb d) marked = true ↔ referenced R d) as Hmk.
  { intros d; rewrite <- Hm, existsb_exists; split.
    - intros (x & Hx%list_elem_of_In & ->%String.eqb_eq); done.
    - intros Hd; exists d; split; [by apply list_elem_of_In|apply String.eqb_refl]. }
  split.
  - rewrite sort_by_perm; apply NoDup_fmap_2_strong; [|by apply NoDup_filter].
    intros [d1 s1 t1] [d2 s2 t2] _ _ [= -> -> ->]; done.
  - intros c; rewrite elem_of_sort_by, list_elem_of_In, in_map_iff; split.
    + intros (b & <- & [Hc Hin]%list_elem_of_In%list_elem_of_filter).
      unfold is_candidate in Hc; apply andb_true_iff in Hc as [Hu%negb_true_iff Ht].
      apply Hb in Hin as (f & Hf & Heq); rewrite Heq in Ht; exists f; rewrite Heq; simpl in *; split_and!; try done.
      intros Hr%Hmk; congruence.
    + intros (f & Hf & Hr & Ht & ->); simpl in *.
      exists (blob_info (cand_Digest c) f); split; [done|]; apply list_elem_of_In, list_elem_of_filter.
      split; [|apply Hb; by exists f]; unfold is_candidate; simpl; rewrite Ht, andb_true_r.
      apply negb_true_iff, not_true_iff_false; by rewrite Hmk.
Qed.

Lemma candidates_unique R cutoff l l' : is_candidates R cutoff l → is_candidates R cutoff l' → l = l'.
Proof.
  intros (Hs & Hnd & Hl) (Hs' & Hnd' & Hl'); eapply sorted_unique; [done..|intros c; by rewrite Hl, Hl'|].
  intros x y (f & Hf & _ & _ & Hx)%Hl (f' & Hf' & _ & _ & Hy)%Hl Hd; rewrite Hd in Hf, Hx; congruence.
Qed.

Lemma fresh_digest R cutoff fresh d : is_candidates R cutoff fresh →
  existsb (λ f, String.eqb (cand_Digest f) d) fresh = true →
  ∃ f, rg_blobs R !! d = Some f ∧ ¬ referenced R d ∧ Before (bf_ModTime f) cutoff = true.
Proof.
  intros (_ & _ & Hl) (c & Hc%list_elem_of_In & <-%String.eqb_eq)%existsb_exists.
  apply Hl in Hc as (f & ? & ? & ? & _); eauto.
Qed.

(** * The handlers meet them *)

Section Gc.
Context {W : Type} `{UnicodeTables, RegistryLaws W}.
Variables (svc : RegConfig) (ctx : option Principal).
Notation after := (after svc ctx).
Notation served := (served svc ctx).

Lemma wp_now {A} (k : Time → M W A) (Q : res A → W → Prop) w0 w :
  after w0 w → (∀ now w', after w0 w' → reg_view w' = reg_view w → wp (k now) Q w') →
  (∀ e w', after w0 w' → reg_view w' = reg_view w → ¬ reg_calm w0 → Q (Err e) w') →
  wp (sbind reg_now k) Q w.
Proof.
  intros Ha Hk He; apply wp_sbind; eapply wp_read; [apply reg_now_ok|done|].
  intros r w' Ha' Hv [[now ->]|[[e ->] Hc]]; [by apply Hk|by apply He].
Qed.

Lemma wp_gcCandidates {A} now (k : list GCReportCandidate * Time → M W A) (Q : res A → W → Prop) w0 w :
  after w0 w →
  (∀ l w', after w0 w' → reg_view w' = reg_view w → is_candidates (reg_view w) (now - gcGraceWindow) l →
     wp (k (l, now - gcGraceWindow)) Q w') →
  (∀ e w', after w0 w' → reg_view w' = reg_view w → ¬ reg_calm w0 → Q (Err e) w') →
  wp (sbind (gcCandidates now) k) Q w.
Proof.
  intros Ha Hk He; apply wp_assoc, wp_sbind; eapply wp_read; [apply ListBlobs_ok|done|].
  intros r w1 Ha1 Hv1 [(blobs & -> & Hnd & Hb)|[[e ->] Hc]]; [|by apply He].
  apply wp_assoc, wp_sbind; eapply wp_read; [apply ListReferencedBlobDigests_ok|done|].
  intros r w2 Ha2 Hv2 Hr; rewrite Hv1 in *; destruct Hr as [(marked & -> & Hm)|[[e ->] Hc]]; [|by apply He].
  apply wp_sbind, wp_sret, Hk; [done..|]; by apply sweep_candidates.
Qed.

Lemma ComputeGCReport_serves : serves svc ctx (ComputeGCReport svc ctx) (spec_ComputeGCReport svc ctx).
Proof.
  intros w0 Hg; apply wp_now with (w0:=w0); [by apply after_refl| |intros; by split].
  intros now w1 Ha1 Hv1; apply wp_now with (w0:=w0); [done| |intros; by split].
  intros started w2 Ha2 Hv2; rewrite Hv1 in Hv2.
  apply wp_sbind; eapply wp_op; [apply PruneExpiredGCReports_ok|done| |].
  { intros r R' [[-> _]|[-> _]]; [right; apply st_prune|by left]. }
  intros r w3 Ha3 [[Hw3 [n ->]]|[[_ [e ->]] Hc]]; [|by split]; rewrite Hv2 in Hw3.
  eapply wp_gcCandidates; [done| |intros; by split]; intros l w4 Ha4 Hv4 Hl.
  apply wp_sbind; eapply wp_read; [apply reg_uuid_ok|done|].
  intros r w5 Ha5 Hv5 [(id & -> & Hid)|[[e ->] Hc]]; [|by split]; rewrite Hv4 in Hid, Hv5.
  apply wp_now with (w0:=w0); [done| |intros; by split]; intros finished w6 Ha6 Hv6; rewrite Hv5 in Hv6.
  apply wp_sbind; eapply wp_op; [apply CreateGCReport_ok|done| |].
  - intros r R' [[(Hn & _ & ->)|(_ & -> & _)]|[-> _]]; [right; by apply st_report|by left..].
  - intros r w7 Ha7 [[(Hn & -> & Hw7)|([x Hx] & _)]|[[_ [e ->]] Hc]]; [| |by split].
    + apply wp_sret; split; [done|]; intros _; exists now, ((finished - started) / 1000000), id, l.
      rewrite Hw3 in Hl, Hid; split; [exact Hl|]; simpl; split; [exact Hid|]; split; [done|].
      by rewrite Hw7, Hv6, Hw3.
    + rewrite Hv6 in Hx; simpl in Hx; congruence.
Qed.

Lemma GetGCReport_serves id : serves svc ctx (GetGCReport id) (spec_GetGCReport id).
Proof.
  intros w0 Hg; eapply wp_read; [apply GetGCReport_ok|by apply after_refl|].
  intros r w Ha Hv [->|[[e ->] Hc]]; [|by split]; split; [done|]; by split.
Qed.

(** ** The deletion loop *)

(** What the loop keeps: only blobs go, and none that is referenced appears. *)
Definition shrunk (R0 R : Registry) : Prop :=
  rg_manifests R = rg_manifests R0 ∧ rg_reports R = rg_reports R0 ∧ rg_blobs R ⊆ rg_blobs R0.

Lemma referenced_shrunk R0 R d : shrunk R0 R → referenced R d ↔ referenced R0 d.
Proof. intros (Hm & _); unfold referenced; by rewrite Hm. Qed.

Lemma wp_delete_candidate fresh now t c (Q : res GcTally → W → Prop) R0 w0 w :
  gcDeleteEnabled svc = true → after w0 w → shrunk R0 (reg_view w) → reg_inv R0 →
  is_candidates R0 (now - gcGraceWindow) fresh →
  (∀ t' w', after w0 w' → shrunk R0 (reg_view w') →
     (reg_calm w0 → (t', reg_view w') = collect_one fresh (t, reg_view w) c) → Q (Ok t') w') →
  wp (delete_candidate fresh t c) Q w.
Proof.
  intros Hen Ha Hsh HR0 Hfresh HQ; unfold delete_candidate; unfold collect_one in HQ; simpl in HQ.
  destruct (existsb _ fresh) eqn:Hex; simpl; [|by apply wp_sret, HQ].
  destruct (fresh_digest _ _ _ _ Hfresh Hex) as (f & Hf & Hnr & Ht).
  assert (valid_digest (cand_Digest c) = true) as Hd.
  { rewrite <- (inv_content R0 HR0 _ _ Hf); apply DigestFromBytes_valid. }
  rewrite (proj1 (valid_digest_spec _) Hd).
  apply wp_sbind, wp_sattempt; eapply wp_read; [apply IsBlobDigestReferenced_ok|done|].
  intros r w1 Ha1 Hv1 [(b & -> & Hb)|[[e ->] Hc]]; [|by apply wp_sret, HQ; [|rewrite Hv1|]].
  rewrite (referenced_shrunk R0) in Hb by done; destruct b; [by destruct Hnr; apply Hb|].
  rewrite <- Hv1 in Hsh, HQ.
  assert (∀ f', rg_blobs (reg_view w1) !! cand_Digest c = Some f' → f' = f) as Hsame.
  { intros f' Hf'; destruct Hsh as (_ & _ & Hsub); eapply lookup_weaken in Hf'; [|exact Hsub]; congruence. }
  apply wp_sbind, wp_sattempt; eapply wp_op;
    [eapply reg_ok_guard; [apply DeleteBlob_ok|by apply (Digest_Validate_ok _ tt)]|done| |].
  - intros r R' [[([f' Hf'] & _ & ->)|(_ & _ & ->)]|[-> _]]; [right|by left..].
    eapply st_collect; [done..|by rewrite (referenced_shrunk R0)|by rewrite (Hsame f' Hf')].
  - intros r w2 Ha2 [[([f' Hf'] & -> & Hw2)|(Hn & -> & Hw2)]|[[Hw2 [e ->]] Hc]].
    + apply wp_sret, HQ; [done| |by rewrite Hf', Hw2].
      destruct Hsh as (Hm & Hr & Hsub); rewrite Hw2; split_and!; [done..|]; simpl.
      etransitivity; [apply delete_subseteq|done].
    + apply wp_sret, HQ; [done|by rewrite Hw2|by rewrite Hn, Hw2].
    + apply wp_sret, HQ; [done|by rewrite Hw2|done].
Qed.

Lemma wp_delete_candidates fresh now l t (Q : res GcTally → W → Prop) R0 w0 w :
  gcDeleteEnabled svc = true → after w0 w → shrunk R0 (reg_view w) → reg_inv R0 →
  is_candidates R0 (now - gcGraceWindow) fresh →
  (∀ t' w', after w0 w' → shrunk R0 (reg_view w') →
     (reg_calm w0 → (t', reg_view w') = foldl (collect_one fresh) (t, reg_view w) l) → Q (Ok t') w') →
  wp (delete_candidates fresh t l) Q w.
Proof.
  intros Hen Ha Hsh HR0 Hfresh; revert t w Ha Hsh; induction l as [|c l IH]; intros t w Ha Hsh HQ; simpl.
  { by apply wp_sret, HQ. }
  apply wp_sbind; eapply wp_delete_candidate; [done..|]; intros t1 w1 Ha1 Hsh1 Hc1.
  apply IH; [done..|]; intros t2 w2 Ha2 Hsh2 Hc2; apply HQ; [done..|].
  intros Hcalm; simpl; by rewrite <- Hc1, Hc2.
Qed.

Lemma collect_no_failures fresh l tR : tl_Failures (foldl (collect_one fresh) tR l).1 = tl_Failures tR.1.
Proof.
  revert tR; induction l as [|c l IH]; intros [t R]; simpl; [done|]; rewrite IH.
  unfold collect_one; destruct (existsb _ fresh); [|done]; by destruct (rg_blobs _ !! _).
Qed.

(** The report is frozen with the outcome and read back. *)
Lemma wp_freeze id d o (Q : res GCReportDetail → W → Prop) w0 w :
  gcDeleteEnabled svc = true → after w0 w → rg_reports (reg_view w) !! id = Some d →
  gc_Status (gcd_Report d) = GCReportStatusReported →
  (∀ w', after w0 w' → reg_view w' = put_reports (<[id := freeze_detail o d]> (rg_reports (reg_view w))) (reg_view w) →
     Q (Ok (freeze_detail o d)) w') →
  (∀ e w', after w0 w' → ¬ reg_calm w0 → Q (Err e) w') →
  wp (do! MarkGCReportDeleted id o in meta_GetGCReport id) Q w.
Proof.
  intros Hen Ha Hd Hst HQ He; apply wp_sbind; eapply wp_op; [apply MarkGCReportDeleted_ok|done| |].
  { intros r R' [[(x & Hx & Hxs & _ & ->)|(_ & _ & ->)]|[-> _]]; [right; by apply st_freeze|by left..]. }
  intros r w1 Ha1 [[(x & Hx & _ & -> & Hw1)|(Hno & _)]|[[_ [e ->]] Hc]]; [|by destruct (Hno d Hd)|by apply He].
  rewrite Hd in Hx; injection Hx as <-; eapply wp_read; [apply GetGCReport_ok|done|].
  intros r w2 Ha2 Hv2 Hr; rewrite Hw1 in Hr, Hv2; simpl in Hr; rewrite lookup_insert_eq in Hr.
  destruct Hr as [->|[[e ->] Hc]]; [by apply HQ|by apply He].
Qed.

Lemma DeleteByGCReport_serves id :
  serves svc ctx (DeleteByGCReport svc ctx id) (spec_DeleteByGCReport svc ctx id).
Proof.
  intros w0 Hg; unfold DeleteByGCReport, spec_DeleteByGCReport, given, rguard.
  destruct (gcDeleteEnabled svc) eqn:Hen; simpl; [|apply wp_sthrow; split; [by apply after_refl|by intros _]].
  apply wp_sbind; eapply wp_read; [apply GetGCReport_ok|by apply after_refl|].
  intros r w1 Ha1 Hv1 Hr; cbn beta in Hr; destruct (rg_reports (reg_view w0) !! id) as [d|] eqn:Hd.
  2: { destruct Hr as [->|[[e ->] Hc]]; [|by split]; split; [done|]; intros _; rewrite Hd; by split. }
  destruct Hr as [->|[[e ->] Hc]]; [|by split].
  destruct (String.eqb_spec (gc_Status (gcd_Report d)) GCReportStatusReported) as [Hst|Hst]; simpl.
  2: { apply wp_sthrow; split; [done|]; intros _; cbn beta; rewrite Hd.
       rewrite (proj2 (String.eqb_neq _ _) Hst); by split. }
  apply wp_now with (w0:=w0); [done| |intros; by split]; intros now w2 Ha2 Hv2; rewrite Hv1 in Hv2.
  destruct (Before now (gc_ExpiresAt (gcd_Report d))) eqn:Hb; simpl.
  2: { apply wp_sthrow; split; [done|]; intros _; cbn beta; rewrite Hd, Hst, String.eqb_refl; exists now; rewrite Hb; by split. }
  eapply wp_gcCandidates; [done| |intros; by split]; intros fresh w3 Ha3 Hv3 Hf; rewrite Hv2 in Hf, Hv3; simpl.
  apply wp_sbind; eapply (wp_delete_candidates fresh now _ tally0 _ (reg_view w0)); [done..| | |done|].
  { by rewrite Hv3. } { apply Hg. }
  intros t w4 Ha4 Hsh Hcalm; eapply wp_freeze; [done..|by destruct Hsh as (_ & -> & _)|done| |intros; by split].
  intros w5 Ha5 Hv5; split; [done|]; intros Hc; cbn beta; rewrite Hd, Hst, String.eqb_refl; exists now; rewrite Hb.
  exists fresh; split; [done|]; specialize (Hcalm Hc); rewrite Hv3 in Hcalm.
  pose proof (collect_no_failures fresh (gcd_Candidates d) (tally0, reg_view w0)) as Hnf.
  unfold collect_all; rewrite <- Hcalm in Hnf |- *; simpl in Hnf; rewrite Hnf in Hv5 |- *; by split.
Qed.
End Gc.

(** * One request of an actor *)

Inductive RegRequest :=
  | RqBeginUpload (name : string)
  | RqAppendUpload (name id : string) (content : Reader)
  | RqCompleteUpload (name id expected : string) (finalChunk : option Reader)
  | RqUploadStatus (name id : string)
  | RqUploads (name : string)
  | RqPublishManifest (name reference mediaType payload : string)
  | RqResolveManifest (name reference : string)
  | RqDeleteManifest (name reference : string)
  | RqDeleteRepository (name : string)
  | RqCatalog (limit : Z) (start : string)
  | RqRepositorySummaries (limit : Z) (start : string)
  | RqTags (name : string) (limit : Z) (start : string)
  | RqReferrers (name subject artifactType : string)
  | RqInspectBlob (name digest : string)
  | RqOpenBlob (name digest : string)
  | RqComputeGCReport
  | RqGetGCReport (id : string)
  | RqDeleteByGCReport (id : string).

(** The result of a request, whichever it was. *)
Definition done_with {W A} (m : M W A) : M W unit := let! _ := m in sret tt.

Section Serve.
Context {W : Type} `{UnicodeTables, ManifestCodec, !BlobStore W, !MetadataStore W, !RegRuntime W}.
Variable svc : RegConfig.

Definition reg_run (ctx : option Principal) (rq : RegRequest) : M W unit :=
  match rq with
  | RqBeginUpload n => done_with (BeginUpload svc ctx n)
  | RqAppendUpload n id c => done_with (AppendUpload svc ctx n id c)
  | RqCompleteUpload n id d c => done_with (CompleteUpload svc ctx n id d c)
  | RqUploadStatus n id => done_with (UploadStatus svc ctx n id)
  | RqUploads n => done_with (Uploads svc ctx n)
  | RqPublishManifest n r mt p => done_with (PublishManifest svc ctx n r mt p)
  | RqResolveManifest n r => done_with (ResolveManifest svc ctx n r)
  | RqDeleteManifest n r => done_with (DeleteManifest svc ctx n r)
  | RqDeleteRepository n => done_with (DeleteRepository svc ctx n)
  | RqCatalog l a => done_with (Catalog svc ctx l a)
  | RqRepositorySummaries l a => done_with (RepositorySummaries svc ctx l a)
  | RqTags n l a => done_with (Tags svc ctx n l a)
  | RqReferrers n d a => done_with (Referrers svc ctx n d a)
  | RqInspectBlob n d => done_with (InspectBlob svc ctx n d)
  | RqOpenBlob n d => done_with (OpenBlob svc ctx n d)
  | RqComputeGCReport => done_with (ComputeGCReport svc ctx)
  | RqGetGCReport id => done_with (GetGCReport id)
  | RqDeleteByGCReport id => done_with (DeleteByGCReport svc ctx id)
  end.

(** The requests of several actors, one after the other. *)
Definition reg_run_all (rqs : list (option Principal * RegRequest)) (w : W) : W :=
  foldl (λ w rq, (reg_run rq.1 rq.2 w).2) w rqs.
End Serve.

(** A transition of some actor. *)
Definition reg_moves (svc : RegConfig) (R R' : Registry) : Prop := ∃ ctx, reg_step svc ctx R R'.

(** * Lemmas *)

Lemma steps_move svc ctx R R' : rtc (reg_step svc ctx) R R' → rtc (reg_moves svc) R R'.
Proof. induction 1; [apply rtc_refl|]; eapply rtc_l; [by exists ctx|done]. Qed.

(** A relation the machine's steps respect is respected by every request. *)
Lemma steps_respect svc ctx (P : Registry → Registry → Prop) R R' :
  (∀ R, P R R) → (∀ R1 R2 R3, P R1 R2 → P R2 R3 → P R1 R3) →
  (∀ R1 R2, reg_inv R1 → reg_step svc ctx R1 R2 → P R1 R2) →
  reg_inv R → rtc (reg_step svc ctx) R R' → P R R'.
Proof.
  intros Hr Ht Hs Hi Hrtc; induction Hrtc as [R|R R1 R2 H1 _ IH]; [done|].
  eapply Ht; [by apply Hs|]; apply IH; by eapply reg_step_inv.
Qed.
Lemma moves_respect svc (P : Registry → Registry → Prop) R R' :
  (∀ R, P R R) → (∀ R1 R2 R3, P R1 R2 → P R2 R3 → P R1 R3) →
  (∀ ctx R1 R2, reg_step svc ctx R1 R2 → P R1 R2) →
  rtc (reg_moves svc) R R' → P R R'.
Proof. intros Hr Ht Hs; induction 1 as [R|R R1 R2 [ctx H1] _ IH]; [done|]; eapply Ht; [by eapply Hs|done]. Qed.

Section Lemmas.
Context {W : Type} `{UnicodeTables, ManifestCodec, RegistryLaws W}.
Variable svc : RegConfig.

Lemma done_with_after {A} (m : M W A) ctx spec : serves svc ctx m spec →
  ∀ w, good w → after svc ctx w (done_with m w).2.
Proof.
  intros Hm w Hg; destruct (Hm w Hg) as [Ha _]; unfold done_with, sbind.
  by destruct (m w) as [[a|e] w'].
Qed.

(** Every request keeps the registry well formed and moves it by transitions of
    its actor. *)
Lemma reg_run_after ctx rq w : good w → after svc ctx w (reg_run svc ctx rq w).2.
Proof.
  destruct rq; eapply done_with_after; eauto using BeginUpload_serves, AppendUpload_serves, CompleteUpload_serves,
    UploadStatus_serves, Uploads_serves, PublishManifest_serves, ResolveManifest_serves, DeleteManifest_serves,
    DeleteRepository_serves, Catalog_serves, RepositorySummaries_serves, Tags_serves, Referrers_serves,
    InspectBlob_serves, OpenBlob_serves, ComputeGCReport_serves, GetGCReport_serves, DeleteByGCReport_serves.
Qed.

Lemma reg_run_all_after rqs w : good w →
  good (reg_run_all svc rqs w) ∧ rtc (reg_moves svc) (reg_view w) (reg_view (reg_run_all svc rqs w)).
Proof.
  revert w; induction rqs as [|[ctx rq] rqs IH]; intros w Hg; simpl; [split; [done|apply rtc_refl]|].
  destruct (reg_run_after ctx rq w Hg) as (Hg' & _ & Hs); destruct (IH _ Hg') as [Hg2 Hs2]; split; [done|].
  etransitivity; [by eapply steps_move|done].
Qed.
End Lemmas.
