(* ===== verification/RegExample.v ===== *)
(** A concrete environment for the registry's stores: no fault, a clock that
    advances one hour per call, ids longer than every stored one, a bit-string
    encoding of upload states, payloads that name their single layer. The
    witnesses of the theorems about the registry run in it. *)
From S2P Require Import Prelude GoStrings Errors Repository Digest GoNumbers Manifest Scope Auth Access.
From S2P Require Import PgExample RegPorts RegWorld Registry FsBlob MetaStore RegView FsLaws RegService Gc.
From S2P Require Import MetaLaws RegLaws RegSteps RegRequests.

(** * Definitions *)

(** ** Upload states as strings *)

Definition upload_tuple (st : UploadState) :=
  ((up_Size st, up_StartedAt st, up_UpdatedAt st), up_Status st, ref_Name (up_Repository st), up_ID st, up_Location st).
Definition tuple_upload (x : Z * Z * Z * string * string * string * string) : UploadState :=
  let '((size, started, updated), status, repo, id, location) := x in
  mkUpload id (mkRef repo) status size started updated location.

(** Bits, low first, and a final [.]: no proper prefix decodes. *)
Fixpoint bits (p : positive) : string :=
  match p with xH => "." | xO p => String "0" (bits p) | xI p => String "1" (bits p) end.
Fixpoint unbits (s : string) : option positive :=
  match s with
  | "" => None
  | String "0" s' => xO <$> unbits s'
  | String "1" s' => xI <$> unbits s'
  | String _ s' => if String.eqb s' "" then Some xH else None
  end.

Definition example_root : list string := ["var"; "registry"].

#[global] Instance example_reg_env : RegEnv := {|
  renv_root := example_root;
  renv_fault _ := None;
  renv_partial _ := 0%nat;
  renv_removed _ _ := false;
  renv_now n := Z.of_nat (Nat.min n 600) * hour;
  renv_uuid _ db := letters (S (longest (map fst (map_to_list (md_gc_reports db)))));
  renv_rand n _ _ k := repeat (Z.of_nat n mod 256) k;
  marshal_upload st := Ok (bits (encode (upload_tuple st)));
  unmarshal_upload s := match unbits s ≫= decode with
                        | Some x => Ok (tuple_upload x)
                        | None => Err (OtherError "unexpected end of JSON input")
                        end;
|}.

(** ** Payloads *)

Definition image_media_type : string := "application/vnd.oci.image.manifest.v1+json".

(** The payload is the digest of the only layer, followed by the digest of the
    subject if the manifest has one. *)
#[global] Instance example_codec : ManifestCodec := {|
  unmarshal_envelope p :=
    let '(layer, subject, found) := cut " " p in
    if String.eqb p "" then None else
    Some (mkEnvelope image_media_type "" None [mkResource "application/octet-stream" layer 0]
            (if found then Some (mkResource image_media_type subject 0) else None) None);
  unmarshal_index _ := None;
|}.

(** ** A registry at work *)

(** The storage root exists; [New] makes the two trees below it. *)
Definition made_fs : FileSystem := {[ ["var"] := Dir; ["var"; "registry"] := Dir ]}.
Definition new_world : RegWorld := (fs_New (mkRegWorld empty_db made_fs [] 0)).2.

Definition example_svc : RegConfig :=
  mkRegConfig (NewPrincipalAccessController (mkChallenge "" "" "" "" "")) (NewSingleTenantResolver "") true true.
(** The same registry with manifest deletion off. *)
Definition locked_svc : RegConfig := mkRegConfig (rc_access example_svc) (rc_tenant example_svc) false true.
(** The registry of another tenant over the same stores. *)
Definition other_svc : RegConfig := mkRegConfig (rc_access example_svc) "acme" true true.
Definition scopes_of (l : list string) : list Scope := match ParseScopes l with Ok s => s | Err _ => [] end.
Definition pusher : Principal :=
  mkPrincipal "acc" "u1" "ci" false false
    [mkGrant "u1" (mkRef "team/app") RepoRoleWriter 1 1]
    (scopes_of ["repository:team/app:pull,push,delete"]) 0.
Definition outsider : Principal :=
  mkPrincipal "acc2" "u2" "other" false false
    [mkGrant "u2" (mkRef "team/other") RepoRoleWriter 1 1]
    (scopes_of ["repository:team/other:pull,push,delete"]) 0.

Definition layer_data : string := "layer bytes".
Definition layer_digest : Digest := Eval vm_compute in DigestFromBytes layer_data.
Definition payload_digest : Digest := Eval vm_compute in DigestFromBytes layer_digest.

Definition upload_of {E S} (r : result E UploadDetails * S) : string :=
  match r.1 with Ok d => ud_ID d | Err _ => "" end.
Definition upload_id : string :=
  Eval vm_compute in upload_of (BeginUpload example_svc (Some pusher) "team/app" new_world).

Definition push_requests : list (option Principal * RegRequest) :=
  [(Some pusher, RqBeginUpload "team/app");
   (Some pusher, RqAppendUpload "team/app" upload_id (mkReader "layer " None));
   (Some pusher, RqCompleteUpload "team/app" upload_id layer_digest (Some (mkReader "bytes" None)));
   (Some pusher, RqPublishManifest "team/app" "v1" "" layer_digest)].
Definition begun_world : RegWorld := reg_run_all example_svc (take 1 push_requests) new_world.
Definition committed_world : RegWorld := reg_run_all example_svc (take 3 push_requests) new_world.
Definition published_world : RegWorld := reg_run_all example_svc push_requests new_world.

Definition tag_requests : list (option Principal * RegRequest) :=
  push_requests ++ [(Some pusher, RqPublishManifest "team/app" "latest" "" layer_digest);
    (Some pusher, RqPublishManifest "team/app" "attached" "" (String.append layer_digest (String " " payload_digest)))].
Definition tagged_world : RegWorld := reg_run_all example_svc tag_requests new_world.

Definition shared_world : RegWorld :=
  reg_run_all example_svc (push_requests ++ [(Some outsider, RqPublishManifest "team/other" "v1" "" layer_digest)]) new_world.

(** A day later: the blob was never used, and a report lists it. *)
Definition day_requests : list (option Principal * RegRequest) :=
  take 3 push_requests ++ repeat (None, RqGetGCReport "none") 30.
Definition day_world : RegWorld := reg_run_all example_svc day_requests new_world.
Definition report_of (r : res GCReportDetail) : string := match r with Ok d => gc_ID (gcd_Report d) | Err _ => "" end.
Definition report_id : string := Eval vm_compute in report_of (ComputeGCReport example_svc None day_world).1.
Definition reported_world : RegWorld := reg_run_all example_svc (day_requests ++ [(None, RqComputeGCReport)]) new_world.
Definition kept_svc : RegConfig := mkRegConfig (rc_access example_svc) (rc_tenant example_svc) true false.

(** * The environment keeps its laws *)

Lemma unbits_bits p : unbits (bits p) = Some p.
Proof. induction p as [p IH|p IH|]; simpl; [by rewrite IH..|done]. Qed.

Lemma unbits_prefix p n : (n < String.length (bits p))%nat → unbits (substring 0 n (bits p)) = None.
Proof.
  revert n; induction p as [p IH|p IH|]; intros [|n] Hn; simpl in *; try done; [rewrite IH by lia; done..|lia].
Qed.

#[global] Instance example_reg_env_laws : RegEnvLaws.
Proof.
  split.
  - intros id location st _ _ _; exists (bits (encode (upload_tuple st))); split_and!.
    + done.
    + simpl; rewrite unbits_bits; simpl; rewrite decode_encode; by destruct st as [? [] ? ? ? ? ?].
    + intros n Hn; simpl; by rewrite unbits_prefix.
  - by repeat constructor.
  - intros n; unfold time_ok, zero_time; simpl; unfold hour, minute, second; lia.
  - intros n db fs; split; [done|]; apply Forall_forall.
    intros x ->%list_elem_of_In%repeat_spec; apply Z.mod_pos_bound; lia.
  - intros n db; simpl; apply example_uuid_fresh; intros id x; apply in_ids.
Qed.

Lemma new_fs_eq : rw_fs new_world = <[["var"; "registry"; "uploads"] := Dir]> (<[["var"; "registry"; "blobs"] := Dir]> made_fs).
Proof. by apply (bool_decide_eq_true_1 _); vm_compute. Qed.

Lemma new_fs_lookup p n : rw_fs new_world !! p = Some n → (length p ≤ 3)%nat ∧ n = Dir.
Proof.
  rewrite new_fs_eq; unfold made_fs; rewrite !lookup_insert_Some, lookup_singleton_Some.
  intros [[<- <-]|[_ [[<- <-]|[_ [[<- <-]|[_ [<- <-]]]]]]]; simpl; split; (lia || done).
Qed.

Lemma new_world_deep p : (3 < length p)%nat → rw_fs new_world !! p = None.
Proof. intros Hp; destruct (_ !! p) eqn:Hn; [|done]; apply new_fs_lookup in Hn as [? _]; lia. Qed.

Lemma new_fs_no_file p : is_file (rw_fs new_world) p = false.
Proof. unfold is_file; destruct (_ !! p) eqn:Hn; [|done]; by apply new_fs_lookup in Hn as [_ ->]. Qed.

Lemma new_world_wf : world_wf new_world.
Proof.
  split; [exact empty_db_ok|]; split.
  - change (dirs (rw_fs new_world) ["var"; "registry"; "blobs"]); rewrite new_fs_eq; intros q Hq.
    change (q ∈ [["var"]; ["var"; "registry"]; ["var"; "registry"; "blobs"]]) in Hq; rewrite !elem_of_cons, elem_of_nil in Hq.
    by destruct Hq as [->|[->|[->|[]]]].
  - change (dirs (rw_fs new_world) ["var"; "registry"; "uploads"]); rewrite new_fs_eq; intros q Hq.
    change (q ∈ [["var"]; ["var"; "registry"]; ["var"; "registry"; "uploads"]]) in Hq; rewrite !elem_of_cons, elem_of_nil in Hq.
    by destruct Hq as [->|[->|[->|[]]]].
  - apply new_fs_no_file.
  - intros d n Hd; rewrite new_world_deep; [done|].
    rewrite blobPath_eq, blobsRoot_eq by done; simpl; lia.
  - intros id Hid; split.
    + apply new_fs_no_file.
    + intros n; rewrite new_world_deep; [done|]; rewrite uploadFile_eq, uploadDir_eq, uploadsRoot_eq by done; simpl; lia.
    + intros n; rewrite new_world_deep; [done|]; rewrite uploadStateFile_eq, uploadDir_eq, uploadsRoot_eq by done; simpl; lia.
Qed.

Lemma new_world_view : reg_view new_world = empty_registry.
Proof.
  simpl; unfold view_of, view_blobs, view_incoming; rewrite new_fs_eq.
  by vm_compute.
Qed.

Lemma new_world_good : good new_world.
Proof. split; [exact new_world_wf|]; rewrite new_world_view; exact empty_registry_inv. Qed.

Lemma example_reg_calm w : reg_calm w.
Proof. by intros n _. Qed.

Lemma example_good rqs : good (reg_run_all example_svc rqs new_world).
Proof. apply reg_run_all_after, new_world_good. Qed.

(** * Checks *)

Example example_blob : bf_Content <$> rg_blobs (view_of committed_world) !! layer_digest = Some layer_data.
Proof. vm_compute; reflexivity. Qed.

Example example_published :
  match (ResolveManifest example_svc (Some pusher) "team/app" "v1" published_world).1 with
  | Ok d => md_Digest d = payload_digest
  | Err _ => False
  end.
Proof. vm_compute; reflexivity. Qed.
