(* ===== verification/RegSafety.v ===== *)
(** The stores as one machine: the calls of the two ports as values, the run of a
    list of them, and the refinement of the abstract registry by the SQLite tables
    and the storage directory.

    What no sequence of requests to the registry can do, whatever fails below it:
    the theorems that follow from the refinement of the service into the machine of
    [RegSteps], for any stores that keep the contract of [Registry]. *)
From S2P Require Import Prelude GoStrings Errors Repository Digest GoNumbers Manifest Scope Auth Access.
From S2P Require Import PgExample RegPorts RegWorld Registry FsBlob MetaStore RegView FsLaws RegService Gc.
From S2P Require Import MetaLaws MetaManifests RegLaws RegSteps RegRequests RegExample.

(** * The stores as one machine *)

#[local] Opaque DigestFromBytes.

(** * Definitions *)

(** A call of a store port; the calls that take the id of an upload session take
    one of the form the store makes. *)
Inductive StoreCall : Type → Type :=
  | DoSaveUpload (t : string) (st : UploadState) : StoreCall unit
  | DoGetUpload (t id : string) : StoreCall UploadState
  | DoListUploads (t : string) (r : option RepositoryRef) : StoreCall (list UploadState)
  | DoDeleteUpload (t id : string) : StoreCall unit
  | DoPublishManifest (t : string) (r : RepositoryRef) (g : string) (m : Manifest) (bs : list Descriptor) : StoreCall unit
  | DoResolveManifest (t : string) (r : RepositoryRef) (x : string) : StoreCall Manifest
  | DoListManifestBlobs (t : string) (r : RepositoryRef) (d : Digest) : StoreCall (list Descriptor)
  | DoDeleteManifestByDigest (t : string) (r : RepositoryRef) (d : Digest) : StoreCall (list string)
  | DoDeleteRepository (t : string) (r : RepositoryRef) : StoreCall (list string * Z)
  | DoDeleteTag (t : string) (r : RepositoryRef) (g : string) : StoreCall unit
  | DoListReferencedBlobDigests : StoreCall (list string)
  | DoIsBlobDigestReferenced (d : string) : StoreCall bool
  | DoCatalog (t : string) (l : Z) (a : string) : StoreCall (list RepositoryRef)
  | DoListTags (t : string) (r : RepositoryRef) (l : Z) (a : string) : StoreCall (list string)
  | DoListTagsWithCreatedAt (t : string) (r : RepositoryRef) (l : Z) (a : string) : StoreCall (list TagSummary)
  | DoListRepositoriesWithSummary (t : string) (l : Z) (a : string) : StoreCall (list RepositorySummary)
  | DoListReferrers (t : string) (r : RepositoryRef) (d : Digest) : StoreCall (list ReferrerRow)
  | DoCreateGCReport (r : GCReport) (cs : list GCReportCandidate) : StoreCall unit
  | DoGetGCReport (id : string) : StoreCall GCReportDetail
  | DoPruneExpiredGCReports (n : Time) : StoreCall Z
  | DoMarkGCReportDeleted (id : string) (o : GCDeleteOutcome) : StoreCall unit
  | DoBeginUpload (r : RepositoryRef) : StoreCall UploadState
  | DoBlobGetUpload (id : string) (H : GoodID id) : StoreCall UploadState
  | DoPutUploadChunk (id : string) (c : Reader) (H : GoodID id) : StoreCall UploadState
  | DoCommitUpload (id : string) (d : Digest) (H : GoodID id) : StoreCall Descriptor
  | DoCancelUpload (id : string) (H : GoodID id) : StoreCall unit
  | DoBlobExists (d : Digest) : StoreCall bool
  | DoOpenBlob (d : Digest) : StoreCall (string * Descriptor)
  | DoListBlobs : StoreCall (list BlobFileInfo)
  | DoDeleteBlob (d : Digest) : StoreCall bool.

Definition call {W} `{!BlobStore W, !MetadataStore W} {A} (c : StoreCall A) : M W A :=
  match c with
  | DoSaveUpload t st => SaveUpload t st
  | DoGetUpload t id => meta_GetUpload t id
  | DoListUploads t r => ListUploads t r
  | DoDeleteUpload t id => DeleteUpload t id
  | DoPublishManifest t r g m bs => meta_PublishManifest t r g m bs
  | DoResolveManifest t r x => meta_ResolveManifest t r x
  | DoListManifestBlobs t r d => ListManifestBlobs t r d
  | DoDeleteManifestByDigest t r d => DeleteManifestByDigest t r d
  | DoDeleteRepository t r => meta_DeleteRepository t r
  | DoDeleteTag t r g => DeleteTag t r g
  | DoListReferencedBlobDigests => ListReferencedBlobDigests
  | DoIsBlobDigestReferenced d => IsBlobDigestReferenced d
  | DoCatalog t l a => meta_Catalog t l a
  | DoListTags t r l a => ListTags t r l a
  | DoListTagsWithCreatedAt t r l a => ListTagsWithCreatedAt t r l a
  | DoListRepositoriesWithSummary t l a => ListRepositoriesWithSummary t l a
  | DoListReferrers t r d => ListReferrers t r d
  | DoCreateGCReport r cs => CreateGCReport r cs
  | DoGetGCReport id => meta_GetGCReport id
  | DoPruneExpiredGCReports n => PruneExpiredGCReports n
  | DoMarkGCReportDeleted id o => MarkGCReportDeleted id o
  | DoBeginUpload r => blob_BeginUpload r
  | DoBlobGetUpload id _ => blob_GetUpload id
  | DoPutUploadChunk id c _ => PutUploadChunk id c
  | DoCommitUpload id d _ => CommitUpload id d
  | DoCancelUpload id _ => CancelUpload id
  | DoBlobExists d => BlobExists d
  | DoOpenBlob d => blob_OpenBlob d
  | DoListBlobs => ListBlobs
  | DoDeleteBlob d => DeleteBlob d
  end.

(** What the call does to the registry, and what a failing one may leave. *)
Definition call_spec {A} (c : StoreCall A) : Registry → res A → Registry → Prop :=
  match c with
  | DoSaveUpload t st => spec_save_upload t st
  | DoGetUpload t id => spec_get_upload t id
  | DoListUploads t r => spec_list_uploads t r
  | DoDeleteUpload t id => spec_delete_upload t id
  | DoPublishManifest t r g m bs => spec_publish t r g m bs
  | DoResolveManifest t r x => spec_resolve t r x
  | DoListManifestBlobs t r d => spec_list_blobs t r d
  | DoDeleteManifestByDigest t r d => spec_delete_manifest t r d
  | DoDeleteRepository t r => spec_delete_repository t r
  | DoDeleteTag t r g => spec_delete_tag t r g
  | DoListReferencedBlobDigests => spec_referenced_digests
  | DoIsBlobDigestReferenced d => spec_is_referenced d
  | DoCatalog t l a => spec_catalog t l a
  | DoListTags t r l a => spec_tags t r l a
  | DoListTagsWithCreatedAt t r l a => spec_tag_summaries t r l a
  | DoListRepositoriesWithSummary t l a => spec_repository_summaries t l a
  | DoListReferrers t r d => spec_referrers t r d
  | DoCreateGCReport r cs => spec_create_report r cs
  | DoGetGCReport id => spec_get_report id
  | DoPruneExpiredGCReports n => spec_prune n
  | DoMarkGCReportDeleted id o => spec_mark id o
  | DoBeginUpload r => spec_begin r
  | DoBlobGetUpload id _ => spec_get id
  | DoPutUploadChunk id c _ => spec_put id c
  | DoCommitUpload id d _ => spec_commit id d
  | DoCancelUpload id _ => spec_cancel id
  | DoBlobExists d => spec_blob_exists d
  | DoOpenBlob d => spec_open d
  | DoListBlobs => spec_list_blob_files
  | DoDeleteBlob d => spec_delete_blob d
  end.
Definition call_slack {A} (c : StoreCall A) : Registry → res A → Registry → Prop :=
  match c with
  | DoBeginUpload _ => slack_begin
  | DoPutUploadChunk id _ _ => slack_put id
  | DoCommitUpload id d _ => slack_commit id d
  | DoCancelUpload id _ => slack_cancel id
  | _ => unchanged
  end.

Definition is_metadata {A} (c : StoreCall A) : bool :=
  match c with
  | DoBeginUpload _ | DoBlobGetUpload _ _ | DoPutUploadChunk _ _ _ | DoCommitUpload _ _ _ | DoCancelUpload _ _
  | DoBlobExists _ | DoOpenBlob _ | DoListBlobs | DoDeleteBlob _ => false
  | _ => true
  end.

(** The calls one after the other, each result thrown away. *)
Definition call_all `{RegEnv} (cs : list (sigT StoreCall)) (w : RegWorld) : RegWorld :=
  foldl (λ w c, (call (projT2 c) w).2) w cs.

(** * Lemmas *)

Section Laws.
Context `{RegEnvLaws}.

Lemma call_meets {A} (c : StoreCall A) : reg_ok (call c) (call_spec c) (call_slack c).
Proof.
  destruct c; [eapply SaveUpload_ok|eapply GetUpload_ok|eapply ListUploads_ok|eapply DeleteUpload_ok|eapply PublishManifest_ok|eapply ResolveManifest_ok|eapply ListManifestBlobs_ok|eapply DeleteManifestByDigest_ok|eapply DeleteRepository_ok|eapply DeleteTag_ok|eapply ListReferencedBlobDigests_ok|eapply IsBlobDigestReferenced_ok|eapply Catalog_ok|eapply ListTags_ok|eapply ListTagsWithCreatedAt_ok|eapply ListRepositoriesWithSummary_ok|eapply ListReferrers_ok|eapply CreateGCReport_ok|eapply GetGCReport_ok|eapply PruneExpiredGCReports_ok|eapply MarkGCReportDeleted_ok|eapply BeginUpload_ok|eapply blob_GetUpload_ok|eapply PutUploadChunk_ok|eapply CommitUpload_ok|eapply CancelUpload_ok|eapply BlobExists_ok|eapply OpenBlob_ok|eapply ListBlobs_ok|eapply DeleteBlob_ok]; done.
Qed.

(** Specifications under which an error comes with no change. *)
Definition clean {A} (spec : Registry → res A → Registry → Prop) : Prop := ∀ R e R', spec R (Err e) R' → R' = R.

Lemma guarded_clean {A} v (spec : Registry → res A → Registry → Prop) : clean spec → clean (guarded v spec).
Proof. intros Hs R e R'; unfold guarded; destruct v; [apply Hs|by intros [_ ->]]. Qed.
Lemma reads_clean {A} (f : Registry → res A → Prop) : clean (reads f).
Proof. by intros R e R' [-> _]. Qed.

Lemma metadata_error_unchanged {A} (c : StoreCall A) : is_metadata c = true → clean (call_spec c).
Proof.
  intros Hc; destruct c; try done; simpl;
    try solve [repeat apply guarded_clean; apply reads_clean | apply reads_clean];
    try (apply guarded_clean); unfold clean, spec_prune; intros R e R' Hs; try solve [by destruct Hs];
    try solve [destruct Hs as [(? & ? & ?)|(_ & _ & ->)]; naive_solver].
  - by destruct Hs as [(_ & ? & _)|(_ & -> & _)].
  - by destruct Hs as (_ & k & ?).
Qed.

Lemma blobPath_below d : valid_digest d = true → blobPath d = renv_root ++ ["blobs"; "sha256"; Encoded d].
Proof. intros Hd; rewrite blobPath_eq, blobsRoot_eq by done; by rewrite <- !app_assoc. Qed.
End Laws.

(** * Properties *)

Section Properties.
Context `{RegEnvLaws}.

(** C9: Every call of the SQLite store and of the file-system blob store, on well
    formed tables and directories, keeps them well formed and does to the
    repositories, manifests, tags, uploads, reports, blobs and sessions they hold
    exactly what the abstract registry says, unless a call of the driver or of the
    operating system fails, and then only what the failure may leave behind. *)
Theorem stores_refine_registry {A} (c : StoreCall A) w :
  world_wf w →
  world_wf (call c w).2
  ∧ (call_spec c (view_of w) (call c w).1 (view_of (call c w).2)
     ∨ call_slack c (view_of w) (call c w).1 (view_of (call c w).2) ∧ ¬ world_calm w).
Proof. intros Hw; by destruct (call_meets c w Hw) as (? & _ & ?). Qed.

(** A metadata operation that returns an error, for whatever reason, has
    changed nothing: what it had written is rolled back. *)
Theorem failed_metadata_call_changes_nothing {A} (c : StoreCall A) e w :
  world_wf w → is_metadata c = true → (call c w).1 = Err e → view_of (call c w).2 = view_of w.
Proof.
  intros Hw Hc He; destruct (call_meets c w Hw) as (_ & _ & Hs); rewrite He in Hs.
  destruct Hs as [Hs|[Hs _]]; [by eapply (metadata_error_unchanged c)|].
  destruct c; try done; by destruct Hs.
Qed.

(** The file of a valid digest lies in the store's own directory, below
    [blobs/sha256], whatever the digest's text, and different digests have
    different files. *)
Theorem blob_files_are_confined d d' :
  valid_digest d = true → valid_digest d' = true →
  blobPath d = renv_root ++ ["blobs"; "sha256"; Encoded d] ∧ no_char "/" (Encoded d) = true
  ∧ (blobPath d = blobPath d' → d = d').
Proof.
  intros Hd Hd'; split_and!; [by apply blobPath_below|by destruct (Algorithm_Encoded d Hd) as (_ & _ & _ & ?%hex_no_slash)|].
  rewrite !blobPath_below by done; intros Heq%app_inv_head; injection Heq as Heq.
  by rewrite (digest_of_Encoded d Hd), (digest_of_Encoded d' Hd'), Heq.
Qed.
End Properties.

(** * Witnesses *)

Lemma stores_refine_registry_witness :
  world_wf (call (DoSaveUpload "default" (mkUpload "a" (mkRef "team/app") "active" 0 1 1 "")) new_world).2.
Proof. apply (stores_refine_registry (DoSaveUpload _ _)); exact new_world_wf. Defined.

Lemma failed_metadata_call_changes_nothing_witness :
  view_of (call (DoDeleteTag "default" (mkRef "team/app") "v1") new_world).2 = view_of new_world.
Proof.
  apply (failed_metadata_call_changes_nothing (DoDeleteTag "default" (mkRef "team/app") "v1") (NewNotFoundError "tag" "v1"));
    [exact new_world_wf|reflexivity|vm_compute; reflexivity].
Defined.

Lemma blob_files_are_confined_witness :
  blobPath layer_digest = ["var"; "registry"; "blobs"; "sha256"; Encoded layer_digest].
Proof.
  assert (valid_digest layer_digest = true) as Hv by (vm_compute; reflexivity).
  exact (proj1 (blob_files_are_confined layer_digest layer_digest Hv Hv)).
Defined.

(** * What no sequence of requests can do *)

#[local] Opaque DigestFromBytes.

(** * Definitions *)

(** What the actor may not do on a repository. *)
Definition powerless (svc : RegConfig) (ctx : option Principal) (n : string) : Prop :=
  ¬ allowed svc ctx ActionPush n ∧ ¬ allowed svc ctx ActionDelete n
  ∧ authorizeDeleteRepository svc ctx n ≠ Ok tt.

(** Two registries that show the same manifests and tags of a repository. *)
Definition same_repository (t n : string) (R R' : Registry) : Prop :=
  (∀ d, rg_manifests R' !! (t, n, d) = rg_manifests R !! (t, n, d))
  ∧ (∀ g, rg_tags R' !! (t, n, g) = rg_tags R !! (t, n, g)).

Definition remembered (R R' : Registry) : Prop :=
  ∀ k e, rg_manifests R !! k = Some e →
    ∃ e', rg_manifests R' !! k = Some e' ∧ en_CreatedAt e' = en_CreatedAt e ∧ en_PushedBy e' = en_PushedBy e.

Definition frozen (d : GCReportDetail) : Prop := gc_Status (gcd_Report d) ≠ GCReportStatusReported.

(** * Lemmas *)

Lemma same_repository_refl t n R : same_repository t n R R.
Proof. done. Qed.
Lemma same_repository_trans t n R1 R2 R3 :
  same_repository t n R1 R2 → same_repository t n R2 R3 → same_repository t n R1 R3.
Proof. intros [Hm1 Ht1] [Hm2 Ht2]; split; intros; by rewrite ?Hm2, ?Ht2. Qed.

Section Same.
Variables (t n t0 n0 : string).
Hypothesis Hne : (t, n) ≠ (t0, n0).

Lemma publish_same tag m bs now R : same_repository t n R (publish t0 (mkRef n0) tag m bs now R).
Proof.
  split; intros x; simpl; [by rewrite lookup_insert_ne by congruence|].
  destruct (String.eqb tag ""); [done|by rewrite lookup_insert_ne by congruence].
Qed.

Lemma lookup_filter_other {A B} (P : (string * string * A) * B → Prop) `{∀ x, Decision (P x)} `{Countable A}
    (m : gmap (string * string * A) B) x :
  (∀ v, P ((t, n, x), v)) → filter P m !! (t, n, x) = m !! (t, n, x).
Proof.
  intros Hp; destruct (m !! (t, n, x)) as [v|] eqn:Hv; [by apply map_lookup_filter_Some|].
  apply map_lookup_filter_None; by left.
Qed.

Lemma remove_manifest_same d R : same_repository t n R (remove_manifest t0 n0 d R).
Proof.
  split; intros x; simpl; [by rewrite lookup_delete_ne by congruence|].
  apply lookup_filter_other; simpl; intros v [? _]; congruence.
Qed.

Lemma remove_tag_same g R : same_repository t n R (remove_tag t0 n0 g R).
Proof. split; intros x; simpl; [done|by rewrite lookup_delete_ne by congruence]. Qed.

Lemma remove_repository_same R : same_repository t n R (remove_repository t0 n0 R).
Proof. split; intros x; apply lookup_filter_other; simpl; congruence. Qed.
End Same.

(** The transitions that may change the manifests and tags of a repository are its
    actor's to make. *)
Lemma step_same_repository svc ctx t n R R' :
  (t = tenant svc → powerless svc ctx n) → reg_step svc ctx R R' → same_repository t n R R'.
Proof.
  intros Hp Hs; assert (∀ n0, ¬ powerless svc ctx n0 → (t, n) ≠ (tenant svc, n0)) as Hne
    by (intros n0 Hn0 [= -> ->]; by apply Hn0, Hp).
  destruct Hs; try done.
  - destruct r; apply publish_same, Hne; by intros [? _].
  - apply remove_manifest_same, Hne; by intros (_ & ? & _).
  - apply remove_tag_same, Hne; by intros (_ & ? & _).
  - apply remove_repository_same, Hne; by intros (_ & _ & ?).
Qed.

(** Deletion and expiry of what is remembered. *)
Lemma step_remembered svc ctx R R' : deleteEnabled svc = false → reg_step svc ctx R R' → remembered R R'.
Proof.
  intros Hd Hs k e He; destruct Hs; try congruence; try (by exists e); simpl.
  destruct (decide ((tenant svc, ref_Name r, mf_Digest m) = k)) as [<-|Hne].
  - rewrite lookup_insert_eq, He; by eexists.
  - rewrite lookup_insert_ne by done; by exists e.
Qed.

Lemma remembered_trans R1 R2 R3 : remembered R1 R2 → remembered R2 R3 → remembered R1 R3.
Proof. intros H12 H23 k e He; destruct (H12 k e He) as (e2 & He2 & <- & <-); by apply H23. Qed.

(** * Properties *)

Section Properties.
Context {W : Type} `{UnicodeTables, ManifestCodec, RegistryLaws W}.
Variable svc : RegConfig.

(** C1: Every request to the registry, whatever store calls fail below it, changes
    the registry by a sequence of the guarded transitions of the abstract machine
    made for its actor, and keeps it well formed. *)
Theorem requests_refine_machine ctx rq w :
  good w → good (reg_run svc ctx rq w).2
    ∧ rtc (reg_step svc ctx) (reg_view w) (reg_view (reg_run svc ctx rq w).2).
Proof. intros Hg; by destruct (reg_run_after svc ctx rq w Hg) as (? & _ & ?). Qed.

(** C2: After any sequence of requests every blob a stored manifest references is
    there with exactly the bytes its digest names, every manifest is stored under
    the digest of its payload, and every tag points at a stored manifest. *)
Theorem manifests_are_complete rqs w :
  good w →
  let R := reg_view (reg_run_all svc rqs w) in
  (∀ k e b, rg_manifests R !! k = Some e → b ∈ en_Blobs e →
     ∃ f, rg_blobs R !! desc_Digest b = Some f ∧ DigestFromBytes (bf_Content f) = desc_Digest b)
  ∧ (∀ t n d e, rg_manifests R !! (t, n, d) = Some e → d = DigestFromBytes (en_Payload e))
  ∧ (∀ t n g d, rg_tags R !! (t, n, g) = Some d → is_Some (rg_manifests R !! (t, n, d))).
Proof.
  intros Hg; destruct (reg_run_all_after svc rqs w Hg) as [[_ Hi] _]; intros R; split_and!.
  - intros k e b He Hb; destruct (inv_blobs _ Hi k e b He Hb) as [f Hf]; exists f; split; [done|by apply Hi].
  - intros t n d e He; by apply (inv_manifest _ Hi) in He as [? _].
  - apply (inv_tag _ Hi).
Qed.

(** C12: Bytes the registry serves for a digest hash to that digest, were asked for
    by an actor who may pull from the named repository, and come with their true
    size; reading them changes nothing. This holds whatever fails. *)
Theorem served_blob_is_authentic ctx name digest content details w :
  good w → (OpenBlob svc ctx name digest w).1 = Ok (content, details) →
  DigestFromBytes content = digest ∧ allowed svc ctx ActionPull name
  ∧ details = mkBlobDetails name "" digest (Z.of_nat (String.length content))
  ∧ reg_view (OpenBlob svc ctx name digest w).2 = reg_view w.
Proof.
  intros Hg Hrun; assert (wp (OpenBlob svc ctx name digest) (λ r w', ∀ c d, r = Ok (c, d) →
    DigestFromBytes c = digest ∧ allowed svc ctx ActionPull name
    ∧ d = mkBlobDetails name "" digest (Z.of_nat (String.length c)) ∧ reg_view w' = reg_view w) w) as Hwp.
  { apply wp_sbind, wp_slift; destruct (ParseDigest digest) as [d|e] eqn:Hd; [|done].
    pose proof Hd as [-> _]%ParseDigest_ok.
    assert (valid_digest digest = true) as Hv by by apply valid_digest_spec.
    apply wp_sbind, wp_slift; destruct (authorize svc ctx _) as [[]|e] eqn:Ha; [|done].
    apply wp_sbind; eapply (wp_read svc ctx _ _ _ w);
      [eapply reg_ok_guard; [apply OpenBlob_ok|by apply (Digest_Validate_ok _ tt)]|by apply after_refl|].
    intros r w1 _ Hv1 Hr; destruct r as [o|e]; [|done]; apply wp_sret; intros c det [= <- <-].
    destruct Hr as [Hr|[[e He] _]]; [|done].
    destruct (rg_blobs (reg_view w) !! digest) as [f|] eqn:Hf; [|done]; injection Hr as ->; simpl.
    split_and!; try done; by apply (inv_content _ (proj2 Hg)). }
  by apply Hwp.
Qed.

(** While manifest deletion is off no request makes a published manifest
    disappear, and no later push of the same digest changes when it was first
    pushed or by whom. *)
Theorem first_push_is_remembered rqs w :
  good w → deleteEnabled svc = false → remembered (reg_view w) (reg_view (reg_run_all svc rqs w)).
Proof.
  intros Hg Hd; destruct (reg_run_all_after svc rqs w Hg) as [_ Hs].
  eapply moves_respect; [..|exact Hs]; [by intros R k e He; exists e|exact remembered_trans|].
  intros *; by apply step_remembered.
Qed.

(** An actor who may neither push to a repository nor delete from it nor
    administer it cannot change any of its manifests or tags by any request. *)
Theorem powerless_actor_changes_nothing ctx n rq w :
  good w → powerless svc ctx n →
  same_repository (tenant svc) n (reg_view w) (reg_view (reg_run svc ctx rq w).2).
Proof.
  intros Hg Hp; destruct (reg_run_after svc ctx rq w Hg) as (_ & _ & Hs).
  eapply steps_respect; [..|apply Hg|exact Hs]; [done|intros *; apply same_repository_trans|].
  intros R1 R2 _; by apply step_same_repository.
Qed.

(** A service of one tenant never changes a manifest or tag of another. *)
Theorem other_tenants_untouched t n rqs w :
  good w → t ≠ tenant svc → same_repository t n (reg_view w) (reg_view (reg_run_all svc rqs w)).
Proof.
  intros Hg Ht; destruct (reg_run_all_after svc rqs w Hg) as [_ Hs].
  eapply moves_respect; [..|exact Hs]; [done|intros *; apply same_repository_trans|].
  intros *; by apply step_same_repository.
Qed.
End Properties.

(** * Witnesses *)

Lemma requests_refine_machine_witness :
  good (reg_run example_svc (Some pusher) (RqDeleteRepository "team/app") published_world).2.
Proof. apply requests_refine_machine, example_good. Defined.

Lemma manifests_are_complete_witness :
  ∃ e, rg_manifests (reg_view published_world) !! ("default", "team/app", payload_digest) = Some e
    ∧ DigestFromBytes (en_Payload e) = payload_digest.
Proof.
  destruct (manifests_are_complete example_svc push_requests new_world new_world_good) as (_ & Hm & _).
  eexists; split; [vm_compute; reflexivity|].
  symmetry; apply (Hm "default" "team/app" payload_digest); vm_compute; reflexivity.
Defined.

Lemma served_blob_is_authentic_witness : DigestFromBytes layer_data = layer_digest.
Proof.
  apply (served_blob_is_authentic example_svc (Some pusher) "team/app" layer_digest layer_data
    (mkBlobDetails "team/app" "" layer_digest 11) published_world (example_good push_requests)).
  vm_compute; reflexivity.
Defined.

Lemma first_push_is_remembered_witness :
  ∃ e, rg_manifests (reg_view (reg_run_all locked_svc [(Some pusher, RqDeleteManifest "team/app" payload_digest);
         (Some pusher, RqPublishManifest "team/app" "v2" "" layer_digest)] published_world))
       !! ("default", "team/app", payload_digest) = Some e ∧ en_PushedBy e = "u1".
Proof.
  edestruct (first_push_is_remembered locked_svc [(Some pusher, RqDeleteManifest "team/app" payload_digest);
    (Some pusher, RqPublishManifest "team/app" "v2" "" layer_digest)] published_world (example_good push_requests) eq_refl
    ("default", "team/app", payload_digest)) as (e & He & _ & Hby); [vm_compute; reflexivity|].
  exists e; split; [exact He|exact Hby].
Defined.

Lemma powerless_actor_changes_nothing_witness :
  powerless example_svc (Some outsider) "team/app"
  ∧ same_repository "default" "team/app" (reg_view published_world)
      (reg_view (reg_run example_svc (Some outsider) (RqDeleteManifest "team/app" "v1") published_world).2).
Proof.
  assert (powerless example_svc (Some outsider) "team/app") as Hp by (split_and!; by vm_compute).
  split; [exact Hp|].
  exact (powerless_actor_changes_nothing example_svc (Some outsider) "team/app" (RqDeleteManifest "team/app" "v1")
    published_world (example_good push_requests) Hp).
Defined.

Lemma other_tenants_untouched_witness :
  same_repository "default" "team/app" (reg_view published_world)
    (reg_view (reg_run_all other_svc [(Some pusher, RqDeleteRepository "team/app")] published_world)).
Proof. apply (other_tenants_untouched other_svc); [apply example_good|done]. Defined.
