(* ===== verification/RegRoundTrips.v ===== *)
(** What a client gets back from the registry when nothing below it fails: an
    upload in any number of chunks serves the bytes that were sent, a published
    manifest resolves by tag and by digest, an incomplete one is refused, and a
    deleted one is gone.

    Listings a page at a time: a client that keeps asking for the next page sees
    every tag exactly once and in order, and stops; the referrers of a subject are
    exactly the manifests that name it. *)
From S2P Require Import Prelude GoStrings Errors Repository Digest GoNumbers Manifest Scope Auth Access.
From S2P Require Import PgExample RegPorts RegWorld Registry FsBlob MetaStore RegView FsLaws RegService Gc.
From S2P Require Import MetaLaws RegLaws RegSteps RegUploads RegManifests RegRequests RegExample.

(** * Round trips *)

#[local] Opaque DigestFromBytes.

(** * Definitions *)

(** The upload rows are all of one tenant. *)
Definition single_tenant (svc : RegConfig) (R : Registry) : Prop :=
  ∀ id t u, rg_uploads R !! id = Some (t, u) → t = tenant svc.

(** An upload of [repo] that has received [data]. *)
Definition uploading (svc : RegConfig) (R : Registry) (id : string) (repo : RepositoryRef) (data : string) : Prop :=
  (∃ st, rg_incoming R !! id = Some (mkSession data (Some st)) ∧ up_ID st = id ∧ up_Repository st = repo)
  ∧ ∃ u, rg_uploads R !! id = Some (tenant svc, u) ∧ up_Repository u = repo.

Section Client.
Context {W : Type} `{!BlobStore W, !MetadataStore W, !RegRuntime W}.
Variables (svc : RegConfig) (ctx : option Principal).

(** A client that sends its chunks one after the other. *)
Definition append_all (name id : string) (chunks : list string) (w : W) : W :=
  foldl (λ w c, (AppendUpload svc ctx name id (mkReader c None) w).2) w chunks.
End Client.

Definition sent (chunks : list string) : string := foldl String.append "" chunks.

(** * Lemmas *)

Lemma at_upload_uploading {A} svc ctx name id repo data (k : UploadState → Registry → res A → Registry → Prop) R r R' :
  uploading svc R id repo data → parseRepository name = Ok repo → authorize svc ctx (mkAction ActionPush (ref_String repo) None) = Ok tt →
  at_upload svc ctx name id k R r R' → ∃ u, up_Repository u = repo ∧ k u R r R'.
Proof.
  intros (_ & u & Hu & Hrepo) Hp Ha Hat; exists u; split; [done|]; unfold at_upload in Hat; rewrite Hp in Hat; simpl in Hat.
  rewrite Hu, Hrepo, !String.eqb_refl in Hat; simpl in Hat; by rewrite Ha in Hat.
Qed.

Lemma received_uploading {A} svc id c repo data (k : UploadState → Registry → res A → Registry → Prop) R r R' :
  uploading svc R id repo data → received svc id (mkReader c None) k R r R' →
  ∃ st' R1, uploading svc R1 id repo (String.append data c) ∧ k st' R1 r R'.
Proof.
  intros [(st & Hin & Hid & Hrepo) (u & Hu & Hru)]; unfold received; rewrite Hin; simpl.
  intros (st' & (Hid' & Hrepo' & _) & Hk); eexists st', _; split; [|exact Hk]; split.
  - exists st'; simpl; rewrite lookup_partial_alter_eq; split_and!; congruence.
  - exists st'; simpl; rewrite Hid', Hid, lookup_insert_eq, Hu; split; [done|congruence].
Qed.

Lemma begun_uploading svc id repo now st R :
  single_tenant svc R → begun id repo now st →
  uploading svc (save_upload (tenant svc) st (set_session id (Some (mkSession "" (Some st))) R)) id repo "".
Proof.
  intros Ht (Hid & Hrepo & _); split.
  - exists st; simpl; by rewrite lookup_partial_alter_eq.
  - exists st; simpl; rewrite Hid, lookup_insert_eq; split; [|done].
    destruct (rg_uploads R !! id) as [[t u]|] eqn:Hu; [by rewrite (Ht _ _ _ Hu)|done].
Qed.

Section Calm.
Context {W : Type} `{UnicodeTables, ManifestCodec, RegistryLaws W}.
Variables (svc : RegConfig) (ctx : option Principal).

Lemma run_calm {A} (m : M W A) spec w : serves svc ctx m spec → good w → reg_calm w →
  good (m w).2 ∧ reg_calm (m w).2 ∧ spec (reg_view w) (m w).1 (reg_view (m w).2).
Proof.
  intros Hm Hg Hc; destruct (Hm w Hg) as [(Hg' & Hl & _) Hs]; split_and!; [done|by eapply reg_calm_later|by apply Hs].
Qed.

Lemma append_all_uploading name id repo chunks data w :
  good w → reg_calm w → parseRepository name = Ok repo → allowed svc ctx ActionPush (ref_String repo) →
  uploading svc (reg_view w) id repo data →
  let w' := append_all svc ctx name id chunks w in
  good w' ∧ reg_calm w' ∧ uploading svc (reg_view w') id repo (foldl String.append data chunks).
Proof.
  intros Hg Hc Hp Ha; revert data w Hg Hc; induction chunks as [|c chunks IH]; intros data w Hg Hc Hu; simpl; [done|].
  destruct (run_calm _ _ w (AppendUpload_serves svc ctx name id (mkReader c None)) Hg Hc) as (Hg' & Hc' & Hs).
  apply IH; [done..|]; eapply at_upload_uploading in Hs as (u & _ & Hs); [|done..].
  eapply received_uploading in Hs as (st' & R1 & Hu1 & _ & ->); done.
Qed.

Lemma publish_lookup repo reference tag m now R :
  rg_manifests (with_scan svc repo reference tag m (publish (tenant svc) repo tag m (BlobReferences m) now R))
    !! (tenant svc, ref_Name repo, mf_Digest m)
  = Some (publish_entry (rg_manifests R !! (tenant svc, ref_Name repo, mf_Digest m)) m (BlobReferences m) now).
Proof.
  unfold with_scan; destruct (isReferrerArtifactPush m tag); simpl; by rewrite lookup_insert_eq.
Qed.
Lemma publish_tag repo reference tag m now R : tag ≠ "" →
  rg_tags (with_scan svc repo reference tag m (publish (tenant svc) repo tag m (BlobReferences m) now R))
    !! (tenant svc, ref_Name repo, tag) = Some (mf_Digest m).
Proof.
  intros Ht; unfold with_scan; destruct (isReferrerArtifactPush m tag); simpl; rewrite (proj2 (String.eqb_neq _ _) Ht);
    by rewrite lookup_insert_eq.
Qed.
End Calm.

(** * Properties *)

Section Properties.
Context {W : Type} `{UnicodeTables, ManifestCodec, RegistryLaws W}.
Variables (svc : RegConfig) (ctx : option Principal).

(** C13: When nothing fails, an upload that was begun and sent in any number of
    chunks completes under the digest of the bytes sent, its session ends, and the
    blob then opens with exactly those bytes. *)
Theorem upload_round_trip name chunks final d w :
  good w → reg_calm w → single_tenant svc (reg_view w) → (BeginUpload svc ctx name w).1 = Ok d →
  allowed svc ctx ActionPull (trim_space name) →
  let w1 := append_all svc ctx name (ud_ID d) chunks (BeginUpload svc ctx name w).2 in
  let data := String.append (sent chunks) final in
  let digest := DigestFromBytes data in
  let details := mkBlobDetails (trim_space name) "" digest (Z.of_nat (String.length data)) in
  let complete := CompleteUpload svc ctx name (ud_ID d) digest (Some (mkReader final None)) w1 in
  complete.1 = Ok details ∧ rg_incoming (reg_view complete.2) !! ud_ID d = None
  ∧ (OpenBlob svc ctx (trim_space name) digest complete.2).1 = Ok (data, details).
Proof.
  intros Hg Hc Ht Hb Hpull w1 data digest details complete.
  destruct (run_calm svc ctx _ _ w (BeginUpload_serves svc ctx name) Hg Hc) as (Hg1 & Hc1 & Hs).
  rewrite Hb in Hs; unfold spec_BeginUpload, given in Hs.
  destruct (parseRepository name) as [repo|] eqn:Hp; [|by destruct Hs].
  destruct (authorize svc ctx (mkAction ActionPush (ref_String repo) None)) as [[]|] eqn:Ha; [|by destruct Hs].
  destruct Hs as [(id & now & st & Hid & Hfr & Hbegun & [= Hd] & Hw)|[_ [_ [e ?]]]]; [|done].
  assert (ud_ID d = id) as Hdid by (rewrite Hd; simpl; apply Hbegun).
  assert (ref_String repo = trim_space name) as Hname by (by apply parsed_ref_valid in Hp as [-> _]).
  destruct (append_all_uploading svc ctx name (ud_ID d) repo chunks "" (BeginUpload svc ctx name w).2)
    as (Hg2 & Hc2 & Hu2); [done..| |].
  { rewrite Hw, Hdid; by eapply begun_uploading. }
  destruct (run_calm svc ctx _ _ w1 (CompleteUpload_serves svc ctx name (ud_ID d) digest (Some (mkReader final None))) Hg2 Hc2)
    as (Hg3 & Hc3 & Hs3); fold complete in Hg3, Hc3, Hs3.
  eapply at_upload_uploading in Hs3 as (u & Hu & Hs3); [|done..].
  eapply received_uploading in Hs3 as (st' & R1 & [(st1 & Hin & _) _] & Hs3); [|done].
  unfold committed, given in Hs3; rewrite (DigestFromBytes_ParseDigest data : ParseDigest digest = _) in Hs3.
  unfold commit_session in Hs3; rewrite Hin in Hs3; simpl in Hs3.
  fold (sent chunks) in Hs3; fold data digest in Hs3; rewrite String.eqb_refl, Hu, Hname in Hs3.
  destruct Hs3 as (Hok & mtime & HR); split; [exact Hok|]; rewrite HR; split; [apply lookup_partial_alter_eq|].
  destruct (run_calm svc ctx _ _ complete.2 (OpenBlob_serves svc ctx (trim_space name) digest) Hg3 Hc3) as (_ & _ & Ho).
  unfold spec_OpenBlob, given in Ho; rewrite (DigestFromBytes_ParseDigest data : ParseDigest digest = _), Hpull in Ho.
  destruct Ho as [_ Ho]; rewrite HR in Ho; simpl in Ho; by rewrite lookup_insert_eq in Ho.
Qed.

(** When nothing fails, a manifest that was published resolves, by the
    reference it was pushed under and by its digest, to the digest of its payload,
    its media type, size and blobs. *)
Theorem publish_then_resolve name reference mediaType payload d w reference' :
  good w → reg_calm w → (PublishManifest svc ctx name reference mediaType payload w).1 = Ok d →
  allowed svc ctx ActionPull (trim_space name) →
  reference' = trim_space reference ∨ reference' = DigestFromBytes payload →
  let w1 := (PublishManifest svc ctx name reference mediaType payload w).2 in
  md_Digest d = DigestFromBytes payload
  ∧ ∃ d', (ResolveManifest svc ctx name reference' w1).1 = Ok d' ∧ md_Digest d' = md_Digest d
      ∧ md_MediaType d' = md_MediaType d ∧ md_Size d' = md_Size d ∧ md_Blobs d' = md_Blobs d
      ∧ md_Platforms d' = md_Platforms d.
Proof.
  intros Hg Hc Hpub Hpull Href w1.
  destruct (run_calm svc ctx _ _ w (PublishManifest_serves svc ctx name reference mediaType payload) Hg Hc) as (Hg1 & Hc1 & Hs).
  rewrite Hpub in Hs; fold w1 in Hg1, Hc1, Hs; unfold spec_PublishManifest, given in Hs.
  destruct (parseRepository name) as [repo|] eqn:Hp; [|by destruct Hs].
  destruct (authorize svc ctx _) as [[]|]; [|by destruct Hs].
  destruct (parseManifestPayload reference mediaType payload) as [[m0 tag]|] eqn:Hparse; [|by destruct Hs]; simpl in Hs.
  destruct (parseManifestPayload_ok _ _ _ _ _ Hparse) as (Hm0 & Hpay & Htag); set (m := pushed ctx m0) in *.
  assert (Manifest_Validate m = Ok tt) as Hm by (unfold m; by rewrite pushed_Validate).
  destruct (Manifest_Validate_ok m tt Hm) as (Hmt & Hdig & Hsz & _ & _).
  assert (mf_Payload m = payload) as Hpm by (unfold m, pushed; by destruct ctx).
  assert (mf_Digest m0 = mf_Digest m) as Hd0 by (unfold m, pushed; by destruct ctx).
  rewrite Hpm in Hdig, Hsz; rewrite Hd0 in Htag; unfold publishes in Hs.
  destruct (List.find _ _); [by destruct Hs|]; destruct (subject_missing svc (reg_view w) repo m); [by destruct Hs|].
  destruct Hs as ([= ->] & now & HR); split; [done|].
  destruct (run_calm svc ctx _ _ w1 (ResolveManifest_serves svc ctx name reference') Hg1 Hc1) as (_ & _ & Hr).
  assert (ref_String repo = trim_space name) as Hname by (by apply parsed_ref_valid in Hp as [-> _]).
  unfold spec_ResolveManifest, given in Hr; rewrite Hp, Hname, Hpull in Hr; destruct Hr as [_ Hr].
  set (e := publish_entry (rg_manifests (reg_view w) !! (tenant svc, ref_Name repo, mf_Digest m)) m (BlobReferences m) now).
  assert (resolve (reg_view w1) (tenant svc) (ref_Name repo) reference' = Some e) as He.
  { rewrite HR; unfold resolve; destruct (decide (reference' = DigestFromBytes payload)) as [->|Hne].
    - by rewrite DigestFromBytes_valid, <- Hdig, publish_lookup.
    - destruct Htag as [[_ Ht]|(Ht & Hnt & Hv)]; [destruct Href; congruence|].
      assert (reference' = tag) as -> by (destruct Href; congruence).
      by rewrite Hv, publish_tag; [simpl; rewrite publish_lookup|]. }
  rewrite He in Hr; eexists; split; [exact Hr|]; simpl; rewrite Hpm, Hdig, Hsz, Hname; split_and!; try done.
Qed.

(** When nothing fails, a push of a manifest whose blobs are not all there, or
    whose subject is not a manifest of the repository, is refused with a conflict
    and changes nothing. *)
Theorem incomplete_manifest_is_refused name reference mediaType payload repo m tag w :
  good w → reg_calm w → parseRepository name = Ok repo → allowed svc ctx ActionPush (ref_String repo) →
  parseManifestPayload reference mediaType payload = Ok (m, tag) →
  (∃ b, b ∈ BlobReferences m ∧ rg_blobs (reg_view w) !! desc_Digest b = None)
  ∨ (∃ s, mf_Subject m = Some s ∧ rg_manifests (reg_view w) !! (tenant svc, ref_Name repo, desc_Digest s) = None) →
  let run := PublishManifest svc ctx name reference mediaType payload w in
  (∃ e, run.1 = Err e ∧ reg_is_code e CodeConflict = true) ∧ reg_view run.2 = reg_view w.
Proof.
  intros Hg Hc Hp Ha Hparse Hmiss run.
  destruct (run_calm svc ctx _ _ w (PublishManifest_serves svc ctx name reference mediaType payload) Hg Hc) as (_ & _ & Hs).
  fold run in Hs; unfold spec_PublishManifest, given in Hs; rewrite Hp, Ha, Hparse in Hs; simpl in Hs.
  unfold publishes in Hs.
  assert (BlobReferences (pushed ctx m) = BlobReferences m ∧ mf_Subject (pushed ctx m) = mf_Subject m) as [Hrefs Hsub]
    by (unfold pushed; by destruct ctx).
  rewrite Hrefs in Hs; destruct (List.find _ _) as [b|] eqn:Hf.
  { destruct Hs as [-> ->]; split; [by eexists|done]. }
  destruct Hmiss as [(b & Hb & Hn)|(s & Hsm & Hn)].
  - by destruct (find_missing_None _ _ b Hf Hb) as [f Hb']; rewrite Hn in Hb'.
  - unfold subject_missing in Hs; rewrite Hsub, Hsm in Hs; simpl in Hs; rewrite Hn in Hs.
    destruct Hs as [-> ->]; split; [by eexists|done].
Qed.

(** When nothing fails, a manifest deleted by its digest is gone together with
    exactly the tags that pointed at it, whose names the answer lists in order;
    every other manifest, tag and blob stays, and the digest no longer resolves. *)
Theorem deleted_manifest_is_gone name digest d w :
  good w → reg_calm w → valid_digest digest = true → (DeleteManifest svc ctx name digest w).1 = Ok d →
  let w1 := (DeleteManifest svc ctx name digest w).2 in let R := reg_view w in let R1 := reg_view w1 in
  let n := trim_space name in
  is_Some (rg_manifests R !! (tenant svc, n, digest))
  ∧ rg_manifests R1 = delete (tenant svc, n, digest) (rg_manifests R)
  ∧ (∀ k, rg_tags R1 !! k = (if decide (k.1 = (tenant svc, n) ∧ rg_tags R !! k = Some digest) then None else rg_tags R !! k))
  ∧ StronglySorted str_le (dd_TagsRemoved d) ∧ NoDup (dd_TagsRemoved d)
  ∧ (∀ g, g ∈ dd_TagsRemoved d ↔ rg_tags R !! (tenant svc, n, g) = Some digest)
  ∧ rg_blobs R1 = rg_blobs R
  ∧ (allowed svc ctx ActionPull n →
     (ResolveManifest svc ctx name digest w1).1 = Err (NewNotFoundError "manifest" digest)).
Proof.
  intros Hg Hc Hv Hdel w1 R R1 n.
  destruct (run_calm svc ctx _ _ w (DeleteManifest_serves svc ctx name digest) Hg Hc) as (Hg1 & Hc1 & Hs).
  rewrite Hdel in Hs; unfold spec_DeleteManifest, given, rguard in Hs; fold w1 in Hg1, Hc1, Hs.
  destruct (parseRepository name) as [repo|] eqn:Hp; [|by destruct Hs].
  destruct (authorize svc ctx _) as [[]|]; [|by destruct Hs]; destruct (deleteEnabled svc); [|by destruct Hs].
  rewrite Hv in Hs; assert (ref_Name repo = n) as Hn by (by apply parsed_ref_valid in Hp as [-> _]); rewrite Hn in Hs.
  fold R R1 in Hs; destruct (rg_manifests R !! (tenant svc, n, digest)) as [e|]; [|by destruct Hs].
  destruct Hs as (HR1 & tags & [= ->] & Hsort & Hnd & Hin); split_and!; try done; rewrite ?HR1; try done.
  - intros [[t n'] g]; simpl; case_decide as Hk.
    + destruct Hk as [[= -> ->] Hg']; apply map_lookup_filter_None; right; intros x Hx Hno; apply Hno; simpl; split; congruence.
    + destruct (rg_tags R !! (t, n', g)) as [x|] eqn:Hx; [|apply map_lookup_filter_None; by left].
      apply map_lookup_filter_Some; split; [done|]; simpl; intros [[= -> ->] ->]; by apply Hk.
  - intros Hpull; destruct (run_calm svc ctx _ _ w1 (ResolveManifest_serves svc ctx name digest) Hg1 Hc1) as (_ & _ & Hr).
    assert (ref_String repo = n) as Hn' by done.
    unfold spec_ResolveManifest, given in Hr; rewrite Hp, Hn', Hpull in Hr; destruct Hr as [_ ->].
    unfold resolve; rewrite Hv, Hn; fold R1; rewrite HR1; simpl; by rewrite lookup_delete_eq.
Qed.
End Properties.

(** * Witnesses *)

Lemma upload_round_trip_witness :
  (OpenBlob example_svc (Some pusher) "team/app" layer_digest
     (CompleteUpload example_svc (Some pusher) "team/app" upload_id layer_digest (Some (mkReader "bytes" None))
        (append_all example_svc (Some pusher) "team/app" upload_id ["lay"; "er "]
           (BeginUpload example_svc (Some pusher) "team/app" new_world).2)).2).1
  = Ok (layer_data, mkBlobDetails "team/app" "" layer_digest 11).
Proof.
  assert (∃ d, (BeginUpload example_svc (Some pusher) "team/app" new_world).1 = Ok d ∧ ud_ID d = upload_id)
    as (d & Hd & Hid) by (eexists; split; vm_compute; reflexivity).
  assert (single_tenant example_svc (reg_view new_world)) as Ht
    by (intros id t u; rewrite new_world_view; simpl; by rewrite lookup_empty).
  assert (allowed example_svc (Some pusher) ActionPull (trim_space "team/app")) as Hp by (vm_compute; reflexivity).
  destruct (upload_round_trip example_svc (Some pusher) "team/app" ["lay"; "er "] "bytes" d new_world
    new_world_good (example_reg_calm _) Ht Hd Hp) as (_ & _ & Ho).
  rewrite Hid in Ho; exact Ho.
Defined.

Lemma publish_then_resolve_witness :
  ∃ d, (ResolveManifest example_svc (Some pusher) "team/app" "v1"
          (PublishManifest example_svc (Some pusher) "team/app" "v1" "" layer_digest committed_world).2).1 = Ok d
    ∧ md_MediaType d = image_media_type.
Proof.
  assert (∃ d, (PublishManifest example_svc (Some pusher) "team/app" "v1" "" layer_digest committed_world).1 = Ok d
    ∧ md_MediaType d = image_media_type) as (d & Hd & Hmt) by (eexists; split; vm_compute; reflexivity).
  assert (allowed example_svc (Some pusher) ActionPull (trim_space "team/app")) as Hp by (vm_compute; reflexivity).
  destruct (publish_then_resolve example_svc (Some pusher) "team/app" "v1" "" layer_digest d committed_world "v1"
    (example_good (take 3 push_requests)) (example_reg_calm _) Hd Hp (or_introl eq_refl)) as (_ & d' & Hr & _ & Hmt' & _).
  exists d'; split; [exact Hr|by rewrite Hmt'].
Defined.

Lemma incomplete_manifest_is_refused_witness :
  reg_view (PublishManifest example_svc (Some pusher) "team/app" "v1" "" layer_digest new_world).2 = reg_view new_world.
Proof.
  assert (∃ m, parseManifestPayload "v1" "" layer_digest = Ok (m, "v1") ∧ BlobReferences m = [mkDescriptor "application/octet-stream" layer_digest 0])
    as (m & Hm & Hrefs) by (eexists; split; vm_compute; reflexivity).
  assert (allowed example_svc (Some pusher) ActionPush "team/app") as Hp by (vm_compute; reflexivity).
  assert (parseRepository "team/app" = Ok (mkRef "team/app")) as Hr by (vm_compute; reflexivity).
  apply (incomplete_manifest_is_refused example_svc (Some pusher) "team/app" "v1" "" layer_digest (mkRef "team/app") m "v1"
    new_world new_world_good (example_reg_calm _) Hr Hp Hm).
  left; exists (mkDescriptor "application/octet-stream" layer_digest 0); rewrite Hrefs; split; [by left|].
  rewrite new_world_view; apply lookup_empty.
Defined.

Lemma deleted_manifest_is_gone_witness :
  (ResolveManifest example_svc (Some pusher) "team/app" payload_digest
     (DeleteManifest example_svc (Some pusher) "team/app" payload_digest published_world).2).1
  = Err (NewNotFoundError "manifest" payload_digest).
Proof.
  assert (∃ d, (DeleteManifest example_svc (Some pusher) "team/app" payload_digest published_world).1 = Ok d) as [d Hd]
    by (eexists; vm_compute; reflexivity).
  assert (allowed example_svc (Some pusher) ActionPull (trim_space "team/app")) as Hp by (vm_compute; reflexivity).
  assert (valid_digest payload_digest = true) as Hv by (vm_compute; reflexivity).
  by apply (deleted_manifest_is_gone example_svc (Some pusher) "team/app" payload_digest d published_world
    (example_good push_requests) (example_reg_calm _) Hv Hd).
Defined.

(** * Listings *)

#[local] Opaque DigestFromBytes.

(** * Definitions *)

Section Client.
Context {W : Type} `{!BlobStore W, !MetadataStore W, !RegRuntime W}.
Variables (svc : RegConfig) (ctx : option Principal).

(** A client that asks for pages of [limit] tags until one is short. *)
Fixpoint all_tags (fuel : nat) (name : string) (limit : nat) (start : string) : M W (list string) :=
  match fuel with
  | O => sthrow (OtherError "too many pages")
  | S fuel' =>
      let! page := Tags svc ctx name (Z.of_nat limit) start in
      if (length page.2 <? limit)%nat then sret page.2 else
      let! rest := all_tags fuel' name limit (List.last page.2 "") in
      sret (page.2 ++ rest)
  end.
End Client.

(** The names of a listing, each once and in order. *)
Definition enumerates (member : string → Prop) (l : list string) : Prop :=
  StronglySorted str_le l ∧ NoDup l ∧ ∀ x, x ∈ l ↔ member x.

(** * Lemmas *)

Section Lists.
Context {A : Type} (P : A → Prop) `{∀ x, Decision (P x)}.

Lemma filter_all l : Forall P l → filter P l = l.
Proof. induction 1; [done|]; rewrite filter_cons_True by done; by f_equal. Qed.
Lemma filter_none l : Forall (λ x, ¬ P x) l → filter P l = [].
Proof. induction 1; [done|]; by rewrite filter_cons_False. Qed.
End Lists.

Lemma sorted_filter {A} (R : relation A) (P : A → Prop) `{∀ x, Decision (P x)} l :
  StronglySorted R l → StronglySorted R (filter P l).
Proof.
  induction 1 as [|x l Hs IH Hx]; [apply SSorted_nil|]; rewrite filter_cons; case_decide; [|done].
  apply SSorted_cons; [done|]; rewrite Forall_forall in *; intros y [_ Hy]%list_elem_of_filter; by apply Hx.
Qed.

Lemma sorted_app_le {A} (R : relation A) l1 l2 x y : StronglySorted R (l1 ++ l2) → x ∈ l1 → y ∈ l2 → R x y.
Proof.
  induction l1 as [|z l1 IH]; simpl; [by intros _ ?%elem_of_nil|].
  intros [Hs Hz]%StronglySorted_inv Hx Hy; rewrite Forall_forall in Hz.
  apply elem_of_cons in Hx as [->|Hx]; [apply Hz; set_solver|by apply IH].
Qed.

Lemma last_snoc_ne {A} (l : list A) d : l ≠ [] → ∃ l' , l = l' ++ [List.last l d].
Proof. intros Hl; exists (removelast l); by apply app_removelast_last. Qed.

(** What comes after the last name already seen. *)
Lemma filter_after before rest :
  StronglySorted str_le (before ++ rest) → NoDup (before ++ rest) → "" ∉ before →
  filter (λ x, List.last before "" = "" ∨ ¬ str_le x (List.last before "")) (before ++ rest) = rest.
Proof.
  intros Hs Hnd Hne; destruct (decide (before = [])) as [->|Hb].
  { apply filter_all, Forall_forall; by left. }
  destruct (last_snoc_ne before "" Hb) as [b Heq]; set (y := List.last before "") in *.
  assert (y ∈ before) as Hy by (rewrite Heq; set_solver).
  assert (y ≠ "") as Hy0 by congruence.
  assert (∀ x, x ∈ before → str_le x y) as Hle.
  { intros x; rewrite Heq, elem_of_app, list_elem_of_singleton; intros [Hx| ->]; [|apply str_leb_refl].
    rewrite Heq, <- app_assoc in Hs; eapply sorted_app_le; [exact Hs|done|set_solver]. }
  rewrite filter_app, filter_none, filter_all; [done|apply Forall_forall..].
  - intros x Hx; right; intros Hxy; assert (str_le y x) as Hyx by by eapply sorted_app_le.
    apply NoDup_app in Hnd as (_ & Hnd & _); apply (Hnd y Hy); by rewrite (str_le_antisym y x).
  - intros x Hx [|Hn]; [done|]; by apply Hn, Hle.
Qed.

Lemma page_of member L limit start l :
  enumerates member L → (0 < limit)%nat → paged id (Z.of_nat limit) start member l →
  l = take limit (filter (λ x, start = "" ∨ ¬ str_le x start) L).
Proof.
  intros (Hs & Hnd & HL) Hlim (full & Hfs & Hfn & Hfull & ->).
  rewrite (proj2 (Z.ltb_lt 0 _)), Nat2Z.id by lia; f_equal; apply (sorted_unique id); [done|done| | | |done].
  - by apply sorted_filter.
  - by apply NoDup_filter.
  - intros x; rewrite Hfull, list_elem_of_filter, HL; unfold id; tauto.
Qed.

Section Walk.
Context {W : Type} `{UnicodeTables, ManifestCodec, RegistryLaws W}.
Variables (svc : RegConfig) (ctx : option Principal).

Lemma all_tags_rest name repo limit L before rest fuel w :
  good w → reg_calm w → parseRepository name = Ok repo → allowed svc ctx ActionInspect (ref_String repo) → (0 < limit)%nat →
  enumerates (λ g, is_Some (rg_tags (reg_view w) !! (tenant svc, ref_Name repo, g))) L → "" ∉ L →
  L = before ++ rest → (length rest < fuel)%nat →
  let run := all_tags svc ctx fuel name limit (List.last before "") w in
  run.1 = Ok rest ∧ reg_view run.2 = reg_view w.
Proof.
  intros Hg Hc Hp Ha Hlim HL Hne; revert before rest w Hg Hc HL; induction fuel as [|fuel IH]; intros before rest w Hg Hc HL HLeq Hf; [lia|].
  cbn [all_tags]; unfold sbind.
  destruct (run_calm svc ctx _ _ w (Tags_serves svc ctx name (Z.of_nat limit) (List.last before "")) Hg Hc) as (Hg1 & Hc1 & Hs).
  unfold spec_Tags, given in Hs; rewrite Hp, Ha in Hs.
  destruct (Tags svc ctx name (Z.of_nat limit) (List.last before "") w) as [r w1]; simpl in Hg1, Hc1, Hs.
  destruct Hs as (Hv1 & l & -> & Hpage); eapply page_of in Hpage; [|exact HL|done].
  pose proof HL as (Hsort & Hnd & _).
  rewrite HLeq, filter_after in Hpage; [|by rewrite <- HLeq..|set_solver]; subst l; simpl.
  destruct (Nat.ltb_spec (length (take limit rest)) limit) as [Hlt|Hge]; simpl.
  - rewrite length_take in Hlt; rewrite take_ge by lia; split; [done|by rewrite Hv1].
  - rewrite length_take in Hge; assert (take limit rest ≠ []) as Htake by (intros He%(f_equal length); rewrite length_take in He; simpl in He; lia).
    destruct (last_snoc_ne (take limit rest) "" Htake) as [b Hb].
    specialize (IH (before ++ take limit rest) (drop limit rest) w1 Hg1 Hc1).
    assert (List.last (before ++ take limit rest) "" = List.last (take limit rest) "") as Hlast
      by (rewrite Hb, app_assoc, !List.last_last; done).
    rewrite Hlast, Hv1 in IH.
    destruct IH as [Hr Hv2]; [done|by rewrite <- app_assoc, take_drop|rewrite length_drop; lia|].
    destruct (all_tags svc ctx fuel name limit _ w1) as [r2 w2]; simpl in Hr, Hv2; subst r2; simpl.
    by rewrite take_drop.
Qed.
End Walk.

Lemma keys_listed {K V} `{Countable K} (m : gmap K V) l : (map_to_list m).*1 = l → ∀ k, is_Some (m !! k) ↔ k ∈ l.
Proof.
  intros <- k; rewrite list_elem_of_fmap; split.
  - intros [v Hv]; exists (k, v); split; [done|by apply elem_of_map_to_list].
  - intros ([k' v] & -> & Hv%elem_of_map_to_list); by exists v.
Qed.

(** * Properties *)

Section Properties.
Context {W : Type} `{UnicodeTables, ManifestCodec, RegistryLaws W}.
Variables (svc : RegConfig) (ctx : option Principal).

(** C39: When nothing fails, a client that asks for the tags of a repository page by
    page, each time after the last name it saw, stops after finitely many pages
    whatever the page size, and has then seen every tag exactly once, in order. *)
Theorem paging_visits_every_tag name repo limit L fuel w :
  good w → reg_calm w → parseRepository name = Ok repo → allowed svc ctx ActionInspect (ref_String repo) → (0 < limit)%nat →
  enumerates (λ g, is_Some (rg_tags (reg_view w) !! (tenant svc, ref_Name repo, g))) L → (length L < fuel)%nat →
  (all_tags svc ctx fuel name limit "" w).1 = Ok L.
Proof.
  intros Hg Hc Hp Ha Hlim HL Hf; eapply (all_tags_rest svc ctx name repo limit L [] L fuel w); try done.
  destruct HL as (_ & _ & HL); rewrite HL; intros [d Hd]; by apply (inv_tag_name _ (proj2 Hg)) in Hd.
Qed.

(** When nothing fails, the referrers of a subject are exactly the manifests of
    the repository that name it as their subject, each once, in the order of their
    digests; asking for an artifact type keeps exactly those of that type. *)
Theorem referrers_are_exact name subject artifactType l w :
  good w → reg_calm w → (Referrers svc ctx name subject artifactType w).1 = Ok l →
  let R := reg_view w in let n := trim_space name in
  StronglySorted str_le (map rd_Digest l) ∧ NoDup (map rd_Digest l)
  ∧ (∀ x, x ∈ l → ∃ e, rg_manifests R !! (tenant svc, n, rd_Digest x) = Some e ∧ en_Subject e = subject
       ∧ rd_MediaType x = en_MediaType e ∧ rd_Size x = Z.of_nat (String.length (en_Payload e))
       ∧ (trim_space artifactType = "" ∨ rd_ArtifactType x = trim_space artifactType))
  ∧ (trim_space artifactType = "" → ∀ d e, rg_manifests R !! (tenant svc, n, d) = Some e → en_Subject e = subject → d ∈ map rd_Digest l).
Proof.
  intros Hg Hc Hrun R n.
  destruct (run_calm svc ctx _ _ w (Referrers_serves svc ctx name subject artifactType) Hg Hc) as (_ & _ & Hs).
  rewrite Hrun in Hs; unfold spec_Referrers, given in Hs.
  destruct (parseRepository name) as [repo|] eqn:Hp; [|by destruct Hs]; destruct (authorize svc ctx _) as [[]|]; [|by destruct Hs].
  destruct (ParseDigest subject) as [d|] eqn:Hd; [|by destruct Hs]; apply ParseDigest_ok in Hd as [-> _].
  assert (ref_Name repo = n) as Hn by (by apply parsed_ref_valid in Hp as [-> _]).
  destruct Hs as (_ & rows & Hsort & Hnd & Hin & Heq); fold R in Hin; unfold referrer_of in Hin; rewrite Hn in Hin.
  symmetry in Heq; apply rbind_ok in Heq as (ds & Hds%rmap_ok & [= <-]).
  assert (Forall2 (λ row y, rd_Digest y = rf_Digest row ∧ rd_MediaType y = rf_MediaType row ∧ rd_Size y = rf_Size row) rows ds) as Hall.
  { eapply Forall2_impl; [exact Hds|]; intros row y (p & _ & [= <-])%rbind_ok; done. }
  assert (map rd_Digest ds = map rf_Digest rows) as Hmap by (clear -Hall; induction Hall as [|row y rows ds (H1 & _) _ IH]; simpl; congruence).
  assert (StronglySorted str_le (map rd_Digest ds) ∧ NoDup (map rd_Digest ds)) as [Hss Hnn].
  { rewrite Hmap; split; [by apply (sorted_map rf_Digest)|]; apply NoDup_fmap_2_strong; [|done].
    intros x y (e & He & _ & Hx)%Hin (e' & He' & _ & Hy)%Hin Hxy; rewrite Hxy in He, Hx; congruence. }
  split_and!.
  - apply (sorted_map rd_Digest), sorted_filter; by apply (sorted_map rd_Digest).
  - by apply NoDup_map_filter.
  - intros x [Hat Hx]%list_elem_of_filter; apply list_elem_of_lookup in Hx as [i Hx].
    destruct (Forall2_lookup_r _ _ _ _ _ Hall Hx) as (row & Hrow & -> & -> & ->).
    destruct (proj1 (Hin row) (list_elem_of_lookup_2 _ _ _ Hrow)) as (e & He & Hse & Hre).
    exists e; rewrite Hre; simpl; split_and!; try done.
    by apply orb_true_iff in Hat as [Hb%String.eqb_eq|Hb%String.eqb_eq]; [left|right].
  - intros Hblank x e He Hse; rewrite filter_all; [|apply Forall_forall; intros y _; by rewrite Hblank].
    rewrite Hmap, list_elem_of_In, in_map_iff; eexists (mkReferrerRow x _ _ _); split; [done|].
    apply list_elem_of_In, Hin; simpl; by exists e.
Qed.
End Properties.

(** The catalog page is cut before the names an actor may not see are dropped:
    a page of one name can be empty although the actor may see a later name, so an
    empty page does not mean the end of the catalog. *)
Theorem catalog_page_hides_later_names :
  (Catalog example_svc (Some outsider) 1 "" shared_world).1 = Ok []
  ∧ (Catalog example_svc (Some outsider) 0 "" shared_world).1 = Ok ["team/other"].
Proof. split; vm_compute; reflexivity. Qed.

(** * Witnesses *)

Lemma paging_visits_every_tag_witness :
  (all_tags example_svc (Some pusher) 10 "team/app" 1 "" tagged_world).1 = Ok ["attached"; "latest"; "v1"].
Proof.
  assert (parseRepository "team/app" = Ok (mkRef "team/app")) as Hp by (vm_compute; reflexivity).
  assert (allowed example_svc (Some pusher) ActionInspect "team/app") as Ha by (vm_compute; reflexivity).
  apply (paging_visits_every_tag example_svc (Some pusher) "team/app" (mkRef "team/app") 1 ["attached"; "latest"; "v1"] 10
    tagged_world (example_good tag_requests) (example_reg_calm _) Hp Ha); [lia| |simpl; lia].
  split_and!; [repeat (apply SSorted_cons; [|repeat constructor]); apply SSorted_nil|by apply (bool_decide_unpack _); vm_compute|].
  assert ((map_to_list (rg_tags (reg_view tagged_world))).*1 = map (λ g, ("default", "team/app", g)) ["attached"; "v1"; "latest"])
    as Hkeys by (vm_compute; reflexivity).
  pose proof (keys_listed _ _ Hkeys) as Hin; clear Hkeys.
  intros g; symmetry; etransitivity; [exact (Hin ("default", "team/app", g))|].
  clear; rewrite list_elem_of_In, in_map_iff; split.
  - intros (x & [= ->] & Hx%list_elem_of_In); by rewrite !elem_of_cons in Hx |- *; tauto.
  - intros Hg; exists g; split; [done|]; apply list_elem_of_In; by rewrite !elem_of_cons in Hg |- *; tauto.
Defined.

Definition signature_digest : Digest :=
  Eval vm_compute in DigestFromBytes (String.append layer_digest (String " " payload_digest)).
Lemma referrers_are_exact_witness :
  ∃ l, (Referrers example_svc (Some pusher) "team/app" payload_digest "" tagged_world).1 = Ok l
    ∧ map rd_Digest l = [signature_digest] ∧ StronglySorted str_le (map rd_Digest l).
Proof.
  assert (∃ l, (Referrers example_svc (Some pusher) "team/app" payload_digest "" tagged_world).1 = Ok l
    ∧ map rd_Digest l = [signature_digest]) as (l & Hl & Hm) by (eexists; split; vm_compute; reflexivity).
  exists l; split; [exact Hl|split; [exact Hm|]].
  exact (proj1 (referrers_are_exact example_svc (Some pusher) "team/app" payload_digest "" l tagged_world
    (example_good tag_requests) (example_reg_calm _) Hl)).
Defined.
