(* ===== verification/RegCollect.v ===== *)
(** Garbage collection from the outside: a report lists exactly the garbage, a
    deletion by report removes exactly what the report lists and still is garbage,
    a report is used at most once, and with the flag off no blob ever goes. *)
From S2P Require Import Prelude GoStrings Errors Repository Digest GoNumbers Manifest Scope Auth Access.
From S2P Require Import PgExample RegPorts RegWorld Registry FsBlob MetaStore RegView FsLaws RegService Gc.
From S2P Require Import MetaLaws RegLaws RegSteps RegRequests RegExample RegRoundTrips.

#[local] Opaque DigestFromBytes.

(** * Definitions *)

(** A blob no manifest references, last written before [cutoff]. *)
Definition garbage (R : Registry) (cutoff : Time) (d : string) (f : BlobFile) : Prop :=
  ¬ referenced R d ∧ Before (bf_ModTime f) cutoff = true.

(** [R'] is [R] without the garbage among [listed]. *)
Definition swept (listed : list string) (cutoff : Time) (R R' : Registry) : Prop :=
  ∀ d f, rg_blobs R' !! d = Some f ↔ rg_blobs R !! d = Some f ∧ ¬ (d ∈ listed ∧ garbage R cutoff d f).

Definition listed_digests (d : GCReportDetail) : list string := map cand_Digest (gcd_Candidates d).

(** * Lemmas *)

Lemma fresh_iff R cutoff fresh d f :
  is_candidates R cutoff fresh → rg_blobs R !! d = Some f →
  existsb (λ c, String.eqb (cand_Digest c) d) fresh = true ↔ garbage R cutoff d f.
Proof.
  intros Hf Hd; split.
  - intros Hex; destruct (fresh_digest _ _ _ _ Hf Hex) as (f' & Hf' & ? & ?); rewrite Hd in Hf'; by injection Hf' as <-.
  - intros [Hr Ht]; apply existsb_exists; destruct Hf as (_ & _ & Hl).
    exists (mkGCCandidate d (Z.of_nat (String.length (bf_Content f))) (bf_ModTime f) "" ""); split; [|apply String.eqb_refl].
    apply list_elem_of_In, Hl; exists f; by split_and!.
Qed.

Lemma swept_snoc listed d cutoff R0 R R' :
  swept listed cutoff R0 R →
  (∀ x f, rg_blobs R' !! x = Some f ↔ rg_blobs R !! x = Some f ∧ ¬ (x = d ∧ garbage R0 cutoff x f)) →
  swept (listed ++ [d]) cutoff R0 R'.
Proof.
  intros Hsw Hd x f; rewrite (Hd x f), (Hsw x f), elem_of_app, list_elem_of_singleton; tauto.
Qed.

(** The registry but for its blobs, and the number of blobs removed. *)
Definition loop_kept (tR tR' : GcTally * Registry) : Prop :=
  tl_Deleted tR'.1 - tl_Deleted tR.1 = Z.of_nat (size (rg_blobs tR.2)) - Z.of_nat (size (rg_blobs tR'.2))
  ∧ ∀ bs, put_blobs bs tR.2 = put_blobs bs tR'.2.

Lemma collect_one_swept R0 cutoff fresh c R t listed :
  is_candidates R0 cutoff fresh → swept listed cutoff R0 R →
  swept (listed ++ [cand_Digest c]) cutoff R0 (collect_one fresh (t, R) c).2
  ∧ loop_kept (t, R) (collect_one fresh (t, R) c).
Proof.
  intros Hf Hsw; unfold collect_one, loop_kept; set (d := cand_Digest c); simpl.
  destruct (existsb _ fresh) eqn:Hex; [destruct (fresh_digest _ _ _ _ Hf Hex) as (f & Hf0 & Hg);
    destruct (rg_blobs R !! d) as [f'|] eqn:Hd|].
  - assert (f' = f) as -> by (apply (Hsw d f') in Hd as [Hd _]; congruence).
    assert (size (rg_blobs R) ≠ 0%nat) by (rewrite map_size_non_empty_iff; intros He; by rewrite He, lookup_empty in Hd).
    split; [eapply swept_snoc; [done|]|simpl; rewrite map_size_delete_Some by (by eexists); split; [lia|done]].
    intros x fx; simpl; rewrite lookup_delete_Some; split.
    + intros [Hne Hx]; split; [done|]; by intros [-> _].
    + intros [Hx Hn]; split; [|done]; intros <-; apply Hn; split; [done|]; rewrite Hd in Hx; by injection Hx as <-.
  - split; [eapply swept_snoc; [done|]|split; [simpl; lia|done]].
    intros x fx; simpl; split; [|by intros [? _]]; intros Hx; split; [done|]; intros [-> _]; congruence.
  - split; [eapply swept_snoc; [done|]|split; [simpl; lia|done]].
    intros x fx; simpl; split; [|by intros [? _]]; intros Hx; split; [done|]; intros [-> Hgx].
    apply (Hsw d fx) in Hx as [Hx _]; apply (fresh_iff R0 cutoff fresh d fx Hf Hx) in Hgx; congruence.
Qed.

(** The deletion loop over any list of candidates. *)
Lemma collect_swept R0 cutoff fresh l R t listed :
  is_candidates R0 cutoff fresh → swept listed cutoff R0 R →
  swept (listed ++ map cand_Digest l) cutoff R0 (foldl (collect_one fresh) (t, R) l).2
  ∧ loop_kept (t, R) (foldl (collect_one fresh) (t, R) l).
Proof.
  intros Hf; revert t R listed; induction l as [|c l IH]; intros t R listed Hsw; simpl.
  { rewrite app_nil_r; unfold loop_kept; split_and!; try done; simpl; lia. }
  destruct (collect_one_swept R0 cutoff fresh c R t listed Hf Hsw) as (Hsw1 & Hn1 & Hp1).
  destruct (collect_one fresh (t, R) c) as [t1 R1]; simpl in *.
  destruct (IH t1 R1 _ Hsw1) as (Hsw2 & Hn2 & Hp2); rewrite <- app_assoc in Hsw2.
  split; [exact Hsw2|split; [simpl in *; lia|intros bs; simpl in *; by rewrite Hp1]].
Qed.

(** A used report only fails, whatever happens below. *)
Section Used.
Context {W : Type} `{UnicodeTables, ManifestCodec, RegistryLaws W}.
Variables (svc : RegConfig) (ctx : option Principal).

Lemma used_report_fails id d w :
  good w → rg_reports (reg_view w) !! id = Some d → gc_Status (gcd_Report d) ≠ GCReportStatusReported →
  (∃ e, (DeleteByGCReport svc ctx id w).1 = Err e) ∧ reg_view (DeleteByGCReport svc ctx id w).2 = reg_view w.
Proof.
  intros Hg Hd Hst; change (wp (DeleteByGCReport svc ctx id) (λ r w', (∃ e, r = Err e) ∧ reg_view w' = reg_view w) w).
  unfold DeleteByGCReport; destruct (gcDeleteEnabled svc); simpl; [|apply wp_sthrow; split; [by eexists|done]].
  apply wp_sbind; eapply (wp_read svc ctx _ _ _ w); [apply GetGCReport_ok|by apply after_refl|].
  intros r w1 _ Hv1 Hr; cbn beta in Hr; rewrite Hd in Hr; destruct Hr as [->|[[e ->] _]]; [|split; [by eexists|done]].
  rewrite (proj2 (String.eqb_neq _ _) Hst); simpl; apply wp_sthrow; split; [by eexists|done].
Qed.
End Used.

(** A transition that keeps every blob, unless the flag is on. *)
Lemma step_keeps_blobs svc ctx R R' :
  gcDeleteEnabled svc = false → reg_step svc ctx R R' → ∀ d, is_Some (rg_blobs R !! d) → is_Some (rg_blobs R' !! d).
Proof.
  intros Hoff Hs d Hd; destruct Hs; try congruence; try done; simpl; rewrite lookup_insert_is_Some.
  destruct (decide (DigestFromBytes (ss_Data s) = d)); [by left|by right].
Qed.

(** * Properties *)

Section Properties.
Context {W : Type} `{UnicodeTables, ManifestCodec, RegistryLaws W}.
Variables (svc : RegConfig) (ctx : option Principal).

(** When nothing fails, a garbage-collection report lists exactly the blobs no
    manifest of any tenant references and no write has touched in the last 24
    hours, each once and in the order of their digests, and it can be read back
    under its id; no blob, manifest or tag changes. *)
Theorem report_is_exact d w :
  good w → reg_calm w → (ComputeGCReport svc ctx w).1 = Ok d →
  let w1 := (ComputeGCReport svc ctx w).2 in let R := reg_view w in
  (∀ x, x ∈ listed_digests d ↔ ∃ f, rg_blobs R !! x = Some f ∧ garbage R (gc_ComputedAt (gcd_Report d) - 24 * hour) x f)
  ∧ StronglySorted str_le (listed_digests d) ∧ NoDup (listed_digests d)
  ∧ gc_CandidateCount (gcd_Report d) = Z.of_nat (length (listed_digests d))
  ∧ rg_blobs (reg_view w1) = rg_blobs R ∧ rg_manifests (reg_view w1) = rg_manifests R ∧ rg_tags (reg_view w1) = rg_tags R
  ∧ (GetGCReport (gc_ID (gcd_Report d)) w1).1 = Ok d.
Proof.
  intros Hg Hc Hrun w1 R.
  destruct (run_calm svc ctx _ _ w (ComputeGCReport_serves svc ctx) Hg Hc) as (Hg1 & Hc1 & Hs).
  fold w1 in Hg1, Hc1, Hs; rewrite Hrun in Hs; destruct Hs as (now & millis & id & l & (Hsort & Hnd & Hl) & Hs); fold R in Hl.
  destruct Hs as (_ & [= ->] & HR1); unfold listed_digests; simpl.
  assert (∀ x, x ∈ map cand_Digest l ↔ ∃ f, rg_blobs R !! x = Some f ∧ garbage R (now - 24 * hour) x f) as Hin.
  { intros x; rewrite list_elem_of_In, in_map_iff; split.
    - intros (c & <- & (f & Hf & Hr & Ht & _)%list_elem_of_In%Hl); by exists f.
    - intros (f & Hf & Hr & Ht); exists (mkGCCandidate x (Z.of_nat (String.length (bf_Content f))) (bf_ModTime f) "" "").
      split; [done|]; apply list_elem_of_In, Hl; by exists f. }
  split_and!; try (by rewrite HR1); [exact Hin| | |by rewrite length_map|].
  - by apply (sorted_map cand_Digest).
  - apply NoDup_fmap_2_strong; [|done]; intros c1 c2 (f1 & Hf1 & _ & _ & Hc1')%Hl (f2 & Hf2 & _ & _ & Hc2')%Hl Heq.
    rewrite Heq, Hf2 in Hf1; injection Hf1 as <-; rewrite Hc1', Hc2'; by rewrite Heq.
  - destruct (run_calm svc ctx _ _ w1 (GetGCReport_serves svc ctx id) Hg1 Hc1) as (_ & _ & [_ Hr]).
    rewrite HR1 in Hr; simpl in Hr; by rewrite lookup_insert_eq in Hr.
Qed.

(** C14: When nothing fails, a deletion by report removes exactly the blobs the
    report lists that at that moment still are unreferenced and older than the
    grace window, keeps every other blob with its bytes, touches no manifest, tag,
    repository or upload, and counts what it removed. *)
Theorem deletion_removes_exactly_garbage id d w :
  good w → reg_calm w → (DeleteByGCReport svc ctx id w).1 = Ok d →
  let R := reg_view w in let R1 := reg_view (DeleteByGCReport svc ctx id w).2 in
  ∃ d0 now, rg_reports R !! id = Some d0 ∧ gc_Status (gcd_Report d0) = GCReportStatusReported
    ∧ now < gc_ExpiresAt (gcd_Report d0) ∧ swept (listed_digests d0) (now - 24 * hour) R R1
    ∧ gc_DeletedCount (gcd_Report d) = Z.of_nat (size (rg_blobs R)) - Z.of_nat (size (rg_blobs R1))
    ∧ put_reports ∅ (put_blobs ∅ R1) = put_reports ∅ (put_blobs ∅ R).
Proof.
  intros Hg Hc Hrun R R1.
  destruct (run_calm svc ctx _ _ w (DeleteByGCReport_serves svc ctx id) Hg Hc) as (_ & _ & Hs).
  rewrite Hrun in Hs; fold R R1 in Hs; unfold spec_DeleteByGCReport, given, rguard in Hs.
  destruct (gcDeleteEnabled svc); [|by destruct Hs].
  destruct (rg_reports R !! id) as [d0|] eqn:Hd0; [|by destruct Hs].
  destruct (String.eqb_spec (gc_Status (gcd_Report d0)) GCReportStatusReported) as [Hst|]; [|by destruct Hs].
  destruct Hs as (now & Hs); unfold Before in Hs; destruct (Z.ltb_spec now (gc_ExpiresAt (gcd_Report d0))) as [Hlt|]; [|by destruct Hs].
  destruct Hs as (fresh & Hf & Hs).
  assert (swept [] (now - 24 * hour) R R) as Hsw0 by (intros x f; rewrite elem_of_nil; tauto).
  destruct (collect_swept R (now - 24 * hour) fresh (gcd_Candidates d0) R tally0 [] Hf Hsw0) as (Hsw & Hn & Hp).
  unfold collect_all in Hs; destruct (foldl _ (tally0, R) _) as [t R2]; destruct Hs as ([= ->] & HR1).
  exists d0, now; split_and!; try done; rewrite ?HR1; simpl in *; [exact Hsw|lia|].
  specialize (Hp ∅); injection Hp; intros; unfold put_reports, put_blobs; simpl; congruence.
Qed.

(** A report deletes at most once: after a successful deletion by a report
    another one by the same report fails and changes nothing, even when store calls
    fail. *)
Theorem report_is_used_once id d w :
  good w → reg_calm w → (DeleteByGCReport svc ctx id w).1 = Ok d →
  let w1 := (DeleteByGCReport svc ctx id w).2 in
  gc_Status (gcd_Report d) = GCReportStatusDeleted
  ∧ (∃ e, (DeleteByGCReport svc ctx id w1).1 = Err e) ∧ reg_view (DeleteByGCReport svc ctx id w1).2 = reg_view w1.
Proof.
  intros Hg Hc Hrun w1.
  destruct (run_calm svc ctx _ _ w (DeleteByGCReport_serves svc ctx id) Hg Hc) as (Hg1 & _ & Hs).
  rewrite Hrun in Hs; fold w1 in Hg1, Hs; unfold spec_DeleteByGCReport, given, rguard in Hs.
  destruct (gcDeleteEnabled svc); [|by destruct Hs].
  destruct (rg_reports (reg_view w) !! id) as [d0|]; [|by destruct Hs].
  destruct (String.eqb _ _); [|by destruct Hs].
  destruct Hs as (now & Hs); destruct (Before _ _); [|by destruct Hs]; destruct Hs as (fresh & _ & Hs).
  destruct (collect_all _ _ _) as [t R2]; destruct Hs as ([= ->] & HR1); split; [done|].
  eapply used_report_fails; [done|rewrite HR1; simpl; by rewrite lookup_insert_eq|done].
Qed.

(** While blob deletion is off no sequence of requests makes a blob disappear:
    its digest keeps opening to bytes with that digest. *)
Theorem blobs_stay_without_the_flag rqs d w :
  good w → gcDeleteEnabled svc = false → is_Some (rg_blobs (reg_view w) !! d) →
  ∃ f, rg_blobs (reg_view (reg_run_all svc rqs w)) !! d = Some f ∧ DigestFromBytes (bf_Content f) = d.
Proof.
  intros Hg Hoff Hd; destruct (reg_run_all_after svc rqs w Hg) as [[_ Hi] Hs].
  assert (∀ d, is_Some (rg_blobs (reg_view w) !! d) → is_Some (rg_blobs (reg_view (reg_run_all svc rqs w)) !! d)) as Hkeep.
  { eapply (moves_respect svc (λ R R', ∀ d, is_Some (rg_blobs R !! d) → is_Some (rg_blobs R' !! d)));
      [by auto|by auto| |exact Hs]; intros *; by apply step_keeps_blobs. }
  destruct (Hkeep d Hd) as [f Hf]; exists f; split; [done|by apply (inv_content _ Hi)].
Qed.
End Properties.

(** * Witnesses *)

Lemma report_is_exact_witness :
  ∃ d, (ComputeGCReport example_svc None day_world).1 = Ok d ∧ layer_digest ∈ listed_digests d
    ∧ ∃ f, rg_blobs (reg_view day_world) !! layer_digest = Some f
      ∧ garbage (reg_view day_world) (gc_ComputedAt (gcd_Report d) - 24 * hour) layer_digest f.
Proof.
  assert (∃ d, (ComputeGCReport example_svc None day_world).1 = Ok d ∧ listed_digests d = [layer_digest]) as (d & Hd & Hl)
    by (eexists; split; vm_compute; reflexivity).
  destruct (report_is_exact example_svc None d day_world (example_good day_requests) (example_reg_calm _) Hd) as (Hin & _).
  assert (layer_digest ∈ listed_digests d) as Hld by (rewrite Hl; by left).
  exists d; split; [exact Hd|split; [exact Hld|by apply Hin]].
Defined.

Lemma deletion_removes_exactly_garbage_witness :
  ∃ d, (DeleteByGCReport example_svc None report_id reported_world).1 = Ok d
    ∧ gc_DeletedCount (gcd_Report d) = 1
    ∧ Z.of_nat (size (rg_blobs (reg_view (DeleteByGCReport example_svc None report_id reported_world).2))) = 0.
Proof.
  assert (∃ d, (DeleteByGCReport example_svc None report_id reported_world).1 = Ok d ∧ gc_DeletedCount (gcd_Report d) = 1)
    as (d & Hd & Hn) by (eexists; split; vm_compute; reflexivity).
  destruct (deletion_removes_exactly_garbage example_svc None report_id d reported_world
    (example_good (day_requests ++ [(None, RqComputeGCReport)])) (example_reg_calm _) Hd) as (d0 & now & _ & _ & _ & _ & Hc & _).
  exists d; split; [exact Hd|split; [exact Hn|]].
  assert (Z.of_nat (size (rg_blobs (reg_view reported_world))) = 1) as Hone by (vm_compute; reflexivity).
  rewrite Hone, Hn in Hc; clear -Hc; lia.
Defined.

Lemma report_is_used_once_witness :
  ∃ e, (DeleteByGCReport example_svc None report_id
          (DeleteByGCReport example_svc None report_id reported_world).2).1 = Err e.
Proof.
  assert (∃ d, (DeleteByGCReport example_svc None report_id reported_world).1 = Ok d) as [d Hd]
    by (eexists; vm_compute; reflexivity).
  exact (proj1 (proj2 (report_is_used_once example_svc None report_id d reported_world
    (example_good (day_requests ++ [(None, RqComputeGCReport)])) (example_reg_calm _) Hd))).
Defined.

Lemma blobs_stay_without_the_flag_witness :
  ∃ f, rg_blobs (reg_view (reg_run_all kept_svc [(None, RqDeleteByGCReport report_id)] reported_world)) !! layer_digest = Some f
    ∧ DigestFromBytes (bf_Content f) = layer_digest.
Proof.
  apply blobs_stay_without_the_flag; [apply (example_good (day_requests ++ [(None, RqComputeGCReport)]))|reflexivity|].
  apply is_Some_alt; vm_compute; exact I.
Defined.
