(* ===== verification/PolicyPorts.v ===== *)
(** The half of the metadata port (internal/ports/regixtry.go) that holds the
    policies and the scans: the data that crosses it and its interface
    [PolicyStore] over policy settings, per-repository overrides, scan settings,
    scanner runtimes and scan runs.

    The rest of the metadata port (internal/ports/regixtry.go): the update
    channel, the listings of scan runs, the secret scans, and what the feature
    registry shows of a feature. *)
From S2P Require Import Prelude GoStrings Errors Digest GoNumbers Signing.

(** * Policies and scans *)

(** ** Policies *)

Definition ScanPolicyThresholdCritical : string := "critical".
Definition ScanPolicyThresholdCriticalHigh : string := "critical_high".

Record ScanPolicySettings := mkScanPolicy {
  sp_Enabled : bool;
  sp_SeverityThreshold : string;
  sp_UpdatedAt : Time;
}.

Record SigningPolicySettings := mkSigningPolicy {
  sg_Enabled : bool;
  sg_TrustedPublicKeys : list string;
  sg_TrustedIdentities : list TrustedIdentity;
  sg_UpdatedAt : Time;
  sg_UnsignedSelfRead : string;
}.

Definition ValidUnsignedSelfRead (value : string) : bool :=
  existsb (String.eqb value) [""; "off"; "pusher"; "repo_push"].

(** ** Per-repository overrides *)

Record SigningOverride := mkSigningOverride {
  so_Enabled : bool;
  so_TrustedPublicKeys : list string;
  so_TrustedIdentities : list TrustedIdentity;
  so_UnsignedSelfRead : string;
}.
Record TrivyOverride := mkTrivyOverride {
  to_Enabled : bool;
  to_IgnoreFilePath : string;
  to_IgnorePolicyPath : string;
}.
Record GitleaksOverride := mkGitleaksOverride { go_Enabled : bool; go_ConfigPath : string }.

Record RepositoryFeatureOverride := mkFeatureOverride {
  fo_Repository : string;
  fo_Feature : string;
  fo_Payload : string;
  fo_UpdatedAt : Time;
}.

(** ** Scans *)

Definition ScanRunStatusQueued : string := "queued".
Definition ScanRunStatusRunning : string := "running".
Definition ScanRunStatusCompleted : string := "completed".
Definition ScanRunStatusFailed : string := "failed".

Definition ScanTriggerManual : string := "manual".
Definition ScanTriggerScheduled : string := "scheduled".
Definition ScanTriggerPush : string := "push".

Record ScanSettings := mkScanSettings {
  ss_Enabled : bool;
  ss_ScheduleEnabled : bool;
  ss_Interval : Duration;
  ss_Timeout : Duration;
  ss_ServiceURL : string;
  ss_RegistryReachableURL : string;
  ss_AuthToken : string;
  ss_TLSCACertPath : string;
  ss_TLSInsecureSkipVerify : bool;
  ss_CacheDir : string;
  ss_BinaryPath : string;
  ss_LegacyCacheDir : string;
  ss_LegacyBinaryPath : string;
  ss_MaxConcurrency : Z;
  ss_UpdatedAt : Time;
  ss_IgnoreFilePath : string;
  ss_IgnorePolicyPath : string;
  ss_ConfigPath : string;
}.

Record ScanRun := mkScanRun {
  sr_ID : string;
  sr_Repository : string;
  sr_RequestedRef : string;
  sr_Digest : string;
  sr_Status : string;
  sr_Trigger : string;
  sr_StartedAt : option Time;
  sr_FinishedAt : option Time;
  sr_CreatedAt : Time;
  sr_UpdatedAt : Time;
  sr_Critical : Z;
  sr_High : Z;
  sr_Medium : Z;
  sr_Low : Z;
  sr_TrivyVersion : string;
  sr_DBUpdatedAt : option Time;
  sr_Error : string;
  sr_HasFixable : bool;
}.

(** What a scan found, and how old the vulnerability database was. *)
Record ScanRunFinding := mkFinding {
  fd_Target : string;
  fd_Class : string;
  fd_Type : string;
  fd_Severity : string;
  fd_VulnerabilityID : string;
  fd_PackageName : string;
  fd_InstalledVersion : string;
  fd_FixedVersion : string;
  fd_Title : string;
  fd_PrimaryURL : string;
  fd_Fixable : bool;
  fd_Status : string;
  fd_DataSource : string;
  fd_DataSourceURL : string;
  fd_PublishedAt : option Time;
  fd_ModifiedAt : option Time;
}.
Record ScanRunDBFreshness := mkFreshness {
  fs_ReportSchemaVersion : Z;
  fs_ReportCreatedAt : option Time;
  fs_TrivyVersion : string;
  fs_DBVersion : Z;
  fs_DBUpdatedAt : option Time;
  fs_DBDownloadedAt : option Time;
  fs_DBNextUpdateAt : option Time;
  fs_FreshnessState : string;
}.
(** What a scanner reports, and what of it is stored with a run. *)
Record ScanResult := mkScanResult {
  sc_Critical : Z;
  sc_High : Z;
  sc_Medium : Z;
  sc_Low : Z;
  sc_TrivyVersion : string;
  sc_DBUpdatedAt : option Time;
  sc_Findings : list ScanRunFinding;
  sc_DBFreshness : ScanRunDBFreshness;
}.
Record ScanRunDetail := mkRunDetail {
  dt_Run : ScanRun;
  dt_Findings : list ScanRunFinding;
  dt_DBFreshness : ScanRunDBFreshness;
  dt_ReferenceFreshness : string;
}.

(** Who runs the periodic scans. *)
Record ScanSchedulerState := mkSchedulerState {
  sh_OwnerID : string;
  sh_LeaseExpiresAt : Time;
  sh_LastHeartbeatAt : Time;
  sh_BatchStartedAt : option Time;
}.

Definition FeatureRuntimeStatusReady : string := "ready".
Definition FeatureRuntimeStatusMigrationRequired : string := "migration-required".

Record FeatureRuntimeState := mkRuntimeState {
  fr_Status : string;
  fr_ActiveVersion : string;
  fr_PreviousVersion : string;
  fr_ActiveBinaryPath : string;
  fr_CacheDir : string;
  fr_ReceiptPath : string;
  fr_MigrationHint : string;
  fr_LastVerifiedAt : option Time;
  fr_LastHealthCheckAt : option Time;
  fr_LastDBUpdatedAt : option Time;
  fr_LastError : string;
  fr_UpdatedAt : Time;
}.

#[global] Instance ScanPolicySettings_eq_dec : EqDecision ScanPolicySettings.
Proof. solve_decision. Defined.
#[global] Instance SigningPolicySettings_eq_dec : EqDecision SigningPolicySettings.
Proof. solve_decision. Defined.
#[global] Instance ScanSettings_eq_dec : EqDecision ScanSettings.
Proof. solve_decision. Defined.
#[global] Instance ScanRun_eq_dec : EqDecision ScanRun.
Proof. solve_decision. Defined.
#[global] Instance ScanRunFinding_eq_dec : EqDecision ScanRunFinding.
Proof. solve_decision. Defined.
#[global] Instance ScanRunDBFreshness_eq_dec : EqDecision ScanRunDBFreshness.
Proof. solve_decision. Defined.
#[global] Instance ScanSchedulerState_eq_dec : EqDecision ScanSchedulerState.
Proof. solve_decision. Defined.
#[global] Instance FeatureRuntimeState_eq_dec : EqDecision FeatureRuntimeState.
Proof. solve_decision. Defined.

(** ** The interface *)

Class PolicyStore (W : Type) := {
  meta_GetScanPolicySettings : string → M W ScanPolicySettings;
  UpsertScanPolicySettings : string → ScanPolicySettings → M W unit;
  meta_GetSigningPolicySettings : string → M W SigningPolicySettings;
  UpsertSigningPolicySettings : string → SigningPolicySettings → M W unit;
  GetRepositoryFeatureOverride : string → string → string → M W string;
  ListRepositoryFeatureOverrides : string → string → M W (list RepositoryFeatureOverride);
  UpsertRepositoryFeatureOverride : string → string → string → string → M W unit;
  DeleteRepositoryFeatureOverride : string → string → string → M W unit;
  meta_GetScanSettings : string → string → M W ScanSettings;
  UpsertScanSettings : string → string → ScanSettings → M W unit;
  GetFeatureRuntimeState : string → string → M W FeatureRuntimeState;
  UpsertFeatureRuntimeState : string → string → FeatureRuntimeState → M W unit;
  GetActiveScanRunByDigest : string → string → string → M W ScanRun;
  GetLatestScanRunByDigest : string → string → string → M W ScanRun;
  GetScanRun : string → string → M W ScanRun;
  UpsertScanRun : string → ScanRun → M W unit;
  UpsertScanRunDetail : string → ScanRunDetail → M W unit;
}.

(** What the scheduler needs of the store (internal/app/scanning/scheduler.go). *)
Class LeaseStore (W : Type) := {
  TryAcquireScanSchedulerLease : string → string → Time → Duration → M W (bool * ScanSchedulerState);
  HeartbeatScanScheduler : string → string → Time → Duration → M W unit;
}.

(** * The console's half of the port *)

(** ** The update channel *)

Definition UpdateChannelStable : string := "stable".
Definition UpdateChannelInsider : string := "insider".
Record UpdateChannelSettings := mkUpdateChannel { uc_Channel : string; uc_UpdatedAt : Time }.
Definition ValidUpdateChannel (value : string) : bool :=
  String.eqb value UpdateChannelStable || String.eqb value UpdateChannelInsider.

(** ** Scans *)

Definition ScanRunDBFreshnessStateUnknown : string := "unknown".
Definition ScanReferenceFreshnessCurrent : string := "current".
Definition ScanReferenceFreshnessMoved : string := "moved".
Definition ScanReferenceFreshnessMissing : string := "missing".
Definition ScanReferenceFreshnessUnknown : string := "unknown".

(** A repository's newest run and the number of its runs. *)
Record RepositoryScanSummary := mkScanSummary { rs_Run : ScanRun; rs_RunCount : Z }.

(** ** Secret scans *)

Record SecretScanTarget := mkSecretTarget {
  st_Repository : string;
  st_Digest : string;
  st_Blobs : list Descriptor;
}.
Record SecretFinding := mkSecretFinding {
  sf_RuleID : string;
  sf_Description : string;
  sf_BlobDigest : string;
  sf_Path : string;
  sf_StartLine : Z;
  sf_EndLine : Z;
  sf_Tags : list string;
}.
Record SecretScanResult := mkSecretResult {
  sx_GitleaksVersion : string;
  sx_Findings : list SecretFinding;
  sx_SkippedBlobs : list string;
}.

Definition SecretScanRunStatusQueued : string := "queued".
Definition SecretScanRunStatusRunning : string := "running".
Definition SecretScanRunStatusCompleted : string := "completed".
Definition SecretScanRunStatusFailed : string := "failed".

Record SecretScanRun := mkSecretRun {
  sn_ID : string;
  sn_Repository : string;
  sn_Digest : string;
  sn_Status : string;
  sn_Trigger : string;
  sn_StartedAt : option Time;
  sn_FinishedAt : option Time;
  sn_CreatedAt : Time;
  sn_UpdatedAt : Time;
  sn_GitleaksVersion : string;
  sn_FindingCount : Z;
  sn_Error : string;
}.
Record SecretScanRunDetail := mkSecretDetail { sl_Run : SecretScanRun; sl_Findings : list SecretFinding }.

(** ** Features *)

Definition FeatureKindBuiltin : string := "builtin".

Record FeatureSummary := mkFeatureSummary {
  fm_Name : string;
  fm_Kind : string;
  fm_Enabled : bool;
  fm_Configured : bool;
  fm_CurrentVersion : string;
  fm_LatestVersion : string;
  fm_UpdateStatus : string;
}.
Record FeatureField := mkFeatureField { ff_Label : string; ff_Value : string }.
Record FeatureRow := mkFeatureRow { fx_Title : string; fx_Status : string; fx_Detail : string }.
Record FeatureSection := mkFeatureSection {
  fe_ID : string;
  fe_Title : string;
  fe_Kind : string;
  fe_Fields : list FeatureField;
  fe_Rows : list FeatureRow;
}.
Record FeatureAction := mkFeatureAction {
  fa_ID : string;
  fa_Label : string;
  fa_ConfirmTitle : string;
  fa_ConfirmMessage : string;
}.
Record FeaturePage := mkFeaturePage {
  fg_Summary : FeatureSummary;
  fg_Header : list FeatureField;
  fg_Sections : list FeatureSection;
  fg_Actions : list FeatureAction;
}.
Record FeatureActionResult := mkActionResult { fz_Message : string }.

Record FeatureRuntime := mkFeatureRuntime {
  ft_Mode : string;
  ft_Status : string;
  ft_Health : string;
  ft_Version : string;
  ft_LatestVersion : string;
  ft_UpdateStatus : string;
  ft_Detail : string;
  ft_RollbackAvailable : bool;
  ft_ActiveBinaryPath : string;
  ft_ReceiptPath : string;
  ft_LastVerifiedAt : option Time;
  ft_LastHealthCheckAt : option Time;
  ft_LastDBUpdatedAt : option Time;
  ft_LastError : string;
}.
Record FeatureDetails := mkFeatureDetails {
  fl_Name : string;
  fl_Kind : string;
  fl_Enabled : bool;
  fl_Configured : bool;
  fl_ScheduleEnabled : bool;
  fl_Interval : Duration;
  fl_Timeout : Duration;
  fl_ServiceURL : string;
  fl_RegistryReachableURL : string;
  fl_AuthToken : string;
  fl_TLSCACertPath : string;
  fl_TLSInsecureSkipVerify : bool;
  fl_CacheDir : string;
  fl_BinaryPath : string;
  fl_MaxConcurrency : Z;
  fl_Runtime : FeatureRuntime;
}.

Definition FeatureRuntimeStatusUninstalled : string := "uninstalled".
Definition FeatureRuntimeStatusInstalling : string := "installing".
Definition FeatureRuntimeStatusDegraded : string := "degraded".
Definition FeatureRuntimeModeManaged : string := "managed".

Record FeatureConfigureInput := mkConfigureInput {
  fc_Enabled : option bool;
  fc_ScheduleEnabled : option bool;
  fc_Interval : option Duration;
  fc_Timeout : option Duration;
  fc_ServiceURL : option string;
  fc_RegistryReachableURL : option string;
  fc_AuthToken : option string;
  fc_TLSCACertPath : option string;
  fc_TLSInsecureSkipVerify : option bool;
  fc_CacheDir : option string;
  fc_BinaryPath : option string;
  fc_MaxConcurrency : option Z;
}.

#[global] Instance UpdateChannelSettings_eq_dec : EqDecision UpdateChannelSettings.
Proof. solve_decision. Defined.
#[global] Instance SecretFinding_eq_dec : EqDecision SecretFinding.
Proof. solve_decision. Defined.
#[global] Instance SecretScanRun_eq_dec : EqDecision SecretScanRun.
Proof. solve_decision. Defined.

(** ** The interfaces *)

Class ConsoleStore (W : Type) := {
  meta_GetUpdateChannel : string → M W UpdateChannelSettings;
  meta_UpsertUpdateChannel : string → UpdateChannelSettings → M W unit;
  meta_ListScanRuns : string → string → Z → M W (list ScanRun);
  meta_ListLatestScanRunPerRepository : string → Z → M W (list RepositoryScanSummary);
  meta_GetScanRunDetail : string → string → M W ScanRunDetail;
  GetActiveSecretScanRunByDigest : string → string → string → M W SecretScanRun;
  GetSecretScanRunDetail : string → string → M W SecretScanRunDetail;
  UpsertSecretScanRun : string → SecretScanRun → M W unit;
  UpsertSecretScanRunDetail : string → SecretScanRunDetail → M W unit;
  ListSecretScanRuns : string → string → Z → M W (list SecretScanRun);
}.

(** A secret scanner, and what installs the binary of a scanner
    (internal/app/regixtry/service.go). *)
Class SecretScanRunner (W : Type) := {
  secret_Run : SecretScanTarget → ScanSettings → M W SecretScanResult;
}.
Record FeatureRuntimeManager (W : Type) := mkRuntimeManager {
  rm_Install : string → M W FeatureRuntimeState;
  rm_Upgrade : string → M W FeatureRuntimeState;
  rm_Rollback : M W FeatureRuntimeState;
  rm_Status : M W FeatureRuntimeState;
  rm_LatestVersion : M W string;
}.
Arguments rm_Install {W} _ _.
Arguments rm_Upgrade {W} _ _.
Arguments rm_Rollback {W} _.
Arguments rm_Status {W} _.
Arguments rm_LatestVersion {W} _.
