(* ===== verification/PolicyStore.v ===== *)
(** The policy and scan half of the metadata store
    (internal/infra/metadata/sqlite/store.go): its tables, one function per SQL
    statement, one operation per method. The tables live in the same database
    file as those of [MetaStore] but no statement and no foreign key joins the
    two, so the state of a process is a pair; both halves share the driver and
    its faults.

    The rest of the metadata store (internal/infra/metadata/sqlite/store.go): the
    update channel, the listings of scan runs and the secret scans, one function
    per SQL statement, one operation per method. Their tables are the
    [ConsoleDB] of [PolicyStore]; the listings of scan runs read its other tables. *)
From S2P Require Import Prelude GoStrings Errors Repository Digest GoNumbers Manifest RegPorts RegWorld.
From S2P Require Import Registry FsBlob MetaStore Signing PolicyPorts.

(** * Policies and scans *)

(** ** The tables *)

(** A row of [scan_runs]; [rw_Seq] is its rowid, one more than any earlier one
    since no run is ever deleted. *)
Record RunRow := mkRunRow { rw_Seq : Z; rw_Tenant : string; rw_Run : ScanRun }.
#[global] Instance RunRow_eq_dec : EqDecision RunRow.
Proof. solve_decision. Defined.

(** The update channel by tenant, the secret scans and their findings by run id. *)
Record SecretRow := mkSecretRow { sw_Seq : Z; sw_Tenant : string; sw_Run : SecretScanRun }.
#[global] Instance SecretRow_eq_dec : EqDecision SecretRow.
Proof. solve_decision. Defined.
Record ConsoleDB := mkConsoleDB {
  cd_channels : gmap string UpdateChannelSettings;
  cd_secret_runs : gmap string SecretRow;
  cd_secret_seq : Z;
  cd_secret_findings : gmap string (list SecretFinding);
}.
#[global] Instance ConsoleDB_eq_dec : EqDecision ConsoleDB.
Proof. solve_decision. Defined.
Definition empty_console : ConsoleDB := mkConsoleDB ∅ ∅ 1 ∅.

(** Keyed by tenant; by (tenant, repository, feature_name); by (tenant, feature);
    by run id. A JSON column holds the value its text decodes to, and a time
    column the instant. *)
Record PolicyDB := mkPolicyDB {
  pd_scan_policy : gmap string ScanPolicySettings;
  pd_signing_policy : gmap string SigningPolicySettings;
  pd_overrides : gmap (string * string * string) (string * Time);
  pd_scan_settings : gmap (string * string) ScanSettings;
  pd_runtimes : gmap (string * string) FeatureRuntimeState;
  pd_runs : gmap string RunRow;
  pd_run_seq : Z;
  pd_findings : gmap string (list ScanRunFinding);
  pd_freshness : gmap string ScanRunDBFreshness;
  pd_scheduler : gmap string ScanSchedulerState;
  pd_console : ConsoleDB;
}.
#[global] Instance PolicyDB_eq_dec : EqDecision PolicyDB.
Proof. solve_decision. Defined.

Definition empty_policies : PolicyDB := mkPolicyDB ∅ ∅ ∅ ∅ ∅ ∅ 1 ∅ ∅ ∅ empty_console.

Definition set_scan_policies x db := mkPolicyDB x (pd_signing_policy db) (pd_overrides db) (pd_scan_settings db)
  (pd_runtimes db) (pd_runs db) (pd_run_seq db) (pd_findings db) (pd_freshness db) (pd_scheduler db) (pd_console db).
Definition set_signing_policies x db := mkPolicyDB (pd_scan_policy db) x (pd_overrides db) (pd_scan_settings db)
  (pd_runtimes db) (pd_runs db) (pd_run_seq db) (pd_findings db) (pd_freshness db) (pd_scheduler db) (pd_console db).
Definition set_overrides x db := mkPolicyDB (pd_scan_policy db) (pd_signing_policy db) x (pd_scan_settings db)
  (pd_runtimes db) (pd_runs db) (pd_run_seq db) (pd_findings db) (pd_freshness db) (pd_scheduler db) (pd_console db).
Definition set_settings x db := mkPolicyDB (pd_scan_policy db) (pd_signing_policy db) (pd_overrides db) x
  (pd_runtimes db) (pd_runs db) (pd_run_seq db) (pd_findings db) (pd_freshness db) (pd_scheduler db) (pd_console db).
Definition set_runtimes x db := mkPolicyDB (pd_scan_policy db) (pd_signing_policy db) (pd_overrides db)
  (pd_scan_settings db) x (pd_runs db) (pd_run_seq db) (pd_findings db) (pd_freshness db) (pd_scheduler db) (pd_console db).
Definition set_runs x seq db := mkPolicyDB (pd_scan_policy db) (pd_signing_policy db) (pd_overrides db)
  (pd_scan_settings db) (pd_runtimes db) x seq (pd_findings db) (pd_freshness db) (pd_scheduler db) (pd_console db).
Definition set_findings x db := mkPolicyDB (pd_scan_policy db) (pd_signing_policy db) (pd_overrides db)
  (pd_scan_settings db) (pd_runtimes db) (pd_runs db) (pd_run_seq db) x (pd_freshness db) (pd_scheduler db) (pd_console db).
Definition set_freshness x db := mkPolicyDB (pd_scan_policy db) (pd_signing_policy db) (pd_overrides db)
  (pd_scan_settings db) (pd_runtimes db) (pd_runs db) (pd_run_seq db) (pd_findings db) x (pd_scheduler db) (pd_console db).
Definition set_scheduler x db := mkPolicyDB (pd_scan_policy db) (pd_signing_policy db) (pd_overrides db)
  (pd_scan_settings db) (pd_runtimes db) (pd_runs db) (pd_run_seq db) (pd_findings db) (pd_freshness db) x (pd_console db).

Definition set_console x db := mkPolicyDB (pd_scan_policy db) (pd_signing_policy db) (pd_overrides db)
  (pd_scan_settings db) (pd_runtimes db) (pd_runs db) (pd_run_seq db) (pd_findings db) (pd_freshness db)
  (pd_scheduler db) x.

(** ** Statements *)

Definition q_scan_policy (t : string) (db : PolicyDB) : res ScanPolicySettings :=
  match pd_scan_policy db !! t with
  | Some s => Ok s
  | None => Err (NewNotFoundError "scan_policy_settings" t)
  end.
Definition x_scan_policy (t : string) (s : ScanPolicySettings) (db : PolicyDB) : PolicyDB :=
  set_scan_policies (<[t := s]> (pd_scan_policy db)) db.

Definition q_signing_policy (t : string) (db : PolicyDB) : res SigningPolicySettings :=
  match pd_signing_policy db !! t with
  | Some s => Ok s
  | None => Err (NewNotFoundError "signing_policy_settings" t)
  end.
Definition x_signing_policy (t : string) (s : SigningPolicySettings) (db : PolicyDB) : PolicyDB :=
  set_signing_policies (<[t := s]> (pd_signing_policy db)) db.

Definition no_override (repository feature : string) : error :=
  NewNotFoundError "repository_feature_override" (String.append repository (String "/" feature)).
Definition q_override (t repository feature : string) (db : PolicyDB) : res string :=
  match pd_overrides db !! (t, repository, feature) with
  | Some (payload, _) => Ok payload
  | None => Err (no_override repository feature)
  end.
Definition x_override (t repository feature payload : string) (now : Time) (db : PolicyDB) : PolicyDB :=
  set_overrides (<[(t, repository, feature) := (payload, now)]> (pd_overrides db)) db.
(** The number of rows deleted, and the rest. *)
Definition x_delete_override (t repository feature : string) (db : PolicyDB) : Z * PolicyDB :=
  ((match pd_overrides db !! (t, repository, feature) with Some _ => 1 | None => 0 end),
   set_overrides (delete (t, repository, feature) (pd_overrides db)) db).
(** [ORDER BY repository ASC] *)
Definition q_overrides (t feature : string) (db : PolicyDB) : list RepositoryFeatureOverride :=
  sort_by fo_Repository
    (omap (λ kv, let '(t', repository, feature', (payload, updated)) := kv in
             if String.eqb t' t && String.eqb feature' feature
             then Some (mkFeatureOverride repository feature payload updated) else None)
       (map_to_list (pd_overrides db))).

(** What the statement keeps of a [ScanSettings]: the managed paths and the
    per-run projection of an override are not columns. *)
Definition settings_row (s : ScanSettings) : ScanSettings :=
  mkScanSettings (ss_Enabled s) (ss_ScheduleEnabled s) (ss_Interval s) (ss_Timeout s) (ss_ServiceURL s)
    (ss_RegistryReachableURL s) (ss_AuthToken s) (ss_TLSCACertPath s) (ss_TLSInsecureSkipVerify s) "" ""
    (ss_LegacyCacheDir s) (ss_LegacyBinaryPath s) (ss_MaxConcurrency s) (ss_UpdatedAt s) "" "" "".
Definition q_scan_settings (t feature : string) (db : PolicyDB) : res ScanSettings :=
  match pd_scan_settings db !! (t, feature) with
  | Some s => Ok s
  | None => Err (NewNotFoundError "scan_settings" t)
  end.
Definition x_scan_settings (t feature : string) (s : ScanSettings) (db : PolicyDB) : PolicyDB :=
  set_settings (<[(t, feature) := settings_row s]> (pd_scan_settings db)) db.

Section Legacy.
Context `{UnicodeTables}.

Definition legacy_hint (before value after : string) : list string :=
  if String.eqb value "" then [] else
  [String.append "legacy " (String.append before (String.append " " (String.append (go_quote value) after)))].
(** The runtime state of a tenant whose settings predate managed runtimes. *)
Definition deriveLegacyFeatureRuntimeState (s : ScanSettings) : option FeatureRuntimeState :=
  let binary := trim_space (ss_LegacyBinaryPath s) in
  let cache := trim_space (ss_LegacyCacheDir s) in
  let service := trim_space (ss_ServiceURL s) in
  if String.eqb binary "" && String.eqb cache "" && String.eqb service "" then None else
  Some (mkRuntimeState FeatureRuntimeStatusMigrationRequired "" "" "" "" ""
    (join "; " (legacy_hint "binary_path" binary " requires managed reinstall and will never be executed"
                ++ legacy_hint "cache_dir" cache " is migration evidence only"
                ++ legacy_hint "service_url" service " is superseded by the managed runtime"))
    None None None "" (ss_UpdatedAt s)).
End Legacy.

Definition q_runtime (t feature : string) (db : PolicyDB) : option FeatureRuntimeState :=
  pd_runtimes db !! (t, feature).
Definition x_runtime (t feature : string) (s : FeatureRuntimeState) (db : PolicyDB) : PolicyDB :=
  set_runtimes (<[(t, feature) := s]> (pd_runtimes db)) db.

(** Of two runs, the one an [ORDER BY created_at DESC, rowid DESC] puts first. *)
Definition newer (r r' : RunRow) : bool :=
  let a := formatTime (sr_CreatedAt (rw_Run r)) in
  let b := formatTime (sr_CreatedAt (rw_Run r')) in
  if String.eqb a b then rw_Seq r' <? rw_Seq r else str_leb b a.
Fixpoint newest (l : list RunRow) : option RunRow :=
  match l with
  | [] => None
  | r :: l' => match newest l' with
               | Some r' => if newer r r' then Some r else Some r'
               | None => Some r
               end
  end.
Definition runs_of (p : RunRow → bool) (t repository digest : string) (db : PolicyDB) : list RunRow :=
  filter (λ r, String.eqb (rw_Tenant r) t && String.eqb (sr_Repository (rw_Run r)) repository
               && String.eqb (sr_Digest (rw_Run r)) digest && p r = true)
    (map snd (map_to_list (pd_runs db))).
Definition is_active (r : RunRow) : bool :=
  String.eqb (sr_Status (rw_Run r)) ScanRunStatusQueued || String.eqb (sr_Status (rw_Run r)) ScanRunStatusRunning.
Definition first_run (r : option RunRow) (key : string) : res ScanRun :=
  match r with Some r => Ok (rw_Run r) | None => Err (NewNotFoundError "scan_run" key) end.
Definition at_digest (repository digest : string) : string := String.append repository (String "@" digest).

Definition q_latest_run (t repository digest : string) (db : PolicyDB) : res ScanRun :=
  first_run (newest (runs_of (λ _, true) t repository digest db)) (at_digest repository digest).
(** This statement has no second sort key: among equal instants any row may come
    first, and the model takes the last inserted. *)
Definition q_active_run (t repository digest : string) (db : PolicyDB) : res ScanRun :=
  first_run (newest (runs_of is_active t repository digest db)) (at_digest repository digest).
Definition q_run (t id : string) (db : PolicyDB) : res ScanRun :=
  first_run (match pd_runs db !! id with
             | Some r => if String.eqb (rw_Tenant r) t then Some r else None
             | None => None
             end) id.

(** [ON CONFLICT(id)] keeps what identifies the run. *)
Definition update_run (old run : ScanRun) : ScanRun :=
  mkScanRun (sr_ID old) (sr_Repository old) (sr_RequestedRef old) (sr_Digest old) (sr_Status run) (sr_Trigger old)
    (sr_StartedAt run) (sr_FinishedAt run) (sr_CreatedAt old) (sr_UpdatedAt run) (sr_Critical run) (sr_High run)
    (sr_Medium run) (sr_Low run) (sr_TrivyVersion run) (sr_DBUpdatedAt run) (sr_Error run) false.
Definition x_run (t : string) (run : ScanRun) (db : PolicyDB) : PolicyDB :=
  match pd_runs db !! sr_ID run with
  | Some old =>
      set_runs (<[sr_ID run := mkRunRow (rw_Seq old) (rw_Tenant old) (update_run (rw_Run old) run)]> (pd_runs db))
        (pd_run_seq db) db
  | None =>
      set_runs (<[sr_ID run := mkRunRow (pd_run_seq db) t run]> (pd_runs db)) (pd_run_seq db + 1) db
  end.
(** Zero instants are filled in before the statement; whether a finding is
    fixable is no column of a run. *)
Definition dated_run (now : Time) (run : ScanRun) : ScanRun :=
  let created := if IsZero (sr_CreatedAt run) then now else sr_CreatedAt run in
  let updated := if IsZero (sr_UpdatedAt run) then created else sr_UpdatedAt run in
  mkScanRun (sr_ID run) (sr_Repository run) (sr_RequestedRef run) (sr_Digest run) (sr_Status run) (sr_Trigger run)
    (sr_StartedAt run) (sr_FinishedAt run) created updated (sr_Critical run) (sr_High run) (sr_Medium run) (sr_Low run)
    (sr_TrivyVersion run) (sr_DBUpdatedAt run) (sr_Error run) false.

Definition x_delete_findings (id : string) (db : PolicyDB) : PolicyDB := set_findings (delete id (pd_findings db)) db.
(** The findings of a run are stored with their positions, that is in order. *)
Definition x_finding (id : string) (f : ScanRunFinding) (db : PolicyDB) : PolicyDB :=
  set_findings (<[id := default [] (pd_findings db !! id) ++ [f]]> (pd_findings db)) db.
Definition hasDBFreshness (f : ScanRunDBFreshness) : bool :=
  (0 <? fs_ReportSchemaVersion f) || bool_decide (is_Some (fs_ReportCreatedAt f))
  || negb (String.eqb (trim_space (fs_TrivyVersion f)) "") || (0 <? fs_DBVersion f)
  || bool_decide (is_Some (fs_DBUpdatedAt f)) || bool_decide (is_Some (fs_DBDownloadedAt f))
  || bool_decide (is_Some (fs_DBNextUpdateAt f)) || negb (String.eqb (trim_space (fs_FreshnessState f)) "").
Definition x_freshness (id : string) (f : ScanRunDBFreshness) (db : PolicyDB) : PolicyDB :=
  if hasDBFreshness f then set_freshness (<[id := f]> (pd_freshness db)) db
  else set_freshness (delete id (pd_freshness db)) db.
(** The statements of one detail, one after the other. *)
Definition x_run_detail (t : string) (run : ScanRun) (d : ScanRunDetail) (db : PolicyDB) : PolicyDB :=
  x_freshness (sr_ID (dt_Run d)) (dt_DBFreshness d)
    (foldl (λ db f, x_finding (sr_ID (dt_Run d)) f db) (x_delete_findings (sr_ID (dt_Run d)) (x_run t run db)) (dt_Findings d)).

Definition q_scheduler (t : string) (db : PolicyDB) : res ScanSchedulerState :=
  match pd_scheduler db !! t with
  | Some s => Ok s
  | None => Err (NewNotFoundError "scan_scheduler_state" t)
  end.
Definition x_scheduler (t : string) (s : ScanSchedulerState) (db : PolicyDB) : PolicyDB :=
  set_scheduler (<[t := s]> (pd_scheduler db)) db.

Definition dated_runtime (now : Time) (s : FeatureRuntimeState) : FeatureRuntimeState :=
  mkRuntimeState (fr_Status s) (fr_ActiveVersion s) (fr_PreviousVersion s) (fr_ActiveBinaryPath s) (fr_CacheDir s)
    (fr_ReceiptPath s) (fr_MigrationHint s) (fr_LastVerifiedAt s) (fr_LastHealthCheckAt s) (fr_LastDBUpdatedAt s)
    (fr_LastError s) (if IsZero (fr_UpdatedAt s) then now else fr_UpdatedAt s).

(** ** The process and its two halves *)

Record FullWorld := mkFullWorld { fw_reg : RegWorld; fw_policy : PolicyDB }.

(** A call on the registry's half. *)
Definition on_reg {A} (m : M RegWorld A) : M FullWorld A :=
  λ w, let '(r, w') := m (fw_reg w) in (r, mkFullWorld w' (fw_policy w)).

#[global] Instance full_blobs `{BlobStore RegWorld} : BlobStore FullWorld := {|
  blob_BeginUpload r := on_reg (blob_BeginUpload r);
  blob_GetUpload id := on_reg (blob_GetUpload id);
  PutUploadChunk id c := on_reg (PutUploadChunk id c);
  CommitUpload id d := on_reg (CommitUpload id d);
  CancelUpload id := on_reg (CancelUpload id);
  BlobExists d := on_reg (BlobExists d);
  blob_OpenBlob d := on_reg (blob_OpenBlob d);
  ListBlobs := on_reg ListBlobs;
  DeleteBlob d := on_reg (DeleteBlob d);
|}.

#[global] Instance full_metadata `{MetadataStore RegWorld} : MetadataStore FullWorld := {|
  SaveUpload t st := on_reg (SaveUpload t st);
  meta_GetUpload t id := on_reg (meta_GetUpload t id);
  ListUploads t r := on_reg (ListUploads t r);
  DeleteUpload t id := on_reg (DeleteUpload t id);
  meta_PublishManifest t r g m bs := on_reg (meta_PublishManifest t r g m bs);
  meta_ResolveManifest t r x := on_reg (meta_ResolveManifest t r x);
  meta_Catalog t l a := on_reg (meta_Catalog t l a);
  ListTags t r l a := on_reg (ListTags t r l a);
  ListTagsWithCreatedAt t r l a := on_reg (ListTagsWithCreatedAt t r l a);
  ListRepositoriesWithSummary t l a := on_reg (ListRepositoriesWithSummary t l a);
  ListManifestBlobs t r d := on_reg (ListManifestBlobs t r d);
  ListReferrers t r d := on_reg (ListReferrers t r d);
  DeleteManifestByDigest t r d := on_reg (DeleteManifestByDigest t r d);
  DeleteTag t r g := on_reg (DeleteTag t r g);
  meta_DeleteRepository t r := on_reg (meta_DeleteRepository t r);
  ListReferencedBlobDigests := on_reg ListReferencedBlobDigests;
  IsBlobDigestReferenced d := on_reg (IsBlobDigestReferenced d);
  CreateGCReport r cs := on_reg (CreateGCReport r cs);
  meta_GetGCReport id := on_reg (meta_GetGCReport id);
  PruneExpiredGCReports n := on_reg (PruneExpiredGCReports n);
  MarkGCReportDeleted id o := on_reg (MarkGCReportDeleted id o);
|}.

(** The UUIDs of the process: random, so unlike any id in use. *)
Class FullEnv := { fenv_uuid : nat → MetaDB → PolicyDB → string }.

#[global] Instance full_runtime `{RegRuntime RegWorld, FullEnv} : RegRuntime FullWorld := {|
  reg_now := on_reg reg_now;
  reg_uuid := λ w, (Ok (fenv_uuid (rw_calls (fw_reg w)) (rw_db (fw_reg w)) (fw_policy w)),
                    mkFullWorld (tick (fw_reg w)) (fw_policy w));
  reg_spawn_scan s := on_reg (reg_spawn_scan s);
|}.

(** ** The operations *)

Section Operations.
Context `{UnicodeTables, RegEnv}.

(** One call of the SQL driver on the policy tables. *)
Definition policy_call {A} (f : PolicyDB → res A * PolicyDB) : M FullWorld A := λ w,
  match renv_fault (rw_calls (fw_reg w)) with
  | Some e => (Err (OtherError e), mkFullWorld (tick (fw_reg w)) (fw_policy w))
  | None => let '(r, db) := f (fw_policy w) in (r, mkFullWorld (tick (fw_reg w)) db)
  end.
Definition policy_query {A} (f : PolicyDB → res A) : M FullWorld A := policy_call (λ db, (f db, db)).
Definition policy_exec (f : PolicyDB → PolicyDB) : M FullWorld unit := policy_call (λ db, (Ok tt, f db)).

Definition sql_GetScanPolicySettings (t : string) : M FullWorld ScanPolicySettings := policy_query (q_scan_policy t).
Definition sql_UpsertScanPolicySettings (t : string) (s : ScanPolicySettings) : M FullWorld unit :=
  policy_exec (x_scan_policy t s).
Definition sql_GetSigningPolicySettings (t : string) : M FullWorld SigningPolicySettings :=
  policy_query (q_signing_policy t).
Definition sql_UpsertSigningPolicySettings (t : string) (s : SigningPolicySettings) : M FullWorld unit :=
  policy_exec (x_signing_policy t s).

Definition sql_GetRepositoryFeatureOverride (t repository feature : string) : M FullWorld string :=
  policy_query (q_override t repository feature).
Definition sql_ListRepositoryFeatureOverrides (t feature : string) : M FullWorld (list RepositoryFeatureOverride) :=
  policy_query (λ db, Ok (q_overrides t feature db)).
Definition sql_UpsertRepositoryFeatureOverride (t repository feature payload : string) : M FullWorld unit :=
  let! now := on_reg clock in
  policy_exec (x_override t repository feature payload now).
Definition sql_DeleteRepositoryFeatureOverride (t repository feature : string) : M FullWorld unit :=
  let! rows := policy_call (λ db, let '(n, db') := x_delete_override t repository feature db in (Ok n, db')) in
  if rows =? 0 then sthrow (no_override repository feature) else sret tt.

Definition sql_GetScanSettings (t feature : string) : M FullWorld ScanSettings :=
  policy_query (q_scan_settings t feature).
Definition sql_UpsertScanSettings (t feature : string) (s : ScanSettings) : M FullWorld unit :=
  policy_exec (x_scan_settings t feature s).

Definition sql_GetFeatureRuntimeState (t feature : string) : M FullWorld FeatureRuntimeState :=
  let! state := policy_query (λ db, Ok (q_runtime t feature db)) in
  match state with
  | Some state => sret state
  | None =>
      let! settings := sattempt (sql_GetScanSettings t feature) in
      match settings with
      | Ok settings =>
          match deriveLegacyFeatureRuntimeState settings with
          | Some legacy => sret legacy
          | None => sthrow (NewNotFoundError "feature_runtime_state" t)
          end
      | Err e => if reg_is_code e CodeNotFound then sthrow (NewNotFoundError "feature_runtime_state" t) else sthrow e
      end
  end.
Definition sql_UpsertFeatureRuntimeState (t feature : string) (s : FeatureRuntimeState) : M FullWorld unit :=
  let! now := (if IsZero (fr_UpdatedAt s) then on_reg clock else sret (fr_UpdatedAt s)) in
  policy_exec (x_runtime t feature (dated_runtime now s)).

Definition sql_GetActiveScanRunByDigest (t repository digest : string) : M FullWorld ScanRun :=
  policy_query (q_active_run t repository digest).
Definition sql_GetLatestScanRunByDigest (t repository digest : string) : M FullWorld ScanRun :=
  policy_query (q_latest_run t repository digest).
Definition sql_GetScanRun (t id : string) : M FullWorld ScanRun := policy_query (q_run t id).
Definition sql_UpsertScanRun (t : string) (run : ScanRun) : M FullWorld unit :=
  let! now := (if IsZero (sr_CreatedAt run) then on_reg clock else sret (sr_CreatedAt run)) in
  policy_exec (x_run t (dated_run now run)).
Definition upsertScanRunTx := sql_UpsertScanRun.

(** A transaction: the tables keep its statements only if the commit succeeds. *)
Definition policy_transaction {A} (body : M FullWorld A) : M FullWorld A := λ w,
  match (do! policy_query (λ _, Ok tt) in
         let! a := body in
         do! policy_query (λ _, Ok tt) in
         sret a) w with
  | (Ok a, w') => (Ok a, w')
  | (Err e, w') => (Err e, mkFullWorld (fw_reg w') (fw_policy w))
  end.
Fixpoint insert_findings (id : string) (fs : list ScanRunFinding) : M FullWorld unit :=
  match fs with
  | [] => sret tt
  | f :: fs' => do! policy_exec (x_finding id f) in insert_findings id fs'
  end.
Definition sql_UpsertScanRunDetail (t : string) (d : ScanRunDetail) : M FullWorld unit :=
  policy_transaction (
    do! upsertScanRunTx t (dt_Run d) in
    do! policy_exec (x_delete_findings (sr_ID (dt_Run d))) in
    do! insert_findings (sr_ID (dt_Run d)) (dt_Findings d) in
    policy_exec (x_freshness (sr_ID (dt_Run d)) (dt_DBFreshness d))).

Definition sql_GetScanSchedulerState (t : string) : M FullWorld ScanSchedulerState := policy_query (q_scheduler t).
Definition sql_UpsertScanSchedulerState (t : string) (s : ScanSchedulerState) : M FullWorld unit :=
  policy_exec (x_scheduler t s).
(** The state a lease is in once [owner] holds it from [now]. *)
Definition leased (current : option ScanSchedulerState) (owner : string) (now : Time) (leaseTTL : Duration)
    : ScanSchedulerState :=
  let state := default (mkSchedulerState "" zero_time zero_time None) current in
  mkSchedulerState owner (now + leaseTTL) now
    (if bool_decide (sh_BatchStartedAt state = None) || (sh_LeaseExpiresAt state <? now)
     then Some now else sh_BatchStartedAt state).
(** From the state that was read: the other half of an acquisition. *)
Definition acquire_from (t owner : string) (now : Time) (leaseTTL : Duration) (current : res ScanSchedulerState)
    : M FullWorld (bool * ScanSchedulerState) :=
  match current with
  | Err e =>
      if negb (reg_is_code e CodeNotFound) then sthrow e else
      let state := leased None owner now leaseTTL in
      do! sql_UpsertScanSchedulerState t state in
      sret (true, state)
  | Ok current =>
      if negb (String.eqb (sh_OwnerID current) "") && negb (String.eqb (sh_OwnerID current) owner)
         && (now <? sh_LeaseExpiresAt current)
      then sret (false, current) else
      let state := leased (Some current) owner now leaseTTL in
      do! sql_UpsertScanSchedulerState t state in
      sret (true, state)
  end.
Definition sql_TryAcquireScanSchedulerLease (t owner : string) (now : Time) (leaseTTL : Duration)
    : M FullWorld (bool * ScanSchedulerState) :=
  let! current := sattempt (sql_GetScanSchedulerState t) in
  acquire_from t owner now leaseTTL current.
Definition sql_HeartbeatScanScheduler (t owner : string) (now : Time) (leaseTTL : Duration) : M FullWorld unit :=
  let! state := sql_GetScanSchedulerState t in
  sql_UpsertScanSchedulerState t (mkSchedulerState owner (now + leaseTTL) now (sh_BatchStartedAt state)).
End Operations.

#[global] Instance sqlite_policies `{UnicodeTables, RegEnv} : PolicyStore FullWorld := {|
  meta_GetScanPolicySettings := sql_GetScanPolicySettings;
  UpsertScanPolicySettings := sql_UpsertScanPolicySettings;
  meta_GetSigningPolicySettings := sql_GetSigningPolicySettings;
  UpsertSigningPolicySettings := sql_UpsertSigningPolicySettings;
  GetRepositoryFeatureOverride := sql_GetRepositoryFeatureOverride;
  ListRepositoryFeatureOverrides := sql_ListRepositoryFeatureOverrides;
  UpsertRepositoryFeatureOverride := sql_UpsertRepositoryFeatureOverride;
  DeleteRepositoryFeatureOverride := sql_DeleteRepositoryFeatureOverride;
  meta_GetScanSettings := sql_GetScanSettings;
  UpsertScanSettings := sql_UpsertScanSettings;
  GetFeatureRuntimeState := sql_GetFeatureRuntimeState;
  UpsertFeatureRuntimeState := sql_UpsertFeatureRuntimeState;
  GetActiveScanRunByDigest := sql_GetActiveScanRunByDigest;
  GetLatestScanRunByDigest := sql_GetLatestScanRunByDigest;
  GetScanRun := sql_GetScanRun;
  UpsertScanRun := sql_UpsertScanRun;
  UpsertScanRunDetail := sql_UpsertScanRunDetail;
|}.

#[global] Instance sqlite_leases `{UnicodeTables, RegEnv} : LeaseStore FullWorld := {|
  TryAcquireScanSchedulerLease := sql_TryAcquireScanSchedulerLease;
  HeartbeatScanScheduler := sql_HeartbeatScanScheduler;
|}.

(** * The console's half of the store *)

Definition set_channels x db := mkConsoleDB x (cd_secret_runs db) (cd_secret_seq db) (cd_secret_findings db).
Definition set_secret_runs x seq db := mkConsoleDB (cd_channels db) x seq (cd_secret_findings db).
Definition set_secret_findings x db := mkConsoleDB (cd_channels db) (cd_secret_runs db) (cd_secret_seq db) x.
Definition on_console (f : ConsoleDB → ConsoleDB) (db : PolicyDB) : PolicyDB := set_console (f (pd_console db)) db.

(** [ORDER BY] as a comparison of rows, [LIMIT] when it is positive. *)
Definition before_rel {A} (before : A → A → bool) (x y : A) : Prop := before x y = true.
#[global] Instance before_rel_dec {A} (before : A → A → bool) x y : Decision (before_rel before x y).
Proof. unfold before_rel; apply _. Defined.
Definition order_by {A} (before : A → A → bool) (l : list A) : list A := merge_sort (before_rel before) l.
Definition limited {A} (limit : Z) (l : list A) : list A := if 0 <? limit then take (Z.to_nat limit) l else l.

(** ** Statements *)

Definition q_update_channel (t : string) (db : PolicyDB) : res UpdateChannelSettings :=
  match cd_channels (pd_console db) !! t with
  | Some s => Ok s
  | None => Err (NewNotFoundError "update_channel_settings" t)
  end.
Definition x_update_channel (t : string) (s : UpdateChannelSettings) : PolicyDB → PolicyDB :=
  on_console (λ db, set_channels (<[t := s]> (cd_channels db)) db).

(** *** Scan runs *)

Definition severity (critical high medium low : Z) : Z :=
  if 0 <? critical then 4 else if 0 <? high then 3 else if 0 <? medium then 2 else if 0 <? low then 1 else 0.
Definition run_severity (r : ScanRun) : Z := severity (sr_Critical r) (sr_High r) (sr_Medium r) (sr_Low r).
Definition findings_of (id : string) (db : PolicyDB) : list ScanRunFinding := default [] (pd_findings db !! id).
Definition scanRunFindingsHaveFixable (findings : list ScanRunFinding) : bool := existsb fd_Fixable findings.
Definition scanRunHasFixable (id : string) (db : PolicyDB) : bool := scanRunFindingsHaveFixable (findings_of id db).

(** Worst severity first, fixable runs first among equals, then the newest. The
    statement leaves the order of runs of the same instant open; the model takes
    the last inserted first. *)
Definition run_before (db : PolicyDB) (r r' : RunRow) : bool :=
  let s := run_severity (rw_Run r) in
  let s' := run_severity (rw_Run r') in
  let f := scanRunHasFixable (sr_ID (rw_Run r)) db in
  let f' := scanRunHasFixable (sr_ID (rw_Run r')) db in
  (s' <? s) || (s =? s') && ((f && negb f') || Bool.eqb f f' && (newer r r' || (rw_Seq r =? rw_Seq r'))).
Definition tenant_runs (t : string) (db : PolicyDB) : list RunRow :=
  filter (λ r, String.eqb (rw_Tenant r) t = true) (map snd (map_to_list (pd_runs db))).
Definition q_scan_runs `{UnicodeTables} (t repository : string) (limit : Z) (db : PolicyDB) : list ScanRun :=
  limited limit (map rw_Run (order_by (run_before db)
    (filter (λ r, (String.eqb (trim_space repository) "" || String.eqb (sr_Repository (rw_Run r)) repository) = true)
       (tenant_runs t db)))).
Definition with_fixable (r : ScanRun) (fixable : bool) : ScanRun :=
  mkScanRun (sr_ID r) (sr_Repository r) (sr_RequestedRef r) (sr_Digest r) (sr_Status r) (sr_Trigger r) (sr_StartedAt r)
    (sr_FinishedAt r) (sr_CreatedAt r) (sr_UpdatedAt r) (sr_Critical r) (sr_High r) (sr_Medium r) (sr_Low r)
    (sr_TrivyVersion r) (sr_DBUpdatedAt r) (sr_Error r) fixable.

(** The newest run of every repository, with the number of its runs. *)
Definition same_repository (r : RunRow) (l : list RunRow) : list RunRow :=
  filter (λ r', String.eqb (sr_Repository (rw_Run r')) (sr_Repository (rw_Run r)) = true) l.
Definition is_newest (l : list RunRow) (r : RunRow) : bool :=
  forallb (λ r', (rw_Seq r' =? rw_Seq r) || newer r r') (same_repository r l).
Definition q_scan_summaries (t : string) (limit : Z) (db : PolicyDB) : list RepositoryScanSummary :=
  let rows := tenant_runs t db in
  limited limit (map (λ r, mkScanSummary (rw_Run r) (Z.of_nat (length (same_repository r rows))))
    (order_by (run_before db) (filter (λ r, is_newest rows r = true) rows))).
Definition summary_fixable (s : RepositoryScanSummary) (fixable : bool) : RepositoryScanSummary :=
  mkScanSummary (with_fixable (rs_Run s) fixable) (rs_RunCount s).

(** The findings of a run: worst first, fixable first, then as they were reported. *)
Definition finding_severity (f : ScanRunFinding) : Z :=
  let s := fd_Severity f in
  if String.eqb s "CRITICAL" then 4 else if String.eqb s "HIGH" then 3 else if String.eqb s "MEDIUM" then 2
  else if String.eqb s "LOW" then 1 else 0.
Definition finding_before (f f' : nat * ScanRunFinding) : bool :=
  let s := finding_severity f.2 in
  let s' := finding_severity f'.2 in
  (s' <? s) || (s =? s') && ((fd_Fixable f.2 && negb (fd_Fixable f'.2))
                             || Bool.eqb (fd_Fixable f.2) (fd_Fixable f'.2) && (f.1 <=? f'.1)%nat).
Definition listScanRunFindings (id : string) (db : PolicyDB) : list ScanRunFinding :=
  map snd (order_by finding_before (imap pair (findings_of id db))).

Definition unknown_freshness : ScanRunDBFreshness :=
  mkFreshness 0 None "" 0 None None None ScanRunDBFreshnessStateUnknown.
(** A freshness whose state is blank is unknown. *)
Definition stated_freshness `{UnicodeTables} (f : ScanRunDBFreshness) : ScanRunDBFreshness :=
  if String.eqb (trim_space (fs_FreshnessState f)) ""
  then mkFreshness (fs_ReportSchemaVersion f) (fs_ReportCreatedAt f) (fs_TrivyVersion f) (fs_DBVersion f)
         (fs_DBUpdatedAt f) (fs_DBDownloadedAt f) (fs_DBNextUpdateAt f) ScanRunDBFreshnessStateUnknown
  else f.
Definition getScanRunDBFreshness `{UnicodeTables} (id : string) (db : PolicyDB) : ScanRunDBFreshness :=
  match pd_freshness db !! id with Some f => stated_freshness f | None => unknown_freshness end.

(** *** Secret scans *)

Definition secret_before (r r' : SecretRow) : bool :=
  let a := formatTime (sn_CreatedAt (sw_Run r)) in
  let b := formatTime (sn_CreatedAt (sw_Run r')) in
  if String.eqb a b then sw_Seq r' <=? sw_Seq r else str_leb b a.
Definition secret_rows (p : SecretScanRun → bool) (t : string) (db : PolicyDB) : list SecretRow :=
  order_by secret_before
    (filter (λ r, String.eqb (sw_Tenant r) t && p (sw_Run r) = true) (map snd (map_to_list (cd_secret_runs (pd_console db))))).
Definition secret_active (r : SecretScanRun) : bool :=
  String.eqb (sn_Status r) SecretScanRunStatusQueued || String.eqb (sn_Status r) SecretScanRunStatusRunning.
Definition first_secret (r : option SecretRow) (key : string) : res SecretScanRun :=
  match r with Some r => Ok (sw_Run r) | None => Err (NewNotFoundError "secret_scan_run" key) end.
Definition q_secret_active (t repository digest : string) (db : PolicyDB) : res SecretScanRun :=
  first_secret (head (secret_rows (λ r, String.eqb (sn_Repository r) repository && String.eqb (sn_Digest r) digest
                                        && secret_active r) t db))
    (at_digest repository digest).
Definition q_secret_run (t id : string) (db : PolicyDB) : res SecretScanRun :=
  first_secret (match cd_secret_runs (pd_console db) !! id with
                | Some r => if String.eqb (sw_Tenant r) t then Some r else None
                | None => None
                end) id.
Definition listSecretScanFindings (id : string) (db : PolicyDB) : list SecretFinding :=
  default [] (cd_secret_findings (pd_console db) !! id).
Definition secretScanRunFindingCount (id : string) (db : PolicyDB) : Z := Z.of_nat (length (listSecretScanFindings id db)).
Definition q_secret_runs `{UnicodeTables} (t repository : string) (limit : Z) (db : PolicyDB) : list SecretScanRun :=
  limited limit (map sw_Run (secret_rows (λ r, String.eqb (trim_space repository) ""
                                               || String.eqb (sn_Repository r) repository) t db)).
Definition with_count (r : SecretScanRun) (count : Z) : SecretScanRun :=
  mkSecretRun (sn_ID r) (sn_Repository r) (sn_Digest r) (sn_Status r) (sn_Trigger r) (sn_StartedAt r) (sn_FinishedAt r)
    (sn_CreatedAt r) (sn_UpdatedAt r) (sn_GitleaksVersion r) count (sn_Error r).

(** [ON CONFLICT(id)] keeps what identifies the run; the number of findings is no
    column. *)
Definition update_secret_run (old run : SecretScanRun) : SecretScanRun :=
  mkSecretRun (sn_ID old) (sn_Repository old) (sn_Digest old) (sn_Status run) (sn_Trigger old) (sn_StartedAt run)
    (sn_FinishedAt run) (sn_CreatedAt old) (sn_UpdatedAt run) (sn_GitleaksVersion run) 0 (sn_Error run).
Definition x_secret_run (t : string) (run : SecretScanRun) : PolicyDB → PolicyDB :=
  on_console (λ db,
    match cd_secret_runs db !! sn_ID run with
    | Some old =>
        set_secret_runs (<[sn_ID run := mkSecretRow (sw_Seq old) (sw_Tenant old) (update_secret_run (sw_Run old) run)]>
                           (cd_secret_runs db)) (cd_secret_seq db) db
    | None =>
        set_secret_runs (<[sn_ID run := mkSecretRow (cd_secret_seq db) t run]> (cd_secret_runs db))
          (cd_secret_seq db + 1) db
    end).
Definition dated_secret_run (now : Time) (run : SecretScanRun) : SecretScanRun :=
  let created := if IsZero (sn_CreatedAt run) then now else sn_CreatedAt run in
  let updated := if IsZero (sn_UpdatedAt run) then created else sn_UpdatedAt run in
  mkSecretRun (sn_ID run) (sn_Repository run) (sn_Digest run) (sn_Status run) (sn_Trigger run) (sn_StartedAt run)
    (sn_FinishedAt run) created updated (sn_GitleaksVersion run) 0 (sn_Error run).
Definition x_delete_secrets (id : string) : PolicyDB → PolicyDB :=
  on_console (λ db, set_secret_findings (delete id (cd_secret_findings db)) db).
Definition x_secret (id : string) (f : SecretFinding) : PolicyDB → PolicyDB :=
  on_console (λ db, set_secret_findings (<[id := default [] (cd_secret_findings db !! id) ++ [f]]> (cd_secret_findings db)) db).
Definition x_secret_detail (t : string) (run : SecretScanRun) (d : SecretScanRunDetail) (db : PolicyDB) : PolicyDB :=
  foldl (λ db f, x_secret (sn_ID (sl_Run d)) f db) (x_delete_secrets (sn_ID (sl_Run d)) (x_secret_run t run db)) (sl_Findings d).

(** ** The operations *)

Section Operations.
Context `{UnicodeTables, RegEnv}.

Definition sql_GetUpdateChannel (t : string) : M FullWorld UpdateChannelSettings := policy_query (q_update_channel t).
Definition sql_UpsertUpdateChannel (t : string) (s : UpdateChannelSettings) : M FullWorld unit :=
  policy_exec (x_update_channel t s).

(** One more query for every row. *)
Definition sql_ListScanRuns (t repository : string) (limit : Z) : M FullWorld (list ScanRun) :=
  let! runs := policy_query (λ db, Ok (q_scan_runs t repository limit db)) in
  smap (λ run, let! fixable := policy_query (λ db, Ok (scanRunHasFixable (sr_ID run) db)) in
               sret (with_fixable run fixable)) runs.
Definition sql_ListLatestScanRunPerRepository (t : string) (limit : Z) : M FullWorld (list RepositoryScanSummary) :=
  let! summaries := policy_query (λ db, Ok (q_scan_summaries t limit db)) in
  smap (λ s, let! fixable := policy_query (λ db, Ok (scanRunHasFixable (sr_ID (rs_Run s)) db)) in
             sret (summary_fixable s fixable)) summaries.
Definition sql_GetScanRunDetail (t id : string) : M FullWorld ScanRunDetail :=
  let! run := sql_GetScanRun t id in
  let! findings := policy_query (λ db, Ok (listScanRunFindings id db)) in
  let! freshness := policy_query (λ db, Ok (getScanRunDBFreshness id db)) in
  sret (mkRunDetail (with_fixable run (scanRunFindingsHaveFixable findings)) findings freshness "").

Definition sql_GetActiveSecretScanRunByDigest (t repository digest : string) : M FullWorld SecretScanRun :=
  policy_query (q_secret_active t repository digest).
Definition sql_GetSecretScanRun (t id : string) : M FullWorld SecretScanRun := policy_query (q_secret_run t id).
Definition sql_GetSecretScanRunDetail (t id : string) : M FullWorld SecretScanRunDetail :=
  let! run := sql_GetSecretScanRun t id in
  let! findings := policy_query (λ db, Ok (listSecretScanFindings id db)) in
  sret (mkSecretDetail (with_count run (Z.of_nat (length findings))) findings).
Definition upsertSecretScanRunTx (t : string) (run : SecretScanRun) : M FullWorld unit :=
  let! now := (if IsZero (sn_CreatedAt run) then on_reg clock else sret (sn_CreatedAt run)) in
  policy_exec (x_secret_run t (dated_secret_run now run)).
Definition sql_UpsertSecretScanRun (t : string) (run : SecretScanRun) : M FullWorld unit :=
  policy_transaction (upsertSecretScanRunTx t run).
Fixpoint insert_secrets (id : string) (fs : list SecretFinding) : M FullWorld unit :=
  match fs with
  | [] => sret tt
  | f :: fs' => do! policy_exec (x_secret id f) in insert_secrets id fs'
  end.
Definition sql_UpsertSecretScanRunDetail (t : string) (d : SecretScanRunDetail) : M FullWorld unit :=
  policy_transaction (
    do! upsertSecretScanRunTx t (sl_Run d) in
    do! policy_exec (x_delete_secrets (sn_ID (sl_Run d))) in
    insert_secrets (sn_ID (sl_Run d)) (sl_Findings d)).
Definition sql_ListSecretScanRuns (t repository : string) (limit : Z) : M FullWorld (list SecretScanRun) :=
  let! runs := policy_query (λ db, Ok (q_secret_runs t repository limit db)) in
  smap (λ run, let! count := policy_query (λ db, Ok (secretScanRunFindingCount (sn_ID run) db)) in
               sret (with_count run count)) runs.
End Operations.

#[global] Instance sqlite_console `{UnicodeTables, RegEnv} : ConsoleStore FullWorld := {|
  meta_GetUpdateChannel := sql_GetUpdateChannel;
  meta_UpsertUpdateChannel := sql_UpsertUpdateChannel;
  meta_ListScanRuns := sql_ListScanRuns;
  meta_ListLatestScanRunPerRepository := sql_ListLatestScanRunPerRepository;
  meta_GetScanRunDetail := sql_GetScanRunDetail;
  GetActiveSecretScanRunByDigest := sql_GetActiveSecretScanRunByDigest;
  GetSecretScanRunDetail := sql_GetSecretScanRunDetail;
  UpsertSecretScanRun := sql_UpsertSecretScanRun;
  UpsertSecretScanRunDetail := sql_UpsertSecretScanRunDetail;
  ListSecretScanRuns := sql_ListSecretScanRuns;
|}.
