(* ===== verification/PolicyLaws.v ===== *)
(** What the policy half of the metadata store promises, and a way to read code
    that only looks: a computation that [observes] a function of the registry and
    the policy tables returns that function's value, or an infrastructure error
    that some failing external call explains, and changes neither.

    Running handlers that change the policy tables. [runs faulty R D m Q]: from a
    state whose registry is [R] and whose policy tables are [D], [m] leaves the
    registry alone and ends with a result and tables that satisfy [Q]; external
    calls fail only if [faulty]. With [faulty] false this is what a handler does
    when nothing fails, with [faulty] true what it does in any case. *)
From S2P Require Import Prelude GoStrings Errors Repository Digest GoNumbers Manifest RegPorts Registry.
From S2P Require Import Signing RegSteps PolicyPorts PolicyStore.

(** * Observers *)

(** The value side of [sattempt]. *)
Definition rattempt {A} (r : res A) : res (res A) := Ok r.

Section Observers.
Context {W : Type} `{RegistryLaws W} (pview : W → PolicyDB).

(** A call on the policy tables: it leaves the registry alone and meets [spec],
    or fails and changes nothing. *)
Definition pol_meets {A} (m : M W A) (spec : PolicyDB → res A → PolicyDB → Prop) : Prop :=
  ∀ w, reg_wf w →
    reg_wf (m w).2 ∧ reg_later w (m w).2 ∧ reg_view (m w).2 = reg_view w
    ∧ (spec (pview w) (m w).1 (pview (m w).2)
       ∨ (pview (m w).2 = pview w ∧ ∃ e, (m w).1 = Err (OtherError e)) ∧ ¬ reg_calm w).
Definition pol_frame {A} (m : M W A) : Prop := ∀ w, pview (m w).2 = pview w.

Definition observes {A} (m : M W A) (f : Registry → PolicyDB → res A) : Prop :=
  ∀ w, reg_wf w →
    reg_wf (m w).2 ∧ reg_later w (m w).2 ∧ reg_view (m w).2 = reg_view w ∧ pview (m w).2 = pview w
    ∧ ((m w).1 = f (reg_view w) (pview w) ∨ (∃ e, (m w).1 = Err (OtherError e)) ∧ ¬ reg_calm w).

Lemma observes_ext {A} (m : M W A) f g : observes m f → (∀ R D, f R D = g R D) → observes m g.
Proof. intros Hm Hfg w Hw; rewrite <- Hfg; by apply Hm. Qed.

Lemma observes_ret {A} (a : A) : observes (sret a) (λ _ _, Ok a).
Proof. intros w Hw; split_and!; [done|reflexivity|done..|by left]. Qed.
Lemma observes_throw {A} e : observes (A := A) (sthrow e) (λ _ _, Err e).
Proof. intros w Hw; split_and!; [done|reflexivity|done..|by left]. Qed.
Lemma observes_lift {A} (r : res A) : observes (slift r) (λ _ _, r).
Proof. intros w Hw; split_and!; [done|reflexivity|done..|by left]. Qed.

Lemma not_calm_later w w' : reg_later w w' → ¬ reg_calm w' → ¬ reg_calm w.
Proof. intros Hl Hn Hc; apply Hn; by eapply reg_calm_later. Qed.

Lemma observes_bind {A B} (m : M W A) (k : A → M W B) f g :
  observes m f → (∀ a, observes (k a) (g a)) →
  observes (sbind m k) (λ R D, let? a := f R D in g a R D).
Proof.
  intros Hm Hk w Hw; destruct (Hm w Hw) as (Hw' & Hl & Hv & Hp & Hr); unfold sbind.
  destruct (m w) as [[a|e] w']; simpl in *.
  - destruct (Hk a w' Hw') as (Hw2 & Hl2 & Hv2 & Hp2 & Hr2); rewrite Hv, Hp in *.
    destruct Hr as [<-|[[e He] _]]; [|done]; simpl.
    split_and!; [done|by etransitivity|done..|]; destruct Hr2 as [?|[? ?]]; [by left|right; eauto using not_calm_later].
  - split_and!; [done..|]; destruct Hr as [<-|[[e' [= ->]] Hn]]; [by left|right; split; [by eexists|done]].
Qed.

(** The caller looks at the error: an infrastructure error has to come out as
    some infrastructure error, or not to matter. *)
Lemma observes_attempt {A B} (m : M W A) (k : res A → M W B) f g :
  observes m f → (∀ r, observes (k r) (g r)) →
  (∀ e R D, (∃ e', g (Err (OtherError e)) R D = Err (OtherError e')) ∨ g (Err (OtherError e)) R D = g (f R D) R D) →
  observes (let! r := sattempt m in k r) (λ R D, let? r := rattempt (f R D) in g r R D).
Proof.
  intros Hm Hk He w Hw; destruct (Hm w Hw) as (Hw' & Hl & Hv & Hp & Hr); unfold sbind, sattempt, rattempt; simpl.
  destruct (m w) as [r w']; simpl in *; destruct (Hk r w' Hw') as (Hw2 & Hl2 & Hv2 & Hp2 & Hr2); rewrite Hv, Hp in *.
  split_and!; [done|by etransitivity|done..|].
  destruct Hr as [<-|[[e ->] Hn]]; [destruct Hr2 as [?|[? ?]]; [by left|right; eauto using not_calm_later]|].
  destruct Hr2 as [->|[? _]]; [|by right].
  destruct (He e (reg_view w) (pview w)) as [Hx|Hx]; [by right|by left].
Qed.

Lemma observes_registry {A} (m : M W A) spec f :
  reg_ok m spec unchanged → pol_frame m → (∀ R r R', spec R r R' → R' = R ∧ r = f R) →
  observes m (λ R _, f R).
Proof.
  intros Hm Hf Hs w Hw; destruct (Hm w Hw) as (Hw' & Hl & [Hr|[[Hv Hr] Hn]]); split_and!; try done; try apply Hf.
  - by apply Hs in Hr as [-> _].
  - left; by apply Hs in Hr as [_ ->].
  - by right.
Qed.

(** What an observer returned when it succeeded, or when nothing failed below it. *)
Lemma observes_ok {A} (m : M W A) f w a : observes m f → reg_wf w → (m w).1 = Ok a → f (reg_view w) (pview w) = Ok a.
Proof. intros Hm Hw Ha; destruct (Hm w Hw) as (_ & _ & _ & _ & [Hr|[[e He] _]]); congruence. Qed.
Lemma observes_calm {A} (m : M W A) f w : observes m f → reg_wf w → reg_calm w → (m w).1 = f (reg_view w) (pview w).
Proof. intros Hm Hw Hc; by destruct (Hm w Hw) as (_ & _ & _ & _ & [Hr|[_ Hn]]). Qed.
End Observers.

(** * The contract *)

(** A write that succeeds at some instant. *)
Definition pol_writes (f : Time → PolicyDB → PolicyDB) (D : PolicyDB) (r : res unit) (D' : PolicyDB) : Prop :=
  r = Ok tt ∧ ∃ now, D' = f now D.

Definition spec_delete_override (t repository feature : string) (D : PolicyDB) (r : res unit) (D' : PolicyDB) : Prop :=
  match pd_overrides D !! (t, repository, feature) with
  | Some _ => r = Ok tt ∧ D' = (x_delete_override t repository feature D).2
  | None => r = Err (no_override repository feature) ∧ D' = D
  end.
Definition f_runtime `{UnicodeTables} (t feature : string) (D : PolicyDB) : res FeatureRuntimeState :=
  match q_runtime t feature D with
  | Some s => Ok s
  | None =>
      match q_scan_settings t feature D with
      | Ok settings => match deriveLegacyFeatureRuntimeState settings with
                       | Some s => Ok s
                       | None => Err (NewNotFoundError "feature_runtime_state" t)
                       end
      | Err _ => Err (NewNotFoundError "feature_runtime_state" t)
      end
  end.

Class PolicyLaws (W : Type) `{UnicodeTables, RegistryLaws W, !PolicyStore W} := {
  pol_view : W → PolicyDB;
  pol_sees {A} (m : M W A) (f : PolicyDB → res A) := observes pol_view m (λ _, f);
  pol_ok {A} (m : M W A) spec := pol_meets pol_view m spec;
  GetScanPolicySettings_ok t : pol_sees (meta_GetScanPolicySettings t) (q_scan_policy t);
  UpsertScanPolicySettings_ok t s : pol_ok (UpsertScanPolicySettings t s) (pol_writes (λ _, x_scan_policy t s));
  GetSigningPolicySettings_ok t : pol_sees (meta_GetSigningPolicySettings t) (q_signing_policy t);
  UpsertSigningPolicySettings_ok t s :
    pol_ok (UpsertSigningPolicySettings t s) (pol_writes (λ _, x_signing_policy t s));
  GetRepositoryFeatureOverride_ok t n f : pol_sees (GetRepositoryFeatureOverride t n f) (q_override t n f);
  ListRepositoryFeatureOverrides_ok t f :
    pol_sees (ListRepositoryFeatureOverrides t f) (λ D, Ok (q_overrides t f D));
  UpsertRepositoryFeatureOverride_ok t n f p :
    pol_ok (UpsertRepositoryFeatureOverride t n f p) (pol_writes (x_override t n f p));
  DeleteRepositoryFeatureOverride_ok t n f :
    pol_ok (DeleteRepositoryFeatureOverride t n f) (spec_delete_override t n f);
  GetScanSettings_ok t f : pol_sees (meta_GetScanSettings t f) (q_scan_settings t f);
  UpsertScanSettings_ok t f s : pol_ok (UpsertScanSettings t f s) (pol_writes (λ _, x_scan_settings t f s));
  GetFeatureRuntimeState_ok t f : pol_sees (GetFeatureRuntimeState t f) (f_runtime t f);
  UpsertFeatureRuntimeState_ok t f s :
    pol_ok (UpsertFeatureRuntimeState t f s) (pol_writes (λ now, x_runtime t f (dated_runtime now s)));
  GetActiveScanRunByDigest_ok t n d : pol_sees (GetActiveScanRunByDigest t n d) (q_active_run t n d);
  GetLatestScanRunByDigest_ok t n d : pol_sees (GetLatestScanRunByDigest t n d) (q_latest_run t n d);
  GetScanRun_ok t id : pol_sees (GetScanRun t id) (q_run t id);
  UpsertScanRun_ok t r : pol_ok (UpsertScanRun t r) (pol_writes (λ now, x_run t (dated_run now r)));
  UpsertScanRunDetail_ok t d :
    pol_ok (UpsertScanRunDetail t d) (pol_writes (λ now, x_run_detail t (dated_run now (dt_Run d)) d));
  (** The registry's operations the services combine with them leave the policies alone. *)
  ResolveManifest_frame t r x : pol_frame pol_view (meta_ResolveManifest t r x);
  ListReferrers_frame t r d : pol_frame pol_view (ListReferrers t r d);
  Catalog_frame t l a : pol_frame pol_view (meta_Catalog t l a);
  OpenBlob_frame d : pol_frame pol_view (blob_OpenBlob d);
  now_frame : pol_frame pol_view reg_now;
  uuid_frame : pol_frame pol_view reg_uuid;
  (** An id the runtime draws is no stored run's. *)
  uuid_fresh_run w id : (reg_uuid w).1 = Ok id → pd_runs (pol_view w) !! id = None;
}.

(** The lease: taken unless another owner's has not expired; a heartbeat takes it
    from whoever holds it. *)
Definition f_acquire (t owner : string) (now : Time) (ttl : Duration) (D : PolicyDB) : (bool * ScanSchedulerState) * PolicyDB :=
  match pd_scheduler D !! t with
  | Some s =>
      if negb (String.eqb (sh_OwnerID s) "") && negb (String.eqb (sh_OwnerID s) owner) && (now <? sh_LeaseExpiresAt s)
      then ((false, s), D)
      else let s' := leased (Some s) owner now ttl in ((true, s'), x_scheduler t s' D)
  | None => let s' := leased None owner now ttl in ((true, s'), x_scheduler t s' D)
  end.
Definition spec_acquire (t owner : string) (now : Time) (ttl : Duration) (D : PolicyDB)
    (r : res (bool * ScanSchedulerState)) (D' : PolicyDB) : Prop :=
  r = Ok (f_acquire t owner now ttl D).1 ∧ D' = (f_acquire t owner now ttl D).2.
Definition spec_heartbeat (t owner : string) (now : Time) (ttl : Duration) (D : PolicyDB) (r : res unit) (D' : PolicyDB)
    : Prop :=
  match pd_scheduler D !! t with
  | Some s => r = Ok tt ∧ D' = x_scheduler t (mkSchedulerState owner (now + ttl) now (sh_BatchStartedAt s)) D
  | None => r = Err (NewNotFoundError "scan_scheduler_state" t) ∧ D' = D
  end.
Class LeaseLaws (W : Type) `{PolicyLaws W, !LeaseStore W} := {
  TryAcquire_ok t owner now ttl :
    pol_ok (TryAcquireScanSchedulerLease t owner now ttl) (spec_acquire t owner now ttl);
  Heartbeat_ok t owner now ttl : pol_ok (HeartbeatScanScheduler t owner now ttl) (spec_heartbeat t owner now ttl);
}.

(** Read an observer off the code: one rule per construct, the lemmas of the
    hint database for the calls, case analysis on the scrutinee both sides share. *)
Create HintDb observe discriminated.
Ltac observe_step :=
  match goal with
  | |- observes _ (sret _) _ => apply observes_ret
  | |- observes _ (sthrow _) _ => apply observes_throw
  | |- observes _ (slift _) _ => apply observes_lift
  | |- observes _ (sbind (sattempt _) _) _ =>
      apply observes_attempt; [|intros ?|intros ? ? ?; simpl; try (left; by eexists)]
  | |- observes _ (sbind _ _) _ => apply observes_bind; [|intros ?]
  | |- observes _ (match ?x with _ => _ end) _ => destruct x eqn:?
  | |- observes _ _ _ => solve [eauto with observe]
  end.
Ltac observe := repeat (cbn beta iota; observe_step).

#[export] Hint Extern 0 (observes _ _ _) => assumption : observe.
#[export] Hint Extern 1 (observes _ (meta_GetScanPolicySettings _) _) => apply GetScanPolicySettings_ok : observe.
#[export] Hint Extern 1 (observes _ (meta_GetSigningPolicySettings _) _) => apply GetSigningPolicySettings_ok : observe.
#[export] Hint Extern 1 (observes _ (GetRepositoryFeatureOverride _ _ _) _) =>
  apply GetRepositoryFeatureOverride_ok : observe.
#[export] Hint Extern 1 (observes _ (ListRepositoryFeatureOverrides _ _) _) =>
  apply ListRepositoryFeatureOverrides_ok : observe.
#[export] Hint Extern 1 (observes _ (meta_GetScanSettings _ _) _) => apply GetScanSettings_ok : observe.
#[export] Hint Extern 1 (observes _ (GetFeatureRuntimeState _ _) _) => apply GetFeatureRuntimeState_ok : observe.
#[export] Hint Extern 1 (observes _ (GetActiveScanRunByDigest _ _ _) _) => apply GetActiveScanRunByDigest_ok : observe.
#[export] Hint Extern 1 (observes _ (GetLatestScanRunByDigest _ _ _) _) => apply GetLatestScanRunByDigest_ok : observe.
#[export] Hint Extern 1 (observes _ (GetScanRun _ _) _) => apply GetScanRun_ok : observe.

(** * Handlers that write *)

Section Runs.
Context {W : Type} `{PolicyLaws W}.
Variables (faulty : Prop) (R : Registry).

Definition runs {A} (D : PolicyDB) (m : M W A) (Q : res A → PolicyDB → Prop) : Prop :=
  ∀ w, reg_wf w → (¬ reg_calm w → faulty) → reg_view w = R → pol_view w = D →
    reg_wf (m w).2 ∧ reg_later w (m w).2 ∧ reg_view (m w).2 = R ∧ Q (m w).1 (pol_view (m w).2).

(** The result of a call that failed below the model. *)
Definition fault {A} (r : res A) : Prop := faulty ∧ ∃ e, r = Err (OtherError e).

Lemma runs_ret {A} D (a : A) (Q : res A → PolicyDB → Prop) : Q (Ok a) D → runs D (sret a) Q.
Proof. intros HQ w Hw Hf HR HD; subst; split_and!; [done|reflexivity|done..]. Qed.
Lemma runs_throw {A} D e (Q : res A → PolicyDB → Prop) : Q (Err e) D → runs D (sthrow e) Q.
Proof. intros HQ w Hw Hf HR HD; subst; split_and!; [done|reflexivity|done..]. Qed.
Lemma runs_lift {A} D (r : res A) (Q : res A → PolicyDB → Prop) : Q r D → runs D (slift r) Q.
Proof. intros HQ w Hw Hf HR HD; subst; split_and!; [done|reflexivity|done..]. Qed.

Lemma bind_lift {A B} D (v : res A) (k : A → M W B) (Q : res B → PolicyDB → Prop) :
  (∀ a, v = Ok a → runs D (k a) Q) → (∀ e, v = Err e → Q (Err e) D) → runs D (sbind (slift v) k) Q.
Proof. intros Hk He; destruct v as [a|e]; [exact (Hk a eq_refl)|by apply runs_throw, He]. Qed.

Lemma runs_conseq {A} D (m : M W A) (Q Q' : res A → PolicyDB → Prop) :
  runs D m Q → (∀ r D', Q r D' → Q' r D') → runs D m Q'.
Proof. intros Hm HQ w Hw Hf HR HD; destruct (Hm w Hw Hf HR HD) as (? & ? & ? & ?); split_and!; auto. Qed.

Lemma runs_bind {A B} D (m : M W A) (k : A → M W B) (Q : res A → PolicyDB → Prop) (Q' : res B → PolicyDB → Prop) :
  runs D m Q → (∀ a D', Q (Ok a) D' → runs D' (k a) Q') → (∀ e D', Q (Err e) D' → Q' (Err e) D') →
  runs D (sbind m k) Q'.
Proof.
  intros Hm Hk He w Hw Hf HR HD; destruct (Hm w Hw Hf HR HD) as (Hw' & Hl & HR' & HQ); unfold sbind.
  destruct (m w) as [[a|e] w']; simpl in *; [|split_and!; auto].
  destruct (Hk a _ HQ w' Hw') as (? & ? & ? & ?); [|done..|split_and!; [done|by etransitivity|done..]].
  intros Hn; apply Hf; eauto using not_calm_later.
Qed.

Lemma runs_attempt {A B} D (m : M W A) (k : res A → M W B) (Q : res A → PolicyDB → Prop) (Q' : res B → PolicyDB → Prop) :
  runs D m Q → (∀ r D', Q r D' → runs D' (k r) Q') → runs D (let! r := sattempt m in k r) Q'.
Proof.
  intros Hm Hk; apply (runs_bind _ _ _ (λ r D', match r with Ok r => Q r D' | Err _ => False end)); [|done..].
  intros w Hw Hf HR HD; destruct (Hm w Hw Hf HR HD) as (? & ? & ? & ?); unfold sattempt.
  by destruct (m w) as [r w'].
Qed.

(** A computation that only looks. *)
Lemma runs_observes {A} D (m : M W A) f : observes pol_view m f →
  runs D m (λ r D', D' = D ∧ (r = f R D ∨ fault r)).
Proof.
  intros Hm w Hw Hf HR HD; destruct (Hm w Hw) as (Hw' & Hl & Hv & Hp & Hr); subst R D.
  split_and!; [done..|]; destruct Hr as [?|[? Hn]]; [by left|right; split; auto].
Qed.
Lemma bind_observes {A B} D (m : M W A) (k : A → M W B) f (Q : res B → PolicyDB → Prop) :
  observes pol_view m f → (∀ a, f R D = Ok a → runs D (k a) Q) → (∀ e, f R D = Err e → Q (Err e) D) →
  (∀ e, faulty → Q (Err (OtherError e)) D) → runs D (sbind m k) Q.
Proof.
  intros Hm Hk He Hx; eapply runs_bind; [by apply runs_observes|..].
  - intros a D' [-> [Ha|[_ [e [=]]]]]; by apply Hk.
  - intros e D' [-> [Ha|[Hf [e' [= ->]]]]]; auto.
Qed.
Lemma attempt_observes {A B} D (m : M W A) (k : res A → M W B) f (Q : res B → PolicyDB → Prop) :
  observes pol_view m f → runs D (k (f R D)) Q → (∀ e, faulty → runs D (k (Err (OtherError e))) Q) →
  runs D (let! r := sattempt m in k r) Q.
Proof.
  intros Hm Hk Hx; eapply runs_attempt; [by apply runs_observes|].
  intros r D' [-> [->|[Hf [e ->]]]]; auto.
Qed.

(** A call that changes the tables. *)
Lemma runs_call {A} D (m : M W A) spec : pol_ok m spec → runs D m (λ r D', spec D r D' ∨ D' = D ∧ fault r).
Proof.
  intros Hm w Hw Hf HR HD; destruct (Hm w Hw) as (Hw' & Hl & Hv & Hs); subst R D.
  split_and!; [done..|]; destruct Hs as [?|[[? ?] Hn]]; [by left|right; split; [done|split; auto]].
Qed.
Lemma bind_writes {B} D (m : M W unit) (k : unit → M W B) f (Q : res B → PolicyDB → Prop) :
  pol_ok m (pol_writes f) → (∀ now, runs (f now D) (k tt) Q) → (∀ e, faulty → Q (Err (OtherError e)) D) →
  runs D (sbind m k) Q.
Proof.
  intros Hm Hk Hx; eapply runs_bind; [by apply runs_call|..].
  - intros [] D' [[_ [now ->]]|[_ [_ [e [=]]]]]; apply Hk.
  - intros e D' [[[=] _]|[-> [Hf [e' [= ->]]]]]; auto.
Qed.

(** The clock and fresh ids. *)
Lemma bind_now {B} D (k : Time → M W B) (Q : res B → PolicyDB → Prop) :
  (∀ now, runs D (k now) Q) → runs D (sbind reg_now k) Q.
Proof.
  intros Hk; apply (runs_bind _ _ _ (λ r D', D' = D ∧ ∃ t, r = Ok t)).
  - intros w Hw Hf HR HD; subst.
    destruct (reg_now_ok w Hw) as (? & ? & Hr); split_and!; [done..| | |].
    + by destruct Hr as [[-> _]|[[-> _] _]].
    + apply now_frame.
    + apply reg_now_runs.
  - intros t D' [-> _]; apply Hk.
  - by intros e D' [_ [t [=]]].
Qed.
Lemma bind_uuid {B} D (k : string → M W B) (Q : res B → PolicyDB → Prop) :
  (∀ id, pd_runs D !! id = None → runs D (k id) Q) → (∀ e, faulty → Q (Err (OtherError e)) D) →
  runs D (sbind reg_uuid k) Q.
Proof.
  intros Hk Hx; apply (runs_bind _ _ _ (λ r D', D' = D
    ∧ match r with Ok id => pd_runs D !! id = None | Err _ => fault r end)).
  - intros w Hw Hf HR HD; subst.
    pose proof (uuid_fresh_run w) as Hid; destruct (reg_uuid_ok w Hw) as (? & ? & Hr); split_and!; [done..| | |].
    + by destruct Hr as [[-> _]|[[-> _] _]].
    + apply uuid_frame.
    + destruct (reg_uuid w).1 as [id|e]; [by apply Hid|].
      destruct Hr as [[_ (id & [=] & _)]|[[_ Hr] Hn]]; split; auto.
  - intros id D' [-> Hid]; by apply Hk.
  - intros e D' [-> [Hf [e' [= ->]]]]; auto.
Qed.
End Runs.

(** ** Invariants of the policy tables *)

Section Stays.
Context {W : Type} `{PolicyLaws W}.
Variable Inv : PolicyDB → Prop.

(** Whatever fails, [m] leaves the registry alone and keeps [Inv]. *)
Definition stays {A} (m : M W A) : Prop := ∀ R D, Inv D → runs True R D m (λ _ D', Inv D').

Lemma stays_ret {A} (a : A) : stays (sret a).
Proof. intros R D HD; by apply runs_ret. Qed.
Lemma stays_throw {A} e : stays (A := A) (sthrow e).
Proof. intros R D HD; by apply runs_throw. Qed.
Lemma stays_lift {A} (r : res A) : stays (slift r).
Proof. intros R D HD; by apply runs_lift. Qed.
Lemma stays_bind {A B} (m : M W A) (k : A → M W B) : stays m → (∀ a, stays (k a)) → stays (sbind m k).
Proof. intros Hm Hk R D HD; eapply runs_bind; [by apply Hm|intros a D' ?; by apply Hk|done]. Qed.
Lemma stays_attempt {A B} (m : M W A) (k : res A → M W B) :
  stays m → (∀ r, stays (k r)) → stays (let! r := sattempt m in k r).
Proof. intros Hm Hk R D HD; eapply runs_attempt; [by apply Hm|intros r D' ?; by apply Hk]. Qed.
Lemma stays_observes {A} (m : M W A) f : observes pol_view m f → stays m.
Proof. intros Hm R D HD; eapply runs_conseq; [by apply runs_observes|]; by intros r D' [-> _]. Qed.
Lemma stays_writes (m : M W unit) f : pol_ok m (pol_writes f) → (∀ now D, Inv D → Inv (f now D)) → stays m.
Proof.
  intros Hm Hf R D HD; eapply runs_conseq; [by apply runs_call|]; intros r D' [[_ [now ->]]|[-> _]]; auto.
Qed.
(** A call on the registry's half that only looks. *)
Lemma stays_registry {A} (m : M W A) spec :
  reg_ok m spec unchanged → pol_frame pol_view m → (∀ R r R', spec R r R' → R' = R) → stays m.
Proof.
  intros Hm Hf Hs R D HD w Hw Hfa HR HD'; subst; destruct (Hm w Hw) as (? & ? & Hr); split_and!; [done..| |by rewrite Hf].
  destruct Hr as [Hr|[[Hr _] _]]; [by apply Hs in Hr|done].
Qed.
Lemma stays_now : stays reg_now.
Proof. eapply stays_registry; [apply reg_now_ok|intros w; apply now_frame|by intros R r R' [-> _]]. Qed.
Lemma stays_uuid : stays reg_uuid.
Proof. eapply stays_registry; [apply reg_uuid_ok|intros w; apply uuid_frame|by intros R r R' [-> _]]. Qed.
Lemma stays_catalog t l a : stays (meta_Catalog t l a).
Proof. eapply stays_registry; [apply Catalog_ok|intros w; apply Catalog_frame|by intros R r R' [-> _]]. Qed.
End Stays.
#[export] Hint Resolve stays_now stays_uuid stays_catalog : observe.

(** One rule per construct, as for observers. *)
Ltac stays_step :=
  match goal with
  | |- stays _ (sret _) => apply stays_ret
  | |- stays _ (sthrow _) => apply stays_throw
  | |- stays _ (slift _) => apply stays_lift
  | |- stays _ (sbind (sattempt _) _) => apply stays_attempt; [|intros ?]
  | |- stays _ (sbind _ _) => apply stays_bind; [|intros ?]
  | |- stays _ (match ?x with _ => _ end) => destruct x
  | |- stays _ (let '_ := ?x in _) => destruct x
  | |- stays _ _ => solve [eauto with observe]
  | |- stays _ _ => eapply stays_observes; solve [eauto with observe]
  end.
Ltac stays := repeat (cbn beta iota zeta; stays_step).
