(* ===== verification/FullLaws.v ===== *)
(** The whole metadata store keeps its contract: the registry's half on its own
    tables as before, the policy half on the others.

    What the console's half of the metadata store promises, and the proof that
    the SQLite store keeps it. *)
From S2P Require Import Prelude GoStrings Errors Repository Digest GoNumbers Manifest RegPorts RegWorld.
From S2P Require Import Registry FsBlob MetaStore RegView FsLaws Signing MetaLaws RegLaws RegSteps.
From S2P Require Import PolicyPorts PolicyStore PolicyLaws.

(** * Assumptions on the environment *)

Class FullEnvLaws `{RegEnvLaws, FullEnv} := {
  fenv_uuid_report n db pol : md_gc_reports db !! fenv_uuid n db pol = None;
  fenv_uuid_run n db pol : pd_runs pol !! fenv_uuid n db pol = None;
}.

(** * The registry's half *)

Section Registry.
Context `{FullEnvLaws}.

#[local] Notation meets m spec slack :=
  (reg_meets (view_of ∘ fw_reg) (world_wf ∘ fw_reg) (λ w w', world_later (fw_reg w) (fw_reg w')) (world_calm ∘ fw_reg)
     m spec slack).

Lemma on_reg_meets {A} (m : M RegWorld A) spec slack : reg_ok m spec slack → meets (on_reg m) spec slack.
Proof.
  intros Hm w Hw; destruct (Hm (fw_reg w) Hw) as (Hw' & Hl & Hs); unfold on_reg; simpl.
  by destruct (m (fw_reg w)) as [r w'].
Qed.

Lemma full_uuid_meets :
  meets reg_uuid (reads (λ R r, ∃ id, r = Ok id ∧ rg_reports R !! id = None)) unchanged.
Proof.
  intros [[db fs sc n] pol] Hw; split; [done|split; [unfold world_later, tick; simpl; lia|]].
  left; split; [done|]; eexists; split; [done|]; simpl; by rewrite lookup_view_reports, fenv_uuid_report.
Qed.

#[export] Instance full_later_preorder : PreOrder (λ w w', world_later (fw_reg w) (fw_reg w')).
Proof. split; [intros w; reflexivity|intros w1 w2 w3; by etransitivity]. Qed.

#[export] Instance full_laws : RegistryLaws FullWorld := {|
  reg_view := view_of ∘ fw_reg;
  reg_wf := world_wf ∘ fw_reg;
  reg_later w w' := world_later (fw_reg w) (fw_reg w');
  reg_calm := world_calm ∘ fw_reg;
  reg_calm_later w w' := world_calm_later (fw_reg w) (fw_reg w');
  SaveUpload_ok t st := on_reg_meets _ _ _ (SaveUpload_ok t st);
  GetUpload_ok t id := on_reg_meets _ _ _ (GetUpload_ok t id);
  DeleteUpload_ok t id := on_reg_meets _ _ _ (DeleteUpload_ok t id);
  ListUploads_ok t r := on_reg_meets _ _ _ (ListUploads_ok t r);
  PublishManifest_ok t r g m bs := on_reg_meets _ _ _ (PublishManifest_ok t r g m bs);
  ResolveManifest_ok t r x := on_reg_meets _ _ _ (ResolveManifest_ok t r x);
  ListManifestBlobs_ok t r d := on_reg_meets _ _ _ (ListManifestBlobs_ok t r d);
  DeleteManifestByDigest_ok t r d := on_reg_meets _ _ _ (DeleteManifestByDigest_ok t r d);
  DeleteRepository_ok t r := on_reg_meets _ _ _ (DeleteRepository_ok t r);
  DeleteTag_ok t r g := on_reg_meets _ _ _ (DeleteTag_ok t r g);
  ListReferencedBlobDigests_ok := on_reg_meets _ _ _ ListReferencedBlobDigests_ok;
  IsBlobDigestReferenced_ok d := on_reg_meets _ _ _ (IsBlobDigestReferenced_ok d);
  Catalog_ok t l a := on_reg_meets _ _ _ (Catalog_ok t l a);
  ListTags_ok t r l a := on_reg_meets _ _ _ (ListTags_ok t r l a);
  ListTagsWithCreatedAt_ok t r l a := on_reg_meets _ _ _ (ListTagsWithCreatedAt_ok t r l a);
  ListRepositoriesWithSummary_ok t l a := on_reg_meets _ _ _ (ListRepositoriesWithSummary_ok t l a);
  ListReferrers_ok t r d := on_reg_meets _ _ _ (ListReferrers_ok t r d);
  CreateGCReport_ok r cs := on_reg_meets _ _ _ (CreateGCReport_ok r cs);
  GetGCReport_ok id := on_reg_meets _ _ _ (GetGCReport_ok id);
  PruneExpiredGCReports_ok n := on_reg_meets _ _ _ (PruneExpiredGCReports_ok n);
  MarkGCReportDeleted_ok id o := on_reg_meets _ _ _ (MarkGCReportDeleted_ok id o);
  BeginUpload_ok r := on_reg_meets _ _ _ (BeginUpload_ok r);
  blob_GetUpload_ok id Hid := on_reg_meets _ _ _ (blob_GetUpload_ok id Hid);
  PutUploadChunk_ok id c Hid := on_reg_meets _ _ _ (PutUploadChunk_ok id c Hid);
  CommitUpload_ok id d Hid := on_reg_meets _ _ _ (CommitUpload_ok id d Hid);
  CancelUpload_ok id Hid := on_reg_meets _ _ _ (CancelUpload_ok id Hid);
  BlobExists_ok d := on_reg_meets _ _ _ (BlobExists_ok d);
  OpenBlob_ok d := on_reg_meets _ _ _ (OpenBlob_ok d);
  ListBlobs_ok := on_reg_meets _ _ _ ListBlobs_ok;
  DeleteBlob_ok d := on_reg_meets _ _ _ (DeleteBlob_ok d);
  reg_now_ok := on_reg_meets _ _ _ reg_now_ok;
  reg_now_runs w := ex_intro _ (renv_now (rw_calls (fw_reg w))) eq_refl;
  reg_uuid_ok := full_uuid_meets;
  reg_spawn_scan_ok s := on_reg_meets _ _ _ (reg_spawn_scan_ok s);
|}.
End Registry.

(** * The policy half *)

Section Policies.
Context `{UnicodeTables, FullEnvLaws}.

#[local] Notation pmeets m spec := (pol_meets fw_policy m spec).

(** One statement. *)
Lemma policy_call_meets {A} (f : PolicyDB → res A * PolicyDB) spec :
  (∀ D, spec D (f D).1 (f D).2) → pmeets (policy_call f) spec.
Proof.
  intros Hf [[db fs sc n] pol] Hw; unfold policy_call; simpl.
  destruct (renv_fault n) as [e|] eqn:Hn; simpl.
  - split_and!; [done|unfold world_later, tick; simpl; lia|done|]; right; split; [split; [done|by eexists]|].
    intros Hc; specialize (Hc n); simpl in Hc; rewrite Hc in Hn; [done|lia].
  - specialize (Hf pol); destruct (f pol) as [r D]; simpl in *.
    split_and!; [done|unfold world_later, tick; simpl; lia|done|by left].
Qed.
Lemma policy_query_sees {A} (f : PolicyDB → res A) : observes fw_policy (policy_query f) (λ _, f).
Proof.
  intros w Hw; destruct (policy_call_meets (λ D, (f D, D)) (λ D r D', D' = D ∧ r = f D) (λ _, conj eq_refl eq_refl) w Hw)
    as (? & ? & ? & [[? ?]|[[? ?] ?]]); split_and!; auto.
Qed.
Lemma policy_exec_meets f : pmeets (policy_exec f) (pol_writes (λ _, f)).
Proof. apply policy_call_meets; intros D; split; [done|]; by exists 0. Qed.

(** The clock before a statement. *)
Lemma pol_meets_clock {A} (k : Time → M FullWorld A) spec :
  (∀ now, pmeets (k now) spec) → pmeets (let! now := on_reg clock in k now) spec.
Proof.
  intros Hk [[db fs sc n] pol] Hw; unfold sbind, on_reg, clock; simpl.
  set (w' := mkFullWorld (tick (mkRegWorld db fs sc n)) pol).
  destruct (Hk (renv_now n) w') as (Hwf & Hl & Hv & Hs); [done|].
  assert (world_later (mkRegWorld db fs sc n) (tick (mkRegWorld db fs sc n))) as Ht by (unfold world_later, tick; simpl; lia).
  split_and!; [done|by etransitivity|done|]; destruct Hs as [?|[? Hn]]; [by left|right; split; [done|]].
  intros Hc; apply Hn; exact (world_calm_later _ _ Ht Hc).
Qed.
Lemma pol_meets_weaken {A} (m : M FullWorld A) (spec spec' : PolicyDB → res A → PolicyDB → Prop) :
  pmeets m spec → (∀ D r D', spec D r D' → spec' D r D') → pmeets m spec'.
Proof. intros Hm Hs w Hw; destruct (Hm w Hw) as (? & ? & ? & [?|?]); split_and!; auto. Qed.

Lemma delete_override_meets t n f : pmeets (sql_DeleteRepositoryFeatureOverride t n f) (spec_delete_override t n f).
Proof.
  intros w Hw; unfold sql_DeleteRepositoryFeatureOverride.
  set (q := λ db, let '(k, db') := x_delete_override t n f db in (Ok k, db')).
  destruct (policy_call_meets q (λ D r D', r = Ok (x_delete_override t n f D).1 ∧ D' = (x_delete_override t n f D).2)
    (λ _, conj eq_refl eq_refl) w Hw) as (Hw' & Hl & Hv & Hs).
  unfold sbind; destruct (policy_call q w) as [[k|e] w']; simpl in *.
  - destruct Hs as [[[= Hk] HD]|[[_ [e [=]]] _]].
    assert ((if k =? 0 then sthrow (no_override n f) else sret tt) w'
      = ((if k =? 0 then Err (no_override n f) else Ok tt) : res unit, w')) as -> by by destruct (k =? 0).
    split_and!; [done..|]; left; unfold spec_delete_override; simpl.
    destruct (pd_overrides (fw_policy w) !! (t, n, f)) as [[p u]|] eqn:Ho; subst k; [by rewrite HD|].
    split; [done|]; rewrite HD; destruct (fw_policy w); unfold set_overrides; simpl in *; by rewrite delete_id.
  - split_and!; [done..|]; right; destruct Hs as [[[=] _]|[[? [e' [= ->]]] ?]]; split; [split; [done|by eexists]|done].
Qed.

Lemma runtime_sees t f : observes fw_policy (sql_GetFeatureRuntimeState t f) (λ _, f_runtime t f).
Proof.
  set (legacy := λ r : res ScanSettings, match r with
    | Ok settings => match deriveLegacyFeatureRuntimeState settings with
                     | Some s => Ok s | None => Err (NewNotFoundError "feature_runtime_state" t) end
    | Err e => if reg_is_code e CodeNotFound then Err (NewNotFoundError "feature_runtime_state" t) else Err e end).
  apply (observes_ext fw_policy _ (λ _ D, let? o := Ok (q_runtime t f D) in
    match o with Some s => Ok s | None => legacy (q_scan_settings t f D) end)).
  - apply (observes_bind fw_policy _ _ (λ _ D, Ok (q_runtime t f D))
      (λ o _ D, match o with Some s => Ok s | None => legacy (q_scan_settings t f D) end)); [apply policy_query_sees|].
    intros [s|]; [apply observes_ret|].
    apply (observes_attempt fw_policy _ _ (λ _, q_scan_settings t f) (λ r _ _, legacy r)).
    + apply policy_query_sees.
    + intros [settings|e]; simpl; [destruct (deriveLegacyFeatureRuntimeState settings)|destruct (reg_is_code e CodeNotFound)];
        apply observes_ret || apply observes_throw.
    + intros e R D; left; by exists e.
  - intros R D; unfold f_runtime; simpl; destruct (q_runtime t f D); [done|].
    unfold q_scan_settings; by destruct (pd_scan_settings D !! (t, f)) as [s|].
Qed.

(** A write dated by the clock when the record has no date of its own. *)
Lemma dated_meets (b : bool) (d : Time) (g : Time → PolicyDB → PolicyDB) (g' : Time → PolicyDB → PolicyDB) :
  (∀ now D, ∃ now', g now D = g' now' D) →
  pmeets (let! now := (if b then on_reg clock else sret d) in policy_exec (g now)) (pol_writes g').
Proof.
  intros Hg; assert (∀ now, pmeets (policy_exec (g now)) (pol_writes g')) as Hw.
  { intros now; eapply pol_meets_weaken; [apply policy_exec_meets|]; intros D r D' [-> [_ ->]].
    split; [done|]; apply Hg. }
  destruct b; [by apply pol_meets_clock|]; intros w; apply Hw.
Qed.

(** A transaction whose body fails leaves what there was before it. *)
Definition pol_tries {A} (m : M FullWorld A) (P : PolicyDB → A → PolicyDB → Prop) : Prop := ∀ w, reg_wf w →
  reg_wf (m w).2 ∧ reg_later w (m w).2 ∧ reg_view (m w).2 = reg_view w
  ∧ match (m w).1 with
    | Ok a => P (fw_policy w) a (fw_policy (m w).2)
    | Err e => (∃ e', e = OtherError e') ∧ ¬ reg_calm w
    end.
Lemma tries_bind {A B} (m : M FullWorld A) (k : A → M FullWorld B) P Q :
  pol_tries m P → (∀ a, pol_tries (k a) (Q a)) → pol_tries (sbind m k) (λ D b D', ∃ a D1, P D a D1 ∧ Q a D1 b D').
Proof.
  intros Hm Hk w Hw; destruct (Hm w Hw) as (Hw' & Hl & Hv & Hr); unfold sbind.
  destruct (m w) as [[a|e] w']; simpl in *; [|by destruct Hr; split_and!].
  destruct (Hk a w' Hw') as (? & ? & Hv2 & Hr2); split_and!; [done|by etransitivity|exact (eq_trans Hv2 Hv)|].
  destruct (k a w').1 as [b|e]; [by exists a, (fw_policy w')|].
  destruct Hr2 as [? Hn]; split; [done|]; intros Hc; apply Hn; exact (world_calm_later _ _ Hl Hc).
Qed.
Lemma tries_weaken {A} (m : M FullWorld A) P Q : pol_tries m P → (∀ D a D', P D a D' → Q D a D') → pol_tries m Q.
Proof.
  intros Hm HPQ w Hw; destruct (Hm w Hw) as (? & ? & ? & Hr); split_and!; [done..|].
  destruct (m w).1; [by apply HPQ|done].
Qed.
Lemma tries_meets {A} (m : M FullWorld A) spec :
  pmeets m spec → (∀ D e D', ¬ spec D (Err e) D') → pol_tries m (λ D a D', spec D (Ok a) D').
Proof.
  intros Hm He w Hw; destruct (Hm w Hw) as (? & ? & ? & Hr); split_and!; [done..|].
  destruct (m w).1 as [a|e]; [by destruct Hr as [?|[[_ [? [=]]] _]]|].
  destruct Hr as [?%He|[[_ [e' [= ->]]] ?]]; [done|split; [by eexists|done]].
Qed.
Lemma tries_exec f : pol_tries (policy_exec f) (λ D _ D', D' = f D).
Proof.
  eapply tries_weaken; [apply tries_meets; [apply policy_exec_meets|by intros ? ? ? [? _]]|].
  by intros D [] D' [_ [_ ->]].
Qed.

Lemma tries_ret {A} (a : A) : pol_tries (sret a) (λ D b D', b = a ∧ D' = D).
Proof. intros w Hw; split_and!; [done|exact (le_n _)|done..]. Qed.

Lemma transaction_meets (body : M FullWorld unit) P : pol_tries body P →
  pmeets (policy_transaction body) (λ D r D', r = Ok tt ∧ P D tt D').
Proof.
  intros Hb; assert (pol_tries (policy_query (λ _ : PolicyDB, Ok tt)) (λ D _ D', D' = D)) as Hq.
  { eapply tries_weaken; [eapply tries_meets|].
    - apply (policy_call_meets (λ D, (Ok tt, D)) (λ D r D', r = Ok tt ∧ D' = D)); by intros D.
    - by intros ? ? ? [? _].
    - by intros D [] D' [_ ->]. }
  intros w Hw; unfold policy_transaction.
  assert (pol_tries (do! policy_query (λ _, Ok tt) in let! a := body in do! policy_query (λ _, Ok tt) in sret a) P) as Ht.
  { eapply tries_weaken; [apply tries_bind; [apply Hq|intros ?; apply tries_bind; [apply Hb|intros ?;
      apply tries_bind; [apply Hq|intros ?; apply tries_ret]]]|].
    simpl; intros D a D' ([] & D1 & -> & [] & D2 & HP & [] & D3 & -> & -> & ->); done. }
  destruct (Ht w Hw) as (Hw' & Hl & Hv & Hr); destruct (sbind _ _ w) as [[[]|e] w']; simpl in *.
  - split_and!; [done..|by left].
  - destruct Hr as [[e' ->] Hn]; split_and!; [done..|right; split; [split; [done|by eexists]|done]].
Qed.

Lemma tries_findings id fs :
  pol_tries (insert_findings id fs) (λ D _ D', D' = foldl (λ db f, x_finding id f db) D fs).
Proof.
  induction fs as [|f fs IH]; simpl.
  - intros w Hw; split_and!; [done|exact (le_n _)|done..].
  - eapply tries_weaken; [apply tries_bind; [apply tries_exec|intros ?; exact IH]|].
    by simpl; intros D [] D' ([] & D1 & -> & ->).
Qed.

Lemma run_meets t r : pmeets (sql_UpsertScanRun t r) (pol_writes (λ now, x_run t (dated_run now r))).
Proof. apply dated_meets; intros now D; by exists now. Qed.

Lemma run_detail_meets t d :
  pmeets (sql_UpsertScanRunDetail t d) (pol_writes (λ now, x_run_detail t (dated_run now (dt_Run d)) d)).
Proof.
  eapply pol_meets_weaken; [apply transaction_meets|].
  - apply tries_bind; [eapply tries_meets; [apply run_meets|by intros ? ? ? [? _]]|intros ?].
    apply tries_bind; [apply tries_exec|intros ?]; apply tries_bind; [apply tries_findings|intros ?]; apply tries_exec.
  - simpl; intros D r D' [-> ([] & D1 & [_ [now ->]] & [] & D2 & -> & [] & D3 & -> & ->)]; split; [done|by exists now].
Qed.

(** A read whose result decides what is written. *)
Lemma read_then_meets {A B} (q : PolicyDB → res A) (k : res A → M FullWorld B) spec_k spec :
  (∀ r, pmeets (k r) (spec_k r)) → (∀ e, k (Err (OtherError e)) = sthrow (OtherError e)) →
  (∀ D r D', spec_k (q D) D r D' → spec D r D') → pmeets (let! r := sattempt (policy_query q) in k r) spec.
Proof.
  intros Hk He Hs w Hw; destruct (policy_query_sees q w Hw) as (Hw' & Hl & Hv & Hp & Hr).
  unfold sbind, sattempt; destruct (policy_query q w) as [r w']; simpl in *.
  destruct Hr as [->|[[e ->] Hn]].
  - destruct (Hk (q (fw_policy w)) w' Hw') as (? & Hl2 & Hv2 & Hr2); rewrite Hp in Hr2.
    split_and!; [done|by etransitivity|exact (eq_trans Hv2 Hv)|]; destruct Hr2 as [?|[? Hn]]; [left; by apply Hs|right; split; [done|]].
    intros Hc; apply Hn; exact (world_calm_later _ _ Hl Hc).
  - rewrite He; split_and!; [done..|right; split; [split; [done|by eexists]|done]].
Qed.
Lemma exec_ret_meets {A} f (a : A) : pmeets (do! policy_exec f in sret a) (λ D r D', r = Ok a ∧ D' = f D).
Proof.
  intros w Hw; destruct (policy_exec_meets f w Hw) as (? & ? & ? & Hr); unfold sbind.
  destruct (policy_exec f w) as [[[]|e] w']; simpl in *; split_and!; try done.
  - left; by destruct Hr as [[_ [_ ->]]|[[_ [? [=]]] _]].
  - right; destruct Hr as [[[=] _]|[[? [e' [= ->]]] ?]]; split; [split; [done|by eexists]|done].
Qed.
Lemma same_meets {A} (m : M FullWorld A) r : (∀ w, m w = (r, w)) → pmeets m (λ D r' D', r' = r ∧ D' = D).
Proof. intros Hm w Hw; rewrite Hm; split_and!; [done|exact (le_n _)|done|by left]. Qed.

Lemma acquire_meets t owner now ttl :
  pmeets (sql_TryAcquireScanSchedulerLease t owner now ttl) (spec_acquire t owner now ttl).
Proof.
  apply (read_then_meets (q_scheduler t) _ (λ r D r' D',
    match r with
    | Err e => if negb (reg_is_code e CodeNotFound) then r' = Err e ∧ D' = D
               else let s := leased None owner now ttl in r' = Ok (true, s) ∧ D' = x_scheduler t s D
    | Ok c => if negb (String.eqb (sh_OwnerID c) "") && negb (String.eqb (sh_OwnerID c) owner) && (now <? sh_LeaseExpiresAt c)
              then r' = Ok (false, c) ∧ D' = D
              else let s := leased (Some c) owner now ttl in r' = Ok (true, s) ∧ D' = x_scheduler t s D
    end)); [|done|].
  - intros [c|e]; unfold acquire_from.
    + destruct (_ && _ && _); [by apply same_meets|apply exec_ret_meets].
    + destruct (negb _); [by apply same_meets|apply exec_ret_meets].
  - intros D r D'; unfold spec_acquire, f_acquire, q_scheduler; destruct (pd_scheduler D !! t) as [s|]; [|done].
    by destruct (_ && _ && _).
Qed.
Lemma heartbeat_meets t owner now ttl :
  pmeets (sql_HeartbeatScanScheduler t owner now ttl) (spec_heartbeat t owner now ttl).
Proof.
  intros w; assert (∀ A (m : M FullWorld A) (k : A → M FullWorld unit), sbind m k w
    = (let! r := sattempt m in match r with Ok a => k a | Err e => sthrow e end) w) as Hattempt
    by (intros A m k; unfold sbind, sattempt; by destruct (m w) as [[]]).
  unfold sql_HeartbeatScanScheduler; rewrite Hattempt; revert w Hattempt; intros w _; revert w.
  apply (read_then_meets (q_scheduler t) (λ r, match r with
    | Ok state => sql_UpsertScanSchedulerState t (mkSchedulerState owner (now + ttl) now (sh_BatchStartedAt state))
    | Err e => sthrow e end) (λ r D r' D', match r with
    | Ok s => r' = Ok tt ∧ D' = x_scheduler t (mkSchedulerState owner (now + ttl) now (sh_BatchStartedAt s)) D
    | Err e => r' = Err e ∧ D' = D end)).
  - intros [s|e]; [|by apply same_meets].
    eapply pol_meets_weaken; [apply policy_exec_meets|]; by intros D r D' [-> [_ ->]].
  - done.
  - intros D r D'; unfold spec_heartbeat, q_scheduler; by destruct (pd_scheduler D !! t).
Qed.

Lemma on_reg_frame {A} (m : M RegWorld A) : pol_frame fw_policy (on_reg m).
Proof. intros w; unfold on_reg; by destruct (m (fw_reg w)). Qed.

#[export] Instance full_policy_laws : PolicyLaws FullWorld.
Proof.
  refine {| pol_view := fw_policy |}; intros; try apply policy_query_sees; try apply policy_exec_meets;
    try apply on_reg_frame.
  - apply pol_meets_clock; intros now; eapply pol_meets_weaken; [apply policy_exec_meets|].
    intros D r D' [-> [_ ->]]; split; [done|by exists now].
  - apply delete_override_meets.
  - apply runtime_sees.
  - apply dated_meets; intros now D; by exists now.
  - apply run_meets.
  - apply run_detail_meets.
  - by intros w.
  - match goal with Hid : _ = Ok _ |- _ => injection Hid as <- end; apply fenv_uuid_run.
Defined.

#[export] Instance full_lease_laws : LeaseLaws FullWorld.
Proof. split; [apply acquire_meets|apply heartbeat_meets]. Qed.
End Policies.

(** * The contract *)

Definition f_scan_runs `{UnicodeTables} (t n : string) (limit : Z) (D : PolicyDB) : list ScanRun :=
  map (λ r, with_fixable r (scanRunHasFixable (sr_ID r) D)) (q_scan_runs t n limit D).
Definition f_scan_summaries (t : string) (limit : Z) (D : PolicyDB) : list RepositoryScanSummary :=
  map (λ s, summary_fixable s (scanRunHasFixable (sr_ID (rs_Run s)) D)) (q_scan_summaries t limit D).
Definition f_run_detail `{UnicodeTables} (t id : string) (D : PolicyDB) : res ScanRunDetail :=
  let? run := q_run t id D in
  let findings := listScanRunFindings id D in
  Ok (mkRunDetail (with_fixable run (scanRunFindingsHaveFixable findings)) findings (getScanRunDBFreshness id D) "").
Definition f_secret_detail (t id : string) (D : PolicyDB) : res SecretScanRunDetail :=
  let? run := q_secret_run t id D in
  let findings := listSecretScanFindings id D in
  Ok (mkSecretDetail (with_count run (Z.of_nat (length findings))) findings).
Definition f_secret_runs `{UnicodeTables} (t n : string) (limit : Z) (D : PolicyDB) : list SecretScanRun :=
  map (λ r, with_count r (secretScanRunFindingCount (sn_ID r) D)) (q_secret_runs t n limit D).

Class ConsoleLaws (W : Type) `{PolicyLaws W, !ConsoleStore W} := {
  GetUpdateChannel_ok t : pol_sees (meta_GetUpdateChannel t) (q_update_channel t);
  UpsertUpdateChannel_ok t s : pol_ok (meta_UpsertUpdateChannel t s) (pol_writes (λ _, x_update_channel t s));
  ListScanRuns_ok t n l : pol_sees (meta_ListScanRuns t n l) (λ D, Ok (f_scan_runs t n l D));
  ListLatestScanRunPerRepository_ok t l :
    pol_sees (meta_ListLatestScanRunPerRepository t l) (λ D, Ok (f_scan_summaries t l D));
  GetScanRunDetail_ok t id : pol_sees (meta_GetScanRunDetail t id) (f_run_detail t id);
  GetActiveSecretScanRunByDigest_ok t n d : pol_sees (GetActiveSecretScanRunByDigest t n d) (q_secret_active t n d);
  GetSecretScanRunDetail_ok t id : pol_sees (GetSecretScanRunDetail t id) (f_secret_detail t id);
  UpsertSecretScanRun_ok t r :
    pol_ok (UpsertSecretScanRun t r) (pol_writes (λ now, x_secret_run t (dated_secret_run now r)));
  UpsertSecretScanRunDetail_ok t d :
    pol_ok (UpsertSecretScanRunDetail t d) (pol_writes (λ now, x_secret_detail t (dated_secret_run now (sl_Run d)) d));
  ListSecretScanRuns_ok t n l : pol_sees (ListSecretScanRuns t n l) (λ D, Ok (f_secret_runs t n l D));
  ListManifestBlobs_frame t r d : pol_frame pol_view (ListManifestBlobs t r d);
}.

#[export] Hint Extern 1 (observes _ (meta_GetUpdateChannel _) _) => apply GetUpdateChannel_ok : observe.
#[export] Hint Extern 1 (observes _ (meta_ListScanRuns _ _ _) _) => apply ListScanRuns_ok : observe.
#[export] Hint Extern 1 (observes _ (meta_ListLatestScanRunPerRepository _ _) _) =>
  apply ListLatestScanRunPerRepository_ok : observe.
#[export] Hint Extern 1 (observes _ (meta_GetScanRunDetail _ _) _) => apply GetScanRunDetail_ok : observe.
#[export] Hint Extern 1 (observes _ (GetActiveSecretScanRunByDigest _ _ _) _) =>
  apply GetActiveSecretScanRunByDigest_ok : observe.
#[export] Hint Extern 1 (observes _ (GetSecretScanRunDetail _ _) _) => apply GetSecretScanRunDetail_ok : observe.
#[export] Hint Extern 1 (observes _ (GetSecretScanRunDetail _ _) _) => apply GetSecretScanRunDetail_ok : observe.
#[export] Hint Extern 1 (observes _ (ListSecretScanRuns _ _ _) _) => apply ListSecretScanRuns_ok : observe.

(** * The SQLite store *)

Section Console.
Context `{UnicodeTables, FullEnvLaws}.

(** A query for every row of another. *)
Lemma sees_each {A B} (f : A → M FullWorld B) (g : A → PolicyDB → B) l :
  (∀ x, observes fw_policy (f x) (λ _ D, Ok (g x D))) →
  observes fw_policy (smap f l) (λ _ D, Ok (map (λ x, g x D) l)).
Proof.
  intros Hf; induction l as [|x l IH]; simpl; [apply observes_ret|].
  eapply observes_ext; [apply observes_bind; [apply Hf|intros y; apply observes_bind; [exact IH|intros ys; apply observes_ret]]|].
  done.
Qed.
Lemma sees_then {A B} (q : PolicyDB → A) (k : A → M FullWorld B) g :
  (∀ a, observes fw_policy (k a) (g a)) →
  observes fw_policy (let! a := policy_query (λ D, Ok (q D)) in k a) (λ R D, g (q D) R D).
Proof.
  intros Hk; eapply observes_ext; [apply observes_bind; [apply policy_query_sees|exact Hk]|]; done.
Qed.
Lemma sees_column {A B} (q : PolicyDB → A) (g : A → B) :
  observes fw_policy (let! a := policy_query (λ D, Ok (q D)) in sret (g a)) (λ _ D, Ok (g (q D))).
Proof. apply (sees_then q _ (λ a _ _, Ok (g a))); intros a; apply observes_ret. Qed.

Lemma scan_runs_see t n l : observes fw_policy (sql_ListScanRuns t n l) (λ _ D, Ok (f_scan_runs t n l D)).
Proof. apply (sees_then _ _ (λ rows _ D, Ok (map (λ r, with_fixable r (scanRunHasFixable (sr_ID r) D)) rows)));
  intros rows; apply sees_each; intros r; apply sees_column. Qed.
Lemma scan_summaries_see t l :
  observes fw_policy (sql_ListLatestScanRunPerRepository t l) (λ _ D, Ok (f_scan_summaries t l D)).
Proof. apply (sees_then _ _ (λ rows _ D, Ok (map (λ s, summary_fixable s (scanRunHasFixable (sr_ID (rs_Run s)) D)) rows)));
  intros rows; apply sees_each; intros r; apply sees_column. Qed.
Lemma secret_runs_see t n l : observes fw_policy (sql_ListSecretScanRuns t n l) (λ _ D, Ok (f_secret_runs t n l D)).
Proof. apply (sees_then _ _ (λ rows _ D, Ok (map (λ r, with_count r (secretScanRunFindingCount (sn_ID r) D)) rows)));
  intros rows; apply sees_each; intros r; apply sees_column. Qed.

Lemma run_detail_sees t id : observes fw_policy (sql_GetScanRunDetail t id) (λ _, f_run_detail t id).
Proof.
  unfold sql_GetScanRunDetail, f_run_detail.
  apply (observes_bind fw_policy _ _ (λ _, q_run t id) (λ run _ D, let findings := listScanRunFindings id D in
    Ok (mkRunDetail (with_fixable run (scanRunFindingsHaveFixable findings)) findings (getScanRunDBFreshness id D) "")));
    [apply policy_query_sees|intros run].
  apply (sees_then (listScanRunFindings id) _ (λ findings _ D,
    Ok (mkRunDetail (with_fixable run (scanRunFindingsHaveFixable findings)) findings (getScanRunDBFreshness id D) "")));
    intros findings; apply sees_column.
Qed.
Lemma secret_detail_sees t id : observes fw_policy (sql_GetSecretScanRunDetail t id) (λ _, f_secret_detail t id).
Proof.
  unfold sql_GetSecretScanRunDetail, f_secret_detail.
  apply (observes_bind fw_policy _ _ (λ _, q_secret_run t id) (λ run _ D, let findings := listSecretScanFindings id D in
    Ok (mkSecretDetail (with_count run (Z.of_nat (length findings))) findings)));
    [apply policy_query_sees|intros run; apply sees_column].
Qed.

Lemma secret_tx_tries t r :
  pol_tries (upsertSecretScanRunTx t r) (λ D _ D', ∃ now, D' = x_secret_run t (dated_secret_run now r) D).
Proof.
  eapply tries_weaken; [eapply tries_meets; [apply (dated_meets _ _ _ (λ now, x_secret_run t (dated_secret_run now r)))|]|].
  - intros now D; by exists now.
  - by intros ? ? ? [? _].
  - by intros D [] D' [_ ?].
Qed.
Lemma tries_secrets id fs :
  pol_tries (insert_secrets id fs) (λ D _ D', D' = foldl (λ db f, x_secret id f db) D fs).
Proof.
  induction fs as [|f fs IH]; simpl.
  - intros w Hw; split_and!; [done|exact (le_n _)|done..].
  - eapply tries_weaken; [apply tries_bind; [apply tries_exec|intros ?; exact IH]|].
    by simpl; intros D [] D' ([] & D1 & -> & ->).
Qed.

#[export] Instance full_console_laws : ConsoleLaws FullWorld.
Proof.
  split; intros; try apply policy_query_sees; try apply policy_exec_meets; try apply on_reg_frame.
  - apply scan_runs_see.
  - apply scan_summaries_see.
  - apply run_detail_sees.
  - apply secret_detail_sees.
  - eapply pol_meets_weaken; [apply transaction_meets, secret_tx_tries|]; intros D rs D' [-> [now ->]]; split; [done|by exists now].
  - eapply pol_meets_weaken; [apply transaction_meets|].
    + apply tries_bind; [apply secret_tx_tries|intros ?]; apply tries_bind; [apply tries_exec|intros ?]; apply tries_secrets.
    + simpl; intros D r D' [-> ([] & D1 & [now ->] & [] & D2 & -> & ->)]; split; [done|by exists now].
  - apply secret_runs_see.
Qed.
End Console.
