(* ===== verification/PullGate.v ===== *)
(** The gates a pull passes and the reports on them: the vulnerability policy
    (internal/app/regixtry/service_scanning.go), the signing policy
    (service_signing.go, repository_overrides.go), and [OpenManifest],
    [ScanStatus] and [SignatureStatus] (queries.go). *)
From S2P Require Import Prelude GoStrings Encodings Errors Repository Digest GoNumbers Manifest Scope Auth.
From S2P Require Import Access RegPorts RegService Signing PolicyPorts.

(** * Definitions *)

Definition trivyFeatureName : string := "trivy".
Definition gitleaksFeatureName : string := "gitleaks".
Definition signingFeatureName : string := "signing".

(** [json.Unmarshal] and [json.Marshal] of the stored overrides, and the strict
    decoder of a request body, which refuses unknown fields. *)
Class OverrideCodec := {
  unmarshal_signing_override : string → option SigningOverride;
  unmarshal_trivy_override : string → option TrivyOverride;
  unmarshal_gitleaks_override : string → option GitleaksOverride;
  strict_signing_override : string → SigningOverride + string;
  strict_trivy_override : string → TrivyOverride + string;
  strict_gitleaks_override : string → GitleaksOverride + string;
  marshal_signing_override : SigningOverride → string;
  marshal_trivy_override : TrivyOverride → string;
  marshal_gitleaks_override : GitleaksOverride → string;
}.

Section Overrides.
Context {W : Type} `{!PolicyStore W, OverrideCodec}.

(** A row replaces the settings; no row leaves them. *)
Definition resolveRepositoryOverride {T} (tenant repository feature : string) (settings : T)
    (apply : option (string → T → res T)) : M W T :=
  let! raw := sattempt (GetRepositoryFeatureOverride tenant repository feature) in
  match raw with
  | Err e => if reg_is_code e CodeNotFound then sret settings else sthrow e
  | Ok raw => match apply with None => sret settings | Some apply => slift (apply raw settings) end
  end.

Definition applySigningOverridePayload (raw : string) (settings : SigningPolicySettings) : res SigningPolicySettings :=
  match unmarshal_signing_override raw with
  | None => Err (NewValidationError "stored signing override is unreadable")
  | Some o => Ok (mkSigningPolicy (so_Enabled o) (so_TrustedPublicKeys o) (so_TrustedIdentities o)
                    (sg_UpdatedAt settings) (so_UnsignedSelfRead o))
  end.
Definition applySigningRepositoryOverride (tenant repository : string) (policy : SigningPolicySettings)
    : M W SigningPolicySettings :=
  resolveRepositoryOverride tenant repository signingFeatureName policy (Some applySigningOverridePayload).
End Overrides.

(** ** The vulnerability policy *)

Definition scanPolicyViolated (settings : ScanPolicySettings) (run : ScanRun) : bool :=
  if negb (sp_Enabled settings) || negb (String.eqb (sr_Status run) ScanRunStatusCompleted) then false else
  if String.eqb (sp_SeverityThreshold settings) ScanPolicyThresholdCriticalHigh
  then (0 <? sr_Critical run) || (0 <? sr_High run)
  else 0 <? sr_Critical run.

Definition blocked_by (policy repository digest : string) (reason : message) : error :=
  NewPolicyViolationError (Lit "pull of " :: Lit repository :: Lit "@" :: Lit digest :: Lit " is blocked by the "
                           :: Lit policy :: reason).
(** A refusal by the signing policy. *)
Definition unsigned_error (repository digest reason : string) : error :=
  blocked_by "signing policy" repository digest [Lit ": "; Lit reason].

(** ** Signatures *)

Definition signatureStateUnsigned : string := "unsigned".
Definition signatureStateUnverifiable : string := "unverifiable".
Definition signatureStateUntrusted : string := "untrusted".
Definition signatureStateMismatched : string := "mismatched".
Definition signatureStateVerified : string := "verified".

Record signatureMatch := mkMatch { KeyFingerprint : string; MatchedIdentity : string }.
Definition no_match : signatureMatch := mkMatch "" "".

(** The state, the match and the policy violation a verification returns; an
    infrastructure error is an error of the call instead. *)
Record Verdict := mkVerdict { v_State : string; v_Match : signatureMatch; v_Err : option error }.

Section Trust.
Context `{KeyCrypto, SigningCodec, Sigstore, Regexps}.

(** [trustedKeyEntry]: a trusted PEM and the key it holds. *)
Notation trustedKeyEntry := (string * PublicKey)%type (only parsing).

(** A key that does not parse is skipped; a stored key is canonical, so the slice
    of its PEM body is in bounds. *)
Definition parseTrustedKeys (pemKeys : list string) : list trustedKeyEntry :=
  omap (λ pem, match ParseTrustedKey pem with Ok key => Some (pem, key) | Err _ => None end) pemKeys.

Definition composeVerifiedIdentity (matchedSAN : string) (identities : list TrustedIdentity) : string :=
  match List.find (λ i, match regexp_Compile (ti_Regexp i) with Some f => f matchedSAN | None => false end) identities with
  | Some i => String.append matchedSAN (String.append " (" (String.append (ti_Issuer i) ")"))
  | None => matchedSAN
  end.

(** The first trusted key that verifies a signature of [payload]. *)
Definition verifying_key (keys : list trustedKeyEntry) (payload : string) (signatures : list string)
    : option trustedKeyEntry :=
  snd <$> List.find (λ sk, is_ok (Verify sk.2.2 payload sk.1)) (s ← signatures; k ← keys; [(s, k)]).

Definition verified_by_key (k : trustedKeyEntry) : Verdict :=
  mkVerdict signatureStateVerified (mkMatch (Fingerprint k.1) "") None.
Definition refused (state repository digest reason : string) : Verdict :=
  mkVerdict state no_match (Some (unsigned_error repository digest reason)).

(** One candidate bundle once its document is read. *)
Definition judge_bundle (repository digest bundlePayload : string) (keys : list trustedKeyEntry)
    (identities : list TrustedIdentity) : option Verdict :=
  match ParseBundleDocument bundlePayload with
  | Err _ => None
  | Ok bundle =>
      match base64_DecodeString (ds_Payload bundle) with
      | None => None
      | Some payload =>
          match verifying_key keys (PAE (ds_PayloadType bundle) payload) (ds_Signatures bundle) with
          | Some k =>
              if is_ok (CheckBundleClaims payload digest) then Some (verified_by_key k)
              else Some (refused signatureStateMismatched repository digest "bundle signature binds a different digest")
          | None =>
              match identities, ParseBundleVerificationMaterial bundlePayload with
              | _ :: _, Ok vm =>
                  if negb (HasCertificate vm) then None else
                  match VerifyKeyless bundlePayload identities digest with
                  | Ok san => Some (mkVerdict signatureStateVerified
                                      (mkMatch "" (composeVerifiedIdentity san identities)) None)
                  | Err _ => None
                  end
              | _, _ => None
              end
          end
      end
  end.
End Trust.

Section Gates.
Context {W : Type} `{UnicodeTables, ManifestCodec, KeyCrypto, SigningCodec, Sigstore, Regexps, OverrideCodec}.
Context `{!BlobStore W, !MetadataStore W, !RegRuntime W, !PolicyStore W}.
Variables (svc : RegConfig) (ctx : option Principal).
Notation tenant := (tenant svc).
Notation trustedKeyEntry := (string * PublicKey)%type (only parsing).

Definition GetScanPolicySettings : M W ScanPolicySettings :=
  let! settings := sattempt (meta_GetScanPolicySettings tenant) in
  match settings with
  | Err e => if reg_is_code e CodeNotFound then sret (mkScanPolicy true ScanPolicyThresholdCritical zero_time) else sthrow e
  | Ok settings => sret settings
  end.
Definition UpdateScanPolicySettings (input : ScanPolicySettings) : M W ScanPolicySettings :=
  let! now := reg_now in
  let input := mkScanPolicy (sp_Enabled input) (sp_SeverityThreshold input) now in
  do! UpsertScanPolicySettings tenant input in
  sret input.

Definition enforceScanPolicy (repository digest : string) : M W unit :=
  let! settings := GetScanPolicySettings in
  let! run := sattempt (GetLatestScanRunByDigest tenant repository digest) in
  match run with
  | Err e => if reg_is_code e CodeNotFound then sret tt else sthrow e
  | Ok run =>
      if scanPolicyViolated settings run
      then sthrow (blocked_by "vulnerability policy" repository digest []) else sret tt
  end.

Definition GetSigningPolicySettings : M W SigningPolicySettings :=
  let! settings := sattempt (meta_GetSigningPolicySettings tenant) in
  match settings with
  | Err e => if reg_is_code e CodeNotFound then sret (mkSigningPolicy false [] [] zero_time "") else sthrow e
  | Ok settings => sret settings
  end.
Definition UpdateSigningPolicySettings (input : SigningPolicySettings) : M W SigningPolicySettings :=
  let! now := reg_now in
  let input := mkSigningPolicy (sg_Enabled input) (sg_TrustedPublicKeys input) (sg_TrustedIdentities input) now
                 (sg_UnsignedSelfRead input) in
  do! UpsertSigningPolicySettings tenant input in
  sret input.

(** A payload that is missing or too large is no payload. *)
Definition openSignaturePayload (payloadDigestValue : string) : M W (option string) :=
  match ParseDigest payloadDigestValue with
  | Err _ => sret None
  | Ok d =>
      let! opened := sattempt (blob_OpenBlob d) in
      match opened with
      | Err e => if reg_is_code e CodeNotFound then sret None else sthrow e
      | Ok (payload, _) => sret (if longer payload MaxPayloadBytes then None else Some payload)
      end
  end.

(** [Some] verdict is final, [None] says to try the next candidate. *)
Definition tryVerifyBundleReferrerCandidate (repository digest referrerPayload : string)
    (keys : list trustedKeyEntry) (identities : list TrustedIdentity) : M W (option Verdict) :=
  match ParseBundleReferrerManifest referrerPayload with
  | Err _ => sret None
  | Ok (subjectDigest, layerDigest) =>
      if String.eqb subjectDigest "" || String.eqb layerDigest "" || negb (String.eqb subjectDigest digest)
      then sret None else
      let! bundlePayload := openSignaturePayload layerDigest in
      sret (p ← bundlePayload; judge_bundle repository digest p keys identities)
  end.

(** The candidates a bundle index lists. *)
Fixpoint try_index (repositoryRef : RepositoryRef) (repository digest : string) (keys : list trustedKeyEntry)
    (identities : list TrustedIdentity) (entries : list bundleIndexEntry) : M W (option Verdict) :=
  match entries with
  | [] => sret None
  | entry :: entries' =>
      let! referrer := sattempt (meta_ResolveManifest tenant repositoryRef (bi_Digest entry)) in
      match referrer with
      | Err e =>
          if reg_is_code e CodeNotFound then try_index repositoryRef repository digest keys identities entries' else sthrow e
      | Ok m =>
          let! verdict := tryVerifyBundleReferrerCandidate repository digest (mf_Payload m) keys identities in
          match verdict with
          | Some v => sret (Some v)
          | None => try_index repositoryRef repository digest keys identities entries'
          end
      end
  end.

(** The manifests that name the digest as their subject. *)
Fixpoint try_referrers (repository digest : string) (keys : list trustedKeyEntry)
    (identities : list TrustedIdentity) (rows : list ReferrerRow) : M W (option Verdict) :=
  match rows with
  | [] => sret None
  | row :: rows' =>
      let! verdict := tryVerifyBundleReferrerCandidate repository digest (rf_Payload row) keys identities in
      match verdict with
      | Some v => sret (Some v)
      | None => try_referrers repository digest keys identities rows'
      end
  end.

(** After the index: the referrers, and what it means that nothing verified. *)
Definition verify_referrers (repositoryRef : RepositoryRef) (repository digest : string) (keys : list trustedKeyEntry)
    (identities : list TrustedIdentity) (foundIndex : bool) : M W Verdict :=
  let! subjectDigest := slift (ParseDigest digest) in
  let! rows := ListReferrers tenant repositoryRef subjectDigest in
  let! verdict := try_referrers repository digest keys identities rows in
  match verdict with
  | Some v => sret v
  | None =>
      if negb foundIndex && (length rows =? 0)%nat
      then sret (refused signatureStateUnsigned repository digest "no signature found")
      else sret (refused signatureStateUntrusted repository digest
                   "no bundle signature validated against a trusted key or trusted identity")
  end.

Definition verifyBundleSignature (repositoryRef : RepositoryRef) (repository digest : string)
    (keys : list trustedKeyEntry) (identities : list TrustedIdentity) : M W Verdict :=
  match BundleIndexTag digest with
  | Err e => sret (refused signatureStateUnverifiable repository digest (error_string e))
  | Ok indexTag =>
      let! index := sattempt (meta_ResolveManifest tenant repositoryRef indexTag) in
      match index with
      | Ok m =>
          match ParseBundleIndex (mf_Payload m) with
          | Err _ => sret (refused signatureStateUnverifiable repository digest "no usable bundle signature entry found")
          | Ok entries =>
              let! verdict := try_index repositoryRef repository digest keys identities entries in
              match verdict with
              | Some v => sret v
              | None => verify_referrers repositoryRef repository digest keys identities true
              end
          end
      | Err e =>
          if reg_is_code e CodeNotFound then verify_referrers repositoryRef repository digest keys identities false
          else sthrow e
      end
  end.

(** The entries of a SimpleSigning manifest, in order. *)
Fixpoint try_entries (repository digest : string) (keys : list trustedKeyEntry) (entries : list SignatureEntry)
    : M W Verdict :=
  match entries with
  | [] => sret (refused signatureStateUntrusted repository digest "no signature validated against a trusted key")
  | entry :: entries' =>
      let! payload := openSignaturePayload (se_PayloadDigest entry) in
      match payload ≫= λ p, pair p <$> verifying_key keys p [se_Signature entry] with
      | Some (p, k) =>
          if is_ok (CheckClaims p digest) then sret (verified_by_key k)
          else sret (refused signatureStateMismatched repository digest "signature binds a different digest")
      | None => try_entries repository digest keys entries'
      end
  end.

Definition verifySignature (repository digest : string) (policy : SigningPolicySettings) : M W Verdict :=
  let keys := parseTrustedKeys (sg_TrustedPublicKeys policy) in
  if (length keys =? 0)%nat && (length (sg_TrustedIdentities policy) =? 0)%nat
  then sret (refused signatureStateUnverifiable repository digest
               "no usable trusted key or trusted identity is configured") else
  match SignatureTag digest with
  | Err e => sret (refused signatureStateUnverifiable repository digest (error_string e))
  | Ok tag =>
      let! repositoryRef := slift (parseRepository repository) in
      let! found := sattempt (meta_ResolveManifest tenant repositoryRef tag) in
      match found with
      | Err e =>
          if reg_is_code e CodeNotFound
          then verifyBundleSignature repositoryRef repository digest keys (sg_TrustedIdentities policy)
          else sthrow e
      | Ok sigManifest =>
          match ParseSignatureManifest (mf_Payload sigManifest) with
          | Err _ | Ok [] => sret (refused signatureStateUnverifiable repository digest "no usable signature entry found")
          | Ok entries => try_entries repository digest keys entries
          end
      end
  end.

(** The opt-in exemption of unsigned images: their pusher, or anyone with
    standing push rights, may read them. *)
Definition exempted (policy : SigningPolicySettings) (repository pushedBy : string) : bool :=
  match ctx with
  | None => false
  | Some principal =>
      if String.eqb (sg_UnsignedSelfRead policy) "pusher"
      then negb (String.eqb pushedBy "") && String.eqb (p_UserID principal) pushedBy
      else if String.eqb (sg_UnsignedSelfRead policy) "repo_push" then HasGrantedWriteAccess principal repository
      else false
  end.

Definition enforceSigningPolicy (repository digest pushedBy : string) : M W unit :=
  let! policy := GetSigningPolicySettings in
  let! policy := applySigningRepositoryOverride tenant repository policy in
  if negb (sg_Enabled policy) then sret tt else
  let! verdict := sattempt (verifySignature repository digest policy) in
  match (match verdict with Ok v => v_Err v | Err e => Some e end) with
  | None => sret tt
  | Some e => if exempted policy repository pushedBy then sret tt else sthrow e
  end.

(** ** A pull *)

Definition OpenManifest (repositoryName reference : string) : M W Manifest :=
  let! repository := slift (parseRepository repositoryName) in
  do! slift (authorize svc ctx (mkAction ActionPull (ref_String repository) None)) in
  let! manifest := meta_ResolveManifest tenant repository reference in
  do! enforceScanPolicy (ref_String repository) (mf_Digest manifest) in
  do! enforceSigningPolicy (ref_String repository) (mf_Digest manifest) (mf_PushedBy manifest) in
  sret manifest.

(** ** The reports *)

Definition ScanStatusUnscanned : string := "unscanned".
Definition ScanStatusInProgress : string := "in_progress".
Definition ScanStatusFailed : string := "failed".
Definition ScanStatusClean : string := "clean".
Definition ScanStatusBlocked : string := "blocked".

Record ScanStatusScan := mkStatusScan {
  sss_Status : string;
  sss_Critical : Z;
  sss_High : Z;
  sss_Medium : Z;
  sss_Low : Z;
  sss_FinishedAt : option Time;
}.
Record ScanStatusResult := mkScanStatus {
  sst_Repository : string;
  sst_Reference : string;
  sst_Digest : string;
  sst_State : string;
  sst_WouldBlockPull : bool;
  sst_Policy : bool * string;
  sst_Scan : option ScanStatusScan;
}.

(** The state of a digest's latest run, and whether it blocks. *)
Definition scan_state (settings : ScanPolicySettings) (run : ScanRun) : string * bool :=
  if String.eqb (sr_Status run) ScanRunStatusQueued || String.eqb (sr_Status run) ScanRunStatusRunning
  then (ScanStatusInProgress, false)
  else if String.eqb (sr_Status run) ScanRunStatusFailed then (ScanStatusFailed, false)
  else if String.eqb (sr_Status run) ScanRunStatusCompleted
  then if scanPolicyViolated settings run then (ScanStatusBlocked, true) else (ScanStatusClean, false)
  else ("", false).

Definition ScanStatus (repositoryName reference : string) : M W ScanStatusResult :=
  let! repository := slift (parseRepository repositoryName) in
  do! slift (authorize svc ctx (mkAction ActionPull (ref_String repository) None)) in
  let! manifest := meta_ResolveManifest tenant repository reference in
  let digest := mf_Digest manifest in
  let! settings := GetScanPolicySettings in
  let result state blocks scan :=
    mkScanStatus (ref_String repository) reference digest state blocks
      (sp_Enabled settings, sp_SeverityThreshold settings) scan in
  let! run := sattempt (GetLatestScanRunByDigest tenant (ref_String repository) digest) in
  match run with
  | Err e => if reg_is_code e CodeNotFound then sret (result ScanStatusUnscanned false None) else sthrow e
  | Ok run =>
      let '(state, blocks) := scan_state settings run in
      sret (result state blocks (Some (mkStatusScan (sr_Status run) (sr_Critical run) (sr_High run) (sr_Medium run)
                                         (sr_Low run) (sr_FinishedAt run))))
  end.

Record SignatureStatusDetail := mkSignatureDetail {
  sd_Tag : string;
  sd_SignatureCount : Z;
  sd_Reason : string;
  sd_VerifiedKeyFingerprint : string;
  sd_VerifiedIdentity : string;
}.
Record SignatureStatusResult := mkSignatureStatus {
  sgs_Repository : string;
  sgs_Reference : string;
  sgs_Digest : string;
  sgs_State : string;
  sgs_WouldBlockPull : bool;
  sgs_Policy : bool * Z * Z;
  sgs_Signature : option SignatureStatusDetail;
}.

(** How many candidates of an index are usable referrers of the digest. *)
Fixpoint count_referrers (repositoryRef : RepositoryRef) (digest : string) (entries : list bundleIndexEntry) : M W Z :=
  match entries with
  | [] => sret 0
  | entry :: entries' =>
      let! referrer := sattempt (meta_ResolveManifest tenant repositoryRef (bi_Digest entry)) in
      match referrer with
      | Err e => if reg_is_code e CodeNotFound then count_referrers repositoryRef digest entries' else sthrow e
      | Ok m =>
          let! n := count_referrers repositoryRef digest entries' in
          match ParseBundleReferrerManifest (mf_Payload m) with
          | Ok (subject, layer) =>
              sret (if String.eqb subject digest && negb (String.eqb layer "") then n + 1 else n)
          | Err _ => sret n
          end
      end
  end.

(** The tag under which the signatures were found, and how many there are. *)
Definition resolveSignatureManifestEntries (repository digest : string) : M W (string * Z) :=
  match SignatureTag digest with
  | Err _ => sret ("", 0)
  | Ok legacyTag =>
      match parseRepository repository with
      | Err _ => sret (legacyTag, 0)
      | Ok repositoryRef =>
          let! found := sattempt (meta_ResolveManifest tenant repositoryRef legacyTag) in
          match found with
          | Ok m => sret (legacyTag, match ParseSignatureManifest (mf_Payload m) with
                                     | Ok entries => Z.of_nat (length entries)
                                     | Err _ => 0
                                     end)
          | Err e =>
              if negb (reg_is_code e CodeNotFound) then sthrow e else
              match BundleIndexTag digest with
              | Err _ => sret (legacyTag, 0)
              | Ok bundleTag =>
                  let! index := sattempt (meta_ResolveManifest tenant repositoryRef bundleTag) in
                  match index with
                  | Err e => if reg_is_code e CodeNotFound then sret (legacyTag, 0) else sthrow e
                  | Ok m =>
                      match ParseBundleIndex (mf_Payload m) with
                      | Err _ => sret (bundleTag, 0)
                      | Ok candidates =>
                          let! n := count_referrers repositoryRef digest candidates in
                          sret (bundleTag, n)
                      end
                  end
              end
          end
      end
  end.

Definition signatureStatusReason (repository digest : string) (err : option error) : string :=
  match err with
  | None => ""
  | Some e =>
      trim_prefix (render [Lit "pull of "; Lit repository; Lit "@"; Lit digest;
                           Lit " is blocked by the signing policy: "]) (error_string e)
  end.

Definition SignatureStatus (repositoryName reference : string) : M W SignatureStatusResult :=
  let! repository := slift (parseRepository repositoryName) in
  do! slift (authorize svc ctx (mkAction ActionPull (ref_String repository) None)) in
  let! manifest := meta_ResolveManifest tenant repository reference in
  let digest := mf_Digest manifest in
  let! policy := GetSigningPolicySettings in
  let! policy := applySigningRepositoryOverride tenant (ref_String repository) policy in
  let! verdict := verifySignature (ref_String repository) digest policy in
  let result detail :=
    mkSignatureStatus (ref_String repository) reference digest (v_State verdict)
      (sg_Enabled policy && negb (String.eqb (v_State verdict) signatureStateVerified))
      (sg_Enabled policy, Z.of_nat (length (sg_TrustedPublicKeys policy)),
       Z.of_nat (length (sg_TrustedIdentities policy))) detail in
  if String.eqb (v_State verdict) signatureStateUnsigned then sret (result None) else
  let! found := resolveSignatureManifestEntries (ref_String repository) digest in
  let verified := String.eqb (v_State verdict) signatureStateVerified in
  sret (result (Some (mkSignatureDetail found.1 found.2
    (signatureStatusReason (ref_String repository) digest (v_Err verdict))
    (if verified then KeyFingerprint (v_Match verdict) else "")
    (if verified then MatchedIdentity (v_Match verdict) else "")))).
End Gates.
