(* ===== verification/Overrides.v ===== *)
(** Per-repository overrides of a feature's settings
    (internal/app/regixtry/repository_overrides.go): what an override may say, how
    it is laid over the global settings, and the four handlers that read, set and
    clear one. *)
From S2P Require Import Prelude GoStrings Errors Repository Digest GoNumbers Manifest Auth Access RegPorts.
From S2P Require Import RegService Signing PolicyPorts PolicyStore PullGate.

(** * Definitions *)

(** ** Paths *)

(** [filepath.IsAbs] and [filepath.Clean] on Unix; the segments kept so far are
    in reverse order. *)
Definition filepath_IsAbs (p : string) : bool := has_prefix "/" p.
Definition clean_segment (rooted : bool) (acc : list string) (segment : string) : list string :=
  if String.eqb segment "" || String.eqb segment "." then acc
  else if String.eqb segment ".."
  then match acc with
       | [] => if rooted then [] else [".."]
       | s :: acc' => if String.eqb s ".." then ".." :: acc else acc'
       end
  else segment :: acc.
Definition filepath_Clean (p : string) : string :=
  let rooted := filepath_IsAbs p in
  let body := join "/" (reverse (foldl (clean_segment rooted) [] (split "/" p))) in
  if rooted then String "/" body else if String.eqb body "" then "." else body.

(** A value that is stored becomes an argument of a scanner's command line. *)
Definition normalizeOverridePath (label raw : string) : res string :=
  let trimmed := trim_space raw in
  if String.eqb trimmed "" then Ok ""
  else if has_prefix "-" trimmed
  then Err (RegError CodeValidation [Lit label; Lit " must not begin with "; Quoted "-"])
  else if negb (filepath_IsAbs trimmed)
  then Err (NewValidationError (String.append label " must be an absolute path"))
  else Ok (filepath_Clean trimmed).

(** ** Payloads *)

Definition maxSigningPolicyTrustedKeys : nat := 16.

Section Normalize.
Context `{UnicodeTables, KeyCrypto, Regexps, OverrideCodec}.

Definition strictDecodeOverride {T} (decoded : T + string) : res T :=
  match decoded with
  | inl o => Ok o
  | inr e => Err (NewValidationError (String.append "override payload is invalid: " e))
  end.

Definition normalizeTrivyOverride (raw : string) : res string :=
  let? override := strictDecodeOverride (strict_trivy_override raw) in
  let? ignoreFilePath := normalizeOverridePath "ignore_file_path" (to_IgnoreFilePath override) in
  let? ignorePolicyPath := normalizeOverridePath "ignore_policy_path" (to_IgnorePolicyPath override) in
  Ok (marshal_trivy_override (mkTrivyOverride (to_Enabled override) ignoreFilePath ignorePolicyPath)).

Definition normalizeGitleaksOverride (raw : string) : res string :=
  let? override := strictDecodeOverride (strict_gitleaks_override raw) in
  let? configPath := normalizeOverridePath "config_path" (go_ConfigPath override) in
  Ok (marshal_gitleaks_override (mkGitleaksOverride (go_Enabled override) configPath)).

(** [field] of the entry at [index], with what is wrong with it. *)
Definition entry_error (list_name : string) (index : nat) (what : string) : error :=
  RegError CodeValidation [Lit list_name; Lit "["; Lit (itoa index); Lit "]"; Lit what].
Definition is_panic (e : error) : bool :=
  match e with OtherError m => String.eqb m "runtime error: slice bounds out of range" | _ => false end.

Fixpoint normalize_keys (index : nat) (keys : list string) : res (list string) :=
  match keys with
  | [] => Ok []
  | key :: keys' =>
      match NormalizePublicKeyPEM key with
      | Err e =>
          if is_panic e then Err e
          else Err (entry_error "trusted_public_keys" index (String.append " is invalid: " (error_string e)))
      | Ok normalized => let? rest := normalize_keys (S index) keys' in Ok (normalized :: rest)
      end
  end.
Fixpoint check_identities (index : nat) (identities : list TrustedIdentity) : res unit :=
  match identities with
  | [] => Ok tt
  | identity :: identities' =>
      match regexp_Compile (ti_Regexp identity) with
      | None => Err (entry_error "trusted_identities" index
                       (String.append ".certificate_identity_regexp is invalid: " (regexp_message (ti_Regexp identity))))
      | Some _ =>
          if String.eqb (trim_space (ti_Issuer identity)) ""
          then Err (entry_error "trusted_identities" index ".certificate_oidc_issuer is required")
          else check_identities (S index) identities'
      end
  end.
Definition too_many (list_name : string) : error :=
  RegError CodeValidation [Lit list_name; Lit " must contain at most "; Lit (itoa maxSigningPolicyTrustedKeys); Lit " entries"].

Definition normalizeSigningOverride (raw : string) : res string :=
  let? override := strictDecodeOverride (strict_signing_override raw) in
  if (maxSigningPolicyTrustedKeys <? length (so_TrustedPublicKeys override))%nat
  then Err (too_many "trusted_public_keys") else
  let? normalizedKeys := normalize_keys 0 (so_TrustedPublicKeys override) in
  if (maxSigningPolicyTrustedKeys <? length (so_TrustedIdentities override))%nat
  then Err (too_many "trusted_identities") else
  do? check_identities 0 (so_TrustedIdentities override) in
  if so_Enabled override && (length normalizedKeys =? 0)%nat && (length (so_TrustedIdentities override) =? 0)%nat
  then Err (NewValidationError "enabled requires at least one usable entry in trusted_public_keys or trusted_identities")
  else if negb (ValidUnsignedSelfRead (so_UnsignedSelfRead override))
  then Err (RegError CodeValidation [Lit "unsigned_self_read "; Quoted (so_UnsignedSelfRead override); Lit " is invalid"])
  else Ok (marshal_signing_override (mkSigningOverride (so_Enabled override) normalizedKeys
             (so_TrustedIdentities override) (so_UnsignedSelfRead override))).

(** ** Laying an override over the settings *)

Definition applyTrivyOverride (raw : string) (s : ScanSettings) : res ScanSettings :=
  match unmarshal_trivy_override raw with
  | None => Err (NewValidationError "stored trivy override is unreadable")
  | Some o =>
      Ok (mkScanSettings (to_Enabled o) (ss_ScheduleEnabled s) (ss_Interval s) (ss_Timeout s) (ss_ServiceURL s)
            (ss_RegistryReachableURL s) (ss_AuthToken s) (ss_TLSCACertPath s) (ss_TLSInsecureSkipVerify s) (ss_CacheDir s)
            (ss_BinaryPath s) (ss_LegacyCacheDir s) (ss_LegacyBinaryPath s) (ss_MaxConcurrency s) (ss_UpdatedAt s)
            (to_IgnoreFilePath o) (to_IgnorePolicyPath o) (ss_ConfigPath s))
  end.
Definition applyGitleaksOverride (raw : string) (s : ScanSettings) : res ScanSettings :=
  match unmarshal_gitleaks_override raw with
  | None => Err (NewValidationError "stored gitleaks override is unreadable")
  | Some o =>
      Ok (mkScanSettings (go_Enabled o) (ss_ScheduleEnabled s) (ss_Interval s) (ss_Timeout s) (ss_ServiceURL s)
            (ss_RegistryReachableURL s) (ss_AuthToken s) (ss_TLSCACertPath s) (ss_TLSInsecureSkipVerify s) (ss_CacheDir s)
            (ss_BinaryPath s) (ss_LegacyCacheDir s) (ss_LegacyBinaryPath s) (ss_MaxConcurrency s) (ss_UpdatedAt s)
            (ss_IgnoreFilePath s) (ss_IgnorePolicyPath s) (go_ConfigPath o))
  end.

(** The codec of a feature: how an inbound payload becomes the stored one, and
    how a stored one changes scan settings (signing's changes its own policy). *)
Record repositoryOverrideCodec := mkCodec {
  Normalize : string → res string;
  Apply : option (string → ScanSettings → res ScanSettings);
}.
Definition repositoryOverrideCodecs (feature : string) : option repositoryOverrideCodec :=
  if String.eqb feature trivyFeatureName then Some (mkCodec normalizeTrivyOverride (Some applyTrivyOverride))
  else if String.eqb feature gitleaksFeatureName then Some (mkCodec normalizeGitleaksOverride (Some applyGitleaksOverride))
  else if String.eqb feature signingFeatureName then Some (mkCodec normalizeSigningOverride None)
  else None.
End Normalize.

(** ** Handlers *)

Section Handlers.
Context {W : Type} `{UnicodeTables, KeyCrypto, Regexps, OverrideCodec}.
Context `{!PolicyStore W}.
Variable (svc : RegConfig).
Notation tenant := (tenant svc).

Definition applyRepositoryOverride (t repository feature : string) (settings : ScanSettings) : M W ScanSettings :=
  resolveRepositoryOverride t repository feature settings (codec ← repositoryOverrideCodecs feature; Apply codec).

Definition known_feature (feature : string) : res repositoryOverrideCodec :=
  match repositoryOverrideCodecs feature with
  | Some codec => Ok codec
  | None => Err (NewNotFoundError "feature" feature)
  end.

Definition GetRepositoryOverride (repository feature : string) : M W RepositoryFeatureOverride :=
  let! ref := slift (parseRepository repository) in
  do! slift (known_feature feature) in
  let! overrides := ListRepositoryFeatureOverrides tenant feature in
  match List.find (λ o, String.eqb (fo_Repository o) (ref_Name ref)) overrides with
  | Some o => sret o
  | None => sthrow (no_override (ref_Name ref) feature)
  end.

Definition ListRepositoryOverrides (feature : string) : M W (list RepositoryFeatureOverride) :=
  do! slift (known_feature feature) in
  ListRepositoryFeatureOverrides tenant feature.

Definition SetRepositoryOverride (repository feature raw : string) : M W RepositoryFeatureOverride :=
  let! ref := slift (parseRepository repository) in
  let! codec := slift (known_feature feature) in
  let! normalized := slift (Normalize codec raw) in
  do! UpsertRepositoryFeatureOverride tenant (ref_Name ref) feature normalized in
  GetRepositoryOverride (ref_Name ref) feature.

Definition ClearRepositoryOverride (repository feature : string) : M W unit :=
  let! ref := slift (parseRepository repository) in
  do! slift (known_feature feature) in
  DeleteRepositoryFeatureOverride tenant (ref_Name ref) feature.
End Handlers.
