(* ===== verification/Scans.v ===== *)
(** Vulnerability scans (internal/app/regixtry/service_scanning.go): the scanner's
    settings, how a scan is queued at most once per digest, and what a run does.
    A goroutine a handler starts is its result: [Some] run and settings.

    The secret scan that runs beside every scan
    (internal/app/regixtry/service_scanning.go): its settings, the run that may
    already be active, and its own run at a gate of its own. It reports nothing to
    whoever started it: every error ends it silently. *)
From S2P Require Import Prelude GoStrings Errors Repository Digest GoNumbers Manifest Scope Auth Access.
From S2P Require Import RegPorts RegService Signing PolicyPorts PolicyStore PullGate Overrides.

(** * Vulnerability scans *)

(** ** What is outside *)

(** [net/url] and [net.ParseIP]: the parts of a URL the code reads, and whether a
    text that is an IP address is a loopback address. *)
Record URL := mkURL { url_Scheme : string; url_Host : string; url_Hostname : string; url_String : string }.
Class NetAddresses := {
  url_Parse : string → option URL;
  ParseIP_IsLoopback : string → option bool;
}.

(** The scanner process: an image reference and settings give a result. *)
Class ScanRunner (W : Type) := { scan_Run : string → ScanSettings → M W ScanResult }.

(** ** Strings *)

(** Simple folding as far as it reaches ASCII letters: the long s and the Kelvin
    sign fold to them too. *)
Fixpoint fold_letters (s : string) : string :=
  match s with
  | "" => ""
  | String a "" => String (lower_byte a) ""
  | String a (String b t as s') =>
      if Ascii.eqb a (ascii_of_nat 197) && Ascii.eqb b (ascii_of_nat 191) then String "s" (fold_letters t) else
      match t with
      | String c u =>
          if Ascii.eqb a (ascii_of_nat 226) && Ascii.eqb b (ascii_of_nat 132) && Ascii.eqb c (ascii_of_nat 170)
          then String "k" (fold_letters u) else String (lower_byte a) (fold_letters s')
      | "" => String (lower_byte a) (fold_letters s')
      end
  end.
(** [strings.EqualFold] with a text of lower-case ASCII letters. *)
Definition EqualFold (s lower : string) : bool := String.eqb (fold_letters s) lower.

(** [strings.TrimRight] of one byte. *)
Fixpoint drop_char (c : ascii) (s : string) : string :=
  match s with
  | "" => ""
  | String a s' => if Ascii.eqb a c then drop_char c s' else s
  end.
Definition trim_right_char (c : ascii) (s : string) : string := srev (drop_char c (srev s)).

(** ** Targets and settings *)

Section Settings.
Context `{NetAddresses}.

Definition isLoopbackOnlyAddress (raw : string) : bool :=
  let trimmed := trim_space raw in
  if String.eqb trimmed "" then true else
  let host := match url_Parse trimmed with
              | Some u => if String.eqb (trim_space (url_Host u)) "" then trimmed else url_Hostname u
              | None => trimmed
              end in
  let host := trim_space host in
  if EqualFold host "localhost" then true
  else match ParseIP_IsLoopback host with Some loopback => loopback | None => false end.

Definition scannerReachableRegistryBase (scanHost : string) (settings : ScanSettings) : res string :=
  let base := trim_space (ss_RegistryReachableURL settings) in
  let base := if String.eqb base "" then trim_space scanHost else base in
  if String.eqb base "" || isLoopbackOnlyAddress base
  then Err (NewValidationError "registry_reachable_url is required when the registry public URL is loopback-only")
  else Ok base.

Definition scanTarget (scanHost : string) (settings : ScanSettings) (repository digest : string) : res string :=
  let? base := scannerReachableRegistryBase scanHost settings in
  let base := match url_Parse base with
              | Some u => if String.eqb (trim_space (url_Host u)) "" then base else url_Host u
              | None => base
              end in
  Ok (String.append (trim_space base) (String "/" (String.append (trim_space repository)
        (String "@" (trim_space digest))))).

(** The settings with a checked URL and a default interval. *)
Definition check_scan_settings (input : ScanSettings) : res ScanSettings :=
  let url := trim_space (ss_RegistryReachableURL input) in
  let? url :=
    if String.eqb url "" then Ok url else
    match url_Parse url with
    | Some u =>
        if (String.eqb (url_Scheme u) "http" || String.eqb (url_Scheme u) "https")
           && negb (String.eqb (trim_space (url_Host u)) "")
        then Ok (trim_right_char "/" (url_String u))
        else Err (NewValidationError "registry_reachable_url must use http or https")
    | None => Err (NewValidationError "registry_reachable_url must use http or https")
    end in
  if ss_Timeout input <=? 0 then Err (NewValidationError "timeout must be greater than zero") else
  let interval := if ss_Interval input <=? 0 then 24 * hour else ss_Interval input in
  if ss_MaxConcurrency input <=? 0 then Err (NewValidationError "max_concurrency must be greater than zero") else
  Ok (mkScanSettings (ss_Enabled input) (ss_ScheduleEnabled input) interval (ss_Timeout input) (ss_ServiceURL input)
        url (ss_AuthToken input) (ss_TLSCACertPath input) (ss_TLSInsecureSkipVerify input) (ss_CacheDir input)
        (ss_BinaryPath input) (ss_LegacyCacheDir input) (ss_LegacyBinaryPath input) (ss_MaxConcurrency input) (ss_UpdatedAt input)
        (ss_IgnoreFilePath input) (ss_IgnorePolicyPath input) (ss_ConfigPath input)).
End Settings.

Definition settings_at (s : ScanSettings) (now : Time) : ScanSettings :=
  mkScanSettings (ss_Enabled s) (ss_ScheduleEnabled s) (ss_Interval s) (ss_Timeout s) (ss_ServiceURL s)
    (ss_RegistryReachableURL s) (ss_AuthToken s) (ss_TLSCACertPath s) (ss_TLSInsecureSkipVerify s) (ss_CacheDir s)
    (ss_BinaryPath s) (ss_LegacyCacheDir s) (ss_LegacyBinaryPath s) (ss_MaxConcurrency s) now (ss_IgnoreFilePath s)
    (ss_IgnorePolicyPath s) (ss_ConfigPath s).
(** The settings with the paths of the managed runtime. *)
Definition with_runtime (s : ScanSettings) (state : FeatureRuntimeState) : ScanSettings :=
  mkScanSettings (ss_Enabled s) (ss_ScheduleEnabled s) (ss_Interval s) (ss_Timeout s) (ss_ServiceURL s)
    (ss_RegistryReachableURL s) (ss_AuthToken s) (ss_TLSCACertPath s) (ss_TLSInsecureSkipVerify s)
    (trim_space (fr_CacheDir state)) (trim_space (fr_ActiveBinaryPath state)) (ss_LegacyCacheDir s)
    (ss_LegacyBinaryPath s) (ss_MaxConcurrency s) (ss_UpdatedAt s) (ss_IgnoreFilePath s) (ss_IgnorePolicyPath s)
    (ss_ConfigPath s).
Definition not_ready (state : FeatureRuntimeState) : string := String.append "trivy runtime is " (fr_Status state).

(** ** Runs *)

Definition staleScanRunError : string := "orphaned: exceeded configured scan timeout without a status update".

(** A run with a new status; the other fields of the life cycle as given. *)
Definition with_status (run : ScanRun) (status : string) (started finished : option Time) (updated : Time) (error : string)
    : ScanRun :=
  mkScanRun (sr_ID run) (sr_Repository run) (sr_RequestedRef run) (sr_Digest run) status (sr_Trigger run) started finished
    (sr_CreatedAt run) updated (sr_Critical run) (sr_High run) (sr_Medium run) (sr_Low run) (sr_TrivyVersion run)
    (sr_DBUpdatedAt run) error (sr_HasFixable run).
Definition failed_run (run : ScanRun) (finished : Time) (error : string) : ScanRun :=
  with_status run ScanRunStatusFailed (sr_StartedAt run) (Some finished) finished error.
Definition running_run (run : ScanRun) (now : Time) : ScanRun :=
  with_status run ScanRunStatusRunning (Some now) (sr_FinishedAt run) now (sr_Error run).
Definition completed_run (run : ScanRun) (finished : Time) (result : ScanResult) : ScanRun :=
  mkScanRun (sr_ID run) (sr_Repository run) (sr_RequestedRef run) (sr_Digest run) ScanRunStatusCompleted (sr_Trigger run)
    (sr_StartedAt run) (Some finished) (sr_CreatedAt run) finished (sc_Critical result) (sc_High result)
    (sc_Medium result) (sc_Low result) (sc_TrivyVersion result) (sc_DBUpdatedAt result) "" (sr_HasFixable run).
Definition queued_run (id repository reference digest trigger : string) (now : Time) : ScanRun :=
  mkScanRun id repository reference digest ScanRunStatusQueued trigger None None now now 0 0 0 0 "" None "" false.

Definition scanRunAge (now : Time) (startedAt : option Time) (createdAt : Time) : Duration :=
  now - match startedAt with Some started => started | None => createdAt end.

Definition isTransientScanRunPersistenceError `{UnicodeTables} (e : error) : bool :=
  let message := to_lower (error_string e) in
  contains message "database is locked" || contains message "database is busy"
  || contains message "sqlite_busy" || contains message "sqlite_locked".

Section Scans.
Context {W : Type} `{UnicodeTables, ManifestCodec, KeyCrypto, Regexps, OverrideCodec, NetAddresses}.
Context `{!MetadataStore W, !RegRuntime W, !PolicyStore W, !ScanRunner W}.
Variables (svc : RegConfig) (scanHost : string) (has_runner : bool).
Notation tenant := (tenant svc).
Notation worker := (ScanRun * ScanSettings)%type (only parsing).

Definition GetScanSettings : M W ScanSettings := meta_GetScanSettings tenant trivyFeatureName.

Definition normalizeScanSettings (input : ScanSettings) : M W ScanSettings :=
  let! settings := slift (check_scan_settings input) in
  let! now := reg_now in
  sret (settings_at settings now).
Definition UpdateScanSettings (input : ScanSettings) : M W ScanSettings :=
  let! normalized := normalizeScanSettings input in
  do! UpsertScanSettings tenant trivyFeatureName normalized in
  sret normalized.
Definition EnsureScanSettings (defaults : ScanSettings) : M W ScanSettings :=
  let! settings := sattempt (meta_GetScanSettings tenant trivyFeatureName) in
  match settings with
  | Ok settings => sret settings
  | Err e => if reg_is_code e CodeNotFound then UpdateScanSettings defaults else sthrow e
  end.

Definition resolveManagedScanSettings : M W ScanSettings :=
  let! settings := GetScanSettings in
  let! state := GetFeatureRuntimeState tenant trivyFeatureName in
  if negb (String.eqb (fr_Status state) FeatureRuntimeStatusReady) then
    let detail := trim_space (fr_MigrationHint state) in
    let detail := if String.eqb detail "" then trim_space (fr_LastError state) else detail in
    let detail := if String.eqb detail "" then not_ready state else detail in
    sthrow (NewValidationError detail)
  else sret (with_runtime settings state).
Definition resolveManagedScanSettingsForTenant (t : string) : M W ScanSettings :=
  let! settings := meta_GetScanSettings t trivyFeatureName in
  let! state := GetFeatureRuntimeState t trivyFeatureName in
  if negb (String.eqb (fr_Status state) FeatureRuntimeStatusReady)
  then sthrow (NewValidationError (not_ready state)) else sret (with_runtime settings state).

(** Under [scanQueueMu]: the active run of the digest, unless it has outlived the
    timeout, or a new one; [true] says that it existed. *)
Definition dedupAndQueueScanRun (t repository reference digest trigger : string) (timeout : Duration)
    : M W (ScanRun * bool) :=
  let queue :=
    let! now := reg_now in
    let! id := reg_uuid in
    let run := queued_run id repository reference digest trigger now in
    do! UpsertScanRun t run in
    sret (run, false) in
  let! active := sattempt (GetActiveScanRunByDigest t repository digest) in
  match active with
  | Ok active =>
      let! now := reg_now in
      if scanRunAge now (sr_StartedAt active) (sr_CreatedAt active) <=? timeout then sret (active, true) else
      let! finished := reg_now in
      do! UpsertScanRun t (failed_run active finished staleScanRunError) in
      queue
  | Err e => if reg_is_code e CodeNotFound then queue else sthrow e
  end.

(** The common tail of a manual and a scheduled scan. *)
Definition queue_reference (repositoryName reference trigger : string) (settings : ScanSettings)
    : M W (ScanRun * option worker) :=
  do! slift (scanTarget scanHost settings repositoryName "sha256:placeholder") in
  let! repository := slift (parseRepository repositoryName) in
  let! manifest := meta_ResolveManifest tenant repository (trim_space reference) in
  let! queued := dedupAndQueueScanRun tenant (ref_String repository) (trim_space reference) (mf_Digest manifest) trigger
                   (ss_Timeout settings) in
  let '(run, existed) := queued in
  sret (run, if existed then None else Some (run, settings)).

Definition QueueManualScan (repositoryName reference : string) : M W (ScanRun * option worker) :=
  let! settings := resolveManagedScanSettings in
  let! settings := applyRepositoryOverride tenant repositoryName trivyFeatureName settings in
  if negb (ss_Enabled settings) then sthrow (NewValidationError "scan settings must be enabled") else
  queue_reference repositoryName reference ScanTriggerManual settings.

(** A repository whose override disables scanning is skipped. *)
Definition queueScheduledScan (repositoryName reference : string) (settings : ScanSettings) : M W (option worker) :=
  let! settings := applyRepositoryOverride tenant repositoryName trivyFeatureName settings in
  if negb (ss_Enabled settings) then sret None else
  let! queued := queue_reference repositoryName reference ScanTriggerScheduled settings in
  sret queued.2.

Fixpoint schedule_all (settings : ScanSettings) (repositories : list RepositoryRef) : M W (list worker) :=
  match repositories with
  | [] => sret []
  | repository :: repositories' =>
      let! queued := sattempt (queueScheduledScan (ref_String repository) "latest" settings) in
      match queued with
      | Ok started => let! rest := schedule_all settings repositories' in sret (option_list started ++ rest)
      | Err e => if reg_is_code e CodeNotFound then schedule_all settings repositories' else sthrow e
      end
  end.
Definition RunScheduledScans : M W (list worker) :=
  let! settings := resolveManagedScanSettings in
  if negb (ss_Enabled settings) || negb (ss_ScheduleEnabled settings) then sret [] else
  let! repositories := meta_Catalog tenant 100 "" in
  schedule_all settings repositories.

(** A push never fails because of scanning: every error is swallowed. *)
Definition queuePushScan (t repository reference digest : string) : M W (option worker) :=
  let! settings := sattempt (let! settings := resolveManagedScanSettingsForTenant t in
                             applyRepositoryOverride t repository trivyFeatureName settings) in
  match settings with
  | Err _ => sret None
  | Ok settings =>
      if negb (ss_Enabled settings) then sret None else
      let! queued := sattempt (dedupAndQueueScanRun t repository (trim_space reference) digest ScanTriggerPush
                                 (ss_Timeout settings)) in
      match queued with
      | Ok (run, false) => sret (Some (run, settings))
      | Ok (_, true) | Err _ => sret None
      end
  end.

(** ** A run *)

Definition maxAttempts : nat := 5.

(** Up to five attempts, as long as the database is busy; the pauses between
    them are not modelled. *)
Fixpoint persist_loop (attempts : nat) (write : M W unit) : M W unit :=
  match attempts with
  | O => sret tt
  | S attempts' =>
      let! r := sattempt write in
      match r with
      | Ok _ => sret tt
      | Err e => if isTransientScanRunPersistenceError e then persist_loop attempts' write else sret tt
      end
  end.
Definition persistAsyncScanRun (t : string) (run : ScanRun) : M W unit := persist_loop maxAttempts (UpsertScanRun t run).
Definition persistAsyncScanRunDetail (t : string) (detail : ScanRunDetail) : M W unit :=
  persist_loop maxAttempts (UpsertScanRunDetail t detail).

(** A run waits at the gate ([Gate]) until one of its slots is free. Once the
    gate has let the run in, it is running; other handlers come in
    between, and then it has a result. *)
Definition begin_run (t : string) (run : ScanRun) : M W ScanRun :=
  let! now := reg_now in
  do! persistAsyncScanRun t (running_run run now) in
  sret (running_run run now).
Definition finish_run (t : string) (run : ScanRun) (settings : ScanSettings) : M W unit :=
  match scanTarget scanHost settings (sr_Repository run) (sr_Digest run) with
  | Err e =>
      let! finished := reg_now in
      persistAsyncScanRun t (failed_run run finished (error_string e))
  | Ok target =>
      let! result := sattempt (scan_Run target settings) in
      let! finished := reg_now in
      match result with
      | Err e => persistAsyncScanRun t (failed_run run finished (error_string e))
      | Ok result =>
          persistAsyncScanRunDetail t (mkRunDetail (completed_run run finished result) (sc_Findings result)
                                         (sc_DBFreshness result) "")
      end
  end.
(** The secret scan a run starts beside itself ([SecretLeg]): its tenant,
    repository, digest and trigger. *)
Record SecretLeg := mkLeg { lg_Tenant : string; lg_Repository : string; lg_Digest : string; lg_Trigger : string }.
Definition executeScanRun (t : string) (run : ScanRun) (settings : ScanSettings) : M W (option SecretLeg) :=
  if negb has_runner then sret None else
  let! running := begin_run t run in
  do! finish_run t running settings in
  sret (Some (mkLeg t (sr_Repository run) (sr_Digest run) (sr_Trigger run))).
End Scans.

(** * Secret scans *)

(** A run with a new status and the end of its life; the other fields as given. *)
Definition with_secret_status (run : SecretScanRun) (status : string) (finished : option Time) (updated : Time)
    (version : string) (count : Z) (error : string) : SecretScanRun :=
  mkSecretRun (sn_ID run) (sn_Repository run) (sn_Digest run) status (sn_Trigger run) (sn_StartedAt run) finished
    (sn_CreatedAt run) updated version count error.
Definition failed_secret_run (run : SecretScanRun) (finished : Time) (error : string) : SecretScanRun :=
  with_secret_status run SecretScanRunStatusFailed (Some finished) finished (sn_GitleaksVersion run) (sn_FindingCount run) error.
Definition completed_secret_run (run : SecretScanRun) (finished : Time) (result : SecretScanResult) : SecretScanRun :=
  with_secret_status run SecretScanRunStatusCompleted (Some finished) finished (sx_GitleaksVersion result)
    (Z.of_nat (length (sx_Findings result))) "".
Definition running_secret_run (id : string) (leg : SecretLeg) (now : Time) : SecretScanRun :=
  mkSecretRun id (lg_Repository leg) (lg_Digest leg) SecretScanRunStatusRunning (lg_Trigger leg) (Some now) None now now "" 0 "".
Definition secret_not_ready (state : FeatureRuntimeState) : string := String.append "gitleaks runtime is " (fr_Status state).

Section SecretScans.
Context {W : Type} `{UnicodeTables, KeyCrypto, Regexps, OverrideCodec}.
Context `{!MetadataStore W, !RegRuntime W, !PolicyStore W, !ConsoleStore W, !SecretScanRunner W}.
Variable has_runner : bool.

Definition resolveManagedSecretScanSettings (t : string) : M W ScanSettings :=
  let! settings := meta_GetScanSettings t gitleaksFeatureName in
  let! state := GetFeatureRuntimeState t gitleaksFeatureName in
  if negb (String.eqb (fr_Status state) FeatureRuntimeStatusReady) then
    let detail := trim_space (fr_MigrationHint state) in
    let detail := if String.eqb detail "" then trim_space (fr_LastError state) else detail in
    let detail := if String.eqb detail "" then secret_not_ready state else detail in
    sthrow (NewValidationError detail)
  else sret (with_runtime settings state).

Definition persistAsyncSecretScanRun (t : string) (run : SecretScanRun) : M W unit :=
  persist_loop maxAttempts (UpsertSecretScanRun t run).
Definition persistAsyncSecretScanRunDetail (t : string) (detail : SecretScanRunDetail) : M W unit :=
  persist_loop maxAttempts (UpsertSecretScanRunDetail t detail).

(** An active run of the digest keeps a second one out until it has outlived the
    timeout; then it is failed first. *)
Definition supersede_secret_run (leg : SecretLeg) (timeout : Duration) : M W bool :=
  let! active := sattempt (GetActiveSecretScanRunByDigest (lg_Tenant leg) (lg_Repository leg) (lg_Digest leg)) in
  match active with
  | Ok active =>
      let! now := reg_now in
      if scanRunAge now (sn_StartedAt active) (sn_CreatedAt active) <=? timeout then sret false else
      let! finished := reg_now in
      do! UpsertSecretScanRun (lg_Tenant leg) (failed_secret_run active finished staleScanRunError) in
      sret true
  | Err e => if reg_is_code e CodeNotFound then sret true else sthrow e
  end.

(** Everything before the gate: what to scan and how, or nothing. *)
Definition prepare_secret_leg (leg : SecretLeg) : M W (option (SecretScanTarget * ScanSettings)) :=
  let! settings := resolveManagedSecretScanSettings (lg_Tenant leg) in
  let! settings := applyRepositoryOverride (lg_Tenant leg) (lg_Repository leg) gitleaksFeatureName settings in
  if negb (ss_Enabled settings) then sret None else
  let! repo := slift (parseRepository (lg_Repository leg)) in
  let! manifestDigest := slift (ParseDigest (lg_Digest leg)) in
  let! proceed := supersede_secret_run leg (ss_Timeout settings) in
  if negb proceed then sret None else
  let! blobs := ListManifestBlobs (lg_Tenant leg) repo manifestDigest in
  sret (Some (mkSecretTarget (lg_Repository leg) (lg_Digest leg) blobs, settings)).

(** Behind the gate: other handlers come in between these two steps. *)
Definition begin_secret_run (leg : SecretLeg) : M W SecretScanRun :=
  let! now := reg_now in
  let! id := reg_uuid in
  let run := running_secret_run id leg now in
  do! persistAsyncSecretScanRun (lg_Tenant leg) run in
  sret run.
Definition finish_secret_run (leg : SecretLeg) (run : SecretScanRun) (target : SecretScanTarget) (settings : ScanSettings)
    : M W unit :=
  let! result := sattempt (secret_Run target settings) in
  let! finished := reg_now in
  match result with
  | Err e => persistAsyncSecretScanRun (lg_Tenant leg) (failed_secret_run run finished (error_string e))
  | Ok result =>
      persistAsyncSecretScanRunDetail (lg_Tenant leg)
        (mkSecretDetail (completed_secret_run run finished result) (sx_Findings result))
  end.

(** The whole leg; [if err != nil { return }] at every step. *)
Definition executeSecretScanLeg (leg : SecretLeg) : M W unit :=
  if negb has_runner then sret tt else
  let! _ := sattempt (
    let! prepared := prepare_secret_leg leg in
    match prepared with
    | None => sret tt
    | Some (target, settings) =>
        let! run := begin_secret_run leg in
        finish_secret_run leg run target settings
    end) in
  sret tt.
End SecretScans.
