(* ===== verification/GateLaws.v ===== *)
(** The pull gates as functions of the registry and the policy tables: every
    handler of PullGate.v observes its function below, the same code reading the
    two states instead of calling the stores. *)
From S2P Require Import Prelude GoStrings Encodings Errors Repository Digest GoNumbers Manifest Scope Auth.
From S2P Require Import Access RegPorts Registry RegService Signing RegSteps PolicyPorts PolicyStore.
From S2P Require Import PolicyLaws PullGate.

#[local] Opaque DigestFromBytes.

(** * Reading the registry *)

Definition r_resolve (t : string) (repo : RepositoryRef) (reference : string) (R : Registry) : res Manifest :=
  do? RepositoryRef_Validate repo in
  match resolve R t (ref_Name repo) reference with
  | Some e => Ok (entry_manifest e)
  | None => Err (NewNotFoundError "manifest" reference)
  end.
Definition r_open (d : Digest) (R : Registry) : res (string * Descriptor) :=
  do? Digest_Validate d in
  match rg_blobs R !! d with
  | Some f => Ok (bf_Content f, mkDescriptor "" d (Z.of_nat (String.length (bf_Content f))))
  | None => Err (NewNotFoundError "blob" d)
  end.
Definition referrer_row (k : string * string * string) (e : Entry) : ReferrerRow :=
  mkReferrerRow k.2 (en_MediaType e) (Z.of_nat (String.length (en_Payload e))) (en_Payload e).
Definition referrer_rows (t : string) (repo : RepositoryRef) (subject : Digest) (R : Registry) : list ReferrerRow :=
  (λ kv, referrer_row kv.1 kv.2)
    <$> filter (λ kv, kv.1.1 = (t, ref_Name repo) ∧ en_Subject kv.2 = subject) (map_to_list (rg_manifests R)).
Definition r_referrers (t : string) (repo : RepositoryRef) (subject : Digest) (R : Registry) : res (list ReferrerRow) :=
  do? (do? RepositoryRef_Validate repo in Digest_Validate subject) in
  Ok (sort_by rf_Digest (referrer_rows t repo subject R)).

Section Reads.
Context {W : Type} `{PolicyLaws W}.
Notation observes := (observes pol_view).

Lemma resolve_observed t r x : observes (meta_ResolveManifest t r x) (λ R _, r_resolve t r x R).
Proof.
  eapply observes_registry; [apply ResolveManifest_ok|apply ResolveManifest_frame|]; intros R res R' Hs.
  unfold spec_resolve, guarded, r_resolve in *; destruct (RepositoryRef_Validate r); simpl in *; [by destruct Hs|].
  by destruct Hs as [-> ->].
Qed.

Lemma open_observed d : observes (blob_OpenBlob d) (λ R _, r_open d R).
Proof.
  eapply observes_registry; [apply OpenBlob_ok|apply OpenBlob_frame|]; intros R res R' Hs.
  unfold spec_open, guarded, r_open in *; destruct (Digest_Validate d); simpl in *; [by destruct Hs|].
  by destruct Hs as [-> ->].
Qed.

(** The rows of a subject, with distinct digests. *)
Lemma elem_of_referrers t r subject R x :
  x ∈ referrer_rows t r subject R
  ↔ ∃ e, rg_manifests R !! (t, ref_Name r, rf_Digest x) = Some e ∧ en_Subject e = subject
      ∧ x = mkReferrerRow (rf_Digest x) (en_MediaType e) (Z.of_nat (String.length (en_Payload e))) (en_Payload e).
Proof.
  unfold referrer_rows; rewrite list_elem_of_fmap; split.
  - intros ([[tn d] e] & -> & [[Hk He] Hin]%list_elem_of_filter); simpl in *; subst.
    exists e; split; [by apply elem_of_map_to_list in Hin|done].
  - intros (e & He & Hs & Hx); exists ((t, ref_Name r, rf_Digest x), e); split; [done|].
    apply list_elem_of_filter; split; [done|]; by apply elem_of_map_to_list.
Qed.
Lemma NoDup_referrers t r subject R : NoDup (referrer_rows t r subject R).
Proof.
  apply NoDup_fmap_2_strong; [|apply NoDup_filter, NoDup_map_to_list].
  intros [[k d] e] [[k' d'] e'] [[Hk _] Hin]%list_elem_of_filter [[Hk' _] Hin']%list_elem_of_filter; simpl in *.
  unfold referrer_row; simpl; intros [= -> _ _ _]; subst.
  apply elem_of_map_to_list in Hin, Hin'; congruence.
Qed.

Lemma referrers_observed t r d : observes (ListReferrers t r d) (λ R _, r_referrers t r d R).
Proof.
  eapply observes_registry; [apply ListReferrers_ok|apply ListReferrers_frame|]; intros R res R' Hs.
  unfold spec_referrers, guarded, r_referrers in *.
  destruct (do? RepositoryRef_Validate r in Digest_Validate d); simpl in *; [|by destruct Hs].
  destruct Hs as [-> (l & -> & Hsort & Hnd & Hin)]; split; [done|]; f_equal; apply (sorted_unique rf_Digest).
  - done.
  - done.
  - apply sort_by_sorted.
  - rewrite sort_by_perm; apply NoDup_referrers.
  - intros x; by rewrite elem_of_sort_by, elem_of_referrers, Hin.
  - intros x y (e & He & _ & ->)%Hin (e' & He' & _ & ->)%Hin; simpl; intros Hd; rewrite Hd in *; congruence.
Qed.
End Reads.
#[export] Hint Resolve resolve_observed open_observed referrers_observed : observe.

(** * The gates on the two states *)

Section Functions.
Context `{UnicodeTables, ManifestCodec, KeyCrypto, SigningCodec, Sigstore, Regexps, OverrideCodec}.
Variables (svc : RegConfig) (ctx : option Principal) (R : Registry) (D : PolicyDB).
Notation t := (tenant svc).
Notation key := (string * PublicKey)%type (only parsing).

Definition r_scan_policy : res ScanPolicySettings :=
  let? settings := rattempt (q_scan_policy t D) in
  match settings with
  | Err e => if reg_is_code e CodeNotFound then Ok (mkScanPolicy true ScanPolicyThresholdCritical zero_time) else Err e
  | Ok settings => Ok settings
  end.
Definition r_enforce_scan (repository digest : string) : res unit :=
  let? settings := r_scan_policy in
  let? run := rattempt (q_latest_run t repository digest D) in
  match run with
  | Err e => if reg_is_code e CodeNotFound then Ok tt else Err e
  | Ok run =>
      if scanPolicyViolated settings run
      then Err (blocked_by "vulnerability policy" repository digest []) else Ok tt
  end.

(** The signing policy that holds for a repository. *)
Definition r_global_signing_policy : res SigningPolicySettings :=
  let? settings := rattempt (q_signing_policy t D) in
  match settings with
  | Err e => if reg_is_code e CodeNotFound then Ok (mkSigningPolicy false [] [] zero_time "") else Err e
  | Ok settings => Ok settings
  end.
Definition r_override (repository : string) (settings : SigningPolicySettings) : res SigningPolicySettings :=
  let? raw := rattempt (q_override t repository signingFeatureName D) in
  match raw with
  | Err e => if reg_is_code e CodeNotFound then Ok settings else Err e
  | Ok raw => applySigningOverridePayload raw settings
  end.
Definition r_signing_policy (repository : string) : res SigningPolicySettings :=
  let? policy := r_global_signing_policy in
  r_override repository policy.

Definition r_payload (value : string) : res (option string) :=
  match ParseDigest value with
  | Err _ => Ok None
  | Ok d =>
      let? opened := rattempt (r_open d R) in
      match opened with
      | Err e => if reg_is_code e CodeNotFound then Ok None else Err e
      | Ok (payload, _) => Ok (if longer payload MaxPayloadBytes then None else Some payload)
      end
  end.

Definition r_candidate (repository digest referrerPayload : string) (keys : list key) (ids : list TrustedIdentity)
    : res (option Verdict) :=
  match ParseBundleReferrerManifest referrerPayload with
  | Err _ => Ok None
  | Ok (subjectDigest, layerDigest) =>
      if String.eqb subjectDigest "" || String.eqb layerDigest "" || negb (String.eqb subjectDigest digest)
      then Ok None else
      let? bundlePayload := r_payload layerDigest in
      Ok (p ← bundlePayload; judge_bundle repository digest p keys ids)
  end.

Fixpoint r_index (repo : RepositoryRef) (repository digest : string) (keys : list key) (ids : list TrustedIdentity)
    (entries : list bundleIndexEntry) : res (option Verdict) :=
  match entries with
  | [] => Ok None
  | entry :: entries' =>
      let? referrer := rattempt (r_resolve t repo (bi_Digest entry) R) in
      match referrer with
      | Err e => if reg_is_code e CodeNotFound then r_index repo repository digest keys ids entries' else Err e
      | Ok m =>
          let? verdict := r_candidate repository digest (mf_Payload m) keys ids in
          match verdict with
          | Some v => Ok (Some v)
          | None => r_index repo repository digest keys ids entries'
          end
      end
  end.

Fixpoint r_rows (repository digest : string) (keys : list key) (ids : list TrustedIdentity) (rows : list ReferrerRow)
    : res (option Verdict) :=
  match rows with
  | [] => Ok None
  | row :: rows' =>
      let? verdict := r_candidate repository digest (rf_Payload row) keys ids in
      match verdict with
      | Some v => Ok (Some v)
      | None => r_rows repository digest keys ids rows'
      end
  end.

Definition r_verify_referrers (repo : RepositoryRef) (repository digest : string) (keys : list key)
    (ids : list TrustedIdentity) (foundIndex : bool) : res Verdict :=
  let? subjectDigest := ParseDigest digest in
  let? rows := r_referrers t repo subjectDigest R in
  let? verdict := r_rows repository digest keys ids rows in
  match verdict with
  | Some v => Ok v
  | None =>
      if negb foundIndex && (length rows =? 0)%nat
      then Ok (refused signatureStateUnsigned repository digest "no signature found")
      else Ok (refused signatureStateUntrusted repository digest
                 "no bundle signature validated against a trusted key or trusted identity")
  end.

Definition r_bundle (repo : RepositoryRef) (repository digest : string) (keys : list key) (ids : list TrustedIdentity)
    : res Verdict :=
  match BundleIndexTag digest with
  | Err e => Ok (refused signatureStateUnverifiable repository digest (error_string e))
  | Ok indexTag =>
      let? index := rattempt (r_resolve t repo indexTag R) in
      match index with
      | Ok m =>
          match ParseBundleIndex (mf_Payload m) with
          | Err _ => Ok (refused signatureStateUnverifiable repository digest "no usable bundle signature entry found")
          | Ok entries =>
              let? verdict := r_index repo repository digest keys ids entries in
              match verdict with
              | Some v => Ok v
              | None => r_verify_referrers repo repository digest keys ids true
              end
          end
      | Err e =>
          if reg_is_code e CodeNotFound then r_verify_referrers repo repository digest keys ids false else Err e
      end
  end.

Fixpoint r_entries (repository digest : string) (keys : list key) (entries : list SignatureEntry) : res Verdict :=
  match entries with
  | [] => Ok (refused signatureStateUntrusted repository digest "no signature validated against a trusted key")
  | entry :: entries' =>
      let? payload := r_payload (se_PayloadDigest entry) in
      match payload ≫= λ p, pair p <$> verifying_key keys p [se_Signature entry] with
      | Some (p, k) =>
          if is_ok (CheckClaims p digest) then Ok (verified_by_key k)
          else Ok (refused signatureStateMismatched repository digest "signature binds a different digest")
      | None => r_entries repository digest keys entries'
      end
  end.

Definition r_verify (repository digest : string) (policy : SigningPolicySettings) : res Verdict :=
  let keys := parseTrustedKeys (sg_TrustedPublicKeys policy) in
  if (length keys =? 0)%nat && (length (sg_TrustedIdentities policy) =? 0)%nat
  then Ok (refused signatureStateUnverifiable repository digest
             "no usable trusted key or trusted identity is configured") else
  match SignatureTag digest with
  | Err e => Ok (refused signatureStateUnverifiable repository digest (error_string e))
  | Ok tag =>
      let? repo := parseRepository repository in
      let? found := rattempt (r_resolve t repo tag R) in
      match found with
      | Err e =>
          if reg_is_code e CodeNotFound
          then r_bundle repo repository digest keys (sg_TrustedIdentities policy)
          else Err e
      | Ok sigManifest =>
          match ParseSignatureManifest (mf_Payload sigManifest) with
          | Err _ | Ok [] => Ok (refused signatureStateUnverifiable repository digest "no usable signature entry found")
          | Ok entries => r_entries repository digest keys entries
          end
      end
  end.

Definition r_enforce_signing (repository digest pushedBy : string) : res unit :=
  let? policy := r_global_signing_policy in
  let? policy := r_override repository policy in
  if negb (sg_Enabled policy) then Ok tt else
  let? verdict := rattempt (r_verify repository digest policy) in
  match (match verdict with Ok v => v_Err v | Err e => Some e end) with
  | None => Ok tt
  | Some e => if exempted ctx policy repository pushedBy then Ok tt else Err e
  end.

Definition r_open_manifest (repositoryName reference : string) : res Manifest :=
  let? repository := parseRepository repositoryName in
  do? authorize svc ctx (mkAction ActionPull (ref_String repository) None) in
  let? manifest := r_resolve t repository reference R in
  do? r_enforce_scan (ref_String repository) (mf_Digest manifest) in
  do? r_enforce_signing (ref_String repository) (mf_Digest manifest) (mf_PushedBy manifest) in
  Ok manifest.
End Functions.

(** * The handlers observe them *)

Section Observed.
Context {W : Type} `{ManifestCodec, KeyCrypto, SigningCodec, Sigstore, Regexps, OverrideCodec, PolicyLaws W}.
Variables (svc : RegConfig) (ctx : option Principal).
Notation observes := (observes pol_view).

Lemma GetScanPolicySettings_observed : observes (GetScanPolicySettings svc) (λ _ D, r_scan_policy svc D).
Proof. unfold GetScanPolicySettings, r_scan_policy; observe. Qed.
#[local] Hint Resolve GetScanPolicySettings_observed : observe.

Lemma enforceScanPolicy_observed n d : observes (enforceScanPolicy svc n d) (λ _ D, r_enforce_scan svc D n d).
Proof. unfold enforceScanPolicy, r_enforce_scan; observe. Qed.
#[local] Hint Resolve enforceScanPolicy_observed : observe.

Lemma GetSigningPolicySettings_observed :
  observes (GetSigningPolicySettings svc) (λ _ D, r_global_signing_policy svc D).
Proof. unfold GetSigningPolicySettings, r_global_signing_policy; observe. Qed.

Lemma applySigningRepositoryOverride_observed n p :
  observes (applySigningRepositoryOverride (tenant svc) n p) (λ _ D, r_override svc D n p).
Proof. unfold applySigningRepositoryOverride, resolveRepositoryOverride, r_override; observe. Qed.

Lemma openSignaturePayload_observed v : observes (openSignaturePayload v) (λ R _, r_payload R v).
Proof. unfold openSignaturePayload, r_payload; observe. Qed.
#[local] Hint Resolve GetSigningPolicySettings_observed applySigningRepositoryOverride_observed
  openSignaturePayload_observed : observe.

Lemma candidate_observed n d p keys ids :
  observes (tryVerifyBundleReferrerCandidate n d p keys ids) (λ R _, r_candidate R n d p keys ids).
Proof. unfold tryVerifyBundleReferrerCandidate, r_candidate; observe. Qed.
#[local] Hint Resolve candidate_observed : observe.

Lemma try_index_observed repo n d keys ids entries :
  observes (try_index svc repo n d keys ids entries) (λ R _, r_index svc R repo n d keys ids entries).
Proof. induction entries as [|e entries IH]; cbn [try_index r_index]; observe. Qed.

Lemma try_referrers_observed n d keys ids rows :
  observes (try_referrers n d keys ids rows) (λ R _, r_rows R n d keys ids rows).
Proof. induction rows as [|row rows IH]; cbn [try_referrers r_rows]; observe. Qed.
#[local] Hint Resolve try_index_observed try_referrers_observed : observe.

Lemma verify_referrers_observed repo n d keys ids b :
  observes (verify_referrers svc repo n d keys ids b) (λ R _, r_verify_referrers svc R repo n d keys ids b).
Proof. unfold verify_referrers, r_verify_referrers; observe. Qed.
#[local] Hint Resolve verify_referrers_observed : observe.

Lemma verifyBundleSignature_observed repo n d keys ids :
  observes (verifyBundleSignature svc repo n d keys ids) (λ R _, r_bundle svc R repo n d keys ids).
Proof. unfold verifyBundleSignature, r_bundle; observe. Qed.

Lemma try_entries_observed n d keys entries :
  observes (try_entries n d keys entries) (λ R _, r_entries R n d keys entries).
Proof. induction entries as [|e entries IH]; cbn [try_entries r_entries]; observe. Qed.
#[local] Hint Resolve verifyBundleSignature_observed try_entries_observed : observe.

Lemma verifySignature_observed n d p : observes (verifySignature svc n d p) (λ R _, r_verify svc R n d p).
Proof. unfold verifySignature, r_verify; observe. Qed.
#[local] Hint Resolve verifySignature_observed : observe.

(** An exemption makes the verification, and its failures, irrelevant. *)
Lemma enforceSigningPolicy_observed n d by_ :
  observes (enforceSigningPolicy svc ctx n d by_) (λ R D, r_enforce_signing svc ctx R D n d by_).
Proof.
  unfold enforceSigningPolicy, r_enforce_signing; observe.
  destruct (exempted _ _ _ _); [right|left; by eexists].
  by destruct (match r_verify _ _ _ _ _ with Ok v => v_Err v | Err e => Some e end).
Qed.
#[local] Hint Resolve enforceSigningPolicy_observed : observe.

Lemma OpenManifest_observed n x :
  observes (OpenManifest svc ctx n x) (λ R D, r_open_manifest svc ctx R D n x).
Proof. unfold OpenManifest, r_open_manifest; observe. Qed.
End Observed.
#[export] Hint Resolve GetScanPolicySettings_observed enforceScanPolicy_observed GetSigningPolicySettings_observed
  applySigningRepositoryOverride_observed verifySignature_observed enforceSigningPolicy_observed
  OpenManifest_observed : observe.

(** ** The reports *)

Section Reports.
Context `{UnicodeTables, ManifestCodec, KeyCrypto, SigningCodec, Sigstore, Regexps, OverrideCodec}.
Variables (svc : RegConfig) (ctx : option Principal) (R : Registry) (D : PolicyDB).
Notation t := (tenant svc).

Definition r_scan_status (repositoryName reference : string) : res ScanStatusResult :=
  let? repository := parseRepository repositoryName in
  do? authorize svc ctx (mkAction ActionPull (ref_String repository) None) in
  let? manifest := r_resolve t repository reference R in
  let? settings := r_scan_policy svc D in
  let result state blocks scan :=
    mkScanStatus (ref_String repository) reference (mf_Digest manifest) state blocks
      (sp_Enabled settings, sp_SeverityThreshold settings) scan in
  let? run := rattempt (q_latest_run t (ref_String repository) (mf_Digest manifest) D) in
  match run with
  | Err e => if reg_is_code e CodeNotFound then Ok (result ScanStatusUnscanned false None) else Err e
  | Ok run =>
      let '(state, blocks) := scan_state settings run in
      Ok (result state blocks (Some (mkStatusScan (sr_Status run) (sr_Critical run) (sr_High run) (sr_Medium run)
                                       (sr_Low run) (sr_FinishedAt run))))
  end.

Fixpoint r_count (repo : RepositoryRef) (digest : string) (entries : list bundleIndexEntry) : res Z :=
  match entries with
  | [] => Ok 0
  | entry :: entries' =>
      let? referrer := rattempt (r_resolve t repo (bi_Digest entry) R) in
      match referrer with
      | Err e => if reg_is_code e CodeNotFound then r_count repo digest entries' else Err e
      | Ok m =>
          let? n := r_count repo digest entries' in
          match ParseBundleReferrerManifest (mf_Payload m) with
          | Ok (subject, layer) =>
              Ok (if String.eqb subject digest && negb (String.eqb layer "") then n + 1 else n)
          | Err _ => Ok n
          end
      end
  end.

Definition r_signature_entries (repository digest : string) : res (string * Z) :=
  match SignatureTag digest with
  | Err _ => Ok ("", 0)
  | Ok legacyTag =>
      match parseRepository repository with
      | Err _ => Ok (legacyTag, 0)
      | Ok repo =>
          let? found := rattempt (r_resolve t repo legacyTag R) in
          match found with
          | Ok m => Ok (legacyTag, match ParseSignatureManifest (mf_Payload m) with
                                   | Ok entries => Z.of_nat (length entries)
                                   | Err _ => 0
                                   end)
          | Err e =>
              if negb (reg_is_code e CodeNotFound) then Err e else
              match BundleIndexTag digest with
              | Err _ => Ok (legacyTag, 0)
              | Ok bundleTag =>
                  let? index := rattempt (r_resolve t repo bundleTag R) in
                  match index with
                  | Err e => if reg_is_code e CodeNotFound then Ok (legacyTag, 0) else Err e
                  | Ok m =>
                      match ParseBundleIndex (mf_Payload m) with
                      | Err _ => Ok (bundleTag, 0)
                      | Ok candidates =>
                          let? n := r_count repo digest candidates in
                          Ok (bundleTag, n)
                      end
                  end
              end
          end
      end
  end.

Definition r_signature_status (repositoryName reference : string) : res SignatureStatusResult :=
  let? repository := parseRepository repositoryName in
  do? authorize svc ctx (mkAction ActionPull (ref_String repository) None) in
  let? manifest := r_resolve t repository reference R in
  let digest := mf_Digest manifest in
  let? policy := r_global_signing_policy svc D in
  let? policy := r_override svc D (ref_String repository) policy in
  let? verdict := r_verify svc R (ref_String repository) digest policy in
  let result detail :=
    mkSignatureStatus (ref_String repository) reference digest (v_State verdict)
      (sg_Enabled policy && negb (String.eqb (v_State verdict) signatureStateVerified))
      (sg_Enabled policy, Z.of_nat (length (sg_TrustedPublicKeys policy)),
       Z.of_nat (length (sg_TrustedIdentities policy))) detail in
  if String.eqb (v_State verdict) signatureStateUnsigned then Ok (result None) else
  let? found := r_signature_entries (ref_String repository) digest in
  let verified := String.eqb (v_State verdict) signatureStateVerified in
  Ok (result (Some (mkSignatureDetail found.1 found.2
    (signatureStatusReason (ref_String repository) digest (v_Err verdict))
    (if verified then KeyFingerprint (v_Match verdict) else "")
    (if verified then MatchedIdentity (v_Match verdict) else "")))).
End Reports.

Section ReportsObserved.
Context {W : Type} `{ManifestCodec, KeyCrypto, SigningCodec, Sigstore, Regexps, OverrideCodec, PolicyLaws W}.
Variables (svc : RegConfig) (ctx : option Principal).
Notation observes := (observes pol_view).

Lemma ScanStatus_observed n x : observes (ScanStatus svc ctx n x) (λ R D, r_scan_status svc ctx R D n x).
Proof. unfold ScanStatus, r_scan_status; observe. Qed.

Lemma count_referrers_observed repo d entries :
  observes (count_referrers svc repo d entries) (λ R _, r_count svc R repo d entries).
Proof. induction entries as [|e entries IH]; cbn [count_referrers r_count]; observe. Qed.
#[local] Hint Resolve count_referrers_observed : observe.

Lemma resolveSignatureManifestEntries_observed n d :
  observes (resolveSignatureManifestEntries svc n d) (λ R _, r_signature_entries svc R n d).
Proof. unfold resolveSignatureManifestEntries, r_signature_entries; observe. Qed.
#[local] Hint Resolve resolveSignatureManifestEntries_observed : observe.

Lemma SignatureStatus_observed n x :
  observes (SignatureStatus svc ctx n x) (λ R D, r_signature_status svc ctx R D n x).
Proof. unfold SignatureStatus, r_signature_status; observe. Qed.
End ReportsObserved.
#[export] Hint Resolve ScanStatus_observed SignatureStatus_observed : observe.
