(* ===== verification/PullExample.v ===== *)
(** A registry that demands signatures: a concrete environment for both halves of
    the store, an image pushed, its signature pushed beside it and the signing
    policy turned on. The witnesses of the theorems about pulls run in it. *)
From S2P Require Import Prelude GoStrings Encodings Errors Repository Digest GoNumbers Manifest Scope Auth.
From S2P Require Import Access PgExample RegPorts RegWorld Registry FsBlob MetaStore RegView FsLaws.
From S2P Require Import RegService Signing MetaLaws RegLaws RegSteps RegRequests RegExample PolicyPorts.
From S2P Require Import PolicyStore PolicyLaws FullLaws PullGate Scans.

(** * Definitions *)

#[global] Instance example_full_env : FullEnv := {|
  fenv_uuid _ db pol :=
    letters (S (longest (map fst (map_to_list (md_gc_reports db)) ++ map fst (map_to_list (pd_runs pol)))));
|}.

(** A signature manifest names its payload, which is signed by the one key there
    is; a payload is the digest of the image. There are no bundles. *)
#[global] Instance example_signing_codec : SigningCodec := {|
  unmarshal_signature_manifest d :=
    Some [mkSigLayer SimpleSigningMediaType d
            (Some (base64_EncodeToString (String.append "ci-key" (drop_str 7 d))))];
  unmarshal_simple_signing p := Some (SimpleSigningType, p);
  unmarshal_bundle_index _ := None;
  unmarshal_bundle_referrer _ := None;
  unmarshal_bundle_document _ := None;
  unmarshal_bundle_material _ := None;
  unmarshal_statement _ := None;
|}.

(** No bundle is ever accepted. *)
#[global] Instance example_sigstore : Sigstore := {|
  SignedEntity := string;
  sigstore_verifier := None;
  bundle_UnmarshalJSON _ := inr "unsupported bundle";
  TlogEntries _ := inl 0%nat;
  ShortCertificateIdentity_ok _ := true;
  sigstore_Verify _ _ _ := inr (true, "no identity matched");
|}.

(** Patterns without operators: a pattern matches what contains it. *)
#[global] Instance example_regexps : Regexps := {|
  regexp_Compile p := Some (λ s, contains s p);
  regexp_message _ := "";
|}.

(** A signing override, as a client spells it and as it is stored. *)
Definition lockdown_of (pem : string) : SigningOverride :=
  mkSigningOverride true [pem] [mkIdentity ".*" "https://ci.example"] "pusher".
Definition open_door : SigningOverride := mkSigningOverride false [] [] "".

(** An override is a word, which says whether it is enabled. *)
#[global] Instance example_override_codec : OverrideCodec := {|
  unmarshal_signing_override s :=
    if String.eqb s "on" then Some (lockdown_of example_key_pem)
    else if String.eqb s "off" then Some open_door else None;
  unmarshal_trivy_override s := if String.eqb s "{}" then Some (mkTrivyOverride false "" "") else None;
  unmarshal_gitleaks_override s := if String.eqb s "{}" then Some (mkGitleaksOverride false "") else None;
  strict_signing_override s :=
    if String.eqb s "on" then inl (lockdown_of example_key_line)
    else if String.eqb s "off" then inl open_door else inr "unknown field";
  strict_trivy_override s := if String.eqb s "{}" then inl (mkTrivyOverride false "" "") else inr "unknown field";
  strict_gitleaks_override s := if String.eqb s "{}" then inl (mkGitleaksOverride false "") else inr "unknown field";
  marshal_signing_override o := if so_Enabled o then "on" else "off";
  marshal_trivy_override _ := "{}";
  marshal_gitleaks_override _ := "{}";
|}.

(** Host names only, and a scanner that finds one critical vulnerability. *)
#[global] Instance example_net : NetAddresses := {|
  url_Parse _ := None;
  ParseIP_IsLoopback host := if String.eqb host "127.0.0.1" then Some true else None;
|}.
Definition critical_result : ScanResult :=
  mkScanResult 1 0 0 0 "0.57.0" None [] (mkFreshness 0 None "" 0 None None None "").
#[global] Instance example_runner : ScanRunner FullWorld := {| scan_Run _ _ := sret critical_result |}.
Definition example_settings : ScanSettings :=
  mkScanSettings true true hour hour "" "registry.example" "" "" false "" "" "" "" 1 0 "" "" "".

(** ** A signed image *)

Definition signed_payload_digest : Digest := Eval vm_compute in DigestFromBytes payload_digest.
Definition signature_tag : string :=
  Eval vm_compute in match SignatureTag payload_digest with Ok t => t | Err _ => "" end.
Definition signature_upload_id : string :=
  Eval vm_compute in upload_of (BeginUpload example_svc (Some pusher) "team/app" published_world).
Definition sign_requests : list (option Principal * RegRequest) :=
  [(Some pusher, RqBeginUpload "team/app");
   (Some pusher, RqCompleteUpload "team/app" signature_upload_id signed_payload_digest
                   (Some (mkReader payload_digest None)));
   (Some pusher, RqPublishManifest "team/app" signature_tag "" signed_payload_digest)].
Definition demand_signatures : SigningPolicySettings := mkSigningPolicy true [example_key_pem] [] 0 "".

Definition policed (rqs : list (option Principal * RegRequest)) : FullWorld :=
  (UpdateSigningPolicySettings example_svc demand_signatures
     (mkFullWorld (reg_run_all example_svc rqs new_world) empty_policies)).2.
Definition unsigned_world : FullWorld := policed push_requests.
Definition signed_world : FullWorld := policed (push_requests ++ sign_requests).

(** * The environment keeps its laws *)

#[global] Instance example_full_env_laws : FullEnvLaws.
Proof.
  split; intros n db pol; simpl; apply example_uuid_fresh; intros id x Hx; apply elem_of_app;
    [left|right]; by eapply in_ids.
Qed.

Lemma policed_eq rqs : policed rqs
  = mkFullWorld (tick (tick (reg_run_all example_svc rqs new_world)))
      (x_signing_policy (tenant example_svc)
         (mkSigningPolicy true [example_key_pem] [] (renv_now (rw_calls (reg_run_all example_svc rqs new_world))) "")
         empty_policies).
Proof. unfold policed; generalize (reg_run_all example_svc rqs new_world); reflexivity. Qed.

Lemma policed_good rqs : good (policed rqs).
Proof.
  rewrite policed_eq; destruct (example_good rqs) as [[Hdb Hfs] Hinv]; revert Hdb Hfs Hinv.
  generalize (reg_run_all example_svc rqs new_world); intros w Hdb Hfs Hinv; by split.
Qed.

Lemma policed_calm w : reg_calm (W := FullWorld) w.
Proof. exact (example_reg_calm (fw_reg w)). Qed.

(** * Checks *)

Example unsigned_blocked :
  is_ok (OpenManifest example_svc (Some pusher) "team/app" "v1" unsigned_world).1 = false.
Proof. vm_compute; reflexivity. Qed.
Example signed_pulled :
  is_ok (OpenManifest example_svc (Some pusher) "team/app" "v1" signed_world).1 = true.
Proof. vm_compute; reflexivity. Qed.
