(* ===== verification/PullSafety.v ===== *)
(** What a pull that succeeds has passed: under an enabled signing policy the
    registry holds a signature of the manifest by a trusted key or identity, or
    the reader is exempted; and the status reports say what the gates will do. *)
From S2P Require Import Prelude GoStrings Encodings Errors Repository Digest GoNumbers Manifest Scope Auth.
From S2P Require Import Access RegPorts Registry RegService Signing RegSteps RegRequests RegExample.
From S2P Require Import PolicyPorts PolicyStore PolicyLaws FullLaws PullGate GateLaws PullExample.

(** * Definitions *)

Section Evidence.
Context `{KeyCrypto, SigningCodec, Sigstore}.
Variable (R : Registry).

(** A blob of the registry, by its digest; its bytes hash to it. *)
Definition blob_bytes (d : Digest) (bytes : string) : Prop :=
  (bf_Content <$> rg_blobs R !! d) = Some bytes ∧ DigestFromBytes bytes = d.
(** A manifest of the repository. *)
Definition stored_payload (t n payload : string) : Prop :=
  ∃ d e, rg_manifests R !! (t, n, d) = Some e ∧ en_Payload e = payload.
Definition trusted_key (policy : SigningPolicySettings) (key : PublicKey) : Prop :=
  ∃ pem, pem ∈ sg_TrustedPublicKeys policy ∧ ParseTrustedKey pem = Ok key.

(** A bundle of the repository attached to [digest]. *)
Definition attached_bundle (t n digest doc : string) : Prop :=
  ∃ referrer layer, stored_payload t n referrer ∧ ParseBundleReferrerManifest referrer = Ok (digest, layer)
    ∧ blob_bytes layer doc.

(** What it takes to trust a manifest: a stored payload that names its digest and
    a signature of that payload by a trusted key, in either format, or a bundle
    that verifies for a trusted identity. *)
Inductive attested (t n digest : string) (policy : SigningPolicySettings) : Prop :=
  | attested_simple sig entries entry payload key :
      stored_payload t n sig → ParseSignatureManifest sig = Ok entries → entry ∈ entries →
      blob_bytes (se_PayloadDigest entry) payload → trusted_key policy key →
      Verify key payload (se_Signature entry) = Ok tt → CheckClaims payload digest = Ok tt →
      attested t n digest policy
  | attested_bundle doc bundle payload signature key :
      attached_bundle t n digest doc → ParseBundleDocument doc = Ok bundle →
      base64_DecodeString (ds_Payload bundle) = Some payload → signature ∈ ds_Signatures bundle →
      trusted_key policy key → Verify key (PAE (ds_PayloadType bundle) payload) signature = Ok tt →
      CheckBundleClaims payload digest = Ok tt → attested t n digest policy
  | attested_identity doc san :
      attached_bundle t n digest doc → sg_TrustedIdentities policy ≠ [] →
      VerifyKeyless doc (sg_TrustedIdentities policy) digest = Ok san → attested t n digest policy.
End Evidence.

Definition result_of {A} (d : A) (r : res A) : A := match r with Ok x => x | Err _ => d end.
Definition pulled : Manifest :=
  Eval vm_compute in
    result_of (mkManifest "" "" 0 "" None None [] None "" "") (OpenManifest example_svc (Some pusher) "team/app" "v1" signed_world).1.

(** * What a verification finds *)

#[local] Opaque DigestFromBytes.

Lemma filter_find {A} (p : A → bool) l x : List.find p l = Some x → x ∈ l ∧ p x = true.
Proof. intros Hf; apply List.find_some in Hf as [Hin Hp]; split; [by apply list_elem_of_In|done]. Qed.

Section Verdicts.
Context `{UnicodeTables, ManifestCodec, KeyCrypto, SigningCodec, Sigstore, Regexps, OverrideCodec}.
Variables (svc : RegConfig) (R : Registry).
Hypothesis Hinv : reg_inv R.
Notation t := (tenant svc).

Lemma verifying_key_trusted policy payload sigs k :
  verifying_key (parseTrustedKeys (sg_TrustedPublicKeys policy)) payload sigs = Some k →
  trusted_key policy k.2 ∧ ∃ s, s ∈ sigs ∧ Verify k.2 payload s = Ok tt.
Proof.
  unfold verifying_key; destruct (List.find _ _) as [[s k']|] eqn:Hf; [|done]; intros [= <-].
  apply filter_find in Hf as [Hin Hv]; simpl in *.
  apply list_elem_of_bind in Hin as (s' & Hin & Hs); apply list_elem_of_bind in Hin as (k2 & Hin & Hk).
  apply list_elem_of_singleton in Hin as [= -> ->].
  split.
  - unfold parseTrustedKeys in Hk; apply list_elem_of_omap in Hk as (pem & Hpem & Hk).
    destruct (ParseTrustedKey pem) as [key|] eqn:Hp; [|done]; injection Hk as <-; by exists pem.
  - exists s'; split; [done|]; by destruct (Verify k2.2 payload s') as [[]|].
Qed.

Lemma payload_blob v p : r_payload R v = Ok (Some p) → blob_bytes R v p.
Proof.
  unfold r_payload, r_open; destruct (ParseDigest v) as [d|] eqn:Hd; [|done].
  assert (d = v) as -> by (unfold ParseDigest in Hd; repeat case_match_step; by inv_result).
  unfold Digest_Validate; rewrite Hd; simpl; destruct (rg_blobs R !! v) as [f|] eqn:Hf; simpl; [|done].
  destruct (longer _ _); [done|]; intros [= <-]; split; [by rewrite Hf|]; by eapply inv_content.
Qed.

Lemma resolve_stored repo x m : r_resolve t repo x R = Ok m → stored_payload R t (ref_Name repo) (mf_Payload m).
Proof.
  unfold r_resolve; destruct (RepositoryRef_Validate repo); [|done]; simpl.
  destruct (resolve R t (ref_Name repo) x) as [e|] eqn:He; [|done]; intros [= <-]; unfold resolve in He.
  destruct (valid_digest x); [by exists x, e|].
  destruct (rg_tags R !! _) as [d|]; [|done]; by exists d, e.
Qed.

(** A bundle is attested, and a verdict without an error is a verified one. *)
Definition sound_verdict (n digest : string) (policy : SigningPolicySettings) (v : Verdict) : Prop :=
  (v_State v = signatureStateVerified ↔ v_Err v = None) ∧ (v_Err v = None → attested R t n digest policy).

Lemma refused_sound n digest policy state name reason :
  state ≠ signatureStateVerified → sound_verdict n digest policy (refused state name digest reason).
Proof. intros Hs; by split. Qed.

Lemma candidate_sound repo digest payload policy v :
  stored_payload R t repo payload →
  r_candidate R repo digest payload (parseTrustedKeys (sg_TrustedPublicKeys policy)) (sg_TrustedIdentities policy)
    = Ok (Some v) →
  sound_verdict repo digest policy v.
Proof.
  intros Hst Hc; unfold r_candidate in Hc; destruct (ParseBundleReferrerManifest payload) as [[s l]|] eqn:Hp; [|done].
  destruct (_ || _ || negb (String.eqb s digest)) eqn:Hg; [done|]; bool_prop; subst s.
  apply rbind_ok in Hc as ([doc|] & Hd & Hc); [|done]; apply payload_blob in Hd; injection Hc as Hc.
  assert (attached_bundle R t repo digest doc) as Hb by by exists payload, l.
  unfold judge_bundle in Hc; simpl in Hc; destruct (ParseBundleDocument doc) as [bundle|] eqn:Hbd; [|done].
  destruct (base64_DecodeString (ds_Payload bundle)) as [pl|] eqn:Hpl; [|done].
  destruct (verifying_key _ _ _) as [k|] eqn:Hk.
  - apply verifying_key_trusted in Hk as (Htk & s & Hs & Hv).
    destruct (CheckBundleClaims pl digest) as [[]|] eqn:Hcl; injection Hc as <-; [|by apply refused_sound].
    split; [done|]; intros _; by eapply attested_bundle.
  - destruct (sg_TrustedIdentities policy) as [|i ids] eqn:Hids; [done|].
    destruct (ParseBundleVerificationMaterial doc) as [vm|]; [|done]; destruct (negb (HasCertificate vm)); [done|].
    destruct (VerifyKeyless doc (i :: ids) digest) as [san|] eqn:Hvk; [|done]; injection Hc as <-.
    split; [done|]; intros _; eapply attested_identity; [done|by rewrite Hids|by rewrite Hids].
Qed.

Section Policy.
Variables (n digest : string) (policy : SigningPolicySettings) (repo : RepositoryRef).
Hypothesis Hrepo : ref_Name repo = n.
Notation keys := (parseTrustedKeys (sg_TrustedPublicKeys policy)).
Notation ids := (sg_TrustedIdentities policy).
Notation sound := (sound_verdict n digest policy).

Lemma rows_sound rows v : Forall (λ r, stored_payload R t n (rf_Payload r)) rows →
  r_rows R n digest keys ids rows = Ok (Some v) → sound v.
Proof.
  induction 1 as [|row rows Hrow _ IH]; simpl; [done|]; intros Hv; apply rbind_ok in Hv as ([v'|] & Hc & Hv); [|auto].
  injection Hv as <-; by eapply candidate_sound.
Qed.

Lemma index_sound entries v : r_index svc R repo n digest keys ids entries = Ok (Some v) → sound v.
Proof.
  induction entries as [|e entries IH]; cbn [r_index]; [done|].
  unfold rattempt; simpl; destruct (r_resolve t repo (bi_Digest e) R) as [m|err] eqn:Hm.
  - intros Hv; apply rbind_ok in Hv as ([v'|] & Hc & Hv); [|auto]; injection Hv as <-.
    apply resolve_stored in Hm; rewrite Hrepo in Hm; by eapply candidate_sound.
  - destruct (reg_is_code err CodeNotFound); [auto|done].
Qed.

Lemma referrers_sound b v : r_verify_referrers svc R repo n digest keys ids b = Ok v → sound v.
Proof.
  unfold r_verify_referrers; intros Hv; apply rbind_ok in Hv as (d & Hd & Hv); apply rbind_ok in Hv as (rows & Hr & Hv).
  apply rbind_ok in Hv as ([v'|] & Hrows & Hv).
  - injection Hv as <-; eapply rows_sound; [|exact Hrows]; apply Forall_forall; intros x Hx.
    unfold r_referrers in Hr; apply rbind_ok in Hr as ([] & _ & [= <-]).
    apply elem_of_sort_by, elem_of_referrers in Hx as (e & He & _ & ->); rewrite Hrepo in He; by exists (rf_Digest x), e.
  - destruct (_ && _); injection Hv as <-; by apply refused_sound.
Qed.

Lemma bundle_sound v : r_bundle svc R repo n digest keys ids = Ok v → sound v.
Proof.
  unfold r_bundle, rattempt; destruct (BundleIndexTag digest); [|intros [= <-]; by apply refused_sound]; simpl.
  destruct (r_resolve t repo _ R) as [m|err]; [|destruct (reg_is_code err _); [apply referrers_sound|done]].
  destruct (ParseBundleIndex _); [|intros [= <-]; by apply refused_sound].
  intros Hv; apply rbind_ok in Hv as ([v'|] & Hi & Hv); [injection Hv as <-; by eapply index_sound|].
  by eapply referrers_sound.
Qed.

Lemma entries_sound sig entries todo v : stored_payload R t n sig → ParseSignatureManifest sig = Ok entries →
  todo ⊆ entries → r_entries R n digest keys todo = Ok v → sound v.
Proof.
  intros Hsig Hp; induction todo as [|e todo IH]; intros Hsub; cbn [r_entries]; [intros [= <-]; by apply refused_sound|].
  intros Hv; apply rbind_ok in Hv as (payload & Hpl & Hv).
  assert (e ∈ entries ∧ todo ⊆ entries) as [He Hsub'] by (split; [apply Hsub; left|intros x Hx; apply Hsub; by right]).
  destruct payload as [p|]; simpl in Hv; [|auto].
  destruct (verifying_key keys p [se_Signature e]) as [k|] eqn:Hk; simpl in Hv; [|auto].
  apply verifying_key_trusted in Hk as (Htk & s & Hs%list_elem_of_singleton & Hv'); subst s; apply payload_blob in Hpl.
  destruct (CheckClaims p digest) as [[]|] eqn:Hcl; injection Hv as <-; [|by apply refused_sound].
  split; [done|]; intros _; by eapply attested_simple.
Qed.

Lemma verify_sound v : parseRepository n = Ok repo → r_verify svc R n digest policy = Ok v → sound v.
Proof.
  intros Hn; unfold r_verify, rattempt; destruct (_ && _); [intros [= <-]; by apply refused_sound|].
  destruct (SignatureTag digest); [|intros [= <-]; by apply refused_sound]; rewrite Hn; simpl.
  destruct (r_resolve t repo _ R) as [m|err] eqn:Hm; [|destruct (reg_is_code err _); [apply bundle_sound|done]].
  destruct (ParseSignatureManifest (mf_Payload m)) as [[|e es]|] eqn:Hp; try (intros [= <-]; by apply refused_sound).
  apply resolve_stored in Hm; rewrite Hrepo in Hm; by eapply entries_sound.
Qed.
End Policy.
End Verdicts.

Lemma parse_again name repo : parseRepository name = Ok repo → parseRepository (ref_String repo) = Ok repo.
Proof.
  unfold parseRepository; intros [-> Hv]%parsed_ref_valid; simpl.
  rewrite (trim_space_graphic (trim_space name)) by (by apply valid_repository_graphic).
  by apply valid_repository_spec.
Qed.

Lemma scan_state_blocks settings run : (scan_state settings run).2 = scanPolicyViolated settings run.
Proof.
  unfold scan_state; destruct (String.eqb_spec (sr_Status run) ScanRunStatusCompleted) as [Hs|Hs].
  - rewrite Hs; simpl; by destruct (scanPolicyViolated settings run).
  - assert (scanPolicyViolated settings run = false) as ->
      by (unfold scanPolicyViolated; rewrite (proj2 (String.eqb_neq _ _) Hs); by rewrite orb_true_r).
    by repeat case_match.
Qed.

(** * Theorems *)

Section Pulls.
Context {W : Type} `{ManifestCodec, KeyCrypto, SigningCodec, Sigstore, Regexps, OverrideCodec, PolicyLaws W}.
Variables (svc : RegConfig) (ctx : option Principal).
Notation t := (tenant svc).

(** C3: A pull that succeeds was authorised and has passed both gates, whatever
    store calls failed around it: the digest's latest completed scan does not
    violate the vulnerability policy, and if the signing policy that holds for the
    repository is enabled, the registry stores a signature of exactly this digest
    by a trusted key or identity, or the policy exempts this reader. The pull
    changes nothing. *)
Theorem pull_passes_the_gates w name reference m :
  good w → (OpenManifest svc ctx name reference w).1 = Ok m →
  ∃ repo e settings policy,
    parseRepository name = Ok repo ∧ authorize svc ctx (mkAction ActionPull (ref_String repo) None) = Ok tt
    ∧ resolve (reg_view w) t (ref_Name repo) reference = Some e ∧ m = entry_manifest e
    ∧ r_scan_policy svc (pol_view w) = Ok settings
    ∧ (∀ run, q_latest_run t (ref_Name repo) (mf_Digest m) (pol_view w) = Ok run → scanPolicyViolated settings run = false)
    ∧ r_signing_policy svc (pol_view w) (ref_Name repo) = Ok policy
    ∧ (sg_Enabled policy = true →
       attested (reg_view w) t (ref_Name repo) (mf_Digest m) policy
       ∨ exempted ctx policy (ref_Name repo) (mf_PushedBy m) = true)
    ∧ reg_view (OpenManifest svc ctx name reference w).2 = reg_view w
    ∧ pol_view (OpenManifest svc ctx name reference w).2 = pol_view w.
Proof.
  intros [Hwf Hinv] Hm; destruct (OpenManifest_observed svc ctx name reference w Hwf) as (_ & _ & Hv & Hp & _).
  apply (observes_ok _ _ _ _ _ (OpenManifest_observed svc ctx name reference) Hwf) in Hm; unfold r_open_manifest in Hm.
  apply rbind_ok in Hm as (repo & Hrepo & Hm); apply rbind_ok in Hm as ([] & Ha & Hm).
  apply rbind_ok in Hm as (m' & Hres & Hm); apply rbind_ok in Hm as ([] & Hscan & Hm).
  apply rbind_ok in Hm as ([] & Hsign & [= ->]).
  unfold r_resolve in Hres; apply rbind_ok in Hres as ([] & _ & Hres).
  destruct (resolve _ _ _ _) as [e|] eqn:He; [|done]; injection Hres as <-.
  apply rbind_ok in Hscan as (settings & Hset & Hscan).
  unfold r_enforce_signing in Hsign; apply rbind_ok in Hsign as (g & Hg & Hsign).
  apply rbind_ok in Hsign as (policy & Hpol & Hsign).
  exists repo, e, settings, policy; split_and!; try done.
  - intros run Hrun; unfold rattempt in Hscan; simpl in Hscan; change (ref_String repo) with (ref_Name repo) in Hscan.
    simpl in Hrun; rewrite Hrun in Hscan; by destruct (scanPolicyViolated settings run).
  - unfold r_signing_policy; by rewrite Hg.
  - intros Hen; rewrite Hen in Hsign; unfold rattempt in Hsign; simpl in Hsign.
    change (ref_String repo) with (ref_Name repo) in Hsign.
    destruct (r_verify svc (reg_view w) (ref_Name repo) _ policy) as [v|err] eqn:Hver; simpl in Hsign.
    + apply (verify_sound svc _ Hinv _ _ _ repo eq_refl) in Hver as [_ Hver]; [|by eapply parse_again].
      destruct (v_Err v); [|left; by apply Hver]; right; by destruct (exempted _ _ _ _).
    + right; by destruct (exempted _ _ _ _).
Qed.

(** C15: When nothing fails, the two status reports of a reference together say
    what a pull of it will do: it succeeds exactly if neither says it would be
    blocked, except that a reader the signing policy exempts is not told so. *)
Theorem reports_predict_the_pull w name reference s g :
  good w → reg_calm w →
  (ScanStatus svc ctx name reference w).1 = Ok s → (SignatureStatus svc ctx name reference w).1 = Ok g →
  ∃ m policy,
    r_resolve t (mkRef (sst_Repository s)) reference (reg_view w) = Ok m
    ∧ r_signing_policy svc (pol_view w) (sst_Repository s) = Ok policy
    ∧ is_ok (OpenManifest svc ctx name reference w).1
      = negb (sst_WouldBlockPull s)
        && (negb (sgs_WouldBlockPull g) || exempted ctx policy (sst_Repository s) (mf_PushedBy m)).
Proof.
  intros [Hwf Hinv] Hcalm Hs Hg.
  rewrite (observes_calm _ _ _ _ (OpenManifest_observed svc ctx name reference) Hwf Hcalm).
  apply (observes_ok _ _ _ _ _ (ScanStatus_observed svc ctx name reference) Hwf) in Hs.
  apply (observes_ok _ _ _ _ _ (SignatureStatus_observed svc ctx name reference) Hwf) in Hg.
  unfold r_scan_status, r_signature_status, r_open_manifest in *.
  destruct (parseRepository name) as [repo|] eqn:Hrepo; [|done]; simpl in *.
  destruct (authorize svc ctx _) as [[]|]; [|done]; simpl in *.
  destruct (r_resolve t repo reference _) as [m|] eqn:Hm; [|done]; simpl in *.
  unfold r_enforce_scan, r_enforce_signing, rattempt; simpl.
  destruct (r_scan_policy svc (pol_view w)) as [settings|]; [|done]; simpl in *.
  destruct (r_global_signing_policy svc (pol_view w)) as [g0|] eqn:Hg0; [|done]; simpl in *.
  destruct (r_override svc (pol_view w) (ref_String repo) g0) as [policy|] eqn:Hpol; [|done]; simpl in *.
  destruct (r_verify svc (reg_view w) (ref_String repo) (mf_Digest m) policy) as [v|] eqn:Hver; [|done]; simpl in *.
  assert (sgs_WouldBlockPull g = sg_Enabled policy && negb (String.eqb (v_State v) signatureStateVerified)) as ->.
  { destruct (String.eqb (v_State v) signatureStateUnsigned); [by injection Hg as <-|].
    by apply rbind_ok in Hg as (found & _ & [= <-]). }
  assert (sst_Repository s = ref_String repo
    ∧ sst_WouldBlockPull s = match q_latest_run t (ref_String repo) (mf_Digest m) (pol_view w) with
                             | Ok run => scanPolicyViolated settings run | Err _ => false end) as [-> ->].
  { destruct (q_latest_run _ _ _ _) as [run|err].
    - pose proof (scan_state_blocks settings run) as Hb; destruct (scan_state settings run) as [state blocks].
      simpl in Hb; subst blocks; by injection Hs as <-.
    - destruct (reg_is_code err CodeNotFound); [by injection Hs as <-|done]. }
  assert (match q_latest_run t (ref_String repo) (mf_Digest m) (pol_view w) with
          | Ok _ => True | Err e => reg_is_code e CodeNotFound = true end) as Hrun.
  { destruct (q_latest_run _ _ _ _) as [run|err]; [done|]; by destruct (reg_is_code err CodeNotFound). }
  apply (verify_sound svc _ Hinv _ _ _ repo eq_refl) in Hver as [Hst _]; [|by eapply parse_again].
  exists m, policy; split_and!; [by destruct repo|unfold r_signing_policy; by rewrite Hg0|].
  destruct (q_latest_run _ _ _ _) as [run|err]; [destruct (scanPolicyViolated settings run); simpl; [done|]|rewrite Hrun; simpl];
    (destruct (sg_Enabled policy); simpl; [|done];
     destruct (v_Err v) as [ev|] eqn:Hev; simpl;
       [assert (String.eqb (v_State v) signatureStateVerified = false) as -> by (apply String.eqb_neq; rewrite Hst; congruence);
        by destruct (exempted ctx policy _ _)
       |rewrite (proj2 Hst eq_refl); done]).
Qed.
End Pulls.

#[local] Transparent DigestFromBytes.

(** The image of the example is attested by the signature pushed beside it. *)
Lemma pull_passes_the_gates_witness :
  (OpenManifest example_svc (Some pusher) "team/app" "v1" signed_world).1 = Ok pulled
  ∧ ∃ policy, sg_Enabled policy = true
    ∧ attested (reg_view signed_world) (tenant example_svc) "team/app" (mf_Digest pulled) policy.
Proof.
  assert ((OpenManifest example_svc (Some pusher) "team/app" "v1" signed_world).1 = Ok pulled) as Hm
    by (vm_compute; reflexivity).
  split; [exact Hm|].
  destruct (pull_passes_the_gates example_svc (Some pusher) signed_world "team/app" "v1" pulled (policed_good _) Hm)
    as (repo & e & settings & policy & Hrepo & _ & _ & _ & _ & _ & Hpol & Hatt & _).
  injection Hrepo as <-; exists policy.
  assert (sg_Enabled policy = true ∧ exempted (Some pusher) policy "team/app" (mf_PushedBy pulled) = false) as [He Hx].
  { revert Hpol; vm_compute; intros [= <-]; by split. }
  split; [done|]; destruct (Hatt He) as [Ha|Ha]; [exact Ha|].
  change (exempted (Some pusher) policy "team/app" (mf_PushedBy pulled) = true) in Ha; congruence.
Defined.

Lemma reports_predict_the_pull_witness :
  (∃ g, (SignatureStatus example_svc (Some pusher) "team/app" "v1" unsigned_world).1 = Ok g ∧ sgs_WouldBlockPull g = true)
  ∧ is_ok (OpenManifest example_svc (Some pusher) "team/app" "v1" unsigned_world).1 = false.
Proof.
  destruct (ScanStatus example_svc (Some pusher) "team/app" "v1" unsigned_world).1 as [s|] eqn:Hs;
    [|by revert Hs; vm_compute].
  destruct (SignatureStatus example_svc (Some pusher) "team/app" "v1" unsigned_world).1 as [g|] eqn:Hg;
    [|by revert Hg; vm_compute].
  destruct (reports_predict_the_pull example_svc (Some pusher) unsigned_world "team/app" "v1" s g (policed_good _)
    (policed_calm _) Hs Hg) as (m & policy & Hm & Hpol & ->).
  assert (sst_Repository s = "team/app") as Hrepo by (revert Hs; vm_compute; by intros [= <-]).
  assert (sgs_WouldBlockPull g = true) as Hb by (revert Hg; vm_compute; by intros [= <-]).
  rewrite Hrepo in Hpol |- *; assert (sg_UnsignedSelfRead policy = "") as Hu by (revert Hpol; vm_compute; by intros [= <-]).
  split; [exists g; split; [reflexivity|exact Hb]|].
  rewrite Hb; cbn [negb orb]; unfold exempted; rewrite Hu; apply andb_false_r.
Defined.
