(* ===== verification/OverrideSafety.v ===== *)
(** Overrides never make a repository unusable by accident: every stored override
    was normalised, so one that demands signatures names somebody to trust and one
    that names a file names an absolute, clean path; an override holds from when
    it is set until it is cleared. *)
From S2P Require Import Prelude GoStrings Encodings Errors Repository Digest GoNumbers Manifest Scope Auth.
From S2P Require Import Access RegPorts Registry RegService Signing RegSteps RegExample PolicyPorts.
From S2P Require Import PolicyStore PolicyLaws FullLaws PullGate Overrides GateLaws PullExample PullSafety.

#[local] Opaque DigestFromBytes.

(** * Definitions *)

(** [encoding/json]: what was decoded strictly, and then normalised, is valid
    text, and survives being encoded and decoded again. *)
Class OverrideCodecLaws `{UnicodeTables, KeyCrypto, Regexps, OverrideCodec} := {
  signing_survives raw o keys (o' := mkSigningOverride (so_Enabled o) keys (so_TrustedIdentities o) (so_UnsignedSelfRead o)) :
    strict_signing_override raw = inl o → normalize_keys 0 (so_TrustedPublicKeys o) = Ok keys →
    unmarshal_signing_override (marshal_signing_override o') = Some o';
  trivy_survives raw o l p l' q (o' := mkTrivyOverride (to_Enabled o) p q) :
    strict_trivy_override raw = inl o → normalizeOverridePath l (to_IgnoreFilePath o) = Ok p →
    normalizeOverridePath l' (to_IgnorePolicyPath o) = Ok q →
    unmarshal_trivy_override (marshal_trivy_override o') = Some o';
  gitleaks_survives raw o l p (o' := mkGitleaksOverride (go_Enabled o) p) :
    strict_gitleaks_override raw = inl o → normalizeOverridePath l (go_ConfigPath o) = Ok p →
    unmarshal_gitleaks_override (marshal_gitleaks_override o') = Some o';
}.

Section Usable.
Context `{UnicodeTables, KeyCrypto, Regexps, OverrideCodec}.

Definition safe_path (p : string) : Prop :=
  p = "" ∨ ∃ segments, p = String "/" (join "/" segments)
    ∧ Forall (λ s, s ≠ "" ∧ s ≠ "." ∧ s ≠ ".." ∧ no_char "/" s = true) segments.

(** If it is enabled it names a key that parses or an identity whose pattern
    compiles; and it is bounded. *)
Definition usable_signing (o : SigningOverride) : Prop :=
  (length (so_TrustedPublicKeys o) ≤ maxSigningPolicyTrustedKeys)%nat
  ∧ (length (so_TrustedIdentities o) ≤ maxSigningPolicyTrustedKeys)%nat
  ∧ Forall (λ pem, ∃ key, ParseTrustedKey pem = Ok key) (so_TrustedPublicKeys o)
  ∧ Forall (λ i, is_Some (regexp_Compile (ti_Regexp i)) ∧ trim_space (ti_Issuer i) ≠ "") (so_TrustedIdentities o)
  ∧ (so_Enabled o = true → so_TrustedPublicKeys o ≠ [] ∨ so_TrustedIdentities o ≠ [])
  ∧ ValidUnsignedSelfRead (so_UnsignedSelfRead o) = true.

Definition usable_payload (feature payload : string) : Prop :=
  (feature = signingFeatureName → ∃ o, unmarshal_signing_override payload = Some o ∧ usable_signing o)
  ∧ (feature = trivyFeatureName → ∃ o, unmarshal_trivy_override payload = Some o
       ∧ safe_path (to_IgnoreFilePath o) ∧ safe_path (to_IgnorePolicyPath o))
  ∧ (feature = gitleaksFeatureName → ∃ o, unmarshal_gitleaks_override payload = Some o ∧ safe_path (go_ConfigPath o)).
Definition overrides_usable (D : PolicyDB) : Prop :=
  ∀ t n feature payload, q_override t n feature D = Ok payload → usable_payload feature payload.
End Usable.

(** ** Requests that change the policies *)

Inductive PolicyRequest :=
  | PqGetOverride (repository feature : string)
  | PqListOverrides (feature : string)
  | PqSetOverride (repository feature raw : string)
  | PqClearOverride (repository feature : string)
  | PqScanPolicy (settings : ScanPolicySettings)
  | PqSigningPolicy (settings : SigningPolicySettings).

Section Requests.
Context {W : Type} `{UnicodeTables, KeyCrypto, Regexps, OverrideCodec}.
Context `{!RegRuntime W, !PolicyStore W}.
Variable (svc : RegConfig).

Definition policy_run (rq : PolicyRequest) (w : W) : W :=
  match rq with
  | PqGetOverride n f => (GetRepositoryOverride svc n f w).2
  | PqListOverrides f => (ListRepositoryOverrides svc f w).2
  | PqSetOverride n f raw => (SetRepositoryOverride svc n f raw w).2
  | PqClearOverride n f => (ClearRepositoryOverride svc n f w).2
  | PqScanPolicy s => (UpdateScanPolicySettings svc s w).2
  | PqSigningPolicy s => (UpdateSigningPolicySettings svc s w).2
  end.
Definition policy_run_all (rqs : list PolicyRequest) (w : W) : W := foldl (λ w rq, policy_run rq w) w rqs.
End Requests.

(** * Normalised payloads are usable *)

Lemma clean_segments rooted segments acc :
  rooted = true → Forall (λ s, no_char "/" s = true) segments →
  Forall (λ s, s ≠ "" ∧ s ≠ "." ∧ s ≠ ".." ∧ no_char "/" s = true) acc →
  Forall (λ s, s ≠ "" ∧ s ≠ "." ∧ s ≠ ".." ∧ no_char "/" s = true) (foldl (clean_segment rooted) acc segments).
Proof.
  intros ->; revert acc; induction segments as [|s segments IH]; intros acc Hs Hacc; simpl; [done|].
  inversion Hs as [|? ? Hc Hs']; subst; apply IH; [done|]; unfold clean_segment.
  destruct (String.eqb_spec s ""), (String.eqb_spec s "."); simpl; try done.
  destruct (String.eqb_spec s "..") as [->|]; [|by constructor].
  destruct Hacc as [|x acc (? & ? & Hx & ?) Hacc]; [done|].
  by rewrite (proj2 (String.eqb_neq _ _) Hx).
Qed.

Lemma normalized_path label raw p : normalizeOverridePath label raw = Ok p → safe_path p.
Proof.
  unfold normalizeOverridePath; destruct (String.eqb _ ""); [intros [= <-]; by left|].
  destruct (has_prefix "-" _); [done|]; destruct (filepath_IsAbs (trim_space raw)) eqn:Ha; [|done].
  intros [= <-]; right; unfold filepath_Clean; rewrite Ha; eexists; split; [done|].
  apply Forall_reverse, clean_segments; [done| |by constructor]; apply split_parts.
Qed.

Section Normalized.
Context `{OverrideCodecLaws}.
Hypothesis Hempty : ParsePKIXPublicKey "" = None.

Lemma normalized_keys index keys normalized : normalize_keys index keys = Ok normalized →
  length normalized = length keys ∧ Forall (λ pem, ∃ key, ParseTrustedKey pem = Ok key) normalized.
Proof.
  revert index normalized; induction keys as [|key keys IH]; simpl; intros index normalized Hn.
  { injection Hn as <-; by split. }
  destruct (NormalizePublicKeyPEM key) as [pem|e] eqn:Hk; [|by destruct (is_panic e)].
  apply rbind_ok in Hn as (rest & Hr & [= <-]); apply IH in Hr as [Hl Hall].
  simpl; split; [by rewrite Hl|]; constructor; [|done].
  destruct (canonical_block Hempty key pem Hk) as (der & k & _ & Hp & Hpk & _).
  exists k; unfold ParseTrustedKey; by rewrite Hp.
Qed.

Lemma checked_identities index ids : check_identities index ids = Ok tt →
  Forall (λ i, is_Some (regexp_Compile (ti_Regexp i)) ∧ trim_space (ti_Issuer i) ≠ "") ids.
Proof.
  revert index; induction ids as [|i ids IH]; simpl; intros index Hc; [by constructor|].
  destruct (regexp_Compile _) eqn:Hr; [|done]; destruct (String.eqb_spec (trim_space (ti_Issuer i)) ""); [done|].
  constructor; [|by eapply IH]; by split.
Qed.

Lemma normalize_usable feature codec raw payload :
  repositoryOverrideCodecs feature = Some codec → Normalize codec raw = Ok payload → usable_payload feature payload.
Proof.
  unfold repositoryOverrideCodecs, usable_payload; intros Hc Hn.
  destruct (String.eqb_spec feature trivyFeatureName) as [->|]; [injection Hc as <-; split_and!; [done|intros _|done]|].
  { unfold normalizeTrivyOverride, strictDecodeOverride in Hn; simpl in Hn.
    destruct (strict_trivy_override raw) as [o|] eqn:Ho; [|done]; simpl in Hn.
    apply rbind_ok in Hn as (p & Hp & Hn); apply rbind_ok in Hn as (q & Hq & [= <-]).
    eexists; split; [by eapply trivy_survives|]; split; by eapply normalized_path. }
  destruct (String.eqb_spec feature gitleaksFeatureName) as [->|]; [injection Hc as <-; split_and!; [done|done|intros _]|].
  { unfold normalizeGitleaksOverride, strictDecodeOverride in Hn; simpl in Hn.
    destruct (strict_gitleaks_override raw) as [o|] eqn:Ho; [|done]; simpl in Hn.
    apply rbind_ok in Hn as (p & Hp & [= <-]).
    eexists; split; [by eapply gitleaks_survives|by eapply normalized_path]. }
  destruct (String.eqb_spec feature signingFeatureName) as [->|]; [injection Hc as <-; split_and!; [intros _|done..]|done].
  unfold normalizeSigningOverride, strictDecodeOverride in Hn; simpl in Hn.
  destruct (strict_signing_override raw) as [o|] eqn:Ho; [|done]; simpl in Hn.
  destruct (_ <? length (so_TrustedPublicKeys o))%nat eqn:Hk; [done|].
  apply rbind_ok in Hn as (keys & Hkeys & Hn).
  destruct (_ <? length (so_TrustedIdentities o))%nat eqn:Hi; [done|].
  apply rbind_ok in Hn as ([] & Hids & Hn).
  destruct (_ && _ && _) eqn:He; [done|]; destruct (ValidUnsignedSelfRead _) eqn:Hv; [|done]; injection Hn as <-.
  eexists; split; [by eapply signing_survives|]; apply normalized_keys in Hkeys as [Hlen Hall].
  apply Nat.ltb_ge in Hk, Hi; unfold usable_signing; simpl; split_and!; [lia|done|done|by eapply checked_identities| |done].
  intros Hon; rewrite Hon in He; destruct keys, (so_TrustedIdentities o); by (left + right).
Qed.
End Normalized.

(** * The handlers *)

Lemma elem_of_overrides t f D o : o ∈ q_overrides t f D
  ↔ pd_overrides D !! (t, fo_Repository o, f) = Some (fo_Payload o, fo_UpdatedAt o) ∧ fo_Feature o = f.
Proof.
  unfold q_overrides; rewrite elem_of_sort_by, list_elem_of_omap; split.
  - intros ([[[t' n] f'] [p u]] & Hin%elem_of_map_to_list & Ho).
    destruct (String.eqb_spec t' t), (String.eqb_spec f' f); simpl in Ho; try done; subst; by injection Ho as <-.
  - destruct o as [n f' p u]; simpl; intros [Ho ->]; exists (t, n, f, (p, u)); rewrite elem_of_map_to_list.
    by rewrite !String.eqb_refl.
Qed.

Lemma find_override t n f D p u : pd_overrides D !! (t, n, f) = Some (p, u) →
  List.find (λ o, String.eqb (fo_Repository o) n) (q_overrides t f D) = Some (mkFeatureOverride n f p u).
Proof.
  intros Ho; destruct (List.find _ _) as [o|] eqn:Hf.
  - apply filter_find in Hf as [Hin Hn%String.eqb_eq]; apply elem_of_overrides in Hin as [Hin Hfo].
    destruct o as [n' f' p' u']; simpl in *; subst; rewrite Ho in Hin; by injection Hin as <- <-.
  - assert (mkFeatureOverride n f p u ∈ q_overrides t f D) as Hin by by apply elem_of_overrides.
    apply list_elem_of_In in Hin; eapply List.find_none in Hf; [|exact Hin]; simpl in Hf; by rewrite String.eqb_refl in Hf.
Qed.

Lemma known_feature_ok `{UnicodeTables, KeyCrypto, Regexps, OverrideCodec} f codec :
  known_feature f = Ok codec → repositoryOverrideCodecs f = Some codec.
Proof. unfold known_feature; destruct (repositoryOverrideCodecs f); [by intros [= <-]|done]. Qed.

Section Runs.
Context {W : Type} `{KeyCrypto, Regexps, OverrideCodec, PolicyLaws W}.
Variables (svc : RegConfig) (faulty : Prop) (R : Registry) (D : PolicyDB).
Notation t := (tenant svc).
Notation runs := (runs faulty R).

Definition r_get_override (n f : string) (D : PolicyDB) : res RepositoryFeatureOverride :=
  let? ref := parseRepository n in
  do? known_feature f in
  let? overrides := Ok (q_overrides t f D) in
  match List.find (λ o, String.eqb (fo_Repository o) (ref_Name ref)) overrides with
  | Some o => Ok o
  | None => Err (no_override (ref_Name ref) f)
  end.
Lemma get_override_observed n f : observes pol_view (GetRepositoryOverride svc n f) (λ _, r_get_override n f).
Proof. unfold GetRepositoryOverride, r_get_override; observe. Qed.

(** What setting an override does: nothing, or it stores the normalised payload. *)
Definition set_override (n f raw : string) (r : res RepositoryFeatureOverride) (D' : PolicyDB) : Prop :=
  (D' = D ∧ is_ok r = false)
  ∨ ∃ ref codec payload now, parseRepository n = Ok ref ∧ repositoryOverrideCodecs f = Some codec
      ∧ Normalize codec raw = Ok payload ∧ D' = x_override t (ref_Name ref) f payload now D
      ∧ (∀ x, r = Ok x → x = mkFeatureOverride (ref_Name ref) f payload now).
Lemma SetRepositoryOverride_runs n f raw : runs D (SetRepositoryOverride svc n f raw) (set_override n f raw).
Proof.
  unfold SetRepositoryOverride, set_override; apply bind_lift; [intros ref Href|by intros e _; left].
  apply bind_lift; [intros codec Hc|by intros e _; left]; apply known_feature_ok in Hc.
  apply bind_lift; [intros payload Hp|by intros e _; left].
  eapply bind_writes; [apply UpsertRepositoryFeatureOverride_ok| |by intros e _; left]; intros now.
  eapply runs_conseq; [apply runs_observes, get_override_observed|]; intros r D' [-> Hr]; right.
  exists ref, codec, payload, now; split_and!; [done..|]; intros x ->; destruct Hr as [Hr|[_ [e [=]]]].
  unfold r_get_override in Hr; symmetry in Hr.
  apply rbind_ok in Hr as (ref' & Href' & Hr); apply rbind_ok in Hr as (codec' & _ & Hr).
  change (ref_Name ref) with (ref_String ref) in Href'; rewrite (parse_again n ref Href) in Href'; injection Href' as <-.
  simpl in Hr; rewrite (find_override t (ref_Name ref) f _ payload now) in Hr; [by injection Hr|].
  by apply lookup_insert_eq.
Qed.

Definition clear_override (n f : string) (r : res unit) (D' : PolicyDB) : Prop :=
  (D' = D ∧ is_ok r = false)
  ∨ ∃ ref, parseRepository n = Ok ref ∧ r = Ok tt ∧ D' = (x_delete_override t (ref_Name ref) f D).2.
Lemma ClearRepositoryOverride_runs n f : runs D (ClearRepositoryOverride svc n f) (clear_override n f).
Proof.
  unfold ClearRepositoryOverride, clear_override; apply bind_lift; [intros ref Href|by intros e _; left].
  apply bind_lift; [intros codec _|by intros e _; left].
  eapply runs_conseq; [apply runs_call, DeleteRepositoryFeatureOverride_ok|].
  intros r D' [Hs|[-> [_ [e ->]]]]; [|by left]; unfold spec_delete_override in Hs.
  destruct (pd_overrides D !! _); destruct Hs as [-> ->]; [right; by exists ref|by left].
Qed.
End Runs.

(** * The invariant *)

Lemma overrides_after_set D t n f payload now t' n' f' :
  q_override t' n' f' (x_override t n f payload now D)
  = if bool_decide ((t', n', f') = (t, n, f)) then Ok payload else q_override t' n' f' D.
Proof.
  unfold q_override, x_override, set_overrides; simpl; case_bool_decide as Hk.
  - injection Hk as -> -> ->; by rewrite lookup_insert_eq.
  - by rewrite lookup_insert_ne by congruence.
Qed.
Lemma overrides_after_clear D t n f t' n' f' :
  q_override t' n' f' (x_delete_override t n f D).2
  = if bool_decide ((t', n', f') = (t, n, f)) then Err (no_override n f) else q_override t' n' f' D.
Proof.
  unfold q_override, x_delete_override, set_overrides; simpl; case_bool_decide as Hk.
  - injection Hk as -> -> ->; by rewrite lookup_delete_eq.
  - by rewrite lookup_delete_ne by congruence.
Qed.

Section Invariant.
Context {W : Type} `{KeyCrypto, Regexps, OverrideCodec, PolicyLaws W, !OverrideCodecLaws}.
Variable (svc : RegConfig).
Notation t := (tenant svc).

(** What a handler does from a given state, whatever fails. *)
Lemma runs_from {A} (m : M W A) w Q : reg_wf w → runs True (reg_view w) (pol_view w) m Q →
  reg_wf (m w).2 ∧ reg_view (m w).2 = reg_view w ∧ Q (m w).1 (pol_view (m w).2).
Proof. intros Hw Hm; by destruct (Hm w Hw (λ _, I) eq_refl eq_refl) as (? & _ & ? & ?). Qed.

(** The policy requests keep the registry and every stored override usable. *)
Definition keeps (w w' : W) : Prop :=
  reg_wf w' ∧ reg_view w' = reg_view w ∧ (overrides_usable (pol_view w) → overrides_usable (pol_view w')).

Lemma keeps_runs {A} (m : M W A) w Q : reg_wf w → runs True (reg_view w) (pol_view w) m Q →
  (∀ r D', Q r D' → overrides_usable (pol_view w) → overrides_usable D') → keeps w (m w).2.
Proof. intros Hw Hm HQ; destruct (runs_from m w Q Hw Hm) as (? & ? & ?); split_and!; eauto. Qed.
Lemma keeps_observes {A} (m : M W A) f w : observes pol_view m f → reg_wf w → keeps w (m w).2.
Proof. intros Hm Hw; destruct (Hm w Hw) as (? & _ & ? & Hp & _); split_and!; [done..|by rewrite Hp]. Qed.
Lemma keeps_update {A} w g f (s : Time → A) :
  (∀ s, pol_ok (g s) (pol_writes (f s))) → (∀ t' n ft s now D, q_override t' n ft (f s now D) = q_override t' n ft D) →
  reg_wf w → keeps w ((let! now := reg_now in do! g (s now) in sret (s now)) w).2.
Proof.
  intros Hg Hf Hw; eapply (keeps_runs _ _ (λ _ D', ∀ t' n ft, q_override t' n ft D' = q_override t' n ft (pol_view w)));
    [done| |intros r D' HQ Hu t' n ft payload Hq; rewrite HQ in Hq; by eapply Hu].
  apply bind_now; intros now; eapply bind_writes; [apply Hg| |done]; intros now'; apply runs_ret; intros; apply Hf.
Qed.

Hypothesis Hempty : ParsePKIXPublicKey "" = None.

Lemma policy_run_keeps rq w : reg_wf w → keeps w (policy_run svc rq w).
Proof.
  intros Hw; destruct rq; cbn [policy_run].
  - by eapply keeps_observes; [apply get_override_observed|].
  - unfold ListRepositoryOverrides; eapply (keeps_observes _ (λ _ D, do? known_feature feature in Ok (q_overrides t feature D)));
      [observe|done].
  - eapply keeps_runs; [done|apply SetRepositoryOverride_runs|]; unfold set_override.
    intros r D' [[-> _]|(ref & codec & payload & now & _ & Hc & Hn & -> & _)] Hu; [done|].
    intros t' n ft p; rewrite overrides_after_set; case_bool_decide as Hk; [|apply Hu].
    injection Hk as -> -> ->; intros [= <-]; by eapply normalize_usable.
  - eapply keeps_runs; [done|apply ClearRepositoryOverride_runs|]; unfold clear_override.
    intros r D' [[-> _]|(ref & _ & _ & ->)] Hu; [done|].
    intros t' n ft p; rewrite overrides_after_clear; case_bool_decide; [done|apply Hu].
  - apply (keeps_update w (UpsertScanPolicySettings t) (λ s _, x_scan_policy t s)
      (λ now, mkScanPolicy (sp_Enabled settings) (sp_SeverityThreshold settings) now)); [|done..].
    intros s; apply UpsertScanPolicySettings_ok.
  - apply (keeps_update w (UpsertSigningPolicySettings t) (λ s _, x_signing_policy t s)
      (λ now, mkSigningPolicy (sg_Enabled settings) (sg_TrustedPublicKeys settings) (sg_TrustedIdentities settings) now
         (sg_UnsignedSelfRead settings))); [|done..].
    intros s; apply UpsertSigningPolicySettings_ok.
Qed.

Lemma policy_run_all_keeps rqs w : reg_wf w → keeps w (policy_run_all svc rqs w).
Proof.
  unfold policy_run_all; revert w; induction rqs as [|rq rqs IH]; simpl; intros w Hw; [by split_and!|].
  destruct (policy_run_keeps rq w Hw) as (Hw' & Hv & Hu); destruct (IH _ Hw') as (? & Hv' & Hu').
  split_and!; [done|by rewrite Hv'|auto].
Qed.
End Invariant.

(** * Theorems *)

Section Theorems.
Context {W : Type} `{KeyCrypto, SigningCodec, Sigstore, Regexps, OverrideCodec, PolicyLaws W, !OverrideCodecLaws}.
Variable (svc : RegConfig).
Notation t := (tenant svc).

(** C10: However the administrators use the policy requests, and whatever store
    calls fail meanwhile, every stored override stays usable: it decodes, the
    files it names are absolute clean paths that no command line takes for a flag,
    and a signing override that is enabled leaves its repository with a trusted
    key that parses or an identity, so no pull is ever refused because there is
    nobody to trust. *)
Theorem stored_overrides_stay_usable w rqs (Hempty : ParsePKIXPublicKey "" = None)
    (D' := pol_view (policy_run_all svc rqs w)) :
  reg_wf w → overrides_usable (pol_view w) →
  overrides_usable D'
  ∧ ∀ n payload settings, q_override t n signingFeatureName D' = Ok payload →
      ∃ policy, r_override svc D' n settings = Ok policy
        ∧ (sg_Enabled policy = true →
           parseTrustedKeys (sg_TrustedPublicKeys policy) ≠ [] ∨ sg_TrustedIdentities policy ≠ []).
Proof.
  intros Hw Hu; destruct (policy_run_all_keeps svc Hempty rqs w Hw) as (_ & _ & Hk); specialize (Hk Hu).
  split; [exact Hk|]; intros n payload settings Hq.
  destruct (Hk _ _ _ _ Hq) as [Hs _]; destruct (Hs eq_refl) as (o & Ho & _ & _ & Hkeys & _ & Hen & _).
  unfold r_override; fold D'; rewrite Hq; simpl; unfold applySigningOverridePayload; rewrite Ho.
  eexists; split; [done|]; simpl; intros Hon; destruct (Hen Hon) as [Hne|?]; [left|by right].
  destruct Hkeys as [|pem keys [key Hp] _]; [done|]; unfold parseTrustedKeys; simpl; by rewrite Hp.
Qed.

(** A signing override holds from the moment it is set until it is cleared:
    once it is set the policy of its repository is the normalised override in
    full, whatever the global policy says, and that of every other repository is
    what it was; once it is cleared the global policy holds again. *)
Theorem override_holds_until_cleared w n raw x
    (w1 := (SetRepositoryOverride svc n signingFeatureName raw w).2)
    (w2 := (ClearRepositoryOverride svc n signingFeatureName w1).2) :
  reg_wf w → (SetRepositoryOverride svc n signingFeatureName raw w).1 = Ok x →
  ∃ repo o keys, parseRepository n = Ok repo ∧ strict_signing_override raw = inl o
    ∧ normalize_keys 0 (so_TrustedPublicKeys o) = Ok keys
    ∧ (∀ global, r_override svc (pol_view w1) (ref_Name repo) global
         = Ok (mkSigningPolicy (so_Enabled o) keys (so_TrustedIdentities o) (sg_UpdatedAt global) (so_UnsignedSelfRead o)))
    ∧ (∀ n' global, n' ≠ ref_Name repo → r_override svc (pol_view w1) n' global = r_override svc (pol_view w) n' global)
    ∧ ((ClearRepositoryOverride svc n signingFeatureName w1).1 = Ok tt →
       ∀ n' global, r_override svc (pol_view w2) n' global
         = if bool_decide (n' = ref_Name repo) then Ok global else r_override svc (pol_view w) n' global).
Proof.
  intros Hw Hx; destruct (runs_from _ _ _ Hw (SetRepositoryOverride_runs svc True (reg_view w) (pol_view w) n
    signingFeatureName raw)) as (Hw1 & _ & Hs); fold w1 in Hw1, Hs.
  rewrite Hx in Hs; destruct Hs as [[_ [=]]|(repo & codec & payload & now & Hrepo & Hc & Hn & HD & _)].
  unfold repositoryOverrideCodecs in Hc; simpl in Hc; injection Hc as <-.
  unfold normalizeSigningOverride, strictDecodeOverride in Hn; simpl in Hn.
  destruct (strict_signing_override raw) as [o|] eqn:Ho; [|done]; simpl in Hn.
  destruct (_ <? length (so_TrustedPublicKeys o))%nat; [done|].
  apply rbind_ok in Hn as (keys & Hkeys & Hn).
  destruct (_ <? length (so_TrustedIdentities o))%nat; [done|].
  apply rbind_ok in Hn as ([] & _ & Hn).
  destruct (_ && _ && _); [done|]; destruct (ValidUnsignedSelfRead _); [|done]; injection Hn as <-.
  exists repo, o, keys; split_and!; [done..| | |].
  - intros global; unfold r_override; rewrite HD, overrides_after_set, bool_decide_eq_true_2 by done; simpl.
    unfold applySigningOverridePayload; by rewrite (signing_survives raw o keys Ho Hkeys).
  - intros n' global Hne; unfold r_override; by rewrite HD, overrides_after_set, bool_decide_eq_false_2 by congruence.
  - intros Hclear n' global.
    destruct (runs_from _ _ _ Hw1 (ClearRepositoryOverride_runs svc True (reg_view w1) (pol_view w1) n
      signingFeatureName)) as (_ & _ & Hc); fold w2 in Hc.
    rewrite Hclear in Hc; destruct Hc as [[_ [=]]|(repo' & Hrepo' & _ & HD2)].
    rewrite Hrepo in Hrepo'; injection Hrepo' as <-; unfold r_override; rewrite HD2, overrides_after_clear.
    case_bool_decide as Hk; [by injection Hk as ->; rewrite bool_decide_eq_true_2|].
    rewrite bool_decide_eq_false_2 by congruence; by rewrite HD, overrides_after_set, bool_decide_eq_false_2.
Qed.
End Theorems.

(** * Witnesses *)

#[local] Transparent DigestFromBytes.

#[global] Instance example_override_laws : OverrideCodecLaws.
Proof.
  split.
  - intros raw o keys o' Ho Hk; subst o'; simpl in Ho.
    destruct (String.eqb raw "on"); [injection Ho as <-|destruct (String.eqb raw "off"); [injection Ho as <-|done]].
    + revert Hk; vm_compute; by intros [= <-].
    + by injection Hk as <-.
  - intros raw o l p l' q o' Ho Hp Hq; subst o'; simpl in Ho; destruct (String.eqb raw "{}"); [|done].
    by injection Ho as <-; injection Hp as <-; injection Hq as <-.
  - intros raw o l p o' Ho Hp; subst o'; simpl in Ho; destruct (String.eqb raw "{}"); [|done].
    by injection Ho as <-; injection Hp as <-.
Qed.

Definition override_requests : list PolicyRequest :=
  [PqSetOverride "team/app" "signing" "on"; PqSetOverride "team/app" "trivy" "{}"; PqSetOverride "team/app" "trivy" "bad";
   PqSigningPolicy demand_signatures; PqClearOverride "team/app" "trivy"].

Lemma stored_overrides_stay_usable_witness :
  q_override (tenant example_svc) "team/app" "signing"
    (pol_view (policy_run_all example_svc override_requests signed_world)) = Ok "on"
  ∧ overrides_usable (pol_view (policy_run_all example_svc override_requests signed_world)).
Proof.
  split; [vm_compute; reflexivity|].
  apply (stored_overrides_stay_usable example_svc signed_world override_requests).
  - reflexivity.
  - apply (policed_good (push_requests ++ sign_requests)).
  - intros t n f payload Hq; revert Hq; unfold signed_world; rewrite policed_eq; done.
Defined.

Lemma override_holds_until_cleared_witness :
  ∃ repo keys, parseRepository " team/app" = Ok repo
    ∧ r_override example_svc (pol_view (SetRepositoryOverride example_svc " team/app" "signing" "on" signed_world).2)
        (ref_Name repo) demand_signatures
      = Ok (mkSigningPolicy true keys [mkIdentity ".*" "https://ci.example"] 0 "pusher").
Proof.
  assert (∃ x, (SetRepositoryOverride example_svc " team/app" "signing" "on" signed_world).1 = Ok x) as [x Hx].
  { destruct (SetRepositoryOverride _ _ _ _ _).1 as [x|e] eqn:Hs; [by exists x|by revert Hs; vm_compute]. }
  destruct (override_holds_until_cleared example_svc signed_world " team/app" "on" x) as (repo & o & keys & Hr & Ho & Hk & Hp & _).
  - apply (policed_good (push_requests ++ sign_requests)).
  - exact Hx.
  - exists repo, keys; split; [exact Hr|].
    injection Ho as <-; exact (Hp demand_signatures).
Defined.
