(* ===== verification/ScanSafety.v ===== *)
(** Scans: a digest never has two active runs, whatever is queued by hand, by
    schedule or by a push; and the first scan of a digest decides its pulls. *)
From S2P Require Import Prelude GoStrings Errors Repository Digest GoNumbers Manifest Scope Auth Access.
From S2P Require Import RegPorts Registry RegService Signing RegSteps RegExample PolicyPorts PolicyStore.
From S2P Require Import PolicyLaws FullLaws PullGate Overrides Scans GateLaws PullExample PullSafety.
From S2P Require Import OverrideSafety.

#[local] Opaque DigestFromBytes.

(** * Definitions *)

(** Who a run is for. *)
Definition run_key (r : RunRow) : string * string * string :=
  (rw_Tenant r, sr_Repository (rw_Run r), sr_Digest (rw_Run r)).
(** Runs are stored under their ids, and of two active runs for one digest of a
    repository there is only one. *)
Definition runs_inv (D : PolicyDB) : Prop :=
  (∀ id r, pd_runs D !! id = Some r → sr_ID (rw_Run r) = id)
  ∧ ∀ id1 id2 r1 r2, pd_runs D !! id1 = Some r1 → pd_runs D !! id2 = Some r2 →
      is_active r1 = true → is_active r2 = true → run_key r1 = run_key r2 → id1 = id2.
(** The worker of a run still owns it: nobody has declared it dead. *)
Definition still_active (run : ScanRun) (D : PolicyDB) : Prop :=
  ∃ row, pd_runs D !! sr_ID run = Some row ∧ is_active row = true.

(** A scanner reads what it scans and changes nothing of the registry's. *)
Class ScanRunnerLaws (W : Type) `{PolicyLaws W, !ScanRunner W} := {
  scan_Run_frame target settings w : reg_wf w →
    reg_wf (scan_Run target settings w).2 ∧ reg_later w (scan_Run target settings w).2
    ∧ reg_view (scan_Run target settings w).2 = reg_view w ∧ pol_view (scan_Run target settings w).2 = pol_view w;
}.

Inductive ScanRequest :=
  | SqSettings (settings : ScanSettings)
  | SqManual (repository reference : string)
  | SqSweep
  | SqPush (repository reference digest : string)
  | SqBegin (run : ScanRun)
  | SqFinish (run : ScanRun) (settings : ScanSettings).

Section Requests.
Context {W : Type} `{UnicodeTables, ManifestCodec, KeyCrypto, Regexps, OverrideCodec, NetAddresses}.
Context `{!MetadataStore W, !RegRuntime W, !PolicyStore W, !ScanRunner W}.
Variables (svc : RegConfig) (scanHost : string).

Definition scan_serve (rq : ScanRequest) (w : W) : W :=
  match rq with
  | SqSettings s => (UpdateScanSettings svc s w).2
  | SqManual n reference => (QueueManualScan svc scanHost n reference w).2
  | SqSweep => (RunScheduledScans svc scanHost w).2
  | SqPush n reference d => (queuePushScan (tenant svc) n reference d w).2
  | SqBegin run => (begin_run (tenant svc) run w).2
  | SqFinish run settings => (finish_run scanHost (tenant svc) run settings w).2
  end.
(** A worker acts while its run is still active. *)
Definition may_happen (rq : ScanRequest) (D : PolicyDB) : Prop :=
  match rq with SqBegin run | SqFinish run _ => still_active run D | _ => True end.
End Requests.

(** Any interleaving of queueing and of the workers' steps. *)
Inductive scan_history `{PolicyLaws W, ManifestCodec, KeyCrypto, Regexps, OverrideCodec, NetAddresses, !ScanRunner W}
    (svc : RegConfig) (scanHost : string) (w : W) : W → Prop :=
  | history_start : scan_history svc scanHost w w
  | history_step w' rq : scan_history svc scanHost w w' → may_happen rq (pol_view w') →
      scan_history svc scanHost w (scan_serve svc scanHost rq w').

(** * The tables *)

Lemma newest_none l : newest l = None → l = [].
Proof. destruct l as [|r l]; [done|]; simpl; by destruct (newest l) as [r'|]; [destruct (newer r r')|]. Qed.
Lemma newest_in l r : newest l = Some r → r ∈ l.
Proof.
  induction l as [|x l IH] in r |- *; simpl; [done|]; destruct (newest l) as [r'|].
  - destruct (newer x r'); intros [= <-]; [left|right; by apply IH].
  - intros [= <-]; left.
Qed.

Lemma elem_of_runs p t n d D r : r ∈ runs_of p t n d D
  ↔ (∃ id, pd_runs D !! id = Some r) ∧ run_key r = (t, n, d) ∧ p r = true.
Proof.
  unfold runs_of, run_key; rewrite list_elem_of_filter, !andb_true_iff, !String.eqb_eq, list_elem_of_In, in_map_iff.
  setoid_rewrite <- list_elem_of_In; split.
  - intros ((((-> & ->) & ->) & Hp) & [id r'] & Heq & Hin); simpl in Heq; subst r'; split_and!; [|done|done].
    exists id; by apply elem_of_map_to_list in Hin.
  - intros ([id Hid] & [= -> -> ->] & Hp); split; [done|]; exists (id, r); split; [done|]; by apply elem_of_map_to_list.
Qed.

Lemma active_run_some t n d D run : runs_inv D → q_active_run t n d D = Ok run →
  ∃ row, pd_runs D !! sr_ID run = Some row ∧ rw_Run row = run ∧ is_active row = true ∧ run_key row = (t, n, d).
Proof.
  intros [Hkey _]; unfold q_active_run, first_run; destruct (newest _) as [row|] eqn:Hn; [|done]; intros [= <-].
  apply newest_in, elem_of_runs in Hn as ([id Hid] & Hk & Ha); exists row; split_and!; [|done..].
  by rewrite (Hkey _ _ Hid).
Qed.
Lemma active_run_none t n d D e : q_active_run t n d D = Err e →
  ∀ id row, pd_runs D !! id = Some row → run_key row = (t, n, d) → is_active row = false.
Proof.
  unfold q_active_run, first_run; destruct (newest _) as [row|] eqn:Hn; [done|]; intros _ id row Hid Hk.
  apply newest_none in Hn; destruct (is_active row) eqn:Ha; [|done].
  assert (row ∈ runs_of is_active t n d D) as Hin by (apply elem_of_runs; split_and!; [by exists id|done..]).
  rewrite Hn in Hin; by apply elem_of_nil in Hin.
Qed.

(** The row a write leaves. *)
Definition written_row (t : string) (run : ScanRun) (D : PolicyDB) : RunRow :=
  match pd_runs D !! sr_ID run with
  | Some old => mkRunRow (rw_Seq old) (rw_Tenant old) (update_run (rw_Run old) run)
  | None => mkRunRow (pd_run_seq D) t run
  end.
Lemma x_run_lookup t run D : pd_runs (x_run t run D) = <[sr_ID run := written_row t run D]> (pd_runs D).
Proof. unfold x_run, written_row; by destruct (pd_runs D !! sr_ID run). Qed.
Lemma x_run_detail_runs t run d D : pd_runs (x_run_detail t run d D) = pd_runs (x_run t run D).
Proof.
  unfold x_run_detail, x_freshness.
  assert (∀ id fs db, pd_runs (foldl (λ db f, x_finding id f db) db fs) = pd_runs db) as Hf
    by (intros id fs; induction fs as [|f fs IH]; intros db; simpl; [done|by rewrite IH]).
  destruct (hasDBFreshness _); simpl; by rewrite Hf.
Qed.

Definition active_status (s : string) : bool := String.eqb s ScanRunStatusQueued || String.eqb s ScanRunStatusRunning.

(** A write that adds an active run where there is none, or updates the active
    run, or ends a run, keeps the invariant. *)
Lemma runs_inv_write t run D D' : runs_inv D → pd_runs D' = pd_runs (x_run t run D) →
  (still_active run D
   ∨ pd_runs D !! sr_ID run = None
     ∧ ∀ id row, pd_runs D !! id = Some row → run_key row = (t, sr_Repository run, sr_Digest run) → is_active row = false) →
  runs_inv D'.
Proof.
  intros [Hkey Hone] HD Hok; rewrite x_run_lookup in HD; unfold runs_inv; rewrite HD.
  assert (∀ id row, pd_runs D !! id = Some row → is_active row = true → run_key row = run_key (written_row t run D) →
    id = sr_ID run) as Hw.
  { intros id row Hid Ha Hk; destruct Hok as [(old & Hold & Hact)|[Hnone Hno]].
    - unfold written_row in Hk; rewrite Hold in Hk; by apply (Hone id (sr_ID run) row old).
    - unfold written_row in Hk; rewrite Hnone in Hk; by rewrite (Hno id row Hid Hk) in Ha. }
  split.
  - intros id r [[<- <-]|[_ Hid]]%lookup_insert_Some; [|by apply Hkey].
    unfold written_row; destruct (pd_runs D !! sr_ID run) as [old|] eqn:Hold; simpl; [by apply Hkey|done].
  - intros id1 id2 r1 r2 [[<- <-]|[Hn1 H1]]%lookup_insert_Some [[<- <-]|[Hn2 H2]]%lookup_insert_Some A1 A2 Hk; [done|..].
    + symmetry; by apply (Hw id2 r2).
    + by apply (Hw id1 r1).
    + by apply (Hone id1 id2 r1 r2).
Qed.

(** * Handlers *)

Section Handlers.
Context {W : Type} `{ManifestCodec, KeyCrypto, Regexps, OverrideCodec, NetAddresses, PolicyLaws W, !ScanRunner W, !ScanRunnerLaws W}.
Variables (svc : RegConfig) (scanHost : string).
Notation t := (tenant svc).

(** What is queued: the active run within its timeout, or a new one; the run it
    replaces has outlived the timeout and failed. *)
Definition queue_result (t n reference d trigger : string) (timeout : Duration) (D : PolicyDB) (r : res (ScanRun * bool))
    (D' : PolicyDB) : Prop :=
  match r with
  | Ok (run, true) =>
      D' = D ∧ q_active_run t n d D = Ok run ∧ ∃ now, scanRunAge now (sr_StartedAt run) (sr_CreatedAt run) <= timeout
  | Ok (run, false) =>
      pd_runs D !! sr_ID run = None ∧ ∃ now now' D1, run = queued_run (sr_ID run) n reference d trigger now
        ∧ D' = x_run t (dated_run now' run) D1
        ∧ ((∃ e, q_active_run t n d D = Err e) ∧ D1 = D
           ∨ ∃ old at_ finished now1, q_active_run t n d D = Ok old
               ∧ timeout < scanRunAge at_ (sr_StartedAt old) (sr_CreatedAt old)
               ∧ D1 = x_run t (dated_run now1 (failed_run old finished staleScanRunError)) D)
  | Err _ => True
  end.

Section Queue.
Variables (faulty : Prop) (R : Registry).
Notation runs := (runs faulty R).

(** Inserting the new run. *)
Lemma queue_new_runs D0 D t n reference d trigger timeout :
  runs_inv D → (∀ id, pd_runs D !! id = None → pd_runs D0 !! id = None) →
  (∀ id row, pd_runs D !! id = Some row → run_key row = (t, n, d) → is_active row = false) →
  ((∃ e, q_active_run t n d D0 = Err e) ∧ D = D0
   ∨ ∃ old at_ finished now1, q_active_run t n d D0 = Ok old ∧ timeout < scanRunAge at_ (sr_StartedAt old) (sr_CreatedAt old)
       ∧ D = x_run t (dated_run now1 (failed_run old finished staleScanRunError)) D0) →
  runs D (let! now := reg_now in
          let! id := reg_uuid in
          do! UpsertScanRun t (queued_run id n reference d trigger now) in
          sret (queued_run id n reference d trigger now, false))
    (λ r D', runs_inv D' ∧ queue_result t n reference d trigger timeout D0 r D').
Proof.
  intros Hinv Hsub Hno Hold; apply bind_now; intros now; apply bind_uuid; [|done]; intros id Hid.
  eapply bind_writes; [apply UpsertScanRun_ok| |done]; intros now'; apply runs_ret; split.
  - eapply (runs_inv_write t (dated_run now' (queued_run id n reference d trigger now)) D); [done..|].
    by right.
  - simpl; split; [by apply Hsub|]; by exists now, now', D.
Qed.

Lemma dedup_runs D t n reference d trigger timeout : runs_inv D →
  runs D (dedupAndQueueScanRun t n reference d trigger timeout)
    (λ r D', runs_inv D' ∧ queue_result t n reference d trigger timeout D r D').
Proof.
  intros Hinv; unfold dedupAndQueueScanRun; eapply attempt_observes; [apply GetActiveScanRunByDigest_ok| |].
  2: { intros e _; simpl; by apply runs_throw. }
  destruct (q_active_run t n d D) as [old|e] eqn:Hq.
  - apply bind_now; intros now.
    destruct (scanRunAge now (sr_StartedAt old) (sr_CreatedAt old) <=? timeout) eqn:Hage.
    + apply runs_ret; apply Z.leb_le in Hage; split; [done|]; simpl; split_and!; [done..|by exists now].
    + apply Z.leb_gt in Hage; apply bind_now; intros finished.
      eapply bind_writes; [apply UpsertScanRun_ok| |done]; intros now1.
      destruct (active_run_some t n d D old Hinv Hq) as (row & Hrow & <- & Ha & Hk).
      set (failed := dated_run now1 (failed_run (rw_Run row) finished staleScanRunError)).
      assert (runs_inv (x_run t failed D)) as Hinv' by (eapply runs_inv_write; [done..|left; by exists row]).
      eapply queue_new_runs; [done| | |right; by exists (rw_Run row), now, finished, now1].
      * intros id; rewrite x_run_lookup; by intros [? _]%lookup_insert_None.
      * intros id row'; rewrite x_run_lookup; intros [[<- <-]|[Hne Hid]]%lookup_insert_Some Hk'.
        { unfold written_row; change (sr_ID failed) with (sr_ID (rw_Run row)); by rewrite Hrow. }
        destruct (is_active row') eqn:Ha'; [|done]; destruct Hne; destruct Hinv as [_ Hone].
        symmetry; apply (Hone _ _ _ _ Hid Hrow Ha' Ha); by rewrite Hk, Hk'.
  - assert (reg_is_code e CodeNotFound = true) as ->.
    { unfold q_active_run, first_run in Hq; destruct (newest _); [done|]; by injection Hq as <-. }
    apply queue_new_runs; [done..| |left; split; [by exists e|done]].
    by eapply active_run_none.
Qed.

(** The retried write happens at most once. *)
Lemma persist_runs D attempts (m : M W unit) f : pol_ok m (pol_writes f) →
  runs D (persist_loop attempts m) (λ r D', r = Ok tt
    ∧ ((∃ now, D' = f now D) ∨ D' = D ∧ (faulty ∨ attempts = 0%nat))).
Proof.
  intros Hm; revert D; induction attempts as [|attempts IH]; intros D; cbn [persist_loop].
  { apply runs_ret; split; [done|]; right; split; [done|by right]. }
  eapply runs_attempt; [by apply runs_call|]; intros r D' [[-> [now ->]]|[-> [Hf [e ->]]]].
  - apply runs_ret; split; [done|]; left; by exists now.
  - destruct (isTransientScanRunPersistenceError _).
    + eapply runs_conseq; [apply IH|]; intros r D' [-> [?|[-> _]]]; split; try done; [by left|right; split; [done|by left]].
    + apply runs_ret; split; [done|]; right; split; [done|by left].
Qed.
End Queue.

(** ** The invariant, handler by handler *)

Notation safe := (stays runs_inv).
Lemma safe_dedup t n reference d trigger timeout : safe (dedupAndQueueScanRun t n reference d trigger timeout).
Proof. intros R D HD; eapply runs_conseq; [by apply dedup_runs|]; by intros r D' [? _]. Qed.
Lemma safe_settings t f s : safe (UpsertScanSettings t f s).
Proof. by eapply stays_writes; [apply UpsertScanSettings_ok|]. Qed.
Lemma safe_override t n f s : safe (applyRepositoryOverride t n f s).
Proof.
  unfold applyRepositoryOverride, resolveRepositoryOverride; apply stays_attempt;
    [eapply stays_observes, GetRepositoryFeatureOverride_ok|]; intros [raw|e].
  - destruct (repositoryOverrideCodecs f ≫= Apply); [apply stays_lift|apply stays_ret].
  - destruct (reg_is_code e CodeNotFound); [apply stays_ret|apply stays_throw].
Qed.
End Handlers.

Notation safe := (stays runs_inv).
#[local] Hint Resolve safe_dedup safe_settings safe_override : observe.

Section Histories.
Context {W : Type} `{ManifestCodec, KeyCrypto, Regexps, OverrideCodec, NetAddresses, PolicyLaws W, !ScanRunner W, !ScanRunnerLaws W}.
Variables (svc : RegConfig) (scanHost : string).
Notation t := (tenant svc).

Lemma safe_queue_reference n reference trigger settings : safe (queue_reference svc scanHost n reference trigger settings).
Proof. unfold queue_reference; stays. Qed.
#[local] Hint Resolve safe_queue_reference : observe.
Lemma safe_resolve : safe (resolveManagedScanSettings svc).
Proof. unfold resolveManagedScanSettings, GetScanSettings; stays. Qed.
#[local] Hint Resolve safe_resolve : observe.
Lemma safe_manual n reference : safe (QueueManualScan svc scanHost n reference).
Proof. unfold QueueManualScan; stays. Qed.
Lemma safe_scheduled n reference settings : safe (queueScheduledScan svc scanHost n reference settings).
Proof. unfold queueScheduledScan; stays. Qed.
#[local] Hint Resolve safe_scheduled : observe.
Lemma safe_schedule_all settings l : safe (schedule_all svc scanHost settings l).
Proof. induction l as [|r l IH]; cbn [schedule_all]; stays. Qed.
#[local] Hint Resolve safe_schedule_all : observe.
Lemma safe_sweep : safe (RunScheduledScans svc scanHost).
Proof. unfold RunScheduledScans; stays. Qed.
Lemma safe_push n reference d : safe (queuePushScan t n reference d).
Proof. unfold queuePushScan, resolveManagedScanSettingsForTenant; stays. Qed.
Lemma safe_update settings : safe (UpdateScanSettings svc settings).
Proof. unfold UpdateScanSettings, normalizeScanSettings; stays. Qed.

(** A worker's step while its run is active. *)
Lemma persist_safe R D run : runs_inv D → still_active run D →
  runs True R D (persistAsyncScanRun t run) (λ _ D', runs_inv D').
Proof.
  intros HD Ha; eapply runs_conseq; [apply persist_runs, UpsertScanRun_ok|].
  intros r D' [_ [[now ->]|[-> _]]]; [|done]; eapply runs_inv_write; [done..|by left].
Qed.
Lemma begin_safe R D run : runs_inv D → still_active run D → runs True R D (begin_run t run) (λ _ D', runs_inv D').
Proof.
  intros HD Ha; unfold begin_run; apply bind_now; intros now.
  eapply runs_bind; [by apply persist_safe|intros [] D' ?; by apply runs_ret|done].
Qed.
Lemma runner_runs faulty R D target settings : runs faulty R D (scan_Run target settings) (λ _ D', D' = D).
Proof. intros w Hw Hf HR HD; subst; by destruct (scan_Run_frame target settings w Hw) as (? & ? & ? & ?). Qed.
Lemma finish_safe R D run settings : runs_inv D → still_active run D →
  runs True R D (finish_run scanHost t run settings) (λ _ D', runs_inv D').
Proof.
  intros HD Ha; unfold finish_run; destruct (scanTarget _ _ _ _) as [target|e].
  - eapply runs_attempt; [apply runner_runs|]; intros r D' ->; apply bind_now; intros finished.
    destruct r as [result|e]; [|by apply persist_safe].
    eapply runs_conseq; [apply persist_runs, UpsertScanRunDetail_ok|].
    intros r D' [_ [[now ->]|[-> _]]]; [|done].
    eapply runs_inv_write; [done|apply x_run_detail_runs|by left].
  - apply bind_now; intros finished; by apply persist_safe.
Qed.

Lemma serve_safe w rq : reg_wf w → runs_inv (pol_view w) → may_happen rq (pol_view w) →
  reg_wf (scan_serve svc scanHost rq w) ∧ runs_inv (pol_view (scan_serve svc scanHost rq w)).
Proof.
  intros Hw HD Hm; assert (∀ A (m : M W A), runs True (reg_view w) (pol_view w) m (λ _ D', runs_inv D') →
    reg_wf (m w).2 ∧ runs_inv (pol_view (m w).2)) as Hrun
    by (intros A m Hm'; by destruct (runs_from m w _ Hw Hm') as (? & _ & ?)).
  destruct rq; cbn [scan_serve may_happen] in *; apply Hrun.
  - by apply safe_update.
  - by apply safe_manual.
  - by apply safe_sweep.
  - by apply safe_push.
  - by apply begin_safe.
  - by apply finish_safe.
Qed.

Lemma history_safe w w' : reg_wf w → runs_inv (pol_view w) → scan_history svc scanHost w w' →
  reg_wf w' ∧ runs_inv (pol_view w').
Proof. intros Hw HD; induction 1 as [|w' rq _ [Hw' HD'] Hm]; [by split|by apply serve_safe]. Qed.
End Histories.

(** ** The first scan of a digest *)

(** One run of the digest is its latest. *)
Lemma latest_unique t n d D id row : pd_runs D !! id = Some row → run_key row = (t, n, d) →
  (∀ id' row', pd_runs D !! id' = Some row' → run_key row' = (t, n, d) → id' = id) →
  q_latest_run t n d D = Ok (rw_Run row).
Proof.
  intros Hid Hk Huniq; unfold q_latest_run, first_run; destruct (newest _) as [r|] eqn:Hn.
  - apply newest_in, elem_of_runs in Hn as ([id' Hid'] & Hk' & _); rewrite (Huniq _ _ Hid' Hk') in Hid'.
    by rewrite Hid in Hid'; injection Hid' as ->.
  - apply newest_none in Hn; assert (row ∈ runs_of (λ _, true) t n d D) as Hin
      by (apply elem_of_runs; split_and!; [by exists id|done..]).
    rewrite Hn in Hin; by apply elem_of_nil in Hin.
Qed.

(** The digest has exactly the run [run], in the status given. *)
Definition only_run (t n d : string) (run : ScanRun) (P : ScanRun → Prop) (D : PolicyDB) : Prop :=
  (∃ row, pd_runs D !! sr_ID run = Some row ∧ run_key row = (t, n, d) ∧ P (rw_Run row))
  ∧ ∀ id' row', pd_runs D !! id' = Some row' → run_key row' = (t, n, d) → id' = sr_ID run.

Lemma only_run_update t n d run run' (P : ScanRun → Prop) D D' : only_run t n d run P D →
  pd_runs D' = pd_runs (x_run t run' D) → sr_ID run' = sr_ID run →
  only_run t n d run (λ r, ∃ old, P old ∧ r = update_run old run') D'.
Proof.
  intros [(row & Hrow & Hk & HP) Huniq] HD Hid; rewrite x_run_lookup, Hid in HD; unfold written_row in HD.
  rewrite Hid, Hrow in HD; unfold only_run; rewrite HD; split.
  - eexists; rewrite lookup_insert_eq; split_and!; [done|done|simpl; by exists (rw_Run row)].
  - intros id' row' [[<- <-]|[_ ?]]%lookup_insert_Some; [done|by apply Huniq].
Qed.
Lemma only_run_latest t n d run P D : only_run t n d run P D → ∃ r, q_latest_run t n d D = Ok r ∧ P r.
Proof. intros [(row & Hrow & Hk & HP) Huniq]; exists (rw_Run row); split; [by eapply latest_unique|done]. Qed.

Section Calm.
Context {W : Type} `{ManifestCodec, KeyCrypto, Regexps, OverrideCodec, NetAddresses, PolicyLaws W, !ScanRunner W, !ScanRunnerLaws W}.
Variables (svc : RegConfig) (scanHost : string).
Notation t := (tenant svc).

(** The policy settings stay what they are while runs are written. *)
Definition same_policy (D D' : PolicyDB) : Prop := pd_scan_policy D' = pd_scan_policy D.
Lemma x_run_policy run D : same_policy D (x_run t run D).
Proof. unfold same_policy, x_run; by destruct (pd_runs D !! sr_ID run). Qed.
Lemma x_run_detail_policy run d D : same_policy D (x_run_detail t run d D).
Proof.
  unfold same_policy, x_run_detail, x_freshness.
  assert (∀ id fs db, pd_scan_policy (foldl (λ db f, x_finding id f db) db fs) = pd_scan_policy db) as Hf
    by (intros id fs; induction fs as [|f fs IH]; intros db; simpl; [done|by rewrite IH]).
  destruct (hasDBFreshness _); simpl; rewrite Hf; simpl; apply x_run_policy.
Qed.

(** What the gate says of a digest whose only run is given. *)
Definition verdict_of (settings : ScanPolicySettings) (n d : string) (run : ScanRun) : res unit :=
  if scanPolicyViolated settings run then Err (blocked_by "vulnerability policy" n d []) else Ok tt.
Lemma gate_says w D n d run P settings : reg_wf w → reg_calm w → same_policy D (pol_view w) →
  r_scan_policy svc D = Ok settings → only_run t n d run P (pol_view w) →
  ∃ r, P r ∧ (enforceScanPolicy svc n d w).1 = verdict_of settings n d r.
Proof.
  intros Hw Hc Hsame Hset Honly; destruct (only_run_latest _ _ _ _ _ _ Honly) as (r & Hr & HP); exists r; split; [done|].
  rewrite (observes_calm _ _ _ _ (enforceScanPolicy_observed svc n d) Hw Hc); unfold r_enforce_scan.
  assert (r_scan_policy svc (pol_view w) = Ok settings) as -> by (rewrite <- Hset; unfold r_scan_policy, q_scan_policy; by rewrite Hsame).
  simpl; by rewrite Hr.
Qed.

Lemma runs_calmly {A} (m : M W A) w Q : reg_wf w → reg_calm w → runs False (reg_view w) (pol_view w) m Q →
  reg_wf (m w).2 ∧ reg_calm (m w).2 ∧ Q (m w).1 (pol_view (m w).2).
Proof.
  intros Hw Hc Hm; destruct (Hm w Hw) as (? & Hl & _ & ?); [by intros []|done..|].
  split_and!; [done|by eapply reg_calm_later|done].
Qed.

Lemma dedup_first R D n reference d trigger timeout : runs_inv D →
  (∀ id row, pd_runs D !! id = Some row → run_key row ≠ (t, n, d)) →
  runs False R D (dedupAndQueueScanRun t n reference d trigger timeout) (λ r D', ∃ run, r = Ok (run, false)
    ∧ sr_Repository run = n ∧ sr_Digest run = d ∧ same_policy D D'
    ∧ only_run t n d run (λ r, sr_Status r = ScanRunStatusQueued) D').
Proof.
  intros HD Hno; unfold dedupAndQueueScanRun; eapply attempt_observes; [apply GetActiveScanRunByDigest_ok| |done].
  assert (∃ e, q_active_run t n d D = Err e ∧ reg_is_code e CodeNotFound = true) as (e & -> & ->).
  { unfold q_active_run, first_run; destruct (newest _) as [row|] eqn:Hn; [|by eexists].
    apply newest_in, elem_of_runs in Hn as ([id Hid] & Hk & _); by destruct (Hno id row). }
  apply bind_now; intros now; apply bind_uuid; [|done]; intros id Hid.
  eapply bind_writes; [apply UpsertScanRun_ok| |done]; intros now'; apply runs_ret; eexists; split_and!; [done..|apply x_run_policy|].
  unfold only_run; rewrite x_run_lookup; unfold written_row; simpl; rewrite Hid; split.
  - eexists; rewrite lookup_insert_eq; by split_and!.
  - intros id' row' [[<- <-]|[_ Hin]]%lookup_insert_Some Hk; [done|by destruct (Hno _ _ Hin)].
Qed.

Lemma execute_first R D n d run settings target result (P : ScanRun → Prop) :
  only_run t n d run P D → scanTarget scanHost settings (sr_Repository run) (sr_Digest run) = Ok target →
  (∀ w, (scan_Run target settings w).1 = Ok result) →
  runs False R D (executeScanRun scanHost true t run settings) (λ _ D', same_policy D D' ∧
    only_run t n d run (λ r, sr_Status r = ScanRunStatusCompleted ∧ sr_Critical r = sc_Critical result
                             ∧ sr_High r = sc_High result) D').
Proof.
  intros Honly Htarget Hscan; unfold executeScanRun, begin_run; cbn [negb].
  apply (runs_bind _ _ _ _ _ (λ r D', ∃ now now', r = Ok (running_run run now)
    ∧ D' = x_run t (dated_run now' (running_run run now)) D)).
  { apply bind_now; intros now; eapply runs_bind; [apply persist_runs, UpsertScanRun_ok|..].
    - intros [] D' [_ [[now' ->]|[_ [[]|[=]]]]]; apply runs_ret; by exists now, now'.
    - by intros e D' [[=] _]. }
  2: { by intros e D' (now & now' & [=] & _). }
  intros run1 D' (now & now' & [= ->] & ->); unfold finish_run.
  change (sr_Repository (running_run run now)) with (sr_Repository run).
  change (sr_Digest (running_run run now)) with (sr_Digest run); rewrite Htarget.
  assert (only_run t n d run (λ r, ∃ old, P old ∧ r = update_run old (dated_run now' (running_run run now)))
    (x_run t (dated_run now' (running_run run now)) D)) as Honly1 by (by eapply only_run_update).
  match goal with |- runs _ _ _ _ ?Q => apply (runs_bind _ _ _ _ _ (λ _ D', Q (Ok None) D')) end;
    [|by intros; apply runs_ret|done].
  apply (runs_attempt _ _ _ _ _ (λ r D', r = Ok result ∧ D' = x_run t (dated_run now' (running_run run now)) D)).
  { intros w Hw Hf HR HD; subst; destruct (scan_Run_frame target settings w Hw) as (? & ? & ? & ?); split_and!; auto; congruence. }
  intros r D' [-> ->]; apply bind_now; intros finished.
  eapply runs_conseq; [apply persist_runs, UpsertScanRunDetail_ok|].
  intros r D' [_ [[now1 ->]|[_ [[]|[=]]]]]; split.
  - etransitivity; [apply x_run_detail_policy|apply x_run_policy].
  - eapply (only_run_update _ _ _ run (dated_run now1 (completed_run (running_run run now) finished result))) in Honly1;
      [|apply x_run_detail_runs|done].
    destruct Honly1 as [(row & Hrow & Hk & old & _ & Heq) Huniq].
    split; [|exact Huniq]; exists row; split_and!; [done..| | |]; by rewrite Heq.
Qed.
End Calm.

(** * Theorems *)

Section Theorems.
Context {W : Type} `{ManifestCodec, KeyCrypto, Regexps, OverrideCodec, NetAddresses, PolicyLaws W, !ScanRunner W, !ScanRunnerLaws W}.
Variables (svc : RegConfig) (scanHost : string).
Notation t := (tenant svc).

(** C11: However scans are queued by hand, by schedule and by pushes, and their
    workers' steps interleave with that, and whatever fails meanwhile, a digest of
    a repository never has two active runs, as long as no worker acts on a run
    that was declared dead. And who queues a scan gets the active run if there is
    one younger than the timeout, and otherwise a new one that becomes the only
    active run. *)
Theorem scans_are_deduplicated w w' n reference d trigger timeout run existed
    (w2 := (dedupAndQueueScanRun t n reference d trigger timeout w').2) :
  reg_wf w → runs_inv (pol_view w) → scan_history svc scanHost w w' →
  (dedupAndQueueScanRun t n reference d trigger timeout w').1 = Ok (run, existed) →
  runs_inv (pol_view w') ∧ runs_inv (pol_view w2)
  ∧ (∀ id row, pd_runs (pol_view w2) !! id = Some row → run_key row = (t, n, d) → is_active row = true → id = sr_ID run)
  ∧ if existed
    then pol_view w2 = pol_view w' ∧ q_active_run t n d (pol_view w') = Ok run
         ∧ ∃ now, scanRunAge now (sr_StartedAt run) (sr_CreatedAt run) <= timeout
    else pd_runs (pol_view w') !! sr_ID run = None ∧ sr_Status run = ScanRunStatusQueued.
Proof.
  intros Hw HD Hh Hr; destruct (history_safe svc scanHost w w' Hw HD Hh) as [Hw' HD'].
  destruct (runs_from _ w' _ Hw' (dedup_runs True (reg_view w') (pol_view w') t n reference d trigger timeout HD'))
    as (_ & _ & HD2 & Hq); fold w2 in HD2, Hq; rewrite Hr in Hq; split_and!; [done..| |].
  - intros id row Hid Hk Ha; destruct HD2 as [_ Hone]; destruct existed.
    + destruct Hq as (HD0 & Hact & _); destruct (active_run_some _ _ _ _ _ HD' Hact) as (row' & Hrow' & _ & Ha' & Hk').
      rewrite <- HD0 in Hrow'; apply (Hone _ _ _ _ Hid Hrow' Ha Ha'); congruence.
    + destruct Hq as (Hnew & now & now' & D1 & Hrun & HD2 & HD1).
      assert (pd_runs D1 !! sr_ID run = None) as Hnone.
      { destruct HD1 as [[_ ->]|(old & at_ & fin & now1 & Hact & _ & ->)]; [done|].
        rewrite x_run_lookup; apply lookup_insert_None; split; [done|].
        destruct (active_run_some _ _ _ _ _ HD' Hact) as (row' & Hrow' & Hold & _); simpl.
        intros Heq; congruence. }
      assert (pd_runs (pol_view w2) !! sr_ID run = Some (mkRunRow (pd_run_seq D1) t (dated_run now' run))) as Hrow.
      { rewrite HD2, x_run_lookup; simpl; rewrite lookup_insert_eq; unfold written_row; simpl; by rewrite Hnone. }
      apply (Hone _ _ _ _ Hid Hrow Ha); rewrite Hrun; [done|]; by rewrite Hk.
  - destruct existed; [by destruct Hq as (? & ? & ?)|].
    destruct Hq as (Hnew & now & now' & D1 & Hrun & _); split; [done|by rewrite Hrun].
Qed.

(** The first scan of a digest decides its pulls: while it is queued the
    vulnerability gate lets the digest through, and once its worker has run the
    gate refuses it exactly if the policy is on and the scanner counted a finding
    at or above its threshold. *)
Theorem first_scan_decides w n reference d trigger timeout settings policy target result
    (w1 := (dedupAndQueueScanRun t n reference d trigger timeout w).2) :
  reg_wf w → reg_calm w → runs_inv (pol_view w) →
  (∀ id row, pd_runs (pol_view w) !! id = Some row → run_key row ≠ (t, n, d)) →
  r_scan_policy svc (pol_view w) = Ok policy →
  scanTarget scanHost settings n d = Ok target → (∀ w, (scan_Run target settings w).1 = Ok result) →
  ∃ run, (dedupAndQueueScanRun t n reference d trigger timeout w).1 = Ok (run, false)
    ∧ (enforceScanPolicy svc n d w1).1 = Ok tt
    ∧ (enforceScanPolicy svc n d (executeScanRun scanHost true t run settings w1).2).1
      = if sp_Enabled policy && ((0 <? sc_Critical result)
             || String.eqb (sp_SeverityThreshold policy) ScanPolicyThresholdCriticalHigh && (0 <? sc_High result))
        then Err (blocked_by "vulnerability policy" n d []) else Ok tt.
Proof.
  intros Hw Hc HD Hno Hpol Htarget Hscan.
  destruct (runs_calmly _ w _ Hw Hc (dedup_first svc (reg_view w) (pol_view w) n reference d trigger timeout HD Hno))
    as (Hw1 & Hc1 & run & Hrun & Hn & Hd & Hsame & Honly); fold w1 in Hw1, Hc1, Hsame, Honly.
  exists run; split; [done|]; rewrite <- Hn, <- Hd in Htarget.
  destruct (runs_calmly _ w1 _ Hw1 Hc1 (execute_first svc scanHost (reg_view w1) (pol_view w1) n d run settings target result _
    Honly Htarget Hscan)) as (Hw2 & Hc2 & Hsame2 & Honly2); split.
  - destruct (gate_says svc w1 (pol_view w) n d run _ policy Hw1 Hc1 Hsame Hpol Honly) as (r & Hq & ->).
    unfold verdict_of, scanPolicyViolated; rewrite Hq; by rewrite orb_true_r.
  - destruct (gate_says svc _ (pol_view w) n d run _ policy Hw2 Hc2 (eq_trans Hsame2 Hsame) Hpol Honly2)
      as (r & (Hs & Hcr & Hh) & ->).
    unfold verdict_of, scanPolicyViolated; rewrite Hs, Hcr, Hh; simpl; rewrite orb_false_r.
    destruct (sp_Enabled policy); simpl; [|done]; destruct (String.eqb (sp_SeverityThreshold policy) _); simpl; [done|].
    by rewrite orb_false_r.
Qed.
End Theorems.

(** * Witnesses *)

#[local] Transparent DigestFromBytes.

#[global] Instance example_runner_laws : ScanRunnerLaws FullWorld.
Proof. split; intros target settings w Hw; by split_and!. Qed.

Lemma no_runs_policed rqs : pd_runs (pol_view (policed rqs)) = ∅.
Proof. by rewrite policed_eq. Qed.
Lemma no_runs_inv rqs : runs_inv (pol_view (policed rqs)).
Proof. split; rewrite no_runs_policed; intros *; by rewrite lookup_empty. Qed.

(** The scan of a push, and a scan by hand of the same digest right after. *)
Definition queue_scan (trigger : string) (timeout : Duration) : M FullWorld (ScanRun * bool) :=
  dedupAndQueueScanRun (tenant example_svc) "team/app" "v1" payload_digest trigger timeout.
Definition first_queued : res (ScanRun * bool) * FullWorld := queue_scan ScanTriggerPush (1000 * hour) signed_world.

Lemma scans_are_deduplicated_witness :
  ∃ run, (queue_scan ScanTriggerPush hour (scan_serve example_svc "" (SqPush "team/app" "v1" payload_digest) signed_world)).1
           = Ok (run, false)
    ∧ sr_Status run = ScanRunStatusQueued.
Proof.
  destruct (queue_scan ScanTriggerPush hour (scan_serve example_svc "" (SqPush "team/app" "v1" payload_digest) signed_world)).1
    as [[run existed]|e] eqn:Hq; [|by revert Hq; vm_compute].
  assert (existed = false) as -> by (revert Hq; vm_compute; by intros [= <-]).
  exists run; split; [reflexivity|].
  apply (scans_are_deduplicated example_svc "" signed_world
    (scan_serve example_svc "" (SqPush "team/app" "v1" payload_digest) signed_world) "team/app" "v1" payload_digest
    ScanTriggerPush hour run false).
  - apply (policed_good (push_requests ++ sign_requests)).
  - apply no_runs_inv.
  - apply history_step; [apply history_start|exact I].
  - exact Hq.
Defined.

Lemma first_scan_decides_witness :
  ∃ run, first_queued.1 = Ok (run, false)
    ∧ is_ok (enforceScanPolicy example_svc "team/app" payload_digest
               (executeScanRun "" true (tenant example_svc) run example_settings first_queued.2).2).1 = false.
Proof.
  destruct (first_scan_decides example_svc "" signed_world "team/app" "v1" payload_digest ScanTriggerPush (1000 * hour)
    example_settings (mkScanPolicy true ScanPolicyThresholdCritical zero_time)
    (String.append "registry.example/team/app@" payload_digest) critical_result) as (run & Hrun & _ & Hgate).
  - apply (policed_good (push_requests ++ sign_requests)).
  - apply policed_calm.
  - apply no_runs_inv.
  - intros id row; unfold signed_world; rewrite no_runs_policed; by rewrite lookup_empty.
  - unfold signed_world; rewrite policed_eq; reflexivity.
  - vm_compute; reflexivity.
  - reflexivity.
  - exists run; split; [exact Hrun|]; unfold first_queued, queue_scan; rewrite Hgate; reflexivity.
Defined.

(** A run that outlived its timeout while its worker waited at the gate is declared
    dead and replaced; then the worker gets in and the dead run runs again: two
    active runs of one digest. *)
Definition orphan_world : FullWorld :=
  let '(r, w) := queue_scan ScanTriggerPush 1 signed_world in
  match r with
  | Ok (run, _) => (begin_run (tenant example_svc) run (queue_scan ScanTriggerManual 1 w).2).2
  | Err _ => w
  end.
Lemma orphan_comes_back :
  length (runs_of is_active (tenant example_svc) "team/app" payload_digest (pol_view orphan_world)) = 2%nat.
Proof. vm_compute; reflexivity. Qed.
