(* ===== verification/Scheduler.v ===== *)
(** The periodic scans (internal/app/scanning/scheduler.go): one of several
    processes holds a lease and runs them. *)
From Stdlib Require Import Sorting.Sorted.
From S2P Require Import Prelude GoStrings Errors Repository Digest GoNumbers Manifest Scope Auth Access.
From S2P Require Import RegPorts Registry RegService Signing RegSteps RegExample PolicyPorts PolicyStore.
From S2P Require Import PolicyLaws FullLaws PullGate Overrides Scans PullExample OverrideSafety ScanSafety.

(** * Definitions *)

Record Scheduler := mkScheduler {
  sd_tenant : string;
  sd_owner : string;
  sd_interval : Duration;
  sd_leaseTTL : Duration;
}.
Definition NewScheduler (tenant owner : string) (interval leaseTTL : Duration) : Scheduler :=
  mkScheduler tenant owner (if interval <=? 0 then second else interval) (if leaseTTL <=? 0 then 5 * second else leaseTTL).

Definition nextInterval (s : Scheduler) (configured : Duration) : Duration :=
  if 0 <? configured then configured else if 0 <? sd_interval s then sd_interval s else second.

Section Ticks.
Context {W : Type} `{UnicodeTables, ManifestCodec, KeyCrypto, Regexps, OverrideCodec, NetAddresses}.
Context `{!MetadataStore W, !RegRuntime W, !PolicyStore W, !LeaseStore W}.
Variables (svc : RegConfig) (scanHost : string).
Notation worker := (ScanRun * ScanSettings)%type (only parsing).

(** The lease for a turn at [now]: [true] if the scheduler has it. *)
Definition take_lease (s : Scheduler) (now : Time) : M W bool :=
  let! acquired := TryAcquireScanSchedulerLease (sd_tenant s) (sd_owner s) now (sd_leaseTTL s) in
  if negb acquired.1 then sret false else
  do! HeartbeatScanScheduler (sd_tenant s) (sd_owner s) now (sd_leaseTTL s) in
  sret true.

(** The pause until the next tick, and the workers this one started. *)
Definition tick (s : Scheduler) : M W (Duration * list worker) :=
  let! settings := sattempt (GetScanSettings svc) in
  match settings with
  | Err _ => sret (sd_interval s, [])
  | Ok settings =>
      let interval := nextInterval s (ss_Interval settings) in
      if negb (ss_Enabled settings) || negb (ss_ScheduleEnabled settings) then sret (interval, []) else
      let! now := reg_now in
      let! mine := take_lease s now in
      if negb mine then sret (interval, []) else
      let! started := RunScheduledScans svc scanHost in
      sret (interval, started)
  end.

(** [Run] until the context is done after [ticks] turns, or an error ends it. *)
Fixpoint Run (ticks : nat) (s : Scheduler) : M W (list worker) :=
  match ticks with
  | O => sret []
  | S ticks' =>
      let! turn := tick s in
      let! rest := Run ticks' s in
      sret (turn.2 ++ rest)
  end.

(** Turns of several schedulers, one after the other: who had the lease, and when. *)
Fixpoint lease_turns (turns : list (Scheduler * Time)) (w : W) : list (Scheduler * Time) :=
  match turns with
  | [] => []
  | (s, now) :: turns' =>
      let '(r, w') := take_lease s now w in
      match r with Ok true => (s, now) :: lease_turns turns' w' | _ => lease_turns turns' w' end
  end.
End Ticks.

(** * The lease *)

Section Lease.
Context {W : Type} `{LeaseLaws W}.

(** A turn that does not get the lease leaves the row alone; one that does found
    it free, its own or expired. *)
Definition lease_outcome (s : Scheduler) (now : Time) (D : PolicyDB) (r : res bool) (D' : PolicyDB) : Prop :=
  (pd_scheduler D' = pd_scheduler D ∧ r ≠ Ok true)
  ∨ (∀ row, pd_scheduler D !! sd_tenant s = Some row →
       sh_OwnerID row = "" ∨ sh_OwnerID row = sd_owner s ∨ sh_LeaseExpiresAt row <= now)
    ∧ ∃ row', pd_scheduler D' = <[sd_tenant s := row']> (pd_scheduler D)
        ∧ sh_OwnerID row' = sd_owner s ∧ sh_LeaseExpiresAt row' = now + sd_leaseTTL s.

Lemma acquired_outcome t owner now ttl D : (f_acquire t owner now ttl D).1.1 = true →
  (∀ row, pd_scheduler D !! t = Some row → sh_OwnerID row = "" ∨ sh_OwnerID row = owner ∨ sh_LeaseExpiresAt row <= now)
  ∧ ∃ row', (f_acquire t owner now ttl D).2 = x_scheduler t row' D
      ∧ sh_OwnerID row' = owner ∧ sh_LeaseExpiresAt row' = now + ttl.
Proof.
  unfold f_acquire; destruct (pd_scheduler D !! t) as [row|]; [|intros _; split; [done|by eexists]].
  destruct (_ && _ && _) eqn:Hg; [done|]; intros _; split; [|by eexists].
  intros row' [= <-]; rewrite !andb_false_iff, !negb_false_iff, !String.eqb_eq, Z.ltb_ge in Hg; tauto.
Qed.

Lemma take_lease_runs R D s now :
  runs True R D (take_lease (W := W) s now) (lease_outcome s now D).
Proof.
  unfold take_lease, lease_outcome; eapply runs_bind; [apply runs_call, TryAcquire_ok|..].
  - intros [[|] row] D' [[[= Hacq] ->]|[_ [_ [e [=]]]]]; simpl.
    + destruct (acquired_outcome (sd_tenant s) (sd_owner s) now (sd_leaseTTL s) D) as (Hfree & row' & -> & Ho & He);
        [by rewrite <- Hacq|].
      eapply runs_bind; [apply runs_call, Heartbeat_ok|..].
      * intros [] D' [Hs|[_ [_ [e [=]]]]]; apply runs_ret; right; split; [done|].
        unfold spec_heartbeat in Hs; simpl in Hs; rewrite lookup_insert_eq in Hs; destruct Hs as [_ ->]; simpl.
        rewrite insert_insert_eq; eexists; by split_and!.
      * intros e D' [Hs|[-> _]]; right; (split; [done|]); [|by exists row'].
        unfold spec_heartbeat in Hs; simpl in Hs; rewrite lookup_insert_eq in Hs; by destruct Hs as [[=] _].
    + apply runs_ret; left; split; [|done].
      unfold f_acquire in *; destruct (pd_scheduler D !! sd_tenant s); [|done]; by destruct (_ && _ && _).
  - intros e D' [[[=] _]|[-> _]]; by left.
Qed.

(** Until [since + ttl] the lease of [owner] keeps the others out. *)
Definition guarded_from (t owner : string) (since ttl : Z) (turns : list (Scheduler * Time)) (D : PolicyDB) : Prop :=
  (∃ row, pd_scheduler D !! t = Some row ∧ sh_OwnerID row = owner ∧ since + ttl <= sh_LeaseExpiresAt row)
  ∨ Forall (λ turn, since + ttl <= turn.2) turns.
Definition in_order (x y : Scheduler * Time) : Prop := x.2 <= y.2.
(** Schedulers of one tenant with one lease time, each with a name. *)
Definition of_tenant (t : string) (ttl : Duration) (turns : list (Scheduler * Time)) : Prop :=
  Forall (λ turn, sd_tenant turn.1 = t ∧ sd_leaseTTL turn.1 = ttl ∧ sd_owner turn.1 ≠ "") turns.

Lemma guarded_turn t owner since ttl s now turns D r D' : owner ≠ "" →
  sd_tenant s = t → sd_leaseTTL s = ttl → since <= now → Forall (in_order (s, now)) turns →
  lease_outcome s now D r D' → guarded_from t owner since ttl ((s, now) :: turns) D →
  guarded_from t owner since ttl turns D' ∧ (r = Ok true → sd_owner s = owner ∨ since + ttl <= now).
Proof.
  intros Howner <- <- Hnow Hhd Ho Hg.
  destruct Hg as [(row & Hrow & Hown & HT)|Hlate]; [|inversion Hlate; subst; split; by right].
  destruct Ho as [[Hsame Hr]|[Hfree (row' & Hrow' & Ho' & He')]].
  - split; [left; exists row; by rewrite Hsame|by intros ->].
  - destruct (Hfree row Hrow) as [He|[He|He]]; [congruence|..].
    + split; [|left; congruence]; left; exists row'; rewrite Hrow', lookup_insert_eq; split_and!; [done|congruence|lia].
    + split; [|right; lia]; right; eapply Forall_impl; [exact Hhd|]; unfold in_order; simpl; intros; lia.
Qed.

Lemma guarded_turns t owner since ttl turns w : reg_wf w → owner ≠ "" → StronglySorted in_order turns →
  of_tenant t ttl turns → Forall (λ turn, since <= turn.2) turns →
  guarded_from t owner since ttl turns (pol_view w) →
  Forall (λ turn, sd_owner turn.1 = owner ∨ since + ttl <= turn.2) (lease_turns turns w).
Proof.
  intros Hw Howner Hsort; revert w Hw; induction Hsort as [|[s now] turns Hsort IH Hhd]; intros w Hw Hall Hsince Hg;
    cbn [lease_turns]; [constructor|].
  inversion Hall as [|? ? (Ht & Httl & _) Hall']; inversion Hsince as [|? ? Hnow Hsince']; subst; simpl in *.
  destruct (runs_from _ w _ Hw (take_lease_runs (reg_view w) (pol_view w) s now)) as (Hw' & _ & Ho).
  destruct (take_lease s now w) as [r w']; simpl in *.
  destruct (guarded_turn _ owner since _ s now turns _ r _ Howner eq_refl eq_refl Hnow Hhd Ho Hg) as [Hg' Hr].
  specialize (IH w' Hw' Hall' Hsince' Hg'); destruct r as [[|]|e]; [|exact IH..]; constructor; [by apply Hr|done].
Qed.

(** Who gets the lease holds it from then on. *)
Lemma held_turns t ttl turns w : reg_wf w → StronglySorted in_order turns → of_tenant t ttl turns →
  StronglySorted (λ x y, sd_owner y.1 = sd_owner x.1 ∨ x.2 + ttl <= y.2) (lease_turns turns w).
Proof.
  intros Hw Hsort; revert w Hw; induction Hsort as [|[s now] turns Hsort IH Hhd]; intros w Hw Hall;
    cbn [lease_turns]; [constructor|].
  inversion Hall as [|? ? (Ht & Httl & Hne) Hall']; subst; simpl in *.
  destruct (runs_from _ w _ Hw (take_lease_runs (reg_view w) (pol_view w) s now)) as (Hw' & _ & Ho).
  destruct (take_lease s now w) as [r w']; simpl in *.
  destruct r as [[|]|e]; [|by apply IH..]; apply SSorted_cons; [by apply IH|].
  eapply Forall_impl; [apply (guarded_turns (sd_tenant s) (sd_owner s) now (sd_leaseTTL s) turns w')|by intros].
  - done.
  - done.
  - done.
  - done.
  - eapply Forall_impl; [exact Hhd|done].
  - left; destruct Ho as [[_ Hr]|[_ (row & Hrow & Ho & He)]]; [done|]; exists row.
    rewrite Hrow, lookup_insert_eq; split_and!; [done..|lia].
Qed.
End Lease.

Lemma sorted_lookup {A} (R : relation A) l i j x y : StronglySorted R l → (i < j)%nat →
  l !! i = Some x → l !! j = Some y → R x y.
Proof.
  intros Hs Hij Hi Hj; rewrite <- (take_drop j l) in Hs; eapply StronglySorted_app_1_elem_of; [exact Hs|..].
  - apply list_elem_of_lookup; exists i; rewrite lookup_take; case_decide; [done|lia].
  - apply list_elem_of_lookup; exists 0%nat; by rewrite lookup_drop, Nat.add_0_r.
Qed.

(** * Theorems *)

Section Theorems.
Context {W : Type} `{LeaseLaws W}.

(** C31: Two schedulers never hold the lease at the same time: when the turns of
    any number of processes follow one another in time, whatever calls fail, and
    one of them got the lease, no other gets it before it has expired. *)
Theorem lease_is_exclusive w t ttl turns i j s1 now1 s2 now2 :
  reg_wf w → StronglySorted in_order turns → of_tenant t ttl turns →
  (i < j)%nat → lease_turns turns w !! i = Some (s1, now1) → lease_turns turns w !! j = Some (s2, now2) →
  sd_owner s1 = sd_owner s2 ∨ now1 + ttl <= now2.
Proof.
  intros Hw Hsort Hall Hij Hi Hj; pose proof (held_turns t ttl turns w Hw Hsort Hall) as Hs.
  destruct (sorted_lookup _ _ _ _ _ _ Hs Hij Hi Hj) as [Ho|?]; [by left|by right].
Qed.
End Theorems.

Definition first_scheduler : Scheduler := NewScheduler (tenant example_svc) "host-a" 0 0.
Definition second_scheduler : Scheduler := NewScheduler (tenant example_svc) "host-b" 0 0.
Definition example_turns : list (Scheduler * Time) :=
  [(first_scheduler, 0); (second_scheduler, second); (first_scheduler, 2 * second); (second_scheduler, 8 * second)].

Lemma lease_is_exclusive_witness :
  lease_turns example_turns signed_world
    = [(first_scheduler, 0); (first_scheduler, 2 * second); (second_scheduler, 8 * second)]
  ∧ 2 * second + 5 * second <= 8 * second.
Proof.
  assert (lease_turns example_turns signed_world
    = [(first_scheduler, 0); (first_scheduler, 2 * second); (second_scheduler, 8 * second)]) as Hl by (vm_compute; reflexivity).
  split; [exact Hl|].
  destruct (lease_is_exclusive signed_world (tenant example_svc) (5 * second) example_turns 1 2 first_scheduler (2 * second)
    second_scheduler (8 * second)) as [Heq|Hle].
  - apply (policed_good (push_requests ++ sign_requests)).
  - repeat first [apply SSorted_nil|apply SSorted_cons|apply Forall_nil_2|apply Forall_cons_2|(vm_compute; discriminate)].
  - repeat first [apply Forall_nil_2|apply Forall_cons_2|(split_and!; [reflexivity|reflexivity|discriminate])].
  - lia.
  - rewrite Hl; reflexivity.
  - rewrite Hl; reflexivity.
  - discriminate.
  - exact Hle.
Defined.

(** The two halves of an acquisition are separate statements: if two processes
    read before either writes, both get the lease. *)
Definition both_read : bool * bool :=
  let '(r, w) := sattempt (sql_GetScanSchedulerState (tenant example_svc)) signed_world in
  match r with
  | Ok current =>
      let '(a, w) := acquire_from (tenant example_svc) "host-a" 0 (5 * second) current w in
      let '(b, w) := acquire_from (tenant example_svc) "host-b" 0 (5 * second) current w in
      (match a with Ok x => x.1 | Err _ => false end, match b with Ok x => x.1 | Err _ => false end)
  | Err _ => (false, false)
  end.
Lemma unsynchronised_acquires_both_win : both_read = (true, true).
Proof. vm_compute; reflexivity. Qed.
