(* ===== verification/Console.v ===== *)
(** What the console asks the registry: the update channel
    (internal/app/regixtry/service_update_channel.go), the listings of scans
    (service_scanning.go), the verdict on a digest's secrets and the details of a
    repository's tags (queries.go), and how many manifests a key has signed
    (service_signing_key_usage.go). *)
From S2P Require Import Prelude GoStrings Encodings Errors Repository Digest GoNumbers Manifest Scope Auth.
From S2P Require Import Access RegPorts RegService Signing PolicyPorts PolicyStore PullGate Overrides.

(** * Definitions *)

(** ** What the answers hold *)

Definition SecretScanStatusUnscanned : string := "unscanned".
Definition SecretScanStatusInProgress : string := "in_progress".
Definition SecretScanStatusFailed : string := "failed".
Definition SecretScanStatusClean : string := "clean".
Definition SecretScanStatusFindingsPresent : string := "findings_present".

Record SecretScanStatusScan := mkSecretStatusScan {
  sc_Status : string;
  sc_FindingCount : Z;
  sc_FinishedAt : option Time;
}.
Record SecretScanStatusResult := mkSecretStatus {
  sx_Repository : string;
  sx_Reference : string;
  sx_Digest : string;
  sx_State : string;
  sx_Enabled : bool;
  sx_Scan : option SecretScanStatusScan;
}.
Record TagDetails := mkTagDetails {
  td_Name : string;
  td_CreatedAt : Time;
  td_SignatureState : string;
  td_SigningEnabled : bool;
  td_PushedBy : string;
}.

(** The verdict a secret scan's run stands for; a run in no known status has none. *)
Definition secret_state (run : SecretScanRun) : string :=
  if String.eqb (sn_Status run) SecretScanRunStatusQueued || String.eqb (sn_Status run) SecretScanRunStatusRunning
  then SecretScanStatusInProgress
  else if String.eqb (sn_Status run) SecretScanRunStatusFailed then SecretScanStatusFailed
  else if String.eqb (sn_Status run) SecretScanRunStatusCompleted
  then if 0 <? sn_FindingCount run then SecretScanStatusFindingsPresent else SecretScanStatusClean
  else "".

(** How many of a repository's runs the queries look at. *)
Definition secret_run_limit : Z := 50.

(** The settings of a registry that has no row for gitleaks. *)
Definition no_settings : ScanSettings :=
  mkScanSettings false false 0 0 "" "" "" "" false "" "" "" "" 0 zero_time "" "" "".

Definition maxKeyUsageScanTags : nat := 500.

(** A detail with a reference freshness and a stated database freshness. *)
Definition stated_detail (d : ScanRunDetail) (reference : string) : ScanRunDetail :=
  let f := dt_DBFreshness d in
  mkRunDetail (dt_Run d) (dt_Findings d)
    (if String.eqb (trim_space (fs_FreshnessState f)) ""
     then mkFreshness (fs_ReportSchemaVersion f) (fs_ReportCreatedAt f) (fs_TrivyVersion f) (fs_DBVersion f)
            (fs_DBUpdatedAt f) (fs_DBDownloadedAt f) (fs_DBNextUpdateAt f) ScanRunDBFreshnessStateUnknown
     else f) reference.

Section Console.
Context {W : Type} `{UnicodeTables, ManifestCodec, KeyCrypto, SigningCodec, Sigstore, Regexps, OverrideCodec}.
Context `{!BlobStore W, !MetadataStore W, !RegRuntime W, !PolicyStore W, !ConsoleStore W}.
Variables (svc : RegConfig) (ctx : option Principal).
Notation tenant := (tenant svc).

(** ** The update channel *)

Definition GetUpdateChannel : M W string :=
  let! settings := sattempt (meta_GetUpdateChannel tenant) in
  match settings with
  | Ok settings => sret (uc_Channel settings)
  | Err e => if reg_is_code e CodeNotFound then sret UpdateChannelStable else sthrow e
  end.
Definition SetUpdateChannel (channel : string) : M W string :=
  let! now := reg_now in
  do! meta_UpsertUpdateChannel tenant (mkUpdateChannel channel now) in
  sret channel.

(** ** Scans *)

Definition ListScanRuns (repository : string) (limit : Z) : M W (list ScanRun) :=
  meta_ListScanRuns tenant (trim_space repository) limit.
Definition ListLatestScanRunPerRepository (limit : Z) : M W (list RepositoryScanSummary) :=
  meta_ListLatestScanRunPerRepository tenant limit.

(** Whether the reference a scan was asked for still names what was scanned. *)
Definition referenceFreshness (run : ScanRun) : M W string :=
  if String.eqb (trim_space (sr_RequestedRef run)) "" then sret ScanReferenceFreshnessUnknown else
  match parseRepository (sr_Repository run) with
  | Err _ => sret ScanReferenceFreshnessUnknown
  | Ok repository =>
      let! manifest := sattempt (meta_ResolveManifest tenant repository (sr_RequestedRef run)) in
      sret match manifest with
           | Err e => if reg_is_code e CodeNotFound then ScanReferenceFreshnessMissing else ScanReferenceFreshnessUnknown
           | Ok m => if String.eqb (mf_Digest m) (trim_space (sr_Digest run)) then ScanReferenceFreshnessCurrent
                     else ScanReferenceFreshnessMoved
           end
  end.
Definition GetScanRunDetail (runID : string) : M W ScanRunDetail :=
  let! detail := meta_GetScanRunDetail tenant (trim_space runID) in
  let! reference := referenceFreshness (dt_Run detail) in
  sret (stated_detail detail reference).

(** ** Secret scans *)

Definition run_of_digest (digest : string) (runs : list SecretScanRun) : option SecretScanRun :=
  List.find (λ run, String.eqb (sn_Digest run) digest) runs.

Definition GetSecretScanFindings (repository digest : string) : M W SecretScanRunDetail :=
  let repository := trim_space repository in
  let digest := trim_space digest in
  let! runs := ListSecretScanRuns tenant repository secret_run_limit in
  match run_of_digest digest runs with
  | Some run => GetSecretScanRunDetail tenant (sn_ID run)
  | None => sthrow (NewNotFoundError "secret scan run" (String.append repository (String "@" digest)))
  end.

Definition SecretScanStatus (repositoryName reference : string) : M W SecretScanStatusResult :=
  let! repository := slift (parseRepository repositoryName) in
  do! slift (authorize svc ctx (mkAction ActionPull (ref_String repository) None)) in
  let! manifest := meta_ResolveManifest tenant repository reference in
  let digest := mf_Digest manifest in
  let! settings := sattempt (meta_GetScanSettings tenant gitleaksFeatureName) in
  let! settings := match settings with
                   | Ok settings => sret settings
                   | Err e => if reg_is_code e CodeNotFound then sret no_settings else sthrow e
                   end in
  let! settings := applyRepositoryOverride tenant (ref_String repository) gitleaksFeatureName settings in
  let! runs := ListSecretScanRuns tenant (ref_String repository) secret_run_limit in
  let result state scan :=
    mkSecretStatus (ref_String repository) reference digest state (ss_Enabled settings) scan in
  match run_of_digest digest runs with
  | Some run => sret (result (secret_state run)
                        (Some (mkSecretStatusScan (sn_Status run) (sn_FindingCount run) (sn_FinishedAt run))))
  | None => sret (result SecretScanStatusUnscanned None)
  end.

(** ** Tags *)

(** [usernames]: the optional resolver of user ids. *)
Variable usernames : option (string → M W string).

Definition resolvePushedByUsername (userID : string) : M W string :=
  if String.eqb userID "" then sret "" else
  match usernames with None => sret "" | Some ResolveUsername => ResolveUsername userID end.
Fixpoint tag_details (repository : RepositoryRef) (tags : list TagSummary) : M W (list TagDetails) :=
  match tags with
  | [] => sret []
  | tag :: tags' =>
      if isCosignSignatureArtifactTag (ts_Name tag) then tag_details repository tags' else
      let! status := SignatureStatus svc ctx (ref_String repository) (ts_Name tag) in
      let! pushedBy := resolvePushedByUsername (ts_PushedBy tag) in
      let! details := tag_details repository tags' in
      sret (mkTagDetails (ts_Name tag) (ts_CreatedAt tag) (sgs_State status) (sgs_Policy status).1.1 pushedBy :: details)
  end.
Definition Service_TagDetails (repositoryName : string) (limit : Z) (after : string) : M W (list TagDetails) :=
  let! repository := slift (parseRepository repositoryName) in
  do! slift (authorize svc ctx (mkAction ActionInspect (ref_String repository) None)) in
  let! tags := ListTagsWithCreatedAt tenant repository limit after in
  tag_details repository tags.

(** ** What a key has signed *)

Section KeyUsage.
Variable key : PublicKey.

(** An entry whose payload is missing or does not verify is passed over, an entry
    that cannot be read ends the search. *)
Fixpoint entries_match (digest : string) (entries : list SignatureEntry) : M W bool :=
  match entries with
  | [] => sret false
  | entry :: entries' =>
      let! payload := openSignaturePayload (se_PayloadDigest entry) in
      match payload with
      | None => entries_match digest entries'
      | Some p =>
          if is_ok (Verify key p (se_Signature entry)) && is_ok (CheckClaims p digest) then sret true
          else entries_match digest entries'
      end
  end.

(** One bundle of one referrer of the digest. *)
Definition bundle_match (digest bundlePayload : string) : bool :=
  match ParseBundleDocument bundlePayload with
  | Err _ => false
  | Ok bundle =>
      match base64_DecodeString (ds_Payload bundle) with
      | None => false
      | Some payload =>
          existsb (λ s, is_ok (Verify key (PAE (ds_PayloadType bundle) payload) s)
                        && is_ok (CheckBundleClaims payload digest)) (ds_Signatures bundle)
      end
  end.
Fixpoint index_match (repositoryRef : RepositoryRef) (digest : string) (entries : list bundleIndexEntry) : M W bool :=
  match entries with
  | [] => sret false
  | entry :: entries' =>
      let! referrer := sattempt (meta_ResolveManifest tenant repositoryRef (bi_Digest entry)) in
      match referrer with
      | Err e => if reg_is_code e CodeNotFound then index_match repositoryRef digest entries' else sthrow e
      | Ok m =>
          match ParseBundleReferrerManifest (mf_Payload m) with
          | Err _ => index_match repositoryRef digest entries'
          | Ok (subjectDigest, layerDigest) =>
              if negb (String.eqb subjectDigest digest) || String.eqb layerDigest ""
              then index_match repositoryRef digest entries' else
              let! bundlePayload := openSignaturePayload layerDigest in
              match bundlePayload with
              | None => index_match repositoryRef digest entries'
              | Some p => if bundle_match digest p then sret true else index_match repositoryRef digest entries'
              end
          end
      end
  end.
Definition keyUsageMatchesBundle (repositoryRef : RepositoryRef) (digest : string) : M W bool :=
  match BundleIndexTag digest with
  | Err _ => sret false
  | Ok indexTag =>
      let! index := sattempt (meta_ResolveManifest tenant repositoryRef indexTag) in
      match index with
      | Err e => if reg_is_code e CodeNotFound then sret false else sthrow e
      | Ok m =>
          match ParseBundleIndex (mf_Payload m) with
          | Err _ => sret false
          | Ok entries => index_match repositoryRef digest entries
          end
      end
  end.
Definition keyUsageMatches (repositoryRef : RepositoryRef) (digest : string) : M W bool :=
  match SignatureTag digest with
  | Err _ => sret false
  | Ok tag =>
      let! sigManifest := sattempt (meta_ResolveManifest tenant repositoryRef tag) in
      match sigManifest with
      | Err e => if reg_is_code e CodeNotFound then keyUsageMatchesBundle repositoryRef digest else sthrow e
      | Ok m =>
          match ParseSignatureManifest (mf_Payload m) with
          | Err _ | Ok [] => sret false
          | Ok entries => entries_match digest entries
          end
      end
  end.

(** Whether a tag's digest verifies; what cannot be read does not count. *)
Definition tag_matches (repositoryRef : RepositoryRef) (tag : string) : M W bool :=
  let! manifest := sattempt (meta_ResolveManifest tenant repositoryRef tag) in
  match manifest with
  | Err _ => sret false
  | Ok m =>
      let! matched := sattempt (keyUsageMatches repositoryRef (mf_Digest m)) in
      sret match matched with Ok b => b | Err _ => false end
  end.

(** The state of the scan: how many tags were looked at and how many matched;
    the last component says that it stopped at the cap. *)
Fixpoint scan_tags (scanCap : nat) (repositoryRef : RepositoryRef) (tags : list TagSummary) (scanned : nat) (count : Z)
    : M W (nat * Z * bool) :=
  match tags with
  | [] => sret (scanned, count, false)
  | tag :: tags' =>
      if isCosignSignatureArtifactTag (ts_Name tag) then scan_tags scanCap repositoryRef tags' scanned count else
      if (scanCap <=? scanned)%nat then sret (scanned, count, true) else
      let! matched := tag_matches repositoryRef (ts_Name tag) in
      scan_tags scanCap repositoryRef tags' (S scanned) (if matched then count + 1 else count)
  end.
Fixpoint scan_repositories (scanCap : nat) (repositories : list RepositoryRef) (scanned : nat) (count : Z)
    : M W (Z * bool) :=
  match repositories with
  | [] => sret (count, false)
  | ref :: repositories' =>
      let! tags := ListTagsWithCreatedAt tenant ref 0 "" in
      let! scan := scan_tags scanCap ref tags scanned count in
      let '(scanned', count', capped) := scan in
      if capped : bool then sret (count', true) else scan_repositories scanCap repositories' scanned' count'
  end.
End KeyUsage.

Definition keyUsageScanRepositories (repository : string) : M W (list RepositoryRef) :=
  let trimmed := trim_space repository in
  if String.eqb trimmed "" then meta_Catalog tenant 0 "" else
  let! ref := slift (parseRepository trimmed) in
  sret [ref].
Definition countManifestsSignedByKey (repository : string) (key : PublicKey) (scanCap : nat) : M W (Z * bool) :=
  let! repositories := keyUsageScanRepositories repository in
  scan_repositories key scanCap repositories O 0.
Definition CountManifestsSignedByKey (repository keyPEM : string) : M W (Z * bool) :=
  match ParseTrustedKey keyPEM with
  | Err e => sthrow (if is_panic e then e else NewValidationError (String.append "key is not a usable trusted key: " (error_string e)))
  | Ok key => countManifestsSignedByKey repository key maxKeyUsageScanTags
  end.
End Console.
