(* ===== verification/ConsoleQueries.v ===== *)
(** The console's questions as functions of the registry and the policy tables:
    every handler of Console.v observes its function below. *)
From S2P Require Import Prelude GoStrings Encodings Errors Repository Digest GoNumbers Manifest Scope Auth.
From S2P Require Import Access RegPorts Registry RegService Signing RegSteps PolicyPorts PolicyStore.
From S2P Require Import PolicyLaws FullLaws PullGate Overrides GateLaws Console.

#[local] Opaque DigestFromBytes.

(** * The questions on the two states *)

Section Functions.
Context `{UnicodeTables, ManifestCodec, KeyCrypto, SigningCodec, Sigstore, Regexps, OverrideCodec}.
Variables (svc : RegConfig) (ctx : option Principal) (R : Registry) (D : PolicyDB).
Notation t := (tenant svc).

Definition r_update_channel : res string :=
  let? settings := rattempt (q_update_channel t D) in
  match settings with
  | Ok settings => Ok (uc_Channel settings)
  | Err e => if reg_is_code e CodeNotFound then Ok UpdateChannelStable else Err e
  end.
Definition r_findings (repository digest : string) : res SecretScanRunDetail :=
  let repository := trim_space repository in
  let digest := trim_space digest in
  let? runs := Ok (f_secret_runs t repository secret_run_limit D) in
  match run_of_digest digest runs with
  | Some run => f_secret_detail t (sn_ID run) D
  | None => Err (NewNotFoundError "secret scan run" (String.append repository (String "@" digest)))
  end.
(** A feature's settings as a repository's override has them. *)
Definition r_feature_override (repository feature : string) (settings : ScanSettings) : res ScanSettings :=
  let? raw := rattempt (q_override t repository feature D) in
  match raw with
  | Err e => if reg_is_code e CodeNotFound then Ok settings else Err e
  | Ok raw => match repositoryOverrideCodecs feature ≫= Apply with
              | None => Ok settings
              | Some apply => apply raw settings
              end
  end.
Definition r_secret_status (repositoryName reference : string) : res SecretScanStatusResult :=
  let? repository := parseRepository repositoryName in
  do? authorize svc ctx (mkAction ActionPull (ref_String repository) None) in
  let? manifest := r_resolve t repository reference R in
  let? settings := rattempt (q_scan_settings t gitleaksFeatureName D) in
  let? settings := match settings with
                   | Ok settings => Ok settings
                   | Err e => if reg_is_code e CodeNotFound then Ok no_settings else Err e
                   end in
  let? settings := r_feature_override (ref_String repository) gitleaksFeatureName settings in
  let? runs := Ok (f_secret_runs t (ref_String repository) secret_run_limit D) in
  let result state scan :=
    mkSecretStatus (ref_String repository) reference (mf_Digest manifest) state (ss_Enabled settings) scan in
  match run_of_digest (mf_Digest manifest) runs with
  | Some run => Ok (result (secret_state run)
                      (Some (mkSecretStatusScan (sn_Status run) (sn_FindingCount run) (sn_FinishedAt run))))
  | None => Ok (result SecretScanStatusUnscanned None)
  end.

(** ** What a key has signed *)

Variable key : PublicKey.

Fixpoint r_entries_match (digest : string) (entries : list SignatureEntry) : res bool :=
  match entries with
  | [] => Ok false
  | entry :: entries' =>
      let? payload := r_payload R (se_PayloadDigest entry) in
      match payload with
      | None => r_entries_match digest entries'
      | Some p =>
          if is_ok (Verify key p (se_Signature entry)) && is_ok (CheckClaims p digest) then Ok true
          else r_entries_match digest entries'
      end
  end.
Fixpoint r_index_match (repo : RepositoryRef) (digest : string) (entries : list bundleIndexEntry) : res bool :=
  match entries with
  | [] => Ok false
  | entry :: entries' =>
      let? referrer := rattempt (r_resolve t repo (bi_Digest entry) R) in
      match referrer with
      | Err e => if reg_is_code e CodeNotFound then r_index_match repo digest entries' else Err e
      | Ok m =>
          match ParseBundleReferrerManifest (mf_Payload m) with
          | Err _ => r_index_match repo digest entries'
          | Ok (subjectDigest, layerDigest) =>
              if negb (String.eqb subjectDigest digest) || String.eqb layerDigest ""
              then r_index_match repo digest entries' else
              let? bundlePayload := r_payload R layerDigest in
              match bundlePayload with
              | None => r_index_match repo digest entries'
              | Some p => if bundle_match key digest p then Ok true else r_index_match repo digest entries'
              end
          end
      end
  end.
Definition r_bundle_matches (repo : RepositoryRef) (digest : string) : res bool :=
  match BundleIndexTag digest with
  | Err _ => Ok false
  | Ok indexTag =>
      let? index := rattempt (r_resolve t repo indexTag R) in
      match index with
      | Err e => if reg_is_code e CodeNotFound then Ok false else Err e
      | Ok m =>
          match ParseBundleIndex (mf_Payload m) with
          | Err _ => Ok false
          | Ok entries => r_index_match repo digest entries
          end
      end
  end.
Definition r_key_matches (repo : RepositoryRef) (digest : string) : res bool :=
  match SignatureTag digest with
  | Err _ => Ok false
  | Ok tag =>
      let? sigManifest := rattempt (r_resolve t repo tag R) in
      match sigManifest with
      | Err e => if reg_is_code e CodeNotFound then r_bundle_matches repo digest else Err e
      | Ok m =>
          match ParseSignatureManifest (mf_Payload m) with
          | Err _ | Ok [] => Ok false
          | Ok entries => r_entries_match digest entries
          end
      end
  end.
End Functions.

(** * The handlers observe them *)

Section Observed.
Context {W : Type} `{ManifestCodec, KeyCrypto, SigningCodec, Sigstore, Regexps, OverrideCodec, ConsoleLaws W}.
Variables (svc : RegConfig) (ctx : option Principal).
Notation observes := (observes pol_view).

Lemma GetUpdateChannel_observed : observes (GetUpdateChannel svc) (λ _ D, r_update_channel svc D).
Proof. unfold GetUpdateChannel, r_update_channel; observe. Qed.
Lemma GetSecretScanFindings_observed n d :
  observes (GetSecretScanFindings svc n d) (λ _ D, r_findings svc D n d).
Proof. unfold GetSecretScanFindings, r_findings; observe. Qed.
Lemma applyRepositoryOverride_observed n f s :
  observes (applyRepositoryOverride (tenant svc) n f s) (λ _ D, r_feature_override svc D n f s).
Proof. unfold applyRepositoryOverride, resolveRepositoryOverride, r_feature_override; observe. Qed.
#[local] Hint Resolve applyRepositoryOverride_observed : observe.
Lemma SecretScanStatus_observed n x :
  observes (SecretScanStatus svc ctx n x) (λ R D, r_secret_status svc ctx R D n x).
Proof. unfold SecretScanStatus, r_secret_status; observe. Qed.

Variable key : PublicKey.
#[local] Hint Resolve openSignaturePayload_observed : observe.
Lemma entries_match_observed d entries : observes (entries_match key d entries) (λ R _, r_entries_match R key d entries).
Proof. induction entries as [|e entries IH]; cbn [entries_match r_entries_match]; observe. Qed.
Lemma index_match_observed repo d entries :
  observes (index_match svc key repo d entries) (λ R _, r_index_match svc R key repo d entries).
Proof. induction entries as [|e entries IH]; cbn [index_match r_index_match]; observe. Qed.
#[local] Hint Resolve entries_match_observed index_match_observed : observe.
Lemma keyUsageMatchesBundle_observed repo d :
  observes (keyUsageMatchesBundle svc key repo d) (λ R _, r_bundle_matches svc R key repo d).
Proof. unfold keyUsageMatchesBundle, r_bundle_matches; observe. Qed.
#[local] Hint Resolve keyUsageMatchesBundle_observed : observe.
Lemma keyUsageMatches_observed repo d : observes (keyUsageMatches svc key repo d) (λ R _, r_key_matches svc R key repo d).
Proof. unfold keyUsageMatches, r_key_matches; observe. Qed.
End Observed.
