(* ===== verification/Features.v ===== *)
(** The built-in features (internal/app/regixtry/feature_registry.go,
    feature_runtime.go): what the registry shows of each, how one is configured,
    switched on and off, and the life of the binary behind it. *)
From S2P Require Import Prelude GoStrings Errors Repository Digest GoNumbers Manifest Scope Auth Access.
From S2P Require Import RegPorts RegService Signing PolicyPorts PolicyStore PullGate Overrides Scans.

(** * Definitions *)

Definition in_quotes (s : string) : string := String dquote (String.append s (String dquote "")).

Record featureDescriptor := mkDescriptorOf { fd_name : string; fd_kind : string; fd_managedRuntime : bool }.
Definition builtInFeatures : list featureDescriptor :=
  [mkDescriptorOf trivyFeatureName FeatureKindBuiltin true;
   mkDescriptorOf gitleaksFeatureName FeatureKindBuiltin true;
   mkDescriptorOf signingFeatureName FeatureKindBuiltin false].
Definition lookupFeature (name : string) : res featureDescriptor :=
  let trimmed := trim_space name in
  match List.find (λ f, String.eqb (fd_name f) trimmed) builtInFeatures with
  | Some f => Ok f
  | None => Err (NewValidationError (String.append "unsupported feature " (in_quotes trimmed)))
  end.

(** ** What is shown *)

Definition featureRuntimeValueOrUnknown (value : string) : string :=
  if String.eqb (trim_space value) "" then "unknown" else trim_space value.
Definition fmt_t (b : bool) : string := if b then "true" else "false".

Definition no_runtime : FeatureRuntime := mkFeatureRuntime "" "" "" "" "" "" "" false "" "" None None None "".

Definition featureDetailsFromSettings (feature : featureDescriptor) (settings : ScanSettings) (configured : bool)
    : FeatureDetails :=
  mkFeatureDetails (fd_name feature) (fd_kind feature) (ss_Enabled settings) configured (ss_ScheduleEnabled settings)
    (ss_Interval settings) (ss_Timeout settings) "" (ss_RegistryReachableURL settings) "" "" false "" ""
    (ss_MaxConcurrency settings) no_runtime.
Definition with_projection (d : FeatureDetails) (runtime : FeatureRuntime) : FeatureDetails :=
  mkFeatureDetails (fl_Name d) (fl_Kind d) (fl_Enabled d) (fl_Configured d) (fl_ScheduleEnabled d) (fl_Interval d)
    (fl_Timeout d) (fl_ServiceURL d) (fl_RegistryReachableURL d) (fl_AuthToken d) (fl_TLSCACertPath d)
    (fl_TLSInsecureSkipVerify d) (fl_CacheDir d) (fl_BinaryPath d) (fl_MaxConcurrency d) runtime.
Definition featureSummaryFromDetails (details : FeatureDetails) (runtime : FeatureRuntime) : FeatureSummary :=
  mkFeatureSummary (fl_Name details) (fl_Kind details) (fl_Enabled details) (fl_Configured details)
    (trim_space (ft_Version runtime)) (featureRuntimeValueOrUnknown (ft_LatestVersion runtime))
    (featureRuntimeValueOrUnknown (ft_UpdateStatus runtime)).

Definition buildSigningPolicySection (details : FeatureDetails) : FeatureSection :=
  mkFeatureSection "policy" "Policy" "fields" [mkFeatureField "Enabled" (fmt_t (fl_Enabled details))] [].

Definition is_managed (details : FeatureDetails) : bool := String.eqb (ft_Mode (fl_Runtime details)) FeatureRuntimeModeManaged.
(** [%q] of a feature's name, which is one of three plain words. *)
Definition confirmation (verb name : string) : string :=
  foldr String.append "" ["Confirm "; verb; " feature "; in_quotes name; "?"].
Definition buildFeatureActions (details : FeatureDetails) : list FeatureAction :=
  let runtime := fl_Runtime details in
  let status := trim_space (ft_Status runtime) in
  let status := if String.eqb status "" then trim_space (ft_Health runtime) else status in
  [mkFeatureAction "refresh" "Refresh" "" ""]
  ++ [if fl_Enabled details then mkFeatureAction "disable" "Disable" "Confirm Disable" (confirmation "disable" (fl_Name details))
      else mkFeatureAction "enable" "Enable" "Confirm Enable" (confirmation "enable" (fl_Name details))]
  ++ (if is_managed details && (String.eqb status FeatureRuntimeStatusUninstalled
                                || String.eqb status FeatureRuntimeStatusMigrationRequired)
      then [mkFeatureAction "install-runtime" "Install Runtime" "" ""] else [])
  ++ (if is_managed details && negb (String.eqb (trim_space (ft_Version runtime)) "")
         && String.eqb (trim_space (ft_UpdateStatus runtime)) "available"
      then [mkFeatureAction "upgrade-runtime" "Upgrade Runtime" "" ""] else [])
  ++ (if is_managed details && ft_RollbackAvailable runtime
      then [mkFeatureAction "rollback-runtime" "Rollback Runtime" "" ""] else []).

Definition config_section (details : FeatureDetails) : FeatureSection :=
  mkFeatureSection "config" "Configuration" "fields"
    [mkFeatureField "Schedule Enabled" (fmt_t (fl_ScheduleEnabled details));
     mkFeatureField "Interval" (duration_String (fl_Interval details));
     mkFeatureField "Timeout" (duration_String (fl_Timeout details));
     mkFeatureField "Registry Reachable URL" (fl_RegistryReachableURL details);
     mkFeatureField "Max Concurrency" (Itoa (fl_MaxConcurrency details))] [].
Definition runtime_section (runtime : FeatureRuntime) : FeatureSection :=
  mkFeatureSection "runtime" "Runtime" "fields"
    [mkFeatureField "Status" (featureRuntimeValueOrUnknown (ft_Status runtime));
     mkFeatureField "Health" (featureRuntimeValueOrUnknown (ft_Health runtime));
     mkFeatureField "Version" (featureRuntimeValueOrUnknown (ft_Version runtime));
     mkFeatureField "Latest Version" (featureRuntimeValueOrUnknown (ft_LatestVersion runtime));
     mkFeatureField "Update Status" (featureRuntimeValueOrUnknown (ft_UpdateStatus runtime));
     mkFeatureField "Rollback Available" (fmt_t (ft_RollbackAvailable runtime))] [].
Definition buildFeaturePage (summary : FeatureSummary) (details : FeatureDetails) (runs : list ScanRun) : FeaturePage :=
  let header := [mkFeatureField "Kind" (fm_Kind summary); mkFeatureField "Enabled" (fmt_t (fm_Enabled summary));
                 mkFeatureField "Configured" (fmt_t (fm_Configured summary))] in
  if negb (String.eqb (fm_Kind summary) FeatureKindBuiltin) then mkFeaturePage summary header [] [] else
  mkFeaturePage summary header
    ((if String.eqb (fm_Name summary) signingFeatureName then [buildSigningPolicySection details] else [config_section details])
     ++ (if is_managed details then [runtime_section (fl_Runtime details)] else []))
    (buildFeatureActions details).

(** Rows the page builder has at hand for runs. *)
Definition run_counts (run : ScanRun) : string :=
  foldr String.append "" ["critical="; Itoa (sr_Critical run); " high="; Itoa (sr_High run);
                          " medium="; Itoa (sr_Medium run); " low="; Itoa (sr_Low run)].
Definition run_row (run : ScanRun) : FeatureRow :=
  mkFeatureRow (String.append (sr_Repository run) (String "@" (sr_RequestedRef run))) (sr_Status run)
    (if String.eqb (trim_space (sr_Error run)) "" then run_counts run else sr_Error run).
Definition buildFeatureRunRows (runs : list ScanRun) : list FeatureRow :=
  match runs with [] => [mkFeatureRow "No scan runs recorded yet." "empty" ""] | _ => map run_row runs end.
Definition buildFeatureVulnerabilityFields (runs : list ScanRun) : list FeatureField :=
  match List.find (λ r, String.eqb (sr_Status r) ScanRunStatusCompleted) runs with
  | Some r => [mkFeatureField "Critical" (Itoa (sr_Critical r)); mkFeatureField "High" (Itoa (sr_High r));
               mkFeatureField "Medium" (Itoa (sr_Medium r)); mkFeatureField "Low" (Itoa (sr_Low r))]
  | None => [mkFeatureField "Status" "No completed scan runs available."]
  end.
Definition buildFeatureRepositoryAlertRows (runs : list ScanRun) : list FeatureRow :=
  match List.filter (λ r, String.eqb (sr_Status r) ScanRunStatusFailed || (0 <? sr_Critical r) || (0 <? sr_High r)) runs with
  | [] => [mkFeatureRow "No repository alerts detected." "clear" ""]
  | alerts => map run_row alerts
  end.

(** ** The handlers *)

Section Features.
Context {W : Type} `{UnicodeTables, ManifestCodec, KeyCrypto, Regexps, OverrideCodec, NetAddresses}.
Context `{!MetadataStore W, !RegRuntime W, !PolicyStore W}.
(** [runtimes]: a manager per feature, under its exact name. *)
Variables (svc : RegConfig) (runtimes : string → option (FeatureRuntimeManager W)).
Notation tenant := (tenant svc).

(** The settings of a feature nobody has configured. *)
Definition default_settings : ScanSettings :=
  mkScanSettings false false (24 * hour) (15 * minute) "" "" "" "" false "" "" "" "" 1 zero_time "" "" "".
(** The shell that shows the signing policy's switch. *)
Definition signing_shell (enabled : bool) : ScanSettings :=
  mkScanSettings enabled false 0 0 "" "" "" "" false "" "" "" "" 0 zero_time "" "" "".

Definition loadSigningFeatureSettings : M W (ScanSettings * bool) :=
  let! policy := sattempt (meta_GetSigningPolicySettings tenant) in
  match policy with
  | Ok policy => sret (signing_shell (sg_Enabled policy), true)
  | Err e => if negb (reg_is_code e CodeNotFound) then sthrow e else sret (signing_shell false, false)
  end.
Definition loadFeatureSettings (name : string) : M W (featureDescriptor * ScanSettings * bool) :=
  let! feature := slift (lookupFeature name) in
  if String.eqb (fd_name feature) signingFeatureName then
    let! loaded := loadSigningFeatureSettings in
    sret (feature, loaded.1, loaded.2)
  else
    let! settings := sattempt (meta_GetScanSettings tenant (fd_name feature)) in
    match settings with
    | Ok settings => sret (feature, settings, true)
    | Err e => if negb (reg_is_code e CodeNotFound) then sthrow e else sret (feature, default_settings, false)
    end.

Definition GetFeature (name : string) : M W FeatureDetails :=
  let! loaded := loadFeatureSettings name in
  sret (featureDetailsFromSettings loaded.1.1 loaded.1.2 loaded.2).

(** *** The binary behind a feature *)

Definition runtime_error (e : error) : FeatureRuntime :=
  if reg_is_code e CodeNotFound
  then mkFeatureRuntime FeatureRuntimeModeManaged FeatureRuntimeStatusUninstalled FeatureRuntimeStatusUninstalled "" "" ""
         "managed runtime is not installed" false "" "" None None None ""
  else mkFeatureRuntime FeatureRuntimeModeManaged FeatureRuntimeStatusDegraded FeatureRuntimeStatusDegraded "" "" ""
         (error_string e) false "" "" None None None (error_string e).
Definition runtime_of (state : FeatureRuntimeState) : FeatureRuntime :=
  let health := if String.eqb (fr_Status state) "" then FeatureRuntimeStatusUninstalled else fr_Status state in
  let detail := trim_space (fr_MigrationHint state) in
  let detail := if String.eqb detail "" then trim_space (fr_LastError state) else detail in
  mkFeatureRuntime FeatureRuntimeModeManaged (fr_Status state) health (trim_space (fr_ActiveVersion state)) "" "" detail
    (negb (String.eqb (trim_space (fr_PreviousVersion state)) "")) (trim_space (fr_ActiveBinaryPath state))
    (trim_space (fr_ReceiptPath state)) (fr_LastVerifiedAt state) (fr_LastHealthCheckAt state) (fr_LastDBUpdatedAt state)
    (trim_space (fr_LastError state)).
Definition with_latest (r : FeatureRuntime) (latest status : string) : FeatureRuntime :=
  mkFeatureRuntime (ft_Mode r) (ft_Status r) (ft_Health r) (ft_Version r) latest status (ft_Detail r)
    (ft_RollbackAvailable r) (ft_ActiveBinaryPath r) (ft_ReceiptPath r) (ft_LastVerifiedAt r) (ft_LastHealthCheckAt r)
    (ft_LastDBUpdatedAt r) (ft_LastError r).
Definition update_status (current latest : string) : string :=
  if String.eqb current "" then "unknown" else if String.eqb current latest then "up-to-date" else "available".

(** A feature without a runtime shows none; an error is shown, never returned. *)
Definition projectFeatureRuntime (feature : string) : M W FeatureRuntime :=
  let unmanaged := match lookupFeature feature with Ok d => negb (fd_managedRuntime d) | Err _ => false end in
  if unmanaged then sret no_runtime else
  let manager := runtimes feature in
  let! state := sattempt (match manager with
                          | Some m => rm_Status m
                          | None => GetFeatureRuntimeState tenant feature
                          end) in
  let runtime := match state with Ok state => runtime_of state | Err e => runtime_error e end in
  match manager with
  | None => sret (with_latest runtime "unknown" "unknown")
  | Some m =>
      let! latest := sattempt (rm_LatestVersion m) in
      match latest with
      | Ok latest =>
          let trimmed := trim_space latest in
          if String.eqb trimmed "" then sret (with_latest runtime "unknown" "unknown")
          else sret (with_latest runtime trimmed (update_status (trim_space (ft_Version runtime)) trimmed))
      | Err _ => sret (with_latest runtime "unknown" "unknown")
      end
  end.

Definition featureRuntimeManager (name : string) : res (FeatureRuntimeManager W) :=
  let? descriptor := lookupFeature name in
  if negb (fd_managedRuntime descriptor)
  then Err (NewValidationError (foldr String.append "" ["feature "; in_quotes (fd_name descriptor); " has no managed runtime"]))
  else match runtimes name with
       | Some m => Ok m
       | None => Err (OtherError (String.append name " runtime manager is not configured"))
       end.
Definition InstallFeatureRuntime (name version : string) : M W FeatureRuntimeState :=
  do! slift (lookupFeature name) in
  let! m := slift (featureRuntimeManager name) in
  rm_Install m version.
Definition UpgradeFeatureRuntime (name version : string) : M W FeatureRuntimeState :=
  do! slift (lookupFeature name) in
  let! m := slift (featureRuntimeManager name) in
  rm_Upgrade m version.
Definition RollbackFeatureRuntime (name : string) : M W FeatureRuntimeState :=
  do! slift (lookupFeature name) in
  let! m := slift (featureRuntimeManager name) in
  rm_Rollback m.

(** *** Looking at features *)

Definition GetFeatureStatus (name : string) : M W FeatureDetails :=
  let! loaded := loadFeatureSettings name in
  let! runtime := projectFeatureRuntime (fd_name loaded.1.1) in
  sret (with_projection (featureDetailsFromSettings loaded.1.1 loaded.1.2 loaded.2) runtime).
Definition GetFeaturePage (name : string) : M W FeaturePage :=
  let! details := GetFeatureStatus name in
  sret (buildFeaturePage (featureSummaryFromDetails details (fl_Runtime details)) details []).
Definition ListFeatures : M W (list FeatureSummary) :=
  smap (λ feature,
    let! details := GetFeature (fd_name feature) in
    let! runtime := projectFeatureRuntime (fd_name feature) in
    sret (featureSummaryFromDetails details runtime)) builtInFeatures.

(** *** Configuring features *)

Definition mergeFeatureSettings (base : ScanSettings) (configured : bool) (input : FeatureConfigureInput) : ScanSettings :=
  mkScanSettings (default (ss_Enabled base) (fc_Enabled input)) (default (ss_ScheduleEnabled base) (fc_ScheduleEnabled input))
    (default (ss_Interval base) (fc_Interval input)) (default (ss_Timeout base) (fc_Timeout input))
    (default (ss_ServiceURL base) (fc_ServiceURL input))
    (default (ss_RegistryReachableURL base) (fc_RegistryReachableURL input))
    (default (ss_AuthToken base) (fc_AuthToken input)) (default (ss_TLSCACertPath base) (fc_TLSCACertPath input))
    (default (ss_TLSInsecureSkipVerify base) (fc_TLSInsecureSkipVerify input)) (ss_CacheDir base) (ss_BinaryPath base)
    (ss_LegacyCacheDir base) (ss_LegacyBinaryPath base) (default (ss_MaxConcurrency base) (fc_MaxConcurrency input))
    (if configured then ss_UpdatedAt base else zero_time) (ss_IgnoreFilePath base) (ss_IgnorePolicyPath base)
    (ss_ConfigPath base).

Definition ConfigureFeature (name : string) (input : FeatureConfigureInput) : M W FeatureDetails :=
  if String.eqb (trim_space name) signingFeatureName
  then sthrow (NewValidationError "signing is configured through the signing policy endpoint") else
  let! loaded := loadFeatureSettings name in
  let '(feature, settings, configured) := loaded in
  let! normalized := normalizeScanSettings (mergeFeatureSettings settings configured input) in
  do! UpsertScanSettings tenant (fd_name feature) normalized in
  sret (featureDetailsFromSettings feature normalized true).

Definition nothing_configured : FeatureConfigureInput :=
  mkConfigureInput None None None None None None None None None None None None.
Definition only_enabled (enabled : bool) : FeatureConfigureInput :=
  mkConfigureInput (Some enabled) None None None None None None None None None None None.
(** What of a legacy configuration is imported. *)
Definition legacy_input (input : FeatureConfigureInput) : FeatureConfigureInput :=
  mkConfigureInput (fc_Enabled input) (fc_ScheduleEnabled input) (fc_Interval input) (fc_Timeout input)
    None None None None None None None (fc_MaxConcurrency input).

Definition setSigningFeatureEnabled (enabled : bool) : M W FeatureDetails :=
  let! current := GetSigningPolicySettings svc in
  if enabled && (length (sg_TrustedPublicKeys current) =? 0)%nat
  then sthrow (NewValidationError "enabling signing requires at least one configured trusted key") else
  do! UpdateSigningPolicySettings svc (mkSigningPolicy enabled (sg_TrustedPublicKeys current) (sg_TrustedIdentities current)
                                         (sg_UpdatedAt current) (sg_UnsignedSelfRead current)) in
  GetFeature signingFeatureName.
Definition SetFeatureEnabled (name : string) (enabled : bool) : M W FeatureDetails :=
  if String.eqb (trim_space name) signingFeatureName then setSigningFeatureEnabled enabled
  else ConfigureFeature name (only_enabled enabled).
Definition ImportLegacyFeatureConfigIfMissing (name : string) (input : FeatureConfigureInput) : M W FeatureDetails :=
  let! loaded := loadFeatureSettings name in
  if loaded.2 then sret (featureDetailsFromSettings loaded.1.1 loaded.1.2 true)
  else ConfigureFeature name (legacy_input input).

(** *** The actions of a feature's page *)

Definition action_message (before name middle after : string) : FeatureActionResult :=
  mkActionResult (foldr String.append "" [before; in_quotes name; middle; after; "."]).
Definition executeFeatureRuntimeAction (descriptor : featureDescriptor) (actionID : string) : M W FeatureActionResult :=
  let name := fd_name descriptor in
  if negb (fd_managedRuntime descriptor)
  then sthrow (NewValidationError (foldr String.append "" ["feature "; in_quotes name; " has no managed runtime"])) else
  if String.eqb actionID "install-runtime" then
    let! state := InstallFeatureRuntime name "" in
    sret (action_message "Managed runtime installed for " name " at " (featureRuntimeValueOrUnknown (fr_ActiveVersion state)))
  else if String.eqb actionID "upgrade-runtime" then
    let! state := UpgradeFeatureRuntime name "" in
    sret (action_message "Managed runtime upgraded for " name " at " (featureRuntimeValueOrUnknown (fr_ActiveVersion state)))
  else
    let! state := RollbackFeatureRuntime name in
    sret (action_message "Managed runtime rolled back for " name " to " (featureRuntimeValueOrUnknown (fr_ActiveVersion state))).
Definition is_runtime_action (actionID : string) : bool :=
  existsb (String.eqb actionID) ["install-runtime"; "upgrade-runtime"; "rollback-runtime"].
Definition ExecuteFeatureAction (name actionID : string) : M W FeatureActionResult :=
  let actionID := trim_space actionID in
  let! descriptor := slift (lookupFeature name) in
  if String.eqb actionID "enable" then
    do! SetFeatureEnabled (fd_name descriptor) true in
    sret (action_message "Feature " (fd_name descriptor) " enabled" "")
  else if String.eqb actionID "disable" then
    do! SetFeatureEnabled (fd_name descriptor) false in
    sret (action_message "Feature " (fd_name descriptor) " disabled" "")
  else if is_runtime_action actionID then executeFeatureRuntimeAction descriptor actionID
  else sthrow (RegError CodeValidation [Lit "unsupported feature action "; Quoted actionID]).
End Features.
