(* ===== verification/ConsoleSafety.v ===== *)
(** The console: a secret scan never decides anything but what the console shows,
    and a signature the signing policy accepts is counted to its key. *)
From S2P Require Import Prelude GoStrings Encodings Errors Repository Digest GoNumbers Manifest Scope Auth.
From S2P Require Import Access RegPorts RegWorld Registry RegService Signing RegSteps RegExample PolicyPorts.
From S2P Require Import PolicyStore PolicyLaws FullLaws PullGate Overrides Scans GateLaws PullExample.
From S2P Require Import PullSafety OverrideSafety Console ConsoleQueries.

#[local] Opaque DigestFromBytes.

(** * Definitions *)

(** A secret scanner reads what it scans and changes nothing of the registry's. *)
Class SecretScanRunnerLaws (W : Type) `{PolicyLaws W, !SecretScanRunner W} := {
  secret_Run_frame target settings w : reg_wf w →
    reg_wf (secret_Run target settings w).2 ∧ reg_later w (secret_Run target settings w).2
    ∧ reg_view (secret_Run target settings w).2 = reg_view w ∧ pol_view (secret_Run target settings w).2 = pol_view w;
}.

(** Tables that differ from [D] only in what the console shows. *)
Definition console_of (D D' : PolicyDB) : Prop := D' = set_console (pd_console D') D.

(** * Lemmas *)

Lemma console_refl D : console_of D D.
Proof. by destruct D. Qed.
Lemma on_console_of f D D' : console_of D D' → console_of D (on_console f D').
Proof. intros ->; done. Qed.

Section Silence.
Context {W : Type} `{KeyCrypto, Regexps, OverrideCodec, ConsoleLaws W, !SecretScanRunner W, !SecretScanRunnerLaws W}.
Variable D0 : PolicyDB.
Notation quiet := (stays (console_of D0)).

Lemma quiet_persist n (m : M W unit) : quiet m → quiet (persist_loop n m).
Proof. intros Hm; induction n as [|n IH]; cbn [persist_loop]; stays. Qed.
Lemma x_secret_run_console t run D : console_of D0 D → console_of D0 (x_secret_run t run D).
Proof. apply on_console_of. Qed.
Lemma quiet_run t run : quiet (UpsertSecretScanRun t run).
Proof. eapply stays_writes; [apply UpsertSecretScanRun_ok|]; intros *; apply x_secret_run_console. Qed.
Lemma quiet_detail t d : quiet (UpsertSecretScanRunDetail t d).
Proof.
  eapply stays_writes; [apply UpsertSecretScanRunDetail_ok|]; intros now D HD; unfold x_secret_detail.
  assert (console_of D0 (x_delete_secrets (sn_ID (sl_Run d)) (x_secret_run t (dated_secret_run now (sl_Run d)) D))) as Hc
    by (apply on_console_of, x_secret_run_console, HD).
  revert Hc; generalize (x_delete_secrets (sn_ID (sl_Run d)) (x_secret_run t (dated_secret_run now (sl_Run d)) D)).
  induction (sl_Findings d) as [|f fs IH]; intros D' HD'; simpl; [done|]; by apply IH, on_console_of.
Qed.
Lemma quiet_runner target settings : quiet (secret_Run target settings).
Proof.
  intros R D HD w Hw Hf HR HD'; subst; destruct (secret_Run_frame target settings w Hw) as (? & ? & ? & Hp).
  split_and!; [done..|by rewrite Hp].
Qed.
Lemma quiet_override t n f s : quiet (applyRepositoryOverride t n f s).
Proof. unfold applyRepositoryOverride, resolveRepositoryOverride; stays. Qed.
Lemma quiet_blobs t r d : quiet (ListManifestBlobs t r d).
Proof.
  eapply stays_registry; [apply ListManifestBlobs_ok|intros w; apply ListManifestBlobs_frame|].
  unfold spec_list_blobs, guarded; intros R r' R' Hs.
  destruct (do? _ in _); [by destruct Hs as [-> _]|by destruct Hs].
Qed.
#[local] Hint Resolve quiet_persist quiet_run quiet_detail quiet_runner quiet_override quiet_blobs : observe.

Lemma quiet_leg b leg : quiet (executeSecretScanLeg b leg).
Proof.
  unfold executeSecretScanLeg, prepare_secret_leg, resolveManagedSecretScanSettings, supersede_secret_run,
    begin_secret_run, finish_secret_run, persistAsyncSecretScanRun, persistAsyncSecretScanRunDetail; stays.
Qed.
Lemma leg_returns b leg w : (executeSecretScanLeg (W := W) b leg w).1 = Ok tt.
Proof.
  unfold executeSecretScanLeg; destruct b; [|done]; cbn [negb].
  match goal with |- (sbind (sattempt ?m) _ w).1 = _ => unfold sbind at 1, sattempt at 1; by destruct (m w) end.
Qed.
End Silence.

(** ** Keys *)

Section Keys.
Context `{UnicodeTables, ManifestCodec, KeyCrypto, SigningCodec, Sigstore, Regexps}.
Variables (svc : RegConfig) (R : Registry) (pem : string) (key : PublicKey).
Notation t := (tenant svc).
Notation keys := [(pem, key)].

Lemma verifying_one p sigs k : verifying_key keys p sigs = Some k →
  k = (pem, key) ∧ existsb (λ s, is_ok (Verify key p s)) sigs = true.
Proof.
  unfold verifying_key; intros Hk; apply fmap_Some in Hk as ([s k'] & Hf & ->); simpl.
  apply List.find_some in Hf as [Hin Hv]; simpl in *.
  apply list_elem_of_In, list_elem_of_bind in Hin as (s' & [= -> ->]%list_elem_of_singleton & Hs); simpl in *.
  split; [done|]; apply existsb_exists; exists s'; split; [by apply list_elem_of_In|done].
Qed.
Lemma verifying_none p sigs : verifying_key keys p sigs = None → existsb (λ s, is_ok (Verify key p s)) sigs = false.
Proof.
  unfold verifying_key; intros Hk; apply fmap_None in Hk; apply not_true_iff_false; intros (s & Hs & Hv)%existsb_exists.
  apply (λ Hf, List.find_none _ _ Hf (s, (pem, key))) in Hk; [simpl in Hk; congruence|].
  apply list_elem_of_In, list_elem_of_bind; exists s; split; [|by apply list_elem_of_In]; by apply list_elem_of_singleton.
Qed.

Lemma entries_counted n d entries v : r_entries R n d keys entries = Ok v → v_Err v = None →
  r_entries_match R key d entries = Ok true.
Proof.
  intros Hr Hv; induction entries as [|e entries IH]; cbn [r_entries r_entries_match] in *; [by injection Hr as <-|].
  destruct (r_payload R (se_PayloadDigest e)) as [[p|]|]; [|by apply IH|done]; cbn [rbind mbind option_bind] in *.
  destruct (verifying_key keys p [se_Signature e]) as [k|] eqn:Hk; cbn [fmap option_fmap option_map] in Hr.
  - apply verifying_one in Hk as [-> Hk]; simpl in Hk; rewrite orb_false_r in Hk; rewrite Hk.
    destruct (is_ok (CheckClaims p d)); simpl; [done|by injection Hr as <-].
  - apply verifying_none in Hk; simpl in Hk; rewrite orb_false_r in Hk; rewrite Hk; by apply IH.
Qed.

Lemma claims_of_some d payload (l : list string) p : existsb (λ s, is_ok (Verify key p s) && is_ok (CheckBundleClaims payload d)) l
  = existsb (λ s, is_ok (Verify key p s)) l && is_ok (CheckBundleClaims payload d).
Proof. induction l as [|s l IH]; simpl; [done|]; by rewrite IH, andb_orb_distrib_l. Qed.
Lemma judged_match n d p o : judge_bundle n d p keys [] = o →
  match o with Some v => v_Err v = None → bundle_match key d p = true | None => bundle_match key d p = false end.
Proof.
  unfold judge_bundle, bundle_match; intros <-; destruct (ParseBundleDocument p) as [b|]; [|done].
  destruct (base64_DecodeString (ds_Payload b)) as [payload|]; [|done]; rewrite claims_of_some.
  destruct (verifying_key _ _ _) as [k|] eqn:Hk.
  - apply verifying_one in Hk as [-> ->]; by destruct (is_ok (CheckBundleClaims payload d)).
  - by apply verifying_none in Hk as ->.
Qed.

Lemma index_counted repo n d entries o : d ≠ "" → r_index svc R repo n d keys [] entries = Ok o →
  match o with
  | Some v => v_Err v = None → r_index_match svc R key repo d entries = Ok true
  | None => r_index_match svc R key repo d entries = Ok false
  end.
Proof.
  intros Hd; induction entries as [|e entries IH]; cbn [r_index r_index_match]; [by intros [= <-]|].
  unfold rattempt; cbn [rbind]; destruct (r_resolve t repo (bi_Digest e) R) as [m|err]; [|by destruct (reg_is_code err CodeNotFound)].
  unfold r_candidate; destruct (ParseBundleReferrerManifest (mf_Payload m)) as [[subject layer]|]; cbn [rbind]; [|exact IH].
  destruct (String.eqb_spec subject d) as [->|Hne]; cbn [negb orb].
  2: { rewrite !orb_true_r; exact IH. }
  rewrite !orb_false_r; destruct (String.eqb_spec d ""); [done|]; cbn [orb].
  destruct (String.eqb layer ""); [exact IH|].
  destruct (r_payload R layer) as [[p|]|]; cbn [rbind mbind option_bind]; [|exact IH|done].
  pose proof (judged_match n d p _ eq_refl) as Hj; destruct (judge_bundle n d p keys []) as [v|].
  - intros [= <-] Hv; by rewrite Hj.
  - rewrite Hj; exact IH.
Qed.

Lemma rows_counted n d rows v : r_rows R n d keys [] rows = Ok (Some v) →
  ∃ row, row ∈ rows ∧ r_candidate R n d (rf_Payload row) keys [] = Ok (Some v).
Proof.
  induction rows as [|row rows IH]; cbn [r_rows]; [done|]; intros Hr; apply rbind_ok in Hr as ([v'|] & Hc & Hr).
  - injection Hr as ->; exists row; split; [by left|done].
  - destruct (IH Hr) as (row' & Hin & ?); exists row'; split; [by right|done].
Qed.

Lemma tag_of_nothing s : SignatureTag "" ≠ Ok s ∧ BundleIndexTag "" ≠ Ok s.
Proof. done. Qed.

Lemma verified_counted n repo d policy v : parseRepository n = Ok repo → ParseTrustedKey pem = Ok key →
  sg_TrustedPublicKeys policy = [pem] → sg_TrustedIdentities policy = [] →
  r_verify svc R n d policy = Ok v → v_Err v = None →
  r_key_matches svc R key repo d = Ok true
  ∨ r_key_matches svc R key repo d = Ok false
    ∧ ∃ row, row ∈ referrer_rows t repo d R ∧ r_candidate R n d (rf_Payload row) keys [] = Ok (Some v).
Proof.
  intros Hn Hpem Hkeys Hids; unfold r_verify, r_key_matches; rewrite Hkeys, Hids; cbn [parseTrustedKeys omap list_omap].
  rewrite Hpem; cbn [length Nat.eqb andb].
  destruct (SignatureTag d) as [tag|] eqn:Htag; [|by intros [= <-]].
  assert (d ≠ "") as Hd by (intros ->; by destruct (tag_of_nothing tag)).
  rewrite Hn; unfold rattempt; cbn [rbind].
  destruct (r_resolve t repo tag R) as [m|err].
  { destruct (ParseSignatureManifest (mf_Payload m)) as [[|e entries]|]; [by intros [= <-]| |by intros [= <-]].
    intros Hr Hv; left; by eapply entries_counted. }
  destruct (reg_is_code err CodeNotFound); [|done]; unfold r_bundle, r_bundle_matches.
  destruct (BundleIndexTag d) as [index|]; [|by intros [= <-]]; unfold rattempt; cbn [rbind].
  assert (∀ found, r_verify_referrers svc R repo n d keys [] found = Ok v → v_Err v = None →
    ∃ row, row ∈ referrer_rows t repo d R ∧ r_candidate R n d (rf_Payload row) keys [] = Ok (Some v)) as Hrows.
  { intros found Hr Hv; unfold r_verify_referrers in Hr; apply rbind_ok in Hr as (d' & Hd' & Hr).
    apply rbind_ok in Hr as (rows & Hrows & Hr); apply rbind_ok in Hr as ([v'|] & Hc & Hr).
    - injection Hr as ->; apply rows_counted in Hc as (row & Hin & Hc); exists row; split; [|done].
      unfold r_referrers in Hrows; apply rbind_ok in Hrows as (_ & _ & [= <-]).
      rewrite elem_of_sort_by in Hin; by apply ParseDigest_ok in Hd' as [-> _].
    - by destruct (negb found && _); injection Hr as <-. }
  destruct (r_resolve t repo index R) as [m|err'].
  - destruct (ParseBundleIndex (mf_Payload m)) as [entries|]; [|by intros [= <-]].
    intros Hr Hv; apply rbind_ok in Hr as (o & Ho & Hr); apply (index_counted _ _ _ _ _ Hd) in Ho.
    destruct o as [v'|]; [injection Hr as ->; left; auto|right; eauto].
  - destruct (reg_is_code err' CodeNotFound); [|done]; intros Hr Hv; right; eauto.
Qed.
End Keys.

(** * Theorems *)

Section Theorems.
Context {W : Type} `{ManifestCodec, KeyCrypto, SigningCodec, Sigstore, Regexps, OverrideCodec, ConsoleLaws W}.
Context `{!SecretScanRunner W, !SecretScanRunnerLaws W}.
Variables (svc : RegConfig).
Notation t := (tenant svc).

(** Secret scans are informational: whatever the scanner finds and whatever
    fails on the way, the secret scan that runs beside a scan ends without an
    error, leaves the registry alone and writes no table but those the console
    shows, so that when nothing fails every pull gets the answer it got before. *)
Theorem secret_scans_never_gate b leg w (w' := (executeSecretScanLeg b leg w).2) :
  reg_wf w →
  (executeSecretScanLeg b leg w).1 = Ok tt ∧ reg_view w' = reg_view w ∧ console_of (pol_view w) (pol_view w')
  ∧ (reg_calm w → ∀ ctx name reference,
       (OpenManifest svc ctx name reference w').1 = (OpenManifest svc ctx name reference w).1).
Proof.
  intros Hw; destruct (quiet_leg (pol_view w) b leg (reg_view w) (pol_view w) (console_refl _) w Hw (λ _, I) eq_refl eq_refl)
    as (Hw' & Hl & Hv & Hc); fold w' in Hw', Hl, Hv, Hc; split_and!; [apply leg_returns|done..|].
  intros Hcalm ctx n x; assert (reg_calm w') as Hcalm' by (by eapply reg_calm_later).
  rewrite !(observes_calm _ _ _ _ (OpenManifest_observed svc ctx n x)) by done; rewrite Hv, Hc; reflexivity.
Qed.

(** What a key verifies is counted to it: when the signing policy trusts
    exactly one key and accepts an image, the console's count of what the key has
    signed includes the image, unless the signature is a bundle that only the OCI
    referrers of the image lead to, which the count does not look at. *)
Theorem accepted_signatures_are_counted w n repo d pem key policy v :
  reg_wf w → reg_calm w → parseRepository n = Ok repo → ParseTrustedKey pem = Ok key →
  sg_TrustedPublicKeys policy = [pem] → sg_TrustedIdentities policy = [] →
  (verifySignature svc n d policy w).1 = Ok v → v_Err v = None →
  (keyUsageMatches svc key repo d w).1 = Ok true
  ∨ (keyUsageMatches svc key repo d w).1 = Ok false
    ∧ ∃ row, row ∈ referrer_rows t repo d (reg_view w)
        ∧ r_candidate (reg_view w) n d (rf_Payload row) [(pem, key)] [] = Ok (Some v).
Proof.
  intros Hw Hc Hn Hpem Hk Hi.
  rewrite (observes_calm _ _ _ _ (verifySignature_observed svc n d policy) Hw Hc).
  rewrite (observes_calm _ _ _ _ (keyUsageMatches_observed svc key repo d) Hw Hc).
  by apply verified_counted.
Qed.

(** The count stops at the tags: an image whose signature is found through neither
    of its two tags is not counted, whatever refers to it. *)
Lemma referrers_are_not_counted w repo d key tag index :
  reg_wf w → reg_calm w → SignatureTag d = Ok tag → BundleIndexTag d = Ok index →
  RepositoryRef_Validate repo = Ok tt →
  resolve (reg_view w) t (ref_Name repo) tag = None → resolve (reg_view w) t (ref_Name repo) index = None →
  (keyUsageMatches svc key repo d w).1 = Ok false.
Proof.
  intros Hw Hc Htag Hindex Hval Hno1 Hno2.
  rewrite (observes_calm _ _ _ _ (keyUsageMatches_observed svc key repo d) Hw Hc).
  unfold r_key_matches, r_bundle_matches, r_resolve; rewrite Htag, Hindex, Hval; simpl; by rewrite Hno1, Hno2.
Qed.
End Theorems.

(** * Witnesses *)

#[local] Transparent DigestFromBytes.

Definition example_secret : SecretFinding := mkSecretFinding "aws-key" "AWS key" "" "app/.env" 3 3 [].
#[global] Instance example_secret_runner : SecretScanRunner FullWorld :=
  {| secret_Run _ _ := sret (mkSecretResult "8.18.0" [example_secret] []) |}.
#[global] Instance example_secret_laws : SecretScanRunnerLaws FullWorld.
Proof. split; intros target settings w Hw; by split_and!. Qed.

(** A signed image in a registry whose secret scanner is ready. *)
Definition ready_state : FeatureRuntimeState :=
  mkRuntimeState FeatureRuntimeStatusReady "8.18.0" "" "/opt/gitleaks" "" "" "" None None None "" 0.
Definition watch : M FullWorld unit :=
  do! UpsertScanSettings (tenant example_svc) gitleaksFeatureName example_settings in
  UpsertFeatureRuntimeState (tenant example_svc) gitleaksFeatureName ready_state.
Definition watched_world : FullWorld := (watch signed_world).2.
Definition example_leg : SecretLeg := mkLeg (tenant example_svc) "team/app" payload_digest ScanTriggerManual.

Example secret_found :
  match (GetSecretScanFindings example_svc "team/app" payload_digest (executeSecretScanLeg true example_leg watched_world).2).1 with
  | Ok d => (sl_Findings d, sn_Status (sl_Run d)) | Err _ => ([], "") end = ([example_secret], "completed").
Proof. vm_compute; reflexivity. Qed.

Lemma watch_wf w : reg_wf w → reg_wf (watch w).2.
Proof.
  intros Hw; refine (proj1 (runs_from watch w (λ _ _, True) Hw _)).
  apply (bind_writes _ _ _ _ _ _ _ (UpsertScanSettings_ok _ _ _)); [|done].
  intros now; eapply runs_conseq; [apply runs_call, UpsertFeatureRuntimeState_ok|done].
Qed.
Lemma watched_wf : reg_wf watched_world.
Proof. apply watch_wf, (policed_good (push_requests ++ sign_requests)). Qed.

Lemma secret_scans_never_gate_witness :
  map_to_list (cd_secret_findings (pd_console (pol_view (executeSecretScanLeg true example_leg watched_world).2))) ≠ []
  ∧ (OpenManifest example_svc (Some pusher) "team/app" "v1" (executeSecretScanLeg true example_leg watched_world).2).1
    = (OpenManifest example_svc (Some pusher) "team/app" "v1" watched_world).1.
Proof.
  split; [vm_compute; discriminate|].
  exact (proj2 (proj2 (proj2 (secret_scans_never_gate example_svc true example_leg watched_world watched_wf)))
           (policed_calm _) (Some pusher) "team/app" "v1").
Defined.

Definition trusted_key : PublicKey := "ci-key".
Definition accepted : Verdict :=
  Eval vm_compute in match (verifySignature example_svc "team/app" payload_digest demand_signatures signed_world).1 with
                     | Ok v => v | Err _ => refused "" "" "" "" end.
Lemma accepted_signatures_are_counted_witness :
  (keyUsageMatches example_svc trusted_key (mkRef "team/app") payload_digest signed_world).1 = Ok true.
Proof.
  assert (ParseTrustedKey example_key_pem = Ok trusted_key) as Hkey by (vm_compute; reflexivity).
  assert ((verifySignature example_svc "team/app" payload_digest demand_signatures signed_world).1 = Ok accepted) as Hv
    by (vm_compute; reflexivity).
  assert ((keyUsageMatches example_svc trusted_key (mkRef "team/app") payload_digest signed_world).1 ≠ Ok false) as Hn
    by (vm_compute; discriminate).
  destruct (accepted_signatures_are_counted example_svc signed_world "team/app" (mkRef "team/app") payload_digest
    example_key_pem trusted_key demand_signatures accepted (proj1 (policed_good (push_requests ++ sign_requests)))
    (policed_calm _) eq_refl Hkey eq_refl eq_refl Hv eq_refl) as [Hm|[Hm _]]; [exact Hm|destruct (Hn Hm)].
Defined.
