(* ===== verification/FeatureSafety.v ===== *)
(** The features: a configuration that is accepted is what is shown afterwards, and
    the switch of the signing feature moves one bit of the signing policy. *)
From S2P Require Import Prelude GoStrings Errors Repository Digest GoNumbers Manifest Scope Auth Access.
From S2P Require Import RegPorts RegWorld Registry RegService Signing RegSteps RegExample PolicyPorts.
From S2P Require Import PolicyStore PolicyLaws FullLaws PullGate Overrides Scans GateLaws PullExample.
From S2P Require Import PullSafety OverrideSafety Features.

#[local] Opaque DigestFromBytes.

(** * The features as functions of the policy tables *)

Section Functions.
Context `{UnicodeTables}.
Variables (svc : RegConfig) (D : PolicyDB).
Notation t := (tenant svc).

Definition r_load (name : string) : res (featureDescriptor * ScanSettings * bool) :=
  let? feature := lookupFeature name in
  if String.eqb (fd_name feature) signingFeatureName then
    let? loaded :=
      let? policy := rattempt (q_signing_policy t D) in
      match policy with
      | Ok policy => Ok (signing_shell (sg_Enabled policy), true)
      | Err e => if negb (reg_is_code e CodeNotFound) then Err e else Ok (signing_shell false, false)
      end in
    Ok (feature, loaded.1, loaded.2)
  else
    let? settings := rattempt (q_scan_settings t (fd_name feature) D) in
    match settings with
    | Ok settings => Ok (feature, settings, true)
    | Err e => if negb (reg_is_code e CodeNotFound) then Err e else Ok (feature, default_settings, false)
    end.
Definition r_feature (name : string) : res FeatureDetails :=
  let? loaded := r_load name in
  Ok (featureDetailsFromSettings loaded.1.1 loaded.1.2 loaded.2).
End Functions.

(** * Lemmas *)

Lemma looked_up name f : lookupFeature name = Ok f → fd_name f = trim_space name ∧ f ∈ builtInFeatures.
Proof.
  unfold lookupFeature; destruct (List.find _ _) as [f'|] eqn:Hf; [|done]; intros [= ->].
  apply List.find_some in Hf as [Hin He%String.eqb_eq]; split; [done|by apply list_elem_of_In].
Qed.
Lemma same_lookup a b f g : lookupFeature a = Ok f → lookupFeature b = Ok g → fd_name f = fd_name g → trim_space a = trim_space b.
Proof. intros [? _]%looked_up [? _]%looked_up; congruence. Qed.

Section Settings.
Context `{UnicodeTables}.
Variables (svc : RegConfig).
Notation t := (tenant svc).

(** What a written row changes: the feature it is for. *)
Lemma load_written D name f s : lookupFeature name = Ok f → fd_name f ≠ signingFeatureName →
  r_load svc (x_scan_settings t (fd_name f) s D) name = Ok (f, settings_row s, true).
Proof.
  intros Hl Hf; unfold r_load; rewrite Hl; simpl; destruct (String.eqb_spec (fd_name f) signingFeatureName); [done|].
  unfold q_scan_settings; simpl; by rewrite lookup_insert_eq.
Qed.
Lemma load_other D name feature s : trim_space name ≠ feature →
  r_load svc (x_scan_settings t feature s D) name = r_load svc D name.
Proof.
  intros Hf; unfold r_load; destruct (lookupFeature name) as [f|] eqn:Hl; simpl; [|done].
  apply looked_up in Hl as [He _]; destruct (String.eqb_spec (fd_name f) signingFeatureName); [done|].
  unfold q_scan_settings; simpl; rewrite lookup_insert_ne by congruence; done.
Qed.
Lemma details_row f s : featureDetailsFromSettings f (settings_row s) true = featureDetailsFromSettings f s true.
Proof. done. Qed.
End Settings.

Section Handlers.
Context {W : Type} `{ManifestCodec, KeyCrypto, Regexps, OverrideCodec, NetAddresses, PolicyLaws W}.
Variables (svc : RegConfig).
Notation t := (tenant svc).

Lemma load_signing_observed : observes pol_view (loadSigningFeatureSettings svc) (λ _ D,
  let? policy := rattempt (q_signing_policy t D) in
  match policy with
  | Ok policy => Ok (signing_shell (sg_Enabled policy), true)
  | Err e => if negb (reg_is_code e CodeNotFound) then Err e else Ok (signing_shell false, false)
  end).
Proof. unfold loadSigningFeatureSettings; observe. Qed.
#[local] Hint Resolve load_signing_observed : observe.
Lemma load_observed name : observes pol_view (loadFeatureSettings svc name) (λ _ D, r_load svc D name).
Proof. unfold loadFeatureSettings, r_load; observe. Qed.
#[local] Hint Resolve load_observed : observe.
Lemma GetFeature_observed name : observes pol_view (GetFeature svc name) (λ _ D, r_feature svc D name).
Proof. unfold GetFeature, r_feature; observe. Qed.

(** A configuration is written as one row, or not at all. *)
Lemma configure_runs R D name input : runs True R D (ConfigureFeature svc name input) (λ r D',
  match r with
  | Ok d => ∃ f s, lookupFeature name = Ok f ∧ fd_name f ≠ signingFeatureName
      ∧ D' = x_scan_settings t (fd_name f) s D ∧ d = featureDetailsFromSettings f s true
  | Err _ => D' = D
  end).
Proof.
  unfold ConfigureFeature; destruct (String.eqb_spec (trim_space name) signingFeatureName); [by apply runs_throw|].
  eapply bind_observes; [apply load_observed| |done..]; intros [[f settings] configured] Hload.
  unfold r_load in Hload; apply rbind_ok in Hload as (f' & Hf & Hload).
  assert (fd_name f' ≠ signingFeatureName) as Hne by (by apply looked_up in Hf as [-> _]).
  destruct (String.eqb_spec (fd_name f') signingFeatureName); [done|].
  assert (f' = f) as ->.
  { apply rbind_ok in Hload as (r & _ & Hload); destruct r as [s|e]; [by injection Hload|].
    by destruct (negb (reg_is_code e CodeNotFound)); [|injection Hload]. }
  unfold normalizeScanSettings.
  apply (runs_bind _ _ _ _ _ (λ _ D', D' = D)); [|intros s D' ->|by intros].
  { apply bind_lift; [|done]; intros s _; apply bind_now; intros now; by apply runs_ret. }
  eapply bind_writes; [apply UpsertScanSettings_ok| |done]; intros now; apply runs_ret; by exists f, s.
Qed.

(** The signing switch. *)
Lemma switch_runs R D enabled : runs True R D (setSigningFeatureEnabled svc enabled) (λ r D',
  match r with
  | Ok d => ∃ p now, r_global_signing_policy svc D = Ok p ∧ (enabled = true → sg_TrustedPublicKeys p ≠ [])
      ∧ D' = x_signing_policy t (mkSigningPolicy enabled (sg_TrustedPublicKeys p) (sg_TrustedIdentities p) now
                                   (sg_UnsignedSelfRead p)) D
      ∧ fl_Enabled d = enabled
  | Err e => D' = D ∨ ∃ m, e = OtherError m
  end).
Proof.
  unfold setSigningFeatureEnabled; eapply bind_observes; [apply GetSigningPolicySettings_observed| |by left|by left].
  intros p Hp; destruct (enabled && _) eqn:Hen; [apply runs_throw; by left|].
  apply (runs_bind _ _ _ _ _ (λ r D', match r with
    | Ok _ => ∃ now, D' = x_signing_policy t (mkSigningPolicy enabled (sg_TrustedPublicKeys p) (sg_TrustedIdentities p) now
                                                (sg_UnsignedSelfRead p)) D
    | Err _ => D' = D end)).
  - unfold UpdateSigningPolicySettings; apply bind_now; intros now; cbn beta zeta.
    eapply bind_writes; [apply UpsertSigningPolicySettings_ok| |done]; intros now'; apply runs_ret; by exists now.
  - intros _ D' [now ->]; eapply runs_conseq; [apply runs_observes, GetFeature_observed|].
    intros r D' [-> Hr]; cbv beta.
    assert (∃ d, r_feature svc (x_signing_policy t (mkSigningPolicy enabled (sg_TrustedPublicKeys p) (sg_TrustedIdentities p) now
                                  (sg_UnsignedSelfRead p)) D) signingFeatureName = Ok d ∧ fl_Enabled d = enabled) as (d & Hd & He).
    { unfold r_feature, r_load, q_signing_policy; simpl; rewrite lookup_insert_eq; by eexists. }
    rewrite Hd in Hr; destruct Hr as [->|[_ [m ->]]]; [|right; by exists m].
    exists p, now; split_and!; [done| |done..]; intros ->; by destruct (sg_TrustedPublicKeys p).
  - intros e D' ->; by left.
Qed.
End Handlers.

(** * Theorems *)

Section Theorems.
Context {W : Type} `{ManifestCodec, KeyCrypto, Regexps, OverrideCodec, NetAddresses, PolicyLaws W}.
Variables (svc : RegConfig).
Notation t := (tenant svc).

(** A configuration of a feature that is accepted is what the registry shows
    of the feature from then on, and changes nothing it shows of any other
    feature; one that is refused changes nothing. *)
Theorem configuration_is_shown w name input (w' := (ConfigureFeature svc name input w).2) :
  reg_wf w → reg_calm w →
  match (ConfigureFeature svc name input w).1 with
  | Ok d => (GetFeature svc name w').1 = Ok d ∧ fl_Configured d = true
      ∧ ∀ other, trim_space other ≠ trim_space name → (GetFeature svc other w').1 = (GetFeature svc other w).1
  | Err _ => ∀ other, (GetFeature svc other w').1 = (GetFeature svc other w).1
  end.
Proof.
  intros Hw Hc; destruct (configure_runs svc (reg_view w) (pol_view w) name input w Hw (λ _, I) eq_refl eq_refl)
    as (Hw' & Hl & Hv & Hr); fold w' in Hw', Hl, Hv, Hr; assert (reg_calm w') as Hc' by (by eapply reg_calm_later).
  destruct (ConfigureFeature svc name input w).1 as [d'|e];
    [destruct Hr as (f & s & Hf & Hne & HD & ->); split_and!; [|done|intros other Hother]|intros other];
    rewrite ?(observes_calm _ _ _ _ (GetFeature_observed svc _)) by done.
  - unfold r_feature; rewrite HD, (load_written svc _ _ _ _ Hf Hne); done.
  - unfold r_feature; rewrite HD, load_other; [done|]; apply looked_up in Hf as [-> _]; done.
  - by rewrite Hr.
Qed.

(** Switching the signing feature on or off moves one bit: the policy that
    holds afterwards has the keys, the identities and the exemption it had, and the
    new switch; no other table changes. Switching it on is refused when no public
    key is trusted, so the switch never makes a policy that nothing satisfies. *)
Theorem signing_switch_moves_one_bit w enabled (w' := (SetFeatureEnabled svc signingFeatureName enabled w).2) :
  reg_wf w →
  reg_view w' = reg_view w
  ∧ match (SetFeatureEnabled svc signingFeatureName enabled w).1 with
    | Ok d => ∃ p now, r_global_signing_policy svc (pol_view w) = Ok p
        ∧ (enabled = true → sg_TrustedPublicKeys p ≠ [])
        ∧ pol_view w' = x_signing_policy t (mkSigningPolicy enabled (sg_TrustedPublicKeys p) (sg_TrustedIdentities p) now
                                              (sg_UnsignedSelfRead p)) (pol_view w)
        ∧ fl_Enabled d = enabled
    | Err e => pol_view w' = pol_view w ∨ ∃ m, e = OtherError m
    end.
Proof.
  intros Hw; destruct (switch_runs svc (reg_view w) (pol_view w) enabled w Hw (λ _, I) eq_refl eq_refl) as (_ & _ & Hv & Hr).
  split; [exact Hv|exact Hr].
Qed.

(** A policy that trusts identities only cannot be switched on: the switch asks for
    a public key. *)
Lemma identities_do_not_count w p : reg_wf w → reg_calm w → r_global_signing_policy svc (pol_view w) = Ok p →
  sg_TrustedPublicKeys p = [] → is_ok (SetFeatureEnabled svc signingFeatureName true w).1 = false.
Proof.
  intros Hw Hc Hp Hk; change (SetFeatureEnabled svc signingFeatureName true) with (setSigningFeatureEnabled svc true).
  assert ((GetSigningPolicySettings svc w).1 = Ok p) as Hg
    by (rewrite <- Hp; exact (observes_calm _ _ _ _ (GetSigningPolicySettings_observed svc) Hw Hc)).
  unfold setSigningFeatureEnabled, sbind at 1; destruct (GetSigningPolicySettings svc w) as [r w1]; simpl in Hg; subst r.
  by rewrite Hk.
Qed.
End Theorems.

(** * Witnesses *)

#[local] Transparent DigestFromBytes.

Definition slower : FeatureConfigureInput :=
  mkConfigureInput (Some true) None (Some (48 * hour)) None None None None None None None None (Some 2).
Definition configured : FeatureDetails :=
  mkFeatureDetails trivyFeatureName FeatureKindBuiltin true true false (48 * hour) (15 * minute) "" "" "" "" false "" "" 2 no_runtime.

Lemma configuration_is_shown_witness :
  (ConfigureFeature example_svc " trivy " slower signed_world).1 = Ok configured
  ∧ (GetFeature example_svc " trivy " (ConfigureFeature example_svc " trivy " slower signed_world).2).1 = Ok configured.
Proof.
  assert ((ConfigureFeature example_svc " trivy " slower signed_world).1 = Ok configured) as Hc by (vm_compute; reflexivity).
  split; [exact Hc|].
  pose proof (configuration_is_shown example_svc signed_world " trivy " slower
    (proj1 (policed_good (push_requests ++ sign_requests))) (policed_calm _)) as Hs; rewrite Hc in Hs; exact (proj1 Hs).
Defined.

Lemma signing_switch_moves_one_bit_witness :
  is_ok (SetFeatureEnabled example_svc signingFeatureName false signed_world).1 = true
  ∧ reg_view (SetFeatureEnabled example_svc signingFeatureName false signed_world).2 = reg_view signed_world.
Proof.
  split; [vm_compute; reflexivity|].
  exact (proj1 (signing_switch_moves_one_bit example_svc signed_world false (proj1 (policed_good (push_requests ++ sign_requests))))).
Defined.
