(* ===== verification/Release.v ===== *)
(** Releases (internal/infra/release, internal/infra/install/releases): the order of
    versions, the newest release of a channel, the asset of a release, checksums,
    and the verified download of a binary.

    Releases: the order of versions, the newest release of a channel, and what a
    verified download is. *)
From stdpp Require Import gmap strings.
From S2P Require Import Prelude GoStrings Encodings Errors GoNumbers PgExample Signing Overrides Scans.

(** * The update client *)

(** ** Versions (version.go) *)

Record parsedVersion := mkVersion { pv_major : Z; pv_minor : Z; pv_patch : Z; pv_hasRC : bool; pv_rc : Z }.
#[global] Instance parsedVersion_eq_dec : EqDecision parsedVersion.
Proof. solve_decision. Defined.

(** A component: [strconv.Atoi], and not negative. *)
Definition component (s : string) : option Z := n ← Atoi s; if n <? 0 then None else Some n.

Section Versions.
Context `{UnicodeTables}.

Definition version_error (l : message) : error := OtherError (render (Lit "release: version " :: l)).
(** The number of the first component that is none. *)
Fixpoint components (raw : string) (parts : list string) : res (list Z) :=
  match parts with
  | [] => Ok []
  | part :: parts' =>
      match component part with
      | None => Err (version_error [Quoted raw; Lit " component "; Quoted part; Lit " is not a non-negative integer"])
      | Some n => let? ns := components raw parts' in Ok (n :: ns)
      end
  end.
Definition parse_rc (raw rcSuffix : string) : res Z :=
  let rcNumber := trim_prefix "rc" rcSuffix in
  if negb (has_prefix "rc" rcSuffix) || String.eqb rcNumber ""
  then Err (version_error [Quoted raw; Lit " has an unsupported suffix "; Quoted rcSuffix; Lit ", want "; Quoted "rcN"])
  else match component rcNumber with
       | None => Err (version_error [Quoted raw; Lit " has a non-numeric rc suffix "; Quoted rcSuffix])
       | Some n => Ok n
       end.
Definition parseVersion (raw : string) : res parsedVersion :=
  let trimmed := trim_prefix "v" (trim_space raw) in
  if String.eqb trimmed "" then Err (version_error [Lit "is empty"]) else
  let '(core, rcSuffix, hasSuffix) := cut "-" trimmed in
  let? rc := (if hasSuffix : bool then parse_rc raw rcSuffix else Ok 0) in
  let parts := split "." core in
  if negb (length parts =? 3)%nat
  then Err (version_error [Quoted raw; Lit " must have exactly 3 dot-separated components (major.minor.patch), got ";
                           Lit (itoa (length parts))]) else
  let? values := components raw parts in
  match values with
  | [major; minor; patch] => Ok (mkVersion major minor patch hasSuffix rc)
  | _ => Err (version_error [Quoted raw])
  end.

Definition compareVersions (a b : parsedVersion) : Z :=
  if negb (pv_major a =? pv_major b) then pv_major a - pv_major b
  else if negb (pv_minor a =? pv_minor b) then pv_minor a - pv_minor b
  else if negb (pv_patch a =? pv_patch b) then pv_patch a - pv_patch b
  else if negb (Bool.eqb (pv_hasRC a) (pv_hasRC b)) then (if pv_hasRC a then -1 else 1)
  else if negb (pv_hasRC a) then 0 else pv_rc a - pv_rc b.
Definition IsNewerVersion (candidate current : string) : res bool :=
  let? candidateParsed := parseVersion candidate in
  let? currentParsed := parseVersion current in
  Ok (0 <? compareVersions candidateParsed currentParsed).

(** A version as its tag. *)
Definition version_tag (v : parsedVersion) : string :=
  foldr String.append "" ["v"; decimal (pv_major v); "."; decimal (pv_minor v); "."; decimal (pv_patch v);
                          if pv_hasRC v then String.append "-rc" (decimal (pv_rc v)) else ""].

(** ** Channels (channel.go) *)

Definition ChannelStable : string := "stable".
Definition ChannelInsider : string := "insider".
Definition ValidChannel (value : string) : bool := String.eqb value ChannelStable || String.eqb value ChannelInsider.
Definition releasesListPageSize : Z := 100.

(** A tag the channel considers, with its version. *)
Definition eligible (channel tagName : string) : option (string * parsedVersion) :=
  let tag := trim_space tagName in
  if String.eqb tag "" then None else
  match parseVersion tag with
  | Err _ => None
  | Ok v => if String.eqb channel ChannelStable && pv_hasRC v then None else Some (tag, v)
  end.
Definition better (best : option (string * parsedVersion)) (tv : string * parsedVersion) : option (string * parsedVersion) :=
  match best with
  | None => Some tv
  | Some b => if 0 <? compareVersions tv.2 b.2 then Some tv else Some b
  end.
Definition best_of (channel : string) (tags : list string) : option (string * parsedVersion) :=
  foldl better None (omap (eligible channel) tags).
Definition no_release (channel : string) : error :=
  OtherError (render [Lit "release: no eligible release found for channel "; Quoted channel]).

(** ** Checksums (checksum.go) *)

(** The line of a checksum file that is about the archive: its sum. *)
Definition checksum_line (archiveName line : string) : option string :=
  match fields (trim_space line) with
  | sum :: (_ :: _) as l => if String.eqb (trim_prefix "*" (List.last l "")) archiveName then Some sum else None
  | _ => None
  end.
Definition VerifyChecksum (body archiveName checksumsBody : string) : res unit :=
  let want := to_lower (hex_encode (sha256 (bytes_of body))) in
  match head (omap (checksum_line archiveName) (split (ascii_of_nat 10) checksumsBody)) with
  | Some sum => if negb (String.eqb (to_lower (trim_space sum)) want)
                then Err (OtherError (String.append "checksum mismatch for " archiveName)) else Ok tt
  | None => Err (OtherError (String.append "checksum not found for " archiveName))
  end.
End Versions.

(** ** The release service (client.go, github.go) *)

(** A [GET] gives a status and a body; a body that breaks off counts as a failed
    request, and writing the temporary files does not fail. [decode_releases] and
    [decode_release] are the JSON of both answers as far as it is read. *)
Class WebClient (W : Type) := {
  web_NewRequest : string → res unit;
  web_Get : string → M W (Z * string);
  decode_releases : string → list string + string;
  decode_release : string → (string * list (string * string)) + string;
}.

(** [filepath.Base] *)
Definition filepath_Base (p : string) : string :=
  if String.eqb p "" then "." else
  let stripped := trim_right_char "/" p in
  if String.eqb stripped "" then "/" else List.last (split "/" stripped) "".
Definition filepath_Join (a b : string) : string :=
  if String.eqb a "" then (if String.eqb b "" then "" else filepath_Clean b)
  else if String.eqb b "" then filepath_Clean a else filepath_Clean (String.append a (String "/" b)).

Record Asset := mkAsset { as_Tag : string; as_Version : string; as_ArchiveName : string; as_ArchiveURL : string;
                          as_ChecksumsURL : string }.
Definition no_asset (tag version : string) : Asset := mkAsset tag version "" "" "".
(** One candidate of the list; the last match of each kind stays. *)
Definition take_asset (MatchArchive MatchChecksums : string → bool) (asset : Asset) (candidate : string * string) : Asset :=
  let url := trim_space candidate.2 in
  if String.eqb url "" then asset else
  let name := trim_space candidate.1 in
  let name := if String.eqb name "" then filepath_Base url else name in
  let asset := if MatchArchive name then mkAsset (as_Tag asset) (as_Version asset) name url (as_ChecksumsURL asset) else asset in
  if MatchChecksums name
  then mkAsset (as_Tag asset) (as_Version asset) (as_ArchiveName asset) (as_ArchiveURL asset) url else asset.

(** What is in an archive: the names and contents of its entries, regular files or
    not, up to its end or up to the error that stops its reader. *)
Class Archives := { untar : string → list (string * bool * string) * option string }.

Section Service.
Context {W : Type} `{UnicodeTables, WebClient W, Archives}.

Definition wrap (prefix : string) {A} (m : M W A) : M W A :=
  let! r := sattempt m in
  match r with Ok a => sret a | Err e => sthrow (OtherError (String.append prefix (error_string e))) end.
Definition ok_status (status : Z) : bool := (200 <=? status) && (status <? 300).

Definition releases_endpoint (baseAPI : string) : string :=
  foldr String.append "" [trim_right_char "/" (trim_space baseAPI); "?per_page="; Itoa releasesListPageSize].
Definition LatestForChannel (baseAPI channel : string) : M W string :=
  let endpoint := releases_endpoint baseAPI in
  do! slift (web_NewRequest endpoint) in
  let! resp := wrap "release: list releases: " (web_Get endpoint) in
  if negb (ok_status resp.1)
  then sthrow (OtherError (foldr String.append "" ["release: list releases: "; endpoint; " returned "; Itoa resp.1])) else
  match decode_releases resp.2 with
  | inr e => sthrow (OtherError (String.append "release: decode releases list: " e))
  | inl tags => match best_of channel tags with
                | Some (tag, _) => sret tag
                | None => sthrow (no_release channel)
                end
  end.

Definition ResolveAsset (BaseAPI Tag : string) (MatchArchive MatchChecksums : string → bool) : M W Asset :=
  let baseAPI := trim_right_char "/" (trim_space BaseAPI) in
  let tag := trim_space Tag in
  let endpoint := if String.eqb tag "" then String.append baseAPI "/latest" else String.append baseAPI (String.append "/tags/" tag) in
  do! slift (web_NewRequest endpoint) in
  let! resp := wrap "resolve release metadata: " (web_Get endpoint) in
  if negb (ok_status resp.1)
  then sthrow (OtherError (foldr String.append "" ["resolve release metadata: "; endpoint; " returned "; Itoa resp.1])) else
  match decode_release resp.2 with
  | inr e => sthrow (OtherError (String.append "decode release metadata: " e))
  | inl (tagName, assets) =>
      let tagName := trim_space tagName in
      if String.eqb tagName "" then sthrow (OtherError "release metadata did not contain a tag name") else
      let asset := foldl (take_asset MatchArchive MatchChecksums) (no_asset tagName (trim_prefix "v" tagName)) assets in
      if String.eqb (as_ArchiveName asset) "" || String.eqb (as_ArchiveURL asset) "" || String.eqb (as_ChecksumsURL asset) ""
      then sthrow (OtherError (String.append "release asset not found: no matching archive or checksums asset in " endpoint))
      else sret asset
  end.

Definition NormalizeArch (goarch : string) : res string :=
  let arch := trim_space goarch in
  if String.eqb arch "amd64" then Ok "amd64" else if String.eqb arch "arm64" then Ok "arm64"
  else Err (OtherError (String.append "unsupported Linux architecture: " goarch)).
Definition defaultReleasesAPIURL : string := "https://api.github.com/repos/desatatufuria/regixtry/releases".
Definition NewGitHubClient (baseURL : string) : string :=
  let trimmed := trim_right_char "/" (trim_space baseURL) in
  if String.eqb trimmed "" then defaultReleasesAPIURL else trimmed.
Definition archive_suffix (targetOS targetArch : string) : string :=
  foldr String.append "" ["_"; trim_space targetOS; "_"; trim_space targetArch; ".tar.gz"].
Definition Resolve (baseURL ref targetOS targetArch : string) : M W Asset :=
  ResolveAsset baseURL (trim_space ref) (has_suffix (archive_suffix targetOS targetArch)) (has_suffix "_checksums.txt").

Definition downloadFile (sourceURL : string) : M W string :=
  do! slift (web_NewRequest sourceURL) in
  let! resp := wrap (String.append "download " (String.append sourceURL ": ")) (web_Get sourceURL) in
  if negb (ok_status resp.1)
  then sthrow (OtherError (foldr String.append "" ["download "; sourceURL; ": unexpected status "; Itoa resp.1]))
  else sret resp.2.

Definition validateArchive (archive : string) : res unit :=
  match untar archive with
  | (_, Some e) => Err (OtherError e)
  | (entries, None) =>
      match omap (λ e : string * bool * string, if e.1.2 then Some e.1.1 else None) entries with
      | [name] => if String.eqb name "regixtry" then Ok tt
                  else Err (OtherError "archive must contain exactly one regixtry entry named regixtry")
      | _ => Err (OtherError "archive must contain exactly one regixtry entry named regixtry")
      end
  end.
Definition ErrBinaryNotFound : error := OtherError "binary not found in archive".
Definition ExtractBinary (archive binaryName : string) : res string :=
  let '(entries, failure) := untar archive in
  match List.find (λ e : string * bool * string, String.eqb (filepath_Base (trim_space e.1.1)) binaryName && e.1.2) entries with
  | Some e => Ok e.2
  | None => Err (match failure with Some e => OtherError e | None => ErrBinaryNotFound end)
  end.

(** The downloaded files of the directory, under their paths: the checksums are
    written last and read first. *)
Definition DownloadVerifiedBinary (asset : Asset) (dir : string) : M W string :=
  let archivePath := filepath_Join dir (as_ArchiveName asset) in
  let checksumsPath := filepath_Join dir (filepath_Base (as_ChecksumsURL asset)) in
  let! archive := downloadFile (as_ArchiveURL asset) in
  let! checksums := downloadFile (as_ChecksumsURL asset) in
  let files : gmap string string := <[checksumsPath := checksums]> (<[archivePath := archive]> ∅) in
  let body := default "" (files !! archivePath) in
  match VerifyChecksum body (as_ArchiveName asset) (default "" (files !! checksumsPath)) with
  | Err e => sthrow (OtherError (foldr String.append "" ["checksum verification failed for "; as_ArchiveName asset; ": ";
                                                         error_string e]))
  | Ok _ =>
      do! slift (validateArchive body) in
      slift (ExtractBinary body "regixtry")
  end.
End Service.

(** * Checks *)

Definition shown (r : res parsedVersion) : option string := match r with Ok v => Some (version_tag v) | Err _ => None end.
Example versions `{UnicodeTables} : map (λ s, shown (parseVersion s))
    ["v0.2.0"; "0.2.0-rc105"; ""; "dev"; "v1"; "v1.2.3.4"; "v1.2.x"; "v1.2.3-beta1"; "v1.2.3-rc"]
  = [Some "v0.2.0"; Some "v0.2.0-rc105"; None; None; None; None; None; None; None].
Proof. reflexivity. Qed.
Example newest `{UnicodeTables} : map (λ c, fst <$> best_of c ["v0.2.0-rc9"; "v0.2.0-rc105"; "v0.1.0"; "not-a-version"; "v0.2.0-rc99"])
    [ChannelStable; ChannelInsider] = [Some "v0.1.0"; Some "v0.2.0-rc105"].
Proof. reflexivity. Qed.

(** * What it offers and downloads *)

(** What [parseVersion] returns: components of 64 bits that are not negative, and
    no release-candidate number where there is no suffix. *)
Definition in_int (n : Z) : Prop := 0 ≤ n ≤ max_int64.
Definition proper_version (v : parsedVersion) : Prop :=
  in_int (pv_major v) ∧ in_int (pv_minor v) ∧ in_int (pv_patch v) ∧ in_int (pv_rc v) ∧ (pv_hasRC v = false → pv_rc v = 0).
(** [a] is not newer than [b]. *)
Definition version_le (a b : parsedVersion) : Prop := compareVersions a b ≤ 0.

(** * Versions *)

Lemma component_range s n : component s = Some n → in_int n.
Proof.
  unfold component, Atoi, in_int; intros Hn; apply bind_Some in Hn as (m & Ha & Hn).
  destruct (m <? 0) eqn:Hm; [done|]; injection Hn as ->.
  destruct (match s with String "-" _ => _ | _ => _ end) as [neg ds]; destruct (String.eqb ds ""); [done|].
  apply bind_Some in Ha as (k & _ & Ha); destruct (_ && _) eqn:Hr in Ha; [|done]; injection Ha as <-.
  apply andb_true_iff in Hr as [_ Hr%Z.leb_le]; apply Z.ltb_ge in Hm; lia.
Qed.
Lemma components_range `{UnicodeTables} raw parts ns : components raw parts = Ok ns → Forall in_int ns.
Proof.
  revert ns; induction parts as [|part parts IH]; intros ns; simpl; [by intros [= <-]; constructor|].
  destruct (component part) as [n|] eqn:Hc; [|done]; intros Hr; apply rbind_ok in Hr as (ns' & Hns & [= <-]).
  constructor; [by eapply component_range|by apply IH].
Qed.

Lemma parsed_proper `{UnicodeTables} raw v : parseVersion raw = Ok v → proper_version v.
Proof.
  unfold parseVersion; destruct (String.eqb _ ""); [done|]; destruct (cut "-" _) as [[core suffix] has]; intros Hr.
  apply rbind_ok in Hr as (rc & Hrc & Hr); destruct (negb _); [done|]; apply rbind_ok in Hr as (ns & Hns & Hr).
  apply components_range in Hns; destruct ns as [|a [|b [|c [|]]]]; try done; injection Hr as <-.
  rewrite !Forall_cons in Hns; destruct Hns as (? & ? & ? & _); unfold proper_version; simpl; split_and!; try done.
  - destruct has; [|injection Hrc as <-; unfold in_int, max_int64; lia].
    unfold parse_rc in Hrc; destruct (_ || _); [done|]; destruct (component _) eqn:Hc; [|done]; injection Hrc as <-.
    by eapply component_range.
  - intros ->; by injection Hrc as <-.
Qed.

(** The comparison is the lexicographic order of a key. *)
Definition rank (v : parsedVersion) : Z * Z * Z * Z :=
  (pv_major v, pv_minor v, pv_patch v, if pv_hasRC v then pv_rc v else max_int64 + 1).
Definition lex_lt (a b : Z * Z * Z * Z) : Prop :=
  let '(a1, a2, a3, a4) := a in let '(b1, b2, b3, b4) := b in
  a1 < b1 ∨ a1 = b1 ∧ (a2 < b2 ∨ a2 = b2 ∧ (a3 < b3 ∨ a3 = b3 ∧ a4 < b4)).

Lemma compare_neg a b : proper_version a → proper_version b → (compareVersions a b < 0 ↔ lex_lt (rank a) (rank b)).
Proof.
  destruct a as [a1 a2 a3 ar a4], b as [b1 b2 b3 br b4]; intros (? & ? & ? & ? & _) (? & ? & ? & ? & _); unfold in_int in *; simpl in *.
  unfold compareVersions, rank, lex_lt; simpl.
  destruct (Z.eqb_spec a1 b1); simpl; [|lia]; destruct (Z.eqb_spec a2 b2); simpl; [|lia].
  destruct (Z.eqb_spec a3 b3); simpl; [|lia]; destruct ar, br; simpl; lia.
Qed.
Lemma compare_opp a b : compareVersions b a = - compareVersions a b.
Proof.
  destruct a as [a1 a2 a3 ar a4], b as [b1 b2 b3 br b4]; unfold compareVersions; simpl.
  rewrite (Z.eqb_sym b1 a1), (Z.eqb_sym b2 a2), (Z.eqb_sym b3 a3).
  destruct (Z.eqb_spec a1 b1); simpl; [|lia]; destruct (Z.eqb_spec a2 b2); simpl; [|lia].
  destruct (Z.eqb_spec a3 b3); simpl; [|lia]; destruct ar, br; simpl; lia.
Qed.
Lemma compare_zero a b : proper_version a → proper_version b → compareVersions a b = 0 → a = b.
Proof.
  destruct a as [a1 a2 a3 ar a4], b as [b1 b2 b3 br b4]; intros (_ & _ & _ & _ & Ha) (_ & _ & _ & _ & Hb); simpl in *.
  unfold compareVersions; simpl.
  destruct (Z.eqb_spec a1 b1); simpl; [|intros; exfalso; lia]; destruct (Z.eqb_spec a2 b2); simpl; [|intros; exfalso; lia].
  destruct (Z.eqb_spec a3 b3); simpl; [|intros; exfalso; lia]; destruct ar, br; simpl; intros Hc; try (exfalso; lia).
  - by assert (a4 = b4) as -> by lia; subst.
  - by rewrite Ha, Hb; subst.
Qed.
Lemma lex_trans x y z : lex_lt x y → lex_lt y z → lex_lt x z.
Proof. destruct x as [[[? ?] ?] ?], y as [[[? ?] ?] ?], z as [[[? ?] ?] ?]; simpl; lia. Qed.
Lemma compare_refl a : compareVersions a a = 0.
Proof. pose proof (compare_opp a a); lia. Qed.
Lemma le_trans a b c : proper_version a → proper_version b → proper_version c →
  version_le a b → version_le b c → version_le a c.
Proof.
  unfold version_le; intros Ha Hb Hc Hab Hbc.
  destruct (decide (compareVersions a b = 0)) as [E|]; [by apply compare_zero in E as ->|].
  destruct (decide (compareVersions b c = 0)) as [E|]; [by apply compare_zero in E as <-|].
  assert (compareVersions a c < 0); [|lia]; apply compare_neg; [done..|].
  apply (lex_trans _ (rank b)); apply compare_neg; (done || lia).
Qed.

(** ** Tags *)

Lemma component_decimal n : in_int n → component (decimal n) = Some n.
Proof.
  intros [H0 H1]; unfold component; assert (Atoi (decimal n) = Some n) as ->.
  { rewrite <- (Atoi_Itoa n) by (unfold min_int64; lia); unfold Itoa.
    by replace (n <? 0) with false by (symmetry; apply Z.ltb_ge; lia). }
  simpl; by replace (n <? 0) with false by (symmetry; apply Z.ltb_ge; lia).
Qed.

Lemma digits_graphic s : str_forallb is_digit s = true → str_forallb graphic s = true.
Proof.
  apply str_forallb_impl; intros a [H1%Nat.leb_le H2%Nat.leb_le]%andb_true_iff; unfold graphic, in_range.
  apply andb_true_iff; split; apply Nat.leb_le; lia.
Qed.
Lemma digits_no c s : is_digit c = false → str_forallb is_digit s = true → no_char c s = true.
Proof.
  intros Hc; apply str_forallb_impl; intros a Ha; apply negb_true_iff, Ascii.eqb_neq; congruence.
Qed.

(** The numbers of a version between its dots. *)
Definition core_text (v : parsedVersion) : string :=
  String.append (decimal (pv_major v)) (String "." (String.append (decimal (pv_minor v)) (String "." (decimal (pv_patch v))))).
Definition rc_text (v : parsedVersion) : string := if pv_hasRC v then String.append "-rc" (decimal (pv_rc v)) else "".
Lemma tag_text v : version_tag v = String "v" (String.append (core_text v) (rc_text v)).
Proof.
  unfold version_tag, core_text, rc_text; cbn [foldr].
  rewrite !append_assoc; cbn [String.append]; rewrite !append_assoc; cbn [String.append]; by rewrite append_nil_r.
Qed.

Section Tags.
Context `{UnicodeTables}.
Variables (v : parsedVersion) (Hv : proper_version v).

Lemma core_parts : split "." (core_text v) = [decimal (pv_major v); decimal (pv_minor v); decimal (pv_patch v)].
Proof.
  destruct Hv as ([? _] & [? _] & [? _] & _); unfold core_text.
  rewrite split_append, split_append, split_no_char; [done|..]; by apply digits_no, decimal_digits.
Qed.
Lemma core_chars p : (∀ a, is_digit a = true → p a = true) → p "."%char = true → str_forallb p (core_text v) = true.
Proof.
  destruct Hv as ([? _] & [? _] & [? _] & _); intros Hp Hdot; unfold core_text.
  rewrite str_forallb_append; simpl; rewrite str_forallb_append; simpl; rewrite Hdot.
  by rewrite !(str_forallb_impl _ _ _ Hp) by (by apply decimal_digits).
Qed.
Lemma tag_graphic : str_forallb graphic (version_tag v) = true.
Proof.
  rewrite tag_text; simpl; rewrite str_forallb_append, core_chars; [|intros a Ha|done].
  - unfold rc_text; destruct (pv_hasRC v); [|done]; destruct Hv as (_ & _ & _ & [? _] & _); simpl.
    by apply digits_graphic, decimal_digits.
  - pose proof (digits_graphic (String a "")) as Hg; simpl in Hg; rewrite Ha in Hg; specialize (Hg eq_refl).
    by rewrite andb_true_r in Hg.
Qed.
Lemma cut_tag : cut "-" (String.append (core_text v) (rc_text v))
  = (core_text v, if pv_hasRC v then String.append "rc" (decimal (pv_rc v)) else "", pv_hasRC v).
Proof.
  assert (no_char "-" (core_text v) = true) as Hno.
  { apply core_chars; [|done]; intros a Ha; apply negb_true_iff, Ascii.eqb_neq; intros ->; done. }
  unfold rc_text; destruct (pv_hasRC v); [exact (cut_append "-" _ _ Hno)|].
  rewrite append_nil_r; revert Hno; induction (core_text v) as [|a s IH]; simpl; [done|].
  intros [Ha Hs]%andb_true_iff; apply negb_true_iff in Ha; by rewrite Ha, IH.
Qed.
Lemma parse_tag : parseVersion (version_tag v) = Ok v.
Proof.
  unfold parseVersion; rewrite (trim_space_graphic _ tag_graphic), tag_text.
  change (String "v" (String.append (core_text v) (rc_text v))) with (String.append "v" (String.append (core_text v) (rc_text v))).
  rewrite trim_prefix_append.
  assert (String.eqb (String.append (core_text v) (rc_text v)) "" = false) as ->.
  { destruct Hv as ([H0 _] & _); unfold core_text; by destruct (decimal_head _ H0) as (a & s & -> & _). }
  rewrite cut_tag.
  assert ((if pv_hasRC v then parse_rc (String.append "v" (String.append (core_text v) (rc_text v)))
             (if pv_hasRC v then String.append "rc" (decimal (pv_rc v)) else "") else Ok 0) = Ok (pv_rc v)) as ->.
  { destruct Hv as (_ & _ & _ & Hrc & Hz); destruct (pv_hasRC v); [|by rewrite Hz].
    unfold parse_rc; rewrite trim_prefix_append, (component_decimal _ Hrc).
    assert (has_prefix "rc" (String.append "rc" (decimal (pv_rc v))) = true) as -> by (apply has_prefix_spec; by eexists).
    by destruct (decimal_head _ (proj1 Hrc)) as (a & s & -> & _). }
  cbn [rbind]; rewrite core_parts; cbn [length Nat.eqb negb].
  destruct Hv as (Ha & Hb & Hc & _); unfold components; rewrite !component_decimal by done; simpl; by destruct v.
Qed.
End Tags.

(** ** The newest *)

Section Newest.
Context `{UnicodeTables}.
Notation candidate := (string * parsedVersion)%type (only parsing).

Definition newest_of (best : option candidate) (l : list candidate) : Prop :=
  match best with
  | None => l = []
  | Some b => b ∈ l ∧ ∀ c, c ∈ l → version_le c.2 b.2
  end.
Lemma better_newest l : Forall (λ c, proper_version c.2) l → newest_of (foldl better None l) l.
Proof.
  induction l as [|c l IH] using rev_ind; [done|]; intros [Hl Hc]%Forall_app; apply Forall_inv in Hc; simpl in Hc.
  rewrite foldl_snoc; specialize (IH Hl); pose proof (proj1 (Forall_forall _ _) Hl) as Hpr; simpl in Hpr; destruct (foldl better None l) as [b|]; simpl in *.
  - destruct IH as [Hb Hmax]; assert (proper_version b.2) as Hpb by (by apply Hpr).
    destruct (0 <? compareVersions c.2 b.2) eqn:Hcmp; simpl; split.
    + set_solver.
    + intros x [Hx| ->%list_elem_of_singleton]%elem_of_app; [|unfold version_le; by rewrite compare_refl].
      assert (proper_version x.2) as Hpx by (by apply Hpr).
      apply (le_trans _ b.2); [exact Hpx|exact Hpb|exact Hc|by apply Hmax|]; unfold version_le; rewrite compare_opp; apply Z.ltb_lt in Hcmp; lia.
    + set_solver.
    + apply Z.ltb_ge in Hcmp; intros x [Hx| ->%list_elem_of_singleton]%elem_of_app; [by apply Hmax|done].
  - subst; split; [set_solver|]; intros x ->%list_elem_of_singleton; unfold version_le; by rewrite compare_refl.
Qed.
Lemma eligible_proper channel tags : Forall (λ c, proper_version c.2) (omap (eligible channel) tags).
Proof.
  apply Forall_forall; intros c (t & _ & Ht)%list_elem_of_omap; unfold eligible in Ht.
  destruct (String.eqb _ ""); [done|]; destruct (parseVersion _) as [v|] eqn:Hv; [|done].
  destruct (_ && _); [done|]; injection Ht as <-; by eapply parsed_proper.
Qed.
End Newest.

(** ** Downloads *)

Section Downloads.
Context {W : Type} `{UnicodeTables, WebClient W, Archives}.

Lemma checksum_ok body name checksums : VerifyChecksum body name checksums = Ok tt ↔
  ∃ sum, head (omap (checksum_line name) (split (ascii_of_nat 10) checksums)) = Some sum
    ∧ to_lower (trim_space sum) = to_lower (hex_encode (sha256 (bytes_of body))).
Proof.
  unfold VerifyChecksum; destruct (head _) as [sum|].
  - destruct (String.eqb_spec (to_lower (trim_space sum)) (to_lower (hex_encode (sha256 (bytes_of body))))) as [He|Hne]; simpl.
    + split; [intros _; by exists sum|done].
    + split; [done|intros (s & [= <-] & ?); congruence].
  - split; [done|by intros (s & ? & _)].
Qed.
Lemma archive_ok archive : validateArchive archive = Ok tt → ∃ entries,
  untar archive = (entries, None)
  ∧ omap (λ e : string * bool * string, if e.1.2 then Some e.1.1 else None) entries = ["regixtry"].
Proof.
  unfold validateArchive; destruct (untar archive) as [entries [e|]]; [done|].
  destruct (omap _ entries) as [|name [|]] eqn:Ho; [done| |done].
  destruct (String.eqb_spec name "regixtry") as [->|]; [|done]; intros _; by exists entries.
Qed.
(** The only regular entry is the one extracted. *)
Lemma extract_only entries archive bin :
  untar archive = (entries, None) → ExtractBinary archive "regixtry" = Ok bin →
  omap (λ e : string * bool * string, if e.1.2 then Some e.1.1 else None) entries = ["regixtry"] →
  ("regixtry", true, bin) ∈ entries.
Proof.
  unfold ExtractBinary; intros ->; destruct (List.find _ entries) as [[[name reg] content]|] eqn:Hf; [|done]; intros [= ->] Ho.
  apply List.find_some in Hf as [Hin [_ Hreg]%andb_true_iff]; simpl in Hreg; subst reg.
  apply list_elem_of_In in Hin; assert (name ∈ ["regixtry"]) as ->%list_elem_of_singleton; [|done].
  rewrite <- Ho; apply list_elem_of_omap; by exists (name, true, bin).
Qed.
Lemma bind_outcome {A B} (m : M W A) (k : A → M W B) w b : (sbind m k w).1 = Ok b → ∃ a w', m w = (Ok a, w') ∧ (k a w').1 = Ok b.
Proof. unfold sbind; destruct (m w) as [[a|e] w']; [|done]; intros Hk; by exists a, w'. Qed.
End Downloads.

(** * Theorems *)

Section Theorems.
Context {W : Type} `{UnicodeTables, WebClient W, Archives}.

(** Versions are totally ordered. On versions that were parsed, the comparison
    is zero exactly on equal versions, changes its sign when they are swapped, is
    transitive, and puts a release candidate before its release and candidates in
    the order of their numbers; and it never overflows a 64-bit integer. *)
Theorem versions_are_ordered raw1 raw2 raw3 a b c :
  parseVersion raw1 = Ok a → parseVersion raw2 = Ok b → parseVersion raw3 = Ok c →
  (compareVersions a b = 0 ↔ a = b)
  ∧ compareVersions b a = - compareVersions a b
  ∧ (version_le a b → version_le b c → version_le a c)
  ∧ (compareVersions a b < 0 ↔ lex_lt (rank a) (rank b))
  ∧ min_int64 ≤ compareVersions a b ≤ max_int64.
Proof.
  intros Ha%parsed_proper Hb%parsed_proper Hc%parsed_proper; split_and!.
  - split; [by apply compare_zero|intros ->; apply compare_refl].
  - apply compare_opp.
  - by apply le_trans.
  - by apply compare_neg.
  - destruct Ha as ([? ?] & [? ?] & [? ?] & [? ?] & _), Hb as ([? ?] & [? ?] & [? ?] & [? ?] & _).
    unfold compareVersions, min_int64, max_int64 in *; repeat case_match; lia.
  - destruct Ha as ([? ?] & [? ?] & [? ?] & [? ?] & _), Hb as ([? ?] & [? ?] & [? ?] & [? ?] & _).
    unfold compareVersions, min_int64, max_int64 in *; repeat case_match; lia.
Qed.

(** Every version is the reading of its tag: a version with non-negative 64-bit
    components, written as [vMAJOR.MINOR.PATCH] or [vMAJOR.MINOR.PATCH-rcN], parses
    back to itself. *)
Theorem version_tag_round_trip v : proper_version v → parseVersion (version_tag v) = Ok v.
Proof. apply parse_tag. Qed.

(** The release a channel offers is the newest it considers: when the service
    lists its tags, the answer is one of them that parses, on the stable channel no
    release candidate, and no tag the channel considers is newer; there is no answer
    only if the channel considers none of them. *)
Theorem channel_offers_the_newest w baseAPI channel tags status body w' :
  web_NewRequest (releases_endpoint baseAPI) = Ok tt →
  web_Get (releases_endpoint baseAPI) w = (Ok (status, body), w') →
  ok_status status = true → decode_releases body = inl tags →
  match (LatestForChannel baseAPI channel w).1 with
  | Ok tag => ∃ v, (tag, v) ∈ omap (eligible channel) tags
      ∧ ∀ other v', (other, v') ∈ omap (eligible channel) tags → version_le v' v
  | Err e => e = no_release channel ∧ omap (eligible channel) tags = []
  end.
Proof.
  intros Hreq Hget Hst Hdec; unfold LatestForChannel, wrap, sbind, sattempt, slift; cbv zeta; rewrite Hreq, Hget; simpl.
  rewrite Hst; simpl; rewrite Hdec; unfold best_of.
  pose proof (better_newest _ (eligible_proper channel tags)) as Hbest.
  destruct (foldl better None (omap (eligible channel) tags)) as [[tag v]|]; simpl in *; [|done].
  destruct Hbest as [Hin Hmax]; exists v; split; [done|]; intros other v'; apply (Hmax (other, v')).
Qed.

(** C17: An update is what its release says it is: when a verified download returns
    a binary, the downloaded archive has the SHA-256 sum that the release's checksum
    file gives for the archive's name, and the binary is the content of the
    archive's only regular entry. *)
Theorem downloads_are_verified w asset dir bin :
  filepath_Join dir (as_ArchiveName asset) ≠ filepath_Join dir (filepath_Base (as_ChecksumsURL asset)) →
  (DownloadVerifiedBinary asset dir w).1 = Ok bin →
  ∃ archive checksums w1 w2 sum entries,
    downloadFile (as_ArchiveURL asset) w = (Ok archive, w1) ∧ downloadFile (as_ChecksumsURL asset) w1 = (Ok checksums, w2)
    ∧ head (omap (checksum_line (as_ArchiveName asset)) (split (ascii_of_nat 10) checksums)) = Some sum
    ∧ to_lower (trim_space sum) = to_lower (hex_encode (sha256 (bytes_of archive)))
    ∧ untar archive = (entries, None)
    ∧ omap (λ e : string * bool * string, if e.1.2 then Some e.1.1 else None) entries = ["regixtry"]
    ∧ ("regixtry", true, bin) ∈ entries.
Proof.
  intros Hne Hok; unfold DownloadVerifiedBinary in Hok.
  apply bind_outcome in Hok as (archive & w1 & Ha & Hok); apply bind_outcome in Hok as (checksums & w2 & Hc & Hok).
  rewrite lookup_insert_ne, lookup_insert_eq, lookup_insert_eq in Hok by congruence; simpl in Hok.
  destruct (VerifyChecksum archive _ checksums) as [[]|] eqn:Hv; [|done].
  apply bind_outcome in Hok as ([] & w3 & Hval & Hok); injection Hval as Hval _.
  apply checksum_ok in Hv as (sum & Hsum & Heq); apply archive_ok in Hval as (entries & Ht & Ho).
  exists archive, checksums, w1, w2, sum, entries; split_and!; try done; by eapply extract_only.
Qed.
End Theorems.

(** * Witnesses *)

Definition example_archive : string := "archive-body".
Definition example_checksums : string :=
  Eval vm_compute in foldr String.append ""
    [hex_encode (sha256 (bytes_of "other")); "  other.tar.gz"; String (ascii_of_nat 10) "";
     hex_encode (sha256 (bytes_of example_archive)); "  *regixtry_linux_amd64.tar.gz"].
Definition example_tags : list string := ["v0.2.0-rc9"; "v0.2.0-rc105"; "v0.1.0"; "not-a-version"].
(** One release service: the archive, its checksums and the list of releases. *)
#[global] Instance example_web : WebClient unit := {|
  web_NewRequest _ := Ok tt;
  web_Get url _ := (Ok (200, if String.eqb url "archive" then example_archive
                             else if String.eqb url "sums_checksums.txt" then example_checksums else ""), tt);
  decode_releases _ := inl example_tags;
  decode_release _ := inr "unexpected end of JSON input";
|}.
#[global] Instance example_archives : Archives :=
  {| untar _ := ([("docs", false, ""); ("regixtry", true, "binary")], None) |}.
Definition example_asset : Asset := mkAsset "v0.2.0" "0.2.0" "regixtry_linux_amd64.tar.gz" "archive" "sums_checksums.txt".
Definition version_1 : parsedVersion := mkVersion 0 2 0 true 9.
Definition version_2 : parsedVersion := mkVersion 0 2 0 true 105.
Definition version_3 : parsedVersion := mkVersion 0 2 0 false 0.

Lemma versions_are_ordered_witness :
  compareVersions version_1 version_2 < 0 ∧ version_le version_1 version_3.
Proof.
  destruct (versions_are_ordered "v0.2.0-rc9" "v0.2.0-rc105" "0.2.0" version_1 version_2 version_3 eq_refl eq_refl eq_refl)
    as (_ & _ & Htrans & Hlex & _).
  split; [apply Hlex; right; split; [reflexivity|]; right; split; [reflexivity|]; right; split; reflexivity|].
  apply Htrans; unfold version_le; vm_compute; discriminate.
Defined.
Lemma version_tag_round_trip_witness : parseVersion "v0.2.0-rc105" = Ok version_2.
Proof.
  apply (version_tag_round_trip version_2); unfold proper_version, in_int, max_int64; simpl; split_and!; (lia || discriminate).
Defined.
Lemma channel_offers_the_newest_witness :
  ∃ v, ("v0.1.0", v) ∈ omap (eligible ChannelStable) example_tags
    ∧ ∀ other v', (other, v') ∈ omap (eligible ChannelStable) example_tags → version_le v' v.
Proof.
  exact (channel_offers_the_newest (W := unit) tt "https://api" ChannelStable example_tags 200 "" tt eq_refl eq_refl eq_refl eq_refl).
Defined.
Lemma downloads_are_verified_witness :
  ∃ entries, untar example_archive = (entries, None) ∧ ("regixtry", true, "binary") ∈ entries.
Proof.
  destruct (downloads_are_verified (W := unit) tt example_asset "/tmp/stage" "binary")
    as (archive & checksums & w1 & w2 & sum & entries & Ha & _ & _ & _ & Hu & _ & Hin);
    [vm_compute; discriminate|vm_compute; reflexivity|].
  exists entries; split; [|exact Hin]; injection Ha as <-; exact Hu.
Defined.
