(* ===== verification/Http.v ===== *)
(** What the HTTP layer reads and writes (internal/protocol/http and the parts of
    net/http and net/url it uses): requests, query strings, the paths of the
    registry's routes, the multiplexer, responses, and the mapping of errors to
    responses.

    The registry's HTTP routes (internal/protocol/http/router.go): who a request
    is from, and one handler per route over the services. A handler gives the
    response it writes; an error it throws is a panic, which ends the request
    without one. *)
From S2P Require Import Prelude GoStrings Encodings Errors Repository Digest GoNumbers Manifest Scope Auth.
From S2P Require Import Access AuthStore AuthService RegPorts RegService Signing Gc PolicyPorts PolicyStore.
From S2P Require Import PullGate Overrides Scans Console.

(** * Requests and responses *)

(** ** Requests *)

(** A request as the server hands it over. [rq_EscapedPath] is the path of its
    request line and [rq_Path] that path decoded; a header that is absent is
    empty; [rq_PostForm] is what net/http makes of a posted form ([None] when it
    does not parse). The server always gives a body. *)
Record request := mkRequest {
  rq_Method : string;
  rq_EscapedPath : string;
  rq_Path : string;
  rq_RawQuery : string;
  rq_Authorization : string;
  rq_ContentType : string;
  rq_ContentLength : Z;
  rq_PostForm : option (list (string * string));
  rq_Body : Reader;
}.

(** [url.QueryUnescape] and [url.PathUnescape]: they differ in the plus sign. *)
Definition hex_val (a : ascii) : nat :=
  if is_digit a then code a - 48 else if in_range 97 102 a then code a - 87 else code a - 55.
Fixpoint unescape (plus : bool) (s : string) : option string :=
  match s with
  | "" => Some ""
  | String a s' =>
      if Ascii.eqb a "%" then
        match s' with
        | String x (String y t) =>
            if is_hex x && is_hex y
            then r ← unescape plus t; Some (String (ascii_of_nat (16 * hex_val x + hex_val y)) r)
            else None
        | _ => None
        end
      else r ← unescape plus s'; Some (String (if plus && Ascii.eqb a "+" then " "%char else a) r)
  end.
Definition has_byte (c : ascii) (s : string) : bool := negb (no_char c s).

(** [url.ParseQuery]: the pairs in order, and whether all of them parsed. *)
Fixpoint parse_pairs (pairs : list string) : list (string * string) * bool :=
  match pairs with
  | [] => ([], true)
  | kv :: pairs' =>
      let '(values, ok) := parse_pairs pairs' in
      if has_byte ";" kv then (values, false) else
      if String.eqb kv "" then (values, ok) else
      let '(key, value, _) := cut "=" kv in
      match unescape true key, unescape true value with
      | Some key, Some value => ((key, value) :: values, ok)
      | _, _ => (values, false)
      end
  end.
Definition ParseQuery (raw : string) : list (string * string) * bool :=
  if String.eqb raw "" then ([], true) else parse_pairs (split "&" raw).
(** [url.Values.Get]: the first value. *)
Definition values_Get (values : list (string * string)) (key : string) : string :=
  match List.find (λ kv : string * string, String.eqb kv.1 key) values with Some kv => kv.2 | None => "" end.
Definition values_of (values : list (string * string)) (key : string) : list string :=
  map snd (List.filter (λ kv : string * string, String.eqb kv.1 key) values).
Definition query (req : request) : list (string * string) := (ParseQuery (rq_RawQuery req)).1.

(** [Request.BasicAuth] *)
Definition has_fold_prefix (p s : string) : bool :=
  (String.length p <=? String.length s)%nat && String.eqb (str_map lower_byte (substring 0 (String.length p) s)) p.
Definition BasicAuth (req : request) : option (string * string) :=
  if negb (has_fold_prefix "basic " (rq_Authorization req)) then None else
  match base64_DecodeString (drop_str 6 (rq_Authorization req)) with
  | None => None
  | Some cs => let '(username, password, ok) := cut ":" cs in if ok : bool then Some (username, password) else None
  end.

(** ** Responses *)

(** An object built field by field: a duration is written as its text, a list is
    never null. *)
Inductive field :=
  | FBool (b : bool) | FText (s : string) | FInt (n : Z) | FDuration (d : Duration) | FTime (t : Time)
  | FTexts (l : list string) | FIdentities (l : list TrustedIdentity) | FRuntime (r : FeatureRuntime).
Notation fields_of := (list (string * field)).

(** What is handed to the JSON encoder. [TokenAnswer] is the object of [handleToken]:
    the token under two names, its lifetime in seconds, when it was issued, and the
    service and scope unless empty. *)
Inductive answer :=
  | CatalogAnswer (repositories : list string)
  | TagsAnswer (name : string) (tags : list string)
  | ReferrersAnswer (manifests : list ReferrerDescriptor)
  | DeletionAnswer (details : DeletionDetails)
  | RepositoryDeletionAnswer (details : RepositoryDeletionDetails)
  | ScanStatusAnswer (result : ScanStatusResult)
  | SignatureStatusAnswer (result : SignatureStatusResult)
  | SecretScanStatusAnswer (result : SecretScanStatusResult)
  | TokenAnswer (token : string) (expires_in : Z) (issued_at : Time) (service scope : string)
  | Fields (fields : fields_of)
  | ErrorsAnswer (code message : string)
  | ErrorAnswer (message : string)
  | OverrideAnswer (override : string * fields_of)
  | OverridesAnswer (overrides : list (string * fields_of))
  | ScanRunsAnswer (runs : list ScanRun)
  | ScanRunAnswer (run : ScanRun)
  | ScanRunDetailAnswer (detail : ScanRunDetail)
  | ScanSummariesAnswer (summaries : list RepositoryScanSummary)
  | SecretRunDetailAnswer (detail : SecretScanRunDetail)
  | GCReportAnswer (detail : GCReportDetail)
  | FeaturesAnswer (features : list FeatureSummary)
  | FeaturePageAnswer (page : FeaturePage)
  | FeatureActionAnswer (result : FeatureActionResult)
  | RuntimeStateAnswer (state : FeatureRuntimeState)
  | UsersAnswer (users : list AdminUser)
  | UserAnswer (user : AdminUser)
  | RobotsAnswer (robots : list AdminRobot)
  | CreatedRobotAnswer (created : AdminCreatedRobot)
  | UserGrantsAnswer (grants : list AdminRepoGrant)
  | UserGrantAnswer (grant : AdminRepoGrant)
  | RepositoryGrantsAnswer (grants : list AdminRepositoryGrant)
  | RepositoryGrantAnswer (grant : AdminRepositoryGrant)
  | TokensAnswer (tokens : list AdminToken)
  | CreatedTokenAnswer (created : AdminCreatedToken).
Inductive body :=
  | NoBody
  | Bytes (content : string)
  | JSON (a : answer)
  | RedirectPage.

(** The objects of the administration (admin_handlers.go): credentials and paths of
    the host are not among their fields. *)
Definition scanSettingsResponse (settings : ScanSettings) : fields_of :=
  [("enabled", FBool (ss_Enabled settings)); ("schedule_enabled", FBool (ss_ScheduleEnabled settings));
   ("interval", FDuration (ss_Interval settings)); ("timeout", FDuration (ss_Timeout settings));
   ("service_url", FText (ss_ServiceURL settings)); ("registry_reachable_url", FText (ss_RegistryReachableURL settings));
   ("tls_ca_cert_path", FText (ss_TLSCACertPath settings));
   ("tls_insecure_skip_verify", FBool (ss_TLSInsecureSkipVerify settings));
   ("max_concurrency", FInt (ss_MaxConcurrency settings)); ("updated_at", FTime (ss_UpdatedAt settings))].
Definition scanPolicySettingsResponse (settings : ScanPolicySettings) : fields_of :=
  [("enabled", FBool (sp_Enabled settings)); ("severity_threshold", FText (sp_SeverityThreshold settings));
   ("updated_at", FTime (sp_UpdatedAt settings))].
Definition signingPolicySettingsResponse (settings : SigningPolicySettings) : fields_of :=
  [("enabled", FBool (sg_Enabled settings)); ("trusted_public_keys", FTexts (sg_TrustedPublicKeys settings));
   ("trusted_identities", FIdentities (sg_TrustedIdentities settings));
   ("unsigned_self_read", FText (sg_UnsignedSelfRead settings)); ("updated_at", FTime (sg_UpdatedAt settings))].
Definition featureDetailsResponse (details : FeatureDetails) (includeRuntime : bool) : fields_of :=
  ([("name", FText (fl_Name details)); ("kind", FText (fl_Kind details)); ("enabled", FBool (fl_Enabled details));
    ("configured", FBool (fl_Configured details)); ("schedule_enabled", FBool (fl_ScheduleEnabled details));
    ("interval", FDuration (fl_Interval details)); ("timeout", FDuration (fl_Timeout details));
    ("service_url", FText (fl_ServiceURL details)); ("registry_reachable_url", FText (fl_RegistryReachableURL details));
    ("tls_ca_cert_path", FText (fl_TLSCACertPath details));
    ("tls_insecure_skip_verify", FBool (fl_TLSInsecureSkipVerify details));
    ("max_concurrency", FInt (fl_MaxConcurrency details))]
   ++ (if includeRuntime then [("runtime", FRuntime (fl_Runtime details))] else []))%list.
Definition updateChannelResponse (channel : string) : fields_of := [("channel", FText channel)].

(** [rp_Scan]: the scan the handler left running in the background. Header names
    are spelled as the source spells them. *)
Record response := mkResponse {
  rp_Status : Z;
  rp_Header : gmap string string;
  rp_Body : body;
  rp_Scan : option (ScanRun * ScanSettings);
}.
Definition only_status (status : Z) : response := mkResponse status ∅ NoBody None.
Definition with_header (k v : string) (r : response) : response :=
  mkResponse (rp_Status r) (<[k := v]> (rp_Header r)) (rp_Body r) (rp_Scan r).
Definition with_scan (scan : option (ScanRun * ScanSettings)) (r : response) : response :=
  mkResponse (rp_Status r) (rp_Header r) (rp_Body r) scan.
Definition method_not_allowed (allow : list string) : response :=
  mkResponse 405 {[ "Allow" := join ", " allow ]} NoBody None.
Definition writeJSONAs (status : Z) (contentType : string) (payload : answer) : response :=
  mkResponse status {[ "Content-Type" := contentType ]} (JSON payload) None.
Definition writeJSON (status : Z) (payload : answer) : response := writeJSONAs status "application/json" payload.

(** ** The routes of the registry (router.go) *)

Definition uploadLocation (repository uploadID : string) : string :=
  foldr String.append "" ["/v2/"; repository; "/blobs/uploads/"; uploadID].
Definition blobLocation (repository digest : string) : string :=
  foldr String.append "" ["/v2/"; repository; "/blobs/"; digest].
Definition manifestLocation (repository reference : string) : string :=
  foldr String.append "" ["/v2/"; repository; "/manifests/"; reference].
Definition uploadRange (size : Z) : string :=
  if size <=? 0 then "0-0" else String.append "0-" (Itoa (size - 1)).

Definition setUploadHeaders (repository uploadID : string) (size : Z) (r : response) : response :=
  let r := with_header "Content-Length" "0" (with_header "Range" (uploadRange size)
             (with_header "Docker-Upload-UUID" uploadID (with_header "Location" (uploadLocation repository uploadID) r))) in
  if 0 <? size then with_header "OCI-Chunk-Min-Length" (Itoa size) r else r.
Definition writeBlobHeaders (mediaType digest : string) (size : Z) (r : response) : response :=
  let r := if String.eqb mediaType "" then r else with_header "Content-Type" mediaType r in
  with_header "Content-Length" (Itoa size) (with_header "Docker-Content-Digest" digest r).

(** One marker of [splitRepositoryPath]: inside the path, or at its end. *)
Definition split_at (path marker : string) : option (string * string) :=
  let bare := trim_prefix "/" marker in
  match str_index marker path with
  | Some (S n) => Some (substring 0 (S n) path, trim_prefix "/" (drop_str (S (S n)) path))
  | _ =>
      if negb (has_suffix bare path) then None else
      let repository := trim_suffix "/" (trim_suffix bare path) in
      if String.eqb repository "" then None else Some (repository, bare)
  end.
Definition markers : list string :=
  ["/blobs/uploads/"; "/blobs/uploads"; "/blobs/"; "/manifests/"; "/tags/list"; "/referrers/"].
Definition first_of (l : list (option (string * string))) : option (string * string) := head (omap id l).
Definition splitRepositoryPath (path : string) : option (string * string) := first_of (map (split_at path) markers).

Inductive v2_route :=
  | RouteBase
  | RouteCatalog
  | RouteUploadStart (repository : string)
  | RouteUploadState (repository uploadID : string)
  | RouteBlobRead (repository digest : string)
  | RouteScanStatus (repository reference : string)
  | RouteSignatureStatus (repository reference : string)
  | RouteSecretScanStatus (repository reference : string)
  | RouteManifest (repository reference : string)
  | RouteTags (repository : string)
  | RouteReferrers (repository subjectDigest : string)
  | RouteUnknown.
Definition manifest_route (repository reference : string) : v2_route :=
  if has_suffix "/scan-status" reference then RouteScanStatus repository (trim_suffix "/scan-status" reference)
  else if has_suffix "/signature-status" reference
  then RouteSignatureStatus repository (trim_suffix "/signature-status" reference)
  else if has_suffix "/secret-scan-status" reference
  then RouteSecretScanStatus repository (trim_suffix "/secret-scan-status" reference)
  else RouteManifest repository reference.
(** The switch of [handleV2]. *)
Definition suffix_route (repository suffix : string) : v2_route :=
  if String.eqb suffix "blobs/uploads" || String.eqb suffix "blobs/uploads/" then RouteUploadStart repository
  else if has_prefix "blobs/uploads/" suffix then RouteUploadState repository (trim_prefix "blobs/uploads/" suffix)
  else if has_prefix "blobs/" suffix then RouteBlobRead repository (trim_prefix "blobs/" suffix)
  else if has_prefix "manifests/" suffix then manifest_route repository (trim_prefix "manifests/" suffix)
  else if String.eqb suffix "tags/list" then RouteTags repository
  else if has_prefix "referrers/" suffix then RouteReferrers repository (trim_prefix "referrers/" suffix)
  else RouteUnknown.
Definition route_of (urlPath : string) : v2_route :=
  if String.eqb urlPath "/v2" || String.eqb urlPath "/v2/" then RouteBase else
  let path := trim_prefix "/v2/" urlPath in
  if String.eqb path "_catalog" then RouteCatalog else
  match splitRepositoryPath path with
  | None => RouteUnknown
  | Some (repository, suffix) => suffix_route repository suffix
  end.

(** ** The multiplexer (net/http.ServeMux) *)

Inductive mux_target :=
  | ToToken | ToUpdateChannel | ToAdmin | ToV2 | ToNotFound | ToBadRequest | ToRedirect (location : string).

(** [cleanPath]: a trailing slash stays. *)
Definition ends_in_slash (p : string) : bool := has_suffix "/" p.
Definition cleanPath (p : string) : string :=
  let p := if has_prefix "/" p then p else String "/" p in
  let np := filepath_Clean p in
  if ends_in_slash p && negb (String.eqb np "/") then String.append np "/" else np.
(** [URL.String] of a path: the bytes a path may hold stay, the others are escaped. *)
Definition path_byte (a : ascii) : bool :=
  is_upper a || is_lower a || is_digit a || existsb (Ascii.eqb a) ["-"; "_"; "."; "~"; "$"; "&"; "+"; ","; "/"; ":"; ";"; "="; "@"]%char.
Definition upper_hex_digit (n : nat) : ascii := ascii_of_nat (if (n <? 10)%nat then 48 + n else 55 + n).
Fixpoint escape_path (s : string) : string :=
  match s with
  | "" => ""
  | String a s' =>
      if path_byte a then String a (escape_path s')
      else String "%" (String (upper_hex_digit (code a / 16)) (String (upper_hex_digit (code a mod 16)) (escape_path s')))
  end.
Definition segment (s : string) : string := default s (unescape false s).
Definition segments (p : string) : list string := map segment (split "/" (trim_prefix "/" p)).
(** The patterns [NewRouter] registers: [/auth/token] with an auth service, the
    administration with an admin service, and the routes that are always there. *)
Definition match_pattern (has_auth has_admin : bool) (p : string) : option mux_target :=
  match segments p with
  | ["auth"; "token"] => if has_auth then Some ToToken else None
  | ["update-channel"] => Some ToUpdateChannel
  | "admin" :: "v1" :: _ => if has_admin then Some ToAdmin else None
  | "v2" :: _ => Some ToV2
  | _ => None
  end.
Definition mux (has_auth has_admin : bool) (req : request) : mux_target :=
  if String.eqb (rq_EscapedPath req) "*" then ToBadRequest else
  let clean := if String.eqb (rq_Method req) "CONNECT" then rq_EscapedPath req else cleanPath (rq_EscapedPath req) in
  if negb (String.eqb clean (rq_EscapedPath req))
  then ToRedirect (String.append (escape_path clean)
                     (if String.eqb (rq_RawQuery req) "" then "" else String "?" (rq_RawQuery req)))
  else default ToNotFound (match_pattern has_auth has_admin clean).

(** ** Errors *)

Section Rendering.
Context `{UnicodeTables}.

(** [%q]: the attributes that are set, in order. *)
Definition attribute (name value : string) : list string :=
  if String.eqb value "" then [] else [String.append name (String "=" (go_quote value))].
Definition challengeHeader (challenge : Challenge) : string :=
  let scheme := default_to "Bearer" (ch_Scheme challenge) in
  match (attribute "realm" (ch_Realm challenge) ++ attribute "service" (ch_Service challenge)
         ++ attribute "scope" (ch_Scope challenge) ++ attribute "error" (ch_Error challenge))%list with
  | [] => scheme
  | parts => String.append scheme (String " " (join "," parts))
  end.

(** The message without the code, and all of an error that is not the domain's. *)
Definition error_message (err : error) : string :=
  match err with RegError _ m | AuthError _ m => render m | OtherError m => m end.
(** The status and the OCI code of an error. *)
Definition registry_status (err : error) (defaultCode : string) : Z * string :=
  match err with
  | RegError CodeUnauthorized _ => (401, "UNAUTHORIZED")
  | RegError CodeNotFound _ => (404, defaultCode)
  | RegError CodePolicyViolation _ => (403, "DENIED")
  | RegError (CodeInvalidDigest | CodeDigestMismatch | CodeInvalidManifest | CodeValidation) _ =>
      (400, default_to "DIGEST_INVALID" defaultCode)
  | RegError CodeConflict _ => (409, default_to "DENIED" defaultCode)
  | AuthError (AuthInvalidCredentials | AuthExpiredToken | AuthRevokedToken | AuthDisabledUser | AuthForbidden) _ =>
      (401, "UNAUTHORIZED")
  | AuthError AuthValidation _ => (400, defaultCode)
  | AuthError AuthNotFound _ => (404, defaultCode)
  | AuthError AuthConflict _ => (409, defaultCode)
  | _ => (500, defaultCode)
  end.
Definition challenged (challenge : Challenge) (r : response) : response :=
  if rp_Status r =? 401 then with_header "WWW-Authenticate" (challengeHeader challenge) r else r.
Definition writeError (err : error) (challenge : Challenge) (defaultCode : string) : response :=
  let '(status, code) := registry_status err defaultCode in
  challenged challenge (writeJSON status (ErrorsAnswer code (error_message err))).

Definition isInvalidTokenError (err : error) : bool :=
  auth_is_code err AuthInvalidCredentials || auth_is_code err AuthExpiredToken || auth_is_code err AuthRevokedToken
  || auth_is_code err AuthDisabledUser.

(** The administration's own mapping: 403 where the registry says 401. *)
Definition admin_status (err : error) : Z :=
  match err with
  | RegError (CodeInvalidRepository | CodeValidation) _ => 422
  | RegError CodeNotFound _ => 404
  | RegError CodeConflict _ => 409
  | RegError CodeUnauthorized _ => 403
  | RegError CodeUnsupported _ => 501
  | AuthError (AuthInvalidCredentials | AuthExpiredToken | AuthRevokedToken | AuthDisabledUser) _ => 401
  | AuthError AuthForbidden _ => 403
  | AuthError AuthValidation _ => 422
  | AuthError AuthNotFound _ => 404
  | AuthError AuthConflict _ => 409
  | _ => 500
  end.
Definition writeAdminError (err : error) (challenge : Challenge) : response :=
  challenged challenge (writeJSON (admin_status err) (ErrorAnswer (error_message err))).

(** [n] and [last]. *)
Definition parsePagination (req : request) : res (Z * string) :=
  let raw := trim_space (values_Get (query req) "n") in
  let? limit := (if String.eqb raw "" then Ok 0 else
                 match Atoi raw with
                 | Some n => if n <? 0 then Err (NewValidationError "pagination parameter n must be a positive integer") else Ok n
                 | None => Err (NewValidationError "pagination parameter n must be a positive integer")
                 end) in
  Ok (limit, trim_space (values_Get (query req) "last")).

(** [scope] may be given more than once; the posted form comes first. *)
Definition requestedScopes (req : request) : res (list Scope) :=
  let '(values, ok) := ParseQuery (rq_RawQuery req) in
  match rq_PostForm req with
  | Some posted => if ok : bool then ParseScopes (values_of (posted ++ values) "scope")
                   else Err (AuthValidationError "scope request could not be parsed")
  | None => Err (AuthValidationError "scope request could not be parsed")
  end.
End Rendering.

(** * The registry's routes *)

(** The process has two halves that share nothing: the registry's and the
    authentication service's. *)
Definition on_registry {W A B} (m : M W B) : M (W * A) B := λ s, let '(r, w) := m s.1 in (r, (w, s.2)).
Definition on_auth {W A B} (m : M A B) : M (W * A) B := λ s, let '(r, a) := m s.2 in (r, (s.1, a)).

(** [if err != nil { write an error; return }]; a panic passes it by. *)
Definition answering {S B} (m : M S B) (failed : error → response) (k : B → M S response) : M S response :=
  let! r := sattempt m in
  match r with
  | Ok b => k b
  | Err e => if is_panic e then sthrow e else sret (failed e)
  end.

(** The zero [ports.Action]: it names no repository, so it has no scope. *)
Definition no_action : Action := mkAction ActionPull "" None.
Definition is_method (req : request) (m : string) : bool := String.eqb (rq_Method req) m.
Definition is_read (req : request) : bool := is_method req "GET" || is_method req "HEAD".

Section Router.
Context {W A : Type} `{UnicodeTables, ManifestCodec, KeyCrypto, SigningCodec, Sigstore, Regexps, OverrideCodec}.
Context `{!BlobStore W, !MetadataStore W, !RegRuntime W, !PolicyStore W, !ConsoleStore W, !AuthStore A, !Runtime A}.
(** [has_auth]: whether the router was given an authentication service. *)
Variables (svc : RegConfig) (has_auth : bool).
Notation S := (W * A)%type.

Definition svc_Challenge (action : Action) : Challenge := @ac_Challenge (rc_access svc) action.
Definition with_error (challenge : Challenge) (error : string) : Challenge :=
  mkChallenge (ch_Scheme challenge) (ch_Realm challenge) (ch_Service challenge) (ch_Scope challenge) error.
Definition challengeForError (action : Action) (err : error) : Challenge :=
  if isInvalidTokenError err then with_error (svc_Challenge action) "invalid_token" else svc_Challenge action.
Definition failing (action : Action) (defaultCode : string) (err : error) : response :=
  writeError err (challengeForError action err) defaultCode.

(** ** Who a request is from *)

(** The bearer token a request carries. No credentials, and credentials of another
    scheme, are nobody's. *)
Definition bearer_token (req : request) : res (option string) :=
  let authorization := trim_space (rq_Authorization req) in
  if String.eqb authorization "" then Ok None else
  let '(scheme, rest, two) := cut " " authorization in
  if negb two then Err NewInvalidCredentialsError else
  if negb (EqualFold (trim_space scheme) "bearer") then Ok None else
  let bearerToken := trim_space rest in
  if String.eqb bearerToken "" then Err NewInvalidCredentialsError else Ok (Some bearerToken).
Definition authenticate (req : request) : M S (option Principal) :=
  let! token := slift (bearer_token req) in
  match token with
  | None => sret None
  | Some bearerToken =>
      let! principal := on_auth (VerifyAccessToken bearerToken) in
      sret (Some principal)
  end.

Definition withPrincipal (req : request) (action : Action) (k : option Principal → M S response) : M S response :=
  if negb has_auth then k None else answering (authenticate req) (failing action "UNAUTHORIZED") k.

(** ** The base and the catalog *)

Definition handleBase (req : request) : M S response :=
  if negb has_auth then sret (only_status 200) else
  answering (authenticate req) (failing no_action "UNAUTHORIZED") (λ principal,
    match principal with
    | None => sret (writeError (NewUnauthorizedError "authentication required") (svc_Challenge no_action) "UNAUTHORIZED")
    | Some _ => sret (only_status 200)
    end).

Definition handleCatalog (req : request) : M S response :=
  let action := mkAction ActionCatalog "" None in
  if negb (is_method req "GET") then sret (method_not_allowed ["GET"]) else
  match parsePagination req with
  | Err e => sret (writeError e (svc_Challenge action) "NAME_INVALID")
  | Ok (limit, after) =>
      withPrincipal req action (λ ctx,
        answering (on_registry (Catalog svc ctx limit after)) (failing action "NAME_UNKNOWN") (λ repositories,
          sret (writeJSON 200 (CatalogAnswer repositories))))
  end.

(** ** Uploads and blobs *)

Definition handleUploadStart (req : request) (repository : string) : M S response :=
  let action := mkAction ActionPush repository None in
  if negb (is_method req "POST") then sret (method_not_allowed ["POST"]) else
  withPrincipal req action (λ ctx,
    answering (on_registry (BeginUpload svc ctx repository)) (failing action "BLOB_UPLOAD_UNKNOWN") (λ state,
      sret (setUploadHeaders repository (ud_ID state) (ud_Size state) (only_status 202)))).

Definition handleUploadState (req : request) (repository uploadID : string) : M S response :=
  let action := mkAction ActionPush repository None in
  withPrincipal req action (λ ctx,
    if is_read req then
      answering (on_registry (UploadStatus svc ctx repository uploadID)) (failing action "BLOB_UPLOAD_UNKNOWN") (λ state,
        sret (setUploadHeaders repository (ud_ID state) (ud_Size state) (only_status 204)))
    else if is_method req "PATCH" then
      answering (on_registry (AppendUpload svc ctx repository uploadID (rq_Body req))) (failing action "BLOB_UPLOAD_UNKNOWN")
        (λ state, sret (setUploadHeaders repository (ud_ID state) (ud_Size state) (only_status 202)))
    else if is_method req "PUT" then
      let digest := values_Get (query req) "digest" in
      answering (on_registry (CompleteUpload svc ctx repository uploadID digest (Some (rq_Body req))))
        (failing action "BLOB_UPLOAD_INVALID") (λ blob,
        sret (with_header "Docker-Content-Digest" (bd_Digest blob)
                (with_header "Location" (blobLocation repository (bd_Digest blob)) (only_status 201))))
    else if is_method req "DELETE" then
      sret (writeError (NewValidationError "upload cancellation is not implemented in this slice") (svc_Challenge action)
              "UNSUPPORTED")
    else sret (method_not_allowed ["GET"; "HEAD"; "PATCH"; "PUT"; "DELETE"])).

(** A 200 with the headers of its content; without the content for a HEAD. *)
Definition content_response (req : request) (mediaType digest : string) (size : Z) (content : string) : response :=
  let r := writeBlobHeaders mediaType digest size (only_status 200) in
  if is_method req "HEAD" then r else mkResponse (rp_Status r) (rp_Header r) (Bytes content) None.

Definition handleBlobRead (req : request) (repository digest : string) : M S response :=
  let action := mkAction ActionPull repository None in
  if negb (is_read req) then sret (method_not_allowed ["GET"; "HEAD"]) else
  withPrincipal req action (λ ctx,
    answering (on_registry (OpenBlob svc ctx repository digest)) (failing action "BLOB_UNKNOWN") (λ opened,
      let '(content, descriptor) := opened in
      sret (content_response req (bd_MediaType descriptor) (bd_Digest descriptor) (bd_Size descriptor) content))).

(** ** Manifests *)

Definition manifest_verb (req : request) : ActionVerb :=
  if is_method req "PUT" then ActionPush else if is_method req "DELETE" then ActionDelete else ActionPull.
Definition deletion_code (err : error) : string :=
  if reg_is_code err CodeValidation then "UNSUPPORTED" else "MANIFEST_UNKNOWN".
Definition handleManifest (req : request) (repository reference : string) : M S response :=
  let action := mkAction (manifest_verb req) repository None in
  withPrincipal req action (λ ctx,
    if is_method req "PUT" then
      match rd_Err (rq_Body req) with
      | Some e => sret (writeError (OtherError e) (svc_Challenge action) "MANIFEST_INVALID")
      | None =>
          answering (on_registry (PublishManifest svc ctx repository reference (rq_ContentType req) (rd_Data (rq_Body req))))
            (failing action "MANIFEST_INVALID") (λ manifest,
            sret (with_header "Docker-Content-Digest" (md_Digest manifest)
                    (with_header "Location" (manifestLocation repository reference) (only_status 201))))
      end
    else if is_read req then
      answering (on_registry (OpenManifest svc ctx repository reference)) (failing action "MANIFEST_UNKNOWN") (λ m,
        sret (content_response req (mf_MediaType m) (mf_Digest m) (mf_Size m) (mf_Payload m)))
    else if is_method req "DELETE" then
      answering (on_registry (DeleteManifest svc ctx repository reference))
        (λ e, failing action (deletion_code e) e) (λ details, sret (writeJSON 202 (DeletionAnswer details)))
    else sret (method_not_allowed ["PUT"; "GET"; "HEAD"; "DELETE"])).

(** The three verdicts on a manifest share their shape. *)
Definition handle_verdict {B} (req : request) (repository : string) (verdict : option Principal → M W B)
    (shown : B → answer) : M S response :=
  let action := mkAction ActionPull repository None in
  if negb (is_method req "GET") then sret (method_not_allowed ["GET"]) else
  withPrincipal req action (λ ctx,
    answering (on_registry (verdict ctx)) (failing action "MANIFEST_UNKNOWN") (λ result, sret (writeJSON 200 (shown result)))).
Definition handleManifestScanStatus (req : request) (repository reference : string) : M S response :=
  handle_verdict req repository (λ ctx, ScanStatus svc ctx repository reference) ScanStatusAnswer.
Definition handleManifestSignatureStatus (req : request) (repository reference : string) : M S response :=
  handle_verdict req repository (λ ctx, SignatureStatus svc ctx repository reference) SignatureStatusAnswer.
Definition handleManifestSecretScanStatus (req : request) (repository reference : string) : M S response :=
  handle_verdict req repository (λ ctx, SecretScanStatus svc ctx repository reference) SecretScanStatusAnswer.

(** ** Tags and referrers *)

Definition handleTags (req : request) (repository : string) : M S response :=
  let action := mkAction ActionInspect repository None in
  if negb (is_method req "GET") then sret (method_not_allowed ["GET"]) else
  match parsePagination req with
  | Err e => sret (writeError e (svc_Challenge action) "NAME_INVALID")
  | Ok (limit, after) =>
      withPrincipal req action (λ ctx,
        answering (on_registry (Tags svc ctx repository limit after)) (failing action "NAME_UNKNOWN") (λ tags,
          sret (writeJSON 200 (TagsAnswer tags.1 tags.2))))
  end.

Definition referrers_code (err : error) : string :=
  if reg_is_code err CodeInvalidDigest then "DIGEST_INVALID" else "NAME_UNKNOWN".
Definition handleReferrers (req : request) (repository subjectDigest : string) : M S response :=
  let action := mkAction ActionInspect repository None in
  if negb (is_method req "GET") then sret (method_not_allowed ["GET"]) else
  withPrincipal req action (λ ctx,
    let artifactType := trim_space (values_Get (query req) "artifactType") in
    answering (on_registry (Referrers svc ctx repository subjectDigest artifactType))
      (λ e, failing action (referrers_code e) e) (λ index,
      let r := writeJSONAs 200 OCIImageIndexMediaType (ReferrersAnswer index) in
      sret (if String.eqb artifactType "" then r else with_header "OCI-Filters-Applied" "artifactType" r))).

(** ** Dispatch *)

Definition handleV2 (req : request) : M S response :=
  match route_of (rq_Path req) with
  | RouteBase => handleBase req
  | RouteCatalog => handleCatalog req
  | RouteUploadStart repository => handleUploadStart req repository
  | RouteUploadState repository uploadID => handleUploadState req repository uploadID
  | RouteBlobRead repository digest => handleBlobRead req repository digest
  | RouteScanStatus repository reference => handleManifestScanStatus req repository reference
  | RouteSignatureStatus repository reference => handleManifestSignatureStatus req repository reference
  | RouteSecretScanStatus repository reference => handleManifestSecretScanStatus req repository reference
  | RouteManifest repository reference => handleManifest req repository reference
  | RouteTags repository => handleTags req repository
  | RouteReferrers repository subjectDigest => handleReferrers req repository subjectDigest
  | RouteUnknown => sret (writeError (NewNotFoundError "route" (rq_Path req)) (svc_Challenge no_action) "NAME_UNKNOWN")
  end.

(** ** Tokens and the update channel *)

Definition registryRealm (challenge : Challenge) : string := default_to "regixtry" (ch_Realm challenge).
(** A password first; a credential if it is no password. *)
Definition login (username secret : string) (scopes : list Scope) : M S LoginResult :=
  let! result := sattempt (on_auth (LoginWithPassword username secret scopes)) in
  match result with
  | Ok result => sret result
  | Err e => if auth_is_code e AuthInvalidCredentials
             then on_auth (LoginWithPreissuedToken username secret scopes) else sthrow e
  end.
Definition handleToken (req : request) : M S response :=
  let challenge := mkChallenge "Basic" (registryRealm (svc_Challenge no_action)) "" "" "" in
  let failed := λ e, writeError e challenge "UNAUTHORIZED" in
  if negb (is_method req "GET") && negb (is_method req "POST") then sret (method_not_allowed ["GET"; "POST"]) else
  match BasicAuth req with
  | None => sret (failed NewInvalidCredentialsError)
  | Some (username, secret) =>
      if String.eqb (trim_space username) "" || String.eqb (trim_space secret) ""
      then sret (failed NewInvalidCredentialsError) else
      match requestedScopes req with
      | Err e => sret (failed e)
      | Ok scopes =>
          answering (login username secret scopes) failed (λ result,
            sret (writeJSON 200 (TokenAnswer (lr_BearerToken result) (AccessTokenTTL / second)
                                   (lr_ExpiresAt result - AccessTokenTTL)
                                   (trim_space (values_Get (query req) "service")) (lr_Scope result))))
      end
  end.

Definition handleUpdateChannel (req : request) : M S response :=
  if negb (is_method req "GET") then sret (method_not_allowed ["GET"]) else
  answering (on_registry (GetUpdateChannel svc))
    (λ _, writeJSON 500 (ErrorAnswer "update channel is temporarily unavailable"))
    (λ channel, sret (writeJSON 200 (Fields (updateChannelResponse channel)))).
End Router.
