(* ===== verification/Admin.v ===== *)
(** The administration's HTTP routes (internal/protocol/http/admin_handlers.go):
    who may use them, what their bodies decode to, and one handler per resource;
    and [ServeHTTP], the whole router. *)
From S2P Require Import Prelude GoStrings Errors Repository Digest GoNumbers Manifest Scope Auth Access.
From S2P Require Import AuthStore AuthService RegPorts RegService Signing Gc PolicyPorts PolicyStore PullGate.
From S2P Require Import Overrides Scans Console Features Http.

(** * Definitions *)

(** ** Bodies *)

(** What [json.Decoder] makes of a body with unknown fields disallowed: a value,
    with whether nothing followed it, or the kind of failure the handlers tell
    apart. *)
Inductive json_failure := JsonEOF | JsonType (field structName : string) | JsonNumber | JsonMalformed.
Inductive decoded (T : Type) := Decoded (value : T) (single : bool) | Undecoded (failure : json_failure).
Arguments Decoded {T} _ _.
Arguments Undecoded {T} _.

Record ScanSettingsPayload := mkScanSettingsPayload {
  sb_Enabled : bool; sb_ScheduleEnabled : bool; sb_Interval : string; sb_Timeout : string; sb_ServiceURL : string;
  sb_RegistryReachableURL : string; sb_AuthToken : string; sb_TLSCACertPath : string; sb_TLSInsecureSkipVerify : bool;
  sb_MaxConcurrency : Z }.
Record FeaturePayload := mkFeaturePayload {
  fp_Enabled : option bool; fp_ScheduleEnabled : option bool; fp_Interval : string; fp_Timeout : string;
  fp_ServiceURL : option string; fp_RegistryReachableURL : option string; fp_AuthToken : option string;
  fp_TLSCACertPath : option string; fp_TLSInsecureSkipVerify : option bool; fp_MaxConcurrency : option Z }.
Record SigningPolicyPayload := mkSigningPolicyPayload {
  gp_Enabled : bool; gp_TrustedPublicKeys : list string; gp_TrustedIdentities : list TrustedIdentity;
  gp_UnsignedSelfRead : string }.
Record RobotPayload := mkRobotPayload {
  bp_Name : string; bp_Repository : string; bp_Role : RepoRole; bp_TTLSeconds : option Z }.

(** The decoders of the payload types; integers come out at their width. The last
    field is what [json.Unmarshal] says of a stored payload that is no object. *)
Class AdminJSON := {
  json_scan_policy : Reader → decoded (bool * string);
  json_channel : Reader → decoded string;
  json_signing_policy : Reader → decoded SigningPolicyPayload;
  json_manual_scan : Reader → decoded (string * string);
  json_scan_settings : Reader → decoded ScanSettingsPayload;
  json_feature : Reader → decoded FeaturePayload;
  json_version : Reader → decoded string;
  json_user : Reader → decoded CreateUserInput;
  json_password : Reader → decoded string;
  json_role : Reader → decoded RepoRole;
  json_robot : Reader → decoded RobotPayload;
  json_token : Reader → decoded (string * option Z);
  not_an_object : string → option string;
}.

Definition invalid_json : error := AuthValidationError "request body must be valid JSON".

(** A product of 64-bit integers. *)
Definition wrap64 (n : Z) : Z := (n + 2 ^ 63) mod 2 ^ 64 - 2 ^ 63.
Definition ttl_of (seconds : option Z) : res Duration :=
  match seconds with
  | None => Ok 0
  | Some n => if n <? 0 then Err (AuthValidationError "ttl_seconds must be zero or greater") else Ok (wrap64 (n * second))
  end.

(** [strings.Trim] of slashes, [strings.LastIndex] and [strings.SplitN] in two. *)
Definition trim_slashes (s : string) : string := trim_right_char "/" (drop_char "/" s).
Definition cut_last (marker s : string) : option (string * string) :=
  match str_index (srev marker) (srev s) with
  | Some k => Some (substring 0 (String.length s - k - String.length marker) s, drop_str (String.length s - k) s)
  | None => None
  end.
Definition cut_at (marker s : string) : option (string * string) :=
  match str_index marker s with
  | Some n => Some (substring 0 n s, drop_str (n + String.length marker) s)
  | None => None
  end.

(** ** Resources of a path *)

Definition adminResourceID (resource suffix : string) : option string :=
  let userID := trim_space (trim_suffix suffix resource) in
  if String.eqb userID "" || has_byte "/" userID then None else Some userID.
Definition adminNestedResource (resource marker : string) : option (string * string) :=
  match cut_at marker resource with
  | None => None
  | Some (first, second) =>
      let userID := trim_space first in
      let nested := trim_space second in
      if String.eqb userID "" || String.eqb nested "" || has_byte "/" userID then None else Some (userID, nested)
  end.

Section Decoding.
Context `{UnicodeTables, KeyCrypto, Regexps, AdminJSON}.

Definition decodeAdminJSON {T} (d : decoded T) : res T :=
  match d with
  | Decoded v single =>
      if single then Ok v else Err (AuthValidationError "request body must contain a single JSON object")
  | Undecoded JsonEOF => Err (AuthValidationError "request body is required")
  | Undecoded (JsonType field structName) =>
      let name := if String.eqb (trim_space field) "" then trim_space structName else trim_space field in
      if String.eqb name "" then Err invalid_json else Err (AuthValidationError (String.append name " has an invalid type"))
  | Undecoded JsonNumber => Err (AuthValidationError "request body contains an invalid number")
  | Undecoded JsonMalformed => Err invalid_json
  end.

Definition decodeScanPolicySettings (req : request) : res ScanPolicySettings :=
  let? payload := decodeAdminJSON (json_scan_policy (rq_Body req)) in
  let threshold := trim_space payload.2 in
  if negb (String.eqb threshold ScanPolicyThresholdCritical) && negb (String.eqb threshold ScanPolicyThresholdCriticalHigh)
  then Err (AuthValidationError "severity_threshold must be critical or critical_high")
  else Ok (mkScanPolicy payload.1 threshold zero_time).

Definition decodeUpdateChannel (req : request) : res string :=
  let? payload := decodeAdminJSON (json_channel (rq_Body req)) in
  let channel := trim_space payload in
  if ValidUpdateChannel channel then Ok channel
  else Err (AuthError AuthValidation [Lit "channel must be "; Quoted UpdateChannelStable; Lit " or "; Quoted UpdateChannelInsider]).

(** The entry of a list that is wrong, named by its index. *)
Definition entry_invalid (list_name : string) (index : nat) (what : string) : error :=
  AuthError AuthValidation [Lit list_name; Lit "["; Lit (itoa index); Lit "]"; Lit what].
Definition more_than_max (list_name : string) : error :=
  AuthError AuthValidation [Lit list_name; Lit " must contain at most "; Lit (itoa maxSigningPolicyTrustedKeys); Lit " entries"].
Fixpoint decode_keys (index : nat) (keys : list string) : res (list string) :=
  match keys with
  | [] => Ok []
  | key :: keys' =>
      match NormalizePublicKeyPEM key with
      | Err e => if is_panic e then Err e
                 else Err (entry_invalid "trusted_public_keys" index (String.append " is invalid: " (error_string e)))
      | Ok normalized => let? rest := decode_keys (S index) keys' in Ok (normalized :: rest)
      end
  end.
Fixpoint check_identity_entries (index : nat) (identities : list TrustedIdentity) : res unit :=
  match identities with
  | [] => Ok tt
  | identity :: identities' =>
      match regexp_Compile (ti_Regexp identity) with
      | None => Err (entry_invalid "trusted_identities" index
                       (String.append ".certificate_identity_regexp is invalid: " (regexp_message (ti_Regexp identity))))
      | Some _ =>
          if String.eqb (trim_space (ti_Issuer identity)) ""
          then Err (entry_invalid "trusted_identities" index ".certificate_oidc_issuer is required")
          else check_identity_entries (S index) identities'
      end
  end.
Definition normalizeTrustedIdentities (identities : list TrustedIdentity) : res (list TrustedIdentity) :=
  if (maxSigningPolicyTrustedKeys <? length identities)%nat then Err (more_than_max "trusted_identities") else
  do? check_identity_entries 0 identities in Ok identities.
Definition decodeSigningPolicySettings (req : request) : res SigningPolicySettings :=
  let? payload := decodeAdminJSON (json_signing_policy (rq_Body req)) in
  if (maxSigningPolicyTrustedKeys <? length (gp_TrustedPublicKeys payload))%nat
  then Err (more_than_max "trusted_public_keys") else
  let? normalizedKeys := decode_keys 0 (gp_TrustedPublicKeys payload) in
  let? normalizedIdentities := normalizeTrustedIdentities (gp_TrustedIdentities payload) in
  if gp_Enabled payload && (length normalizedKeys =? 0)%nat && (length normalizedIdentities =? 0)%nat
  then Err (AuthValidationError "enabled requires at least one usable entry in trusted_public_keys or trusted_identities")
  else if negb (ValidUnsignedSelfRead (gp_UnsignedSelfRead payload))
  then Err (AuthError AuthValidation [Lit "unsigned_self_read "; Quoted (gp_UnsignedSelfRead payload); Lit " is invalid"])
  else Ok (mkSigningPolicy (gp_Enabled payload) normalizedKeys normalizedIdentities zero_time (gp_UnsignedSelfRead payload)).

Definition parse_duration (field text : string) : res Duration :=
  match ParseDuration (trim_space text) with
  | Some d => Ok d
  | None => Err (AuthValidationError (String.append field " must be a valid duration"))
  end.
Definition decodeScanSettings (req : request) : res ScanSettings :=
  let? p := decodeAdminJSON (json_scan_settings (rq_Body req)) in
  let? interval := parse_duration "interval" (sb_Interval p) in
  let? timeout := parse_duration "timeout" (sb_Timeout p) in
  Ok (mkScanSettings (sb_Enabled p) (sb_ScheduleEnabled p) interval timeout (sb_ServiceURL p) (sb_RegistryReachableURL p)
        (sb_AuthToken p) (sb_TLSCACertPath p) (sb_TLSInsecureSkipVerify p) "" "" "" "" (sb_MaxConcurrency p) zero_time
        "" "" "").
Definition optional_duration (field text : string) : res (option Duration) :=
  if String.eqb (trim_space text) "" then Ok None else let? d := parse_duration field text in Ok (Some d).
Definition decodeFeatureConfigureInput (req : request) : res FeatureConfigureInput :=
  let? p := decodeAdminJSON (json_feature (rq_Body req)) in
  let? interval := optional_duration "interval" (fp_Interval p) in
  let? timeout := optional_duration "timeout" (fp_Timeout p) in
  Ok (mkConfigureInput (fp_Enabled p) (fp_ScheduleEnabled p) interval timeout (fp_ServiceURL p) (fp_RegistryReachableURL p)
        (fp_AuthToken p) (fp_TLSCACertPath p) (fp_TLSInsecureSkipVerify p) None None (fp_MaxConcurrency p)).

Definition decodeAdminCreateRobotInput (req : request) : res CreateRobotInput :=
  let? p := decodeAdminJSON (json_robot (rq_Body req)) in
  let? ttl := ttl_of (bp_TTLSeconds p) in
  Ok (mkCreateRobotInput (bp_Name p) (bp_Repository p) (bp_Role p) ttl).
Definition decodeAdminCreateTokenInput (userID : string) (req : request) : res CreateAdminTokenInput :=
  let? p := decodeAdminJSON (json_token (rq_Body req)) in
  let? ttl := ttl_of p.2 in
  Ok (mkCreateAdminTokenInput userID p.1 ttl).
Definition decodeAdminRawJSON (req : request) : res string :=
  match rd_Err (rq_Body req) with Some _ => Err invalid_json | None => Ok (rd_Data (rq_Body req)) end.
(** [limit]: a positive number, or the default. *)
Definition limit_of (req : request) (standard : Z) : res Z :=
  let raw := trim_space (values_Get (query req) "limit") in
  if String.eqb raw "" then Ok standard else
  match Atoi raw with
  | Some n => if n <=? 0 then Err (AuthValidationError "limit must be a positive integer") else Ok n
  | None => Err (AuthValidationError "limit must be a positive integer")
  end.
(** The stored payload's own fields, these replaced or added. *)
Definition repositoryOverrideResponse (override : RepositoryFeatureOverride) : res (string * fields_of) :=
  match (if String.eqb (fo_Payload override) "" then None else not_an_object (fo_Payload override)) with
  | Some e => Err (OtherError e)
  | None => Ok (fo_Payload override, [("repository", FText (fo_Repository override)); ("feature", FText (fo_Feature override));
                                      ("updated_at", FTime (fo_UpdatedAt override))])
  end.
End Decoding.

Section Handlers.
Context {W A : Type} `{UnicodeTables, ManifestCodec, KeyCrypto, SigningCodec, Sigstore, Regexps, OverrideCodec}.
Context `{NetAddresses, AdminJSON}.
Context `{!BlobStore W, !MetadataStore W, !RegRuntime W, !PolicyStore W, !ConsoleStore W}.
Context `{!AuthStore A, !Runtime A}.
Variables (svc : RegConfig) (runtimes : string → option (FeatureRuntimeManager W)) (scanHost : string).
Notation S := (W * A)%type.

(** After authentication an error names no challenge. *)
Definition no_challenge : Challenge := mkChallenge "" "" "" "" "".
Definition admin_failing (err : error) : response := writeAdminError err no_challenge.
Definition no_route (req : request) : M S response := sret (admin_failing (AuthNotFoundError "route" (rq_Path req))).
Definition not_allowed (allow : list string) : M S response := sret (method_not_allowed allow).

(** A call of one of the services, its result answered as JSON. *)
Definition on_service {B} (m : M W B) (k : B → response) : M S response :=
  answering (on_registry m) admin_failing (λ b, sret (k b)).
Definition on_accounts {B} (m : M A B) (k : B → response) : M S response :=
  answering (on_auth m) admin_failing (λ b, sret (k b)).
(** A body that decodes, or the error it is refused with. *)
Definition with_body {B} (d : res B) (k : B → M S response) : M S response :=
  match d with Ok b => k b | Err e => if is_panic e then sthrow e else sret (admin_failing e) end.

(** ** Who may use the administration *)

Definition adminChallenge (req : request) : Challenge :=
  let c := svc_Challenge svc no_action in
  mkChallenge (ch_Scheme c) (ch_Realm c) (ch_Service c) ""
    (if String.eqb (trim_space (rq_Authorization req)) "" then ch_Error c else "invalid_token").
Definition requireAuthenticatedPrincipal (req : request) (k : Principal → M S response) : M S response :=
  answering (authenticate req) (λ e, writeAdminError e (adminChallenge req)) (λ principal,
    match principal with
    | None => sret (writeAdminError NewInvalidCredentialsError (adminChallenge req))
    | Some p => k p
    end).
Definition requireAdminPrincipal (req : request) (k : Principal → M S response) : M S response :=
  requireAuthenticatedPrincipal req (λ p,
    if p_IsAdmin p then k p else sret (admin_failing (NewForbiddenError "admin access is required"))).

(** ** Features and overrides *)

Definition handleAdminFeaturesCollection (req : request) : M S response :=
  if negb (is_method req "GET") then not_allowed ["GET"] else
  on_service (ListFeatures svc runtimes) (λ features, writeJSON 200 (FeaturesAnswer features)).

Definition override_answer (m : M W RepositoryFeatureOverride) : M S response :=
  answering (on_registry m) admin_failing (λ override,
    with_body (repositoryOverrideResponse override) (λ o, sret (writeJSON 200 (OverrideAnswer o)))).
Definition handleAdminRepositoryOverridesCollection (req : request) (feature : string) : M S response :=
  if negb (is_method req "GET") then not_allowed ["GET"] else
  answering (on_registry (ListRepositoryOverrides svc feature)) admin_failing (λ overrides,
    with_body (rmap repositoryOverrideResponse overrides) (λ os, sret (writeJSON 200 (OverridesAnswer os)))).
Definition handleAdminRepositoryOverrideResource (req : request) (feature repository : string) : M S response :=
  if is_method req "GET" then override_answer (GetRepositoryOverride svc repository feature)
  else if is_method req "PUT" then
    with_body (decodeAdminRawJSON req) (λ raw, override_answer (SetRepositoryOverride svc repository feature raw))
  else if is_method req "DELETE" then
    on_service (ClearRepositoryOverride svc repository feature) (λ _, only_status 204)
  else not_allowed ["GET"; "PUT"; "DELETE"].

Definition mutateFeatureRuntime (req : request) (action : string → M W FeatureRuntimeState) : M S response :=
  if negb (is_method req "POST") then sret (admin_failing (AuthValidationError "runtime mutation requires POST")) else
  with_body (if rq_ContentLength req =? 0 then Ok "" else decodeAdminJSON (json_version (rq_Body req))) (λ version,
    on_service (action (trim_space version)) (λ state, writeJSON 200 (RuntimeStateAnswer state))).
Definition switch_feature (req : request) (name : string) (enabled : bool) : M S response :=
  if negb (is_method req "POST") then not_allowed ["POST"] else
  on_service (SetFeatureEnabled svc name enabled) (λ details, writeJSON 200 (Fields (featureDetailsResponse details false))).
Definition feature_action (req : request) (name actionID : string) : M S response :=
  if negb (is_method req "POST") then not_allowed ["POST"] else
  on_service (ExecuteFeatureAction svc runtimes name actionID) (λ result, writeJSON 200 (FeatureActionAnswer result)).
Definition feature_config (req : request) (name : string) : M S response :=
  if negb (is_method req "PUT") then not_allowed ["PUT"] else
  with_body (decodeFeatureConfigureInput req) (λ input,
    on_service (ConfigureFeature svc name input) (λ details, writeJSON 200 (Fields (featureDetailsResponse details false)))).

(** The cases are tried in this order: a repository may be named like a later one. *)
Definition handleAdminFeatureResource (req : request) (resource : string) : M S response :=
  if has_suffix "/repository-overrides" resource then
    let feature := trim_suffix "/repository-overrides" resource in
    if String.eqb feature "" || has_byte "/" feature then no_route req
    else handleAdminRepositoryOverridesCollection req feature
  else if contains resource "/repository-overrides/" then
    match adminNestedResource resource "/repository-overrides/" with
    | None => no_route req
    | Some (feature, repository) => handleAdminRepositoryOverrideResource req feature repository
    end
  else if contains resource "/actions/" then
    match adminNestedResource resource "/actions/" with
    | None => no_route req
    | Some (name, actionID) => if has_byte "/" actionID then no_route req else feature_action req name actionID
    end
  else if has_suffix "/status" resource then
    on_service (GetFeatureStatus svc runtimes (trim_suffix "/status" resource)) (λ details,
      writeJSON 200 (Fields (featureDetailsResponse details true)))
  else if has_suffix "/config" resource then feature_config req (trim_suffix "/config" resource)
  else if has_suffix ":install" resource then
    mutateFeatureRuntime req (InstallFeatureRuntime runtimes (trim_suffix ":install" resource))
  else if has_suffix ":upgrade" resource then
    mutateFeatureRuntime req (UpgradeFeatureRuntime runtimes (trim_suffix ":upgrade" resource))
  else if has_suffix ":rollback" resource then
    if negb (is_method req "POST") then not_allowed ["POST"] else
    on_service (RollbackFeatureRuntime runtimes (trim_suffix ":rollback" resource)) (λ state,
      writeJSON 200 (RuntimeStateAnswer state))
  else if has_suffix ":enable" resource then switch_feature req (trim_suffix ":enable" resource) true
  else if has_suffix ":disable" resource then switch_feature req (trim_suffix ":disable" resource) false
  else if negb (is_method req "GET") then not_allowed ["GET"]
  else on_service (GetFeaturePage svc runtimes resource) (λ page, writeJSON 200 (FeaturePageAnswer page)).

(** ** Policies and settings *)

(** A resource that is read and replaced as a whole. *)
Definition settings_resource {B} (req : request) (get : M W B) (decode : res B) (update : B → M W B) (shown : B → fields_of)
    : M S response :=
  if is_method req "GET" then on_service get (λ settings, writeJSON 200 (Fields (shown settings)))
  else if is_method req "PUT" then
    with_body decode (λ settings, on_service (update settings) (λ updated, writeJSON 200 (Fields (shown updated))))
  else not_allowed ["GET"; "PUT"].
Definition handleAdminScanSettings (req : request) : M S response :=
  settings_resource req (GetScanSettings svc) (decodeScanSettings req) (UpdateScanSettings svc) scanSettingsResponse.
Definition handleAdminScanPolicy (req : request) : M S response :=
  settings_resource req (GetScanPolicySettings svc) (decodeScanPolicySettings req) (UpdateScanPolicySettings svc)
    scanPolicySettingsResponse.
Definition handleAdminSigningPolicy (req : request) : M S response :=
  settings_resource req (GetSigningPolicySettings svc) (decodeSigningPolicySettings req) (UpdateSigningPolicySettings svc)
    signingPolicySettingsResponse.
Definition handleAdminUpdateChannel (req : request) : M S response :=
  if negb (is_method req "PUT") then not_allowed ["PUT"] else
  with_body (decodeUpdateChannel req) (λ channel,
    on_service (SetUpdateChannel svc channel) (λ updated, writeJSON 200 (Fields (updateChannelResponse updated)))).
Definition handleAdminSigningKeyUsage (req : request) : M S response :=
  if negb (is_method req "GET") then not_allowed ["GET"] else
  match NormalizePublicKeyPEM (values_Get (query req) "key") with
  | Err e => if is_panic e then sthrow e
             else sret (admin_failing (AuthValidationError (String.append "key is invalid: " (error_string e))))
  | Ok normalizedKey =>
      let repository := trim_space (values_Get (query req) "repository") in
      on_service (CountManifestsSignedByKey svc repository normalizedKey) (λ usage,
        writeJSON 200 (Fields [("count", FInt usage.1); ("capped", FBool usage.2)]))
  end.

(** ** Scans *)

Definition list_scan_runs (req : request) : M S response :=
  let repository := trim_space (values_Get (query req) "repository") in
  with_body (limit_of req 20) (λ limit, on_service (ListScanRuns svc repository limit) (λ runs, writeJSON 200 (ScanRunsAnswer runs))).
Definition queue_scan (req : request) : M S response :=
  with_body (decodeAdminJSON (json_manual_scan (rq_Body req))) (λ payload,
    on_service (QueueManualScan svc scanHost payload.1 payload.2) (λ queued,
      with_scan queued.2 (writeJSON 202 (ScanRunAnswer queued.1)))).
Definition handleAdminScanRuns (req : request) : M S response :=
  if is_method req "GET" then list_scan_runs req
  else if is_method req "POST" then queue_scan req
  else not_allowed ["GET"; "POST"].
Definition handleAdminRepositoryScanSummaries (req : request) : M S response :=
  if negb (is_method req "GET") then not_allowed ["GET"] else
  with_body (limit_of req 25) (λ limit,
    on_service (ListLatestScanRunPerRepository svc limit) (λ summaries, writeJSON 200 (ScanSummariesAnswer summaries))).
Definition handleAdminScanRunDetail (req : request) (runID : string) : M S response :=
  if negb (is_method req "GET") then not_allowed ["GET"] else
  on_service (GetScanRunDetail svc (trim_space runID)) (λ detail, writeJSON 200 (ScanRunDetailAnswer detail)).
Definition handleAdminSecretScanFindings (req : request) : M S response :=
  if negb (is_method req "GET") then not_allowed ["GET"] else
  let repository := trim_space (values_Get (query req) "repository") in
  let digest := trim_space (values_Get (query req) "digest") in
  if String.eqb repository "" || String.eqb digest ""
  then sret (admin_failing (AuthValidationError "repository and digest are required")) else
  on_service (GetSecretScanFindings svc repository digest) (λ detail, writeJSON 200 (SecretRunDetailAnswer detail)).

(** ** Garbage collection: the services get a context without a principal. *)

Definition handleAdminGCReports (req : request) : M S response :=
  if negb (is_method req "POST") then not_allowed ["POST"] else
  on_service (ComputeGCReport svc None) (λ detail, writeJSON 201 (GCReportAnswer detail)).
Definition handleAdminGCReportResource (req : request) (resource : string) : M S response :=
  let '(id, action, hasAction) := cut "/" resource in
  if String.eqb id "" then no_route req else
  if hasAction : bool then
    if negb (String.eqb action "delete") then no_route req else
    if negb (is_method req "POST") then not_allowed ["POST"] else
    on_service (DeleteByGCReport svc None id) (λ detail, writeJSON 200 (GCReportAnswer detail))
  else
    if negb (is_method req "GET") then not_allowed ["GET"] else
    on_service (GetGCReport id) (λ detail, writeJSON 200 (GCReportAnswer detail)).

(** ** Users, robots and their tokens *)

Definition handleAdminUsersCollection (req : request) (principal : Principal) : M S response :=
  if is_method req "GET" then on_accounts (ListAdminUsers principal) (λ users, writeJSON 200 (UsersAnswer users))
  else if is_method req "POST" then
    with_body (decodeAdminJSON (json_user (rq_Body req))) (λ input,
      on_accounts (CreateAdminUser principal input) (λ user, writeJSON 201 (UserAnswer user)))
  else not_allowed ["GET"; "POST"].
Definition handleAdminRobotsCollection (req : request) (principal : Principal) : M S response :=
  if is_method req "GET" then on_accounts (ListAdminRobots principal) (λ robots, writeJSON 200 (RobotsAnswer robots))
  else if is_method req "POST" then
    with_body (decodeAdminCreateRobotInput req) (λ input,
      on_accounts (CreateAdminRobot principal input) (λ created, writeJSON 201 (CreatedRobotAnswer created)))
  else not_allowed ["GET"; "POST"].
Definition handleAdminRobotResource (req : request) (principal : Principal) (resource : string) : M S response :=
  match adminResourceID resource "" with
  | None => no_route req
  | Some userID =>
      if is_method req "DELETE" then on_accounts (DeleteRobot principal userID) (λ _, only_status 204)
      else not_allowed ["DELETE"]
  end.
Definition handleAdminUserGrantsCollection (req : request) (principal : Principal) (userID : string) : M S response :=
  if negb (is_method req "GET") then not_allowed ["GET"] else
  on_accounts (ListAdminUserRepoGrants principal userID) (λ grants, writeJSON 200 (UserGrantsAnswer grants)).
Definition handleAdminUserGrantResource (req : request) (principal : Principal) (userID repository : string) : M S response :=
  if is_method req "PUT" then
    with_body (decodeAdminJSON (json_role (rq_Body req))) (λ role,
      on_accounts (PutAdminUserRepoGrant principal userID repository role) (λ grant, writeJSON 200 (UserGrantAnswer grant)))
  else if is_method req "DELETE" then on_accounts (DeleteRepoGrant principal userID repository) (λ _, only_status 204)
  else not_allowed ["PUT"; "DELETE"].
Definition handleAdminUserTokensCollection (req : request) (principal : Principal) (userID : string) : M S response :=
  if is_method req "GET" then on_accounts (ListAdminUserTokens principal userID) (λ tokens, writeJSON 200 (TokensAnswer tokens))
  else if is_method req "POST" then
    with_body (decodeAdminCreateTokenInput userID req) (λ input,
      on_accounts (CreateAdminUserToken principal input) (λ created, writeJSON 201 (CreatedTokenAnswer created)))
  else not_allowed ["GET"; "POST"].
Definition handleAdminUserTokenResource (req : request) (principal : Principal) (userID accessor : string) : M S response :=
  if negb (is_method req "DELETE") then not_allowed ["DELETE"] else
  on_accounts (RevokeAdminUserToken principal userID accessor) (λ _, only_status 204).
Definition handleAdminUserEnablement (req : request) (principal : Principal) (userID : string) (enabled : bool) : M S response :=
  if negb (is_method req "POST") then not_allowed ["POST"] else
  on_accounts (if enabled then EnableAdminUser principal userID else DisableAdminUser principal userID) (λ user,
    writeJSON 200 (UserAnswer user)).
Definition handleAdminUserPasswordReset (req : request) (principal : Principal) (userID : string) : M S response :=
  if negb (is_method req "POST") then not_allowed ["POST"] else
  with_body (decodeAdminJSON (json_password (rq_Body req))) (λ newPassword,
    on_accounts (ResetPassword principal userID newPassword) (λ _, only_status 204)).

Definition at_resource {B} (req : request) (resource : option B) (k : B → M S response) : M S response :=
  match resource with Some b => k b | None => no_route req end.
Definition handleAdminUserResource (req : request) (principal : Principal) (resource : string) : M S response :=
  if has_suffix ":enable" resource then
    at_resource req (adminResourceID resource ":enable") (λ id, handleAdminUserEnablement req principal id true)
  else if has_suffix ":disable" resource then
    at_resource req (adminResourceID resource ":disable") (λ id, handleAdminUserEnablement req principal id false)
  else if has_suffix ":reset-password" resource then
    at_resource req (adminResourceID resource ":reset-password") (λ id, handleAdminUserPasswordReset req principal id)
  else if has_suffix "/grants" resource then
    at_resource req (adminResourceID resource "/grants") (λ id, handleAdminUserGrantsCollection req principal id)
  else if contains resource "/grants/" then
    at_resource req (adminNestedResource resource "/grants/") (λ ids,
      handleAdminUserGrantResource req principal ids.1 ids.2)
  else if has_suffix "/admin-tokens" resource then
    at_resource req (adminResourceID resource "/admin-tokens") (λ id, handleAdminUserTokensCollection req principal id)
  else if contains resource "/admin-tokens/" then
    at_resource req (adminNestedResource resource "/admin-tokens/") (λ ids,
      if has_byte "/" ids.2 then no_route req else handleAdminUserTokenResource req principal ids.1 ids.2)
  else no_route req.

(** ** What repository administrators may do *)

Definition handleAdminRepositoryDeleteResource (req : request) (principal : Principal) (repository : string) : M S response :=
  if negb (is_method req "DELETE") then not_allowed ["DELETE"] else
  on_service (DeleteRepository svc (Some principal) repository) (λ details, writeJSON 200 (RepositoryDeletionAnswer details)).
Definition handleAdminRepositoryGrantsCollection (req : request) (principal : Principal) (repository : string) : M S response :=
  if negb (is_method req "GET") then not_allowed ["GET"] else
  on_accounts (ListAdminRepositoryGrants principal repository) (λ grants, writeJSON 200 (RepositoryGrantsAnswer grants)).
Definition handleAdminRepositoryGrantResource (req : request) (principal : Principal) (repository username : string)
    : M S response :=
  if is_method req "PUT" then
    with_body (decodeAdminJSON (json_role (rq_Body req))) (λ role,
      on_accounts (PutAdminRepositoryGrant principal repository username role) (λ grant,
        writeJSON 200 (RepositoryGrantAnswer grant)))
  else if is_method req "DELETE" then on_accounts (DeleteRepositoryGrant principal repository username) (λ _, only_status 204)
  else not_allowed ["PUT"; "DELETE"].
Definition handleAdminRepositoryResource (req : request) (principal : Principal) (resource : string) : M S response :=
  if has_suffix "/grants" resource then
    let repository := trim_suffix "/grants" resource in
    if String.eqb repository "" then no_route req else handleAdminRepositoryGrantsCollection req principal repository
  else
    match cut_last "/grants/" resource with
    | Some (repository, username) =>
        if String.eqb repository "" || String.eqb username "" || has_byte "/" username then no_route req
        else handleAdminRepositoryGrantResource req principal repository username
    | None => if String.eqb resource "" then no_route req else handleAdminRepositoryDeleteResource req principal resource
    end.

(** ** Dispatch *)

(** What only a global administrator reaches. *)
Definition admin_route (req : request) (principal : Principal) (subpath : string) : M S response :=
  if String.eqb subpath "" then no_route req
  else if String.eqb subpath "gc/reports" then handleAdminGCReports req
  else if has_prefix "gc/reports/" subpath then handleAdminGCReportResource req (trim_prefix "gc/reports/" subpath)
  else if String.eqb subpath "features" then handleAdminFeaturesCollection req
  else if has_prefix "features/" subpath then handleAdminFeatureResource req (trim_prefix "features/" subpath)
  else if String.eqb subpath "scan-settings" then handleAdminScanSettings req
  else if String.eqb subpath "scan-policy" then handleAdminScanPolicy req
  else if String.eqb subpath "signing-policy" then handleAdminSigningPolicy req
  else if String.eqb subpath "update-channel" then handleAdminUpdateChannel req
  else if String.eqb subpath "signing-policy/key-usage" then handleAdminSigningKeyUsage req
  else if String.eqb subpath "scan-runs" then handleAdminScanRuns req
  else if String.eqb subpath "repository-scan-summaries" then handleAdminRepositoryScanSummaries req
  else if has_prefix "scan-runs/" subpath then handleAdminScanRunDetail req (trim_prefix "scan-runs/" subpath)
  else if String.eqb subpath "secret-scan-findings" then handleAdminSecretScanFindings req
  else if String.eqb subpath "users" then handleAdminUsersCollection req principal
  else if has_prefix "users/" subpath then handleAdminUserResource req principal (trim_prefix "users/" subpath)
  else if String.eqb subpath "robots" then handleAdminRobotsCollection req principal
  else if has_prefix "robots/" subpath then handleAdminRobotResource req principal (trim_prefix "robots/" subpath)
  else no_route req.
Definition admin_subpath (req : request) : string := trim_slashes (trim_prefix "/admin/v1" (rq_Path req)).
Definition handleAdmin (req : request) : M S response :=
  let subpath := admin_subpath req in
  if has_prefix "repositories/" subpath
  then requireAuthenticatedPrincipal req (λ p, handleAdminRepositoryResource req p (trim_prefix "repositories/" subpath))
  else requireAdminPrincipal req (λ p, admin_route req p subpath).

(** ** The router

    An authentication service, when there is one, is the administration's too. *)
Definition not_found_page : response :=
  mkResponse 404 {[ "Content-Type" := "text/plain; charset=utf-8"; "X-Content-Type-Options" := "nosniff" ]}
    (Bytes (String.append "404 page not found" (String (ascii_of_nat 10) ""))) None.
Definition redirect (status : Z) (location : string) (req : request) : response :=
  let r := with_header "Location" location (only_status status) in
  if is_read req then mkResponse status (<["Content-Type" := "text/html; charset=utf-8"]> (rp_Header r))
                        (if is_method req "GET" then RedirectPage else NoBody) None
  else r.
Definition bad_request : response := mkResponse 400 {[ "Connection" := "close" ]} NoBody None.

(** [redirect_status]: the status net/http redirects with. *)
Definition ServeHTTP (redirect_status : Z) (has_auth : bool) (req : request) : M S response :=
  match mux has_auth has_auth req with
  | ToToken => handleToken svc req
  | ToUpdateChannel => handleUpdateChannel svc req
  | ToAdmin => handleAdmin req
  | ToV2 => handleV2 svc has_auth req
  | ToNotFound => sret not_found_page
  | ToBadRequest => sret bad_request
  | ToRedirect location => sret (redirect redirect_status location req)
  end.
End Handlers.
