(* ===== verification/HttpLaws.v ===== *)
(** The HTTP layer: every refusal for lack of credentials, and only that, carries a
    challenge; the administration serves administrators; the registry's routes act
    for whoever the bearer token belongs to, and the token a login returns is
    accepted. *)
From S2P Require Import Prelude GoStrings Encodings Errors Repository Digest GoNumbers Manifest Scope Auth.
From S2P Require Import Access AuthStore AuthService AuthSteps AuthSafety RegPorts RegWorld Registry.
From S2P Require Import RegService Signing Gc RegSteps RegUploads RegManifests RegRequests PolicyPorts.
From S2P Require Import PolicyStore PolicyLaws FullLaws PullGate Overrides Scans GateLaws Console.
From S2P Require Import ConsoleQueries Features Http Admin.

(** * Definitions *)

(** The challenge goes with the status 401. *)
Definition fair (r : response) : Prop := rp_Status r = 401 ↔ is_Some (rp_Header r !! "WWW-Authenticate").

(** Every response of a handler. *)
Definition yields {S} (P : response → Prop) (m : M S response) : Prop := ∀ s r s', m s = (Ok r, s') → P r.

(** A session of the tables: the bearer secret of a stored access token, not revoked
    and not expired, of an enabled user, as its principal. *)
Definition live_session (db : AuthDB) (bearer : string) (p : Principal) : Prop :=
  ∃ t u now grants scopes, secret_of db TokenKindAccess bearer t
    ∧ t_RevokedAt t = None ∧ now < t_ExpiresAt t
    ∧ db_users db !! trim_space (t_UserID t) = Some u ∧ u_Enabled u = true
    ∧ Token_Scopes t = Ok scopes ∧ p = principal_for u t grants scopes
    ∧ ∀ g, g ∈ grants → user_grant db (u_ID u) g.
(** Who a request is from. *)
Definition session_of (db : AuthDB) (req : request) (p : Principal) : Prop :=
  ∃ bearer, bearer_token req = Ok (Some bearer) ∧ live_session db bearer p.
Definition caller (db : AuthDB) (req : request) (ctx : option Principal) : Prop :=
  match ctx with None => True | Some p => session_of db req p end.
(** Who a request acts as among the accounts: its session's principal, or nobody. *)
Definition nobody : Principal := mkPrincipal "" "" "" false false [] [] 0.
Definition acting (db : AuthDB) (req : request) (p : Principal) : Prop := session_of db req p ∨ p = nobody.

(** Requests served one after the other, whether or not each succeeds. *)
Fixpoint serve_requests {S} (server : request → M S response) (reqs : list request) (s : S) : S :=
  match reqs with
  | [] => s
  | req :: reqs' => serve_requests server reqs' (server req s).2
  end.

(** * Lemmas *)

(** ** Fair responses *)

Create HintDb fair discriminated.
Section Yields.
Context {S : Type} (P : response → Prop).

Lemma yields_ret r : P r → yields (S := S) P (sret r).
Proof. by intros Hr s r' s' [= <- _]. Qed.
Lemma yields_throw e : yields (S := S) P (sthrow e).
Proof. by intros s r s' [=]. Qed.
Lemma yields_answering {B} (m : M S B) failed k :
  (∀ e, P (failed e)) → (∀ b, yields P (k b)) → yields P (answering m failed k).
Proof.
  intros Hf Hk s r s'; unfold answering, sbind, sattempt; destruct (m s) as [[b|e] s1]; [apply Hk|].
  destruct (is_panic e); [apply yields_throw|apply yields_ret, Hf].
Qed.
End Yields.

Section Fair.
Context `{UnicodeTables}.

Lemma fair_only_status status : status ≠ 401 → fair (only_status status).
Proof. intros Hs; split; simpl; [done|]; rewrite lookup_empty; by intros [? ?]. Qed.
Lemma fair_header k v r : k ≠ "WWW-Authenticate" → fair r → fair (with_header k v r).
Proof. intros Hk; unfold fair; simpl; by rewrite lookup_insert_ne. Qed.
Lemma fair_json status contentType payload : status ≠ 401 → fair (writeJSONAs status contentType payload).
Proof. intros Hs; split; simpl; [done|]; rewrite lookup_singleton_ne; [by intros [? ?]|done]. Qed.
Lemma fair_writeJSON status payload : status ≠ 401 → fair (writeJSON status payload).
Proof. apply fair_json. Qed.
Lemma fair_method allow : fair (method_not_allowed allow).
Proof. split; simpl; [done|]; rewrite lookup_singleton_ne; [by intros [? ?]|done]. Qed.
Lemma fair_challenged challenge status payload : fair (challenged challenge (writeJSON status payload)).
Proof.
  unfold challenged; simpl; destruct (Z.eqb_spec status 401) as [->|Hs]; [|by apply fair_writeJSON].
  split; simpl; [|done]; intros _; rewrite lookup_insert_eq; eauto.
Qed.
Lemma fair_writeError e challenge code : fair (writeError e challenge code).
Proof. unfold writeError; destruct (registry_status e code); apply fair_challenged. Qed.
Lemma fair_writeAdminError e challenge : fair (writeAdminError e challenge).
Proof. apply fair_challenged. Qed.
Lemma fair_scan scan r : fair r → fair (with_scan scan r).
Proof. done. Qed.
Lemma fair_upload repository id size r : fair r → fair (setUploadHeaders repository id size r).
Proof. intros Hr; unfold setUploadHeaders; case_match; repeat (apply fair_header; [done|]); done. Qed.
Lemma fair_content req mediaType digest size content : fair (content_response req mediaType digest size content).
Proof.
  unfold content_response, writeBlobHeaders; destruct (is_method req "HEAD"), (String.eqb mediaType "");
    unfold fair; simpl; by simplify_map_eq.
Qed.
End Fair.
#[export] Hint Resolve fair_only_status fair_writeJSON fair_json fair_method fair_writeError fair_writeAdminError
  fair_scan fair_upload fair_content yields_ret yields_throw yields_answering : fair.

Ltac fairly :=
  repeat match goal with
  | |- yields _ (sret _) => apply yields_ret
  | |- yields _ (sthrow _) => apply yields_throw
  | |- yields _ (answering _ _ _) => apply yields_answering; intros
  | |- yields _ (match ?x with _ => _ end) => destruct x
  | |- fair (match ?x with _ => _ end) => destruct x
  | |- fair (with_header _ _ _) => apply fair_header; [done|]
  | _ => solve [eauto with fair]
  | _ => progress cbv beta zeta
  end.

Section Everything.
Context {W A : Type} `{UnicodeTables, ManifestCodec, KeyCrypto, SigningCodec, Sigstore, Regexps, OverrideCodec}.
Context `{NetAddresses, AdminJSON}.
Context `{!BlobStore W, !MetadataStore W, !RegRuntime W, !PolicyStore W, !ConsoleStore W}.
Context `{!AuthStore A, !Runtime A}.
Variables (svc : RegConfig) (runtimes : string → option (FeatureRuntimeManager W)) (scanHost : string).
Implicit Types m : M (W * A) response.

Lemma fair_failing action code e : fair (failing svc action code e).
Proof. apply fair_writeError. Qed.
Lemma fair_admin_failing e : fair (admin_failing e).
Proof. apply fair_writeAdminError. Qed.
Hint Resolve fair_failing fair_admin_failing : fair.

Lemma fair_withPrincipal has_auth req action k : (∀ ctx, yields fair (k ctx)) →
  yields fair (withPrincipal (W := W) (A := A) svc has_auth req action k).
Proof. intros Hk; unfold withPrincipal; fairly; apply Hk. Qed.

Lemma fair_v2 has_auth req : yields fair (handleV2 (W := W) (A := A) svc has_auth req).
Proof.
  unfold handleV2; destruct (route_of _);
    unfold handleBase, handleCatalog, handleUploadStart, handleUploadState, handleBlobRead, handleManifestScanStatus,
      handleManifestSignatureStatus, handleManifestSecretScanStatus, handle_verdict, handleManifest, handleTags,
      handleReferrers; cbv zeta; fairly; try (apply fair_withPrincipal; intros; fairly).
Qed.
Lemma fair_token req : yields fair (handleToken (W := W) (A := A) svc req).
Proof. unfold handleToken; fairly. Qed.
Lemma fair_channel req : yields fair (handleUpdateChannel (W := W) (A := A) svc req).
Proof. unfold handleUpdateChannel; fairly. Qed.

(** The parts the administration's handlers are made of. *)
Lemma fair_service {B} (m : M W B) k : (∀ b, fair (k b)) → yields fair (on_service (A := A) m k).
Proof. intros Hk; unfold on_service; fairly; apply Hk. Qed.
Lemma fair_accounts {B} (m : M A B) k : (∀ b, fair (k b)) → yields fair (on_accounts (W := W) m k).
Proof. intros Hk; unfold on_accounts; fairly; apply Hk. Qed.
Lemma fair_body {B} (d : res B) (k : B → M (W * A) response) : (∀ b, yields fair (k b)) → yields fair (with_body d k).
Proof. intros Hk; unfold with_body; fairly; apply Hk. Qed.
Lemma fair_resource {B} req (x : option B) (k : B → M (W * A) response) :
  (∀ b, yields fair (k b)) → yields fair (at_resource req x k).
Proof. intros Hk; unfold at_resource, no_route; fairly; apply Hk. Qed.
Lemma fair_admitted req (k : Principal → M (W * A) response) :
  (∀ p, yields fair (k p)) → yields fair (requireAuthenticatedPrincipal svc req k).
Proof. intros Hk; unfold requireAuthenticatedPrincipal; fairly; apply Hk. Qed.
Lemma fair_admin req (k : Principal → M (W * A) response) :
  (∀ p, yields fair (k p)) → yields fair (requireAdminPrincipal svc req k).
Proof. intros Hk; apply fair_admitted; intros p; fairly; apply Hk. Qed.

Ltac served := repeat first
  [ progress cbv zeta
  | apply fair_service; intros | apply fair_accounts; intros | apply fair_body; intros | apply fair_resource; intros
  | progress fairly ].

Lemma fair_feature req resource : yields fair (handleAdminFeatureResource (A := A) svc runtimes req resource).
Proof.
  unfold handleAdminFeatureResource, handleAdminRepositoryOverridesCollection, handleAdminRepositoryOverrideResource,
    override_answer, mutateFeatureRuntime, switch_feature, feature_action, feature_config, no_route, not_allowed.
  served.
Qed.
Lemma fair_user req p resource : yields fair (handleAdminUserResource (W := W) req p resource).
Proof.
  unfold handleAdminUserResource, handleAdminUserEnablement, handleAdminUserPasswordReset, handleAdminUserGrantsCollection,
    handleAdminUserGrantResource, handleAdminUserTokensCollection, handleAdminUserTokenResource, no_route, not_allowed.
  served.
Qed.
Lemma fair_repository req p resource : yields fair (handleAdminRepositoryResource (A := A) svc req p resource).
Proof.
  unfold handleAdminRepositoryResource, handleAdminRepositoryDeleteResource, handleAdminRepositoryGrantsCollection,
    handleAdminRepositoryGrantResource, no_route, not_allowed.
  served.
Qed.
Lemma fair_route req p subpath : yields fair (admin_route svc runtimes scanHost req p subpath).
Proof.
  unfold admin_route.
  repeat match goal with |- yields _ (if ?b then _ else _) => destruct b end;
    auto using fair_feature, fair_user;
    unfold handleAdminGCReports, handleAdminGCReportResource, handleAdminFeaturesCollection, handleAdminScanSettings,
      handleAdminScanPolicy, handleAdminSigningPolicy, handleAdminUpdateChannel, handleAdminSigningKeyUsage,
      handleAdminScanRuns, handleAdminRepositoryScanSummaries, handleAdminScanRunDetail, handleAdminSecretScanFindings,
      handleAdminUsersCollection, handleAdminRobotsCollection, handleAdminRobotResource, settings_resource,
      list_scan_runs, queue_scan, no_route, not_allowed; served.
Qed.
Lemma fair_handleAdmin req : yields fair (handleAdmin (A := A) svc runtimes scanHost req).
Proof.
  unfold handleAdmin; destruct (has_prefix _ _);
    [apply fair_admitted|apply fair_admin]; auto using fair_repository, fair_route.
Qed.

Lemma fair_redirect status location req : status ≠ 401 → fair (redirect status location req).
Proof.
  intros Hs; unfold redirect; destruct (is_read req); unfold fair; simpl;
    rewrite ?lookup_insert_ne, lookup_empty by done; (split; [done|by intros [? ?]]).
Qed.
Lemma fair_serve status has_auth req : status ≠ 401 →
  yields fair (ServeHTTP (A := A) svc runtimes scanHost status has_auth req).
Proof.
  intros Hs; unfold ServeHTTP; destruct (mux _ _ _);
    auto using fair_v2, fair_token, fair_channel, fair_handleAdmin; apply yields_ret;
    [| |by apply fair_redirect]; (split; [done|]; intros [? Hx]; by vm_compute in Hx).
Qed.
End Everything.

(** ** Who a request is from *)

Section Callers.
Context {W A : Type} `{UnicodeTables, !AuthStore A, !AuthStoreLaws A, !Runtime A, !RuntimeLaws A}.

(** Authentication looks at the tables and changes nothing. *)
Lemma authenticate_looks req (w : W) (a : A) : auth_wf a →
  let '(r, (w', a')) := authenticate req (w, a) in
  w' = w ∧ auth_wf a' ∧ auth_later a a' ∧ auth_view a' = auth_view a
  ∧ ∀ ctx, r = Ok ctx → caller (auth_view a) req ctx.
Proof.
  intros Hw; unfold authenticate, sbind, slift, on_auth, sret; simpl.
  destruct (bearer_token req) as [[b|]|e] eqn:Hb; 
    [|split_and!; [done..|reflexivity|done|by intros ctx [= <-]]|split_and!; [done..|reflexivity|done|by intros ctx [=]]].
  pose proof (verify_contract b a Hw) as Hv; unfold wp in Hv; cbn [fst snd].
  destruct (VerifyAccessToken b a) as [[p|e] a']; simpl in *; destruct Hv as (? & ? & ? & Hp); split_and!; try done.
  intros ctx [= <-]; exists b; split; [done|]; by apply Hp.
Qed.

(** Whatever follows authentication runs for the caller it found; otherwise the
    request is refused and nothing has changed. *)
Lemma answering_authenticated req (w : W) (a : A) failed k (Q : result error response * (W * A) → Prop) : auth_wf a →
  (∀ ctx a', auth_wf a' → auth_later a a' → auth_view a' = auth_view a → caller (auth_view a) req ctx → Q (k ctx (w, a'))) →
  (∀ e a', auth_wf a' → auth_later a a' → auth_view a' = auth_view a →
    Q (if is_panic e then Err e else Ok (failed e), (w, a'))) →
  Q (answering (authenticate req) failed k (w, a)).
Proof.
  intros Hw Hk Hf; pose proof (authenticate_looks req w a Hw) as Ha; unfold answering, sbind, sattempt.
  destruct (authenticate req (w, a)) as [[ctx|e] [w' a']]; destruct Ha as (-> & ? & ? & ? & Hc); [by apply Hk; auto|].
  specialize (Hf e a'); destruct (is_panic e); by apply Hf.
Qed.
End Callers.

(** ** The registry's routes *)

Section Routes.
Context {W A : Type} `{KeyCrypto, SigningCodec, Sigstore, Regexps, OverrideCodec, ManifestCodec, ConsoleLaws W}.
Context `{!AuthStore A, !AuthStoreLaws A, !Runtime A, !RuntimeLaws A}.
Variable svc : RegConfig.

(** What a handler does to the registry is what its caller may do; it leaves the
    accounts alone. *)
Definition acts (ctx : option Principal) (h : M (W * A) response) : Prop :=
  ∀ w a, good w → (h (w, a)).2.2 = a ∧ after svc ctx w (h (w, a)).2.1.

Lemma after_same ctx w w' : good w → reg_wf w' → reg_later w w' → reg_view w' = reg_view w → after svc ctx w w'.
Proof. intros [Hw Hi] ? ? Hv; split_and!; [split; [done|by rewrite Hv]|done|rewrite Hv; apply rtc_refl]. Qed.
Lemma after_observes {B} ctx (m : M W B) f w : observes pol_view m f → good w → after svc ctx w (m w).2.
Proof. intros Hm Hg; destruct (Hm w (proj1 Hg)) as (? & ? & ? & _); by apply after_same. Qed.
Lemma after_serves {B} ctx (m : M W B) spec w : serves svc ctx m spec → good w → after svc ctx w (m w).2.
Proof. intros Hm Hg; by destruct (Hm w Hg). Qed.

Lemma acts_ret ctx r : acts ctx (sret r).
Proof. intros w a Hg; split; [done|]; apply after_same; [done|apply Hg|reflexivity|done]. Qed.
Lemma acts_registry {B} ctx (m : M W B) failed k :
  (∀ w, good w → after svc ctx w (m w).2) → (∀ b, ∃ r, k b = sret r) → acts ctx (answering (on_registry m) failed k).
Proof.
  intros Hm Hk w a Hg; specialize (Hm w Hg); unfold answering, sbind, sattempt, on_registry; simpl.
  destruct (m w) as [[b|e] w']; simpl in *; [destruct (Hk b) as [r ->]; done|by destruct (is_panic e)].
Qed.

(** The handlers, once they know their caller. *)
Lemma acts_request ctx rq {B} (m : M W B) failed k : (∀ w, (m w).2 = (reg_run svc ctx rq w).2) →
  (∀ b, ∃ r, k b = sret r) → acts ctx (answering (on_registry m) failed k).
Proof. intros Hm; apply acts_registry; intros w Hg; rewrite Hm; by apply reg_run_after. Qed.

Lemma done_with_state {B} (m : M W B) w : (done_with m w).2 = (m w).2.
Proof. unfold done_with, sbind; by destruct (m w) as [[b|e] w']. Qed.

Definition routed (req : request) (w : W) (a : A) (out : result error response * (W * A)) : Prop :=
  auth_wf out.2.2 ∧ auth_view out.2.2 = auth_view a ∧ ∃ ctx, caller (auth_view a) req ctx ∧ after svc ctx w out.2.1.

Lemma routed_ret req w a r : good w → auth_wf a → routed req w a (r, (w, a)).
Proof. intros Hg Ha; split_and!; [done..|exists None; split; [done|]]; apply (acts_ret None (only_status 0) w a Hg). Qed.
Lemma routed_principal req action k w a : good w → auth_wf a → (∀ ctx, acts ctx (k ctx)) →
  routed req w a (withPrincipal svc true req action k (w, a)).
Proof.
  intros Hg Ha Hk; unfold withPrincipal; simpl; apply answering_authenticated; [done|..].
  - intros ctx a' Ha' _ Hv Hc; destruct (Hk ctx w a' Hg) as [Heq Haft]; unfold routed; rewrite Heq; eauto.
  - intros e a' Ha' _ Hv; destruct (routed_ret req w a' (Ok (only_status 0)) Hg Ha') as (? & ? & ctx & ? & ?).
    split_and!; [done..|exists None; split; [done|]]; apply (acts_ret None (only_status 0) w a Hg).
Qed.

(** Every handler acts for the caller it is given. *)
Ltac keeps :=
  repeat match goal with
  | |- acts _ (sret _) => apply acts_ret
  | |- acts _ (if ?b then _ else _) => destruct b
  | |- acts _ (match ?x with _ => _ end) => destruct x
  | |- ∃ r, _ = sret r => first [by eexists|match goal with |- context [match ?x with _ => _ end] => destruct x end; by eexists]
  | |- acts _ (answering (on_registry _) _ _) => apply acts_registry; [|intros ?]
  end.
Ltac by_request rq :=
  let v := fresh "v" in let Hv := fresh "Hv" in
  intros v Hv; rewrite <- (done_with_state _ v); apply (reg_run_after svc _ rq v Hv).
Ltac by_query := let v := fresh "v" in let Hv := fresh "Hv" in intros v Hv; eapply after_observes; [|done].

Lemma verdict_routed {B} req repository (verdict : option Principal → M W B) shown w a :
  good w → auth_wf a → (∀ ctx, ∃ f, observes pol_view (verdict ctx) f) →
  routed req w a (handle_verdict svc true req repository verdict shown (w, a)).
Proof.
  intros Hg Ha Hv; unfold handle_verdict; destruct (negb _); [by apply routed_ret|].
  apply routed_principal; [done..|]; intros ctx; keeps; destruct (Hv ctx); by_query; eauto.
Qed.
Lemma manifest_routed req repository reference w a : good w → auth_wf a →
  routed req w a (handleManifest svc true req repository reference (w, a)).
Proof.
  intros Hg Ha; unfold handleManifest; apply routed_principal; [done..|]; intros ctx; keeps.
  - by_request (RqPublishManifest repository reference (rq_ContentType req) (rd_Data (rq_Body req))).
  - by_query; apply OpenManifest_observed.
  - by_request (RqDeleteManifest repository reference).
Qed.
Lemma upload_routed req repository uploadID w a : good w → auth_wf a →
  routed req w a (handleUploadState svc true req repository uploadID (w, a)).
Proof.
  intros Hg Ha; unfold handleUploadState; apply routed_principal; [done..|]; intros ctx; keeps.
  - by_request (RqUploadStatus repository uploadID).
  - by_request (RqAppendUpload repository uploadID (rq_Body req)).
  - by_request (RqCompleteUpload repository uploadID (values_Get (query req) "digest") (Some (rq_Body req))).
Qed.

Lemma v2_routed req w a : good w → auth_wf a → routed req w a (handleV2 svc true req (w, a)).
Proof.
  intros Hg Ha; unfold handleV2; destruct (route_of _) as [| |n|n id|n d|n x|n x|n x|n x|n|n d|];
    [| | | | |apply verdict_routed; [done..|]; intros ctx; eexists; apply ScanStatus_observed
     |apply verdict_routed; [done..|]; intros ctx; eexists; apply SignatureStatus_observed
     |apply verdict_routed; [done..|]; intros ctx; eexists; apply SecretScanStatus_observed
     |by apply manifest_routed| | |by apply routed_ret].
  - unfold handleBase; simpl; apply answering_authenticated; [done|..].
    + intros ctx a' Ha' _ Hv Hc; destruct (routed_ret req w a' (Ok (only_status 0)) Hg Ha') as (? & ? & _).
      destruct ctx; (split_and!; [done..|exists None; split; [done|]]); apply (acts_ret None (only_status 0) w a Hg).
    + intros e a' Ha' _ Hv; split_and!; [done..|exists None; split; [done|]]; apply (acts_ret None (only_status 0) w a Hg).
  - unfold handleCatalog; destruct (negb _); [by apply routed_ret|].
    destruct (parsePagination req) as [[l s]|e]; [|by apply routed_ret].
    apply routed_principal; [done..|]; intros ctx; keeps; by_request (RqCatalog l s).
  - unfold handleUploadStart; destruct (negb _); [by apply routed_ret|].
    apply routed_principal; [done..|]; intros ctx; keeps; by_request (RqBeginUpload n).
  - by apply upload_routed.
  - unfold handleBlobRead; destruct (negb _); [by apply routed_ret|].
    apply routed_principal; [done..|]; intros ctx; keeps; by_request (RqOpenBlob n d).
  - unfold handleTags; destruct (negb _); [by apply routed_ret|].
    destruct (parsePagination req) as [[l s]|e]; [|by apply routed_ret].
    apply routed_principal; [done..|]; intros ctx; keeps; by_request (RqTags n l s).
  - unfold handleReferrers; destruct (negb _); [by apply routed_ret|].
    apply routed_principal; [done..|]; intros ctx; keeps.
    by_request (RqReferrers n d (trim_space (values_Get (query req) "artifactType"))).
Qed.
End Routes.

(** ** Tokens over HTTP *)

Section Tokens.
Context {W A : Type} `{UnicodeTables, KeyCrypto, SigningCodec, Sigstore, Regexps, OverrideCodec, ManifestCodec}.
Context `{!BlobStore W, !MetadataStore W, !RegRuntime W, !PolicyStore W, !ConsoleStore W}.
Context `{!AuthStore A, !AuthStoreLaws A, !Runtime A, !RuntimeLaws A}.

(** A login that succeeds, either way, has issued a token to an enabled user. *)
Definition logged_in (scopes : list Scope) (lr : LoginResult) (a' : A) : Prop :=
  ∃ db user t grants, ids_trimmed db ∧ db_users db !! u_ID user = Some user ∧ u_Enabled user = true
    ∧ issued db (auth_view a') user scopes lr t grants.

Lemma login_issues username secret scopes (w : W) (a : A) lr s' : auth_wf a → ids_trimmed (auth_view a) →
  login username secret scopes (w, a) = (Ok lr, s') →
  s'.1 = w ∧ auth_wf s'.2 ∧ auth_later a s'.2 ∧ logged_in scopes lr s'.2.
Proof.
  intros Ha Hids; unfold login, sbind, sattempt, on_auth; simpl.
  pose proof (login_password_contract username secret scopes a Ha) as Hp; unfold wp in Hp.
  pose proof (LoginWithPassword_steps (mkPrincipal "" "" "" false false [] [] 0) username secret scopes a Ha)
    as (Ha' & Hl & Hs); specialize (Hs Hids).
  destruct (LoginWithPassword username secret scopes a) as [[r|e] a']; cbn [fst snd] in *.
  - intros [= <- <-]; destruct Hp as (_ & _ & Hp); destruct (Hp _ eq_refl) as (u & t & g & [[Hu _] Hen] & _ & _ & Hi & _).
    split_and!; [done..|]; exists (auth_view a), u, t, g; done.
  - destruct (auth_is_code e AuthInvalidCredentials); [|by intros [=]]; intros Hr.
    pose proof (steps_ids_trimmed _ _ _ Hs Hids) as Hids'.
    pose proof (login_token_contract username secret scopes a' Ha') as Ht; unfold wp in Ht.
    cbn [fst snd] in Hr; destruct (LoginWithPreissuedToken username secret scopes a') as [[r|e'] a'']; cbn [fst snd] in *; [|discriminate Hr].
    injection Hr as <- <-; destruct Ht as (? & ? & Ht).
    destruct (Ht _ eq_refl) as (u & stored & now & t & g & [[Hu _] Hen] & _ & _ & _ & _ & Hi).
    split_and!; [done..|by etrans|]; exists (auth_view a'), u, t, g; done.
Qed.

(** The token is hexadecimal, so a header carries it as it is. *)
Lemma token_graphic scopes lr a' : logged_in scopes lr a' →
  str_forallb graphic (lr_BearerToken lr) = true ∧ lr_BearerToken lr ≠ "".
Proof.
  intros (db & user & t & grants & _ & _ & _ & Hi); destruct (iss_secret _ _ _ _ _ _ _ Hi) as (bytes & Hlen & Hb & ->).
  split; [|intros Hx; pose proof (length_hex_encode bytes) as Hl; rewrite Hx, Hlen in Hl; simpl in Hl; lia].
  apply (str_forallb_impl is_lower_hex); [intros c Hc; by apply is_hex_graphic, lower_hex_is_hex|].
  by apply hex_encode_lower.
Qed.
Lemma bearer_of req token : rq_Authorization req = String.append "Bearer " token →
  str_forallb graphic token = true → token ≠ "" → bearer_token req = Ok (Some token).
Proof.
  intros Hreq Ht Hne; unfold bearer_token; rewrite Hreq.
  destruct (graphic_head (srev token)) as (b & u & Hr & Hb);
    [intros Hx; apply Hne; by rewrite <- (srev_involutive token), Hx|by rewrite str_forallb_srev|].
  rewrite trim_space_trimmed.
  2:{ eapply (trimmed_ends _ "B" (String.append "earer " token) b (String.append u (srev "Bearer "))); [done..| |done].
      by rewrite srev_append, Hr. }
  change (String.append "Bearer " token) with (String.append "Bearer" (String " " token)).
  rewrite (cut_append " " "Bearer" token) by done; simpl.
  replace (EqualFold (trim_space "Bearer") "bearer") with true by done; simpl.
  rewrite (trim_space_graphic token Ht); by destruct (String.eqb_spec token "").
Qed.

(** What the token endpoint answers comes from such a login. *)
Lemma token_answer svc req (w : W) (a : A) resp token expires_in issued_at service scope s' :
  auth_wf a → ids_trimmed (auth_view a) → handleToken svc req (w, a) = (Ok resp, s') →
  rp_Body resp = JSON (TokenAnswer token expires_in issued_at service scope) →
  auth_wf s'.2 ∧ auth_later a s'.2 ∧ ∃ lr scopes, token = lr_BearerToken lr
    ∧ issued_at + expires_in * second = lr_ExpiresAt lr ∧ logged_in scopes lr s'.2.
Proof.
  assert (∀ e c d x, rp_Body (writeError e c d) ≠ JSON x ∨ ∃ y z, x = ErrorsAnswer y z) as Herr.
  { intros e c d x; unfold writeError; destruct (registry_status e d); unfold challenged; case_match; simpl;
      (destruct x; try (left; by intros [=]); right; eauto). }
  intros Ha Hids Hrun Hbody.
  assert (∀ e c d, resp = writeError e c d → False) as Hno.
  { intros e c d ->; destruct (Herr e c d (TokenAnswer token expires_in issued_at service scope)) as [Hx|(? & ? & [=])].
    by apply Hx. }
  unfold handleToken in Hrun; destruct (_ && _); [by injection Hrun as <- <-|].
  destruct (BasicAuth req) as [[username secret]|]; [|injection Hrun as <- <-; by edestruct Hno].
  destruct (_ || _); [injection Hrun as <- <-; by edestruct Hno|].
  destruct (requestedScopes req) as [scopes|e]; [|injection Hrun as <- <-; by edestruct Hno].
  unfold answering, sbind, sattempt in Hrun.
  destruct (login username secret scopes (w, a)) as [[lr|e] s''] eqn:Hl; [|destruct (is_panic e);
    [done|injection Hrun as <- <-; by edestruct Hno]].
  destruct (login_issues _ _ _ _ _ _ _ Ha Hids Hl) as (_ & Hwf & Hlater & Hin); injection Hrun as <- <-.
  injection Hbody as <- <- <- _ _; split_and!; [done..|]; exists lr, scopes; split_and!; [done| |done].
  change (AccessTokenTTL / second * second) with AccessTokenTTL; lia.
Qed.
End Tokens.

(** ** The accounts *)

Section Accounts.
Context {W A : Type} `{UnicodeTables, ManifestCodec, KeyCrypto, SigningCodec, Sigstore, Regexps, OverrideCodec}.
Context `{NetAddresses, AdminJSON}.
Context `{!BlobStore W, !MetadataStore W, !RegRuntime W, !PolicyStore W, !ConsoleStore W}.
Context `{!AuthStore A, !AuthStoreLaws A, !Runtime A, !RuntimeLaws A}.
Variables (svc : RegConfig) (runtimes : string → option (FeatureRuntimeManager W)) (scanHost : string).

(** A handler changes the accounts by the transitions its actor may make. *)
Definition moves {B} (actor : Principal) (h : M (W * A) B) : Prop :=
  ∀ w a, auth_wf a → ids_trimmed (auth_view a) →
    auth_wf (h (w, a)).2.2 ∧ rtc (auth_step actor) (auth_view a) (auth_view (h (w, a)).2.2).

Lemma moves_still {B} actor (h : M (W * A) B) : (∀ w a, (h (w, a)).2.2 = a) → moves actor h.
Proof. intros Hh w a Ha _; rewrite Hh; split; [done|apply rtc_refl]. Qed.
Lemma moves_ret {B} actor (b : B) : moves actor (sret b).
Proof. by apply moves_still. Qed.
Lemma moves_throw {B} actor e : moves actor (sthrow (A := B) e).
Proof. by apply moves_still. Qed.
Lemma moves_registry {B} actor (m : M W B) : moves actor (on_registry m).
Proof. apply moves_still; intros w a; unfold on_registry; simpl; by destruct (m w). Qed.
Lemma moves_accounts {B} actor rq (m : M A B) : (∀ a, (m a).2 = (serve actor rq a).2) → moves actor (on_auth m).
Proof.
  intros Hm w a Ha Hids; destruct (serve_rtc actor rq a Ha Hids) as [Hwf Hs]; rewrite <- Hm in Hwf, Hs.
  unfold on_auth; simpl; by destruct (m a).
Qed.
Lemma moves_answering {B} actor (m : M (W * A) B) failed k :
  moves actor m → (∀ b, moves actor (k b)) → moves actor (answering m failed k).
Proof.
  intros Hm Hk w a Ha Hids; destruct (Hm w a Ha Hids) as [Hwf Hs]; unfold answering, sbind, sattempt.
  destruct (m (w, a)) as [[b|e] [w' a']]; simpl in *; [|by destruct (is_panic e)].
  destruct (Hk b w' a' Hwf (steps_ids_trimmed _ _ _ Hs Hids)) as [? Hs']; split; [done|by etrans].
Qed.
Lemma moves_authenticate actor req : moves actor (authenticate (W := W) req).
Proof.
  intros w a Ha _; pose proof (authenticate_looks req w a Ha) as Hl.
  destruct (authenticate req (w, a)) as [r [w' a']]; destruct Hl as (_ & ? & _ & Hv & _); simpl; rewrite Hv.
  split; [done|apply rtc_refl].
Qed.
Lemma moves_body {B} actor (d : res B) (k : B → M (W * A) response) : (∀ b, moves actor (k b)) → moves actor (with_body d k).
Proof. intros Hk; unfold with_body; case_match; [done|]; case_match; auto using moves_ret, moves_throw. Qed.
Lemma moves_principal actor has_auth req action k : (∀ ctx, moves actor (k ctx)) →
  moves actor (withPrincipal (W := W) svc has_auth req action k).
Proof. intros Hk; unfold withPrincipal; case_match; auto using moves_answering, moves_authenticate. Qed.

Lemma discard_state {B} (m : M A B) a : (discard m a).2 = (m a).2.
Proof. unfold discard, sbind; by destruct (m a) as [[b|e] a']. Qed.
Lemma bind_ret_state {B C} (m : M A B) (f : B → C) a : (sbind m (λ b, sret (f b)) a).2 = (m a).2.
Proof. unfold sbind; by destruct (m a) as [[b|e] a']. Qed.
End Accounts.
#[export] Hint Resolve moves_ret moves_throw moves_registry moves_authenticate : moves.

Ltac served_as rq := apply (moves_accounts _ rq); let v := fresh "v" in intros v; cbn [serve]; by rewrite ?discard_state, ?bind_ret_state.
Ltac moving :=
  repeat match goal with
  | |- moves _ (answering _ _ _) => apply moves_answering; [|intros ?]
  | |- moves _ (with_body _ _) => apply moves_body; intros ?
  | |- moves _ (withPrincipal _ _ _ _ _) => apply moves_principal; intros ?
  | |- moves _ (match ?x with _ => _ end) => destruct x
  | _ => solve [auto with moves]
  | _ => progress cbv beta zeta
  end.

Section Server.
Context {W A : Type} `{UnicodeTables, ManifestCodec, KeyCrypto, SigningCodec, Sigstore, Regexps, OverrideCodec}.
Context `{NetAddresses, AdminJSON}.
Context `{!BlobStore W, !MetadataStore W, !RegRuntime W, !PolicyStore W, !ConsoleStore W}.
Context `{!AuthStore A, !AuthStoreLaws A, !Runtime A, !RuntimeLaws A}.
Variables (svc : RegConfig) (runtimes : string → option (FeatureRuntimeManager W)) (scanHost : string).
Implicit Types p : Principal.

Lemma v2_moves actor has_auth req : moves actor (handleV2 (W := W) (A := A) svc has_auth req).
Proof.
  unfold handleV2; destruct (route_of _);
    unfold handleBase, handleCatalog, handleUploadStart, handleUploadState, handleBlobRead, handleManifestScanStatus,
      handleManifestSignatureStatus, handleManifestSecretScanStatus, handle_verdict, handleManifest, handleTags,
      handleReferrers; moving.
Qed.
Lemma login_moves actor username secret scopes : moves actor (login (W := W) (A := A) username secret scopes).
Proof.
  assert (moves actor (on_auth (W := W) (A := A) (LoginWithPassword username secret scopes))) as Hp
    by (served_as (RqLoginPassword username secret scopes)).
  assert (moves actor (on_auth (W := W) (A := A) (LoginWithPreissuedToken username secret scopes))) as Ht
    by (served_as (RqLoginToken username secret scopes)).
  intros w a Ha Hids; specialize (Hp w a Ha Hids); unfold login, sbind, sattempt.
  destruct (on_auth (LoginWithPassword username secret scopes) (w, a)) as [[b|e] [w' a']];
    cbn [fst snd] in *; destruct Hp as [Hwf Hs]; [done|].
  destruct (auth_is_code e AuthInvalidCredentials); [|done].
  destruct (Ht w' a' Hwf (steps_ids_trimmed _ _ _ Hs Hids)) as [? ?]; split; [done|by etrans].
Qed.
Lemma token_moves actor req : moves actor (handleToken (W := W) (A := A) svc req).
Proof. unfold handleToken; moving; apply login_moves. Qed.
Lemma channel_moves actor req : moves actor (handleUpdateChannel (W := W) (A := A) svc req).
Proof. unfold handleUpdateChannel; moving. Qed.

Lemma service_moves {B} actor (m : M W B) k : moves actor (on_service (A := A) m k).
Proof. unfold on_service; moving. Qed.
Lemma accounts_moves {B} actor rq (m : M A B) k : (∀ a, (m a).2 = (serve actor rq a).2) →
  moves actor (on_accounts (W := W) m k).
Proof. intros Hm; unfold on_accounts; moving; by apply (moves_accounts _ rq). Qed.
#[local] Hint Resolve service_moves : moves.

Ltac by_account rq :=
  apply (accounts_moves _ rq); let v := fresh "v" in intros v; cbn [serve];
  unfold EnableAdminUser, DisableAdminUser; by rewrite ?discard_state, ?bind_ret_state.
Ltac account_requests := moving; cbv iota; match goal with
  | |- moves ?p (on_accounts (ListAdminUsers _) _) => by_account RqListUsers
  | |- moves ?p (on_accounts (CreateAdminUser _ ?i) _) => by_account (RqCreateUser i)
  | |- moves ?p (on_accounts (EnableAdminUser _ ?id) _) => by_account (RqSetUserEnabled id true)
  | |- moves ?p (on_accounts (DisableAdminUser _ ?id) _) => by_account (RqSetUserEnabled id false)
  | |- moves ?p (on_accounts (ResetPassword _ ?id ?s) _) => by_account (RqResetPassword id s)
  | |- moves ?p (on_accounts (ListAdminUserRepoGrants _ ?id) _) => by_account (RqListGrants id)
  | |- moves ?p (on_accounts (PutAdminUserRepoGrant _ ?id ?n ?r) _) => by_account (RqPutGrant id n r)
  | |- moves ?p (on_accounts (DeleteRepoGrant _ ?id ?n) _) => by_account (RqDeleteGrant id n)
  | |- moves ?p (on_accounts (ListAdminUserTokens _ ?id) _) => by_account (RqListTokens id)
  | |- moves ?p (on_accounts (CreateAdminUserToken _ ?i) _) => by_account (RqCreateToken i)
  | |- moves ?p (on_accounts (RevokeAdminUserToken _ ?id ?t) _) => by_account (RqRevokeUserToken id t)
  | |- moves ?p (on_accounts (ListAdminRobots _) _) => by_account RqListRobots
  | |- moves ?p (on_accounts (CreateAdminRobot _ ?i) _) => by_account (RqCreateRobot i)
  | |- moves ?p (on_accounts (DeleteRobot _ ?id) _) => by_account (RqDeleteRobot id)
  | |- moves ?p (on_accounts (ListAdminRepositoryGrants _ ?n) _) => by_account (RqListRepositoryGrants n)
  | |- moves ?p (on_accounts (PutAdminRepositoryGrant _ ?n ?u ?r) _) => by_account (RqPutRepositoryGrant n u r)
  | |- moves ?p (on_accounts (DeleteRepositoryGrant _ ?n ?u) _) => by_account (RqDeleteRepositoryGrant n u)
  end.

Lemma user_moves req p resource : moves p (handleAdminUserResource (W := W) req p resource).
Proof.
  unfold handleAdminUserResource, at_resource, handleAdminUserEnablement, handleAdminUserPasswordReset,
    handleAdminUserGrantsCollection, handleAdminUserGrantResource, handleAdminUserTokensCollection,
    handleAdminUserTokenResource, no_route, not_allowed; account_requests.
Qed.
Lemma collections_move req p resource :
  moves p (handleAdminUsersCollection (W := W) req p) ∧ moves p (handleAdminRobotsCollection (W := W) req p)
  ∧ moves p (handleAdminRobotResource (W := W) req p resource).
Proof.
  unfold handleAdminUsersCollection, handleAdminRobotsCollection, handleAdminRobotResource, no_route, not_allowed.
  split_and!; account_requests.
Qed.
Lemma repository_moves req p resource : moves p (handleAdminRepositoryResource (A := A) svc req p resource).
Proof.
  unfold handleAdminRepositoryResource, handleAdminRepositoryDeleteResource, handleAdminRepositoryGrantsCollection,
    handleAdminRepositoryGrantResource, no_route, not_allowed; account_requests.
Qed.
Lemma feature_moves actor req resource : moves actor (handleAdminFeatureResource (A := A) svc runtimes req resource).
Proof.
  unfold handleAdminFeatureResource, handleAdminRepositoryOverridesCollection, handleAdminRepositoryOverrideResource,
    override_answer, mutateFeatureRuntime, switch_feature, feature_action, feature_config, no_route, not_allowed; moving.
Qed.
Lemma route_moves req p subpath : moves p (admin_route svc runtimes scanHost req p subpath).
Proof.
  pose proof (collections_move req p (trim_prefix "robots/" subpath)) as (? & ? & ?).
  unfold admin_route.
  repeat match goal with |- moves _ (if ?b then _ else _) => destruct b end; auto using feature_moves, user_moves;
    unfold handleAdminGCReports, handleAdminGCReportResource, handleAdminFeaturesCollection, handleAdminScanSettings,
      handleAdminScanPolicy, handleAdminSigningPolicy, handleAdminUpdateChannel, handleAdminSigningKeyUsage,
      handleAdminScanRuns, handleAdminRepositoryScanSummaries, handleAdminScanRunDetail, handleAdminSecretScanFindings,
      settings_resource, list_scan_runs, queue_scan, no_route, not_allowed; moving.
Qed.
End Server.

(** ** The administration and the server *)

Section Administration.
Context {W A : Type} `{KeyCrypto, SigningCodec, Sigstore, Regexps, OverrideCodec, ManifestCodec, ConsoleLaws W}.
Context `{NetAddresses, AdminJSON}.
Context `{!AuthStore A, !AuthStoreLaws A, !Runtime A, !RuntimeLaws A}.
Variables (svc : RegConfig) (runtimes : string → option (FeatureRuntimeManager W)) (scanHost : string).

Lemma refusal_status e challenge : 400 ≤ rp_Status (writeAdminError e challenge).
Proof.
  unfold writeAdminError, challenged, admin_status; simpl.
  repeat case_match; simpl; lia.
Qed.

(** A request without a live session is refused; one with a session is served as
    its principal. *)
Lemma admitted req k (w : W) (a : A) (Q : result error response * (W * A) → Prop) : auth_wf a →
  (∀ p a', auth_wf a' → auth_view a' = auth_view a → session_of (auth_view a) req p → Q (k p (w, a'))) →
  (∀ r a', auth_wf a' → auth_view a' = auth_view a → (∀ resp, r = Ok resp → 400 ≤ rp_Status resp) → Q (r, (w, a'))) →
  Q (requireAuthenticatedPrincipal svc req k (w, a)).
Proof.
  intros Ha Hk Hr; unfold requireAuthenticatedPrincipal; apply answering_authenticated; [done|..].
  - intros [p|] a' Ha' _ Hv Hc; [by apply Hk|]; apply Hr; try done; intros resp [= <-]; apply refusal_status.
  - intros e a' Ha' _ Hv; apply Hr; try done; case_match; intros resp [= <-]; apply refusal_status.
Qed.

Definition accounted (req : request) (a : A) (out : result error response * (W * A)) : Prop :=
  auth_wf out.2.2 ∧ ∃ actor, acting (auth_view a) req actor ∧ rtc (auth_step actor) (auth_view a) (auth_view out.2.2).

Lemma accounted_still req (a : A) r (w : W) (a' : A) : auth_wf a' → auth_view a' = auth_view a → accounted req a (r, (w, a')).
Proof. intros Ha' Hv; split; [done|exists nobody; split; [by right|simpl; rewrite Hv; apply rtc_refl]]. Qed.
Lemma accounted_moves req actor (a : A) h (w : W) (a' : A) : moves actor h → acting (auth_view a) req actor →
  auth_wf a' → ids_trimmed (auth_view a) → auth_view a' = auth_view a → accounted req a (h (w, a')).
Proof.
  intros Hh Hact Ha' Hids Hv; destruct (Hh w a' Ha') as [? Hs]; [by rewrite Hv|]; rewrite Hv in Hs.
  split; [done|by exists actor].
Qed.

Lemma admin_acts req (w : W) (a : A) : auth_wf a → ids_trimmed (auth_view a) →
  accounted req a (handleAdmin svc runtimes scanHost req (w, a)).
Proof.
  intros Ha Hids; unfold handleAdmin, requireAdminPrincipal; destruct (has_prefix _ _); apply admitted; try done; intros;
    try (by apply accounted_still); [|case_match; [|by apply accounted_still]];
    eapply accounted_moves; eauto using repository_moves, route_moves; by left.
Qed.

Lemma serve_acts status has_auth req (w : W) (a : A) : auth_wf a → ids_trimmed (auth_view a) →
  accounted req a (ServeHTTP svc runtimes scanHost status has_auth req (w, a)).
Proof.
  intros Ha Hids; unfold ServeHTTP; destruct (mux _ _ _); [| |by apply admin_acts|..];
    apply (accounted_moves _ nobody); auto using token_moves, channel_moves, v2_moves, moves_ret; by right.
Qed.

(** An invariant of the accounts' machine holds throughout every history of requests. *)
Lemma history_invariant (I : AuthDB → Prop) status has_auth :
  (∀ actor db db', auth_step actor db db' → I db → I db') →
  ∀ reqs (w : W) (a : A), auth_wf a → ids_trimmed (auth_view a) → I (auth_view a) →
    let s' := serve_requests (ServeHTTP svc runtimes scanHost status has_auth) reqs (w, a) in
    auth_wf s'.2 ∧ ids_trimmed (auth_view s'.2) ∧ I (auth_view s'.2).
Proof.
  intros HI reqs; induction reqs as [|req reqs IH]; intros w a Ha Hids Hi; [done|cbn [serve_requests]].
  destruct (serve_acts status has_auth req w a Ha Hids) as (Ha' & actor & _ & Hs).
  destruct (ServeHTTP svc runtimes scanHost status has_auth req (w, a)) as [r [w' a']]; cbn [fst snd] in *.
  apply IH; [done|by eapply steps_ids_trimmed|]; clear -Hs Hi HI; induction Hs; eauto.
Qed.

(** The repository routes act on the registry for their principal. *)
Lemma on_accounts_world {B} (m : M A B) k (w : W) (a : A) : (on_accounts m k (w, a)).2.1 = w.
Proof.
  unfold on_accounts, answering, sbind, sattempt, on_auth; simpl.
  destruct (m a) as [[b|e] a']; [done|]; by destruct (is_panic e).
Qed.
Lemma repository_route_acts req p resource (w : W) (a : A) : good w →
  after svc (Some p) w (handleAdminRepositoryResource svc req p resource (w, a)).2.1.
Proof.
  intros Hg; assert (∀ r : result error response, after svc (Some p) w (r, (w, a)).2.1) as Hstill
    by (intros r; apply (acts_ret svc (Some p) (only_status 0) w a Hg)).
  assert (∀ B (m : M A B) k, after svc (Some p) w (on_accounts m k (w, a)).2.1) as Hacc
    by (intros; rewrite on_accounts_world; apply (acts_ret svc (Some p) (only_status 0) w a Hg)).
  unfold handleAdminRepositoryResource, handleAdminRepositoryDeleteResource, handleAdminRepositoryGrantsCollection,
    handleAdminRepositoryGrantResource, no_route, not_allowed.
  assert (acts svc (Some p) (on_service (A := A) (DeleteRepository svc (Some p) resource)
    (λ details, writeJSON 200 (RepositoryDeletionAnswer details)))) as Hdel.
  { apply acts_registry; [|intros; by eexists]; intros v Hv; rewrite <- (done_with_state _ v).
    apply (reg_run_after svc _ (RqDeleteRepository resource) v Hv). }
  repeat first [apply Hstill|apply Hacc|apply (Hdel w a Hg)
    |progress unfold with_body, sthrow, sret
    |match goal with |- context [match ?x with _ => _ end] => destruct x end].
Qed.
End Administration.
