(* ===== verification/HttpSafety.v ===== *)
(** What the HTTP layer promises: every refusal for lack of credentials, and only
    that, carries a challenge; the locations it hands out lead back; the registry's
    routes act for whoever the bearer token belongs to; the administration serves
    administrators; the token a login returns opens the registry; and no history of
    requests takes the accounts where their machine does not. *)
From S2P Require Import Prelude GoStrings Encodings Errors Repository Digest GoNumbers Manifest Scope Auth.
From S2P Require Import Access AuthStore PgStore AuthService AuthSteps PgExample AuthSafety RegPorts RegWorld.
From S2P Require Import Registry RegService Signing Gc RegSteps RegUploads RegManifests RegRequests.
From S2P Require Import RegExample PolicyPorts PolicyStore PolicyLaws FullLaws PullGate Overrides Scans.
From S2P Require Import GateLaws PullExample Console ConsoleQueries Features Http Admin HttpLaws.

(** * Definitions *)

(** A repository none of whose segments but the first reads like a route. *)
Definition routable (repository : string) : bool :=
  negb (contains (String.append repository "/") "/blobs/") && negb (contains (String.append repository "/") "/manifests/").

(** * Lemmas *)

(** ** Paths *)

Lemma has_prefix_weaken p q s : has_prefix (String.append p q) s = true → has_prefix p s = true.
Proof. rewrite !has_prefix_spec; intros [t ->]; exists (String.append q t); by rewrite append_assoc. Qed.

Lemma has_prefix_cons a p b s : has_prefix (String a p) (String b s) = Ascii.eqb a b && has_prefix p s.
Proof. done. Qed.
Lemma no_char_cons c a s : no_char c (String a s) = true → Ascii.eqb a c = false ∧ no_char c s = true.
Proof. unfold no_char; simpl; rewrite andb_true_iff, negb_true_iff; done. Qed.

(** Whether a segment comes next is settled by its slash. *)
Lemma segment_prefix w s y : no_char "/" w = true →
  has_prefix (String.append w "/") (String.append s (String "/" y)) = has_prefix (String.append w "/") (String.append s "/").
Proof.
  revert s; induction w as [|c w IH]; intros [|a s] Hw; cbn [String.append]; rewrite ?has_prefix_cons; try done;
    apply no_char_cons in Hw as [Hc Hw]; [by rewrite Hc|by rewrite (IH s Hw)].
Qed.
Lemma contains_cons a s p : contains (String a s) p = has_prefix p (String a s) || contains s p.
Proof. unfold contains; cbn [str_index]; destruct (has_prefix p (String a s)); [done|]; simpl; by destruct (str_index p s). Qed.
(** A marker that does not start in the repository starts after it. *)
Lemma index_skip marker w rest r y :
  marker = String "/" (String.append (String.append w "/") rest) → no_char "/" w = true →
  contains (String.append r "/") (String "/" (String.append w "/")) = false →
  str_index marker (String.append r (String "/" y)) = Nat.add (String.length r) <$> str_index marker (String "/" y).
Proof.
  intros -> Hw; induction r as [|a r IH]; intros Hc; [by rewrite option_fmap_id|].
  cbn [String.append] in *; rewrite contains_cons in Hc; apply orb_false_iff in Hc as [Hp Hc].
  cbn [str_index]; rewrite (IH Hc).
  replace (has_prefix _ _) with false; [by rewrite <- option_fmap_compose|].
  symmetry; rewrite has_prefix_cons in *; destruct (Ascii.eqb "/" a); [simpl in *|done].
  apply not_true_iff_false; intros Hx; apply has_prefix_weaken in Hx; rewrite segment_prefix in Hx; congruence.
Qed.
Lemma index_no_slash marker s : no_char "/" s = true → str_index (String "/" marker) s = None.
Proof.
  induction s as [|a s IH]; [done|]; intros [Ha Hs]%no_char_cons; cbn [str_index].
  rewrite has_prefix_cons, Ascii.eqb_sym, Ha; cbn [andb]; by rewrite IH.
Qed.
Lemma suffix_no_slash marker s t : no_char "/" t = true → t ≠ "" →
  has_suffix (String.append marker "/") (String.append s t) = false.
Proof.
  intros Ht Hne; unfold has_suffix; rewrite !srev_append.
  destruct (srev t) as [|b u] eqn:Hr; [destruct Hne; by rewrite <- (srev_involutive t), Hr|].
  assert (no_char "/" (srev t) = true) as Hn by (unfold no_char; by rewrite str_forallb_srev).
  rewrite Hr in Hn; apply no_char_cons in Hn as [Hb _].
  change (srev "/") with "/"; cbn [String.append]; by rewrite has_prefix_cons, Ascii.eqb_sym, Hb.
Qed.
Lemma no_slash_prefix p s : no_char "/" p = false → no_char "/" s = true → has_prefix p s = false.
Proof.
  intros Hp Hs; apply not_true_iff_false; intros [t ->]%has_prefix_spec; revert Hs Hp.
  unfold no_char; rewrite str_forallb_append, andb_true_iff; intros [-> _]; done.
Qed.
Lemma slash_ends w s : no_char "/" w = true → no_char "/" s = true →
  has_prefix (String.append w "/") (String.append s "/") = true → w = s.
Proof.
  revert s; induction w as [|c w IH]; intros [|a s] Hw Hs; cbn [String.append]; rewrite ?has_prefix_cons; [done|..];
    [apply no_char_cons in Hs as [Ha _]|apply no_char_cons in Hw as [Hc _]|].
  - by rewrite Ascii.eqb_sym, Ha.
  - by rewrite Hc.
  - apply no_char_cons in Hw as [_ Hw], Hs as [_ Hs]; intros [Ha%Ascii.eqb_eq Hp]%andb_true_iff; subst; f_equal; auto.
Qed.
(** A suffix whose last segment is [q] asks for that segment. *)
Lemma suffix_segment p q s t : no_char "/" q = true → no_char "/" t = true → t ≠ q →
  has_suffix (String.append p (String "/" q)) (String.append s (String "/" t)) = false.
Proof.
  intros Hq Ht Hne; apply not_true_iff_false; unfold has_suffix; intros Hx; apply Hne.
  change (String "/" q) with (String.append "/" q) in Hx; change (String "/" t) with (String.append "/" t) in Hx.
  rewrite !srev_append in Hx.
  change (srev "/") with "/" in Hx; rewrite (append_assoc (srev q)), (append_assoc (srev t)) in Hx.
  cbn [String.append] in Hx.
  assert (no_char "/" (srev q) = true ∧ no_char "/" (srev t) = true) as [Hq' Ht']
    by (unfold no_char; by rewrite !str_forallb_srev).
  change (String "/" (srev p)) with (String.append "/" (srev p)) in Hx; rewrite <- append_assoc in Hx.
  apply has_prefix_weaken in Hx; rewrite segment_prefix in Hx by done.
  apply slash_ends in Hx; [|done..]; rewrite <- (srev_involutive t), <- Hx; apply srev_involutive.
Qed.

Lemma substring_append r t : substring 0 (String.length r) (String.append r t) = r.
Proof. induction r as [|a r IH]; simpl; [by destruct t|by rewrite IH]. Qed.
Lemma split_found marker w rest r y :
  marker = String "/" (String.append (String.append w "/") rest) → no_char "/" w = true → r ≠ "" →
  contains (String.append r "/") (String "/" (String.append w "/")) = false →
  str_index marker (String "/" y) = Some 0%nat →
  split_at (String.append r (String "/" y)) marker = Some (r, trim_prefix "/" y).
Proof.
  intros Hm Hw Hne Hc Hy; unfold split_at; rewrite (index_skip _ _ _ _ _ Hm Hw Hc), Hy.
  replace (Nat.add (String.length r) <$> Some 0%nat) with (Some (String.length r)) by (simpl; by rewrite Nat.add_0_r).
  destruct (String.length r) as [|n] eqn:Hl; [by destruct r|].
  replace (S (S n)) with (String.length (String.append r "/")) by (rewrite length_append; simpl; lia).
  rewrite <- Hl, substring_append; change (String "/" y) with (String.append "/" y).
  by rewrite <- (append_assoc r "/" y), drop_str_append.
Qed.
Lemma split_missing marker w rest r y :
  marker = String "/" (String.append (String.append w "/") rest) → no_char "/" w = true →
  contains (String.append r "/") (String "/" (String.append w "/")) = false →
  str_index marker (String "/" y) = None →
  has_suffix (trim_prefix "/" marker) (String.append r (String "/" y)) = false →
  split_at (String.append r (String "/" y)) marker = None.
Proof. intros Hm Hw Hc Hy Hs; unfold split_at; by rewrite (index_skip _ _ _ _ _ Hm Hw Hc), Hy, Hs. Qed.

Lemma routable_spec r : routable r = true →
  contains (String.append r "/") "/blobs/" = false ∧ contains (String.append r "/") "/manifests/" = false.
Proof. unfold routable; by rewrite andb_true_iff, !negb_true_iff. Qed.
Lemma location_path r y : String.append "/v2/" (String.append r y) ≠ "/v2/" → 
  route_of (String.append "/v2/" (String.append r y)) = 
  if String.eqb (String.append r y) "_catalog" then RouteCatalog else
  match splitRepositoryPath (String.append r y) with None => RouteUnknown | Some (n, s) => suffix_route n s end.
Proof.
  intros Hne; unfold route_of; destruct (String.eqb_spec (String.append "/v2/" (String.append r y)) "/v2/"); [done|].
  by rewrite trim_prefix_append.
Qed.

(** No marker starts in the known part of a path, nor in a last segment. *)
Ltac no_marker :=
  cbn [String.append];
  repeat (rewrite str_index_step;
    [|first [reflexivity|eassumption|by apply (no_slash_prefix "uploads/")|rewrite has_prefix_cons; apply andb_false_iff; right; by apply no_slash_prefix]]);
  by rewrite index_no_slash.
Lemma no_open_suffix p r y t : no_char "/" t = true → t ≠ "" →
  has_suffix (String.append p "/") (String.append r (String "/" (String.append y t))) = false.
Proof.
  intros Ht Hne; pose proof (suffix_no_slash p (String.append r (String "/" y)) t Ht Hne) as Hx.
  by rewrite (append_assoc r (String "/" y) t) in Hx.
Qed.

Lemma manifest_location_route r ref : r ≠ "" → routable r = true → ref ≠ "" → no_char "/" ref = true →
  splitRepositoryPath (String.append r (String "/" (String.append "manifests/" ref))) = Some (r, String.append "manifests/" ref).
Proof.
  intros Hr [Hb Hm]%routable_spec Hne Href; unfold splitRepositoryPath, first_of, markers, map.
  rewrite (split_missing "/blobs/uploads/" "blobs" "uploads/"), (split_missing "/blobs/uploads" "blobs" "uploads"),
    (split_missing "/blobs/" "blobs" ""), (split_found "/manifests/" "manifests" ""); try done; try no_marker.
  - by apply (no_open_suffix "blobs").
  - destruct (decide (ref = "uploads")) as [->|Hup]; [unfold has_suffix; rewrite srev_append; by vm_compute|].
    pose proof (suffix_segment "blobs" "uploads" (String.append r "/manifests") ref eq_refl Href Hup) as Hx.
    by rewrite (append_assoc r "/manifests") in Hx.
  - by apply (no_open_suffix "blobs/uploads").
Qed.
Lemma blob_location_route r d : r ≠ "" → routable r = true → d ≠ "" → no_char "/" d = true → has_prefix "uploads" d = false →
  splitRepositoryPath (String.append r (String "/" (String.append "blobs/" d))) = Some (r, String.append "blobs/" d).
Proof.
  intros Hr [Hb Hm]%routable_spec Hne Hd Hup; unfold splitRepositoryPath, first_of, markers, map.
  rewrite (split_missing "/blobs/uploads/" "blobs" "uploads/"), (split_missing "/blobs/uploads" "blobs" "uploads"),
    (split_found "/blobs/" "blobs" ""); try done; try no_marker.
  - pose proof (suffix_segment "blobs" "uploads" (String.append r "/blobs") d eq_refl Hd) as Hx.
    rewrite (append_assoc r "/blobs") in Hx; apply Hx; by intros ->.
  - by apply (no_open_suffix "blobs/uploads").
Qed.
Lemma upload_location_route r id : r ≠ "" → routable r = true →
  splitRepositoryPath (String.append r (String "/" (String.append "blobs/uploads/" id))) = Some (r, String.append "blobs/uploads/" id).
Proof.
  intros Hr [Hb Hm]%routable_spec; unfold splitRepositoryPath, first_of, markers, map.
  by rewrite (split_found "/blobs/uploads/" "blobs" "uploads/").
Qed.
Lemma not_catalog r y : String.append r (String "/" y) ≠ "_catalog".
Proof.
  intros Hx; assert (no_char "/" (String.append r (String "/" y)) = true) as Hn by (by rewrite Hx).
  unfold no_char in Hn; rewrite str_forallb_append in Hn; apply andb_true_iff in Hn as [_ [=]].
Qed.
Lemma route_split r y n s : splitRepositoryPath (String.append r (String "/" y)) = Some (n, s) →
  route_of (String.append "/v2/" (String.append r (String "/" y))) = suffix_route n s.
Proof.
  intros Hs; rewrite location_path.
  - destruct (String.eqb_spec (String.append r (String "/" y)) "_catalog") as [Hx|_]; [by apply not_catalog in Hx|].
    by rewrite Hs.
  - intros Hx; assert (String.length (String.append "/v2/" (String.append r (String "/" y))) = 4%nat) as Hl by (by rewrite Hx).
    rewrite !length_append in Hl; simpl in Hl; lia.
Qed.

Lemma blob_suffix r d : has_prefix "uploads" d = false → suffix_route r (String.append "blobs/" d) = RouteBlobRead r d.
Proof.
  intros Hup; unfold suffix_route.
  assert (String.eqb (String.append "blobs/" d) "blobs/uploads" = false
    ∧ String.eqb (String.append "blobs/" d) "blobs/uploads/" = false) as [-> ->]
    by (split; apply String.eqb_neq; intros [= ->]; discriminate Hup).
  replace (has_prefix "blobs/uploads/" (String.append "blobs/" d)) with false; [by rewrite (trim_prefix_append "blobs/" d)|].
  symmetry; apply not_true_iff_false; intros Hx; change (has_prefix "uploads/" d = true) in Hx.
  apply (has_prefix_weaken "uploads" "/") in Hx; congruence.
Qed.
Lemma no_verdict_suffix w s : no_char "/" s = true → has_suffix (String "/" w) s = false.
Proof.
  intros Hs; unfold has_suffix; apply no_slash_prefix; unfold no_char; by rewrite str_forallb_srev.
Qed.
Lemma manifest_suffix r ref : no_char "/" ref = true →
  suffix_route r (String.append "manifests/" ref) = RouteManifest r ref.
Proof.
  intros Hs; change (manifest_route r (trim_prefix "manifests/" (String.append "manifests/" ref)) = RouteManifest r ref).
  rewrite (trim_prefix_append "manifests/" ref); unfold manifest_route.
  by rewrite !no_verdict_suffix.
Qed.

(** ** The token endpoint, then the base of the registry *)

Section Opening.
Context {W A : Type} `{UnicodeTables, KeyCrypto, SigningCodec, Sigstore, Regexps, OverrideCodec, ManifestCodec}.
Context `{!BlobStore W, !MetadataStore W, !RegRuntime W, !PolicyStore W, !ConsoleStore W}.
Context `{!AuthStore A, !AuthStoreLaws A, !Runtime A, !RuntimeLaws A}.

Lemma base_answers svc req (w : W) (a : A) token t u : auth_wf a → auth_calm a →
  str_forallb graphic token = true → token ≠ "" → rq_Authorization req = String.append "Bearer " token →
  secret_of (auth_view a) TokenKindAccess token t → t_RevokedAt t = None →
  db_users (auth_view a) !! trim_space (t_UserID t) = Some u → u_Enabled u = true →
  ∃ now, verification_time token a = Ok now
    ∧ if now <? t_ExpiresAt t then (handleBase svc true req (w, a)).1 = Ok (only_status 200)
      else ∃ resp, (handleBase svc true req (w, a)).1 = Ok resp ∧ rp_Status resp = 401.
Proof.
  intros Ha Hc Hg Hne Hreq Ht Hrev Hu Hen; destruct (verify_at token t u a) as (now & Hnow & Hv); [done..|].
  exists now; split; [done|]; unfold handleBase, answering, authenticate, sbind, sattempt, slift, on_auth; cbn [negb].
  rewrite (bearer_of _ _ Hreq Hg Hne); cbn [fst snd]; destruct (VerifyAccessToken token a) as [r a']; cbn [fst snd] in Hv.
  destruct (now <? _); [by destruct Hv as [p ->]|rewrite Hv; by eexists].
Qed.

Lemma token_path has_auth req : rq_EscapedPath req = "/auth/token" → mux true has_auth req = ToToken.
Proof. intros Hp; unfold mux; rewrite Hp; destruct (String.eqb (rq_Method req) "CONNECT"); by vm_compute. Qed.
Lemma base_path has_auth has_admin req : rq_EscapedPath req = "/v2/" → mux has_auth has_admin req = ToV2.
Proof. intros Hp; unfold mux; rewrite Hp; destruct (String.eqb (rq_Method req) "CONNECT"); by vm_compute. Qed.
End Opening.

(** * Properties *)

Section Properties.
Context {W A : Type} `{KeyCrypto, SigningCodec, Sigstore, Regexps, OverrideCodec, ManifestCodec, ConsoleLaws W}.
Context `{NetAddresses, AdminJSON}.
Context `{!AuthStore A, !AuthStoreLaws A, !Runtime A, !RuntimeLaws A}.
Variables (svc : RegConfig) (runtimes : string → option (FeatureRuntimeManager W)) (scanHost : string).
Implicit Types (w : W) (a : A).

(** C4: every request to the server, whatever its route and whatever fails, moves
    the accounts only by transitions of their machine, made as the principal of the
    request's live session or as nobody: the whole HTTP layer refines the machine. *)
Theorem server_refines_the_accounts status has_auth req w a : auth_wf a → ids_trimmed (auth_view a) →
  let a' := (ServeHTTP svc runtimes scanHost status has_auth req (w, a)).2.2 in
  auth_wf a' ∧ ∃ actor, acting (auth_view a) req actor ∧ rtc (auth_step actor) (auth_view a) (auth_view a').
Proof. intros Ha Hids; exact (serve_acts svc runtimes scanHost status has_auth req w a Ha Hids). Qed.

(** C5: no history of HTTP requests, whoever sends them and whether or not each
    succeeds, leaves the installation without an active administrator, leaves a
    token that outlives the ceiling of its kind, or breaks the tables. *)
Theorem requests_keep_the_accounts status has_auth reqs w a :
  auth_wf a → ids_trimmed (auth_view a) → active_admin (auth_view a) → tokens_short_lived (auth_view a) →
  let a' := (serve_requests (ServeHTTP svc runtimes scanHost status has_auth) reqs (w, a)).2 in
  auth_wf a' ∧ active_admin (auth_view a') ∧ tokens_short_lived (auth_view a').
Proof.
  intros Ha Hids Hadm Htok.
  destruct (history_invariant svc runtimes scanHost (λ db, active_admin db ∧ tokens_short_lived db) status has_auth)
    with (reqs := reqs) (w := w) (a := a) as (? & _ & ? & ?); try done.
  intros actor db db' Hs [? ?]; split; [by eapply step_active_admin|by eapply step_tokens_short_lived].
Qed.

(** C6: a request to the registry's routes is served for the principal of its live
    session, or for nobody: the registry changes only by transitions that caller
    may make, and the accounts do not change. *)
Theorem requests_act_for_their_caller req w a : good w → auth_wf a →
  let s' := (handleV2 svc true req (w, a)).2 in
  auth_view s'.2 = auth_view a
  ∧ ∃ ctx, caller (auth_view a) req ctx ∧ good s'.1 ∧ rtc (reg_step svc ctx) (reg_view w) (reg_view s'.1).
Proof.
  intros Hg Ha; destruct (v2_routed svc req w a Hg Ha) as (_ & Hv & ctx & Hc & Hgood & _ & Hs).
  split; [done|by exists ctx].
Qed.

(** C7: the administration serves only the live session of an administrator. On
    the routes below [repositories/] any session is served, and the registry then
    changes only as that session's principal may change it; any other request is
    refused with an error status and changes nothing. *)
Theorem administration_needs_an_administrator req w a : good w → auth_wf a →
  let out := handleAdmin svc runtimes scanHost req (w, a) in
  (∃ p, session_of (auth_view a) req p ∧ p_IsAdmin p = true)
  ∨ (∃ p, session_of (auth_view a) req p ∧ has_prefix "repositories/" (admin_subpath req) = true
       ∧ rtc (reg_step svc (Some p)) (reg_view w) (reg_view out.2.1))
  ∨ (out.2.1 = w ∧ auth_view out.2.2 = auth_view a ∧ ∀ resp, out.1 = Ok resp → 400 ≤ rp_Status resp).
Proof.
  intros Hg Ha; simpl; unfold handleAdmin, requireAdminPrincipal.
  destruct (has_prefix "repositories/" _) eqn:Hp; (apply admitted; [done| |intros r a' _ Hv Hr; auto]); intros p a' Ha' Hv Hs.
  - right; left; exists p; split_and!; [done..|apply repository_route_acts, Hg].
  - destruct (p_IsAdmin p) eqn:Hadm; [left; eauto|].
    right; right; split_and!; [done..|]; intros resp [= <-]; apply refusal_status.
Qed.

(** C16: a response of the server has the status 401 exactly when it carries a
    [WWW-Authenticate] challenge, on every route. *)
Theorem challenges_go_with_401 status has_auth req w a resp : status ≠ 401 →
  (ServeHTTP svc runtimes scanHost status has_auth req (w, a)).1 = Ok resp →
  rp_Status resp = 401 ↔ is_Some (rp_Header resp !! "WWW-Authenticate").
Proof.
  intros Hs Hr; eapply (fair_serve svc runtimes scanHost status has_auth req Hs (w, a)).
  rewrite <- Hr; apply surjective_pairing.
Qed.

End Properties.

(** the locations the registry hands out lead back: the path of an upload, a
    blob or a manifest is routed to that repository and that upload, digest or
    reference, for a repository none of whose segments but the first is [blobs] or
    [manifests]. *)
Theorem locations_lead_back repository : repository ≠ "" → routable repository = true →
  (∀ id, id ≠ "" → route_of (uploadLocation repository id) = RouteUploadState repository id)
  ∧ (∀ digest, digest ≠ "" → no_char "/" digest = true → has_prefix "uploads" digest = false →
       route_of (blobLocation repository digest) = RouteBlobRead repository digest)
  ∧ (∀ reference, reference ≠ "" → no_char "/" reference = true →
       route_of (manifestLocation repository reference) = RouteManifest repository reference).
Proof.
  intros Hne Hr; unfold uploadLocation, blobLocation, manifestLocation; cbn [foldr]; split_and!.
  - intros id Hid; rewrite append_nil_r; etrans; [apply route_split, (upload_location_route _ id Hne Hr)|].
    unfold suffix_route; destruct id as [|c id]; done.
  - intros d Hd Hs Hup; rewrite append_nil_r; etrans; [apply route_split, (blob_location_route _ d Hne Hr Hd Hs Hup)|].
    by apply blob_suffix.
  - intros ref Href Hs; rewrite append_nil_r; etrans; [apply route_split, (manifest_location_route _ ref Hne Hr Href Hs)|].
    by apply manifest_suffix.
Qed.

(** * Witnesses *)

(** Bodies that never parse, and no feature has a runtime. *)
#[local] Instance example_admin_json : AdminJSON := {|
  json_scan_policy _ := Undecoded JsonEOF;
  json_channel b := Decoded (rd_Data b) true;
  json_signing_policy _ := Undecoded JsonEOF;
  json_manual_scan _ := Undecoded JsonEOF;
  json_scan_settings _ := Undecoded JsonEOF;
  json_feature _ := Undecoded JsonEOF;
  json_version b := Decoded (rd_Data b) true;
  json_user b := Decoded (mkCreateUserInput (rd_Data b) "long enough" false false true) true;
  json_password b := Decoded (rd_Data b) true;
  json_role b := Decoded (rd_Data b) true;
  json_robot _ := Undecoded JsonEOF;
  json_token _ := Undecoded JsonEOF;
  not_an_object _ := None;
|}.
Definition no_runtimes : string → option (FeatureRuntimeManager FullWorld) := λ _, None.
Definition request_of (method path query authorization content : string) : request :=
  mkRequest method path path query authorization "" (Z.of_nat (String.length content)) (Some []) (mkReader content None).

(** Alice signs in for a push, opens the registry, and tries the administration. *)
Definition sign_in : request :=
  request_of "GET" "/auth/token" "service=registry&scope=repository%3Ateam%2Fapp%3Apull%2Cpush"
    (String.append "Basic " (base64_EncodeToString "alice:battery staple")) "".
Definition server : request → M (FullWorld * AuthWorld) response :=
  ServeHTTP example_svc no_runtimes "registry.example" 307 true.
Definition quiet : FullWorld := policed [].
Definition sign_in_answer : response :=
  Eval vm_compute in match (server sign_in (quiet, team_world)).1 with Ok r => r | Err _ => only_status 0 end.
Definition bearer_answer : string * Z * Time :=
  Eval vm_compute in match rp_Body sign_in_answer with JSON (TokenAnswer t e i _ _) => (t, e, i) | _ => ("", 0, 0) end.
Definition with_token (method path content : string) : request :=
  request_of method path "" (String.append "Bearer " bearer_answer.1.1) content.
Definition signed_in : FullWorld * AuthWorld := (server sign_in (quiet, team_world)).2.
Definition promote : request := with_token "POST" "/admin/v1/users/uu:reset-password" "a new password".

Lemma signed_in_wf : auth_wf signed_in.2 ∧ ids_trimmed (auth_view signed_in.2).
Proof.
  destruct team_world_wf as [Ha Hids].
  destruct (history_invariant example_svc no_runtimes "registry.example" (λ _, True) 307 true (λ _ _ _ _ _, I) [sign_in]
    quiet team_world Ha Hids I) as (? & ? & _); done.
Qed.
Lemma quiet_good : good quiet.
Proof. apply policed_good. Qed.

Example promotion_refused : match (server promote signed_in).1 with Ok r => rp_Status r | Err _ => 0 end = 403.
Proof. vm_compute; reflexivity. Qed.
Example challenge_shown :
  match (server (request_of "GET" "/v2/" "" "" "") (quiet, team_world)).1 with
  | Ok r => (rp_Status r, bool_decide (is_Some (rp_Header r !! "WWW-Authenticate")))
  | Err _ => (0, false) end = (401, true).
Proof. vm_compute; reflexivity. Qed.

Lemma server_refines_the_accounts_witness :
  ∃ actor, acting (auth_view signed_in.2) promote actor
    ∧ rtc (auth_step actor) (auth_view signed_in.2) (auth_view (server promote (quiet, signed_in.2)).2.2).
Proof.
  exact (proj2 (server_refines_the_accounts example_svc no_runtimes "registry.example" 307 true promote quiet signed_in.2
    (proj1 signed_in_wf) (proj2 signed_in_wf))).
Defined.

Lemma requests_keep_the_accounts_witness :
  active_admin (auth_view (serve_requests server [sign_in; promote; with_token "GET" "/v2/" ""] (quiet, root_world)).2).
Proof.
  destruct root_world_auth as (Ha & Hids & Hadm & Htok).
  exact (proj1 (proj2 (requests_keep_the_accounts example_svc no_runtimes "registry.example" 307 true
    [sign_in; promote; with_token "GET" "/v2/" ""] quiet root_world Ha Hids Hadm Htok))).
Defined.

Lemma requests_act_for_their_caller_witness :
  ∃ ctx, caller (auth_view signed_in.2) (with_token "POST" "/v2/team/app/blobs/uploads/" "") ctx
    ∧ rtc (reg_step example_svc ctx) (reg_view quiet)
        (reg_view (handleV2 example_svc true (with_token "POST" "/v2/team/app/blobs/uploads/" "") (quiet, signed_in.2)).2.1).
Proof.
  destruct (requests_act_for_their_caller example_svc (with_token "POST" "/v2/team/app/blobs/uploads/" "") quiet signed_in.2
    quiet_good (proj1 signed_in_wf)) as (_ & ctx & Hc & _ & Hs).
  exists ctx; split; [exact Hc|exact Hs].
Defined.

Lemma administration_needs_an_administrator_witness :
  (∃ p, session_of (auth_view signed_in.2) promote p ∧ p_IsAdmin p = true)
  ∨ (∃ p, session_of (auth_view signed_in.2) promote p ∧ has_prefix "repositories/" (admin_subpath promote) = true
       ∧ rtc (reg_step example_svc (Some p)) (reg_view quiet)
           (reg_view (handleAdmin example_svc no_runtimes "registry.example" promote (quiet, signed_in.2)).2.1))
  ∨ ((handleAdmin example_svc no_runtimes "registry.example" promote (quiet, signed_in.2)).2.1 = quiet
     ∧ auth_view (handleAdmin example_svc no_runtimes "registry.example" promote (quiet, signed_in.2)).2.2
       = auth_view signed_in.2
     ∧ ∀ resp, (handleAdmin example_svc no_runtimes "registry.example" promote (quiet, signed_in.2)).1 = Ok resp →
         400 ≤ rp_Status resp).
Proof.
  exact (administration_needs_an_administrator example_svc no_runtimes "registry.example" promote quiet signed_in.2
    quiet_good (proj1 signed_in_wf)).
Defined.

Lemma challenges_go_with_401_witness :
  rp_Status sign_in_answer = 401 ↔ is_Some (rp_Header sign_in_answer !! "WWW-Authenticate").
Proof.
  apply (challenges_go_with_401 example_svc no_runtimes "registry.example" 307 true sign_in quiet team_world); [done|].
  vm_compute; reflexivity.
Defined.


Lemma locations_lead_back_witness :
  route_of (blobLocation "blobs/app" signed_payload_digest) = RouteBlobRead "blobs/app" signed_payload_digest.
Proof.
  assert ("blobs/app" ≠ "") as Hne by done.
  refine (proj1 (proj2 (locations_lead_back "blobs/app" Hne _)) signed_payload_digest _ _ _); [|discriminate|..];
    vm_compute; reflexivity.
Defined.
(** A repository with a segment named like a route cannot be reached. *)
Example misrouted : route_of (manifestLocation "team/manifests" "v1") = RouteManifest "team" "manifests/v1"
  ∧ route_of (blobLocation "team/blobs/app" "sha256:00") = RouteBlobRead "team" "app/blobs/sha256:00".
Proof. by vm_compute. Qed.
