(* ===== verification/Host.v ===== *)
(** The machine the scanners are installed and run on: what the runtime managers
    and runners of internal/infra/scanning use of Go's [os], [os/exec] and
    [net/http] packages. A host has files, symbolic links and a record of the
    programs it ran; which call fails, what a program prints, what a server
    answers and what the clock says is drawn from outside, call by call.

    What the calls of a host do: the paths texts name, the links on their way, the
    files a call leaves alone. *)
From S2P Require Import Prelude GoStrings Errors GoNumbers RegWorld Overrides Release.

(** * Files, links, programs *)

Record Host := mkHost {
  ho_files : gmap (list string) node;
  ho_links : gmap (list string) (list string);
  ho_ran : list (string * list string);
  ho_calls : nat;
}.

(** [henv_run] is a scanner: given the content of its binary and its arguments it
    prints something or fails, and may write the file its arguments name as its
    report, and no other. [henv_temp] is the random part of a temporary name;
    [henv_removed] says which entries a removal that fails had come to. *)
Class HostEnv := {
  henv_cwd : path;
  henv_fault : nat → option string;
  henv_partial : nat → nat;
  henv_removed : nat → path → bool;
  henv_now : nat → Time;
  henv_temp : nat → gmap (list string) node → string;
  henv_url : string → res unit;
  henv_get : nat → string → res (Z * string);
  henv_releases : string → list string + string;
  henv_release : string → (string * list (string * string)) + string;
  henv_run : nat → gmap (list string) node → string → list string → res string * option string;
}.

(** ** Symbolic links *)

(** The path after its first link is followed. *)
Definition follow_one (links : gmap (list string) (list string)) (p : path) : option path :=
  head (omap (λ k, (λ t, t ++ drop k p) <$> links !! take k p) (seq 1 (length p))).
Fixpoint follow (fuel : nat) (links : gmap (list string) (list string)) (p : path) : option path :=
  match follow_one links p with
  | None => Some p
  | Some p' => match fuel with O => None | S fuel' => follow fuel' links p' end
  end.
(** As many as Linux follows. *)
Definition max_links : nat := 40.

Section Calls.
Context `{HostEnv}.

Definition host_tick (h : Host) : Host := mkHost (ho_files h) (ho_links h) (ho_ran h) (S (ho_calls h)).
Definition with_files (fs : gmap (list string) node) (h : Host) : Host := mkHost fs (ho_links h) (ho_ran h) (ho_calls h).
Definition with_links (ls : gmap (list string) (list string)) (h : Host) : Host := mkHost (ho_files h) ls (ho_ran h) (ho_calls h).

(** A relative path starts at the working directory. *)
Definition to_path (s : string) : path := join_path (if filepath_IsAbs s then [] else henv_cwd) s.
Definition at_path (h : Host) (s : string) : os_result path :=
  match follow max_links (ho_links h) (to_path s) with
  | Some p => Ok p
  | None => Err (ErrOther "too many levels of symbolic links")
  end.
(** The entry itself, when it is a link: only its directory is followed. *)
Definition at_entry (h : Host) (s : string) : os_result path :=
  match follow max_links (ho_links h) (parent (to_path s)), last (to_path s) with
  | Some p, Some name => Ok (p ++ [name])
  | _, _ => Err (ErrOther "invalid path")
  end.

(** One call of the operating system. A failing call has no effect. *)
Definition host_call {A} (f : nat → Host → os_result (A * Host)) : M Host A := λ h,
  match henv_fault (ho_calls h) with
  | Some e => (Err (OtherError e), host_tick h)
  | None =>
      match f (ho_calls h) h with
      | Ok (a, h') => (Ok a, host_tick h')
      | Err e => (Err (os_err e), host_tick h)
      end
  end.
Definition on_files (s : string) (f : Time → path → gmap (list string) node → os_result (gmap (list string) node)) : M Host unit :=
  host_call (λ n h, match at_path h s with
                    | Err e => Err e
                    | Ok p => match f (henv_now n) p (ho_files h) with Ok fs => Ok (tt, with_files fs h) | Err e => Err e end
                    end).

Definition host_MkdirAll (s : string) : M Host unit := on_files s (λ _ p fs, fs_mkdir_all fs p).
(** A failing write may leave part of the data. *)
Definition host_WriteFile (s data : string) : M Host unit := λ h,
  match henv_fault (ho_calls h), henv_partial (ho_calls h) with
  | Some e, S n =>
      match at_path h s with
      | Err _ => (Err (OtherError e), host_tick h)
      | Ok p => match fs_write (ho_files h) p (substring 0 n data) (henv_now (ho_calls h)) with
                | Ok fs => (Err (OtherError e), host_tick (with_files fs h))
                | Err _ => (Err (OtherError e), host_tick h)
                end
      end
  | _, _ => on_files s (λ now p fs, fs_write fs p data now) h
  end.
Definition host_ReadFile (s : string) : M Host string :=
  host_call (λ _ h, match at_path h s with
                    | Err e => Err e
                    | Ok p => match fs_read (ho_files h) p with Ok c => Ok (c, h) | Err e => Err e end
                    end).
(** [os.Open] and [Stat]: whether it is a directory. *)
Definition host_Open (s : string) : M Host bool :=
  host_call (λ _ h, match at_path h s with
                    | Err e => Err e
                    | Ok p => match fs_stat (ho_files h) p with
                              | Ok Dir => Ok (true, h)
                              | Ok (File _ _) => Ok (false, h)
                              | Err e => Err e
                              end
                    end).
Definition host_Remove (s : string) : M Host unit :=
  host_call (λ _ h, match at_entry h s with
                    | Err e => Err e
                    | Ok p =>
                        match ho_links h !! p with
                        | Some _ => Ok (tt, with_links (delete p (ho_links h)) h)
                        | None => match fs_remove (ho_files h) p with Ok fs => Ok (tt, with_files fs h) | Err e => Err e end
                        end
                    end).
(** A target that is not absolute is relative to the directory of the link. *)
Definition host_Symlink (target s : string) : M Host unit :=
  host_call (λ _ h, match at_entry h s with
                    | Err e => Err e
                    | Ok p =>
                        match ho_links h !! p, ho_files h !! p with
                        | None, None =>
                            if is_dir (ho_files h) (parent p)
                            then Ok (tt, with_links (<[p := join_path (if filepath_IsAbs target then [] else parent p) target]>
                                                       (ho_links h)) h)
                            else Err (missing (ho_files h) p)
                        | _, _ => Err ErrExist
                        end
                    end).
(** A link that is renamed replaces a link or a file. *)
Definition host_Rename (old new : string) : M Host unit :=
  host_call (λ _ h, match at_entry h old, at_entry h new with
                    | Ok p, Ok q =>
                        match ho_links h !! p, ho_files h !! q with
                        | Some _, Some Dir => Err ErrExist
                        | Some t, _ =>
                            if is_dir (ho_files h) (parent q)
                            then Ok (tt, with_links (<[q := t]> (delete p (ho_links h))) (with_files (delete q (ho_files h)) h))
                            else Err (missing (ho_files h) q)
                        | None, _ => match fs_rename (ho_files h) p q with
                                     | Ok fs => Ok (tt, with_files fs h)
                                     | Err e => Err e
                                     end
                        end
                    | Err e, _ | _, Err e => Err e
                    end).
Definition host_entries (h : Host) : list path := map fst (map_to_list (ho_files h)) ++ map fst (map_to_list (ho_links h)).
(** A link is removed, not followed. A removal that fails on its way may have removed
    some of the entries below its path, a directory only after all in it; its path
    itself is still there. *)
Definition remove_some (gone : path → bool) (p : path) (h : Host) : Host :=
  with_links (filter (λ kv, remains gone p (host_entries h) kv.1 = true) (ho_links h))
    (with_files (filter (λ kv, remains gone p (host_entries h) kv.1 = true) (ho_files h)) h).
Definition host_RemoveAll (s : string) : M Host unit := λ h,
  match henv_fault (ho_calls h), at_entry h s with
  | Some e, Ok p => (Err (OtherError e), host_tick (remove_some (henv_removed (ho_calls h)) p h))
  | _, _ =>
      host_call (λ _ h, match at_entry h s with
                        | Err e => Err e
                        | Ok p =>
                            match ho_links h !! p with
                            | Some _ => Ok (tt, with_links (delete p (ho_links h)) h)
                            | None => Ok (tt, with_links (filter (λ kv, bool_decide (p `prefix_of` kv.1) = false) (ho_links h))
                                                (with_files (fs_remove_all (ho_files h) p) h))
                            end
                        end) h
  end.
(** [os.Stat]: whether there is anything. *)
Definition host_Stat (s : string) : M Host bool :=
  host_call (λ _ h, match at_path h s with
                    | Err e => Err e
                    | Ok p => match fs_stat (ho_files h) p with
                              | Ok _ => Ok (true, h)
                              | Err e => if IsNotExist e then Ok (false, h) else Err e
                              end
                    end).
(** A new, empty file. *)
Definition host_CreateTemp (dir prefix : string) : M Host string :=
  host_call (λ n h, let name := foldr String.append "" [dir; if has_suffix "/" dir then "" else "/"; prefix;
                                                        henv_temp n (ho_files h)] in
                    match at_path h name with
                    | Err e => Err e
                    | Ok p => match fs_create_excl (ho_files h) p (henv_now n) with
                              | Ok fs => Ok (name, with_files fs h)
                              | Err e => Err e
                              end
                    end).
(** A new directory, under its name as the caller spells it. *)
Definition host_MkdirTemp (dir prefix : string) : M Host string :=
  host_call (λ n h, let name := filepath_Join dir (String.append prefix (henv_temp n (ho_files h))) in
                    match at_path h name with
                    | Err e => Err e
                    | Ok p => match ho_files h !! p with
                              | Some _ => Err ErrExist
                              | None => if is_dir (ho_files h) (parent p)
                                        then Ok (name, with_files (<[p := Dir]> (ho_files h)) h)
                                        else Err (missing (ho_files h) p)
                              end
                    end).

Definition host_now : M Host Time := λ h, (Ok (henv_now (ho_calls h)), host_tick h).

(** [exec.Command(binary, args...).Output()] *)
Definition report_argument (args : list string) : option string :=
  head (omap (λ ab : string * string, if String.eqb ab.1 "--report-path" then Some ab.2 else None) (zip args (tail args))).
Definition write_report (args : list string) (report : option string) (now : Time) (h : Host) : Host :=
  match report, report_argument args with
  | Some content, Some s =>
      match at_path h s with
      | Ok p => match fs_write (ho_files h) p content now with Ok fs => with_files fs h | Err _ => h end
      | Err _ => h
      end
  | _, _ => h
  end.
Definition host_exec (binary : string) (args : list string) : M Host string := λ h,
  match henv_fault (ho_calls h) with
  | Some e => (Err (OtherError e), host_tick h)
  | None =>
      match (match at_path h binary with Ok p => fs_read (ho_files h) p | Err e => Err e end) with
      | Err e => (Err (os_err e), host_tick h)
      | Ok content =>
          let '(out, report) := henv_run (ho_calls h) (ho_files h) content args in
          let h' := write_report args report (henv_now (ho_calls h)) h in
          (out, host_tick (mkHost (ho_files h') (ho_links h') (ho_ran h' ++ [(binary, args)]) (ho_calls h')))
      end
  end.
End Calls.

#[global] Instance host_web `{HostEnv} : WebClient Host := {|
  web_NewRequest := henv_url;
  web_Get url := λ h, (henv_get (ho_calls h) url, host_tick h);
  decode_releases := henv_releases;
  decode_release := henv_release;
|}.

(** ** A server and its host *)

Definition on_server {W A B} (m : M W B) : M (W * A) B := λ s, let '(r, w) := m s.1 in (r, (w, s.2)).
Definition on_host {W A B} (m : M A B) : M (W * A) B := λ s, let '(r, a) := m s.2 in (r, (s.1, a)).

(** * What the calls do *)

(** A name that is one segment of a path. *)
Definition segment_ok (s : string) : Prop := s ≠ "" ∧ s ≠ "." ∧ s ≠ ".." ∧ no_char "/" s = true.

(** ** Paths *)

(** The segments [filepath.Clean] keeps, in reverse. *)
Definition kept (s : string) : list string := foldl (clean_segment (filepath_IsAbs s)) [] (split "/" s).

(** * Lemmas *)

Lemma segment_literal s :
  negb (String.eqb s "") && negb (String.eqb s ".") && negb (String.eqb s "..") && no_char "/" s = true → segment_ok s.
Proof. rewrite !andb_true_iff, !negb_true_iff, !String.eqb_neq; by intros [[[? ?] ?] ?]. Qed.

(** What is kept: names, above any [..] of a path that is not rooted. *)
Definition kept_ok (rooted : bool) (acc : list string) : Prop :=
  ∃ names dots, acc = names ++ dots ∧ Forall segment_ok names ∧ Forall (λ s, s = "..") dots
    ∧ (rooted = true → dots = []).
Lemma kept_nil rooted : kept_ok rooted [].
Proof. exists [], []; by repeat constructor. Qed.

Lemma kept_step rooted acc s : no_char "/" s = true → kept_ok rooted acc → kept_ok rooted (clean_segment rooted acc s).
Proof.
  intros Hs (names & dots & -> & Hn & Hd & Hr); unfold clean_segment.
  destruct (String.eqb_spec s "") as [->|H1]; [by exists names, dots|].
  destruct (String.eqb_spec s ".") as [->|H2]; [by exists names, dots|]; simpl.
  destruct (String.eqb_spec s "..") as [->|H3].
  - destruct names as [|x names]; simpl.
    + destruct dots as [|d dots]; [|inversion Hd; subst; simpl].
      * destruct rooted; [by exists [], []; repeat constructor|].
        exists [], [".."]; split_and!; [done|by constructor|by repeat constructor|done].
      * exists [], (".." :: ".." :: dots); split_and!; [done|by constructor|by repeat constructor|].
        intros ->; by discriminate Hr.
    + inversion Hn as [|? ? Hx Hn']; subst; destruct (String.eqb_spec x "..") as [?|_]; [by destruct Hx as (_ & _ & ? & _)|].
      by exists names, dots.
  - exists (s :: names), dots; split_and!; [done| |done..]; by constructor.
Qed.
Lemma kept_steps rooted segments acc :
  Forall (λ s, no_char "/" s = true) segments → kept_ok rooted acc → kept_ok rooted (foldl (clean_segment rooted) acc segments).
Proof. intros Hs; revert acc; induction Hs; intros acc Hacc; simpl; [done|]; by apply IHHs, kept_step. Qed.
Lemma kept_spec s : kept_ok (filepath_IsAbs s) (kept s).
Proof. apply kept_steps; [apply split_parts|apply kept_nil]. Qed.

Lemma kept_segments rooted acc : kept_ok rooted acc → Forall (λ s, s ≠ "" ∧ s ≠ "." ∧ no_char "/" s = true) acc.
Proof.
  intros (names & dots & -> & Hn & Hd & _); apply Forall_app; split.
  - eapply Forall_impl; [exact Hn|]; intros x (? & ? & ? & ?); by split_and!.
  - eapply Forall_impl; [exact Hd|]; by intros x ->.
Qed.

(** Cleaning a path does not change where it leads. *)
Lemma clean_step_name p s : s ≠ "" → s ≠ "." → s ≠ ".." → clean_step p s = p ++ [s].
Proof. intros H1 H2 H3; unfold clean_step; apply String.eqb_neq in H1, H2, H3; by rewrite H1, H2, H3. Qed.
Lemma clean_step_kept p rooted acc s : (rooted = true → p = []) → kept_ok rooted acc →
  foldl clean_step p (reverse (clean_segment rooted acc s)) = clean_step (foldl clean_step p (reverse acc)) s.
Proof.
  intros Hp Hk; unfold clean_segment.
  destruct (String.eqb_spec s "") as [->|H1]; [done|]; destruct (String.eqb_spec s ".") as [->|H2]; [done|]; simpl.
  destruct (String.eqb_spec s "..") as [->|H3].
  - destruct acc as [|a acc].
    + destruct rooted; simpl; [by rewrite (Hp eq_refl)|done].
    + destruct (String.eqb_spec a "..") as [->|Ha].
      * by rewrite reverse_cons, foldl_app.
      * rewrite reverse_cons, foldl_app; simpl.
        apply kept_segments in Hk; inversion Hk as [|? ? (? & ? & ?) _]; subst.
        rewrite (clean_step_name _ a) by done; unfold clean_step; simpl; by rewrite removelast_last.
  - by rewrite reverse_cons, foldl_app.
Qed.
Lemma clean_steps_kept p rooted segments acc :
  (rooted = true → p = []) → kept_ok rooted acc → Forall (λ s, no_char "/" s = true) segments →
  foldl clean_step p (reverse (foldl (clean_segment rooted) acc segments))
  = foldl clean_step (foldl clean_step p (reverse acc)) segments.
Proof.
  intros Hp Hk Hs; revert acc Hk; induction Hs as [|s segments Hs _ IH]; intros acc Hk; simpl; [done|].
  by rewrite IH, clean_step_kept by auto using kept_step.
Qed.
Lemma kept_path p s : (filepath_IsAbs s = true → p = []) → foldl clean_step p (reverse (kept s)) = join_path p s.
Proof. intros Hp; unfold kept; rewrite (clean_steps_kept p); auto using kept_nil, split_parts. Qed.

(** The text [filepath.Clean] makes of what it keeps. *)
Definition clean_text (rooted : bool) (segments : list string) : string :=
  if rooted then String "/" (join "/" segments) else match segments with [] => "." | _ => join "/" segments end.
Lemma join_empty segments : Forall (λ s, s ≠ "") segments → join "/" segments = "" → segments = [].
Proof.
  destruct segments as [|s [|x l]]; intros Hs He; [done|inversion Hs; subst; by simpl in *|].
  inversion Hs; subst; simpl in He; by destruct s.
Qed.
Lemma clean_as_text s : filepath_Clean s = clean_text (filepath_IsAbs s) (reverse (kept s)).
Proof.
  unfold filepath_Clean, clean_text; fold (kept s); destruct (filepath_IsAbs s) eqn:Ha; [done|].
  destruct (String.eqb_spec (join "/" (reverse (kept s))) "") as [He|Hn].
  - rewrite (join_empty (reverse (kept s))); [done| |done]; apply Forall_reverse.
    eapply Forall_impl; [eapply kept_segments, kept_spec|]; naive_solver.
  - by destruct (reverse (kept s)) eqn:Hk.
Qed.

(** What cleaning keeps is kept again. *)
Lemma kept_ok_tail rooted s acc : kept_ok rooted (s :: acc) → kept_ok rooted acc ∧ (s = ".." → rooted = false ∧ Forall (λ x, x = "..") acc).
Proof.
  intros (names & dots & He & Hn & Hd & Hr); destruct names as [|x names]; simpl in He.
  - destruct dots as [|d dots]; [done|]; injection He as -> ->; inversion Hd as [|? ? Hx Hd']; subst.
    assert (rooted = false) as -> by (destruct rooted; [by discriminate (Hr eq_refl)|done]).
    split; [exists [], dots; by repeat constructor|done].
  - injection He as -> ->; inversion Hn as [|? ? (? & ? & ? & ?) Hn']; subst; split; [by exists names, dots|done].
Qed.
Lemma kept_again rooted acc : kept_ok rooted acc → foldl (clean_segment rooted) [] (reverse acc) = acc.
Proof.
  induction acc as [|s acc IH]; intros Hk; [done|]; destruct (kept_ok_tail _ _ _ Hk) as [Ht Hd].
  rewrite reverse_cons, foldl_app, IH by done; simpl; unfold clean_segment.
  apply kept_segments in Hk; inversion Hk as [|? ? (H1 & H2 & _) _]; subst.
  apply String.eqb_neq in H1, H2; rewrite H1, H2; simpl.
  destruct (String.eqb_spec s "..") as [->|]; [|done]; destruct (Hd eq_refl) as [-> Hx].
  by destruct Hx as [|x acc ->].
Qed.

Lemma split_app c s t : split c (String.append s (String c t)) = (split c s ++ split c t)%list.
Proof.
  induction s as [|a s IH]; simpl; [by rewrite Ascii.eqb_refl|].
  destruct (Ascii.eqb a c); simpl; rewrite IH; [done|].
  pose proof (split_not_nil c s); by destruct (split c s).
Qed.
Lemma split_segments rooted segments : segments ≠ [] → Forall (λ s, s ≠ "" ∧ s ≠ "." ∧ no_char "/" s = true) segments →
  split "/" (clean_text rooted segments) = if rooted then "" :: segments else segments.
Proof.
  intros Hne Hs; assert (split "/" (join "/" segments) = segments) as Hj.
  { apply (split_join "/"); [done|]; eapply Forall_impl; [exact Hs|]; naive_solver. }
  unfold clean_text; destruct rooted; [by simpl; rewrite Hj|by destruct segments].
Qed.
Lemma clean_text_abs rooted segments : Forall (λ s, s ≠ "" ∧ s ≠ "." ∧ no_char "/" s = true) segments →
  filepath_IsAbs (clean_text rooted segments) = rooted.
Proof.
  intros Hs; destruct rooted; [done|]; destruct Hs as [|s segments (H1 & _ & H2) _]; [done|].
  destruct s as [|a s]; [done|]; unfold no_char in H2; simpl in H2; apply andb_true_iff in H2 as [H2 _].
  unfold clean_text, filepath_IsAbs; assert (∃ t, join "/" (String a s :: segments) = String a t) as [t ->].
  { destruct segments; by eexists. }
  change (Ascii.eqb "/" a && true = false); apply negb_true_iff in H2; by rewrite Ascii.eqb_sym, H2.
Qed.
Lemma reverse_cons_ne {A} (x : A) l : reverse (x :: l) ≠ [].
Proof. rewrite reverse_cons; intros He; by apply app_eq_nil in He as [_ ?]. Qed.
Lemma kept_clean rooted acc : kept_ok rooted acc → kept (clean_text rooted (reverse acc)) = acc.
Proof.
  intros Hk; assert (Forall (λ s, s ≠ "" ∧ s ≠ "." ∧ no_char "/" s = true) (reverse acc)) as Hs.
  { apply Forall_reverse; by eapply kept_segments. }
  unfold kept; rewrite clean_text_abs by done; destruct acc as [|s acc]; [destruct rooted; vm_compute; reflexivity|].
  rewrite (split_segments _ _ (reverse_cons_ne _ _) Hs).
  etransitivity; [|apply (kept_again rooted (s :: acc) Hk)]; by destruct rooted.
Qed.
Lemma IsAbs_clean s : filepath_IsAbs (filepath_Clean s) = filepath_IsAbs s.
Proof. rewrite clean_as_text; apply clean_text_abs, Forall_reverse; eapply kept_segments, kept_spec. Qed.
Lemma kept_Clean s : kept (filepath_Clean s) = kept s.
Proof. rewrite clean_as_text; apply kept_clean, kept_spec. Qed.
Lemma Clean_idem s : filepath_Clean (filepath_Clean s) = filepath_Clean s.
Proof. by rewrite (clean_as_text (filepath_Clean s)), IsAbs_clean, kept_Clean, <- clean_as_text. Qed.

(** ** [filepath.Join] of a path and a name *)

Lemma Join_kept a b : a ≠ "" → segment_ok b →
  filepath_IsAbs (filepath_Join a b) = filepath_IsAbs a ∧ kept (filepath_Join a b) = b :: kept a.
Proof.
  intros Ha (H1 & H2 & H3 & Hb); unfold filepath_Join; apply String.eqb_neq in Ha, H1; rewrite Ha, H1.
  rewrite IsAbs_clean, kept_Clean.
  assert (filepath_IsAbs (String.append a (String "/" b)) = filepath_IsAbs a) as Habs.
  { unfold filepath_IsAbs; by destruct a. }
  split; [done|]; unfold kept at 1; rewrite Habs, split_app, foldl_app; fold (kept a).
  rewrite (split_no_char "/" b) by done; simpl; unfold clean_segment.
  apply String.eqb_neq in H2, H3; by rewrite H1, H2, H3.
Qed.
Lemma Clean_Join a b : a ≠ "" → filepath_Clean (filepath_Join a b) = filepath_Join a b.
Proof. intros Ha; apply String.eqb_neq in Ha; unfold filepath_Join; rewrite Ha; case_match; apply Clean_idem. Qed.
Lemma Join_not_empty a b : a ≠ "" → segment_ok b → filepath_Join a b ≠ "".
Proof. intros Ha Hb He; destruct (Join_kept a b Ha Hb) as [_ Hk]; by rewrite He in Hk. Qed.
(** Below a joined path, joining appends. *)
Lemma join_snoc l s : l ≠ [] → join "/" (l ++ [s]) = String.append (join "/" l) (String "/" s).
Proof.
  induction l as [|x [|y l] IH]; intros Hl; [done|done|].
  change (join "/" (x :: y :: l)) with (String.append x (String "/" (join "/" (y :: l)))).
  change (join "/" ((x :: y :: l) ++ [s])) with (String.append x (String "/" (join "/" ((y :: l) ++ [s])))).
  by rewrite IH, append_assoc.
Qed.
Lemma Join_Join a b c : a ≠ "" → segment_ok b → segment_ok c →
  filepath_Join (filepath_Join a b) c = String.append (filepath_Join a b) (String "/" c).
Proof.
  intros Ha Hb Hc; destruct (Join_kept a b Ha Hb) as [Habs Hk].
  pose proof (Join_kept (filepath_Join a b) c (Join_not_empty a b Ha Hb) Hc) as [Habs' Hk'].
  pose proof (clean_as_text (filepath_Join a b)) as H1; pose proof (clean_as_text (filepath_Join (filepath_Join a b) c)) as H2.
  rewrite Clean_Join in H1, H2 by auto using Join_not_empty.
  rewrite Hk', Habs', Habs, Hk in H2; rewrite Habs, Hk in H1; rewrite H2, H1, (reverse_cons _ c); unfold clean_text.
  pose proof (reverse_cons_ne b (kept a)) as Hne; set (l := reverse (b :: kept a)) in *.
  rewrite join_snoc by done; destruct (filepath_IsAbs a); [done|]; by destruct l as [|x [|y l]].
Qed.
Lemma Join_nonempty a b : b ≠ "" → filepath_Join a b ≠ "".
Proof.
  intros Hb; apply String.eqb_neq in Hb; unfold filepath_Join, filepath_Clean; rewrite Hb.
  repeat case_match; try done; by apply String.eqb_neq.
Qed.

(** ** Where a text leads *)

(** The name [os.MkdirTemp] draws is one segment. *)
Class HostLaws `{HostEnv} := { henv_temp_law n fs : no_char "/" (henv_temp n fs) = true }.

(** No link on the way to [p], nor at or below it. *)
Definition comparable (p q : path) : Prop := q `prefix_of` p ∨ p `prefix_of` q.
Definition clear (h : Host) (p : path) : Prop := ∀ q, comparable p q → ho_links h !! q = None.
Definition unlinked (h : Host) (p : path) : Prop := ∀ q, q `prefix_of` p → ho_links h !! q = None.
(** Nothing is in a directory that is not there. *)
Definition closed (fs : gmap (list string) node) : Prop :=
  ∀ p q n, fs !! (p ++ q) = Some n → p ≠ [] → q ≠ [] → fs !! p = Some Dir.
(** What is on the disk of a host. *)
Definition disk (h : Host) : gmap (list string) node * gmap (list string) (list string) := (ho_files h, ho_links h).
Definition same_off (p : path) (fs fs' : gmap (list string) node) : Prop := ∀ q, ¬ p `prefix_of` q → fs' !! q = fs !! q.

Section Paths.
Context `{HostEnv}.

Lemma to_path_kept s : to_path s = foldl clean_step (if filepath_IsAbs s then [] else henv_cwd) (reverse (kept s)).
Proof. unfold to_path; rewrite kept_path; [done|]; by intros ->. Qed.
Lemma to_path_Clean s : to_path (filepath_Clean s) = to_path s.
Proof. by rewrite !to_path_kept, IsAbs_clean, kept_Clean. Qed.
Lemma to_path_Join a b : a ≠ "" → segment_ok b → to_path (filepath_Join a b) = to_path a ++ [b].
Proof.
  intros Ha Hb; destruct (Join_kept a b Ha Hb) as [H1 H2]; rewrite !to_path_kept, H1, H2, reverse_cons, foldl_app; simpl.
  destruct Hb as (? & ? & ? & ?); by rewrite clean_step_name.
Qed.

Lemma prefix_comparable (p q r : path) : p `prefix_of` r → q `prefix_of` r → comparable p q.
Proof. intros; destruct (prefix_weak_total p q r) as [?|?]; [done..|by right|by left]. Qed.
Lemma clear_below h p p' : clear h p → p `prefix_of` p' → clear h p'.
Proof.
  intros Hc Hp q [Hq|Hq]; apply Hc; [by eapply prefix_comparable|right; by trans p'].
Qed.
Lemma clear_links h h' p : ho_links h' = ho_links h → clear h p → clear h' p.
Proof. intros He Hc q Hq; rewrite He; by apply Hc. Qed.

Lemma follow_one_unlinked h p : unlinked h p → follow_one (ho_links h) p = None.
Proof.
  intros Hc; unfold follow_one; induction (seq 1 (length p)) as [|k ks IH]; simpl; [done|].
  rewrite (Hc (take k p)); [done|]; apply prefix_take.
Qed.
Lemma follow_none n links p : follow_one links p = None → follow n links p = Some p.
Proof. intros Hn; destruct n; simpl; by rewrite Hn. Qed.
Lemma follow_unlinked h p : unlinked h p → follow max_links (ho_links h) p = Some p.
Proof. intros Hc; by apply follow_none, follow_one_unlinked. Qed.
Lemma clear_unlinked h p : clear h p → unlinked h p.
Proof. intros Hc q Hq; apply Hc; by left. Qed.
Lemma at_path_unlinked h s : unlinked h (to_path s) → at_path h s = Ok (to_path s).
Proof. intros Hc; unfold at_path; by rewrite follow_unlinked. Qed.
Lemma at_entry_unlinked h s p name : to_path s = p ++ [name] → unlinked h p → at_entry h s = Ok (p ++ [name]).
Proof. intros Hs Hc; unfold at_entry, parent; rewrite Hs, removelast_last, follow_unlinked by done; by rewrite last_snoc. Qed.
Lemma at_path_clear h s : clear h (to_path s) → at_path h s = Ok (to_path s).
Proof. intros Hc; by apply at_path_unlinked, clear_unlinked. Qed.
End Paths.

(** ** Computations confined to a directory *)

(** The directory can be reached without a link, and is not yet a place of
    anything else: its ancestors are directories. *)
Definition settled (h : Host) (p : path) : Prop :=
  clear h p ∧ ∀ q, q ∈ prefixes (parent p) → ho_files h !! q = Some Dir.
Definition confined {S} (hp : S → Host) (p : path) {A} (m : M S A) : Prop := ∀ s, settled (hp s) p →
  same_off p (ho_files (hp s)) (ho_files (hp (m s).2)) ∧ ho_links (hp (m s).2) = ho_links (hp s).

Lemma prefixes_elem (p q : path) : q ∈ prefixes p ↔ q ≠ [] ∧ q `prefix_of` p.
Proof.
  unfold prefixes; rewrite list_elem_of_fmap; split.
  - intros (n & -> & Hn); apply elem_of_seq in Hn; split; [|apply prefix_take].
    destruct p; [simpl in *; lia|]; by destruct n; [lia|].
  - intros [Hq [k ->]]; exists (length q); rewrite take_app_length; split; [done|].
    apply elem_of_seq; rewrite length_app; destruct q; [done|simpl; lia].
Qed.
Lemma parent_prefix (p q : path) : q ∈ prefixes (parent p) → q ≠ [] ∧ q `prefix_of` p ∧ ¬ p `prefix_of` q.
Proof.
  intros Hq; apply prefixes_elem in Hq as [Hn Hq]; split; [done|]; unfold parent in Hq.
  destruct p as [|x p] using rev_ind; [by apply prefix_nil_inv in Hq|]; rewrite removelast_last in Hq; split.
  - etrans; [done|]; by exists [x].
  - intros Hp; apply prefix_length in Hq, Hp; rewrite length_app in Hp; simpl in *; lia.
Qed.
Lemma prefix_parent (p q : path) : q ≠ [] → q `prefix_of` p → ¬ p `prefix_of` q → q ∈ prefixes (parent p).
Proof.
  intros Hn [k ->] Hp; apply prefixes_elem; split; [done|]; unfold parent.
  destruct k as [|x k _] using rev_ind; [by rewrite app_nil_r in Hp|].
  rewrite (app_assoc q k [x]), removelast_last; by exists k.
Qed.

Lemma same_off_refl p fs : same_off p fs fs.
Proof. done. Qed.
Lemma same_off_trans p fs1 fs2 fs3 : same_off p fs1 fs2 → same_off p fs2 fs3 → same_off p fs1 fs3.
Proof. intros H1 H2 q Hq; rewrite H2, H1; done. Qed.
Lemma same_off_insert p q n fs : p `prefix_of` q → same_off p fs (<[q := n]> fs).
Proof. intros Hp r Hr; rewrite lookup_insert_ne; [done|]; by intros ->. Qed.

Lemma settled_same h h' p : settled h p → same_off p (ho_files h) (ho_files h') → ho_links h' = ho_links h → settled h' p.
Proof.
  intros [Hc Hd] Hs Hl; split; [by eapply clear_links|]; intros q Hq; rewrite Hs; [by apply Hd|].
  by apply parent_prefix.
Qed.

(** Directories made at or below a settled place. *)
Lemma mkdir_off (fs fs' : gmap (list string) node) (p q : path) :
  (∀ r, r ∈ prefixes (parent p) → fs !! r = Some Dir) → p `prefix_of` q → fs_mkdir_all fs q = Ok fs' → same_off p fs fs'.
Proof.
  intros Hd Hp; unfold fs_mkdir_all; destruct (existsb _ _); [done|]; intros [= <-] r Hr.
  assert (∀ l, (∀ x, x ∈ l → x ∈ prefixes q) → foldr (λ q fs, <[q := Dir]> fs) fs l !! r = fs !! r) as Hl.
  { induction l as [|x l IH]; intros Hx; simpl; [done|].
    destruct (decide (x = r)) as [->|]; [|rewrite lookup_insert_ne by done; apply IH; intros; apply Hx; by right].
    rewrite lookup_insert_eq; symmetry; apply Hd.
    destruct (proj1 (prefixes_elem q r) (Hx r ltac:(by left))) as [Hn Hq]; apply prefix_parent; [done| |done].
    by destruct (prefix_comparable p r q) as [?|?]. }
  by apply Hl.
Qed.

Section Confined.
Context {S : Type} (hp : S → Host) (p : path).

Lemma confined_ret {A} (a : A) : confined hp p (sret a).
Proof. done. Qed.
Lemma confined_throw {A} e : confined hp p (sthrow (A := A) e).
Proof. done. Qed.
Lemma confined_lift {A} (r : res A) : confined hp p (slift r).
Proof. done. Qed.
Lemma confined_bind {A B} (m : M S A) (k : A → M S B) :
  confined hp p m → (∀ a, confined hp p (k a)) → confined hp p (sbind m k).
Proof.
  intros Hm Hk s Hs; destruct (Hm s Hs) as [Hf Hl]; unfold sbind; destruct (m s) as [[a|e] s']; simpl in *; [|done].
  destruct (Hk a s') as [Hf' Hl']; [by eapply settled_same|]; split; [by eapply same_off_trans|congruence].
Qed.
Lemma confined_attempt {A} (m : M S A) : confined hp p m → confined hp p (sattempt m).
Proof. intros Hm s Hs; specialize (Hm s Hs); unfold sattempt; by destruct (m s). Qed.
End Confined.

Lemma confined_host {W A} p (m : M Host A) : confined id p m → confined (S := W * Host) snd p (on_host m).
Proof. intros Hm [w h] Hs; specialize (Hm h Hs); unfold on_host; simpl in *; by destruct (m h). Qed.
Lemma confined_server {W A} p (m : M W A) : confined (S := W * Host) snd p (on_server m).
Proof. intros [w h] Hs; unfold on_server; simpl; by destruct (m w). Qed.

Section Calls.
Context `{HostEnv}.

Lemma confined_call {A} p (f : nat → Host → os_result (A * Host)) :
  (∀ n h a h', settled h p → f n h = Ok (a, h') → same_off p (ho_files h) (ho_files h') ∧ ho_links h' = ho_links h) →
  confined id p (host_call f).
Proof.
  intros Hf h Hs; unfold host_call; destruct (henv_fault _); [done|].
  destruct (f _ h) as [[a h']|e] eqn:He; [|done]; by apply (Hf _ _ _ _ Hs He).
Qed.
Lemma confined_files p s f : p `prefix_of` to_path s →
  (∀ n h fs', settled h p → f n (to_path s) (ho_files h) = Ok fs' → same_off p (ho_files h) fs') →
  confined id p (on_files s f).
Proof.
  intros Hp Hf; apply confined_call; intros n h a h' Hs; rewrite at_path_clear by (destruct Hs; by eapply clear_below).
  destruct (f _ _ _) as [fs'|] eqn:He; [|done]; intros [= <- <-]; split; [by eapply Hf|done].
Qed.
Lemma write_off p q fs data now fs' : p `prefix_of` q → fs_write fs q data now = Ok fs' → same_off p fs fs'.
Proof.
  intros Hp; unfold fs_write; destruct (fs !! q) as [[|]|]; [done| |destruct (is_dir fs (parent q)); [|done]];
    intros [= <-]; by apply same_off_insert.
Qed.

Lemma confined_MkdirAll p s : p `prefix_of` to_path s → confined id p (host_MkdirAll s).
Proof. intros Hp; apply confined_files; [done|]; intros n h fs' [_ Hd]; by apply mkdir_off. Qed.
Lemma confined_WriteFile p s data : p `prefix_of` to_path s → confined id p (host_WriteFile s data).
Proof.
  intros Hp h Hs; unfold host_WriteFile.
  assert (confined id p (on_files s (λ now p fs, fs_write fs p data now))) as Hw.
  { apply confined_files; [done|]; intros n h' fs' _; by apply write_off. }
  destruct (henv_fault (ho_calls h)), (henv_partial (ho_calls h)); try by apply Hw.
  rewrite at_path_clear by (destruct Hs; by eapply clear_below).
  destruct (fs_write _ _ _ _) eqn:He; [|done]; split; [|done]; by eapply write_off.
Qed.
Lemma confined_ReadFile p s : confined id p (host_ReadFile s).
Proof. apply confined_call; intros n h a h' _; destruct (at_path h s); [|done]; destruct (fs_read _ _); [|done]; by intros [= <- <-]. Qed.
Lemma confined_Open p s : confined id p (host_Open s).
Proof.
  apply confined_call; intros n h a h' _; destruct (at_path h s); [|done]; destruct (fs_stat _ _) as [[|]|]; [| |done];
    by intros [= <- <-].
Qed.
Lemma clear_filter h p (q : path) : clear h p → p `prefix_of` q →
  filter (λ kv, bool_decide (q `prefix_of` kv.1) = false) (ho_links h) = ho_links h.
Proof.
  intros Hc Hp; apply map_filter_id; intros k t Hk; apply bool_decide_eq_false; intros Hq.
  rewrite (Hc k) in Hk; [done|right; by trans q].
Qed.
(** A place that can be reached without a link and is not the root. *)
Lemma at_entry_clear h s p : clear h p → p `prefix_of` to_path s → to_path s ≠ [] → at_entry h s = Ok (to_path s).
Proof.
  intros Hc Hp Hn; destruct (to_path s) as [|x l _] eqn:He using rev_ind; [done|].
  eapply at_entry_unlinked; [exact He|]; intros q [k ->]; apply Hc; apply (prefix_comparable _ _ ((q ++ k) ++ [x])); [done|].
  rewrite <- app_assoc; by exists (k ++ [x]).
Qed.
(** A removal that fails leaves less below its path, and nothing else changed. *)
Record less_at (p : path) (h h' : Host) : Prop := {
  la_ran : ho_ran h' = ho_ran h;
  la_files q : ho_files h' !! q = ho_files h !! q ∨ p `prefix_of` q ∧ q ≠ p ∧ ho_files h' !! q = None;
  la_links q : ho_links h' !! q = ho_links h !! q ∨ p `prefix_of` q ∧ q ≠ p ∧ ho_links h' !! q = None;
  la_closed : closed (ho_files h) → closed (ho_files h');
}.
Lemma remove_some_less gone p h : less_at p h (host_tick (remove_some gone p h)).
Proof.
  pose proof (λ q, remains_or gone p (host_entries h) q) as Hr.
  assert (∀ A (m : gmap (list string) A) q, filter (λ kv, remains gone p (host_entries h) kv.1 = true) m !! q = m !! q
    ∨ p `prefix_of` q ∧ q ≠ p ∧ filter (λ kv, remains gone p (host_entries h) kv.1 = true) m !! q = None) as Hm.
  { intros A m q; rewrite map_lookup_filter; destruct (m !! q); [|by left]; simpl; destruct (Hr q) as [->|[Hq Hn]]; [by left|].
    case_guard; [by left|by right]. }
  split; simpl; [done|by apply Hm|by apply Hm|]; intros Hc q q' n; rewrite !map_lookup_filter_Some; simpl; intros [Hn Ht] Hq Hq'.
  split; [by eapply Hc|by eapply remains_up].
Qed.
Lemma remove_all_err s h e h' : host_RemoveAll s h = (Err e, h') →
  disk h' = disk h ∧ ho_ran h' = ho_ran h ∨ ∃ p, at_entry h s = Ok p ∧ less_at p h h'.
Proof.
  unfold host_RemoveAll, host_call; destruct (at_entry h s) as [p|] eqn:Hp.
  - destruct (henv_fault _); [intros [= _ <-]; right; exists p; split; [done|apply remove_some_less]|].
    by destruct (ho_links h !! p).
  - by destruct (henv_fault _); intros [= _ <-]; left.
Qed.
Lemma confined_RemoveAll p s : p ≠ [] → p `prefix_of` to_path s → confined id p (host_RemoveAll s).
Proof.
  intros Hn Hp h Hset; destruct (host_RemoveAll s h) as [r h'] eqn:Hr; simpl; destruct Hset as [Hc _].
  assert (to_path s ≠ []) as Hs by (intros He; rewrite He in Hp; by apply prefix_nil_inv in Hp).
  pose proof (at_entry_clear h s p Hc Hp Hs) as He; destruct r as [u|e].
  - revert Hr; unfold host_RemoveAll, host_call; rewrite He; destruct (henv_fault _); [done|].
    rewrite (Hc (to_path s)) by (by right); intros [= _ <-]; simpl; split; [|by apply (clear_filter h p)].
    intros r Hr; unfold fs_remove_all; rewrite map_lookup_filter; destruct (ho_files h !! r); [|done]; simpl; case_guard as Hg; [done|].
    exfalso; apply Hg; apply bool_decide_eq_false; intros Hq; apply Hr; by trans (to_path s).
  - apply remove_all_err in Hr as [[[= Hf Hl] _]|(q & Hq & [_ Hf Hl _])]; [by rewrite Hf, Hl|].
    rewrite He in Hq; injection Hq as <-; split.
    + intros q Hq; destruct (Hf q) as [?|(Hx & _)]; [done|]; destruct Hq; by trans (to_path s).
    + apply map_eq; intros q; destruct (Hl q) as [?|(Hx & _ & ->)]; [done|]; symmetry; apply Hc; right; by trans (to_path s).
Qed.
(** A program writes at most the report its arguments name. *)
Lemma confined_exec p binary args :
  (∀ s, report_argument args = Some s → p `prefix_of` to_path s) → confined id p (host_exec binary args).
Proof.
  intros Ha h Hs; unfold host_exec; destruct (henv_fault _); [done|].
  destruct (match at_path h binary with Ok _ => _ | Err _ => _ end); [|done].
  destruct (henv_run _ _ _ _) as [out report]; simpl; unfold write_report.
  destruct report as [content|]; [|done]; destruct (report_argument args) as [s|]; [|done].
  rewrite at_path_clear by (destruct Hs; eapply clear_below; [done|by apply Ha]).
  destruct (fs_write _ _ _ _) eqn:He; [|done]; split; [|done]; eapply write_off; [by apply Ha|done].
Qed.
End Calls.

(** ** Computations *)

Lemma bind_ok {S A B} (m : M S A) (k : A → M S B) s b s' : sbind m k s = (Ok b, s') → ∃ a s1, m s = (Ok a, s1) ∧ k a s1 = (Ok b, s').
Proof. unfold sbind; destruct (m s) as [[a|e] s1]; [|done]; intros; by exists a, s1. Qed.
Lemma bind_err {S A B} (m : M S A) (k : A → M S B) s e s' : sbind m k s = (Err e, s') →
  m s = (Err e, s') ∨ ∃ a s1, m s = (Ok a, s1) ∧ k a s1 = (Err e, s').
Proof. unfold sbind; destruct (m s) as [[a|e'] s1]; [right; by exists a, s1|]; intros [= -> ->]; by left. Qed.
Lemma try_bind {S A B} (m : M S A) (k : res A → M S B) s : sbind (sattempt m) k s = k (m s).1 (m s).2.
Proof. unfold sbind, sattempt; by destruct (m s). Qed.

(** ** What a computation leaves as it was *)

Definition keeps {S X} (f : S → X) {A} (m : M S A) : Prop := ∀ s, f (m s).2 = f s.

Section Keeps.
Context {S X : Type} (f : S → X).
Lemma keeps_ret {A} (a : A) : keeps f (sret a).
Proof. done. Qed.
Lemma keeps_throw {A} e : keeps f (sthrow (A := A) e).
Proof. done. Qed.
Lemma keeps_lift {A} (r : res A) : keeps f (slift r).
Proof. done. Qed.
Lemma keeps_bind {A B} (m : M S A) (k : A → M S B) : keeps f m → (∀ a, keeps f (k a)) → keeps f (sbind m k).
Proof. intros Hm Hk s; specialize (Hm s); unfold sbind; destruct (m s) as [[a|e] s']; simpl in *; [by rewrite (Hk a s')|done]. Qed.
Lemma keeps_attempt {A} (m : M S A) : keeps f m → keeps f (sattempt m).
Proof. intros Hm s; specialize (Hm s); unfold sattempt; by destruct (m s). Qed.
End Keeps.
Lemma keeps_wrap {X} (f : Host → X) `{UnicodeTables} {A} t (m : M Host A) : keeps f m → keeps f (wrap t m).
Proof. intros Hm; apply keeps_bind; [by apply keeps_attempt|]; by intros []. Qed.

Create HintDb keeps discriminated.
Ltac keep_step :=
  match goal with
  | |- keeps _ (sret _) => apply keeps_ret
  | |- keeps _ (sthrow _) => apply keeps_throw
  | |- keeps _ (slift _) => apply keeps_lift
  | |- keeps _ (sattempt _) => apply keeps_attempt
  | |- keeps _ (wrap _ _) => apply keeps_wrap
  | |- keeps _ (sbind _ _) => apply keeps_bind; [|intros ?]
  | |- keeps _ (match ?x with _ => _ end) => destruct x eqn:?
  | |- keeps _ _ => solve [eauto with keeps]
  end.
Ltac keep := repeat (cbn beta iota; keep_step).

Section Outcomes.
Context `{HostEnv}.

Lemma keeps_links_files s f : keeps ho_links (on_files s f).
Proof.
  intros h; unfold on_files, host_call; destruct (henv_fault _); [done|]; destruct (at_path h s); [|done]; by destruct (f _ _ _).
Qed.
Lemma keeps_links_Write s data : keeps ho_links (host_WriteFile s data).
Proof.
  intros h; unfold host_WriteFile; destruct (henv_fault _); [|apply keeps_links_files]; destruct (henv_partial _); [apply keeps_links_files|].
  destruct (at_path h s); [|done]; by destruct (fs_write _ _ _ _).
Qed.
Lemma keeps_links_Mkdir s : keeps ho_links (host_MkdirAll s).
Proof. apply keeps_links_files. Qed.
Lemma keeps_disk_Read s : keeps disk (host_ReadFile s).
Proof.
  intros h; unfold host_ReadFile, host_call; destruct (henv_fault _); [done|]; destruct (at_path h s); [|done]; by destruct (fs_read _ _).
Qed.
Lemma keeps_disk_now : keeps disk host_now.
Proof. done. Qed.
Lemma keeps_disk_Get url : keeps disk (web_Get url).
Proof. done. Qed.
Lemma keeps_disk_exec binary args : report_argument args = None → keeps disk (host_exec binary args).
Proof.
  intros Ha h; unfold host_exec; destruct (henv_fault _); [done|].
  destruct (match at_path h binary with Ok _ => _ | Err _ => _ end); [|done].
  destruct (henv_run _ _ _ _) as [out report]; simpl; unfold write_report; rewrite Ha; by destruct report.
Qed.
Lemma keeps_links_disk {A} (m : M Host A) : keeps disk m → keeps ho_links m.
Proof. intros Hm h; by injection (Hm h) as _ ->. Qed.

(** A call that succeeds did what it is for. *)
Lemma at_path_same h h' s : ho_links h' = ho_links h → at_path h' s = at_path h s.
Proof. intros Hl; unfold at_path; by rewrite Hl. Qed.
Lemma write_ok s data h u h' : host_WriteFile s data h = (Ok u, h') →
  ∃ p t, at_path h s = Ok p ∧ ho_files h' = <[p := File data t]> (ho_files h).
Proof.
  unfold host_WriteFile, on_files, host_call; destruct (henv_fault _) as [e|].
  { destruct (henv_partial _); [done|]; destruct (at_path h s); [|done]; by destruct (fs_write _ _ _ _). }
  destruct (at_path h s) as [p|] eqn:Hp; [|done]; unfold fs_write; intros Hr; exists p, (henv_now (ho_calls h)); split; [done|].
  destruct (ho_files h !! p) as [[|]|]; [done| |destruct (is_dir _ _); [|done]]; by injection Hr as _ <-.
Qed.
Lemma read_ok s h c h' : host_ReadFile s h = (Ok c, h') → ∃ p t, at_path h s = Ok p ∧ ho_files h !! p = Some (File c t).
Proof.
  unfold host_ReadFile, host_call; destruct (henv_fault _); [done|]; destruct (at_path h s) as [p|]; [|done].
  unfold fs_read; destruct (ho_files h !! p) as [[|c' t]|] eqn:Hf; [done| |done]; intros [= -> _]; by exists p, t.
Qed.
Lemma mkdir_ok s h u h' : host_MkdirAll s h = (Ok u, h') →
  ∃ p, at_path h s = Ok p ∧ fs_mkdir_all (ho_files h) p = Ok (ho_files h').
Proof.
  unfold host_MkdirAll, on_files, host_call; destruct (henv_fault _); [done|]; destruct (at_path h s) as [p|]; [|done].
  destruct (fs_mkdir_all _ _) as [fs|] eqn:Hm; [|done]; intros [= _ <-]; by exists p.
Qed.
(** Making directories spares the files. *)
Lemma mkdir_spares (fs fs' : gmap (list string) node) p q c t : fs_mkdir_all fs p = Ok fs' →
  fs !! q = Some (File c t) → fs' !! q = Some (File c t).
Proof.
  unfold fs_mkdir_all; destruct (existsb _ _) eqn:He; [done|]; intros [= <-] Hq.
  assert (q ∉ prefixes p) as Hn.
  { intros Hin; assert (existsb (is_file fs) (prefixes p) = true) as Ht; [|congruence].
    apply existsb_exists; exists q; split; [by apply list_elem_of_In|]; unfold is_file; by rewrite Hq. }
  clear He; induction (prefixes p) as [|x l IH]; simpl; [done|]; apply not_elem_of_cons in Hn as [Hx Hn].
  rewrite lookup_insert_ne by done; by apply IH.
Qed.
End Outcomes.
#[export] Hint Resolve keeps_links_Write keeps_links_Mkdir keeps_disk_Read keeps_disk_now keeps_disk_Get keeps_links_disk : keeps.
#[export] Hint Extern 2 (keeps disk (host_exec _ _)) => by apply keeps_disk_exec : keeps.

(** ** Checks of concrete hosts *)

(** Whether nothing is in a directory that is not there. *)
Definition closed_check (fs : gmap (list string) node) : bool :=
  forallb (λ e : list string * node, forallb (λ q, bool_decide (fs !! q = Some Dir)) (prefixes (parent e.1))) (map_to_list fs).
Lemma outcome_pair {A B} (x : A * B) a : x.1 = a → x = (a, x.2).
Proof. destruct x; simpl; congruence. Qed.

Lemma closed_checked fs : closed_check fs = true → closed fs.
Proof.
  intros Hc p q n Hn Hp Hq; unfold closed_check in Hc; rewrite forallb_forall in Hc.
  specialize (Hc (p ++ q, n)); rewrite forallb_forall in Hc.
  apply (bool_decide_eq_true_1 _), Hc; [by apply list_elem_of_In, elem_of_map_to_list|].
  apply list_elem_of_In, prefix_parent; [done|by eexists|]; intros Hx%prefix_length; simpl in Hx; rewrite length_app in Hx.
  destruct q; [done|simpl in Hx; lia].
Qed.
