(* ===== verification/Runtimes.v ===== *)
(** The runtimes of the scanners: which release is installed, where, and what is
    active. internal/infra/scanning/trivy and internal/infra/scanning/gitleaks have
    the same manager up to the constants of a [Runtime] here; what they run is
    [Scanners]. A call that reports progress reports nothing here.

    What a runtime manager does to the files and links below the storage root: where
    its layout is, and what switching to a version changes. *)
From S2P Require Import Prelude GoStrings Encodings Errors GoNumbers RegPorts RegWorld PolicyPorts Overrides.
From S2P Require Import Release Host.

(** * The runtime manager *)

(** What tells the two packages apart. *)
Record Runtime := mkRuntime {
  ru_feature : string;
  ru_api : string;
  ru_prefix : string;
  ru_suffix : string;
  ru_minimum : string → res unit;
}.

(** ** Versions of gitleaks (gitleaks/releases.go) *)

Definition minimumGitleaksVersion : string := "8.27.0".
Fixpoint numeric_prefix (s : string) : string :=
  match s with "" => "" | String a s' => if is_digit a then String a (numeric_prefix s') else "" end.
(** [strings.SplitN] in three. *)
Definition three_segments (s : string) : list string :=
  match split "." s with a :: b :: ((_ :: _) as rest) => [a; b; join "." rest] | segments => segments end.
Section Versions.
Context `{UnicodeTables}.

Definition segment_error (segment version cause : string) : error :=
  OtherError (String.append
    (render [Lit "invalid gitleaks version segment "; Quoted segment; Lit " in "; Quoted version]) cause).
Fixpoint version_parts (version : string) (segments : list string) : res (list Z) :=
  match segments with
  | [] => Ok []
  | segment :: segments' =>
      let numeric := numeric_prefix segment in
      if String.eqb numeric "" then Err (segment_error segment version "") else
      match Atoi numeric with
      | None => Err (segment_error segment version
                       (render [Lit ": strconv.Atoi: parsing "; Quoted numeric; Lit ": value out of range"]))
      | Some v => let? rest := version_parts version segments' in Ok (v :: rest)
      end
  end.
Definition gitleaks_parseVersion (version : string) : res (Z * Z * Z) :=
  let trimmed := trim_prefix "v" (trim_space version) in
  if String.eqb trimmed "" then Err (OtherError "empty gitleaks version") else
  let? parts := version_parts version (three_segments trimmed) in
  Ok (nth 0 parts 0, nth 1 parts 0, nth 2 parts 0).
Definition compare_parts (a b : Z * Z * Z) : Z :=
  if negb (a.1.1 =? b.1.1) then (if a.1.1 <? b.1.1 then -1 else 1)
  else if negb (a.1.2 =? b.1.2) then (if a.1.2 <? b.1.2 then -1 else 1)
  else if negb (a.2 =? b.2) then (if a.2 <? b.2 then -1 else 1) else 0.
Definition gitleaks_compareVersions (a b : string) : res Z :=
  let? aParts := gitleaks_parseVersion a in
  let? bParts := gitleaks_parseVersion b in
  Ok (compare_parts aParts bParts).
Definition requireMinimumVersion (version : string) : res unit :=
  let? cmp := gitleaks_compareVersions version minimumGitleaksVersion in
  if cmp <? 0 then Err (OtherError (foldr String.append "" ["gitleaks version "; version;
    " is below the minimum supported version "; minimumGitleaksVersion])) else Ok tt.

Definition trivy_runtime : Runtime :=
  mkRuntime "trivy" "https://api.github.com/repos/aquasecurity/trivy/releases" "trivy_" "_Linux-64bit.tar.gz" (λ _, Ok tt).
Definition gitleaks_runtime : Runtime :=
  mkRuntime "gitleaks" "https://api.github.com/repos/gitleaks/gitleaks/releases" "gitleaks_" "_linux_x64.tar.gz"
    requireMinimumVersion.

End Versions.

Definition firstNonBlank (values : list string) : string :=
  default "" (head (filter (λ v, v ≠ "") (map trim_space values))).

(** The object a receipt records, before it is written as text. *)
Record Receipt := mkReceipt { rc_asset : Asset; rc_previous : string; rc_installed : Time }.
Class ReceiptText := { receipt_text : Receipt → string }.

Section Manager.
Context {W : Type} `{UnicodeTables, Archives, HostEnv, ReceiptText, !PolicyStore W}.
Variables (ru : Runtime) (storageRoot : string).
(** The health check of an activated binary. *)
Variable probe : ScanSettings → M Host FeatureRuntime.
Notation S := (W * Host)%type.

(** ** Releases (releases.go) *)

Definition ResolveRelease (version : string) : M Host Asset :=
  let trimmedVersion := trim_space version in
  let tag := if String.eqb trimmedVersion "" then "" else String.append "v" (trim_prefix "v" trimmedVersion) in
  let! asset := wrap (foldr String.append "" ["resolve "; ru_feature ru; " release: "])
                  (ResolveAsset (ru_api ru) tag (λ name, has_prefix (ru_prefix ru) name && has_suffix (ru_suffix ru) name)
                     (has_suffix "checksums.txt")) in
  do! slift (ru_minimum ru (as_Version asset)) in
  sret asset.
Definition download (url : string) : M Host string :=
  do! slift (web_NewRequest url) in
  let! resp := web_Get url in
  if negb (ok_status resp.1)
  then sthrow (OtherError (foldr String.append "" ["download "; url; " returned "; Itoa resp.1]))
  else sret resp.2.

(** ** The layout below the storage root *)

Definition runtimeRoot : string := filepath_Join (filepath_Join (trim_space storageRoot) "features") (ru_feature ru).
Definition versionsDir : string := filepath_Join (filepath_Join runtimeRoot "bin") "versions".
Definition versionDir (version : string) : string := filepath_Join versionsDir (trim_space version).
Definition activeLinkPath : string := filepath_Join (filepath_Join runtimeRoot "bin") "active".
Definition activeBinaryPath : string := filepath_Join activeLinkPath (ru_feature ru).
Definition cacheDir : string := filepath_Join runtimeRoot (String.append (ru_feature ru) "-cache").
Definition downloadsDir : string := filepath_Join runtimeRoot "downloads".
Definition receiptsDir : string := filepath_Join runtimeRoot "receipts".
Definition receiptPath (version : string) : string := filepath_Join receiptsDir (String.append (trim_space version) ".json").

Fixpoint make_all (paths : list string) : M Host unit :=
  match paths with [] => sret tt | p :: paths' => do! host_MkdirAll p in make_all paths' end.
Definition ensureLayout : M Host unit := make_all [versionsDir; downloadsDir; receiptsDir; cacheDir].

(** The new link is made beside the old one and renamed onto it. *)
Definition activateVersionLink (version : string) : M Host unit :=
  let tempLink := String.append activeLinkPath ".next" in
  let! _ := sattempt (host_Remove tempLink) in
  do! host_Symlink (versionDir version) tempLink in
  let! renamed := sattempt (host_Rename tempLink activeLinkPath) in
  match renamed with
  | Ok _ => sret tt
  | Err e => let! _ := sattempt (host_Remove tempLink) in sthrow e
  end.
Definition probe_settings (binary : string) : ScanSettings :=
  mkScanSettings false false 0 (30 * second) "" "" "" "" false cacheDir binary "" "" 1 zero_time "" "" "".
Definition probeActiveBinary : M Host FeatureRuntime := probe (probe_settings activeBinaryPath).
Definition writeReceipt (p : string) (asset : Asset) (previousVersion : string) : M Host unit :=
  let! now := host_now in
  host_WriteFile p (receipt_text (mkReceipt asset previousVersion now)).

(** [release.VerifyChecksum] and [release.ExtractBinary] on files. *)
Definition verify_archive (archivePath archiveName checksums : string) : M Host unit :=
  let! body := host_ReadFile archivePath in slift (VerifyChecksum body archiveName checksums).
Definition extract_binary (archivePath destination : string) : M Host string :=
  let! archive := host_ReadFile archivePath in
  do! host_MkdirAll destination in
  let! binary := slift (ExtractBinary archive (ru_feature ru)) in
  let binaryPath := filepath_Join destination (ru_feature ru) in
  do! host_WriteFile binaryPath binary in
  sret binaryPath.

(** ** The state the registry stores *)

Definition currentState : M S FeatureRuntimeState := on_server (GetFeatureRuntimeState DefaultTenant (ru_feature ru)).
Definition save_state (state : FeatureRuntimeState) : M S unit :=
  on_server (UpsertFeatureRuntimeState DefaultTenant (ru_feature ru) state).
Definition no_state : FeatureRuntimeState := mkRuntimeState "" "" "" "" "" "" "" None None None "" zero_time.
Definition installing_state (current : FeatureRuntimeState) (now : Time) : FeatureRuntimeState :=
  mkRuntimeState FeatureRuntimeStatusInstalling (fr_ActiveVersion current) (fr_PreviousVersion current) "" "" "" "" None None
    None "" now.
Definition ready_at (active previous receipt : string) (verified checked updated : Time) : FeatureRuntimeState :=
  mkRuntimeState FeatureRuntimeStatusReady active previous activeBinaryPath cacheDir receipt "" (Some verified) (Some checked)
    None "" updated.

(** ** Operations *)

(** The files of an installation: downloaded, verified, unpacked, recorded. *)
Definition place_release (asset : Asset) (previousVersion : string) : M Host string :=
  let! archive := download (as_ArchiveURL asset) in
  let! checksums := download (as_ChecksumsURL asset) in
  let archivePath := filepath_Join downloadsDir (as_ArchiveName asset) in
  do! host_WriteFile archivePath archive in
  do! verify_archive archivePath (as_ArchiveName asset) checksums in
  do! host_MkdirAll (versionDir (as_Version asset)) in
  let! binaryPath := extract_binary archivePath (versionDir (as_Version asset)) in
  do! writeReceipt (receiptPath (as_Version asset)) asset previousVersion in
  sret binaryPath.
(** The new binary is active from here on, unless its health check fails. *)
Definition switch_to (asset : Asset) (binaryPath activeVersion : string) : M Host FeatureRuntime :=
  do! activateVersionLink (as_Version asset) in
  let! probed := sattempt (probe (probe_settings binaryPath)) in
  match probed with
  | Ok runtime => sret runtime
  | Err e =>
      let! _ := (if String.eqb (trim_space activeVersion) "" then sret (Ok tt) else sattempt (activateVersionLink activeVersion)) in
      sthrow e
  end.
(** All that follows once the current state is known. *)
Definition activate_from (current : FeatureRuntimeState) (version : string) : M S FeatureRuntimeState :=
  let! asset := on_host (ResolveRelease version) in
  do! on_host ensureLayout in
  let! now := on_host host_now in
  do! save_state (installing_state current now) in
  let! binaryPath := on_host (place_release asset (fr_ActiveVersion current)) in
  let! runtime := on_host (switch_to asset binaryPath (fr_ActiveVersion current)) in
  let! now := on_host host_now in
  let state := ready_at (firstNonBlank [ft_Version runtime; as_Version asset]) (trim_space (fr_ActiveVersion current))
                 (receiptPath (as_Version asset)) now now now in
  do! save_state state in
  sret state.
Definition activate (version : string) (requireCurrent : bool) : M S FeatureRuntimeState :=
  let! found := sattempt currentState in
  match found with
  | Ok current => activate_from current version
  | Err e => if requireCurrent then sthrow e else activate_from no_state version
  end.
Definition Install (version : string) : M S FeatureRuntimeState := activate version false.
Definition Upgrade (version : string) : M S FeatureRuntimeState := activate version true.
Definition LatestVersion : M S string :=
  let! asset := on_host (ResolveRelease "") in sret (trim_space (as_Version asset)).

(** The versions change places; a version that fails its check does not. *)
Definition Rollback : M S FeatureRuntimeState :=
  let! current := currentState in
  if String.eqb (trim_space (fr_PreviousVersion current)) "" then sthrow (OtherError "rollback target is unavailable") else
  let rollbackVersion := fr_PreviousVersion current in
  let previousVersion := fr_ActiveVersion current in
  do! on_host (activateVersionLink rollbackVersion) in
  let! probed := on_host (sattempt probeActiveBinary) in
  match probed with
  | Err e => let! _ := on_host (sattempt (activateVersionLink previousVersion)) in sthrow e
  | Ok runtime =>
      let! verified := on_host host_now in
      let! checked := on_host host_now in
      let! updated := on_host host_now in
      let state := ready_at (if String.eqb (ft_Version runtime) "" then rollbackVersion else ft_Version runtime) previousVersion
                     (receiptPath rollbackVersion) verified checked updated in
      do! save_state state in
      sret state
  end.

Definition checked_state (state : FeatureRuntimeState) (status version lastError : string) (now : Time) : FeatureRuntimeState :=
  mkRuntimeState status version (fr_PreviousVersion state) (fr_ActiveBinaryPath state) (fr_CacheDir state)
    (fr_ReceiptPath state) (fr_MigrationHint state) (fr_LastVerifiedAt state) (Some now) (fr_LastDBUpdatedAt state) lastError now.
Definition Status : M S FeatureRuntimeState :=
  let! state := currentState in
  if String.eqb (fr_Status state) FeatureRuntimeStatusReady || String.eqb (fr_Status state) FeatureRuntimeStatusDegraded then
    let! probed := on_host (sattempt probeActiveBinary) in
    let! now := on_host host_now in
    let checked := match probed with
                   | Err e => checked_state state FeatureRuntimeStatusDegraded (fr_ActiveVersion state) (error_string e) now
                   | Ok runtime =>
                       checked_state state FeatureRuntimeStatusReady
                         (if String.eqb (trim_space (ft_Version runtime)) "" then fr_ActiveVersion state else ft_Version runtime)
                         "" now
                   end in
    do! save_state checked in
    sret checked
  else sret state.

Definition manager : FeatureRuntimeManager S := mkRuntimeManager _ Install Upgrade Rollback Status LatestVersion.
End Manager.

(** * What it does to the files and links *)

Section Layout.
Context `{HostEnv}.
Variables (ru : Runtime) (storageRoot : string).

Definition home : path := to_path (runtimeRoot ru storageRoot).
Definition active_link : path := home ++ ["bin"; "active"].
Definition next_link : path := home ++ ["bin"; "active.next"].
Definition version_home (version : string) : path := home ++ ["bin"; "versions"; trim_space version].

(** Below the storage root of the runtime the only links are the manager's own. *)
Definition tidy (h : Host) : Prop :=
  ∀ q, comparable home q → q ≠ active_link → q ≠ next_link → ho_links h !! q = None.
(** An absolute storage root, and a feature whose name is one segment. *)
Definition rooted : Prop := filepath_IsAbs (trim_space storageRoot) = true ∧ segment_ok (ru_feature ru).
(** Elsewhere than at the manager's two links nothing changed. *)
Definition same_but (h h' : Host) : Prop :=
  ∀ q, q ≠ active_link → q ≠ next_link → ho_files h' !! q = ho_files h !! q ∧ ho_links h' !! q = ho_links h !! q.
(** The server sent this body for the address. *)
Definition sent (url body : string) : Prop := ∃ n status, henv_get n url = Ok (status, body) ∧ ok_status status = true.
End Layout.

(** * Lemmas *)

Section Paths.
Context `{HostEnv}.
Variables (ru : Runtime) (storageRoot : string).
Hypothesis Hroot : rooted ru storageRoot.

Lemma root_ne : trim_space storageRoot ≠ "".
Proof. destruct Hroot as [Ha _]; intros He; by rewrite He in Ha. Qed.
Lemma features_ne : filepath_Join (trim_space storageRoot) "features" ≠ "".
Proof. by apply Join_nonempty. Qed.
Lemma runtimeRoot_ne : runtimeRoot ru storageRoot ≠ "".
Proof. apply Join_nonempty; by destruct Hroot as [_ (? & _)]. Qed.
Lemma runtimeRoot_abs : filepath_IsAbs (runtimeRoot ru storageRoot) = true.
Proof.
  destruct Hroot as [Ha Hf]; unfold runtimeRoot.
  destruct (Join_kept (filepath_Join (trim_space storageRoot) "features") (ru_feature ru) features_ne Hf) as [-> _].
  by destruct (Join_kept (trim_space storageRoot) "features" root_ne) as [-> _]; [apply segment_literal|].
Qed.
Lemma Join_path a b p : a ≠ "" → to_path a = p → segment_ok b → filepath_Join a b ≠ "" ∧ to_path (filepath_Join a b) = p ++ [b].
Proof. intros Ha <- Hb; split; [by apply Join_nonempty; destruct Hb|by apply to_path_Join]. Qed.
Lemma bin_path : filepath_Join (runtimeRoot ru storageRoot) "bin" ≠ ""
  ∧ to_path (filepath_Join (runtimeRoot ru storageRoot) "bin") = home ru storageRoot ++ ["bin"].
Proof. apply Join_path; [apply runtimeRoot_ne|done|by apply segment_literal]. Qed.
Lemma active_path : activeLinkPath ru storageRoot ≠ "" ∧ to_path (activeLinkPath ru storageRoot) = active_link ru storageRoot.
Proof.
  destruct bin_path as [Hb Hp]; destruct (Join_path _ "active" _ Hb Hp) as [Hn He]; [by apply segment_literal|].
  split; [done|]; unfold activeLinkPath, active_link; rewrite He; by rewrite <- app_assoc.
Qed.
Lemma next_path : to_path (String.append (activeLinkPath ru storageRoot) ".next") = next_link ru storageRoot.
Proof.
  destruct bin_path as [Hb Hp]; assert (String.append (activeLinkPath ru storageRoot) ".next"
    = filepath_Join (filepath_Join (runtimeRoot ru storageRoot) "bin") "active.next") as ->.
  { unfold activeLinkPath; rewrite !Join_Join by (apply runtimeRoot_ne || by apply segment_literal).
    by rewrite !append_assoc. }
  destruct (Join_path _ "active.next" _ Hb Hp) as [_ He]; [by apply segment_literal|]; unfold next_link; by rewrite He, <- app_assoc.
Qed.
Lemma version_path version : segment_ok (trim_space version) →
  versionDir ru storageRoot version ≠ "" ∧ filepath_IsAbs (versionDir ru storageRoot version) = true
  ∧ to_path (versionDir ru storageRoot version) = version_home ru storageRoot version.
Proof.
  intros Hv; destruct bin_path as [Hb Hp].
  destruct (Join_path _ "versions" _ Hb Hp) as [Hn1 He1]; [by apply segment_literal|].
  destruct (Join_path _ (trim_space version) _ Hn1 He1 Hv) as [Hn2 He2]; split_and!; [done| |].
  - unfold versionDir, versionsDir; destruct (Join_kept _ _ Hn1 Hv) as [-> _].
    destruct (Join_kept _ "versions" Hb) as [-> _]; [by apply segment_literal|].
    destruct (Join_kept (runtimeRoot ru storageRoot) "bin" runtimeRoot_ne) as [-> _]; [by apply segment_literal|].
    apply runtimeRoot_abs.
  - unfold versionDir, versionsDir, version_home; rewrite He2; by rewrite <- !app_assoc.
Qed.
End Paths.

Section Calls.
Context `{HostEnv}.

(** A call that leaves everything but the entry [p] alone. *)
Definition only_at (p : path) (h h' : Host) : Prop :=
  ∀ q, q ≠ p → ho_files h' !! q = ho_files h !! q ∧ ho_links h' !! q = ho_links h !! q.

Lemma remove_outcome s h p : at_entry h s = Ok p → only_at p h (host_Remove s h).2.
Proof.
  intros Hp q Hq; unfold host_Remove, host_call; destruct (henv_fault _); [done|]; rewrite Hp.
  destruct (ho_links h !! p) eqn:Hl; simpl; [by rewrite lookup_delete_ne|].
  unfold fs_remove; destruct (ho_files h !! p) as [[|c t]|]; [|simpl; by rewrite lookup_delete_ne|done].
  destruct (children _ _); simpl; [by rewrite lookup_delete_ne|done].
Qed.
Lemma symlink_outcome target s h p : at_entry h s = Ok p → filepath_IsAbs target = true →
  let '(r, h') := host_Symlink target s h in
  ho_files h' = ho_files h
  ∧ match r with
    | Ok _ => ho_links h !! p = None ∧ ho_files h !! p = None ∧ is_dir (ho_files h) (parent p) = true
              ∧ ho_links h' = <[p := to_path target]> (ho_links h)
    | Err _ => ho_links h' = ho_links h
    end.
Proof.
  intros Hp Ha; unfold host_Symlink, host_call; destruct (henv_fault _); [done|]; rewrite Hp.
  destruct (ho_links h !! p), (ho_files h !! p); try done; destruct (is_dir _ _); [|done]; simpl; unfold to_path; by rewrite Ha.
Qed.
Lemma rename_outcome old new h p q t : at_entry h old = Ok p → at_entry h new = Ok q → ho_links h !! p = Some t →
  let '(r, h') := host_Rename old new h in
  match r with
  | Ok _ => ho_links h' = <[q := t]> (delete p (ho_links h)) ∧ ho_files h' = delete q (ho_files h)
  | Err _ => ho_links h' = ho_links h ∧ ho_files h' = ho_files h
  end.
Proof.
  intros Hp Hq Ht; unfold host_Rename, host_call; destruct (henv_fault _); [done|]; rewrite Hp, Hq, Ht.
  destruct (ho_files h !! q) as [[|]|]; [done|..]; by destruct (is_dir _ _).
Qed.
End Calls.

Section Switch.
Context `{HostEnv}.
Variables (ru : Runtime) (storageRoot : string).
Hypothesis Hroot : rooted ru storageRoot.
Notation tidy := (tidy ru storageRoot).
Notation active := (active_link ru storageRoot).
Notation next := (next_link ru storageRoot).
Notation same_but := (same_but ru storageRoot).

Lemma active_next : active ≠ next.
Proof. unfold active_link, next_link; by intros Hq%app_inv_head. Qed.
Lemma same_but_refl h : same_but h h.
Proof. done. Qed.
Lemma same_but_trans h1 h2 h3 : same_but h1 h2 → same_but h2 h3 → same_but h1 h3.
Proof. intros Ha Hb q Hq Hq'; destruct (Ha q Hq Hq') as [<- <-]; by apply Hb. Qed.
Lemma only_same h h' p : p = active ∨ p = next → only_at p h h' → same_but h h'.
Proof. intros Hp Ho q Hq Hq'; apply Ho; destruct Hp; congruence. Qed.
Lemma tidy_same h h' : tidy h → same_but h h' → tidy h'.
Proof. intros Ht Hs q Hc Hq Hq'; destruct (Hs q Hq Hq') as [_ ->]; by apply Ht. Qed.

(** A place beside the two links is reached without a link. *)
Lemma tidy_unlinked h p : tidy h → comparable (home ru storageRoot) p →
  ¬ active `prefix_of` p → ¬ next `prefix_of` p → unlinked h p.
Proof.
  intros Ht Hc Ha Hn q Hq; apply Ht; [|by intros ->..]; destruct Hc as [Hc|Hc]; [left; by trans p|by eapply prefix_comparable].
Qed.
Lemma bin_unlinked h : tidy h → unlinked h (home ru storageRoot ++ ["bin"]).
Proof.
  intros Ht; apply tidy_unlinked; [done|right; by eexists|..]; intros Hp%prefix_length;
    unfold active_link, next_link in Hp; rewrite !length_app in Hp; simpl in Hp; lia.
Qed.
Lemma at_active h : tidy h → at_entry h (activeLinkPath ru storageRoot) = Ok active.
Proof.
  intros Ht; destruct (active_path ru storageRoot Hroot) as [_ Hp]; unfold active_link in *.
  change ["bin"; "active"] with (["bin"] ++ ["active"]) in *; rewrite app_assoc in *.
  by apply at_entry_unlinked, bin_unlinked.
Qed.
Lemma at_next h : tidy h → at_entry h (String.append (activeLinkPath ru storageRoot) ".next") = Ok next.
Proof.
  intros Ht; pose proof (next_path ru storageRoot Hroot) as Hp; unfold next_link in *.
  change ["bin"; "active.next"] with (["bin"] ++ ["active.next"]) in *; rewrite app_assoc in *.
  by apply at_entry_unlinked, bin_unlinked.
Qed.

(** Nothing is in the way of another switch. *)
Definition ready_to_switch (h : Host) : Prop :=
  is_dir (ho_files h) (home ru storageRoot ++ ["bin"]) = true ∧ ho_files h !! active ≠ Some Dir
  ∧ ho_links h !! next = None ∧ ho_files h !! next = None.
Lemma ready_same h h' : disk h' = disk h → ready_to_switch h → ready_to_switch h'.
Proof. unfold ready_to_switch; by intros [= -> ->]. Qed.
Lemma parent_next : parent next = home ru storageRoot ++ ["bin"].
Proof. unfold next_link, parent; change ["bin"; "active.next"] with (["bin"] ++ ["active.next"]); by rewrite app_assoc, removelast_last. Qed.
Lemma parent_active : parent active = home ru storageRoot ++ ["bin"].
Proof. unfold active_link, parent; change ["bin"; "active"] with (["bin"] ++ ["active"]); by rewrite app_assoc, removelast_last. Qed.
Lemma is_dir_same h h' : same_but h h' →
  is_dir (ho_files h') (home ru storageRoot ++ ["bin"]) = is_dir (ho_files h) (home ru storageRoot ++ ["bin"]).
Proof.
  intros Hs; unfold is_dir; destruct (home ru storageRoot ++ ["bin"]) eqn:Hb; [done|]; rewrite <- Hb.
  destruct (Hs (home ru storageRoot ++ ["bin"])) as [-> _]; [..|done]; unfold active_link, next_link; by intros Hq%app_inv_head.
Qed.

(** Switching: the link is the version's, or what it was. *)
Lemma link_outcome version h : segment_ok (trim_space version) → tidy h →
  let '(r, h') := activateVersionLink ru storageRoot version h in
  same_but h h'
  ∧ match r with
    | Ok _ => ho_links h' !! active = Some (version_home ru storageRoot version)
              ∧ ready_to_switch h'
    | Err _ => ho_links h' !! active = ho_links h !! active
    end.
Proof.
  intros Hv Ht; destruct (version_path ru storageRoot Hroot version Hv) as (_ & Habs & Hvp); pose proof active_next as Hne.
  unfold activateVersionLink; unfold sbind at 1; unfold sattempt at 1.
  pose proof (remove_outcome _ h next (at_next h Ht)) as Hr; destruct (host_Remove _ h) as [r0 h1]; simpl in Hr.
  assert (same_but h h1) as Hs1 by (eapply only_same; [by right|done]); pose proof (tidy_same _ _ Ht Hs1) as Ht1.
  assert (ho_links h1 !! active = ho_links h !! active) as Ha1 by (by apply Hr).
  unfold sbind at 1; pose proof (symlink_outcome _ _ h1 next (at_next h1 Ht1) Habs) as Hl.
  destruct (host_Symlink _ _ h1) as [[u|e] h2]; destruct Hl as [Hf2 Hl2].
  2: { split; [|congruence]; eapply same_but_trans; [done|]; intros q _ _; by rewrite Hf2, Hl2. }
  destruct Hl2 as (Hn1 & Hn2 & Hdir & Hl2).
  assert (same_but h1 h2) as Hs2 by (intros q Hq Hq'; by rewrite Hf2, Hl2, lookup_insert_ne).
  pose proof (tidy_same _ _ Ht1 Hs2) as Ht2.
  assert (ho_links h2 !! next = Some (version_home ru storageRoot version)) as Hnx by (by rewrite Hl2, lookup_insert_eq, Hvp).
  unfold sbind, sattempt; pose proof (rename_outcome _ _ h2 _ _ _ (at_next h2 Ht2) (at_active h2 Ht2) Hnx) as Hm.
  destruct (host_Rename _ _ h2) as [[u'|e] h3]; destruct Hm as [Hl3 Hf3].
  - split; [|split_and!].
    + eapply same_but_trans; [by eapply same_but_trans|]; intros q Hq Hq'.
      by rewrite Hl3, Hf3, lookup_insert_ne, !lookup_delete_ne.
    + by rewrite Hl3, lookup_insert_eq.
    + assert (same_but h1 h3) as Hs3.
      { intros q Hq Hq'; by rewrite Hl3, Hf3, lookup_insert_ne, !lookup_delete_ne, Hl2, Hf2, lookup_insert_ne. }
      split_and!; [by rewrite (is_dir_same _ _ Hs3), <- parent_next| | |].
      * by rewrite Hf3, lookup_delete_eq.
      * by rewrite Hl3, lookup_insert_ne, lookup_delete_eq.
      * by rewrite Hf3, lookup_delete_ne, Hf2.
  - assert (same_but h2 h3) as Hs3 by (intros q _ _; by rewrite Hf3, Hl3); pose proof (tidy_same _ _ Ht2 Hs3) as Ht3.
    pose proof (remove_outcome _ h3 next (at_next h3 Ht3)) as Hr3; destruct (host_Remove _ h3) as [r4 h4]; simpl in Hr3 |- *.
    assert (same_but h3 h4) as Hs4 by (eapply only_same; [by right|done]).
    split; [repeat (eapply same_but_trans; [eassumption|]); done|].
    destruct (Hr3 active Hne) as [_ ->]; by rewrite Hl3, Hl2, lookup_insert_ne, Ha1.
Qed.

(** On a host whose calls do not fail, nothing in the way is enough. *)
Lemma link_succeeds version h : (∀ n, henv_fault n = None) → segment_ok (trim_space version) → tidy h → ready_to_switch h →
  is_ok (activateVersionLink ru storageRoot version h).1 = true.
Proof.
  intros Hcalm Hv Ht (Hd & Ha & Hl & Hf); unfold activateVersionLink; unfold sbind at 1; unfold sattempt at 1.
  unfold host_Remove at 1; unfold host_call at 1; rewrite Hcalm, (at_next h Ht), Hl; unfold fs_remove; rewrite Hf.
  assert (tidy (host_tick h)) as Ht' by done.
  unfold sbind at 1; unfold host_Symlink, host_call at 1; rewrite Hcalm, (at_next _ Ht'); cbn [ho_links ho_files host_tick].
  rewrite Hl, Hf, parent_next, Hd; unfold sbind, sattempt.
  set (h2 := host_tick _).
  assert (tidy h2) as Ht2.
  { intros q Hc Hq Hq'; unfold h2; simpl; rewrite lookup_insert_ne by done; by apply Ht. }
  unfold host_Rename, host_call; rewrite Hcalm, (at_next _ Ht2), (at_active _ Ht2).
  assert (ho_files h2 = ho_files h) as Hf2 by done; rewrite Hf2, parent_active, Hd.
  assert (∃ t, ho_links h2 !! next = Some t) as [t ->] by (eexists; apply lookup_insert_eq).
  by destruct (ho_files h !! active) as [[]|].
Qed.
End Switch.

(** A path through one link. *)
Lemma follow_through (h : Host) a t r : a ≠ [] → ho_links h !! a = Some t →
  (∀ q, q `prefix_of` a → q ≠ a → ho_links h !! q = None) → unlinked h (t ++ r) →
  follow max_links (ho_links h) (a ++ r) = Some (t ++ r).
Proof.
  intros Hne Ha Hbefore Ht.
  assert (follow_one (ho_links h) (a ++ r) = Some (t ++ r)) as Hone.
  { unfold follow_one; rewrite length_app.
    assert (seq 1 (length a + length r) = seq 1 (length a - 1) ++ length a :: seq (Datatypes.S (length a)) (length r)) as ->.
    { destruct a as [|x a]; [done|]; cbn [length]; rewrite Nat.sub_succ, Nat.sub_0_r.
      replace (Datatypes.S (length a) + length r)%nat with (length a + Datatypes.S (length r))%nat by lia.
      by rewrite seq_app. }
    assert (∀ l, (∀ k, k ∈ l → (k < length a)%nat) → omap (λ k, (λ t, t ++ drop k (a ++ r)) <$> ho_links h !! take k (a ++ r)) l = []) as Hl.
    { induction l as [|k l IH]; intros Hk; [done|]; cbn [omap list_omap]; pose proof (Hk k ltac:(by left)) as Hlt.
      rewrite take_app_le, Hbefore by (lia || apply prefix_take || (intros He; apply (f_equal length) in He; rewrite length_take in He; lia)).
      apply IH; intros k' Hk'; apply Hk; by right. }
    rewrite omap_app, Hl; [|intros k Hk%elem_of_seq; lia]; cbn [omap list_omap app]; by rewrite take_app_length, drop_app_length, Ha. }
  assert (∀ n, follow (Datatypes.S n) (ho_links h) (a ++ r) = follow n (ho_links h) (t ++ r)) as Hstep by (intros n; cbn [follow]; by rewrite Hone).
  change max_links with (Datatypes.S 39); rewrite Hstep; by apply follow_none, follow_one_unlinked.
Qed.

Section Operations.
Context `{UnicodeTables, Archives, HostEnv, ReceiptText}.
Variables (ru : Runtime) (storageRoot : string).
Hypothesis Hroot : rooted ru storageRoot.
Notation tidy := (tidy ru storageRoot).
Notation active := (active_link ru storageRoot).
Notation next := (next_link ru storageRoot).
Notation home := (home ru storageRoot).

Lemma keeps_resolve version : keeps disk (ResolveRelease ru version).
Proof. unfold ResolveRelease, ResolveAsset; keep. Qed.
Lemma keeps_download url : keeps disk (download url).
Proof. unfold download; keep. Qed.
#[local] Hint Resolve keeps_resolve keeps_download : keeps.
Lemma keeps_links_layout : keeps ho_links (ensureLayout ru storageRoot).
Proof. unfold ensureLayout, make_all; keep. Qed.
Lemma keeps_links_place asset previous : keeps ho_links (place_release ru storageRoot asset previous).
Proof. unfold place_release, verify_archive, extract_binary, writeReceipt; keep. Qed.

(** A place two or more segments below the runtime's own directory, not through its links. *)
Lemma place_path h a b rest : tidy h → (a, b) ≠ ("bin", "active") → (a, b) ≠ ("bin", "active.next") →
  unlinked h (home ++ a :: b :: rest).
Proof.
  intros Ht Hx1 Hx2; apply (tidy_unlinked ru storageRoot); [done|right; by eexists|..]; unfold active_link, next_link;
    intros [k Hk]; rewrite <- app_assoc in Hk; apply app_inv_head in Hk; simpl in Hk; injection Hk as -> -> _; done.
Qed.
Lemma binary_path version : segment_ok (trim_space version) →
  to_path (filepath_Join (versionDir ru storageRoot version) (ru_feature ru)) = version_home ru storageRoot version ++ [ru_feature ru].
Proof.
  intros Hv; destruct (version_path _ _ Hroot version Hv) as (Hne & _ & Hp).
  by destruct (Join_path _ (ru_feature ru) _ Hne Hp) as [_ He]; [destruct Hroot|].
Qed.
Lemma receipt_path version : segment_ok (trim_space version) →
  to_path (receiptPath ru storageRoot version) = home ++ ["receipts"; String.append (trim_space version) ".json"].
Proof.
  intros Hv; destruct (Join_path (runtimeRoot ru storageRoot) "receipts" home) as [Hn1 He1];
    [by apply runtimeRoot_ne|done|by apply segment_literal|].
  destruct (Join_path _ (String.append (trim_space version) ".json") _ Hn1 He1) as [_ He2].
  - destruct Hv as (? & ? & ? & Hs); assert (2 < String.length (String.append (trim_space version) ".json"))%nat as Hl
      by (rewrite length_append; simpl; lia).
    split_and!; try (intros Hx; rewrite Hx in Hl; simpl in Hl; lia).
    unfold no_char in *; by rewrite str_forallb_append, Hs.
  - unfold receiptPath, receiptsDir; rewrite He2; by rewrite <- app_assoc.
Qed.

Lemma downloaded url h body h' : download url h = (Ok body, h') → sent url body.
Proof.
  unfold download, sbind, slift; destruct (web_NewRequest url) as [u|]; [|done]; cbn.
  destruct (henv_get (ho_calls h) url) as [[status b]|] eqn:Hg; [|done]; cbn; destruct (ok_status status) eqn:Hs; [|done].
  intros [= <- _]; by exists (ho_calls h), status.
Qed.
(** What is put in place: the binary of the archive that was sent for the release, and
    that has the checksum sent for it. *)
Lemma place_outcome asset previous h binaryPath h' : place_release ru storageRoot asset previous h = (Ok binaryPath, h') →
  ∃ archive checksums binary, sent (as_ArchiveURL asset) archive ∧ sent (as_ChecksumsURL asset) checksums ∧ VerifyChecksum archive (as_ArchiveName asset) checksums = Ok tt
    ∧ ExtractBinary archive (ru_feature ru) = Ok binary
    ∧ binaryPath = filepath_Join (versionDir ru storageRoot (as_Version asset)) (ru_feature ru)
    ∧ (segment_ok (trim_space (as_Version asset)) → tidy h →
       ∃ t, ho_files h' !! (version_home ru storageRoot (as_Version asset) ++ [ru_feature ru]) = Some (File binary t)).
Proof.
  unfold place_release, verify_archive, extract_binary, writeReceipt; unfold sbind, slift.
  pose proof (keeps_download (as_ArchiveURL asset) h) as Hk1; destruct (download _ h) as [[archive|] h1] eqn:Hd1; [|done].
  pose proof (keeps_download (as_ChecksumsURL asset) h1) as Hk2; destruct (download _ h1) as [[checksums|] h2] eqn:Hd2; [|done].
  set (archivePath := filepath_Join _ (as_ArchiveName asset)).
  pose proof (keeps_links_Write archivePath archive h2) as Hl3; destruct (host_WriteFile archivePath archive h2) as [[u3|] h3] eqn:He3; [|done].
  pose proof (keeps_disk_Read archivePath h3) as Hk4; destruct (host_ReadFile archivePath h3) as [[body|] h4] eqn:He4; [|done].
  destruct (VerifyChecksum body _ checksums) as [[]|] eqn:Hver; [|done].
  pose proof (keeps_links_Mkdir (versionDir ru storageRoot (as_Version asset)) h4) as Hl5.
  destruct (host_MkdirAll _ h4) as [[u5|] h5] eqn:He5; [|done].
  pose proof (keeps_disk_Read archivePath h5) as Hk6; destruct (host_ReadFile archivePath h5) as [[body'|] h6] eqn:He6; [|done].
  pose proof (keeps_links_Mkdir (versionDir ru storageRoot (as_Version asset)) h6) as Hl7.
  destruct (host_MkdirAll _ h6) as [[u7|] h7] eqn:He7; [|done].
  destruct (ExtractBinary body' _) as [binary|] eqn:Hex; [|done].
  set (binaryFile := filepath_Join _ (ru_feature ru)).
  pose proof (keeps_links_Write binaryFile binary h7) as Hl8; destruct (host_WriteFile binaryFile binary h7) as [[u8|] h8] eqn:He8; [|done].
  simpl; destruct (host_WriteFile _ _ (host_tick h8)) as [[u9|] h9] eqn:He9; [|done]; intros [= <- <-].
  injection Hk1 as Hf1 Hl1; injection Hk2 as Hf2 Hl2; injection Hk4 as Hf4 Hl4; injection Hk6 as Hf6 Hl6.
  apply downloaded in Hd1, Hd2; simpl in *; assert (body = archive) as ->.
  { apply write_ok in He3 as (p & t & Hp & Hw); apply read_ok in He4 as (p4 & t4 & Hp4 & Hr4).
    rewrite (at_path_same h2 h3), Hp in Hp4 by done; injection Hp4 as <-; rewrite Hw, lookup_insert_eq in Hr4; congruence. }
  exists archive, checksums, binary; split_and!; [done..| |done|].
  - apply write_ok in He3 as (p & t & Hp & Hw); apply read_ok in He4 as (p4 & t4 & Hp4 & Hr4).
    apply read_ok in He6 as (p6 & t6 & Hp6 & Hr6); apply mkdir_ok in He5 as (pm & _ & Hm).
    rewrite (at_path_same h2 h3) in Hp4 by done; rewrite Hp in Hp4; injection Hp4 as <-.
    rewrite (at_path_same h2 h5), Hp in Hp6 by congruence; injection Hp6 as <-.
    rewrite <- Hf4 in Hr4; pose proof (mkdir_spares _ _ _ _ _ _ Hm Hr4) as Hr5; congruence.
  - intros Hv Ht; assert (ho_links h7 = ho_links h) as Hl by congruence.
    apply write_ok in He8 as (p8 & t8 & Hp8 & Hw8); apply write_ok in He9 as (p9 & t9 & Hp9 & Hw9).
    assert (tidy h7) as Ht7 by (intros q; rewrite Hl; apply Ht).
    assert (tidy h8) as Ht8 by (intros q; rewrite Hl8; apply Ht7).
    rewrite at_path_unlinked in Hp8 by (unfold binaryFile; rewrite binary_path by done; unfold version_home;
      rewrite <- app_assoc; by apply place_path); injection Hp8 as <-.
    rewrite at_path_unlinked in Hp9 by (rewrite receipt_path by done; by apply (place_path (host_tick h8))); injection Hp9 as <-.
    unfold binaryFile in Hw8; rewrite binary_path in Hw8 by done; rewrite receipt_path in Hw9 by done.
    exists t8; simpl in Hw9; rewrite Hw9, lookup_insert_ne, Hw8, lookup_insert_eq; [done|].
    unfold version_home; rewrite <- app_assoc; by intros Hq%app_inv_head.
Qed.
End Operations.
