(* ===== verification/Scanners.v ===== *)
(** The scanners: what is run, on what, and what is made of its output.
    internal/infra/scanning/trivy/runner.go scans an image for vulnerabilities;
    internal/infra/scanning/gitleaks (stage.go, runner.go, report.go) copies the
    blobs of an image into a directory of their own and scans it for secrets. A
    deadline that passes is a failing call. *)
From S2P Require Import Prelude GoStrings Encodings Errors Digest GoNumbers Manifest RegPorts RegWorld.
From S2P Require Import Signing PolicyPorts Overrides Scans Release Host Runtimes.

(** * Definitions *)

(** ** Outputs *)

Record trivyVersionPayload := mkTrivyVersion {
  tv_Version : string; tv_DBVersion : Z; tv_UpdatedAt : option Time; tv_NextUpdate : option Time; tv_DownloadedAt : option Time }.
Record trivyVulnerability := mkVulnerability {
  vu_VulnerabilityID : string; vu_PkgName : string; vu_InstalledVersion : string; vu_FixedVersion : string; vu_Title : string;
  vu_PrimaryURL : string; vu_Severity : string; vu_Status : string; vu_PublishedDate : option Time;
  vu_LastModifiedDate : option Time; vu_SourceName : string; vu_SourceURL : string }.
Record trivySection := mkSection {
  se_Target : string; se_Class : string; se_Type : string; se_Vulnerabilities : list trivyVulnerability }.
Record trivyImagePayload := mkTrivyImage {
  ti_SchemaVersion : Z; ti_CreatedAt : option Time; ti_DBUpdatedAt : option Time; ti_Results : list trivySection }.
(** An entry of a gitleaks report has no field that could hold the secret. *)
Record reportEntry := mkEntry {
  re_RuleID : string; re_Description : string; re_File : string; re_StartLine : Z; re_EndLine : Z; re_Tags : list string }.

(** [json.Unmarshal] into these types, and [strings.ToUpper] of a text that is not
    all ASCII. *)
Class ScannerOutput := {
  decode_version : string → trivyVersionPayload + string;
  decode_image : string → trivyImagePayload + string;
  decode_report : string → list reportEntry + string;
  unicode_upper : string → string;
}.

Definition upper_byte (a : ascii) : ascii := if is_lower a then ascii_of_nat (code a - 32) else a.

(** ** What may be run *)

Definition managedBinaryPath (feature binaryPath : string) : res string :=
  let trimmed := trim_space binaryPath in
  if String.eqb trimmed "" then Err (OtherError (foldr String.append "" ["managed "; feature; " runtime is not installed"])) else
  let clean := filepath_Clean trimmed in
  if negb (contains clean (foldr String.append "" ["/features/"; feature; "/"]))
  then Err (OtherError (foldr String.append "" ["managed "; feature;
              " runtime must execute only from the Regixtry-owned features/"; feature; " layout"]))
  else Ok clean.

Section Trivy.
Context `{UnicodeTables, HostEnv, ScannerOutput}.

(** Opened, not only looked up. *)
Definition requireReadableFile (label p : string) : M Host unit :=
  let trimmed := trim_space p in
  if String.eqb trimmed "" then sret tt else
  let! isDir := wrap (String.append label " is not readable: ") (host_Open trimmed) in
  if isDir : bool then sthrow (OtherError (String.append label " is not a regular file")) else sret tt.

(** ** Vulnerabilities (trivy/runner.go) *)

Definition to_upper (s : string) : string := if is_ascii s then str_map upper_byte s else unicode_upper s.

Record trivyVersionInfo := mkVersionInfo { vi_Version : string; vi_BinaryPath : string; vi_DB : ScanRunDBFreshness }.
Definition fetchVersionInfo (settings : ScanSettings) : M Host trivyVersionInfo :=
  let! binaryPath := slift (managedBinaryPath "trivy" (ss_BinaryPath settings)) in
  let! output := host_exec binaryPath ["version"; "--format"; "json"] in
  match decode_version output with
  | inr e => sthrow (OtherError (String.append "decode version response: " e))
  | inl payload =>
      let version := trim_space (tv_Version payload) in
      if String.eqb version "" then sthrow (OtherError "version response did not include Version") else
      sret (mkVersionInfo version binaryPath
              (mkFreshness 0 None version (tv_DBVersion payload) (tv_UpdatedAt payload) (tv_DownloadedAt payload)
                 (tv_NextUpdate payload) ""))
  end.

Definition ready_runtime (version binaryPath : string) : FeatureRuntime :=
  mkFeatureRuntime FeatureRuntimeModeManaged FeatureRuntimeStatusReady FeatureRuntimeStatusReady version "" "" "" false binaryPath
    "" None None None "".
Definition trivy_Probe (settings : ScanSettings) : M Host FeatureRuntime :=
  let! info := fetchVersionInfo settings in sret (ready_runtime (vi_Version info) (vi_BinaryPath info)).

Definition severityRank (severity : string) : Z :=
  let s := to_upper (trim_space severity) in
  if String.eqb s "CRITICAL" then 4 else if String.eqb s "HIGH" then 3 else if String.eqb s "MEDIUM" then 2
  else if String.eqb s "LOW" then 1 else 0.
Definition strings_Compare (a b : string) : Z := match String.compare a b with Lt => -1 | Eq => 0 | Gt => 1 end.
Definition compareFindings (left right : ScanRunFinding) : Z :=
  if negb (severityRank (fd_Severity left) =? severityRank (fd_Severity right))
  then severityRank (fd_Severity right) - severityRank (fd_Severity left)
  else if negb (Bool.eqb (fd_Fixable left) (fd_Fixable right)) then (if fd_Fixable left then -1 else 1)
  else if negb (strings_Compare (fd_VulnerabilityID left) (fd_VulnerabilityID right) =? 0)
  then strings_Compare (fd_VulnerabilityID left) (fd_VulnerabilityID right)
  else strings_Compare (fd_PackageName left) (fd_PackageName right).
(** [sort.SliceStable] *)
Fixpoint insert_finding (x : ScanRunFinding) (l : list ScanRunFinding) : list ScanRunFinding :=
  match l with
  | [] => [x]
  | y :: l' => if compareFindings y x <? 0 then y :: insert_finding x l' else x :: l
  end.
Definition sort_findings (l : list ScanRunFinding) : list ScanRunFinding := foldr insert_finding [] l.

Definition ScanRunDBFreshnessStateFresh : string := "fresh".
Definition ScanRunDBFreshnessStateStale : string := "stale".
Definition firstNonNilTime (values : list (option Time)) : option Time := head (omap id values).
Definition deriveDBFreshnessState (f : ScanRunDBFreshness) : string :=
  let newer (a b : option Time) (d : Duration) := match a, b with Some a, Some b => d <? a - b | _, _ => false end in
  if newer (fs_ReportCreatedAt f) (fs_DBNextUpdateAt f) 0 then ScanRunDBFreshnessStateStale
  else if newer (fs_ReportCreatedAt f) (fs_DBUpdatedAt f) (7 * 24 * hour) then ScanRunDBFreshnessStateStale
  else if bool_decide (is_Some (fs_DBUpdatedAt f)) || (0 <? fs_DBVersion f) then ScanRunDBFreshnessStateFresh
  else ScanRunDBFreshnessStateUnknown.

Definition finding_of (s : trivySection) (v : trivyVulnerability) : ScanRunFinding :=
  mkFinding (trim_space (se_Target s)) (trim_space (se_Class s)) (trim_space (se_Type s)) (to_upper (trim_space (vu_Severity v)))
    (trim_space (vu_VulnerabilityID v)) (trim_space (vu_PkgName v)) (trim_space (vu_InstalledVersion v))
    (trim_space (vu_FixedVersion v)) (trim_space (vu_Title v)) (trim_space (vu_PrimaryURL v))
    (negb (String.eqb (trim_space (vu_FixedVersion v)) "")) (trim_space (vu_Status v)) (trim_space (vu_SourceName v))
    (trim_space (vu_SourceURL v)) (vu_PublishedDate v) (vu_LastModifiedDate v).
Definition findings_in (payload : trivyImagePayload) : list ScanRunFinding :=
  flat_map (λ s, map (finding_of s) (se_Vulnerabilities s)) (ti_Results payload).
Definition count_severity (severity : string) (findings : list ScanRunFinding) : Z :=
  Z.of_nat (length (List.filter (λ f, String.eqb (fd_Severity f) severity) findings)).
Definition image_args (imageRef : string) (settings : ScanSettings) : list string :=
  let flag (name value : string) := if String.eqb (trim_space value) "" then [] else [name; trim_space value] in
  (["image"; "--format"; "json"] ++ flag "--cache-dir" (ss_CacheDir settings) ++ flag "--ignorefile" (ss_IgnoreFilePath settings)
   ++ flag "--ignore-policy" (ss_IgnorePolicyPath settings) ++ [trim_space imageRef])%list.
Definition image_result (info : trivyVersionInfo) (payload : trivyImagePayload) : ScanResult :=
  let findings := findings_in payload in
  let updated := firstNonNilTime [ti_DBUpdatedAt payload; fs_DBUpdatedAt (vi_DB info)] in
  let f := mkFreshness (ti_SchemaVersion payload) (ti_CreatedAt payload) (vi_Version info) (fs_DBVersion (vi_DB info)) updated
             (fs_DBDownloadedAt (vi_DB info)) (fs_DBNextUpdateAt (vi_DB info)) "" in
  mkScanResult (count_severity "CRITICAL" findings) (count_severity "HIGH" findings) (count_severity "MEDIUM" findings)
    (count_severity "LOW" findings) (vi_Version info) updated (sort_findings findings)
    (mkFreshness (fs_ReportSchemaVersion f) (fs_ReportCreatedAt f) (fs_TrivyVersion f) (fs_DBVersion f) (fs_DBUpdatedAt f)
       (fs_DBDownloadedAt f) (fs_DBNextUpdateAt f) (deriveDBFreshnessState f)).
Definition trivy_Run (imageRef : string) (settings : ScanSettings) : M Host ScanResult :=
  do! requireReadableFile "ignore file" (ss_IgnoreFilePath settings) in
  do! requireReadableFile "ignore policy" (ss_IgnorePolicyPath settings) in
  let! info := fetchVersionInfo settings in
  let! output := host_exec (vi_BinaryPath info) (image_args imageRef settings) in
  match decode_image output with
  | inr e => sthrow (OtherError (String.append "decode trivy output: " e))
  | inl payload => sret (image_result info payload)
  end.

(** ** Staging (gitleaks/stage.go) *)

Definition stagingExtension (mediaType : string) : option (string * bool) :=
  let trimmed := trim_space mediaType in
  if has_suffix "config.v1+json" trimmed then Some (".json", true)
  else if has_suffix "tar+gzip" trimmed || has_suffix "tar.gzip" trimmed then Some (".tar.gz", false)
  else if has_suffix "tar+zstd" trimmed then Some (".tar.zst", false)
  else if has_suffix "tar" trimmed then Some (".tar", false) else None.
Definition digest12 (digest : Digest) : string :=
  let encoded := Encoded digest in
  if (String.length encoded <? 12)%nat then encoded else substring 0 12 encoded.

Record stagedBlob := mkStaged { bl_Path : string; bl_Descriptor : Descriptor; bl_IsConfig : bool }.
Record stagingResult := mkStaging {
  sj_RunDir : string; sj_ScanDir : string; sj_Staged : list stagedBlob; sj_Skipped : list Descriptor }.
(** [%03d] *)
Definition pad3 (n : nat) : string :=
  let s := decimal (Z.of_nat n) in
  if (String.length s <? 2)%nat then String.append "00" s else if (String.length s <? 3)%nat then String "0" s else s.
Definition layer_name (index : nat) (digest : Digest) (ext : string) : string :=
  foldr String.append "" [pad3 index; "-"; digest12 digest; ext].
Definition add_staged (r : stagingResult) (b : stagedBlob) : stagingResult :=
  mkStaging (sj_RunDir r) (sj_ScanDir r) (sj_Staged r ++ [b]) (sj_Skipped r).
Definition add_skipped (r : stagingResult) (d : Descriptor) : stagingResult :=
  mkStaging (sj_RunDir r) (sj_ScanDir r) (sj_Staged r) (sj_Skipped r ++ [d]).

Section Staging.
Context {W : Type} `{!BlobStore W}.
Notation S := (W * Host)%type.

Definition copyBlob (destPath : string) (digest : Digest) : M S unit :=
  let! opened := on_server (blob_OpenBlob digest) in
  on_host (host_WriteFile destPath opened.1).
Fixpoint stage_blobs (layerIndex : nat) (result : stagingResult) (blobs : list Descriptor) : M S stagingResult :=
  match blobs with
  | [] => sret result
  | blob :: blobs' =>
      match stagingExtension (desc_MediaType blob) with
      | None => stage_blobs layerIndex (add_skipped result blob) blobs'
      | Some (ext, isConfig) =>
          let layerIndex := if isConfig : bool then layerIndex else Datatypes.S layerIndex in
          let destDir := filepath_Join (sj_ScanDir result) (if isConfig then "config" else "layers") in
          let filename := if isConfig then String.append "config" ext else layer_name layerIndex (desc_Digest blob) ext in
          let destPath := filepath_Join destDir filename in
          do! on_host (host_MkdirAll destDir) in
          do! copyBlob destPath (desc_Digest blob) in
          stage_blobs layerIndex (add_staged result (mkStaged destPath blob isConfig)) blobs'
      end
  end.
Definition stageManifestBlobs (workRoot : string) (blobs : list Descriptor) : M S stagingResult :=
  do! on_host (host_MkdirAll workRoot) in
  let! runDir := on_host (host_MkdirTemp workRoot "run-") in
  let! staged := sattempt (stage_blobs 0 (mkStaging runDir (filepath_Join runDir "scan") [] []) blobs) in
  match staged with
  | Ok result => sret result
  | Err e => let! _ := sattempt (on_host (host_RemoveAll runDir)) in sthrow e
  end.
End Staging.

(** ** Findings (gitleaks/report.go, gitleaks/runner.go) *)

Definition decodeReport (content : string) : res (list reportEntry) :=
  let trimmed := trim_space content in
  if String.eqb trimmed "" then Ok [] else
  match decode_report trimmed with
  | inl entries => Ok entries
  | inr e => Err (OtherError (String.append "decode gitleaks report: " e))
  end.

(** [filepath.Rel] *)
Fixpoint rel_segments (base target : list string) : option (list string) :=
  match base, target with
  | b :: base', t :: target' => if String.eqb b t then rel_segments base' target' else
                                if String.eqb b ".." then None else Some (repeat ".." (length base) ++ target)
  | [], _ => Some target
  | b :: _, [] => if String.eqb b ".." then None else Some (repeat ".." (length base))
  end.
Definition path_segments (p : string) : list string :=
  let c := filepath_Clean p in
  if String.eqb c "." then [] else List.filter (λ s, negb (String.eqb s "")) (split "/" c).
Definition filepath_Rel (base target : string) : option string :=
  if negb (Bool.eqb (filepath_IsAbs (filepath_Clean base)) (filepath_IsAbs (filepath_Clean target))) then None else
  match rel_segments (path_segments base) (path_segments target) with
  | None => None
  | Some [] => Some "."
  | Some segments => Some (join "/" segments)
  end.

Definition below_scan_dir (scanDir file : string) : string :=
  let slash := trim_suffix "/" scanDir in
  if String.eqb slash "" then file
  else if String.eqb file slash then ""
  else if has_prefix (String.append slash "/") file then drop_str (String.length slash + 1) file else file.
Definition blob_matches (file relative : string) : bool :=
  String.eqb file relative || has_prefix (String.append relative "!") file || has_prefix (String.append relative ":") file.
(** The longest matching path wins, the first of them if there are several. *)
Fixpoint best_blob (scanDir file : string) (best : string * option stagedBlob) (staged : list stagedBlob)
    : string * option stagedBlob :=
  match staged with
  | [] => best
  | blob :: staged' =>
      let best' := match filepath_Rel scanDir (bl_Path blob) with
                   | Some relative =>
                       if blob_matches file relative && (String.length best.1 <? String.length relative)%nat
                       then (relative, Some blob) else best
                   | None => best
                   end in
      best_blob scanDir file best' staged'
  end.
Definition attributeFinding (entry : reportEntry) (staged : list stagedBlob) (scanDir : string) : SecretFinding :=
  let file := below_scan_dir scanDir (trim_space (re_File entry)) in
  let finding := λ digest p, mkSecretFinding (re_RuleID entry) (re_Description entry) digest p (re_StartLine entry)
                               (re_EndLine entry) (re_Tags entry) in
  match best_blob scanDir file ("", None) staged with
  | (prefix, Some blob) =>
      finding (desc_Digest (bl_Descriptor blob)) (trim_prefix ":" (trim_prefix "!" (trim_prefix prefix file)))
  | (_, None) => finding "" file
  end.

Section Secrets.
Context {W : Type} `{!BlobStore W}.
Notation S := (W * Host)%type.

Definition gitleaks_Probe (settings : ScanSettings) : M Host FeatureRuntime :=
  let! binaryPath := slift (managedBinaryPath "gitleaks" (ss_BinaryPath settings)) in
  let! output := host_exec binaryPath ["version"] in
  let version := trim_space output in
  if String.eqb version "" then sthrow (OtherError "gitleaks version output was empty") else
  do! slift (requireMinimumVersion version) in
  sret (ready_runtime version binaryPath).

Definition secret_args (scanDir reportPath configPath : string) : list string :=
  (["dir"; scanDir; "--report-format"; "json"; "--report-path"; reportPath; "--no-banner"; "--redact"; "--exit-code"; "0";
    "--max-archive-depth"; "2"]
   ++ if String.eqb (trim_space configPath) "" then [] else ["--config"; trim_space configPath])%list.
Definition scan_staged (binaryPath configPath : string) (staged : stagingResult) : M Host SecretScanResult :=
  let reportPath := filepath_Join (sj_RunDir staged) "report.json" in
  let! ran := sattempt (host_exec binaryPath (secret_args (sj_ScanDir staged) reportPath configPath)) in
  if negb (is_ok ran) then sthrow (OtherError "gitleaks scan execution failed") else
  let! body := sattempt (host_ReadFile reportPath) in
  match body with
  | Err _ => sthrow (OtherError "gitleaks report was not produced")
  | Ok body =>
      let! entries := slift (decodeReport body) in
      sret (mkSecretResult "" (map (λ e, attributeFinding e (sj_Staged staged) (sj_ScanDir staged)) entries)
              (map desc_Digest (sj_Skipped staged)))
  end.
Definition workRoot (settings : ScanSettings) : string := filepath_Join (trim_space (ss_CacheDir settings)) "work".
Definition gitleaks_Run (target : SecretScanTarget) (settings : ScanSettings) : M S SecretScanResult :=
  let! binaryPath := slift (managedBinaryPath "gitleaks" (ss_BinaryPath settings)) in
  do! on_host (requireReadableFile "config file" (ss_ConfigPath settings)) in
  let! staged := stageManifestBlobs (workRoot settings) (st_Blobs target) in
  let! result := sattempt (on_host (scan_staged binaryPath (ss_ConfigPath settings) staged)) in
  let! _ := sattempt (on_host (host_RemoveAll (sj_RunDir staged))) in
  slift result.
End Secrets.
End Trivy.

(** What the services call. *)
#[global] Instance trivy_runner {W} `{UnicodeTables, HostEnv, ScannerOutput} : ScanRunner (W * Host) :=
  {| scan_Run imageRef settings := on_host (trivy_Run imageRef settings) |}.
#[global] Instance gitleaks_runner {W} `{UnicodeTables, HostEnv, ScannerOutput, !BlobStore W} : SecretScanRunner (W * Host) :=
  {| secret_Run := gitleaks_Run |}.
