(* ===== verification/ScannerLaws.v ===== *)
(** How the scanners are reasoned about: what a computation starts, the names of
    staged blobs, the directory of a run and what is copied there. *)
From S2P Require Import Prelude GoStrings Encodings Errors Digest GoNumbers Manifest RegPorts RegWorld.
From S2P Require Import Registry Signing PolicyPorts Overrides Scans Release Host Runtimes Scanners.

(** * Definitions *)

(** Every program a computation starts satisfies [P]. *)
Definition launches {S} (hp : S → Host) (P : string → Prop) {A} (m : M S A) : Prop :=
  ∀ s, ∃ started, ho_ran (hp (m s).2) = (ho_ran (hp s) ++ started)%list ∧ Forall (λ e, P e.1) started.

(** * Lemmas *)

(** ** What is started *)

Section Launches.
Context {S : Type} (hp : S → Host) (P : string → Prop).

Lemma launches_same {A} (m : M S A) : (∀ s, ho_ran (hp (m s).2) = ho_ran (hp s)) → launches hp P m.
Proof. intros Hm s; exists []; by rewrite Hm, app_nil_r. Qed.
Lemma launches_ret {A} (a : A) : launches hp P (sret a).
Proof. by apply launches_same. Qed.
Lemma launches_throw {A} e : launches hp P (sthrow (A := A) e).
Proof. by apply launches_same. Qed.
Lemma launches_lift {A} (r : res A) : launches hp P (slift r).
Proof. by apply launches_same. Qed.
Lemma launches_bind {A B} (m : M S A) (k : A → M S B) :
  launches hp P m → (∀ s a s', m s = (Ok a, s') → launches hp P (k a)) → launches hp P (sbind m k).
Proof.
  intros Hm Hk s; destruct (Hm s) as (l & Hl & HP); unfold sbind; destruct (m s) as [[a|e] s'] eqn:He; simpl in *; [|by exists l].
  destruct (Hk _ _ _ He s') as (l' & Hl' & HP'); exists (l ++ l')%list; rewrite Hl', Hl, app_assoc; split; [done|by apply Forall_app].
Qed.
Lemma launches_attempt {A} (m : M S A) : launches hp P m → launches hp P (sattempt m).
Proof. intros Hm s; destruct (Hm s) as (l & ? & ?); exists l; unfold sattempt; by destruct (m s). Qed.
End Launches.

Lemma launches_wrap `{UnicodeTables} {A} P t (m : M Host A) : launches id P m → launches id P (wrap t m).
Proof.
  intros Hm; apply launches_bind; [by apply launches_attempt|]; intros _ [a|e] _ _; [apply launches_ret|apply launches_throw].
Qed.
Lemma launches_host {W A} P (m : M Host A) : launches id P m → launches (S := W * Host) snd P (on_host m).
Proof. intros Hm [w h]; destruct (Hm h) as (l & ? & ?); exists l; unfold on_host; simpl in *; by destruct (m h). Qed.
Lemma launches_server {W A} P (m : M W A) : launches (S := W * Host) snd P (on_server m).
Proof. apply launches_same; intros [w h]; unfold on_server; simpl; by destruct (m w). Qed.

Section HostCalls.
Context `{HostEnv}.

Lemma launches_call {A} P (f : nat → Host → os_result (A * Host)) :
  (∀ n h a h', f n h = Ok (a, h') → ho_ran h' = ho_ran h) → launches id P (host_call f).
Proof.
  intros Hf; apply launches_same; intros h; unfold host_call; destruct (henv_fault _); [done|].
  destruct (f _ h) as [[a h']|e] eqn:He; [|done]; by apply (Hf _ _ _ _ He).
Qed.
Lemma launches_files P s f : launches id P (on_files s f).
Proof.
  apply launches_call; intros n h a h'; destruct (at_path h s); [|done]; destruct (f _ _ _); [|done]; by intros [= <- <-].
Qed.
Lemma launches_WriteFile P s data : launches id P (host_WriteFile s data).
Proof.
  intros h; unfold host_WriteFile; destruct (henv_fault _); [|apply launches_files]; destruct (henv_partial _); [apply launches_files|].
  exists []; rewrite app_nil_r; destruct (at_path h s); [|done]; by destruct (fs_write _ _ _ _).
Qed.
Lemma write_report_ran args report now h : ho_ran (write_report args report now h) = ho_ran h.
Proof. unfold write_report; repeat case_match; done. Qed.
Lemma launches_exec (P : string → Prop) binary args : P binary → launches id P (host_exec binary args).
Proof.
  intros HP h; unfold host_exec; destruct (henv_fault _); [by exists []; rewrite app_nil_r|].
  destruct (match at_path h binary with Ok _ => _ | Err _ => _ end); [|by exists []; rewrite app_nil_r].
  destruct (henv_run _ _ _ _) as [out report]; exists [(binary, args)]; simpl; rewrite write_report_ran; split; [done|].
  by repeat constructor.
Qed.
End HostCalls.

Create HintDb launches discriminated.
Ltac launch_step :=
  match goal with
  | |- launches _ _ (sret _) => apply launches_ret
  | |- launches _ _ (sthrow _) => apply launches_throw
  | |- launches _ _ (slift _) => apply launches_lift
  | |- launches _ _ (sattempt _) => apply launches_attempt
  | |- launches _ _ (wrap _ _) => apply launches_wrap
  | |- launches _ _ (on_host _) => apply launches_host
  | |- launches _ _ (on_server _) => apply launches_server
  | |- launches _ _ (sbind _ _) => apply launches_bind; [|intros ? ? ? ?]
  | |- launches _ _ (match ?x with _ => _ end) => destruct x eqn:?
  | |- launches _ _ _ => solve [eauto with launches]
  end.
Ltac launch := repeat (cbn beta iota; launch_step).

Section HostHints.
Context `{HostEnv}.
Variable P : string → Prop.
Notation quiet m := (launches id P m).

Lemma launches_MkdirAll s : quiet (host_MkdirAll s).
Proof. apply launches_files. Qed.
Lemma launches_RemoveAll s : quiet (host_RemoveAll s).
Proof.
  apply launches_same; intros h; unfold host_RemoveAll, host_call; destruct (henv_fault _), (at_entry h s) as [p|]; try done.
  by destruct (ho_links h !! p).
Qed.
Lemma launches_ReadFile s : quiet (host_ReadFile s).
Proof. apply launches_call; intros n h a h'; repeat case_match; simplify_eq; congruence. Qed.
Lemma launches_Open s : quiet (host_Open s).
Proof. apply launches_call; intros n h a h'; repeat case_match; simplify_eq; congruence. Qed.
Lemma launches_Remove s : quiet (host_Remove s).
Proof. apply launches_call; intros n h a h'; repeat case_match; simplify_eq; intros; simplify_eq; done. Qed.
Lemma launches_Symlink t s : quiet (host_Symlink t s).
Proof. apply launches_call; intros n h a h'; repeat case_match; simplify_eq; intros; simplify_eq; done. Qed.
Lemma launches_Rename old new : quiet (host_Rename old new).
Proof. apply launches_call; intros n h a h'; repeat case_match; simplify_eq; intros; simplify_eq; done. Qed.
Lemma launches_MkdirTemp d prefix : quiet (host_MkdirTemp d prefix).
Proof. apply launches_call; intros n h a h'; simpl; repeat case_match; simplify_eq; intros; simplify_eq; done. Qed.
Lemma launches_now : quiet host_now.
Proof. by apply launches_same. Qed.
Lemma launches_Get url : quiet (web_Get url).
Proof. by apply launches_same. Qed.
End HostHints.
#[export] Hint Resolve launches_MkdirAll launches_RemoveAll launches_ReadFile launches_Open launches_Remove launches_Symlink
  launches_Rename launches_MkdirTemp launches_now launches_Get launches_WriteFile : launches.

(** ** The scanners and their managers *)

Section Managed.
Context {W : Type} `{UnicodeTables, HostEnv, ScannerOutput, Archives, ReceiptText, !BlobStore W, !PolicyStore W}.

Lemma launches_readable P label s : launches id P (requireReadableFile label s).
Proof. unfold requireReadableFile; launch. Qed.
#[local] Hint Resolve launches_readable : launches.

(** A scanner starts the one binary its settings may name. *)
Section Runners.
Variables (P : string → Prop) (settings : ScanSettings).

Lemma fetch_binary s info s' : fetchVersionInfo settings s = (Ok info, s') →
  managedBinaryPath "trivy" (ss_BinaryPath settings) = Ok (vi_BinaryPath info).
Proof.
  unfold fetchVersionInfo, sbind, slift; destruct (managedBinaryPath _ _) as [b|e] eqn:Hb; [|done].
  destruct (host_exec _ _ _) as [[out|e] s1]; [|done]; destruct (decode_version out); [|done].
  destruct (String.eqb _ ""); [done|]; by intros [= <- _].
Qed.
Lemma launches_fetch : (∀ b, managedBinaryPath "trivy" (ss_BinaryPath settings) = Ok b → P b) → launches id P (fetchVersionInfo settings).
Proof.
  intros HP; unfold fetchVersionInfo; apply launches_bind; [launch|]; intros s b s' [= Hb _]; pose proof (launches_exec P).
  launch; auto.
Qed.
Lemma launches_trivy_Probe : (∀ b, managedBinaryPath "trivy" (ss_BinaryPath settings) = Ok b → P b) → launches id P (trivy_Probe settings).
Proof. intros HP%launches_fetch; unfold trivy_Probe; launch. Qed.
Lemma launches_trivy_Run imageRef :
  (∀ b, managedBinaryPath "trivy" (ss_BinaryPath settings) = Ok b → P b) → launches id P (trivy_Run imageRef settings).
Proof.
  intros HP; pose proof (launches_fetch HP); unfold trivy_Run; launch; apply launches_exec, HP; eapply fetch_binary; eauto.
Qed.
Lemma launches_stage index result blobs : launches (S := W * Host) snd P (stage_blobs index result blobs).
Proof.
  revert index result; induction blobs as [|b blobs IH]; intros index result; simpl; [apply launches_ret|].
  unfold copyBlob; launch.
Qed.
Lemma launches_stageManifest root blobs : launches (S := W * Host) snd P (stageManifestBlobs root blobs).
Proof. unfold stageManifestBlobs; pose proof launches_stage; launch. Qed.
Lemma launches_gitleaks_Probe :
  (∀ b, managedBinaryPath "gitleaks" (ss_BinaryPath settings) = Ok b → P b) → launches id P (gitleaks_Probe settings).
Proof.
  intros HP; unfold gitleaks_Probe; apply launches_bind; [launch|]; intros s b s' [= Hb _]; pose proof (launches_exec P).
  launch; auto.
Qed.
Lemma launches_gitleaks_Run target : (∀ b, managedBinaryPath "gitleaks" (ss_BinaryPath settings) = Ok b → P b) →
  launches (S := W * Host) snd P (gitleaks_Run target settings).
Proof.
  intros HP; unfold gitleaks_Run; apply launches_bind; [launch|]; intros s b s' [= Hb _]; pose proof launches_stageManifest.
  pose proof (launches_exec P); unfold scan_staged; launch; auto.
Qed.
End Runners.

(** The managers run nothing but their health checks. *)
Lemma launches_resolve P ru version : launches id P (ResolveRelease ru version).
Proof. unfold ResolveRelease, ResolveAsset; launch. Qed.
Lemma launches_download P url : launches id P (download url).
Proof. unfold download; launch. Qed.
Lemma launches_make_all P paths : launches id P (make_all paths).
Proof. induction paths; simpl; launch. Qed.
Lemma launches_link P ru root version : launches id P (activateVersionLink ru root version).
Proof. unfold activateVersionLink; launch. Qed.
#[local] Hint Resolve launches_resolve launches_download launches_make_all launches_link : launches.
Lemma launches_place P ru root asset previous : launches id P (place_release ru root asset previous).
Proof. unfold place_release, verify_archive, extract_binary, writeReceipt; launch. Qed.
#[local] Hint Resolve launches_place : launches.

Lemma placed_path ru root asset previous h b h' : place_release ru root asset previous h = (Ok b, h') →
  b = filepath_Join (versionDir ru root (as_Version asset)) (ru_feature ru).
Proof.
  unfold place_release, extract_binary; intros He; repeat (apply bind_ok in He as (? & ? & ? & He)).
  injection He as -> _.
  match goal with Hx : sbind (host_ReadFile _) _ _ = (Ok b, _) |- _ => rename Hx into He end.
  repeat (apply bind_ok in He as (? & ? & ? & He)); by injection He as <- _.
Qed.

(** The health checks are of the active binary, and of one that was just placed. *)
Section Checked.
Variables (P : string → Prop) (ru : Runtime) (root : string) (probe : ScanSettings → M Host FeatureRuntime).
Notation checks binary := (launches id P (probe (probe_settings ru root binary))).
Hypothesis Hactive : checks (activeBinaryPath ru root).
Hypothesis Hplaced : ∀ version h asset h', ResolveRelease ru version h = (Ok asset, h') →
  checks (filepath_Join (versionDir ru root (as_Version asset)) (ru_feature ru)).
#[local] Hint Resolve Hactive : launches.

Lemma launches_switch asset b active : checks b → launches id P (switch_to ru root probe asset b active).
Proof. intros Hb; unfold switch_to; launch. Qed.
Lemma launches_activate version current : launches (S := W * Host) snd P (activate ru root probe version current).
Proof.
  assert (∀ old, launches (S := W * Host) snd P (activate_from ru root probe old version)) as Hfrom.
  { intros old; unfold activate_from, ensureLayout, save_state; apply launches_bind; [launch|].
    intros [w h] asset s1 Hres; assert (checks (filepath_Join (versionDir ru root (as_Version asset)) (ru_feature ru))) as Hb.
    { revert Hres; unfold on_host; simpl; destruct (ResolveRelease _ _ _) as [[]] eqn:Hres; [|done]; intros [= -> _]; eauto. }
    do 3 (apply launches_bind; [launch|intros ? ? ? _]); apply launches_bind; [launch|].
    intros [w2 h2] b s3 Hplace; assert (b = filepath_Join (versionDir ru root (as_Version asset)) (ru_feature ru)) as ->.
    { revert Hplace; unfold on_host; simpl; destruct (place_release _ _ _ _ _) as [[]] eqn:Hp; [|done]; intros [= -> _].
      by eapply placed_path. }
    pose proof (launches_switch asset _ (fr_ActiveVersion old) Hb); launch. }
  unfold activate, currentState; launch.
Qed.
Lemma launches_Rollback : launches (S := W * Host) snd P (Rollback ru root probe).
Proof. unfold Rollback, currentState, save_state, probeActiveBinary; launch. Qed.
Lemma launches_Status : launches (S := W * Host) snd P (Status ru root probe).
Proof. unfold Status, currentState, save_state, probeActiveBinary; launch. Qed.
Lemma launches_Latest : launches (S := W * Host) snd P (LatestVersion ru).
Proof. unfold LatestVersion; launch. Qed.
End Checked.
End Managed.

(** ** The names of staged blobs *)

(** A character of a name gitleaks can be told apart from what follows the name. *)
Definition name_char (a : ascii) : bool := negb (existsb (Ascii.eqb a) ["/"; "!"; ":"]%char).
Definition plain (s : string) : Prop := str_forallb name_char s = true.
Lemma hex_plain s : str_forallb is_hex s = true → plain s.
Proof. apply str_forallb_impl; by intros [[] [] [] [] [] [] [] []]. Qed.
Lemma plain_append s t : plain s → plain t → plain (String.append s t).
Proof. unfold plain; rewrite str_forallb_append; by intros -> ->. Qed.
Lemma plain_no_char c s : name_char c = false → plain s → no_char c s = true.
Proof. intros Hc; apply str_forallb_impl; intros a Ha; apply negb_true_iff, Ascii.eqb_neq; congruence. Qed.
Lemma plain_substring n s : plain s → plain (substring 0 n s).
Proof.
  unfold plain; revert n; induction s as [|a s IH]; intros [|n]; simpl; try done.
  intros [-> Hs]%andb_true_iff; by apply IH.
Qed.
Lemma segment_plain s : (2 < String.length s)%nat → plain s → segment_ok s.
Proof.
  intros Hl Hp; split_and!; try (by intros ->; simpl in Hl; lia); by apply plain_no_char.
Qed.

Section Names.
Context `{UnicodeTables}.

Lemma digit_name a : is_digit a = true → name_char a = true.
Proof. by destruct a as [[] [] [] [] [] [] [] []]. Qed.
Lemma pad3_digits n : str_forallb is_digit (pad3 n) = true ∧ digits_val 0 (pad3 n) = Some (Z.of_nat n).
Proof.
  unfold pad3; pose proof (decimal_digits (Z.of_nat n) ltac:(lia)) as Hd.
  pose proof (digits_decimal (Z.of_nat n) "" ltac:(lia)) as Hv; rewrite append_nil_r in Hv.
  repeat case_match; simpl; done.
Qed.
Lemma pad3_plain n : plain (pad3 n).
Proof. apply (str_forallb_impl is_digit); [apply digit_name|apply pad3_digits]. Qed.
Lemma extension_plain mt ext c : stagingExtension mt = Some (ext, c) → plain ext ∧ (3 < String.length ext)%nat.
Proof. unfold stagingExtension; repeat case_match; intros [= <- <-]; split; try done; simpl; lia. Qed.
Lemma digest12_plain d : valid_digest d = true → plain (digest12 d).
Proof.
  intros (_ & _ & _ & Hh)%Algorithm_Encoded; apply hex_plain in Hh; unfold digest12.
  case_match; [done|by apply plain_substring].
Qed.
Lemma layer_name_plain mt n d ext c : stagingExtension mt = Some (ext, c) → valid_digest d = true →
  plain (layer_name n d ext) ∧ segment_ok (layer_name n d ext).
Proof.
  intros [Hp Hl]%extension_plain Hd; assert (plain (layer_name n d ext)) as Hn.
  { unfold layer_name; simpl; apply plain_append; [apply pad3_plain|]; apply (plain_append "-"); [done|].
    apply plain_append; [by apply digest12_plain|]; by apply plain_append. }
  split; [done|]; apply segment_plain; [|done]; unfold layer_name; simpl; rewrite !length_append; simpl; rewrite !length_append; lia.
Qed.
End Names.

(** ** What is staged where *)

(** A staged blob: the directory and the name of its copy. *)
Definition place : Type := string * string * Descriptor * bool.
Fixpoint places `{UnicodeTables} (index : nat) (blobs : list Descriptor) : list place :=
  match blobs with
  | [] => []
  | b :: blobs' =>
      match stagingExtension (desc_MediaType b) with
      | None => places index blobs'
      | Some (ext, isConfig) =>
          let index := if isConfig : bool then index else S index in
          let name := if isConfig then String.append "config" ext else layer_name index (desc_Digest b) ext in
          (if isConfig then "config" else "layers", name, b, isConfig) :: places index blobs'
      end
  end.
Definition copy_of (scanDir : string) (e : place) : stagedBlob :=
  mkStaged (filepath_Join (filepath_Join scanDir e.1.1.1) e.1.1.2) e.1.2 e.2.
Definition skipped `{UnicodeTables} (blobs : list Descriptor) : list Descriptor :=
  List.filter (λ b, negb (bool_decide (is_Some (stagingExtension (desc_MediaType b))))) blobs.
Definition is_config `{UnicodeTables} (b : Descriptor) : bool :=
  match stagingExtension (desc_MediaType b) with Some (_, c) => c | None => false end.
(** An image has one configuration. *)
Definition one_config `{UnicodeTables} (blobs : list Descriptor) : Prop := (length (List.filter is_config blobs) ≤ 1)%nat.

Section Places.
Context `{UnicodeTables}.
Notation digests_ok blobs := (Forall (λ b, valid_digest (desc_Digest b) = true) blobs).

Lemma extension_config mt ext : stagingExtension mt = Some (ext, true) → ext = ".json".
Proof. unfold stagingExtension; repeat case_match; by intros [= <-]. Qed.
Lemma places_names index blobs : digests_ok blobs →
  Forall (λ e : place, (e.1.1.1 = "config" ∨ e.1.1.1 = "layers") ∧ segment_ok e.1.1.2 ∧ plain e.1.1.2) (places index blobs).
Proof.
  intros Hd; revert index; induction Hd as [|b blobs Hb _ IH]; intros index; cbn [places]; [done|].
  destruct (stagingExtension _) as [[ext []]|] eqn:He; [..|apply IH]; constructor; try apply IH; simpl.
  - apply extension_config in He as ->; split_and!; [by left|by apply segment_literal|done].
  - destruct (layer_name_plain _ (S index) _ _ _ He Hb); split_and!; [by right|done..].
Qed.
Lemma layer_names index blobs e : e ∈ places index blobs → e.1.1.1 = "layers" →
  ∃ k ext, (index < k)%nat ∧ e.1.1.2 = layer_name k (desc_Digest e.1.2) ext.
Proof.
  revert index; induction blobs as [|b blobs IH]; intros index; cbn [places]; [by intros ?%elem_of_nil|].
  destruct (stagingExtension _) as [[ext []]|]; [..|apply IH]; intros [->|He]%elem_of_cons Hl; try done; try by apply IH.
  - exists (S index), ext; split; [lia|done].
  - destruct (IH _ He Hl) as (k & x & Hk & ->); exists k, x; split; [lia|done].
Qed.
Lemma layer_name_inj k k' d d' ext ext' : layer_name k d ext = layer_name k' d' ext' → k = k'.
Proof.
  unfold layer_name; simpl; intros He; destruct (pad3_digits k) as [Hd Hv], (pad3_digits k') as [Hd' Hv'].
  assert (∀ n t, str_forallb is_digit (pad3 n) = true → (cut "-" (String.append (pad3 n) (String "-" t))).1.1 = pad3 n) as Hc.
  { intros n t Hn; rewrite (cut_append "-"); [done|]; revert Hn; apply str_forallb_impl; by intros [[] [] [] [] [] [] [] []]. }
  apply (f_equal (λ s, (cut "-" s).1.1)) in He; rewrite !Hc in He by done; rewrite He, Hv' in Hv; by injection Hv as ?%Nat2Z.inj.
Qed.
Lemma no_config index blobs e : List.filter is_config blobs = [] → e ∈ places index blobs → e.1.1.1 = "layers".
Proof.
  revert index; induction blobs as [|b blobs IH]; intros index; cbn [places List.filter]; [by intros _ ?%elem_of_nil|].
  unfold is_config at 1; destruct (stagingExtension _) as [[ext []]|]; [done|..|apply IH].
  intros Hf [->|He]%elem_of_cons; [done|by eapply IH].
Qed.
Lemma places_distinct index blobs : one_config blobs → NoDup (places index blobs).*1.*1.
Proof.
  unfold one_config; revert index; induction blobs as [|b blobs IH]; intros index; cbn [places List.filter]; [constructor|].
  unfold is_config at 1; destruct (stagingExtension _) as [[ext []]|]; cbn [length]; [..|apply IH]; intros Hc; cbn [fmap list_fmap];
    constructor; try (apply IH; lia); intros (p & Hp & (e & -> & He)%list_elem_of_fmap)%list_elem_of_fmap; simpl in Hp.
  - assert (List.filter is_config blobs = []) as Hn by (destruct (List.filter is_config blobs); [done|simpl in Hc; lia]).
    pose proof (no_config _ _ _ Hn He) as Hl; by rewrite <- Hp in Hl.
  - assert (e.1.1.1 = "layers") as Hl by (by rewrite <- Hp).
    destruct (layer_names _ _ _ He Hl) as (k & x & Hk & Hn); rewrite <- Hp in Hn; simpl in Hn; apply layer_name_inj in Hn; lia.
Qed.
Lemma places_blobs index blobs : (places index blobs).*1.*2 ++ skipped blobs ≡ₚ blobs.
Proof.
  revert index; induction blobs as [|b blobs IH]; intros index; cbn [places skipped List.filter]; [done|].
  destruct (stagingExtension _) as [[ext []]|]; simpl; [by f_equiv..|].
  unfold skipped in IH; rewrite <- Permutation_middle; by f_equiv.
Qed.
End Places.

(** ** The directory of a run *)

Section Staging.
Context {W : Type} `{UnicodeTables, HostLaws, ScannerOutput, !BlobStore W}.
Notation S := (W * Host)%type.
Notation digests_ok blobs := (Forall (λ b, valid_digest (desc_Digest b) = true) blobs).

Lemma stage_place scanDir (isConfig : bool) : scanDir ≠ "" →
  let destDir := filepath_Join scanDir (if isConfig then "config" else "layers") in
  destDir ≠ "" ∧ to_path destDir = to_path scanDir ++ [if isConfig then "config" else "layers"].
Proof. intros Hs; destruct isConfig; split; try (by apply Join_nonempty); by apply to_path_Join; [|apply segment_literal]. Qed.

Lemma confined_stage runDir blobs index result : runDir ≠ "" → sj_ScanDir result = filepath_Join runDir "scan" → digests_ok blobs →
  confined (S := S) snd (to_path runDir) (stage_blobs index result blobs).
Proof.
  intros Hr Hs Hd; revert index result Hs; induction Hd as [|b blobs Hb _ IH]; intros index result Hs; cbn [stage_blobs];
    [apply confined_ret|].
  destruct (stagingExtension (desc_MediaType b)) as [[ext isConfig]|] eqn:He; [|by apply IH].
  rewrite Hs; pose proof (Join_nonempty runDir "scan" ltac:(done)) as Hscan.
  destruct (stage_place _ isConfig Hscan) as [Hne Hdest].
  assert (to_path (filepath_Join runDir "scan") = to_path runDir ++ ["scan"]) as Hsp by (by apply to_path_Join; [|apply segment_literal]).
  apply confined_bind; [apply confined_host, confined_MkdirAll|intros _].
  { rewrite Hdest, Hsp, <- app_assoc; by eexists. }
  apply confined_bind; [|intros _; by apply IH].
  apply confined_bind; [apply confined_server|intros opened; apply confined_host, confined_WriteFile].
  rewrite to_path_Join, Hdest, Hsp, <- !app_assoc; [by eexists|done|].
  destruct isConfig; [|by eapply layer_name_plain]; unfold stagingExtension in He.
  assert (ext = ".json") as -> by (repeat case_match; congruence); by apply segment_literal.
Qed.

Lemma stage_dirs blobs index result (s : S) r s' : stage_blobs index result blobs s = (Ok r, s') →
  sj_RunDir r = sj_RunDir result ∧ sj_ScanDir r = sj_ScanDir result.
Proof.
  revert index result s; induction blobs as [|b blobs IH]; intros index result s; cbn [stage_blobs]; [by intros [= <- <-]|].
  destruct (stagingExtension _) as [[ext isConfig]|]; [|intros Hr; by apply IH in Hr].
  unfold sbind; destruct (on_host _ _) as [[u|e] s1]; [|done]; destruct (copyBlob _ _ _) as [[u'|e] s2]; [|done].
  intros Hr; by apply IH in Hr.
Qed.

(** Cleaning up takes the directory away, unless that very call fails. *)
Lemma remove_all_outcome s (h : Host) : to_path s ≠ [] → clear h (to_path s) →
  let h' := (host_RemoveAll s h).2 in
  ho_links h' = ho_links h ∧ ho_calls h' = Datatypes.S (ho_calls h)
  ∧ (ho_files h' = fs_remove_all (ho_files h) (to_path s)
     ∨ is_Some (henv_fault (ho_calls h)) ∧ same_off (to_path s) (ho_files h) (ho_files h')).
Proof.
  intros Hn Hc; pose proof (at_entry_clear h s (to_path s) Hc ltac:(done) Hn) as He.
  destruct (host_RemoveAll s h) as [[u|e] h'] eqn:Hr; simpl.
  - revert Hr; unfold host_RemoveAll, host_call; rewrite He; destruct (henv_fault _); [done|].
    rewrite (Hc (to_path s)) by (by left); intros [= _ <-]; simpl.
    split_and!; [by apply (clear_filter h (to_path s))|done|by left].
  - revert Hr; unfold host_RemoveAll, host_call; rewrite He; destruct (henv_fault _) eqn:Hx.
    + intros [= _ <-]; destruct (remove_some_less (henv_removed (ho_calls h)) (to_path s) h) as [_ Hf Hl _].
      split_and!; [|done|right; split; [by eexists|]].
      * apply map_eq; intros q; destruct (Hl q) as [->|(Hq & _ & ->)]; [done|]; symmetry; apply Hc; by right.
      * intros q Hq; by destruct (Hf q) as [?|[? _]].
    + by rewrite (Hc (to_path s)) by (by left).
Qed.
Lemma removed_again (fs fs' : gmap (list string) node) p :
  (∀ q, p `prefix_of` q → fs !! q = None) → same_off p fs fs' → fs_remove_all fs' p = fs.
Proof.
  intros Hn Hs; apply map_eq; intros q; unfold fs_remove_all; rewrite map_lookup_filter.
  destruct (decide (p `prefix_of` q)) as [Hp|Hp].
  - rewrite Hn by done; destruct (fs' !! q) as [n|]; [|done]; simpl.
    rewrite option_guard_False; [done|]; by rewrite bool_decide_eq_true_2.
  - rewrite (Hs q Hp); destruct (fs !! q) as [n|]; [|done]; simpl.
    rewrite option_guard_True; [done|]; by rewrite bool_decide_eq_false_2.
Qed.

(** Nothing is left of a run but its work root, or its clean-up failed. *)
Definition cleaned (wd : list string) (h h' : Host) : Prop :=
  ho_links h' = ho_links h
  ∧ (ho_files h' = ho_files h ∨ fs_mkdir_all (ho_files h) wd = Ok (ho_files h')
     ∨ is_Some (henv_fault (pred (ho_calls h')))
       ∧ ∃ fs, fs_mkdir_all (ho_files h) wd = Ok fs ∧ same_off wd fs (ho_files h')).
(** A run at work in [p], a new directory of the work root [wd]. *)
Record working (wd p : list string) (h h' : Host) : Prop := {
  wk_below : wd `prefix_of` p;
  wk_root : p ≠ [];
  wk_links : ho_links h' = ho_links h;
  wk_files : ∃ fs, fs_mkdir_all (ho_files h) wd = Ok fs ∧ same_off p fs (ho_files h')
                   ∧ ∀ q, p `prefix_of` q → fs !! q = None;
  wk_settled : settled h' p;
}.

Lemma working_confined {S'} (hp : S' → Host) {A} (m : M S' A) wd p h s : confined hp p m →
  working wd p h (hp s) → working wd p h (hp (m s).2).
Proof.
  intros Hm [Hb Hp Hl (fs & Hfs & Hs & Hn) Hd]; destruct (Hm s Hd) as [Hf Hl']; split; [done|done|congruence| |by eapply settled_same].
  exists fs; split_and!; [done|by eapply same_off_trans|done].
Qed.
Lemma working_cleaned wd p h h' s : to_path s = p → working wd p h h' → cleaned wd h (host_RemoveAll s h').2.
Proof.
  intros <- [Hb Hp0 Hl (fs & Hfs & Hs & Hn) [Hc _]]; destruct (remove_all_outcome s h' Hp0 Hc) as (Hl' & Hk & Hf); split; [congruence|right].
  destruct Hf as [->|[Hx Hf]]; [left; by erewrite removed_again|right]; rewrite Hk; split; [done|].
  exists fs; split; [done|]; intros q Hq; assert (¬ to_path s `prefix_of` q) as Hp by (intros Hp; apply Hq; by trans (to_path s)).
  by rewrite Hf, Hs.
Qed.

Lemma mkdir_outcome s h : clear h (to_path s) →
  let h' := (host_MkdirAll s h).2 in
  ho_links h' = ho_links h
  ∧ (is_ok (host_MkdirAll s h).1 = false ∧ ho_files h' = ho_files h
     ∨ is_ok (host_MkdirAll s h).1 = true ∧ fs_mkdir_all (ho_files h) (to_path s) = Ok (ho_files h')).
Proof.
  intros Hc; unfold host_MkdirAll, on_files, host_call; destruct (henv_fault _); [split; [done|by left]|].
  rewrite at_path_clear by done; destruct (fs_mkdir_all _ _); (split; [done|]); [by right|by left].
Qed.
Lemma temp_outcome root h : root ≠ "" → clear h (to_path root) →
  let '(r, h') := host_MkdirTemp root "run-" h in
  ho_links h' = ho_links h
  ∧ match r with
    | Err _ => ho_files h' = ho_files h
    | Ok name => ∃ x, segment_ok x ∧ name = filepath_Join root x ∧ ho_files h !! (to_path root ++ [x]) = None
                      ∧ ho_files h' = <[to_path root ++ [x] := Dir]> (ho_files h)
    end.
Proof.
  intros Hr Hc; unfold host_MkdirTemp, host_call; destruct (henv_fault _); [done|]; simpl.
  set (x := String.append "run-" (henv_temp (ho_calls h) (ho_files h))); assert (segment_ok x) as Hx.
  { split_and!; try done; apply (henv_temp_law (ho_calls h) (ho_files h)). }
  rewrite at_path_clear by (rewrite to_path_Join by done; eapply clear_below; [done|by eexists]); rewrite to_path_Join by done.
  destruct (ho_files h !! _) eqn:He; [done|]; destruct (is_dir _ _); [|done]; split; [done|]; by exists x.
Qed.

Lemma mkdir_lookup (fs fs' : gmap (list string) node) p q : fs_mkdir_all fs p = Ok fs' →
  fs' !! q = if bool_decide (q ∈ prefixes p) then Some Dir else fs !! q.
Proof.
  unfold fs_mkdir_all; destruct (existsb _ _); [done|]; intros [= <-]; induction (prefixes p) as [|x l IH]; simpl; [done|].
  destruct (decide (q = x)) as [->|Hn]; [rewrite lookup_insert_eq, bool_decide_eq_true_2; [done|by left]|].
  rewrite lookup_insert_ne by done; rewrite IH, (bool_decide_ext (q ∈ x :: l) (q ∈ l)); [done|].
  rewrite elem_of_cons; naive_solver.
Qed.

(** Where a run starts: its directory is new, and so is all below it. *)
Lemma start_working root h h1 h2 x fs : closed (ho_files h) → clear h (to_path root) → segment_ok x →
  ho_links h1 = ho_links h → fs_mkdir_all (ho_files h) (to_path root) = Ok fs → ho_files h1 = fs →
  ho_links h2 = ho_links h1 → fs !! (to_path root ++ [x]) = None → ho_files h2 = <[to_path root ++ [x] := Dir]> fs →
  working (to_path root) (to_path root ++ [x]) h h2.
Proof.
  intros Hcl Hc Hx Hl1 Hm Hf1 Hl2 Hn Hf2; split; [by eexists|by destruct (to_path root)|congruence| |split].
  - exists fs; split_and!; [done|rewrite Hf2; by apply same_off_insert|]; intros q [k ->].
    destruct k as [|y k]; [by rewrite app_nil_r|]; rewrite (mkdir_lookup _ _ _ _ Hm), bool_decide_eq_false_2.
    2: { intros [_ Hq]%prefixes_elem; apply prefix_length in Hq; rewrite !length_app in Hq; simpl in Hq; lia. }
    destruct (ho_files h !! _) as [n|] eqn:He; [|done]; assert (ho_files h !! (to_path root ++ [x]) = Some Dir) as Hd.
    { apply (Hcl _ (y :: k) n); [done|by destruct (to_path root)|done]. }
    rewrite (mkdir_lookup _ _ _ _ Hm), Hd in Hn; by case_match.
  - eapply clear_below; [|by eexists]; eapply clear_links; [|done]; congruence.
  - intros q Hq; rewrite Hf2; destruct (decide (q = to_path root ++ [x])) as [->|Hne]; [by rewrite lookup_insert_eq|].
    rewrite lookup_insert_ne by done; unfold parent in Hq; rewrite removelast_last in Hq.
    by rewrite (mkdir_lookup _ _ _ _ Hm), bool_decide_eq_true_2.
Qed.

Lemma stage_outcome root blobs (w : W) h : root ≠ "" → closed (ho_files h) → clear h (to_path root) → digests_ok blobs →
  let '(r, s') := stageManifestBlobs root blobs (w, h) in
  match r with
  | Ok staged => ∃ p, working (to_path root) p h s'.2 ∧ to_path (sj_RunDir staged) = p ∧ sj_RunDir staged ≠ ""
                      ∧ sj_ScanDir staged = filepath_Join (sj_RunDir staged) "scan"
  | Err _ => cleaned (to_path root) h s'.2
  end.
Proof.
  intros Hr Hcl Hc Hd; unfold stageManifestBlobs; unfold sbind at 1; unfold on_host at 1; simpl.
  pose proof (mkdir_outcome root h Hc) as Hm; destruct (host_MkdirAll root h) as [[u|e] h1]; simpl in Hm.
  2: { destruct Hm as [Hl [[_ Hf]|[? _]]]; [|done]; split; [done|by left]. }
  destruct Hm as [Hl [[? _]|[_ Hm]]]; [done|].
  unfold sbind at 1; unfold on_host at 1; simpl.
  pose proof (temp_outcome root h1 Hr ltac:(by eapply clear_links)) as Ht; destruct (host_MkdirTemp root "run-" h1) as [[name|e] h2].
  2: { destruct Ht as [Hl2 Hf2]; split; [simpl; congruence|]; right; left; simpl; by rewrite Hf2. }
  destruct Ht as (Hl2 & x & Hx & -> & Hn & Hf2).
  assert (working (to_path root) (to_path root ++ [x]) h h2) as Hw by (by eapply start_working).
  assert (to_path (filepath_Join root x) = to_path root ++ [x]) as Hp by (by apply to_path_Join).
  assert (filepath_Join root x ≠ "") as Hne by (apply Join_nonempty; by destruct Hx).
  set (start := mkStaging _ _ [] []).
  pose proof (confined_stage (filepath_Join root x) blobs 0 start Hne eq_refl Hd) as Hs; rewrite Hp in Hs.
  unfold sbind, sattempt; pose proof (working_confined snd _ _ _ h (w, h2) Hs Hw) as Hw'.
  destruct (stage_blobs 0 start blobs (w, h2)) as [[staged|e] s3] eqn:He; simpl in Hw'.
  - destruct (stage_dirs _ _ _ _ _ _ He) as [Hrun Hscan]; exists (to_path root ++ [x]); rewrite Hrun, Hscan; by split_and!.
  - unfold on_host; destruct (host_RemoveAll _ _) as [r h4] eqn:Hrm; simpl.
    pose proof (working_cleaned _ _ _ _ (filepath_Join root x) Hp Hw') as Hcn; by rewrite Hrm in Hcn.
Qed.

Lemma report_path scanDir p config : scanDir ≠ "--report-path" → report_argument (secret_args scanDir p config) = Some p.
Proof.
  intros Hs; unfold report_argument, secret_args; apply String.eqb_neq in Hs; cbn -[String.eqb]; by rewrite Hs.
Qed.
Lemma confined_scan binary config staged : sj_RunDir staged ≠ "" → sj_ScanDir staged = filepath_Join (sj_RunDir staged) "scan" →
  confined id (to_path (sj_RunDir staged)) (scan_staged binary config staged).
Proof.
  intros Hr Hs; unfold scan_staged.
  assert (to_path (sj_ScanDir staged) = to_path (sj_RunDir staged) ++ ["scan"]) as Hp
    by (rewrite Hs; by apply to_path_Join, segment_literal).
  apply confined_bind.
  - apply confined_attempt, confined_exec; intros s; rewrite report_path; [intros [= <-]|].
    + rewrite to_path_Join by (try done; by apply segment_literal); by eexists.
    + intros He; rewrite He in Hp; by apply app_inj_tail in Hp as [_ [=]].
  - intros ran; destruct (negb (is_ok ran)); [apply confined_throw|].
    apply confined_bind; [apply confined_attempt, confined_ReadFile|intros [body|e]; [|apply confined_throw]].
    apply confined_bind; [apply confined_lift|intros entries; apply confined_ret].
Qed.

Lemma open_same s (h : Host) : ho_links (host_Open s h).2 = ho_links h ∧ ho_files (host_Open s h).2 = ho_files h.
Proof.
  unfold host_Open, host_call; destruct (henv_fault _); [done|]; destruct (at_path h s); [|done].
  by destruct (fs_stat _ _) as [[|]|].
Qed.
Lemma readable_same label s (h : Host) :
  ho_links (requireReadableFile label s h).2 = ho_links h ∧ ho_files (requireReadableFile label s h).2 = ho_files h.
Proof.
  unfold requireReadableFile; destruct (String.eqb _ ""); [done|]; pose proof (open_same (trim_space s) h) as Ho.
  unfold wrap, sattempt; unfold sbind; destruct (host_Open _ h) as [[[]|e] h1]; done.
Qed.

(** What is staged, in the order of the blobs. *)
Lemma stage_copies blobs index result (s : S) r s' : stage_blobs index result blobs s = (Ok r, s') →
  sj_Staged r = (sj_Staged result ++ map (copy_of (sj_ScanDir result)) (places index blobs))%list
  ∧ sj_Skipped r = (sj_Skipped result ++ skipped blobs)%list.
Proof.
  revert index result s; induction blobs as [|b blobs IH]; intros index result s; cbn [stage_blobs places skipped List.filter].
  { intros [= <- <-]; by rewrite !app_nil_r. }
  fold (skipped blobs); destruct (stagingExtension _) as [[ext isConfig]|] eqn:He.
  - rewrite bool_decide_eq_true_2 by (by eexists); cbn [negb].
    unfold sbind; destruct (on_host _ _) as [[u|e] s1]; [|done]; destruct (copyBlob _ _ _) as [[u'|e] s2]; [|done].
    intros Hr; destruct (IH _ _ _ Hr) as [-> ->]; simpl; split; [|done]; rewrite <- app_assoc; by destruct isConfig.
  - rewrite bool_decide_eq_false_2 by (by intros [? ?]); cbn [negb]; intros Hr; destruct (IH _ _ _ Hr) as [-> ->]; simpl.
    by rewrite <- app_assoc.
Qed.

Lemma write_outcome s data h u h' : clear h (to_path s) → host_WriteFile s data h = (Ok u, h') →
  ho_links h' = ho_links h ∧ ∃ t, ho_files h' = <[to_path s := File data t]> (ho_files h).
Proof.
  intros Hc; unfold host_WriteFile, on_files, host_call; destruct (henv_fault _) as [e|].
  { destruct (henv_partial _); [done|]; rewrite at_path_clear by done; by destruct (fs_write _ _ _ _). }
  rewrite at_path_clear by done; unfold fs_write; destruct (ho_files h !! to_path s) as [[|]|]; [done|..].
  - intros [= <- <-]; split; [done|by eexists].
  - destruct (is_dir _ _); [|done]; intros [= <- <-]; split; [done|by eexists].
Qed.
End Staging.

(** The copies hold the blobs of the registry. *)
Section Copies.
Context {W : Type} `{UnicodeTables, HostLaws, ScannerOutput, RegistryLaws W}.
Notation S := (W * Host)%type.
Notation digests_ok blobs := (Forall (λ b, valid_digest (desc_Digest b) = true) blobs).

Lemma open_blob d w content w' : reg_wf w → blob_OpenBlob d w = (Ok content, w') →
  reg_wf w' ∧ reg_view w' = reg_view w ∧ ∃ f, rg_blobs (reg_view w) !! d = Some f ∧ content.1 = bf_Content f.
Proof.
  intros Hw He; destruct (OpenBlob_ok d w Hw) as (Hw' & _ & [Hs|[[_ [e Hx]] _]]); rewrite He in *; [|done]; split; [done|].
  unfold spec_open, guarded in Hs; destruct (Digest_Validate d) as [u|e]; [|by destruct Hs]; destruct Hs as [Hv Hr].
  simpl in *; split; [done|]; destruct (rg_blobs (reg_view w) !! d) as [f|]; [|done]; exists f; split; [done|].
  by injection Hr as ->.
Qed.

(** One copy: nothing but its file changes, and the file holds the blob. *)
Lemma copy_outcome s d w h u w' h' : reg_wf w → clear h (to_path s) → copyBlob s d (w, h) = (Ok u, (w', h')) →
  reg_wf w' ∧ reg_view w' = reg_view w ∧ ho_links h' = ho_links h
  ∧ ∃ f t, rg_blobs (reg_view w) !! d = Some f ∧ ho_files h' = <[to_path s := File (bf_Content f) t]> (ho_files h).
Proof.
  intros Hw Hc; unfold copyBlob, sbind, on_server, on_host; simpl; destruct (blob_OpenBlob d w) as [[content|e] w1] eqn:Ho; [|done].
  destruct (open_blob _ _ _ _ Hw Ho) as (Hw1 & Hv & f & Hf & Hcf); simpl.
  destruct (host_WriteFile s content.1 h) as [[u'|e] h1] eqn:He; [|done]; intros [= _ <- <-].
  destruct (write_outcome _ _ _ _ _ Hc He) as [Hl [t Ht]]; split_and!; [done..|]; exists f, t; split; [done|]; by rewrite Ht, Hcf.
Qed.

Lemma stage_contents scanDir blobs index result (w : W) h r w' h' : scanDir ≠ "" → sj_ScanDir result = scanDir → digests_ok blobs →
  NoDup (places index blobs).*1.*1 → clear h (to_path scanDir) → reg_wf w →
  stage_blobs index result blobs (w, h) = (Ok r, (w', h')) →
  ho_links h' = ho_links h
  ∧ (∀ dir name, (dir, name) ∉ (places index blobs).*1.*1 →
       ho_files h' !! (to_path scanDir ++ [dir; name]) = ho_files h !! (to_path scanDir ++ [dir; name]))
  ∧ ∀ e, e ∈ places index blobs → ∃ f t, rg_blobs (reg_view w) !! desc_Digest e.1.2 = Some f
       ∧ ho_files h' !! (to_path scanDir ++ [e.1.1.1; e.1.1.2]) = Some (File (bf_Content f) t).
Proof.
  intros Hs Hr Hd; revert index result w h Hr; induction Hd as [|b blobs Hb Hd IH]; intros index result w h Hr Hn Hc Hw; cbn [stage_blobs].
  { intros [= _ _ <-]; split_and!; [done..|]; by intros e ?%elem_of_nil. }
  pose proof (places_names index (b :: blobs) ltac:(by constructor)) as Hnames; cbn [places] in *.
  destruct (stagingExtension (desc_MediaType b)) as [[ext isConfig]|] eqn:He; [|by apply IH].
  set (index' := if isConfig then index else Datatypes.S index) in *.
  set (name := if isConfig then String.append "config" ext else layer_name index' (desc_Digest b) ext) in *.
  set (dir := if isConfig then "config" else "layers") in *.
  apply Forall_cons in Hnames as [(Hdir & Hname & _) _]; simpl in Hdir, Hname.
  assert (segment_ok dir) as Hok by (destruct Hdir as [->| ->]; by apply segment_literal).
  assert (to_path (filepath_Join scanDir dir) = to_path scanDir ++ [dir]) as Hp1 by (by apply to_path_Join).
  assert (to_path (filepath_Join (filepath_Join scanDir dir) name) = to_path scanDir ++ [dir; name]) as Hp2.
  { rewrite to_path_Join, Hp1, <- app_assoc; [done|apply Join_nonempty; by destruct Hok|done]. }
  rewrite Hr; unfold sbind at 1; unfold on_host; simpl fst; simpl snd.
  pose proof (mkdir_outcome (filepath_Join scanDir dir) h) as Hm; rewrite Hp1 in Hm.
  destruct (host_MkdirAll (filepath_Join scanDir dir) h) as [[u|e] h1]; [|done]; simpl in Hm.
  destruct Hm as [Hl1 [[? _]|[_ Hm]]]; [by eapply clear_below; [|by eexists]|done|].
  unfold sbind at 1; destruct (copyBlob _ _ _) as [[u'|e] [w2 h2]] eqn:Hcp; [|done].
  apply copy_outcome in Hcp as (Hw2 & Hv2 & Hl2 & f & t & Hf & Hh2); [|done|rewrite Hp2; eapply clear_below;
    [by eapply clear_links|by eexists]]; rewrite Hp2 in Hh2.
  cbn [fmap list_fmap fst] in Hn; apply NoDup_cons in Hn as [Hnew Hn].
  intros Hrest; apply IH in Hrest as (Hl & Hsame & Hcopies); [|done|done|eapply clear_links; [|done]; congruence|done].
  assert (∀ d n, ho_files h1 !! (to_path scanDir ++ [d; n]) = ho_files h !! (to_path scanDir ++ [d; n])) as Hh1.
  { intros d n; rewrite (mkdir_lookup _ _ _ _ Hm), bool_decide_eq_false_2; [done|].
    intros [_ Hq]%prefixes_elem; apply prefix_length in Hq; rewrite !length_app in Hq; simpl in Hq; lia. }
  split_and!; [congruence| |].
  - intros d n Hdn; cbn [fmap list_fmap fst] in Hdn; rewrite not_elem_of_cons in Hdn; destruct Hdn as [Hne Hdn].
    rewrite (Hsame d n Hdn), Hh2, lookup_insert_ne; [apply Hh1|]; intros Hq%app_inv_head; congruence.
  - intros e' [->|He']%elem_of_cons; [|rewrite <- Hv2; by apply Hcopies].
    exists f, t; split; [done|]; simpl; rewrite (Hsame dir name Hnew), Hh2; by rewrite lookup_insert_eq.
Qed.
End Copies.

(** The whole of a staging that succeeds. *)
Section Staged.
Context {W : Type} `{UnicodeTables, HostLaws, ScannerOutput, RegistryLaws W}.
Notation digests_ok blobs := (Forall (λ b, valid_digest (desc_Digest b) = true) blobs).

Lemma stage_parts root blobs (w : W) h staged w' h' : root ≠ "" → closed (ho_files h) → clear h (to_path root) →
  stageManifestBlobs root blobs (w, h) = (Ok staged, (w', h')) →
  ∃ x h2, segment_ok x ∧ working (to_path root) (to_path root ++ [x]) h h2
    ∧ sj_RunDir staged = filepath_Join root x ∧ sj_ScanDir staged = filepath_Join (filepath_Join root x) "scan"
    ∧ stage_blobs 0 (mkStaging (filepath_Join root x) (filepath_Join (filepath_Join root x) "scan") [] []) blobs (w, h2)
      = (Ok staged, (w', h')).
Proof.
  intros Hr Hcl Hc; unfold stageManifestBlobs; unfold sbind at 1; unfold on_host at 1; simpl.
  pose proof (mkdir_outcome root h Hc) as Hm; destruct (host_MkdirAll root h) as [[u|e] h1]; simpl in Hm; [|done].
  destruct Hm as [Hl [[? _]|[_ Hm]]]; [done|]; unfold sbind at 1; unfold on_host at 1; simpl.
  pose proof (temp_outcome root h1 Hr ltac:(by eapply clear_links)) as Ht; destruct (host_MkdirTemp root "run-" h1) as [[name|e] h2]; [|done].
  destruct Ht as (Hl2 & x & Hx & -> & Hn & Hf2); unfold sbind, sattempt.
  destruct (stage_blobs _ _ _ _) as [[r|e] s3] eqn:He; [|by destruct (on_host _ _) as [? ?]].
  intros [= -> ->]; exists x, h2; destruct (stage_dirs _ _ _ _ _ _ He) as [Hrun Hscan]; split_and!; try done.
  by eapply start_working.
Qed.
End Staged.

(** ** Findings and the blobs they are in *)

Lemma kept_ne s : Forall (λ x, x ≠ "" ∧ x ≠ "." ∧ no_char "/" x = true) (reverse (kept s)).
Proof. apply Forall_reverse; eapply kept_segments, kept_spec. Qed.
Lemma path_segments_kept p : path_segments p = reverse (kept p).
Proof.
  unfold path_segments; rewrite clean_as_text; pose proof (kept_ne p) as Hk.
  destruct (reverse (kept p)) as [|x l] eqn:Hr; [by destruct (filepath_IsAbs p)|].
  assert (∀ l, Forall (λ x, x ≠ "" ∧ x ≠ "." ∧ no_char "/" x = true) l → List.filter (λ s, negb (String.eqb s "")) l = l) as Hf.
  { clear; induction 1 as [|x l (Hx & _) _ IH]; simpl; [done|]; apply String.eqb_neq in Hx; rewrite Hx; simpl; by rewrite IH. }
  rewrite split_segments by done; destruct (String.eqb_spec (clean_text (filepath_IsAbs p) (x :: l)) ".") as [Ht|_].
  - exfalso; apply (f_equal (split "/")) in Ht; rewrite split_segments in Ht by done; simpl in Ht.
    destruct (filepath_IsAbs p); injection Ht as ?; subst; apply Forall_cons in Hk as [(H1 & H2 & _) _]; done.
  - destruct (filepath_IsAbs p); simpl; [by apply (Hf (x :: l))|by apply (Hf (x :: l))].
Qed.
Lemma rel_below base l : rel_segments base (base ++ l) = Some l.
Proof. induction base as [|b base IH]; simpl; [by destruct l|]; by rewrite String.eqb_refl. Qed.

Lemma Rel_Join scanDir dir name : scanDir ≠ "" → segment_ok dir → segment_ok name →
  filepath_Rel scanDir (filepath_Join (filepath_Join scanDir dir) name) = Some (String.append dir (String "/" name)).
Proof.
  intros Hs Hd Hn; assert (filepath_Join scanDir dir ≠ "") as Hne by (apply Join_nonempty; by destruct Hd).
  destruct (Join_kept _ _ Hs Hd) as [Ha1 Hk1], (Join_kept _ _ Hne Hn) as [Ha2 Hk2].
  unfold filepath_Rel; rewrite !IsAbs_clean, Ha2, Ha1, eqb_reflx; simpl.
  rewrite !path_segments_kept, Hk2, Hk1, !reverse_cons, <- app_assoc, rel_below; done.
Qed.

Lemma trim_scan s : trim_suffix "/" (String.append s "/scan") = String.append s "/scan".
Proof. unfold trim_suffix, has_suffix; by rewrite srev_append. Qed.
Lemma sep_split c c' s s' t t' : no_char c s = true → no_char c' s = true → no_char c s' = true → no_char c' s' = true →
  String.append s (String c t) = String.append s' (String c' t') → s = s'.
Proof.
  unfold no_char; revert s'; induction s as [|a s IH]; intros [|b s']; simpl; rewrite ?andb_true_iff, ?negb_true_iff; try done.
  - intros _ _ [H1%Ascii.eqb_neq _] _ [= ->]; done.
  - intros _ [H1%Ascii.eqb_neq _] _ _ [= ->]; done.
  - intros [_ H1] [_ H2] [_ H3] [_ H4] [= -> Ht]; f_equal; by eapply IH.
Qed.
Lemma no_sep c s t : no_char c s = true → ∀ s', s = String.append s' (String c t) → False.
Proof.
  unfold no_char; intros Hs s' ->; rewrite str_forallb_append in Hs; simpl in Hs; rewrite Ascii.eqb_refl in Hs.
  by rewrite andb_false_r in Hs.
Qed.

(** The text of a blob's path below the scanned directory, and what gitleaks may
    append to it. *)
Definition rel_text (e : place) : string := String.append e.1.1.1 (String "/" e.1.1.2).
Definition inside (tail inner : string) : Prop := tail = "" ∧ inner = "" ∨ tail = String "!" inner.

Lemma matches_one (e e' : place) tail inner :
  no_char "/" e.1.1.1 = true → no_char "/" e'.1.1.1 = true → plain e.1.1.2 → plain e'.1.1.2 → inside tail inner →
  blob_matches (String.append (rel_text e) tail) (rel_text e') = true → e'.1.1 = e.1.1.
Proof.
  intros Hd Hd' Hn Hn' Ht Hm.
  assert (∃ u, String.append (rel_text e) tail = String.append (rel_text e') u ∧ (u = "" ∨ ∃ c v, (c = "!" ∨ c = ":")%char ∧ u = String c v))
    as (u & He & Hu).
  { unfold blob_matches in Hm; rewrite !orb_true_iff in Hm; destruct Hm as [[He%String.eqb_eq|Hp]|Hp].
    - exists ""; rewrite append_nil_r; auto.
    - apply has_prefix_spec in Hp as [v Hv]; rewrite append_assoc in Hv; exists (String "!" v); split; [done|right; eauto].
    - apply has_prefix_spec in Hp as [v Hv]; rewrite append_assoc in Hv; exists (String ":" v); split; [done|right; eauto]. }
  unfold rel_text in He; rewrite !append_assoc in He; simpl in He.
  pose proof (f_equal (cut "/") He) as Hc; rewrite !cut_append in Hc by done; injection Hc as Hdir Hrest.
  assert (e'.1.1.2 = e.1.1.2) as Hname; [|destruct e as [[[? ?] ?] ?], e' as [[[? ?] ?] ?]; simpl in *; congruence].
  assert (∀ c s, (c = "!" ∨ c = ":")%char → plain s → no_char c s = true) as Hpl.
  { intros c s [->| ->]; by apply plain_no_char. }
  destruct Hu as [->|(c & v & Hc & ->)], Ht as [[-> ->]| ->]; rewrite ?append_nil_r in Hrest.
  - done.
  - exfalso; eapply (no_sep "!" e'.1.1.2); [by apply Hpl; [left|]|by symmetry].
  - exfalso; eapply (no_sep c e.1.1.2); [by apply Hpl|done].
  - symmetry; eapply (sep_split "!" c); [..|exact Hrest]; apply Hpl; auto.
Qed.

(** The search finds the one blob whose path the finding is at. *)
Lemma best_of_places scanDir file e (l : list place) best :
  scanDir ≠ "" → Forall (λ x : place, segment_ok x.1.1.1 ∧ segment_ok x.1.1.2) l →
  (∀ x, x ∈ l → blob_matches file (rel_text x) = true → x.1.1 = e.1.1) → NoDup l.*1.*1 →
  blob_matches file (rel_text e) = true → e ∈ l → best.1 = "" →
  best_blob scanDir file best (map (copy_of scanDir) l) = (rel_text e, Some (copy_of scanDir e)).
Proof.
  intros Hs Hl Hm Hn He Hel; revert best; induction l as [|x l IH]; intros best Hb; [by apply elem_of_nil in Hel|].
  apply Forall_cons in Hl as [[Hd Hx] Hl]; cbn [map best_blob]; unfold copy_of at 1 2; cbn [bl_Path].
  rewrite Rel_Join by done; fold (rel_text x); apply NoDup_cons in Hn as [Hnx Hn].
  assert (∀ l best, (∀ x, x ∈ l → blob_matches file (rel_text x) = true → False) →
            Forall (λ x : place, segment_ok x.1.1.1 ∧ segment_ok x.1.1.2) l →
            best_blob scanDir file best (map (copy_of scanDir) l) = best) as Hnone.
  { clear -Hs; induction l as [|x l IH]; intros best Hf Hl; [done|]; apply Forall_cons in Hl as [[Hd Hx] Hl]; cbn [map best_blob].
    unfold copy_of at 1; cbn [bl_Path]; rewrite Rel_Join by done; fold (rel_text x).
    destruct (blob_matches file (rel_text x)) eqn:Hmx; [exfalso; apply (Hf x); [by left|done]|]; apply IH; [|done].
    intros y Hy; apply Hf; by right. }
  apply elem_of_cons in Hel as [<-|Hel].
  - rewrite He, Hb; assert ((String.length "" <? String.length (rel_text e))%nat = true) as ->.
    { apply Nat.ltb_lt; unfold rel_text; rewrite length_append; simpl; lia. }
    apply Hnone; [|done]; intros y Hy Hmy; apply Hnx; apply Hm in Hmy; [|by right]; rewrite <- Hmy.
    apply list_elem_of_fmap; exists y.1; split; [done|]; apply list_elem_of_fmap; by exists y.
  - destruct (blob_matches file (rel_text x)) eqn:Hmx.
    + exfalso; apply Hm in Hmx; [|by left]; apply Hnx; rewrite Hmx.
      apply list_elem_of_fmap; exists e.1; split; [done|]; apply list_elem_of_fmap; by exists e.
    + apply IH; try done; intros y Hy; apply Hm; by right.
Qed.

Lemma below_scan root x rest : root ≠ "" → segment_ok x →
  let scanDir := filepath_Join (filepath_Join root x) "scan" in
  rest ≠ "" → below_scan_dir scanDir (String.append scanDir (String "/" rest)) = rest.
Proof.
  intros Hr Hx scanDir Hrest; assert (scanDir = String.append (filepath_Join root x) "/scan") as Hs
    by (by apply Join_Join; [| |apply segment_literal]).
  unfold below_scan_dir; rewrite Hs, trim_scan, <- Hs.
  destruct (String.eqb_spec scanDir "") as [He|_]; [by destruct (filepath_Join root x); rewrite Hs in He|].
  destruct (String.eqb_spec (String.append scanDir (String "/" rest)) scanDir) as [He|_].
  { apply (f_equal String.length) in He; rewrite length_append in He; simpl in He; lia. }
  assert (String.append scanDir (String "/" rest) = String.append (String.append scanDir "/") rest) as -> by (by rewrite append_assoc).
  rewrite (proj2 (has_prefix_spec _ _)) by (by eexists).
  rewrite <- (drop_str_append (String.append scanDir "/") rest) at 2; by rewrite length_append.
Qed.

Section Attribution.
Context `{UnicodeTables}.

Lemma attribution root x blobs e entry tail inner : root ≠ "" → segment_ok x →
  let scanDir := filepath_Join (filepath_Join root x) "scan" in
  Forall (λ b, valid_digest (desc_Digest b) = true) blobs → one_config blobs → e ∈ places 0 blobs →
  trim_space (re_File entry) = String.append (bl_Path (copy_of scanDir e)) tail → inside tail inner →
  attributeFinding entry (map (copy_of scanDir) (places 0 blobs)) scanDir
  = mkSecretFinding (re_RuleID entry) (re_Description entry) (desc_Digest e.1.2) (trim_prefix ":" inner)
      (re_StartLine entry) (re_EndLine entry) (re_Tags entry).
Proof.
  intros Hr Hx scanDir Hd Ho He Hfile Hin; pose proof (places_names 0 blobs Hd) as Hn; rewrite Forall_forall in Hn.
  assert (∀ e, e ∈ places 0 blobs → segment_ok e.1.1.1 ∧ segment_ok e.1.1.2 ∧ plain e.1.1.2) as Hok.
  { intros y Hy; destruct (Hn y Hy) as ([->| ->] & ? & ?); split_and!; try done; by apply segment_literal. }
  assert (filepath_Join root x ≠ "") as Hne by (apply Join_nonempty; by destruct Hx).
  assert (scanDir ≠ "") as Hs by (by apply Join_nonempty).
  destruct (Hok e He) as (Hdir & Hname & Hplain).
  assert (bl_Path (copy_of scanDir e) = String.append scanDir (String "/" (rel_text e))) as Hpath.
  { unfold copy_of; cbn [bl_Path]; rewrite (Join_Join scanDir e.1.1.1 e.1.1.2) by done; unfold rel_text.
    assert (filepath_Join scanDir e.1.1.1 = String.append scanDir (String "/" e.1.1.1)) as ->
      by (by apply Join_Join; [|apply segment_literal|]).
    by rewrite append_assoc. }
  assert (below_scan_dir scanDir (trim_space (re_File entry)) = String.append (rel_text e) tail) as Hb.
  { rewrite Hfile, Hpath, append_assoc; apply below_scan; [done..|]; unfold rel_text; by destruct e.1.1.1. }
  unfold attributeFinding; rewrite Hb.
  rewrite (best_of_places scanDir _ e (places 0 blobs)); try done.
  - cbn [bl_Descriptor copy_of]; rewrite trim_prefix_append; f_equal; destruct Hin as [[-> ->]| ->]; [done|].
    by assert (trim_prefix "!" (String "!" inner) = inner) as -> by apply (trim_prefix_append "!" inner).
  - apply Forall_forall; intros y Hy; by destruct (Hok y Hy) as (? & ? & _).
  - intros y Hy Hm; destruct (Hok y Hy) as ((_ & _ & _ & ?) & _ & ?); eapply matches_one; try done; by destruct Hdir as (_ & _ & _ & ?).
  - by apply places_distinct.
  - destruct Hin as [[-> ->]| ->]; unfold blob_matches; [by rewrite append_nil_r, String.eqb_refl|].
    rewrite (proj2 (has_prefix_spec (String.append (rel_text e) "!") _)); [by rewrite orb_true_r|].
    exists inner; by rewrite append_assoc.
Qed.
End Attribution.
