(* ===== verification/ScannerSafety.v ===== *)
(** A host with both scanners: trivy is installed and active, gitleaks is below its
    own directory, a release server has a newer trivy and a broken one. The registry
    beside it has one image. The witnesses of the theorems about scanners run there.

    What holds of the scanners: what they count is what they list, a secret scan reads the blobs of the registry, names
    the blob a finding is in, and leaves nothing behind. *)
From Stdlib Require Import Sorting.Sorted.
From S2P Require Import Prelude GoStrings Encodings Errors Digest GoNumbers Manifest PgExample RegPorts.
From S2P Require Import RegWorld Registry Signing RegSteps RegRequests RegExample PolicyPorts PolicyStore.
From S2P Require Import PolicyLaws FullLaws Overrides Scans PullExample Release Host Runtimes Scanners.
From S2P Require Import ScannerLaws.

(** * A host with both scanners *)

Definition sums_of (archive name : string) : string :=
  foldr String.append "" [hex_encode (sha256 (bytes_of archive)); "  "; name].
Definition trivy_0_58 : string := "trivy_0.58.0_Linux-64bit.tar.gz".
Definition trivy_0_59 : string := "trivy_0.59.0_Linux-64bit.tar.gz".
Definition sums_0_58 : string := Eval vm_compute in sums_of "tgz 0.58.0" trivy_0_58.
Definition sums_0_59 : string := Eval vm_compute in sums_of "tgz broken" trivy_0_59.

(** The latest release works; the one with the tag [v0.59.0] is unpacked to a binary
    that does not run. *)
Definition answers (url : string) : string :=
  if String.eqb url "https://api.github.com/repos/aquasecurity/trivy/releases/latest" then "latest"
  else if String.eqb url "https://api.github.com/repos/aquasecurity/trivy/releases/tags/v0.59.0" then "newer"
  else if String.eqb url "https://dl/0.58.0" then "tgz 0.58.0"
  else if String.eqb url "https://dl/0.58.0/sums" then sums_0_58
  else if String.eqb url "https://dl/0.59.0" then "tgz broken" else sums_0_59.
Definition release_58 : string * list (string * string) :=
  ("v0.58.0", [(trivy_0_58, "https://dl/0.58.0"); ("trivy_0.58.0_checksums.txt", "https://dl/0.58.0/sums")]).
Definition release_59 : string * list (string * string) :=
  ("v0.59.0", [(trivy_0_59, "https://dl/0.59.0"); ("trivy_0.59.0_checksums.txt", "https://dl/0.59.0/sums")]).
#[global] Instance scanner_archives : Archives :=
  {| untar archive := ([("trivy", true, drop_str 4 archive)], None) |}.

(** A binary prints the version it is made of; gitleaks writes its report. *)
Definition run_scanner (binary : string) (args : list string) : res string * option string :=
  if String.eqb binary "broken" then (Err (OtherError "exit status 1"), None)
  else if String.eqb (default "" (head args)) "image" then (Ok "image report", None)
  else if String.eqb (default "" (head args)) "dir" then (Ok "", Some "secrets report")
  else (Ok binary, None).
#[global] Instance example_host_env : HostEnv := {|
  henv_cwd := ["srv"];
  henv_fault _ := None;
  henv_partial _ := O;
  henv_removed _ _ := false;
  henv_now n := 1700000000 * second + Z.of_nat n * second;
  henv_temp _ _ := "1";
  henv_url _ := Ok tt;
  henv_get _ url := Ok (200, answers url);
  henv_releases _ := inl [];
  henv_release body := if String.eqb body "newer" then inl release_59 else inl release_58;
  henv_run _ _ binary args := run_scanner binary args;
|}.
#[global] Instance example_host_laws : HostLaws.
Proof. by split. Qed.

Definition layer_path : string := "/srv/features/gitleaks/gitleaks-cache/work/run-1/scan/layers/001-".
Definition vulnerability (id severity fixed : string) : trivyVulnerability :=
  mkVulnerability id "openssl" "3.0" fixed "" "" severity "" None None "" "".
#[global] Instance example_output : ScannerOutput := {|
  decode_version body := inl (mkTrivyVersion body 2 None None None);
  decode_image _ := inl (mkTrivyImage 2 None None
    [mkSection "alpine" "os-pkgs" "alpine" [vulnerability "CVE-1" "low" ""; vulnerability "CVE-2" "CRITICAL" "3.1"]]);
  decode_report _ := inl [mkEntry "aws-key" "AWS key"
    (foldr String.append "" [layer_path; digest12 layer_digest; ".tar!app/.env"]) 3 3 []];
  unicode_upper s := s;
|}.
#[global] Instance example_receipts : ReceiptText := {| receipt_text r := as_Version (rc_asset r) |}.

(** ** The disk *)

Definition scanner_dirs : list (list string) :=
  [["srv"]; ["srv"; "features"]; ["srv"; "features"; "trivy"]; ["srv"; "features"; "trivy"; "bin"];
   ["srv"; "features"; "trivy"; "bin"; "versions"]; ["srv"; "features"; "trivy"; "bin"; "versions"; "0.57.0"];
   ["srv"; "features"; "trivy"; "bin"; "versions"; "0.56.0"]; ["srv"; "features"; "gitleaks"];
   ["srv"; "features"; "gitleaks"; "gitleaks-cache"]].
Definition scanner_files : list (list string * string) :=
  [(["srv"; "features"; "trivy"; "bin"; "versions"; "0.57.0"; "trivy"], "0.57.0");
   (["srv"; "features"; "trivy"; "bin"; "versions"; "0.56.0"; "trivy"], "0.56.0");
   (["srv"; "features"; "gitleaks"; "gitleaks"], "8.28.0")].
Definition scanner_disk : gmap (list string) node :=
  foldr (λ p fs, <[p := Dir]> fs) (foldr (λ f fs, <[f.1 := File f.2 0]> fs) ∅ scanner_files) scanner_dirs.
Definition trivy_active : list string := ["srv"; "features"; "trivy"; "bin"; "active"].
Definition trivy_links : gmap (list string) (list string) :=
  {[ trivy_active := ["srv"; "features"; "trivy"; "bin"; "versions"; "0.57.0"] ]}.
Definition scanner_host : Host := mkHost scanner_disk trivy_links [] 0.

Definition trivy_settings : ScanSettings :=
  mkScanSettings true true hour hour "" "" "" "" false "/srv/features/trivy/trivy-cache" "/srv/features/trivy/bin/active/trivy" "" "" 1 0 "" "" "".
Definition gitleaks_settings : ScanSettings :=
  mkScanSettings true true hour hour "" "" "" "" false "/srv/features/gitleaks/gitleaks-cache" "/srv/features/gitleaks/gitleaks" "" "" 1 0
    "" "" "".
Definition image_blobs : list Descriptor :=
  [mkDescriptor "application/vnd.oci.image.layer.v1.tar" layer_digest 11;
   mkDescriptor "application/vnd.oci.image.manifest.v1+json" payload_digest 71].
Definition secret_target : SecretScanTarget := mkSecretTarget "team/app" payload_digest image_blobs.

(** The stored state: 0.57.0 is active, 0.56.0 the one to return to. *)
Definition trivy_state : FeatureRuntimeState :=
  mkRuntimeState FeatureRuntimeStatusReady "0.57.0" "0.56.0" "/srv/features/trivy/bin/active/trivy" "" "" "" None None None "" 1.
Definition scanner_world : FullWorld := (UpsertFeatureRuntimeState DefaultTenant "trivy" trivy_state unsigned_world).2.

(** * Lemmas *)

Lemma scanner_disk_closed : closed scanner_disk.
Proof. by apply closed_checked; vm_compute. Qed.
Lemma scanner_world_wf : reg_wf scanner_world.
Proof.
  exact (proj1 (UpsertFeatureRuntimeState_ok DefaultTenant "trivy" trivy_state unsigned_world (proj1 (policed_good push_requests)))).
Qed.

(** * The theorems *)

(** The two scanners and their managers. *)
Inductive Scanner := Trivy | Gitleaks.
Section Managers.
Context {W : Type} `{UnicodeTables, Archives, HostEnv, ScannerOutput, ReceiptText, !BlobStore W, !PolicyStore W}.
Notation S := (W * Host)%type.
Variable storageRoot : string.

Definition scanner_runtime (scanner : Scanner) : Runtime := match scanner with Trivy => trivy_runtime | Gitleaks => gitleaks_runtime end.
Definition scanner_Probe (scanner : Scanner) : ScanSettings → M Host FeatureRuntime :=
  match scanner with Trivy => trivy_Probe | Gitleaks => gitleaks_Probe end.
Definition scanner_manager (scanner : Scanner) : FeatureRuntimeManager S :=
  manager (scanner_runtime scanner) storageRoot (scanner_Probe scanner).
End Managers.

(** The order the findings of a scan are shown in. *)
Definition finding_le `{ScannerOutput} (a b : ScanRunFinding) : Prop := compareFindings a b ≤ 0.

(** * Lemmas *)

(** ** The order of findings *)

Record ordering {A} (c : A → A → Z) : Prop := {
  ord_sym x y : Z.sgn (c y x) = - Z.sgn (c x y);
  ord_trans x y z : c x y ≤ 0 → c y z ≤ 0 → c x z ≤ 0 ∧ (c x z = 0 → c x y = 0);
}.
Definition lex {A} (c d : A → A → Z) (x y : A) : Z := if c x y =? 0 then d x y else c x y.
Lemma ordering_lex {A} (c d : A → A → Z) : ordering c → ordering d → ordering (lex c d).
Proof.
  intros [Hc Ht] [Hd Hu]; split; unfold lex.
  - intros x y; specialize (Hc x y); specialize (Hd x y).
    destruct (Z.eqb_spec (c x y) 0), (Z.eqb_spec (c y x) 0); lia.
  - intros x y z; pose proof (Hc x y); pose proof (Hc y z); pose proof (Hc x z).
    pose proof (Ht x y z); pose proof (Ht y z x); pose proof (Ht z x y); pose proof (Hu x y z).
    destruct (Z.eqb_spec (c x y) 0), (Z.eqb_spec (c y z) 0), (Z.eqb_spec (c x z) 0); lia.
Qed.
Lemma ordering_key {A} (f : A → Z) : ordering (λ x y, f y - f x).
Proof. split; intros; lia. Qed.
Lemma ordering_ext {A} (c d : A → A → Z) : (∀ x y, c x y = d x y) → ordering c → ordering d.
Proof. intros He [Hs Ht]; split; intros *; rewrite <- !He; auto. Qed.
Lemma string_compare_refl s : String.compare s s = Eq.
Proof. pose proof (String.compare_antisym s s) as Ha; by destruct (String.compare s s). Qed.
Lemma ordering_strings {A} (f : A → string) : ordering (λ x y, strings_Compare (f x) (f y)).
Proof.
  unfold strings_Compare; split.
  - intros x y; rewrite (String.compare_antisym (f y) (f x)); by destruct (String.compare (f x) (f y)).
  - intros x y z; destruct (String.compare (f x) (f y)) eqn:H1, (String.compare (f y) (f z)) eqn:H2; try lia.
    + apply String.compare_eq_iff in H1, H2; rewrite H1, H2, string_compare_refl; lia.
    + apply String.compare_eq_iff in H1; rewrite H1, H2; lia.
    + apply String.compare_eq_iff in H2; rewrite <- H2, H1; lia.
    + rewrite (str_compare_lt_trans _ _ _ H1 H2); lia.
Qed.

Section Sorting.
Context `{ScannerOutput}.

Lemma compareFindings_ordering : ordering compareFindings.
Proof.
  eapply ordering_ext; [|apply ordering_lex; [apply (ordering_key (λ f, severityRank (fd_Severity f)))|apply ordering_lex;
    [apply (ordering_key (λ f, Z.b2z (fd_Fixable f)))|apply ordering_lex;
      [apply (ordering_strings fd_VulnerabilityID)|apply (ordering_strings fd_PackageName)]]]].
  intros x y; unfold lex, compareFindings; cbn beta.
  destruct (Z.eqb_spec (severityRank (fd_Severity x)) (severityRank (fd_Severity y))) as [->|Hn]; cbn [negb].
  - rewrite Z.sub_diag; cbn [Z.eqb]; destruct (fd_Fixable x), (fd_Fixable y); cbn; try done;
      by destruct (strings_Compare _ _ =? 0).
  - by replace (severityRank (fd_Severity y) - severityRank (fd_Severity x) =? 0) with false by (symmetry; apply Z.eqb_neq; lia).
Qed.
#[local] Instance finding_le_trans : Transitive finding_le.
Proof. intros x y z Hxy Hyz; by apply (ord_trans _ compareFindings_ordering x y z). Qed.
Lemma finding_le_total x y : ¬ finding_le x y → finding_le y x.
Proof. unfold finding_le; pose proof (ord_sym _ compareFindings_ordering x y); lia. Qed.

Lemma insert_permutation x l : insert_finding x l ≡ₚ x :: l.
Proof. induction l as [|y l IH]; simpl; [done|]; destruct (_ <? 0); [|done]; rewrite IH; by constructor. Qed.
Lemma sort_permutation l : sort_findings l ≡ₚ l.
Proof. induction l as [|x l IH]; simpl; [done|]; rewrite insert_permutation; by constructor. Qed.
Lemma insert_sorted x l : StronglySorted finding_le l → StronglySorted finding_le (insert_finding x l).
Proof.
  induction 1 as [|y l Hl IH Hy]; simpl; [by repeat constructor|]; destruct (compareFindings y x <? 0) eqn:Hc.
  - apply Z.ltb_lt in Hc; constructor; [done|]; rewrite insert_permutation; constructor; [unfold finding_le; lia|done].
  - apply Z.ltb_ge in Hc; assert (finding_le x y) as Hxy.
    { unfold finding_le; pose proof (ord_sym _ compareFindings_ordering x y); lia. }
    constructor; [by constructor|]; constructor; [done|]; eapply Forall_impl; [exact Hy|]; intros z Hz; by etransitivity.
Qed.
Lemma sort_sorted l : StronglySorted finding_le (sort_findings l).
Proof. induction l; simpl; [constructor|by apply insert_sorted]. Qed.

Lemma count_permutation severity l l' : l ≡ₚ l' → count_severity severity l = count_severity severity l'.
Proof.
  unfold count_severity; intros Hp; f_equal; induction Hp; simpl; repeat case_match; simpl; lia.
Qed.
End Sorting.

(** ** What was run *)

Section Runs.
Context `{UnicodeTables, HostEnv, ScannerOutput}.

Lemma exec_ran binary args h out h' : host_exec binary args h = (Ok out, h') → ho_ran h' = (ho_ran h ++ [(binary, args)])%list.
Proof.
  unfold host_exec; destruct (henv_fault _); [done|]; destruct (match at_path h binary with Ok _ => _ | Err _ => _ end); [|done].
  destruct (henv_run _ _ _ _) as [o report]; intros [= _ <-]; simpl; by rewrite write_report_ran.
Qed.
Lemma readable_ran label s h r h' : requireReadableFile label s h = (r, h') → ho_ran h' = ho_ran h.
Proof.
  intros He; destruct (launches_readable (λ _, False) label s h) as (l & Hl & Hf); rewrite He in Hl; simpl in Hl.
  destruct l; [by rewrite Hl, app_nil_r|]; by inversion Hf.
Qed.
Lemma fetch_ran settings h info h' : fetchVersionInfo settings h = (Ok info, h') →
  managedBinaryPath "trivy" (ss_BinaryPath settings) = Ok (vi_BinaryPath info)
  ∧ ho_ran h' = (ho_ran h ++ [(vi_BinaryPath info, ["version"; "--format"; "json"])])%list.
Proof.
  intros Hr; split; [by eapply fetch_binary|]; revert Hr; unfold fetchVersionInfo, sbind, slift.
  destruct (managedBinaryPath _ _) as [b|e]; [|done]; destruct (host_exec _ _ _) as [[out|e] h1] eqn:He; [|done].
  destruct (decode_version out); [|done]; destruct (String.eqb _ ""); [done|]; intros [= <- <-]; by apply exec_ran in He.
Qed.
End Runs.

(** * Theorems *)

Section Theorems.
Context {W : Type} `{UnicodeTables, Archives, HostEnv, !HostLaws, ScannerOutput, ReceiptText, !PolicyStore W, RegistryLaws W}.
Notation S := (W * Host)%type.
Notation digests_ok blobs := (Forall (λ b, valid_digest (desc_Digest b) = true) blobs).

(** C26: A vulnerability scan that succeeds ran the managed scanner on the image and
    counts what it lists: the findings are those of the report the scanner printed,
    each once, the worst first, and the four counts are the numbers of findings of
    each severity. *)
Theorem scans_count_what_they_list imageRef settings h r h' :
  trivy_Run imageRef settings h = (Ok r, h') →
  (∃ binary output payload, managedBinaryPath "trivy" (ss_BinaryPath settings) = Ok binary
     ∧ ho_ran h' = (ho_ran h ++ [(binary, ["version"; "--format"; "json"]); (binary, image_args imageRef settings)])%list
     ∧ decode_image output = inl payload ∧ sc_Findings r ≡ₚ findings_in payload)
  ∧ StronglySorted finding_le (sc_Findings r)
  ∧ sc_Critical r = count_severity "CRITICAL" (sc_Findings r) ∧ sc_High r = count_severity "HIGH" (sc_Findings r)
  ∧ sc_Medium r = count_severity "MEDIUM" (sc_Findings r) ∧ sc_Low r = count_severity "LOW" (sc_Findings r).
Proof.
  unfold trivy_Run, sbind; destruct (requireReadableFile _ _ h) as [[|] h1] eqn:Hx1; [|done].
  destruct (requireReadableFile _ _ h1) as [[|] h2] eqn:Hx2; [|done].
  destruct (fetchVersionInfo _ h2) as [[info|] h3] eqn:Hx3; [|done].
  destruct (host_exec _ _ h3) as [[output|] h4] eqn:Hx4; [|done].
  destruct (decode_image output) as [payload|e] eqn:Hd; [|done]; intros [= <- <-]; cbn.
  apply readable_ran in Hx1, Hx2; apply fetch_ran in Hx3 as [Hb Hx3]; apply exec_ran in Hx4.
  split; [exists (vi_BinaryPath info), output, payload; split_and!; [done| |done|apply sort_permutation]|].
  - by rewrite Hx4, Hx3, Hx2, Hx1, <- app_assoc.
  - split; [apply sort_sorted|]; by split_and!; apply count_permutation; symmetry; apply sort_permutation.
Qed.

(** C28: A secret scan leaves nothing behind: the blobs it stages and the report of
    the scanner go with the directory of the run, whatever fails on the way, and
    what remains is its empty work root; only if the clean-up itself fails does
    anything remain, and then below the work root. *)
Theorem secret_scans_clean_up target settings s (root := to_path (workRoot settings)) :
  clear s.2 root → closed (ho_files s.2) → digests_ok (st_Blobs target) →
  cleaned root s.2 (gitleaks_Run target settings s).2.2.
Proof.
  destruct s as [w h]; simpl; intros Hc Hcl Hd; unfold gitleaks_Run; unfold sbind at 1; unfold slift at 1.
  destruct (managedBinaryPath _ _) as [b|e]; [|split; [done|by left]].
  unfold sbind at 1; unfold on_host at 1; simpl; pose proof (readable_same "config file" (ss_ConfigPath settings) h) as [Hl Hf].
  destruct (requireReadableFile _ _ h) as [[u|e] h1]; simpl in *; [|split; [done|by left]].
  assert (∀ h', cleaned root h1 h' → cleaned root h h') as Hsame by (intros h' [? Hx]; rewrite Hf in Hx; split; [congruence|done]).
  pose proof (stage_outcome (workRoot settings) (st_Blobs target) w h1 ltac:(by apply Join_nonempty) ltac:(by rewrite Hf)
    ltac:(by eapply clear_links) Hd) as Hst.
  unfold sbind at 1; destruct (stageManifestBlobs _ _ _) as [[staged|e] [w2 h2]]; simpl in *; [|by apply Hsame].
  destruct Hst as (p & Hw & Hp & Hr & Hsc).
  pose proof (confined_scan b (ss_ConfigPath settings) staged Hr Hsc) as Hcf; rewrite Hp in Hcf.
  pose proof (working_confined id _ _ _ _ h2 Hcf Hw) as Hw'; unfold sbind, sattempt, on_host; simpl in *.
  destruct (scan_staged _ _ _ h2) as [r h3]; simpl in *.
  pose proof (working_cleaned _ _ _ _ (sj_RunDir staged) Hp Hw') as Hcn.
  destruct (host_RemoveAll _ h3) as [r' h4]; simpl in *; by apply Hsame.
Qed.

(** C29: What a secret scan reads is what the registry stores: every blob of the
    image is counted as staged or reported as skipped, once, and when the image has
    at most one configuration every staged blob is there, a byte-for-byte copy of
    the stored one. *)
Theorem staging_copies_the_registry root blobs (w : W) h staged w' h' :
  root ≠ "" → closed (ho_files h) → clear h (to_path root) → digests_ok blobs → reg_wf w →
  stageManifestBlobs root blobs (w, h) = (Ok staged, (w', h')) →
  (map bl_Descriptor (sj_Staged staged) ++ sj_Skipped staged)%list ≡ₚ blobs
  ∧ (one_config blobs → ∀ b, b ∈ sj_Staged staged → ∃ f t, rg_blobs (reg_view w) !! desc_Digest (bl_Descriptor b) = Some f
      ∧ ho_files h' !! to_path (bl_Path b) = Some (File (bf_Content f) t)).
Proof.
  intros Hr Hcl Hc Hd Hw He; destruct (stage_parts _ _ _ _ _ _ _ Hr Hcl Hc He) as (x & h2 & Hx & Hwk & Hrun & Hscan & Hst).
  set (scanDir := filepath_Join (filepath_Join root x) "scan") in *.
  assert (filepath_Join root x ≠ "") as Hne by (apply Join_nonempty; by destruct Hx).
  assert (to_path scanDir = to_path root ++ [x; "scan"]) as Hp.
  { unfold scanDir; by rewrite !to_path_Join, <- app_assoc by (try done; by apply segment_literal). }
  assert (scanDir ≠ "") as Hs by (by apply Join_nonempty).
  destruct (stage_copies _ _ _ _ _ _ Hst) as [Hc1 Hc2]; simpl in Hc1, Hc2; rewrite Hc1, Hc2; split.
  - rewrite map_map; simpl; rewrite <- (places_blobs 0 blobs) at 3; by rewrite <- list_fmap_compose.
  - intros Ho b (e & -> & Hel)%list_elem_of_fmap.
    set (start := mkStaging _ _ [] []) in Hst.
    destruct (stage_contents scanDir blobs 0 start w h2 staged w' h' Hs eq_refl Hd (places_distinct 0 blobs Ho)) as (_ & _ & Hcopy);
      [|done..|].
    { rewrite Hp; eapply clear_links; [apply (wk_links _ _ _ _ Hwk)|]; eapply clear_below; [done|by eexists]. }
    destruct (Hcopy e Hel) as (f & t & Hf & Hfile); exists f, t; split; [done|].
    pose proof (places_names 0 blobs Hd) as Hn; rewrite Forall_forall in Hn; destruct (Hn e Hel) as (Hdir & Hname & _).
    assert (segment_ok e.1.1.1) as Hok by (destruct Hdir as [->| ->]; by apply segment_literal).
    simpl; rewrite !to_path_Join, <- app_assoc by (try done; apply Join_nonempty; by destruct Hok); exact Hfile.
Qed.

(** C30: In an image with at most one configuration, a finding of a secret scan
    names the blob it is in: whatever gitleaks found
    in the copy of a blob, in the copy itself or in a member of that archive, is
    attributed to the digest of that blob and to its path inside. *)
Theorem findings_name_their_blob root blobs (w : W) h staged s' b entry tail inner :
  root ≠ "" → closed (ho_files h) → clear h (to_path root) → digests_ok blobs → one_config blobs →
  stageManifestBlobs root blobs (w, h) = (Ok staged, s') → b ∈ sj_Staged staged →
  trim_space (re_File entry) = String.append (bl_Path b) tail → inside tail inner →
  attributeFinding entry (sj_Staged staged) (sj_ScanDir staged)
  = mkSecretFinding (re_RuleID entry) (re_Description entry) (desc_Digest (bl_Descriptor b)) (trim_prefix ":" inner)
      (re_StartLine entry) (re_EndLine entry) (re_Tags entry).
Proof.
  destruct s' as [w' h']; intros Hr Hcl Hc Hd Ho He Hb Hfile Hin.
  destruct (stage_parts _ _ _ _ _ _ _ Hr Hcl Hc He) as (x & h2 & Hx & _ & Hrun & Hscan & Hst).
  assert (filepath_Join root x ≠ "") as Hne by (apply Join_nonempty; by destruct Hx).
  destruct (stage_copies _ _ _ _ _ _ Hst) as [Hc1 _]; simpl in Hc1; rewrite Hc1 in Hb |- *; rewrite Hscan.
  apply list_elem_of_fmap in Hb as (e & -> & Hel); by apply (attribution root x blobs e entry tail inner).
Qed.
End Theorems.

(** * Witnesses *)

Definition example_scan : ScanResult :=
  Eval vm_compute in match (trivy_Run "team/app:v1" trivy_settings scanner_host).1 with Ok r => r | Err _ => critical_result end.
Lemma scans_count_what_they_list_witness :
  StronglySorted finding_le (sc_Findings example_scan) ∧ (sc_Critical example_scan, sc_Low example_scan) = (1, 1).
Proof.
  assert ((trivy_Run "team/app:v1" trivy_settings scanner_host).1 = Ok example_scan) as Hr%outcome_pair by (vm_compute; reflexivity).
  exact (conj (proj1 (proj2 (scans_count_what_they_list "team/app:v1" trivy_settings scanner_host example_scan _ Hr))) eq_refl).
Defined.

Definition gitleaks_host : Host := mkHost scanner_disk ∅ [] 0.
Lemma gitleaks_host_clear p : clear gitleaks_host p.
Proof. intros q _; apply lookup_empty. Qed.
Lemma image_blobs_ok : Forall (λ b, valid_digest (desc_Digest b) = true) image_blobs.
Proof. repeat constructor. Qed.
Definition secret_scan := gitleaks_Run secret_target gitleaks_settings (scanner_world, gitleaks_host).
Definition found_secrets : list (string * string) :=
  match secret_scan.1 with Ok r => map (λ f, (sf_BlobDigest f, sf_Path f)) (sx_Findings r) | Err _ => [] end.
Lemma secret_scans_clean_up_witness :
  found_secrets = [(layer_digest, "app/.env")]
  ∧ cleaned ["srv"; "features"; "gitleaks"; "gitleaks-cache"; "work"] gitleaks_host secret_scan.2.2.
Proof.
  split; [vm_compute; reflexivity|].
  exact (secret_scans_clean_up secret_target gitleaks_settings (scanner_world, gitleaks_host) (gitleaks_host_clear _)
           scanner_disk_closed image_blobs_ok).
Defined.

Definition stage_root : string := "/srv/features/gitleaks/gitleaks-cache/work".
Definition staging := stageManifestBlobs stage_root image_blobs (scanner_world, gitleaks_host).
Definition staged_image : stagingResult :=
  Eval vm_compute in match staging.1 with Ok r => r | Err _ => mkStaging "" "" [] [] end.
Definition staged_layer : stagedBlob :=
  Eval vm_compute in match sj_Staged staged_image with b :: _ => b | [] => mkStaged "" (mkDescriptor "" "" 0) false end.
Lemma staging_ok : staging.1 = Ok staged_image.
Proof. vm_compute; reflexivity. Qed.
Lemma staging_done : staging = (Ok staged_image, (staging.2.1, staging.2.2)).
Proof. rewrite <- surjective_pairing; exact (outcome_pair _ _ staging_ok). Qed.
Lemma image_one_config : one_config image_blobs.
Proof. unfold one_config; vm_compute; lia. Qed.
Lemma staged_layer_in : staged_layer ∈ sj_Staged staged_image.
Proof. by left. Qed.
Lemma staging_copies_the_registry_witness :
  ∃ f t, rg_blobs (reg_view scanner_world) !! layer_digest = Some f
    ∧ ho_files staging.2.2 !! to_path (bl_Path staged_layer) = Some (File (bf_Content f) t).
Proof.
  exact (proj2 (staging_copies_the_registry stage_root image_blobs scanner_world gitleaks_host staged_image staging.2.1 staging.2.2
                  ltac:(done) scanner_disk_closed (gitleaks_host_clear _) image_blobs_ok scanner_world_wf staging_done)
           image_one_config staged_layer staged_layer_in).
Defined.
Definition nested_entry : reportEntry :=
  mkEntry "aws-key" "AWS key" (String.append (bl_Path staged_layer) "!app/.env") 3 3 [].
Lemma findings_name_their_blob_witness :
  sf_BlobDigest (attributeFinding nested_entry (sj_Staged staged_image) (sj_ScanDir staged_image)) = layer_digest.
Proof.
  rewrite (findings_name_their_blob stage_root image_blobs scanner_world gitleaks_host staged_image staging.2 staged_layer nested_entry
             "!app/.env" "app/.env" ltac:(done) scanner_disk_closed (gitleaks_host_clear _) image_blobs_ok image_one_config
             (outcome_pair _ _ staging_ok) staged_layer_in ltac:(vm_compute; reflexivity) ltac:(by right)).
  vm_compute; reflexivity.
Defined.

(** A second configuration takes the place of the first: both count as staged, and
    one of them is not there to be scanned. *)
Definition two_configs : list Descriptor :=
  [mkDescriptor "application/vnd.oci.image.config.v1+json" layer_digest 11;
   mkDescriptor "application/vnd.oci.image.config.v1+json" signed_payload_digest 71].
Lemma second_config_hides_the_first :
  match stageManifestBlobs stage_root two_configs (signed_world, gitleaks_host) with
  | (Ok r, (_, h)) => (length (sj_Staged r), length (sj_Skipped r),
                       length (filter (λ e : list string * node, last e.1 = Some "config.json") (map_to_list (ho_files h))))
  | (Err _, _) => (0%nat, 0%nat, 0%nat)
  end = (2%nat, 0%nat, 1%nat).
Proof. vm_compute; reflexivity. Qed.
