(* ===== verification/RuntimeSafety.v ===== *)
(** What holds of the runtime managers: what is active is what was verified, a failed
    activation or rollback leaves the active version as it was, and gitleaks is
    recent enough to look into archives. *)
From S2P Require Import Prelude GoStrings Encodings Errors GoNumbers PgExample RegPorts RegWorld Registry.
From S2P Require Import RegSteps RegExample PolicyPorts PolicyStore PolicyLaws FullLaws Overrides Scans.
From S2P Require Import PullExample Release Host Runtimes Scanners ScannerLaws ScannerSafety.

(** * Definitions *)

(** Versions of gitleaks in their order. *)
Definition parts_le (a b : Z * Z * Z) : Prop :=
  a.1.1 < b.1.1 ∨ a.1.1 = b.1.1 ∧ (a.1.2 < b.1.2 ∨ a.1.2 = b.1.2 ∧ a.2 ≤ b.2).

Definition supported `{UnicodeTables} (scanner : Scanner) (version : string) : Prop :=
  match scanner with
  | Trivy => True
  | Gitleaks => ∃ parts, gitleaks_parseVersion version = Ok parts ∧ parts_le (8, 27, 0) parts
  end.

(** * Lemmas *)

Lemma compare_parts_spec a b : compare_parts a b < 0 ↔ ¬ parts_le b a.
Proof.
  unfold compare_parts, parts_le; destruct (Z.eqb_spec a.1.1 b.1.1), (Z.eqb_spec a.1.2 b.1.2), (Z.eqb_spec a.2 b.2); cbn [negb];
    repeat match goal with |- context [?x <? ?y] => destruct (Z.ltb_spec x y) end; lia.
Qed.
Lemma minimum_supported `{UnicodeTables} scanner version :
  ru_minimum (scanner_runtime scanner) version = Ok tt ↔ supported scanner version.
Proof.
  destruct scanner; cbn [scanner_runtime trivy_runtime gitleaks_runtime ru_minimum supported]; [done|].
  unfold requireMinimumVersion, gitleaks_compareVersions.
  assert (gitleaks_parseVersion minimumGitleaksVersion = Ok (8, 27, 0)) as -> by reflexivity.
  destruct (gitleaks_parseVersion version) as [parts|e]; cbn [rbind]; [|split; [done|by intros (? & ? & _)]].
  destruct (Z.ltb_spec (compare_parts parts (8, 27, 0)) 0) as [Hc|Hc].
  - split; [done|]; intros (p & [= <-] & Hle); by apply compare_parts_spec in Hc.
  - split; [intros _; exists parts; split; [done|]|done]; unfold parts_le in *.
    assert (¬ ¬ parts_le (8, 27, 0) parts) as Hn by (intros Hn; apply compare_parts_spec in Hn; lia); unfold parts_le in Hn; lia.
Qed.

Lemma bind_host {W A B} (m : M Host A) (k : A → M (W * Host) B) w h :
  sbind (on_host m) k (w, h) = match m h with (Ok a, h') => k a (w, h') | (Err e, h') => (Err e, (w, h')) end.
Proof. unfold sbind, on_host; simpl; by destruct (m h) as [[]]. Qed.
Lemma bind_server {W A B} (m : M W A) (k : A → M (W * Host) B) w h :
  sbind (on_server m) k (w, h) = match m w with (Ok a, w') => k a (w', h) | (Err e, w') => (Err e, (w', h)) end.
Proof. unfold sbind, on_server; simpl; by destruct (m w) as [[]]. Qed.
Lemma bind_try_host {W A B} (m : M Host A) (k : res A → M (W * Host) B) w h :
  sbind (on_host (sattempt m)) k (w, h) = let '(r, h') := m h in k r (w, h').
Proof. unfold sbind, on_host, sattempt; simpl; by destruct (m h). Qed.
Lemma bind_try_server {W A B} (m : M W A) (k : res A → M (W * Host) B) w h :
  sbind (sattempt (on_server m)) k (w, h) = let '(r, w') := m w in k r (w', h).
Proof. unfold sbind, on_server, sattempt; simpl; by destruct (m w). Qed.

Section Probes.
Context `{UnicodeTables, HostEnv, ScannerOutput}.
Lemma keeps_probe scanner settings : keeps disk (scanner_Probe scanner settings).
Proof. destruct scanner; cbn [scanner_Probe]; unfold trivy_Probe, fetchVersionInfo, gitleaks_Probe; keep. Qed.
End Probes.

Section Switching.
Context `{UnicodeTables, HostEnv}.
Variables (ru : Runtime) (storageRoot : string) (probe : ScanSettings → M Host FeatureRuntime).
Hypothesis Hroot : rooted ru storageRoot.
Hypothesis Hprobe : ∀ settings, keeps disk (probe settings).
Notation active := (active_link ru storageRoot).

Lemma same_links h h' : ho_links h' = ho_links h → tidy ru storageRoot h → tidy ru storageRoot h'.
Proof. intros Hl Ht q; rewrite Hl; apply Ht. Qed.

(** After a switch that succeeds the new version is active; after one that fails on a
    host whose calls work, the version that was. *)
Lemma switch_outcome asset binaryPath version h : segment_ok (trim_space (as_Version asset)) → tidy ru storageRoot h →
  let '(r, h') := switch_to ru storageRoot probe asset binaryPath version h in
  match r with
  | Ok _ => same_but ru storageRoot h h' ∧ ho_links h' !! active = Some (version_home ru storageRoot (as_Version asset))
  | Err _ => segment_ok (trim_space version) → (∀ n, henv_fault n = None) →
             ho_links h !! active = Some (version_home ru storageRoot version) →
             ho_links h' !! active = Some (version_home ru storageRoot version)
  end.
Proof.
  intros Hv Ht; unfold switch_to; unfold sbind at 1.
  pose proof (link_outcome ru storageRoot Hroot (as_Version asset) h Hv Ht) as Hl.
  destruct (activateVersionLink _ _ _ h) as [[u|e] h1]; destruct Hl as [Hs Hl]; [|by intros _ _ Ha; rewrite Hl].
  destruct Hl as [Ha Hready]; unfold sbind at 1, sattempt at 1.
  pose proof (Hprobe (probe_settings ru storageRoot binaryPath) h1) as Hk; destruct (probe _ h1) as [[runtime|e] h2]; simpl in Hk.
  - unfold sret; injection Hk as Hf Hk; split; [intros q Hq Hq'; rewrite Hf, Hk; by apply Hs|by rewrite Hk].
  - destruct (String.eqb_spec (trim_space version) "") as [He|_]; [by intros Hv'; destruct Hv'|].
    assert (tidy ru storageRoot h2) as Ht2.
    { injection Hk as _ Hk2; eapply same_links; [exact Hk2|]; by eapply tidy_same. }
    pose proof (link_outcome ru storageRoot Hroot version h2) as Hl3.
    pose proof (link_succeeds ru storageRoot Hroot version h2) as Hok; unfold sbind, sattempt, sthrow.
    destruct (activateVersionLink _ _ _ h2) as [r3 h3]; intros Hv' Hcalm _.
    specialize (Hok Hcalm Hv' Ht2 (ready_same _ _ _ _ Hk Hready)); destruct (Hl3 Hv' Ht2) as [_ Hl].
    destruct r3; [by destruct Hl|done].
Qed.
End Switching.

Section Stored.
Context {W : Type} `{PolicyLaws W}.
Lemma current_wf ru w : reg_wf w → reg_wf (GetFeatureRuntimeState DefaultTenant (ru_feature ru) w).2.
Proof. intros Hw; by destruct (GetFeatureRuntimeState_ok DefaultTenant (ru_feature ru) w Hw). Qed.
Lemma save_wf ru state w : reg_wf w → reg_wf (UpsertFeatureRuntimeState DefaultTenant (ru_feature ru) state w).2.
Proof. intros Hw; by destruct (UpsertFeatureRuntimeState_ok DefaultTenant (ru_feature ru) state w Hw). Qed.
Lemma save_stored ru state w u w' : reg_wf w → UpsertFeatureRuntimeState DefaultTenant (ru_feature ru) state w = (Ok u, w') →
  ∃ now, q_runtime DefaultTenant (ru_feature ru) (pol_view w') = Some (dated_runtime now state).
Proof.
  intros Hw He; destruct (UpsertFeatureRuntimeState_ok DefaultTenant (ru_feature ru) state w Hw) as (_ & _ & _ & [Hs|[[_ [e Hx]] _]]);
    rewrite He in *; [|done]; destruct Hs as (_ & now & Hv); exists now; simpl in Hv; rewrite Hv.
  unfold q_runtime, x_runtime; simpl; by rewrite lookup_insert_eq.
Qed.
(** A write that fails changes nothing, and in a calm world none fails. *)
Lemma save_outcome ru state w : reg_wf w →
  let '(r, w') := UpsertFeatureRuntimeState DefaultTenant (ru_feature ru) state w in
  reg_wf w' ∧ (reg_calm w → reg_calm w' ∧ is_ok r = true) ∧ (is_ok r = false → pol_view w' = pol_view w).
Proof.
  intros Hw; destruct (UpsertFeatureRuntimeState_ok DefaultTenant (ru_feature ru) state w Hw) as (Hw' & Hl & _ & Hs).
  destruct (UpsertFeatureRuntimeState _ _ state w) as [r w']; simpl in *; split_and!; [done| |].
  - intros Hc; split; [by eapply reg_calm_later|]; destruct Hs as [[-> _]|[_ Hn]]; [done|by destruct Hn].
  - intros Hr; destruct Hs as [[-> _]|[[Hv _] _]]; [done|exact Hv].
Qed.
Lemma current_outcome ru w : reg_wf w →
  let w' := (GetFeatureRuntimeState DefaultTenant (ru_feature ru) w).2 in
  reg_wf w' ∧ (reg_calm w → reg_calm w') ∧ pol_view w' = pol_view w.
Proof.
  intros Hw; destruct (GetFeatureRuntimeState_ok DefaultTenant (ru_feature ru) w Hw) as (Hw' & Hl & _ & Hv & _).
  split_and!; [done|intros Hc; by eapply reg_calm_later|done].
Qed.
End Stored.

Section Resolved.
Context `{UnicodeTables, Archives, HostEnv}.
Lemma resolved_minimum ru version h asset h' : ResolveRelease ru version h = (Ok asset, h') → ru_minimum ru (as_Version asset) = Ok tt.
Proof.
  unfold ResolveRelease, sbind, slift, sret; destruct (wrap _ _ h) as [[a|] h1]; [|done].
  destruct (ru_minimum ru (as_Version a)) as [[]|] eqn:Hm; [|done]; by intros [= <- _].
Qed.
(** The version of a release is its tag. *)
Lemma take_assets_version (f g : string → bool) l a : as_Version (foldl (take_asset f g) a l) = as_Version a.
Proof.
  revert a; induction l as [|c l IH]; intros a; [done|]; cbn [foldl]; rewrite IH; unfold take_asset.
  destruct (String.eqb (trim_space c.2) ""); [done|]; by destruct (f _), (g _).
Qed.
Lemma resolved_version ru version h asset h' : ResolveRelease ru version h = (Ok asset, h') →
  ∃ body tag assets, henv_release body = inl (tag, assets) ∧ as_Version asset = trim_prefix "v" (trim_space tag).
Proof.
  unfold ResolveRelease, sbind at 1, wrap at 1, sattempt, sbind at 1; destruct (ResolveAsset _ _ _ _ h) as [[a|e] h1] eqn:He; [|done].
  unfold slift, sbind, sret; destruct (ru_minimum ru (as_Version a)); [|done]; intros [= <- _]; revert He.
  unfold ResolveAsset, wrap, sattempt, sbind, slift, sret; cbv zeta; destruct (web_NewRequest _); [|done].
  cbn beta; destruct (web_Get _ h) as [[resp|e] h2]; [|done]; cbn; destruct (negb _); [done|]; destruct (henv_release resp.2) as [[tag assets]|e] eqn:Hd; [|done].
  destruct (String.eqb (trim_space tag) ""); [done|]; set (found := foldl _ _ _).
  destruct (_ || _); [done|]; intros [= <- _]; exists resp.2, tag, assets; split; [done|]; unfold found; by rewrite take_assets_version.
Qed.
End Resolved.

(** * Theorems *)

Section Theorems.
Context {W : Type} `{UnicodeTables, Archives, HostEnv, ScannerOutput, ReceiptText, PolicyLaws W}.
Variables (storageRoot : string) (scanner : Scanner).
Notation ru := (scanner_runtime scanner).
Notation probe := (scanner_Probe scanner).
Hypothesis Habs : filepath_IsAbs (trim_space storageRoot) = true.
(** The versions of the releases are names, not paths. *)
Definition plain_releases : Prop := ∀ version h asset h',
  ResolveRelease ru version h = (Ok asset, h') → segment_ok (trim_space (as_Version asset)).

Lemma scanner_rooted : rooted ru storageRoot.
Proof. split; [done|]; destruct scanner; by apply segment_literal. Qed.

(** The steps of an activation, from the state that is stored. *)
Lemma activate_from_runs old version (w : W) h state s' :
  tidy ru storageRoot h → plain_releases → reg_wf w → activate_from ru storageRoot probe old version (w, h) = (Ok state, s') →
  ∃ asset h1 archive checksums binary p t,
    ResolveRelease ru version h = (Ok asset, h1) ∧ supported scanner (as_Version asset)
    ∧ sent (as_ArchiveURL asset) archive ∧ sent (as_ChecksumsURL asset) checksums
    ∧ VerifyChecksum archive (as_ArchiveName asset) checksums = Ok tt ∧ ExtractBinary archive (ru_feature ru) = Ok binary
    ∧ fr_Status state = FeatureRuntimeStatusReady
    ∧ at_path s'.2 (fr_ActiveBinaryPath state) = Ok p ∧ ho_files s'.2 !! p = Some (File binary t)
    ∧ ∃ now, q_runtime DefaultTenant (ru_feature ru) (pol_view s'.1) = Some (dated_runtime now state).
Proof.
  intros Ht Hplain Hw; pose proof scanner_rooted as Hroot; unfold activate_from, save_state; rewrite bind_host.
  pose proof (keeps_resolve ru version h) as Hk1; destruct (ResolveRelease ru version h) as [[asset|] h1] eqn:Hres; [|done].
  pose proof (Hplain _ _ _ _ Hres) as Hv; pose proof (proj1 (minimum_supported _ _) (resolved_minimum _ _ _ _ _ Hres)) as Hmin; rewrite bind_host.
  pose proof (keeps_links_layout ru storageRoot h1) as Hl2; destruct (ensureLayout _ _ h1) as [[u|] h2]; [|done].
  rewrite bind_host; simpl; rewrite bind_server.
  set (installing := installing_state _ _); pose proof (save_wf ru installing w Hw) as Hw1.
  destruct (UpsertFeatureRuntimeState _ _ installing w) as [[u1|] w1]; [|done]; rewrite bind_host; simpl in *.
  pose proof (keeps_links_place ru storageRoot asset (fr_ActiveVersion old) (host_tick h2)) as Hl3.
  destruct (place_release _ _ _ _ _) as [[binaryPath|] h3] eqn:Hplace; [|done]; rewrite bind_host.
  apply (place_outcome ru storageRoot Hroot) in Hplace as (archive & checksums & binary & Hsent & Hsums & Hver & Hex & _ & Hfile).
  assert (tidy ru storageRoot h2) as Ht2 by (eapply (same_links _ _ h); [injection Hk1 as _ Hl1; simpl in *; congruence|done]).
  destruct (Hfile Hv Ht2) as [t Hbin]; assert (tidy ru storageRoot h3) as Ht3 by (by eapply same_links).
  pose proof (switch_outcome ru storageRoot probe Hroot (keeps_probe scanner) asset binaryPath (fr_ActiveVersion old) h3 Hv Ht3) as Hsw.
  destruct (switch_to _ _ _ _ _ _ h3) as [[runtime|] h4]; [|done]; destruct Hsw as [Hs Ha].
  rewrite bind_host; simpl; rewrite bind_server; set (ready := ready_at _ _ _ _ _ _ _ _).
  destruct (UpsertFeatureRuntimeState _ _ ready w1) as [[u2|] w2] eqn:Hsave; [|done]; intros [= <- <-].
  apply save_stored in Hsave; [|done]; simpl in *.
  assert (tidy ru storageRoot h4) as Ht4 by (by eapply tidy_same).
  assert (unlinked h4 (version_home ru storageRoot (as_Version asset) ++ [ru_feature ru])) as Hun
    by (unfold version_home; rewrite <- app_assoc; by apply (place_path ru storageRoot)).
  exists asset, h1, archive, checksums, binary, (version_home ru storageRoot (as_Version asset) ++ [ru_feature ru]), t.
  split_and!; [done..| | |done].
  - unfold at_path, activeBinaryPath; destruct (active_path ru storageRoot Hroot) as [Hne Hp].
    destruct (Join_path _ (ru_feature ru) _ Hne Hp) as [_ ->]; [apply Hroot|].
    rewrite (follow_through h4 _ (version_home ru storageRoot (as_Version asset))); [done|..|exact Hun]; [unfold active_link; by destruct (home ru storageRoot)|done|].
    intros q Hq Hne'; apply Ht4; [|done|]; [eapply (prefix_comparable _ _ (active_link ru storageRoot)); [by eexists|done]|].
    intros ->; apply prefix_length in Hq as Hlen; destruct Hq as [k Hk]; unfold active_link, next_link in Hk.
    rewrite <- app_assoc in Hk; by apply app_inv_head in Hk.
  - destruct (Hs (version_home ru storageRoot (as_Version asset) ++ [ru_feature ru])) as [-> _]; [..|done];
      unfold version_home, active_link, next_link; rewrite <- app_assoc; by intros Hq%app_inv_head.
Qed.

Lemma activate_from_fails old version (w : W) h e s' :
  tidy ru storageRoot h → plain_releases → reg_wf w → reg_calm w → (∀ n, henv_fault n = None) →
  segment_ok (trim_space (fr_ActiveVersion old)) →
  ho_links h !! active_link ru storageRoot = Some (version_home ru storageRoot (fr_ActiveVersion old)) →
  activate_from ru storageRoot probe old version (w, h) = (Err e, s') →
  ho_links s'.2 !! active_link ru storageRoot = Some (version_home ru storageRoot (fr_ActiveVersion old))
  ∧ (pol_view s'.1 = pol_view w
     ∨ ∃ now stored, q_runtime DefaultTenant (ru_feature ru) (pol_view s'.1) = Some (dated_runtime stored (installing_state old now))).
Proof.
  intros Ht Hplain Hw Hc Hcalm Hold Ha; pose proof scanner_rooted as Hroot; unfold activate_from, save_state; rewrite bind_host.
  pose proof (keeps_resolve ru version h) as Hk1; destruct (ResolveRelease ru version h) as [[asset|] h1] eqn:Hres.
  2: { intros [= _ <-]; injection Hk1 as _ Hl; simpl in *; split; [congruence|by left]. }
  pose proof (Hplain _ _ _ _ Hres) as Hv; rewrite bind_host; injection Hk1 as _ Hl1; simpl in Hl1.
  pose proof (keeps_links_layout ru storageRoot h1) as Hl2; destruct (ensureLayout _ _ h1) as [[u|] h2]; simpl in Hl2.
  2: { intros [= _ <-]; simpl; split; [congruence|by left]. }
  rewrite bind_host; simpl; rewrite bind_server.
  set (installing := installing_state _ _); pose proof (save_outcome ru installing w Hw) as Hs1.
  destruct (UpsertFeatureRuntimeState _ _ installing w) as [[u1|] w1] eqn:Hsave; destruct Hs1 as (Hw1 & Hc1 & Hv1).
  2: { by destruct (Hc1 Hc). }
  destruct (Hc1 Hc) as [Hc1' _]; apply save_stored in Hsave as [stored Hsave]; [|done]; rewrite bind_host.
  pose proof (keeps_links_place ru storageRoot asset (fr_ActiveVersion old) (host_tick h2)) as Hl3.
  destruct (place_release _ _ _ _ _) as [[binaryPath|] h3]; simpl in *.
  2: { intros [= _ <-]; simpl; split; [congruence|right; by eexists _, _]. }
  rewrite bind_host; assert (tidy ru storageRoot h3) as Ht3 by (eapply (same_links _ _ h); [congruence|done]).
  pose proof (switch_outcome ru storageRoot probe Hroot (keeps_probe scanner) asset binaryPath (fr_ActiveVersion old) h3 Hv Ht3) as Hsw.
  destruct (switch_to _ _ _ _ _ _ h3) as [[runtime|] h4].
  2: { intros [= _ <-]; simpl; split; [apply Hsw; [done..|congruence]|right; by eexists _, _]. }
  rewrite bind_host; simpl; rewrite bind_server; set (ready := ready_at _ _ _ _ _ _ _ _).
  pose proof (save_outcome ru ready w1 Hw1) as Hs2; destruct (UpsertFeatureRuntimeState _ _ ready w1) as [[u2|] w2]; [done|].
  destruct Hs2 as (_ & Hc2 & _); by destruct (Hc2 Hc1').
Qed.



(** A rollback makes the previous version active, and the version it replaces
    the one to return to; a rollback that fails, on a host whose calls work, leaves
    the active version and the stored state as they were. *)
Theorem rollback_swaps_or_changes_nothing (w : W) h old r s' :
  tidy ru storageRoot h → reg_wf w → reg_calm w → (∀ n, henv_fault n = None) →
  (GetFeatureRuntimeState DefaultTenant (ru_feature ru) w).1 = Ok old →
  segment_ok (trim_space (fr_ActiveVersion old)) → segment_ok (trim_space (fr_PreviousVersion old)) →
  ho_links h !! active_link ru storageRoot = Some (version_home ru storageRoot (fr_ActiveVersion old)) →
  Rollback ru storageRoot probe (w, h) = (r, s') →
  match r with
  | Ok state => ho_links s'.2 !! active_link ru storageRoot = Some (version_home ru storageRoot (fr_PreviousVersion old))
                ∧ fr_PreviousVersion state = fr_ActiveVersion old ∧ fr_Status state = FeatureRuntimeStatusReady
                ∧ ∃ now, q_runtime DefaultTenant (ru_feature ru) (pol_view s'.1) = Some (dated_runtime now state)
  | Err _ => ho_links s'.2 !! active_link ru storageRoot = ho_links h !! active_link ru storageRoot ∧ pol_view s'.1 = pol_view w
  end.
Proof.
  intros Ht Hw Hc Hcalm Hold Hv Hp Ha; pose proof scanner_rooted as Hroot; unfold Rollback, currentState, save_state, probeActiveBinary.
  rewrite bind_server; destruct (current_outcome ru w Hw) as (Hw1 & Hc1 & Hv1); specialize (Hc1 Hc).
  destruct (GetFeatureRuntimeState _ _ w) as [r0 w1]; simpl in *; subst r0.
  destruct (String.eqb_spec (trim_space (fr_PreviousVersion old)) "") as [He|_]; [by destruct Hp|]; rewrite bind_host.
  pose proof (link_outcome ru storageRoot Hroot (fr_PreviousVersion old) h Hp Ht) as Hl1.
  destruct (activateVersionLink _ _ _ h) as [[u|e] h1]; destruct Hl1 as [Hs1 Hl1]; [|intros [= <- <-]; done].
  destruct Hl1 as [Ha1 Hready]; pose proof (tidy_same _ _ _ _ Ht Hs1) as Ht1; rewrite bind_try_host.
  pose proof (keeps_probe scanner (probe_settings ru storageRoot (activeBinaryPath ru storageRoot)) h1) as Hk.
  destruct (probe _ h1) as [[runtime|e] h2]; simpl in Hk.
  - rewrite !bind_host; simpl; rewrite !bind_host; simpl; rewrite bind_host; simpl; rewrite bind_server.
    set (ready := ready_at _ _ _ _ _ _ _ _); pose proof (save_outcome ru ready w1 Hw1) as Hs2.
    destruct (UpsertFeatureRuntimeState _ _ ready w1) as [[u2|] w2] eqn:Hsave; destruct Hs2 as (_ & Hc2 & _);
      [|by destruct (Hc2 Hc1)]; intros [= <- <-]; apply save_stored in Hsave; [|done]; injection Hk as _ Hk.
    simpl; split_and!; [congruence|done..].
  - rewrite bind_try_host; pose proof (ready_same _ _ _ _ Hk Hready) as Hr2.
    assert (tidy ru storageRoot h2) as Ht2 by (injection Hk as _ Hk2; by eapply (same_links _ _ h1)).
    pose proof (link_succeeds ru storageRoot Hroot (fr_ActiveVersion old) h2 Hcalm Hv Ht2 Hr2) as Hok.
    pose proof (link_outcome ru storageRoot Hroot (fr_ActiveVersion old) h2 Hv Ht2) as Hl3.
    destruct (activateVersionLink _ _ _ h2) as [[u'|e'] h3]; [|done]; destruct Hl3 as [_ [Hl3 _]]; intros [= <- <-]; simpl.
    split; [by rewrite Ha, Hl3|done].
Qed.
End Theorems.

(** * Witnesses *)

Lemma scanner_host_tidy : tidy trivy_runtime "/srv" scanner_host.
Proof.
  intros q _ Hq _; apply lookup_singleton_ne; intros <-; apply Hq; vm_compute; reflexivity.
Qed.
Lemma example_plain_releases : plain_releases Trivy.
Proof.
  intros version h asset h' Hr; apply resolved_version in Hr as (body & tag & assets & Hd & ->); simpl in Hd.
  destruct (String.eqb body "newer"); injection Hd as <- _; by apply segment_literal.
Qed.
Lemma scanner_world_calm : reg_calm scanner_world.
Proof. apply policed_calm. Qed.

Notation upgrade version := (activate (scanner_runtime Trivy) "/srv" (scanner_Probe Trivy) version true (scanner_world, scanner_host)).
Definition upgraded : FeatureRuntimeState := Eval vm_compute in match (upgrade "").1 with Ok state => state | Err _ => no_state end.
Lemma upgraded_ok : (upgrade "").1 = Ok upgraded.
Proof. vm_compute; reflexivity. Qed.

Lemma trivy_state_current :
  (GetFeatureRuntimeState DefaultTenant (ru_feature (scanner_runtime Trivy)) scanner_world).1 = Ok trivy_state.
Proof. vm_compute; reflexivity. Qed.
Lemma trivy_link_current :
  ho_links scanner_host !! active_link (scanner_runtime Trivy) "/srv"
  = Some (version_home (scanner_runtime Trivy) "/srv" (fr_ActiveVersion trivy_state)).
Proof. vm_compute; reflexivity. Qed.
Lemma upgrade_fails : (upgrade "0.59.0").1 = Err (OtherError "exit status 1").
Proof. vm_compute; reflexivity. Qed.
(** After it the stored state is neither ready nor degraded: scans are refused. *)
Lemma failed_upgrade_is_installing :
  fr_Status <$> q_runtime DefaultTenant "trivy" (pol_view (upgrade "0.59.0").2.1) = Some FeatureRuntimeStatusInstalling.
Proof. vm_compute; reflexivity. Qed.

Notation rolled_back := (Rollback (scanner_runtime Trivy) "/srv" (scanner_Probe Trivy) (scanner_world, scanner_host)).
Definition rollback_state : FeatureRuntimeState := Eval vm_compute in match rolled_back.1 with Ok state => state | Err _ => no_state end.
Lemma rolled_back_ok : rolled_back.1 = Ok rollback_state.
Proof. vm_compute; reflexivity. Qed.
Lemma rollback_swaps_or_changes_nothing_witness :
  ho_links rolled_back.2.2 !! active_link (scanner_runtime Trivy) "/srv" = Some ["srv"; "features"; "trivy"; "bin"; "versions"; "0.56.0"]
  ∧ fr_PreviousVersion rollback_state = "0.57.0".
Proof.
  pose proof (rollback_swaps_or_changes_nothing "/srv" Trivy eq_refl scanner_world scanner_host trivy_state (Ok rollback_state)
    rolled_back.2 scanner_host_tidy scanner_world_wf scanner_world_calm (λ n, eq_refl) trivy_state_current
    (segment_literal "0.57.0" eq_refl) (segment_literal "0.56.0" eq_refl) trivy_link_current (outcome_pair _ _ rolled_back_ok)) as Hr.
  exact (conj (proj1 Hr) (proj1 (proj2 Hr))).
Defined.

(** Below a storage root that is not absolute, the default, the link that is made
    dangles: the health check of the installation runs the new binary by its own
    path, the next one does not find it. *)
Definition relative_install := activate trivy_runtime "./data" trivy_Probe "" false (scanner_world, scanner_host).
Lemma relative_root_dangles :
  (match relative_install.1 with Ok s => fr_Status s | Err _ => "" end,
   match (Status trivy_runtime "./data" trivy_Probe relative_install.2).1 with Ok s => (fr_Status s, fr_LastError s) | Err _ => ("", "") end)
  = (FeatureRuntimeStatusReady, (FeatureRuntimeStatusDegraded, "no such file or directory")).
Proof. vm_compute; reflexivity. Qed.
