(* ===== verification/RuntimeScans.v ===== *)
(** What the registry runs: from the runtime a manager stores, over the settings a
    handler resolves and queues, to the process a worker starts. The registry is a
    transition system here whose steps are those of its handlers, its workers and its
    runtime managers, in any order. *)
From S2P Require Import Prelude GoStrings Encodings Errors Repository Digest GoNumbers Manifest Scope Auth Access.
From S2P Require Import RegPorts Registry RegService RegWorld Signing RegSteps RegExample PolicyPorts PolicyStore.
From S2P Require Import PolicyLaws FullLaws PullGate Overrides Scans GateLaws PullExample OverrideSafety ScanSafety.
From S2P Require Import Console ConsoleQueries Release Host Runtimes Scanners ScannerLaws ScannerSafety RuntimeSafety.

(** * Definitions *)

(** A worker that waits to run, with the settings it was queued with. *)
Inductive Waiting :=
  | WaitingScan (settings : ScanSettings)
  | WaitingSecrets (target : SecretScanTarget) (settings : ScanSettings).
(** What the console and the API ask of a runtime manager. *)
Inductive ManagerRequest :=
  | MqInstall (version : string)
  | MqUpgrade (version : string)
  | MqRollback
  | MqStatus
  | MqLatestVersion.

Section Running.
Context {W : Type} `{ManifestCodec, KeyCrypto, Regexps, OverrideCodec, NetAddresses, PolicyLaws W, !ConsoleStore W}.
Context `{Archives, HostEnv, ScannerOutput, ReceiptText}.
Variables (svc : RegConfig) (scanHost storageRoot : string).
Notation S := (W * Host)%type.

Definition manage (scanner : Scanner) (rq : ManagerRequest) (s : S) : S :=
  let m := scanner_manager storageRoot scanner in
  match rq with
  | MqInstall version => (rm_Install m version s).2
  | MqUpgrade version => (rm_Upgrade m version s).2
  | MqRollback => (rm_Rollback m s).2
  | MqStatus => (rm_Status m s).2
  | MqLatestVersion => (rm_LatestVersion m s).2
  end.

(** A step of the registry: a scan is queued by hand, by a push or by the schedule, a
    secret scan beside it; a worker runs what was queued, as often as it likes; a
    runtime manager does what it is asked; and whatever else the server does between,
    it stores no runtime of its own. *)
Inductive running_step : S * list Waiting → S * list Waiting → Prop :=
  | step_manual n reference run r settings w w' h queue :
      QueueManualScan svc scanHost n reference w = (Ok (run, Some (r, settings)), w') →
      running_step ((w, h), queue) ((w', h), WaitingScan settings :: queue)
  | step_push t n reference d r settings w w' h queue :
      queuePushScan t n reference d w = (Ok (Some (r, settings)), w') →
      running_step ((w, h), queue) ((w', h), WaitingScan settings :: queue)
  | step_schedule workers w w' h queue :
      RunScheduledScans svc scanHost w = (Ok workers, w') →
      running_step ((w, h), queue) ((w', h), (map (λ x, WaitingScan x.2) workers ++ queue)%list)
  | step_leg leg target settings w w' h queue :
      prepare_secret_leg leg w = (Ok (Some (target, settings)), w') →
      running_step ((w, h), queue) ((w', h), WaitingSecrets target settings :: queue)
  | step_scan target settings s queue :
      WaitingScan settings ∈ queue → running_step (s, queue) ((scan_Run target settings s).2, queue)
  | step_secrets target settings s queue :
      WaitingSecrets target settings ∈ queue → running_step (s, queue) ((secret_Run target settings s).2, queue)
  | step_manage scanner rq s queue : running_step (s, queue) (manage scanner rq s, queue)
  | step_serve w w' h queue :
      reg_wf w' → pd_runtimes (pol_view w') = pd_runtimes (pol_view w) → running_step ((w, h), queue) ((w', h), queue).

(** A binary of the layout below the storage root: the active one of a scanner, or
    that of one of its versions. *)
Definition own_binary (scanner : Scanner) (binary : string) : Prop :=
  let ru := scanner_runtime scanner in
  binary = activeBinaryPath ru storageRoot ∧ to_path binary = active_link ru storageRoot ++ [ru_feature ru]
  ∨ ∃ version, segment_ok (trim_space version) ∧ binary = filepath_Join (versionDir ru storageRoot version) (ru_feature ru)
      ∧ to_path binary = version_home ru storageRoot version ++ [ru_feature ru].

(** The binary that the settings of a scan may name: none, or the active one. *)
Definition own_settings (scanner : Scanner) (settings : ScanSettings) : Prop :=
  ss_BinaryPath settings = "" ∨ ss_BinaryPath settings = activeBinaryPath (scanner_runtime scanner) storageRoot.
Definition own_waiting (x : Waiting) : Prop :=
  match x with WaitingScan settings => own_settings Trivy settings | WaitingSecrets _ settings => own_settings Gitleaks settings end.
Definition own_path (scanner : Scanner) (state : FeatureRuntimeState) : Prop :=
  fr_ActiveBinaryPath state = "" ∨ fr_ActiveBinaryPath state = activeBinaryPath (scanner_runtime scanner) storageRoot.
(** The runtimes that are stored are those of managers: of this layout. *)
Definition own_runtimes (runtimes : gmap (string * string) FeatureRuntimeState) : Prop :=
  ∀ t scanner state, runtimes !! (t, ru_feature (scanner_runtime scanner)) = Some state → own_path scanner state.
End Running.

(** * Lemmas *)

(** ** The paths of the layout *)

Section Binaries.
Context `{UnicodeTables, HostEnv}.
Variables (storageRoot : string) (scanner : Scanner).
Hypothesis Habs : filepath_IsAbs (trim_space storageRoot) = true.
Notation ru := (scanner_runtime scanner).

(** A path the managers make has nothing to trim or to clean. *)
Lemma binary_trimmed a b : a ≠ "" → filepath_IsAbs a = true → segment_ok b →
  let p := filepath_Join (filepath_Join a b) (ru_feature ru) in trim_space p = p ∧ filepath_Clean p = p.
Proof.
  intros Ha Hr Hb p; assert (filepath_Join a b ≠ "") as Hne by (by apply Join_not_empty); split; [|by apply Clean_Join].
  destruct (scanner_rooted storageRoot scanner Habs) as [_ Hf]; unfold p; rewrite (Join_Join a b (ru_feature ru) Ha Hb Hf).
  destruct (Join_kept a b Ha Hb) as [Hj _]; rewrite Hr in Hj; destruct (filepath_Join a b) as [|c q]; [done|].
  apply has_prefix_spec in Hj as [q' [= -> <-]]; assert (∃ x s, srev (String "/" (ru_feature ru)) = String x s ∧ graphic x = true) as (x & s & Hs & Hx).
  { destruct scanner; by eexists _, _. }
  eapply trim_space_trimmed, trimmed_ends; [reflexivity|done|rewrite srev_append, Hs; reflexivity|done].
Qed.
Lemma managed_same b p : trim_space b = b → filepath_Clean b = b → managedBinaryPath (ru_feature ru) b = Ok p → p = b.
Proof.
  unfold managedBinaryPath; intros -> ->; destruct (String.eqb b ""); [done|]; destruct (negb _); [done|]; by intros [= <-].
Qed.
Lemma active_trimmed : let p := activeBinaryPath ru storageRoot in trim_space p = p ∧ filepath_Clean p = p.
Proof.
  pose proof (scanner_rooted storageRoot scanner Habs) as Hroot; apply binary_trimmed; [apply bin_path, Hroot| |by apply segment_literal].
  destruct (Join_kept (runtimeRoot ru storageRoot) "bin" (runtimeRoot_ne _ _ Hroot)) as [-> _]; [by apply segment_literal|].
  by apply runtimeRoot_abs.
Qed.
Lemma active_own p : managedBinaryPath (ru_feature ru) (activeBinaryPath ru storageRoot) = Ok p → own_binary storageRoot scanner p.
Proof.
  pose proof (scanner_rooted storageRoot scanner Habs) as Hroot; destruct active_trimmed as [Ht Hc].
  intros ->%managed_same; [|done..]; left; split; [done|]; destruct (active_path ru storageRoot Hroot) as [Hne Hp].
  by apply (Join_path _ _ _ Hne Hp), Hroot.
Qed.
Lemma version_own version p : segment_ok (trim_space version) →
  managedBinaryPath (ru_feature ru) (filepath_Join (versionDir ru storageRoot version) (ru_feature ru)) = Ok p →
  own_binary storageRoot scanner p.
Proof.
  pose proof (scanner_rooted storageRoot scanner Habs) as Hroot; intros Hv.
  destruct (version_path ru storageRoot Hroot version Hv) as (Hne & Ha & Hp); destruct (bin_path ru storageRoot Hroot) as [Hb Hpb].
  assert (versionsDir ru storageRoot ≠ "") as Hd by (by apply Join_nonempty).
  destruct (binary_trimmed (versionsDir ru storageRoot) (trim_space version) Hd) as [Ht Hc]; [|done|].
  { unfold versionDir in Ha; by destruct (Join_kept _ _ Hd Hv) as [<- _]. }
  intros ->%managed_same; [|done..]; right; exists version; split_and!; [done..|].
  by apply (Join_path _ _ _ Hne Hp), Hroot.
Qed.
Lemma settings_own settings p : own_settings storageRoot scanner settings →
  managedBinaryPath (ru_feature ru) (ss_BinaryPath settings) = Ok p → own_binary storageRoot scanner p.
Proof. by intros [-> | ->]; [|apply active_own]. Qed.
End Binaries.

(** ** What handlers queue *)

Section Resolving.
Context {W : Type} `{ManifestCodec, KeyCrypto, Regexps, OverrideCodec, NetAddresses, ConsoleLaws W}.
Variables (svc : RegConfig) (scanHost storageRoot : string) (runtimes : gmap (string * string) FeatureRuntimeState).
Hypothesis Hown : own_runtimes storageRoot runtimes.
Notation stored D := (pd_runtimes D = runtimes).
Notation same m := (stays (λ D, stored D) m).
Notation own := (own_settings storageRoot).

(** Whatever fails, [m] leaves the stored runtimes alone, and what it returns
    satisfies [Q]. *)
Definition yields {A} (m : M W A) (Q : A → Prop) : Prop :=
  ∀ R D, stored D → runs True R D m (λ r D', stored D' ∧ ∀ a, r = Ok a → Q a).

Lemma yield_ret {A} (a : A) (Q : A → Prop) : Q a → yields (sret a) Q.
Proof. intros Ha R D HD; apply runs_ret; split; [done|]; by intros ? [= <-]. Qed.
Lemma yield_throw {A} e (Q : A → Prop) : yields (sthrow e) Q.
Proof. intros R D HD; by apply runs_throw. Qed.
Lemma yield_bind {A B} (m : M W A) (k : A → M W B) (Q : A → Prop) (Q' : B → Prop) :
  yields m Q → (∀ a, Q a → yields (k a) Q') → yields (sbind m k) Q'.
Proof.
  intros Hm Hk R D HD; eapply runs_bind; [by apply Hm| |].
  - intros a D' [HD' Ha]; apply Hk; auto.
  - intros e D' [HD' _]; by split.
Qed.
Lemma yield_attempt {A B} (m : M W A) (k : res A → M W B) (Q : A → Prop) (Q' : B → Prop) :
  yields m Q → (∀ a, Q a → yields (k (Ok a)) Q') → (∀ e, yields (k (Err e)) Q') → yields (sbind (sattempt m) k) Q'.
Proof.
  intros Hm Ha He R D HD; eapply runs_attempt; [by apply Hm|]; intros [a|e] D' [HD' HQ]; [apply Ha; auto|by apply He].
Qed.
Lemma yield_same {A} (m : M W A) : same m → yields m (λ _, True).
Proof. intros Hm R D HD; eapply runs_conseq; [by apply Hm|]; by intros r D' ?. Qed.
Lemma yield_lift {A} (r : res A) : yields (slift r) (λ _, True).
Proof. apply yield_same, stays_lift. Qed.

(** What reads the stored runtimes. *)
Lemma runtime_own t scanner : yields (GetFeatureRuntimeState t (ru_feature (scanner_runtime scanner))) (own_path storageRoot scanner).
Proof.
  intros R D HD; eapply runs_conseq; [eapply runs_observes, GetFeatureRuntimeState_ok|].
  intros r D' [-> [->|[_ [e ->]]]]; split; [done| |done..]; unfold f_runtime, q_runtime; rewrite HD.
  destruct (runtimes !! _) eqn:Hr; [intros a [= <-]; by eapply Hown|].
  destruct (q_scan_settings _ _ _) as [s|]; [|done]; unfold deriveLegacyFeatureRuntimeState.
  destruct (_ && _); [done|]; intros a [= <-]; by left.
Qed.
Lemma with_runtime_own scanner settings state :
  filepath_IsAbs (trim_space storageRoot) = true → own_path storageRoot scanner state → own scanner (with_runtime settings state).
Proof.
  intros Habs [Hp|Hp]; unfold own_settings, with_runtime; simpl; rewrite Hp; [by left|right].
  by apply (active_trimmed storageRoot scanner Habs).
Qed.
Lemma override_own scanner t n f settings : own scanner settings → yields (applyRepositoryOverride t n f settings) (own scanner).
Proof.
  intros Hs; unfold applyRepositoryOverride, resolveRepositoryOverride.
  eapply yield_attempt; [eapply yield_same, stays_observes, GetRepositoryFeatureOverride_ok| |].
  - intros raw _; destruct (repositoryOverrideCodecs f ≫= Apply) as [apply|] eqn:Hc; [|by apply yield_ret].
    assert (∀ s, apply raw settings = Ok s → ss_BinaryPath s = ss_BinaryPath settings) as Ha.
    { revert Hc; unfold repositoryOverrideCodecs; repeat case_match; intros [= <-] s; simpl.
      - unfold applyTrivyOverride; destruct (unmarshal_trivy_override raw); [|done]; by intros [= <-].
      - unfold applyGitleaksOverride; destruct (unmarshal_gitleaks_override raw); [|done]; by intros [= <-]. }
    destruct (apply raw settings) as [s|e]; [|apply yield_throw]; apply yield_ret.
    unfold own_settings in *; by rewrite (Ha s eq_refl).
  - intros e; destruct (reg_is_code e CodeNotFound); [by apply yield_ret|apply yield_throw].
Qed.

(** The handlers that queue a scan. *)
Hypothesis Habs : filepath_IsAbs (trim_space storageRoot) = true.

Lemma resolved_own {A} (m : M W ScanSettings) scanner (k : ScanSettings → FeatureRuntimeState → M W A) Q : same m →
  (∀ settings state, own scanner (with_runtime settings state) → yields (k settings state) Q) → ∀ t,
  yields (let! settings := m in let! state := GetFeatureRuntimeState t (ru_feature (scanner_runtime scanner)) in k settings state) Q.
Proof.
  intros Hm Hk t; eapply yield_bind; [by apply yield_same|]; intros settings _; eapply yield_bind; [apply runtime_own|].
  intros state Hp; by apply Hk, with_runtime_own.
Qed.
Lemma own_manual : yields (resolveManagedScanSettings svc) (own Trivy).
Proof.
  apply (resolved_own _ Trivy); [eapply stays_observes, GetScanSettings_ok|]; intros settings state Ho.
  destruct (negb _); [apply yield_throw|by apply yield_ret].
Qed.
Lemma own_push t : yields (resolveManagedScanSettingsForTenant t) (own Trivy).
Proof.
  apply (resolved_own _ Trivy); [eapply stays_observes, GetScanSettings_ok|]; intros settings state Ho.
  destruct (negb _); [apply yield_throw|by apply yield_ret].
Qed.
Lemma own_secret t : yields (resolveManagedSecretScanSettings t) (own Gitleaks).
Proof.
  apply (resolved_own _ Gitleaks); [eapply stays_observes, GetScanSettings_ok|]; intros settings state Ho.
  destruct (negb _); [apply yield_throw|by apply yield_ret].
Qed.

Lemma same_run t run : same (UpsertScanRun t run).
Proof.
  eapply stays_writes; [apply UpsertScanRun_ok|]; intros now D HD; unfold x_run; by destruct (pd_runs D !! _).
Qed.
Lemma same_secret_run t run : same (UpsertSecretScanRun t run).
Proof. by eapply stays_writes; [apply UpsertSecretScanRun_ok|]. Qed.
Lemma same_blobs t r d : same (ListManifestBlobs t r d).
Proof.
  eapply stays_registry; [apply ListManifestBlobs_ok|intros w; apply ListManifestBlobs_frame|].
  unfold spec_list_blobs, guarded; intros R r' R' Hs; destruct (do? _ in _); [by destruct Hs as [-> _]|by destruct Hs].
Qed.
#[local] Hint Resolve same_run same_secret_run same_blobs : observe.
Lemma same_dedup t n reference d trigger timeout : same (dedupAndQueueScanRun t n reference d trigger timeout).
Proof. unfold dedupAndQueueScanRun; stays. Qed.
#[local] Hint Resolve same_dedup : observe.

(** A queued worker has the settings it was given. *)
Notation queued r := (∀ x, r = Some x → own Trivy x.2).
Lemma own_reference n reference trigger settings : own Trivy settings →
  yields (queue_reference svc scanHost n reference trigger settings) (λ r, queued r.2).
Proof.
  intros Ho; unfold queue_reference; repeat (eapply yield_bind; [apply yield_same; by stays|intros ? _]).
  case_match; apply yield_ret; simpl; case_match; by intros ? [= <-].
Qed.
Lemma own_queue_manual n reference : yields (QueueManualScan svc scanHost n reference) (λ r, queued r.2).
Proof.
  eapply yield_bind; [apply own_manual|]; intros s1 Ho; eapply yield_bind; [by apply override_own|]; intros s2 Ho2; cbn beta.
  destruct (negb _); [apply yield_throw|by apply own_reference].
Qed.
Lemma own_queue_push t n reference d : yields (queuePushScan t n reference d) (λ r, queued r).
Proof.
  eapply (yield_attempt _ _ (own Trivy)).
  - eapply yield_bind; [apply own_push|]; intros s1 Ho; by apply override_own.
  - intros settings Ho; destruct (negb _); [by apply yield_ret|]; eapply yield_attempt; [apply yield_same, same_dedup| |].
    + intros [run []] _; apply yield_ret; [done|]; by intros ? [= <-].
    + intros e; by apply yield_ret.
  - intros e; by apply yield_ret.
Qed.
Lemma own_schedule_all settings l : own Trivy settings →
  yields (schedule_all svc scanHost settings l) (λ ws, Forall (λ x, own Trivy x.2) ws).
Proof.
  intros Ho; induction l as [|r l IH]; cbn [schedule_all]; [by apply yield_ret|].
  eapply (yield_attempt _ _ (λ o, queued o)).
  - eapply yield_bind; [by apply override_own|]; intros s2 Ho2; cbn beta; destruct (negb _); [by apply yield_ret|].
    eapply yield_bind; [by apply own_reference|]; intros q Hq; by apply yield_ret.
  - intros started Hs; eapply yield_bind; [exact IH|]; intros rest Hr; apply yield_ret; apply Forall_app; split; [|done].
    destruct started as [x|]; simpl; [apply Forall_singleton; by apply Hs|by apply Forall_nil].
  - intros e; destruct (reg_is_code e CodeNotFound); [exact IH|apply yield_throw].
Qed.
Lemma own_schedule : yields (RunScheduledScans svc scanHost) (λ ws, Forall (λ x, own Trivy x.2) ws).
Proof.
  eapply yield_bind; [apply own_manual|]; intros settings Ho; cbn beta; destruct (_ || _); [by apply yield_ret|].
  eapply yield_bind; [apply yield_same; by stays|]; intros l _; by apply own_schedule_all.
Qed.
Lemma own_leg leg : yields (prepare_secret_leg leg) (λ r, ∀ x, r = Some x → own Gitleaks x.2).
Proof.
  eapply yield_bind; [apply own_secret|]; intros s1 Ho; eapply yield_bind; [by apply override_own|]; intros s2 Ho2; cbn beta.
  destruct (negb _); [by apply yield_ret|].
  do 2 (eapply yield_bind; [apply yield_lift|intros ? _]); eapply yield_bind.
  { apply yield_same; unfold supersede_secret_run; by stays. }
  intros proceed _; destruct (negb proceed); [by apply yield_ret|]; eapply yield_bind; [apply yield_same, same_blobs|].
  intros blobs _; apply yield_ret; by intros ? [= <-].
Qed.
End Resolving.

(** ** What managers store and start *)

Section Managing.
Context {W : Type} `{PolicyLaws W, Archives, HostEnv, ScannerOutput, ReceiptText}.
Variables (storageRoot : string) (scanner : Scanner).
Hypothesis Habs : filepath_IsAbs (trim_space storageRoot) = true.
Notation S := (W * Host)%type.
Notation ru := (scanner_runtime scanner).
Notation probe := (scanner_Probe scanner).
Notation good w := (reg_wf w ∧ own_runtimes storageRoot (pd_runtimes (pol_view w))).

Definition manages {A} (m : M S A) (Q : A → Prop) : Prop :=
  ∀ s, good s.1 → good (m s).2.1 ∧ ∀ a, (m s).1 = Ok a → Q a.
Lemma manages_ret {A} (a : A) (Q : A → Prop) : Q a → manages (sret a) Q.
Proof. intros Ha s Hg; split; [done|]; by intros ? [= <-]. Qed.
Lemma manages_throw {A} e (Q : A → Prop) : manages (sthrow e) Q.
Proof. by intros s Hg. Qed.
Lemma manages_bind {A B} (m : M S A) (k : A → M S B) (Q : A → Prop) (Q' : B → Prop) :
  manages m Q → (∀ a, Q a → manages (k a) Q') → manages (sbind m k) Q'.
Proof.
  intros Hm Hk s Hg; destruct (Hm s Hg) as [Hg' HQ]; unfold sbind; destruct (m s) as [[a|e] s']; simpl in *; [|by split].
  apply Hk; auto.
Qed.
Lemma manages_try {A} (m : M S A) (Q : A → Prop) : manages m Q → manages (sattempt m) (λ r, ∀ a, r = Ok a → Q a).
Proof.
  intros Hm s Hg; destruct (Hm s Hg) as [Hg' HQ]; unfold sattempt; destruct (m s) as [r s']; simpl in *; split; [done|].
  by intros ? [= <-].
Qed.
Lemma manages_host {A} (m : M Host A) : manages (on_host m) (λ _, True).
Proof. intros [w h] Hg; unfold on_host; simpl; by destruct (m h). Qed.
Lemma manages_current : manages (currentState ru) (own_path storageRoot scanner).
Proof.
  intros [w h] [Hw Ho]; unfold currentState, on_server; simpl in *.
  destruct (runtime_own storageRoot _ Ho DefaultTenant scanner _ _ eq_refl w Hw (λ _, I) eq_refl eq_refl) as (Hw' & _ & _ & Hp & HQ).
  destruct (GetFeatureRuntimeState _ _ w) as [r w']; simpl in *; by rewrite Hp.
Qed.
Lemma manages_save state : own_path storageRoot scanner state → manages (save_state ru state) (λ _, True).
Proof.
  intros Hs [w h] [Hw Ho]; unfold save_state, on_server; simpl in *.
  destruct (UpsertFeatureRuntimeState_ok DefaultTenant (ru_feature ru) state w Hw) as (Hw' & _ & _ & Hx).
  destruct (UpsertFeatureRuntimeState _ _ state w) as [r w']; simpl in *; split; [|done]; split; [done|].
  destruct Hx as [(_ & now & ->)|[[-> _] _]]; [|done]; intros t other row; unfold x_runtime; simpl.
  destruct (decide ((DefaultTenant, ru_feature ru) = (t, ru_feature (scanner_runtime other)))) as [He|Hn].
  - rewrite He, lookup_insert_eq; intros [= <-]; assert (other = scanner) as -> by (by destruct other, scanner); exact Hs.
  - rewrite lookup_insert_ne by done; apply Ho.
Qed.

Ltac manages :=
  repeat first
    [ apply manages_ret; solve [done | by left | by right]
    | apply manages_throw
    | eapply manages_bind; [first [apply manages_host | apply manages_save; solve [by left | by right]]|intros ? _; cbn beta]].

Lemma manages_activate version current : manages (activate ru storageRoot probe version current) (λ _, True).
Proof.
  assert (∀ old, manages (activate_from ru storageRoot probe old version) (λ _, True)) as Hfrom
    by (intros old; unfold activate_from; manages).
  unfold activate; eapply manages_bind; [apply manages_try, manages_current|]; intros [old|e] _; [apply Hfrom|].
  destruct current; [apply manages_throw|apply Hfrom].
Qed.
Lemma manages_rollback : manages (Rollback ru storageRoot probe) (λ _, True).
Proof.
  unfold Rollback; eapply manages_bind; [apply manages_current|]; intros old _; cbn beta zeta.
  destruct (String.eqb _ ""); [apply manages_throw|]; eapply manages_bind; [apply manages_host|]; intros _ _.
  eapply manages_bind; [apply manages_host|]; intros [runtime|e] _; manages.
Qed.
Lemma manages_status : manages (Status ru storageRoot probe) (λ _, True).
Proof.
  unfold Status; eapply manages_bind; [apply manages_current|]; intros old Ho; destruct (_ || _); [|by manages].
  do 2 (eapply manages_bind; [apply manages_host|intros ? _]); eapply manages_bind; [apply manages_save; by case_match|by manages].
Qed.
Lemma manages_latest : manages (LatestVersion ru) (λ _, True).
Proof. unfold LatestVersion; manages. Qed.

(** Runs look at the blobs of the registry and change nothing there. *)
Lemma manages_blob digest : manages (on_server (blob_OpenBlob digest)) (λ _, True).
Proof.
  intros [w h] [Hw Ho]; unfold on_server; simpl in *; destruct (open_observed digest w Hw) as (Hw' & _ & _ & Hp & _).
  destruct (blob_OpenBlob digest w) as [r w']; simpl in *; by rewrite Hp.
Qed.
Lemma manages_stage index result blobs : manages (stage_blobs index result blobs) (λ _, True).
Proof.
  revert index result; induction blobs as [|b blobs IH]; intros index result; cbn [stage_blobs]; [by apply manages_ret|].
  destruct (stagingExtension _) as [[ext c]|]; [|apply IH]; eapply manages_bind; [apply manages_host|]; intros _ _.
  eapply manages_bind; [|intros _ _; apply IH]; unfold copyBlob; eapply manages_bind; [apply manages_blob|]; intros opened _.
  apply manages_host.
Qed.
Lemma manages_secrets target settings : manages (gitleaks_Run target settings) (λ _, True).
Proof.
  assert (∀ root blobs, manages (stageManifestBlobs root blobs) (λ _, True)) as Hst.
  { intros root blobs; unfold stageManifestBlobs; do 2 (eapply manages_bind; [apply manages_host|intros ? _]).
    eapply manages_bind; [apply manages_try, manages_stage|]; intros [r|e] _; [by apply manages_ret|].
    eapply manages_bind; [apply manages_try, manages_host|intros ? _; apply manages_throw]. }
  assert (∀ A (r : res A), manages (slift r) (λ _, True)) as Hl by done.
  unfold gitleaks_Run; eapply manages_bind; [apply Hl|intros ? _]; eapply manages_bind; [apply manages_host|intros ? _].
  eapply manages_bind; [apply Hst|intros ? _]; do 2 (eapply manages_bind; [apply manages_try, manages_host|intros ? _]); apply Hl.
Qed.

Hypothesis Hplain : plain_releases scanner.

Lemma probe_launches settings :
  (∀ b, managedBinaryPath (ru_feature ru) (ss_BinaryPath settings) = Ok b → own_binary storageRoot scanner b) →
  launches id (own_binary storageRoot scanner) (probe settings).
Proof. destruct scanner; [apply launches_trivy_Probe|apply launches_gitleaks_Probe]. Qed.
Lemma manager_good rq (s : S) : good s.1 → good (manage storageRoot scanner rq s).1.
Proof.
  intros Hg; destruct rq; simpl;
    [apply (manages_activate version false)|apply (manages_activate version true)|apply manages_rollback|apply manages_status
    |apply manages_latest]; exact Hg.
Qed.
Lemma manager_starts rq (s : S) :
  ∃ started, ho_ran (manage storageRoot scanner rq s).2 = (ho_ran s.2 ++ started)%list
    ∧ Forall (λ e, own_binary storageRoot scanner e.1) started.
Proof.
  assert (launches id (own_binary storageRoot scanner) (probe (probe_settings ru storageRoot (activeBinaryPath ru storageRoot)))) as Ha
    by (apply probe_launches; intros b; by apply active_own).
  assert (∀ version h asset h', ResolveRelease ru version h = (Ok asset, h') → launches id (own_binary storageRoot scanner)
    (probe (probe_settings ru storageRoot (filepath_Join (versionDir ru storageRoot (as_Version asset)) (ru_feature ru))))) as Hv.
  { intros version h asset h' Hr; apply probe_launches; intros b; apply version_own; [done|by eapply Hplain]. }
  destruct rq; simpl; [exact (launches_activate _ _ _ _ Hv version false s)|exact (launches_activate _ _ _ _ Hv version true s)
    |exact (launches_Rollback _ _ _ _ Ha s)|exact (launches_Status _ _ _ _ Ha s)|exact (launches_Latest _ _ s)].
Qed.
End Managing.

(** ** The invariant *)

Section Invariant.
Context {W : Type} `{ManifestCodec, KeyCrypto, Regexps, OverrideCodec, NetAddresses, ConsoleLaws W}.
Context `{Archives, HostEnv, ScannerOutput, ReceiptText}.
Variables (svc : RegConfig) (scanHost storageRoot : string).
Hypothesis Habs : filepath_IsAbs (trim_space storageRoot) = true.
Hypothesis Hplain : ∀ scanner, plain_releases scanner.
Notation S := (W * Host)%type.
Notation step := (running_step svc scanHost storageRoot).

(** The runtimes are of this layout, and so is what the workers that wait may run. *)
Definition all_own (x : S * list Waiting) : Prop :=
  reg_wf x.1.1 ∧ own_runtimes storageRoot (pd_runtimes (pol_view x.1.1)) ∧ Forall (own_waiting storageRoot) x.2.
Definition started_own (h h' : Host) : Prop :=
  ∃ started, ho_ran h' = (ho_ran h ++ started)%list ∧ Forall (λ e, ∃ scanner, own_binary storageRoot scanner e.1) started.

Lemma started_refl h : started_own h h.
Proof. exists []; by rewrite app_nil_r. Qed.
Lemma started_trans h1 h2 h3 : started_own h1 h2 → started_own h2 h3 → started_own h1 h3.
Proof.
  intros (l1 & H1' & Hf1) (l2 & H2' & Hf2); exists (l1 ++ l2)%list; rewrite H2', H1', app_assoc; split; [done|by apply Forall_app].
Qed.
Lemma started_by scanner {A} (m : M S A) (s : S) : launches snd (own_binary storageRoot scanner) m → started_own s.2 (m s).2.2.
Proof. intros Hm; destruct (Hm s) as (l & Hl & Hf); exists l; split; [done|]; eapply Forall_impl; [exact Hf|]; intros e He; by exists scanner. Qed.

Lemma settings_runtimes t f settings (w : W) :
  reg_wf w → pd_runtimes (pol_view (UpsertScanSettings t f settings w).2) = pd_runtimes (pol_view w).
Proof.
  intros Hw; destruct (UpsertScanSettings_ok t f settings w Hw) as (_ & _ & _ & [(_ & _ & ->)|[[-> _] _]]); done.
Qed.
(** A handler that succeeds, and what it queues. *)
Lemma handled {A} (m : M W A) Q w a w' : own_runtimes storageRoot (pd_runtimes (pol_view w)) → reg_wf w →
  yields (pd_runtimes (pol_view w)) m Q → m w = (Ok a, w') →
  reg_wf w' ∧ own_runtimes storageRoot (pd_runtimes (pol_view w')) ∧ Q a.
Proof.
  intros Ho Hw Hm He; destruct (Hm _ _ eq_refl w Hw (λ _, I) eq_refl eq_refl) as (Hw' & _ & _ & Hp & HQ).
  rewrite He in *; simpl in *; rewrite Hp; auto.
Qed.

Lemma step_own x x' : step x x' → all_own x → all_own x' ∧ started_own x.1.2 x'.1.2.
Proof.
  intros Hs (Hw & Ho & Hq).
  destruct Hs as [n reference run r settings w w' h queue Hx|t n reference d r settings w w' h queue Hx|workers w w' h queue Hx
    |leg target settings w w' h queue Hx|target settings [w h] queue Hx|target settings [w h] queue Hx|scanner rq [w h] queue
    |w w' h queue Hw' Hx]; simpl in *.
  - destruct (handled _ _ _ _ _ Ho Hw (own_queue_manual svc scanHost storageRoot _ Ho Habs n reference) Hx) as (? & ? & HQ).
    split; [split_and!; [done..|]|apply started_refl]; constructor; [exact (HQ _ eq_refl)|done].
  - destruct (handled _ _ _ _ _ Ho Hw (own_queue_push storageRoot _ Ho Habs t n reference d) Hx) as (? & ? & HQ).
    split; [split_and!; [done..|]|apply started_refl]; constructor; [exact (HQ _ eq_refl)|done].
  - destruct (handled _ _ _ _ _ Ho Hw (own_schedule svc scanHost storageRoot _ Ho Habs) Hx) as (? & ? & HQ).
    split; [split_and!; [done..|]|apply started_refl]; apply Forall_app; split; [by apply Forall_map|done].
  - destruct (handled _ _ _ _ _ Ho Hw (own_leg storageRoot _ Ho Habs leg) Hx) as (? & ? & HQ).
    split; [split_and!; [done..|]|apply started_refl]; constructor; [exact (HQ _ eq_refl)|done].
  - rewrite Forall_forall in Hq; pose proof (Hq _ Hx) as Hown; rewrite <- Forall_forall in Hq; split.
    + destruct (manages_host storageRoot (trivy_Run target settings) (w, h) (conj Hw Ho)) as [[? ?] _]; by split_and!.
    + apply (started_by Trivy (on_host (trivy_Run target settings)) (w, h)), launches_host, launches_trivy_Run.
      intros b; by apply (settings_own storageRoot Trivy Habs).
  - rewrite Forall_forall in Hq; pose proof (Hq _ Hx) as Hown; rewrite <- Forall_forall in Hq; split.
    + destruct (manages_secrets storageRoot target settings (w, h) (conj Hw Ho)) as [[? ?] _]; by split_and!.
    + apply (started_by Gitleaks (gitleaks_Run target settings) (w, h)), launches_gitleaks_Run.
      intros b; by apply (settings_own storageRoot Gitleaks Habs).
  - split.
    + destruct (manager_good storageRoot scanner rq (w, h) (conj Hw Ho)) as [? ?]; by split_and!.
    + destruct (manager_starts storageRoot scanner Habs (Hplain scanner) rq (w, h)) as (l & Hl & Hf); exists l; split; [done|].
      eapply Forall_impl; [exact Hf|]; intros e He; by exists scanner.
  - split; [split_and!; [done| |done]; by simpl; rewrite Hx|apply started_refl].
Qed.
Lemma steps_own x x' : rtc step x x' → all_own x → all_own x' ∧ started_own x.1.2 x'.1.2.
Proof.
  induction 1 as [x|x y z Hxy _ IH]; intros Hx; [split; [done|apply started_refl]|].
  destruct (step_own x y Hxy Hx) as [Hy Hs]; destruct (IH Hy) as [Hz Hs']; split; [done|by eapply started_trans].
Qed.
End Invariant.

(** * Theorems *)

Section Theorems.
Context {W : Type} `{ManifestCodec, KeyCrypto, Regexps, OverrideCodec, NetAddresses, ConsoleLaws W}.
Context `{Archives, HostEnv, ScannerOutput, ReceiptText}.

(** C27: The registry never runs a program but the scanners of the layout below its own
    storage root, an absolute path: from a registry whose stored runtimes are of this
    layout, while only its managers store runtimes and releases have versions that are
    names, not paths, whatever
    is queued by hand, by pushes or by the schedule, whatever its managers install,
    upgrade or roll back between, in any order and whatever fails, every process it
    starts is the active binary of trivy or of gitleaks, or that of one of their
    versions. *)
Theorem only_managed_binaries_run svc scanHost storageRoot (s s' : W * Host) queue :
  filepath_IsAbs (trim_space storageRoot) = true → (∀ scanner, plain_releases scanner) →
  reg_wf s.1 → own_runtimes storageRoot (pd_runtimes (pol_view s.1)) →
  rtc (running_step svc scanHost storageRoot) (s, []) (s', queue) →
  ∃ started, ho_ran s'.2 = (ho_ran s.2 ++ started)%list
    ∧ Forall (λ e, ∃ scanner, own_binary storageRoot scanner e.1) started.
Proof.
  intros Habs Hplain Hw Ho Hs.
  apply (steps_own svc scanHost storageRoot Habs Hplain _ _ Hs); by split_and!; [..|by apply Forall_nil].
Qed.
End Theorems.

(** * Witnesses *)

(** A registry that installs trivy, turns scanning on, receives a push and scans it. *)
Definition installed_trivy := manage "/srv" Trivy (MqInstall "") (unsigned_world, scanner_host).
Definition scanning_world : FullWorld :=
  (UpsertScanSettings DefaultTenant trivyFeatureName example_settings installed_trivy.1).2.
Definition pushed_scan := queuePushScan DefaultTenant "team/app" "v1" payload_digest scanning_world.
Definition pushed_settings : ScanSettings :=
  Eval vm_compute in match pushed_scan.1 with Ok (Some x) => x.2 | _ => example_settings end.
Definition scanned := scan_Run "team/app@v1" pushed_settings (pushed_scan.2, installed_trivy.2).

Lemma no_runtimes : pd_runtimes (pol_view unsigned_world) = ∅.
Proof. vm_compute; reflexivity. Qed.
Lemma no_runtimes_own : own_runtimes "/srv" (pd_runtimes (pol_view unsigned_world)).
Proof. rewrite no_runtimes; intros t scanner state; by rewrite lookup_empty. Qed.
Lemma all_plain_releases scanner : plain_releases scanner.
Proof.
  intros version h asset h' Hr; apply resolved_version in Hr as (body & tag & assets & Hd & ->); simpl in Hd.
  destruct (String.eqb body "newer"); injection Hd as <- _; by apply segment_literal.
Qed.
Lemma unsigned_wf : reg_wf unsigned_world.
Proof. exact (proj1 (policed_good push_requests)). Qed.
Lemma installed_wf : reg_wf installed_trivy.1.
Proof. exact (proj1 (manager_good "/srv" Trivy (MqInstall "") (unsigned_world, scanner_host) (conj unsigned_wf no_runtimes_own))). Qed.
Lemma scanning_wf : reg_wf scanning_world.
Proof. exact (proj1 (UpsertScanSettings_ok DefaultTenant trivyFeatureName example_settings installed_trivy.1 installed_wf)). Qed.
Lemma scanning_runtimes : pd_runtimes (pol_view scanning_world) = pd_runtimes (pol_view installed_trivy.1).
Proof. exact (settings_runtimes DefaultTenant trivyFeatureName example_settings installed_trivy.1 installed_wf). Qed.
Lemma push_queues : ∃ run, pushed_scan.1 = Ok (Some (run, pushed_settings)).
Proof. eexists; vm_compute; reflexivity. Qed.
Lemma scanned_reached :
  rtc (running_step example_svc "" "/srv") ((unsigned_world, scanner_host), []) (scanned.2, [WaitingScan pushed_settings]).
Proof.
  eapply rtc_l; [exact (step_manage example_svc "" "/srv" Trivy (MqInstall "") (unsigned_world, scanner_host) [])|].
  change (manage "/srv" Trivy (MqInstall "") (unsigned_world, scanner_host)) with installed_trivy; rewrite (surjective_pairing installed_trivy).
  eapply rtc_l; [exact (step_serve example_svc "" "/srv" installed_trivy.1 scanning_world installed_trivy.2 [] scanning_wf scanning_runtimes)|].
  destruct push_queues as [run Hp]; eapply rtc_l;
    [eapply (step_push example_svc "" "/srv" DefaultTenant "team/app" "v1" payload_digest run); exact (outcome_pair _ _ Hp)|].
  apply rtc_once, (step_scan example_svc "" "/srv"); by left.
Qed.
Lemma only_managed_binaries_run_witness :
  map fst (ho_ran scanned.2.2) = ["/srv/features/trivy/bin/versions/0.58.0/trivy"; "/srv/features/trivy/bin/active/trivy";
                                  "/srv/features/trivy/bin/active/trivy"]
  ∧ ∃ started, ho_ran scanned.2.2 = (ho_ran scanner_host ++ started)%list
      ∧ Forall (λ e, ∃ scanner, own_binary "/srv" scanner e.1) started.
Proof.
  split; [vm_compute; reflexivity|].
  apply (only_managed_binaries_run example_svc "" "/srv" (unsigned_world, scanner_host) scanned.2 [WaitingScan pushed_settings]
    eq_refl all_plain_releases unsigned_wf no_runtimes_own scanned_reached).
Defined.
