(* ===== verification/InstallPlan.v ===== *)
(** What the installer for Linux hosts reads and writes: the configuration and the
    plan made of it, the environment file and the service unit, the receipts, and the
    plan an upgrade recovers from them (internal/infra/install/linux: bootstrap.go,
    detect.go, intent.go, provenance.go, templates.go). Text that is not ASCII is
    quoted and unquoted by [UnicodeTables] and [InstallText]; fields of the records
    that nothing reads are left out.

    The documents of an installation (internal/infra/install/linux: templates.go,
    provenance.go, intent.go): the environment file and the service unit rendered
    from a plan, the provenance recorded of it, and the plan an upgrade makes of
    both. *)
From stdpp Require Import gmap strings.
From S2P Require Import Prelude GoStrings Encodings Errors GoNumbers Overrides Scans Release Runtimes.

(** * Texts and values *)

(** [net/url] and [encoding/json] as far as the installer uses them: the parts of a
    URL it reads and changes (the rest of it is [pu_rest]) and the text of two
    documents; [strconv.Unquote] of a text that is not ASCII. *)
Record PublicURL := mkPublicURL { pu_Scheme : string; pu_Host : string; pu_Path : string; pu_RawPath : string; pu_rest : string }.

Record BootstrapConfig := mkBootstrapConfig {
  bc_Mode : string; bc_PublicURL : string; bc_RuntimeTLSMode : string; bc_TLSCertFile : string; bc_TLSKeyFile : string;
  bc_AuthPostgresDSN : string; bc_StorageRoot : string; bc_StatePath : string; bc_UnitPath : string; bc_Addr : string;
  bc_ServiceName : string; bc_BinaryPath : string; bc_TrivyEnabled : bool; bc_TrivyScheduleEnabled : bool;
  bc_TrivyInterval : Duration; bc_TrivyTimeout : Duration; bc_TrivyCacheDir : string; bc_TrivyBinaryPath : string;
  bc_TrivyMaxConcurrency : Z; bc_DeleteEnabled : bool; bc_GCDeleteEnabled : bool; bc_NoStart : bool }.
Record BootstrapPlan := mkPlan {
  bp_Mode : string; bp_Addr : string; bp_PublicURL : string; bp_RuntimeTLSMode : string; bp_TLSCertFile : string;
  bp_TLSKeyFile : string; bp_AuthPostgresDSN : string; bp_StorageRoot : string; bp_DatabasePath : string;
  bp_ContentPath : string; bp_StatePath : string; bp_EnvPath : string; bp_UnitPath : string; bp_BinaryPath : string;
  bp_ServiceName : string; bp_TrivyEnabled : bool; bp_TrivyScheduleEnabled : bool; bp_TrivyInterval : Duration;
  bp_TrivyTimeout : Duration; bp_TrivyCacheDir : string; bp_TrivyBinaryPath : string; bp_TrivyMaxConcurrency : Z;
  bp_DeleteEnabled : bool; bp_GCDeleteEnabled : bool }.
Record BootstrapReceipt := mkBootstrapReceipt { br_Mode : string; br_Paths : list string; br_ServiceName : string }.
Record LifecycleIntent := mkLifecycleIntent {
  li_Addr : string; li_PublicURL : string; li_RuntimeTLSMode : string; li_TLSCertFile : string; li_TLSKeyFile : string;
  li_AuthPostgresDSN : string; li_StorageRoot : string; li_DatabasePath : string; li_ContentPath : string;
  li_BootstrapStatePath : string; li_EnvPath : string; li_UnitPath : string; li_BinaryPath : string; li_ServiceName : string;
  li_TrivyEnabled : bool; li_TrivyScheduleEnabled : bool; li_TrivyInterval : string; li_TrivyTimeout : string;
  li_TrivyServiceURL : string; li_TrivyRegistryReachableURL : string; li_TrivyAuthToken : string;
  li_TrivyTLSCACertPath : string; li_TrivyTLSInsecureSkipVerify : bool; li_TrivyCacheDir : string; li_TrivyBinaryPath : string;
  li_TrivyMaxConcurrency : Z; li_DeleteEnabled : bool; li_GCDeleteEnabled : bool }.
Record LifecycleProvenance := mkProvenance {
  lp_Version : Z; lp_Mode : string; lp_InstalledBin : string; lp_InstalledRef : string; lp_InstalledVersion : string;
  lp_ServiceName : string; lp_StatePath : string; lp_ManagedPaths : list string; lp_Intent : LifecycleIntent }.
Record InstalledIntent := mkInstalledIntent {
  ii_Mode : string; ii_Addr : string; ii_PublicURL : string; ii_RuntimeTLSMode : string; ii_TLSCertFile : string;
  ii_TLSKeyFile : string; ii_AuthPostgresDSN : string; ii_StorageRoot : string; ii_DatabasePath : string;
  ii_ContentPath : string; ii_BootstrapStatePath : string; ii_EnvPath : string; ii_UnitPath : string; ii_BinaryPath : string;
  ii_ServiceName : string; ii_InstalledRef : string; ii_InstalledVersion : string; ii_TrivyEnabled : bool;
  ii_TrivyScheduleEnabled : bool; ii_TrivyInterval : Duration; ii_TrivyTimeout : Duration; ii_TrivyCacheDir : string;
  ii_TrivyBinaryPath : string; ii_TrivyMaxConcurrency : Z; ii_DeleteEnabled : bool; ii_GCDeleteEnabled : bool }.

Class InstallText := {
  parse_url : string → PublicURL + string;
  render_url : PublicURL → string;
  encode_receipt : BootstrapReceipt → string;
  decode_receipt : string → BootstrapReceipt + string;
  encode_provenance : LifecycleProvenance → string;
  decode_provenance : string → LifecycleProvenance + string;
  unicode_unquote : string → option string;
}.

Definition quote_mark : ascii := "'"%char.
Definition blank (s : string) : bool := String.eqb s "".

(** ** [path/filepath] *)

(** The text up to its last slash, and after it. *)
Definition split_last_slash (p : string) : string * string :=
  match reverse (split "/" p) with
  | base :: ((_ :: _) as dirs) => (String.append (join "/" (reverse dirs)) "/", base)
  | _ => ("", p)
  end.
Definition filepath_Dir (p : string) : string := filepath_Clean (split_last_slash p).1.
Definition filepath_Ext (p : string) : string :=
  match reverse (split "." (split_last_slash p).2) with ext :: (_ :: _) => String "." ext | _ => "" end.

(** ** [net.SplitHostPort] and [net.JoinHostPort] *)

Definition addr_error (addr why : string) : error :=
  OtherError (if blank addr then why else foldr String.append "" ["address "; addr; ": "; why]).
Definition SplitHostPort (hostport : string) : res (string * string) :=
  match reverse (split ":" hostport) with
  | port :: ((_ :: _) as parts) =>
      let before := join ":" (reverse parts) in
      if has_prefix "[" hostport then
        let '(inside, after, closed) := cut "]" hostport in
        if negb closed then Err (addr_error hostport "missing ']' in address")
        else if blank after then Err (addr_error hostport "missing port in address")
        else if String.eqb after (String ":" port) then
          let host := drop_str 1 inside in
          if negb (no_char "[" host) || negb (no_char "[" port) then Err (addr_error hostport "unexpected '[' in address")
          else if negb (no_char "]" port) then Err (addr_error hostport "unexpected ']' in address")
          else Ok (host, port)
        else Err (addr_error hostport (if has_prefix ":" after then "too many colons in address" else "missing port in address"))
      else if negb (no_char ":" before) then Err (addr_error hostport "too many colons in address")
      else if negb (no_char "[" hostport) then Err (addr_error hostport "unexpected '[' in address")
      else if negb (no_char "]" hostport) then Err (addr_error hostport "unexpected ']' in address")
      else Ok (before, port)
  | _ => Err (addr_error hostport "missing port in address")
  end.
Definition JoinHostPort (host port : string) : string :=
  if negb (no_char ":" host) then foldr String.append "" ["["; host; "]:"; port] else foldr String.append "" [host; ":"; port].

(** ** [strconv.Unquote] *)

Definition hex_val (a : ascii) : option Z :=
  let c := Z.of_nat (code a) in
  if is_digit a then Some (c - 48) else if in_range 97 102 a then Some (c - 87) else if in_range 65 70 a then Some (c - 55) else None.
(** [n] hexadecimal digits. *)
Fixpoint hex_number (n : nat) (acc : Z) (s : string) : option (Z * string) :=
  match n, s with
  | O, _ => Some (acc, s)
  | S n', String a s' => match hex_val a with Some d => hex_number n' (16 * acc + d) s' | None => None end
  | S _, "" => None
  end.
Definition octal_val (a : ascii) : option Z := if in_range 48 55 a then Some (Z.of_nat (code a) - 48) else None.
Definition ascii_of_Z (n : Z) : ascii := ascii_of_nat (Z.to_nat n).
(** [utf8.AppendRune], for a rune that is one. *)
Definition utf8_encode (r : Z) : string :=
  if r <? 128 then String (ascii_of_Z r) ""
  else if r <? 2048 then String (ascii_of_Z (192 + r / 64)) (String (ascii_of_Z (128 + r mod 64)) "")
  else if r <? 65536 then String (ascii_of_Z (224 + r / 4096)) (String (ascii_of_Z (128 + r / 64 mod 64))
                                                                  (String (ascii_of_Z (128 + r mod 64)) ""))
  else String (ascii_of_Z (240 + r / 262144)) (String (ascii_of_Z (128 + r / 4096 mod 64))
         (String (ascii_of_Z (128 + r / 64 mod 64)) (String (ascii_of_Z (128 + r mod 64)) ""))).
Definition valid_rune (r : Z) : bool := ((0 <=? r) && (r <? 55296)) || ((57343 <? r) && (r <=? 1114111)).
Definition rune_escape (n : nat) (s : string) : option (string * string) :=
  match hex_number n 0 s with
  | Some (r, rest) => if valid_rune r then Some (utf8_encode r, rest) else None
  | None => None
  end.
(** The character after a backslash, and what follows it. *)
Definition unescape (quote : ascii) (s : string) : option (string * string) :=
  match s with
  | "" => None
  | String c rest =>
      let one (n : nat) := Some (String (ascii_of_nat n) "", rest) in
      if Ascii.eqb c "a" then one 7%nat else if Ascii.eqb c "b" then one 8%nat else if Ascii.eqb c "f" then one 12%nat
      else if Ascii.eqb c "n" then one 10%nat else if Ascii.eqb c "r" then one 13%nat else if Ascii.eqb c "t" then one 9%nat
      else if Ascii.eqb c "v" then one 11%nat
      else if Ascii.eqb c "x" then
        match hex_number 2 0 rest with Some (v, rest') => Some (String (ascii_of_Z v) "", rest') | None => None end
      else if Ascii.eqb c "u" then rune_escape 4 rest else if Ascii.eqb c "U" then rune_escape 8 rest
      else if Ascii.eqb c backslash then one 92%nat
      else if Ascii.eqb c dquote || Ascii.eqb c quote_mark then (if Ascii.eqb c quote then Some (String c "", rest) else None)
      else match octal_val c, rest with
           | Some a, String c1 (String c2 rest') =>
               match octal_val c1, octal_val c2 with
               | Some b, Some d => let v := 64 * a + 8 * b + d in
                                   if 255 <? v then None else Some (String (ascii_of_Z v) "", rest')
               | _, _ => None
               end
           | _, _ => None
           end
  end.
(** What is before the closing quote, and what is after it. Each step reads a byte
    at least. *)
Fixpoint unquote_chars (fuel : nat) (quote : ascii) (s : string) : option (string * string) :=
  match fuel, s with
  | _, "" | O, _ => None
  | S fuel', String a rest =>
      if Ascii.eqb a quote then Some ("", rest)
      else if Ascii.eqb a newline then None
      else match (if Ascii.eqb a backslash then unescape quote rest else Some (String a "", rest)) with
           | None => None
           | Some (c, rest') =>
               if Ascii.eqb quote quote_mark
               then match rest' with
                    | String b rest'' => if Ascii.eqb b quote then Some (c, rest'') else None
                    | "" => None
                    end
               else match unquote_chars fuel' quote rest' with
                    | Some (t, after) => Some (String.append c t, after)
                    | None => None
                    end
           end
  end.
Definition drop_char (c : ascii) (s : string) : string :=
  string_of_list_ascii (List.filter (λ a, negb (Ascii.eqb a c)) (list_ascii_of_string s)).
Definition carriage_return : ascii := ascii_of_nat 13.
Definition back_quote : ascii := "`"%char.

Section Texts.
Context `{UnicodeTables, InstallText}.

Definition Unquote (s : string) : option string :=
  if negb (is_ascii s) then unicode_unquote s else
  match s with
  | "" => None
  | String q rest =>
      if Ascii.eqb q back_quote
      then match cut back_quote rest with (raw, "", true) => Some (drop_char carriage_return raw) | _ => None end
      else if Ascii.eqb q dquote || Ascii.eqb q quote_mark
      then match unquote_chars (String.length rest) q rest with Some (t, "") => Some t | _ => None end
      else None
  end.

(** ** The host (detect.go) *)

Fixpoint trim_left_char (p : ascii → bool) (s : string) : string :=
  match s with String a s' => if p a then trim_left_char p s' else s | "" => "" end.
(** [strings.Trim] of both quotes *)
Definition trim_quotes (s : string) : string :=
  let is_quote a := Ascii.eqb a dquote || Ascii.eqb a quote_mark in
  srev (trim_left_char is_quote (srev (trim_left_char is_quote s))).
Definition os_release_line (values : gmap string string) (raw : string) : gmap string string :=
  let line := trim_space raw in
  if blank line || has_prefix "#" line then values else
  let '(key, value, found) := cut "=" line in
  if found then <[trim_space key := trim_quotes (trim_space value)]> values else values.
Definition parseOSRelease (contents : string) : res (string * string) :=
  let values := foldl os_release_line ∅ (split newline contents) in
  let id := to_lower (trim_space (default "" (values !! "ID"))) in
  let versionID := trim_space (default "" (values !! "VERSION_ID")) in
  if blank id then Err (OtherError "/etc/os-release is missing ID")
  else if blank versionID then Err (OtherError (String.append "/etc/os-release is missing VERSION_ID for " id))
  else Ok (id, versionID).
Definition supportedDistribution (id versionID : string) : res string :=
  let d := to_lower (trim_space id) in
  if String.eqb d "debian" then Ok "Debian" else if String.eqb d "ubuntu" then Ok "Ubuntu"
  else if String.eqb d "linuxmint" then Ok "Linux Mint"
  else if String.eqb d "rhel" then
    let major := (cut "." versionID).1.1 in
    if String.eqb major "9" || String.eqb major "10" then Ok "RHEL"
    else Err (OtherError (render [Lit "unsupported RHEL version "; Quoted versionID; Lit ": expected 9.x or 10.x"]))
  else if String.eqb d "alpine"
  then Err (OtherError (render [Lit "unsupported Linux distribution "; Quoted "alpine"; Lit ": Alpine host bootstrap is deferred"]))
  else Err (OtherError (render [Lit "unsupported Linux distribution "; Quoted id])).

(** ** Configuration (bootstrap.go) *)

Definition supportedMode : string := "daemon-sqlite".
Definition RuntimeTLSModeLocalHTTP : string := "local-http".
Definition RuntimeTLSModeReverseProxy : string := "reverse-proxy".
Definition RuntimeTLSModeDirectTLS : string := "direct-tls".
Definition required {A} (e : string) : res A := Err (OtherError e).

Definition ValidateMode (mode : string) : res unit :=
  let trimmed := trim_space mode in
  if blank trimmed then required "mode is required"
  else if negb (String.eqb trimmed supportedMode)
  then Err (OtherError (render [Lit "unsupported mode "; Quoted trimmed; Lit ": only "; Lit supportedMode; Lit " is supported"]))
  else Ok tt.
Definition normalizeAbsoluteHTTPURL (raw : string) : res PublicURL :=
  let trimmed := trim_space raw in
  if blank trimmed then required "public URL is required" else
  match parse_url trimmed with
  | inr e => Err (OtherError (String.append "parse public URL: " e))
  | inl u =>
      if blank (pu_Scheme u) || blank (trim_space (pu_Host u)) then required "public URL must be an absolute http(s) URL"
      else if negb (String.eqb (pu_Scheme u) "http") && negb (String.eqb (pu_Scheme u) "https")
      then required "public URL must use http or https"
      else Ok (mkPublicURL (pu_Scheme u) (pu_Host u) (trim_right_char "/" (pu_Path u)) "" (pu_rest u))
  end.
Definition ResolveRuntimeTLSMode (mode publicURL tlsCertFile tlsKeyFile : string) : res (string * string * string * string) :=
  let? parsed := normalizeAbsoluteHTTPURL publicURL in
  let cert := trim_space tlsCertFile in
  let key := trim_space tlsKeyFile in
  let hasTLSCert := negb (blank cert) in
  let https := String.eqb (pu_Scheme parsed) "https" in
  if negb (Bool.eqb hasTLSCert (negb (blank key))) then required "TLS cert file and key file must both be set" else
  let mode := trim_space mode in
  let resolved := if blank mode then (if hasTLSCert then RuntimeTLSModeDirectTLS
                                      else if https then RuntimeTLSModeReverseProxy else RuntimeTLSModeLocalHTTP) else mode in
  let? _ := (if String.eqb resolved RuntimeTLSModeLocalHTTP then
               if negb (String.eqb (pu_Scheme parsed) "http") then required "local-http runtime TLS mode requires an http public URL"
               else if hasTLSCert then required "local-http runtime TLS mode cannot be combined with TLS cert/key inputs" else Ok tt
             else if String.eqb resolved RuntimeTLSModeReverseProxy then
               if negb https then required "reverse-proxy runtime TLS mode requires an https public URL"
               else if hasTLSCert then required "reverse-proxy runtime TLS mode cannot be combined with TLS cert/key inputs" else Ok tt
             else if String.eqb resolved RuntimeTLSModeDirectTLS then
               if negb https then required "direct-tls runtime TLS mode requires an https public URL"
               else if negb hasTLSCert then required "direct-tls runtime TLS mode requires TLS cert/key inputs" else Ok tt
             else Err (OtherError (render [Lit "unsupported runtime TLS mode "; Quoted resolved]))) in
  Ok (resolved, render_url parsed, cert, key).

Definition containsWhitespace (value : string) : bool :=
  negb (str_forallb (λ a, negb (Ascii.eqb a " " || Ascii.eqb a (ascii_of_nat 9) || Ascii.eqb a newline)) value).
Fixpoint check_values (checks : list (string * string)) : res unit :=
  match checks with
  | [] => Ok tt
  | (label, value) :: checks' =>
      if blank (trim_space value) then Err (OtherError (String.append label " is required"))
      else if containsWhitespace value then Err (OtherError (String.append label " must not contain whitespace"))
      else check_values checks'
  end.
Definition ValidateConfig (cfg : BootstrapConfig) : res unit :=
  let? _ := ValidateMode (bc_Mode cfg) in
  let? _ := ResolveRuntimeTLSMode (bc_RuntimeTLSMode cfg) (bc_PublicURL cfg) (bc_TLSCertFile cfg) (bc_TLSKeyFile cfg) in
  let? _ := check_values [("storage-root", bc_StorageRoot cfg); ("state-path", bc_StatePath cfg); ("unit-path", bc_UnitPath cfg);
                          ("service", bc_ServiceName cfg)] in
  if bc_TrivyTimeout cfg <? 0 then required "trivy-timeout must be zero or greater"
  else if bc_TrivyInterval cfg <? 0 then required "trivy-interval must be zero or greater"
  else if bc_TrivyMaxConcurrency cfg <? 0 then required "trivy-max-concurrency must be zero or greater"
  else Ok tt.

Definition defaultTrivyInterval (value : Duration) : Duration := if 0 <? value then value else 24 * hour.
Definition defaultTrivyTimeout (value : Duration) : Duration := if 0 <? value then value else 15 * minute.
Definition defaultTrivyMaxConcurrency (value : Z) : Z := if 0 <? value then value else 1.
Definition defaultTrivyCacheDir (value storageRoot : string) : string :=
  if negb (blank (trim_space value)) then trim_space value else filepath_Join (trim_space storageRoot) "trivy-cache".
Definition defaultTrivyBinaryPath (value : string) : string :=
  if negb (blank (trim_space value)) then trim_space value else "trivy".

Definition bootstrapReceiptFromPlan (plan : BootstrapPlan) : BootstrapReceipt :=
  mkBootstrapReceipt (bp_Mode plan) [bp_EnvPath plan; bp_UnitPath plan; bp_DatabasePath plan; bp_ContentPath plan; bp_StatePath plan]
    (bp_ServiceName plan).
(** [b.plan], once the path of the executable is known. *)
Definition plan_with (binaryPath : string) (cfg : BootstrapConfig) : res BootstrapPlan :=
  if containsWhitespace binaryPath then required "binary-path must not contain whitespace" else
  let storageRoot := trim_space (bc_StorageRoot cfg) in
  let statePath := trim_space (bc_StatePath cfg) in
  let serviceName := trim_space (bc_ServiceName cfg) in
  let? tls := ResolveRuntimeTLSMode (bc_RuntimeTLSMode cfg) (bc_PublicURL cfg) (bc_TLSCertFile cfg) (bc_TLSKeyFile cfg) in
  let '(runtimeTLSMode, publicURL, tlsCertFile, tlsKeyFile) := tls in
  let unitPath := if blank (trim_space (bc_UnitPath cfg)) then filepath_Join "/etc/systemd/system" (String.append serviceName ".service")
                  else trim_space (bc_UnitPath cfg) in
  Ok (mkPlan (trim_space (bc_Mode cfg)) (trim_space (bc_Addr cfg)) publicURL runtimeTLSMode tlsCertFile tlsKeyFile
        (trim_space (bc_AuthPostgresDSN cfg)) storageRoot (filepath_Join storageRoot "metadata.db") (filepath_Join storageRoot "content")
        statePath (filepath_Join (filepath_Dir statePath) "regixtry.env") unitPath binaryPath serviceName
        (bc_TrivyEnabled cfg) (bc_TrivyScheduleEnabled cfg) (defaultTrivyInterval (bc_TrivyInterval cfg))
        (defaultTrivyTimeout (bc_TrivyTimeout cfg)) (defaultTrivyCacheDir (trim_space (bc_TrivyCacheDir cfg)) storageRoot)
        (defaultTrivyBinaryPath (trim_space (bc_TrivyBinaryPath cfg))) (defaultTrivyMaxConcurrency (bc_TrivyMaxConcurrency cfg))
        (bc_DeleteEnabled cfg) (bc_GCDeleteEnabled cfg)).

(** ** The readiness probe and the local bind (bootstrap.go) *)

Definition readinessProbeURL (plan : BootstrapPlan) : res (string * bool) :=
  match SplitHostPort (trim_space (bp_Addr plan)) with
  | Err e => Err (OtherError (String.append "parse listen address for readiness probe: " (error_string e)))
  | Ok (host, port) =>
      let host := trim_space host in
      let host := if existsb (String.eqb host) [""; "0.0.0.0"; "::"; "[::]"] then "127.0.0.1" else host in
      let direct := String.eqb (bp_RuntimeTLSMode plan) RuntimeTLSModeDirectTLS in
      Ok (render_url (mkPublicURL (if direct then "https" else "http") (JoinHostPort host port) "/v2/" "" ""), direct)
  end.
Definition isConfiguredLocalBind (addr : string) : bool :=
  match SplitHostPort (trim_space addr) with
  | Err _ => false
  | Ok (host, _) => existsb (String.eqb (to_lower host)) ["127.0.0.1"; "localhost"; "::1"]
  end.
Definition bindPort (addr : string) : string :=
  match SplitHostPort (trim_space addr) with
  | Ok (_, port) => if blank (trim_space port) then "<port>" else port
  | Err _ => "<port>"
  end.
Definition suggestedRecoveryEndpoints (addr publicURL : string) : string * string :=
  match SplitHostPort (trim_space addr) with
  | Err _ => ("<new-addr>", "<matching-public-url>")
  | Ok (host, port) =>
      match Atoi port with
      | None => ("<new-addr>", "<matching-public-url>")
      | Some nextPort =>
          if (nextPort <=? 0) || (65535 <=? nextPort) then ("<new-addr>", "<matching-public-url>") else
          let suggested := JoinHostPort host (Itoa (nextPort + 1)) in
          match normalizeAbsoluteHTTPURL publicURL with
          | Err _ => (suggested, "<matching-public-url>")
          | Ok u => (suggested, render_url (mkPublicURL (pu_Scheme u) suggested (pu_Path u) (pu_RawPath u) (pu_rest u)))
          end
      end
  end.
Definition occupiedLocalBindError (cfg : BootstrapConfig) : error :=
  let '(addr, url) := suggestedRecoveryEndpoints (bc_Addr cfg) (bc_PublicURL cfg) in
  OtherError (join (String newline "")
    [foldr String.append "" ["configured local bind address "; trim_space (bc_Addr cfg); " is already in use"];
     "Recover with:";
     foldr String.append "" ["  sudo ss -ltnp 'sport = :"; bindPort (bc_Addr cfg); "'"];
     foldr String.append "" ["  sudo systemctl stop "; trim_space (bc_ServiceName cfg); ".service"];
     foldr String.append "" ["  regixtry bootstrap --mode "; trim_space (bc_Mode cfg); " --addr "; addr; " --public-url "; url;
       " --storage-root "; trim_space (bc_StorageRoot cfg); " --state-path "; trim_space (bc_StatePath cfg);
       " --unit-path "; trim_space (bc_UnitPath cfg); " --service "; trim_space (bc_ServiceName cfg)]]).
End Texts.

(** * Lemmas *)

(** ** White space *)

Lemma strip_rune_extends runes s t : strip_rune runes (String.append s t) = None → strip_rune runes s = None.
Proof.
  induction runes as [|r runes IH]; simpl; [done|]; destruct (has_prefix r (String.append s t)) eqn:Hp; [done|]; intros Hn.
  destruct (has_prefix r s) eqn:Hs; [|by apply IH]; apply has_prefix_spec in Hs as [u ->].
  rewrite append_assoc in Hp; by rewrite (proj2 (has_prefix_spec _ _)) in Hp by (by eexists).
Qed.
Lemma strip_rune_cuts runes s s' : strip_rune runes s = Some s' → ∃ r, s = String.append r s'.
Proof.
  induction runes as [|r runes IH]; simpl; [done|]; destruct (has_prefix r s) eqn:Hp; [|done].
  apply has_prefix_spec in Hp as [u ->]; intros [= <-]; exists r; f_equal; clear; by induction r.
Qed.
Lemma trim_left_cuts runes s : ∃ r, s = String.append r (trim_left runes s).
Proof.
  unfold trim_left; generalize (String.length s); intros fuel; revert s; induction fuel as [|fuel IH]; intros s; [by exists ""|]; simpl.
  destruct (strip_rune runes s) as [s'|] eqn:Hs; [|by exists ""]; apply strip_rune_cuts in Hs as [r ->].
  destruct (IH s') as [r' Hr]; exists (String.append r r'); by rewrite append_assoc, <- Hr.
Qed.
Lemma trim_space_idem s : trim_space (trim_space s) = trim_space s.
Proof.
  apply trim_space_trimmed; unfold trimmed, trim_space, trim_right_space; set (s1 := trim_left space_runes s).
  rewrite srev_involutive, (trim_left_stops _ _ space_runes_rev_ne).
  destruct (trim_left_cuts space_runes_rev (srev s1)) as [r Hr].
  assert (strip_rune space_runes s1 = None) as Hn by apply (trim_left_stops _ _ space_runes_ne).
  rewrite <- (srev_involutive s1), Hr, srev_append in Hn; by apply strip_rune_extends in Hn as ->.
Qed.

(** * Checks *)

Example paths : map filepath_Dir ["/etc/regixtry/regixtry.env"; "regixtry.env"; "/regixtry.env"; "etc/regixtry/"]
  = ["/etc/regixtry"; "."; "/"; "etc/regixtry"].
Proof. reflexivity. Qed.
Example extensions : map filepath_Ext ["/var/lib/metadata.db"; "/var/lib.d/content"; "a.tar.gz"; ".db"] = [".db"; ""; ".gz"; ".db"].
Proof. reflexivity. Qed.
Example addresses : map SplitHostPort ["127.0.0.1:5000"; ":5000"; "[::1]:5000"; "localhost:"]
  = [Ok ("127.0.0.1", "5000"); Ok ("", "5000"); Ok ("::1", "5000"); Ok ("localhost", "")].
Proof. reflexivity. Qed.
Example bad_addresses : map SplitHostPort ["localhost"; "::1:5000"; "[::1]"; "a[b:1"]
  = [Err (addr_error "localhost" "missing port in address"); Err (addr_error "::1:5000" "too many colons in address");
     Err (addr_error "[::1]" "missing port in address"); Err (addr_error "a[b:1" "unexpected '[' in address")].
Proof. reflexivity. Qed.

(** * The documents *)

Definition lifecycleProvenanceVersion : Z := 2.
Definition lifecycleProvenanceFileName : string := "regixtry-lifecycle-state.json".
Definition bootstrapReceiptFileName : string := "bootstrap-state.json".
Definition LifecycleProvenancePath (bootstrapStatePath : string) : string :=
  let trimmed := trim_space bootstrapStatePath in
  if blank trimmed then lifecycleProvenanceFileName else filepath_Join (filepath_Dir trimmed) lifecycleProvenanceFileName.

Section Plans.
Context `{UnicodeTables, InstallText}.

(** ** Rendering (templates.go) *)

Definition env_line (kv : string * string) : string := String.append kv.1 (String "=" (go_quote kv.2)).
Definition env_values (plan : BootstrapPlan) : list (string * string) :=
  ([("REGISTRY_ADDR", bp_Addr plan); ("REGISTRY_PUBLIC_URL", bp_PublicURL plan); ("REGISTRY_STORAGE_ROOT", bp_StorageRoot plan);
    ("REGISTRY_DATABASE_PATH", bp_DatabasePath plan); ("REGISTRY_SERVICE_NAME", bp_ServiceName plan)]
   ++ (if blank (trim_space (bp_AuthPostgresDSN plan)) then [] else [("REGISTRY_AUTH_POSTGRES_DSN", bp_AuthPostgresDSN plan)])
   ++ (if blank (trim_space (bp_TLSCertFile plan)) || blank (trim_space (bp_TLSKeyFile plan)) then []
       else [("REGISTRY_TLS_CERT_FILE", bp_TLSCertFile plan); ("REGISTRY_TLS_KEY_FILE", bp_TLSKeyFile plan)])
   ++ (if bp_DeleteEnabled plan then [("REGISTRY_DELETE_ENABLED", "true")] else [])
   ++ (if bp_GCDeleteEnabled plan then [("REGISTRY_GC_DELETE_ENABLED", "true")] else []))%list.
Definition RenderEnvFile (plan : BootstrapPlan) : string :=
  String.append (join (String newline "") (map env_line (env_values plan))) (String newline "").
Definition exec_start (plan : BootstrapPlan) : string :=
  foldr String.append "" [bp_BinaryPath plan;
    " serve -addr=${REGISTRY_ADDR} -public-url=${REGISTRY_PUBLIC_URL} -storage-root=${REGISTRY_STORAGE_ROOT} -db=${REGISTRY_DATABASE_PATH} -service=${REGISTRY_SERVICE_NAME}";
    if blank (trim_space (bp_AuthPostgresDSN plan)) then "" else " -auth-postgres-dsn=${REGISTRY_AUTH_POSTGRES_DSN}";
    if blank (trim_space (bp_TLSCertFile plan)) || blank (trim_space (bp_TLSKeyFile plan)) then ""
    else " -tls-cert-file=${REGISTRY_TLS_CERT_FILE} -tls-key-file=${REGISTRY_TLS_KEY_FILE}"].
Definition RenderSystemdUnit (plan : BootstrapPlan) : string :=
  String.append (join (String newline "")
    ["[Unit]"; "Description=Regixtry service"; "After=network-online.target"; "Wants=network-online.target"; "";
     "[Service]"; "Type=simple"; String.append "EnvironmentFile=" (bp_EnvPath plan); String.append "ExecStart=" (exec_start plan);
     "Restart=on-failure"; "RestartSec=5"; String.append "WorkingDirectory=" (bp_StorageRoot plan); "";
     "[Install]"; "WantedBy=multi-user.target"]) (String newline "").

(** ** The environment file, read back (intent.go) *)

(** [bufio.Scanner] gives up on a line of this length. *)
Definition MaxScanTokenSize : nat := 64 * 1024.
Definition parseManagedEnvValue (raw : string) : string :=
  let trimmed := trim_space raw in
  if blank trimmed then "" else match Unquote trimmed with Some unquoted => unquoted | None => trimmed end.
Definition env_line_value (line : string) : option (string * string) :=
  let line := trim_space line in
  if blank line || has_prefix "#" line then None else
  let '(key, rawValue, ok) := cut "=" line in
  if ok then Some (trim_space key, parseManagedEnvValue rawValue) else None.
Fixpoint parse_env_lines (values : gmap string string) (lines : list string) : res (gmap string string) :=
  match lines with
  | [] => Ok values
  | line :: lines' =>
      if (MaxScanTokenSize <=? String.length line)%nat
      then Err (OtherError "scan managed runtime env: bufio.Scanner: token too long")
      else parse_env_lines (match env_line_value line with Some (k, v) => <[k := v]> values | None => values end) lines'
  end.
Definition parseManagedEnvFile (body : string) : res (gmap string string) := parse_env_lines ∅ (split newline body).

(** ** Provenance (provenance.go) *)

Definition lifecycleProvenanceFromPlan (plan : BootstrapPlan) (receipt : BootstrapReceipt) : LifecycleProvenance :=
  mkProvenance lifecycleProvenanceVersion (bp_Mode plan) (bp_BinaryPath plan) "" "" (bp_ServiceName plan)
    (LifecycleProvenancePath (bp_StatePath plan)) (br_Paths receipt)
    (mkLifecycleIntent (bp_Addr plan) (bp_PublicURL plan) (bp_RuntimeTLSMode plan) (bp_TLSCertFile plan) (bp_TLSKeyFile plan)
       (bp_AuthPostgresDSN plan) (bp_StorageRoot plan) (bp_DatabasePath plan) (bp_ContentPath plan) (bp_StatePath plan)
       (bp_EnvPath plan) (bp_UnitPath plan) (bp_BinaryPath plan) (bp_ServiceName plan) false false "" "" "" "" "" "" false "" "" 0
       (bp_DeleteEnabled plan) (bp_GCDeleteEnabled plan)).
Fixpoint normalize_paths (seen : list string) (paths : list string) : list string :=
  match paths with
  | [] => []
  | p :: paths' =>
      let trimmed := trim_space p in
      if blank trimmed || existsb (String.eqb trimmed) seen then normalize_paths seen paths'
      else trimmed :: normalize_paths (trimmed :: seen) paths'
  end.
Definition normalizeCleanupPaths (paths : list string) : list string := normalize_paths [] paths.
Definition normalizeLifecycleIntent (i : LifecycleIntent) : LifecycleIntent :=
  let t := trim_space in
  mkLifecycleIntent (t (li_Addr i)) (t (li_PublicURL i)) (t (li_RuntimeTLSMode i)) (t (li_TLSCertFile i)) (t (li_TLSKeyFile i))
    (t (li_AuthPostgresDSN i)) (t (li_StorageRoot i)) (t (li_DatabasePath i)) (t (li_ContentPath i)) (t (li_BootstrapStatePath i))
    (t (li_EnvPath i)) (t (li_UnitPath i)) (t (li_BinaryPath i)) (t (li_ServiceName i)) (li_TrivyEnabled i)
    (li_TrivyScheduleEnabled i) (t (li_TrivyInterval i)) (t (li_TrivyTimeout i)) (t (li_TrivyServiceURL i))
    (t (li_TrivyRegistryReachableURL i)) (t (li_TrivyAuthToken i)) (t (li_TrivyTLSCACertPath i)) (li_TrivyTLSInsecureSkipVerify i)
    (t (li_TrivyCacheDir i)) (t (li_TrivyBinaryPath i)) (li_TrivyMaxConcurrency i) (li_DeleteEnabled i) (li_GCDeleteEnabled i).
Definition normalizeLifecycleProvenance (p : LifecycleProvenance) : res LifecycleProvenance :=
  let version := if lp_Version p =? 0 then 1 else lp_Version p in
  let n := mkProvenance version (trim_space (lp_Mode p)) (trim_space (lp_InstalledBin p)) (trim_space (lp_InstalledRef p))
             (trim_space (lp_InstalledVersion p)) (trim_space (lp_ServiceName p)) (trim_space (lp_StatePath p))
             (normalizeCleanupPaths (lp_ManagedPaths p)) (normalizeLifecycleIntent (lp_Intent p)) in
  if negb (version =? 1) && negb (version =? lifecycleProvenanceVersion)
  then Err (OtherError (String.append "unsupported lifecycle provenance version " (Itoa version)))
  else if blank (lp_Mode n) then required "lifecycle provenance is missing mode"
  else if blank (lp_ServiceName n) then required "lifecycle provenance is missing service_name"
  else if blank (lp_StatePath n) then required "lifecycle provenance is missing state_path"
  else Ok n.
Definition parse_provenance (provenancePath body : string) : res LifecycleProvenance :=
  match decode_provenance body with
  | inr e => Err (OtherError (String.append "decode lifecycle provenance: " e))
  | inl p =>
      normalizeLifecycleProvenance
        (if blank (trim_space (lp_StatePath p))
         then mkProvenance (lp_Version p) (lp_Mode p) (lp_InstalledBin p) (lp_InstalledRef p) (lp_InstalledVersion p)
                (lp_ServiceName p) (trim_space provenancePath) (lp_ManagedPaths p) (lp_Intent p)
         else p)
  end.

(** What is removed, the binary last. *)
Fixpoint append_unique (skip : string) (ordered : list string) (paths : list string) : list string :=
  match paths with
  | [] => ordered
  | p :: paths' =>
      let trimmed := trim_space p in
      if blank trimmed || String.eqb trimmed skip || existsb (String.eqb trimmed) ordered then append_unique skip ordered paths'
      else append_unique skip (ordered ++ [trimmed])%list paths'
  end.
Definition uninstallCleanupTargets (p : LifecycleProvenance) : list string :=
  let installedBin := trim_space (lp_InstalledBin p) in
  (append_unique installedBin [] (reverse (lp_ManagedPaths p) ++ [lp_StatePath p])
   ++ if blank installedBin then [] else [installedBin])%list.

(** ** The plan of an upgrade (intent.go) *)

Definition managedPathMatch (paths : list string) (match_ : string → bool) : string :=
  default "" (List.find (λ p, negb (blank p) && match_ p) (map trim_space paths)).
(** [strconv.ParseBool] *)
Definition ParseBool (s : string) : option bool :=
  if existsb (String.eqb s) ["1"; "t"; "T"; "true"; "TRUE"; "True"] then Some true
  else if existsb (String.eqb s) ["0"; "f"; "F"; "false"; "FALSE"; "False"] then Some false else None.
Definition firstNonBlankBool (primary : bool) (raw : string) : bool :=
  let trimmed := trim_space raw in
  if blank trimmed then primary else default primary (ParseBool trimmed).
Definition firstNonBlankDuration (primary raw : string) (fallback : Duration) : Duration :=
  default fallback (head (omap (λ s, if blank (trim_space s) then None else ParseDuration (trim_space s)) [primary; raw])).
Definition firstNonBlankInt (primary : Z) (raw : string) (fallback : Z) : Z :=
  if 0 <? primary then primary else
  match Atoi (trim_space raw) with Some n => if n <=? 0 then fallback else n | None => fallback end.

Definition missingIntentFields (i : InstalledIntent) : list string :=
  map fst (List.filter (λ c : string * string, blank (trim_space c.2))
    [("binary_path", ii_BinaryPath i); ("service_name", ii_ServiceName i); ("storage_root", ii_StorageRoot i);
     ("database_path", ii_DatabasePath i); ("env_path", ii_EnvPath i); ("unit_path", ii_UnitPath i);
     ("bootstrap_state_path", ii_BootstrapStatePath i); ("addr", ii_Addr i); ("public_url", ii_PublicURL i)]).
Definition MissingIntentError (fields : list string) : error :=
  OtherError (String.append "upgrade intent is missing required values: " (join ", " fields)).

Definition intentEnvPath (p : LifecycleProvenance) : string :=
  firstNonBlank [li_EnvPath (lp_Intent p);
    managedPathMatch (lp_ManagedPaths p) (λ path, String.eqb (filepath_Base path) "regixtry.env");
    filepath_Join (filepath_Dir (lp_StatePath p)) "regixtry.env"].
Definition loadInstalledIntent (p : LifecycleProvenance) (envValues : gmap string string) : res InstalledIntent :=
  let i := lp_Intent p in
  let env k := default "" (envValues !! k) in
  let named n path := String.eqb (filepath_Base path) n in
  let serviceName := firstNonBlank [lp_ServiceName p; li_ServiceName i; env "REGISTRY_SERVICE_NAME"] in
  let unitPath := firstNonBlank [li_UnitPath i; managedPathMatch (lp_ManagedPaths p) (has_suffix ".service");
                                 filepath_Join "/etc/systemd/system" (String.append serviceName ".service")] in
  let statePath := firstNonBlank [li_BootstrapStatePath i; managedPathMatch (lp_ManagedPaths p) (named bootstrapReceiptFileName);
                                  filepath_Join (filepath_Dir (lp_StatePath p)) bootstrapReceiptFileName] in
  let contentPath := firstNonBlank [li_ContentPath i; managedPathMatch (lp_ManagedPaths p) (named "content")] in
  let storageRoot := firstNonBlank [li_StorageRoot i; env "REGISTRY_STORAGE_ROOT"] in
  let databasePath := firstNonBlank [li_DatabasePath i; env "REGISTRY_DATABASE_PATH";
                                     managedPathMatch (lp_ManagedPaths p) (named "metadata.db")] in
  let storageRoot := if blank storageRoot && negb (blank databasePath) then filepath_Dir databasePath else storageRoot in
  let databasePath := if blank databasePath && negb (blank storageRoot) then filepath_Join storageRoot "metadata.db" else databasePath in
  let contentPath := if blank contentPath && negb (blank storageRoot) then filepath_Join storageRoot "content" else contentPath in
  let publicURL := firstNonBlank [li_PublicURL i; env "REGISTRY_PUBLIC_URL"] in
  let tlsCertFile := firstNonBlank [li_TLSCertFile i; env "REGISTRY_TLS_CERT_FILE"] in
  let tlsKeyFile := firstNonBlank [li_TLSKeyFile i; env "REGISTRY_TLS_KEY_FILE"] in
  let mode := firstNonBlank [li_RuntimeTLSMode i] in
  let cacheDir := firstNonBlank [li_TrivyCacheDir i; env "REGISTRY_TRIVY_CACHE_DIR"] in
  let cacheDir := if blank cacheDir && negb (blank storageRoot) then filepath_Join storageRoot "trivy-cache" else cacheDir in
  let? tls := (if blank mode && negb (blank publicURL) then ResolveRuntimeTLSMode "" publicURL tlsCertFile tlsKeyFile
               else Ok (mode, publicURL, tlsCertFile, tlsKeyFile)) in
  let '(mode, publicURL, tlsCertFile, tlsKeyFile) := tls in
  let intent := mkInstalledIntent (lp_Mode p) (firstNonBlank [li_Addr i; env "REGISTRY_ADDR"]) publicURL mode tlsCertFile tlsKeyFile
                  (firstNonBlank [li_AuthPostgresDSN i; env "REGISTRY_AUTH_POSTGRES_DSN"]) storageRoot databasePath contentPath
                  statePath (intentEnvPath p) unitPath (firstNonBlank [lp_InstalledBin p; li_BinaryPath i]) serviceName
                  (trim_space (lp_InstalledRef p)) (trim_space (lp_InstalledVersion p))
                  (firstNonBlankBool (li_TrivyEnabled i) (env "REGISTRY_TRIVY_ENABLED"))
                  (firstNonBlankBool (li_TrivyScheduleEnabled i) (env "REGISTRY_TRIVY_SCHEDULE_ENABLED"))
                  (firstNonBlankDuration (li_TrivyInterval i) (env "REGISTRY_TRIVY_INTERVAL") (24 * hour))
                  (firstNonBlankDuration (li_TrivyTimeout i) (env "REGISTRY_TRIVY_TIMEOUT") (15 * minute)) cacheDir
                  (firstNonBlank [li_TrivyBinaryPath i; env "REGISTRY_TRIVY_BINARY_PATH"; "trivy"])
                  (firstNonBlankInt (li_TrivyMaxConcurrency i) (env "REGISTRY_TRIVY_MAX_CONCURRENCY") 1)
                  (firstNonBlankBool (li_DeleteEnabled i) (env "REGISTRY_DELETE_ENABLED"))
                  (firstNonBlankBool (li_GCDeleteEnabled i) (env "REGISTRY_GC_DELETE_ENABLED")) in
  match missingIntentFields intent with [] => Ok intent | missing => Err (MissingIntentError missing) end.
Definition buildPlanFromInstalledIntent (i : InstalledIntent) : BootstrapPlan :=
  mkPlan (ii_Mode i) (ii_Addr i) (ii_PublicURL i) (ii_RuntimeTLSMode i) (ii_TLSCertFile i) (ii_TLSKeyFile i)
    (ii_AuthPostgresDSN i) (ii_StorageRoot i) (ii_DatabasePath i) (ii_ContentPath i) (ii_BootstrapStatePath i) (ii_EnvPath i)
    (ii_UnitPath i) (ii_BinaryPath i) (ii_ServiceName i) (ii_TrivyEnabled i) (ii_TrivyScheduleEnabled i) (ii_TrivyInterval i)
    (ii_TrivyTimeout i) (ii_TrivyCacheDir i) (ii_TrivyBinaryPath i) (ii_TrivyMaxConcurrency i) (ii_DeleteEnabled i)
    (ii_GCDeleteEnabled i).
End Plans.
