(* ===== verification/Install.v ===== *)
(** The installer for Linux hosts (internal/infra/install/linux: bootstrap.go,
    provenance.go, upgrade.go): setting the service up, taking it down, removing it
    and moving it to another release, on a host of files and commands. What a
    command or the service itself answers is drawn from outside, call by call, and so
    is what the database driver does to the files of a database; a permission is not part of a file, and progress is not reported. *)
From stdpp Require Import gmap strings.
From S2P Require Import Prelude GoStrings Encodings Errors GoNumbers RegPorts RegWorld PolicyPorts Overrides.
From S2P Require Import Scans Release Host Runtimes InstallPlan.

(** * Definitions *)

(** [ienv_command] is the failure of a command, [ienv_probe] the answer of the
    service, [ienv_listen] why an address cannot be bound and whether that is because
    it is taken, [ienv_elapsed] how long the [k]th look at the service comes after the
    first, [ienv_open_store] why a database cannot be opened, [ienv_store_file] what a
    call of the database driver makes of a file of the database: nothing, its removal
    or these bytes. *)
Class InstallEnv := {
  ienv_goos : string;
  ienv_goarch : string;
  ienv_tmp : string;
  ienv_releases_url : string;
  ienv_executable : nat → res string;
  ienv_command : nat → string → list string → option string;
  ienv_probe : nat → string → bool → res Z;
  ienv_listen : nat → string → option (bool * string);
  ienv_elapsed : nat → nat → Duration;
  ienv_cancelled : nat → option string;
  ienv_open_store : nat → string → option string;
  ienv_store_file : nat → string → option (option string);
}.

(** [errors.Join] *)
Definition errors_Join `{UnicodeTables} (errs : list error) : option error :=
  match errs with [] => None | _ => Some (OtherError (join (String newline "") (map error_string errs))) end.
Definition service_unit (name : string) : string := String.append name ".service".
(** [filepath.Ext] decides: a database has two companions. *)
Definition sqliteCleanupPaths (target : string) : list string :=
  let trimmed := trim_space target in
  if blank trimmed then []
  else if negb (String.eqb (filepath_Ext trimmed) ".db") then [trimmed]
  else [String.append trimmed "-wal"; String.append trimmed "-shm"; trimmed].

Definition CleanupStatusRemoved : string := "removed".
Definition CleanupStatusMissing : string := "missing".
Definition CleanupStatusSkipped : string := "skipped".
Definition CleanupStatusFailed : string := "failed".
Record CleanupItem := mkCleanupItem { ci_Path : string; ci_Status : string; ci_Detail : string }.
Record UninstallReport := mkUninstallReport {
  ur_Mode : string; ur_ServiceName : string; ur_Service : CleanupItem; ur_Items : list CleanupItem }.

(** The file as it was read, and where the binary was moved to. *)
Record managedRuntimeArtifactBackup := mkArtifact { ma_Path : string; ma_Body : string }.
Record managedRuntimeBackup := mkBackup {
  mb_Binary : managedRuntimeArtifactBackup; mb_BackupPath : string; mb_Env : managedRuntimeArtifactBackup;
  mb_Unit : managedRuntimeArtifactBackup; mb_BootstrapReceipt : managedRuntimeArtifactBackup;
  mb_Provenance : managedRuntimeArtifactBackup; mb_Plan : BootstrapPlan }.
Record UpgradePreflight := mkPreflight {
  pf_InstalledRef : string; pf_InstalledVersion : string; pf_TargetRef : string; pf_TargetVersion : string; pf_UpToDate : bool }.
Record UpgradeResult := mkUpgradeResult {
  ug_FromRef : string; ug_FromVersion : string; ug_ToVersion : string; ug_TargetRef : string; ug_ProvenancePath : string;
  ug_UpToDate : bool }.
Record UpgradeConfig := mkUpgradeConfig {
  uc_Ref : string; uc_ProvenancePath : string; uc_AssumeYes : bool; uc_Preflight : option (UpgradePreflight → res unit);
  uc_Confirm : option (UpgradePreflight → res unit) }.

Section Installer.
Context `{UnicodeTables, InstallText, HostEnv, InstallEnv}.

(** ** Calls *)

Definition runCommand (name : string) (args : list string) : M Host unit := λ h,
  let h' := mkHost (ho_files h) (ho_links h) (ho_ran h ++ [(name, args)])%list (Datatypes.S (ho_calls h)) in
  match ienv_command (ho_calls h) name args with Some e => (Err (OtherError e), h') | None => (Ok tt, h') end.
(** A call that changes nothing that is modelled. *)
Definition host_ask {A} (f : nat → res A) : M Host A := λ h, (f (ho_calls h), host_tick h).
Definition probe (url : string) (insecureTLS : bool) : M Host Z := host_ask (λ n, ienv_probe n url insecureTLS).
Definition chmod : M Host unit := host_call (λ _ h, Ok (tt, h)).
Definition close_file : M Host unit := host_call (λ _ h, Ok (tt, h)).
(** The files of a database: its write-ahead log, the index of the log, itself. *)
Definition database_files (path : string) : list string := [String.append path "-wal"; String.append path "-shm"; path].
Definition touch_file (n : nat) (s : string) (h : Host) : Host :=
  match at_path h s, ienv_store_file n s with
  | Ok p, Some None => match ho_files h !! p with Some (File _ _) => with_files (delete p (ho_files h)) h | _ => h end
  | Ok p, Some (Some bytes) => match fs_write (ho_files h) p bytes (henv_now n) with Ok fs => with_files fs h | Err _ => h end
  | _, _ => h
  end.
Definition touch_database (path : string) : M Host unit := λ h,
  (Ok tt, host_tick (foldr (touch_file (ho_calls h)) h (database_files path))).
(** Every one is run; what fails is collected. *)
Fixpoint collect (steps : list (M Host unit)) : M Host (list error) :=
  match steps with
  | [] => sret []
  | m :: steps' =>
      let! r := sattempt m in
      let! errs := collect steps' in
      sret (match r with Ok _ => errs | Err e => e :: errs end)
  end.
Definition joined (errs : list error) : M Host unit := match errors_Join errs with None => sret tt | Some e => sthrow e end.

(** ** The host (detect.go) *)

Definition systemdRuntimePath : string := "/run/systemd/system".
Definition Detect : M Host (string * string) :=
  if negb (String.eqb ienv_goos "linux")
  then sthrow (OtherError (render [Lit "unsupported operating system "; Quoted ienv_goos; Lit ": bootstrap requires Linux"])) else
  let! osRelease := wrap "read /etc/os-release: " (host_ReadFile "/etc/os-release") in
  let! ids := slift (parseOSRelease osRelease) in
  let! distribution := slift (supportedDistribution ids.1 ids.2) in
  let! found := wrap (foldr String.append "" ["stat "; systemdRuntimePath; ": "]) (host_Stat systemdRuntimePath) in
  if negb found then sthrow (OtherError (String.append "systemd runtime not detected at " systemdRuntimePath))
  else sret (distribution, ids.2).

(** ** Setting up (bootstrap.go) *)

Definition plan (cfg : BootstrapConfig) : M Host BootstrapPlan :=
  let! binaryPath := (if blank (trim_space (bc_BinaryPath cfg))
                      then wrap "locate regixtry executable: " (host_ask ienv_executable)
                      else sret (trim_space (bc_BinaryPath cfg))) in
  slift (plan_with binaryPath cfg).
Fixpoint mkdirs (dirs : list string) : M Host unit :=
  match dirs with
  | [] => sret tt
  | dir :: dirs' => do! (if blank (trim_space dir) then sret tt else host_MkdirAll dir) in mkdirs dirs'
  end.
Definition writeBootstrapReceipt (statePath : string) (receipt : BootstrapReceipt) : M Host unit :=
  wrap "write bootstrap receipt: " (host_WriteFile statePath (String.append (encode_receipt receipt) (String newline ""))).
Definition writeManagedArtifacts (p : BootstrapPlan) (receipt : BootstrapReceipt) (createDatabase : bool) : M Host unit :=
  do! mkdirs [filepath_Dir (bp_EnvPath p); filepath_Dir (bp_UnitPath p); bp_StorageRoot p; bp_ContentPath p] in
  do! wrap "write env file: " (host_WriteFile (bp_EnvPath p) (RenderEnvFile p)) in
  do! wrap "write service unit: " (host_WriteFile (bp_UnitPath p) (RenderSystemdUnit p)) in
  do! (if createDatabase then wrap "create SQLite database file: " (host_WriteFile (bp_DatabasePath p) "") else sret tt) in
  writeBootstrapReceipt (bp_StatePath p) receipt.
Definition writeSetupArtifacts (p : BootstrapPlan) (receipt : BootstrapReceipt) : M Host unit := writeManagedArtifacts p receipt true.
Definition preflightLocalBind (cfg : BootstrapConfig) : M Host unit :=
  if negb (isConfiguredLocalBind (bc_Addr cfg)) then sret tt else
  let addr := trim_space (bc_Addr cfg) in
  host_ask (λ n, match ienv_listen n addr with
                 | None => Ok tt
                 | Some (true, _) => Err (occupiedLocalBindError cfg)
                 | Some (false, e) => Err (OtherError (foldr String.append "" ["preflight local bind "; addr; ": "; e]))
                 end).

Definition probeInterval : Duration := 200 * millisecond.
Definition probeTimeout : Duration := 5 * second.
(** Looks at the service until it answers or the time is over; [start] is the call
    the waiting began with, [k] counts the looks. Whoever runs out of fuel is told
    what the deadline tells. *)
Fixpoint poll (fuel k start : nat) (url : string) (insecureTLS : bool) : M Host unit :=
  let! answer := sattempt (probe url insecureTLS) in
  let up := match answer with Ok status => (status =? 200) || (status =? 401) | Err _ => false end in
  if up then sret tt else
  let failed := match answer with
                | Err e => OtherError (String.append "regixtry readiness probe failed: " (error_string e))
                | Ok status => OtherError (foldr String.append "" ["regixtry readiness probe returned "; Itoa status; ", want 200 or 401"])
                end in
  match fuel with
  | O => sthrow failed
  | Datatypes.S fuel' =>
      if probeTimeout <? ienv_elapsed start k then sthrow failed else
      do! host_ask (λ n, match ienv_cancelled n with Some e => Err (OtherError e) | None => Ok tt end) in
      poll fuel' (Datatypes.S k) start url insecureTLS
  end.
Definition max_polls : nat := 26.
Definition waitUntilReachable (p : BootstrapPlan) : M Host unit :=
  let! target := slift (readinessProbeURL p) in
  λ h, poll max_polls 0 (ho_calls h) target.1 target.2 h.

Definition systemctl_disable (serviceName : string) : M Host unit :=
  wrap (foldr String.append "" ["systemctl disable --now "; serviceName; ".service: "])
    (runCommand "systemctl" ["disable"; "--now"; service_unit serviceName]).
Definition systemctl_reload : M Host unit := wrap "systemctl daemon-reload: " (runCommand "systemctl" ["daemon-reload"]).
Definition systemctl_enable (serviceName : string) : M Host unit :=
  wrap (foldr String.append "" ["systemctl enable --now "; serviceName; ".service: "])
    (runCommand "systemctl" ["enable"; "--now"; service_unit serviceName]).

Definition remove_path (p : string) : M Host unit :=
  wrap (foldr String.append "" ["remove "; p; ": "]) (host_RemoveAll p).
Definition rollbackWithReceipt (receipt : BootstrapReceipt) : M Host unit :=
  let! errs := collect (systemctl_disable (br_ServiceName receipt)
                        :: map remove_path (flat_map sqliteCleanupPaths (reverse (br_Paths receipt)))) in
  joined errs.
Definition start_service (p : BootstrapPlan) (receipt : BootstrapReceipt) : M Host unit :=
  do! systemctl_reload in
  do! systemctl_enable (br_ServiceName receipt) in
  waitUntilReachable p.
Definition Bootstrapper_Run (cfg : BootstrapConfig) : M Host unit :=
  do! slift (ValidateConfig cfg) in
  let! _ := Detect in
  let! p := plan cfg in
  let receipt := bootstrapReceiptFromPlan p in
  do! writeSetupArtifacts p receipt in
  if bc_NoStart cfg then sret tt else
  do! preflightLocalBind cfg in
  let! started := sattempt (start_service p receipt) in
  match started with
  | Ok _ => sret tt
  | Err runErr =>
      let! cleaned := sattempt (rollbackWithReceipt receipt) in
      match cleaned with
      | Ok _ => sthrow runErr
      | Err cleanupErr => sthrow (default runErr (errors_Join [runErr; cleanupErr]))
      end
  end.

Definition readReceipt (statePath : string) : M Host BootstrapReceipt :=
  let! body := wrap "read bootstrap receipt: " (host_ReadFile statePath) in
  match decode_receipt body with
  | inr e => sthrow (OtherError (String.append "decode bootstrap receipt: " e))
  | inl receipt => if blank (trim_space (br_ServiceName receipt))
                   then sthrow (OtherError "bootstrap receipt is missing service_name") else sret receipt
  end.
Definition Bootstrapper_Rollback (statePath : string) : M Host unit :=
  if blank (trim_space statePath) then sthrow (OtherError "state-path is required") else
  let! receipt := readReceipt statePath in rollbackWithReceipt receipt.

(** ** Provenance (provenance.go) *)

Definition SaveLifecycleProvenance (p : LifecycleProvenance) : M Host unit :=
  let! normalized := slift (normalizeLifecycleProvenance p) in
  wrap "write lifecycle provenance: "
    (host_WriteFile (lp_StatePath normalized) (String.append (encode_provenance normalized) (String newline ""))).
Definition readLifecycleProvenance (provenancePath : string) : M Host LifecycleProvenance :=
  let! body := wrap "read lifecycle provenance: " (host_ReadFile provenancePath) in
  slift (parse_provenance provenancePath body).
Definition PlanLifecycleProvenance (cfg : BootstrapConfig) : M Host LifecycleProvenance :=
  do! slift (ValidateConfig cfg) in
  let! p := plan cfg in sret (lifecycleProvenanceFromPlan p (bootstrapReceiptFromPlan p)).
(** [regixtry setup] for a host with systemd, once the accounts are set up, without
    the old flags for the scanner (cmd/regixtry/main.go). *)
Definition setup_host (cfg : BootstrapConfig) : M Host unit :=
  let undo (runErr : error) : M Host unit :=
    let! undone := sattempt (Bootstrapper_Rollback (bc_StatePath cfg)) in
    match undone with
    | Ok _ => sthrow runErr
    | Err e => sthrow (default runErr (errors_Join [runErr; OtherError (String.append "rollback failed: " (error_string e))]))
    end in
  do! Bootstrapper_Run cfg in
  let! planned := sattempt (PlanLifecycleProvenance cfg) in
  match planned with
  | Err e => undo (OtherError (String.append "plan lifecycle provenance: " (error_string e)))
  | Ok p =>
      let! saved := sattempt (SaveLifecycleProvenance p) in
      match saved with Ok _ => sret tt | Err e => undo (OtherError (String.append "write lifecycle provenance: " (error_string e))) end
  end.

(** ** Removing (bootstrap.go) *)

(** Stops at the first path that cannot be looked at or removed. *)
Fixpoint cleanup_paths (target : string) (hadExisting : bool) (paths : list string) : M Host (CleanupItem * option error) :=
  match paths with
  | [] => sret (if hadExisting then (mkCleanupItem target CleanupStatusRemoved "path removed", None)
                else (mkCleanupItem target CleanupStatusMissing "path already absent", None))
  | p :: paths' =>
      let failed (label : string) (e : error) :=
        (mkCleanupItem target CleanupStatusFailed (error_string e),
         Some (OtherError (foldr String.append "" [label; " "; p; ": "; error_string e]))) in
      let! found := sattempt (host_Stat p) in
      match found with
      | Err e => sret (failed "stat" e)
      | Ok false => cleanup_paths target hadExisting paths'
      | Ok true =>
          let! removed := sattempt (host_RemoveAll p) in
          match removed with Err e => sret (failed "remove" e) | Ok _ => cleanup_paths target true paths' end
      end
  end.
Definition cleanupPath (target : string) : M Host (CleanupItem * option error) :=
  let trimmed := trim_space target in
  if blank trimmed then sret (mkCleanupItem "" CleanupStatusSkipped "path is empty", None)
  else cleanup_paths trimmed false (sqliteCleanupPaths trimmed).
Fixpoint cleanup_targets (targets : list string) : M Host (list (CleanupItem * option error)) :=
  match targets with
  | [] => sret []
  | t :: targets' => let! item := cleanupPath t in let! items := cleanup_targets targets' in sret (item :: items)
  end.
Definition uninstallWithProvenance (p : LifecycleProvenance) : M Host (UninstallReport * option error) :=
  let serviceUnit := if blank (trim_space (lp_ServiceName p)) then "" else service_unit (trim_space (lp_ServiceName p)) in
  let! stopped := sattempt (runCommand "systemctl" ["disable"; "--now"; serviceUnit]) in
  let! items := cleanup_targets (uninstallCleanupTargets p) in
  let service := match stopped with
                 | Err e => (mkCleanupItem serviceUnit CleanupStatusFailed (error_string e),
                             [OtherError (foldr String.append "" ["systemctl disable --now "; serviceUnit; ": "; error_string e])])
                 | Ok _ => (mkCleanupItem serviceUnit CleanupStatusRemoved "systemd service disabled and stopped", [])
                 end in
  sret (mkUninstallReport (lp_Mode p) (lp_ServiceName p) service.1 (map fst items),
        errors_Join (service.2 ++ omap snd items)%list).
Definition UninstallReport_Format (r : UninstallReport) : string :=
  let detail (d : string) := foldr String.append "" [" ("; d; ")"] in
  join (String newline "")
    (["Uninstall report:"]
     ++ (if blank (trim_space (ci_Path (ur_Service r))) then []
         else [foldr String.append "" ["- service "; ci_Path (ur_Service r); ": "; ci_Status (ur_Service r); detail (ci_Detail (ur_Service r))]])
     ++ map (λ item, foldr String.append "" ["- "; ci_Path item; ": "; ci_Status item;
                                             if blank (trim_space (ci_Detail item)) then "" else detail (ci_Detail item)]) (ur_Items r))%list.
(** The report comes with the error. *)
Definition Bootstrapper_Uninstall (provenancePath : string) : M Host (UninstallReport * option error) :=
  let trimmed := trim_space provenancePath in
  if blank trimmed then sthrow (OtherError "provenance path is required") else
  let! p := readLifecycleProvenance trimmed in uninstallWithProvenance p.

(** ** Upgrading (upgrade.go) *)

Definition captureManagedRuntimeArtifact (path readErr statErr : string) : M Host managedRuntimeArtifactBackup :=
  let! body := wrap (String.append readErr ": ") (host_ReadFile path) in
  let! found := wrap (String.append statErr ": ") (host_Stat path) in
  if found : bool then sret (mkArtifact path body)
  else sthrow (OtherError (String.append statErr ": no such file or directory")).
Definition captureManagedRuntimeBackup (p : BootstrapPlan) (provenancePath : string) : M Host managedRuntimeBackup :=
  let! binary := captureManagedRuntimeArtifact (bp_BinaryPath p) "read installed binary" "stat installed binary" in
  let! env := captureManagedRuntimeArtifact (bp_EnvPath p) "read env file" "stat env file" in
  let! unit_ := captureManagedRuntimeArtifact (bp_UnitPath p) "read service unit" "stat service unit" in
  let! receipt := captureManagedRuntimeArtifact (bp_StatePath p) "read bootstrap receipt" "stat bootstrap receipt" in
  let! provenance := captureManagedRuntimeArtifact provenancePath "read lifecycle provenance" "stat lifecycle provenance" in
  sret (mkBackup binary "" env unit_ receipt provenance p).

Definition swap_files (dir base installedPath stagedBinaryPath stagedSwapPath : string) : M Host string :=
  let! content := wrap "open staged binary: " (host_ReadFile stagedBinaryPath) in
  do! wrap "copy staged binary into swap file: " (host_WriteFile stagedSwapPath content) in
  do! wrap "chmod staged swap file: " chmod in
  do! wrap "close staged swap file: " close_file in
  let! backupPath := wrap "create binary backup path: " (host_CreateTemp dir (foldr String.append "" ["."; base; ".backup-"])) in
  do! wrap "close binary backup path: " close_file in
  do! wrap "prepare binary backup path: " (host_RemoveAll backupPath) in
  do! wrap "backup installed binary: " (host_Rename installedPath backupPath) in
  let! activated := sattempt (wrap "activate staged binary: " (host_Rename stagedSwapPath installedPath)) in
  match activated with
  | Ok _ => sret backupPath
  | Err e =>
      let! restored := sattempt (wrap "restore installed binary after failed swap: " (host_Rename backupPath installedPath)) in
      sthrow (match restored with Ok _ => e | Err e2 => default e (errors_Join [e; e2]) end)
  end.
Definition swapInstalledBinary (installedPath stagedBinaryPath : string) : M Host string :=
  let dir := filepath_Dir installedPath in
  let base := filepath_Base installedPath in
  let! stagedSwapPath := wrap "create staged swap file: " (host_CreateTemp dir (foldr String.append "" ["."; base; ".upgrade-"])) in
  let! swapped := sattempt (swap_files dir base installedPath stagedBinaryPath stagedSwapPath) in
  match swapped with
  | Ok backupPath => sret backupPath
  | Err e => let! _ := sattempt (host_RemoveAll stagedSwapPath) in sthrow e
  end.

(** The upgraded binary is moved aside before the old one takes its place. *)
Definition restore_binary (b : managedRuntimeBackup) : M Host (list error) :=
  let path := ma_Path (mb_Binary b) in
  if blank (mb_BackupPath b) then collect [wrap "restore installed binary: " (host_WriteFile path (ma_Body (mb_Binary b)))] else
  let rollbackBinaryPath := String.append (mb_BackupPath b) ".rollback" in
  let! moved := sattempt (wrap "move upgraded binary aside: " (host_Rename path rollbackBinaryPath)) in
  match moved with
  | Err e => sret [e]
  | Ok _ =>
      let! restored := sattempt (wrap "restore installed binary from backup: " (host_Rename (mb_BackupPath b) path)) in
      match restored with
      | Err e =>
          let! errs := collect [wrap "restore upgraded binary after failed rollback: " (host_Rename rollbackBinaryPath path)] in
          sret (e :: errs)
      | Ok _ => collect [wrap "cleanup upgraded binary after rollback: " (host_RemoveAll rollbackBinaryPath)]
      end
  end.
Definition restore_artifact (label : string) (a : managedRuntimeArtifactBackup) : M Host unit :=
  wrap (foldr String.append "" ["restore "; label; ": "]) (host_WriteFile (ma_Path a) (ma_Body a)).
Definition restoreManagedRuntimeBackup (b : managedRuntimeBackup) : M Host unit :=
  let service := bp_ServiceName (mb_Plan b) in
  let! errs := restore_binary b in
  let! more := collect
    [restore_artifact "env file" (mb_Env b); restore_artifact "service unit" (mb_Unit b);
     restore_artifact "bootstrap receipt" (mb_BootstrapReceipt b); restore_artifact "lifecycle provenance" (mb_Provenance b);
     wrap "systemctl daemon-reload during rollback: " (runCommand "systemctl" ["daemon-reload"]);
     wrap (foldr String.append "" ["systemctl enable --now "; service; ".service during rollback: "])
       (runCommand "systemctl" ["enable"; "--now"; service_unit service]);
     wrap "rollback readiness validation: " (waitUntilReachable (mb_Plan b))] in
  joined (errs ++ more)%list.
Definition rolling_back {A} (b : managedRuntimeBackup) (m : M Host A) : M Host A :=
  let! r := sattempt m in
  match r with
  | Ok a => sret a
  | Err runErr =>
      let! restored := sattempt (restoreManagedRuntimeBackup b) in
      match restored with
      | Ok _ => sthrow runErr
      | Err rollbackErr => sthrow (default runErr (errors_Join [runErr; rollbackErr]))
      end
  end.
Definition with_backup_path (path : string) (b : managedRuntimeBackup) : managedRuntimeBackup :=
  mkBackup (mb_Binary b) path (mb_Env b) (mb_Unit b) (mb_BootstrapReceipt b) (mb_Provenance b) (mb_Plan b).

Definition upgraded_provenance (p : BootstrapPlan) (provenancePath : string) (asset : Asset) : LifecycleProvenance :=
  let n := lifecycleProvenanceFromPlan p (bootstrapReceiptFromPlan p) in
  mkProvenance (lp_Version n) (lp_Mode n) (lp_InstalledBin n) (as_Tag asset) (as_Version asset) (lp_ServiceName n) provenancePath
    (lp_ManagedPaths n) (lp_Intent n).
(** All that follows the swap, and the removal of the old binary. *)
Definition settle_upgrade (p : BootstrapPlan) (provenancePath : string) (asset : Asset) : M Host unit :=
  do! writeManagedArtifacts p (bootstrapReceiptFromPlan p) false in
  do! systemctl_reload in
  do! systemctl_enable (bp_ServiceName p) in
  do! waitUntilReachable p in
  wrap "write lifecycle provenance: " (SaveLifecycleProvenance (upgraded_provenance p provenancePath asset)).
Definition finish_upgrade (p : BootstrapPlan) (provenancePath : string) (asset : Asset) (backupPath : string) : M Host unit :=
  do! settle_upgrade p provenancePath asset in
  if blank backupPath then sret tt else wrap "remove binary backup: " (host_RemoveAll backupPath).
Definition replace_binary (p : BootstrapPlan) (provenancePath : string) (asset : Asset) (stagedBinaryPath : string) : M Host unit :=
  let! backup := captureManagedRuntimeBackup p provenancePath in
  do! systemctl_disable (bp_ServiceName p) in
  let! backupPath := rolling_back backup (wrap "replace installed binary: " (swapInstalledBinary (bp_BinaryPath p) stagedBinaryPath)) in
  rolling_back (with_backup_path backupPath backup) (finish_upgrade p provenancePath asset backupPath).
(** What is downloaded is a file of the directory before it is looked at
    (releases/github.go). *)
Definition fetch `{Archives} (sourceURL destination : string) : M Host unit :=
  let! body := downloadFile sourceURL in host_WriteFile destination body.
Definition stage_binary `{Archives} (asset : Asset) (dir : string) : M Host string :=
  let archivePath := filepath_Join dir (as_ArchiveName asset) in
  let checksumsPath := filepath_Join dir (filepath_Base (as_ChecksumsURL asset)) in
  do! fetch (as_ArchiveURL asset) archivePath in
  do! fetch (as_ChecksumsURL asset) checksumsPath in
  let! checksums := wrap "read checksum asset: " (host_ReadFile checksumsPath) in
  do! wrap (foldr String.append "" ["checksum verification failed for "; as_ArchiveName asset; ": "])
        (let! body := host_ReadFile archivePath in slift (VerifyChecksum body (as_ArchiveName asset) checksums)) in
  do! (let! body := host_ReadFile archivePath in slift (validateArchive body)) in
  let! archive := host_ReadFile archivePath in
  do! host_MkdirAll dir in
  let! binary := slift (ExtractBinary archive "regixtry") in
  do! host_WriteFile (filepath_Join dir "regixtry") binary in
  sret (filepath_Join dir "regixtry").
Definition install_release `{Archives} (p : BootstrapPlan) (provenancePath : string) (asset : Asset) : M Host unit :=
  let! stageDir := host_MkdirTemp ienv_tmp "regixtry-upgrade-" in
  let! installed := sattempt
    (let! stagedBinaryPath := stage_binary asset stageDir in
     let! _ := Detect in
     replace_binary p provenancePath asset stagedBinaryPath) in
  let! _ := sattempt (host_RemoveAll stageDir) in
  slift installed.

(** The value [strconv.Atoi] returns beside its error: a number out of range is cut
    off at the range. *)
Definition Atoi_value (s : string) : Z :=
  let '(neg, ds) := match s with String "-" ds => (true, ds) | String "+" ds => (false, ds) | _ => (false, s) end in
  if blank ds then 0 else
  match digits_val 0 ds with
  | None => 0
  | Some n => Z.max min_int64 (Z.min max_int64 (if neg : bool then - n else n))
  end.
Definition semanticMajor (version : string) : Z :=
  Atoi_value (cut "." (trim_prefix "v" (trim_space version))).1.1.
Definition requireUpgradeConfirmation (pf : UpgradePreflight) : res unit :=
  if blank (pf_InstalledVersion pf) then Ok tt else
  let currentMajor := semanticMajor (pf_InstalledVersion pf) in
  let targetMajor := semanticMajor (pf_TargetVersion pf) in
  if (currentMajor =? 0) || (targetMajor =? 0) || (currentMajor =? targetMajor) then Ok tt else
  Err (OtherError (foldr String.append "" ["major-version upgrade from "; pf_InstalledVersion pf; " to "; pf_TargetVersion pf;
                                           " requires --yes"])).
Definition confirmUpgrade (pf : UpgradePreflight) (assumeYes : bool) (confirm : option (UpgradePreflight → res unit)) : res unit :=
  if assumeYes then Ok tt else match confirm with Some f => f pf | None => requireUpgradeConfirmation pf end.
Definition sameUpgradeVersion (installedVersion targetVersion installedRef targetRef : string) : bool :=
  let iv := trim_space installedVersion in
  let tv := trim_space targetVersion in
  if negb (blank iv) && negb (blank tv) then String.eqb iv tv
  else negb (blank (trim_space installedRef)) && String.eqb (trim_space installedRef) (trim_space targetRef).
Definition formatUpgradeIdentity (ref version : string) : string :=
  let r := trim_space ref in
  let v := trim_space version in
  if negb (blank r) && negb (blank v) then foldr String.append "" [r; " ("; v; ")"]
  else if negb (blank r) then r else if negb (blank v) then v else "unknown version".
Definition shouldImportLegacyTrivySettings (p : LifecycleProvenance) (envValues : gmap string string) : bool :=
  let i := lp_Intent p in
  let set s := negb (blank (trim_space s)) in
  li_TrivyEnabled i || li_TrivyScheduleEnabled i || set (li_TrivyInterval i) || set (li_TrivyTimeout i) || set (li_TrivyCacheDir i)
  || set (li_TrivyBinaryPath i) || (0 <? li_TrivyMaxConcurrency i)
  || existsb (λ key, set (default "" (envValues !! key)))
       ["REGISTRY_TRIVY_ENABLED"; "REGISTRY_TRIVY_SCHEDULE_ENABLED"; "REGISTRY_TRIVY_INTERVAL"; "REGISTRY_TRIVY_TIMEOUT";
        "REGISTRY_TRIVY_CACHE_DIR"; "REGISTRY_TRIVY_BINARY_PATH"; "REGISTRY_TRIVY_MAX_CONCURRENCY"].
Definition firstPositive (value fallback : Z) : Z := if 0 <? value then value else fallback.
Definition readManagedEnv (path : string) : M Host (gmap string string) :=
  let! body := wrap "read managed runtime env: " (host_ReadFile path) in slift (parseManagedEnvFile body).
(** What the host says is installed. *)
Definition read_installation (provenancePath : string) : M Host (LifecycleProvenance * gmap string string * InstalledIntent) :=
  let! provenance := readLifecycleProvenance provenancePath in
  let! envValues := readManagedEnv (intentEnvPath provenance) in
  let! intent := slift (loadInstalledIntent provenance envValues) in
  sret (provenance, envValues, intent).
End Installer.

(** ** The whole upgrade, on the host and on the database of the registry *)

Section Upgrade.
Context {W : Type} `{UnicodeTables, InstallText, HostEnv, InstallEnv, Archives, !PolicyStore W}.
Notation S := (W * Host)%type.

Definition legacy_settings (i : InstalledIntent) (now : Time) : ScanSettings :=
  let cacheDir := if negb (blank (trim_space (ii_TrivyCacheDir i))) then trim_space (ii_TrivyCacheDir i)
                  else if negb (blank (trim_space (ii_StorageRoot i))) then filepath_Join (ii_StorageRoot i) "trivy-cache"
                  else filepath_Join "." "trivy-cache" in
  mkScanSettings (ii_TrivyEnabled i) (ii_TrivyScheduleEnabled i) (firstPositive (ii_TrivyInterval i) (24 * hour))
    (firstPositive (ii_TrivyTimeout i) (15 * minute)) "" "" "" "" false cacheDir (firstNonBlank [ii_TrivyBinaryPath i; "trivy"])
    "" "" (firstPositive (ii_TrivyMaxConcurrency i) 1) now "" "" "".
(** A call of the database driver, and what it makes of the files of the database:
    opening creates, migrates and fills in, closing folds the log in. *)
Definition with_database {A} (path : string) (m : M S A) : M S A :=
  let! r := sattempt m in
  do! on_host (touch_database path) in
  slift r.
Definition open_database (path : string) : M S unit :=
  with_database path (on_host (host_ask (λ n, match ienv_open_store n path with Some e => Err (OtherError e) | None => Ok tt end))).
Definition importLegacyTrivySettingsIfMissing (i : InstalledIntent) : M S unit :=
  let path := ii_DatabasePath i in
  do! open_database path in
  let! imported := sattempt (
    let! found := sattempt (with_database path (on_server (meta_GetScanSettings DefaultTenant "trivy"))) in
    match found with
    | Ok _ => sret tt
    | Err e =>
        if negb (reg_is_code e CodeNotFound) then sthrow e else
        let! now := on_host host_now in
        with_database path (on_server (UpsertScanSettings DefaultTenant "trivy" (legacy_settings i now)))
    end) in
  do! on_host (touch_database path) in
  slift imported.

Definition provenance_path (cfg : UpgradeConfig) : string :=
  if blank (trim_space (uc_ProvenancePath cfg)) then LifecycleProvenancePath "/etc/regixtry/bootstrap-state.json"
  else trim_space (uc_ProvenancePath cfg).
Definition Bootstrapper_Upgrade (cfg : UpgradeConfig) : M S UpgradeResult :=
  let provenancePath := provenance_path cfg in
  let! read := on_host (read_installation provenancePath) in
  let '(provenance, envValues, intent) := read in
  do! (if shouldImportLegacyTrivySettings provenance envValues then importLegacyTrivySettingsIfMissing intent else sret tt) in
  let p := buildPlanFromInstalledIntent intent in
  let! arch := slift (NormalizeArch ienv_goarch) in
  let! asset := on_host (Resolve (NewGitHubClient ienv_releases_url) (uc_Ref cfg) "linux" arch) in
  let preflight := mkPreflight (lp_InstalledRef provenance) (ii_InstalledVersion intent) (as_Tag asset) (as_Version asset)
                     (sameUpgradeVersion (ii_InstalledVersion intent) (as_Version asset) (lp_InstalledRef provenance) (as_Tag asset)) in
  do! slift (match uc_Preflight cfg with Some f => f preflight | None => Ok tt end) in
  if pf_UpToDate preflight
  then sret (mkUpgradeResult (lp_InstalledRef provenance) (ii_InstalledVersion intent) (as_Version asset) (as_Tag asset)
               (lp_StatePath provenance) true)
  else
  do! slift (confirmUpgrade preflight (uc_AssumeYes cfg) (uc_Confirm cfg)) in
  do! on_host (install_release p provenancePath asset) in
  sret (mkUpgradeResult (pf_InstalledRef preflight) (ii_InstalledVersion intent) (as_Version asset) (as_Tag asset) provenancePath false).
End Upgrade.
