(* ===== verification/InstallLaws.v ===== *)
(** What the installer's steps leave on a host: the files that were there before, and
    those it may write. *)
From stdpp Require Import gmap strings.
From S2P Require Import Prelude GoStrings Errors GoNumbers RegWorld Overrides Release Host InstallPlan.
From S2P Require Import Install.

(** * Definitions *)

(** A host on which nothing that was there at the start [h0] is lost, but for the
    files [managed] is true of. *)
Record kept (h0 : Host) (managed : list string → Prop) (h : Host) : Prop := {
  kp_links : ho_links h = ho_links h0;
  kp_files p c t : ¬ managed p → ho_files h0 !! p = Some (File c t) → ho_files h !! p = Some (File c t);
  kp_dirs p : ho_files h0 !! p = Some Dir → ho_files h !! p = Some Dir;
}.
Definition safe (h0 : Host) (managed : list string → Prop) {A} (m : M Host A) : Prop := ∀ h,
  kept h0 managed h → kept h0 managed (m h).2.
(** Where something may be written. *)
Definition free (h0 : Host) (managed : list string → Prop) (p : list string) : Prop :=
  ¬ managed p → ∀ c t, ho_files h0 !! p ≠ Some (File c t).
(** Nothing was there, nor below. *)
Definition vacant (h0 : Host) (p : list string) : Prop := p ≠ [] ∧ unlinked h0 p ∧
  ∀ q, p `prefix_of` q → ho_files h0 !! q = None ∧ ho_links h0 !! q = None.

(** * Lemmas *)

Lemma kept_refl h0 managed : kept h0 managed h0.
Proof. by split. Qed.
Lemma kept_disk h0 managed h h' : disk h' = disk h → kept h0 managed h → kept h0 managed h'.
Proof. intros [= Hf Hl] [K1 K2 K3]; split; rewrite ?Hl, ?Hf; auto. Qed.
Lemma kept_weaken h0 (m1 m2 : list string → Prop) h : (∀ p, m1 p → m2 p) → kept h0 m1 h → kept h0 m2 h.
Proof. intros Hm [K1 K2 K3]; split; auto. Qed.
Lemma kept_trans h0 h1 (m1 m2 : list string → Prop) h : kept h0 m1 h1 → (∀ p, m1 p → m2 p) → kept h1 m2 h → kept h0 m2 h.
Proof. intros [K1 K2 K3] Hm [L1 L2 L3]; split; [congruence|intros p c t Hp Hf; apply L2, K2; auto|auto]. Qed.

Section Rules.
Context (h0 : Host) (managed : list string → Prop).
Notation ok m := (safe h0 managed m).

Lemma safe_ret {A} (a : A) : ok (sret a).
Proof. by intros h K. Qed.
Lemma safe_throw {A} e : ok (sthrow (A := A) e).
Proof. by intros h K. Qed.
Lemma safe_lift {A} (r : res A) : ok (slift r).
Proof. by intros h K. Qed.
Lemma safe_bind {A B} (m : M Host A) (k : A → M Host B) : ok m → (∀ a, ok (k a)) → ok (sbind m k).
Proof. intros Hm Hk h K; specialize (Hm h K); unfold sbind; destruct (m h) as [[a|e] h']; simpl in *; [by apply Hk|done]. Qed.
Lemma safe_attempt {A} (m : M Host A) : ok m → ok (sattempt m).
Proof. intros Hm h K; specialize (Hm h K); unfold sattempt; by destruct (m h). Qed.
Lemma safe_wrap `{UnicodeTables} {A} t (m : M Host A) : ok m → ok (wrap t m).
Proof. intros Hm; apply safe_bind; [by apply safe_attempt|intros [a|e]; [apply safe_ret|apply safe_throw]]. Qed.
Lemma safe_keeps {A} (m : M Host A) : keeps disk m → ok m.
Proof. intros Hm h K; eapply kept_disk; [apply Hm|done]. Qed.
Lemma safe_collect `{UnicodeTables} steps : (∀ m, m ∈ steps → ok m) → ok (collect steps).
Proof.
  induction steps as [|m steps IH]; intros Hs; cbn [collect]; [apply safe_ret|].
  apply safe_bind; [apply safe_attempt, Hs; by left|intros r].
  apply safe_bind; [apply IH; intros; apply Hs; by right|intros errs; apply safe_ret].
Qed.
Lemma safe_joined `{UnicodeTables} errs : ok (joined errs).
Proof. unfold joined; destruct (errors_Join errs); [apply safe_throw|apply safe_ret]. Qed.

Section Calls.
Context `{HostEnv}.

Lemma safe_call {A} (f : nat → Host → os_result (A * Host)) :
  (∀ n h a h', kept h0 managed h → f n h = Ok (a, h') → kept h0 managed h') → ok (host_call f).
Proof.
  intros Hf h K; unfold host_call; destruct (henv_fault _); [by apply (kept_disk _ _ h)|].
  destruct (f _ h) as [[a h']|e] eqn:He; [|by apply (kept_disk _ _ h)]; apply (kept_disk _ _ h'); [done|by eapply Hf].
Qed.
Lemma kept_insert h p n : free h0 managed p → ho_files h0 !! p ≠ Some Dir ∨ n = Dir → kept h0 managed h →
  kept h0 managed (with_files (<[p := n]> (ho_files h)) h).
Proof.
  intros Hp Hd [K1 K2 K3]; split; [done|..]; simpl.
  - intros q c t Hq Hf; rewrite lookup_insert_ne; [by apply K2|]; intros <-; by eapply Hp.
  - intros q Hf; destruct (decide (p = q)) as [<-|]; [|rewrite lookup_insert_ne by done; by apply K3].
    destruct Hd as [Hd| ->]; [by rewrite Hf in Hd|by rewrite lookup_insert_eq].
Qed.
Lemma kept_not_dir h p : kept h0 managed h → ho_files h !! p ≠ Some Dir → ho_files h0 !! p ≠ Some Dir.
Proof. intros K Hp Hd; by apply Hp, (kp_dirs _ _ _ K). Qed.
Lemma kept_write h p fs data now : free h0 managed p → kept h0 managed h → fs_write (ho_files h) p data now = Ok fs →
  kept h0 managed (with_files fs h).
Proof.
  intros Hp K; unfold fs_write; destruct (ho_files h !! p) as [[|c t]|] eqn:Hf; [done| |destruct (is_dir _ _); [|done]];
    intros [= <-]; (apply kept_insert; [done|left; eapply kept_not_dir; [exact K|by rewrite Hf]|done]).
Qed.
Lemma safe_write s data : (∀ p, at_path h0 s = Ok p → free h0 managed p) → ok (host_WriteFile s data).
Proof.
  intros Hs h K; assert (∀ p, at_path h s = Ok p → free h0 managed p) as Hs'.
  { intros p; rewrite (at_path_same h0 h) by (by apply kp_links in K); apply Hs. }
  assert (ok (on_files s (λ now p fs, fs_write fs p data now))) as Hw.
  { apply safe_call; intros n h' a h'' K'; rewrite (at_path_same h0 h') by (by apply kp_links in K').
    destruct (at_path h0 s) as [p|] eqn:Hp; [|done]; destruct (fs_write _ _ _ _) eqn:He; [|done]; intros [= <- <-].
    eapply kept_write; [by apply Hs|done|exact He]. }
  unfold host_WriteFile; destruct (henv_fault (ho_calls h)), (henv_partial (ho_calls h)); try by apply Hw.
  destruct (at_path h s) as [p|] eqn:Hp; [|by apply (kept_disk _ _ h)].
  destruct (fs_write _ _ _ _) as [fs|] eqn:He; [|by apply (kept_disk _ _ h)].
  apply (kept_disk _ _ (with_files fs h)); [done|eapply kept_write; [by apply Hs'|done|exact He]].
Qed.
Lemma safe_mkdir s : ok (host_MkdirAll s).
Proof.
  apply safe_call; intros n h a h' K; destruct (at_path h s) as [p|]; [|done]; destruct (fs_mkdir_all _ p) as [fs|] eqn:Hm; [|done].
  intros [= <- <-]; destruct K as [K1 K2 K3]; split; [done|..]; simpl.
  - intros q c t Hq Hf; eapply mkdir_spares; [exact Hm|by apply K2].
  - intros q Hf; apply K3 in Hf; revert Hm; unfold fs_mkdir_all; destruct (existsb _ _); [done|]; intros [= <-].
    induction (prefixes p) as [|x l IH]; simpl; [done|].
    destruct (decide (x = q)) as [->|]; [by rewrite lookup_insert_eq|by rewrite lookup_insert_ne].
Qed.
Lemma safe_remove_all s : (∀ p, at_entry h0 s = Ok p → ∀ q, p `prefix_of` q →
    ho_links h0 !! q = None ∧ ho_files h0 !! q ≠ Some Dir ∧ free h0 managed q) → ok (host_RemoveAll s).
Proof.
  intros Hs h K; assert (at_entry h s = at_entry h0 s) as Hat by (unfold at_entry; by rewrite (kp_links _ _ _ K)).
  destruct (host_RemoveAll s h) as [[u|e] h'] eqn:Hr; simpl.
  - revert Hr; unfold host_RemoveAll, host_call; rewrite Hat; destruct (at_entry h0 s) as [p|] eqn:Hp; [|by destruct (henv_fault _)].
    destruct (henv_fault _); [done|]; rewrite (kp_links _ _ _ K).
    destruct (Hs p eq_refl p ltac:(done)) as (Hl & _ & _); rewrite Hl; intros [= _ <-]; destruct K as [K1 K2 K3]; split; simpl.
    + apply map_filter_id; intros k t Hk; apply bool_decide_eq_false; intros Hq.
      destruct (Hs p eq_refl k Hq) as (Hn & _); by rewrite Hn in Hk.
    + intros q c t Hq Hf; unfold fs_remove_all; rewrite map_lookup_filter, (K2 q c t) by done; simpl.
      rewrite option_guard_True; [done|]; apply bool_decide_eq_false; intros Hpq.
      destruct (Hs p eq_refl q Hpq) as (_ & _ & Hfr); by eapply Hfr.
    + intros q Hf; unfold fs_remove_all; rewrite map_lookup_filter, (K3 q) by done; simpl.
      rewrite option_guard_True; [done|]; apply bool_decide_eq_false; intros Hpq.
      by destruct (Hs p eq_refl q Hpq) as (_ & Hd & _).
  - apply remove_all_err in Hr as [[Hd _]|(p & Hp & [_ Hf Hl _])]; [by eapply kept_disk|]; rewrite Hat in Hp.
    specialize (Hs p Hp); destruct K as [K1 K2 K3]; split.
    + apply map_eq; intros q; destruct (Hl q) as [->|(Hq & _ & ->)]; [by rewrite K1|]; destruct (Hs q Hq) as (-> & _); reflexivity.
    + intros q c t Hq Hf0; destruct (Hf q) as [->|(Hpq & _)]; [by apply K2|].
      destruct (Hs q Hpq) as (_ & _ & Hfr); destruct (Hfr Hq c t Hf0).
    + intros q Hf0; destruct (Hf q) as [->|(Hpq & _)]; [by apply K3|]; destruct (Hs q Hpq) as (_ & Hd & _); destruct (Hd Hf0).
Qed.
Lemma safe_rename a b : (∀ p, at_entry h0 a = Ok p ∨ at_entry h0 b = Ok p → ho_links h0 !! p = None ∧ free h0 managed p) →
  ok (host_Rename a b).
Proof.
  intros Hs; apply safe_call; intros n h u h' K.
  assert (∀ s, at_entry h s = at_entry h0 s) as Hat by (intros s; unfold at_entry; by rewrite (kp_links _ _ _ K)); rewrite !Hat.
  destruct (at_entry h0 a) as [p|] eqn:Hp; [|done]; destruct (at_entry h0 b) as [q|] eqn:Hq; [|done].
  destruct (Hs p ltac:(by left)) as [Hlp Hfp]; destruct (Hs q ltac:(by right)) as [Hlq Hfq].
  rewrite (kp_links _ _ _ K), Hlp; unfold fs_rename; destruct (ho_files h !! p) as [[|c t]|] eqn:Hf; [done| |done].
  assert (kept h0 managed (with_files (delete p (ho_files h)) h)) as Kd.
  { assert (ho_files h0 !! p ≠ Some Dir) as Hnd by (eapply kept_not_dir; [exact K|by rewrite Hf]).
    destruct K as [K1 K2 K3]; split; [done|..]; simpl.
    - intros r c' t' Hr Hfr; rewrite lookup_delete_ne; [by apply K2|]; intros <-; by eapply Hfp.
    - intros r Hfr; rewrite lookup_delete_ne; [by apply K3|]; by intros <-. }
  assert (∀ r, ho_files h !! q ≠ Some Dir → kept h0 managed (with_files (<[q := r]> (delete p (ho_files h))) h)) as Ki.
  { intros r Hnd; change (with_files _ h) with
      (with_files (<[q := r]> (ho_files (with_files (delete p (ho_files h)) h))) (with_files (delete p (ho_files h)) h)).
    apply kept_insert; [done|left; eapply kept_not_dir; [exact K|done]|done]. }
  destruct (ho_files h !! q) as [[|c' t']|] eqn:Hfq'; [done| |]; (destruct (is_dir _ _); [|done]); intros [= <- <-]; by apply Ki.
Qed.
Lemma safe_create_temp dir prefix : ok (host_CreateTemp dir prefix).
Proof.
  apply safe_call; intros n h a h' K; cbv zeta; case_match; [|done]; rename a0 into p; unfold fs_create_excl.
  destruct (ho_files h !! p) eqn:Hf; [done|]; destruct (is_dir _ _); [|done]; intros [= <- <-].
  apply kept_insert; [|left; eapply kept_not_dir; [exact K|by rewrite Hf]|done].
  intros Hp c t Hc; apply (kp_files _ _ _ K) in Hc; [congruence|done].
Qed.
Lemma safe_mkdir_temp dir prefix : ok (host_MkdirTemp dir prefix).
Proof.
  apply safe_call; intros n h a h' K; cbv zeta; case_match; [|done]; rename a0 into p; destruct (ho_files h !! p) eqn:Hf; [done|].
  destruct (is_dir _ _); [|done]; intros [= <- <-]; apply kept_insert; [|by right|done].
  intros Hp c t Hc; apply (kp_files _ _ _ K) in Hc; [congruence|done].
Qed.
Lemma keeps_disk_Stat s : keeps disk (host_Stat s).
Proof.
  intros h; unfold host_Stat, host_call; destruct (henv_fault _); [done|]; destruct (at_path h s); [|done].
  destruct (fs_stat _ _) as [|e]; [done|]; by destruct (IsNotExist e).
Qed.
Lemma keeps_disk_ask {A} (f : nat → res A) : keeps disk (host_ask f).
Proof. done. Qed.
Lemma keeps_disk_chmod : keeps disk chmod.
Proof. intros h; unfold chmod, host_call; by destruct (henv_fault _). Qed.
Lemma keeps_disk_close : keeps disk close_file.
Proof. apply keeps_disk_chmod. Qed.
Lemma keeps_disk_command `{InstallEnv} name args : keeps disk (runCommand name args).
Proof. intros h; unfold runCommand; by destruct (ienv_command _ _ _). Qed.
End Calls.
End Rules.
#[export] Hint Resolve keeps_disk_Stat keeps_disk_ask keeps_disk_chmod keeps_disk_close keeps_disk_command : keeps.

Create HintDb safe discriminated.
#[export] Hint Resolve safe_mkdir safe_create_temp safe_mkdir_temp safe_joined : safe.
Ltac safe_step :=
  match goal with
  | |- safe _ _ (sret _) => apply safe_ret
  | |- safe _ _ (sthrow _) => apply safe_throw
  | |- safe _ _ (slift _) => apply safe_lift
  | |- safe _ _ (sattempt _) => apply safe_attempt
  | |- safe _ _ (wrap _ _) => apply safe_wrap
  | |- safe _ _ (sbind _ _) => apply safe_bind; [|intros ?]
  | |- safe _ _ (match ?x with _ => _ end) => destruct x eqn:?
  | |- safe _ _ _ => solve [eauto with safe]
  | |- safe _ _ _ => solve [apply safe_keeps; keep]
  end.
Ltac safely := repeat (cbn beta iota; safe_step).

(** ** Results *)

Lemma safe_bind_res h0 managed {A B} (m : M Host A) (k : A → M Host B) : safe h0 managed m →
  (∀ a h h', m h = (Ok a, h') → safe h0 managed (k a)) → safe h0 managed (sbind m k).
Proof.
  intros Hm Hk h K; specialize (Hm h K); unfold sbind; destruct (m h) as [[a|e] h'] eqn:He; simpl in *; [by eapply Hk|done].
Qed.
Lemma wrap_ok `{UnicodeTables} {A} t (m : M Host A) h a h' : wrap t m h = (Ok a, h') → m h = (Ok a, h').
Proof. unfold wrap; rewrite try_bind; destruct (m h) as [[]]; simpl; [|done]; by intros [= -> ->]. Qed.

Lemma collect_all `{UnicodeTables} steps h : ∃ errs, (collect steps h).1 = Ok errs.
Proof.
  revert h; induction steps as [|m steps IH]; intros h; [by eexists|]; cbn [collect]; rewrite try_bind.
  unfold sbind; destruct (IH (m h).2) as [errs He]; destruct (collect steps _) as [r h']; simpl in He; subst; simpl.
  by destruct (m h).1; eexists.
Qed.
Lemma collect_cons `{UnicodeTables} m steps h h' : collect (m :: steps) h = (Ok [], h') →
  ∃ u h1, m h = (Ok u, h1) ∧ collect steps h1 = (Ok [], h').
Proof.
  cbn [collect]; rewrite try_bind; intros (errs & h2 & Hc & Hr)%bind_ok; destruct (m h) as [[u|e] h1]; [|done].
  simpl in *; injection Hr as -> ->; by exists u, h1.
Qed.
Lemma collect_more `{UnicodeTables} e steps h h' : sbind (collect steps) (λ errs, sret (e :: errs)) h ≠ (Ok [], h').
Proof. unfold sbind; destruct (collect_all steps h) as [errs He]; destruct (collect steps h) as [r h1]; simpl in He; by subst. Qed.
Lemma joined_ok `{UnicodeTables} errs h u h' : joined errs h = (Ok u, h') → errs = [] ∧ h' = h.
Proof. unfold joined; destruct errs; simpl; [by intros [= _ ->]|done]. Qed.

(** ** Names and places *)

Section Places.
Context `{HostEnv}.

Definition temp_name (dir prefix x : string) : string :=
  foldr String.append "" [dir; if has_suffix "/" dir then "" else "/"; prefix; x].
Lemma to_path_slash a b : a ≠ "" → segment_ok b → to_path (String.append a (String "/" b)) = to_path a ++ [b].
Proof.
  intros Ha Hb; unfold to_path; assert (filepath_IsAbs (String.append a (String "/" b)) = filepath_IsAbs a) as ->.
  { destruct a; [done|]; reflexivity. }
  unfold join_path; rewrite split_app, foldl_app, (split_no_char "/" b) by (by destruct Hb as (_ & _ & _ & ?)).
  destruct Hb as (? & ? & ? & ?); by apply clean_step_name.
Qed.
Lemma to_path_trailing a : to_path (String.append a "/") = if String.eqb a "" then [] else to_path a.
Proof.
  destruct (String.eqb_spec a "") as [->|Ha]; [reflexivity|]; unfold to_path.
  assert (filepath_IsAbs (String.append a "/") = filepath_IsAbs a) as -> by (destruct a; [done|reflexivity]).
  unfold join_path; rewrite (split_app "/" a ""), foldl_app; reflexivity.
Qed.
Lemma has_suffix_split t s : has_suffix t s = true → ∃ u, s = String.append u t.
Proof.
  unfold has_suffix; intros [u Hu]%has_prefix_spec; exists (srev u).
  by rewrite <- (srev_involutive s), Hu, srev_append, srev_involutive.
Qed.
Lemma temp_path dir prefix x : dir ≠ "" → segment_ok (String.append prefix x) →
  to_path (temp_name dir prefix x) = to_path dir ++ [String.append prefix x].
Proof.
  intros Hd Hx; unfold temp_name; simpl; rewrite append_nil_r; destruct (has_suffix "/" dir) eqn:Hs; simpl; [|by apply to_path_slash].
  apply has_suffix_split in Hs as [a ->]; rewrite append_assoc; simpl.
  rewrite to_path_trailing; destruct (String.eqb_spec a "") as [->|Ha]; [|by apply to_path_slash].
  unfold to_path; simpl; unfold join_path; destruct Hx as (? & ? & ? & Hx); simpl; rewrite (split_no_char "/" _ Hx); simpl.
  unfold clean_step at 2; simpl; by apply (clean_step_name []).
Qed.

Lemma create_temp_ok dir prefix h name h' : host_CreateTemp dir prefix h = (Ok name, h') →
  ∃ x p, name = temp_name dir prefix (henv_temp x (ho_files h)) ∧ at_path h name = Ok p
         ∧ ho_files h !! p = None ∧ ho_files h' = <[p := File "" (henv_now (ho_calls h))]> (ho_files h).
Proof.
  unfold host_CreateTemp, host_call; destruct (henv_fault _); [done|]; cbv zeta.
  fold (temp_name dir prefix (henv_temp (ho_calls h) (ho_files h))); destruct (at_path h _) as [p|] eqn:Hp; [|done].
  unfold fs_create_excl; destruct (ho_files h !! p) eqn:Hf; [done|]; destruct (is_dir _ _); [|done]; intros [= <- <-].
  by exists (ho_calls h), p.
Qed.
Lemma mkdir_temp_ok dir prefix h name h' : host_MkdirTemp dir prefix h = (Ok name, h') →
  ∃ x p, name = filepath_Join dir (String.append prefix (henv_temp x (ho_files h))) ∧ at_path h name = Ok p
         ∧ ho_files h' = <[p := Dir]> (ho_files h).
Proof.
  unfold host_MkdirTemp, host_call; destruct (henv_fault _); [done|]; cbv zeta.
  destruct (at_path h _) as [p|] eqn:Hp; [|done]; destruct (ho_files h !! p) eqn:Hf; [done|].
  destruct (is_dir _ _); [|done]; intros [= <- <-]; by exists (ho_calls h), p.
Qed.
Lemma rename_ok a b h u h' p q : at_entry h a = Ok p → at_entry h b = Ok q → ho_links h !! p = None →
  host_Rename a b h = (Ok u, h') →
  ∃ c t, ho_files h !! p = Some (File c t) ∧ ho_files h' = <[q := File c t]> (delete p (ho_files h)).
Proof.
  intros Hp Hq Hl; unfold host_Rename, host_call; destruct (henv_fault _); [done|]; rewrite Hp, Hq, Hl; unfold fs_rename.
  destruct (ho_files h !! p) as [[|c t]|] eqn:Hf; [done| |done].
  destruct (ho_files h !! q) as [[|]|]; [done| |]; (destruct (is_dir _ _); [|done]); intros [= _ <-]; by exists c, t.
Qed.
Lemma remove_all_ok s h u h' p : at_entry h s = Ok p → ho_links h !! p = None → host_RemoveAll s h = (Ok u, h') →
  ho_files h' = fs_remove_all (ho_files h) p.
Proof. intros Hp Hl; unfold host_RemoveAll, host_call; rewrite Hp; destruct (henv_fault _); [done|]; rewrite Hl; by intros [= _ <-]. Qed.
Lemma remove_all_other fs (p q : list string) : ¬ p `prefix_of` q → fs_remove_all fs p !! q = fs !! q.
Proof.
  intros Hp; unfold fs_remove_all; rewrite map_lookup_filter; destruct (fs !! q); [|done]; simpl.
  rewrite option_guard_True; [done|]; by apply bool_decide_eq_false.
Qed.

(** The entry of a path that can be reached without a link. *)
Lemma entry_unlinked h s : to_path s ≠ [] → unlinked h (to_path s) → at_entry h s = Ok (to_path s).
Proof.
  intros Hn Hu; destruct (to_path s) as [|x l _] eqn:He using rev_ind; [done|]; eapply at_entry_unlinked; [exact He|].
  intros q Hq; apply Hu; etrans; [exact Hq|]; by exists [x].
Qed.
(** Where nothing was, anything may be written and removed. *)
Lemma vacant_child h0 q r : vacant h0 q → vacant h0 (q ++ r).
Proof.
  intros (Hn & Hu & Hv); split_and!; [by destruct q| |intros x Hx; apply Hv; etrans; [by exists r|done]].
  intros x Hx; destruct (prefix_weak_total x q (q ++ r) Hx ltac:(by exists r)) as [Hp|Hp]; [by apply Hu|by apply Hv].
Qed.
Lemma vacant_at h0 q s : vacant h0 q → to_path s = q → at_path h0 s = Ok q ∧ at_entry h0 s = Ok q ∧ ho_links h0 !! q = None.
Proof.
  intros (Hn & Hu & Hv) <-; split_and!; [by apply at_path_unlinked|by apply entry_unlinked|by apply Hv].
Qed.
Lemma free_vacant h0 managed q : vacant h0 q → free h0 managed q.
Proof. intros (_ & _ & Hv) _ c t; by destruct (Hv q ltac:(done)) as [-> _]. Qed.
Lemma vacant_below h0 managed q r : vacant h0 q → q `prefix_of` r →
  ho_links h0 !! r = None ∧ ho_files h0 !! r ≠ Some Dir ∧ free h0 managed r.
Proof. intros (_ & _ & Hv) Hr; destruct (Hv r Hr) as [Hf Hl]; rewrite Hf; split_and!; [done..|]; intros _ c t; by rewrite Hf. Qed.
Lemma safe_write_vacant h0 managed s q data : vacant h0 q → to_path s = q → safe h0 managed (host_WriteFile s data).
Proof. intros Hv Hs; apply safe_write; destruct (vacant_at h0 q s Hv Hs) as (-> & _); intros r [= <-]; by apply free_vacant. Qed.
Lemma safe_remove_vacant h0 managed s q : vacant h0 q → to_path s = q → safe h0 managed (host_RemoveAll s).
Proof.
  intros Hv Hs; apply safe_remove_all; destruct (vacant_at h0 q s Hv Hs) as (_ & -> & _); intros r [= <-] r' Hr; by apply (vacant_below h0 managed q).
Qed.
Lemma same_unlinked h h' p : ho_links h' = ho_links h → unlinked h p → unlinked h' p.
Proof. intros Hl Hu q Hq; rewrite Hl; by apply Hu. Qed.
End Places.
