(* ===== verification/UpgradeLaws.v ===== *)
(** What an upgrade does to the host, step by step: the swap of the binary, the rest
    of the installation, and the restoration of what was there. *)
From stdpp Require Import gmap strings.
From S2P Require Import Prelude GoStrings Encodings Errors GoNumbers RegWorld Overrides Release Host.
From S2P Require Import InstallPlan Install InstallLaws.

(** * Definitions *)

(** The files an upgrade may write. *)
Definition managed_names (p : BootstrapPlan) (provenancePath : string) : list string :=
  [bp_BinaryPath p; bp_EnvPath p; bp_UnitPath p; bp_StatePath p; provenancePath].
Definition swap_prefix (p : BootstrapPlan) : string := foldr String.append "" ["."; filepath_Base (bp_BinaryPath p); ".upgrade-"].
Definition backup_prefix (p : BootstrapPlan) : string := foldr String.append "" ["."; filepath_Base (bp_BinaryPath p); ".backup-"].

Section Upgrade.
Context `{UnicodeTables, InstallText, HostEnv, InstallEnv}.

Definition managed_files (p : BootstrapPlan) (provenancePath : string) : list (list string) :=
  map to_path (managed_names p provenancePath).
Definition temp_dir (p : BootstrapPlan) : list string := to_path (filepath_Dir (bp_BinaryPath p)).

(** What an upgrade makes for a while: beside the binary, and where it stages. *)
Definition temp_names (p : BootstrapPlan) (x : string) : list (list string) :=
  [temp_dir p ++ [String.append (swap_prefix p) x]; temp_dir p ++ [String.append (backup_prefix p) x];
   to_path ienv_tmp ++ [String.append "regixtry-upgrade-" x]].
(** The installation [p] is in place on the host, its files can be reached without
    links, nothing has the name of a temporary file of an upgrade, and the files of
    its database are elsewhere. *)
Record installed (h : Host) (p : BootstrapPlan) (provenancePath : string) : Prop := {
  in_files q : q ∈ managed_files p provenancePath → q ≠ [] ∧ ∃ c t, ho_files h !! q = Some (File c t);
  in_links q : q ∈ managed_files p provenancePath → unlinked h q;
  in_distinct : NoDup (managed_files p provenancePath);
  in_base : no_char "/" (filepath_Base (bp_BinaryPath p)) = true;
  in_temp x : no_char "/" x = true → vacant h (temp_dir p ++ [String.append (swap_prefix p) x])
                                     ∧ vacant h (temp_dir p ++ [String.append (backup_prefix p) x]);
  in_stage x : no_char "/" x = true → vacant h (to_path ienv_tmp ++ [String.append "regixtry-upgrade-" x]);
  in_tmp : ienv_tmp ≠ "";
  in_database s : s ∈ database_files (bp_DatabasePath p) → unlinked h (to_path s) ∧ to_path s ∉ managed_files p provenancePath
    ∧ ∀ x q, no_char "/" x = true → q ∈ temp_names p x → ¬ q `prefix_of` to_path s;
}.
(** A file with these bytes. *)
Definition holds (h : Host) (s c : string) : Prop := ∃ t, ho_files h !! to_path s = Some (File c t).
(** Nothing that was there is lost. *)
Definition intact (h0 h : Host) : Prop := ho_links h = ho_links h0 ∧
  ∀ q c t, ho_files h0 !! q = Some (File c t) → ∃ t', ho_files h !! q = Some (File c t').

Definition stop_command (p : BootstrapPlan) : string * list string := ("systemctl", ["disable"; "--now"; service_unit (bp_ServiceName p)]).
Definition reload_command : string * list string := ("systemctl", ["daemon-reload"]).
Definition start_command (p : BootstrapPlan) : string * list string := ("systemctl", ["enable"; "--now"; service_unit (bp_ServiceName p)]).

(** * Lemmas *)

(** ** The record of commands *)

Lemma keeps_ran_call {A} (f : nat → Host → os_result (A * Host)) :
  (∀ n h a h', f n h = Ok (a, h') → ho_ran h' = ho_ran h) → keeps ho_ran (host_call f).
Proof.
  intros Hf h; unfold host_call; destruct (henv_fault _); [done|]; destruct (f _ h) as [[a h']|] eqn:He; [|done].
  by apply (Hf _ _ _ _ He).
Qed.
Lemma keeps_ran_files s f : keeps ho_ran (on_files s f).
Proof. apply keeps_ran_call; intros n h a h'; repeat case_match; try done; by intros [= <- <-]. Qed.
Lemma keeps_ran_write s data : keeps ho_ran (host_WriteFile s data).
Proof.
  intros h; unfold host_WriteFile; destruct (henv_fault (ho_calls h)), (henv_partial (ho_calls h)); try apply keeps_ran_files.
  repeat case_match; done.
Qed.
Lemma keeps_ran_mkdir s : keeps ho_ran (host_MkdirAll s).
Proof. apply keeps_ran_files. Qed.
Lemma keeps_ran_read s : keeps ho_ran (host_ReadFile s).
Proof. apply keeps_ran_call; intros n h a h'; repeat case_match; try done; by intros [= <- <-]. Qed.
Lemma keeps_ran_stat s : keeps ho_ran (host_Stat s).
Proof. apply keeps_ran_call; intros n h a h'; repeat case_match; try done; by intros [= <- <-]. Qed.
Lemma keeps_ran_remove_all s : keeps ho_ran (host_RemoveAll s).
Proof.
  intros h; unfold host_RemoveAll, host_call; destruct (henv_fault _), (at_entry h s) as [p|]; try done; by destruct (ho_links h !! p).
Qed.
Lemma keeps_ran_rename a b : keeps ho_ran (host_Rename a b).
Proof. apply keeps_ran_call; intros n h u h'; repeat case_match; try done; by intros [= <- <-]. Qed.
Lemma keeps_ran_create dir prefix : keeps ho_ran (host_CreateTemp dir prefix).
Proof. apply keeps_ran_call; intros n h a h'; cbv zeta; repeat case_match; try done; by intros [= <- <-]. Qed.
Lemma keeps_ran_temp dir prefix : keeps ho_ran (host_MkdirTemp dir prefix).
Proof. apply keeps_ran_call; intros n h a h'; cbv zeta; repeat case_match; try done; by intros [= <- <-]. Qed.
Lemma keeps_ran_ask {A} (f : nat → res A) : keeps ho_ran (host_ask f).
Proof. done. Qed.
Lemma keeps_ran_get url : keeps ho_ran (web_Get url).
Proof. done. Qed.
Lemma keeps_ran_chmod : keeps ho_ran chmod.
Proof. apply keeps_ran_call; by intros n h a h' [= _ <-]. Qed.
Lemma keeps_ran_close : keeps ho_ran close_file.
Proof. apply keeps_ran_chmod. Qed.
Lemma command_ran name args h r h' : runCommand name args h = (r, h') → ho_ran h' = (ho_ran h ++ [(name, args)])%list.
Proof. unfold runCommand; destruct (ienv_command _ _ _); by intros [= _ <-]. Qed.
Lemma wrap_snd {A} t (m : M Host A) h : (wrap t m h).2 = (m h).2.
Proof. unfold wrap; rewrite try_bind; by destruct (m h) as [[]]. Qed.
End Upgrade.
#[export] Hint Resolve keeps_ran_write keeps_ran_mkdir keeps_ran_read keeps_ran_stat keeps_ran_remove_all keeps_ran_rename
  keeps_ran_create keeps_ran_temp keeps_ran_ask keeps_ran_get keeps_ran_chmod keeps_ran_close : keeps.

Section Waiting.
Context `{UnicodeTables, InstallText, HostEnv, InstallEnv}.

Lemma keeps_poll {X} (f : Host → X) fuel k start url insecure : (∀ A (g : nat → res A), keeps f (host_ask g)) →
  keeps f (poll fuel k start url insecure).
Proof.
  intros Hf; revert k; induction fuel as [|fuel IH]; intros k; cbn [poll]; (apply keeps_bind; [apply keeps_attempt, Hf|intros r]); cbv zeta.
  - destruct r as [status|e]; [destruct (_ || _); [apply keeps_ret|]|]; apply keeps_throw.
  - destruct (match r with Ok _ => _ | Err _ => false end); [apply keeps_ret|].
    destruct (probeTimeout <? _); [apply keeps_throw|]; apply keeps_bind; [apply Hf|intros _; apply IH].
Qed.
Lemma keeps_wait {X} (f : Host → X) p : (∀ A (g : nat → res A), keeps f (host_ask g)) → keeps f (waitUntilReachable p).
Proof. intros Hf; apply keeps_bind; [apply keeps_lift|intros target h]; by apply keeps_poll. Qed.
Lemma keeps_disk_wait p : keeps disk (waitUntilReachable p).
Proof. apply keeps_wait; intros; apply keeps_disk_ask. Qed.
Lemma keeps_ran_wait p : keeps ho_ran (waitUntilReachable p).
Proof. apply keeps_wait; intros; apply keeps_ran_ask. Qed.
Lemma keeps_disk_detect : keeps disk Detect.
Proof. unfold Detect; keep. Qed.
Lemma keeps_ran_detect : keeps ho_ran Detect.
Proof. unfold Detect; keep. Qed.
End Waiting.
#[export] Hint Resolve keeps_disk_wait keeps_ran_wait keeps_disk_detect keeps_ran_detect : keeps.

(** ** Waiting *)

Section Polls.
Context `{UnicodeTables, InstallText, HostEnv, InstallEnv}.

(** The deadline comes before the fuel is used up. *)
Lemma poll_enough extra fuel k start url insecure h : (∀ k, Z.of_nat k * probeInterval ≤ ienv_elapsed start k) →
  (max_polls ≤ fuel + k)%nat → poll (fuel + extra) k start url insecure h = poll fuel k start url insecure h.
Proof.
  intros Hel; revert k h; induction fuel as [|fuel IH]; intros k h Hk.
  - destruct extra as [|extra]; [done|]; cbn [Nat.add poll]; rewrite !try_bind; cbv zeta.
    destruct (match _ with Ok _ => _ | Err _ => false end); [done|].
    assert (probeTimeout <? ienv_elapsed start k = true) as ->; [|done]; apply Z.ltb_lt; eapply Z.lt_le_trans; [|apply Hel].
    unfold max_polls in Hk; unfold probeTimeout, probeInterval, second, millisecond, microsecond; lia.
  - cbn [Nat.add poll]; rewrite !try_bind; cbv zeta; destruct (match _ with Ok _ => _ | Err _ => false end); [done|].
    destruct (probeTimeout <? _); [done|]; unfold sbind; destruct (host_ask _ _) as [[u|e] h1]; [|done]; apply IH; lia.
Qed.
Lemma poll_calls fuel k start url insecure h : (ho_calls (poll fuel k start url insecure h).2 ≤ ho_calls h + 2 * fuel + 1)%nat.
Proof.
  revert k h; induction fuel as [|fuel IH]; intros k h; cbn [poll]; rewrite try_bind; cbv zeta;
    (destruct (match _ with Ok _ => _ | Err _ => false end); [simpl; lia|]); [simpl; lia|].
  destruct (probeTimeout <? _); [simpl; lia|]; unfold sbind; destruct (host_ask _ _) as [[u|e] h1] eqn:Ha; injection Ha as _ <-; [|simpl; lia].
  etrans; [apply IH|]; simpl; lia.
Qed.
Lemma look url insecure h : probe url insecure h = (ienv_probe (ho_calls h) url insecure, host_tick h).
Proof. done. Qed.
Lemma poll_up fuel k start url insecure h : (poll fuel k start url insecure h).1 = Ok tt → ∃ n status,
  (ho_calls h ≤ n < ho_calls (poll fuel k start url insecure h).2)%nat ∧ ienv_probe n url insecure = Ok status ∧ (status = 200 ∨ status = 401).
Proof.
  revert k h; induction fuel as [|fuel IH]; intros k h; cbn [poll]; rewrite try_bind, look; cbv zeta; cbn [fst snd];
    destruct (match ienv_probe (ho_calls h) url insecure with Ok _ => _ | Err _ => false end) eqn:Hup.
  1, 3: intros _; destruct (ienv_probe (ho_calls h) url insecure) as [status|] eqn:Hp; [|done]; exists (ho_calls h), status; simpl;
    (split; [lia|split; [done|]]); apply orb_true_iff in Hup as [?%Z.eqb_eq|?%Z.eqb_eq]; tauto.
  - done.
  - destruct (probeTimeout <? _); [done|]; unfold sbind; destruct (host_ask _ _) as [[u|e] h1] eqn:Ha; [|done].
    injection Ha as _ <-; intros Hok; destruct (IH _ _ Hok) as (n & status & Hn & ? & ?); exists n, status; split; [simpl in Hn; lia|done].
Qed.
End Polls.

(** ** Where the steps write *)

Section Steps.
Context `{UnicodeTables, InstallText, HostEnv, InstallEnv, !HostLaws}.
Context (h0 : Host) (p : BootstrapPlan) (provenancePath : string) (Hin : installed h0 p provenancePath).
Notation managed q := (q ∈ managed_files p provenancePath).
Notation ok m := (safe h0 (λ q, managed q) m).

Lemma name_managed s : s ∈ managed_names p provenancePath → managed (to_path s).
Proof. intros Hs; unfold managed_files; rewrite list_elem_of_fmap; by exists s. Qed.
Lemma managed_at s : s ∈ managed_names p provenancePath → at_path h0 s = Ok (to_path s).
Proof. intros Hs; by apply at_path_unlinked, (in_links _ _ _ Hin), name_managed. Qed.
Lemma managed_entry s : s ∈ managed_names p provenancePath → at_entry h0 s = Ok (to_path s) ∧ ho_links h0 !! to_path s = None.
Proof.
  intros Hs; apply name_managed in Hs; pose proof (in_links _ _ _ Hin _ Hs) as Hu; destruct (in_files _ _ _ Hin _ Hs) as [Hn _].
  split; [by apply entry_unlinked|by apply Hu].
Qed.
Lemma free_managed q : managed q → free h0 (λ q, managed q) q.
Proof. by intros Hq Hn. Qed.
Lemma managed_not_vacant q r : managed q → vacant h0 r → ¬ r `prefix_of` q.
Proof. intros Hq (_ & _ & Hv) Hp; destruct (in_files _ _ _ Hin q Hq) as (_ & c & t & Hf); destruct (Hv q Hp) as [Hn _]; congruence. Qed.
Lemma segment_long s : no_char "/" s = true → (2 < String.length s)%nat → segment_ok s.
Proof. intros Hc Hl; split_and!; try done; intros ->; simpl in Hl; lia. Qed.
Lemma no_char_append c s t : no_char c (String.append s t) = no_char c s && no_char c t.
Proof. apply str_forallb_append. Qed.
Lemma swap_segment x : no_char "/" x = true →
  segment_ok (String.append (swap_prefix p) x) ∧ segment_ok (String.append (backup_prefix p) x).
Proof.
  intros Hx; pose proof (in_base _ _ _ Hin) as Hb; unfold swap_prefix, backup_prefix; cbn [foldr].
  split; (apply segment_long; [by rewrite !no_char_append, Hb, Hx|rewrite !length_append; simpl; lia]).
Qed.
Lemma dir_not_empty s : filepath_Dir s ≠ "".
Proof. unfold filepath_Dir, filepath_Clean; intros He; repeat case_match; try done; by apply String.eqb_neq in He. Qed.

(** The two temporary files of a swap. *)
Lemma swap_place x : no_char "/" x = true →
  let name := temp_name (filepath_Dir (bp_BinaryPath p)) (swap_prefix p) x in
  to_path name = temp_dir p ++ [String.append (swap_prefix p) x] ∧ vacant h0 (to_path name).
Proof.
  intros Hx name; unfold name; rewrite temp_path by (try apply dir_not_empty; by apply swap_segment); split; [done|].
  by apply (in_temp _ _ _ Hin).
Qed.
Lemma backup_place x : no_char "/" x = true →
  let name := temp_name (filepath_Dir (bp_BinaryPath p)) (backup_prefix p) x in
  to_path name = temp_dir p ++ [String.append (backup_prefix p) x] ∧ vacant h0 (to_path name).
Proof.
  intros Hx name; unfold name; rewrite temp_path by (try apply dir_not_empty; by apply swap_segment); split; [done|].
  by apply (in_temp _ _ _ Hin).
Qed.
Lemma swap_not_backup x y : temp_dir p ++ [String.append (swap_prefix p) x] ≠ temp_dir p ++ [String.append (backup_prefix p) y].
Proof.
  intros [_ He]%app_inj_tail; unfold swap_prefix, backup_prefix in He; cbn [foldr] in He; rewrite !append_nil_r in He.
  rewrite !append_assoc in He; apply append_inj_l, append_inj_l in He; discriminate He.
Qed.

(** ** Safety *)

Lemma safe_write_managed s data : s ∈ managed_names p provenancePath → ok (host_WriteFile s data).
Proof. intros Hs; apply safe_write; rewrite managed_at by done; intros q [= <-]; by apply free_managed, name_managed. Qed.
(** A place of the swap: the installed binary, or a temporary file. *)
Definition swappable (s : string) : Prop := s ∈ managed_names p provenancePath ∨ vacant h0 (to_path s).
Lemma swappable_at s : swappable s → at_entry h0 s = Ok (to_path s) ∧ ho_links h0 !! to_path s = None ∧ free h0 (λ q, managed q) (to_path s).
Proof.
  intros [Hs|Hv].
  - destruct (managed_entry s Hs); split_and!; [done..|by apply free_managed, name_managed].
  - destruct (vacant_at h0 _ s Hv eq_refl) as (_ & ? & ?); split_and!; [done..|by apply free_vacant].
Qed.
Lemma safe_rename_swap a b : swappable a → swappable b → ok (host_Rename a b).
Proof.
  intros Ha Hb; apply safe_rename; intros q [Hq|Hq].
  - destruct (swappable_at a Ha) as (He & ? & ?); rewrite He in Hq; by injection Hq as <-.
  - destruct (swappable_at b Hb) as (He & ? & ?); rewrite He in Hq; by injection Hq as <-.
Qed.
Lemma binary_swappable : swappable (bp_BinaryPath p).
Proof. left; by left. Qed.

(** ** The swap *)

Notation bin := (bp_BinaryPath p).
Notation dir := (filepath_Dir bin).
Definition swap_name (x : string) : string := temp_name dir (swap_prefix p) x.
Definition backup_name (x : string) : string := temp_name dir (backup_prefix p) x.
Notation entry h q := (ho_files h !! q).

Lemma swap_name_vacant x : no_char "/" x = true → vacant h0 (to_path (swap_name x)).
Proof. intros Hx; by apply swap_place. Qed.
Lemma backup_name_vacant x : no_char "/" x = true → vacant h0 (to_path (backup_name x)).
Proof. intros Hx; by apply backup_place. Qed.
Lemma names_apart x y : no_char "/" x = true → no_char "/" y = true → ¬ to_path (backup_name y) `prefix_of` to_path (swap_name x)
  ∧ to_path (swap_name x) ≠ to_path (backup_name y).
Proof.
  intros Hx Hy; destruct (swap_place x Hx) as [Hs _], (backup_place y Hy) as [Hb _]; unfold swap_name, backup_name; rewrite Hs, Hb.
  split; [|apply swap_not_backup]; intros [k Hk]; apply (f_equal length) in Hk as Hl; rewrite !length_app in Hl; simpl in Hl.
  destruct k; [|simpl in Hl; lia]; rewrite app_nil_r in Hk; by apply (swap_not_backup x y).
Qed.
Lemma binary_apart q : vacant h0 q → ¬ q `prefix_of` to_path bin ∧ q ≠ to_path bin.
Proof.
  intros Hv; assert (¬ q `prefix_of` to_path bin) as Hn by (apply managed_not_vacant; [apply name_managed; by left|done]).
  split; [done|]; by intros ->.
Qed.
Lemma at_same h s : ho_links h = ho_links h0 → at_path h s = at_path h0 s ∧ at_entry h s = at_entry h0 s.
Proof. intros Hl; split; [by apply at_path_same|unfold at_entry; by rewrite Hl]. Qed.
(** What a step that succeeds leaves, on a host with the links of the start. *)
Notation linked h := (ho_links h = ho_links h0).
Lemma quiet_step {A} (m : M Host A) h r h' : keeps disk m → m h = (r, h') → ho_files h' = ho_files h ∧ ho_links h' = ho_links h.
Proof. intros Hm He; specialize (Hm h); rewrite He in Hm; by injection Hm as -> ->. Qed.
Lemma wrote s q data h u h' : linked h → at_path h0 s = Ok q → host_WriteFile s data h = (Ok u, h') →
  linked h' ∧ ∃ t, ho_files h' = <[q := File data t]> (ho_files h).
Proof.
  intros Hl Hq Hw; pose proof (keeps_links_Write s data h) as Hk; rewrite Hw in Hk; simpl in Hk; split; [congruence|].
  apply write_ok in Hw as (q' & t & Hq' & Hf); rewrite (proj1 (at_same h s Hl)), Hq in Hq'; injection Hq' as <-; by exists t.
Qed.
Lemma created prefix h name h' : linked h → (∀ x, no_char "/" x = true → vacant h0 (to_path (temp_name dir prefix x))) →
  host_CreateTemp dir prefix h = (Ok name, h') → linked h' ∧ ∃ x t, no_char "/" x = true ∧ name = temp_name dir prefix x
    ∧ entry h (to_path name) = None ∧ ho_files h' = <[to_path name := File "" t]> (ho_files h).
Proof.
  intros Hl Hv Hc; pose proof (safe_create_temp h (λ _, True) dir prefix h (kept_refl _ _)) as Hk; rewrite Hc in Hk.
  apply kp_links in Hk; simpl in Hk; split; [congruence|]; clear Hk; apply create_temp_ok in Hc as (x & q & -> & Hq & Hnone & Hf).
  exists (henv_temp x (ho_files h)); eexists; assert (no_char "/" (henv_temp x (ho_files h)) = true) as Hx by apply henv_temp_law.
  rewrite (proj1 (at_same h _ Hl)) in Hq; destruct (vacant_at h0 _ _ (Hv _ Hx) eq_refl) as (Ha & _).
  rewrite Ha in Hq; injection Hq as <-; split_and!; [done|done|exact Hnone|exact Hf].
Qed.
Lemma removed s h u h' : linked h → vacant h0 (to_path s) → host_RemoveAll s h = (Ok u, h') →
  linked h' ∧ ho_files h' = fs_remove_all (ho_files h) (to_path s).
Proof.
  intros Hl Hv Hr; destruct (vacant_at h0 _ s Hv eq_refl) as (_ & He & Hn); rewrite <- (proj2 (at_same h s Hl)) in He; rewrite <- Hl in Hn.
  split; [|by eapply remove_all_ok]; revert Hr; unfold host_RemoveAll, host_call; rewrite He; destruct (henv_fault _); [done|].
  rewrite Hn; intros [= _ <-]; simpl; rewrite Hl; apply map_filter_id; intros k t Hk; apply bool_decide_eq_false; intros Hq.
  destruct Hv as (_ & _ & Hv); destruct (Hv k Hq) as [_ Hx]; by rewrite Hx in Hk.
Qed.
(** Whether it succeeds or not, a removal changes nothing elsewhere. *)
Lemma removed_off s h r h' : linked h → vacant h0 (to_path s) → host_RemoveAll s h = (r, h') →
  same_off (to_path s) (ho_files h) (ho_files h').
Proof.
  intros Hl Hv Hr x Hx; destruct r as [u|e].
  - eapply removed in Hr as [_ ->]; [|done..]; by apply remove_all_other.
  - apply remove_all_err in Hr as [[[= -> _] _]|(q & Hq & [_ Hf _ _])]; [done|].
    destruct (vacant_at h0 _ s Hv eq_refl) as (_ & He & _); rewrite <- (proj2 (at_same h s Hl)), Hq in He; injection He as ->.
    by destruct (Hf x) as [?|(? & _)].
Qed.
Lemma renamed a b h u h' : linked h → swappable a → swappable b → host_Rename a b h = (Ok u, h') →
  linked h' ∧ ∃ c t, entry h (to_path a) = Some (File c t) ∧ ho_files h' = <[to_path b := File c t]> (delete (to_path a) (ho_files h)).
Proof.
  intros Hl Ha Hb Hr; destruct (swappable_at a Ha) as (Hea & Hna & _), (swappable_at b Hb) as (Heb & _).
  rewrite <- (proj2 (at_same h a Hl)) in Hea; rewrite <- (proj2 (at_same h b Hl)) in Heb; rewrite <- Hl in Hna; split; [|by eapply rename_ok].
  revert Hr; unfold host_Rename, host_call; destruct (henv_fault _); [done|]; rewrite Hea, Heb, Hna.
  destruct (fs_rename _ _ _); [|done]; by intros [= _ <-].
Qed.

Lemma swap_files_ok x staged h backup h' : no_char "/" x = true → linked h →
  swap_files dir (filepath_Base bin) bin staged (swap_name x) h = (Ok backup, h') → linked h' ∧
  ∃ y content h1 t, no_char "/" y = true ∧ backup = backup_name y ∧ host_ReadFile staged h = (Ok content, h1)
    ∧ entry h' (to_path backup) = entry h (to_path bin) ∧ entry h' (to_path bin) = Some (File content t).
Proof.
  intros Hx Hl; pose proof (swap_name_vacant x Hx) as Hsv; destruct (vacant_at h0 _ _ Hsv eq_refl) as (Hsp & _); unfold swap_files.
  intros (content & h1 & Hread%wrap_ok & Hr)%bind_ok; destruct (quiet_step _ _ _ _ (keeps_disk_Read staged) Hread) as [Hf1 Hl1].
  apply bind_ok in Hr as (u2 & h2 & Hw%wrap_ok & Hr); eapply wrote in Hw as (Hl2 & t2 & Hf2); [|congruence|exact Hsp].
  apply bind_ok in Hr as (u3 & g3 & Hc%wrap_ok & Hr); destruct (quiet_step _ _ _ _ keeps_disk_chmod Hc) as [Gf3 Gl3].
  apply bind_ok in Hr as (v3 & h3 & Hd%wrap_ok & Hr); destruct (quiet_step _ _ _ _ keeps_disk_close Hd) as [Hf3 Hl3]; rewrite Gf3 in Hf3.
  rewrite Gl3 in Hl3.
  apply bind_ok in Hr as (name & g4 & Hcr%wrap_ok & Hr).
  apply bind_ok in Hr as (v4 & h4 & Hd4%wrap_ok & Hr); destruct (quiet_step _ _ _ _ keeps_disk_close Hd4) as [Gf4 Gl4].
  apply created in Hcr as (Hl4 & y & t4 & Hy & -> & _ & Hf4); [|congruence|intros; by apply backup_name_vacant].
  rewrite <- Gf4 in Hf4; rewrite <- Gl4 in Hl4.
  change (temp_name dir _ y) with (backup_name y) in *; pose proof (backup_name_vacant y Hy) as Hbv.
  apply bind_ok in Hr as (u5 & h5 & Hrm%wrap_ok & Hr); apply removed in Hrm as [Hl5 Hf5]; [|done..].
  apply bind_ok in Hr as (u6 & h6 & Hrn%wrap_ok & Hr); apply renamed in Hrn as (Hl6 & c & t & Hc6 & Hf6);
    [|done|apply binary_swappable|by right].
  rewrite try_bind in Hr; destruct (wrap _ _ h6) as [[u7|e] h7] eqn:Hact; simpl in Hr.
  2: { rewrite try_bind in Hr; by destruct (wrap _ _ h7) as [[] ?]. }
  injection Hr as <- <-; apply wrap_ok, renamed in Hact as (Hl7 & c' & t' & Hc7 & Hf7); [|done|by right|apply binary_swappable].
  split; [done|]; destruct (names_apart x y Hx Hy) as [Hnp Hne], (binary_apart _ Hsv) as [Hb1 Hb2], (binary_apart _ Hbv) as [Hb3 Hb4].
  exists y, content, h1, t2; split_and!; [done..| |].
  - rewrite Hf7, lookup_insert_ne, lookup_delete_ne, Hf6, lookup_insert_eq by done; rewrite <- Hc6, Hf5, remove_all_other by done.
    by rewrite Hf4, lookup_insert_ne, Hf3, Hf2, lookup_insert_ne, Hf1.
  - rewrite Hf7, lookup_insert_eq, <- Hc7, Hf6, lookup_insert_ne, lookup_delete_ne, Hf5, remove_all_other by done.
    by rewrite Hf4, lookup_insert_ne, Hf3, Hf2, lookup_insert_eq.
Qed.
Lemma swap_ok staged q content0 t0 h backup h' : linked h → at_path h0 staged = Ok q → entry h q = Some (File content0 t0) →
  swapInstalledBinary bin staged h = (Ok backup, h') → linked h' ∧
  ∃ y t, no_char "/" y = true ∧ backup = backup_name y
    ∧ entry h' (to_path backup) = entry h (to_path bin) ∧ entry h' (to_path bin) = Some (File content0 t).
Proof.
  intros Hl Hq Hc; unfold swapInstalledBinary; intros (name & h1 & Hcr%wrap_ok & Hr)%bind_ok.
  apply created in Hcr as (Hl1 & x & t1 & Hx & -> & Hn & Hf1); [|done|intros; by apply swap_name_vacant].
  rewrite try_bind in Hr; destruct (swap_files _ _ _ _ _ h1) as [[b|e] h2] eqn:Hs; simpl in Hr.
  2: { rewrite try_bind in Hr; by destruct (host_RemoveAll _ h2) as [[] ?]. }
  injection Hr as -> ->; destruct (swap_files_ok x staged h1 backup h' Hx Hl1 Hs) as (Hl2 & y & content & h3 & t & Hy & Hb & Hread & He & Hbin).
  split; [done|]; exists y, t; split_and!; [done..| |].
  - rewrite He, Hf1, lookup_insert_ne; [done|]; apply binary_apart; by apply swap_name_vacant.
  - rewrite Hbin; do 2 f_equal; apply read_ok in Hread as (q' & t' & Hq' & Hc'); rewrite (proj1 (at_same h1 staged Hl1)), Hq in Hq'.
    injection Hq' as <-; rewrite Hf1, lookup_insert_ne in Hc' by (intros He'; by rewrite <- He', Hn in Hc); congruence.
Qed.

Lemma safe_swap_files staged x : no_char "/" x = true → ok (swap_files dir (filepath_Base bin) bin staged (swap_name x)).
Proof.
  intros Hx; pose proof (swap_name_vacant x Hx) as Hsv; unfold swap_files.
  apply safe_bind; [safely|intros content]; apply safe_bind; [by eapply safe_wrap, safe_write_vacant|intros _].
  apply safe_bind; [safely|intros _]; apply safe_bind; [safely|intros _]; apply safe_bind_res; [safely|intros name h h' Hc%wrap_ok].
  apply create_temp_ok in Hc as (n & q & -> & _); pose proof (backup_name_vacant _ (henv_temp_law n (ho_files h))) as Hbv.
  change (temp_name dir _ ?y) with (backup_name y); apply safe_bind; [safely|intros _].
  apply safe_bind; [by eapply safe_wrap, safe_remove_vacant|intros _].
  apply safe_bind; [apply safe_wrap, safe_rename_swap; [apply binary_swappable|by right]|intros _].
  apply safe_bind; [apply safe_attempt, safe_wrap, safe_rename_swap; [by right|apply binary_swappable]|intros [u|e]; [safely|]].
  apply safe_bind; [apply safe_attempt, safe_wrap, safe_rename_swap; [by right|apply binary_swappable]|intros r; apply safe_throw].
Qed.
Lemma safe_swap staged : ok (swapInstalledBinary bin staged).
Proof.
  apply safe_bind_res; [safely|intros name h h' Hc%wrap_ok]; apply create_temp_ok in Hc as (n & q & -> & _).
  pose proof (henv_temp_law n (ho_files h)) as Hx; change (temp_name dir _ ?y) with (swap_name y).
  apply safe_bind; [by apply safe_attempt, safe_swap_files|intros [backup|e]; [safely|]].
  apply safe_bind; [eapply safe_attempt, safe_remove_vacant; [by apply swap_name_vacant|done]|intros r; apply safe_throw].
Qed.

(** ** After the swap *)

Context (Htrim : trim_space provenancePath = provenancePath).

Lemma managed_cases s : s ∈ managed_names p provenancePath ↔
  s = bin ∨ s = bp_EnvPath p ∨ s = bp_UnitPath p ∨ s = bp_StatePath p ∨ s = provenancePath.
Proof. unfold managed_names; rewrite !elem_of_cons; set_solver. Qed.
Lemma safe_write_base base s data : linked base → s ∈ managed_names p provenancePath →
  safe base (λ q, managed q) (host_WriteFile s data).
Proof.
  intros Hl Hs; apply safe_write; rewrite (proj1 (at_same base s Hl)), managed_at by done; intros q [= <-] Hn.
  exfalso; by apply Hn, name_managed.
Qed.
Lemma safe_mkdirs base m dirs : safe base m (mkdirs dirs).
Proof. induction dirs as [|d dirs IH]; cbn [mkdirs]; safely. Qed.
Lemma normalized_state_path q r : normalizeLifecycleProvenance q = Ok r → lp_StatePath r = trim_space (lp_StatePath q).
Proof. unfold normalizeLifecycleProvenance; cbv zeta; repeat case_match; try done; by intros [= <-]. Qed.
Lemma safe_settle base asset : linked base → safe base (λ q, managed q) (settle_upgrade p provenancePath asset).
Proof.
  intros Hl; assert (∀ s data, s = bp_EnvPath p ∨ s = bp_UnitPath p ∨ s = bp_StatePath p ∨ s = provenancePath →
    safe base (λ q, managed q) (host_WriteFile s data)) as Hw.
  { intros s data Hs; apply safe_write_base; [done|]; rewrite managed_cases; by right. }
  pose proof (safe_mkdirs base (λ q, managed q)) as Hd.
  unfold settle_upgrade, writeManagedArtifacts, writeBootstrapReceipt, systemctl_reload, systemctl_enable, SaveLifecycleProvenance.
  repeat (first [match goal with |- safe _ _ (sbind _ _) => apply safe_bind_res; [|intros ? ? ? ?] end|apply Hd|apply Hw; tauto|safe_step]).
  match goal with Hn : slift _ _ = _ |- _ => injection Hn as Hn _ end.
  apply Hw; right; right; right; erewrite normalized_state_path by eassumption; exact Htrim.
Qed.

(** ** The restoration *)

Definition artifacts (b : managedRuntimeBackup) : list managedRuntimeArtifactBackup :=
  [mb_Binary b; mb_Env b; mb_Unit b; mb_BootstrapReceipt b; mb_Provenance b].
(** [b] is a copy of what was there at the start. *)
Record backed_up (b : managedRuntimeBackup) : Prop := {
  bu_plan : mb_Plan b = p;
  bu_paths : map ma_Path (artifacts b) = managed_names p provenancePath;
  bu_bodies a : a ∈ artifacts b → holds h0 (ma_Path a) (ma_Body a);
}.
(** The error says that what was copied could not be put back, and why. *)
Definition restoration_failed (e : error) : Prop := ∃ b h e1 e2 h',
  backed_up b ∧ restoreManagedRuntimeBackup b h = (Err e2, h') ∧ errors_Join [e1; e2] = Some e.
Lemma artifact_name b a : backed_up b → a ∈ artifacts b → ma_Path a ∈ managed_names p provenancePath.
Proof. intros Hb Ha; rewrite <- (bu_paths _ Hb), list_elem_of_fmap; by exists a. Qed.
Lemma same_bodies b a a' : backed_up b → a ∈ artifacts b → a' ∈ artifacts b → to_path (ma_Path a) = to_path (ma_Path a') →
  ma_Body a = ma_Body a'.
Proof.
  intros Hb Ha Ha' He; destruct (bu_bodies _ Hb a Ha) as [t Ht], (bu_bodies _ Hb a' Ha') as [t' Ht']; rewrite He in Ht; congruence.
Qed.
Lemma write_restores b a h u h' : backed_up b → a ∈ artifacts b → linked h →
  host_WriteFile (ma_Path a) (ma_Body a) h = (Ok u, h') → linked h' ∧ holds h' (ma_Path a) (ma_Body a)
  ∧ ∀ a', a' ∈ artifacts b → holds h (ma_Path a') (ma_Body a') → holds h' (ma_Path a') (ma_Body a').
Proof.
  intros Hb Ha Hl Hw; eapply wrote in Hw as [Hl' [t Hf]]; [|done|by eapply managed_at, artifact_name]; split_and!; [done|..].
  - exists t; by rewrite Hf, lookup_insert_eq.
  - intros a' Ha' [t' Ht']; unfold holds; rewrite Hf; destruct (decide (to_path (ma_Path a) = to_path (ma_Path a'))) as [He|Hne].
    + exists t; by rewrite <- He, lookup_insert_eq, (same_bodies b a a').
    + exists t'; by rewrite lookup_insert_ne.
Qed.

(** Reading the files of the installation. *)
Lemma captured s e1 e2 h a h' : s ∈ managed_names p provenancePath → kept h0 (λ _, False) h →
  captureManagedRuntimeArtifact s e1 e2 h = (Ok a, h') → disk h' = disk h ∧ ma_Path a = s ∧ holds h0 s (ma_Body a).
Proof.
  intros Hs K; unfold captureManagedRuntimeArtifact; intros (body & h1 & Hr%wrap_ok & Hc)%bind_ok.
  apply bind_ok in Hc as (found & h2 & Hst%wrap_ok & Hc); destruct found; [|done]; injection Hc as <- <-.
  destruct (quiet_step _ _ _ _ (keeps_disk_Read s) Hr) as [Hf1 Hl1], (quiet_step _ _ _ _ (keeps_disk_Stat s) Hst) as [Hf2 Hl2].
  split; [unfold disk; by rewrite Hf2, Hl2, Hf1, Hl1|split; [done|]].
  apply read_ok in Hr as (q & t & Hq & Hc); rewrite (proj1 (at_same h s (kp_links _ _ _ K))), managed_at in Hq by done.
  injection Hq as <-; destruct (in_files _ _ _ Hin _ (name_managed _ Hs)) as (_ & c & t' & Hc0); exists t'.
  rewrite (kp_files _ _ _ K _ c t') in Hc by (done || by intros []); simpl; congruence.
Qed.
Lemma capture_ok h b h' : kept h0 (λ _, False) h → captureManagedRuntimeBackup p provenancePath h = (Ok b, h') →
  disk h' = disk h ∧ backed_up b ∧ mb_BackupPath b = "".
Proof.
  intros K; unfold captureManagedRuntimeBackup.
  intros (a1 & h1 & C1 & (a2 & h2 & C2 & (a3 & h3 & C3 & (a4 & h4 & C4 & (a5 & h5 & C5 & [= <- <-])%bind_ok)%bind_ok)%bind_ok)%bind_ok)%bind_ok.
  apply captured in C1 as (D1 & P1 & B1); [|rewrite managed_cases; tauto|done].
  apply captured in C2 as (D2 & P2 & B2); [|rewrite managed_cases; tauto|eapply kept_disk; [|exact K]; congruence].
  apply captured in C3 as (D3 & P3 & B3); [|rewrite managed_cases; tauto|eapply kept_disk; [|exact K]; congruence].
  apply captured in C4 as (D4 & P4 & B4); [|rewrite managed_cases; tauto|eapply kept_disk; [|exact K]; congruence].
  apply captured in C5 as (D5 & P5 & B5); [|rewrite managed_cases; tauto|eapply kept_disk; [|exact K]; congruence].
  split; [congruence|split; [|done]]; split; [done| |]; cbn [artifacts map mb_Binary mb_Env mb_Unit mb_BootstrapReceipt mb_Provenance].
  - by rewrite P1, P2, P3, P4, P5.
  - intros a; unfold artifacts; simpl; rewrite !elem_of_cons; intros [->|[->|[->|[->|[->|[]%not_elem_of_nil]]]]]; by rewrite ?P1, ?P2, ?P3, ?P4, ?P5.
Qed.

(** Putting the binary back, from where it was moved or from its copy. *)
Definition moved (b : managedRuntimeBackup) (h : Host) : Prop :=
  mb_BackupPath b = "" ∨ ∃ y, no_char "/" y = true ∧ mb_BackupPath b = backup_name y ∧ holds h (mb_BackupPath b) (ma_Body (mb_Binary b)).
Lemma rollback_name y : no_char "/" y = true → String.append (backup_name y) ".rollback" = backup_name (String.append y ".rollback")
  ∧ no_char "/" (String.append y ".rollback") = true.
Proof.
  intros Hy; split; [|by rewrite no_char_append, Hy]; unfold backup_name, temp_name; cbn [foldr].
  by rewrite !append_nil_r, !append_assoc.
Qed.
Lemma backup_apart y z : backup_name y ≠ "" ∧ (no_char "/" y = true → no_char "/" z = true → y ≠ z → to_path (backup_name y) ≠ to_path (backup_name z)).
Proof.
  split.
  - unfold backup_name, temp_name; cbn [foldr]; pose proof (dir_not_empty bin); by destruct dir.
  - intros Hy Hz Hn He; destruct (backup_place y Hy) as [Ey _], (backup_place z Hz) as [Ez _]; unfold backup_name in He.
    rewrite Ey, Ez in He; apply app_inj_tail in He as [_ He]; by apply append_inj_l in He.
Qed.
Lemma binary_name b : backed_up b → ma_Path (mb_Binary b) = bin.
Proof. intros Hb; pose proof (bu_paths _ Hb) as Hp; by injection Hp. Qed.
Lemma restore_binary_ok b h h' : backed_up b → linked h → moved b h → restore_binary b h = (Ok [], h') →
  linked h' ∧ holds h' bin (ma_Body (mb_Binary b)).
Proof.
  intros Hb Hl Hm; pose proof (binary_name b Hb) as Hbin; unfold restore_binary; destruct Hm as [->|(y & Hy & Hbk & [t0 Hh])]; cbn [blank String.eqb].
  { intros (u & h1 & Hw%wrap_ok & [= <-])%collect_cons; apply (write_restores b) in Hw as (? & Hw & _); [|done|by left|done].
    by rewrite <- Hbin. }
  assert (blank (mb_BackupPath b) = false) as -> by (rewrite Hbk; apply String.eqb_neq, backup_apart; exact "").
  rewrite Hbin, Hbk in *; destruct (rollback_name y Hy) as [-> Hz]; set (z := String.append y ".rollback") in *.
  pose proof (backup_name_vacant y Hy) as Vy; pose proof (backup_name_vacant z Hz) as Vz.
  assert (y ≠ z) as Hyz by (intros He; apply (f_equal String.length) in He; unfold z in He; rewrite length_append in He; simpl in He; lia).
  destruct (backup_apart y z) as [_ Hap]; specialize (Hap Hy Hz Hyz); destruct (binary_apart _ Vy) as [By By'], (binary_apart _ Vz) as [Bz Bz'].
  rewrite try_bind; destruct (wrap _ _ h) as [[u|e] h1] eqn:R1; cbn [fst snd]; [|done].
  apply wrap_ok, renamed in R1 as (Hl1 & c1 & t1 & _ & Hf1); [|done|apply binary_swappable|by right].
  rewrite try_bind; destruct (wrap _ _ h1) as [[u'|e] h2] eqn:R2; cbn [fst snd]; [|intros Hc; by apply collect_more in Hc].
  apply wrap_ok, renamed in R2 as (Hl2 & c2 & t2 & Hc2 & Hf2); [|done|by right|apply binary_swappable].
  intros (u3 & h3 & R3%wrap_ok & [= <-])%collect_cons; apply removed in R3 as [Hl3 Hf3]; [|done..]; split; [done|].
  exists t2; rewrite Hf3, remove_all_other, Hf2, lookup_insert_eq by done; do 2 f_equal.
  rewrite Hf1, lookup_insert_ne, lookup_delete_ne in Hc2 by done; congruence.
Qed.

Lemma safe_restore_binary b : backed_up b → (mb_BackupPath b = "" ∨ ∃ y, no_char "/" y = true ∧ mb_BackupPath b = backup_name y) →
  ok (restore_binary b).
Proof.
  intros Hb Hm; pose proof (binary_name b Hb) as Hbin; unfold restore_binary; rewrite Hbin.
  assert (∀ l, (∀ m, m ∈ l → ok m) → ok (collect l)) as Hc by (intros l Hl; by apply safe_collect).
  destruct (blank _) eqn:He; [apply Hc; intros m Hin'|].
  { apply list_elem_of_singleton in Hin' as ->; apply safe_wrap, safe_write_managed; rewrite managed_cases; by left. }
  destruct Hm as [Hm|(y & Hy & ->)]; [by rewrite Hm in He|].
  destruct (rollback_name y Hy) as [-> Hz]; pose proof (backup_name_vacant y Hy) as Vy; pose proof (backup_name_vacant _ Hz) as Vz.
  apply safe_bind; [apply safe_attempt, safe_wrap, safe_rename_swap; [apply binary_swappable|by right]|intros [u|e]; [|apply safe_ret]].
  apply safe_bind; [apply safe_attempt, safe_wrap, safe_rename_swap; [by right|apply binary_swappable]|intros [u'|e]].
  - apply Hc; intros m Hin'; apply list_elem_of_singleton in Hin' as ->; by eapply safe_wrap, safe_remove_vacant.
  - apply safe_bind; [|intros errs; apply safe_ret]; apply Hc; intros m Hin'; apply list_elem_of_singleton in Hin' as ->.
    apply safe_wrap, safe_rename_swap; [by right|apply binary_swappable].
Qed.
Lemma safe_artifact b a label : backed_up b → a ∈ artifacts b → ok (restore_artifact label a).
Proof. intros Hb Ha; apply safe_wrap, safe_write_managed; by apply (artifact_name b). Qed.
Lemma safe_restore b : backed_up b → (mb_BackupPath b = "" ∨ ∃ y, no_char "/" y = true ∧ mb_BackupPath b = backup_name y) →
  ok (restoreManagedRuntimeBackup b).
Proof.
  intros Hb Hm; unfold restoreManagedRuntimeBackup; apply safe_bind; [by apply safe_restore_binary|intros errs].
  apply safe_bind; [|intros more; apply safe_joined]; apply (safe_collect h0 (λ q, managed q)); intros m Hm'.
  repeat (apply elem_of_cons in Hm' as [->|Hm']; [first [by eapply safe_artifact; [done|unfold artifacts; set_solver]|safely]|]).
  by apply not_elem_of_nil in Hm'.
Qed.
Lemma restored_all b h' : backed_up b → kept h0 (λ q, managed q) h' → (∀ a, a ∈ artifacts b → holds h' (ma_Path a) (ma_Body a)) →
  intact h0 h'.
Proof.
  intros Hb K Ha; split; [by apply (kp_links _ _ _ K)|]; intros q c t Hq; destruct (decide (managed q)) as [Hm|Hn]; [|exists t; by apply (kp_files _ _ _ K)].
  unfold managed_files in Hm; apply list_elem_of_fmap in Hm as (s & -> & Hs); rewrite <- (bu_paths _ Hb), list_elem_of_fmap in Hs.
  destruct Hs as (a & -> & Hin'); destruct (Ha a Hin') as [t' Ht']; exists t'; rewrite Ht'.
  destruct (bu_bodies _ Hb a Hin') as [t2 Ht2]; congruence.
Qed.
Lemma restore_ok b h u h' : backed_up b → kept h0 (λ q, managed q) h → moved b h → restoreManagedRuntimeBackup b h = (Ok u, h') →
  intact h0 h' ∧ ho_ran h' = (ho_ran h ++ [reload_command; start_command p])%list.
Proof.
  intros Hb K Hm Hr; assert (kept h0 (λ q, managed q) h') as K'.
  { pose proof (safe_restore b Hb) as Hs; specialize (Hs ltac:(destruct Hm as [?|(y & ? & ? & _)]; [by left|right; by exists y]) h K).
    by rewrite Hr in Hs. }
  unfold restoreManagedRuntimeBackup in Hr; apply bind_ok in Hr as (errs & h1 & Hbin & Hr).
  apply bind_ok in Hr as (more & h2 & Hc & Hj%joined_ok); destruct Hj as [[-> ->]%app_nil ->].
  assert (ho_ran h1 = ho_ran h) as Hran1.
  { assert (keeps ho_ran (restore_binary b)) as Hk; [|specialize (Hk h); by rewrite Hbin in Hk].
    unfold restore_binary; cbn [collect]; keep. }
  apply restore_binary_ok in Hbin as [Hl1 H1']; [|done|by apply (kp_links _ _ _ K)|done].
  apply collect_cons in Hc as (u1 & g1 & W1 & Hc); apply collect_cons in Hc as (u2 & g2 & W2 & Hc).
  apply collect_cons in Hc as (u3 & g3 & W3 & Hc); apply collect_cons in Hc as (u4 & g4 & W4 & Hc).
  apply collect_cons in Hc as (u5 & g5 & C5 & Hc); apply collect_cons in Hc as (u6 & g6 & C6 & Hc).
  apply collect_cons in Hc as (u7 & g7 & C7 & [= <-]).
  assert (∀ label a x u y, restore_artifact label a x = (Ok u, y) → host_WriteFile (ma_Path a) (ma_Body a) x = (Ok u, y)
    ∧ ho_ran y = ho_ran x) as Hart.
  { intros label a x v y Hx%wrap_ok; split; [done|]; pose proof (keeps_ran_write (ma_Path a) (ma_Body a) x) as Hk; by rewrite Hx in Hk. }
  apply Hart in W1 as [W1 R1], W2 as [W2 R2], W3 as [W3 R3], W4 as [W4 R4]; clear Hart; rewrite <- (binary_name b Hb) in H1'.
  apply (write_restores b) in W1 as (L1 & E1 & P1); [|done|unfold artifacts; set_solver|done].
  apply (write_restores b) in W2 as (L2 & E2 & P2); [|done|unfold artifacts; set_solver|done].
  apply (write_restores b) in W3 as (L3 & E3 & P3); [|done|unfold artifacts; set_solver|done].
  apply (write_restores b) in W4 as (L4 & E4 & P4); [|done|unfold artifacts; set_solver|done].
  apply wrap_ok in C5, C6, C7; pose proof (command_ran _ _ _ _ _ C5) as R5; pose proof (command_ran _ _ _ _ _ C6) as R6.
  destruct (quiet_step _ _ _ _ (keeps_disk_command _ _) C5) as [F5 _], (quiet_step _ _ _ _ (keeps_disk_command _ _) C6) as [F6 _],
    (quiet_step _ _ _ _ (keeps_disk_wait _) C7) as [F7 _].
  pose proof (keeps_ran_wait (mb_Plan b) g6) as R7; rewrite C7 in R7; simpl in R7; split.
  - apply (restored_all b); [done..|]; intros a Ha; unfold holds; rewrite F7, F6, F5; revert a Ha.
    assert (∀ a, a ∈ artifacts b → holds g4 (ma_Path a) (ma_Body a)) as Hall; [|done].
    intros a; unfold artifacts; rewrite !elem_of_cons; intros Ha.
    destruct Ha as [->|[->|[->|[->|[->|Ha]]]]]; [..|by apply not_elem_of_nil in Ha];
      (first [exact E4|apply P4; [unfold artifacts; set_solver|]; first [exact E3|apply P3; [unfold artifacts; set_solver|];
        first [exact E2|apply P2; [unfold artifacts; set_solver|]; first [exact E1|apply P1; [unfold artifacts; set_solver|exact H1']]]]]).
  - rewrite R7, R6, R5, R4, R3, R2, R1, Hran1, <- app_assoc; unfold start_command; by rewrite (bu_plan _ Hb).
Qed.

(** ** The replacement *)

Lemma rolling_back_err {A} b (m : M Host A) h e h' : rolling_back b m h = (Err e, h') → ∃ e1 h1 r, m h = (Err e1, h1)
  ∧ restoreManagedRuntimeBackup b h1 = (r, h') ∧ match r with Ok _ => True | Err e2 => errors_Join [e1; e2] = Some e end.
Proof.
  unfold rolling_back; rewrite try_bind; destruct (m h) as [[a|e1] h1]; cbn [fst snd]; [done|]; rewrite try_bind.
  destruct (restoreManagedRuntimeBackup b h1) as [[u|e2] h2] eqn:Hr; cbn [fst snd]; intros [= Hx ->].
  - by exists e1, h1, (Ok u).
  - exists e1, h1, (Err e2); split_and!; [done..|]; by rewrite <- Hx.
Qed.
Lemma rolling_back_ok {A} b (m : M Host A) h a h' : rolling_back b m h = (Ok a, h') → m h = (Ok a, h').
Proof.
  unfold rolling_back; rewrite try_bind; destruct (m h) as [[a'|e1] h1]; cbn [fst snd]; [by intros [= -> ->]|]; rewrite try_bind.
  by destruct (restoreManagedRuntimeBackup b h1) as [[u|e2] h2].
Qed.
(** The record of commands only grows. *)
Definition grows {A} (m : M Host A) : Prop := ∀ h, ∃ l, ho_ran (m h).2 = (ho_ran h ++ l)%list.
Lemma grows_keeps {A} (m : M Host A) : keeps ho_ran m → grows m.
Proof. intros Hm h; exists []; by rewrite Hm, app_nil_r. Qed.
Lemma grows_command name args : grows (runCommand name args).
Proof. intros h; exists [(name, args)]; destruct (runCommand name args h) as [r h'] eqn:Hr; by apply command_ran in Hr. Qed.
Lemma grows_bind {A B} (m : M Host A) (k : A → M Host B) : grows m → (∀ a, grows (k a)) → grows (sbind m k).
Proof.
  intros Hm Hk h; destruct (Hm h) as [l Hl]; unfold sbind; destruct (m h) as [[a|e] h']; simpl in *; [|by exists l].
  destruct (Hk a h') as [l' Hl']; exists (l ++ l')%list; by rewrite Hl', Hl, app_assoc.
Qed.
Lemma grows_wrap {A} t (m : M Host A) : grows m → grows (wrap t m).
Proof. intros Hm h; rewrite wrap_snd; apply Hm. Qed.
Lemma keeps_ran_mkdirs dirs : keeps ho_ran (mkdirs dirs).
Proof. induction dirs as [|d dirs IH]; cbn [mkdirs]; keep. Qed.
Lemma grows_finish asset backupPath : grows (finish_upgrade p provenancePath asset backupPath).
Proof.
  pose proof keeps_ran_mkdirs as Hd.
  unfold finish_upgrade, settle_upgrade, writeManagedArtifacts, writeBootstrapReceipt, SaveLifecycleProvenance, systemctl_reload, systemctl_enable.
  repeat first [apply grows_command|apply (grows_keeps _ (keeps_ran_wait p))|apply grows_wrap|apply grows_bind; [|intros ?]].
  all: apply grows_keeps; keep.
Qed.

(** The service was not touched; or the command that stops it failed, which is the
    error, and nothing was run after it; or it was stopped, and started again last. *)
Definition service_runs (h : Host) (e : error) (h' : Host) : Prop :=
  ho_ran h' = ho_ran h
  ∨ (ho_ran h' = (ho_ran h ++ [stop_command p])%list
     ∧ ∃ n why, ienv_command n (stop_command p).1 (stop_command p).2 = Some why
         ∧ e = OtherError (String.append (foldr String.append "" ["systemctl disable --now "; bp_ServiceName p; ".service: "]) why))
  ∨ ∃ l, ho_ran h' = (ho_ran h ++ stop_command p :: l ++ [reload_command; start_command p])%list.

Lemma kept_intact h : kept h0 (λ _, False) h → intact h0 h.
Proof. intros K; split; [by apply (kp_links _ _ _ K)|]; intros q c t Hq; exists t; apply (kp_files _ _ _ K); [by intros []|done]. Qed.
Lemma kept_managed h : kept h0 (λ _, False) h → kept h0 (λ q, managed q) h.
Proof. apply kept_weaken; by intros q []. Qed.
Lemma keeps_ran_capture : keeps ho_ran (captureManagedRuntimeBackup p provenancePath).
Proof. unfold captureManagedRuntimeBackup, captureManagedRuntimeArtifact; keep. Qed.
Lemma keeps_disk_capture : keeps disk (captureManagedRuntimeBackup p provenancePath).
Proof. unfold captureManagedRuntimeBackup, captureManagedRuntimeArtifact; keep. Qed.

(** The old binary is where the swap moved it, until it is removed. *)
Lemma finish_err b y asset hs e h1 : backed_up b → kept h0 (λ q, managed q) hs → no_char "/" y = true →
  holds hs (backup_name y) (ma_Body (mb_Binary b)) → finish_upgrade p provenancePath asset (backup_name y) hs = (Err e, h1) →
  kept h0 (λ q, managed q) h1 ∧ moved (with_backup_path (backup_name y) b) h1.
Proof.
  intros Hb K Hy [t Ht] Hf; pose proof (backup_name_vacant y Hy) as Hv.
  assert (∃ g r, settle_upgrade p provenancePath asset hs = (r, g)
    ∧ (h1 = g ∨ ∃ e', host_RemoveAll (backup_name y) g = (Err e', h1))) as (g & r & Hs & Hd).
  { unfold finish_upgrade in Hf; apply bind_err in Hf as [Hf|(u & g & Hs & Hf)]; [by exists h1, (Err e); split; [|left]|exists g, (Ok u); split; [done|]].
    destruct (blank _); [done|]; unfold wrap in Hf; rewrite try_bind in Hf; right.
    destruct (host_RemoveAll _ g) as [[v|e'] g'] eqn:Hr; [done|]; injection Hf as _ <-; by exists e'. }
  pose proof (kp_links _ _ _ K) as Hl; pose proof (safe_settle h0 asset eq_refl hs K) as K1.
  pose proof (safe_settle hs asset Hl hs (kept_refl _ _)) as K2; rewrite Hs in K1, K2; simpl in K1, K2.
  assert (holds g (backup_name y) (ma_Body (mb_Binary b))) as Hg.
  { exists t; apply (kp_files _ _ _ K2); [|done]; intros Hm; by apply (managed_not_vacant _ _ Hm Hv). }
  destruct Hd as [->|[e' Hr]]; [split; [done|right; by exists y]|].
  pose proof (safe_remove_vacant h0 (λ q, managed q) _ _ Hv eq_refl g K1) as K3; rewrite Hr in K3; split; [done|right; exists y].
  split_and!; [done..|]; destruct Hg as [t' Hg]; exists t'; apply remove_all_err in Hr as [[[= -> _] _]|(q & Hq & [_ Hfiles _ _])]; [done|].
  destruct (vacant_at h0 _ _ Hv eq_refl) as (_ & He & _); rewrite <- (proj2 (at_same g _ (kp_links _ _ _ K1))), Hq in He; injection He as ->.
  destruct (Hfiles (to_path (backup_name y))) as [Hx|(_ & Hn & _)]; [exact (eq_trans Hx Hg)|by destruct Hn].
Qed.
(** What a restoration leaves, whether it succeeds or not. *)
Definition rolled_back (h : Host) (e : error) (h' : Host) : Prop :=
  kept h0 (λ q, managed q) h' ∧ (intact h0 h' ∧ service_runs h e h' ∨ restoration_failed e).
Lemma rolled b g r h h' e1 e l : backed_up b → kept h0 (λ q, managed q) g → moved b g →
  ho_ran g = (ho_ran h ++ stop_command p :: l)%list → restoreManagedRuntimeBackup b g = (r, h') →
  match r with Ok _ => True | Err e2 => errors_Join [e1; e2] = Some e end → rolled_back h e h'.
Proof.
  intros Hb K Hm Hl Hr He; assert (kept h0 (λ q, managed q) h') as K'.
  { pose proof (safe_restore b Hb) as Hs; specialize (Hs ltac:(destruct Hm as [?|(y & ? & ? & _)]; [by left|right; by exists y]) g K).
    by rewrite Hr in Hs. }
  split; [done|]; destruct r as [u|e2]; [left|right; by exists b, g, e1, e2, h'].
  destruct (restore_ok b g u h' Hb K Hm Hr) as [Hi Hran]; split; [done|right; right; exists l].
  by rewrite Hran, Hl, <- app_assoc.
Qed.
Lemma untouched h e h' : kept h0 (λ _, False) h' → service_runs h e h' → rolled_back h e h'.
Proof. intros K Hs; split; [by apply kept_managed|left; split; [by apply kept_intact|done]]. Qed.
Lemma replace_err asset staged q c t h e h' : kept h0 (λ _, False) h → at_path h0 staged = Ok q → entry h q = Some (File c t) →
  replace_binary p provenancePath asset staged h = (Err e, h') → rolled_back h e h'.
Proof.
  intros K Hq Hc; unfold replace_binary; intros [Hcap|(b & h1 & Hcap & Hr)]%bind_err.
  { pose proof (keeps_disk_capture h) as Hd; pose proof (keeps_ran_capture h) as Hr; rewrite Hcap in Hd, Hr.
    apply untouched; [by eapply kept_disk|by left]. }
  pose proof (keeps_ran_capture h) as Hran; rewrite Hcap in Hran; simpl in Hran; apply capture_ok in Hcap as (Hd1 & Hb & Hbk); [|done].
  assert (kept h0 (λ _, False) h1) as K1 by (by eapply kept_disk).
  apply bind_err in Hr as [Hr|(u & h2 & Hr%wrap_ok & Hr2)].
  { pose proof (keeps_disk_command "systemctl" ["disable"; "--now"; service_unit (bp_ServiceName p)] h1) as Hd2.
    unfold systemctl_disable, wrap in Hr; rewrite try_bind in Hr; destruct (runCommand _ _ h1) as [[v|e'] g] eqn:Hx; [done|].
    injection Hr as <- <-; apply command_ran in Hx as Hx'; apply untouched; [by eapply kept_disk|right; left; split; [by rewrite Hx', Hran|]].
    unfold runCommand in Hx; destruct (ienv_command _ _ _) as [why|] eqn:Hw; [|done]; injection Hx as <- _; by exists (ho_calls h1), why. }
  assert (ho_ran h2 = (ho_ran h ++ [stop_command p])%list) as R2 by (apply command_ran in Hr; by rewrite Hr, Hran).
  assert (keeps ho_ran (swapInstalledBinary bin staged)) as Hsw by (unfold swapInstalledBinary, swap_files; keep).
  pose proof (keeps_disk_command "systemctl" ["disable"; "--now"; service_unit (bp_ServiceName p)] h1) as Hd2; rewrite Hr in Hd2.
  assert (kept h0 (λ _, False) h2) as K2 by (by eapply kept_disk).
  assert (entry h2 q = Some (File c t)) as Hc2 by (injection Hd1 as Hd1 _; injection Hd2 as Hd2 _; congruence).
  apply bind_err in Hr2 as [Hs|(backup & h3 & Hs%rolling_back_ok%wrap_ok & Hf)].
  - apply rolling_back_err in Hs as (e1 & g & r & Hg & Hres & Hj); refine (rolled b g r h h' e1 e [] Hb _ (or_introl Hbk) _ Hres Hj).
    2: { pose proof (grows_wrap "replace installed binary: " _ (grows_keeps _ Hsw) h2) as [l Hl]; pose proof (wrap_snd "replace installed binary: "
         (swapInstalledBinary bin staged) h2) as Hw; rewrite Hg in Hw; simpl in Hw; subst g; by rewrite Hsw. }
    pose proof (safe_swap staged h2 (kept_managed _ K2)) as Ks; pose proof (wrap_snd "replace installed binary: "
      (swapInstalledBinary bin staged) h2) as Hw; rewrite Hg in Hw; simpl in Hw; by subst.
  - pose proof (safe_swap staged h2 (kept_managed _ K2)) as K3; rewrite Hs in K3; simpl in K3.
    destruct (swap_ok staged q c t h2 backup h3 (kp_links _ _ _ K2) Hq Hc2 Hs) as (_ & y & t' & Hy & -> & He & _).
    assert (holds h3 (backup_name y) (ma_Body (mb_Binary b))) as Hold.
    { destruct (bu_bodies _ Hb (mb_Binary b) ltac:(unfold artifacts; set_solver)) as [t0 Ht0]; rewrite (binary_name b Hb) in Ht0.
      exists t0; rewrite He; apply (kp_files _ _ _ K2); [by intros []|done]. }
    apply rolling_back_err in Hf as (e1 & g & r & Hg & Hres & Hj).
    destruct (finish_err b y asset h3 e1 g Hb K3 Hy Hold Hg) as [Kg Hm].
    pose proof (grows_finish asset (backup_name y) h3) as [l Hl]; rewrite Hg in Hl; simpl in Hl; pose proof (Hsw h2) as R3; rewrite Hs in R3.
    eapply (rolled (with_backup_path (backup_name y) b) g r h h' e1 e l); [by destruct Hb|done..| |done|done].
    simpl in R3; by rewrite Hl, R3, R2, <- app_assoc.
Qed.

(** ** An upgrade that succeeds *)

Lemma managed_apart : to_path (bp_EnvPath p) ≠ to_path (bp_UnitPath p) ∧ to_path (bp_EnvPath p) ≠ to_path (bp_StatePath p)
  ∧ to_path (bp_EnvPath p) ≠ to_path provenancePath ∧ to_path (bp_UnitPath p) ≠ to_path (bp_StatePath p)
  ∧ to_path (bp_UnitPath p) ≠ to_path provenancePath ∧ to_path (bp_StatePath p) ≠ to_path provenancePath
  ∧ to_path bin ≠ to_path (bp_EnvPath p) ∧ to_path bin ≠ to_path (bp_UnitPath p) ∧ to_path bin ≠ to_path (bp_StatePath p)
  ∧ to_path bin ≠ to_path provenancePath.
Proof.
  pose proof (in_distinct _ _ _ Hin) as Hd; unfold managed_files, managed_names in Hd; simpl in Hd.
  repeat (apply NoDup_cons in Hd as [? Hd]); repeat match goal with Hn : _ ∉ _ |- _ => apply not_elem_of_cons in Hn as [? Hn] end.
  by split_and!.
Qed.
(** What an installation of [asset] consists of, but for the binary. *)
Definition settled_files (asset : Asset) (h : Host) : Prop :=
  holds h (bp_EnvPath p) (RenderEnvFile p) ∧ holds h (bp_UnitPath p) (RenderSystemdUnit p)
  ∧ holds h (bp_StatePath p) (String.append (encode_receipt (bootstrapReceiptFromPlan p)) (String newline ""))
  ∧ ∃ recorded, normalizeLifecycleProvenance (upgraded_provenance p provenancePath asset) = Ok recorded
      ∧ holds h provenancePath (String.append (encode_provenance recorded) (String newline "")).
Lemma managed_written s data h u h' : s ∈ managed_names p provenancePath → linked h → host_WriteFile s data h = (Ok u, h') →
  linked h' ∧ ho_ran h' = ho_ran h ∧ ∃ t, ho_files h' = <[to_path s := File data t]> (ho_files h).
Proof.
  intros Hs Hl Hw; pose proof (keeps_ran_write s data h) as Hr; rewrite Hw in Hr.
  eapply wrote in Hw as [Hl' [t Hf]]; [|done|by apply managed_at]; split_and!; [done..|by exists t].
Qed.
Lemma commanded name args h u h' : runCommand name args h = (Ok u, h') →
  ho_files h' = ho_files h ∧ ho_links h' = ho_links h ∧ ho_ran h' = (ho_ran h ++ [(name, args)])%list.
Proof.
  intros Hc; pose proof (command_ran _ _ _ _ _ Hc) as Hr; by destruct (quiet_step _ _ _ _ (keeps_disk_command _ _) Hc) as [? ?].
Qed.
Lemma settle_ok asset hs u h' body : linked hs → holds hs bin body → settle_upgrade p provenancePath asset hs = (Ok u, h') →
  linked h' ∧ holds h' bin body ∧ settled_files asset h' ∧ ho_ran h' = (ho_ran hs ++ [reload_command; start_command p])%list.
Proof.
  intros Hl [tb Hb]; unfold settle_upgrade, writeManagedArtifacts, writeBootstrapReceipt.
  intros (u1 & g4 & Hart & Hr)%bind_ok.
  apply bind_ok in Hart as (u2 & g0 & Hm & (u3 & g1 & H1'%wrap_ok & (u4 & g2 & H2'%wrap_ok & (u5 & g3 & Hsk & H4'%wrap_ok)%bind_ok)%bind_ok)%bind_ok).
  injection Hsk as _ <-; apply bind_ok in Hr as (u6 & g5 & H5'%wrap_ok & (u7 & g6 & H6'%wrap_ok & (u8 & g7 & H7' & H8'%wrap_ok)%bind_ok)%bind_ok).
  pose proof (safe_mkdirs hs (λ _, False) [filepath_Dir (bp_EnvPath p); filepath_Dir (bp_UnitPath p); bp_StorageRoot p; bp_ContentPath p]
    hs (kept_refl _ _)) as K0; pose proof (keeps_ran_mkdirs [filepath_Dir (bp_EnvPath p); filepath_Dir (bp_UnitPath p); bp_StorageRoot p;
    bp_ContentPath p] hs) as R0; rewrite Hm in K0, R0; simpl in K0, R0; clear Hm.
  pose proof (kp_files _ _ _ K0 (to_path bin) body tb ltac:(by intros []) Hb) as B0; apply kp_links in K0; rewrite Hl in K0.
  apply managed_written in H1' as (L1 & R1 & t1 & F1); [|rewrite managed_cases; tauto|done].
  apply managed_written in H2' as (L2 & R2 & t2 & F2); [|rewrite managed_cases; tauto|done].
  apply managed_written in H4' as (L4 & R4 & t4 & F4); [|rewrite managed_cases; tauto|done].
  apply commanded in H5' as (F5 & L5 & R5), H6' as (F6 & L6 & R6).
  destruct (quiet_step _ _ _ _ (keeps_disk_wait _) H7') as [F7 L7]; pose proof (keeps_ran_wait p g6) as R7; rewrite H7' in R7; simpl in R7.
  unfold SaveLifecycleProvenance in H8'; apply bind_ok in H8' as (recorded & g8 & [= Hn <-] & H8'%wrap_ok).
  pose proof (normalized_state_path _ _ Hn) as Hp; cbn [lp_StatePath upgraded_provenance] in Hp; rewrite Htrim in Hp; rewrite Hp in H8'.
  apply managed_written in H8' as (L8 & R8 & t8 & F8); [|rewrite managed_cases; tauto|congruence].
  destruct managed_apart as (A1 & A2 & A3 & A4 & A5 & A6 & A7 & A8 & A9 & A10).
  assert (∀ q, q ≠ to_path provenancePath → entry h' q = entry g4 q) as F by (intros q Hq; by rewrite F8, lookup_insert_ne, F7, F6, F5 by done).
  split; [done|split; [|split; [split_and!|]]].
  - exists tb; by rewrite F, F4, lookup_insert_ne, F2, lookup_insert_ne, F1, lookup_insert_ne by done.
  - exists t1; by rewrite F, F4, lookup_insert_ne, F2, lookup_insert_ne, F1, lookup_insert_eq by done.
  - exists t2; by rewrite F, F4, lookup_insert_ne, F2, lookup_insert_eq by done.
  - exists t4; by rewrite F, F4, lookup_insert_eq by done.
  - exists recorded; split; [done|]; exists t8; by rewrite F8, lookup_insert_eq.
  - rewrite R8, R7, R6, R5, R4, R2, R1, R0, <- app_assoc; done.
Qed.
Lemma holds_after_removal q s c h h' : vacant h0 q → s ∈ managed_names p provenancePath → same_off q (ho_files h) (ho_files h') →
  holds h s c → holds h' s c.
Proof.
  intros Hv Hs Hf [t Ht]; exists t; rewrite Hf; [done|]; apply managed_not_vacant; [by apply name_managed|done].
Qed.
Lemma settled_after_removal q asset h h' : vacant h0 q → same_off q (ho_files h) (ho_files h') →
  settled_files asset h → settled_files asset h'.
Proof.
  intros Hv Hf (S1 & S2 & S3 & r & Hr & S4); split_and!; try (eapply holds_after_removal; [exact Hv| |exact Hf|done]; rewrite managed_cases; tauto).
  exists r; split; [done|]; eapply holds_after_removal; [exact Hv| |exact Hf|done]; rewrite managed_cases; tauto.
Qed.
Lemma replace_ok asset staged q c t h u h' : kept h0 (λ _, False) h → at_path h0 staged = Ok q → entry h q = Some (File c t) →
  replace_binary p provenancePath asset staged h = (Ok u, h') →
  kept h0 (λ q, managed q) h' ∧ holds h' bin c ∧ settled_files asset h'
  ∧ ho_ran h' = (ho_ran h ++ [stop_command p; reload_command; start_command p])%list.
Proof.
  intros K Hq Hc; unfold replace_binary; intros (b & h1 & Hcap & (v & h2 & Hx%wrap_ok & (backup & h3 & Hs & Hf%rolling_back_ok)%bind_ok)%bind_ok)%bind_ok.
  apply rolling_back_ok, wrap_ok in Hs.
  pose proof (keeps_ran_capture h) as R1; pose proof (keeps_disk_capture h) as D1; rewrite Hcap in R1, D1; simpl in R1, D1.
  destruct (commanded _ _ _ _ _ Hx) as (F2 & L2 & R2); injection D1 as F1 L1.
  assert (kept h0 (λ _, False) h2) as K2 by (eapply kept_disk; [|exact K]; unfold disk; congruence).
  pose proof (safe_swap staged h2 (kept_managed _ K2)) as K3; rewrite Hs in K3; simpl in K3.
  assert (ho_ran h3 = ho_ran h2) as R3.
  { assert (keeps ho_ran (swapInstalledBinary bin staged)) as Hk by (unfold swapInstalledBinary, swap_files; keep).
    specialize (Hk h2); by rewrite Hs in Hk. }
  apply (swap_ok _ q c t) in Hs as (L3 & y & t' & Hy & -> & _ & Hbin); [|by apply (kp_links _ _ _ K2)|done|congruence].
  apply bind_ok in Hf as (v' & h4 & Hset & Hrm); pose proof (safe_settle h0 asset eq_refl h3 K3) as K4; rewrite Hset in K4; simpl in K4.
  apply (settle_ok _ _ _ _ c) in Hset as (L4 & B4 & S4 & R4); [|done|by exists t'].
  assert (blank (backup_name y) = false) as Hne by (apply String.eqb_neq; by apply (backup_apart y y)).
  rewrite Hne in Hrm; apply wrap_ok in Hrm; pose proof (keeps_ran_remove_all (backup_name y) h4) as R5; rewrite Hrm in R5; simpl in R5.
  pose proof (safe_remove_vacant h0 (λ q, managed q) _ _ (backup_name_vacant y Hy) eq_refl h4 K4) as K5; rewrite Hrm in K5.
  apply removed_off in Hrm as F5; [|done|by apply backup_name_vacant].
  split; [done|split_and!]; [|by eapply settled_after_removal; [by apply backup_name_vacant|..]|rewrite R5, R4, R3, R2, R1, <- app_assoc; done].
  eapply holds_after_removal; [by apply backup_name_vacant|rewrite managed_cases; tauto|exact F5|done].
Qed.
End Steps.
