(* ===== verification/UpgradeRun.v ===== *)
(** From the download to the end of an upgrade: what is staged is verified, and what
    is staged is gone in the end; and what comes before it, the import of legacy
    settings, which touches the database only. *)
From stdpp Require Import gmap strings.
From S2P Require Import Prelude GoStrings Encodings Errors GoNumbers RegPorts RegWorld Registry PolicyPorts PolicyStore PolicyLaws.
From S2P Require Import Overrides Scans Release Host Runtimes InstallPlan Install InstallLaws UpgradeLaws.

(** * Definitions *)

(** Nothing in the names of a release's files leads out of a directory. *)
Definition plainly_named (asset : Asset) : Prop :=
  segment_ok (as_ArchiveName asset) ∧ segment_ok (filepath_Base (as_ChecksumsURL asset))
  ∧ as_ArchiveName asset ≠ filepath_Base (as_ChecksumsURL asset).

(** The binary is the only file of an archive that the release server sent for the
    release, and the archive has the sum that the server's list has for its name. *)
Definition released `{UnicodeTables, HostEnv, Archives} (asset : Asset) (binary : string) : Prop := ∃ n k status status' archive sums entries,
  henv_get n (as_ArchiveURL asset) = Ok (status, archive) ∧ ok_status status = true
  ∧ henv_get k (as_ChecksumsURL asset) = Ok (status', sums) ∧ ok_status status' = true
  ∧ VerifyChecksum archive (as_ArchiveName asset) sums = Ok tt
  ∧ untar archive = (entries, None) ∧ omap (λ e : string * bool * string, if e.1.2 then Some e.1.1 else None) entries = ["regixtry"]
  ∧ ("regixtry", true, binary) ∈ entries.

(** The plan of an upgrade, if what is installed can be read. *)
Definition upgrade_plan `{UnicodeTables, InstallText, HostEnv} (h : Host) (provenancePath : string) : option BootstrapPlan :=
  match (read_installation provenancePath h).1 with Ok (_, _, i) => Some (buildPlanFromInstalledIntent i) | Err _ => None end.

(** The files of the database an upgrade opens before it looks at releases, if any. *)
Definition upgrade_database `{UnicodeTables, InstallText, HostEnv, InstallEnv} (h : Host) (provenancePath : string) : list string :=
  match (read_installation provenancePath h).1 with
  | Ok (provenance, env, i) => if shouldImportLegacyTrivySettings provenance env then database_files (ii_DatabasePath i) else []
  | Err _ => []
  end.
(** Nothing changed but these files of a database. *)
Record touched `{HostEnv} (db : list string) (h g : Host) : Prop := {
  to_links : ho_links g = ho_links h;
  to_ran : ho_ran g = ho_ran h;
  to_files q : q ∉ map to_path db → ho_files g !! q = ho_files h !! q;
}.

(** What an import of legacy settings does to the tables, which are those of the
    schema of this version (an older database is brought to it when it is opened, in
    its files): nothing, and then they have settings if it succeeded; or, where they had none, it stores those of the
    installation. *)
Definition imported `{PolicyLaws W} (i : InstalledIntent) (succeeded : bool) (w w' : W) : Prop :=
  reg_view w' = reg_view w
  ∧ (pol_view w' = pol_view w ∧ (succeeded = true → ∃ settings, q_scan_settings DefaultTenant "trivy" (pol_view w) = Ok settings)
     ∨ (∀ settings, q_scan_settings DefaultTenant "trivy" (pol_view w) ≠ Ok settings)
       ∧ ∃ now, pol_view w' = x_scan_settings DefaultTenant "trivy" (legacy_settings i now) (pol_view w)).
Definition import_done `{UnicodeTables, InstallText, HostEnv, InstallEnv, PolicyLaws W} (h : Host) (provenancePath : string)
    (succeeded : bool) (w w' : W) : Prop :=
  match (read_installation provenancePath h).1 with
  | Ok (provenance, env, i) => if shouldImportLegacyTrivySettings provenance env then imported i succeeded w w' else w' = w
  | Err _ => w' = w
  end.

(** * Lemmas *)

Lemma provenance_path_trimmed cfg : trim_space (provenance_path cfg) = provenance_path cfg.
Proof. unfold provenance_path; destruct (blank _); [vm_compute; reflexivity|apply trim_space_idem]. Qed.

(** ** Staging *)

Section Staging.
Context `{UnicodeTables, InstallText, HostEnv, InstallEnv, Archives, !HostLaws}.
Context (h0 : Host) (stageDir : string) (stage : list string).
Context (Hne : stageDir ≠ "") (Hstage : to_path stageDir = stage) (Hv : vacant h0 stage).
Notation ok m := (safe h0 (λ _, False) m).
Notation linked h := (ho_links h = ho_links h0).

Lemma staged_path n : segment_ok n → to_path (filepath_Join stageDir n) = stage ++ [n] ∧ vacant h0 (stage ++ [n]).
Proof. intros Hn; destruct (Join_path stageDir n stage Hne Hstage Hn) as [_ ?]; split; [done|by apply vacant_child]. Qed.
Lemma keeps_disk_download url : keeps disk (downloadFile (W := Host) url).
Proof. unfold downloadFile; keep. Qed.
Lemma keeps_ran_download url : keeps ho_ran (downloadFile (W := Host) url).
Proof. unfold downloadFile; keep. Qed.
Lemma keeps_ran_stage asset : keeps ho_ran (stage_binary asset stageDir).
Proof. unfold stage_binary, fetch; repeat (keep; first [apply keeps_ran_download|apply keeps_bind; [apply keeps_ran_download|intros]]). Qed.
Lemma safe_fetch url n : segment_ok n → ok (fetch url (filepath_Join stageDir n)).
Proof.
  intros Hn; destruct (staged_path n Hn) as [Hp Hvn]; apply safe_bind; [apply safe_keeps, keeps_disk_download|intros body].
  by eapply safe_write_vacant.
Qed.
Lemma safe_stage asset : plainly_named asset → ok (stage_binary asset stageDir).
Proof.
  intros (Ha & Hc & _); unfold stage_binary; assert (segment_ok "regixtry") as Hr by (by split_and!).
  destruct (staged_path _ Hr) as [Hp Hvn].
  repeat (first [apply safe_bind; [by apply safe_fetch|intros ?]|eapply safe_write_vacant; [exact Hvn|done]|safe_step]).
Qed.

(** What was fetched is what the server sent. *)
Lemma fetched url n h u h' : linked h → segment_ok n → fetch url (filepath_Join stageDir n) h = (Ok u, h') →
  linked h' ∧ ∃ k status body t, henv_get k url = Ok (status, body) ∧ ok_status status = true
    ∧ ho_files h' = <[stage ++ [n] := File body t]> (ho_files h).
Proof.
  intros Hl Hn; destruct (staged_path n Hn) as [Hp Hvn]; unfold fetch; intros (body & h1 & Hd & Hw)%bind_ok.
  destruct (quiet_step _ _ _ _ (keeps_disk_download url) Hd) as [Hf1 Hl1].
  pose proof (keeps_links_Write (filepath_Join stageDir n) body h1) as Hk; rewrite Hw in Hk; simpl in Hk; split; [congruence|].
  apply write_ok in Hw as (q & t & Hq & Hf); destruct (vacant_at h0 _ _ Hvn Hp) as (Ha & _).
  rewrite (at_path_same h0 h1), Ha in Hq by congruence; injection Hq as <-.
  unfold downloadFile in Hd; apply bind_ok in Hd as (u1 & h2 & _ & Hd); apply bind_ok in Hd as (resp & h3 & Hg%wrap_ok & Hd).
  destruct (ok_status resp.1) eqn:Hs; simpl in Hd; [|done]; injection Hd as <- <-; injection Hg as Hg <-.
  exists (ho_calls h2), resp.1, resp.2, t; split_and!; [by rewrite Hg; destruct resp|done|by rewrite Hf, Hf1].
Qed.
Lemma reads_staged n h c h' body t : linked h → segment_ok n → ho_files h !! (stage ++ [n]) = Some (File body t) →
  host_ReadFile (filepath_Join stageDir n) h = (Ok c, h') → c = body ∧ linked h' ∧ ho_files h' = ho_files h.
Proof.
  intros Hl Hn Hf Hr; destruct (staged_path n Hn) as [Hp Hvn], (vacant_at h0 _ _ Hvn Hp) as (Ha & _).
  destruct (quiet_step _ _ _ _ (keeps_disk_Read _) Hr) as [Hf' Hl']; apply read_ok in Hr as (q & t' & Hq & Hc).
  rewrite (at_path_same h0 h), Ha in Hq by done; injection Hq as <-; split_and!; congruence.
Qed.
Lemma stage_ok asset h staged h' : linked h → plainly_named asset → stage_binary asset stageDir h = (Ok staged, h') →
  at_path h0 staged = Ok (stage ++ ["regixtry"]) ∧
  ∃ binary t, released asset binary ∧ ho_files h' !! (stage ++ ["regixtry"]) = Some (File binary t).
Proof.
  intros Hl (Ha & Hc & Hac); unfold stage_binary; assert (segment_ok "regixtry") as Hr by (by split_and!).
  destruct (staged_path _ Hr) as [Hp Hvn], (vacant_at h0 _ _ Hvn Hp) as (Hat & _).
  intros (u1 & h1 & F1 & (u2 & h2 & F2 & Hrest)%bind_ok)%bind_ok.
  apply fetched in F1 as (L1 & n & st & archive & t1 & G1 & S1 & F1); [|done..].
  apply fetched in F2 as (L2 & k & st' & sums & t2 & G2 & S2 & F2); [|done..].
  assert (ho_files h2 !! (stage ++ [as_ArchiveName asset]) = Some (File archive t1)) as E1.
  { rewrite F2, lookup_insert_ne, F1, lookup_insert_eq; [done|]; by intros [_ ?]%app_inj_tail. }
  assert (ho_files h2 !! (stage ++ [filepath_Base (as_ChecksumsURL asset)]) = Some (File sums t2)) as E2 by (by rewrite F2, lookup_insert_eq).
  apply bind_ok in Hrest as (c3 & h3 & R3%wrap_ok & Hrest); apply (reads_staged _ _ _ _ sums t2) in R3 as (-> & L3 & F3); [|done..].
  apply bind_ok in Hrest as (u4 & h4 & R4%wrap_ok & Hrest); apply bind_ok in R4 as (c4 & g4 & R4 & [= V4 <-]).
  rewrite <- F3 in E1; apply (reads_staged _ _ _ _ archive t1) in R4 as (-> & L4 & F4); [|done..].
  apply bind_ok in Hrest as (u5 & h5 & R5 & Hrest); apply bind_ok in R5 as (c5 & g5 & R5 & [= V5 <-]).
  rewrite <- F4 in E1; apply (reads_staged _ _ _ _ archive t1) in R5 as (-> & L5 & F5); [|done..].
  apply bind_ok in Hrest as (c6 & h6 & R6 & Hrest); rewrite <- F5 in E1; apply (reads_staged _ _ _ _ archive t1) in R6 as (-> & L6 & F6); [|done..].
  apply bind_ok in Hrest as (u7 & h7 & R7 & Hrest); apply bind_ok in Hrest as (binary & h8 & [= V8 <-] & Hrest).
  apply bind_ok in Hrest as (u9 & h9 & W9 & [= <- <-]); split; [done|]; exists binary.
  assert (linked h7) as L7 by (pose proof (keeps_links_Mkdir stageDir h6) as Hk; rewrite R7 in Hk; simpl in Hk; congruence).
  apply write_ok in W9 as (q & t & Hq & Hf); rewrite (at_path_same h0 h7), Hat in Hq by done; injection Hq as <-.
  exists t; split; [|by rewrite Hf, lookup_insert_eq]; destruct u4, u5; destruct (archive_ok _ V5) as (entries & He & Ho).
  exists n, k, st, st', archive, sums, entries; split_and!; [done..|by eapply extract_only].
Qed.
End Staging.

(** ** The installation of a release *)

Section Running.
Context `{UnicodeTables, InstallText, HostEnv, InstallEnv, Archives, !HostLaws}.
Context (h0 : Host) (p : BootstrapPlan) (provenancePath : string) (Hin : installed h0 p provenancePath).
Context (Htrim : trim_space provenancePath = provenancePath).
Notation managed q := (q ∈ managed_files p provenancePath).
Notation bin := (bp_BinaryPath p).

Lemma intact_removal s q h : vacant h0 q → to_path s = q → intact h0 h → intact h0 (host_RemoveAll s h).2.
Proof.
  intros Hv Hs [Hl Hi]; destruct (host_RemoveAll s h) as [[u|e] h'] eqn:Hr; simpl.
  - subst q; eapply removed in Hr as [Hl' Hf]; [|done..]; split; [done|]; intros q c t Hq; rewrite Hf.
    destruct (Hi q c t Hq) as [t' Ht']; exists t'; rewrite remove_all_other; [done|]; intros Hp.
    destruct Hv as (_ & _ & Hv); destruct (Hv q Hp) as [Hn _]; congruence.
  - apply remove_all_err in Hr as [[[= Hf Hl'] _]|(x & Hx & [_ Hf Hl' _])]; [split; [congruence|]; by rewrite Hf|].
    destruct (vacant_at h0 q s Hv Hs) as (_ & He & _); unfold at_entry in He, Hx; rewrite Hl, He in Hx; injection Hx as <-.
    destruct Hv as (_ & _ & Hv); split.
    + apply map_eq; intros k; rewrite <- Hl; destruct (Hl' k) as [->|(Hk & _ & ->)]; [done|]; rewrite Hl; by destruct (Hv k Hk) as [_ ->].
    + intros k c t Hk; destruct (Hf k) as [->|(Hp & _)]; [by eapply Hi|]; destruct (Hv k Hp) as [Hn _]; congruence.
Qed.
Lemma staging_place h name h' : kept h0 (λ _, False) h → host_MkdirTemp ienv_tmp "regixtry-upgrade-" h = (Ok name, h') →
  kept h0 (λ _, False) h' ∧ ho_ran h' = ho_ran h ∧ name ≠ "" ∧ vacant h0 (to_path name).
Proof.
  intros K Hm; pose proof (safe_mkdir_temp h0 (λ _, False) ienv_tmp "regixtry-upgrade-" h K) as K'.
  pose proof (keeps_ran_temp ienv_tmp "regixtry-upgrade-" h) as R'; rewrite Hm in K', R'; split; [done|split; [done|split]].
  all: apply mkdir_temp_ok in Hm as (n & q & -> & _); pose proof (henv_temp_law n (ho_files h)) as Hx.
  all: set (x := henv_temp n (ho_files h)) in *; assert (segment_ok (String.append "regixtry-upgrade-" x)) as Hs
    by (apply segment_long; [by rewrite no_char_append, Hx|simpl; lia]).
  all: destruct (Join_path ienv_tmp _ _ (in_tmp _ _ _ Hin) eq_refl Hs) as [Hj Hp].
  - exact Hj.
  - rewrite Hp; by apply (in_stage _ _ _ Hin).
Qed.
Lemma rolled_removal s q h e h' : vacant h0 q → to_path s = q → rolled_back h0 p provenancePath h e h' →
  rolled_back h0 p provenancePath h e (host_RemoveAll s h').2.
Proof.
  intros Hv Hs [K Hr]; split; [by eapply safe_remove_vacant|]; destruct Hr as [[Hi Hran]|Hr]; [left|by right].
  split; [by eapply intact_removal|]; unfold service_runs in *; pose proof (keeps_ran_remove_all s h') as R; by rewrite R.
Qed.
Lemma release_err asset h e h' : plainly_named asset → kept h0 (λ _, False) h → install_release p provenancePath asset h = (Err e, h') →
  rolled_back h0 p provenancePath h e h'.
Proof.
  intros Ha K; unfold install_release; intros [Hm|(dir & h1 & Hm & Hr)]%bind_err.
  { pose proof (safe_mkdir_temp h0 (λ _, False) ienv_tmp "regixtry-upgrade-" h K) as K'.
    pose proof (keeps_ran_temp ienv_tmp "regixtry-upgrade-" h) as R'; rewrite Hm in K', R'; apply untouched; [done|by left]. }
  apply staging_place in Hm as (K1 & R1 & Hne & Hv); [|done]; rewrite !try_bind in Hr.
  destruct (sbind (stage_binary asset dir) _ h1) as [r h2] eqn:Hi; cbn [fst snd] in Hr; injection Hr as -> <-.
  eapply rolled_removal; [exact Hv|done|]; apply bind_err in Hi as [Hs|(staged & g1 & Hs & Hi)];
    pose proof (safe_stage h0 dir _ Hne eq_refl Hv asset Ha h1 K1) as K2; pose proof (keeps_ran_stage dir asset h1) as R2;
    rewrite Hs in K2, R2; simpl in K2, R2.
  { apply untouched; [done|left; congruence]. }
  apply stage_ok with (h0 := h0) (stage := to_path dir) in Hs as (Hat & binary & t & _ & Hf);
    [|done|done|done|by apply (kp_links _ _ _ K1)|done].
  assert (∀ r g2, Detect g1 = (r, g2) → kept h0 (λ _, False) g2 ∧ ho_ran g2 = ho_ran h ∧ ho_files g2 = ho_files g1) as Hdet.
  { intros r g2 Hd; pose proof (keeps_disk_detect g1) as Kd; pose proof (keeps_ran_detect g1) as Rd; rewrite Hd in Kd, Rd; simpl in Kd, Rd.
    split_and!; [by eapply kept_disk|congruence|by injection Kd]. }
  apply bind_err in Hi as [Hd|(found & g2 & Hd & Hi)]; apply Hdet in Hd as (K3 & R3 & F3); [apply untouched; [done|by left]|].
  rewrite <- F3 in Hf; apply (replace_err h0 p provenancePath Hin Htrim asset staged _ binary t g2 e h2 K3 Hat Hf) in Hi.
  unfold rolled_back, service_runs in *; by rewrite <- R3.
Qed.
Lemma release_ok asset h u h' : plainly_named asset → kept h0 (λ _, False) h → install_release p provenancePath asset h = (Ok u, h') →
  kept h0 (λ q, managed q) h' ∧ (∃ binary, released asset binary ∧ holds h' bin binary) ∧ settled_files p provenancePath asset h'
  ∧ ho_ran h' = (ho_ran h ++ [stop_command p; reload_command; start_command p])%list.
Proof.
  intros Ha K; unfold install_release; intros (dir & h1 & Hm & Hr)%bind_ok.
  apply staging_place in Hm as (K1 & R1 & Hne & Hv); [|done]; rewrite !try_bind in Hr.
  destruct (sbind (stage_binary asset dir) _ h1) as [r h2] eqn:Hi; cbn [fst snd] in Hr; injection Hr as -> <-.
  apply bind_ok in Hi as (staged & g1 & Hs & Hi); pose proof (safe_stage h0 dir _ Hne eq_refl Hv asset Ha h1 K1) as K2.
  pose proof (keeps_ran_stage dir asset h1) as R2; rewrite Hs in K2, R2; simpl in K2, R2.
  apply stage_ok with (h0 := h0) (stage := to_path dir) in Hs as (Hat & binary & t & Hrel & Hf);
    [|done|done|done|by apply (kp_links _ _ _ K1)|done].
  apply bind_ok in Hi as (found & g2 & Hd & Hi); pose proof (keeps_disk_detect g1) as Kd; pose proof (keeps_ran_detect g1) as Rd.
  rewrite Hd in Kd, Rd; simpl in Kd, Rd; assert (kept h0 (λ _, False) g2) as K3 by (by eapply kept_disk).
  assert (ho_files g2 !! (to_path dir ++ ["regixtry"]) = Some (File binary t)) as Hf2 by (injection Kd as -> _; exact Hf).
  apply (replace_ok h0 p provenancePath Hin Htrim asset staged _ binary t g2 u h2 K3 Hat Hf2) in Hi as (K4 & Hb & Hset & Hran).
  pose proof (safe_remove_vacant h0 (λ q, managed q) dir _ Hv eq_refl h2 K4) as K5.
  pose proof (keeps_ran_remove_all dir h2) as R5; destruct (host_RemoveAll dir h2) as [v h3] eqn:Hrm; simpl in K5, R5; cbn [snd].
  apply (removed_off h0) in Hrm as F5; [|by apply (kp_links _ _ _ K4)|done]; split_and!; [done| | |].
  - exists binary; split; [done|]; eapply holds_after_removal; [done|exact Hv| |exact F5|done]; by left.
  - by eapply settled_after_removal.
  - rewrite R5, Hran; congruence.
Qed.
End Running.

(** ** The database *)

Section Touching.
Context `{UnicodeTables, InstallText, HostEnv, InstallEnv}.

Lemma touched_refl db h : touched db h h.
Proof. by split. Qed.
Lemma touched_trans db h1 h2 h3 : touched db h1 h2 → touched db h2 h3 → touched db h1 h3.
Proof. intros [L1 R1 F1] [L2 R2 F2]; split; [congruence|congruence|]; intros q Hq; by rewrite F2, F1. Qed.
Lemma touched_more db db' h g : db ⊆ db' → touched db h g → touched db' h g.
Proof.
  intros Hs [L R F]; split; [done..|]; intros q Hq; apply F; intros Hin; apply Hq; apply list_elem_of_fmap in Hin as (s & -> & Hs').
  apply list_elem_of_fmap; exists s; split; [done|by apply Hs].
Qed.
Lemma touched_quiet db h g : disk g = disk h → ho_ran g = ho_ran h → touched db h g.
Proof. intros [= Hf Hl] Hr; split; [done..|]; intros q _; by rewrite Hf. Qed.
Lemma reachable_touched (db db' : list string) h g : touched db' h g → (∀ s, s ∈ db → unlinked h (to_path s)) → ∀ s, s ∈ db → unlinked g (to_path s).
Proof. intros [L _ _] Hu s Hs; eapply same_unlinked; [exact L|by apply Hu]. Qed.

Lemma touch_file_ok n s h : unlinked h (to_path s) → touched [s] h (touch_file n s h).
Proof.
  intros Hu; unfold touch_file; rewrite (at_path_unlinked h s Hu); destruct (ienv_store_file n s) as [[bytes|]|]; [| |by split].
  - unfold fs_write; destruct (ho_files h !! to_path s) as [[|c t]|]; [by split| |destruct (is_dir _ _); [|by split]].
    all: split; [done..|]; intros q Hq; simpl; rewrite lookup_insert_ne; [done|]; intros <-; apply Hq; by left.
  - destruct (ho_files h !! to_path s) as [[|c t]|]; [by split| |by split].
    split; [done..|]; intros q Hq; simpl; rewrite lookup_delete_ne; [done|]; intros <-; apply Hq; by left.
Qed.
Lemma touch_database_ok path h : (∀ s, s ∈ database_files path → unlinked h (to_path s)) →
  touched (database_files path) h (touch_database path h).2.
Proof.
  unfold touch_database; cbn [snd]; generalize (ho_calls h); intros n Hu.
  assert (∀ l, l ⊆ database_files path → touched (database_files path) h (foldr (touch_file n) h l)) as Hl.
  { induction l as [|s l IH]; intros Hs; cbn [foldr]; [apply touched_refl|].
    assert (l ⊆ database_files path) as Hs' by set_solver; eapply touched_trans; [by apply IH|].
    eapply touched_more; [|apply touch_file_ok]; [set_solver|]; eapply reachable_touched; [by apply IH|exact Hu|set_solver]. }
  eapply touched_trans; [by apply Hl|by apply touched_quiet].
Qed.

(** An installation is still in place when its database was opened. *)
Lemma installed_touched h g p path db : installed h p path → db ⊆ database_files (bp_DatabasePath p) → touched db h g → installed g p path.
Proof.
  intros I Hdb T; assert (∀ q r, q `prefix_of` r → (∀ s, s ∈ db → ¬ q `prefix_of` to_path s) → ho_files g !! r = ho_files h !! r) as Hoff.
  { intros q r Hq Hs; apply (to_files _ _ _ T); intros (s & -> & Hin)%list_elem_of_fmap; by apply (Hs s). }
  assert (∀ x q, no_char "/" x = true → q ∈ temp_names p x → vacant h q → vacant g q) as Hv.
  { intros x q Hx Hq (Hn & Hu & Hv); split; [done|split; [by eapply same_unlinked; [apply (to_links _ _ _ T)|]|]].
    intros r Hr; rewrite (to_links _ _ _ T), (Hoff q r Hr); [by apply Hv|]; intros s Hs.
    by apply (in_database _ _ _ I s (Hdb s Hs)) with (x := x). }
  split.
  - intros q Hq; destruct (in_files _ _ _ I q Hq) as (Hn & c & t & Hf); split; [done|exists c, t]; rewrite (to_files _ _ _ T); [done|].
    intros (s & -> & Hs)%list_elem_of_fmap; by apply (in_database _ _ _ I s (Hdb s Hs)).
  - intros q Hq; eapply same_unlinked; [apply (to_links _ _ _ T)|by apply (in_links _ _ _ I)].
  - apply (in_distinct _ _ _ I).
  - apply (in_base _ _ _ I).
  - intros x Hx; destruct (in_temp _ _ _ I x Hx); split; eapply Hv; try done; unfold temp_names; set_solver.
  - intros x Hx; eapply Hv; [exact Hx|unfold temp_names; set_solver|by apply (in_stage _ _ _ I)].
  - apply (in_tmp _ _ _ I).
  - intros s Hs; destruct (in_database _ _ _ I s Hs) as (Hu & ?); split; [|done]; by eapply same_unlinked; [apply (to_links _ _ _ T)|].
Qed.
End Touching.
(** ** The whole upgrade *)

Section Whole.
Context {W : Type} `{InstallText, HostEnv, InstallEnv, Archives, PolicyLaws W, !HostLaws}.
Notation S := (W * Host)%type.

(** A call of the driver, and a touch of the files. *)
Lemma with_database_eq {A} path (m : M S A) s :
  with_database path m s = ((m s).1, ((m s).2.1, (touch_database path (m s).2.2).2)).
Proof. unfold with_database; rewrite try_bind; destruct (m s) as [r [w h]]; done. Qed.
Lemma import_ok i w h r w' h' : reg_wf w → (∀ s, s ∈ database_files (ii_DatabasePath i) → unlinked h (to_path s)) →
  importLegacyTrivySettingsIfMissing i (w, h) = (r, (w', h')) →
  touched (database_files (ii_DatabasePath i)) h h' ∧ imported i (is_ok r) w w'.
Proof.
  set (path := ii_DatabasePath i); set (db := database_files path); intros Hw Hu.
  assert (∀ g, touched db h g → touched db h (touch_database path g).2) as Ht.
  { intros g Hg; eapply touched_trans; [exact Hg|]; apply touch_database_ok; by eapply reachable_touched. }
  assert (∀ g, touched db h g → touched db h (host_tick g)) as Hq by (intros g Hg; eapply touched_trans; [exact Hg|by apply touched_quiet]).
  assert (∀ w', reg_view w' = reg_view w → pol_view w' = pol_view w → imported i false w w') as Hsame by (intros x ? ?; split; [done|by left]).
  unfold importLegacyTrivySettingsIfMissing, open_database; fold path; unfold sbind at 1; rewrite with_database_eq; unfold on_host, host_ask; cbn [fst snd].
  destruct (ienv_open_store _ path); cbn [fst snd].
  { intros [= <- <- <-]; split; [by apply Ht, Hq, touched_refl|by apply Hsame]. }
  set (h1 := (touch_database path (host_tick h)).2); assert (touched db h h1) as T1 by (by apply Ht, Hq, touched_refl).
  rewrite try_bind; set (body := sbind (sattempt (with_database _ _)) _); destruct (body (w, h1)) as [r1 [w1 h2]] eqn:Hb; cbn [fst snd]; intros [= <- <- <-].
  enough (touched db h h2 ∧ imported i (is_ok r1) w w1) as [T2 Hi] by (split; [by apply Ht|done]).
  revert Hb; unfold body; rewrite try_bind, with_database_eq; unfold on_server; cbn [fst snd].
  destruct (GetScanSettings_ok DefaultTenant "trivy" w Hw) as (Hwa & _ & Hva & Hpa & Hra).
  destruct (meta_GetScanSettings DefaultTenant "trivy" w) as [ra wa]; cbn [fst snd] in *.
  set (h3 := (touch_database path h1).2); assert (touched db h h3) as T3 by (by apply Ht); destruct ra as [settings|e].
  { intros [= <- <- <-]; split; [done|]; split; [done|left]; split; [done|]; intros _; exists settings.
    by destruct Hra as [<-|[[e [=]] _]]. }
  destruct (reg_is_code e CodeNotFound) eqn:Hcode; cbn [negb]; [|intros [= <- <- <-]; split; [done|by apply Hsame]].
  unfold sbind, host_now; cbn [fst snd]; rewrite with_database_eq; cbn [fst snd].
  set (settings := legacy_settings i _); destruct (UpsertScanSettings_ok DefaultTenant "trivy" settings wa Hwa) as (_ & _ & Hvb & Hpb).
  destruct (UpsertScanSettings DefaultTenant "trivy" settings wa) as [rb wb]; cbn [fst snd] in *.
  assert (touched db h (touch_database path (host_tick h3)).2) as T4 by (by apply Ht, Hq).
  revert T4; generalize (touch_database path (host_tick h3)).2; intros h4 T4 [= <- <- <-].
  split; [done|]; destruct Hpb as [(-> & _ & Hpb)|[[Hpb [e' ->]] _]]; [|apply Hsame; congruence].
  split; [congruence|right]; split; [|exists (henv_now (ho_calls h3)); by rewrite Hpb, Hpa].
  destruct Hra as [<-|[[e' [= ->]] _]]; [by intros ? ?|done].
Qed.

(** The host, the record of commands and the database. *)
Definition quiet (s : S) : W * ((gmap (list string) node * gmap (list string) (list string)) * list (string * list string)) :=
  (s.1, (disk s.2, ho_ran s.2)).
Lemma keeps_quiet_host {A} (m : M Host A) : keeps disk m → keeps ho_ran m → keeps quiet (on_host (W := W) m).
Proof.
  intros Hd Hr [w h]; specialize (Hd h); specialize (Hr h); unfold on_host; simpl in *; destruct (m h); simpl in *.
  unfold quiet; simpl; by rewrite Hd, Hr.
Qed.
Lemma keeps_disk_read_installation path : keeps disk (read_installation path).
Proof. unfold read_installation, readLifecycleProvenance, readManagedEnv; keep. Qed.
Lemma keeps_ran_read_installation path : keeps ho_ran (read_installation path).
Proof. unfold read_installation, readLifecycleProvenance, readManagedEnv; keep. Qed.
Lemma keeps_quiet_resolve base ref os arch : keeps quiet (on_host (W := W) (Resolve base ref os arch)).
Proof. apply keeps_quiet_host; unfold Resolve, ResolveAsset; keep. Qed.

Lemma quiet_bind {A B} (m : M S A) (k : A → M S B) s r s' q : sbind m k s = (r, s') → keeps quiet m → quiet s = q →
  (∃ e, r = Err e ∧ quiet s' = q) ∨ ∃ a s1, m s = (Ok a, s1) ∧ quiet s1 = q ∧ k a s1 = (r, s').
Proof.
  intros Hb Hk <-; specialize (Hk s); unfold sbind in Hb; destruct (m s) as [[a|e] s1]; simpl in Hk; [right; by exists a, s1|left].
  injection Hb as <- <-; by exists e.
Qed.

(** What an upgrade does with the releases, once what is installed is read. *)
Definition after_import (cfg : UpgradeConfig) (path : string) (provenance : LifecycleProvenance) (intent : InstalledIntent)
    : M S UpgradeResult :=
  let p := buildPlanFromInstalledIntent intent in
  let! arch := slift (NormalizeArch ienv_goarch) in
  let! asset := on_host (Resolve (NewGitHubClient ienv_releases_url) (uc_Ref cfg) "linux" arch) in
  let preflight := mkPreflight (lp_InstalledRef provenance) (ii_InstalledVersion intent) (as_Tag asset) (as_Version asset)
                     (sameUpgradeVersion (ii_InstalledVersion intent) (as_Version asset) (lp_InstalledRef provenance) (as_Tag asset)) in
  do! slift (match uc_Preflight cfg with Some f => f preflight | None => Ok tt end) in
  if pf_UpToDate preflight
  then sret (mkUpgradeResult (lp_InstalledRef provenance) (ii_InstalledVersion intent) (as_Version asset) (as_Tag asset)
               (lp_StatePath provenance) true)
  else
  do! slift (confirmUpgrade preflight (uc_AssumeYes cfg) (uc_Confirm cfg)) in
  do! on_host (install_release p path asset) in
  sret (mkUpgradeResult (pf_InstalledRef preflight) (ii_InstalledVersion intent) (as_Version asset) (as_Tag asset) path false).
Lemma bind_same {A B} (m : M S A) (k k' : A → M S B) s : (∀ a s, k a s = k' a s) → sbind m k s = sbind m k' s.
Proof. by intros Hk; unfold sbind; destruct (m s) as [[a|e] s']. Qed.
Lemma upgrade_eq cfg s : Bootstrapper_Upgrade cfg s = (let! read := on_host (read_installation (provenance_path cfg)) in
  do! (if shouldImportLegacyTrivySettings read.1.1 read.1.2 then importLegacyTrivySettingsIfMissing read.2 else sret tt) in
  after_import cfg (provenance_path cfg) read.1.1 read.2) s.
Proof.
  unfold Bootstrapper_Upgrade; cbv zeta; apply bind_same.
  by intros [[provenance env] i] s'.
Qed.

(** It leaves the host alone, or installs a release that was resolved. *)
Lemma after_import_cases cfg path provenance i w h r w' h' : after_import cfg path provenance i (w, h) = (r, (w', h')) → w' = w ∧
  ((disk h' = disk h ∧ ho_ran h' = ho_ran h ∧ ∀ u, r = Ok u → ug_UpToDate u = true) ∨
  ∃ arch (g : Host) asset g' h1 r1, NormalizeArch ienv_goarch = Ok arch
    ∧ Resolve (NewGitHubClient ienv_releases_url) (uc_Ref cfg) "linux" arch g = (Ok asset, g')
    ∧ disk h1 = disk h ∧ ho_ran h1 = ho_ran h ∧ install_release (buildPlanFromInstalledIntent i) path asset h1 = (r1, h')
    ∧ match r1 with
      | Err e => r = Err e
      | Ok _ => ∃ u, r = Ok u ∧ ug_ToVersion u = as_Version asset ∧ ug_TargetRef u = as_Tag asset
                  ∧ ug_ProvenancePath u = path ∧ ug_UpToDate u = false
      end).
Proof.
  set (q := (w, (disk h, ho_ran h))); intros Hu; unfold after_import in Hu; cbv zeta in Hu.
  assert ((∃ e, r = Err e ∧ quiet (w', h') = q) → w' = w ∧ (disk h' = disk h ∧ ho_ran h' = ho_ran h
    ∧ ∀ u, r = Ok u → ug_UpToDate u = true)) as Herr.
  { intros (e & -> & [= -> Hf Hl Hr]); split_and!; [done|unfold disk; congruence|done|done]. }
  apply (quiet_bind _ _ _ _ _ q) in Hu as [He|(arch & s3 & E3 & Q3 & Hu)]; [apply Herr in He as [? ?]; split; [done|by left]| |apply keeps_lift|done].
  apply (quiet_bind _ _ _ _ _ q) in Hu as [He|(asset & s4 & E4 & Q4 & Hu)]; [apply Herr in He as [? ?]; split; [done|by left]| |apply keeps_quiet_resolve|done].
  apply (quiet_bind _ _ _ _ _ q) in Hu as [He|(u5 & s5 & _ & Q5 & Hu)]; [apply Herr in He as [? ?]; split; [done|by left]| |apply keeps_lift|done].
  destruct (pf_UpToDate _).
  { injection Hu as <- ->; injection Q5 as -> Hf Hl Hr; split; [done|left]; split_and!; [unfold disk; congruence|done|by intros u [= <-]]. }
  apply (quiet_bind _ _ _ _ _ q) in Hu as [He|(u6 & [w6 h6] & _ & Q6 & Hu)]; [apply Herr in He as [? ?]; split; [done|by left]| |apply keeps_lift|done].
  injection Q6 as Hw6 Hf6 Hl6 Hr6; injection E3 as E3 _; unfold on_host in E4; destruct (Resolve _ _ _ _ s3.2) as [r4 g4] eqn:E5; injection E4 as -> _.
  cbn [fst] in Hw6; subst w6; unfold sbind, on_host in Hu; cbn [fst snd] in Hu; destruct (install_release _ path asset h6) as [r1 h7] eqn:E7.
  split; [by destruct r1; injection Hu|right]; exists arch, s3.2, asset, g4, h6, r1.
  destruct r1 as [u7|e]; injection Hu as <- _ <-; (split; [done|split; [done|split; [unfold disk; congruence|split; [done|split; [done|]]]]]); first [done|by eexists].
Qed.

(** An upgrade changes nothing but the files of the database it opens, or installs a
    release that was resolved. *)
Lemma upgrade_cases cfg w h r w' h' : reg_wf w →
  (∀ p, upgrade_plan h (provenance_path cfg) = Some p → installed h p (provenance_path cfg)) →
  Bootstrapper_Upgrade cfg (w, h) = (r, (w', h')) →
  ∃ g, touched (upgrade_database h (provenance_path cfg)) h g ∧ import_done h (provenance_path cfg) (is_ok r) w w' ∧
  ((disk h' = disk g ∧ ho_ran h' = ho_ran h ∧ ∀ u, r = Ok u → ug_UpToDate u = true) ∨
  ∃ p arch (g0 : Host) asset g' h1 r1, upgrade_plan h (provenance_path cfg) = Some p ∧ installed g p (provenance_path cfg)
    ∧ NormalizeArch ienv_goarch = Ok arch ∧ Resolve (NewGitHubClient ienv_releases_url) (uc_Ref cfg) "linux" arch g0 = (Ok asset, g')
    ∧ disk h1 = disk g ∧ ho_ran h1 = ho_ran h ∧ install_release p (provenance_path cfg) asset h1 = (r1, h')
    ∧ match r1 with
      | Err e => r = Err e
      | Ok _ => ∃ u, r = Ok u ∧ ug_ToVersion u = as_Version asset ∧ ug_TargetRef u = as_Tag asset
                  ∧ ug_ProvenancePath u = provenance_path cfg ∧ ug_UpToDate u = false
      end).
Proof.
  intros Hw Hin; rewrite upgrade_eq; set (path := provenance_path cfg) in *; unfold sbind at 1, on_host; cbn [fst snd].
  unfold upgrade_plan, upgrade_database, import_done in *.
  pose proof (keeps_disk_read_installation path h) as Hd; pose proof (keeps_ran_read_installation path h) as Hr.
  destruct (read_installation path h) as [[[[provenance env] i]|e] h0]; cbn [fst snd] in *.
  2: { intros [= <- <- <-]; exists h; split; [apply touched_refl|split; [done|left; by split_and!]]. }
  specialize (Hin _ eq_refl); set (p := buildPlanFromInstalledIntent i) in *; unfold sbind.
  destruct (shouldImportLegacyTrivySettings provenance env).
  - pose proof (λ s Hs, proj1 (in_database _ _ _ Hin s Hs)) as Hun; assert (ho_links h0 = ho_links h) as Hl by (by injection Hd).
    destruct (importLegacyTrivySettingsIfMissing i (w, h0)) as [r1 [w1 h1]] eqn:Hi; apply import_ok in Hi as [T Hi]; [|done|].
    2: { intros s Hs; eapply same_unlinked; [exact Hl|by apply Hun]. }
    assert (touched (database_files (ii_DatabasePath i)) h h1) as T1 by (eapply touched_trans; [by apply touched_quiet|done]).
    assert (installed h1 p path) as Hin1 by (by eapply installed_touched).
    destruct r1 as [u|e]; [|intros [= <- <- <-]; exists h1; split; [done|split; [done|left; split_and!; [done|apply T1|done]]]].
    intros [-> Hc]%after_import_cases; exists h1; split; [done|split; [destruct Hi as [? Hi]; split; [done|]|]].
    { destruct Hi as [[? Hs]|?]; [left; split; [done|by intros _; apply Hs]|by right]. }
    rewrite (to_ran _ _ _ T1) in Hc; destruct Hc as [?|(arch & g0 & asset & g' & h2 & r2 & ? & ? & ? & ? & ? & ?)]; [by left|right].
    by exists p, arch, g0, asset, g', h2, r2.
  - intros [-> Hc]%after_import_cases; rewrite Hd, Hr in Hc; exists h; split; [apply touched_refl|split; [done|]].
    destruct Hc as [?|(arch & g0 & asset & g' & h2 & r2 & ? & ? & ? & ? & ? & ?)]; [by left|right]; by exists p, arch, g0, asset, g', h2, r2.
Qed.
End Whole.
