(* ===== verification/UninstallLaws.v ===== *)
(** What is removed: by an uninstall, and by a setup whose service does not start. *)
From stdpp Require Import gmap strings.
From S2P Require Import Prelude GoStrings Encodings Errors GoNumbers RegPorts RegWorld Overrides Scans.
From S2P Require Import Release Host InstallPlan Install InstallLaws UpgradeLaws UpgradeRun.

(** * Definitions *)

Section Removal.
Context `{UnicodeTables, HostEnv}.

(** A path that is not the root and can be reached without links. *)
Definition plain (h : Host) (s : string) : Prop := to_path s ≠ [] ∧ unlinked h (to_path s).
(** Nothing is there, nor below. *)
Definition gone (h : Host) (s : string) : Prop := ∀ q, to_path s `prefix_of` q → ho_files h !! q = None.
(** Nothing has changed but that something at or below [targets] is gone. *)
Record pruned (targets : list string) (h h' : Host) : Prop := {
  pr_links q t : ho_links h' !! q = Some t → ho_links h !! q = Some t;
  pr_files q : ho_files h' !! q = ho_files h !! q
               ∨ ho_files h' !! q = None ∧ ∃ s, s ∈ targets ∧ to_path s `prefix_of` q;
}.
(** What a report says of a target is so. *)
Definition truthful (item : CleanupItem * option error) (h : Host) : Prop :=
  match item.2 with
  | None => (ci_Status item.1 = CleanupStatusRemoved ∨ ci_Status item.1 = CleanupStatusMissing)
            ∧ ∀ s, s ∈ sqliteCleanupPaths (ci_Path item.1) → gone h s
  | Some _ => ci_Status item.1 = CleanupStatusFailed
  end.
(** The paths that go with a list of targets. *)
Definition removed_with (targets : list string) : list string := flat_map sqliteCleanupPaths targets.

(** * Lemmas *)

Lemma pruned_disk targets h h' : disk h' = disk h → pruned targets h h'.
Proof. intros [= Hf Hl]; split; rewrite ?Hf, ?Hl; [done|by left]. Qed.
Lemma pruned_trans l l' h h1 h' : l ⊆ l' → pruned l h h1 → pruned l' h1 h' → pruned l' h h'.
Proof.
  intros Hs [L1 F1] [L2 F2]; split; [auto|]; intros q; destruct (F2 q) as [->|?]; [|by right].
  destruct (F1 q) as [->|(? & s & ? & ?)]; [by left|right; split; [done|exists s; auto]].
Qed.
Lemma pruned_more l l' h h' : l ⊆ l' → pruned l h h' → pruned l' h h'.
Proof. intros Hs [L F]; split; [done|]; intros q; destruct (F q) as [?|(? & s & ? & ?)]; [by left|right; split; [done|exists s; auto]]. Qed.
Lemma plain_pruned l h h' s : plain h s → pruned l h h' → plain h' s.
Proof.
  intros [Hn Hu] [L _]; split; [done|]; intros q Hq; specialize (Hu q Hq); destruct (ho_links h' !! q) as [t|] eqn:Ht; [|done].
  apply L in Ht; congruence.
Qed.
Lemma gone_pruned l h h' s : gone h s → pruned l h h' → gone h' s.
Proof. intros Hg [_ F] q Hq; specialize (Hg q Hq); destruct (F q) as [->|[? _]]; done. Qed.
Lemma closed_pruned l h h' : closed (ho_files h) → pruned l h h' → (∀ s, s ∈ l → gone h' s ∨ ∀ q, to_path s `prefix_of` q → ho_files h' !! q = ho_files h !! q) →
  closed (ho_files h').
Proof.
  intros Hc [_ F] Hl p q n Hn Hp Hq; assert (ho_files h !! (p ++ q) = Some n) as Hn0 by (destruct (F (p ++ q)) as [<-|[? _]]; congruence).
  pose proof (Hc p q n Hn0 Hp Hq) as Hd; destruct (F p) as [->|(Hx & s & Hs & Hpre)]; [done|]; exfalso.
  destruct (Hl s Hs) as [Hg|He]; [|by rewrite He, Hd in Hx].
  rewrite (Hg (p ++ q)) in Hn; [done|]; etrans; [exact Hpre|by exists q].
Qed.

Lemma removes_any s h r h' : plain h s → host_RemoveAll s h = (r, h') →
  pruned [s] h h' ∧ ho_ran h' = ho_ran h ∧ match r with Ok _ => gone h' s | Err _ => closed (ho_files h) → closed (ho_files h') end.
Proof.
  intros [Hn Hu] Hr; pose proof (keeps_ran_remove_all s h) as Hran; rewrite Hr in Hran; destruct r as [u|e].
  2: { apply remove_all_err in Hr as [[Hd _]|(p & Hp & [_ Hf Hl Hc])];
         [split; [by apply pruned_disk|]; split; [done|by injection Hd as -> _]|].
       rewrite (entry_unlinked h s Hn Hu) in Hp; injection Hp as <-; split; [split|by split].
       - intros q t; destruct (Hl q) as [->|(_ & _ & ->)]; done.
       - intros q; destruct (Hf q) as [?|(Hq & _ & ?)]; [by left|right; split; [done|exists s; split; [by left|done]]]. }
  pose proof (entry_unlinked h s Hn Hu) as He; assert (ho_links h !! to_path s = None) as Hl by (by apply Hu).
  pose proof (remove_all_ok _ _ _ _ _ He Hl Hr) as Hf.
  assert (gone h' s) as Hg.
  { intros q Hq; rewrite Hf; unfold fs_remove_all; apply map_lookup_filter_None; right; intros x _ Hx; simpl in Hx.
    by apply bool_decide_eq_false in Hx. }
  assert (pruned [s] h h') as Hp.
  { split.
    - intros q t; revert Hr; unfold host_RemoveAll, host_call; rewrite He; destruct (henv_fault _); [done|]; rewrite Hl; intros [= _ <-]; simpl.
      rewrite map_lookup_filter_Some; by intros [? _].
    - intros q; destruct (decide (to_path s `prefix_of` q)) as [Hq|Hq]; [right|left; by rewrite Hf, remove_all_other].
      split; [by apply Hg|]; exists s; split; [by left|done]. }
  by split.
Qed.
Lemma removes s h r h' : plain h s → closed (ho_files h) → host_RemoveAll s h = (r, h') →
  pruned [s] h h' ∧ closed (ho_files h') ∧ ho_ran h' = ho_ran h ∧ match r with Ok _ => gone h' s | Err _ => True end.
Proof.
  intros Hp Hc Hr; apply removes_any in Hr as (P & Hran & Hg); [|done]; split; [done|split; [|split; [done|by destruct r]]].
  destruct r as [u|e]; [|by apply Hg]; eapply closed_pruned; [done|done|]; intros x ->%list_elem_of_singleton; by left.
Qed.
Lemma stat_missing s h h' : plain h s → closed (ho_files h) → host_Stat s h = (Ok false, h') → gone h s.
Proof.
  intros [Hn Hu] Hc; unfold host_Stat, host_call; destruct (henv_fault _); [done|]; rewrite at_path_unlinked by done.
  unfold fs_stat; destruct (ho_files h !! to_path s) as [n|] eqn:Hf; [done|]; intros _ q [k ->].
  destruct (decide (k = [])) as [->|Hk]; [by rewrite app_nil_r|].
  destruct (ho_files h !! (to_path s ++ k)) as [n|] eqn:Hx; [|done]; by rewrite (Hc _ _ _ Hx Hn Hk) in Hf.
Qed.
End Removal.

Section Uninstall.
Context `{UnicodeTables, InstallText, HostEnv, InstallEnv}.

Lemma cleanup_paths_ok target had paths h : (∀ s, s ∈ paths → plain h s) → closed (ho_files h) →
  ∃ item err h', cleanup_paths target had paths h = (Ok (item, err), h') ∧ pruned paths h h' ∧ closed (ho_files h')
    ∧ ho_ran h' = ho_ran h ∧ ci_Path item = target
    ∧ match err with
      | None => (ci_Status item = CleanupStatusRemoved ∨ ci_Status item = CleanupStatusMissing) ∧ ∀ s, s ∈ paths → gone h' s
      | Some _ => ci_Status item = CleanupStatusFailed
      end.
Proof.
  revert had h; induction paths as [|p paths IH]; intros had h Hp Hc; cbn [cleanup_paths].
  { destruct had; do 3 eexists; (split; [done|]); (split; [by apply pruned_disk|]); split_and!; try done;
      first [by left|by right|by intros s []%not_elem_of_nil]. }
  rewrite try_bind; pose proof (keeps_disk_Stat p h) as Hd; pose proof (keeps_ran_stat p h) as Hr.
  destruct (host_Stat p h) as [found h1] eqn:Hst; cbn [fst snd] in *; assert (plain h p) as Hpp by (apply Hp; by left).
  assert (pruned [] h h1) as P1 by (by apply pruned_disk); assert (closed (ho_files h1)) as Hc1 by (by injection Hd as -> _).
  assert (∀ s, s ∈ p :: paths → plain h1 s) as Hp1 by (intros s Hs; eapply plain_pruned; [by apply Hp|done]).
  destruct found as [[|]|e].
  3: { do 3 eexists; split; [done|]; split; [by apply pruned_disk|by split_and!]. }
  - rewrite try_bind; destruct (host_RemoveAll p h1) as [r h2] eqn:Hrm; cbn [fst snd].
    apply removes in Hrm as (P2 & Hc2 & Hr2 & Hg); [|by apply Hp1; left|done]; destruct r as [u|e].
    + destruct (IH true h2) as (item & err & h' & Hx & P3 & Hc3 & Hr3 & Hpath & Herr); [|done|].
      { intros s Hs; eapply plain_pruned; [apply Hp1; by right|done]. }
      exists item, err, h'; split; [done|]; assert (pruned (p :: paths) h h') as P.
      { eapply pruned_trans; [|eapply pruned_trans; [|exact P1|exact P2]|]; [|..|eapply pruned_more; [|exact P3]]; set_solver. }
      split; [done|split; [done|split; [congruence|split; [done|]]]]; destruct err; [done|]; destruct Herr as [Hs Hgs]; split; [done|].
      intros s [->|Hs']%elem_of_cons; [by eapply gone_pruned|by apply Hgs].
    + do 3 eexists; split; [done|]; split; [|split_and!; try done; congruence].
      eapply pruned_trans; [|exact P1|eapply pruned_more; [|exact P2]]; set_solver.
  - apply stat_missing in Hst; [|done..]; destruct (IH had h1) as (item & err & h' & Hx & P3 & Hc3 & Hr3 & Hpath & Herr);
      [intros s Hs; apply Hp1; by right|done|].
    exists item, err, h'; split; [done|]; split; [eapply pruned_trans; [|exact P1|eapply pruned_more; [|exact P3]]; set_solver|].
    split; [done|split; [congruence|split; [done|]]]; destruct err; [done|]; destruct Herr as [Hs Hgs]; split; [done|].
    intros s [->|Hs']%elem_of_cons; [|by apply Hgs]; eapply gone_pruned; [eapply gone_pruned; [exact Hst|exact P1]|exact P3].
Qed.
Definition target_ok (t : string) : Prop := trim_space t = t ∧ blank t = false.
Lemma truthful_pruned l item h h' : truthful item h → pruned l h h' → truthful item h'.
Proof. unfold truthful; destruct item.2; [done|]; intros [Hs Hg] P; split; [done|]; intros s Hs'; by eapply gone_pruned; [apply Hg|]. Qed.
Lemma cleanupPath_ok t h : target_ok t → (∀ s, s ∈ sqliteCleanupPaths t → plain h s) → closed (ho_files h) →
  ∃ item h', cleanupPath t h = (Ok item, h') ∧ pruned (sqliteCleanupPaths t) h h' ∧ closed (ho_files h')
    ∧ ho_ran h' = ho_ran h ∧ ci_Path item.1 = t ∧ truthful item h'.
Proof.
  intros [Ht Hb] Hp Hc; unfold cleanupPath; cbv zeta; rewrite Ht, Hb.
  destruct (cleanup_paths_ok t false (sqliteCleanupPaths t) h Hp Hc) as (item & err & h' & -> & P & Hc' & Hr & Hi & He).
  exists (item, err), h'; split; [done|split; [done|split; [done|split; [done|split; [done|]]]]].
  unfold truthful; cbn [fst snd]; by rewrite Hi.
Qed.
Lemma cleanup_targets_ok ts h : Forall target_ok ts → (∀ s, s ∈ removed_with ts → plain h s) → closed (ho_files h) →
  ∃ items h', cleanup_targets ts h = (Ok items, h') ∧ pruned (removed_with ts) h h' ∧ ho_ran h' = ho_ran h
    ∧ map (ci_Path ∘ fst) items = ts ∧ Forall (λ item, truthful item h') items.
Proof.
  revert h; induction ts as [|t ts IH]; intros h Ht Hp Hc; cbn [cleanup_targets].
  { exists [], h; split; [done|split; [by apply pruned_disk|done]]. }
  apply Forall_cons in Ht as [Ht Hts]; assert (∀ s, s ∈ sqliteCleanupPaths t → plain h s) as Hpt.
  { intros s Hs; apply Hp; unfold removed_with; simpl; apply elem_of_app; by left. }
  destruct (cleanupPath_ok t h Ht Hpt Hc) as (item & h1 & Hx & P1 & Hc1 & Hr1 & Hi & Htr).
  destruct (IH h1) as (items & h' & Hy & P2 & Hr2 & Hm & Hall); [done| |done|].
  { intros s Hs; eapply plain_pruned; [apply Hp; unfold removed_with; simpl; apply elem_of_app; by right|exact P1]. }
  exists (item :: items), h'; unfold sbind; rewrite Hx, Hy; split; [done|split; [|split; [congruence|split; [simpl; by rewrite Hi, Hm|]]]].
  - eapply pruned_trans; [|exact P1|eapply pruned_more; [|exact P2]]; unfold removed_with; simpl; set_solver.
  - constructor; [by eapply truthful_pruned|done].
Qed.

(** What is to be removed: every path once, the binary last. *)
Lemma append_unique_ok skip ordered paths : Forall target_ok ordered → Forall target_ok (append_unique skip ordered paths).
Proof.
  revert ordered; induction paths as [|p paths IH]; intros ordered Ho; simpl; [done|]; destruct (blank (trim_space p)) eqn:Hb; simpl; [by apply IH|].
  destruct (_ || _); [by apply IH|]; apply IH, Forall_app; split; [done|]; constructor; [|constructor]; split; [apply trim_space_idem|done].
Qed.
Lemma targets_ok p : Forall target_ok (uninstallCleanupTargets p).
Proof.
  unfold uninstallCleanupTargets; cbv zeta; apply Forall_app; split; [apply append_unique_ok; constructor|].
  destruct (blank _) eqn:Hb; constructor; [split; [apply trim_space_idem|done]|constructor].
Qed.
Lemma append_unique_targets skip ordered paths s : s ∈ append_unique skip ordered paths ↔
  s ∈ ordered ∨ s ≠ "" ∧ s ≠ skip ∧ ∃ q, q ∈ paths ∧ trim_space q = s.
Proof.
  revert ordered; induction paths as [|p paths IH]; intros ordered; simpl; [set_solver|].
  unfold blank; destruct (String.eqb_spec (trim_space p) "") as [He|Hne]; simpl; [rewrite IH; set_solver|].
  destruct (String.eqb_spec (trim_space p) skip) as [Hs|Hns]; simpl; [rewrite IH; set_solver|].
  destruct (existsb (String.eqb (trim_space p)) ordered) eqn:Hx; rewrite IH; [|set_solver].
  apply existsb_exists in Hx as (y & Hy%list_elem_of_In & <-%String.eqb_eq); set_solver.
Qed.
Lemma targets_all p s : s ∈ uninstallCleanupTargets p ↔
  s ≠ "" ∧ (s = trim_space (lp_InstalledBin p) ∨ ∃ q, q ∈ lp_ManagedPaths p ++ [lp_StatePath p] ∧ trim_space q = s).
Proof.
  unfold uninstallCleanupTargets; cbv zeta; rewrite elem_of_app, append_unique_targets.
  unfold blank; destruct (String.eqb_spec (trim_space (lp_InstalledBin p)) "") as [He|Hne];
    destruct (decide (s = trim_space (lp_InstalledBin p))) as [->|Hs]; set_solver.
Qed.

Lemma keeps_disk_provenance path : keeps disk (readLifecycleProvenance path).
Proof. unfold readLifecycleProvenance; keep. Qed.
Lemma keeps_ran_provenance path : keeps ho_ran (readLifecycleProvenance path).
Proof. unfold readLifecycleProvenance; keep. Qed.
Lemma joined_none errs : errors_Join errs = None ↔ errs = [].
Proof. by destruct errs. Qed.
Lemma no_failure items : Forall (λ item : CleanupItem * option error, item.2 = None ↔ ci_Status item.1 ≠ CleanupStatusFailed) items →
  omap snd items = [] ↔ ∀ item, item ∈ map fst items → ci_Status item ≠ CleanupStatusFailed.
Proof.
  induction items as [|[item [e|]] items IH].
  { intros _; simpl; split; [by intros _ item []%not_elem_of_nil|done]. }
  all: intros [Hi Hall]%Forall_cons; simpl in *; specialize (IH Hall).
  - split; [done|]; intros Hx; exfalso; assert (Some e = None) as Hn; [|done]; apply Hi, Hx; by left.
  - rewrite IH; split; [|set_solver]; intros Hx y [->|Hy]%elem_of_cons; [by apply Hi|by apply Hx].
Qed.
Lemma truthful_status item h : truthful item h → item.2 = None ↔ ci_Status item.1 ≠ CleanupStatusFailed.
Proof. unfold truthful; destruct item.2; [by intros ->|]; intros [[-> | ->] _]; by split. Qed.
Lemma uninstall_ok p h : closed (ho_files h) → (∀ s, s ∈ removed_with (uninstallCleanupTargets p) → plain h s) →
  ∃ report err h', uninstallWithProvenance p h = (Ok (report, err), h')
    ∧ pruned (removed_with (uninstallCleanupTargets p)) h h'
    ∧ ho_ran h' = (ho_ran h ++ [("systemctl", ["disable"; "--now"; ci_Path (ur_Service report)])])%list
    ∧ map ci_Path (ur_Items report) = uninstallCleanupTargets p
    ∧ (∀ item, item ∈ ur_Items report → ci_Status item = CleanupStatusFailed
         ∨ (ci_Status item = CleanupStatusRemoved ∨ ci_Status item = CleanupStatusMissing)
           ∧ ∀ s, s ∈ sqliteCleanupPaths (ci_Path item) → gone h' s)
    ∧ (err = None ↔ ci_Status (ur_Service report) = CleanupStatusRemoved
                    ∧ ∀ item, item ∈ ur_Items report → ci_Status item ≠ CleanupStatusFailed).
Proof.
  intros Hc Hp; unfold uninstallWithProvenance; cbv zeta; rewrite try_bind.
  set (unit := if blank (trim_space (lp_ServiceName p)) then "" else service_unit (trim_space (lp_ServiceName p))).
  pose proof (keeps_disk_command "systemctl" ["disable"; "--now"; unit] h) as Hd.
  destruct (runCommand _ _ h) as [stopped h1] eqn:Hx; cbn [fst snd] in *; apply command_ran in Hx as Hr1.
  destruct (cleanup_targets_ok (uninstallCleanupTargets p) h1) as (items & h' & Hy & P & Hr & Hm & Hall).
  { apply targets_ok. }
  { intros s Hs; eapply plain_pruned; [by apply Hp|by apply (pruned_disk [])]. }
  { by injection Hd as -> _. }
  unfold sbind; rewrite Hy; do 3 eexists; split; [reflexivity|]; cbn [ur_Service ur_Items].
  split; [eapply (pruned_trans []); [set_solver|by apply pruned_disk|exact P]|split; [by rewrite Hr, Hr1; destruct stopped|split; [by rewrite map_map|split]]].
  - intros item (pair & -> & Hin)%list_elem_of_fmap; rewrite Forall_forall in Hall; specialize (Hall _ Hin).
    unfold truthful in Hall; destruct pair.2; [by left|by right].
  - rewrite joined_none, app_nil, no_failure.
    + destruct stopped; simpl; split; by intros [? ?].
    + eapply Forall_impl; [exact Hall|]; intros item; apply truthful_status.
Qed.

(** ** A setup that is taken back *)

Lemma wrap_inv {A} t (m : M Host A) h r h' : wrap t m h = (r, h') → ∃ r0, m h = (r0, h') ∧ (is_ok r = is_ok r0).
Proof. unfold wrap; rewrite try_bind; destruct (m h) as [[a|e] h1]; simpl; intros [= <- <-]; by eexists. Qed.
Lemma collect_step m steps h r h' : collect (m :: steps) h = (r, h') → ∃ r1 h1 r2, m h = (r1, h1) ∧ collect steps h1 = (r2, h')
  ∧ (r = Ok [] → is_ok r1 = true ∧ r2 = Ok []).
Proof.
  cbn [collect]; rewrite try_bind; unfold sbind; destruct (m h) as [r1 h1]; cbn [fst snd]; destruct (collect steps h1) as [r2 h2] eqn:Hc.
  intros Hr; exists r1, h1, r2; split; [done|]; destruct r2 as [errs|e]; injection Hr as <- <-; (split; [done|]); [|done].
  by destruct r1; [intros [= ->]|].
Qed.
Lemma removals_ok l h r h' : (∀ s, s ∈ l → plain h s) → collect (map remove_path l) h = (r, h') →
  pruned l h h' ∧ ho_ran h' = ho_ran h ∧ (r = Ok [] → ∀ s, s ∈ l → gone h' s).
Proof.
  revert h r; induction l as [|x l IH]; intros h r Hp Hc.
  { injection Hc as <- <-; split; [by apply pruned_disk|split; [done|by intros _ s Hs%not_elem_of_nil]]. }
  apply collect_step in Hc as (r1 & h1 & r2 & Hx & Hl & Hok); apply wrap_inv in Hx as (rx & Hx & Hrx).
  apply removes_any in Hx as (P1 & R1 & Hg); [|apply Hp; by left].
  apply IH in Hl as (P2 & R2 & Hgs); [|intros s Hs; eapply plain_pruned; [apply Hp; by right|exact P1]].
  split; [|split; [congruence|]].
  - eapply pruned_trans; [|eapply pruned_more; [|exact P1]|eapply pruned_more; [|exact P2]]; set_solver.
  - intros [Hr1 ->]%Hok s [->|Hs]%elem_of_cons; [|by apply Hgs]; rewrite Hr1 in Hrx; destruct rx as [u|]; [|done].
    by eapply gone_pruned.
Qed.
Lemma taken_back receipt h r h' : (∀ s, s ∈ removed_with (br_Paths receipt) → plain h s) → rollbackWithReceipt receipt h = (r, h') →
  pruned (removed_with (br_Paths receipt)) h h'
  ∧ ho_ran h' = (ho_ran h ++ [("systemctl", ["disable"; "--now"; service_unit (br_ServiceName receipt)])])%list
  ∧ (r = Ok tt → ∀ s, s ∈ removed_with (br_Paths receipt) → gone h' s).
Proof.
  intros Hp; set (l := flat_map sqliteCleanupPaths (reverse (br_Paths receipt))).
  assert (∀ s, s ∈ l ↔ s ∈ removed_with (br_Paths receipt)) as Hl.
  { intros s; unfold l, removed_with; rewrite !list_elem_of_In, !in_flat_map.
    split; intros (x & Hx & Hs); exists x; (split; [|done]); revert Hx; by rewrite <- !list_elem_of_In, elem_of_reverse. }
  unfold rollbackWithReceipt, sbind; fold l; set (stop := systemctl_disable (br_ServiceName receipt)).
  destruct (collect (stop :: map remove_path l) h) as [rs h2] eqn:Hc; destruct (collect_all (stop :: map remove_path l) h) as [errs He].
  rewrite Hc in He; simpl in He; subst rs; intros Hj; assert (h' = h2 ∧ (r = Ok tt → errs = [])) as [-> Hr].
  { unfold joined in Hj; destruct errs; simpl in Hj; injection Hj as <- ->; by split. }
  apply collect_step in Hc as (r1 & h1 & r2 & Hx & Hc & Hok); apply wrap_inv in Hx as (rx & Hx & _).
  pose proof (keeps_disk_command "systemctl" ["disable"; "--now"; service_unit (br_ServiceName receipt)] h) as Hd; rewrite Hx in Hd.
  apply command_ran in Hx; assert (pruned [] h h1) as P1 by (by apply pruned_disk).
  apply removals_ok in Hc as (P2 & R2 & Hg); [|intros s Hs; eapply plain_pruned; [by apply Hp, Hl|exact P1]].
  split; [eapply pruned_trans; [|exact P1|eapply pruned_more; [|exact P2]]; set_solver|split; [by rewrite R2, Hx|]].
  intros Hok' s Hs; apply Hg; [by apply Hok; rewrite (Hr Hok')|by apply Hl].
Qed.

(** What a setup may write or take back. *)
Definition places (p : BootstrapPlan) : list string :=
  (br_Paths (bootstrapReceiptFromPlan p) ++ removed_with (br_Paths (bootstrapReceiptFromPlan p)))%list.
Definition below (l : list string) (q : list string) : Prop := ∃ s, s ∈ l ∧ to_path s `prefix_of` q.
Lemma safe_setup h0 p : (∀ s, s ∈ places p → plain h0 s) →
  safe h0 (below (places p)) (writeSetupArtifacts p (bootstrapReceiptFromPlan p)).
Proof.
  intros Hp; assert (∀ s data, s ∈ br_Paths (bootstrapReceiptFromPlan p) → safe h0 (below (places p)) (host_WriteFile s data)) as Hw.
  { intros s data Hs; assert (s ∈ places p) as Hs' by (by apply elem_of_app; left); destruct (Hp s Hs') as [_ Hu].
    apply safe_write; rewrite at_path_unlinked by done; intros q [= <-] Hn; exfalso; apply Hn; by exists s. }
  cbn [bootstrapReceiptFromPlan br_Paths] in Hw.
  unfold writeSetupArtifacts, writeManagedArtifacts, writeBootstrapReceipt.
  repeat (first [apply safe_mkdirs|apply Hw; set_solver|safe_step]).
Qed.
Lemma keeps_ran_setup p : keeps ho_ran (writeSetupArtifacts p (bootstrapReceiptFromPlan p)).
Proof. unfold writeSetupArtifacts, writeManagedArtifacts, writeBootstrapReceipt; repeat (first [apply keeps_ran_mkdirs|keep]); keep. Qed.
Lemma keeps_disk_start p : keeps disk (start_service p (bootstrapReceiptFromPlan p)).
Proof. unfold start_service, systemctl_reload, systemctl_enable; keep. Qed.
Lemma start_ran p h : ∃ l, ho_ran (start_service p (bootstrapReceiptFromPlan p) h).2 = (ho_ran h ++ l)%list.
Proof.
  assert (∀ {A} (m : M Host A) h, (∃ l, ho_ran (m h).2 = (ho_ran h ++ l)%list) → ∀ {B} (k : A → M Host B),
    (∀ a g, ∃ l, ho_ran (k a g).2 = (ho_ran g ++ l)%list) → ∃ l, ho_ran (sbind m k h).2 = (ho_ran h ++ l)%list) as Hb.
  { intros A m g [l Hl] B k Hk; unfold sbind; destruct (m g) as [[a|e] g']; simpl in *; [|by exists l].
    destruct (Hk a g') as [l' ->]; exists (l ++ l')%list; by rewrite Hl, app_assoc. }
  assert (∀ t name args g, ∃ l, ho_ran (wrap t (runCommand name args) g).2 = (ho_ran g ++ l)%list) as Hc.
  { intros t name args g; rewrite wrap_snd; exists [(name, args)]; destruct (runCommand name args g) eqn:Hx; by apply command_ran in Hx. }
  apply Hb; [apply Hc|intros _ g]; apply Hb; [apply Hc|intros _ g']; exists []; rewrite app_nil_r; apply keeps_ran_wait.
Qed.
Lemma plan_of cfg h p h' : plan cfg h = (Ok p, h') → ∃ binary, plan_with binary cfg = Ok p.
Proof. unfold plan; intros (binary & h1 & _ & [= Hp _])%bind_ok; by exists binary. Qed.
Lemma keeps_disk_plan cfg : keeps disk (plan cfg).
Proof. unfold plan; keep. Qed.
Lemma keeps_ran_plan cfg : keeps ho_ran (plan cfg).
Proof. unfold plan; keep. Qed.
Lemma keeps_disk_preflight cfg : keeps disk (preflightLocalBind cfg).
Proof. unfold preflightLocalBind; keep. Qed.
Lemma keeps_ran_preflight cfg : keeps ho_ran (preflightLocalBind cfg).
Proof. unfold preflightLocalBind; keep. Qed.

(** A setup fails before the service is started, or the start fails. *)
Lemma setup_err cfg h e h' : Bootstrapper_Run cfg h = (Err e, h') →
  (∀ binary p s, plan_with binary cfg = Ok p → s ∈ places p → plain h s) →
  (ho_ran h' = ho_ran h ∧ (disk h' = disk h ∨ ∃ binary p, plan_with binary cfg = Ok p ∧ kept h (below (places p)) h'))
  ∨ ∃ binary p g l e1 r, plan_with binary cfg = Ok p ∧ kept h (below (places p)) g ∧ ho_ran g = (ho_ran h ++ l)%list
    ∧ rollbackWithReceipt (bootstrapReceiptFromPlan p) g = (r, h')
    ∧ match r with Ok _ => e = e1 | Err e2 => errors_Join [e1; e2] = Some e end.
Proof.
  intros Hr Hp; unfold Bootstrapper_Run in Hr.
  apply bind_err in Hr as [Hr|(u & h0 & [= _ <-] & Hr)]; [left; by injection Hr as _ <-; split; [|left]|].
  pose proof (keeps_disk_detect h) as D1; pose proof (keeps_ran_detect h) as R1.
  apply bind_err in Hr as [Hr|(found & h1 & Hd & Hr)]; [left; rewrite Hr in D1, R1; by split; [|left]|].
  rewrite Hd in D1, R1; simpl in D1, R1; clear Hd.
  pose proof (keeps_disk_plan cfg h1) as D2; pose proof (keeps_ran_plan cfg h1) as R2.
  apply bind_err in Hr as [Hr|(p & h2 & Hpl & Hr)]; [left; rewrite Hr in D2, R2; simpl in D2, R2; split; [congruence|left; congruence]|].
  rewrite Hpl in D2, R2; simpl in D2, R2; apply plan_of in Hpl as [binary Hpl]; specialize (Hp binary p); cbv zeta in Hr.
  assert (kept h (below (places p)) h2) as K2 by (eapply kept_disk; [|apply kept_refl]; congruence).
  pose proof (safe_setup h p (λ s, Hp s Hpl) h2 K2) as K3; pose proof (keeps_ran_setup p h2) as R3.
  assert (∀ g, kept h (below (places p)) g → ho_ran g = ho_ran h → ho_ran g = ho_ran h ∧
    (disk g = disk h ∨ ∃ binary p, plan_with binary cfg = Ok p ∧ kept h (below (places p)) g)) as Hearly.
  { intros g Kg Rg; split; [done|right; by exists binary, p]. }
  apply bind_err in Hr as [Hr|(u3 & h3 & Hw & Hr)]; [left; rewrite Hr in K3, R3; apply Hearly; [done|simpl in R3; congruence]|].
  rewrite Hw in K3, R3; simpl in K3, R3; destruct (bc_NoStart cfg); [done|].
  pose proof (keeps_disk_preflight cfg h3) as D4; pose proof (keeps_ran_preflight cfg h3) as R4.
  apply bind_err in Hr as [Hr|(u4 & h4 & Hpre & Hr)];
    [left; rewrite Hr in D4, R4; apply Hearly; [by eapply kept_disk|simpl in R4; congruence]|].
  rewrite Hpre in D4, R4; simpl in D4, R4; rewrite try_bind in Hr.
  pose proof (keeps_disk_start p h4) as D5; destruct (start_ran p h4) as [l R5]; right; exists binary, p.
  destruct (start_service p _ h4) as [[u5|e1] h5]; cbn [fst snd] in *; [done|]; rewrite try_bind in Hr.
  destruct (rollbackWithReceipt _ h5) as [r h6] eqn:Hb; cbn [fst snd] in Hr; exists h5, l, e1, r.
  split; [done|split; [eapply kept_disk; [|exact K3]; congruence|split; [rewrite R5; f_equal; congruence|]]].
  destruct r as [[]|e2]; injection Hr as <- <-; by split.
Qed.
End Uninstall.
