(* ===== verification/InstallRoundTrip.v ===== *)
(** The configuration of an installation survives an upgrade: what setup writes is
    read back as the plan it was written from. *)
From stdpp Require Import gmap strings.
From S2P Require Import Prelude GoStrings Encodings Errors GoNumbers Overrides Scans Release Runtimes.
From S2P Require Import InstallPlan.

(** * Definitions *)

(** A plan without what an installation does not record: the settings of the scanner. *)
Definition without_trivy (p : BootstrapPlan) : BootstrapPlan :=
  mkPlan (bp_Mode p) (bp_Addr p) (bp_PublicURL p) (bp_RuntimeTLSMode p) (bp_TLSCertFile p) (bp_TLSKeyFile p) (bp_AuthPostgresDSN p)
    (bp_StorageRoot p) (bp_DatabasePath p) (bp_ContentPath p) (bp_StatePath p) (bp_EnvPath p) (bp_UnitPath p) (bp_BinaryPath p)
    (bp_ServiceName p) false false (24 * hour) (15 * minute) (filepath_Join (bp_StorageRoot p) "trivy-cache") "trivy" 1
    (bp_DeleteEnabled p) (bp_GCDeleteEnabled p).
Definition required_texts (p : BootstrapPlan) : list string :=
  [bp_Mode p; bp_Addr p; bp_PublicURL p; bp_RuntimeTLSMode p; bp_StorageRoot p; bp_DatabasePath p; bp_ContentPath p; bp_StatePath p;
   bp_EnvPath p; bp_UnitPath p; bp_BinaryPath p; bp_ServiceName p].
Definition optional_texts (p : BootstrapPlan) : list string := [bp_TLSCertFile p; bp_TLSKeyFile p; bp_AuthPostgresDSN p].

(** The plan has the values setup asks for, without white space around them, in
    ASCII and on lines a scanner reads. *)
Record well_formed `{UnicodeTables} (p : BootstrapPlan) : Prop := {
  wf_required : Forall (λ s, trim_space s = s ∧ s ≠ "") (required_texts p);
  wf_optional : Forall (λ s, trim_space s = s) (optional_texts p);
  wf_tls : bp_TLSCertFile p = "" ↔ bp_TLSKeyFile p = "";
  wf_lines : Forall (λ kv, is_ascii kv.2 = true ∧ (String.length (env_line kv) < MaxScanTokenSize)%nat) (env_values p);
}.

(** * Lemmas *)

(** ** Quoted text *)

Ltac each_ascii a := destruct a as [[] [] [] [] [] [] [] []].
Lemma unquote_byte a fuel rest : in_range 0 127 a = true →
  unquote_chars (S fuel) dquote (String.append (quote_byte a) rest)
  = match unquote_chars fuel dquote rest with Some (t, after) => Some (String a t, after) | None => None end.
Proof. intros Ha; each_ascii a; try discriminate Ha; clear Ha; reflexivity. Qed.
Lemma quote_byte_plain a : in_range 0 127 a = true → str_forallb (in_range 32 126) (quote_byte a) = true.
Proof. each_ascii a; vm_compute; done. Qed.
Lemma unquote_bytes fuel s : is_ascii s = true → (String.length s < fuel)%nat →
  unquote_chars fuel dquote (String.append (quote_bytes s) (String dquote "")) = Some (s, "").
Proof.
  revert fuel; induction s as [|a s IH]; intros fuel; [destruct fuel; [simpl; lia|done]|].
  cbn [is_ascii str_forallb String.length quote_bytes]; intros [Ha Hs]%andb_true_iff Hf; destruct fuel as [|fuel]; [lia|].
  rewrite append_assoc, unquote_byte by done; by rewrite IH by (done || lia).
Qed.
Lemma quote_bytes_plain s : is_ascii s = true → str_forallb (in_range 32 126) (quote_bytes s) = true.
Proof.
  induction s as [|a s IH]; [done|]; cbn [is_ascii str_forallb quote_bytes]; intros [Ha Hs]%andb_true_iff.
  by rewrite str_forallb_append, quote_byte_plain, IH.
Qed.
Lemma quote_bytes_long s : (String.length s ≤ String.length (quote_bytes s))%nat.
Proof.
  induction s as [|a s IH]; [done|]; cbn [String.length quote_bytes]; rewrite length_append.
  assert (1 ≤ String.length (quote_byte a))%nat; [|lia]; each_ascii a; vm_compute; lia.
Qed.

Section RoundTrip.
Context `{UnicodeTables, InstallText}.

Lemma plain_no_newline s : str_forallb (in_range 32 126) s = true → no_char newline s = true.
Proof. apply str_forallb_impl; intros a; each_ascii a; vm_compute; done. Qed.
Lemma plain_ascii s : str_forallb (in_range 32 126) s = true → is_ascii s = true.
Proof. apply str_forallb_impl; intros a; each_ascii a; vm_compute; done. Qed.
Lemma go_quote_plain s : is_ascii s = true → str_forallb (in_range 32 126) (go_quote s) = true.
Proof. intros Hs; unfold go_quote; rewrite Hs; cbn [str_forallb]; by rewrite str_forallb_append, quote_bytes_plain. Qed.
Lemma Unquote_quote s : is_ascii s = true → Unquote (go_quote s) = Some s.
Proof.
  intros Hs; unfold Unquote; rewrite plain_ascii by (by apply go_quote_plain); unfold go_quote; rewrite Hs; cbn [negb].
  change (Ascii.eqb dquote back_quote) with false; change (Ascii.eqb dquote dquote) with true; cbn [orb].
  rewrite unquote_bytes; [done|done|]; rewrite length_append; simpl; pose proof (quote_bytes_long s); lia.
Qed.
Lemma quote_trimmed s : is_ascii s = true → trimmed (go_quote s) = true.
Proof.
  intros Hs; unfold go_quote; rewrite Hs; eapply (trimmed_ends _ dquote _ dquote); [reflexivity|done| |done].
  change (String dquote ?x) with (String.append (String dquote "") x); by rewrite !srev_append.
Qed.
Lemma parse_quoted s : is_ascii s = true → parseManagedEnvValue (go_quote s) = s.
Proof.
  intros Hs; unfold parseManagedEnvValue; rewrite (trim_space_trimmed _ (quote_trimmed s Hs)); cbv zeta.
  rewrite Unquote_quote by done; unfold go_quote; by rewrite Hs.
Qed.

(** ** The environment file *)

Definition is_key (k : string) : bool := str_forallb (λ a, in_range 65 90 a || Ascii.eqb a "_") k && negb (blank k).
Lemma key_shape k : is_key k = true → (∃ a t, k = String a t ∧ graphic a = true ∧ a ≠ "#"%char) ∧ no_char "=" k = true
  ∧ str_forallb graphic k = true ∧ no_char newline k = true.
Proof.
  unfold is_key; intros [Hk Hb]%andb_true_iff; split_and!.
  - destruct k as [|a t]; [done|]; exists a, t; split; [done|]; simpl in Hk; apply andb_true_iff in Hk as [Ha _].
    revert Ha; each_ascii a; vm_compute; done.
  - revert Hk; apply str_forallb_impl; intros a; each_ascii a; vm_compute; done.
  - revert Hk; apply str_forallb_impl; intros a; each_ascii a; vm_compute; done.
  - revert Hk; apply str_forallb_impl; intros a; each_ascii a; vm_compute; done.
Qed.
Lemma line_value k v : is_key k = true → is_ascii v = true → env_line_value (env_line (k, v)) = Some (k, v).
Proof.
  intros Hk Hv; destruct (key_shape k Hk) as ((a & t & Ht & Ha & Hh) & He & Hg & _); unfold env_line_value, env_line; cbn [fst snd].
  assert (trim_space (String.append k (String "=" (go_quote v))) = String.append k (String "=" (go_quote v))) as ->.
  { apply trim_space_trimmed; eapply (trimmed_ends _ a _ dquote); [by rewrite Ht|done| |done].
    unfold go_quote; rewrite Hv; change (String "=" ?x) with (String.append (String "=" "") x).
    change (String dquote (String.append ?x ?y)) with (String.append (String dquote "") (String.append x y)); by rewrite !srev_append. }
  assert (blank (String.append k (String "=" (go_quote v))) = false) as -> by (by rewrite Ht).
  assert (has_prefix "#" (String.append k (String "=" (go_quote v))) = false) as ->.
  { rewrite Ht; apply not_true_is_false; intros [u Hu]%has_prefix_spec; by injection Hu. }
  rewrite (cut_append "=" _ _ He); cbn [orb]; by rewrite (trim_space_graphic _ Hg), parse_quoted.
Qed.
Definition env_map (kvs : list (string * string)) : gmap string string := foldl (λ m kv, <[kv.1 := kv.2]> m) ∅ kvs.
Definition env_ok (kv : string * string) : Prop :=
  is_key kv.1 = true ∧ is_ascii kv.2 = true ∧ (String.length (env_line kv) < MaxScanTokenSize)%nat.
Lemma parse_lines kvs m : Forall env_ok kvs →
  parse_env_lines m (map env_line kvs ++ [""])%list = Ok (foldl (λ m kv, <[kv.1 := kv.2]> m) m kvs).
Proof.
  revert m; induction kvs as [|[k v] kvs IH]; intros m Hall; [done|]; apply Forall_cons in Hall as [(Hk & Hv & Hl) Hall].
  cbn [map app parse_env_lines foldl]; assert ((MaxScanTokenSize <=? String.length (env_line (k, v)))%nat = false) as -> by (by apply Nat.leb_gt).
  by rewrite line_value, IH.
Qed.
Lemma env_keys p : Forall (λ kv, is_key kv.1 = true) (env_values p).
Proof. unfold env_values; rewrite !Forall_app; repeat case_match; split_and!; repeat constructor. Qed.
Lemma env_file_read p : Forall (λ kv, is_ascii kv.2 = true ∧ (String.length (env_line kv) < MaxScanTokenSize)%nat) (env_values p) →
  parseManagedEnvFile (RenderEnvFile p) = Ok (env_map (env_values p)).
Proof.
  intros Hl; assert (Forall env_ok (env_values p)) as Hok.
  { pose proof (env_keys p) as Hk; rewrite Forall_forall in Hk, Hl |- *; intros kv Hin; split; [by apply Hk|by apply Hl]. }
  unfold parseManagedEnvFile, RenderEnvFile; transitivity (parse_env_lines ∅ (map env_line (env_values p) ++ [""])%list);
    [f_equal|by apply parse_lines].
  assert (∀ l, l ≠ [] → Forall (λ s, no_char newline s = true) l → split newline (String.append (join (String newline "") l) (String newline ""))
    = (l ++ [""])%list) as Hs.
  { intros l Hn Hall; assert (String.append (join (String newline "") l) (String newline "") = join (String newline "") (l ++ [""])) as ->.
    { clear Hall; induction l as [|x [|y l] IH]; [done|done|]; change (join ?s (x :: y :: l)) with (String.append x (String.append s (join s (y :: l)))).
      change (join ?s ((x :: y :: l) ++ [""])) with (String.append x (String.append s (join s ((y :: l) ++ [""])))).
      by rewrite <- IH, !append_assoc. }
    apply split_join; [by destruct l|]; apply Forall_app; split; [done|by repeat constructor]. }
  apply Hs; [done|]; apply Forall_forall; intros s ([k v] & -> & Hin)%list_elem_of_fmap; rewrite Forall_forall in Hok.
  destruct (Hok _ Hin) as (Hk & Hv & _); unfold env_line; cbn [fst snd] in *; destruct (key_shape k Hk) as (_ & _ & _ & Hn).
  unfold no_char in *; rewrite str_forallb_append, Hn; cbn [str_forallb]; by apply plain_no_newline, go_quote_plain.
Qed.

(** ** The plan *)

Lemma env_lookups p : bp_TLSCertFile p = "" ↔ bp_TLSKeyFile p = "" → Forall (λ s, trim_space s = s) (optional_texts p) →
  let env k := default "" (env_map (env_values p) !! k) in
  env "REGISTRY_AUTH_POSTGRES_DSN" = bp_AuthPostgresDSN p ∧ env "REGISTRY_TLS_CERT_FILE" = bp_TLSCertFile p
  ∧ env "REGISTRY_TLS_KEY_FILE" = bp_TLSKeyFile p
  ∧ env "REGISTRY_DELETE_ENABLED" = (if bp_DeleteEnabled p then "true" else "")
  ∧ env "REGISTRY_GC_DELETE_ENABLED" = (if bp_GCDeleteEnabled p then "true" else "")
  ∧ Forall (λ k, env k = "") ["REGISTRY_TRIVY_CACHE_DIR"; "REGISTRY_TRIVY_ENABLED"; "REGISTRY_TRIVY_SCHEDULE_ENABLED";
      "REGISTRY_TRIVY_INTERVAL"; "REGISTRY_TRIVY_TIMEOUT"; "REGISTRY_TRIVY_BINARY_PATH"; "REGISTRY_TRIVY_MAX_CONCURRENCY"].
Proof.
  intros Htls Hopt; unfold optional_texts in Hopt; rewrite !Forall_cons in Hopt; destruct Hopt as (Hc & Hk & Hd & _); cbv zeta.
  unfold env_values; rewrite Hc, Hk, Hd; unfold blank; destruct (String.eqb_spec (bp_AuthPostgresDSN p) "") as [Ed|Ed];
    destruct (String.eqb_spec (bp_TLSCertFile p) "") as [Ec|Ec]; destruct (String.eqb_spec (bp_TLSKeyFile p) "") as [Ek|Ek]; try tauto;
    destruct (bp_DeleteEnabled p), (bp_GCDeleteEnabled p); rewrite ?Ed, ?Ec, ?Ek; repeat split;
    first [vm_compute; reflexivity|repeat (apply Forall_cons_2; [vm_compute; reflexivity|]); apply Forall_nil_2].
Qed.

(** What setup and upgrade record of a plan. *)
Definition recorded (p : BootstrapPlan) (ref version path : string) (paths : list string) : LifecycleProvenance :=
  let n := lifecycleProvenanceFromPlan p (bootstrapReceiptFromPlan p) in
  mkProvenance (lp_Version n) (lp_Mode n) (lp_InstalledBin n) ref version (lp_ServiceName n) path paths (lp_Intent n).
Lemma first_text s l : trim_space s = s ∧ s ≠ "" → firstNonBlank (s :: l) = s.
Proof. intros [Ht Hn]; unfold firstNonBlank; cbn [map]; rewrite Ht; by rewrite filter_cons_True. Qed.
Lemma first_skip l : firstNonBlank ("" :: l) = firstNonBlank l.
Proof. done. Qed.
Lemma first_same s l : trim_space s = s → Forall (λ x, x = "") l → firstNonBlank (s :: s :: l) = s.
Proof.
  intros Ht Hl; destruct (decide (s = "")) as [->|Hn]; [|by apply first_text]; rewrite !first_skip.
  induction Hl as [|x l -> _ IH]; [done|]; by rewrite first_skip.
Qed.
Lemma flag_kept b : firstNonBlankBool b (if b then "true" else "") = b.
Proof. by destruct b. Qed.
Lemma not_blank s : trim_space s = s ∧ s ≠ "" → blank s = false.
Proof. intros [_ Hn]; by apply String.eqb_neq. Qed.
Lemma not_blank_trimmed s : trim_space s = s ∧ s ≠ "" → blank (trim_space s) = false.
Proof. intros [Ht Hn]; rewrite Ht; by apply not_blank. Qed.
Lemma intent_normal p : well_formed p → normalizeLifecycleIntent (lp_Intent (recorded p "" "" "" [])) = lp_Intent (recorded p "" "" "" []).
Proof.
  intros [Hr Ho _ _]; unfold required_texts in Hr; unfold optional_texts in Ho; rewrite !Forall_cons in Hr; rewrite !Forall_cons in Ho.
  destruct Hr as (H1 & H2 & H3 & H4 & H5 & H6 & H7 & H8 & H9 & H10 & H11 & H12 & _), Ho as (O1 & O2 & O3 & _).
  unfold normalizeLifecycleIntent, recorded, lifecycleProvenanceFromPlan; cbn -[trim_space].
  by rewrite (proj1 H2), (proj1 H3), (proj1 H4), O1, O2, O3, (proj1 H5), (proj1 H6), (proj1 H7), (proj1 H8), (proj1 H9), (proj1 H10),
    (proj1 H11), (proj1 H12).
Qed.

(** What is recorded, normalized, and the environment give the plan back. *)
Lemma intent_read p ref version path paths n : well_formed p →
  normalizeLifecycleProvenance (recorded p ref version path paths) = Ok n →
  ∃ i, loadInstalledIntent n (env_map (env_values p)) = Ok i ∧ buildPlanFromInstalledIntent i = without_trivy p
    ∧ ii_InstalledRef i = trim_space ref ∧ ii_InstalledVersion i = trim_space version.
Proof.
  intros Hwf Hn; pose proof (intent_normal p Hwf) as Hi; destruct Hwf as [Hr Ho Htls _].
  destruct (env_lookups p Htls Ho) as (Ed & Ec & Ek & Edel & Egc & Etr); rewrite !Forall_cons in Etr.
  destruct Etr as (T1 & T2 & T3 & T4 & T5 & T6 & T7 & _).
  unfold required_texts in Hr; unfold optional_texts in Ho; rewrite !Forall_cons in Hr; rewrite !Forall_cons in Ho.
  destruct Hr as (R1 & R2 & R3 & R4 & R5 & R6 & R7 & R8 & R9 & R10 & R11 & R12 & _), Ho as (O1 & O2 & O3 & _).
  assert (lp_Mode n = bp_Mode p ∧ lp_InstalledBin n = bp_BinaryPath p ∧ lp_ServiceName n = bp_ServiceName p
    ∧ lp_InstalledRef n = trim_space ref ∧ lp_InstalledVersion n = trim_space version
    ∧ lp_Intent n = lp_Intent (recorded p "" "" "" [])) as (N1 & N2 & N3 & N4 & N5 & N6).
  { unfold normalizeLifecycleProvenance, required in Hn; cbv zeta in Hn; change (lp_Version (recorded p ref version path paths)) with 2 in Hn.
    cbn [Z.eqb Pos.eqb negb andb lifecycleProvenanceVersion] in Hn; do 3 (destruct (blank _) in Hn; [done|]); injection Hn as <-; cbn [lp_Mode lp_InstalledBin
      lp_ServiceName lp_InstalledRef lp_InstalledVersion lp_Intent recorded lifecycleProvenanceFromPlan] in *.
    rewrite (proj1 R1), (proj1 R11), (proj1 R12); split_and!; done. }
  unfold loadInstalledIntent, intentEnvPath; rewrite N1, N2, N3, N4, N5, N6; cbv zeta beta.
  cbn [recorded lifecycleProvenanceFromPlan lp_Intent li_Addr li_PublicURL li_RuntimeTLSMode li_TLSCertFile li_TLSKeyFile
    li_AuthPostgresDSN li_StorageRoot li_DatabasePath li_ContentPath li_BootstrapStatePath li_EnvPath li_UnitPath li_BinaryPath
    li_ServiceName li_TrivyEnabled li_TrivyScheduleEnabled li_TrivyInterval li_TrivyTimeout li_TrivyCacheDir li_TrivyBinaryPath
    li_TrivyMaxConcurrency li_DeleteEnabled li_GCDeleteEnabled].
  repeat match goal with |- context [firstNonBlank (?s :: ?l)] => rewrite (first_text s l) by assumption end.
  repeat match goal with |- context [blank ?s] => rewrite (not_blank s) by assumption end; cbn [andb negb].
  rewrite Ed, Ec, Ek, Edel, Egc, T1, T2, T3, T4, T5, T6, T7, !flag_kept, !first_same by (done || by constructor).
  rewrite !trim_space_idem; cbn [rbind]; unfold missingIntentFields; cbn [List.filter map fst snd ii_BinaryPath ii_ServiceName
    ii_StorageRoot ii_DatabasePath ii_EnvPath ii_UnitPath ii_BootstrapStatePath ii_Addr ii_PublicURL].
  repeat match goal with |- context [blank (trim_space ?s)] => rewrite (not_blank_trimmed s) by assumption end.
  eexists; split; [reflexivity|]; split; [reflexivity|done].
Qed.
End RoundTrip.
