(* ===== verification/InstallSafety.v ===== *)
(** A host on which regixtry 0.2.0 is installed, and a release server that has 0.3.0.
    The witnesses of the theorems about the installer run there.

    The theorems about the installer for Linux hosts: an upgrade that fails loses
    nothing, one that succeeds installs a verified release, and what is removed is
    what setup recorded. *)
From stdpp Require Import gmap strings.
From S2P Require Import Prelude GoStrings Encodings Errors GoNumbers PgExample RegPorts RegWorld Registry RegExample.
From S2P Require Import PolicyPorts PolicyStore PolicyLaws FullLaws Overrides Scans PullExample Release Host.
From S2P Require Import Runtimes InstallPlan Install InstallLaws UpgradeLaws UpgradeRun UninstallLaws.
From S2P Require Import InstallRoundTrip.

(** * Definitions *)

Definition text_lines (l : list string) : string := String.append (join (String newline "") l) (String newline "").
Definition archive_name : string := "regixtry_0.3.0_linux_amd64.tar.gz".
Definition archive_sums : string :=
  Eval vm_compute in foldr String.append "" [hex_encode (sha256 (bytes_of "regixtry 0.3.0")); "  "; archive_name].

(** What is installed, by its plan. *)
Definition installed_plan : BootstrapPlan :=
  mkPlan "daemon-sqlite" ":5000" "http://localhost:5000" "local-http" "" "" "" "/var/lib/regixtry" "/var/lib/regixtry/metadata.db"
    "/var/lib/regixtry/content" "/etc/regixtry/bootstrap-state.json" "/etc/regixtry/regixtry.env"
    "/etc/systemd/system/regixtry.service" "/usr/local/bin/regixtry" "regixtry" false false (24 * hour) (15 * minute)
    "/var/lib/regixtry/trivy-cache" "trivy" 1 true false.
Definition provenance_file : string := "/etc/regixtry/regixtry-lifecycle-state.json".
Definition installed_version (version : string) : LifecycleProvenance :=
  let n := lifecycleProvenanceFromPlan installed_plan (bootstrapReceiptFromPlan installed_plan) in
  mkProvenance (lp_Version n) (lp_Mode n) (lp_InstalledBin n) (String.append "v" version) version (lp_ServiceName n)
    provenance_file (lp_ManagedPaths n) (lp_Intent n).

(** The documents of this host are written as one line of text. *)
#[global] Instance install_text : InstallText := {|
  parse_url _ := inl (mkPublicURL "http" "localhost:5000" "" "" "");
  render_url _ := "http://localhost:5000";
  encode_receipt r := String.append "receipt of " (br_ServiceName r);
  decode_receipt _ := inl (bootstrapReceiptFromPlan installed_plan);
  encode_provenance p := String.append "regixtry " (lp_InstalledVersion p);
  decode_provenance body := inl (installed_version (trim_space (drop_str 9 body)));
  unicode_unquote _ := None;
|}.

Definition release_answers (url : string) : string :=
  if String.eqb url "https://dl/archive" then "regixtry 0.3.0" else if String.eqb url "https://dl/regixtry_checksums.txt" then archive_sums
  else "release".
Definition release_0_3 : string * list (string * string) :=
  ("v0.3.0", [(archive_name, "https://dl/archive"); ("regixtry_checksums.txt", "https://dl/regixtry_checksums.txt")]).
#[global] Instance install_host_env : HostEnv := {|
  henv_cwd := [];
  henv_fault _ := None;
  henv_partial _ := O;
  henv_removed _ _ := false;
  henv_now n := 1700000000 * second + Z.of_nat n * second;
  henv_temp _ _ := "1";
  henv_url _ := Ok tt;
  henv_get _ url := Ok (200, release_answers url);
  henv_releases _ := inl [];
  henv_release _ := inl release_0_3;
  henv_run _ _ _ _ := (Ok "", None);
|}.
#[global] Instance install_host_laws : HostLaws.
Proof. by split. Qed.
#[global] Instance install_archives : Archives := {| untar archive := ([("regixtry", true, archive)], None) |}.
(** After the thousandth call the service does not answer for a while, after the two
    thousandth call nothing can be stopped. *)
#[global] Instance install_env : InstallEnv := {|
  ienv_goos := "linux";
  ienv_goarch := "amd64";
  ienv_tmp := "/tmp";
  ienv_releases_url := "https://api/releases";
  ienv_executable _ := Ok "/usr/local/bin/regixtry";
  ienv_command n _ _ := if (2000 <=? n)%nat then Some "exit status 1" else None;
  ienv_probe n _ _ := if (1000 <=? n)%nat && (n <? 1100)%nat then Err (OtherError "connection refused") else Ok 200;
  ienv_listen n _ := if (1000 <=? n)%nat then Some (true, "address already in use") else None;
  ienv_elapsed _ k := Z.of_nat k * (200 * millisecond);
  ienv_cancelled _ := None;
  ienv_open_store _ _ := None;
  ienv_store_file _ s := if has_suffix "-wal" s || has_suffix "-shm" s then None else Some (Some "rows, migrated");
|}.

Definition host_dirs : list (list string) :=
  [["usr"]; ["usr"; "local"]; ["usr"; "local"; "bin"]; ["etc"]; ["etc"; "regixtry"]; ["etc"; "systemd"]; ["etc"; "systemd"; "system"];
   ["var"]; ["var"; "lib"]; ["var"; "lib"; "regixtry"]; ["var"; "lib"; "regixtry"; "content"]; ["run"]; ["run"; "systemd"];
   ["run"; "systemd"; "system"]; ["tmp"]].
Definition host_contents : list (list string * string) :=
  [(["usr"; "local"; "bin"; "regixtry"], "regixtry 0.2.0");
   (["etc"; "regixtry"; "regixtry.env"], RenderEnvFile installed_plan);
   (["etc"; "systemd"; "system"; "regixtry.service"], RenderSystemdUnit installed_plan);
   (["etc"; "regixtry"; "bootstrap-state.json"], String.append "receipt of regixtry" (String newline ""));
   (["etc"; "regixtry"; "regixtry-lifecycle-state.json"], String.append "regixtry 0.2.0" (String newline ""));
   (["var"; "lib"; "regixtry"; "metadata.db"], "rows");
   (["etc"; "os-release"], text_lines ["ID=debian"; "VERSION_ID=12"])].
Definition host_disk : gmap (list string) node :=
  foldr (λ p fs, <[p := Dir]> fs) (foldr (λ f fs, <[f.1 := File f.2 0]> fs) ∅ host_contents) host_dirs.
Definition host_at (calls : nat) : Host := mkHost host_disk ∅ [] calls.
Definition upgrade_config : UpgradeConfig := mkUpgradeConfig "" "" false None None.
Definition setup_config : BootstrapConfig :=
  mkBootstrapConfig "daemon-sqlite" "http://localhost:5000" "" "" "" "" "/var/lib/regixtry" "/etc/regixtry/bootstrap-state.json"
    "/etc/systemd/system/regixtry.service" ":5000" "regixtry" "" false false 0 0 "" "" 0 true false false.
Notation example_server := unsigned_world (only parsing).


(** Whether no name in [dir] starts with [prefix]. *)
Definition fresh_in (dir : list string) (prefix : string) (fs : gmap (list string) node) : bool :=
  forallb (λ e : list string * node, negb (bool_decide (take (length dir) e.1 = dir)
                                           && match drop (length dir) e.1 with name :: _ => has_prefix prefix name | [] => false end))
    (map_to_list fs).

(** * Lemmas *)

Lemma fresh_vacant h dir prefix x : ho_links h = ∅ → fresh_in dir prefix (ho_files h) = true →
  vacant h (dir ++ [String.append prefix x]).
Proof.
  intros Hl Hf; split_and!; [by destruct dir|intros q _; by rewrite Hl|].
  intros q [k ->]; rewrite Hl; split; [|done]; destruct (ho_files h !! _) as [n|] eqn:Hn; [exfalso|done].
  unfold fresh_in in Hf; rewrite forallb_forall in Hf; apply elem_of_map_to_list in Hn; specialize (Hf _ (proj1 (list_elem_of_In _ _) Hn)).
  cbn [fst] in Hf; rewrite <- app_assoc, take_app_length, drop_app_length in Hf; simpl in Hf.
  rewrite bool_decide_eq_true_2, (proj2 (has_prefix_spec _ _)) in Hf by (done || by eexists); done.
Qed.
Lemma apart_database calls s :
  (to_path s ∉ managed_files installed_plan provenance_file) ∧ take 3 (to_path s) ≠ ["usr"; "local"; "bin"] ∧ head (to_path s) ≠ Some "tmp" →
  unlinked (host_at calls) (to_path s) ∧ to_path s ∉ managed_files installed_plan provenance_file
  ∧ ∀ x q, no_char "/" x = true → q ∈ temp_names installed_plan x → ¬ q `prefix_of` to_path s.
Proof.
  intros (Hm & Hb & Ht); split; [by intros q _|split; [done|]]; intros x q _ Hq [k Hk].
  unfold temp_names in Hq; assert (temp_dir installed_plan = ["usr"; "local"; "bin"]) as Hd by (vm_compute; reflexivity).
  assert (to_path ienv_tmp = ["tmp"]) as Htmp by (vm_compute; reflexivity); rewrite Hd, Htmp in Hq.
  repeat (apply elem_of_cons in Hq as [->|Hq]; [rewrite Hk in Hb, Ht; first [by apply Hb|by apply Ht]|]); by apply not_elem_of_nil in Hq.
Qed.
Lemma host_installed calls : installed (host_at calls) installed_plan provenance_file.
Proof.
  split.
  - intros q Hq; repeat (apply elem_of_cons in Hq as [->|Hq]; [split; [done|by do 2 eexists]|]); by apply not_elem_of_nil in Hq.
  - intros q _ r _; reflexivity.
  - apply (bool_decide_eq_true_1 _); vm_compute; reflexivity.
  - reflexivity.
  - intros x _; split; (apply fresh_vacant; [done|vm_compute; reflexivity]).
  - intros x _; apply fresh_vacant; [done|vm_compute; reflexivity].
  - done.
  - intros s Hs; repeat (apply elem_of_cons in Hs as [->|Hs]; [apply apart_database; apply (bool_decide_eq_true_1 _); vm_compute; reflexivity|]).
    by apply not_elem_of_nil in Hs.
Qed.
Lemma release_named arch (g : Host) asset g' : NormalizeArch ienv_goarch = Ok arch →
  Resolve (NewGitHubClient ienv_releases_url) "" "linux" arch g = (Ok asset, g') → plainly_named asset.
Proof.
  intros [= <-] Hr; assert (asset = mkAsset "v0.3.0" "0.3.0" archive_name "https://dl/archive" "https://dl/regixtry_checksums.txt") as ->.
  { vm_compute in Hr; by injection Hr. }
  unfold plainly_named, segment_ok; split_and!; try (vm_compute; reflexivity); vm_compute; discriminate.
Qed.

(** * Theorems *)

Section Upgrades.
Context {W : Type} `{InstallText, HostEnv, InstallEnv, Archives, PolicyLaws W, !HostLaws}.

(** C18: An upgrade that fails loses nothing, on a host on which an installation is in
    place, from a server whose releases name their files without a path. Before it
    looks at releases, an upgrade of an installation with legacy settings of the
    scanner opens its database: that may change the files of the database (which are
    created, migrated and filled in then), and only them, and at most it stores those
    settings, where the tables had none. From then on an upgrade that reports an
    error has left the disk and the service alone, or has changed no file but the
    five of the installation; and then every file that was there is there again with
    the bytes it had, the old binary under its old name, and the service was not stopped, or the command to stop
    it failed, which is what the error says and is not undone, or it was started again
    last - unless the error itself reports that what had been copied could not be
    restored. *)
Theorem failed_upgrade_loses_nothing cfg w h e w' h' :
  let path := provenance_path cfg in reg_wf w →
  (∀ p, upgrade_plan h path = Some p → installed h p path) →
  (∀ arch (g : Host) asset g', NormalizeArch ienv_goarch = Ok arch →
     Resolve (NewGitHubClient ienv_releases_url) (uc_Ref cfg) "linux" arch g = (Ok asset, g') → plainly_named asset) →
  Bootstrapper_Upgrade cfg (w, h) = (Err e, (w', h')) →
  ∃ g, touched (upgrade_database h path) h g ∧ import_done h path false w w' ∧
  ((disk h' = disk g ∧ ho_ran h' = ho_ran h)
   ∨ ∃ p, upgrade_plan h path = Some p ∧ kept g (λ q, q ∈ managed_files p path) h'
       ∧ (intact g h' ∧ service_runs p h e h' ∨ restoration_failed g p path e)).
Proof.
  intros path Hw Hin Hnames Hu; apply upgrade_cases in Hu as (g & T & Hi & Hu); [|done..]; exists g; split; [exact T|split; [exact Hi|]].
  destruct Hu as [(Hd & Hr & _)|(p & arch & g0 & asset & g' & h1 & r1 & Hp & Hip & Ha & Hres & Hd & Hr & Hrel & Hc)];
    [by left|right; exists p; split; [done|]].
  destruct r1 as [u|e1]; [by destruct Hc as (? & ? & _)|]; injection Hc as ->.
  apply (release_err g p path Hip (provenance_path_trimmed cfg)) in Hrel as [K Hs].
  - split; [done|]; unfold service_runs in *; by rewrite <- Hr.
  - by eapply Hnames.
  - eapply kept_disk; [exact Hd|apply kept_refl].
Qed.

(** C19: An upgrade that succeeds installs the release it resolved, under the same
    conditions. Before that, it has opened the database if the installation has
    legacy settings of the scanner: only the files of the database may have changed
    then, and the settings are stored exactly where the tables had none. If the release is in place,
    nothing else changes and no command is run. Otherwise the binary is the only file
    of an archive that the release server sent and that has the SHA-256 sum of the
    server's list; the environment file, the service unit and the receipt are those of
    the plan the installation was read as, the recorded provenance has the tag and the
    version of the release; no other file has changed; and the service was stopped,
    the units were read again and the service was started, in this order. *)
Theorem upgrade_installs_the_release cfg w h result w' h' :
  let path := provenance_path cfg in reg_wf w →
  (∀ p, upgrade_plan h path = Some p → installed h p path) →
  (∀ arch (g : Host) asset g', NormalizeArch ienv_goarch = Ok arch →
     Resolve (NewGitHubClient ienv_releases_url) (uc_Ref cfg) "linux" arch g = (Ok asset, g') → plainly_named asset) →
  Bootstrapper_Upgrade cfg (w, h) = (Ok result, (w', h')) →
  ∃ g, touched (upgrade_database h path) h g ∧ import_done h path true w w' ∧
  if ug_UpToDate result then disk h' = disk g ∧ ho_ran h' = ho_ran h
  else ∃ p arch (g0 : Host) asset g' binary, upgrade_plan h path = Some p
    ∧ Resolve (NewGitHubClient ienv_releases_url) (uc_Ref cfg) "linux" arch g0 = (Ok asset, g')
    ∧ ug_TargetRef result = as_Tag asset ∧ ug_ToVersion result = as_Version asset
    ∧ released asset binary ∧ holds h' (bp_BinaryPath p) binary
    ∧ settled_files p path asset h'
    ∧ kept g (λ q, q ∈ managed_files p path) h'
    ∧ ho_ran h' = (ho_ran h ++ [stop_command p; reload_command; start_command p])%list.
Proof.
  intros path Hw Hin Hnames Hu; apply upgrade_cases in Hu as (g & T & Hi & Hu); [|done..]; exists g; split; [exact T|split; [exact Hi|]].
  destruct Hu as [(Hd & Hr & Hup)|(p & arch & g0 & asset & g' & h1 & r1 & Hp & Hip & Ha & Hres & Hd & Hr & Hrel & Hc)];
    [by rewrite (Hup result eq_refl)|].
  destruct r1 as [u|e1]; [|done]; destruct Hc as (result' & [= <-] & Hver & Htag & _ & ->).
  apply (release_ok g p path Hip (provenance_path_trimmed cfg)) in Hrel as (K & (binary & Hsent & Hb) & Hset & Hran).
  - exists p, arch, g0, asset, g', binary; rewrite <- Hr; do 5 (split; [done|]); by split_and!.
  - by eapply Hnames.
  - eapply kept_disk; [exact Hd|apply kept_refl].
Qed.
End Upgrades.

Section Configurations.
Context `{UnicodeTables, InstallText}.

(** C20: An upgrade keeps the configuration. The environment file of a plan and the
    provenance recorded of it, by setup or by an earlier upgrade, are read back as
    the same plan, but for the settings of the scanner, which are not recorded; so
    the environment file, the service unit and the receipt an upgrade writes are
    those that were there, byte for byte. *)
Theorem upgrade_keeps_the_configuration p ref version path paths n :
  well_formed p → normalizeLifecycleProvenance (recorded p ref version path paths) = Ok n →
  ∃ env i, parseManagedEnvFile (RenderEnvFile p) = Ok env ∧ loadInstalledIntent n env = Ok i
    ∧ ii_InstalledRef i = trim_space ref ∧ ii_InstalledVersion i = trim_space version
    ∧ buildPlanFromInstalledIntent i = without_trivy p
    ∧ RenderEnvFile (buildPlanFromInstalledIntent i) = RenderEnvFile p
    ∧ RenderSystemdUnit (buildPlanFromInstalledIntent i) = RenderSystemdUnit p
    ∧ bootstrapReceiptFromPlan (buildPlanFromInstalledIntent i) = bootstrapReceiptFromPlan p.
Proof.
  intros Hwf Hn; destruct (intent_read p ref version path paths n Hwf Hn) as (i & Hi & Hp & Hr & Hv).
  exists (env_map (env_values p)), i; rewrite Hp; split; [by apply env_file_read; destruct Hwf|by split_and!].
Qed.
End Configurations.

Section Removals.
Context `{UnicodeTables, InstallText, HostEnv, InstallEnv, !HostLaws}.

(** C21: An uninstall removes what setup recorded, and says what it did. The service
    is stopped; the targets are the recorded paths, the record itself and the binary;
    nothing but the targets - and the two companions of a database - is touched; the
    report has one entry for every target, and where it says [removed] or [missing]
    nothing is left there or below. There is no error exactly if the service was
    stopped and no entry says [failed]; an entry that fails does not keep the
    others from being removed. *)
Theorem uninstall_removes_what_was_installed provenancePath h p h1 :
  let targets := uninstallCleanupTargets p in
  blank (trim_space provenancePath) = false → readLifecycleProvenance (trim_space provenancePath) h = (Ok p, h1) →
  closed (ho_files h) → (∀ s, s ∈ removed_with targets → plain h s) →
  (∀ s, s ∈ targets ↔ s ≠ "" ∧ (s = trim_space (lp_InstalledBin p) ∨ ∃ q, q ∈ lp_ManagedPaths p ++ [lp_StatePath p] ∧ trim_space q = s))
  ∧ ∃ report err h', Bootstrapper_Uninstall provenancePath h = (Ok (report, err), h')
    ∧ pruned (removed_with targets) h h'
    ∧ ho_ran h' = (ho_ran h ++ [("systemctl", ["disable"; "--now"; ci_Path (ur_Service report)])])%list
    ∧ map ci_Path (ur_Items report) = targets
    ∧ (∀ item, item ∈ ur_Items report → ci_Status item = CleanupStatusFailed
         ∨ (ci_Status item = CleanupStatusRemoved ∨ ci_Status item = CleanupStatusMissing)
           ∧ ∀ s, s ∈ sqliteCleanupPaths (ci_Path item) → gone h' s)
    ∧ (err = None ↔ ci_Status (ur_Service report) = CleanupStatusRemoved
                    ∧ ∀ item, item ∈ ur_Items report → ci_Status item ≠ CleanupStatusFailed).
Proof.
  intros targets Hb Hr Hc Hp; split; [apply targets_all|].
  assert (disk h1 = disk h ∧ ho_ran h1 = ho_ran h) as [Hd1 Hr1].
  { pose proof (keeps_disk_provenance (trim_space provenancePath) h) as Hd; pose proof (keeps_ran_provenance (trim_space provenancePath) h) as Hx.
    by rewrite Hr in Hd, Hx. }
  unfold Bootstrapper_Uninstall; cbv zeta; rewrite Hb; unfold sbind at 1; rewrite Hr.
  destruct (uninstall_ok p h1) as (report & err & h' & Hu & P & Hran & Hm & Hall & He).
  - by injection Hd1 as -> _.
  - intros s Hs; eapply plain_pruned; [by apply Hp|by apply (pruned_disk [])].
  - exists report, err, h'; split; [exact Hu|]; rewrite <- Hr1; split; [|by split_and!].
    eapply (pruned_trans []); [set_solver|by apply pruned_disk|exact P].
Qed.
End Removals.

Section Setups.
Context `{UnicodeTables, InstallText, HostEnv, InstallEnv, !HostLaws}.

(** C22: A setup whose service does not start is taken back. When setup fails, either
    the service was never touched, or the last thing it was told is to stop; then
    everything the receipt names is gone, database and companions included, or the
    error reports what could not be done. No file other than what the receipt names
    has changed, whenever it fails. *)
Theorem failed_setup_is_taken_back cfg h e h' :
  (∀ binary p s, plan_with binary cfg = Ok p → s ∈ places p → plain h s) →
  Bootstrapper_Run cfg h = (Err e, h') →
  (∀ q c t, ho_files h !! q = Some (File c t) → (∀ binary p, plan_with binary cfg = Ok p → ¬ below (places p) q) →
     ho_files h' !! q = Some (File c t))
  ∧ (ho_ran h' = ho_ran h
     ∨ ∃ binary p l, plan_with binary cfg = Ok p ∧ ho_ran h' = (ho_ran h ++ l ++ [stop_command p])%list
       ∧ ((∀ s, s ∈ removed_with (br_Paths (bootstrapReceiptFromPlan p)) → gone h' s)
          ∨ ∃ g e1 e2, rollbackWithReceipt (bootstrapReceiptFromPlan p) g = (Err e2, h') ∧ errors_Join [e1; e2] = Some e)).
Proof.
  intros Hp Hr; apply setup_err in Hr as [[Hran Hd]|(binary & p & g & l & e1 & r & Hpl & K & Hran & Hb & He)]; [| |done].
  { split; [|by left]; intros q c t Hq Hn; destruct Hd as [[= -> _]|(binary & p & Hpl & K)]; [done|].
    apply (kp_files _ _ _ K); [by eapply Hn|done]. }
  pose proof Hb as Ht; apply taken_back in Ht as (P & R & Hg).
  - split.
    + intros q c t Hq Hn; specialize (Hn binary p Hpl); destruct (pr_files _ _ _ P q) as [->|(_ & s & Hs & Hx)].
      * by apply (kp_files _ _ _ K).
      * exfalso; apply Hn; exists s; split; [apply elem_of_app; by right|done].
    + right; exists binary, p, l; rewrite R, Hran, <- app_assoc; split; [done|split; [done|]].
      destruct r as [[]|e2]; [left; by apply Hg|right; by exists g, e1, e2].
  - intros s Hs; destruct (Hp binary p s Hpl) as [Hn Hu]; [apply elem_of_app; by right|]; split; [done|].
    intros q Hq; rewrite (kp_links _ _ _ K); by apply Hu.
Qed.

(** C23: Waiting for the service ends. As every look at the service comes a fifth of a
    second after the one before, setup and upgrade look at most 27 times before the
    five seconds are over: more fuel would change nothing, at most 54 calls are made,
    and waiting succeeds only if the service answered one of them with 200 or 401. *)
Theorem waiting_ends p h :
  (∀ start k, Z.of_nat k * probeInterval ≤ ienv_elapsed start k) →
  (∀ target extra, readinessProbeURL p = Ok target →
     poll (max_polls + extra) 0 (ho_calls h) target.1 target.2 h = waitUntilReachable p h)
  ∧ (ho_calls (waitUntilReachable p h).2 ≤ ho_calls h + 54)%nat
  ∧ ((waitUntilReachable p h).1 = Ok tt → ∃ n target status, readinessProbeURL p = Ok target
       ∧ (ho_calls h ≤ n < ho_calls (waitUntilReachable p h).2)%nat
       ∧ ienv_probe n target.1 target.2 = Ok status ∧ (status = 200 ∨ status = 401)).
Proof.
  intros Hel; unfold waitUntilReachable, sbind, slift; destruct (readinessProbeURL p) as [target|e] eqn:Ht.
  - split; [intros target' extra [= <-]; apply poll_enough; [intros k; apply Hel|unfold max_polls; lia]|split].
    + etrans; [apply poll_calls|unfold max_polls; lia].
    + intros Hok; destruct (poll_up max_polls 0 (ho_calls h) target.1 target.2 h Hok) as (n & status & Hn & ? & ?); by exists n, target, status.
  - split; [done|split; [simpl; lia|done]].
Qed.
End Setups.

(** * Witnesses *)

Lemma plan_read calls p : upgrade_plan (host_at calls) provenance_file = Some p → p = installed_plan.
Proof. vm_compute; congruence. Qed.
Lemma not_opened calls g : touched (upgrade_database (host_at calls) provenance_file) (host_at calls) g → kept (host_at calls) (λ _, False) g.
Proof.
  assert (upgrade_database (host_at calls) provenance_file = []) as -> by (vm_compute; reflexivity); intros [Hl _ Hf].
  by split; [exact Hl|intros q c t _; rewrite Hf by apply not_elem_of_nil|intros q; rewrite Hf by apply not_elem_of_nil].
Qed.
Notation upgrade_at calls := (Bootstrapper_Upgrade upgrade_config (example_server, host_at calls)) (only parsing).
Lemma failed_upgrade_loses_nothing_witness :
  (∃ e, (upgrade_at 1000).1 = Err e) ∧ (upgrade_at 1000).2.2 ≠ host_at 1000 ∧ ∃ p,
    kept (host_at 1000) (λ q, q ∈ managed_files p provenance_file) (upgrade_at 1000).2.2.
Proof.
  assert (∃ e, (upgrade_at 1000).1 = Err e) as [e He] by (eexists; vm_compute; reflexivity).
  split; [by exists e|split; [intros Hx; apply (f_equal ho_calls) in Hx; vm_compute in Hx; discriminate|]].
  apply outcome_pair in He; destruct (upgrade_at 1000).2 as [w' h'] eqn:Hs; cbn [snd].
  destruct (failed_upgrade_loses_nothing upgrade_config example_server (host_at 1000) e w' h') as (g & T & _ & Hg).
  - apply (policed_good push_requests).
  - intros p Hp; rewrite (plan_read _ _ Hp); apply host_installed.
  - intros arch g asset g'; apply release_named.
  - by rewrite He.
  - apply not_opened in T; destruct Hg as [[Hd _]|(p & _ & Hk & _)]; [exists installed_plan|exists p].
    + apply (kept_disk _ _ g); [exact Hd|]; apply (kept_weaken _ (λ _, False)); [intros q []|exact T].
    + apply (kept_trans _ g (λ _, False)); [exact T|intros q []|exact Hk].
Defined.
Lemma upgrade_installs_the_release_witness :
  (∃ r, (upgrade_at 0).1 = Ok r ∧ ug_UpToDate r = false) ∧ ∃ binary,
    holds (upgrade_at 0).2.2 "/usr/local/bin/regixtry" binary
    ∧ ho_ran (upgrade_at 0).2.2 = [stop_command installed_plan; reload_command; start_command installed_plan].
Proof.
  assert (∃ r, (upgrade_at 0).1 = Ok r ∧ ug_UpToDate r = false) as (r & Hr & Hup) by (eexists; vm_compute; split; reflexivity).
  split; [exists r; split; [exact Hr|exact Hup]|]; apply outcome_pair in Hr; destruct (upgrade_at 0).2 as [w' h'] eqn:Hs; cbn [snd].
  pose proof (upgrade_installs_the_release upgrade_config example_server (host_at 0) r w' h') as Ht; cbv zeta in Ht; rewrite Hup in Ht.
  destruct Ht as (g & _ & _ & p & arch & g0 & asset & g' & binary & Hp & _ & _ & _ & _ & Hb & _ & _ & Hran).
  - apply (policed_good push_requests).
  - intros p Hp; rewrite (plan_read _ _ Hp); apply host_installed.
  - intros arch g asset g'; apply release_named.
  - by rewrite Hr.
  - apply plan_read in Hp; subst p; exists binary; split; [exact Hb|exact Hran].
Defined.
Lemma upgrade_keeps_the_configuration_witness : ∃ env i,
  parseManagedEnvFile (RenderEnvFile installed_plan) = Ok env ∧ loadInstalledIntent (installed_version "0.2.0") env = Ok i
  ∧ RenderSystemdUnit (buildPlanFromInstalledIntent i) = RenderSystemdUnit installed_plan.
Proof.
  destruct (upgrade_keeps_the_configuration installed_plan "v0.2.0" "0.2.0" provenance_file
    (br_Paths (bootstrapReceiptFromPlan installed_plan)) (installed_version "0.2.0")) as (env & i & Henv & Hi & _ & _ & _ & _ & Hu & _).
  - split.
    + repeat (apply Forall_cons_2; [split; [vm_compute; reflexivity|discriminate]|]); apply Forall_nil_2.
    + repeat (apply Forall_cons_2; [vm_compute; reflexivity|]); apply Forall_nil_2.
    + split; intros _; reflexivity.
    + apply (bool_decide_eq_true_1 _); vm_compute; reflexivity.
  - vm_compute; reflexivity.
  - exists env, i; split; [exact Henv|split; [exact Hi|exact Hu]].
Defined.
Notation uninstall_at calls := (Bootstrapper_Uninstall provenance_file (host_at calls)) (only parsing).
Lemma no_links calls s : to_path s ≠ [] → plain (host_at calls) s.
Proof. intros Hn; split; [exact Hn|]; intros q _; reflexivity. Qed.
Lemma uninstall_removes_what_was_installed_witness :
  ∃ report err, (uninstall_at 0).1 = Ok (report, err) ∧ map ci_Path (ur_Items report) = uninstallCleanupTargets (installed_version "0.2.0")
    ∧ (err = None ↔ ci_Status (ur_Service report) = CleanupStatusRemoved
                    ∧ ∀ item, item ∈ ur_Items report → ci_Status item ≠ CleanupStatusFailed).
Proof.
  assert ((readLifecycleProvenance (trim_space provenance_file) (host_at 0)).1 = Ok (installed_version "0.2.0")) as Hr
    by (vm_compute; reflexivity).
  apply outcome_pair in Hr.
  destruct (uninstall_removes_what_was_installed provenance_file (host_at 0) _ _ eq_refl Hr) as (_ & report & err & h' & Hu & _ & _ & Hm & _ & He).
  - apply closed_checked; vm_compute; reflexivity.
  - intros s Hs; apply no_links; revert s Hs; apply Forall_forall; apply (bool_decide_eq_true_1 _); vm_compute; reflexivity.
  - exists report, err; rewrite Hu; split; [reflexivity|split; [exact Hm|exact He]].
Defined.

Notation setup_at calls := (Bootstrapper_Run setup_config (host_at calls)) (only parsing).
Lemma setup_places binary p : plan_with binary setup_config = Ok p → Forall (λ s, to_path s ≠ []) (places p).
Proof.
  unfold plan_with; destruct (containsWhitespace binary); [done|]; intros Hp; vm_compute in Hp; injection Hp as <-.
  apply (bool_decide_eq_true_1 _); vm_compute; reflexivity.
Qed.
Lemma setup_apart binary p : plan_with binary setup_config = Ok p →
  Forall (λ s, ¬ to_path s `prefix_of` ["usr"; "local"; "bin"; "regixtry"]) (places p).
Proof.
  unfold plan_with; destruct (containsWhitespace binary); [done|]; intros Hp; vm_compute in Hp; injection Hp as <-.
  apply (bool_decide_eq_true_1 _); vm_compute; reflexivity.
Qed.
Lemma failed_setup_is_taken_back_witness :
  (∃ e, (setup_at 1000).1 = Err e) ∧ ho_files (setup_at 1000).2 !! ["usr"; "local"; "bin"; "regixtry"] = Some (File "regixtry 0.2.0" 0).
Proof.
  assert (∃ e, (setup_at 1000).1 = Err e) as [e He] by (eexists; vm_compute; reflexivity).
  split; [exists e; exact He|]; apply outcome_pair in He; destruct (setup_at 1000).2 as [fs ls ran calls] eqn:Hs; clear Hs.
  destruct (failed_setup_is_taken_back setup_config (host_at 1000) e (mkHost fs ls ran calls)) as [Hkept _].
  - intros binary p s Hp Hs; apply no_links; pose proof (setup_places binary p Hp) as Hall; rewrite Forall_forall in Hall; apply (Hall s Hs).
  - exact He.
  - apply Hkept; [vm_compute; reflexivity|]; intros binary p Hp (s & Hs & Hx).
    pose proof (setup_apart binary p Hp) as Hall; rewrite Forall_forall in Hall; exact (Hall s Hs Hx).
Defined.

Lemma waiting_ends_witness : (ho_calls (waitUntilReachable installed_plan (host_at 1000)).2 ≤ 1054)%nat
  ∧ ho_calls (waitUntilReachable installed_plan (host_at 1000)).2 = 1053%nat.
Proof.
  split; [|vm_compute; reflexivity]; apply (waiting_ends installed_plan (host_at 1000)); intros start k; apply Z.le_refl.
Defined.

(** * What the model shows *)

Definition busy_config : BootstrapConfig :=
  mkBootstrapConfig "daemon-sqlite" "http://localhost:5000" "" "" "" "" "/var/lib/regixtry" "/etc/regixtry/bootstrap-state.json"
    "/etc/systemd/system/regixtry.service" "127.0.0.1:5000" "regixtry" "" false false 0 0 "" "" 0 true false false.
Definition database : list string := ["var"; "lib"; "regixtry"; "metadata.db"].
(** A second setup finds its address in use by the first, after it has emptied the
    database of the first; nothing is started or stopped. *)
Lemma setup_empties_a_live_database :
  ho_files (host_at 1000) !! database = Some (File "rows" 0)
  ∧ is_ok (setup_host busy_config (host_at 1000)).1 = false
  ∧ ho_ran (setup_host busy_config (host_at 1000)).2 = []
  ∧ ∃ t, ho_files (setup_host busy_config (host_at 1000)).2 !! database = Some (File "" t).
Proof. split; [|split; [|split; [|eexists]]]; vm_compute; reflexivity. Qed.
(** A second setup whose service does not start removes the database and the blobs of
    the first. *)
Lemma setup_removes_an_installation :
  ho_files (host_at 1000) !! database = Some (File "rows" 0)
  ∧ is_ok (setup_host setup_config (host_at 1000)).1 = false
  ∧ ho_files (setup_host setup_config (host_at 1000)).2 !! database = None
  ∧ ho_files (setup_host setup_config (host_at 1000)).2 !! ["var"; "lib"; "regixtry"; "content"] = None.
Proof. split_and!; vm_compute; reflexivity. Qed.
(** When the command that stops the service fails, the service is not started again. *)
Lemma failed_stop_is_not_undone :
  is_ok (upgrade_at 2000).1 = false ∧ ho_ran (upgrade_at 2000).2.2 = [stop_command installed_plan].
Proof. split; vm_compute; reflexivity. Qed.
(** An upgrade of an installation with legacy settings of the scanner opens the
    database, and stores the settings there, before it finds out that there is
    nothing to install. *)
Definition legacy_host : Host :=
  mkHost (<[["etc"; "regixtry"; "regixtry.env"] :=
              File (String.append (RenderEnvFile installed_plan) (text_lines ["REGISTRY_TRIVY_ENABLED=true"])) 0]>
          (<[["etc"; "regixtry"; "regixtry-lifecycle-state.json"] := File (String.append "regixtry 0.3.0" (String newline "")) 0]> host_disk))
    ∅ [] 0.
Lemma upgrade_opens_the_database_first :
  let run := Bootstrapper_Upgrade upgrade_config (example_server, legacy_host) in
  upgrade_database legacy_host provenance_file = database_files "/var/lib/regixtry/metadata.db"
  ∧ (∃ u, run.1 = Ok u ∧ ug_UpToDate u = true)
  ∧ ho_files legacy_host !! database = Some (File "rows" 0)
  ∧ (∃ t, ho_files run.2.2 !! database = Some (File "rows, migrated" t))
  ∧ is_ok (q_scan_settings DefaultTenant "trivy" (pol_view example_server)) = false
  ∧ (∃ settings, q_scan_settings DefaultTenant "trivy" (pol_view run.2.1) = Ok settings ∧ ss_Enabled settings = true)
  ∧ ho_ran run.2.2 = [].
Proof. split_and!; try (vm_compute; reflexivity); eexists; vm_compute; repeat split; reflexivity. Qed.
